(* ===== verification/_CoqProject ===== *)
-Q . S2P
Prelude.v
GoBase.v
Sharding.v
OrderNumberGen.v
Effects.v
Xid.v
Sql.v
Redis.v
RushRecord.v
RushStore.v
RushGet.v
RushSpec.v
RushRefine.v
RushRun.v
RushDemo.v
Base64.v
PurchaseToken.v
FreezeToken.v
PayService.v
ProgramDB.v
RefundRule.v
SeatAssign.v
RedisZ.v
SeatDB.v
SeatStore.v
SeatLedger.v
SeatDemo.v
SeatFreeze.v
SeatFreezeDemo.v
SeatLocks.v
OrderDB.v
OrderRepo.v
OrderPaging.v
OrderFlow.v
OrderCreate.v
OrderLife.v
ProgramService.v
OrderAnswers.v
OrderQuery.v
OrderEvents.v
OrderConsume.v
OrderHandlers.v
OrderTopic.v
OrderLiveness.v
DelayTask.v
OrderOutbox.v
OrderClosing.v
ProgramCache.v
ProgramAdmin.v
ProgramRules.v
ProgramDemo.v
Preheat.v
PreheatDemo.v
ProgramQuery.v
RushOpening.v
SaleDemo.v
UserDB.v
UserService.v
UserAccounts.v
Gateway.v
UserApi.v
OrderPerf.v
OrderApi.v
PayApi.v
ProgramApi.v
McpTools.v
CacheSubscriber.v
SubscriberDemo.v
TokenBuyers.v
UserDemo.v
OrderDemo.v
OrderClosingDemo.v
OrderTopicDemo.v
TokenDemo.v
OrderApiDemo.v
PayApiDemo.v
ProgramApiDemo.v
SeatByProgram.v
