(* ===== verification/Prelude.v ===== *)
(** * livepass: a verification development of the ticketing services

    livepass sells tickets: a user gets a purchase token for a show, is admitted to
    the sale by Redis, an order is written by a consumer, its seats are frozen,
    then it is paid, cancelled, closed when its time is over, or refunded.  Four Go
    services take part, each with its own storage: order-rpc, program-rpc, pay-rpc
    and user-rpc, behind HTTP front services.

    ** How the program is modelled

    Go's errors are values of [Effects.err].  A handler is a function of [Effects.M],
    a state and error monad, over the state of its service and an environment
    [env]: the faults of the calls that leave the process, the readings of the clock
    and the identifiers the generator hands out.  Every statement, command and
    remote call draws one fault: none, a failure before the peer acted, a failure
    after it did.  A theorem that quantifies over the environment therefore holds
    for every crash and every lost answer; a crash is a schedule in which all later
    calls fail.  A transaction ([transact]) is rolled back when its body fails, and
    its commit can fail before or after it took effect.  Integers are Z with
    [wrap64] where the code can overflow, instants are nanoseconds in Z, and what
    goes through float64 goes through [GoBase.f64].

    ** Files

    - [Prelude], [GoBase], [Effects], [Sql]: results, tactics; int64, float64, decimal
      printing and parsing, time; errors, the monad, faults, transactions; what MySQL
      does with datetimes, widths and batches.
    - [Sharding], [OrderNumberGen] (order-rpc/sharding, order_number_generator.go):
      the logic slot of a user, the bits of an order number, the route table; the
      generator's critical section and its interleavings.
    - [Redis], [RushRecord], [RushStore], [RushSpec], [RushRefine], [RushRun],
      [RushDemo] (order-rpc/internal/rush with its Lua scripts): a class of Redis
      hashes with laws, the records, every script and store method, the abstract
      ledger of a sale, the simulation, the guarantees of reachable states, and
      runs at which they end.
    - [Base64], [PurchaseToken] (purchase_token.go), [FreezeToken] (pkg/seatfreeze).
    - [PayService] (pay-rpc): its two tables and three handlers.
    - [ProgramDB] (program-rpc/internal/model): programs, shows, groups, categories and
      ticket categories, with the rows the cached models keep in Redis.
    - [RefundRule] (program-rpc: refund_rule.go, evaluate_refund_rule_logic.go).
    - [SeatAssign], [RedisZ], [SeatDB], [SeatStore], [SeatLedger], [SeatDemo],
      [SeatFreeze], [SeatFreezeDemo] (program-rpc: seat_assignment.go, seatcache with
      its Lua scripts, d_seat_model.go, the freeze handlers): the choice of seats,
      sorted sets, the seat table, the Redis ledger and its refinement of a map from
      seats to places, and the four handlers over database and Redis.  [SeatLocks]
      (seat_freeze_keyed_locker.go): the locks they take, one per key in use.
    - [OrderDB] (order-rpc/internal/model), [OrderRepo] (order-rpc/repository): the
      tables of one database as lists of rows with their unique keys and column
      limits, each statement, the transaction object, the sharded repository.
      [OrderPaging]: its paging loops return what one query would, and end.
    - [OrderFlow] (order_domain_helper.go and the cancel, pay, check, refund, close
      and preview handlers): over the class [ProgramRpc], the pay service and the rush
      store.  [OrderCreate] (the event, its rows, the transaction that writes them).
    - [OrderLife]: the transactions as a step relation over all databases, and its
      invariants, for every interleaving of handlers.
    - [ProgramService]: the class [ProgramRpcLaws], what the order service relies on,
      and its instance by the handlers of [SeatFreeze].  [OrderAnswers]: what an
      answer of a handler means in all three services, against that class.
    - [OrderDemo]: one order from its event to its refund; witnesses.
    - [OrderQuery] (the read handlers, order_progress_projection.go), [OrderEvents]
      (create_purchase_token_logic.go, create_order_logic.go, its asynchronous sender,
      order_create_event_builder.go, prime_rush_runtime_logic.go), [OrderConsume]
      (create_order_consumer_logic.go with its processing lease): the handlers around
      the life of an order, over a topic of messages and the number generator.
    - [OrderHandlers]: what the handlers and the consumer do to the order tables is a
      run of transactions.  [OrderLiveness]: an expired order gets closed.
    - [DelayTask] (pkg/delaytask, the outbox store and dispatcher of both jobs), over
      a class of queues with the laws asynq documents; [OrderOutbox], [OrderClosing],
      [OrderClosingDemo] (jobs/order-close): from the row an order leaves in the
      outbox to the worker that closes the order.
    - [ProgramCache] (program-rpc/internal/programcache): the detail view, the messages
      that invalidate it, the caches of an instance.  [ProgramAdmin]: the handlers that
      write the catalogue.  [ProgramRules]: what every sequence of them keeps.
      [ProgramDemo]: instances and witnesses.
    - [ProgramQuery]: the readers of the catalogue (pages, home, categories, preorder,
      seat map).  [RushOpening]: the catalogue answers the calls of
      prime_rush_runtime_logic.go, and the rush store opens with its free seats.
      [SaleDemo]: witnesses.  [SeatByProgram]: the statements of d_seat_model.go and
      d_ticket_category_model.go by program and by token, against those by show.
    - [Preheat] (jobs/rush-inventory-preheat): the worker of the task the catalogue
      schedules, over the classes [PreheatPayload] (the JSON of a task) and
      [OrderPreheat] (order-rpc as the worker sees it).  [PreheatDemo]: witnesses.
    - [UserDB] (user-rpc/internal/model), [UserService] (user-rpc/internal/logic,
      pkg/xjwt): users, their mappings by number and email, ticket users; statements run
      one by one, each may fail.  [UserAccounts]: what every sequence of requests keeps,
      what a login means and how often it may fail.
    - [Gateway] (gateway-api/internal/middleware, pkg/xmiddleware): CORS, authentication
      and the identity headers the gateway signs and the services verify.  [UserApi]
      (user-api): the front of user-rpc, acting for the user of the request's context.
    - [TokenBuyers]: user-rpc behind the [UserRpc] of order-rpc.  [UserDemo], [TokenDemo]:
      instances, witnesses and the runs that show the flaws of user-rpc.
    - [Xid] (pkg/xid): the number of a process's snowflake node and its generator, over
      the class [Snowflake].  [RushGet] (attempt_store.go, Get): the scan for an attempt
      whose show is not known, over the class [RedisScan].
    - [OrderTopic], [OrderTopicDemo] (order-rpc/internal/mq, its consumer runner): the
      topic of order events, its producer and the worker that reads it, over the classes
      [KafkaAdmin], [KafkaWriter] and [OrderReader].  [OrderPerf]
      (perf_create_order_logic.go, create_order_perf.go): CreateOrder, measured.
    - [OrderApi] (order-api), [ProgramApi] (program-api), [PayApi] (pay-api): the HTTP
      fronts, which call their service over the network.  [OrderApiDemo],
      [ProgramApiDemo], [PayApiDemo]: witnesses, and what the open routes allow.
    - [McpTools] (order-rpc/mcp, program-rpc/mcp): the tools of the agents.
      [CacheSubscriber], [SubscriberDemo] (invalidation_pubsub.go): the goroutine that
      hands the channel to the caches, over the class [PubSub].

    ** What the theorems show

    - Identity: numbers round-trip, are routed like their user, and are unique as
      long as a waiting call is not overtaken, with the overtaking shown.
    - Sale: no ticket is sold twice, no user or viewer holds two attempts, attempts
      follow their state machine, the Redis scripts refine an abstract ledger.
    - Seats: no seat is in two places, the Lua freeze is assignSeats, rows follow
      their states, an answer of the freeze is in the table.
    - Money: one bill and one refund per order, refunds bounded, rules functional.
    - Orders: one active order per user and show, the status only moves along
      unpaid, cancelled or paid, refunded; guards belong to active orders; what an
      accepted payment, cancellation or refund has done in the order tables, the pay
      service and the program service; the close task closes only what has expired.
    - Handlers: whatever fails, they do nothing to the order tables but the
      transactions of the life cycle; a message writes at most one order, the one it
      names; stored rows have the dates of their status and lie where they are routed; an expired order is closed when the database
      works, whatever its peers answer.  No unpaid order is
      forgotten: its task stays in the outbox until it is closed, the dispatcher
      enqueues it, and its delivery leaves the order not unpaid.
    - Catalogue: the sale of a program opens before its shows, unless a program is
      invalidated from an old cached row; an
      accepted program is stored as asked; after an invalidation every instance answers
      the view the tables have; what the interface creates can not be sold.
    - Opening a sale: the worker marks a program preheated only after everything is
      loaded; priming is one step of the abstract rush store, its quotas are the free
      seats of the seat table, and from then on no category is admitted beyond them.
      The pages of the catalogue put together are the list they page.
    - Users: accounts stay apart whatever fails; a login proves the password and signs
      for its user; guesses are bounded by the limit; who registers can log in.  The
      services know a user only from the gateway, a request of user-api acts on its own
      user only as long as the user's number and email are mapped to no one else, and a purchase token is issued for that user's own ticket users.
    - Events: within a generation of the group the worker hands the messages of a
      partition to [Consume] in order, each once, and commits the accepted ones; one that
      is refused is lost with the next commit.  Measuring a creation changes
      nothing of it.  The caches of an instance are as the messages it was sent leave
      them, and it misses none while it is connected.
    - Fronts: a request of order-api reads and changes its own user's orders only, but for
      the two routes without the middleware; a program written through program-api is
      shown as it was asked for, once nothing older is cached.  pay-api keeps
      the ledger of pay-rpc, but lets anyone pay 1 for an order, or refund it and leave
      it paid.
    - Locks and identifiers: at most one goroutine of a process holds the lock of a key;
      processes set apart never issue the same identifier.

    ** Parameters and bounds

    Code that is not in the repository is a parameter with its documented laws:
    Redis hashes and sorted sets ([RedisHash], [RedisZ], with in-memory instances
    that discharge the laws), HMAC-SHA256 and JSON in [PurchaseToken], JSON and sort.Slice
    in [RulePrims], time.ParseInLocation and Time.Format
    in [LocalTime] and [LocalFormat], JSON of a group and of an invalidation in
    [GroupJson] and [InvalidationCodec], what MySQL does with a JSON column, a collation
    and a datetime literal in [ColumnPrims], asynq in [TaskQueue], golang-jwt in [Jwt], MD5
    and net/mail in [UserPrims], the collation of the user tables in [Collation].  The paging loops have one
    round of fuel per row of the table they read, which [OrderPaging] proves to be
    enough; the other loops are structural.

    ** Not modelled

    Logs, metrics, configuration and wiring; the decoding of HTTP requests and the
    routing, which are go-zero's; statements of the generated models that nothing calls;
    the copies of the detail mappers in program_domain_helper.go; Python agents.  Identifiers are an input of the handlers ([xids] of [Effects.env]);
    [Xid] is where they come from.  Handlers
    of one service are run one after the other in [OrderAnswers]; their interleaving
    is covered at the level of transactions in [OrderLife] and of scripts in
    [RushRun] and [SeatLedger].
    Of the processing lease only the renewals before each look at [lost] count: how
    many there are is an argument of [Consume].  A call of [Next] made by a handler is
    not overtaken while it waits (its three rounds of fuel are then enough, by
    [wait_turn_terminates]); what overtaking does is [OrderNumberGen]'s subject.
    A handler of user-rpc has no transaction, so its statements are steps of their own
    in a run with faults; two handlers do not interleave in [UserAccounts].
    Of the topic, the loop of one worker is modelled; what the rest of its group does is a
    drift of what it sees ([OrderTopic.drifts]).  The
    durations the measured creation logs are readings of a stopwatch, arguments of it.
    The etcd lock of repeatguard is built but no handler takes it.
*)
From stdpp Require Import base gmap sets list strings.
From Stdlib Require Import ZArith Lia.

#[global] Open Scope Z_scope.

(** ** Results: Go's [(value, error)] pairs *)

(** A fallible Go call: [Ok v] is [(v, nil)], [Err e] is [(zero, e)]. *)
Inductive result (E A : Type) : Type :=
  | Ok (a : A)
  | Err (e : E).
Arguments Ok {E A} _.
Arguments Err {E A} _.

#[global] Instance result_ret {E} : MRet (result E) := fun A a => Ok a.
#[global] Instance result_bind {E} : MBind (result E) := fun A B f m =>
  match m with Ok a => f a | Err e => Err e end.
#[global] Instance result_fmap {E} : FMap (result E) := fun A B f m =>
  match m with Ok a => Ok (f a) | Err e => Err e end.

#[global] Instance result_eq_dec {E A} `{EqDecision E, EqDecision A} :
  EqDecision (result E A).
Proof. solve_decision. Defined.

Definition is_ok {E A} (r : result E A) : bool :=
  match r with Ok _ => true | Err _ => false end.

Definition of_option {E A} (e : E) (o : option A) : result E A :=
  match o with Some a => Ok a | None => Err e end.

Lemma result_bind_ok {E A B} (m : result E A) (f : A -> result E B) b :
  m ≫= f = Ok b <-> exists a, m = Ok a /\ f a = Ok b.
Proof.
  destruct m as [a|e]; cbn; split; [by exists a|by intros (? & [= ->] & ?)|done|by intros (? & ? & ?)].
Qed.

Lemma of_option_ok {E A} (e : E) (o : option A) a :
  of_option e o = Ok a <-> o = Some a.
Proof. destruct o; cbn; split; congruence. Qed.

(** ** Automation *)

(** Splits the booleans and comparisons the handlers branch on. *)
Ltac destr_if :=
  match goal with
  | |- context [if ?b then _ else _] => destruct b eqn:?
  | H : context [if ?b then _ else _] |- _ => destruct b eqn:?
  end.

Ltac destr_match :=
  match goal with
  | |- context [match ?x with _ => _ end] => destruct x eqn:?
  | H : context [match ?x with _ => _ end] |- _ => destruct x eqn:?
  end.

(** Turns boolean tests into propositions over [Z] and strings. *)
Ltac bool_norm :=
  repeat match goal with
  | H : (_ && _)%bool = true |- _ => apply andb_true_iff in H as [? ?]
  | H : (_ || _)%bool = false |- _ => apply orb_false_iff in H as [? ?]
  | H : negb _ = true |- _ => apply negb_true_iff in H
  | H : negb _ = false |- _ => apply negb_false_iff in H
  | H : (_ =? _)%Z = true |- _ => apply Z.eqb_eq in H
  | H : (_ =? _)%Z = false |- _ => apply Z.eqb_neq in H
  | H : (_ <? _)%Z = true |- _ => apply Z.ltb_lt in H
  | H : (_ <? _)%Z = false |- _ => apply Z.ltb_ge in H
  | H : (_ <=? _)%Z = true |- _ => apply Z.leb_le in H
  | H : (_ <=? _)%Z = false |- _ => apply Z.leb_gt in H
  | H : bool_decide _ = true |- _ => apply bool_decide_eq_true in H
  | H : bool_decide _ = false |- _ => apply bool_decide_eq_false in H
  end.

(** ** Lists *)

(** Sums of integers over a list, used by every conservation law. *)
Definition sumZ {A} (f : A -> Z) (l : list A) : Z :=
  foldr (fun a acc => f a + acc) 0 l.

Lemma sumZ_app {A} (f : A -> Z) l1 l2 : sumZ f (l1 ++ l2) = sumZ f l1 + sumZ f l2.
Proof. unfold sumZ; induction l1 as [|a l1 IH]; cbn; lia. Qed.

Lemma sumZ_nonneg {A} (f : A -> Z) l : (forall a, a ∈ l -> 0 <= f a) -> 0 <= sumZ f l.
Proof.
  induction l as [|a l IH]; cbn; intros H; [lia|].
  pose proof (H a (list_elem_of_here _ _)).
  assert (0 <= sumZ f l) by (apply IH; intros b Hb; apply H; by constructor).
  unfold sumZ in *; lia.
Qed.

Lemma sumZ_perm {A} (f : A -> Z) l1 l2 : l1 ≡ₚ l2 -> sumZ f l1 = sumZ f l2.
Proof. unfold sumZ; induction 1; cbn; lia. Qed.

Lemma sumZ_ext {A} (f g : A -> Z) l : (forall a, a ∈ l -> f a = g a) -> sumZ f l = sumZ g l.
Proof.
  unfold sumZ; induction l as [|a l IH]; cbn; intros H; [done|].
  rewrite H by constructor. rewrite IH; [done|]. intros b Hb; apply H; by constructor.
Qed.

(** Keys stay distinct in the rows a query keeps. *)
Lemma NoDup_map_filter {A B} (f : A -> B) (P : A -> Prop) `{forall x, Decision (P x)} l :
  NoDup (map f l) -> NoDup (map f (filter P l)).
Proof.
  induction l as [|a l IH]; [done|]. rewrite filter_cons. cbn [map]. intros [Hn Hl]%NoDup_cons.
  destruct (decide (P a)); cbn [map]; [|auto]. constructor; [|auto].
  intros (b & E & Hb)%list_elem_of_fmap. apply Hn, list_elem_of_fmap. exists b.
  split; [done|]. by apply list_elem_of_filter in Hb as [_ ?].
Qed.

(** Two rows with one key are the same row. *)
Lemma NoDup_map_inj {A B} (f : A -> B) l x y :
  NoDup (map f l) -> x ∈ l -> y ∈ l -> f x = f y -> x = y.
Proof.
  induction l as [|a l IH]; cbn; [by intros _ ?%not_elem_of_nil|]. intros [Hn Hl]%NoDup_cons.
  intros [->|Hx]%elem_of_cons [->|Hy]%elem_of_cons E; try done; [| |by apply IH];
    exfalso; apply Hn, list_elem_of_fmap; eauto.
Qed.

Lemma existsb_elem {A} (f : A -> bool) l : existsb f l = true <-> exists x, x ∈ l /\ f x = true.
Proof.
  rewrite existsb_exists. split; intros (x & ? & ?); exists x; split; try done; by apply list_elem_of_In.
Qed.

Lemma find_elem {A} (f : A -> bool) l x : find f l = Some x -> x ∈ l /\ f x = true.
Proof. intros E. apply find_some in E as [Hin Hf]. split; [by apply list_elem_of_In|done]. Qed.
Lemma find_none_elem {A} (f : A -> bool) l x : find f l = None -> x ∈ l -> f x = false.
Proof.
  induction l as [|a l IH]; cbn; [by intros _ ?%not_elem_of_nil|].
  destruct (f a) eqn:E; [done|]. by intros ? [->|?]%elem_of_cons; [|apply IH].
Qed.

(** Sum over a finite map, with the update equations the ledgers need. *)
Definition msum `{Countable K} {A} (f : K -> A -> Z) (m : gmap K A) : Z :=
  sumZ (fun p => f p.1 p.2) (map_to_list m).

Lemma msum_empty `{Countable K} {A} (f : K -> A -> Z) : msum f ∅ = 0.
Proof. unfold msum. by rewrite map_to_list_empty. Qed.

Lemma msum_insert_new `{Countable K} {A} (f : K -> A -> Z) m k a :
  m !! k = None -> msum f (<[k:=a]> m) = f k a + msum f m.
Proof.
  intros Hk. unfold msum.
  rewrite (sumZ_perm _ _ _ (map_to_list_insert m k a Hk)). done.
Qed.

Lemma msum_delete `{Countable K} {A} (f : K -> A -> Z) m k a :
  m !! k = Some a -> msum f (delete k m) = msum f m - f k a.
Proof.
  intros Hk. rewrite <- (insert_delete_id m k a Hk) at 2.
  rewrite msum_insert_new by apply lookup_delete_eq. lia.
Qed.

Lemma msum_insert `{Countable K} {A} (f : K -> A -> Z) m k a b :
  m !! k = Some b -> msum f (<[k:=a]> m) = msum f m - f k b + f k a.
Proof.
  intros Hk. rewrite <- insert_delete_eq.
  rewrite msum_insert_new by apply lookup_delete_eq.
  rewrite (msum_delete f m k b Hk). lia.
Qed.

Lemma msum_nonneg `{Countable K} {A} (f : K -> A -> Z) m :
  (forall k a, m !! k = Some a -> 0 <= f k a) -> 0 <= msum f m.
Proof.
  intros H1. apply sumZ_nonneg. intros [k a] Hin.
  apply elem_of_map_to_list in Hin. by apply H1.
Qed.

(** ** Options *)

Lemma option_bind_some {A B} (o : option A) (f : A -> option B) b :
  o ≫= f = Some b <-> exists a, o = Some a /\ f a = Some b.
Proof.
  destruct o as [a|]; cbn; split; [by exists a|by intros (? & [= ->] & ?)|done|by intros (? & ? & ?)].
Qed.

(** The hint base the components' unconditional equations go to. *)
Create HintDb livepass.
#[export] Hint Resolve sumZ_nonneg msum_nonneg : livepass.
