(* ===== verification/GoBase.v ===== *)
(** * The Go values the services compute with

    Fixed-width integers with their wrap-around, the decimal conversions of
    [strconv] and [fmt], the string functions of [strings], and [time.Time]
    as a number of nanoseconds.  No file of the program is modelled here:
    the definitions are the language's and its standard library's. *)
From Stdlib Require Import ZArith Lia Ascii String.
From stdpp Require Import base gmap sets list strings.
From S2P Require Import Prelude.
Open Scope string_scope.
Open Scope list_scope.
Open Scope Z_scope.

(** ** Fixed-width integers *)

Definition wrap64 (z : Z) : Z := (z + 2 ^ 63) mod 2 ^ 64 - 2 ^ 63.
Definition u64 (z : Z) : Z := z mod 2 ^ 64.
Definition u8 (z : Z) : Z := z mod 2 ^ 8.
Definition min_int64 : Z := - 2 ^ 63.
Definition max_int64 : Z := 2 ^ 63 - 1.

Definition in_int64 (z : Z) : bool := (min_int64 <=? z) && (z <=? max_int64).

Lemma wrap64_id z : in_int64 z = true -> wrap64 z = z.
Proof.
  unfold in_int64, wrap64, min_int64, max_int64. intros H. bool_norm.
  rewrite Z.mod_small; lia.
Qed.

Lemma wrap64_range z : in_int64 (wrap64 z) = true.
Proof.
  unfold in_int64, wrap64, min_int64, max_int64.
  pose proof (Z.mod_pos_bound (z + 2 ^ 63) (2 ^ 64)).
  apply andb_true_iff; split; apply Z.leb_le; lia.
Qed.

(** ** Strings *)

#[global] Arguments String.append !_ _ / : simpl nomatch.

Lemma sapp_assoc (a b c : string) : (a +:+ b) +:+ c = a +:+ (b +:+ c).
Proof. induction a as [|? a IH]; cbn; [done|]. by rewrite IH. Qed.

Lemma sapp_nil_r (a : string) : a +:+ "" = a.
Proof. induction a as [|? a IH]; cbn; [done|]. by rewrite IH. Qed.

Lemma sapp_inj_l (a b c : string) : a +:+ b = a +:+ c -> b = c.
Proof. induction a; cbn; [done|]. intros [=]; auto. Qed.

(** All characters of [s] satisfy [p]. *)
Fixpoint sall (p : ascii -> bool) (s : string) : bool :=
  match s with
  | EmptyString => true
  | String c s' => p c && sall p s'
  end.

Lemma sall_app p a b : sall p (a +:+ b) = sall p a && sall p b.
Proof. induction a; cbn; [done|]. rewrite IHa. by rewrite andb_assoc. Qed.

(** A separator that does not occur in the fields delimits them. *)
Lemma sep_inj p c (a b x y : string) :
  sall p a = true -> sall p b = true -> p c = false ->
  a +:+ String c x = b +:+ String c y -> a = b /\ x = y.
Proof.
  revert b. induction a as [|ca a IH]; intros [|cb b] Ha Hb Hc; cbn in *; intros [=].
  - done.
  - subst. bool_norm. congruence.
  - subst. bool_norm. congruence.
  - subst. bool_norm. destruct (IH b) as [-> ->]; auto.
Qed.

(** [strings.Split(s, sep)] for a one-character separator. *)
Fixpoint split_on (sep : ascii) (s : string) : list string :=
  match s with
  | EmptyString => [""]
  | String c s' =>
      if decide (c = sep) then "" :: split_on sep s'
      else match split_on sep s' with
           | [] => [String c ""]
           | x :: xs => String c x :: xs
           end
  end.

(** [strings.Join(parts, sep)]. *)
Fixpoint join (sep : string) (parts : list string) : string :=
  match parts with
  | [] => ""
  | [x] => x
  | x :: xs => x +:+ sep +:+ join sep xs
  end.

Lemma split_on_nosep sep s :
  sall (fun c => negb (bool_decide (c = sep))) s = true -> split_on sep s = [s].
Proof.
  induction s as [|c s IH]; cbn; [done|]. intros H. bool_norm.
  destruct (decide (c = sep)); [done|]. by rewrite IH.
Qed.

Lemma split_on_app sep x s :
  sall (fun c => negb (bool_decide (c = sep))) x = true ->
  split_on sep (x +:+ String sep s) = x :: split_on sep s.
Proof.
  induction x as [|c x IH]; cbn; intros H.
  - by rewrite decide_True.
  - bool_norm. destruct (decide (c = sep)); [done|]. by rewrite IH.
Qed.

Lemma split_join sep l :
  l <> [] ->
  Forall (fun x => sall (fun c => negb (bool_decide (c = sep))) x = true) l ->
  split_on sep (join (String sep "") l) = l.
Proof.
  induction l as [|x l IH]; [done|]. intros _ Hall.
  inversion_clear Hall as [|? ? Hx Hl].
  destruct l as [|y l]; [by apply split_on_nosep|].
  change (join (String sep "") (x :: y :: l))
    with (x +:+ String sep (join (String sep "") (y :: l))).
  rewrite split_on_app by done. f_equal. by apply IH.
Qed.

(** [strings.TrimSpace], on the ASCII white space. *)
Definition is_space (c : ascii) : bool :=
  let n := Ascii.nat_of_ascii c in
  bool_decide (n = 32%nat) || ((9 <=? n)%nat && (n <=? 13)%nat).

Fixpoint trim_left (s : string) : string :=
  match s with
  | EmptyString => ""
  | String c s' => if is_space c then trim_left s' else s
  end.

Fixpoint trim_right (s : string) : string :=
  match s with
  | EmptyString => ""
  | String c s' =>
      match trim_right s' with
      | EmptyString => if is_space c then "" else String c ""
      | t => String c t
      end
  end.

Definition trim_space (s : string) : string := trim_right (trim_left s).

Lemma trim_right_nospace s : sall (fun c => negb (is_space c)) s = true -> trim_right s = s.
Proof.
  induction s as [|c s IH]; cbn; [done|]. intros H. bool_norm.
  rewrite IH by done. destruct s; [|done].
  match goal with H : is_space c = false |- _ => by rewrite H end.
Qed.

Lemma trim_space_nospace s : sall (fun c => negb (is_space c)) s = true -> trim_space s = s.
Proof.
  intros H. unfold trim_space.
  assert (Hl : trim_left s = s).
  { destruct s as [|c s]; [done|]. cbn in *. bool_norm.
    match goal with H : is_space c = false |- _ => by rewrite H end. }
  rewrite Hl. by apply trim_right_nospace.
Qed.

(** ** Decimal conversions *)

Definition digit_char (d : Z) : ascii := Ascii.ascii_of_nat (48 + Z.to_nat d).

Definition char_digit (c : ascii) : option Z :=
  let n := Ascii.nat_of_ascii c in
  if (48 <=? n)%nat && (n <=? 57)%nat then Some (Z.of_nat n - 48) else None.

Definition is_digit (c : ascii) : bool := bool_decide (is_Some (char_digit c)).

Lemma char_digit_char d : 0 <= d < 10 -> char_digit (digit_char d) = Some d.
Proof.
  intros H.
  assert (d = 0 \/ d = 1 \/ d = 2 \/ d = 3 \/ d = 4 \/ d = 5 \/ d = 6 \/ d = 7 \/ d = 8 \/ d = 9)
    as Hd by lia.
  repeat (destruct Hd as [->|Hd]; [reflexivity|]). by subst.
Qed.

(** Digits of [n], most significant first, in front of [acc]. *)
Fixpoint digits (fuel : nat) (n : Z) (acc : string) : string :=
  match fuel with
  | O => acc
  | S f =>
      let acc' := String (digit_char (n mod 10)) acc in
      if n / 10 =? 0 then acc' else digits f (n / 10) acc'
  end.

Definition dec_fuel (n : Z) : nat := S (Z.to_nat (Z.log2 n)).

(** [strconv.FormatInt(z, 10)], [fmt.Sprintf] of [%d]. *)
Definition format_int (z : Z) : string :=
  if z <? 0 then String "-" (digits (dec_fuel (- z)) (- z) "")
  else digits (dec_fuel z) z "".

(** The value of a string of digits read after the prefix value [acc]. *)
Fixpoint read_digits (s : string) (acc : Z) : option Z :=
  match s with
  | EmptyString => Some acc
  | String c s' => d ← char_digit c; read_digits s' (acc * 10 + d)
  end.

Definition parse_unsigned (s : string) : option Z :=
  match s with EmptyString => None | _ => read_digits s 0 end.

(** [strconv.ParseInt(s, 10, 64)]: optional sign, at least one digit, range. *)
Definition parse_int64 (s : string) : option Z :=
  v ← match s with
      | String "-" s' => v ← parse_unsigned s'; Some (- v)
      | String "+" s' => parse_unsigned s'
      | _ => parse_unsigned s
      end;
  if in_int64 v then Some v else None.

Lemma digits_read fuel n acc :
  0 <= n < 10 ^ Z.of_nat fuel -> (0 < fuel)%nat ->
  read_digits (digits fuel n acc) 0 = read_digits acc n.
Proof.
  revert n acc. induction fuel as [|f IH]; intros n acc Hn Hf; [lia|].
  cbn [digits]. pose proof (Z.mod_pos_bound n 10 ltac:(lia)).
  pose proof (Z_div_mod_eq_full n 10).
  destruct (n / 10 =? 0) eqn:E; bool_norm.
  - cbn. rewrite char_digit_char by lia. cbn. f_equal. lia.
  - assert (f <> 0%nat) by (intros ->; cbn in Hn; apply E; apply Z.div_small; lia).
    rewrite IH.
    + cbn. rewrite char_digit_char by lia. cbn. f_equal. lia.
    + rewrite Nat2Z.inj_succ, Z.pow_succ_r in Hn by lia.
      split; [apply Z.div_pos; lia|]. apply Z.div_lt_upper_bound; lia.
    + lia.
Qed.

Lemma dec_fuel_enough n : 0 <= n -> 0 <= n < 10 ^ Z.of_nat (dec_fuel n).
Proof.
  intros Hn. split; [done|]. unfold dec_fuel.
  rewrite Nat2Z.inj_succ, Z2Nat.id by apply Z.log2_nonneg.
  destruct (decide (n = 0)) as [->|]; [reflexivity|].
  pose proof (Z.log2_spec n ltac:(lia)).
  eapply Z.lt_le_trans; [apply H|]. apply Z.pow_le_mono_l. lia.
Qed.

Lemma digits_nonempty fuel n acc : (0 < fuel)%nat -> digits fuel n acc <> "".
Proof.
  revert n acc. induction fuel as [|f IH]; intros n acc Hf; [lia|].
  cbn. destruct (_ =? _); [done|]. destruct f; [done|]. apply IH. lia.
Qed.

Lemma digits_all fuel n acc :
  0 <= n -> sall is_digit acc = true -> sall is_digit (digits fuel n acc) = true.
Proof.
  revert n acc. induction fuel as [|f IH]; intros n acc Hn Hacc; [done|].
  cbn [digits]. pose proof (Z.mod_pos_bound n 10 ltac:(lia)).
  assert (sall is_digit (String (digit_char (n mod 10)) acc) = true).
  { cbn. unfold is_digit at 1. rewrite char_digit_char by lia.
    by rewrite bool_decide_eq_true_2. }
  destruct (_ =? _); [done|]. apply IH; [apply Z.div_pos; lia|done].
Qed.

Lemma format_nonneg_digits z : 0 <= z -> sall is_digit (format_int z) = true.
Proof.
  intros Hz. unfold format_int. destruct (Z.ltb_spec z 0); [lia|]. by apply digits_all.
Qed.

Lemma parse_unsigned_format z : 0 <= z -> parse_unsigned (digits (dec_fuel z) z "") = Some z.
Proof.
  intros Hz. unfold parse_unsigned.
  destruct (digits _ _ _) eqn:E.
  { exfalso. eapply (digits_nonempty (dec_fuel z) z ""); [unfold dec_fuel; lia|exact E]. }
  rewrite <- E, digits_read; [done| by apply dec_fuel_enough | unfold dec_fuel; lia].
Qed.

Lemma format_head_digit z c s : 0 <= z -> format_int z = String c s -> is_digit c = true.
Proof.
  intros Hz E. pose proof (format_nonneg_digits z Hz) as H. rewrite E in H.
  cbn in H. by bool_norm.
Qed.

Lemma parse_format z : in_int64 z = true -> parse_int64 (format_int z) = Some z.
Proof.
  intros Hr. unfold parse_int64. unfold format_int.
  destruct (Z.ltb_spec z 0) as [Hneg|Hpos].
  - rewrite parse_unsigned_format by lia. cbn. rewrite Z.opp_involutive. by rewrite Hr.
  - assert (Hhd : exists c s, digits (dec_fuel z) z "" = String c s /\ is_digit c = true).
    { destruct (digits (dec_fuel z) z "") as [|c s] eqn:E.
      - exfalso. eapply (digits_nonempty (dec_fuel z) z ""); [unfold dec_fuel; lia|exact E].
      - exists c, s. split; [done|]. apply (format_head_digit z c s Hpos).
        unfold format_int. destruct (Z.ltb_spec z 0); [lia|done]. }
    destruct Hhd as (c & s & E & Hc).
    assert (Hp : parse_unsigned (String c s) = Some z)
      by (rewrite <- E; by apply parse_unsigned_format).
    rewrite E.
    assert (c <> "-"%char) by (intros ->; discriminate Hc).
    assert (c <> "+"%char) by (intros ->; discriminate Hc).
    assert (Hm : (match String c s with
      | String "-" s' => v ← parse_unsigned s'; Some (- v)
      | String "+" s' => parse_unsigned s'
      | _ => parse_unsigned (String c s) end) = parse_unsigned (String c s)).
    { destruct c as [[] [] [] [] [] [] [] []]; first [reflexivity | congruence]. }
    rewrite Hm, Hp. cbn. by rewrite Hr.
Qed.


(** [format_int] is injective, on every integer. *)
Lemma format_int_inj a b : format_int a = format_int b -> a = b.
Proof.
  assert (Hhead : forall x y s, 0 <= x -> format_int x = String "-" s -> y = x).
  { intros x y s Hx E. pose proof (format_head_digit _ _ _ Hx E). done. }
  assert (Hneg : forall x, x < 0 -> format_int x = String "-" (digits (dec_fuel (- x)) (- x) "")).
  { intros x Hx. unfold format_int. by destruct (Z.ltb_spec x 0); [|lia]. }
  assert (Hnn : forall x, 0 <= x -> parse_unsigned (format_int x) = Some x).
  { intros x Hx. unfold format_int. destruct (Z.ltb_spec x 0); [lia|]. by apply parse_unsigned_format. }
  intros E. destruct (Z_lt_le_dec a 0) as [Ha|Ha], (Z_lt_le_dec b 0) as [Hb|Hb].
  - rewrite !Hneg in E by done.
    assert (E' : digits (dec_fuel (- a)) (- a) "" = digits (dec_fuel (- b)) (- b) "") by congruence.
    assert (Hs : parse_unsigned (digits (dec_fuel (- a)) (- a) "") = Some (- b))
      by (rewrite E'; apply parse_unsigned_format; lia).
    rewrite parse_unsigned_format in Hs by lia. injection Hs. lia.
  - rewrite (Hneg a) in E by done. by eapply Hhead.
  - rewrite (Hneg b) in E by done. symmetry. by eapply Hhead.
  - apply Hnn in Ha, Hb. congruence.
Qed.

#[global] Instance format_int_Inj : Inj (=) (=) format_int.
Proof. exact format_int_inj. Qed.

(** Two decimal fields closed by a character no number contains. *)
Definition int_char (c : ascii) : bool := is_digit c || bool_decide (c = "-"%char).

Lemma sall_impl (p q : ascii -> bool) s :
  (forall c, p c = true -> q c = true) -> sall p s = true -> sall q s = true.
Proof.
  intros Hpq. induction s as [|c s IH]; cbn; [done|]. intros H. bool_norm.
  apply andb_true_iff; auto.
Qed.

Lemma format_int_chars z : sall int_char (format_int z) = true.
Proof.
  assert (Himp : forall c, is_digit c = true -> int_char c = true)
    by (intros c Hc; unfold int_char; by rewrite Hc).
  unfold format_int. destruct (Z.ltb_spec z 0).
  - change (sall int_char (digits (dec_fuel (- z)) (- z) "") = true).
    eapply sall_impl; [exact Himp|]. apply digits_all; [lia|done].
  - eapply sall_impl; [exact Himp|]. apply digits_all; [lia|done].
Qed.

Lemma format_sep_inj a b c x y :
  int_char c = false ->
  format_int a +:+ String c x = format_int b +:+ String c y -> a = b /\ x = y.
Proof.
  intros Hc E.
  apply (sep_inj int_char) in E as [E ->]; auto using format_int_chars.
  split; [|done]. by apply format_int_inj.
Qed.

Lemma format_int_nonempty z : format_int z <> "".
Proof.
  unfold format_int. destruct (_ <? _); [done|]. apply digits_nonempty. unfold dec_fuel. lia.
Qed.

(** No separator and no white space occurs in a number. *)
Lemma format_int_no c z :
  int_char c = false -> sall (fun x => negb (bool_decide (x = c))) (format_int z) = true.
Proof.
  intros Hc. eapply sall_impl; [|apply format_int_chars]. intros x Hx.
  rewrite bool_decide_eq_false_2; [done|]. intros ->. congruence.
Qed.

Lemma format_int_nospace z : sall (fun c => negb (is_space c)) (format_int z) = true.
Proof.
  eapply sall_impl; [|apply format_int_chars]. intros c.
  destruct c as [[] [] [] [] [] [] [] []]; vm_compute; congruence.
Qed.

(** ** encoding/hex *)

Definition hex_digit (n : nat) : ascii := if (n <? 10)%nat then ascii_of_nat (48 + n) else ascii_of_nat (87 + n).
Fixpoint hex_encode (s : string) : string :=
  match s with
  | EmptyString => ""
  | String c s => let n := nat_of_ascii c in String (hex_digit (n / 16)) (String (hex_digit (n mod 16)) (hex_encode s))
  end.

Lemma hex_digit_nospace n : (n < 16)%nat -> negb (is_space (hex_digit n)) = true.
Proof. intros Hn. do 16 (destruct n as [|n]; [reflexivity|]). lia. Qed.
Lemma hex_nospace s : sall (fun c => negb (is_space c)) (hex_encode s) = true.
Proof.
  induction s as [|c s IH]; [done|]. cbn [hex_encode sall]. rewrite !hex_digit_nospace, IH; [done|by apply Nat.mod_upper_bound|].
  apply Nat.Div0.div_lt_upper_bound. pose proof (nat_ascii_bounded c). lia.
Qed.
Lemma hex_nonempty s : s <> "" -> hex_encode s <> "".
Proof. by destruct s. Qed.

(** ** Time *)

(** [time.Time] is its instant in nanoseconds since the Unix epoch,
    [time.Duration] a number of nanoseconds. *)
Notation time := Z (only parsing).
Notation duration := Z (only parsing).

Definition nanosecond : duration := 1.
Definition millisecond : duration := 1000000.
Definition second : duration := 1000000000.
Definition minute : duration := 60 * second.

(** January 1, year 1: the zero value of [time.Time]. *)
Definition zero_time : time := - 62135596800 * second.
Definition is_zero_time (t : time) : bool := t =? zero_time.

Definition unix_sec (t : time) : Z := t / second.
Definition unix_milli (t : time) : Z := t / millisecond.
Definition nanosecond_of (t : time) : Z := t mod second.
Definition time_of_unix (s : Z) : time := s * second.
Definition time_of_unix_milli (ms : Z) : time := ms * millisecond.

(** [t.Sub(u)] saturates at the bounds of [int64]. *)
Definition time_sub (t u : time) : duration :=
  let d := t - u in
  if d <? min_int64 then min_int64 else if max_int64 <? d then max_int64 else d.

Lemma unix_of_unix s : unix_sec (time_of_unix s) = s.
Proof. unfold unix_sec, time_of_unix, second. by rewrite Z.div_mul. Qed.

Lemma milli_of_milli ms : unix_milli (time_of_unix_milli ms) = ms.
Proof. unfold unix_milli, time_of_unix_milli, millisecond. by rewrite Z.div_mul. Qed.

(** [d / time.Second] rounded up to at least one second: the helpers that give
    Redis a TTL truncate [d.Seconds()] toward zero. *)
Definition seconds_trunc (d : duration) : Z := Z.quot d second.

(** A double quote. *)
Definition quote : string := String (Ascii.ascii_of_nat 34) "".

(** [fmtFrac]: the last [prec] decimals of [v] without trailing zeros, and the rest. *)
Fixpoint fmt_frac (prec : nat) (v : Z) (print : bool) (acc : string) : string * Z :=
  match prec with
  | O => (if print then "." +:+ acc else acc, v)
  | S prec =>
      let digit := v mod 10 in
      let print := print || negb (digit =? 0) in
      fmt_frac prec (v / 10) print (if print then String (digit_char digit) acc else acc)
  end.

(** [Duration.String]. *)
Definition duration_string (d : duration) : string :=
  let u := Z.abs d in
  let text :=
    if u =? 0 then "0s"
    else if u <? 1000 then format_int u +:+ "ns"
    else if u <? second then
      let '(prec, unit) := if u <? millisecond then (3%nat, "Âµs") else (6%nat, "ms") in
      let '(frac, whole) := fmt_frac prec u false "" in format_int whole +:+ frac +:+ unit
    else
      let '(frac, secs) := fmt_frac 9 u false "" in
      let text := format_int (secs mod 60) +:+ frac +:+ "s" in
      let mins := secs / 60 in
      if mins =? 0 then text
      else let text := format_int (mins mod 60) +:+ "m" +:+ text in
           if mins / 60 =? 0 then text else format_int (mins / 60) +:+ "h" +:+ text in
  if d <? 0 then "-" +:+ text else text.

Example duration_strings :
  map duration_string [300 * second; 1500 * millisecond; 0; 3723 * second; - 90 * second; 2 * millisecond]
  = ["5m0s"; "1.5s"; "0s"; "1h2m3s"; "-1m30s"; "2ms"].
Proof. reflexivity. Qed.

(** [time.ParseInLocation] and [time.Time.Format] with the layout of the services,
    "2006-01-02 15:04:05", in the local zone. *)
Class LocalTime := parse_local : string -> option time.
Class LocalFormat := format_local : time -> string.

(** ** float64 amounts *)

(** [float64(z)] of an integer: exact up to [2^53], rounded to 53 bits,
    ties to even, above. *)
Definition f64 (z : Z) : Z :=
  let a := Z.abs z in
  if a <=? 2 ^ 53 then z
  else
    let e := Z.log2 a - 52 in
    let q := a / 2 ^ e in
    let r := a mod 2 ^ e in
    let h := 2 ^ (e - 1) in
    let q' := if r <? h then q else if h <? r then q + 1
              else if Z.even q then q else q + 1 in
    Z.sgn z * (q' * 2 ^ e).

Lemma f64_exact z : Z.abs z <= 2 ^ 53 -> f64 z = z.
Proof. intros H. unfold f64. destruct (Z.leb_spec (Z.abs z) (2 ^ 53)); [done|lia]. Qed.
