(* ===== verification/Sharding.v ===== *)
(** * Order numbers and shard routing  (services/order-rpc/sharding)

    [Slot] is logic_slot.go, [Codec] order_number_codec.go, [Routes]
    route_map.go and router.go.  An order number carries the shard genes of
    the user it was issued to; the theorems say that it can be read back, that
    it is routed like its user, and which route tables are accepted. *)
From Stdlib Require Import ZArith Lia Ascii String.
From stdpp Require Import base gmap sets list strings.
From S2P Require Import Prelude GoBase.
Open Scope string_scope.
Open Scope list_scope.
Open Scope Z_scope.

(** ** Bit fields *)

Lemma lor_shiftl_add a b n :
  0 <= n -> 0 <= b < 2 ^ n -> Z.lor (Z.shiftl a n) b = a * 2 ^ n + b.
Proof.
  intros Hn Hb.
  assert (Hdisj : Z.land (Z.shiftl a n) b = 0).
  { apply Z.bits_inj'; intros i Hi. rewrite Z.land_spec, Z.bits_0.
    destruct (decide (i < n)); [by rewrite Z.shiftl_spec_low by lia|].
    replace (Z.testbit b i) with false; [apply andb_false_r|]. symmetry.
    apply Z.testbit_false; [done|]. rewrite Z.div_small; [done|]. split; [lia|].
    apply Z.lt_le_trans with (2 ^ n); [lia|]. apply Z.pow_le_mono_r; lia. }
  rewrite <- Z.shiftl_mul_pow2 by done.
  rewrite Z.add_nocarry_lxor by done. by rewrite Z.lxor_lor.
Qed.

Lemma lor_shiftl_shift a b n k :
  0 <= n -> 0 <= b < 2 ^ n -> 0 <= k ->
  Z.shiftl (a * 2 ^ n + b) k = Z.lor (Z.shiftl a (n + k)) (Z.shiftl b k).
Proof.
  intros Hn Hb Hk. rewrite <- lor_shiftl_add by done.
  by rewrite Z.shiftl_lor, Z.shiftl_shiftl by lia.
Qed.

Lemma land_mask x n : 0 <= n -> Z.land x (2 ^ n - 1) = x mod 2 ^ n.
Proof. intros Hn. rewrite <- Z.land_ones by done. by rewrite Z.ones_equiv, Z.sub_1_r. Qed.

Module Slot.

Definition dbGeneBits : Z := 5.
Definition tableGeneBits : Z := 5.
Definition workerIDBits : Z := 10.
Definition sequenceBits : Z := 12.
Definition logicSlotBits : Z := dbGeneBits + tableGeneBits.
Definition logicSlotCount : Z := Z.shiftl 1 logicSlotBits.
Definition maxDBGene : Z := Z.shiftl 1 dbGeneBits - 1.
Definition maxTableGene : Z := Z.shiftl 1 tableGeneBits - 1.
Definition maxWorkerID : Z := Z.shiftl 1 workerIDBits - 1.
Definition maxSequence : Z := Z.shiftl 1 sequenceBits - 1.
Definition maxOrderTimePart : Z := Z.shiftl 1 31 - 1.

(** [time.Date(2026, time.January, 1, 0, 0, 0, 0, time.UTC).Unix()]. *)
Definition orderNumberEpoch : Z := 1767225600.

Definition splitMix64 (v : Z) : Z :=
  let v := u64 (v + 0x9e3779b97f4a7c15) in
  let v := u64 (Z.lxor v (Z.shiftr v 30) * 0xbf58476d1ce4e5b9) in
  let v := u64 (Z.lxor v (Z.shiftr v 27) * 0x94d049bb133111eb) in
  Z.lxor v (Z.shiftr v 31).

Definition genePartsByUserID (userID : Z) : Z * Z :=
  let mixed := splitMix64 (u64 userID) in
  (u8 (Z.land mixed maxDBGene), u8 (Z.land (Z.shiftr mixed dbGeneBits) maxTableGene)).

Definition LogicSlotByUserID (userID : Z) : Z :=
  let '(dbGene, tableGene) := genePartsByUserID userID in
  Z.lor (Z.shiftl dbGene tableGeneBits) tableGene.

Lemma geneParts_range userID db tb :
  genePartsByUserID userID = (db, tb) -> 0 <= db < 32 /\ 0 <= tb < 32.
Proof.
  unfold genePartsByUserID. intros [= <- <-].
  change maxDBGene with (2 ^ 5 - 1). change maxTableGene with (2 ^ 5 - 1).
  rewrite !land_mask by lia. unfold u8.
  match goal with |- 0 <= (?x mod 2^5) mod 2^8 < _ /\ 0 <= (?y mod 2^5) mod 2^8 < _ =>
    pose proof (Z.mod_pos_bound x (2^5) ltac:(lia));
    pose proof (Z.mod_pos_bound y (2^5) ltac:(lia)) end.
  rewrite !(Z.mod_small _ (2 ^ 8)) by lia. lia.
Qed.

Lemma LogicSlotByUserID_eq userID db tb :
  genePartsByUserID userID = (db, tb) -> LogicSlotByUserID userID = db * 32 + tb.
Proof.
  intros E. unfold LogicSlotByUserID. rewrite E.
  pose proof (geneParts_range _ _ _ E).
  change tableGeneBits with 5. by rewrite lor_shiftl_add by lia.
Qed.

End Slot.

Module Codec.
Import Slot.

Definition dbGeneShift : Z := workerIDBits + sequenceBits + tableGeneBits.
Definition tableGeneShift : Z := workerIDBits + sequenceBits.
Definition workerIDShift : Z := sequenceBits.
Definition timePartShift : Z := dbGeneBits + tableGeneBits + workerIDBits + sequenceBits.

(** [ErrInvalidOrderNumber] and the three panics of [BuildOrderNumber]. *)
Inductive codec_err :=
  | ErrInvalidOrderNumber
  | PanicTimeOutOfRange (timePart : Z)
  | PanicWorkerOutOfRange (workerID : Z)
  | PanicSequenceOutOfRange (seq : Z).

Record OrderNumberParts := mkParts {
  TimePart : Z; DBGene : Z; TableGene : Z; WorkerID : Z; Sequence : Z }.

Definition LogicSlot (p : OrderNumberParts) : Z :=
  Z.lor (Z.shiftl (DBGene p) tableGeneBits) (TableGene p).

Definition BuildOrderNumber (userID : Z) (now : time) (workerID seq : Z)
  : result codec_err Z :=
  let '(dbGene, tableGene) := genePartsByUserID userID in
  let timePart := unix_sec now - orderNumberEpoch in
  if (timePart <? 0) || (maxOrderTimePart <? timePart) then Err (PanicTimeOutOfRange timePart)
  else if (workerID <? 0) || (maxWorkerID <? workerID) then Err (PanicWorkerOutOfRange workerID)
  else if (seq <? 0) || (maxSequence <? seq) then Err (PanicSequenceOutOfRange seq)
  else Ok (Z.lor (Z.lor (Z.lor (Z.lor
             (wrap64 (Z.shiftl timePart timePartShift))
             (wrap64 (Z.shiftl dbGene dbGeneShift)))
             (wrap64 (Z.shiftl tableGene tableGeneShift)))
             (wrap64 (Z.shiftl workerID workerIDShift)))
             seq).

(** [wall] is the instant [time.Now] returns to the check. *)
Definition isOldFormatOrderNumber (wall : time) (timePart : Z) : bool :=
  if (timePart <? 0) || (maxOrderTimePart <? timePart) then true
  else
    let nowPart := unix_sec wall - orderNumberEpoch in
    nowPart + 7 * 24 * 60 * 60 <? timePart.

Definition ParseOrderNumber (wall : time) (orderNumber : Z) : result codec_err OrderNumberParts :=
  if orderNumber <=? 0 then Err ErrInvalidOrderNumber
  else
    let timePart := Z.shiftr orderNumber timePartShift in
    if isOldFormatOrderNumber wall timePart then Err ErrInvalidOrderNumber
    else Ok {| TimePart := timePart;
               DBGene := u8 (Z.land (Z.shiftr orderNumber dbGeneShift) maxDBGene);
               TableGene := u8 (Z.land (Z.shiftr orderNumber tableGeneShift) maxTableGene);
               WorkerID := Z.land (Z.shiftr orderNumber workerIDShift) maxWorkerID;
               Sequence := Z.land orderNumber maxSequence |}.

Definition LogicSlotByOrderNumber (wall : time) (orderNumber : Z) : result codec_err Z :=
  parts ← ParseOrderNumber wall orderNumber;
  mret (LogicSlot parts).

(** The number as a polynomial in its fields. *)
Definition pack (t db tb w s : Z) : Z :=
  t * 2 ^ 32 + db * 2 ^ 27 + tb * 2 ^ 22 + w * 2 ^ 12 + s.

Lemma lor_fields t db tb w s :
  0 <= t < 2 ^ 31 -> 0 <= db < 32 -> 0 <= tb < 32 -> 0 <= w < 1024 -> 0 <= s < 4096 ->
  Z.lor (Z.lor (Z.lor (Z.lor
    (wrap64 (Z.shiftl t 32)) (wrap64 (Z.shiftl db 27)))
    (wrap64 (Z.shiftl tb 22))) (wrap64 (Z.shiftl w 12))) s = pack t db tb w s.
Proof.
  intros Ht Hdb Htb Hw Hs.
  rewrite !wrap64_id by
    (rewrite Z.shiftl_mul_pow2 by lia; unfold in_int64, min_int64, max_int64;
     apply andb_true_iff; split; apply Z.leb_le; lia).
  replace (Z.lor (Z.shiftl t 32) (Z.shiftl db 27)) with (Z.shiftl (t * 32 + db) 27).
  2: { apply (lor_shiftl_shift t db 5 27); lia. }
  replace (Z.lor (Z.shiftl (t * 32 + db) 27) (Z.shiftl tb 22))
    with (Z.shiftl ((t * 32 + db) * 32 + tb) 22).
  2: { apply (lor_shiftl_shift (t * 32 + db) tb 5 22); lia. }
  replace (Z.lor (Z.shiftl ((t * 32 + db) * 32 + tb) 22) (Z.shiftl w 12))
    with (Z.shiftl (((t * 32 + db) * 32 + tb) * 1024 + w) 12).
  2: { apply (lor_shiftl_shift ((t * 32 + db) * 32 + tb) w 10 12); lia. }
  rewrite lor_shiftl_add by lia. unfold pack. lia.
Qed.

Lemma pack_range t db tb w s :
  0 <= t < 2 ^ 31 -> 0 <= db < 32 -> 0 <= tb < 32 -> 0 <= w < 1024 -> 0 <= s < 4096 ->
  0 <= pack t db tb w s < 2 ^ 63.
Proof. unfold pack. lia. Qed.

(** Reading each field back. *)
Lemma pack_fields t db tb w s :
  0 <= t < 2 ^ 31 -> 0 <= db < 32 -> 0 <= tb < 32 -> 0 <= w < 1024 -> 0 <= s < 4096 ->
  Z.shiftr (pack t db tb w s) 32 = t /\
  u8 (Z.land (Z.shiftr (pack t db tb w s) 27) maxDBGene) = db /\
  u8 (Z.land (Z.shiftr (pack t db tb w s) 22) maxTableGene) = tb /\
  Z.land (Z.shiftr (pack t db tb w s) 12) maxWorkerID = w /\
  Z.land (pack t db tb w s) maxSequence = s.
Proof.
  intros Ht Hdb Htb Hw Hs. unfold u8.
  change maxDBGene with (2 ^ 5 - 1). change maxTableGene with (2 ^ 5 - 1).
  change maxWorkerID with (2 ^ 10 - 1). change maxSequence with (2 ^ 12 - 1).
  rewrite !land_mask, !Z.shiftr_div_pow2 by lia. unfold pack.
  repeat split; Z.div_mod_to_equations; lia.
Qed.

(** Everything [BuildOrderNumber] returns, in one equivalence. *)
Lemma BuildOrderNumber_ok userID now w s n :
  BuildOrderNumber userID now w s = Ok n <->
  exists db tb, genePartsByUserID userID = (db, tb) /\
    0 <= unix_sec now - orderNumberEpoch < 2 ^ 31 /\ 0 <= w < 1024 /\ 0 <= s < 4096 /\
    n = pack (unix_sec now - orderNumberEpoch) db tb w s.
Proof.
  unfold BuildOrderNumber. destruct (genePartsByUserID userID) as [db tb] eqn:E.
  pose proof (geneParts_range _ _ _ E) as [Hdb Htb].
  change maxOrderTimePart with (2 ^ 31 - 1). change maxWorkerID with 1023.
  change maxSequence with 4095. change timePartShift with 32. change dbGeneShift with 27.
  change tableGeneShift with 22. change workerIDShift with 12.
  split.
  - do 3 (destr_if; [discriminate|]). bool_norm. intros [= <-].
    exists db, tb. split; [done|]. rewrite lor_fields by lia. split_and!; lia || done.
  - intros (db' & tb' & [= <- <-] & Ht & Hw & Hs & ->).
    do 3 (destr_if; [repeat match goal with H : (_ || _)%bool = true |- _ =>
      apply orb_true_iff in H as [H|H] end; bool_norm; lia|]).
    by rewrite lor_fields by lia.
Qed.

Lemma build_order_number_eq u1 now1 w1 s1 u2 now2 w2 s2 n :
  BuildOrderNumber u1 now1 w1 s1 = Ok n -> BuildOrderNumber u2 now2 w2 s2 = Ok n ->
  unix_sec now1 = unix_sec now2 /\ LogicSlotByUserID u1 = LogicSlotByUserID u2 /\
  w1 = w2 /\ s1 = s2.
Proof.
  intros H1 H2.
  apply BuildOrderNumber_ok in H1 as (db1 & tb1 & Hg1 & Ht1 & Hw1 & Hs1 & E1).
  apply BuildOrderNumber_ok in H2 as (db2 & tb2 & Hg2 & Ht2 & Hw2 & Hs2 & E2).
  pose proof (geneParts_range _ _ _ Hg1). pose proof (geneParts_range _ _ _ Hg2).
  pose proof (pack_fields _ db1 tb1 w1 s1 Ht1 ltac:(lia) ltac:(lia) Hw1 Hs1) as P1.
  pose proof (pack_fields _ db2 tb2 w2 s2 Ht2 ltac:(lia) ltac:(lia) Hw2 Hs2) as P2.
  rewrite <- E1 in P1. rewrite <- E2 in P2.
  rewrite (LogicSlotByUserID_eq _ _ _ Hg1), (LogicSlotByUserID_eq _ _ _ Hg2).
  destruct P1 as (? & ? & ? & ? & ?), P2 as (? & ? & ? & ? & ?). split_and!; lia.
Qed.

Lemma ParseOrderNumber_pack wall t db tb w s :
  0 <= t < 2 ^ 31 -> 0 <= db < 32 -> 0 <= tb < 32 -> 0 <= w < 1024 -> 0 <= s < 4096 ->
  0 < pack t db tb w s -> t <= unix_sec wall - orderNumberEpoch + 604800 ->
  ParseOrderNumber wall (pack t db tb w s) = Ok (mkParts t db tb w s).
Proof.
  intros Ht Hdb Htb Hw Hs Hpos Hwall. unfold ParseOrderNumber.
  change timePartShift with 32. change dbGeneShift with 27.
  change tableGeneShift with 22. change workerIDShift with 12.
  destruct (pack_fields t db tb w s Ht Hdb Htb Hw Hs) as (-> & -> & -> & -> & ->).
  destruct (Z.leb_spec (pack t db tb w s) 0); [lia|].
  unfold isOldFormatOrderNumber. change maxOrderTimePart with (2 ^ 31 - 1).
  destruct (Z.ltb_spec t 0); [lia|]. destruct (Z.ltb_spec (2 ^ 31 - 1) t); [lia|]. cbn [orb].
  destr_if; bool_norm; [lia|done].
Qed.

End Codec.

Module Routes.
Import Slot Codec.

Definition RouteStatusStable : string := "stable".
Definition WriteModeShardPrimary : string := "shard_primary".

(** The sentinel every error of route_map.go wraps. *)
Inductive route_err := ErrRouteNotFound | ErrInvalidRouteEntry | ErrRouteVersionMissing.

#[global] Instance route_err_eq_dec : EqDecision route_err.
Proof. solve_decision. Defined.

Record Route := mkRoute {
  r_LogicSlot : Z; r_DBKey : string; r_TableSuffix : string;
  r_Version : string; r_WriteMode : string; r_Status : string }.

Record RouteEntry := mkEntry {
  Version : string; e_LogicSlot : Z; DBKey : string; TableSuffix : string;
  Status : string; WriteMode : string }.

Record RouteMap := mkRouteMap {
  currentVersion : string;
  entries : gmap string (gmap Z RouteEntry) }.

Definition isSupportedRouteStatus (status : string) : bool := bool_decide (status = RouteStatusStable).
Definition isSupportedWriteMode (mode : string) : bool := bool_decide (mode = WriteModeShardPrimary).

Definition allowedRouteStatusTransitions (from to : string) : bool :=
  bool_decide (from = RouteStatusStable) && bool_decide (to = RouteStatusStable).

Definition validateRouteStatusWriteMode (status writeMode : string) : result route_err unit :=
  if negb (bool_decide (status = RouteStatusStable)) then Err ErrInvalidRouteEntry
  else if negb (bool_decide (writeMode = WriteModeShardPrimary)) then Err ErrInvalidRouteEntry
  else Ok tt.

Definition validateRouteEntry (entry : RouteEntry) : result route_err unit :=
  if bool_decide (Version entry = "") || bool_decide (DBKey entry = "")
     || bool_decide (TableSuffix entry = "") then Err ErrInvalidRouteEntry
  else if (e_LogicSlot entry <? 0) || (logicSlotCount <=? e_LogicSlot entry) then Err ErrInvalidRouteEntry
  else if negb (isSupportedRouteStatus (Status entry)) then Err ErrInvalidRouteEntry
  else if negb (isSupportedWriteMode (WriteMode entry)) then Err ErrInvalidRouteEntry
  else _ ← validateRouteStatusWriteMode (Status entry) (WriteMode entry); Ok tt.

Definition ValidateRouteStatusTransition (from to : string) : result route_err unit :=
  if negb (isSupportedRouteStatus from) then Err ErrInvalidRouteEntry
  else if negb (isSupportedRouteStatus to) then Err ErrInvalidRouteEntry
  else if negb (allowedRouteStatusTransitions from to) then Err ErrInvalidRouteEntry
  else Ok tt.

(** [m[version][slot]] of a map of maps. *)
Definition entry_at (m : gmap string (gmap Z RouteEntry)) (version : string) (slot : Z)
  : option RouteEntry := m !! version ≫= fun es => es !! slot.

Definition put_entry (m : gmap string (gmap Z RouteEntry)) (e : RouteEntry)
  : gmap string (gmap Z RouteEntry) :=
  <[Version e := <[e_LogicSlot e := e]> (default ∅ (m !! Version e))]> m.

(** One turn of the loop of [NewRouteMap]. *)
Definition add_entry (m : gmap string (gmap Z RouteEntry)) (entry : RouteEntry)
  : result route_err (gmap string (gmap Z RouteEntry)) :=
  _ ← validateRouteEntry entry;
  let es := default ∅ (m !! Version entry) in
  match es !! e_LogicSlot entry with
  | Some _ => Err ErrInvalidRouteEntry
  | None => Ok (put_entry m entry)
  end.

Fixpoint add_entries (m : gmap string (gmap Z RouteEntry)) (es : list RouteEntry)
  : result route_err (gmap string (gmap Z RouteEntry)) :=
  match es with
  | [] => Ok m
  | e :: es => m' ← add_entry m e; add_entries m' es
  end.

Definition NewRouteMap (version : string) (es : list RouteEntry) : result route_err RouteMap :=
  if bool_decide (version = "") then Err ErrRouteVersionMissing
  else
    m ← add_entries ∅ es;
    match m !! version with
    | None => Err ErrRouteVersionMissing
    | Some _ => Ok (mkRouteMap version m)
    end.

(** The receiver may be a nil pointer. *)
Definition RouteByVersionAndSlot (m : option RouteMap) (version : string) (logicSlot : Z)
  : result route_err Route :=
  match m with
  | None => Err ErrRouteNotFound
  | Some m =>
      match entries m !! version with
      | None => Err ErrRouteNotFound
      | Some versionEntries =>
          match versionEntries !! logicSlot with
          | None => Err ErrRouteNotFound
          | Some entry =>
              Ok {| r_LogicSlot := e_LogicSlot entry; r_DBKey := DBKey entry;
                    r_TableSuffix := TableSuffix entry; r_Version := Version entry;
                    r_WriteMode := WriteMode entry; r_Status := Status entry |}
          end
      end
  end.

Definition RouteByLogicSlot (m : RouteMap) (logicSlot : Z) : result route_err Route :=
  RouteByVersionAndSlot (Some m) (currentVersion m) logicSlot.

(** [Router], and [StaticRouter]'s two methods. *)
Record StaticRouter := NewStaticRouter { routeMap : RouteMap }.

Definition RouteByUserID (r : StaticRouter) (userID : Z) : result route_err Route :=
  RouteByLogicSlot (routeMap r) (LogicSlotByUserID userID).

Definition RouteByOrderNumber (r : StaticRouter) (wall : time) (orderNumber : Z)
  : result (codec_err + route_err) Route :=
  match LogicSlotByOrderNumber wall orderNumber with
  | Err e => Err (inl e)
  | Ok logicSlot =>
      match RouteByLogicSlot (routeMap r) logicSlot with
      | Err e => Err (inr e)
      | Ok route => Ok route
      end
  end.

(** *** The table [NewRouteMap] builds *)

Definition valid_entry (e : RouteEntry) : bool := is_ok (validateRouteEntry e).

(** Two entries describe the same slot of the same version. *)
Definition same_slot (a b : RouteEntry) : Prop :=
  Version a = Version b /\ e_LogicSlot a = e_LogicSlot b.

Lemma entry_at_empty version slot : entry_at ∅ version slot = None.
Proof. unfold entry_at. by rewrite lookup_empty. Qed.

Lemma entry_at_empty_all es :
  Forall (fun e => entry_at ∅ (Version e) (e_LogicSlot e) = None) es.
Proof. apply Forall_true. intros e. apply entry_at_empty. Qed.

Lemma entry_at_add m e version slot :
  entry_at (put_entry m e) version slot =
  if decide (Version e = version /\ e_LogicSlot e = slot) then Some e else entry_at m version slot.
Proof.
  unfold entry_at, put_entry. destruct (decide (Version e = version)) as [<-|Hv].
  - rewrite lookup_insert_eq. cbn. destruct (decide (e_LogicSlot e = slot)) as [<-|Hs].
    + rewrite lookup_insert_eq. by rewrite decide_True.
    + rewrite lookup_insert_ne by done. rewrite decide_False by naive_solver.
      by destruct (m !! Version e).
  - rewrite lookup_insert_ne by done. by rewrite decide_False by naive_solver.
Qed.

Lemma add_entry_ok m e m' :
  add_entry m e = Ok m' <->
  valid_entry e = true /\ entry_at m (Version e) (e_LogicSlot e) = None /\
  m' = put_entry m e.
Proof.
  unfold add_entry, valid_entry, entry_at. destruct (validateRouteEntry e) as [[]|err]; cbn.
  2: { split; [done|]. by intros [? _]. }
  destruct (m !! Version e) as [es|] eqn:E; cbn.
  - destruct (es !! e_LogicSlot e); naive_solver.
  - rewrite lookup_empty. naive_solver.
Qed.

(** The accumulated table is the association of the accepted entries. *)
Lemma add_entries_ok m es m' :
  add_entries m es = Ok m' <->
  Forall (fun e => valid_entry e = true) es /\
  Forall (fun e => entry_at m (Version e) (e_LogicSlot e) = None) es /\
  (forall i j a b, es !! i = Some a -> es !! j = Some b -> same_slot a b -> i = j) /\
  m' = foldl put_entry m es.
Proof.
  revert m. induction es as [|e es IH]; intros m; cbn [add_entries foldl].
  { split; [intros [= <-]; repeat split; try constructor; done|by intros (_ & _ & _ & ->)]. }
  rewrite result_bind_ok. setoid_rewrite add_entry_ok. setoid_rewrite IH. clear IH. split.
  - intros (m1 & (Hv & Hn & ->) & Hvs & Hns & Hd & ->). rewrite !Forall_cons.
    split_and!; auto.
    + eapply Forall_impl; [exact Hns|]. cbn. intros x Hx. rewrite entry_at_add in Hx.
      by destruct (decide _).
    + intros [|i] [|j] a b; cbn; intros Ha Hb Hs; simplify_eq; [done| | |].
      * exfalso. eapply Forall_lookup_1 in Hns; [|exact Hb]. cbn in Hns.
        rewrite entry_at_add in Hns. destruct Hs. by rewrite decide_True in Hns by done.
      * exfalso. eapply Forall_lookup_1 in Hns; [|exact Ha]. cbn in Hns.
        rewrite entry_at_add in Hns. destruct Hs. by rewrite decide_True in Hns by done.
      * f_equal. by eapply Hd.
  - rewrite !Forall_cons. intros ((Hv & Hvs) & (Hn & Hns) & Hd & ->).
    eexists. split; [done|]. split_and!; auto.
    + apply Forall_lookup_2. intros i x Hx. rewrite entry_at_add.
      rewrite decide_False.
      * eapply Forall_lookup_1 in Hns; eauto.
      * intros Hs. specialize (Hd 0%nat (S i) e x eq_refl Hx Hs). done.
    + intros i j a b Ha Hb Hs. specialize (Hd (S i) (S j) a b Ha Hb Hs). by injection Hd.
Qed.

Lemma entry_at_foldl m es version slot e :
  (forall i j a b, es !! i = Some a -> es !! j = Some b -> same_slot a b -> i = j) ->
  Forall (fun e => entry_at m (Version e) (e_LogicSlot e) = None) es ->
  entry_at (foldl put_entry m es)
    version slot = Some e <->
  entry_at m version slot = Some e \/ (e ∈ es /\ Version e = version /\ e_LogicSlot e = slot).
Proof.
  revert m. induction es as [|x es IH]; intros m Hd Hn; cbn [foldl].
  { split; [by left|]. intros [?|[Hin _]]; [done|by apply elem_of_nil in Hin]. }
  apply Forall_cons in Hn as [Hnx Hn]. rewrite IH; clear IH.
  - rewrite entry_at_add. rewrite elem_of_cons. destruct (decide _) as [[<- <-]|Hne].
    + split.
      * intros [[= <-]|(Hin & ? & ?)]; right; auto.
      * intros [?|([->|Hin] & ? & ?)]; [congruence|by left|].
        exfalso. apply list_elem_of_lookup in Hin as [i Hi].
        specialize (Hd (S i) 0%nat e x Hi eq_refl). discriminate Hd. by split.
    + split; [naive_solver|]. intros [?|([->|Hin] & ? & ?)]; [by left|naive_solver|naive_solver].
  - intros i j a b Ha Hb Hs. specialize (Hd (S i) (S j) a b Ha Hb Hs). by injection Hd.
  - apply Forall_lookup_2. intros i y Hy. rewrite entry_at_add. rewrite decide_False.
    + by eapply Forall_lookup_1 in Hn; eauto.
    + intros Hs. specialize (Hd 0%nat (S i) x y eq_refl Hy Hs). done.
Qed.

Lemma version_at_foldl (m : gmap string (gmap Z RouteEntry)) es version :
  is_Some (foldl put_entry m es
    !! version) <->
  is_Some (m !! version) \/ exists e, e ∈ es /\ Version e = version.
Proof.
  revert m. induction es as [|x es IH]; intros m; cbn [foldl].
  { split; [by left|]. intros [?|(e & Hin & _)]; [done|by apply elem_of_nil in Hin]. }
  rewrite IH. setoid_rewrite elem_of_cons. unfold put_entry. rewrite lookup_insert_is_Some.
  split; [naive_solver|]. destruct (decide (Version x = version)); naive_solver.
Qed.

End Routes.

Import Slot Codec Routes.

(** ** Properties *)

(** C35: an order number [BuildOrderNumber] issues is read back field by field by
    [ParseOrderNumber], as long as the parser's clock is not more than a week
    behind the issuer's and the number is not the zero number (the first
    second of the epoch on the all-zero shard). *)
Theorem order_number_roundtrip userID now workerID seq n wall :
  BuildOrderNumber userID now workerID seq = Ok n ->
  0 < n -> unix_sec now <= unix_sec wall + 7 * 24 * 60 * 60 ->
  exists dbGene tableGene,
    genePartsByUserID userID = (dbGene, tableGene) /\
    ParseOrderNumber wall n =
      Ok {| TimePart := unix_sec now - orderNumberEpoch; DBGene := dbGene;
            TableGene := tableGene; WorkerID := workerID; Sequence := seq |}.
Proof.
  intros Hb Hpos Hwall. apply BuildOrderNumber_ok in Hb as (db & tb & Hg & Ht & Hw & Hs & ->).
  pose proof (geneParts_range _ _ _ Hg) as [Hdb Htb].
  exists db, tb. split; [done|]. by apply ParseOrderNumber_pack; try lia.
Qed.

Lemma order_number_roundtrip_witness :
  exists n dbGene tableGene,
    genePartsByUserID 42 = (dbGene, tableGene) /\
    ParseOrderNumber (time_of_unix 1770000000) n =
      Ok {| TimePart := 1770000000 - orderNumberEpoch; DBGene := dbGene;
            TableGene := tableGene; WorkerID := 7; Sequence := 3 |}.
Proof.
  eexists.
  apply (order_number_roundtrip 42 (time_of_unix 1770000000) 7 3 _ (time_of_unix 1770000000));
    [vm_compute; reflexivity | reflexivity | vm_compute; discriminate].
Defined.

(** An order is routed to the shard of the user it was issued to: the logic
    slot read from the number is the user's, so [RouteByOrderNumber] and
    [RouteByUserID] give the same route on every route table. *)
Theorem order_routed_like_user (r : StaticRouter) userID now workerID seq n wall :
  BuildOrderNumber userID now workerID seq = Ok n ->
  0 < n -> unix_sec now <= unix_sec wall + 7 * 24 * 60 * 60 ->
  LogicSlotByOrderNumber wall n = Ok (LogicSlotByUserID userID) /\
  0 <= LogicSlotByUserID userID < logicSlotCount /\
  RouteByOrderNumber r wall n =
    match RouteByUserID r userID with Ok route => Ok route | Err e => Err (inr e) end.
Proof.
  intros Hb Hpos Hwall. apply BuildOrderNumber_ok in Hb as (db & tb & Hg & Ht & Hw & Hs & ->).
  pose proof (geneParts_range _ _ _ Hg) as [Hdb Htb].
  assert (Hslot : LogicSlotByOrderNumber wall (pack (unix_sec now - orderNumberEpoch) db tb workerID seq)
    = Ok (LogicSlotByUserID userID)).
  { unfold LogicSlotByOrderNumber. rewrite ParseOrderNumber_pack by lia.
    unfold LogicSlotByUserID. by rewrite Hg. }
  split; [done|]. split.
  - rewrite (LogicSlotByUserID_eq _ _ _ Hg). change logicSlotCount with 1024. lia.
  - unfold RouteByOrderNumber, RouteByUserID. by rewrite Hslot.
Qed.

Lemma order_routed_like_user_witness :
  let r := NewStaticRouter (mkRouteMap "v1" ∅) in
  exists n,
    LogicSlotByOrderNumber (time_of_unix 1770000000) n = Ok (LogicSlotByUserID 42) /\
    0 <= LogicSlotByUserID 42 < logicSlotCount /\
    RouteByOrderNumber r (time_of_unix 1770000000) n =
      match RouteByUserID r 42 with Ok route => Ok route | Err e => Err (inr e) end.
Proof.
  intros r. eexists.
  apply (order_routed_like_user r 42 (time_of_unix 1770000000) 7 3 _ (time_of_unix 1770000000));
    [vm_compute; reflexivity | reflexivity | vm_compute; discriminate].
Defined.

(** [NewRouteMap] accepts exactly the tables whose entries are well formed
    (non-empty fields, a slot below 1024, a stable status and a primary write
    mode), which hold at most one entry per version and slot and some entry of
    the current version; and the map it builds answers
    [RouteByVersionAndSlot] with exactly the entries it was given. *)
Theorem new_route_map_spec version es :
  let accepted :=
    version <> "" /\ Forall (fun e => valid_entry e = true) es /\
    (forall i j a b, es !! i = Some a -> es !! j = Some b -> same_slot a b -> i = j) /\
    exists e, e ∈ es /\ Version e = version in
  ((exists m, NewRouteMap version es = Ok m) <-> accepted) /\
  (forall m, NewRouteMap version es = Ok m ->
    currentVersion m = version /\
    forall v slot r, RouteByVersionAndSlot (Some m) v slot = Ok r <->
      exists e, e ∈ es /\ Version e = v /\ e_LogicSlot e = slot /\
        r = mkRoute slot (DBKey e) (TableSuffix e) v (WriteMode e) (Status e)).
Proof.
  cbn zeta.
  assert (Hok : forall m, NewRouteMap version es = Ok m <->
    version <> "" /\ Forall (fun e => valid_entry e = true) es /\
    (forall i j a b, es !! i = Some a -> es !! j = Some b -> same_slot a b -> i = j) /\
    (exists e, e ∈ es /\ Version e = version) /\ m = mkRouteMap version (foldl put_entry ∅ es)).
  { intros m. unfold NewRouteMap. case_bool_decide as Hv; [naive_solver|].
    rewrite result_bind_ok. setoid_rewrite add_entries_ok.
    pose proof (entry_at_empty_all es) as Hnone.
    pose proof (version_at_foldl ∅ es version) as Hver. rewrite lookup_empty in Hver.
    split.
    - intros (t & (Hval & _ & Hd & ->) & Ht).
      destruct (foldl put_entry ∅ es !! version) eqn:E; [|discriminate].
      injection Ht as <-. split_and!; auto.
      destruct Hver as [Hver _]. destruct (Hver ltac:(eauto)) as [[? ?]|?]; [done|done].
    - intros (_ & Hval & Hd & Hin & ->). exists (foldl put_entry ∅ es). split; [done|].
      destruct (foldl put_entry ∅ es !! version) eqn:E; [done|].
      destruct Hver as [_ Hver]. destruct Hver; [by right|]. congruence. }
  split.
  - setoid_rewrite Hok. naive_solver.
  - intros m Hm. apply Hok in Hm as (_ & Hval & Hd & _ & ->). split; [done|].
    intros v slot r.
    assert (Hat := fun e => entry_at_foldl ∅ es v slot e Hd (entry_at_empty_all es)).
    setoid_rewrite entry_at_empty in Hat. unfold entry_at in Hat. cbn.
    destruct (foldl put_entry ∅ es !! v) as [vm|] eqn:Ev; cbn in Hat.
    + destruct (vm !! slot) as [e|] eqn:Es.
      * destruct (proj1 (Hat e) eq_refl) as [?|(Hin & <- & <-)]; [done|].
        split; [intros [= <-]; by exists e|].
        intros (e' & Hin' & Hv' & Hs' & ->).
        pose proof (proj2 (Hat e') ltac:(right; done)) as [= ->]. done.
      * split; [done|]. intros (e' & Hin' & Hv' & Hs' & ->).
        exfalso. by pose proof (proj2 (Hat e') ltac:(right; done)).
    + split; [done|]. intros (e' & Hin' & Hv' & Hs' & ->).
      exfalso. by pose proof (proj2 (Hat e') ltac:(right; done)).
Qed.

Definition demo_entry : RouteEntry := mkEntry "v1" 5 "order-db-0" "00" "stable" "shard_primary".

Lemma new_route_map_spec_witness :
  (exists m, NewRouteMap "v1" [demo_entry] = Ok m) /\
  (forall m, NewRouteMap "v1" [demo_entry] = Ok m ->
    RouteByVersionAndSlot (Some m) "v1" 5
      = Ok (mkRoute 5 "order-db-0" "00" "v1" "shard_primary" "stable")).
Proof.
  destruct (new_route_map_spec "v1" [demo_entry]) as [Hacc Hlk]. split.
  - apply Hacc. split; [discriminate|]. split; [repeat constructor|]. split.
    + intros [|i] [|j] a b Ha Hb _; try reflexivity; discriminate.
    + exists demo_entry. split; [apply list_elem_of_here|reflexivity].
  - intros m Hm. apply (proj2 (Hlk m Hm)). exists demo_entry.
    split; [apply list_elem_of_here|]. repeat split.
Defined.
