(* ===== verification/OrderNumberGen.v ===== *)
(** * The order-number generator
    (services/order-rpc/internal/logic/order_number_generator.go)

    Concurrent calls of [Next] share a generator behind a mutex.  A call runs
    in critical sections: one from [Lock] to [Unlock] on entry and, while the
    4096 numbers of the current second are used up, one per wake-up inside
    [waitNextSecondLocked], which unlocks around its [sleep].  The model is the
    transition system of those sections. *)
From Stdlib Require Import ZArith Lia Ascii String.
From stdpp Require Import base gmap sets list strings relations.
From S2P Require Import Prelude GoBase Sharding.
Import Slot Codec.
Open Scope string_scope.
Open Scope list_scope.
Open Scope Z_scope.

Definition maxOrderNumberSequence : Z := Z.shiftl 1 12 - 1.

(** The two fields a [Next] updates. *)
Record orderNumberGenerator := mkGen { lastUnixSecond : Z; sequence : Z }.

Definition newOrderNumberGenerator : orderNumberGenerator := mkGen 0 (-1).

(** Where a call of [Next] stands between two critical sections. *)
Inductive call :=
  | Entering (unixSecond : Z)        (** about to take the mutex *)
  | Waiting (last : Z)               (** asleep in waitNextSecondLocked(last) *)
  | Returned (second : Z) (seq : Z). (** past the final Unlock *)

#[global] Instance call_eq_dec : EqDecision call.
Proof. solve_decision. Defined.

(** The duration [waitNextSecondLocked] sleeps when the clock reads [current]. *)
Definition waitDuration (last : Z) (current : time) : duration :=
  let wait := time_sub (time_of_unix (last + 1)) current in
  if wait <=? 0 then
    let wait := second - nanosecond_of current in
    if wait <=? 0 then millisecond else wait
  else wait.

(** One turn of the loop of [waitNextSecondLocked], and the assignments of the
    caller when it returns. *)
Definition waitTurn (g : orderNumberGenerator) (last : Z) (current : time)
  : orderNumberGenerator * call :=
  let currentUnixSecond := unix_sec current in
  if last <? currentUnixSecond
  then (mkGen currentUnixSecond 0, Returned currentUnixSecond 0)
  else (g, Waiting last).

(** The critical section a call runs once it holds the mutex. *)
Definition NextSection (g : orderNumberGenerator) (c : call) (current : time)
  : orderNumberGenerator * call :=
  match c with
  | Entering unixSecond =>
      let unixSecond := if unixSecond <? lastUnixSecond g then lastUnixSecond g else unixSecond in
      if (sequence g =? -1) || (lastUnixSecond g <? unixSecond) then
        (mkGen unixSecond 0, Returned unixSecond 0)
      else if sequence g <? maxOrderNumberSequence then
        let g' := mkGen (lastUnixSecond g) (sequence g + 1) in
        (g', Returned (lastUnixSecond g') (sequence g'))
      else waitTurn g (lastUnixSecond g) current
  | Waiting last => waitTurn g last current
  | Returned _ _ => (g, c)
  end.

(** The number a finished call returns. *)
Definition NextResult (userID workerID : Z) (c : call) : option (result codec_err Z) :=
  match c with
  | Returned sec seq => Some (BuildOrderNumber userID (time_of_unix sec) workerID seq)
  | _ => None
  end.

(** ** Interleavings *)

Record sys := mkSys { gen : orderNumberGenerator; clock : time; calls : list call }.

Definition sys_init (t : time) : sys := mkSys newOrderNumberGenerator t [].

Inductive step : sys -> sys -> Prop :=
  | step_tick g t t' cs : t <= t' -> step (mkSys g t cs) (mkSys g t' cs)
  | step_call g t cs now : step (mkSys g t cs) (mkSys g t (cs ++ [Entering (unix_sec now)]))
  | step_run g t cs i c g' c' :
      cs !! i = Some c -> NextSection g c t = (g', c') ->
      step (mkSys g t cs) (mkSys g' t (<[i := c']> cs)).

Definition waiting (c : call) : bool := match c with Waiting _ => true | _ => false end.

(** The schedules in which a call that waits for the next second is alone:
    no critical section of another call runs while it sleeps. *)
Inductive exclusive_step : sys -> sys -> Prop :=
  | xstep_tick g t t' cs : t <= t' -> exclusive_step (mkSys g t cs) (mkSys g t' cs)
  | xstep_call g t cs now :
      exclusive_step (mkSys g t cs) (mkSys g t (cs ++ [Entering (unix_sec now)]))
  | xstep_run g t cs i c g' c' :
      cs !! i = Some c -> NextSection g c t = (g', c') ->
      (forall j d, cs !! j = Some d -> waiting d = true -> j = i) ->
      exclusive_step (mkSys g t cs) (mkSys g' t (<[i := c']> cs)).

Lemma exclusive_step_step s s' : exclusive_step s s' -> step s s'.
Proof. destruct 1; by econstructor. Qed.

(** ** The invariant of exclusive schedules *)

Definition lex_lt (a b : Z * Z) : Prop := a.1 < b.1 \/ (a.1 = b.1 /\ a.2 < b.2).
Definition lex_le (a b : Z * Z) : Prop := a = b \/ lex_lt a b.

Definition gen_pair (g : orderNumberGenerator) : Z * Z := (lastUnixSecond g, sequence g).

Record sys_inv (s : sys) : Prop := {
  inv_seq : -1 <= sequence (gen s) <= maxOrderNumberSequence;
  inv_returned : forall i a b, calls s !! i = Some (Returned a b) ->
    0 <= b <= maxOrderNumberSequence /\ 0 <= sequence (gen s);
  inv_le : forall i a b, calls s !! i = Some (Returned a b) -> lex_le (a, b) (gen_pair (gen s));
  inv_unique : forall i j a b, calls s !! i = Some (Returned a b) ->
    calls s !! j = Some (Returned a b) -> i = j;
  inv_waiting : forall i l, calls s !! i = Some (Waiting l) ->
    l = lastUnixSecond (gen s) /\ 0 <= sequence (gen s) }.

(** A section either leaves the generator alone or issues a pair above
    everything issued before. *)
Lemma section_cases g c t g' c' :
  NextSection g c t = (g', c') -> -1 <= sequence g <= maxOrderNumberSequence ->
  (forall l, c = Waiting l -> l = lastUnixSecond g /\ 0 <= sequence g) ->
  (g' = g /\ ((exists a b, c = Returned a b /\ c' = c) \/
              (c' = Waiting (lastUnixSecond g) /\ 0 <= sequence g))) \/
  (c' = Returned (lastUnixSecond g') (sequence g') /\
   0 <= sequence g' <= maxOrderNumberSequence /\
   (sequence g = -1 \/ lex_lt (gen_pair g) (gen_pair g'))).
Proof.
  intros HN Hseq Hw.
  destruct c as [u|l|a b]; cbn [NextSection] in HN; change maxOrderNumberSequence with 4095 in *.
  - revert HN. set (u' := if u <? lastUnixSecond g then lastUnixSecond g else u).
    assert (lastUnixSecond g <= u') by (unfold u'; destruct (Z.ltb_spec u (lastUnixSecond g)); lia).
    destr_if; [|destr_if].
    + intros [= <- <-]. right. cbn. split_and!; [done|lia|lia|].
      apply orb_true_iff in Heqb as [?|?]; bool_norm; [by left|right; left; cbn; lia].
    + bool_norm. intros [= <- <-]. right. cbn. split_and!; [done|lia|lia|right; right; cbn; lia].
    + bool_norm. unfold waitTurn. change maxOrderNumberSequence with 4095 in *. destr_if; bool_norm.
      * intros [= <- <-]. right. cbn. split_and!; [done|lia|lia|right; left; cbn; lia].
      * intros [= <- <-]. left. split; [done|]. right. split; [done|lia].
  - destruct (Hw l eq_refl) as [-> ?]. unfold waitTurn in HN. destr_if; bool_norm.
    + injection HN as <- <-. right. cbn. split_and!; [done|lia|lia|right; left; cbn; lia].
    + injection HN as <- <-. left. split; [done|]. by right.
  - injection HN as <- <-. left. split; [done|]. left. eauto.
Qed.

Lemma sys_inv_init t : sys_inv (sys_init t).
Proof.
  split; cbn; [change maxOrderNumberSequence with 4095; lia|..]; intros *; rewrite lookup_nil; done.
Qed.

Lemma lex_lt_irrefl a : ~ lex_lt a a.
Proof. unfold lex_lt. lia. Qed.

Lemma lex_le_lt a b c : lex_le a b -> lex_lt b c -> lex_lt a c.
Proof. intros [->|H] H'; [done|]. unfold lex_lt in *. lia. Qed.

Lemma sys_inv_step s s' : exclusive_step s s' -> sys_inv s -> sys_inv s'.
Proof.
  destruct 1 as [g t t' cs Ht|g t cs now|g t cs i c g' c' Hi HN Hx]; intros [I1 I2 I3 I4 I5]; cbn in *.
  - by split.
  - assert (Hl : forall j d, (cs ++ [Entering (unix_sec now)]) !! j = Some d ->
      cs !! j = Some d \/ d = Entering (unix_sec now)).
    { intros j d Hj. apply lookup_app_Some in Hj as [Hj|[_ Hj]]; [by left|].
      apply list_lookup_singleton_Some in Hj as [_ <-]. by right. }
    split; cbn; [done| | | |].
    + intros j a b Hj. apply Hl in Hj as [Hj|?]; [eauto|done].
    + intros j a b Hj. apply Hl in Hj as [Hj|?]; [eauto|done].
    + intros j k a b Hj Hk. apply Hl in Hj as [Hj|?]; [|done]. apply Hl in Hk as [Hk|?]; [eauto|done].
    + intros j l Hj. apply Hl in Hj as [Hj|?]; [eauto|done].
  - assert (Hlk : forall j d, <[i := c']> cs !! j = Some d ->
      (j = i /\ d = c') \/ (j <> i /\ cs !! j = Some d)).
    { intros j d Hj. destruct (decide (j = i)) as [->|Hne].
      - rewrite list_lookup_insert_eq in Hj by (by eapply lookup_lt_Some). left. split; congruence.
      - rewrite list_lookup_insert_ne in Hj by done. by right. }
    apply section_cases in HN as [(-> & Hc)|(-> & Hs' & Hlt)]; [| |done|naive_solver].
    + assert (Hsame : forall j a b, <[i := c']> cs !! j = Some (Returned a b) ->
        cs !! j = Some (Returned a b)).
      { intros j a b Hj. destruct Hc as [(a' & b' & -> & ->)|[-> _]].
        - by rewrite list_insert_id in Hj by done.
        - apply Hlk in Hj as [[_ ?]|[_ ?]]; [done|done]. }
      split; cbn; [done|eauto..|].
      intros j l Hj. apply Hlk in Hj as [[-> <-]|[_ Hj]]; [|eauto].
      destruct Hc as [(? & ? & -> & ?)|[[= ->] ?]]; [done|done].
    + assert (Hold : forall j a b, j <> i -> cs !! j = Some (Returned a b) ->
        lex_lt (a, b) (gen_pair g')).
      { intros j a b Hne Hj. destruct Hlt as [Hm1|Hlt]; [|by eapply lex_le_lt; eauto].
        specialize (I2 _ _ _ Hj). lia. }
      split; cbn; [lia| | | |].
      * intros j a b Hj. apply Hlk in Hj as [[-> [= -> ->]]|[_ Hj]]; [lia|].
        specialize (I2 _ _ _ Hj). lia.
      * intros j a b Hj. apply Hlk in Hj as [[-> [= -> ->]]|[? Hj]]; [by left|]. right. eauto.
      * intros j k a b Hj Hk.
        apply Hlk in Hj as [[-> [= -> ->]]|[? Hj]]; apply Hlk in Hk as [[-> Hk]|[? Hk]];
          [done| |simplify_eq|eauto].
        -- by apply Hold, lex_lt_irrefl in Hk.
        -- by apply Hold, lex_lt_irrefl in Hj.
      * intros j l Hj. apply Hlk in Hj as [[-> ?]|[? Hj]]; [done|].
        by specialize (Hx _ _ Hj eq_refl).
Qed.

Lemma sys_inv_reachable t s : rtc exclusive_step (sys_init t) s -> sys_inv s.
Proof.
  intros H. remember (sys_init t) as s0. assert (Hi : sys_inv s0) by (subst; apply sys_inv_init).
  clear Heqs0. induction H; eauto using sys_inv_step.
Qed.

(** ** Saturating a second *)

(** [n] calls entering in the second [u] one after the other. *)
Lemma fill_second t u k :
  0 <= u -> 0 <= Z.of_nat k <= maxOrderNumberSequence ->
  exists cs, rtc step (sys_init t) (mkSys (mkGen u (Z.of_nat k)) t cs) /\ length cs = S k.
Proof.
  intros Hu. induction k as [|k IH]; intros Hk.
  - exists [Returned u 0]. split; [|done].
    eapply rtc_l; [apply (step_call _ _ _ (time_of_unix u))|].
    eapply rtc_l; [|reflexivity]. rewrite unix_of_unix.
    apply (step_run _ _ [Entering u] 0 (Entering u) (mkGen u 0) (Returned u 0)); [done|].
    unfold NextSection. cbn. by destruct (Z.ltb_spec u 0); [lia|].
  - change maxOrderNumberSequence with 4095 in *.
    destruct IH as (cs & Hr & Hlen); [lia|].
    exists (cs ++ [Returned u (Z.of_nat (S k))]). split; [|rewrite length_app; cbn; lia].
    eapply rtc_r; [eapply rtc_r; [exact Hr|apply (step_call _ _ _ (time_of_unix u))]|].
    rewrite unix_of_unix.
    replace (cs ++ [Returned u (Z.of_nat (S k))]) with
      (<[length cs := Returned u (Z.of_nat (S k))]> (cs ++ [Entering u])).
    2: { rewrite insert_app_r_alt by lia. by rewrite Nat.sub_diag. }
    eapply step_run; [by rewrite lookup_app_r, Nat.sub_diag by lia|].
    unfold NextSection. cbn [lastUnixSecond sequence].
    rewrite Z.ltb_irrefl. rewrite Z.ltb_irrefl. rewrite orb_false_r.
    change maxOrderNumberSequence with 4095.
    destruct (Z.eqb_spec (Z.of_nat k) (-1)); [lia|]. destruct (Z.ltb_spec (Z.of_nat k) 4095); [|lia].
    replace (Z.of_nat (S k)) with (Z.of_nat k + 1) by lia. done.
Qed.

(** From a saturated second, two callers that sleep and wake up together. *)
Lemma two_waiters_same_pair g cs t u :
  g = mkGen u maxOrderNumberSequence -> t = time_of_unix u ->
  exists s, rtc step (mkSys g t cs) s /\
    calls s !! length cs = Some (Returned (u + 1) 0) /\
    calls s !! S (length cs) = Some (Returned (u + 1) 0).
Proof.
  intros -> ->. set (gs := mkGen u maxOrderNumberSequence). set (n := length cs).
  pose (st a b := cs ++ [a; b]).
  assert (Hput0 : forall a b c, <[n := c]> (st a b) = st c b)
    by (intros; unfold st, n; rewrite insert_app_r_alt, Nat.sub_diag by lia; done).
  assert (Hput1 : forall a b c, <[S n := c]> (st a b) = st a c)
    by (intros; unfold st, n; rewrite insert_app_r_alt by lia;
        by replace (S (length cs) - length cs)%nat with 1%nat by lia).
  assert (Hget0 : forall a b, st a b !! n = Some a)
    by (intros; unfold st, n; by rewrite lookup_app_r, Nat.sub_diag by lia).
  assert (Hget1 : forall a b, st a b !! S n = Some b)
    by (intros; unfold st, n; rewrite lookup_app_r by lia;
        by replace (S (length cs) - length cs)%nat with 1%nat by lia).
  assert (Hsleep : NextSection gs (Entering u) (time_of_unix u) = (gs, Waiting u)).
  { unfold NextSection, gs, waitTurn. cbn [lastUnixSecond sequence].
    by rewrite unix_of_unix, !Z.ltb_irrefl. }
  assert (Hwake : forall g, NextSection g (Waiting u) (time_of_unix (u + 1))
    = (mkGen (u + 1) 0, Returned (u + 1) 0)).
  { intros g. unfold NextSection, waitTurn. rewrite unix_of_unix.
    by destruct (Z.ltb_spec u (u + 1)); [|lia]. }
  exists (mkSys (mkGen (u + 1) 0) (time_of_unix (u + 1)) (st (Returned (u + 1) 0) (Returned (u + 1) 0))).
  split; [|by cbn [calls]; rewrite Hget0, Hget1].
  eapply rtc_l; [apply (step_call _ _ _ (time_of_unix u))|].
  eapply rtc_l; [apply (step_call _ _ _ (time_of_unix u))|].
  rewrite unix_of_unix, <- app_assoc. change (cs ++ [Entering u] ++ [Entering u]) with (st (Entering u) (Entering u)).
  eapply rtc_l; [eapply (step_run _ _ _ n); [apply Hget0|apply Hsleep]|]. rewrite Hput0.
  eapply rtc_l; [eapply (step_run _ _ _ (S n)); [apply Hget1|apply Hsleep]|]. rewrite Hput1.
  eapply rtc_l; [apply (step_tick _ _ (time_of_unix (u + 1))); unfold time_of_unix, second; lia|].
  eapply rtc_l; [eapply (step_run _ _ _ n); [apply Hget0|apply Hwake]|]. rewrite Hput0.
  eapply rtc_l; [eapply (step_run _ _ _ (S n)); [apply Hget1|apply Hwake]|]. rewrite Hput1.
  reflexivity.
Qed.

(** Two calls one after the other in the second [u]. *)
Definition two_calls (u : Z) : sys :=
  mkSys (mkGen u 1) (time_of_unix u) [Returned u 0; Returned u 1].

Lemma two_calls_reachable u :
  0 <= u -> rtc exclusive_step (sys_init (time_of_unix u)) (two_calls u).
Proof.
  intros Hu. unfold two_calls.
  eapply rtc_l; [apply (xstep_call _ _ _ (time_of_unix u))|].
  eapply rtc_l; [apply (xstep_call _ _ _ (time_of_unix u))|].
  rewrite unix_of_unix. cbn [app].
  eapply rtc_l; [apply (xstep_run _ _ [Entering u; Entering u] 0 (Entering u) (mkGen u 0)
    (Returned u 0)); [done| |]|].
  { cbn. by destruct (Z.ltb_spec u 0); [lia|]. }
  { by intros [|[|]] d [= <-]. }
  eapply rtc_l; [apply (xstep_run _ _ [Returned u 0; Entering u] 1 (Entering u) (mkGen u 1)
    (Returned u 1)); [done| |]|].
  { cbn. by rewrite !Z.ltb_irrefl. }
  { by intros [|[|]] d [= <-]. }
  done.
Qed.

(** ** Properties *)

(** C36: order numbers are unique on exclusive schedules.  In every state reached
    by steps in which a call that waits for the next second is never overtaken,
    two different finished calls on the same worker returned different order
    numbers, whoever the users are and however the clock moved. *)
Theorem order_numbers_unique_exclusive t s i j ci cj ui uj worker ni nj :
  rtc exclusive_step (sys_init t) s ->
  calls s !! i = Some ci -> calls s !! j = Some cj -> i <> j ->
  NextResult ui worker ci = Some (Ok ni) -> NextResult uj worker cj = Some (Ok nj) ->
  ni <> nj.
Proof.
  intros Hr Hi Hj Hne Hni Hnj <-. apply sys_inv_reachable in Hr.
  destruct ci as [| |si qi], cj as [| |sj qj]; try done.
  injection Hni as Hni. injection Hnj as Hnj.
  destruct (build_order_number_eq _ _ _ _ _ _ _ _ _ Hni Hnj) as (Hs & _ & _ & <-).
  rewrite !unix_of_unix in Hs. subst sj. by eapply Hne, inv_unique.
Qed.

Lemma order_numbers_unique_exclusive_witness :
  exists ni nj,
    NextResult 42 7 (Returned 1770000000 0) = Some (Ok ni) /\
    NextResult 42 7 (Returned 1770000000 1) = Some (Ok nj) /\ ni <> nj.
Proof.
  destruct (NextResult 42 7 (Returned 1770000000 0)) as [[ni|]|] eqn:Ei;
    [|vm_compute in Ei; discriminate..].
  destruct (NextResult 42 7 (Returned 1770000000 1)) as [[nj|]|] eqn:Ej;
    [|vm_compute in Ej; discriminate..].
  exists ni, nj. split; [reflexivity|]. split; [reflexivity|].
  refine (order_numbers_unique_exclusive (time_of_unix 1770000000) (two_calls 1770000000) 0 1
    _ _ 42 42 7 ni nj _ eq_refl eq_refl _ Ei Ej); [|discriminate].
  apply two_calls_reachable. lia.
Defined.

(** The mutex does not protect the wait.  For every second [u] there is a
    run from the fresh generator (4096 calls in [u], two more that must wait
    for the next second and wake up in it) in which two different calls for
    the same user return the same order number. *)
Theorem concurrent_wait_duplicates u userID worker :
  0 <= u ->
  exists s i j ci cj,
    rtc step (sys_init (time_of_unix u)) s /\ i <> j /\
    calls s !! i = Some ci /\ calls s !! j = Some cj /\
    NextResult userID worker ci = NextResult userID worker cj /\
    NextResult userID worker ci = Some (BuildOrderNumber userID (time_of_unix (u + 1)) worker 0).
Proof.
  intros Hu. set (t := time_of_unix u).
  destruct (fill_second t u 4095 Hu) as (cs & Hr & Hlen);
    [change maxOrderNumberSequence with 4095; lia|].
  destruct (two_waiters_same_pair (mkGen u 4095) cs t u) as (s & Hs & Hi & Hj); [done..|].
  exists s, (length cs), (S (length cs)), (Returned (u + 1) 0), (Returned (u + 1) 0).
  split_and!; [by etrans|lia|done..].
Qed.

Lemma concurrent_wait_duplicates_witness :
  0 <= 1770000000 /\
  exists s i j ci cj,
    rtc step (sys_init (time_of_unix 1770000000)) s /\ i <> j /\
    calls s !! i = Some ci /\ calls s !! j = Some cj /\
    NextResult 42 7 ci = NextResult 42 7 cj /\
    NextResult 42 7 ci = Some (BuildOrderNumber 42 (time_of_unix (1770000000 + 1)) 7 0).
Proof. split; [lia|]. apply (concurrent_wait_duplicates 1770000000 42 7). lia. Defined.

(** C40: the wait ends.  When the sleeper wakes up at least [waitDuration] later,
    the next turn of the loop returns, with a second above the saturated one. *)
Theorem wait_turn_terminates g last current later :
  unix_sec current <= last -> last - unix_sec current < 2 ^ 30 ->
  current + waitDuration last current <= later ->
  0 < waitDuration last current /\
  waitTurn g last later = (mkGen (unix_sec later) 0, Returned (unix_sec later) 0) /\
  last < unix_sec later.
Proof.
  intros Hle Hfar Hlater.
  assert (Hwait : waitDuration last current = time_of_unix (last + 1) - current
    /\ current < time_of_unix (last + 1)).
  { unfold unix_sec, second in *.
    assert (Hd : 0 < time_of_unix (last + 1) - current <= 2 ^ 31 * second)
      by (unfold time_of_unix, second; Z.div_mod_to_equations; lia).
    unfold waitDuration, time_sub, min_int64, max_int64. unfold second in Hd.
    destruct (Z.ltb_spec (time_of_unix (last + 1) - current) (- 2 ^ 63)); [lia|].
    destruct (Z.ltb_spec (2 ^ 63 - 1) (time_of_unix (last + 1) - current)); [lia|].
    destruct (Z.leb_spec (time_of_unix (last + 1) - current) 0); lia. }
  destruct Hwait as [Hw Hlt].
  assert (Hs : last < unix_sec later).
  { unfold unix_sec. apply Z.lt_le_trans with (last + 1); [lia|].
    apply Z.div_le_lower_bound; [unfold second; lia|]. unfold time_of_unix in *. lia. }
  split_and!; [lia| |done]. unfold waitTurn. by destruct (Z.ltb_spec last (unix_sec later)); [|lia].
Qed.

Lemma wait_turn_terminates_witness :
  0 < waitDuration 1770000000 (time_of_unix 1770000000 + 250) /\
  waitTurn (mkGen 1770000000 4095) 1770000000 (time_of_unix 1770000001)
    = (mkGen 1770000001 0, Returned 1770000001 0) /\
  1770000000 < unix_sec (time_of_unix 1770000001).
Proof.
  apply (wait_turn_terminates (mkGen 1770000000 4095) 1770000000
    (time_of_unix 1770000000 + 250) (time_of_unix 1770000001));
    [vm_compute; discriminate | reflexivity | vm_compute; discriminate].
Defined.
