(* ===== verification/Effects.v ===== *)
(** * Errors and effects of the services

    [err] collects the error values the modelled code creates, compares and
    maps; [M] is the state-and-error monad the operations are written in, and
    [IO] adds what the code cannot control: a schedule of faults, drawn by
    every call that leaves the process, and the readings of the clock. *)
From Stdlib Require Import ZArith Lia Ascii String.
From stdpp Require Import base gmap sets list strings.
From S2P Require Import Prelude GoBase.
Open Scope string_scope.
Open Scope list_scope.
Open Scope Z_scope.

(** ** Errors *)

(** The sentinels of pkg/xerr/errors.go. *)
Inductive xerr :=
  | ErrInvalidParam | ErrUnauthorized | ErrInternal
  | ErrChannelNotFound | ErrLoginFailedTooMany | ErrInvalidPassword
  | ErrUserAlreadyExists | ErrUserNotFound | ErrMobileAlreadyUsed
  | ErrEmailAlreadyUsed | ErrTicketUserExists
  | ErrProgramShowTimeNotFound | ErrProgramTicketCategoryNotFound
  | ErrProgramInventoryPreheated | ErrSeatInventoryInsufficient
  | ErrSeatFreezeNotFound | ErrSeatFreezeRequestConflict
  | ErrSeatFreezeStatusInvalid | ErrProgramSeatLedgerNotReady
  | ErrOrderNotFound | ErrOrderExpired | ErrOrderAlreadyPaid
  | ErrOrderStatusInvalid | ErrOrderRefundNotAllowed
  | ErrOrderRefundWindowClosed | ErrOrderRefundRuleInvalid
  | ErrOrderTicketUserInvalid | ErrOrderPurchaseLimitExceeded
  | ErrOrderLimitLedgerNotReady | ErrOrderSubmitTooFrequent
  | ErrOrderOperateTooFrequent | ErrPayBillNotFound.

#[global] Instance xerr_eq_dec : EqDecision xerr.
Proof. solve_decision. Defined.

(** The text of a sentinel, which [status.Error(code, err.Error())] carries. *)
Definition xerr_text (x : xerr) : string :=
  match x with
  | ErrInvalidParam => "invalid param"
  | ErrUnauthorized => "unauthorized"
  | ErrInternal => "internal error"
  | ErrChannelNotFound => "channel not found"
  | ErrLoginFailedTooMany => "login failed too many times"
  | ErrInvalidPassword => "invalid password"
  | ErrUserAlreadyExists => "user already exists"
  | ErrUserNotFound => "user not found"
  | ErrMobileAlreadyUsed => "mobile already used"
  | ErrEmailAlreadyUsed => "email already used"
  | ErrTicketUserExists => "ticket user already exists"
  | ErrProgramShowTimeNotFound => "program show time not found"
  | ErrProgramTicketCategoryNotFound => "program ticket category not found"
  | ErrProgramInventoryPreheated => "program inventory already preheated"
  | ErrSeatInventoryInsufficient => "seat inventory insufficient"
  | ErrSeatFreezeNotFound => "seat freeze not found"
  | ErrSeatFreezeRequestConflict => "seat freeze request conflict"
  | ErrSeatFreezeStatusInvalid => "seat freeze status invalid"
  | ErrProgramSeatLedgerNotReady => "program seat ledger not ready"
  | ErrOrderNotFound => "order not found"
  | ErrOrderExpired => "order expired"
  | ErrOrderAlreadyPaid => "order already paid"
  | ErrOrderStatusInvalid => "order status invalid"
  | ErrOrderRefundNotAllowed => "order refund not allowed"
  | ErrOrderRefundWindowClosed => "order refund window closed"
  | ErrOrderRefundRuleInvalid => "order refund rule invalid"
  | ErrOrderTicketUserInvalid => "order ticket user invalid"
  | ErrOrderPurchaseLimitExceeded => "order purchase limit exceeded"
  | ErrOrderLimitLedgerNotReady => "order limit ledger not ready"
  | ErrOrderSubmitTooFrequent => "提交频繁，请稍后重试"
  | ErrOrderOperateTooFrequent => "订单处理中，请稍后重试"
  | ErrPayBillNotFound => "pay bill not found"
  end.

(** The gRPC codes the services answer with. *)
Inductive code :=
  | OKCode | CanceledCode | UnknownCode | InvalidArgument | DeadlineExceeded | NotFound
  | AlreadyExists | PermissionDenied | ResourceExhausted | FailedPrecondition
  | InternalCode | Unavailable | Unauthenticated.

#[global] Instance code_eq_dec : EqDecision code.
Proof. solve_decision. Defined.

(** An error value, up to the text of the errors nobody inspects:
    a sentinel, a gRPC status, the not-found error of the SQL layer,
    the context's and the network's errors, a MySQL error, a busy lock,
    an error of a parse or a third party, and an error of the seat-freeze step
    of the order consumer, which unwraps to its cause. *)
Inductive err :=
  | EX (x : xerr)
  | EStatus (c : code) (msg : string)
  | ENotFound
  | EDeadline
  | ECanceled
  | ENetTimeout
  | EMySQL (number : Z) (msg : string)
  | ELocked
  | EOther (msg : string)
  | ESeatFreeze (cause : err).

#[global] Instance err_eq_dec : EqDecision err.
Proof. solve_decision. Defined.

(** [errors.Is] follows [Unwrap]. *)
Fixpoint err_is (e target : err) : bool :=
  bool_decide (e = target) ||
  match e with ESeatFreeze cause => err_is cause target | _ => false end.

Definition err_is_x (e : err) (x : xerr) : bool := err_is e (EX x).

(** [status.Code(err)] of a non-nil error. *)
Fixpoint status_code (e : err) : code :=
  match e with EStatus c _ => c | ESeatFreeze cause => status_code cause | _ => UnknownCode end.

(** [status.Error(c, xerr.X.Error())]. *)
Definition statusX (c : code) (x : xerr) : err := EStatus c (xerr_text x).

(** ** The state-and-error monad *)

Definition M (S A : Type) : Type := S -> result err A * S.

#[global] Instance M_ret {S} : MRet (M S) := fun A a s => (Ok a, s).
#[global] Instance M_bind {S} : MBind (M S) := fun A B f m s =>
  match m s with
  | (Ok a, s') => f a s'
  | (Err e, s') => (Err e, s')
  end.

Definition throw {S A} (e : err) : M S A := fun s => (Err e, s).
Definition get {S} : M S S := fun s => (Ok s, s).
Definition put {S} (s : S) : M S unit := fun _ => (Ok tt, s).
Definition modify {S} (f : S -> S) : M S unit := fun s => (Ok tt, f s).
Definition lift {S A} (r : result err A) : M S A := fun s => (r, s).

(** [if err := m; err != nil { ... }]: the error as a value. *)
Definition attempt {S A} (m : M S A) : M S (result err A) :=
  fun s => let '(r, s') := m s in (Ok r, s').

(** Runs an operation on a component of the state. *)
Definition zoom {S T A} (proj : S -> T) (upd : T -> S -> S) (m : M T A) : M S A :=
  fun s => let '(r, t) := m (proj s) in (r, upd t s).

Lemma bind_unfold {S A B} (m : M S A) (f : A -> M S B) s :
  (m ≫= f) s = match m s with (Ok a, s') => f a s' | (Err e, s') => (Err e, s') end.
Proof. done. Qed.

(** A loop [for _, x := range xs { ... return err ... }]. *)
Fixpoint each {S A} (f : A -> M S unit) (xs : list A) : M S unit :=
  match xs with
  | [] => mret tt
  | x :: xs => _ ← f x; each f xs
  end.

Fixpoint each_map {S A B} (f : A -> M S B) (xs : list A) : M S (list B) :=
  match xs with
  | [] => mret []
  | x :: xs => y ← f x; ys ← each_map f xs; mret (y :: ys)
  end.

(** ** Preservation of a state predicate by an operation *)

Definition preserves {S A} (P : S -> Prop) (m : M S A) : Prop := forall s, P s -> P (m s).2.

Section preserves.
Context {S : Type} (P : S -> Prop).

Lemma preserves_ret {A} (a : A) : preserves P (mret a).
Proof. by intros s Hs. Qed.
Lemma preserves_throw {A} e : preserves P (throw e : M S A).
Proof. by intros s Hs. Qed.
Lemma preserves_get : preserves P get.
Proof. by intros s Hs. Qed.
Lemma preserves_lift {A} (r : result err A) : preserves P (lift r).
Proof. by intros s Hs. Qed.
Lemma preserves_bind {A B} (m : M S A) (f : A -> M S B) :
    preserves P m -> (forall a, preserves P (f a)) -> preserves P (m ≫= f).
Proof.
    intros Hm Hf s Hs. rewrite bind_unfold. specialize (Hm s Hs).
    destruct (m s) as [[a|e] s']; [by apply Hf|done].
Qed.
Lemma preserves_attempt {A} (m : M S A) : preserves P m -> preserves P (attempt m).
Proof. intros Hm s Hs. unfold attempt. specialize (Hm s Hs). by destruct (m s). Qed.
Lemma preserves_each {A} (f : A -> M S unit) xs :
    (forall x, preserves P (f x)) -> preserves P (each f xs).
Proof.
    intros Hf. induction xs as [|x xs IH]; cbn; [apply preserves_ret|].
    apply preserves_bind; [apply Hf|by intros _].
Qed.
Lemma preserves_each_map {A B} (f : A -> M S B) xs :
    (forall x, preserves P (f x)) -> preserves P (each_map f xs).
Proof.
    intros Hf. induction xs as [|x xs IH]; cbn; [apply preserves_ret|].
    apply preserves_bind; [apply Hf|]. intros y. apply preserves_bind; [done|].
    intros ys. apply preserves_ret.
Qed.
End preserves.

Lemma preserves_zoom {S T A} (P : S -> Prop) (Q : S -> T -> Prop) proj upd (m : M T A) :
  (forall s, P s -> Q s (proj s)) -> (forall s, P s -> preserves (Q s) m) ->
  (forall s t, P s -> Q s t -> P (upd t s)) -> preserves P (zoom proj upd m).
Proof.
  intros H1 H2 H3 s Hs. unfold zoom. specialize (H2 s Hs (proj s) (H1 s Hs)).
  destruct (m (proj s)) as [r t]. cbn in *. by apply H3.
Qed.

Create HintDb preserves.
#[export] Hint Resolve preserves_ret preserves_throw preserves_get preserves_lift
  preserves_bind preserves_attempt preserves_each preserves_each_map : preserves.

(** ** What the process does not control *)

(** Every call that leaves the process draws one fault: none, a failure before
    the peer acted, or a failure after it did (the answer is lost). *)
Inductive fault := NoFault | FailBefore (e : err) | FailAfter (e : err).

Record env := mkEnv { faults : list fault; ticks : list Z; wall : Z; xids : list Z }.

Notation IO S := (M (env * S)).

Definition draw (e : env) : fault * env :=
  match faults e with
  | [] => (NoFault, e)
  | f :: fs => (f, mkEnv fs (ticks e) (wall e) (xids e))
  end.

(** A call of a peer whose state is the second component. *)
Definition call {S A} (m : M S A) : IO S A := fun '(e, s) =>
  let '(f, e') := draw e in
  match f with
  | NoFault => let '(r, s') := m s in (r, (e', s'))
  | FailBefore x => (Err x, (e', s))
  | FailAfter x => (Err x, (e', (m s).2))
  end.

(** [time.Now()]: the clock never goes back. *)
Definition now {S} : IO S Z := fun '(e, s) =>
  match ticks e with
  | [] => (Ok (wall e), (e, s))
  | d :: ds => let w := wall e + Z.max 0 d in (Ok w, (mkEnv (faults e) ds w (xids e), s))
  end.

(** [xid.New()]: the next identifier of the process; it panics when the generator
    is not installed. *)
Definition newID {S} : IO S Z := fun '(e, s) =>
  match xids e with
  | [] => (Err (EOther "panic: xid not initialized"), (e, s))
  | i :: rest => (Ok i, (mkEnv (faults e) (ticks e) (wall e) rest, s))
  end.

(** [TransactCtx]: begin, body, commit.  A body that fails is rolled back; a commit
    may fail before or after it took effect. *)
Definition transact {S A} (body : IO S A) : IO S A := fun '(e, s) =>
  let '(f, e) := draw e in
  match f with
  | FailBefore x | FailAfter x => (Err x, (e, s))
  | NoFault =>
      match body (e, s) with
      | (Err x, (e, _)) => (Err x, (e, s))
      | (Ok a, (e, s')) =>
          let '(f, e) := draw e in
          match f with
          | NoFault => (Ok a, (e, s'))
          | FailBefore x => (Err x, (e, s))
          | FailAfter x => (Err x, (e, s'))
          end
      end
  end.

(** An operation on a component of the state, keeping the schedule. *)
Definition on {S T A} (proj : S -> T) (upd : T -> S -> S) (m : IO T A) : IO S A :=
  fun '(e, s) => let '(r, (e', t)) := m (e, proj s) in (r, (e', upd t s)).

(** A state predicate lifted to the schedule's state. *)
Definition keeps {S A} (P : S -> Prop) (m : IO S A) : Prop :=
  preserves (fun es => P es.2) m.

Lemma keeps_call {S A} (P : S -> Prop) (m : M S A) : preserves P m -> keeps P (call m).
Proof.
  intros Hm [e s] Hs. cbn in *. specialize (Hm s Hs). unfold call.
  destruct (draw e) as [[|x|x] e']; cbn; [|done|done]. by destruct (m s).
Qed.

Lemma keeps_now {S} (P : S -> Prop) : keeps P now.
Proof. intros [e s] Hs. cbn in *. unfold now. by destruct (ticks e). Qed.

Lemma keeps_newID {S} (P : S -> Prop) : keeps P newID.
Proof. intros [e s] Hs. cbn in *. unfold newID. by destruct (xids e). Qed.

Lemma keeps_transact {S A} (P : S -> Prop) (body : IO S A) : keeps P body -> keeps P (transact body).
Proof.
  intros Hb [e s] Hs. cbn in *. unfold transact.
  destruct (draw e) as [[|x|x] e1]; [|done|done].
  specialize (Hb (e1, s) Hs). destruct (body (e1, s)) as [[a|x] [e2 s2]]; [|done]. cbn in *.
  by destruct (draw e2) as [[|x|x] e3].
Qed.

(** Reading a successful run backwards. *)
Lemma bind_ok {S A B} (m : M S A) (f : A -> M S B) s b s' :
  (m ≫= f) s = (Ok b, s') <-> exists a s1, m s = (Ok a, s1) /\ f a s1 = (Ok b, s').
Proof.
  rewrite bind_unfold. destruct (m s) as [[a|x] s1]; split.
  - intros ?. by exists a, s1.
  - intros (a' & s2 & [= <- <-] & ?). done.
  - done.
  - by intros (? & ? & ? & ?).
Qed.

Lemma ret_ok {S A} (a b : A) (s s' : S) : (mret a : M S A) s = (Ok b, s') <-> a = b /\ s = s'.
Proof. split; [by intros [= -> ->]|by intros [-> ->]]. Qed.

Lemma attempt_ok {S A} (m : M S A) s r s' : attempt m s = (Ok r, s') -> m s = (r, s').
Proof. unfold attempt. destruct (m s). congruence. Qed.

Lemma throw_ok {S A} e (a : A) (s s' : S) : throw e s = (Ok a, s') <-> False.
Proof. done. Qed.

Lemma call_ok {S A} (m : M S A) e s a e' s' :
  call m (e, s) = (Ok a, (e', s')) -> m s = (Ok a, s').
Proof.
  unfold call. destruct (draw e) as [[|x|x] e1]; [|done|done].
  destruct (m s) as [r s1]. congruence.
Qed.

(** A call leaves the state alone or runs. *)
Lemma call_state {R A} (m : M R A) e r :
  (call m (e, r)).2.2 = r \/ (call m (e, r)).2.2 = (m r).2.
Proof.
  unfold call. destruct (draw e) as [[|x|x] e']; [|by left|by right].
  right. by destruct (m r).
Qed.

(** A read leaves the state alone, whatever happens to it. *)
Definition readonly {S A} (m : M S A) : Prop := forall s, (m s).2 = s.

Lemma call_readonly {S A} (m : M S A) e s r e' s' :
  readonly m -> call m (e, s) = (r, (e', s')) -> s' = s.
Proof.
  intros Hm E. pose proof (call_state m e s) as Hc. rewrite E in Hc. cbn in Hc.
  rewrite (Hm s) in Hc. by destruct Hc.
Qed.

Lemma newID_ok {S} e (s : S) i e' s' : newID (e, s) = (Ok i, (e', s')) -> s' = s.
Proof. unfold newID. destruct (xids e); congruence. Qed.

Lemma now_state {S} e (s : S) r e' s' : now (e, s) = (r, (e', s')) -> s' = s /\ exists t, r = Ok t.
Proof. unfold now. destruct (ticks e); intros [= <- <- <-]; eauto. Qed.

(** A transaction whose successful bodies preserve [P] preserves [P]. *)
Definition body_ok {S A} (P : S -> Prop) (body : IO S A) : Prop :=
  forall e s a e' s', P s -> body (e, s) = (Ok a, (e', s')) -> P s'.

Lemma transact_keeps {S A} (P : S -> Prop) (body : IO S A) : body_ok P body -> keeps P (transact body).
Proof.
  intros Hb [e s] Hs. cbn in *. unfold transact.
  destruct (draw e) as [[|x|x] e1]; [|done|done].
  destruct (body (e1, s)) as [[a|x] [e2 s2]] eqn:E; [|done]. apply Hb in E; [|done].
  by destruct (draw e2) as [[|x|x] e3].
Qed.

Lemma transact_ok {S A} (body : IO S A) e s a e' s' :
  transact body (e, s) = (Ok a, (e', s')) -> exists e1 e2, body (e1, s) = (Ok a, (e2, s')).
Proof.
  unfold transact. destruct (draw e) as [[|x|x] e1]; [|done|done].
  destruct (body (e1, s)) as [[b|x] [e2 s2]] eqn:E; [|done].
  destruct (draw e2) as [[|x|x] e3]; [|done|done]. intros [= <- <- <-]. eauto.
Qed.

(** *** Runs without faults *)

Lemma bind_ok_run {S A B} (m : M S A) (f : A -> M S B) s a s1 : m s = (Ok a, s1) -> (m ≫= f) s = f a s1.
Proof. intros E. by rewrite bind_unfold, E. Qed.
Lemma bind_err_run {S A B} (m : M S A) (f : A -> M S B) s x s1 : m s = (Err x, s1) -> (m ≫= f) s = (Err x, s1).
Proof. intros E. by rewrite bind_unfold, E. Qed.

(** The next reading of the clock. *)
Definition clock (e : env) : Z := match ticks e with [] => wall e | d :: _ => wall e + Z.max 0 d end.

Lemma now_run {S} e (s : S) : exists e', now (e, s) = (Ok (clock e), (e', s)) /\ faults e' = faults e /\ clock e <= clock e'.
Proof.
  unfold now, clock. destruct (ticks e) as [|d ds] eqn:E; [exists e; rewrite E; split_and!; [done|done|lia]|].
  eexists. split_and!; [reflexivity|done|]. cbn. destruct ds; lia.
Qed.

Lemma call_nofault {S A} (m : M S A) e s :
  faults e = [] -> call m (e, s) = ((m s).1, (e, (m s).2)).
Proof. intros He. unfold call, draw. rewrite He. by destruct (m s). Qed.

Lemma attempt_run {S A} (m : M S A) s : attempt m s = (Ok (m s).1, (m s).2).
Proof. unfold attempt. by destruct (m s). Qed.

Lemma attempt_call_bind {S A B} (m : M S A) (k : result err A -> M (env * S) B) e s :
  faults e = [] -> (attempt (call m) ≫= k) (e, s) = k (m s).1 (e, (m s).2).
Proof. intros He. cbv [mbind M_bind attempt]. by rewrite call_nofault by done. Qed.

Lemma call_bind {S A B} (m : M S A) (k : A -> M (env * S) B) e s a s' :
  faults e = [] -> m s = (Ok a, s') -> (call m ≫= k) (e, s) = k a (e, s').
Proof. intros He Hm. cbv [mbind M_bind]. rewrite call_nofault by done. by rewrite Hm. Qed.

Lemma newID_bind {S A} (k : Z -> M (env * S) A) f t w i ids (s : S) :
  (newID ≫= k) (mkEnv f t w (i :: ids), s) = k i (mkEnv f t w ids, s).
Proof. done. Qed.

Lemma transact_nofault {S A} (body : IO S A) e s r e' s' :
  faults e = [] -> body (e, s) = (r, (e', s')) -> faults e' = [] ->
  transact body (e, s) = (r, (e', if is_ok r then s' else s)).
Proof.
  intros He Hb He'. unfold transact, draw at 1. rewrite He, Hb.
  destruct r as [a|x]; [|done]. unfold draw. by rewrite He'.
Qed.

(** [if err != nil { return nil, mapError(err) }]. *)
Definition map_err {S A} (f : err -> err) (m : M S A) : M S A := fun s =>
  match m s with (Ok a, s') => (Ok a, s') | (Err e, s') => (Err (f e), s') end.

Lemma map_err_ok {S A} f (m : M S A) s a s' : map_err f m s = (Ok a, s') <-> m s = (Ok a, s').
Proof. unfold map_err. by destruct (m s) as [[b|x] s1]. Qed.

Lemma keeps_map_err {S A} (P : S -> Prop) f (m : IO S A) : keeps P m -> keeps P (map_err f m).
Proof.
  intros Hm es Hs. specialize (Hm es Hs). unfold map_err. by destruct (m es) as [[a|x] es'].
Qed.

Lemma keeps_bind {S A B} (P : S -> Prop) (m : IO S A) (f : A -> IO S B) :
  keeps P m -> (forall a, keeps P (f a)) -> keeps P (m ≫= f).
Proof. apply preserves_bind. Qed.

Lemma keeps_ret {S A} (P : S -> Prop) (a : A) : keeps P (mret a : IO S A).
Proof. apply preserves_ret. Qed.

Lemma keeps_throw {S A} (P : S -> Prop) x : keeps P (throw x : IO S A).
Proof. apply preserves_throw. Qed.

Lemma keeps_lift {S A} (P : S -> Prop) (r : result err A) : keeps P (lift r : IO S A).
Proof. apply preserves_lift. Qed.

Lemma keeps_attempt {S A} (P : S -> Prop) (m : IO S A) : keeps P m -> keeps P (attempt m).
Proof. apply preserves_attempt. Qed.

Lemma keeps_on {S T A} (P : S -> Prop) (Q : S -> T -> Prop) proj upd (m : IO T A) :
  (forall s, P s -> Q s (proj s)) -> (forall s, P s -> keeps (Q s) m) ->
  (forall s t, P s -> Q s t -> P (upd t s)) -> keeps P (on proj upd m).
Proof.
  intros H1 H2 H3 [e s] Hs. cbn in *. unfold on.
  specialize (H2 s Hs (e, proj s) (H1 s Hs)).
  destruct (m (e, proj s)) as [r [e' t]]. cbn in *. by apply H3.
Qed.

#[export] Hint Resolve keeps_call keeps_now keeps_newID keeps_transact keeps_ret keeps_throw keeps_lift keeps_attempt : preserves.

Lemma on_ok {S T A} (proj : S -> T) upd (m : IO T A) e s a e' s' :
  on proj upd m (e, s) = (Ok a, (e', s')) -> exists t, m (e, proj s) = (Ok a, (e', t)) /\ s' = upd t s.
Proof. unfold on. destruct (m (e, proj s)) as [r [e1 t]]. intros [= -> -> <-]. by exists t. Qed.
