(* ===== verification/Xid.v ===== *)
(** * Fresh identifiers  (pkg/xid)

    Each process has one generator, a snowflake node whose number comes from the
    configuration or from the ordinal of the pod.  The snowflake library is a class with
    what it documents: the bits of the node in an identifier, and identifiers that only
    grow.  The goroutines of a process take turns in any order; a call of [New] reads the
    global generator, looks whether it was closed and asks it, in steps of their own. *)
From Stdlib Require Import ZArith Lia Ascii String.
From stdpp Require Import base gmap list strings relations.
From S2P Require Import Prelude GoBase Effects.
Open Scope string_scope.
Open Scope list_scope.
Open Scope Z_scope.

(** ** config.go and the providers *)

Definition maxNodeID : Z := 1023.
Definition ProviderStatic : string := "static".
Definition ProviderKubernetes : string := "kubernetes".

Record Config := mkXidConfig {
  xc_Provider : string; xc_NodeID : Z; xc_ServiceBaseNodeID : Z; xc_MaxReplicas : Z; xc_PodName : string }.

Definition out_of_range : err := EOther "xid node id out of range".
Definition resolveStaticNodeID (cfg : Config) : result err Z :=
  if (xc_NodeID cfg <? 0) || (maxNodeID <? xc_NodeID cfg) then Err out_of_range else Ok (xc_NodeID cfg).

(** What stands before and after the last dash. *)
Fixpoint split_last_dash (s : string) : option (string * string) :=
  match s with
  | EmptyString => None
  | String c s' =>
      match split_last_dash s' with
      | Some (before, after) => Some (String c before, after)
      | None => if Ascii.eqb c "-" then Some ("", s') else None
      end
  end.

Definition invalid_pod_name : err := EOther "invalid kubernetes pod name: expected <name>-<ordinal>".
Definition parseOrdinal (name : string) : result err Z :=
  match split_last_dash name with
  | Some (String _ _, String c digits) =>
      match parse_int64 (String c digits) with
      | Some ordinal => if ordinal <? 0 then Err invalid_pod_name else Ok ordinal
      | None => Err invalid_pod_name
      end
  | _ => Err invalid_pod_name
  end.

(** [hostname] is what [os.Hostname] answers. *)
Definition pod_name (cfg : Config) (hostname : result err string) : result err string :=
  if bool_decide (xc_PodName cfg = "") then hostname else Ok (xc_PodName cfg).

Definition resolveKubernetesNodeID (cfg : Config) (hostname : result err string) : result err Z :=
  if (xc_ServiceBaseNodeID cfg <? 0) || (maxNodeID <? xc_ServiceBaseNodeID cfg) then Err out_of_range
  else if xc_MaxReplicas cfg <=? 0 then Err (EOther "xid max replicas must be > 0")
  else
    podName ← pod_name cfg hostname;
    ordinal ← parseOrdinal podName;
    if xc_MaxReplicas cfg <=? ordinal then Err (EOther "xid pod ordinal outside max replicas")
    else
      let nodeID := wrap64 (xc_ServiceBaseNodeID cfg + ordinal) in
      if maxNodeID <? nodeID then Err out_of_range else Ok nodeID.

Definition resolveNodeID (cfg : Config) (hostname : result err string) : result err Z :=
  if bool_decide (xc_Provider cfg = ProviderStatic) then resolveStaticNodeID cfg
  else if bool_decide (xc_Provider cfg = ProviderKubernetes) then resolveKubernetesNodeID cfg hostname
  else Err (EOther "unsupported xid provider").

(** ** github.com/bwmarrin/snowflake *)

(** The bits of an identifier: 41 of time, 10 of the node, 12 of a step. *)
Definition node_bits (id : Z) : Z := Z.land (Z.shiftr id 12) 1023.

Class Snowflake := {
  node : Type;
  NewNode : Z -> result err node;
  (** The clock at the call counts. *)
  Generate : time -> node -> Z * node }.
Class SnowflakeLaws `{Snowflake} := {
  node_number : node -> Z;
  last_id : node -> Z;
  new_node n nd : NewNode n = Ok nd -> 0 <= n <= 1023 /\ node_number nd = n;
  generate t nd : 0 <= node_number nd <= 1023 -> let '(id, nd') := Generate t nd in
    node_number nd' = node_number nd /\ node_bits id = node_number nd /\ last_id nd < id /\ last_id nd' = id }.

(** ** id.go *)

Section generator.
Context `{Snowflake}.

Record generator := mkGen { gn_node : node; gn_closed : bool }.

(** The generators a process has made, the global one, those that [New] has read and not
    asked yet, those that [newID] found open and has not asked yet, those that [Close] has
    taken and not closed yet, and what [New] has answered, with the generator it came from. *)
Record xid_process := mkXid {
  xd_heap : list generator; xd_gen : option nat; xd_asking : list nat; xd_open : list nat; xd_closing : list nat;
  xd_issued : list (nat * Z) }.
Definition xid_start : xid_process := mkXid [] None [] [] [] [].

Definition installGenerator (g : generator) (p : xid_process) : result err xid_process :=
  match xd_gen p with
  | Some _ => Err (EOther "xid already initialized")
  | None => Ok (mkXid (xd_heap p ++ [g]) (Some (length (xd_heap p))) (xd_asking p) (xd_open p) (xd_closing p) (xd_issued p))
  end.

Definition Init (cfg : Config) (hostname : result err string) (p : xid_process) : result err xid_process :=
  nodeID ← resolveNodeID cfg hostname;
  nd ← NewNode nodeID;
  installGenerator (mkGen nd false) p.

(** [New] reads the global generator, and panics when there is none; [newID] looks whether it
    was closed, upon which [New] panics too, and then asks the node: three steps, between
    which other goroutines go on.  The two halves of [Close]. *)
Definition new_read (p : xid_process) : option xid_process :=
  g ← xd_gen p; Some (mkXid (xd_heap p) (xd_gen p) (g :: xd_asking p) (xd_open p) (xd_closing p) (xd_issued p)).
Definition new_check (i : nat) (p : xid_process) : option xid_process :=
  g ← xd_asking p !! i;
  gen ← xd_heap p !! g;
  if gn_closed gen then None
  else Some (mkXid (xd_heap p) (xd_gen p) (delete i (xd_asking p)) (g :: xd_open p) (xd_closing p) (xd_issued p)).
Definition new_generate (t : time) (i : nat) (p : xid_process) : option xid_process :=
  g ← xd_open p !! i;
  gen ← xd_heap p !! g;
  let '(id, nd) := Generate t (gn_node gen) in
  Some (mkXid (<[g := mkGen nd (gn_closed gen)]> (xd_heap p)) (xd_gen p) (xd_asking p) (delete i (xd_open p)) (xd_closing p)
          (xd_issued p ++ [(g, id)])).
Definition close_take (p : xid_process) : xid_process :=
  mkXid (xd_heap p) None (xd_asking p) (xd_open p) (option_list (xd_gen p) ++ xd_closing p) (xd_issued p).
Definition close_mark (i : nat) (p : xid_process) : option xid_process :=
  g ← xd_closing p !! i;
  gen ← xd_heap p !! g;
  Some (mkXid (<[g := mkGen (gn_node gen) true]> (xd_heap p)) (xd_gen p) (xd_asking p) (xd_open p) (delete i (xd_closing p)) (xd_issued p)).

(** A step of one of the goroutines.  A panic ends the process. *)
Inductive xid_step (cfg : Config) (hostname : result err string) (p : xid_process) : xid_process -> Prop :=
  | xs_init p' : Init cfg hostname p = Ok p' -> xid_step cfg hostname p p'
  | xs_read p' : new_read p = Some p' -> xid_step cfg hostname p p'
  | xs_check i p' : new_check i p = Some p' -> xid_step cfg hostname p p'
  | xs_generate t i p' : new_generate t i p = Some p' -> xid_step cfg hostname p p'
  | xs_take : xid_step cfg hostname p (close_take p)
  | xs_mark i p' : close_mark i p = Some p' -> xid_step cfg hostname p p'.
End generator.

(** ** No two processes issue the same identifier *)

(** What an operator has to see to: static numbers and the ranges of the services do not
    overlap, and two pods of one service have different ordinals. *)
Definition node_range (cfg : Config) : Z * Z :=
  if bool_decide (xc_Provider cfg = ProviderStatic) then (xc_NodeID cfg, xc_NodeID cfg + 1)
  else (xc_ServiceBaseNodeID cfg, xc_ServiceBaseNodeID cfg + xc_MaxReplicas cfg).
Definition set_apart (a b : Config * result err string) : Prop :=
  snd (node_range a.1) <= fst (node_range b.1) \/ snd (node_range b.1) <= fst (node_range a.1) \/
  (xc_Provider a.1 = ProviderKubernetes /\ xc_Provider b.1 = ProviderKubernetes /\
   xc_ServiceBaseNodeID a.1 = xc_ServiceBaseNodeID b.1 /\
   forall x y, (pod_name a.1 a.2 ≫= parseOrdinal) = Ok x -> (pod_name b.1 b.2 ≫= parseOrdinal) = Ok y -> x <> y).

Lemma ordinal_range name o : parseOrdinal name = Ok o -> 0 <= o <= max_int64.
Proof.
  unfold parseOrdinal. destruct (split_last_dash name) as [[[|x b] [|c d]]|]; try done.
  destruct (parse_int64 (String c d)) as [v|] eqn:E; [|done]. destruct (Z.ltb_spec v 0); [done|]. intros [= <-].
  split; [done|]. unfold parse_int64 in E. apply bind_Some in E as (z & _ & E).
  destruct (in_int64 z) eqn:Ez; [|done]. injection E as <-. unfold in_int64 in Ez. bool_norm. lia.
Qed.

(** A kubernetes node that [NewNode] takes is the base and the ordinal: a sum beyond
    int64 is negative. *)
Lemma kubernetes_node cfg host n : resolveKubernetesNodeID cfg host = Ok n -> 0 <= n ->
  exists o, (pod_name cfg host ≫= parseOrdinal) = Ok o /\ n = xc_ServiceBaseNodeID cfg + o /\ 0 <= o < xc_MaxReplicas cfg.
Proof.
  unfold resolveKubernetesNodeID. destr_if; [done|]. destr_if; [done|].
  intros (name & Hn & Hr)%result_bind_ok Hpos. apply result_bind_ok in Hr as (o & Ho & Hr).
  exists o. rewrite Hn. cbn. split; [done|]. apply ordinal_range in Ho.
  destruct (Z.leb_spec (xc_MaxReplicas cfg) o); [done|]. revert Hr. destr_if; [done|]. intros [= <-].
  bool_norm. unfold maxNodeID in *. destruct (in_int64 (xc_ServiceBaseNodeID cfg + o)) eqn:E.
  - rewrite wrap64_id by done. lia.
  - exfalso. unfold wrap64, in_int64, min_int64, max_int64 in *.
    rewrite <- (Z.mod_add _ (-1)) in Hpos by lia. rewrite Z.mod_small in Hpos by (bool_norm; lia). bool_norm. lia.
Qed.

Section fleet.
Context `{SnowflakeLaws}.

Lemma init_node cfg host p p' : Init cfg host p = Ok p' -> exists n nd, resolveNodeID cfg host = Ok n /\ 0 <= n <= 1023 /\
  node_number nd = n /\ xd_gen p = None /\
  p' = mkXid (xd_heap p ++ [mkGen nd false]) (Some (length (xd_heap p))) (xd_asking p) (xd_open p) (xd_closing p) (xd_issued p).
Proof.
  unfold Init. intros (n & Hn & Hr)%result_bind_ok. apply result_bind_ok in Hr as (nd & Hd & Hr).
  apply new_node in Hd as [Hb Hd]. exists n, nd. unfold installGenerator in Hr. by destruct (xd_gen p); [|injection Hr as <-].
Qed.

(** Every identifier has the number of the process's node, and is the last its generator
    has issued or before it. *)
Record process_ok (n : Z) (p : xid_process) : Prop := {
  po_bound : 0 <= n <= 1023;
  po_heap : forall g gen, xd_heap p !! g = Some gen -> node_number (gn_node gen) = n;
  po_issued : forall g id, (g, id) ∈ xd_issued p -> node_bits id = n /\
    exists gen, xd_heap p !! g = Some gen /\ id <= last_id (gn_node gen);
  po_once : NoDup (xd_issued p) }.

(** Before the first [Init]. *)
Definition untouched (p : xid_process) : Prop := xd_heap p = [] /\ xd_issued p = [].

Lemma step_ok cfg host p p' : xid_step cfg host p p' -> untouched p \/ (exists n, resolveNodeID cfg host = Ok n /\ process_ok n p) ->
  untouched p' \/ (exists n, resolveNodeID cfg host = Ok n /\ process_ok n p').
Proof.
  intros Hs Hp. destruct Hs as [p' Hi|p' Hr|i p' Hc|t i p' Ha| |i p' Hm].
  - apply init_node in Hi as (n & nd & Hn & Hb & Hnd & _ & ->). right. exists n. split; [done|]. destruct Hp as [[Hh Hi]|(n' & Hn' & [_ Hh Hi Ho])].
    + split; cbn; [done| |by rewrite Hi; intros ?? ?%not_elem_of_nil|rewrite Hi; constructor].
      intros g gen. rewrite Hh. destruct g; [by intros [= <-]|done].
    + assert (n' = n) as -> by congruence. split; cbn; [done| | |done].
      * intros g gen. rewrite lookup_snoc_Some. intros [[_ Hg]|[_ <-]]; [by eapply Hh|done].
      * intros g id Hg. destruct (Hi _ _ Hg) as (? & gen & Hgen & Hle). split; [done|]. exists gen. split; [by apply lookup_app_l_Some|done].
  - unfold new_read in Hr. destruct (xd_gen p) as [g|]; [|done]. injection Hr as <-.
    destruct Hp as [?|(n & Hn & [? ? ? ?])]; [by left|right]. by exists n.
  - unfold new_check in Hc. apply bind_Some in Hc as (g & _ & Hc). apply bind_Some in Hc as (gen & _ & Hc).
    destruct (gn_closed gen); [done|]. injection Hc as <-. destruct Hp as [?|(n & Hn & [? ? ? ?])]; [by left|right]. by exists n.
  - unfold new_generate in Ha. apply bind_Some in Ha as (g & _ & Ha). apply bind_Some in Ha as (gen & Hg & Ha).
    destruct Hp as [[Hh _]|(n & Hn & [Hb Hh Hi Ho])]; [by rewrite Hh in Hg|right]. exists n. split; [done|].
    pose proof (Hh _ _ Hg) as Hnum.
    pose proof (generate t (gn_node gen)) as Hgen. rewrite Hnum in Hgen. specialize (Hgen Hb).
    destruct (Generate t (gn_node gen)) as [id nd]. destruct Hgen as (Hn1 & Hbits & Hlt & Hlast). injection Ha as <-. split; cbn.
    + done.
    + intros g' gen'. rewrite list_lookup_insert_Some. intros [(<- & <- & _)|[_ Hg']]; [done|by eapply Hh].
    + intros g' id'. rewrite elem_of_app, list_elem_of_singleton. intros [Hin|[= -> ->]].
      * destruct (Hi _ _ Hin) as (? & gen' & Hg' & Hle). split; [done|]. destruct (decide (g = g')) as [<-|Hne].
        -- eexists. rewrite list_lookup_insert_eq by by eapply lookup_lt_Some. split; [done|]. cbn. assert (gen' = gen) as -> by congruence. lia.
        -- exists gen'. by rewrite list_lookup_insert_ne.
      * split; [done|]. eexists. rewrite list_lookup_insert_eq by by eapply lookup_lt_Some. split; [done|]. cbn. lia.
    + apply NoDup_app. split_and!; [done| |apply NoDup_singleton]. intros x Hx ->%list_elem_of_singleton.
      destruct (Hi _ _ Hx) as (_ & gen' & Hg' & Hle). assert (gen' = gen) as -> by congruence. lia.
  - destruct Hp as [?|(n & Hn & [? ? ? ?])]; [by left|right]. by exists n.
  - unfold close_mark in Hm. apply bind_Some in Hm as (g & _ & Hm). apply bind_Some in Hm as (gen & Hg & Hm). injection Hm as <-.
    destruct Hp as [[Hh _]|(n & Hn & [Hb Hh Hi Ho])]; [by rewrite Hh in Hg|right]. exists n. split; [done|]. split; cbn; [done| | |done].
    + intros g' gen'. rewrite list_lookup_insert_Some. intros [(<- & <- & _)|[_ Hg']]; [exact (Hh _ _ Hg)|by eapply Hh].
    + intros g' id Hin. destruct (Hi _ _ Hin) as (? & gen' & Hg' & Hle). split; [done|]. destruct (decide (g = g')) as [<-|Hne].
      * eexists. rewrite list_lookup_insert_eq by by eapply lookup_lt_Some. split; [done|]. cbn. assert (gen' = gen) as -> by congruence. done.
      * exists gen'. by rewrite list_lookup_insert_ne.
Qed.

Lemma run_ok cfg host p : rtc (xid_step cfg host) xid_start p ->
  untouched p \/ (exists n, resolveNodeID cfg host = Ok n /\ process_ok n p).
Proof.
  intros Hr. assert (Hs : untouched xid_start \/ (exists n, resolveNodeID cfg host = Ok n /\ process_ok n xid_start)) by by left.
  induction Hr as [|x y z Hxy _ IH]; [done|]. by apply IH, (step_ok _ _ _ _ Hxy).
Qed.

(** The node of a process is in the range of its configuration. *)
Lemma resolved_in_range cfg host n : resolveNodeID cfg host = Ok n -> 0 <= n -> fst (node_range cfg) <= n < snd (node_range cfg).
Proof.
  unfold resolveNodeID, node_range. destr_if.
  - unfold resolveStaticNodeID. destr_if; [done|]. intros [= <-]. cbn. lia.
  - destr_if; [|done]. intros Hk Hn. destruct (kubernetes_node _ _ _ Hk Hn) as (o & _ & -> & Ho). cbn. lia.
Qed.

Lemma resolved_apart a b n m : set_apart a b -> resolveNodeID a.1 a.2 = Ok n -> resolveNodeID b.1 b.2 = Ok m -> 0 <= n -> 0 <= m -> n <> m.
Proof.
  intros Hs Ha Hb Hn Hm. pose proof (resolved_in_range _ _ _ Ha Hn). pose proof (resolved_in_range _ _ _ Hb Hm).
  destruct Hs as [?|[?|(Pa & Pb & Hbase & Ho)]]; [lia|lia|]. unfold resolveNodeID in Ha, Hb. rewrite Pa in Ha. rewrite Pb in Hb.
  cbn in Ha, Hb. apply kubernetes_node in Ha as (x & Hx & -> & _); [|done]. apply kubernetes_node in Hb as (y & Hy & -> & _); [|done].
  specialize (Ho x y Hx Hy). lia.
Qed.

(** C28: the identifiers of the whole system are fresh.  Let every process be given a
    configuration (and a host name), set apart from those of the others, and initialise
    its generator once.  Then, however its goroutines ask for identifiers and close the
    generator, and whatever the clocks show, no two identifiers that are issued, by one
    process or by two, are the same. *)
Theorem fleet_ids_fresh (fleet : list ((Config * result err string) * xid_process)) :
  (forall x, x ∈ fleet -> rtc (xid_step x.1.1 x.1.2) xid_start x.2 /\ (length (xd_heap x.2) <= 1)%nat) ->
  (forall i j x y, fleet !! i = Some x -> fleet !! j = Some y -> i <> j -> set_apart x.1 y.1) ->
  NoDup (fleet ≫= fun x => map snd (xd_issued x.2)).
Proof.
  intros Hrun Hapart. induction fleet as [|x fleet IH]; [constructor|]. cbn. apply NoDup_app. split_and!.
  - destruct (Hrun x) as [Hr Hl]; [by left|]. destruct (run_ok _ _ _ Hr) as [[_ ->]|(n & _ & [_ _ Hi Ho])]; [constructor|].
    apply NoDup_fmap_2_strong; [|done]. intros [g id] [g' id'] Hg Hg' Heq. cbn in Heq. subst id'.
    destruct (Hi _ _ Hg) as (_ & ? & Hh%lookup_lt_Some & _). destruct (Hi _ _ Hg') as (_ & ? & Hh'%lookup_lt_Some & _).
    f_equal. lia.
  - intros id Hid (y & Hid' & Hy)%list_elem_of_bind. apply list_elem_of_In, in_map_iff in Hid as ([g i] & <- & Hg%list_elem_of_In).
    apply list_elem_of_In, in_map_iff in Hid' as ([g' i'] & E & Hg'%list_elem_of_In). cbn in *. subst i'.
    destruct (Hrun x) as [Hr _]; [by left|]. destruct (Hrun y) as [Hr' _]; [by right|].
    destruct (run_ok _ _ _ Hr) as [[_ Hno]|(n & Hn & [Hb _ Hi _])]; [by rewrite Hno in Hg; apply not_elem_of_nil in Hg|].
    destruct (run_ok _ _ _ Hr') as [[_ Hno]|(m & Hm & [Hb' _ Hi' _])]; [by rewrite Hno in Hg'; apply not_elem_of_nil in Hg'|].
    apply list_elem_of_lookup in Hy as [j Hy]. apply (resolved_apart x.1 y.1 n m); [|done|done|lia|lia|].
    + by apply (Hapart 0%nat (S j)).
    + by rewrite <- (proj1 (Hi _ _ Hg)), <- (proj1 (Hi' _ _ Hg')).
  - apply IH; [intros y Hy; apply Hrun; by right|]. intros i j y z Hi Hj Hne. apply (Hapart (S i) (S j)); [done|done|congruence].
Qed.
End fleet.

(** ** A run *)

Section run.
Context `{Snowflake} (cfg : Config) (hostname : result err string).

Inductive xid_op := OpInit | OpRead | OpCheck (i : nat) | OpGenerate (t : time) (i : nat) | OpTake | OpMark (i : nat).
Definition xid_do (op : xid_op) (p : xid_process) : option xid_process :=
  match op with
  | OpInit => match Init cfg hostname p with Ok p' => Some p' | Err _ => None end
  | OpRead => new_read p
  | OpCheck i => new_check i p
  | OpGenerate t i => new_generate t i p
  | OpTake => Some (close_take p)
  | OpMark i => close_mark i p
  end.
Fixpoint xid_run (ops : list xid_op) (p : xid_process) : option xid_process :=
  match ops with [] => Some p | op :: ops => p' ← xid_do op p; xid_run ops p' end.

Lemma xid_do_step op p p' : xid_do op p = Some p' -> xid_step cfg hostname p p'.
Proof.
  destruct op; cbn; [|by apply xs_read|by apply xs_check|by apply xs_generate|by intros [= <-]; apply xs_take|by apply xs_mark].
  destruct (Init cfg hostname p) eqn:E; [intros [= <-]; by apply xs_init|done].
Qed.
Lemma xid_run_rtc ops p p' : xid_run ops p = Some p' -> rtc (xid_step cfg hostname) p p'.
Proof.
  revert p. induction ops as [|op ops IH]; intros p; cbn; [by intros [= <-]|].
  intros (q & Hq%xid_do_step & Hr)%bind_Some. eapply rtc_l; [done|by apply IH].
Qed.
End run.

(** A node with the tick it has used last: a millisecond and a step.  When the steps of a
    millisecond are used up, it goes on with the next one, as the library does by waiting. *)
Definition id_of (n tick : Z) : Z := tick / 4096 * 4194304 + n * 4096 + tick mod 4096.
Definition next_tick (t : time) (tick : Z) : Z :=
  let ms := t / millisecond in if tick / 4096 <? ms then ms * 4096 else tick + 1.
#[local] Instance mem_snowflake : Snowflake := {
  node := Z * Z;
  NewNode n := if (n <? 0) || (1023 <? n) then Err (EOther "Node number must be between 0 and 1023") else Ok (n, -1);
  Generate t nd := let tick := next_tick t nd.2 in (id_of nd.1 tick, (nd.1, tick)) }.

Lemma next_tick_later t tick : tick < next_tick t tick.
Proof.
  unfold next_tick. destruct (Z.ltb_spec (tick / 4096) (t / millisecond)); [|lia].
  pose proof (Z.div_mod tick 4096 ltac:(lia)). pose proof (Z.mod_pos_bound tick 4096 ltac:(lia)). lia.
Qed.
Lemma id_of_mono n x y : x < y -> id_of n x < id_of n y.
Proof.
  intros Hxy. unfold id_of. pose proof (Z.div_mod x 4096 ltac:(lia)). pose proof (Z.div_mod y 4096 ltac:(lia)).
  pose proof (Z.mod_pos_bound x 4096 ltac:(lia)). pose proof (Z.mod_pos_bound y 4096 ltac:(lia)). nia.
Qed.
Lemma id_of_bits n tick : 0 <= n <= 1023 -> node_bits (id_of n tick) = n.
Proof.
  intros Hn. unfold node_bits, id_of. rewrite Z.shiftr_div_pow2 by lia. change 1023 with (Z.ones 10).
  rewrite Z.land_ones by lia. change (2 ^ 12) with 4096. change (2 ^ 10) with 1024.
  replace (tick / 4096 * 4194304 + n * 4096 + tick mod 4096) with (tick mod 4096 + (tick / 4096 * 1024 + n) * 4096) by lia.
  rewrite Z.div_add by lia. rewrite (Z.div_small (tick mod 4096)) by (apply Z.mod_pos_bound; lia).
  rewrite Z.add_0_l, Z.add_comm, Z.mod_add by lia. apply Z.mod_small. lia.
Qed.
#[local] Instance mem_snowflake_laws : SnowflakeLaws.
Proof.
  refine {| node_number nd := (nd : Z * Z).1; last_id nd := id_of (nd : Z * Z).1 (nd : Z * Z).2 |}.
  - intros n nd. cbn. destruct ((n <? 0) || (1023 <? n)) eqn:E; [done|]. intros [= <-]. bool_norm. cbn. lia.
  - intros t nd Hn. cbn. split_and!; [done|by apply id_of_bits|apply id_of_mono, next_tick_later|done].
Defined.

(** order-rpc as etc/order.yaml has it, and the fourth pod of program-rpc. *)
Definition order_xid : Config := mkXidConfig "static" 256 0 0 "".
Definition program_xid : Config := mkXidConfig "kubernetes" 0 128 8 "".
Definition pod3 : result err string := Ok "program-rpc-3".
Definition at_ms (n : Z) : time := n * millisecond.
(** The third identifier of the first process comes from a generator closed meanwhile. *)
Definition ops1 : list xid_op :=
  [OpInit; OpRead; OpRead; OpCheck 1; OpCheck 0; OpGenerate (at_ms 5) 1; OpGenerate (at_ms 5) 0; OpRead; OpCheck 0; OpTake; OpMark 0;
   OpGenerate (at_ms 5) 0].
Definition ops2 : list xid_op := [OpInit; OpRead; OpCheck 0; OpGenerate (at_ms 5) 0; OpRead; OpCheck 0; OpGenerate (at_ms 4) 0].
Definition order_process : xid_process := default xid_start (xid_run order_xid (Ok "") ops1 xid_start).
Definition program_process : xid_process := default xid_start (xid_run program_xid pod3 ops2 xid_start).
Definition two_processes : list ((Config * result err string) * xid_process) :=
  [((order_xid, Ok ""), order_process); ((program_xid, pod3), program_process)].

Lemma order_runs : rtc (xid_step order_xid (Ok "")) xid_start order_process.
Proof.
  apply (xid_run_rtc order_xid (Ok "") ops1).
  exact (@eq_refl _ (Some order_process) <: xid_run order_xid (Ok "") ops1 xid_start = Some order_process).
Qed.
Lemma program_runs : rtc (xid_step program_xid pod3) xid_start program_process.
Proof.
  apply (xid_run_rtc program_xid pod3 ops2).
  exact (@eq_refl _ (Some program_process) <: xid_run program_xid pod3 ops2 xid_start = Some program_process).
Qed.

Lemma fleet_ids_fresh_witness :
  map (fun x => length (xd_issued x.2)) two_processes = [3%nat; 2%nat] /\ NoDup (two_processes ≫= fun x => map snd (xd_issued x.2)).
Proof.
  split; [exact (@eq_refl _ [3%nat; 2%nat] <: map (fun x => length (xd_issued x.2)) two_processes = [3%nat; 2%nat])|].
  apply (fleet_ids_fresh two_processes).
  - intros x [->|[->|H]%elem_of_cons]%elem_of_cons; [| |by apply not_elem_of_nil in H].
    + split; [exact order_runs|]. apply Nat.leb_le. exact (@eq_refl _ true <: (length (xd_heap order_process) <=? 1)%nat = true).
    + split; [exact program_runs|]. apply Nat.leb_le. exact (@eq_refl _ true <: (length (xd_heap program_process) <=? 1)%nat = true).
  - intros [|[|i]] [|[|j]] x y Hx Hy Hne; try done; injection Hx as <-; injection Hy as <-; unfold set_apart; cbn.
    + right. left. discriminate.
    + left. discriminate.
Defined.
