(* ===== verification/Sql.v ===== *)
(** * Statements on tables  (MySQL 8 in its default strict mode)

    A table is a list of rows or a map from primary keys to rows; a statement is an
    operation of [Effects.M] on it.  Here is what the tables of every service share:
    the rounding of a datetime column, the width of a varchar, rows selected by a
    WHERE clause, inserts that take every row or none, LIMIT. *)
From Stdlib Require Import ZArith Lia Ascii String.
From stdpp Require Import base list strings.
From S2P Require Import Prelude GoBase Effects.
Open Scope string_scope.
Open Scope list_scope.
Open Scope Z_scope.

(** A time in a datetime column. *)
Definition mysql_datetime (t : time) : time := (t + 500 * millisecond) / second * second.

Lemma mysql_datetime_idem t : mysql_datetime (mysql_datetime t) = mysql_datetime t.
Proof.
  unfold mysql_datetime, millisecond, second. set (q := (t + 500 * 1000000) / 1000000000).
  replace (q * 1000000000 + 500 * 1000000) with (500000000 + q * 1000000000) by lia. by rewrite Z.div_add by lia.
Qed.

Lemma mysql_datetime_mono t u : t <= u -> mysql_datetime t <= mysql_datetime u.
Proof.
  intros Htu. unfold mysql_datetime, second, millisecond. apply Z.mul_le_mono_nonneg_r; [lia|].
  apply Z.div_le_mono; lia.
Qed.

(** Changes the rows a WHERE clause selects. *)
Definition update_rows {A} (p : A -> bool) (f : A -> A) (rows : list A) : list A :=
  map (fun a => if p a then f a else a) rows.

(** A multi-row INSERT takes every row or none. *)
Fixpoint insert_each {A} (insert1 : A -> list A -> result err (list A)) (new rows : list A) : result err (list A) :=
  match new with
  | [] => Ok rows
  | a :: new => rows ← insert1 a rows; insert_each insert1 new rows
  end.
Definition insert_batch {A} (insert1 : A -> list A -> result err (list A)) (new : list A) : M (list A) unit :=
  fun rows => match insert_each insert1 new rows with
  | Ok rows' => (Ok tt, rows')
  | Err e => (Err e, rows)
  end.

Definition dup_entry {A} (key : string) : result err A := Err (EMySQL 1062 ("Duplicate entry for key " +:+ key)).
Definition too_long {A} (column : string) : result err A := Err (EMySQL 1406 column).
Definition out_of_range {A} (column : string) : result err A := Err (EMySQL 1264 column).

(** A varchar counts characters, a Go string bytes. *)
Fixpoint utf8_length (s : string) : nat :=
  match s with
  | EmptyString => 0
  | String (Ascii _ _ _ _ _ _ false true) s' => utf8_length s'
  | String _ s' => S (utf8_length s')
  end.
Definition fits (width : nat) (s : string) : bool := (utf8_length s <=? width)%nat.

(** [limit ? offset ?]: a negative number is a syntax error. *)
Definition limit_offset {A} (limit offset : Z) (l : list A) : result err (list A) :=
  if (limit <? 0) || (offset <? 0) then Err (EMySQL 1064 "limit")
  else Ok (take (Z.to_nat limit) (drop (Z.to_nat offset) l)).
