(* ===== verification/Redis.v ===== *)
(** * The Redis server, as the services see it

    Redis is not part of the repository: [RedisHash] lists the hash commands the
    scripts and the stores issue, [RedisHashLaws] what Redis documents about
    them, stated on the two observations HGETALL and TTL.  [MemRedis] is a
    concrete store that satisfies the laws; only witnesses use it. *)
From Stdlib Require Import ZArith Lia Ascii String.
From stdpp Require Import base gmap sets list strings.
From S2P Require Import Prelude GoBase Effects.
Open Scope string_scope.
Open Scope list_scope.
Open Scope Z_scope.

Notation hash := (gmap string string) (only parsing).

Class RedisHash (R : Type) := {
  hgetall : R -> string -> gmap string string;          (* HGETALL, empty when missing *)
  ttl : R -> string -> Z;                               (* TTL in seconds, -2 missing, -1 none *)
  hset : R -> string -> string -> string -> R;          (* HSET key field value *)
  hdel : R -> string -> string -> R;                    (* HDEL key field *)
  hincrby : R -> string -> string -> Z -> result err Z * R; (* HINCRBY key field delta *)
  expire : R -> string -> Z -> R;                       (* EXPIRE key seconds *)
  del : R -> string -> R;                               (* DEL key *)
  elapse : R -> Z -> R                                  (* seconds pass on the server *)
}.

(** HGET and EXISTS, read off HGETALL. *)
Definition hget `{RedisHash R} (r : R) (k f : string) : option string := hgetall r k !! f.
Definition exists_key `{RedisHash R} (r : R) (k : string) : bool :=
  negb (bool_decide (hgetall r k = ∅)).

(** HSET with several fields, and HMSET. *)
Fixpoint hset_all `{RedisHash R} (r : R) (k : string) (fvs : list (string * string)) : R :=
  match fvs with
  | [] => r
  | (f, v) :: fvs => hset_all (hset r k f v) k fvs
  end.

Definition hincr_value (h : gmap string string) (f : string) : option Z :=
  match h !! f with None => Some 0 | Some raw => parse_int64 raw end.

Class RedisHashLaws (R : Type) `{RedisHash R} := {
  hgetall_hset : forall r k f v k',
    hgetall (hset r k f v) k' = if decide (k = k') then <[f := v]> (hgetall r k') else hgetall r k';
  hgetall_hdel : forall r k f k',
    hgetall (hdel r k f) k' = if decide (k = k') then delete f (hgetall r k') else hgetall r k';
  hgetall_expire : forall r k s k', 0 < s -> hgetall (expire r k s) k' = hgetall r k';
  hgetall_del : forall r k k',
    hgetall (del r k) k' = if decide (k = k') then ∅ else hgetall r k';
  hincrby_eq : forall r k f d,
    hincrby r k f d =
      match hincr_value (hgetall r k) f with
      | Some n => if in_int64 (n + d) then (Ok (n + d), hset r k f (format_int (n + d)))
                  else (Err (EOther "increment or decrement would overflow"), r)
      | None => (Err (EOther "hash value is not an integer"), r)
      end;
  ttl_hset : forall r k f v k',
    (k' = k -> hgetall r k <> ∅) -> ttl (hset r k f v) k' = ttl r k';
  ttl_hdel : forall r k f k',
    (k' = k -> delete f (hgetall r k) <> ∅) -> ttl (hdel r k f) k' = ttl r k';
  ttl_expire : forall r k s k', 0 < s -> hgetall r k <> ∅ ->
    ttl (expire r k s) k' = if decide (k = k') then s else ttl r k';
  ttl_expire_missing : forall r k s k', 0 < s -> hgetall r k = ∅ -> ttl (expire r k s) k' = ttl r k';
  ttl_del_other : forall r k k', k <> k' -> ttl (del r k) k' = ttl r k';
  ttl_missing : forall r k, hgetall r k = ∅ -> ttl r k = -2;
  hgetall_elapse : forall r d k, 0 <= d ->
    hgetall (elapse r d) k = if decide (0 <= ttl r k <= d) then ∅ else hgetall r k;
  ttl_elapse : forall r d k, 0 <= d ->
    ttl (elapse r d) k =
      if decide (0 <= ttl r k) then (if decide (ttl r k <= d) then -2 else ttl r k - d) else ttl r k
}.

(** The contents of a hash after an HSET of several fields. *)
Definition put_fields (h : gmap string string) (fvs : list (string * string)) : gmap string string :=
  foldl (fun h fv => <[fv.1 := fv.2]> h) h fvs.

Section derived.
Context {R : Type} `{RedisHashLaws R}.

Lemma hgetall_hset_all r k fvs k' :
    hgetall (hset_all r k fvs) k' =
    if decide (k = k') then put_fields (hgetall r k') fvs else hgetall r k'.
Proof.
    unfold put_fields. revert r. induction fvs as [|[f v] fvs IH]; intros r; cbn; [by destruct (decide _)|].
    rewrite IH, hgetall_hset. by destruct (decide _).
Qed.

Lemma ttl_hset_all r k fvs k' :
    (k' = k -> hgetall r k <> ∅) -> ttl (hset_all r k fvs) k' = ttl r k'.
Proof.
    revert r. induction fvs as [|[f v] fvs IH]; intros r Hne; cbn; [done|].
    rewrite IH; [by apply ttl_hset|]. intros ->. rewrite hgetall_hset, decide_True by done.
    apply insert_non_empty.
Qed.

  (** EXPIRE guarded the way the scripts do. *)
Definition expire_if (r : R) (k : string) (s : Z) : R := if 0 <? s then expire r k s else r.

Lemma hgetall_expire_if r k s k' : hgetall (expire_if r k s) k' = hgetall r k'.
Proof. unfold expire_if. destruct (Z.ltb_spec 0 s); [by apply hgetall_expire|done]. Qed.

Lemma ttl_expire_if_other r k s k' : k <> k' -> ttl (expire_if r k s) k' = ttl r k'.
Proof.
    intros Hne. unfold expire_if. destruct (Z.ltb_spec 0 s); [|done].
    destruct (decide (hgetall r k = ∅)); [by rewrite ttl_expire_missing|].
    by rewrite ttl_expire, decide_False.
Qed.

Lemma ttl_expire_if_same r k s :
    0 < s -> hgetall r k <> ∅ -> ttl (expire_if r k s) k = s.
Proof.
    intros Hs Hne. unfold expire_if. destruct (Z.ltb_spec 0 s); [|lia].
    by rewrite ttl_expire, decide_True.
Qed.
End derived.

#[export] Hint Rewrite @hgetall_hset @hgetall_hdel @hgetall_hset_all @hgetall_expire_if
  using typeclasses eauto : redis.

(** ** A store in memory *)

Module MemRedis.

(** A hash and its deadline, in seconds of the server's clock. *)
Record mem := mkMem { cells : gmap string (gmap string string * option Z); clock : Z }.

Definition live (m : mem) (k : string) : option (gmap string string * option Z) :=
  match cells m !! k with
  | Some (h, dl) =>
      if decide (h = ∅) then None
      else match dl with
           | Some t => if clock m <? t then Some (h, dl) else None
           | None => Some (h, dl)
           end
  | None => None
  end.

Definition mem_hgetall (m : mem) (k : string) : gmap string string :=
  match live m k with Some (h, _) => h | None => ∅ end.
Definition mem_ttl (m : mem) (k : string) : Z :=
  match live m k with
  | Some (_, Some t) => t - clock m
  | Some (_, None) => -1
  | None => -2
  end.
Definition mem_put (m : mem) (k : string) (h : gmap string string) (dl : option Z) : mem :=
  mkMem (<[k := (h, dl)]> (cells m)) (clock m).
Definition mem_deadline (m : mem) (k : string) : option Z :=
  match live m k with Some (_, dl) => dl | None => None end.
Definition mem_hset (m : mem) (k f v : string) : mem :=
  mem_put m k (<[f := v]> (mem_hgetall m k)) (mem_deadline m k).
Definition mem_hdel (m : mem) (k f : string) : mem :=
  mem_put m k (delete f (mem_hgetall m k)) (mem_deadline m k).
Definition mem_expire (m : mem) (k : string) (s : Z) : mem :=
  mem_put m k (mem_hgetall m k) (Some (clock m + s)).
Definition mem_del (m : mem) (k : string) : mem := mem_put m k ∅ None.
Definition mem_elapse (m : mem) (d : Z) : mem := mkMem (cells m) (clock m + d).
Definition mem_hincrby (m : mem) (k f : string) (d : Z) : result err Z * mem :=
  match hincr_value (mem_hgetall m k) f with
  | Some n => if in_int64 (n + d) then (Ok (n + d), mem_hset m k f (format_int (n + d)))
              else (Err (EOther "increment or decrement would overflow"), m)
  | None => (Err (EOther "hash value is not an integer"), m)
  end.
Definition mem_empty : mem := mkMem ∅ 0.

#[export] Instance mem_redis : RedisHash mem := {
  hgetall := mem_hgetall; ttl := mem_ttl; hset := mem_hset; hdel := mem_hdel;
  hincrby := mem_hincrby; expire := mem_expire; del := mem_del; elapse := mem_elapse }.

Lemma live_put m k h dl k' :
  live (mem_put m k h dl) k' =
  if decide (k = k') then
    (if decide (h = ∅) then None
     else match dl with Some t => if clock m <? t then Some (h, dl) else None | None => Some (h, dl) end)
  else live m k'.
Proof.
  unfold live, mem_put. cbn. destruct (decide (k = k')) as [->|].
  - by rewrite lookup_insert_eq.
  - by rewrite lookup_insert_ne.
Qed.

Lemma live_deadline m k h t : live m k = Some (h, Some t) -> clock m < t.
Proof.
  unfold live. destruct (cells m !! k) as [[h' [t'|]]|]; [|by destruct (decide _)|done].
  destruct (decide _); [done|]. destruct (Z.ltb_spec (clock m) t'); [|done].
  by intros [= <- <-].
Qed.

Lemma live_nonempty m k h dl : live m k = Some (h, dl) -> h <> ∅.
Proof.
  unfold live. destruct (cells m !! k) as [[h' [t'|]]|]; [| |done];
    destruct (decide _); [done| |done|].
  - destruct (_ <? _); [|done]. by intros [= <- <-].
  - by intros [= <- <-].
Qed.

Lemma hgetall_put m k h dl k' :
  (forall t, dl = Some t -> clock m < t) ->
  mem_hgetall (mem_put m k h dl) k' = if decide (k = k') then h else mem_hgetall m k'.
Proof.
  intros Hdl. unfold mem_hgetall. rewrite live_put. destruct (decide (k = k')); [|done].
  destruct (decide (h = ∅)) as [->|]; [done|]. destruct dl as [t|]; [|done].
  specialize (Hdl t eq_refl). by destruct (Z.ltb_spec (clock m) t); [|lia].
Qed.

Lemma deadline_ok m k t : mem_deadline m k = Some t -> clock m < t.
Proof.
  unfold mem_deadline. destruct (live m k) as [[h dl]|] eqn:E; [|done]. intros ->.
  by eapply live_deadline.
Qed.

Lemma ttl_put m k h dl k' :
  (forall t, dl = Some t -> clock m < t) ->
  mem_ttl (mem_put m k h dl) k' =
  if decide (k = k') then
    (if decide (h = ∅) then -2 else match dl with Some t => t - clock m | None => -1 end)
  else mem_ttl m k'.
Proof.
  intros Hdl. unfold mem_ttl. rewrite live_put. destruct (decide (k = k')); [|done].
  destruct (decide (h = ∅)) as [->|]; [done|]. destruct dl as [t|]; [|done].
  specialize (Hdl t eq_refl). by destruct (Z.ltb_spec (clock m) t); [|lia].
Qed.

Lemma hgetall_live m k : mem_hgetall m k <> ∅ ->
  exists dl, live m k = Some (mem_hgetall m k, dl) /\ mem_deadline m k = dl.
Proof.
  unfold mem_hgetall, mem_deadline. destruct (live m k) as [[h dl]|]; [eauto|done].
Qed.

Lemma ttl_of_deadline m k : mem_hgetall m k <> ∅ ->
  mem_ttl m k = match mem_deadline m k with Some t => t - clock m | None => -1 end.
Proof.
  unfold mem_ttl, mem_hgetall, mem_deadline. destruct (live m k) as [[h [t|]]|]; done.
Qed.

Lemma live_elapse m d k : 0 <= d ->
  live (mem_elapse m d) k = if decide (0 <= mem_ttl m k <= d) then None else live m k.
Proof.
  intros Hd. destruct (live m k) as [[h dl]|] eqn:E.
  - pose proof (live_deadline m k h) as Hdl. unfold mem_ttl. rewrite E.
    unfold live, mem_elapse in *. cbn. destruct (cells m !! k) as [[h' dl']|]; [|done].
    destruct (decide (h' = ∅)); [done|]. destruct dl' as [t|].
    + destruct (Z.ltb_spec (clock m) t); [|done]. injection E as <- <-.
      specialize (Hdl t eq_refl).
      destruct (Z.ltb_spec (clock m + d) t); destruct (decide _); lia || done.
    + injection E as <- <-. by destruct (decide _); [lia|].
  - unfold mem_ttl. rewrite E. rewrite decide_False by lia.
    unfold live, mem_elapse in *. cbn. destruct (cells m !! k) as [[h' [t|]]|]; [|done|done].
    destruct (decide _); [done|]. destruct (Z.ltb_spec (clock m) t); [done|].
    by destruct (Z.ltb_spec (clock m + d) t); [lia|].
Qed.

#[export] Instance mem_redis_laws : RedisHashLaws mem.
Proof.
  split; cbn.
  - intros. unfold mem_hset. rewrite hgetall_put by eauto using deadline_ok.
    by destruct (decide (k = k')) as [->|].
  - intros. unfold mem_hdel. rewrite hgetall_put by eauto using deadline_ok.
    by destruct (decide (k = k')) as [->|].
  - intros. unfold mem_expire. rewrite hgetall_put by (intros ? [= <-]; lia).
    by destruct (decide (k = k')) as [->|].
  - intros. unfold mem_del. by rewrite hgetall_put.
  - done.
  - intros r k f v k' Hne. unfold mem_hset. rewrite ttl_put by eauto using deadline_ok.
    destruct (decide (k = k')) as [->|]; [|done].
    rewrite decide_False by apply insert_non_empty. by rewrite ttl_of_deadline by auto.
  - intros r k f k' Hne. unfold mem_hdel. rewrite ttl_put by eauto using deadline_ok.
    destruct (decide (k = k')) as [->|]; [|done].
    specialize (Hne eq_refl). rewrite decide_False by done. rewrite ttl_of_deadline; [done|].
    intros E. by rewrite E, delete_empty in Hne.
  - intros r k s k' Hs Hne. unfold mem_expire. rewrite ttl_put by (intros ? [= <-]; lia).
    destruct (decide (k = k')); [|done]. rewrite decide_False by done. lia.
  - intros r k s k' Hs He. unfold mem_expire. rewrite ttl_put by (intros ? [= <-]; lia).
    destruct (decide (k = k')) as [->|]; [|done]. rewrite decide_True by done.
    unfold mem_ttl, mem_hgetall in *. destruct (live r k') as [[h dl]|] eqn:E; [|done].
    subst. by apply live_nonempty in E.
  - intros r k k' Hne. unfold mem_del. rewrite ttl_put by done. by rewrite decide_False.
  - intros r k He. unfold mem_ttl, mem_hgetall in *. destruct (live r k) as [[h dl]|] eqn:E; [|done].
    subst. by apply live_nonempty in E.
  - intros r d k Hd. unfold mem_hgetall. rewrite live_elapse by done. by destruct (decide _).
  - intros r d k Hd. unfold mem_ttl at 1. rewrite live_elapse by done.
    destruct (decide (0 <= mem_ttl r k <= d)) as [[H1 H2]|Hn].
    + by rewrite decide_True, decide_True by done.
    + unfold mem_ttl in *. destruct (live r k) as [[h [t|]]|] eqn:E; [|done|done].
      pose proof (live_deadline _ _ _ _ E). cbn.
      destruct (decide (0 <= t - clock r)); [|lia]. destruct (decide _); lia.
Qed.

End MemRedis.
