(* ===== verification/RushRecord.v ===== *)
(** * Rush attempts: keys, records and their text form
    (services/order-rpc/internal/rush: attempt_state.go, attempt_keys.go,
    attempt_record.go and the parsing half of attempt_store.go) *)
From Stdlib Require Import ZArith Lia Ascii String Sorted.
From stdpp Require Import base gmap sets list strings sorting.
From S2P Require Import Prelude GoBase Effects Redis.
Open Scope string_scope.
Open Scope list_scope.
Open Scope Z_scope.

(** ** attempt_state.go *)

Definition AttemptStatePending : string := "PENDING".
Definition AttemptStateProcessing : string := "PROCESSING".
Definition AttemptStateSuccess : string := "SUCCESS".
Definition AttemptStateFailed : string := "FAILED".

Definition AttemptReasonOrderCommitted : string := "ORDER_COMMITTED".
Definition AttemptReasonQuotaExhausted : string := "QUOTA_EXHAUSTED".
Definition AttemptReasonSeatExhausted : string := "SEAT_EXHAUSTED".
Definition AttemptReasonClosedOrderReleased : string := "CLOSED_ORDER_RELEASED".
Definition AttemptReasonAlreadyHasActiveOrder : string := "ALREADY_HAS_ACTIVE_ORDER".

Definition PollOrderStatusProcessing : Z := 1.
Definition PollOrderStatusSuccess : Z := 3.
Definition PollOrderStatusFailed : Z := 4.

Inductive AttemptTransitionOutcome :=
  | AttemptTransitioned | AttemptAlreadyFailed | AttemptAlreadySucceeded
  | AttemptLostOwnership | AttemptStateMissing.

#[global] Instance outcome_eq_dec : EqDecision AttemptTransitionOutcome.
Proof. solve_decision. Defined.

Definition outcome_text (o : AttemptTransitionOutcome) : string :=
  match o with
  | AttemptTransitioned => "transitioned"
  | AttemptAlreadyFailed => "already_failed"
  | AttemptAlreadySucceeded => "already_succeeded"
  | AttemptLostOwnership => "lost_ownership"
  | AttemptStateMissing => "state_missing"
  end.

Definition AdmitDecisionRejected : Z := 0.
Definition AdmitDecisionAccepted : Z := 1.
Definition AdmitDecisionReused : Z := 2.

Definition AdmitRejectNone : Z := 0.
Definition AdmitRejectUserInflightConflict : Z := 1001.
Definition AdmitRejectViewerInflightConflict : Z := 1002.
Definition AdmitRejectQuotaExhausted : Z := 1003.

(** ** attempt_keys.go *)

Definition defaultAttemptPrefix : string := "livepass:order:rush".

Definition rushScopeTag (showTimeID : Z) : string := "{st:" +:+ format_int showTimeID +:+ "}".

Definition attemptRecordKey (prefix : string) (showTimeID orderNumber : Z) : string :=
  prefix +:+ ":attempt:" +:+ rushScopeTag showTimeID +:+ ":" +:+ format_int orderNumber.
Definition userInflightKey (prefix : string) (showTimeID : Z) : string :=
  prefix +:+ ":user_inflight:" +:+ rushScopeTag showTimeID.
Definition viewerInflightKey (prefix : string) (showTimeID : Z) : string :=
  prefix +:+ ":viewer_inflight:" +:+ rushScopeTag showTimeID.
Definition userActiveKey (prefix : string) (showTimeID : Z) : string :=
  prefix +:+ ":user_active:" +:+ rushScopeTag showTimeID.
Definition viewerActiveKey (prefix : string) (showTimeID : Z) : string :=
  prefix +:+ ":viewer_active:" +:+ rushScopeTag showTimeID.
Definition quotaAvailableKey (prefix : string) (showTimeID : Z) : string :=
  prefix +:+ ":quota:" +:+ rushScopeTag showTimeID.

(** ** attempt_record.go *)

Record AttemptRecord := mkAttemptRecord {
  ar_OrderNumber : Z; ar_UserID : Z; ar_ProgramID : Z; ar_ShowTimeID : Z;
  ar_TicketCategoryID : Z; ar_ViewerIDs : list Z; ar_TicketCount : Z;
  ar_SaleWindowEndAt : Z; ar_ShowEndAt : Z;
  ar_State : string; ar_ReasonCode : string;
  ar_AcceptedAt : Z; ar_FinishedAt : Z; ar_ProcessingStartedAt : Z;
  ar_CreatedAt : Z; ar_LastTransitionAt : Z }.

(** [switch record.State] of [MapAttemptRecordToPoll]; the clock it reads is not used. *)
Definition MapAttemptRecordToPoll (record : option AttemptRecord) : result err (Z * bool) :=
  match record with
  | None => Err (EX ErrInvalidParam)
  | Some record =>
      if bool_decide (ar_State record = AttemptStatePending) ||
         bool_decide (ar_State record = AttemptStateProcessing) then Ok (PollOrderStatusProcessing, false)
      else if bool_decide (ar_State record = AttemptStateSuccess) then Ok (PollOrderStatusSuccess, true)
      else if bool_decide (ar_State record = AttemptStateFailed) then Ok (PollOrderStatusFailed, true)
      else Err (EOther "unknown attempt state")
  end.

Fixpoint parse_csv_parts (parts : list string) : result err (list Z) :=
  match parts with
  | [] => Ok []
  | part :: parts =>
      let part := trim_space part in
      if bool_decide (part = "") then parse_csv_parts parts
      else match parse_int64 part with
           | None => Err (EOther "strconv.ParseInt")
           | Some v => vs ← parse_csv_parts parts; Ok (v :: vs)
           end
  end.

Definition parseInt64CSV (raw : string) : result err (list Z) :=
  if bool_decide (raw = "") then Ok [] else parse_csv_parts (split_on "," raw).

(** The values not seen before, in order: the [seen] map of the loops. *)
Fixpoint keep_new (seen : gset Z) (values : list Z) : list Z :=
  match values with
  | [] => []
  | v :: values =>
      if bool_decide (v ∈ seen) then keep_new seen values
      else v :: keep_new ({[v]} ∪ seen) values
  end.

Definition formatInt64CSV (values : list Z) : string :=
  join "," (map format_int (keep_new ∅ values)).

(** ** The parsing helpers of attempt_store.go *)

(** What a script hands back to Go as [any]. *)
Inductive rval := RInt (z : Z) | RStr (s : string) | RArr (l : list rval).

Definition parse_int64_err (s : string) : result err Z :=
  of_option (EOther "strconv.ParseInt") (parse_int64 s).

Definition parseEvalInt64 (v : rval) : result err Z :=
  match v with
  | RInt z => Ok z
  | RStr s => parse_int64_err s
  | RArr _ => Err (EOther "unsupported eval result type")
  end.

Definition parseEvalInt64AllowBlank (v : rval) : result err Z :=
  match v with
  | RStr "" => Ok 0
  | _ => parseEvalInt64 v
  end.

Definition parseEvalArray (v : rval) : result err (list rval) :=
  match v with RArr l => Ok l | _ => Err (EOther "unexpected eval array type") end.

Definition parseEvalString (v : rval) : result err string :=
  match v with RStr s => Ok s | _ => Err (EOther "unsupported eval string type") end.

Definition outcome_of_text (raw : string) : option AttemptTransitionOutcome :=
  if bool_decide (raw = "transitioned") then Some AttemptTransitioned
  else if bool_decide (raw = "already_failed") then Some AttemptAlreadyFailed
  else if bool_decide (raw = "already_succeeded") then Some AttemptAlreadySucceeded
  else if bool_decide (raw = "lost_ownership") then Some AttemptLostOwnership
  else if bool_decide (raw = "state_missing") then Some AttemptStateMissing
  else None.

Definition parseAttemptTransitionOutcome (v : rval) : result err AttemptTransitionOutcome :=
  raw ← parseEvalString v;
  of_option (EOther "unknown attempt transition outcome") (outcome_of_text raw).

(** A millisecond field as a time: non-positive values are the zero time. *)
Definition time_of_ms (ms : Z) : Z := if ms <=? 0 then zero_time else time_of_unix_milli ms.

Definition parsePreparedTime (v : rval) : result err Z :=
  raw ← parseEvalString v;
  if bool_decide (raw = "") then Ok zero_time
  else ms ← parse_int64_err raw; Ok (time_of_ms ms).

Definition parseFieldInt64 (fields : gmap string string) (key : string) : result err Z :=
  match fields !! key with
  | None => Ok 0
  | Some raw => if bool_decide (raw = "") then Ok 0 else parse_int64_err raw
  end.

Definition parseFieldTime (fields : gmap string string) (key : string) : result err Z :=
  match fields !! key with
  | None => Ok zero_time
  | Some raw => if bool_decide (raw = "") then Ok zero_time
                else ms ← parse_int64_err raw; Ok (time_of_ms ms)
  end.

(** [fields[key]] of a Go map: the zero value when missing. *)
Definition field (fields : gmap string string) (key : string) : string := default "" (fields !! key).

Definition mapAttemptRecord (fields : gmap string string) : result err AttemptRecord :=
  orderNumber ← parseFieldInt64 fields "order_number";
  userID ← parseFieldInt64 fields "user_id";
  programID ← parseFieldInt64 fields "program_id";
  showTimeID ← parseFieldInt64 fields "show_time_id";
  let showTimeID := if showTimeID <=? 0 then programID else showTimeID in
  ticketCategoryID ← parseFieldInt64 fields "ticket_category_id";
  ticketCount ← parseFieldInt64 fields "ticket_count";
  viewerIDs ← parseInt64CSV (field fields "viewer_ids");
  acceptedAt ← parseFieldTime fields "accepted_at";
  finishedAt ← parseFieldTime fields "finished_at";
  saleWindowEndAt ← parseFieldTime fields "sale_window_end_at";
  showEndAt ← parseFieldTime fields "show_end_at";
  processingStartedAt ← parseFieldTime fields "processing_started_at";
  createdAt ← parseFieldTime fields "created_at";
  lastTransitionAt ← parseFieldTime fields "last_transition_at";
  Ok {| ar_OrderNumber := orderNumber; ar_UserID := userID; ar_ProgramID := programID;
        ar_ShowTimeID := showTimeID; ar_TicketCategoryID := ticketCategoryID;
        ar_ViewerIDs := viewerIDs; ar_TicketCount := ticketCount;
        ar_SaleWindowEndAt := saleWindowEndAt; ar_ShowEndAt := showEndAt;
        ar_State := field fields "state"; ar_ReasonCode := field fields "reason_code";
        ar_AcceptedAt := acceptedAt; ar_FinishedAt := finishedAt;
        ar_ProcessingStartedAt := processingStartedAt;
        ar_CreatedAt := createdAt; ar_LastTransitionAt := lastTransitionAt |}.

(** [values[i]]; the caller has checked the length. *)
Definition at_index (values : list rval) (i : nat) : rval := nth i values (RStr "").

Definition mapPreparedAttemptRecord (values : list rval) : result err AttemptRecord :=
  state ← parseEvalString (at_index values 1);
  orderNumber ← parseEvalInt64AllowBlank (at_index values 2);
  userID ← parseEvalInt64AllowBlank (at_index values 3);
  programID ← parseEvalInt64AllowBlank (at_index values 4);
  showTimeID ← parseEvalInt64AllowBlank (at_index values 5);
  ticketCategoryID ← parseEvalInt64AllowBlank (at_index values 6);
  viewerIDsRaw ← parseEvalString (at_index values 7);
  viewerIDs ← parseInt64CSV viewerIDsRaw;
  ticketCount ← parseEvalInt64AllowBlank (at_index values 8);
  saleWindowEndAt ← parsePreparedTime (at_index values 9);
  showEndAt ← parsePreparedTime (at_index values 10);
  reasonCode ← parseEvalString (at_index values 11);
  acceptedAt ← parsePreparedTime (at_index values 12);
  finishedAt ← parsePreparedTime (at_index values 13);
  processingStartedAt ← parsePreparedTime (at_index values 14);
  createdAt ← parsePreparedTime (at_index values 15);
  lastTransitionAt ← parsePreparedTime (at_index values 16);
  Ok {| ar_OrderNumber := orderNumber; ar_UserID := userID; ar_ProgramID := programID;
        ar_ShowTimeID := showTimeID; ar_TicketCategoryID := ticketCategoryID;
        ar_ViewerIDs := viewerIDs; ar_TicketCount := ticketCount;
        ar_SaleWindowEndAt := saleWindowEndAt; ar_ShowEndAt := showEndAt;
        ar_State := state; ar_ReasonCode := reasonCode;
        ar_AcceptedAt := acceptedAt; ar_FinishedAt := finishedAt;
        ar_ProcessingStartedAt := processingStartedAt;
        ar_CreatedAt := createdAt; ar_LastTransitionAt := lastTransitionAt |}.

(** ** Lifetimes *)

Definition defaultAttemptInFlightTTL : Z := 30 * second.
Definition defaultAttemptFinalTTL : Z := 30 * minute.

Definition maxInt (a b : Z) : Z := if b <? a then a else b.

(** [value / time.Second] rounded up, at least one second. *)
Definition durationToSeconds (value defaultValue : Z) : Z :=
  let value := if value <=? 0 then defaultValue else value in
  let seconds := Z.quot value second in
  let seconds := if negb (Z.rem value second =? 0) then seconds + 1 else seconds in
  if seconds <=? 0 then 1 else seconds.

Definition computeAttemptRecordTTLSeconds (now saleWindowEndAt fallback : Z) : Z :=
  let fallback := if fallback <=? 0 then seconds_trunc defaultAttemptFinalTTL else fallback in
  if is_zero_time now || is_zero_time saleWindowEndAt then fallback
  else maxInt fallback (seconds_trunc (time_sub saleWindowEndAt now) + 2 * 60 * 60).

Definition computeActiveProjectionTTLSeconds (now showEndAt : Z) : Z :=
  let retention := 7 * 24 * 60 * 60 in
  if is_zero_time now || is_zero_time showEndAt then retention
  else maxInt retention (seconds_trunc (time_sub showEndAt now) + retention).

(** [normalizedInt64s]: positive values once each, ascending. *)
Fixpoint keep_positive_new (seen : gset Z) (values : list Z) : list Z :=
  match values with
  | [] => []
  | v :: values =>
      if v <=? 0 then keep_positive_new seen values
      else if bool_decide (v ∈ seen) then keep_positive_new seen values
      else v :: keep_positive_new ({[v]} ∪ seen) values
  end.

Definition normalizedInt64s (values : list Z) : list Z :=
  merge_sort Z.le (keep_positive_new ∅ values).

(** ** Key spaces *)

Lemma rushScopeTag_inj a b : rushScopeTag a = rushScopeTag b -> a = b.
Proof.
  unfold rushScopeTag. intros E. apply sapp_inj_l in E.
  by apply (format_sep_inj a b "}" "" "") in E as [-> _].
Qed.

Lemma attemptRecordKey_inj p st1 o1 st2 o2 :
  attemptRecordKey p st1 o1 = attemptRecordKey p st2 o2 -> st1 = st2 /\ o1 = o2.
Proof.
  unfold attemptRecordKey, rushScopeTag. intros E. do 2 apply sapp_inj_l in E.
  rewrite !sapp_assoc in E. apply sapp_inj_l in E.
  apply (format_sep_inj st1 st2 "}") in E as [-> E]; [|done].
  split; [done|]. injection E as E. by apply format_int_inj.
Qed.

(** The five hashes a show keeps besides its attempts. *)
Inductive ledger := UserActive | UserInflight | ViewerActive | ViewerInflight | Quota.

#[global] Instance ledger_eq_dec : EqDecision ledger.
Proof. solve_decision. Defined.

Definition ledgerKey (p : string) (st : Z) (l : ledger) : string :=
  match l with
  | UserActive => userActiveKey p st
  | UserInflight => userInflightKey p st
  | ViewerActive => viewerActiveKey p st
  | ViewerInflight => viewerInflightKey p st
  | Quota => quotaAvailableKey p st
  end.

Lemma ledgerKey_inj p st1 l1 st2 l2 :
  ledgerKey p st1 l1 = ledgerKey p st2 l2 -> st1 = st2 /\ l1 = l2.
Proof.
  destruct l1, l2; cbn;
    unfold userActiveKey, userInflightKey, viewerActiveKey, viewerInflightKey, quotaAvailableKey;
    intros E; apply sapp_inj_l in E; cbn in E; try discriminate E;
    repeat (injection E as E); (split; [|done]);
    by apply (format_sep_inj st1 st2 "}" "" "") in E as [-> _].
Qed.

Lemma ledgerKey_not_record p st1 l st2 o : ledgerKey p st1 l <> attemptRecordKey p st2 o.
Proof.
  destruct l; cbn;
    unfold userActiveKey, userInflightKey, viewerActiveKey, viewerInflightKey, quotaAvailableKey,
      attemptRecordKey;
    intros E; apply sapp_inj_l in E; discriminate E.
Qed.

(** ** Viewer lists *)

Lemma elem_of_keep_positive_new seen l x :
  x ∈ keep_positive_new seen l <-> x ∈ l /\ 0 < x /\ x ∉ seen.
Proof.
  revert seen. induction l as [|v l IH]; intros seen; cbn.
  { rewrite elem_of_nil. naive_solver. }
  destruct (Z.leb_spec v 0); [rewrite IH, elem_of_cons; naive_solver lia|].
  case_bool_decide as Hin.
  - rewrite IH, elem_of_cons. naive_solver.
  - rewrite !elem_of_cons, IH. destruct (decide (x = v)) as [->|]; set_solver.
Qed.

Lemma NoDup_keep_positive_new seen l : NoDup (keep_positive_new seen l).
Proof.
  revert seen. induction l as [|v l IH]; intros seen; cbn; [constructor|].
  destruct (v <=? 0); [done|]. case_bool_decide; [done|]. constructor; [|done].
  rewrite elem_of_keep_positive_new. set_solver.
Qed.

#[local] Instance Zle_total : Total Z.le.
Proof. intros x y. lia. Qed.

Lemma elem_of_normalized l x : x ∈ normalizedInt64s l <-> x ∈ l /\ 0 < x.
Proof.
  unfold normalizedInt64s. rewrite merge_sort_Permutation, elem_of_keep_positive_new. set_solver.
Qed.

Lemma keep_positive_new_length seen l : (length (keep_positive_new seen l) <= length l)%nat.
Proof.
  revert seen. induction l as [|v l IH]; intros seen; cbn; [lia|].
  destruct (v <=? 0); [specialize (IH seen); lia|]. case_bool_decide; [specialize (IH seen); lia|].
  cbn. specialize (IH ({[v]} ∪ seen)). lia.
Qed.

Lemma normalized_length l : (length (normalizedInt64s l) <= length l)%nat.
Proof.
  unfold normalizedInt64s. rewrite merge_sort_Permutation. apply keep_positive_new_length.
Qed.

Lemma NoDup_normalized l : NoDup (normalizedInt64s l).
Proof. unfold normalizedInt64s. rewrite merge_sort_Permutation. apply NoDup_keep_positive_new. Qed.

Lemma Sorted_normalized l : Sorted Z.le (normalizedInt64s l).
Proof. apply Sorted_merge_sort, _. Qed.

Lemma keep_positive_new_id seen l :
  NoDup l -> Forall (fun x => 0 < x /\ x ∉ seen) l -> keep_positive_new seen l = l.
Proof.
  revert seen. induction l as [|v l IH]; intros seen; [done|].
  rewrite NoDup_cons, Forall_cons. intros [Hv Hnd] [[Hpos Hnin] Hall]. cbn.
  destruct (Z.leb_spec v 0); [lia|]. rewrite bool_decide_eq_false_2 by done.
  f_equal. apply IH; [done|]. rewrite Forall_forall in *. set_solver.
Qed.

Lemma normalized_idemp l : normalizedInt64s (normalizedInt64s l) = normalizedInt64s l.
Proof.
  unfold normalizedInt64s at 1. rewrite keep_positive_new_id.
  - apply (Sorted_unique Z.le); [apply Sorted_merge_sort, _|apply Sorted_normalized|].
    apply merge_sort_Permutation.
  - apply NoDup_normalized.
  - apply Forall_forall. intros x Hx%elem_of_normalized. set_solver.
Qed.

(** ** CSV *)

Lemma keep_new_id seen l : NoDup l -> Forall (fun x => x ∉ seen) l -> keep_new seen l = l.
Proof.
  revert seen. induction l as [|v l IH]; intros seen; [done|].
  rewrite NoDup_cons, Forall_cons. intros [Hv Hnd] [Hnin Hall]. cbn.
  rewrite bool_decide_eq_false_2 by done.
  f_equal. apply IH; [done|]. rewrite Forall_forall in *. set_solver.
Qed.

Lemma formatInt64CSV_nodup l : NoDup l -> formatInt64CSV l = join "," (map format_int l).
Proof.
  intros Hnd. unfold formatInt64CSV. rewrite keep_new_id; [done..|].
  apply Forall_true. set_solver.
Qed.

Lemma split_formatInt64CSV l :
  NoDup l -> l <> [] -> split_on "," (formatInt64CSV l) = map format_int l.
Proof.
  intros Hnd Hne. rewrite formatInt64CSV_nodup by done. apply split_join.
  - by destruct l.
  - apply Forall_forall. intros x Hx. apply list_elem_of_fmap in Hx as (z & -> & _).
    by apply format_int_no.
Qed.

Lemma parse_csv_parts_format l :
  Forall (fun z => in_int64 z = true) l -> parse_csv_parts (map format_int l) = Ok l.
Proof.
  induction 1 as [|z l Hz _ IH]; [done|]. cbn [map parse_csv_parts].
  rewrite trim_space_nospace by apply format_int_nospace.
  rewrite bool_decide_eq_false_2 by apply format_int_nonempty.
  rewrite parse_format by done. by rewrite IH.
Qed.

Lemma formatInt64CSV_nonempty l : NoDup l -> l <> [] -> formatInt64CSV l <> "".
Proof.
  intros Hnd Hne E. pose proof (split_formatInt64CSV l Hnd Hne) as Hs. rewrite E in Hs.
  destruct l as [|z [|]]; try done. injection Hs as Hs. by apply (format_int_nonempty z).
Qed.

Lemma parseInt64CSV_format l :
  NoDup l -> Forall (fun z => in_int64 z = true) l -> parseInt64CSV (formatInt64CSV l) = Ok l.
Proof.
  intros Hnd Hr. unfold parseInt64CSV. destruct (decide (l = [])) as [->|Hne]; [done|].
  rewrite bool_decide_eq_false_2 by by apply formatInt64CSV_nonempty.
  rewrite split_formatInt64CSV by done. by apply parse_csv_parts_format.
Qed.
