(* ===== verification/RushStore.v ===== *)
(** * The rush attempt store  (services/order-rpc/internal/rush/attempt_store.go)

    Each method of [AttemptStore] validates its arguments, computes lifetimes and
    keys, runs one Lua script and decodes the answer.  The scripts beside the Go
    file are translated command by command; a script runs alone on the server,
    so it is a function of the store.  Lua's [tonumber] is modelled on decimal
    integers, the only numbers the store writes. *)
From Stdlib Require Import ZArith Lia Ascii String.
From stdpp Require Import base gmap sets list strings.
From S2P Require Import Prelude GoBase Effects Redis RushRecord.
Open Scope string_scope.
Open Scope list_scope.
Open Scope Z_scope.

(** ** Lua *)

(** A Lua number is a double. *)
Definition lua_tonumber (s : string) : option Z := z ← parse_int64 s; Some (f64 z).

(** [tonumber(s) or 0]. *)
Definition lua_num (s : string) : Z := default 0 (lua_tonumber s).

(** [string.gmatch(csv, "([^,]+)")]. *)
Definition csv_values (csv : string) : list string :=
  filter (fun x => x <> "") (split_on "," csv).

(** A marker a script found: [HGET] gave a non-empty string. *)
Definition marker `{RedisHash R} (r : R) (k f : string) : option string :=
  match hget r k f with
  | Some v => if bool_decide (v = "") then None else Some v
  | None => None
  end.

(** The first marker among the fields: the loops over [viewerIDs]. *)
Fixpoint first_marker `{RedisHash R} (r : R) (k : string) (fs : list string) : option string :=
  match fs with
  | [] => None
  | f :: fs => match marker r k f with Some v => Some v | None => first_marker r k fs end
  end.

Fixpoint hset_each `{RedisHash R} (r : R) (k : string) (fs : list string) (v : string) : R :=
  match fs with [] => r | f :: fs => hset_each (hset r k f v) k fs v end.
Fixpoint hdel_each `{RedisHash R} (r : R) (k : string) (fs : list string) : R :=
  match fs with [] => r | f :: fs => hdel_each (hdel r k f) k fs end.

(** The loops that delete a viewer from two hashes. *)
Fixpoint hdel_each2 `{RedisHash R} (r : R) (k1 k2 : string) (fs : list string) : R :=
  match fs with [] => r | f :: fs => hdel_each2 (hdel (hdel r k1 f) k2 f) k1 k2 fs end.

Section scripts.
Context {R : Type} `{RedisHash R}.

(** A script that does not fail on the server. *)
Definition pure_script (f : R -> rval * R) : M R rval := fun r => let '(v, r') := f r in (Ok v, r').

(** admit_attempt.lua *)
Definition admitAttemptScript (k1 k2 k3 k4 k5 k6 orderNo userID programID showTimeID
    ticketCategoryID ticketCountArg saleWindowEndAt showEndAt nowUnixMs inFlightTTLArg
    pendingAttemptTTLArg projectionTTLArg viewerIDsCSV : string) : M R rval := fun r =>
  let ticketCount := lua_num ticketCountArg in
  let viewerIDs := csv_values viewerIDsCSV in
  if exists_key r k1 then
    (Ok (RArr [RInt 2; RStr (default orderNo (hget r k1 "order_number")); RInt 0]), r)
  else match marker r k2 userID with
  | Some activeOrderNo => (Ok (RArr [RInt 0; RStr activeOrderNo; RInt 1001]), r)
  | None =>
  match first_marker r k4 viewerIDs with
  | Some viewerActiveOrderNo => (Ok (RArr [RInt 0; RStr viewerActiveOrderNo; RInt 1002]), r)
  | None =>
  match marker r k3 userID with
  | Some existingOrderNo => (Ok (RArr [RInt 0; RStr existingOrderNo; RInt 1001]), r)
  | None =>
  match first_marker r k5 viewerIDs with
  | Some viewerInflightOrderNo => (Ok (RArr [RInt 0; RStr viewerInflightOrderNo; RInt 1002]), r)
  | None =>
  match hget r k6 ticketCategoryID ≫= lua_tonumber with
  | None => (Ok (RArr [RInt 0; RInt 0; RInt 1003]), r)
  | Some quota =>
    if quota <? ticketCount then (Ok (RArr [RInt 0; RInt 0; RInt 1003]), r)
    else
      match hincrby r k6 ticketCategoryID (- ticketCount) with
      | (Err e, r) => (Err e, r)
      | (Ok _, r) =>
        let r := expire_if r k6 (lua_num projectionTTLArg) in
        let r := hset_all r k1
          [("order_number", orderNo); ("user_id", userID); ("program_id", programID);
           ("show_time_id", showTimeID); ("ticket_category_id", ticketCategoryID);
           ("viewer_ids", viewerIDsCSV); ("ticket_count", format_int ticketCount);
           ("sale_window_end_at", saleWindowEndAt); ("state", "PENDING"); ("reason_code", "");
           ("accepted_at", nowUnixMs); ("finished_at", format_int 0); ("show_end_at", showEndAt);
           ("created_at", nowUnixMs); ("last_transition_at", nowUnixMs)] in
        let r := expire_if r k1 (lua_num pendingAttemptTTLArg) in
        let r := hset r k3 userID orderNo in
        let r := hset_each r k5 viewerIDs orderNo in
        let r := expire_if r k3 (lua_num inFlightTTLArg) in
        let r := expire_if r k5 (lua_num inFlightTTLArg) in
        (Ok (RArr [RInt 1; RStr orderNo; RInt 0]), r)
      end
  end end end end end.

Definition prepared_fields : list string :=
  ["order_number"; "user_id"; "program_id"; "show_time_id"; "ticket_category_id"; "viewer_ids";
   "ticket_count"; "sale_window_end_at"; "show_end_at"; "reason_code"; "accepted_at"; "finished_at";
   "processing_started_at"; "created_at"; "last_transition_at"].

(** prepare_attempt_for_consume.lua *)
Definition prepareAttemptForConsumeScript (k1 nowArg processingTTLArg : string) : M R rval :=
  pure_script (fun r =>
  let t := ttl r k1 in
  if t <=? 0 then (RArr [RInt t], r)
  else
    let state := default "" (hget r k1 "state") in
    let '(shouldProcess, state, r) :=
      if bool_decide (state = "PENDING") then
        let r := hset_all r k1 [("state", "PROCESSING"); ("processing_started_at", nowArg);
                                ("last_transition_at", nowArg)] in
        let r := expire_if r k1 (lua_num processingTTLArg) in
        (1, "PROCESSING", r)
      else (0, state, r) in
    (RArr (RInt shouldProcess :: RStr state
           :: map (fun f => RStr (default "" (hget r k1 f))) prepared_fields), r)).

(** fail_before_processing.lua *)
Definition failBeforeProcessingScript (k1 k2 k3 k4 reason userID viewersCSV ticketCategoryID
    ticketCountArg nowArg finalTTLArg projectionTTLArg inflightTTLArg : string) : M R rval := fun r =>
  if negb (exists_key r k1) then (Ok (RStr "state_missing"), r)
  else
    let state := hget r k1 "state" in
    if bool_decide (state = Some "FAILED") then (Ok (RStr "already_failed"), r)
    else if bool_decide (state = Some "SUCCESS") || bool_decide (state = Some "PROCESSING")
    then (Ok (RStr "lost_ownership"), r)
    else if negb (bool_decide (state = Some "PENDING")) then (Ok (RStr "state_missing"), r)
    else
      let r := hset_all r k1 [("state", "FAILED"); ("reason_code", reason);
                              ("finished_at", nowArg); ("last_transition_at", nowArg)] in
      let ticketCount := lua_num ticketCountArg in
      match (if 0 <? ticketCount then hincrby r k4 ticketCategoryID ticketCount else (Ok 0, r)) with
      | (Err e, r) => (Err e, r)
      | (Ok _, r) =>
        let r := hdel r k2 userID in
        let r := hdel_each r k3 (csv_values viewersCSV) in
        let r := expire_if r k4 (lua_num projectionTTLArg) in
        let r := expire_if r k2 (lua_num inflightTTLArg) in
        let r := expire_if r k3 (lua_num inflightTTLArg) in
        let r := expire_if r k1 (lua_num finalTTLArg) in
        (Ok (RStr "transitioned"), r)
      end.

(** refresh_processing_lease.lua *)
Definition refreshProcessingLeaseScript (k1 nowArg processingTTLArg : string) : M R rval :=
  pure_script (fun r =>
  let t := ttl r k1 in
  if t <=? 0 then (RInt t, r)
  else if negb (bool_decide (hget r k1 "state" = Some "PROCESSING")) then (RInt 0, r)
  else (RInt 1, expire_if r k1 (lua_num processingTTLArg))).

(** finalize_success.lua *)
Definition finalizeSuccessScript (k1 k2 k3 k4 k5 userID viewersCSV nowArg activeTTLArg
    finalTTLArg orderNo : string) : M R rval :=
  pure_script (fun r =>
  if negb (exists_key r k1) then (RStr "state_missing", r)
  else
    let state := hget r k1 "state" in
    if bool_decide (state = Some "SUCCESS") then (RStr "already_succeeded", r)
    else if bool_decide (state = Some "FAILED") then (RStr "already_failed", r)
    else if negb (bool_decide (state = Some "PROCESSING")) then (RStr "lost_ownership", r)
    else
      let r := hset_all r k1 [("state", "SUCCESS"); ("reason_code", "ORDER_COMMITTED");
                              ("finished_at", nowArg); ("last_transition_at", nowArg)] in
      let r := hset r k2 userID orderNo in
      let r := hset_each r k4 (csv_values viewersCSV) orderNo in
      let r := hdel r k3 userID in
      let r := hdel_each r k5 (csv_values viewersCSV) in
      let r := expire_if r k2 (lua_num activeTTLArg) in
      let r := expire_if r k4 (lua_num activeTTLArg) in
      let r := expire_if r k1 (lua_num finalTTLArg) in
      (RStr "transitioned", r)).

(** The common tail of finalize_failure.lua (lines 43-78) and
    finalize_closed_order.lua (lines 39-74). *)
Definition releaseTail (k1 k2 k3 k4 k5 k6 reason userID viewersCSV ticketCategoryID
    ticketCountArg nowArg finalTTLArg projectionTTLArg inflightTTLArg : string) : M R rval := fun r =>
  let r := hset_all r k1 [("state", "FAILED"); ("reason_code", reason);
                          ("finished_at", nowArg); ("last_transition_at", nowArg)] in
  let ticketCount := lua_num ticketCountArg in
  match (if 0 <? ticketCount then hincrby r k6 ticketCategoryID ticketCount else (Ok 0, r)) with
  | (Err e, r) => (Err e, r)
  | (Ok _, r) =>
    let r := hdel r k2 userID in
    let r := hdel r k3 userID in
    let r := hdel_each2 r k4 k5 (csv_values viewersCSV) in
    let r := expire_if r k2 (lua_num projectionTTLArg) in
    let r := expire_if r k4 (lua_num projectionTTLArg) in
    let r := expire_if r k6 (lua_num projectionTTLArg) in
    let r := expire_if r k3 (lua_num inflightTTLArg) in
    let r := expire_if r k5 (lua_num inflightTTLArg) in
    let r := expire_if r k1 (lua_num finalTTLArg) in
    (Ok (RStr "transitioned"), r)
  end.

(** finalize_failure.lua *)
Definition finalizeFailureScript (k1 k2 k3 k4 k5 k6 reason userID viewersCSV ticketCategoryID
    ticketCountArg nowArg finalTTLArg projectionTTLArg inflightTTLArg : string) : M R rval := fun r =>
  if negb (exists_key r k1) then (Ok (RStr "state_missing"), r)
  else
    let state := hget r k1 "state" in
    if bool_decide (state = Some "FAILED") then (Ok (RStr "already_failed"), r)
    else if bool_decide (state = Some "SUCCESS") then (Ok (RStr "already_succeeded"), r)
    else if negb (bool_decide (state = Some "PROCESSING")) then (Ok (RStr "lost_ownership"), r)
    else releaseTail k1 k2 k3 k4 k5 k6 reason userID viewersCSV ticketCategoryID ticketCountArg
           nowArg finalTTLArg projectionTTLArg inflightTTLArg r.

(** finalize_closed_order.lua *)
Definition finalizeClosedOrderScript (k1 k2 k3 k4 k5 k6 userID viewersCSV nowArg ticketCategoryID
    ticketCountArg finalTTLArg projectionTTLArg inflightTTLArg : string) : M R rval := fun r =>
  if negb (exists_key r k1) then (Ok (RStr "state_missing"), r)
  else
    let state := hget r k1 "state" in
    if bool_decide (state = Some "FAILED") then (Ok (RStr "already_failed"), r)
    else if negb (bool_decide (state = Some "SUCCESS")) then (Ok (RStr "lost_ownership"), r)
    else releaseTail k1 k2 k3 k4 k5 k6 "CLOSED_ORDER_RELEASED" userID viewersCSV ticketCategoryID
           ticketCountArg nowArg finalTTLArg projectionTTLArg inflightTTLArg r.

End scripts.

(** ** The store *)

Record AttemptStoreConfig := mkAttemptStoreConfig {
  cfg_Prefix : string; cfg_InFlightTTL : Z; cfg_FinalStateTTL : Z }.

Record AttemptStore := mkAttemptStore {
  prefix : string; inFlightTTLSeconds : Z; finalStateTTLSeconds : Z }.

Record AdmitAttemptRequest := mkAdmitAttemptRequest {
  aq_OrderNumber : Z; aq_UserID : Z; aq_ProgramID : Z; aq_ShowTimeID : Z;
  aq_TicketCategoryID : Z; aq_ViewerIDs : list Z; aq_TicketCount : Z;
  aq_SaleWindowEndAt : Z; aq_ShowEndAt : Z; aq_Now : Z }.

Record AdmitAttemptResult := mkAdmitAttemptResult {
  res_OrderNumber : Z; res_Decision : Z; res_RejectCode : Z }.

(** [hasRedis]: the client is not nil.  A nil store answers [ErrInternal]. *)
Definition NewAttemptStore (hasRedis : bool) (cfg : AttemptStoreConfig) : option AttemptStore :=
  if negb hasRedis then None
  else
    let prefix := if bool_decide (cfg_Prefix cfg = "") then defaultAttemptPrefix else cfg_Prefix cfg in
    Some (mkAttemptStore prefix
            (durationToSeconds (cfg_InFlightTTL cfg) defaultAttemptInFlightTTL)
            (durationToSeconds (cfg_FinalStateTTL cfg) defaultAttemptFinalTTL)).

Section store.
Context {R : Type} `{RedisHash R}.

Definition with_store {A} (s : option AttemptStore) (k : AttemptStore -> IO R A) : IO R A :=
  match s with None => throw (EX ErrInternal) | Some s => k s end.

(** [if now.IsZero() { now = time.Now() }]. *)
Definition now_or (t : Z) : IO R Z := if is_zero_time t then now else mret t.

Definition invalid_param {A} : IO R A := throw (EX ErrInvalidParam).

Definition redis_cmd (f : R -> R) : IO R unit := call (modify f).

Definition SetQuotaAvailable (s : option AttemptStore) (showTimeID ticketCategoryID available : Z)
  : IO R unit := with_store s (fun s =>
  if (showTimeID <=? 0) || (ticketCategoryID <=? 0) || (available <? 0) then invalid_param
  else redis_cmd (fun r => hset r (quotaAvailableKey (prefix s) showTimeID)
                             (format_int ticketCategoryID) (format_int available))).

Definition GetQuotaAvailable (s : option AttemptStore) (showTimeID ticketCategoryID : Z)
  : IO R (option Z) := with_store s (fun s =>
  if (showTimeID <=? 0) || (ticketCategoryID <=? 0) then invalid_param
  else
    r ← call get;
    match hget r (quotaAvailableKey (prefix s) showTimeID) (format_int ticketCategoryID) with
    | None => mret None
    | Some raw => if bool_decide (raw = "") then mret None
                  else v ← lift (parse_int64_err raw); mret (Some v)
    end).

(** Decoding of the answer of the admission script (lines 190-215). *)
Definition decode_admit (reply : rval) : result err AdmitAttemptResult :=
  values ← parseEvalArray reply;
  if (length values <? 3)%nat then Err (EOther "unexpected admit result length")
  else
    decision ← parseEvalInt64 (at_index values 0);
    orderNumber ← parseEvalInt64AllowBlank (at_index values 1);
    rejectCode ← parseEvalInt64 (at_index values 2);
    Ok (mkAdmitAttemptResult orderNumber decision rejectCode).

Definition Admit (s : option AttemptStore) (req : AdmitAttemptRequest) : IO R AdmitAttemptResult :=
  with_store s (fun s =>
  let showTimeID := if aq_ShowTimeID req <=? 0 then aq_ProgramID req else aq_ShowTimeID req in
  if (aq_OrderNumber req <=? 0) || (aq_UserID req <=? 0) || (aq_ProgramID req <=? 0)
     || (showTimeID <=? 0) || (aq_TicketCategoryID req <=? 0) then invalid_param
  else
    let viewerIDs := normalizedInt64s (aq_ViewerIDs req) in
    if (length viewerIDs =? 0)%nat then invalid_param
    else
      let ticketCount := if aq_TicketCount req <=? 0 then Z.of_nat (length viewerIDs)
                         else aq_TicketCount req in
      if (ticketCount <=? 0) || negb (ticketCount =? Z.of_nat (length viewerIDs)) then invalid_param
      else
        now ← now_or (aq_Now req);
        let saleWindowEndAt := if is_zero_time (aq_SaleWindowEndAt req)
          then now + inFlightTTLSeconds s * second else aq_SaleWindowEndAt req in
        let showEndAt := if is_zero_time (aq_ShowEndAt req) then saleWindowEndAt
          else aq_ShowEndAt req in
        let attemptTTLSeconds :=
          computeAttemptRecordTTLSeconds now saleWindowEndAt (inFlightTTLSeconds s) in
        let projectionTTLSeconds := computeActiveProjectionTTLSeconds now showEndAt in
        reply ← call (admitAttemptScript
          (attemptRecordKey (prefix s) showTimeID (aq_OrderNumber req))
          (userActiveKey (prefix s) showTimeID) (userInflightKey (prefix s) showTimeID)
          (viewerActiveKey (prefix s) showTimeID) (viewerInflightKey (prefix s) showTimeID)
          (quotaAvailableKey (prefix s) showTimeID)
          (format_int (aq_OrderNumber req)) (format_int (aq_UserID req))
          (format_int (aq_ProgramID req)) (format_int showTimeID)
          (format_int (aq_TicketCategoryID req)) (format_int ticketCount)
          (format_int (unix_milli saleWindowEndAt)) (format_int (unix_milli showEndAt))
          (format_int (unix_milli now)) (format_int (inFlightTTLSeconds s))
          (format_int attemptTTLSeconds) (format_int projectionTTLSeconds)
          (formatInt64CSV viewerIDs));
        lift (decode_admit reply)).

(** [record.OrderNumber == 0] and [record.ShowTimeID == 0] are filled in. *)
Definition fill_identity (showTimeID orderNumber : Z) (r : AttemptRecord) : AttemptRecord :=
  {| ar_OrderNumber := if ar_OrderNumber r =? 0 then orderNumber else ar_OrderNumber r;
     ar_UserID := ar_UserID r; ar_ProgramID := ar_ProgramID r;
     ar_ShowTimeID := if ar_ShowTimeID r =? 0 then showTimeID else ar_ShowTimeID r;
     ar_TicketCategoryID := ar_TicketCategoryID r; ar_ViewerIDs := ar_ViewerIDs r;
     ar_TicketCount := ar_TicketCount r; ar_SaleWindowEndAt := ar_SaleWindowEndAt r;
     ar_ShowEndAt := ar_ShowEndAt r; ar_State := ar_State r; ar_ReasonCode := ar_ReasonCode r;
     ar_AcceptedAt := ar_AcceptedAt r; ar_FinishedAt := ar_FinishedAt r;
     ar_ProcessingStartedAt := ar_ProcessingStartedAt r; ar_CreatedAt := ar_CreatedAt r;
     ar_LastTransitionAt := ar_LastTransitionAt r |}.

Definition GetByShowTimeAndOrderNumber (s : option AttemptStore) (showTimeID orderNumber : Z)
  : IO R AttemptRecord := with_store s (fun s =>
  if (showTimeID <=? 0) || (orderNumber <=? 0) then invalid_param
  else
    r ← call get;
    let fields := hgetall r (attemptRecordKey (prefix s) showTimeID orderNumber) in
    if bool_decide (fields = ∅) then throw (EX ErrOrderNotFound)
    else
      record ← lift (mapAttemptRecord fields);
      mret (fill_identity showTimeID orderNumber record)).

Definition ClearUserInflightByShowTime (s : option AttemptStore) (showTimeID : Z) : IO R unit :=
  with_store s (fun s =>
  if showTimeID <=? 0 then invalid_param
  else redis_cmd (fun r => del r (userInflightKey (prefix s) showTimeID))).

Definition ClearViewerInflightByShowTime (s : option AttemptStore) (showTimeID : Z) : IO R unit :=
  with_store s (fun s =>
  if showTimeID <=? 0 then invalid_param
  else redis_cmd (fun r => del r (viewerInflightKey (prefix s) showTimeID))).

Definition ClearQuotaByShowTime (s : option AttemptStore) (showTimeID : Z) : IO R unit :=
  with_store s (fun s =>
  if showTimeID <=? 0 then invalid_param
  else redis_cmd (fun r => del r (quotaAvailableKey (prefix s) showTimeID))).

(** The body the two [Replace...ActiveByShowTime] methods share. *)
Definition replaceActive (key : string) (rows : gmap Z Z) (ttlSeconds : Z) : IO R unit :=
  _ ← redis_cmd (fun r => del r key);
  if existsb (fun row => (row.1 <=? 0) || (row.2 <=? 0)) (map_to_list rows) then invalid_param
  else
    let fields := map (fun row => (format_int row.1, format_int row.2)) (map_to_list rows) in
    _ ← (if (length fields =? 0)%nat then mret tt else redis_cmd (fun r => hset_all r key fields));
    if 0 <? ttlSeconds then redis_cmd (fun r => expire r key ttlSeconds) else mret tt.

Definition ReplaceUserActiveByShowTime (s : option AttemptStore) (showTimeID : Z)
    (rows : gmap Z Z) (ttlSeconds : Z) : IO R unit := with_store s (fun s =>
  if (showTimeID <=? 0) || (ttlSeconds <? 0) then invalid_param
  else replaceActive (userActiveKey (prefix s) showTimeID) rows ttlSeconds).

Definition ReplaceViewerActiveByShowTime (s : option AttemptStore) (showTimeID : Z)
    (rows : gmap Z Z) (ttlSeconds : Z) : IO R unit := with_store s (fun s =>
  if (showTimeID <=? 0) || (ttlSeconds <? 0) then invalid_param
  else replaceActive (viewerActiveKey (prefix s) showTimeID) rows ttlSeconds).

(** Decoding of the answer of the prepare script (lines 404-436). *)
Definition decode_prepare (showTimeID orderNumber : Z) (reply : rval)
  : result err (AttemptRecord * bool) :=
  values ← parseEvalArray reply;
  _ ← (if (length values =? 1)%nat then
         statusCode ← parseEvalInt64 (at_index values 0);
         if statusCode <=? 0 then Err (EX ErrOrderNotFound) else Ok tt
       else Ok tt);
  if (length values <? 17)%nat then Err (EOther "unexpected prepare attempt result length")
  else
    shouldProcessCode ← parseEvalInt64 (at_index values 0);
    record ← mapPreparedAttemptRecord values;
    Ok (fill_identity showTimeID orderNumber record, shouldProcessCode =? 1).

Definition PrepareAttemptForConsume (s : option AttemptStore) (showTimeID orderNumber now : Z)
  : IO R (AttemptRecord * bool) := with_store s (fun s =>
  if (showTimeID <=? 0) || (orderNumber <=? 0) then invalid_param
  else
    now ← now_or now;
    reply ← call (prepareAttemptForConsumeScript
      (attemptRecordKey (prefix s) showTimeID orderNumber)
      (format_int (unix_milli now)) (format_int (inFlightTTLSeconds s)));
    lift (decode_prepare showTimeID orderNumber reply)).

Definition record_identified (r : AttemptRecord) : bool :=
  negb ((ar_OrderNumber r <=? 0) || (ar_UserID r <=? 0) || (ar_ProgramID r <=? 0)
        || (ar_ShowTimeID r <=? 0)).

Definition FailBeforeProcessing (s : option AttemptStore) (record : option AttemptRecord)
    (reason : string) (now : Z) : IO R AttemptTransitionOutcome := with_store s (fun s =>
  match record with
  | None => invalid_param
  | Some record =>
    if negb (record_identified record) || (ar_TicketCategoryID record <=? 0) then invalid_param
    else if bool_decide (reason = "") then invalid_param
    else
      now ← now_or now;
      let st := ar_ShowTimeID record in
      reply ← call (failBeforeProcessingScript
        (attemptRecordKey (prefix s) st (ar_OrderNumber record))
        (userInflightKey (prefix s) st) (viewerInflightKey (prefix s) st)
        (quotaAvailableKey (prefix s) st)
        reason (format_int (ar_UserID record))
        (formatInt64CSV (normalizedInt64s (ar_ViewerIDs record)))
        (format_int (ar_TicketCategoryID record)) (format_int (ar_TicketCount record))
        (format_int (unix_milli now)) (format_int (finalStateTTLSeconds s))
        (format_int (computeActiveProjectionTTLSeconds now (ar_ShowEndAt record)))
        (format_int (inFlightTTLSeconds s)));
      lift (parseAttemptTransitionOutcome reply)
  end).

Definition RefreshProcessingLease (s : option AttemptStore) (showTimeID orderNumber now : Z)
  : IO R bool := with_store s (fun s =>
  if (showTimeID <=? 0) || (orderNumber <=? 0) then invalid_param
  else
    now ← now_or now;
    reply ← call (refreshProcessingLeaseScript
      (attemptRecordKey (prefix s) showTimeID orderNumber)
      (format_int (unix_milli now)) (format_int (inFlightTTLSeconds s)));
    statusCode ← lift (parseEvalInt64 reply);
    mret (statusCode =? 1)).

Definition FinalizeSuccess (s : option AttemptStore) (record : option AttemptRecord) (now : Z)
  : IO R unit := with_store s (fun s =>
  match record with
  | None => invalid_param
  | Some record =>
    if negb (record_identified record) then invalid_param
    else
      now ← now_or now;
      let st := ar_ShowTimeID record in
      reply ← call (finalizeSuccessScript
        (attemptRecordKey (prefix s) st (ar_OrderNumber record))
        (userActiveKey (prefix s) st) (userInflightKey (prefix s) st)
        (viewerActiveKey (prefix s) st) (viewerInflightKey (prefix s) st)
        (format_int (ar_UserID record)) (formatInt64CSV (normalizedInt64s (ar_ViewerIDs record)))
        (format_int (unix_milli now))
        (format_int (computeActiveProjectionTTLSeconds now (ar_ShowEndAt record)))
        (format_int (finalStateTTLSeconds s)) (format_int (ar_OrderNumber record)));
      outcome ← lift (parseAttemptTransitionOutcome reply);
      if decide (outcome = AttemptStateMissing) then throw (EX ErrOrderNotFound) else mret tt
  end).

Definition FinalizeFailure (s : option AttemptStore) (record : option AttemptRecord)
    (reason : string) (now : Z) : IO R AttemptTransitionOutcome := with_store s (fun s =>
  match record with
  | None => invalid_param
  | Some record =>
    if negb (record_identified record) || (ar_TicketCategoryID record <=? 0) then invalid_param
    else if bool_decide (reason = "") then invalid_param
    else
      now ← now_or now;
      let st := ar_ShowTimeID record in
      reply ← call (finalizeFailureScript
        (attemptRecordKey (prefix s) st (ar_OrderNumber record))
        (userActiveKey (prefix s) st) (userInflightKey (prefix s) st)
        (viewerActiveKey (prefix s) st) (viewerInflightKey (prefix s) st)
        (quotaAvailableKey (prefix s) st)
        reason (format_int (ar_UserID record))
        (formatInt64CSV (normalizedInt64s (ar_ViewerIDs record)))
        (format_int (ar_TicketCategoryID record)) (format_int (ar_TicketCount record))
        (format_int (unix_milli now)) (format_int (finalStateTTLSeconds s))
        (format_int (computeActiveProjectionTTLSeconds now (ar_ShowEndAt record)))
        (format_int (inFlightTTLSeconds s)));
      lift (parseAttemptTransitionOutcome reply)
  end).

Definition FinalizeClosedOrder (s : option AttemptStore) (record : option AttemptRecord) (now : Z)
  : IO R AttemptTransitionOutcome := with_store s (fun s =>
  match record with
  | None => invalid_param
  | Some record =>
    if negb (record_identified record) || (ar_TicketCategoryID record <=? 0) then invalid_param
    else
      now ← now_or now;
      let st := ar_ShowTimeID record in
      reply ← call (finalizeClosedOrderScript
        (attemptRecordKey (prefix s) st (ar_OrderNumber record))
        (userActiveKey (prefix s) st) (userInflightKey (prefix s) st)
        (viewerActiveKey (prefix s) st) (viewerInflightKey (prefix s) st)
        (quotaAvailableKey (prefix s) st)
        (format_int (ar_UserID record)) (formatInt64CSV (normalizedInt64s (ar_ViewerIDs record)))
        (format_int (unix_milli now))
        (format_int (ar_TicketCategoryID record)) (format_int (ar_TicketCount record))
        (format_int (finalStateTTLSeconds s))
        (format_int (computeActiveProjectionTTLSeconds now (ar_ShowEndAt record)))
        (format_int (inFlightTTLSeconds s)));
      lift (parseAttemptTransitionOutcome reply)
  end).

End store.
