(* ===== verification/RushGet.v ===== *)
(** * An attempt by its order number alone  (attempt_store.go, Get)

    [Get] does not know the show of an attempt, which is part of its key, so it scans the
    server for the key.  SCAN is a class with what Redis documents: a full iteration ends,
    and returns every key that is there from start to end. *)
From Stdlib Require Import ZArith Lia Ascii String.
From stdpp Require Import base gmap sets list strings sorting.
From S2P Require Import Prelude GoBase Effects Redis RushRecord RushStore.
Open Scope string_scope.
Open Scope list_scope.
Open Scope Z_scope.

(** ** SCAN MATCH *)

(** A pattern with stars and no other special character. *)
Fixpoint star_match (p : string) : string -> bool :=
  match p with
  | EmptyString => fun s => bool_decide (s = "")
  | String c p' =>
      if bool_decide (c = "*"%char) then
        fix any (s : string) : bool := star_match p' s || match s with EmptyString => false | String _ s' => any s' end
      else fun s => match s with EmptyString => false | String d s' => bool_decide (d = c) && star_match p' s' end
  end.

Lemma star_eq p s : star_match (String "*" p) s =
  star_match p s || match s with EmptyString => false | String _ s' => star_match (String "*" p) s' end.
Proof. by destruct s. Qed.
Lemma star_skip p mid s : star_match p s = true -> star_match (String "*" p) (mid +:+ s) = true.
Proof.
  intros Hs. induction mid as [|c mid IH]; rewrite star_eq; [change ("" +:+ s) with s; by rewrite Hs|].
  change (String c mid +:+ s) with (String c (mid +:+ s)). cbv iota beta. by rewrite IH, orb_true_r.
Qed.
Lemma star_match_char c p s : star_match p s = true -> star_match (String c p) (String c s) = true.
Proof.
  intros Hs. destruct (decide (c = "*"%char)) as [->|Hc]; [by apply (star_skip p "*" s)|].
  cbn [star_match]. rewrite bool_decide_eq_false_2 by done. by rewrite bool_decide_eq_true_2.
Qed.
Lemma star_match_app a p s : star_match p s = true -> star_match (a +:+ p) (a +:+ s) = true.
Proof. intros Hs. induction a as [|c a IH]; [done|]. by apply (star_match_char c). Qed.
Lemma star_match_self s : star_match s s = true.
Proof. induction s as [|c s IH]; [done|]. by apply star_match_char. Qed.

(** One call: a batch of keys and the next cursor, 0 at the end.  The count of keys to
    look at is a hint. *)
Class RedisScan (R : Type) := scan : R -> string -> Z -> list string * Z.
Fixpoint full_scan `{RedisScan R} (fuel : nat) (r : R) (pattern : string) (cursor : Z) : option (list string) :=
  match fuel with
  | O => None
  | S fuel =>
      let '(batch, next) := scan r pattern cursor in
      if next =? 0 then Some batch else rest ← full_scan fuel r pattern next; Some (batch ++ rest)
  end.
Class RedisScanLaws (R : Type) `{RedisHash R, RedisScan R} := {
  scan_sound r pattern cursor k : k ∈ (scan r pattern cursor).1 -> star_match pattern k = true /\ hgetall r k <> ∅;
  scan_complete r pattern : exists fuel keys, full_scan fuel r pattern 0 = Some keys /\
    forall k, star_match pattern k = true -> hgetall r k <> ∅ -> k ∈ keys }.

(** ** attempt_store.go *)

Section get.
Context {R : Type} `{RedisHash R} `{RedisScan R}.

Definition attemptPattern (prefix : string) (orderNumber : Z) : string :=
  prefix +:+ ":attempt:*:" +:+ format_int orderNumber.

(** The first key in order of the first batch that has one; [None] is a scan that goes
    on beyond [fuel] calls. *)
Fixpoint resolve_from (fuel : nat) (pattern : string) (cursor : Z) : IO R (option string) :=
  match fuel with
  | O => mret None
  | S fuel =>
      r ← call get;
      let '(batch, next) := scan r pattern cursor in
      match merge_sort String.le batch with
      | k :: _ => mret (Some k)
      | [] => if next =? 0 then throw (EX ErrOrderNotFound) else resolve_from fuel pattern next
      end
  end.
Definition resolveAttemptRecordKey (fuel : nat) (s : AttemptStore) (orderNumber : Z) : IO R (option string) :=
  resolve_from fuel (attemptPattern (prefix s) orderNumber) 0.

(** [record.OrderNumber == 0] is filled in. *)
Definition fill_number (orderNumber : Z) (r : AttemptRecord) : AttemptRecord := fill_identity (ar_ShowTimeID r) orderNumber r.

Definition Get (fuel : nat) (s : option AttemptStore) (orderNumber : Z) : IO R (option AttemptRecord) := with_store s (fun s =>
  if orderNumber <=? 0 then invalid_param
  else
    key ← resolveAttemptRecordKey fuel s orderNumber;
    match key with
    | None => mret None
    | Some attemptKey =>
        r ← call get;
        let fields := hgetall r attemptKey in
        if bool_decide (fields = ∅) then throw (EX ErrOrderNotFound)
        else
          record ← lift (mapAttemptRecord fields);
          mret (Some (fill_number orderNumber record))
    end).
End get.

(** ** The attempt that is found *)

Section found.
Context {R : Type} `{RedisScanLaws R}.

Lemma pattern_matches p showTimeID n : star_match (attemptPattern p n) (attemptRecordKey p showTimeID n) = true.
Proof.
  unfold attemptPattern, attemptRecordKey. apply star_match_app.
  change (star_match (":attempt:" +:+ String "*" (":" +:+ format_int n)) (":attempt:" +:+ (rushScopeTag showTimeID +:+ (":" +:+ format_int n))) = true).
  apply star_match_app, star_skip, star_match_self.
Qed.

Lemma first_of_batch batch k : k ∈ batch -> (forall k', k' ∈ batch -> k' = k) -> exists rest, merge_sort String.le batch = k :: rest.
Proof.
  intros Hk Hall. destruct (merge_sort String.le batch) as [|x rest] eqn:E.
  - exfalso. pose proof (merge_sort_Permutation String.le batch) as Hp. rewrite E in Hp. by apply Permutation_nil_l in Hp as <-; apply not_elem_of_nil in Hk.
  - exists rest. f_equal. apply Hall. rewrite <- (merge_sort_Permutation String.le batch), E. by left.
Qed.

Lemma get_run e (r : R) : faults e = [] -> call get (e, r) = (Ok r, (e, r)).
Proof. intros He. by rewrite call_nofault. Qed.

(** A scan of a server with one such key ends, and finds it; without one, it ends. *)
Lemma resolve_run fuel r pattern k keys cursor e : faults e = [] -> full_scan fuel r pattern cursor = Some keys -> k ∈ keys ->
  (forall k', star_match pattern k' = true -> hgetall r k' <> ∅ -> k' = k) ->
  resolve_from fuel pattern cursor (e, r) = (Ok (Some k), (e, r)).
Proof.
  intros He. revert cursor keys. induction fuel as [|fuel IH]; intros cursor keys; [done|]. cbn [full_scan resolve_from].
  intros Hf Hk Hone. rewrite bind_unfold, get_run by done. pose proof (scan_sound r pattern cursor) as Hs.
  destruct (scan r pattern cursor) as [batch next]. cbn [fst] in Hs.
  assert (Hall : forall k', k' ∈ batch -> k' = k) by (intros k' Hk'; destruct (Hs k' Hk'); by apply Hone).
  destruct (decide (k ∈ batch)) as [Hin|Hout].
  - destruct (first_of_batch batch k Hin Hall) as [rest E]. by rewrite E.
  - assert (batch = []) as ->.
    { destruct batch as [|x batch]; [done|]. destruct Hout. rewrite (Hall x) by by left. by left. }
    cbn. destruct (next =? 0); [by injection Hf as <-; apply not_elem_of_nil in Hk|].
    apply bind_Some in Hf as (rest & Hf & [= <-]). by eapply IH.
Qed.

Lemma resolve_none fuel r pattern keys cursor e : faults e = [] -> full_scan fuel r pattern cursor = Some keys ->
  (forall k', star_match pattern k' = true -> hgetall r k' = ∅) ->
  resolve_from fuel pattern cursor (e, r) = (Err (EX ErrOrderNotFound), (e, r)).
Proof.
  intros He. revert cursor keys. induction fuel as [|fuel IH]; intros cursor keys; [done|]. cbn [full_scan resolve_from].
  intros Hf Hnone. rewrite bind_unfold, get_run by done. pose proof (scan_sound r pattern cursor) as Hs.
  destruct (scan r pattern cursor) as [batch next]. cbn [fst] in Hs.
  assert (batch = []) as -> by (destruct batch as [|x batch]; [done|]; destruct (Hs x) as [Hm Hh]; [by left|]; by destruct Hh; apply Hnone).
  cbn. destruct (next =? 0); [done|]. apply bind_Some in Hf as (rest & Hf & _). by eapply IH.
Qed.

Lemma fill_twice showTimeID n a : fill_identity showTimeID n (fill_number n a) = fill_identity showTimeID n a.
Proof.
  unfold fill_number, fill_identity. cbn. destruct (Z.eqb_spec (ar_OrderNumber a) 0), (Z.eqb_spec (ar_ShowTimeID a) 0); cbn; f_equal.
  all: repeat destr_if; bool_norm; congruence || lia.
Qed.

(** Without its show, an attempt is found as with it.  When the attempt of an order is on
    the server under one show only, some number of calls is enough, and for any such
    number [Get] answers the record [GetByShowTimeAndOrderNumber] does; when there is
    none, both say so. *)
Theorem get_without_show s showTimeID n r e : faults e = [] -> 0 < showTimeID -> 0 < n ->
  (forall k, star_match (attemptPattern (prefix s) n) k = true -> hgetall r k <> ∅ -> k = attemptRecordKey (prefix s) showTimeID n) ->
  exists fuel, match (GetByShowTimeAndOrderNumber (Some s) showTimeID n (e, r)).1 with
  | Ok a => exists a', Get fuel (Some s) n (e, r) = (Ok (Some a'), (e, r)) /\ fill_identity showTimeID n a' = a
  | Err x => Get fuel (Some s) n (e, r) = (Err x, (e, r))
  end.
Proof.
  intros He Hs Hn Hone. set (k := attemptRecordKey (prefix s) showTimeID n).
  destruct (scan_complete r (attemptPattern (prefix s) n)) as (fuel & keys & Hf & Hall). exists fuel.
  unfold GetByShowTimeAndOrderNumber, Get, with_store. cbv zeta.
  destruct (Z.leb_spec showTimeID 0); [lia|]. destruct (Z.leb_spec n 0); [lia|]. cbn [orb].
  unfold resolveAttemptRecordKey. rewrite (bind_unfold (call get)), get_run by done. cbv beta. fold k.
  destruct (decide (hgetall r k = ∅)) as [Hnone|Hsome].
  - rewrite bool_decide_eq_true_2 by done. cbn [fst]. rewrite bind_unfold, (resolve_none fuel r _ keys 0 e He Hf); [done|].
    intros k' Hm. destruct (decide (hgetall r k' = ∅)) as [|Hh]; [done|]. by rewrite (Hone k' Hm Hh).
  - rewrite bool_decide_eq_false_2 by done. rewrite (bind_unfold (resolve_from _ _ _)).
    rewrite (resolve_run fuel r _ k keys 0 e He Hf); [|by apply Hall; [apply pattern_matches|]|done].
    rewrite (bind_unfold (call get)), get_run by done. rewrite bool_decide_eq_false_2 by done.
    rewrite !bind_unfold. destruct (mapAttemptRecord (hgetall r k)) as [a|x]; [|done]. cbn -[fill_identity fill_number].
    exists (fill_number n a). split; [done|apply fill_twice].
Qed.
End found.
