(* ===== verification/RushSpec.v ===== *)
(** * What the rush store promises: the abstract ledger of one show

    The abstract state keeps the attempts of a show, who holds an attempt or an
    order, and the quota of every ticket category.  The operations are the
    store's; [step] adds what happens without it: keys that expire on the server.
    The invariants are by induction on runs. *)
From Stdlib Require Import ZArith Lia Ascii String.
From stdpp Require Import base gmap sets list strings relations.
From S2P Require Import Prelude GoBase Effects RushRecord.
Open Scope string_scope.
Open Scope list_scope.
Open Scope Z_scope.

Inductive astate := Pending | Processing | Success | Failed.

#[global] Instance astate_eq_dec : EqDecision astate.
Proof. solve_decision. Defined.

Definition astate_text (s : astate) : string :=
  match s with
  | Pending => AttemptStatePending | Processing => AttemptStateProcessing
  | Success => AttemptStateSuccess | Failed => AttemptStateFailed
  end.

(** An attempt; times are Unix milliseconds. *)
Record attempt := mkAttempt {
  a_user : Z; a_program : Z; a_cat : Z; a_viewers : list Z; a_count : Z;
  a_saleEnd : Z; a_showEnd : Z; a_state : astate; a_reason : string;
  a_accepted : Z; a_finished : Z; a_processing : option Z; a_created : Z; a_transition : Z }.

Record rush := mkRush {
  attempts : gmap Z attempt;
  user_active : gmap Z Z; user_inflight : gmap Z Z;
  viewer_active : gmap Z Z; viewer_inflight : gmap Z Z;
  quota : gmap Z Z }.

Definition live (a : attempt) : bool := negb (bool_decide (a_state a = Failed)).

(** ** Operations *)

Definition set_each (vs : list Z) (o : Z) (m : gmap Z Z) : gmap Z Z :=
  foldl (fun m v => <[v := o]> m) m vs.
Definition del_each (vs : list Z) (m : gmap Z Z) : gmap Z Z := foldl (fun m v => delete v m) m vs.

Fixpoint first_of (m : gmap Z Z) (vs : list Z) : option Z :=
  match vs with
  | [] => None
  | v :: vs => match m !! v with Some o => Some o | None => first_of m vs end
  end.

Record admission := mkAdmission {
  ad_order : Z; ad_user : Z; ad_program : Z; ad_cat : Z; ad_viewers : list Z;
  ad_saleEnd : Z; ad_showEnd : Z; ad_now : Z }.

Definition ad_count (d : admission) : Z := Z.of_nat (length (ad_viewers d)).

Definition admitted_attempt (d : admission) : attempt :=
  mkAttempt (ad_user d) (ad_program d) (ad_cat d) (ad_viewers d) (ad_count d) (ad_saleEnd d)
    (ad_showEnd d) Pending "" (ad_now d) 0 None (ad_now d) (ad_now d).

(** The decision, the order it concerns and the reject code. *)
Definition admit_attempt (d : admission) (s : rush) : (Z * Z * Z) * rush :=
  match attempts s !! ad_order d with
  | Some _ => ((AdmitDecisionReused, ad_order d, AdmitRejectNone), s)
  | None =>
  match user_active s !! ad_user d with
  | Some o => ((AdmitDecisionRejected, o, AdmitRejectUserInflightConflict), s)
  | None =>
  match first_of (viewer_active s) (ad_viewers d) with
  | Some o => ((AdmitDecisionRejected, o, AdmitRejectViewerInflightConflict), s)
  | None =>
  match user_inflight s !! ad_user d with
  | Some o => ((AdmitDecisionRejected, o, AdmitRejectUserInflightConflict), s)
  | None =>
  match first_of (viewer_inflight s) (ad_viewers d) with
  | Some o => ((AdmitDecisionRejected, o, AdmitRejectViewerInflightConflict), s)
  | None =>
  match quota s !! ad_cat d with
  | None => ((AdmitDecisionRejected, 0, AdmitRejectQuotaExhausted), s)
  | Some q =>
    if q <? ad_count d then ((AdmitDecisionRejected, 0, AdmitRejectQuotaExhausted), s)
    else ((AdmitDecisionAccepted, ad_order d, AdmitRejectNone),
          mkRush (<[ad_order d := admitted_attempt d]> (attempts s))
            (user_active s) (<[ad_user d := ad_order d]> (user_inflight s))
            (viewer_active s) (set_each (ad_viewers d) (ad_order d) (viewer_inflight s))
            (<[ad_cat d := q - ad_count d]> (quota s)))
  end end end end end end.

Definition with_state (a : attempt) (st : astate) (reason : string) (now : Z) : attempt :=
  mkAttempt (a_user a) (a_program a) (a_cat a) (a_viewers a) (a_count a) (a_saleEnd a) (a_showEnd a)
    st reason (a_accepted a) now (a_processing a) (a_created a) now.

Definition start_processing (a : attempt) (now : Z) : attempt :=
  mkAttempt (a_user a) (a_program a) (a_cat a) (a_viewers a) (a_count a) (a_saleEnd a) (a_showEnd a)
    Processing (a_reason a) (a_accepted a) (a_finished a) (Some now) (a_created a) now.

Definition set_attempt (o : Z) (a : attempt) (s : rush) : rush :=
  mkRush (<[o := a]> (attempts s)) (user_active s) (user_inflight s) (viewer_active s)
    (viewer_inflight s) (quota s).

(** The attempt as the consumer sees it, and whether it must process it. *)
Definition prepare (o now : Z) (s : rush) : option (attempt * bool) * rush :=
  match attempts s !! o with
  | None => (None, s)
  | Some a =>
      if decide (a_state a = Pending) then
        let a' := start_processing a now in (Some (a', true), set_attempt o a' s)
      else (Some (a, false), s)
  end.

(** Quota comes back to its category. *)
Definition give_back (c n : Z) (q : gmap Z Z) : gmap Z Z := <[c := default 0 (q !! c) + n]> q.

(** The claims of an attempt the store is told about. *)
Record claim := mkClaim { c_user : Z; c_viewers : list Z; c_cat : Z; c_count : Z }.

Definition claim_of (a : attempt) : claim := mkClaim (a_user a) (a_viewers a) (a_cat a) (a_count a).

Definition fail_before (o : Z) (c : claim) (reason : string) (now : Z) (s : rush)
  : AttemptTransitionOutcome * rush :=
  match attempts s !! o with
  | None => (AttemptStateMissing, s)
  | Some a =>
      match a_state a with
      | Failed => (AttemptAlreadyFailed, s)
      | Success | Processing => (AttemptLostOwnership, s)
      | Pending =>
          (AttemptTransitioned,
           mkRush (<[o := with_state a Failed reason now]> (attempts s)) (user_active s)
             (delete (c_user c) (user_inflight s)) (viewer_active s)
             (del_each (c_viewers c) (viewer_inflight s)) (give_back (c_cat c) (c_count c) (quota s)))
      end
  end.

Definition finalize_success (o : Z) (c : claim) (now : Z) (s : rush) : AttemptTransitionOutcome * rush :=
  match attempts s !! o with
  | None => (AttemptStateMissing, s)
  | Some a =>
      match a_state a with
      | Success => (AttemptAlreadySucceeded, s)
      | Failed => (AttemptAlreadyFailed, s)
      | Pending => (AttemptLostOwnership, s)
      | Processing =>
          (AttemptTransitioned,
           mkRush (<[o := with_state a Success AttemptReasonOrderCommitted now]> (attempts s))
             (<[c_user c := o]> (user_active s)) (delete (c_user c) (user_inflight s))
             (set_each (c_viewers c) o (viewer_active s)) (del_each (c_viewers c) (viewer_inflight s))
             (quota s))
      end
  end.

Definition release (o : Z) (a : attempt) (c : claim) (reason : string) (now : Z) (s : rush) : rush :=
  mkRush (<[o := with_state a Failed reason now]> (attempts s))
    (delete (c_user c) (user_active s)) (delete (c_user c) (user_inflight s))
    (del_each (c_viewers c) (viewer_active s)) (del_each (c_viewers c) (viewer_inflight s))
    (give_back (c_cat c) (c_count c) (quota s)).

Definition finalize_failure (o : Z) (c : claim) (reason : string) (now : Z) (s : rush)
  : AttemptTransitionOutcome * rush :=
  match attempts s !! o with
  | None => (AttemptStateMissing, s)
  | Some a =>
      match a_state a with
      | Failed => (AttemptAlreadyFailed, s)
      | Success => (AttemptAlreadySucceeded, s)
      | Pending => (AttemptLostOwnership, s)
      | Processing => (AttemptTransitioned, release o a c reason now s)
      end
  end.

Definition finalize_closed_order (o : Z) (c : claim) (now : Z) (s : rush)
  : AttemptTransitionOutcome * rush :=
  match attempts s !! o with
  | None => (AttemptStateMissing, s)
  | Some a =>
      match a_state a with
      | Failed => (AttemptAlreadyFailed, s)
      | Pending | Processing => (AttemptLostOwnership, s)
      | Success => (AttemptTransitioned, release o a c AttemptReasonClosedOrderReleased now s)
      end
  end.

(** ** Runs *)

(** The ledger with two ghost fields: the quota the sale was opened with, and
    the tickets nobody can sell any more: held by attempts whose record expired
    before they ended, or left in a quota that expired. *)
Record ledger_state := mkLedger { opened : gmap Z Z; leaked : Z -> Z; body : rush }.

Definition holds (c : Z) (a : attempt) : Z :=
  if live a && (a_cat a =? c) then a_count a else 0.
Definition held (s : rush) (c : Z) : Z := msum (fun _ a => holds c a) (attempts s).

(** The store is told the claim the attempt was admitted with. *)
Definition claim_matches (s : rush) (o : Z) (c : claim) : Prop :=
  forall a, attempts s !! o = Some a -> claim_of a = c.

Definition admissible (d : admission) : Prop := NoDup (ad_viewers d) /\ 0 < ad_count d.

(** The operations of the store. *)
Inductive op :=
  | OpAdmit (d : admission)
  | OpPrepare (o now : Z)
  | OpFailBefore (o : Z) (c : claim) (reason : string) (now : Z)
  | OpSuccess (o : Z) (c : claim) (now : Z)
  | OpFailure (o : Z) (c : claim) (reason : string) (now : Z)
  | OpClosed (o : Z) (c : claim) (now : Z).

Definition apply_op (p : op) (s : rush) : rush :=
  match p with
  | OpAdmit d => (admit_attempt d s).2
  | OpPrepare o now => (prepare o now s).2
  | OpFailBefore o c reason now => (fail_before o c reason now s).2
  | OpSuccess o c now => (finalize_success o c now s).2
  | OpFailure o c reason now => (finalize_failure o c reason now s).2
  | OpClosed o c now => (finalize_closed_order o c now s).2
  end.

Definition op_ok (p : op) (s : rush) : Prop :=
  match p with
  | OpAdmit d => admissible d
  | OpPrepare _ _ => True
  | OpFailBefore o c _ _ | OpSuccess o c _ | OpFailure o c _ _ | OpClosed o c _ => claim_matches s o c
  end.

(** What the server's clock does to the keys of the show. *)
Inductive expiry := ExpireAttempt (o : Z) | ExpireLedger (l : ledger).

Definition drop_attempt (o : Z) (s : rush) : rush :=
  mkRush (delete o (attempts s)) (user_active s) (user_inflight s) (viewer_active s)
    (viewer_inflight s) (quota s).

Definition ledger_map (s : rush) (l : ledger) : gmap Z Z :=
  match l with
  | UserActive => user_active s | UserInflight => user_inflight s
  | ViewerActive => viewer_active s | ViewerInflight => viewer_inflight s
  | Quota => quota s
  end.

Definition set_ledger (l : ledger) (m : gmap Z Z) (s : rush) : rush :=
  match l with
  | UserActive => mkRush (attempts s) m (user_inflight s) (viewer_active s) (viewer_inflight s) (quota s)
  | UserInflight => mkRush (attempts s) (user_active s) m (viewer_active s) (viewer_inflight s) (quota s)
  | ViewerActive => mkRush (attempts s) (user_active s) (user_inflight s) m (viewer_inflight s) (quota s)
  | ViewerInflight => mkRush (attempts s) (user_active s) (user_inflight s) (viewer_active s) m (quota s)
  | Quota => mkRush (attempts s) (user_active s) (user_inflight s) (viewer_active s) (viewer_inflight s) m
  end.

Definition qty (q : gmap Z Z) (c : Z) : Z := default 0 (q !! c).

Definition expire_body (x : expiry) (s : rush) : rush :=
  match x with ExpireAttempt o => drop_attempt o s | ExpireLedger l => set_ledger l ∅ s end.

Definition lost (x : expiry) (s : rush) (c : Z) : Z :=
  match x with
  | ExpireAttempt o => match attempts s !! o with Some a => holds c a | None => 0 end
  | ExpireLedger Quota => qty (quota s) c
  | ExpireLedger _ => 0
  end.

Definition apply_expiry (x : expiry) (l : ledger_state) : ledger_state :=
  mkLedger (opened l) (fun c => leaked l c + lost x (body l) c) (expire_body x (body l)).

Definition keeps_markers (x : expiry) : bool :=
  match x with ExpireAttempt _ | ExpireLedger Quota => true | ExpireLedger _ => false end.

Inductive step : ledger_state -> ledger_state -> Prop :=
  | step_op p l : op_ok p (body l) -> step l (mkLedger (opened l) (leaked l) (apply_op p (body l)))
  | step_expiry x l : step l (apply_expiry x l).

(** Runs in which the marker hashes do not expire. *)
Inductive marked_step : ledger_state -> ledger_state -> Prop :=
  | mstep_op p l :
      op_ok p (body l) -> marked_step l (mkLedger (opened l) (leaked l) (apply_op p (body l)))
  | mstep_expiry x l : keeps_markers x = true -> marked_step l (apply_expiry x l).

Lemma marked_step_step l l' : marked_step l l' -> step l l'.
Proof. destruct 1; by constructor. Qed.

Definition open_sale (q : gmap Z Z) : ledger_state := mkLedger q (fun _ => 0) (mkRush ∅ ∅ ∅ ∅ ∅ q).

Definition nonneg (q : gmap Z Z) : Prop := forall c n, q !! c = Some n -> 0 <= n.

(** ** Conservation of the quota *)

Record ledger_inv (l : ledger_state) : Prop := {
  inv_balance : forall c, qty (quota (body l)) c + held (body l) c + leaked l c = qty (opened l) c;
  inv_quota : forall c, 0 <= qty (quota (body l)) c;
  inv_count : forall o a, attempts (body l) !! o = Some a -> 0 <= a_count a;
  inv_leaked : forall c, 0 <= leaked l c }.

Lemma qty_give_back c n q c' : qty (give_back c n q) c' = qty q c' + if c =? c' then n else 0.
Proof.
  unfold qty, give_back. destruct (Z.eqb_spec c c') as [->|].
  - by rewrite lookup_insert_eq.
  - rewrite lookup_insert_ne by done. lia.
Qed.

Lemma qty_insert c n q c' : qty (<[c := n]> q) c' = if c =? c' then n else qty q c'.
Proof.
  unfold qty. destruct (Z.eqb_spec c c') as [->|].
  - by rewrite lookup_insert_eq.
  - by rewrite lookup_insert_ne.
Qed.

Lemma holds_failed c a reason now : holds c (with_state a Failed reason now) = 0.
Proof. done. Qed.

Lemma held_insert_new s o a c :
  attempts s !! o = None ->
  msum (fun _ a => holds c a) (<[o := a]> (attempts s)) = holds c a + held s c.
Proof. intros Hn. by rewrite msum_insert_new. Qed.

Lemma held_insert s o a a' c :
  attempts s !! o = Some a ->
  msum (fun _ a => holds c a) (<[o := a']> (attempts s)) = held s c - holds c a + holds c a'.
Proof. intros Ho. by rewrite (msum_insert _ _ _ _ a). Qed.

Lemma held_delete s o a c :
  attempts s !! o = Some a ->
  msum (fun _ a => holds c a) (delete o (attempts s)) = held s c - holds c a.
Proof. intros Ho. by rewrite (msum_delete _ _ _ a). Qed.

Lemma holds_live c a : live a = true -> holds c a = if a_cat a =? c then a_count a else 0.
Proof. intros Hl. unfold holds. by rewrite Hl. Qed.

Lemma live_state a st : a_state a = st -> st <> Failed -> live a = true.
Proof. intros <- Hne. unfold live. by rewrite bool_decide_eq_false_2. Qed.

(** A live attempt that fails gives back exactly what it held. *)
Lemma balance_release s o a reason now c :
  attempts s !! o = Some a -> live a = true ->
  qty (give_back (a_cat a) (a_count a) (quota s)) c
  + msum (fun _ a => holds c a) (<[o := with_state a Failed reason now]> (attempts s))
  = qty (quota s) c + held s c.
Proof.
  intros Ho Hl. rewrite (held_insert s o a _ c Ho), qty_give_back, holds_live, holds_failed by done.
  destruct (a_cat a =? c); lia.
Qed.

Lemma balance_keep s o a a' c :
  attempts s !! o = Some a -> holds c a' = holds c a ->
  msum (fun _ a => holds c a) (<[o := a']> (attempts s)) = held s c.
Proof. intros Ho Hh. rewrite (held_insert s o a _ c Ho). lia. Qed.

Record solvent (s : rush) : Prop := {
  solvent_quota : forall c, 0 <= qty (quota s) c;
  solvent_count : forall o a, attempts s !! o = Some a -> 0 <= a_count a }.

(** Quota and held tickets stay in balance, and nothing becomes negative. *)
Definition balanced (s s' : rush) : Prop :=
  (forall c, qty (quota s') c + held s' c = qty (quota s) c + held s c) /\ solvent s'.

Lemma balanced_refl s : solvent s -> balanced s s.
Proof. done. Qed.

Lemma solvent_insert s o a ua ui va vi q :
  solvent s -> 0 <= a_count a -> (forall c, 0 <= qty q c) ->
  solvent (mkRush (<[o := a]> (attempts s)) ua ui va vi q).
Proof.
  intros [Hq Hc] Ha Hq'. split; cbn; [done|]. intros o' a'.
  rewrite lookup_insert_Some. intros [[<- <-]|[_ ?]]; eauto.
Qed.

Lemma balanced_fail s o a reason now ua ui va vi :
  solvent s -> attempts s !! o = Some a -> live a = true ->
  balanced s (mkRush (<[o := with_state a Failed reason now]> (attempts s)) ua ui va vi
                (give_back (a_cat a) (a_count a) (quota s))).
Proof.
  intros Hs Ho Hl. split; [intros c; by apply (balance_release _ o)|].
  apply solvent_insert; [done|exact (solvent_count _ Hs _ _ Ho)|].
  intros c. rewrite qty_give_back. pose proof (solvent_quota _ Hs c).
  pose proof (solvent_count _ Hs _ _ Ho). destruct (_ =? _); lia.
Qed.

Lemma balanced_keep s o a a' ua ui va vi :
  solvent s -> attempts s !! o = Some a -> (forall c, holds c a' = holds c a) -> 0 <= a_count a' ->
  balanced s (mkRush (<[o := a']> (attempts s)) ua ui va vi (quota s)).
Proof.
  intros Hs Ho Hh Ha. split.
  - intros c. unfold held at 1; cbn [attempts quota]. by rewrite (balance_keep _ _ _ _ _ Ho (Hh c)).
  - apply solvent_insert; [done|done|]. apply Hs.
Qed.

Lemma balanced_admit s d q :
  solvent s -> attempts s !! ad_order d = None -> quota s !! ad_cat d = Some q -> ad_count d <= q ->
  balanced s (mkRush (<[ad_order d := admitted_attempt d]> (attempts s))
    (user_active s) (<[ad_user d := ad_order d]> (user_inflight s))
    (viewer_active s) (set_each (ad_viewers d) (ad_order d) (viewer_inflight s))
    (<[ad_cat d := q - ad_count d]> (quota s))).
Proof.
  intros Hs Hn Hqc Hle. assert (0 <= ad_count d) by (unfold ad_count; lia). split.
  - intros c. unfold held at 1; cbn [attempts quota]. rewrite held_insert_new by done.
    rewrite qty_insert, holds_live by done. cbn [a_cat admitted_attempt a_count].
    destruct (Z.eqb_spec (ad_cat d) c) as [<-|]; [|lia].
    unfold qty. rewrite Hqc. cbn. lia.
  - apply solvent_insert; [done|done|]. intros c. rewrite qty_insert.
    destruct (_ =? _); [lia|apply Hs].
Qed.

(** Every operation leaves quota and held tickets in balance. *)
Lemma op_balanced p s : op_ok p s -> solvent s -> balanced s (apply_op p s).
Proof.
  intros Hok Hs.
  assert (Hcnt : forall o a, attempts s !! o = Some a -> 0 <= a_count a) by apply Hs.
  destruct p as [d|o now|o c reason now|o c now|o c reason now|o c now]; cbn in *;
    unfold admit_attempt, prepare, fail_before, finalize_success, finalize_failure,
      finalize_closed_order, release.
  - repeat (case_match; [by apply balanced_refl|]). case_match; [|by apply balanced_refl].
    case_match; [by apply balanced_refl|]. bool_norm. by apply balanced_admit.
  - destruct (attempts s !! o) as [a|] eqn:E; [|by apply balanced_refl].
    destruct (decide (a_state a = Pending)) as [Hp|]; [|by apply balanced_refl].
    eapply balanced_keep; eauto; [|by cbn; eauto]. intros c. unfold holds, live. cbn. by rewrite Hp.
  - destruct (attempts s !! o) as [a|] eqn:E; [|by apply balanced_refl]. rewrite <- (Hok a E).
    destruct (a_state a) eqn:Es; try by apply balanced_refl. apply balanced_fail; [done..|by eapply live_state].
  - destruct (attempts s !! o) as [a|] eqn:E; [|by apply balanced_refl].
    destruct (a_state a) eqn:Es; try by apply balanced_refl.
    eapply balanced_keep; eauto; [|by cbn; eauto]. intros c'. unfold holds, live. cbn. by rewrite Es.
  - destruct (attempts s !! o) as [a|] eqn:E; [|by apply balanced_refl]. rewrite <- (Hok a E).
    destruct (a_state a) eqn:Es; try by apply balanced_refl. apply balanced_fail; [done..|by eapply live_state].
  - destruct (attempts s !! o) as [a|] eqn:E; [|by apply balanced_refl]. rewrite <- (Hok a E).
    destruct (a_state a) eqn:Es; try by apply balanced_refl. apply balanced_fail; [done..|by eapply live_state].
Qed.

Lemma ledger_inv_step l l' : step l l' -> ledger_inv l -> ledger_inv l'.
Proof.
  destruct 1 as [p l Hok|x l]; intros [Hb Hq Hc Hl].
  - destruct (op_balanced p (body l) Hok) as [Hbal [Hq' Hc']]; [by split|].
    split; cbn; [|done..]. intros c. rewrite <- (Hb c), <- (Hbal c). lia.
  - assert (Hlost : forall c, 0 <= lost x (body l) c).
    { intros c. destruct x as [o|[| | | |]]; cbn; try lia; [|by apply Hq].
      destruct (attempts (body l) !! o) as [a|] eqn:E; [|lia]. unfold holds.
      specialize (Hc _ _ E). destruct (_ && _); lia. }
    split; cbn [body opened leaked apply_expiry].
    + intros c. rewrite <- (Hb c). destruct x as [o|[| | | |]]; cbn; try (unfold held; cbn; lia).
      * unfold held at 1; cbn. destruct (attempts (body l) !! o) as [a|] eqn:E.
        -- rewrite (held_delete _ _ _ c E). lia.
        -- rewrite delete_id by done. fold (held (body l) c). unfold held. lia.
      * unfold held; cbn. unfold qty at 1. rewrite lookup_empty. cbn. lia.
    + intros c. destruct x as [o|[| | | |]]; cbn; done.
    + intros o' a'. destruct x as [o|[| | | |]]; cbn; try by apply Hc.
      rewrite lookup_delete_Some. intros [_ ?]. eauto.
    + intros c. specialize (Hl c). specialize (Hlost c). lia.
Qed.

Lemma ledger_inv_open q : nonneg q -> ledger_inv (open_sale q).
Proof.
  intros Hq. split; cbn.
  - intros c. unfold held. cbn. rewrite msum_empty. lia.
  - intros c. unfold qty. destruct (q !! c) eqn:E; cbn; [eauto|lia].
  - intros o a. by rewrite lookup_empty.
  - done.
Qed.

Lemma ledger_inv_run q l : nonneg q -> rtc step (open_sale q) l -> ledger_inv l.
Proof.
  intros Hq Hr. remember (open_sale q) as l0.
  assert (Hi : ledger_inv l0) by (subst; by apply ledger_inv_open).
  clear Heql0. induction Hr; eauto using ledger_inv_step.
Qed.

(** ** Who holds what *)

Lemma lookup_set_each vs o m v :
  set_each vs o m !! v = if decide (v ∈ vs) then Some o else m !! v.
Proof.
  unfold set_each. revert m. induction vs as [|w vs IH]; intros m; cbn; [done|].
  rewrite IH. destruct (decide (v ∈ vs)).
  - rewrite decide_True; [done|]. by right.
  - destruct (decide (w = v)) as [->|].
    + rewrite lookup_insert_eq, decide_True; [done|]. by left.
    + rewrite lookup_insert_ne, decide_False by (done || (rewrite elem_of_cons; naive_solver)). done.
Qed.

Lemma lookup_del_each vs m v :
  del_each vs m !! v = if decide (v ∈ vs) then None else m !! v.
Proof.
  unfold del_each. revert m. induction vs as [|w vs IH]; intros m; cbn; [done|].
  rewrite IH. destruct (decide (v ∈ vs)).
  - rewrite decide_True; [done|]. by right.
  - destruct (decide (w = v)) as [->|].
    + rewrite lookup_delete_eq, decide_True; [done|]. by left.
    + rewrite lookup_delete_ne, decide_False by (done || (rewrite elem_of_cons; naive_solver)). done.
Qed.

Lemma first_of_none m vs : first_of m vs = None <-> forall v, v ∈ vs -> m !! v = None.
Proof.
  induction vs as [|w vs IH]; cbn.
  - split; [|done]. intros _ v Hv. by apply elem_of_nil in Hv.
  - destruct (m !! w) eqn:E.
    + split; [done|]. intros H. by rewrite H in E by left.
    + rewrite IH. setoid_rewrite elem_of_cons. naive_solver.
Qed.

Definition marks (ua va : gmap Z Z) (o : Z) (a : attempt) : Prop :=
  ua !! a_user a = Some o /\ forall v, v ∈ a_viewers a -> va !! v = Some o.

(** The markers an attempt owns, by its state. *)
Definition marked (s : rush) (o : Z) (a : attempt) : Prop :=
  match a_state a with
  | Pending | Processing => marks (user_inflight s) (viewer_inflight s) o a
  | Success => marks (user_active s) (viewer_active s) o a
  | Failed => True
  end.

Definition apart (a b : attempt) : Prop :=
  a_user a <> a_user b /\ forall v, v ∈ a_viewers a -> v ∉ a_viewers b.

Record exclusive (s : rush) : Prop := {
  ex_marked : forall o a, attempts s !! o = Some a -> marked s o a;
  ex_apart : forall o1 o2 a1 a2,
    attempts s !! o1 = Some a1 -> attempts s !! o2 = Some a2 -> o1 <> o2 ->
    live a1 = true -> live a2 = true -> apart a1 a2 }.

Lemma apart_sym a b : apart a b -> apart b a.
Proof. intros [H1 H2]. split; [done|]. intros v Hv Hw. by eapply H2. Qed.

(** Clearing an attempt's markers leaves the others' alone. *)
Lemma marks_clear ua va o a b :
  apart a b -> marks ua va o b ->
  marks (delete (a_user a) ua) (del_each (a_viewers a) va) o b.
Proof.
  intros [Hu Hv] [Mu Mv]. split; [by rewrite lookup_delete_ne|].
  intros v Hin. rewrite lookup_del_each, decide_False; [by apply Mv|]. intros ?. by eapply Hv.
Qed.

Lemma marks_set ua va o p a b :
  apart a b -> marks ua va o b ->
  marks (<[a_user a := p]> ua) (set_each (a_viewers a) p va) o b.
Proof.
  intros [Hu Hv] [Mu Mv]. split; [by rewrite lookup_insert_ne|].
  intros v Hin. rewrite lookup_set_each, decide_False; [by apply Mv|]. intros ?. by eapply Hv.
Qed.

Lemma marks_own ua va o a :
  marks (<[a_user a := o]> ua) (set_each (a_viewers a) o va) o a.
Proof.
  split; [by rewrite lookup_insert_eq|]. intros v Hv. by rewrite lookup_set_each, decide_True.
Qed.

(** Replacing one attempt by a version with the same claim. *)
Lemma exclusive_replace s s' o a a' :
  exclusive s -> attempts s !! o = Some a -> attempts s' = <[o := a']> (attempts s) ->
  claim_of a' = claim_of a -> (live a' = true -> live a = true) -> marked s' o a' ->
  (forall p b, p <> o -> attempts s !! p = Some b -> (live a = true -> live b = true -> apart a b) ->
     marked s p b -> marked s' p b) ->
  exclusive s'.
Proof.
  intros [Hm Ha] Ho Hs' Hc Hl Hm' Hoth. split; rewrite Hs'.
  - intros p b. rewrite lookup_insert_Some. intros [[<- <-]|[Hne Hp]]; [done|].
    apply Hoth; eauto.
  - assert (Hap : forall b, apart a b -> apart a' b).
    { intros b. unfold apart. by injection Hc as -> -> _ _. }
    intros o1 o2 a1 a2. rewrite !lookup_insert_Some.
    intros [[<- <-]|[Hn1 H1]] [[<- <-]|[Hn2 H2]] Hne Hl1 Hl2; [done| | |eauto].
    + apply Hap. eapply Ha; eauto.
    + apply apart_sym, Hap. eapply Ha; eauto.
Qed.

Lemma marked_failed s o a : live a = false -> marked s o a.
Proof. unfold live, marked. destruct (a_state a); done. Qed.

Lemma exclusive_release s o a reason now ua ui va vi q :
  exclusive s -> attempts s !! o = Some a -> live a = true ->
  (ua = user_active s /\ va = viewer_active s \/
   ua = delete (a_user a) (user_active s) /\ va = del_each (a_viewers a) (viewer_active s)) ->
  ui = delete (a_user a) (user_inflight s) -> vi = del_each (a_viewers a) (viewer_inflight s) ->
  exclusive (mkRush (<[o := with_state a Failed reason now]> (attempts s)) ua ui va vi q).
Proof.
  intros He Ho Hl Hact -> ->. apply (exclusive_replace s _ o a (with_state a Failed reason now)); [done..|].
  intros p b Hne Hp Hap Hm. destruct (live b) eqn:Eb; [|by apply marked_failed].
  specialize (Hap Hl eq_refl). unfold marked in *; cbn.
  destruct (a_state b); [by apply marks_clear|by apply marks_clear| |done].
  destruct Hact as [[-> ->]|[-> ->]]; [done|by apply marks_clear].
Qed.

Lemma exclusive_admit s d q :
  exclusive s -> attempts s !! ad_order d = None ->
  user_active s !! ad_user d = None -> first_of (viewer_active s) (ad_viewers d) = None ->
  user_inflight s !! ad_user d = None -> first_of (viewer_inflight s) (ad_viewers d) = None ->
  exclusive (mkRush (<[ad_order d := admitted_attempt d]> (attempts s))
    (user_active s) (<[ad_user d := ad_order d]> (user_inflight s))
    (viewer_active s) (set_each (ad_viewers d) (ad_order d) (viewer_inflight s)) q).
Proof.
  intros [Hm Ha] Hn Hua Hva Hui Hvi. rewrite first_of_none in Hva, Hvi.
  assert (Hap : forall p b, attempts s !! p = Some b -> live b = true -> apart (admitted_attempt d) b).
  { intros p b Hp Hl. specialize (Hm _ _ Hp). unfold marked, live, apart in *; cbn.
    assert (Hno : forall ua va, marks ua va p b -> ua !! ad_user d = None ->
      (forall v, v ∈ ad_viewers d -> va !! v = None) ->
      ad_user d <> a_user b /\ forall v, v ∈ ad_viewers d -> v ∉ a_viewers b).
    { intros ua va [Mu Mv] Hu Hv. split; [congruence|]. intros v Hin Hin'.
      specialize (Mv _ Hin'). specialize (Hv _ Hin). congruence. }
    destruct (a_state b); [by eapply Hno|by eapply Hno|by eapply Hno|].
    by rewrite bool_decide_eq_true_2 in Hl. }
  split; cbn.
  - intros p b. rewrite lookup_insert_Some. intros [[<- <-]|[Hne Hp]].
    + apply (marks_own _ _ _ (admitted_attempt d)).
    + destruct (live b) eqn:Eb; [|by apply marked_failed].
      specialize (Hap _ _ Hp Eb). specialize (Hm _ _ Hp). unfold marked in *. cbn.
      destruct (a_state b); [by apply (marks_set _ _ _ _ (admitted_attempt d))
        |by apply (marks_set _ _ _ _ (admitted_attempt d))|done..].
  - intros o1 o2 a1 a2. rewrite !lookup_insert_Some.
    intros [[<- <-]|[Hn1 H1]] [[<- <-]|[Hn2 H2]] Hne Hl1 Hl2; [done|eauto|apply apart_sym; eauto|eauto].
Qed.

Lemma op_exclusive p s : op_ok p s -> exclusive s -> exclusive (apply_op p s).
Proof.
  intros Hok He.
  destruct p as [d|o now|o c reason now|o c now|o c reason now|o c now]; cbn in *;
    unfold admit_attempt, prepare, fail_before, finalize_success, finalize_failure,
      finalize_closed_order, release.
  - repeat (case_match; [done|]). case_match; [|done]. case_match; [done|]. by apply exclusive_admit.
  - destruct (attempts s !! o) as [a|] eqn:E; [|done].
    destruct (decide (a_state a = Pending)) as [Hp|]; [|done].
    apply (exclusive_replace s _ o a (start_processing a now)); [done..| | |].
    + intros _. by eapply live_state.
    + pose proof (ex_marked _ He _ _ E) as Hm. unfold marked in *. by rewrite Hp in Hm.
    + done.
  - destruct (attempts s !! o) as [a|] eqn:E; [|done]. rewrite <- (Hok a E).
    destruct (a_state a) eqn:Es; try done.
    eapply exclusive_release; eauto; by eapply live_state.
  - destruct (attempts s !! o) as [a|] eqn:E; [|done]. rewrite <- (Hok a E).
    destruct (a_state a) eqn:Es; try done.
    apply (exclusive_replace s _ o a (with_state a Success AttemptReasonOrderCommitted now));
      [done..| | |].
    + intros _. by eapply live_state.
    + apply marks_own.
    + intros p b Hne Hp Hap Hm. destruct (live b) eqn:Eb; [|by apply marked_failed].
      specialize (Hap (live_state _ _ Es ltac:(done)) eq_refl). unfold marked in *; cbn.
      destruct (a_state b); [by apply marks_clear|by apply marks_clear|by apply marks_set|done].
  - destruct (attempts s !! o) as [a|] eqn:E; [|done]. rewrite <- (Hok a E).
    destruct (a_state a) eqn:Es; try done.
    eapply exclusive_release; eauto; by eapply live_state.
  - destruct (attempts s !! o) as [a|] eqn:E; [|done]. rewrite <- (Hok a E).
    destruct (a_state a) eqn:Es; try done.
    eapply exclusive_release; eauto; by eapply live_state.
Qed.

Lemma exclusive_step l l' : marked_step l l' -> exclusive (body l) -> exclusive (body l').
Proof.
  destruct 1 as [p l Hok|x l Hx]; [by apply op_exclusive|].
  destruct x as [o|[| | | |]]; cbn in *; try discriminate Hx; [|by intros [Hm Ha]].
  intros [Hm Ha].
  split; cbn; [intros p b|intros o1 o2 a1 a2]; rewrite !lookup_delete_Some.
  - intros [_ Hp]. by apply Hm.
  - intros [_ H1] [_ H2]. eauto.
Qed.

Lemma exclusive_run q l : rtc marked_step (open_sale q) l -> exclusive (body l).
Proof.
  intros Hr. remember (open_sale q) as l0.
  assert (Hi : exclusive (body l0)) by (subst; split; cbn; intros *; by rewrite lookup_empty).
  clear Heql0. induction Hr; eauto using exclusive_step.
Qed.

(** ** The state machine of an attempt *)

Inductive edge : astate -> astate -> Prop :=
  | edge_stay st : edge st st
  | edge_prepare : edge Pending Processing
  | edge_reject : edge Pending Failed
  | edge_commit : edge Processing Success
  | edge_fail : edge Processing Failed
  | edge_close : edge Success Failed.

Lemma op_edge p s o a :
  attempts s !! o = Some a ->
  exists a', attempts (apply_op p s) !! o = Some a' /\ edge (a_state a) (a_state a') /\
    claim_of a' = claim_of a.
Proof.
  intros Ho.
  assert (Hstay : exists a', attempts s !! o = Some a' /\ edge (a_state a) (a_state a') /\
    claim_of a' = claim_of a) by (exists a; split_and!; [done|constructor|done]).
  assert (Hins : forall p b b', attempts s !! p = Some b -> claim_of b' = claim_of b ->
    edge (a_state b) (a_state b') ->
    exists a', <[p := b']> (attempts s) !! o = Some a' /\ edge (a_state a) (a_state a') /\
      claim_of a' = claim_of a).
  { intros p' b b' Hp Hc He. destruct (decide (p' = o)) as [->|].
    - assert (b = a) as -> by congruence. exists b'. by rewrite lookup_insert_eq.
    - by rewrite lookup_insert_ne. }
  destruct p as [d|p now|p c reason now|p c now|p c reason now|p c now]; cbn in *;
    unfold admit_attempt, prepare, fail_before, finalize_success, finalize_failure,
      finalize_closed_order, release.
  - repeat (case_match; [done|]). case_match; [|done]. case_match; [done|]. cbn.
    rewrite lookup_insert_ne by congruence. done.
  - destruct (attempts s !! p) as [b|] eqn:E; [|done]. destruct (decide _) as [Hp|]; [|done].
    cbn. eapply Hins; eauto. rewrite Hp. constructor.
  - destruct (attempts s !! p) as [b|] eqn:E; [|done]. destruct (a_state b) eqn:Es; try done.
    cbn. eapply Hins; eauto. rewrite Es. constructor.
  - destruct (attempts s !! p) as [b|] eqn:E; [|done]. destruct (a_state b) eqn:Es; try done.
    cbn. eapply Hins; eauto. rewrite Es. constructor.
  - destruct (attempts s !! p) as [b|] eqn:E; [|done]. destruct (a_state b) eqn:Es; try done.
    cbn. eapply Hins; eauto. rewrite Es. constructor.
  - destruct (attempts s !! p) as [b|] eqn:E; [|done]. destruct (a_state b) eqn:Es; try done.
    cbn. eapply Hins; eauto. rewrite Es. constructor.
Qed.

(** The order an operation is about. *)
Definition op_order (p : op) : Z :=
  match p with
  | OpAdmit d => ad_order d
  | OpPrepare o _ | OpFailBefore o _ _ _ | OpSuccess o _ _ | OpFailure o _ _ _ | OpClosed o _ _ => o
  end.

Lemma failed_final p s a :
  attempts s !! op_order p = Some a -> a_state a = Failed -> apply_op p s = s.
Proof.
  destruct p; cbn; intros Ho Hf;
    unfold admit_attempt, prepare, fail_before, finalize_success, finalize_failure,
      finalize_closed_order; rewrite Ho; cbn; try rewrite Hf; done.
Qed.
