(* ===== verification/RushRefine.v ===== *)
(** * The scripts of the rush store implement the abstract ledger

    [Rep p st r a] says that the keys of show [st] on the server hold the
    abstract state [a]: every record field by field, every ledger entry as a
    decimal string.  Each script is a simulation of its abstract operation. *)
From Stdlib Require Import ZArith Lia Ascii String.
From stdpp Require Import base gmap sets list strings relations.
From S2P Require Import Prelude GoBase Effects Redis RushRecord RushStore RushSpec.
Open Scope string_scope.
Open Scope list_scope.
Open Scope Z_scope.

(** The fields of an attempt's hash. *)
Definition field_of (st o : Z) (a : attempt) (f : string) : option string :=
  if decide (f = "order_number") then Some (format_int o)
  else if decide (f = "user_id") then Some (format_int (a_user a))
  else if decide (f = "program_id") then Some (format_int (a_program a))
  else if decide (f = "show_time_id") then Some (format_int st)
  else if decide (f = "ticket_category_id") then Some (format_int (a_cat a))
  else if decide (f = "viewer_ids") then Some (formatInt64CSV (a_viewers a))
  else if decide (f = "ticket_count") then Some (format_int (a_count a))
  else if decide (f = "sale_window_end_at") then Some (format_int (a_saleEnd a))
  else if decide (f = "show_end_at") then Some (format_int (a_showEnd a))
  else if decide (f = "state") then Some (astate_text (a_state a))
  else if decide (f = "reason_code") then Some (a_reason a)
  else if decide (f = "accepted_at") then Some (format_int (a_accepted a))
  else if decide (f = "finished_at") then Some (format_int (a_finished a))
  else if decide (f = "processing_started_at") then format_int <$> a_processing a
  else if decide (f = "created_at") then Some (format_int (a_created a))
  else if decide (f = "last_transition_at") then Some (format_int (a_transition a))
  else None.

Section rep.
Context {R : Type} `{RedisHashLaws R}.
Variables (p : string) (st : Z).

Notation K := (ledgerKey p st).
Notation A := (attemptRecordKey p st).

Definition rep_attempt (r : R) (o : Z) (oa : option attempt) : Prop :=
  match oa with
  | None => hgetall r (A o) = ∅
  | Some a => (forall f, hgetall r (A o) !! f = field_of st o a f) /\ 0 < ttl r (A o)
  end.

Record Rep (r : R) (s : rush) : Prop := {
  rep_attempts : forall o, rep_attempt r o (attempts s !! o);
  rep_ledgers : forall l z, hgetall r (K l) !! format_int z = format_int <$> (ledger_map s l !! z) }.

Lemma field_of_nonempty o a (h : gmap string string) :
  (forall f, h !! f = field_of st o a f) -> h <> ∅.
Proof.
  intros Hf E. specialize (Hf "order_number"). rewrite E, lookup_empty in Hf. done.
Qed.

Lemma rep_nonempty r s o a : Rep r s -> attempts s !! o = Some a -> hgetall r (A o) <> ∅.
Proof.
  intros HR Ho. pose proof (rep_attempts _ _ HR o) as Ha. rewrite Ho in Ha.
  destruct Ha as [Hf _]. by eapply field_of_nonempty.
Qed.

Lemma A_inj o o' : A o = A o' -> o = o'.
Proof. by intros [_ ?]%attemptRecordKey_inj. Qed.
Lemma K_inj l l' : K l = K l' -> l = l'.
Proof. by intros [_ ?]%ledgerKey_inj. Qed.
Lemma K_not_A l o : K l <> A o.
Proof. apply ledgerKey_not_record. Qed.
Lemma A_not_K l o : A o <> K l.
Proof. intros E. by eapply ledgerKey_not_record. Qed.

(** *** Commands preserve the representation *)

Lemma rep_expire r s k t : Rep r s -> Rep (expire_if r k t) s.
Proof.
  intros HR. split.
  - intros o. pose proof (rep_attempts _ _ HR o) as Ho. unfold rep_attempt in *.
    rewrite hgetall_expire_if. destruct (attempts s !! o) as [a|]; [|done].
    destruct Ho as [Hf Ht]. split; [done|].
    destruct (decide (k = A o)) as [->|Hne]; [|by rewrite ttl_expire_if_other].
    destruct (decide (0 < t)).
    + rewrite ttl_expire_if_same; [done|done|by eapply field_of_nonempty].
    + unfold expire_if. by destruct (Z.ltb_spec 0 t); [lia|].
  - intros l z. rewrite hgetall_expire_if. by apply rep_ledgers.
Qed.

Lemma rep_ledger_step r r' s l m :
  Rep r s ->
  (forall k, k <> K l -> hgetall r' k = hgetall r k /\ ttl r' k = ttl r k) ->
  (forall z, hgetall r' (K l) !! format_int z = format_int <$> (m !! z)) ->
  Rep r' (set_ledger l m s).
Proof.
  intros HR Hoth Hl. split.
  - intros o. pose proof (rep_attempts _ _ HR o) as Ho. unfold rep_attempt in *.
    destruct (Hoth (A o) (A_not_K l o)) as [-> ->]. by destruct l.
  - intros l' z. destruct (decide (l' = l)) as [->|Hne].
    + rewrite Hl. by destruct l.
    + destruct (Hoth (K l')) as [-> _]; [by intros ?%K_inj|].
      rewrite (rep_ledgers _ _ HR). by destruct l, l'.
Qed.

Lemma rep_hset r s l z v :
  Rep r s -> Rep (hset r (K l) (format_int z) (format_int v)) (set_ledger l (<[z := v]> (ledger_map s l)) s).
Proof.
  intros HR. eapply rep_ledger_step; [done| |].
  - intros k Hne. rewrite hgetall_hset, decide_False by done. split; [done|].
    rewrite ttl_hset; [done|]. by intros ->.
  - intros z'. rewrite hgetall_hset, decide_True by done. destruct (decide (z = z')) as [->|].
    + by rewrite !lookup_insert_eq.
    + rewrite !lookup_insert_ne by (done || by intros ?%format_int_inj). by apply rep_ledgers.
Qed.

Lemma rep_hdel r s l z :
  Rep r s -> Rep (hdel r (K l) (format_int z)) (set_ledger l (delete z (ledger_map s l)) s).
Proof.
  intros HR. eapply rep_ledger_step; [done| |].
  - intros k Hne. rewrite hgetall_hdel, decide_False by done. split; [done|].
    rewrite ttl_hdel; [done|]. by intros ->.
  - intros z'. rewrite hgetall_hdel, decide_True by done. destruct (decide (z = z')) as [->|].
    + by rewrite !lookup_delete_eq.
    + rewrite !lookup_delete_ne by (done || by intros ?%format_int_inj). by apply rep_ledgers.
Qed.

Lemma set_ledger_twice l m m' s : set_ledger l m (set_ledger l m' s) = set_ledger l m s.
Proof. by destruct l. Qed.
Lemma ledger_map_set l m s : ledger_map (set_ledger l m s) l = m.
Proof. by destruct l. Qed.
Lemma set_ledger_id l s : set_ledger l (ledger_map s l) s = s.
Proof. by destruct l, s. Qed.

Lemma rep_hset_each r s l vs v :
  Rep r s -> Rep (hset_each r (K l) (map format_int vs) (format_int v))
    (set_ledger l (set_each vs v (ledger_map s l)) s).
Proof.
  revert r s. induction vs as [|z vs IH]; intros r s HR; cbn; [by rewrite set_ledger_id|].
  specialize (IH _ _ (rep_hset r s l z v HR)).
  by rewrite set_ledger_twice, ledger_map_set in IH.
Qed.

Lemma rep_hdel_each r s l vs :
  Rep r s -> Rep (hdel_each r (K l) (map format_int vs))
    (set_ledger l (del_each vs (ledger_map s l)) s).
Proof.
  revert r s. induction vs as [|z vs IH]; intros r s HR; cbn; [by rewrite set_ledger_id|].
  specialize (IH _ _ (rep_hdel r s l z HR)).
  by rewrite set_ledger_twice, ledger_map_set in IH.
Qed.

Lemma rep_hdel_viewers r s vs :
  Rep r s -> Rep (hdel_each2 r (K ViewerActive) (K ViewerInflight) (map format_int vs))
    (set_ledger ViewerInflight (del_each vs (viewer_inflight s))
       (set_ledger ViewerActive (del_each vs (viewer_active s)) s)).
Proof.
  revert r s. induction vs as [|z vs IH]; intros r s HR; cbn; [by destruct s|].
  apply (IH _ _ (rep_hdel _ _ ViewerInflight z (rep_hdel _ _ ViewerActive z HR))).
Qed.

(** Writing fields of an existing record. *)
Lemma rep_hset_record r s o a a' fvs :
  Rep r s -> attempts s !! o = Some a ->
  (forall h : gmap string string, (forall f, h !! f = field_of st o a f) ->
     forall f, put_fields h fvs !! f = field_of st o a' f) ->
  Rep (hset_all r (A o) fvs) (set_attempt o a' s).
Proof.
  intros HR Ho Hf. split; cbn.
  - intros o'. pose proof (rep_attempts _ _ HR o') as Hr. unfold rep_attempt in *.
    rewrite hgetall_hset_all, ttl_hset_all.
    2: { intros [= ->%A_inj]. by eapply rep_nonempty. }
    destruct (decide (o = o')) as [<-|Hne].
    + rewrite lookup_insert_eq, decide_True by done. rewrite Ho in Hr. destruct Hr as [Hh Ht].
      split; [by apply Hf|done].
    + rewrite lookup_insert_ne by done. rewrite decide_False by by intros ?%A_inj. done.
  - intros l z. rewrite hgetall_hset_all, decide_False by apply A_not_K. by apply (rep_ledgers _ _ HR l z).
Qed.

(** A new record and its lifetime. *)
Lemma rep_new_record r s o a fvs t :
  Rep r s -> attempts s !! o = None -> 0 < t ->
  (forall f, put_fields ∅ fvs !! f = field_of st o a f) ->
  Rep (expire_if (hset_all r (A o) fvs) (A o) t) (set_attempt o a s).
Proof.
  intros HR Ho Ht Hf. split; cbn.
  - intros o'. pose proof (rep_attempts _ _ HR o') as Hr. unfold rep_attempt in *.
    rewrite hgetall_expire_if, hgetall_hset_all. destruct (decide (o = o')) as [<-|Hne].
    + rewrite lookup_insert_eq, decide_True by done. rewrite Ho in Hr. rewrite Hr.
      split; [done|]. rewrite ttl_expire_if_same; [done|done|].
      rewrite hgetall_hset_all, decide_True, Hr by done. by eapply field_of_nonempty.
    + assert (A o <> A o') by by intros ?%A_inj.
      rewrite lookup_insert_ne, decide_False by done.
      rewrite ttl_expire_if_other, ttl_hset_all by (done || by intros ->). done.
  - intros l z. rewrite hgetall_expire_if, hgetall_hset_all, decide_False by apply A_not_K.
    by apply (rep_ledgers _ _ HR l z).
Qed.

(** *** Reading *)

Lemma rep_exists r s o :
  Rep r s -> exists_key r (A o) = match attempts s !! o with Some _ => true | None => false end.
Proof.
  intros HR. unfold exists_key. destruct (attempts s !! o) as [a|] eqn:E.
  - rewrite bool_decide_eq_false_2; [done|]. by eapply rep_nonempty.
  - rewrite bool_decide_eq_true_2; [done|]. pose proof (rep_attempts _ _ HR o) as Hr. by rewrite E in Hr.
Qed.

Lemma rep_field r s o a f :
  Rep r s -> attempts s !! o = Some a -> hget r (A o) f = field_of st o a f.
Proof.
  intros HR Ho. pose proof (rep_attempts _ _ HR o) as Hr. rewrite Ho in Hr. apply Hr.
Qed.

Lemma rep_marker r s l z :
  Rep r s -> marker r (K l) (format_int z) = format_int <$> (ledger_map s l !! z).
Proof.
  intros HR. unfold marker, hget. rewrite (rep_ledgers _ _ HR).
  destruct (ledger_map s l !! z); cbn; [|done].
  rewrite bool_decide_eq_false_2; [done|apply format_int_nonempty].
Qed.

Lemma rep_first_marker r s l vs :
  Rep r s -> first_marker r (K l) (map format_int vs) = format_int <$> first_of (ledger_map s l) vs.
Proof.
  intros HR. induction vs as [|v vs IH]; cbn; [done|].
  rewrite (rep_marker _ _ _ _ HR). by destruct (ledger_map s l !! v).
Qed.

Lemma csv_values_format vs : NoDup vs -> csv_values (formatInt64CSV vs) = map format_int vs.
Proof.
  intros Hnd. unfold csv_values. destruct vs as [|v vs]; [done|].
  rewrite split_formatInt64CSV by done.
  assert (Hall : forall l, filter (fun x => x <> "") (map format_int l) = map format_int l).
  { induction l as [|z l IH]; [done|]. cbn [map].
    rewrite filter_cons_True by apply format_int_nonempty. by rewrite IH. }
  apply Hall.
Qed.

Lemma lua_num_format z : Z.abs z <= 2 ^ 53 -> lua_num (format_int z) = z.
Proof.
  intros Hz. unfold lua_num, lua_tonumber. rewrite parse_format.
  - cbn. by apply f64_exact.
  - unfold in_int64, min_int64, max_int64. apply andb_true_iff; split; apply Z.leb_le; lia.
Qed.

Lemma small_int64 z : Z.abs z <= 2 ^ 53 -> in_int64 z = true.
Proof.
  intros Hz. unfold in_int64, min_int64, max_int64. apply andb_true_iff; split; apply Z.leb_le; lia.
Qed.

(** HINCRBY on the quota, within the range Lua computes exactly. *)
Lemma rep_hincrby r s c n d :
  Rep r s -> ledger_map s Quota !! c = n -> Z.abs (default 0 n) <= 2 ^ 53 ->
  Z.abs (default 0 n + d) <= 2 ^ 53 ->
  exists r', hincrby r (K Quota) (format_int c) d = (Ok (default 0 n + d), r') /\
    Rep r' (set_ledger Quota (<[c := default 0 n + d]> (quota s)) s).
Proof.
  intros HR Hn Hb Hb'. rewrite hincrby_eq. unfold hincr_value.
  rewrite (rep_ledgers _ _ HR Quota c), Hn.
  assert (Hv : match format_int <$> n with Some raw => parse_int64 raw | None => Some 0 end
    = Some (default 0 n)).
  { destruct n as [n|]; cbn; [|done]. apply parse_format. by apply small_int64. }
  rewrite Hv. rewrite small_int64 by done. eexists. split; [done|].
  by apply (rep_hset _ _ Quota).
Qed.

(** *** The scripts *)

(** The quota stays where Lua's doubles are exact. *)
Definition small (s : rush) : Prop := forall c q, quota s !! c = Some q -> 0 <= q <= 2 ^ 53.

Lemma parse_err_format z : in_int64 z = true -> parse_int64_err (format_int z) = Ok z.
Proof. intros Hz. unfold parse_int64_err. by rewrite parse_format. Qed.

Lemma allow_blank_format z :
  in_int64 z = true -> parseEvalInt64AllowBlank (RStr (format_int z)) = Ok z.
Proof.
  intros Hz. pose proof (parse_err_format z Hz) as Hp. pose proof (format_int_nonempty z) as Hne.
  unfold parseEvalInt64AllowBlank. by destruct (format_int z).
Qed.

(** The reply of the admission script for a decision. *)
Definition admit_reply (res : Z * Z * Z) : rval :=
  let '(decision, o, code) := res in
  RArr [RInt decision;
        (if code =? AdmitRejectQuotaExhausted then RInt 0 else RStr (format_int o)); RInt code].

Lemma decode_admit_reply decision o code :
  in_int64 o = true -> (code = AdmitRejectQuotaExhausted -> o = 0) ->
  decode_admit (admit_reply (decision, o, code)) = Ok (mkAdmitAttemptResult o decision code).
Proof.
  intros Ho Hcode. unfold decode_admit, admit_reply, at_index. change AdmitRejectQuotaExhausted with 1003 in *.
  destruct (Z.eqb_spec code 1003) as [->|]; [by rewrite (Hcode eq_refl)|].
  cbn [length Nat.ltb Nat.leb nth parseEvalArray mbind result_bind parseEvalInt64].
  by rewrite allow_blank_format.
Qed.

Lemma admit_sim r s d pendingTTL projTTL inflTTL :
  Rep r s -> small s -> NoDup (ad_viewers d) -> ad_count d <= 2 ^ 53 ->
  0 < pendingTTL <= 2 ^ 53 ->
  exists r',
    admitAttemptScript (A (ad_order d)) (K UserActive) (K UserInflight) (K ViewerActive)
      (K ViewerInflight) (K Quota) (format_int (ad_order d)) (format_int (ad_user d))
      (format_int (ad_program d)) (format_int st) (format_int (ad_cat d)) (format_int (ad_count d))
      (format_int (ad_saleEnd d)) (format_int (ad_showEnd d)) (format_int (ad_now d)) inflTTL
      (format_int pendingTTL) projTTL (formatInt64CSV (ad_viewers d)) r
    = (Ok (admit_reply (admit_attempt d s).1), r') /\ Rep r' (admit_attempt d s).2.
Proof.
  intros HR Hs Hnd Hcnt Httl. unfold admitAttemptScript, admit_attempt.
  rewrite (rep_exists _ _ _ HR), csv_values_format by done.
  rewrite (rep_marker _ _ _ _ HR), (rep_first_marker _ _ _ _ HR), (rep_marker _ _ _ _ HR),
    (rep_first_marker _ _ _ _ HR). cbn [ledger_map].
  destruct (attempts s !! ad_order d) as [a|] eqn:Eo.
  { exists r. by rewrite (rep_field _ _ _ _ _ HR Eo). }
  destruct (user_active s !! ad_user d) as [o|]; [by exists r|]. cbn [fmap option_fmap option_map].
  destruct (first_of (viewer_active s) (ad_viewers d)) as [o|]; [by exists r|]. cbn [fmap option_fmap option_map].
  destruct (user_inflight s !! ad_user d) as [o|]; [by exists r|]. cbn [fmap option_fmap option_map].
  destruct (first_of (viewer_inflight s) (ad_viewers d)) as [o|]; [by exists r|]. cbn [fmap option_fmap option_map].
  unfold hget. rewrite (rep_ledgers _ _ HR Quota). cbn [ledger_map].
  destruct (quota s !! ad_cat d) as [q|] eqn:Eq; [|by exists r].
  pose proof (Hs _ _ Eq) as Hq. assert (0 <= ad_count d) by (unfold ad_count; lia).
  assert (Hnum : lua_tonumber (format_int q) = Some q).
  { unfold lua_tonumber. rewrite parse_format by (apply small_int64; lia). cbn.
    f_equal. apply f64_exact. lia. }
  cbn [fmap option_fmap option_map mbind option_bind]. rewrite Hnum, lua_num_format by lia.
  destruct (Z.ltb_spec q (ad_count d)) as [|Hle]; [by exists r|].
  destruct (rep_hincrby r s (ad_cat d) (Some q) (- ad_count d) HR Eq) as (r1 & -> & HR1);
    cbn [default from_option id] in *; [lia..|].
  rewrite lua_num_format by lia. eexists. split; [done|]. apply rep_expire, rep_expire.
  pose proof (rep_expire _ _ (K Quota) (lua_num projTTL) HR1) as HR2.
  eapply (rep_new_record _ _ (ad_order d) (admitted_attempt d) _ pendingTTL) in HR2; [|done|lia|].
  - apply (rep_hset _ _ UserInflight (ad_user d) (ad_order d)) in HR2.
    apply (rep_hset_each _ _ ViewerInflight (ad_viewers d) (ad_order d)) in HR2. exact HR2.
  - intros f. unfold put_fields. cbn [foldl fst snd]. rewrite !lookup_insert, lookup_empty.
    unfold field_of. repeat case_decide; subst; try discriminate; try congruence; reflexivity.
Qed.

(** The record Go reads back. *)
Definition record_of (o : Z) (a : attempt) : AttemptRecord :=
  {| ar_OrderNumber := o; ar_UserID := a_user a; ar_ProgramID := a_program a; ar_ShowTimeID := st;
     ar_TicketCategoryID := a_cat a; ar_ViewerIDs := a_viewers a; ar_TicketCount := a_count a;
     ar_SaleWindowEndAt := time_of_ms (a_saleEnd a); ar_ShowEndAt := time_of_ms (a_showEnd a);
     ar_State := astate_text (a_state a); ar_ReasonCode := a_reason a;
     ar_AcceptedAt := time_of_ms (a_accepted a); ar_FinishedAt := time_of_ms (a_finished a);
     ar_ProcessingStartedAt := from_option time_of_ms zero_time (a_processing a);
     ar_CreatedAt := time_of_ms (a_created a); ar_LastTransitionAt := time_of_ms (a_transition a) |}.

(** Every number of the attempt fits in 64 bits. *)
Record attempt_ok (a : attempt) : Prop := {
  ok_ids : in_int64 (a_user a) && in_int64 (a_program a) && in_int64 (a_cat a) && in_int64 (a_count a) = true;
  ok_times : in_int64 (a_saleEnd a) && in_int64 (a_showEnd a) && in_int64 (a_accepted a)
    && in_int64 (a_finished a) && in_int64 (a_created a) && in_int64 (a_transition a) = true;
  ok_processing : from_option in_int64 true (a_processing a) = true;
  ok_nodup : NoDup (a_viewers a);
  ok_viewers : Forall (fun v => in_int64 v = true) (a_viewers a) }.

Lemma attempt_ok_start a now : attempt_ok a -> in_int64 now = true -> attempt_ok (start_processing a now).
Proof.
  intros [H1 H2 H3 H4 H5] Hn. split; cbn -[in_int64]; try done. rewrite !andb_true_iff in *. naive_solver.
Qed.

Lemma attempt_ok_with a stx reason now :
  attempt_ok a -> in_int64 now = true -> attempt_ok (with_state a stx reason now).
Proof.
  intros [H1 H2 H3 H4 H5] Hn. split; cbn -[in_int64]; try done. rewrite !andb_true_iff in *. naive_solver.
Qed.

Lemma prepared_time_format ms :
  in_int64 ms = true -> parsePreparedTime (RStr (format_int ms)) = Ok (time_of_ms ms).
Proof.
  intros Hm. unfold parsePreparedTime. cbn [parseEvalString mbind result_bind].
  rewrite bool_decide_eq_false_2 by apply format_int_nonempty. by rewrite parse_err_format.
Qed.

Lemma field_time_format h k ms :
  in_int64 ms = true -> h !! k = Some (format_int ms) -> parseFieldTime h k = Ok (time_of_ms ms).
Proof.
  intros Hm Hk. unfold parseFieldTime. rewrite Hk.
  rewrite bool_decide_eq_false_2 by apply format_int_nonempty. by rewrite parse_err_format.
Qed.

Lemma field_int_format h k z :
  in_int64 z = true -> h !! k = Some (format_int z) -> parseFieldInt64 h k = Ok z.
Proof.
  intros Hm Hk. unfold parseFieldInt64. rewrite Hk.
  rewrite bool_decide_eq_false_2 by apply format_int_nonempty. by rewrite parse_err_format.
Qed.

(** The values after the first of a prepare reply. *)
Definition prepared_values (o : Z) (a : attempt) : list rval :=
  RStr (astate_text (a_state a)) :: map (fun f => RStr (default "" (field_of st o a f))) prepared_fields.

Lemma prepared_values_eq o a :
  prepared_values o a = map RStr
    [astate_text (a_state a); format_int o; format_int (a_user a); format_int (a_program a);
     format_int st; format_int (a_cat a); formatInt64CSV (a_viewers a); format_int (a_count a);
     format_int (a_saleEnd a); format_int (a_showEnd a); a_reason a; format_int (a_accepted a);
     format_int (a_finished a); default "" (format_int <$> a_processing a);
     format_int (a_created a); format_int (a_transition a)].
Proof. reflexivity. Qed.

Lemma map_prepared o a v :
  in_int64 o = true -> in_int64 st = true -> attempt_ok a ->
  mapPreparedAttemptRecord (v :: prepared_values o a) = Ok (record_of o a).
Proof.
  intros Ho Hst [Hids Htimes Hproc Hnd Hv]. bool_norm.
  rewrite prepared_values_eq. unfold mapPreparedAttemptRecord, at_index. cbn [map nth].
  rewrite !allow_blank_format by done. cbn [mbind result_bind parseEvalString].
  rewrite parseInt64CSV_format by done. cbn [mbind result_bind].
  rewrite !prepared_time_format by done. cbn [mbind result_bind].
  destruct a as [? ? ? ? ? ? ? ? ? ? ? [pr|] ? ?]; cbn [a_processing from_option fmap option_fmap option_map default id] in *.
  - by rewrite prepared_time_format.
  - done.
Qed.

(** A record as Go's HGETALL reads it back. *)
Lemma map_attempt_record o a (h : gmap string string) :
  0 < st -> in_int64 o = true -> in_int64 st = true -> attempt_ok a ->
  (forall f, h !! f = field_of st o a f) -> mapAttemptRecord h = Ok (record_of o a).
Proof.
  intros Hpos Ho Hst [Hids Htimes Hproc Hnd Hv] Hf. bool_norm. unfold mapAttemptRecord, field.
  rewrite (field_int_format h "order_number" o), (field_int_format h "user_id" (a_user a)),
    (field_int_format h "program_id" (a_program a)), (field_int_format h "show_time_id" st),
    (field_int_format h "ticket_category_id" (a_cat a)), (field_int_format h "ticket_count" (a_count a))
    by (done || by rewrite Hf).
  rewrite (Hf "viewer_ids"), (Hf "state"), (Hf "reason_code").
  change (default "" (field_of st o a "viewer_ids")) with (formatInt64CSV (a_viewers a)).
  cbn [mbind result_bind]. rewrite parseInt64CSV_format by done. cbn [mbind result_bind].
  rewrite (field_time_format h "accepted_at" (a_accepted a)),
    (field_time_format h "finished_at" (a_finished a)),
    (field_time_format h "sale_window_end_at" (a_saleEnd a)),
    (field_time_format h "show_end_at" (a_showEnd a)) by (done || by rewrite Hf).
  assert (Hp : parseFieldTime h "processing_started_at"
    = Ok (from_option time_of_ms zero_time (a_processing a))).
  { destruct (a_processing a) as [pr|] eqn:E.
    - apply field_time_format; [done|]. rewrite Hf. unfold field_of. cbn. by rewrite E.
    - unfold parseFieldTime. rewrite Hf. unfold field_of. cbn. by rewrite E. }
  rewrite Hp. cbn [mbind result_bind].
  rewrite (field_time_format h "created_at" (a_created a)),
    (field_time_format h "last_transition_at" (a_transition a)) by (done || by rewrite Hf).
  cbn [mbind result_bind]. destruct (Z.leb_spec st 0); [lia|]. done.
Qed.

(** Settles the contents of a record after an HSET of literal fields. *)
Ltac record_fields :=
  intros ? Hh ?; unfold put_fields; cbn [foldl fst snd]; rewrite !lookup_insert, Hh;
  unfold field_of; repeat case_decide; subst; try discriminate; try congruence; reflexivity.

(** Evaluates the comparisons of a known state. *)
Ltac known_state :=
  repeat match goal with
  | |- context [bool_decide (Some ?x = Some ?y)] =>
      let b := eval vm_compute in (bool_decide (Some x = Some y)) in
      change (bool_decide (Some x = Some y)) with b
  end; cbn [orb negb].

Lemma state_update_fields o a stx reason now h :
  (forall f, h !! f = field_of st o a f) ->
  forall f, put_fields h [("state", astate_text stx); ("reason_code", reason);
      ("finished_at", format_int now); ("last_transition_at", format_int now)] !! f
    = field_of st o (with_state a stx reason now) f.
Proof. revert h. record_fields. Qed.

Lemma start_processing_fields o a now h :
  (forall f, h !! f = field_of st o a f) ->
  forall f, put_fields h [("state", "PROCESSING"); ("processing_started_at", format_int now);
      ("last_transition_at", format_int now)] !! f
    = field_of st o (start_processing a now) f.
Proof. revert h. record_fields. Qed.

Lemma field_of_with_state r s o a :
  Rep r s -> attempts s !! o = Some a -> hget r (A o) "state" = Some (astate_text (a_state a)).
Proof. intros HR Ho. by rewrite (rep_field _ _ _ _ _ HR Ho). Qed.

(** The state after a prepare, whatever the record decodes to. *)
Lemma prepare_rep r s o now ttlArg :
  Rep r s ->
  Rep (prepareAttemptForConsumeScript (A o) (format_int now) ttlArg r).2 (prepare o now s).2.
Proof.
  intros HR. unfold prepareAttemptForConsumeScript, pure_script, prepare.
  pose proof (rep_attempts _ _ HR o) as Hr. destruct (attempts s !! o) as [a|] eqn:Ea.
  - destruct Hr as [Hf Ht]. destruct (Z.leb_spec (ttl r (A o)) 0); [lia|].
    rewrite (field_of_with_state _ _ _ _ HR Ea). cbn [default from_option id].
    destruct (decide (a_state a = Pending)) as [Hp|Hp].
    + rewrite Hp, bool_decide_eq_true_2 by done. cbn [snd]. apply rep_expire.
      exact (rep_hset_record _ _ _ _ (start_processing a now) _ HR Ea (fun h => start_processing_fields o a now h)).
    + by rewrite bool_decide_eq_false_2 by by destruct (a_state a).
  - by rewrite (ttl_missing _ _ Hr).
Qed.

Lemma prepare_sim r s o now ttlArg :
  Rep r s -> in_int64 o = true -> in_int64 st = true -> 0 < st -> 0 < o ->
  (forall a, attempts s !! o = Some a -> attempt_ok a) -> in_int64 now = true ->
  exists reply r',
    prepareAttemptForConsumeScript (A o) (format_int now) ttlArg r = (Ok reply, r') /\
    Rep r' (prepare o now s).2 /\
    decode_prepare st o reply =
      match (prepare o now s).1 with
      | None => Err (EX ErrOrderNotFound)
      | Some (a, b) => Ok (record_of o a, b)
      end.
Proof.
  intros HR Ho Hst Hpos Hopos Hok Hnow. unfold prepareAttemptForConsumeScript, pure_script, prepare.
  pose proof (rep_attempts _ _ HR o) as Hr.
  assert (Hdec : forall a b, attempt_ok a ->
    decode_prepare st o (RArr (RInt (if b : bool then 1 else 0) :: prepared_values o a)) = Ok (record_of o a, b)).
  { intros a b Ha. unfold decode_prepare. cbn [parseEvalArray mbind result_bind].
    cbn [length prepared_values prepared_fields map Nat.eqb Nat.ltb Nat.leb mbind result_bind at_index nth parseEvalInt64].
    rewrite map_prepared by done. cbn [mbind result_bind]. unfold fill_identity, record_of. cbn.
    destruct (Z.eqb_spec o 0); [lia|]. destruct (Z.eqb_spec st 0); [lia|]. by destruct b. }
  destruct (attempts s !! o) as [a|] eqn:Ea.
  - destruct Hr as [Hf Ht]. destruct (Z.leb_spec (ttl r (A o)) 0); [lia|].
    rewrite (field_of_with_state _ _ _ _ HR Ea). cbn [default from_option id].
    destruct (decide (a_state a = Pending)) as [Hp|Hp].
    + rewrite Hp, bool_decide_eq_true_2 by done. eexists _, _. split; [done|].
      pose proof (rep_hset_record _ _ _ _ (start_processing a now) _ HR Ea (fun h => start_processing_fields o a now h)) as HR1.
      apply (rep_expire _ _ (A o) (lua_num ttlArg)) in HR1. split; [exact HR1|].
      cbn [fst snd]. rewrite <- (Hdec _ true); [|by apply attempt_ok_start; auto].
      unfold prepared_values. do 4 f_equal. apply map_ext. intros f.
      by rewrite (rep_field _ _ o (start_processing a now) f HR1) by apply lookup_insert_eq.
    + rewrite bool_decide_eq_false_2 by by destruct (a_state a). eexists _, _. split; [done|].
      split; [done|]. cbn [fst snd]. rewrite <- (Hdec _ false) by auto.
      unfold prepared_values. do 4 f_equal. apply map_ext. intros f. by rewrite (rep_field _ _ o a f HR).
  - rewrite (ttl_missing _ _ Hr). by exists (RArr [RInt (-2)]), r.
Qed.

Lemma rep_give_back r s c n :
  Rep r s -> 0 < n <= 2 ^ 53 -> 0 <= qty (quota s) c -> qty (quota s) c + n <= 2 ^ 53 ->
  exists z r', (if 0 <? lua_num (format_int n)
                then hincrby r (K Quota) (format_int c) (lua_num (format_int n)) else (Ok 0, r)) = (Ok z, r') /\
    Rep r' (set_ledger Quota (give_back c n (quota s)) s).
Proof.
  intros HR Hn Hq Hle. rewrite lua_num_format by lia. destruct (Z.ltb_spec 0 n); [|lia].
  destruct (rep_hincrby r s c (quota s !! c) n HR eq_refl) as (r' & E & HR');
    [unfold qty in *; lia|unfold qty in *; lia|]. eauto.
Qed.

(** The tickets a live attempt gives back keep the quota in range. *)
Definition returnable (s : rush) (o : Z) (c : claim) : Prop :=
  forall a, attempts s !! o = Some a -> live a = true ->
    0 < c_count c <= 2 ^ 53 /\ 0 <= qty (quota s) (c_cat c) /\ qty (quota s) (c_cat c) + c_count c <= 2 ^ 53.

(** The common tail of the two scripts that release an order. *)
Lemma releaseTail_sim r s o a c reason now finalTTL projTTL inflTTL :
  Rep r s -> attempts s !! o = Some a -> NoDup (c_viewers c) -> 0 < c_count c <= 2 ^ 53 ->
  0 <= qty (quota s) (c_cat c) -> qty (quota s) (c_cat c) + c_count c <= 2 ^ 53 ->
  exists r',
    releaseTail (A o) (K UserActive) (K UserInflight) (K ViewerActive) (K ViewerInflight) (K Quota)
      reason (format_int (c_user c)) (formatInt64CSV (c_viewers c)) (format_int (c_cat c))
      (format_int (c_count c)) (format_int now) finalTTL projTTL inflTTL r
    = (Ok (RStr "transitioned"), r') /\ Rep r' (release o a c reason now s).
Proof.
  intros HR Ho Hnd Hn Hq Hle. unfold releaseTail. rewrite csv_values_format by done.
  pose proof (rep_hset_record _ _ _ _ (with_state a Failed reason now) _ HR Ho (fun h => state_update_fields o a Failed reason now h)) as HR1.
  destruct (rep_give_back _ _ (c_cat c) (c_count c) HR1 Hn Hq Hle) as (z & r2 & E & HR2).
  cbn [astate_text AttemptStateFailed] in E. unfold AttemptStateFailed in E. rewrite E.
  eexists. split; [done|]. do 6 apply rep_expire.
  apply (rep_hdel _ _ UserActive (c_user c)) in HR2. apply (rep_hdel _ _ UserInflight (c_user c)) in HR2.
  apply (rep_hdel_viewers _ _ (c_viewers c)) in HR2. exact HR2.
Qed.

Lemma fail_before_sim r s o c reason now finalTTL projTTL inflTTL :
  Rep r s -> NoDup (c_viewers c) -> returnable s o c ->
  exists r',
    failBeforeProcessingScript (A o) (K UserInflight) (K ViewerInflight) (K Quota)
      reason (format_int (c_user c)) (formatInt64CSV (c_viewers c)) (format_int (c_cat c))
      (format_int (c_count c)) (format_int now) finalTTL projTTL inflTTL r
    = (Ok (RStr (outcome_text (fail_before o c reason now s).1)), r') /\
    Rep r' (fail_before o c reason now s).2.
Proof.
  intros HR Hnd Hret. unfold failBeforeProcessingScript, fail_before.
  rewrite (rep_exists _ _ _ HR), csv_values_format by done.
  destruct (attempts s !! o) as [a|] eqn:Ho; [|by exists r]. cbn [negb].
  rewrite (field_of_with_state _ _ _ _ HR Ho). destruct (a_state a) eqn:Es; cbn [astate_text]; [|by exists r..].
  destruct (Hret _ Ho (live_state _ _ Es ltac:(done))) as (Hn & Hq & Hle).
  pose proof (rep_hset_record _ _ _ _ (with_state a Failed reason now) _ HR Ho (fun h => state_update_fields o a Failed reason now h)) as HR1.
  destruct (rep_give_back _ _ (c_cat c) (c_count c) HR1 Hn Hq Hle) as (z & r2 & E & HR2).
  cbn [astate_text AttemptStateFailed] in E. unfold AttemptStateFailed in E.
  known_state. rewrite E. eexists. split; [done|]. do 4 apply rep_expire.
  apply (rep_hdel _ _ UserInflight (c_user c)) in HR2.
  apply (rep_hdel_each _ _ ViewerInflight (c_viewers c)) in HR2. exact HR2.
Qed.

Lemma success_sim r s o c now activeTTL finalTTL :
  Rep r s -> NoDup (c_viewers c) ->
  exists r',
    finalizeSuccessScript (A o) (K UserActive) (K UserInflight) (K ViewerActive) (K ViewerInflight)
      (format_int (c_user c)) (formatInt64CSV (c_viewers c)) (format_int now) activeTTL finalTTL
      (format_int o) r
    = (Ok (RStr (outcome_text (finalize_success o c now s).1)), r') /\
    Rep r' (finalize_success o c now s).2.
Proof.
  intros HR Hnd. unfold finalizeSuccessScript, pure_script, finalize_success.
  rewrite (rep_exists _ _ _ HR), csv_values_format by done.
  destruct (attempts s !! o) as [a|] eqn:Ho; [|by exists r]. cbn [negb].
  rewrite (field_of_with_state _ _ _ _ HR Ho). destruct (a_state a); cbn [astate_text]; try by exists r.
  eexists. split; [done|]. do 3 apply rep_expire.
  pose proof (rep_hset_record _ _ _ _ (with_state a Success AttemptReasonOrderCommitted now) _ HR Ho
    (fun h => state_update_fields o a Success AttemptReasonOrderCommitted now h)) as HR1.
  apply (rep_hset _ _ UserActive (c_user c) o) in HR1.
  apply (rep_hset_each _ _ ViewerActive (c_viewers c) o) in HR1.
  apply (rep_hdel _ _ UserInflight (c_user c)) in HR1.
  apply (rep_hdel_each _ _ ViewerInflight (c_viewers c)) in HR1. exact HR1.
Qed.

Lemma failure_sim r s o c reason now finalTTL projTTL inflTTL :
  Rep r s -> NoDup (c_viewers c) -> returnable s o c ->
  exists r',
    finalizeFailureScript (A o) (K UserActive) (K UserInflight) (K ViewerActive) (K ViewerInflight)
      (K Quota) reason (format_int (c_user c)) (formatInt64CSV (c_viewers c)) (format_int (c_cat c))
      (format_int (c_count c)) (format_int now) finalTTL projTTL inflTTL r
    = (Ok (RStr (outcome_text (finalize_failure o c reason now s).1)), r') /\
    Rep r' (finalize_failure o c reason now s).2.
Proof.
  intros HR Hnd Hret. unfold finalizeFailureScript, finalize_failure. rewrite (rep_exists _ _ _ HR).
  destruct (attempts s !! o) as [a|] eqn:Ho; [|by exists r]. cbn [negb].
  rewrite (field_of_with_state _ _ _ _ HR Ho). destruct (a_state a) eqn:Es; cbn [astate_text]; try by exists r.
  destruct (Hret _ Ho (live_state _ _ Es ltac:(done))) as (Hn & Hq & Hle). by apply releaseTail_sim.
Qed.

Lemma closed_sim r s o c now finalTTL projTTL inflTTL :
  Rep r s -> NoDup (c_viewers c) -> returnable s o c ->
  exists r',
    finalizeClosedOrderScript (A o) (K UserActive) (K UserInflight) (K ViewerActive) (K ViewerInflight)
      (K Quota) (format_int (c_user c)) (formatInt64CSV (c_viewers c)) (format_int now)
      (format_int (c_cat c)) (format_int (c_count c)) finalTTL projTTL inflTTL r
    = (Ok (RStr (outcome_text (finalize_closed_order o c now s).1)), r') /\
    Rep r' (finalize_closed_order o c now s).2.
Proof.
  intros HR Hnd Hret. unfold finalizeClosedOrderScript, finalize_closed_order. rewrite (rep_exists _ _ _ HR).
  destruct (attempts s !! o) as [a|] eqn:Ho; [|by exists r]. cbn [negb].
  rewrite (field_of_with_state _ _ _ _ HR Ho). destruct (a_state a) eqn:Es; cbn [astate_text]; try by exists r.
  destruct (Hret _ Ho (live_state _ _ Es ltac:(done))) as (Hn & Hq & Hle).
  by apply (releaseTail_sim _ _ _ _ _ AttemptReasonClosedOrderReleased).
Qed.

Lemma refresh_sim r s o nowArg ttlArg :
  Rep r s ->
  exists z r', refreshProcessingLeaseScript (A o) nowArg ttlArg r = (Ok (RInt z), r') /\ Rep r' s /\
    (z = 1 <-> exists a, attempts s !! o = Some a /\ a_state a = Processing).
Proof.
  intros HR. unfold refreshProcessingLeaseScript, pure_script. pose proof (rep_attempts _ _ HR o) as Hr.
  destruct (attempts s !! o) as [a|] eqn:Ho.
  - destruct Hr as [_ Ht]. destruct (Z.leb_spec (ttl r (A o)) 0); [lia|].
    rewrite (field_of_with_state _ _ _ _ HR Ho).
    destruct (a_state a) eqn:Es; cbn; eexists _, _; (split; [done|]); (split; [try done; by apply rep_expire|]);
      (split; [try done; eauto|by intros (? & [= <-] & ?); congruence || done]).
  - rewrite (ttl_missing _ _ Hr). exists (-2), r. split_and!; [done..|]. split; [done|]. by intros (? & ? & ?).
Qed.

End rep.
