(* ===== verification/RushRun.v ===== *)
(** * Runs of the rush store

    [store_step] is any call of a method of [AttemptStore] for one show, under any
    fault and clock, or time passing on the Redis server.  Every run of the
    store is a run of the abstract ledger ([run_refines]); the guarantees on the
    keys in Redis follow from the invariants of RushSpec. *)
From Stdlib Require Import ZArith Lia Ascii String.
From stdpp Require Import base gmap sets list strings relations.
From S2P Require Import Prelude GoBase Effects Redis RushRecord RushStore RushSpec RushRefine.
Open Scope string_scope.
Open Scope list_scope.
Open Scope Z_scope.

(** A method is a clock reading, one script and a decoding. *)
Lemma now_or_state {R} t e (r : R) :
  exists x e', now_or t (e, r) = (Ok x, (e', r)).
Proof.
  unfold now_or. destruct (is_zero_time t); [|by exists t, e].
  unfold now. destruct (ticks e); eauto.
Qed.

Lemma script_method_state {R A} (m : M R rval) (f : rval -> result err A) e (r : R) :
  let r' := ((reply ← call m; lift (f reply)) (e, r)).2.2 in r' = r \/ r' = (m r).2.
Proof.
  cbn zeta. pose proof (call_state m e r) as Hc. rewrite bind_unfold.
  destruct (call m (e, r)) as [[a|x] [e' r']]; cbn in *; done.
Qed.

Section run.
Context {R : Type} `{RedisHashLaws R}.
Variables (s : AttemptStore) (st : Z).
Hypothesis inFlight_pos : 0 < inFlightTTLSeconds s <= 2 ^ 53.

Notation K := (ledgerKey (prefix s) st).
Notation A := (attemptRecordKey (prefix s) st).
Notation Rep := (Rep (prefix s) st).

(** The caller passes a record whose claim is the stored one: it was read from
    the store, or is the one the order was admitted with. *)
Definition record_current (r : R) (record : AttemptRecord) : Prop :=
  ar_ShowTimeID record = st /\
  let k := A (ar_OrderNumber record) in
  exists_key r k = true ->
    hget r k "user_id" = Some (format_int (ar_UserID record)) /\
    hget r k "viewer_ids" = Some (formatInt64CSV (normalizedInt64s (ar_ViewerIDs record))) /\
    hget r k "ticket_category_id" = Some (format_int (ar_TicketCategoryID record)) /\
    hget r k "ticket_count" = Some (format_int (ar_TicketCount record)).

(** The lifetime the store computes for a pending record fits a Lua double. *)
Definition lifetime_small (req : AdmitAttemptRequest) : Prop :=
  forall now saleEnd, computeAttemptRecordTTLSeconds now saleEnd (inFlightTTLSeconds s) <= 2 ^ 53.

Definition request_for_show (req : AdmitAttemptRequest) : Prop :=
  (if aq_ShowTimeID req <=? 0 then aq_ProgramID req else aq_ShowTimeID req) = st /\
  Z.of_nat (length (aq_ViewerIDs req)) <= 2 ^ 53.

(** [calm]: the server's clock does not reach the deadline of a marker hash. *)
Definition elapse_ok (calm : bool) (r : R) (d : Z) : Prop :=
  0 <= d /\
  (calm = true -> forall l, l <> Quota -> ~ (0 <= ttl r (K l) <= d)).

Inductive store_step (calm : bool) : R -> R -> Prop :=
  | ss_admit r e req :
      request_for_show req -> store_step calm r (Admit (Some s) req (e, r)).2.2
  | ss_prepare r e o now :
      store_step calm r (PrepareAttemptForConsume (Some s) st o now (e, r)).2.2
  | ss_refresh r e o now :
      store_step calm r (RefreshProcessingLease (Some s) st o now (e, r)).2.2
  | ss_fail r e record reason now :
      record_current r record ->
      store_step calm r (FailBeforeProcessing (Some s) (Some record) reason now (e, r)).2.2
  | ss_success r e record now :
      record_current r record ->
      store_step calm r (FinalizeSuccess (Some s) (Some record) now (e, r)).2.2
  | ss_failure r e record reason now :
      record_current r record ->
      store_step calm r (FinalizeFailure (Some s) (Some record) reason now (e, r)).2.2
  | ss_closed r e record now :
      record_current r record ->
      store_step calm r (FinalizeClosedOrder (Some s) (Some record) now (e, r)).2.2
  | ss_elapse r d : elapse_ok calm r d -> store_step calm r (elapse r d).

(** Lifetimes: at least the in-flight TTL, and exact as doubles. *)
Lemma seconds_sub_bound a b : Z.abs (seconds_trunc (time_sub a b)) <= 2 ^ 34.
Proof.
  unfold seconds_trunc, time_sub, second, min_int64, max_int64.
  assert (Hq : forall x, - 2 ^ 63 <= x <= 2 ^ 63 - 1 -> Z.abs (Z.quot x 1000000000) <= 2 ^ 34)
    by (intros x Hx; Z.quot_rem_to_equations; lia).
  destruct (Z.ltb_spec (a - b) (- 2 ^ 63)); [apply Hq; lia|].
  destruct (Z.ltb_spec (2 ^ 63 - 1) (a - b)); apply Hq; lia.
Qed.

Lemma attempt_ttl_bounds now saleEnd :
  0 < computeAttemptRecordTTLSeconds now saleEnd (inFlightTTLSeconds s) <= 2 ^ 53.
Proof.
  unfold computeAttemptRecordTTLSeconds, maxInt. pose proof (seconds_sub_bound saleEnd now).
  destruct (Z.leb_spec (inFlightTTLSeconds s) 0); [lia|].
  destruct (_ || _); [lia|]. destruct (Z.ltb_spec (seconds_trunc (time_sub saleEnd now) + 2 * 60 * 60) (inFlightTTLSeconds s)); lia.
Qed.

(** *** The abstract step behind a concrete one *)

(** What a run keeps besides [Rep]. *)
Record run_inv (q : gmap Z Z) (l : ledger_state) : Prop := {
  ri_ledger : ledger_inv l;
  ri_opened : opened l = q;
  ri_attempts : forall o a, attempts (body l) !! o = Some a -> NoDup (a_viewers a) /\ 0 < a_count a }.

Definition step_of (calm : bool) : ledger_state -> ledger_state -> Prop :=
  if calm then marked_step else step.

Lemma step_of_op calm p l :
  op_ok p (body l) -> step_of calm l (mkLedger (opened l) (leaked l) (apply_op p (body l))).
Proof. destruct calm; by constructor. Qed.

Lemma step_of_step calm l l' : step_of calm l l' -> step l l'.
Proof. destruct calm; [apply marked_step_step|done]. Qed.

Lemma run_inv_step q calm l l' : step_of calm l l' -> run_inv q l -> run_inv q l'.
Proof.
  intros Hst [Hl Hq Ha]. pose proof (step_of_step _ _ _ Hst) as Hs. split.
  - by eapply ledger_inv_step.
  - by destruct Hs.
  - destruct Hs as [p l Hok|x l]; cbn in *.
    + intros o a Ho. destruct (attempts (body l) !! o) as [b|] eqn:E.
      * destruct (op_edge p _ _ _ E) as (a' & Ho' & _ & Hc). assert (a' = a) as -> by congruence.
        injection Hc as _ -> _ ->. by eapply Ha.
      * destruct p as [d|o' now|o' c reason now|o' c now|o' c reason now|o' c now]; cbn in *;
          revert Ho; unfold admit_attempt, prepare, fail_before, finalize_success, finalize_failure,
            finalize_closed_order, release;
          repeat (case_match; cbn; try congruence);
          rewrite lookup_insert_Some; intros [[<- <-]|[_ ?]]; try congruence. exact Hok.
    + intros o a. destruct x as [o'|[| | | |]]; cbn; try apply Ha.
      rewrite lookup_delete_Some. intros [_ ?]. eauto.
Qed.

Definition quotas_small (q : gmap Z Z) : Prop := forall c n, q !! c = Some n -> 0 <= n <= 2 ^ 53.

Lemma qty_small q c : quotas_small q -> 0 <= qty q c <= 2 ^ 53.
Proof. intros Hq. unfold qty. destruct (q !! c) eqn:E; cbn; [by eapply Hq|lia]. Qed.

Lemma held_nonneg l c : ledger_inv l -> 0 <= held (body l) c.
Proof.
  intros Hl. unfold held. apply msum_nonneg. intros o a Ho. unfold holds.
  pose proof (inv_count _ Hl _ _ Ho). destruct (_ && _); lia.
Qed.

Lemma run_small q l : quotas_small q -> run_inv q l -> small (body l).
Proof.
  intros Hq [Hl Ho _] c n Hn. pose proof (inv_balance _ Hl c). pose proof (inv_quota _ Hl c).
  pose proof (inv_leaked _ Hl c). pose proof (held_nonneg l c Hl). pose proof (qty_small q c Hq).
  assert (Hqn : qty (quota (body l)) c = n) by (unfold qty; by rewrite Hn).
  rewrite Ho in *. lia.
Qed.

Lemma held_at_least l o a :
  ledger_inv l -> attempts (body l) !! o = Some a -> live a = true -> a_count a <= held (body l) (a_cat a).
Proof.
  intros Hl Ho Hlive. unfold held. rewrite <- (insert_delete_id _ _ _ Ho).
  rewrite msum_insert_new by apply lookup_delete_eq.
  rewrite holds_live, Z.eqb_refl by done.
  assert (0 <= msum (fun _ a0 => holds (a_cat a) a0) (delete o (attempts (body l)))); [|lia].
  apply msum_nonneg. intros o' a' Ho'. apply lookup_delete_Some in Ho' as [_ Ho'].
  unfold holds. pose proof (inv_count _ Hl _ _ Ho'). destruct (_ && _); lia.
Qed.

(** A claim read from the store is the attempt's. *)
Lemma map_format_inj l l' : map format_int l = map format_int l' -> l = l'.
Proof.
  revert l'. induction l as [|x l IH]; intros [|y l']; cbn; try done.
  intros [= Hx%format_int_inj Hl]. f_equal; auto.
Qed.

Lemma formatInt64CSV_inj l l' :
  NoDup l -> NoDup l' -> formatInt64CSV l = formatInt64CSV l' -> l = l'.
Proof.
  intros Hl Hl' E. apply map_format_inj. rewrite <- !csv_values_format by done. by rewrite E.
Qed.

Definition claim_in (record : AttemptRecord) : claim :=
  mkClaim (ar_UserID record) (normalizedInt64s (ar_ViewerIDs record)) (ar_TicketCategoryID record)
    (ar_TicketCount record).

Lemma record_claim r q l record :
  Rep r (body l) -> run_inv q l -> record_current r record ->
  claim_matches (body l) (ar_OrderNumber record) (claim_in record).
Proof.
  intros HR Hi [_ Hrec] a Ho. cbn zeta in Hrec. rewrite (rep_exists _ _ _ _ _ HR), Ho in Hrec.
  destruct (Hrec eq_refl) as (Hu & Hv & Hc & Hn). unfold hget in *.
  pose proof (rep_attempts _ _ _ _ HR (ar_OrderNumber record)) as Hr. rewrite Ho in Hr.
  destruct Hr as [Hf _]. rewrite Hf in Hu, Hv, Hc, Hn.
  injection Hu as Hu%format_int_inj. injection Hc as Hc%format_int_inj.
  injection Hn as Hn%format_int_inj. injection Hv as Hv%formatInt64CSV_inj;
    [|by eapply (ri_attempts _ _ Hi)|by apply NoDup_normalized].
  unfold claim_of, claim_in. congruence.
Qed.

Lemma claim_returnable q l o c :
  quotas_small q -> run_inv q l -> claim_matches (body l) o c -> returnable (body l) o c.
Proof.
  intros Hq Hi Hc a Ho Hlive. specialize (Hc _ Ho). subst c. cbn.
  pose proof (ri_ledger _ _ Hi) as Hl. destruct (ri_attempts _ _ Hi _ _ Ho) as [_ Hpos].
  pose proof (held_at_least _ _ _ Hl Ho Hlive). pose proof (inv_balance _ Hl (a_cat a)).
  pose proof (inv_quota _ Hl (a_cat a)). pose proof (inv_leaked _ Hl (a_cat a)).
  pose proof (qty_small q (a_cat a) Hq). rewrite (ri_opened _ _ Hi) in *. lia.
Qed.

(** No record changes state against the edges, or changes its claim. *)
Definition moves (s s' : rush) : Prop := forall o a b,
  attempts s !! o = Some a -> attempts s' !! o = Some b ->
  edge (a_state a) (a_state b) /\ claim_of b = claim_of a.

Lemma moves_refl s0 : moves s0 s0.
Proof. intros o a b Ha Hb. assert (b = a) as -> by congruence. by split; [constructor|]. Qed.

Lemma moves_op p s0 : moves s0 (apply_op p s0).
Proof.
  intros o a b Ha Hb. destruct (op_edge p _ _ _ Ha) as (a' & Ha' & He & Hc).
  assert (a' = b) as -> by congruence. done.
Qed.

(** The abstract ledger follows the server to the state [r']. *)
Definition simulated (calm : bool) (l : ledger_state) (r' : R) : Prop :=
  exists l', rtc (step_of calm) l l' /\ moves (body l) (body l') /\ Rep r' (body l').

Lemma simulated_refl calm l r : Rep r (body l) -> simulated calm l r.
Proof. intros HR. exists l. split_and!; [done|apply moves_refl|done]. Qed.

(** The state a method leaves: untouched, or what its script makes of it. *)
Lemma option_step q calm l r r' p :
  run_inv q l -> Rep r (body l) -> op_ok p (body l) ->
  (r' = r \/ Rep r' (apply_op p (body l))) ->
  simulated calm l r'.
Proof.
  intros Hi HR Hok [->|HR']; [by apply simulated_refl|].
  eexists. split; [apply rtc_once, (step_of_op calm p l Hok)|]. split; [apply moves_op|done].
Qed.

Lemma admit_step q calm l r e req :
  quotas_small q -> run_inv q l -> Rep r (body l) -> request_for_show req ->
  simulated calm l (Admit (Some s) req (e, r)).2.2.
Proof.
  intros Hq Hi HR [Hst Hlen]. unfold Admit, with_store. rewrite Hst.
  destr_if; [by apply simulated_refl|]. destr_if; [by apply simulated_refl|]. destr_if; [by apply simulated_refl|]. bool_norm.
  rewrite bind_unfold. destruct (now_or_state (aq_Now req) e r) as (now & e' & ->).
  set (viewers := normalizedInt64s (aq_ViewerIDs req)) in *.
  match goal with H : (if ?b then _ else ?c) = _ |- _ => set (cnt := if b then Z.of_nat (length viewers) else c) in * end.
  assert (Hcnt : cnt = Z.of_nat (length viewers)) by done.
  match goal with |- context [admitAttemptScript _ _ _ _ _ _ _ _ _ _ _ _ (format_int (unix_milli ?a)) (format_int (unix_milli ?b))] =>
    set (showEnd := b); set (saleEnd := a) end.
  pose (d := mkAdmission (aq_OrderNumber req) (aq_UserID req) (aq_ProgramID req) (aq_TicketCategoryID req)
    viewers (unix_milli saleEnd) (unix_milli showEnd) (unix_milli now)).
  assert (Hlen' : ad_count d <= 2 ^ 53).
  { unfold ad_count; cbn. pose proof (normalized_length (aq_ViewerIDs req)). unfold viewers. lia. }
  eapply (option_step q calm l r _ (OpAdmit d)); [done|done| |].
  - split; [apply NoDup_normalized|]. unfold ad_count. cbn. lia.
  - match goal with |- context [call ?m] => destruct (script_method_state m decode_admit e' r) as [E|E] end;
      [by left|].
    right. rewrite E.
    destruct (admit_sim (prefix s) st r (body l) d _ (format_int (computeActiveProjectionTTLSeconds now showEnd))
      (format_int (inFlightTTLSeconds s)) HR (run_small q l Hq Hi) (NoDup_normalized _) Hlen'
      (attempt_ttl_bounds now saleEnd)) as (r' & E' & HR').
    rewrite Hcnt. cbn [ad_order ad_user ad_program ad_cat ad_viewers ad_saleEnd ad_showEnd ad_now d ad_count] in E'.
    unfold ad_count in E'. cbn [ad_viewers d ledgerKey] in E'. rewrite E'. exact HR'.
Qed.

Lemma prepare_step q calm l r e o now :
  run_inv q l -> Rep r (body l) ->
  simulated calm l (PrepareAttemptForConsume (Some s) st o now (e, r)).2.2.
Proof.
  intros Hi HR. unfold PrepareAttemptForConsume, with_store. destr_if; [by apply simulated_refl|].
  rewrite bind_unfold. destruct (now_or_state now e r) as (t & e' & ->).
  eapply (option_step q calm l r _ (OpPrepare o (unix_milli t))); [done|done|done|].
  match goal with |- context [call ?m] => destruct (script_method_state m (decode_prepare st o) e' r) as [E|E] end;
    [by left|].
  right. rewrite E. by apply prepare_rep.
Qed.

Lemma refresh_step calm l r e o now :
  Rep r (body l) ->
  simulated calm l (RefreshProcessingLease (Some s) st o now (e, r)).2.2.
Proof.
  intros HR. apply simulated_refl. unfold RefreshProcessingLease, with_store. destr_if; [done|].
  rewrite bind_unfold. destruct (now_or_state now e r) as (t & e' & ->).
  match goal with |- context [call ?m] =>
    destruct (script_method_state m (fun reply => c ← parseEvalInt64 reply; Ok (c =? 1)) e' r) as [E|E];
    pose proof (call_state m e' r) as Hc
  end; rewrite bind_unfold;
  match goal with |- context [call ?m (e', r)] => destruct (call m (e', r)) as [[reply|x] [e2 r2]] eqn:Ec end;
    cbn [snd] in *.
  all: destruct (refresh_sim (prefix s) st r (body l) o (format_int (unix_milli t))
      (format_int (inFlightTTLSeconds s)) HR) as (z & r' & E' & HR' & _);
    rewrite E' in Hc; cbn [snd] in Hc.
  all: try (rewrite bind_unfold; unfold lift; destruct (parseEvalInt64 reply); cbn); destruct Hc as [->| ->]; done.
Qed.

Lemma transition_step {A} q calm l r (m : M R rval) (f : rval -> result err A) e p :
  run_inv q l -> Rep r (body l) -> op_ok p (body l) -> Rep (m r).2 (apply_op p (body l)) ->
  simulated calm l ((reply ← call m; lift (f reply)) (e, r)).2.2.
Proof.
  intros Hi HR Hok Hm. eapply option_step; eauto.
  destruct (script_method_state m f e r) as [E|E]; rewrite E; [by left|by right].
Qed.

Lemma fail_step q calm l r e record reason now :
  quotas_small q -> run_inv q l -> Rep r (body l) -> record_current r record ->
  simulated calm l (FailBeforeProcessing (Some s) (Some record) reason now (e, r)).2.2.
Proof.
  intros Hq Hi HR Hrec. pose proof (record_claim _ _ _ _ HR Hi Hrec) as Hc. destruct Hrec as [Hst _].
  unfold FailBeforeProcessing, with_store. destr_if; [by apply simulated_refl|]. destr_if; [by apply simulated_refl|].
  rewrite bind_unfold. destruct (now_or_state now e r) as (t & e' & ->).
  eapply (transition_step q _ _ _ _ _ _ (OpFailBefore _ (claim_in record) reason (unix_milli t))); [done|done|exact Hc|].
  rewrite Hst.
  destruct (fail_before_sim (prefix s) st r (body l) (ar_OrderNumber record) (claim_in record) reason (unix_milli t)
    (format_int (finalStateTTLSeconds s)) (format_int (computeActiveProjectionTTLSeconds t (ar_ShowEndAt record)))
    (format_int (inFlightTTLSeconds s)) HR (NoDup_normalized _) (claim_returnable _ _ _ _ Hq Hi Hc))
    as (r' & E & HR'). cbn [c_user c_viewers c_cat c_count claim_in ledgerKey] in E. by rewrite E.
Qed.

Lemma failure_step q calm l r e record reason now :
  quotas_small q -> run_inv q l -> Rep r (body l) -> record_current r record ->
  simulated calm l (FinalizeFailure (Some s) (Some record) reason now (e, r)).2.2.
Proof.
  intros Hq Hi HR Hrec. pose proof (record_claim _ _ _ _ HR Hi Hrec) as Hc. destruct Hrec as [Hst _].
  unfold FinalizeFailure, with_store. destr_if; [by apply simulated_refl|]. destr_if; [by apply simulated_refl|].
  rewrite bind_unfold. destruct (now_or_state now e r) as (t & e' & ->).
  eapply (transition_step q _ _ _ _ _ _ (OpFailure _ (claim_in record) reason (unix_milli t))); [done|done|exact Hc|].
  rewrite Hst.
  destruct (failure_sim (prefix s) st r (body l) (ar_OrderNumber record) (claim_in record) reason (unix_milli t)
    (format_int (finalStateTTLSeconds s)) (format_int (computeActiveProjectionTTLSeconds t (ar_ShowEndAt record)))
    (format_int (inFlightTTLSeconds s)) HR (NoDup_normalized _) (claim_returnable _ _ _ _ Hq Hi Hc))
    as (r' & E & HR'). cbn [c_user c_viewers c_cat c_count claim_in ledgerKey] in E. by rewrite E.
Qed.

Lemma closed_step q calm l r e record now :
  quotas_small q -> run_inv q l -> Rep r (body l) -> record_current r record ->
  simulated calm l (FinalizeClosedOrder (Some s) (Some record) now (e, r)).2.2.
Proof.
  intros Hq Hi HR Hrec. pose proof (record_claim _ _ _ _ HR Hi Hrec) as Hc. destruct Hrec as [Hst _].
  unfold FinalizeClosedOrder, with_store. destr_if; [by apply simulated_refl|].
  rewrite bind_unfold. destruct (now_or_state now e r) as (t & e' & ->).
  eapply (transition_step q _ _ _ _ _ _ (OpClosed _ (claim_in record) (unix_milli t))); [done|done|exact Hc|].
  rewrite Hst.
  destruct (closed_sim (prefix s) st r (body l) (ar_OrderNumber record) (claim_in record) (unix_milli t)
    (format_int (finalStateTTLSeconds s)) (format_int (computeActiveProjectionTTLSeconds t (ar_ShowEndAt record)))
    (format_int (inFlightTTLSeconds s)) HR (NoDup_normalized _) (claim_returnable _ _ _ _ Hq Hi Hc))
    as (r' & E & HR'). cbn [c_user c_viewers c_cat c_count claim_in ledgerKey] in E. by rewrite E.
Qed.

Lemma success_step q calm l r e record now :
  run_inv q l -> Rep r (body l) -> record_current r record ->
  simulated calm l (FinalizeSuccess (Some s) (Some record) now (e, r)).2.2.
Proof.
  intros Hi HR Hrec. pose proof (record_claim _ _ _ _ HR Hi Hrec) as Hc. destruct Hrec as [Hst _].
  unfold FinalizeSuccess, with_store. destr_if; [by apply simulated_refl|].
  rewrite bind_unfold. destruct (now_or_state now e r) as (t & e' & ->).
  eapply (option_step q calm l r _ (OpSuccess _ (claim_in record) (unix_milli t))); [done|done|exact Hc|].
  rewrite Hst.
  destruct (success_sim (prefix s) st r (body l) (ar_OrderNumber record) (claim_in record) (unix_milli t)
    (format_int (computeActiveProjectionTTLSeconds t (ar_ShowEndAt record))) (format_int (finalStateTTLSeconds s))
    HR (NoDup_normalized _)) as (r' & E & HR').
  cbn [c_user c_viewers claim_in ledgerKey] in E. rewrite bind_unfold.
  match goal with |- context [call ?m (e', r)] => pose proof (call_state m e' r) as Hcs;
    destruct (call m (e', r)) as [[reply|x] [e2 r2]] end; cbn [snd] in *; rewrite E in Hcs; cbn [snd] in Hcs.
  - assert (Hs : forall X : M (env * R) unit, (exists res, X (e2, r2) = (res, (e2, r2))) ->
      (X (e2, r2)).2.2 = r \/ Rep (X (e2, r2)).2.2 (finalize_success (ar_OrderNumber record) (claim_in record) (unix_milli t) (body l)).2).
    { intros X [res ->]. cbn. destruct Hcs as [->| ->]; [by left|by right]. }
    apply Hs. rewrite bind_unfold. unfold lift. destruct (parseAttemptTransitionOutcome reply); [|eauto].
    destruct (decide _); [|eauto]. unfold throw. eauto.
  - destruct Hcs as [->| ->]; [by left|by right].
Qed.

(** *** Time passing on the server *)

Lemma expire_attempts calm (os : list Z) l :
  exists l', rtc (step_of calm) l l' /\
    (forall o, attempts (body l') !! o = if decide (o ∈ os) then None else attempts (body l) !! o) /\
    (forall k, ledger_map (body l') k = ledger_map (body l) k).
Proof.
  revert l. induction os as [|o os IH]; intros l.
  { exists l. split_and!; [done|..|done]. intros o. by rewrite decide_False by (intros Hin; by apply elem_of_nil in Hin). }
  destruct (IH (apply_expiry (ExpireAttempt o) l)) as (l' & Hr & Ha & Hk).
  exists l'. split_and!.
  - eapply rtc_l; [|done]. destruct calm; by constructor.
  - intros o'. rewrite Ha. cbn. destruct (decide (o' ∈ os)).
    + by rewrite decide_True by by right.
    + destruct (decide (o = o')) as [->|].
      * by rewrite lookup_delete_eq, decide_True by by left.
      * rewrite lookup_delete_ne by done. rewrite decide_False; [done|].
        rewrite elem_of_cons. naive_solver.
  - intros k. rewrite Hk. by destruct k.
Qed.

Lemma expire_ledgers (calm : bool) (ks : list ledger) l :
  (calm = true -> Forall (fun k => k = Quota) ks) ->
  exists l', rtc (step_of calm) l l' /\ attempts (body l') = attempts (body l) /\
    (forall k, ledger_map (body l') k = if decide (k ∈ ks) then ∅ else ledger_map (body l) k).
Proof.
  revert l. induction ks as [|k ks IH]; intros l Hcalm.
  { exists l. split_and!; [done..|]. intros k. by rewrite decide_False by (intros Hin; by apply elem_of_nil in Hin). }
  destruct (IH (apply_expiry (ExpireLedger k) l)) as (l' & Hr & Ha & Hk).
  { intros Hc. specialize (Hcalm Hc). by inversion Hcalm. }
  exists l'. split_and!.
  - eapply rtc_l; [|done]. destruct calm; constructor. specialize (Hcalm eq_refl).
    inversion Hcalm; subst. done.
  - rewrite Ha. by destruct k.
  - intros k'. rewrite Hk. destruct (decide (k' ∈ ks)).
    + by rewrite decide_True by by right.
    + destruct (decide (k' = k)) as [->|Hne].
      * rewrite decide_True by by left. by destruct k.
      * rewrite decide_False by (rewrite elem_of_cons; naive_solver). cbn. by destruct k, k'.
Qed.

Definition all_ledgers : list ledger := [UserActive; UserInflight; ViewerActive; ViewerInflight; Quota].

Lemma elapse_step calm l r d :
  Rep r (body l) -> elapse_ok calm r d ->
  simulated calm l (elapse r d).
Proof.
  intros HR [Hd Hcalm].
  pose (due k := bool_decide (0 <= ttl r k <= d)).
  pose (os := filter (fun o => due (A o) = true) (map_to_list (attempts (body l))).*1).
  pose (ks := filter (fun k => due (K k) = true) all_ledgers).
  destruct (expire_attempts calm os l) as (l1 & Hr1 & Ha1 & Hk1).
  destruct (expire_ledgers calm ks l1) as (l2 & Hr2 & Ha2 & Hk2).
  { intros Hc. apply Forall_forall. intros k Hk. apply list_elem_of_filter in Hk as [Hk _].
    destruct (decide (k = Quota)) as [|Hne]; [done|]. exfalso. apply (Hcalm Hc k Hne).
    by apply bool_decide_eq_true in Hk. }
  exists l2. split; [by etrans|]. split.
  { intros o a b. rewrite Ha2, Ha1. destruct (decide _); [done|]. apply moves_refl. }
  split.
  - intros o. rewrite Ha2, Ha1. pose proof (rep_attempts _ _ _ _ HR o) as Ho.
    assert (Hin : o ∈ os <-> due (A o) = true /\ is_Some (attempts (body l) !! o)).
    { unfold os. rewrite list_elem_of_filter, list_elem_of_fmap. split.
      - intros [? ([o' a] & -> & Hoa)]. apply elem_of_map_to_list in Hoa. eauto.
      - intros [? [a Ha]]. split; [done|]. exists (o, a). by rewrite elem_of_map_to_list. }
    destruct (attempts (body l) !! o) as [a|] eqn:Eo; cbn in Ho.
    + destruct Ho as [Hf Ht]. destruct (decide (o ∈ os)) as [Hi|Hi]; cbn.
      * apply Hin in Hi as [Hi _]. apply bool_decide_eq_true in Hi.
        by rewrite hgetall_elapse, decide_True.
      * assert (Hn : ~ (0 <= ttl r (A o) <= d)).
        { intros Hb. apply Hi, Hin. split; [by apply bool_decide_eq_true|eauto]. }
        rewrite hgetall_elapse, decide_False by done. split; [done|].
        rewrite ttl_elapse, decide_True by lia. rewrite decide_False by lia. lia.
    + assert (Hn : hgetall (elapse r d) (A o) = ∅)
        by (rewrite hgetall_elapse by done; by destruct (decide _)).
      by destruct (decide (o ∈ os)).
  - intros k z. rewrite Hk2, Hk1, hgetall_elapse by done.
    assert (Hin : k ∈ ks <-> 0 <= ttl r (K k) <= d).
    { unfold ks. rewrite list_elem_of_filter. unfold due. rewrite bool_decide_eq_true.
      split; [tauto|]. intros ?. split; [done|]. destruct k; unfold all_ledgers; set_solver. }
    destruct (decide (k ∈ ks)) as [Hi|Hi].
    + rewrite decide_True by by apply Hin. by rewrite !lookup_empty.
    + rewrite decide_False by (by rewrite <- Hin). by apply rep_ledgers.
Qed.

(** *** Runs *)

Lemma store_step_sim q calm l r r' :
  quotas_small q -> run_inv q l -> Rep r (body l) -> store_step calm r r' ->
  simulated calm l r'.
Proof.
  intros Hq Hi HR Hs. destruct Hs.
  - by eapply admit_step.
  - by eapply prepare_step.
  - by eapply refresh_step.
  - by eapply fail_step.
  - by eapply success_step.
  - by eapply failure_step.
  - by eapply closed_step.
  - by eapply elapse_step.
Qed.

Lemma run_inv_steps q calm l l' : rtc (step_of calm) l l' -> run_inv q l -> run_inv q l'.
Proof. induction 1; eauto using run_inv_step. Qed.

Lemma run_inv_open q : quotas_small q -> run_inv q (open_sale q).
Proof.
  intros Hq. split; cbn; [|done|by intros o a; rewrite lookup_empty].
  apply ledger_inv_open. intros c n Hn. by eapply Hq.
Qed.

(** A fresh show: quotas set, nothing else. *)
Definition sale_opened (q : gmap Z Z) (r : R) : Prop := Rep r (body (open_sale q)).

Lemma run_sim q calm r0 r :
  quotas_small q -> sale_opened q r0 -> rtc (store_step calm) r0 r ->
  exists l, rtc (step_of calm) (open_sale q) l /\ run_inv q l /\ Rep r (body l).
Proof.
  intros Hq HR Hrun.
  assert (Hgen : forall l, Rep r0 (body l) -> run_inv q l ->
    exists l', rtc (step_of calm) l l' /\ run_inv q l' /\ Rep r (body l')).
  { clear HR. induction Hrun as [r|r r1 r2 Hs _ IH]; intros l HR Hi; [by exists l|].
    destruct (store_step_sim q calm l r r1 Hq Hi HR Hs) as (l1 & Hl1 & _ & HR1).
    destruct (IH l1 HR1 (run_inv_steps _ _ _ _ Hl1 Hi)) as (l2 & Hl2 & Hi2 & HR2).
    exists l2. split; [by etrans|done]. }
  apply Hgen; [done|by apply run_inv_open].
Qed.

(** Tickets of distinct live orders are within what the attempts hold. *)
Lemma held_covers (m : gmap Z attempt) c (ons : list (Z * Z)) :
  (forall o a, m !! o = Some a -> 0 <= a_count a) -> NoDup ons.*1 ->
  Forall (fun on => exists a, m !! on.1 = Some a /\ live a = true /\ a_cat a = c /\ a_count a = on.2) ons ->
  sumZ snd ons <= msum (fun _ a => holds c a) m.
Proof.
  revert m. induction ons as [|[o n] ons IH]; intros m Hc Hnd Hall; cbn.
  { apply msum_nonneg. intros o a Ho. unfold holds. specialize (Hc _ _ Ho). destruct (_ && _); lia. }
  apply NoDup_cons in Hnd as [Hnin Hnd]. apply Forall_cons in Hall as [(a & Ha & Hl & Hcat & Hn) Hall].
  cbn in *. subst c n.
  assert (Hrec : sumZ snd ons <= msum (fun _ a0 => holds (a_cat a) a0) (delete o m)).
  { apply IH; [|done|].
    - intros o' a'. rewrite lookup_delete_Some. intros [_ ?]. eauto.
    - apply Forall_forall. intros [o' n'] Hin. rewrite Forall_forall in Hall.
      destruct (Hall _ Hin) as (b & Hb & Hrest). exists b. split; [|done]. cbn in *.
      rewrite lookup_delete_ne; [done|]. intros ->. apply Hnin. apply list_elem_of_fmap. by exists (o', n'). }
  rewrite (msum_delete _ _ _ a Ha), holds_live, Z.eqb_refl in Hrec by done. unfold sumZ in *. lia.
Qed.

End run.

(** ** Properties of the store *)

Section properties.
Context {R : Type} `{RedisHashLaws R}.
Variables (s : AttemptStore) (st : Z).

(** Order [o]'s record is not failed and holds [n] tickets of category [c]. *)
Definition live_record (r : R) (c : Z) (on : Z * Z) : Prop :=
  let k := attemptRecordKey (prefix s) st on.1 in
  exists_key r k = true /\ hget r k "state" <> Some AttemptStateFailed /\
  hget r k "ticket_category_id" = Some (format_int c) /\
  hget r k "ticket_count" = Some (format_int on.2).

Lemma live_record_attempt r l c on :
  Rep (prefix s) st r (body l) -> live_record r c on ->
  exists a, attempts (body l) !! on.1 = Some a /\ live a = true /\ a_cat a = c /\ a_count a = on.2.
Proof.
  intros HR (Hex & Hst & Hc & Hn). cbn zeta in *. rewrite (rep_exists _ _ _ _ _ HR) in Hex.
  destruct (attempts (body l) !! on.1) as [a|] eqn:Ea; [|done].
  pose proof (fun f => rep_field _ _ _ _ _ _ f HR Ea) as Hf. rewrite Hf in Hst. rewrite Hf in Hc. rewrite Hf in Hn. exists a. split; [done|].
  injection Hc as Hc%format_int_inj. injection Hn as Hn%format_int_inj. split_and!; [|done..].
  unfold live. rewrite bool_decide_eq_false_2; [done|]. intros Hfail. apply Hst.
  unfold field_of. cbn. by rewrite Hfail.
Qed.

(** Under the conservation law, the tickets of live records and the quota on offer fit
    the opening quota. *)
Lemma ledger_bound q (r : R) l c ons v : run_inv q l -> Rep (prefix s) st r (body l) ->
  NoDup ons.*1 -> Forall (live_record r c) ons ->
  hget r (quotaAvailableKey (prefix s) st) (format_int c) = Some (format_int v) ->
  0 <= v /\ sumZ snd ons + v <= qty q c.
Proof.
  intros [Hl Hop _] HR Hnd Hall Hv.
  pose proof (inv_balance _ Hl c). pose proof (inv_quota _ Hl c). pose proof (inv_leaked _ Hl c).
  assert (Hqv : qty (quota (body l)) c = v).
  { unfold hget in Hv. pose proof (rep_ledgers _ _ _ _ HR Quota c) as Hk. cbn [ledgerKey ledger_map] in Hk.
    rewrite Hk in Hv. unfold qty. destruct (quota (body l) !! c); [|done].
    by injection Hv as ->%format_int_inj. }
  assert (sumZ snd ons <= held (body l) c).
  { apply held_covers; [apply Hl|done|]. eapply Forall_impl; [exact Hall|]. intros on Hon.
    by eapply live_record_attempt. }
  rewrite Hop in *. lia.
Qed.

End properties.

(** C2: every run of the store is a run of the abstract ledger.  From a show whose
    quotas are set and whose other keys are empty, any sequence of method calls
    with records read from the store, under any faults, clocks and expirations,
    leaves the keys representing a state the abstract ledger reaches. *)
Theorem rush_store_refines {R} `{RedisHashLaws R} (s : AttemptStore) st q calm (r0 r : R) :
  0 < inFlightTTLSeconds s <= 2 ^ 53 -> quotas_small q -> sale_opened s st q r0 ->
  rtc (store_step s st calm) r0 r ->
  exists l, rtc (step_of calm) (open_sale q) l /\ Rep (prefix s) st r (body l).
Proof.
  intros Hi Hq Ho Hr. destruct (run_sim s st Hi q calm r0 r Hq Ho Hr) as (l & ? & _ & ?). by exists l.
Qed.

(** C1: no overselling.  In every state the store reaches, the tickets of the
    category's attempts that are pending, processing or successful, together
    with the quota still on offer, never exceed the quota the show was opened
    with, and the quota on offer is never negative. *)
Theorem rush_no_oversell {R} `{RedisHashLaws R} (s : AttemptStore) st q (r0 r : R) c ons v :
  0 < inFlightTTLSeconds s <= 2 ^ 53 -> quotas_small q -> sale_opened s st q r0 ->
  rtc (store_step s st false) r0 r ->
  NoDup ons.*1 -> Forall (live_record s st r c) ons ->
  hget r (quotaAvailableKey (prefix s) st) (format_int c) = Some (format_int v) ->
  0 <= v /\ sumZ snd ons + v <= qty q c.
Proof.
  intros Hi Hq Ho Hr Hnd Hall Hv.
  destruct (run_sim s st Hi q false r0 r Hq Ho Hr) as (l & _ & Hl & HR). by apply (ledger_bound s st q r l).
Qed.

(** C3: one order at a time.  While the marker hashes do not expire, two live
    attempts of a show never share their user or a viewer. *)
Theorem rush_exclusive {R} `{RedisHashLaws R} (s : AttemptStore) st q (r0 r : R) o1 o2 c1 c2 n1 n2 u1 u2 vs1 vs2 :
  0 < inFlightTTLSeconds s <= 2 ^ 53 -> quotas_small q -> sale_opened s st q r0 ->
  rtc (store_step s st true) r0 r ->
  live_record s st r c1 (o1, n1) -> live_record s st r c2 (o2, n2) -> o1 <> o2 ->
  hget r (attemptRecordKey (prefix s) st o1) "user_id" = Some (format_int u1) ->
  hget r (attemptRecordKey (prefix s) st o2) "user_id" = Some (format_int u2) ->
  hget r (attemptRecordKey (prefix s) st o1) "viewer_ids" = Some (formatInt64CSV vs1) ->
  hget r (attemptRecordKey (prefix s) st o2) "viewer_ids" = Some (formatInt64CSV vs2) ->
  NoDup vs1 -> NoDup vs2 ->
  u1 <> u2 /\ forall v, v ∈ vs1 -> v ∉ vs2.
Proof.
  intros Hi Hq Ho Hr L1 L2 Hne U1 U2 V1 V2 N1 N2.
  destruct (run_sim s st Hi q true r0 r Hq Ho Hr) as (l & Hrun & [_ _ Hatt] & HR).
  destruct (live_record_attempt s st _ _ _ _ HR L1) as (a1 & A1 & Hl1 & _).
  destruct (live_record_attempt s st _ _ _ _ HR L2) as (a2 & A2 & Hl2 & _). cbn in A1, A2.
  rewrite (rep_field _ _ _ _ _ _ _ HR A1) in U1. rewrite (rep_field _ _ _ _ _ _ _ HR A1) in V1. rewrite (rep_field _ _ _ _ _ _ _ HR A2) in U2. rewrite (rep_field _ _ _ _ _ _ _ HR A2) in V2.
  injection U1 as U1%format_int_inj. injection U2 as U2%format_int_inj.
  injection V1 as V1%formatInt64CSV_inj; [|by eapply Hatt|done].
  injection V2 as V2%formatInt64CSV_inj; [|by eapply Hatt|done]. subst.
  exact (ex_apart _ (exclusive_run _ _ Hrun) _ _ _ _ A1 A2 Hne Hl1 Hl2).
Qed.

(** C4: the state machine of an attempt.  A step of the store moves the state of a
    record that is still there along PENDING -> PROCESSING -> SUCCESS -> FAILED,
    or from any of the first two to FAILED; a FAILED record stays FAILED; and the
    user, the viewers, the category and the count never change. *)
Theorem rush_state_machine {R} `{RedisHashLaws R} (s : AttemptStore) st q (r0 r r' : R) o x y :
  0 < inFlightTTLSeconds s <= 2 ^ 53 -> quotas_small q -> sale_opened s st q r0 ->
  rtc (store_step s st false) r0 r -> store_step s st false r r' ->
  hget r (attemptRecordKey (prefix s) st o) "state" = Some x ->
  hget r' (attemptRecordKey (prefix s) st o) "state" = Some y ->
  exists stx sty, x = astate_text stx /\ y = astate_text sty /\ edge stx sty /\
    forall f, f ∈ ["user_id"; "viewer_ids"; "ticket_category_id"; "ticket_count"] ->
      hget r' (attemptRecordKey (prefix s) st o) f = hget r (attemptRecordKey (prefix s) st o) f.
Proof.
  intros Hi Hq Ho Hr Hs Hx Hy.
  destruct (run_sim s st Hi q false r0 r Hq Ho Hr) as (l & Hrun & Hinv & HR).
  destruct (store_step_sim s st Hi q false l r r' Hq Hinv HR Hs) as (l' & _ & Hmv & HR').
  assert (Hrec : forall r l x, Rep (prefix s) st r (body l) ->
    hget r (attemptRecordKey (prefix s) st o) "state" = Some x ->
    exists a, attempts (body l) !! o = Some a /\ x = astate_text (a_state a)).
  { clear. intros r l x HR Hx. destruct (attempts (body l) !! o) as [a|] eqn:Ea.
    - exists a. split; [done|]. rewrite (field_of_with_state _ _ _ _ _ _ HR Ea) in Hx. congruence.
    - pose proof (rep_attempts _ _ _ _ HR o) as Hn. rewrite Ea in Hn. unfold hget in Hx. cbn in Hn.
      by rewrite Hn in Hx. }
  destruct (Hrec _ _ _ HR Hx) as (a & Ha & ->). destruct (Hrec _ _ _ HR' Hy) as (b & Hb & ->).
  destruct (Hmv _ _ _ Ha Hb) as [He Hc]. exists (a_state a), (a_state b). split_and!; [done..|].
  intros f Hf. rewrite (rep_field _ _ _ _ _ _ _ HR Ha), (rep_field _ _ _ _ _ _ _ HR' Hb).
  injection Hc as Hu Hv Hcat Hn.
  repeat (apply elem_of_cons in Hf as [->|Hf];
    [unfold field_of; repeat case_decide; try congruence; discriminate|]).
  by apply elem_of_nil in Hf.
Qed.
