(* ===== verification/RushDemo.v ===== *)
(** * A concrete sale on the in-memory Redis

    A show with two tickets of one category; the witnesses of RushRun's
    properties, and the runs that show where the guarantees end. *)
From Stdlib Require Import ZArith Lia Ascii String.
From stdpp Require Import base gmap sets list strings relations.
From S2P Require Import Prelude GoBase Effects Redis RushRecord RushStore RushSpec RushRefine RushRun.
Import MemRedis.
Open Scope string_scope.
Open Scope list_scope.
Open Scope Z_scope.

Definition demo_store : AttemptStore := mkAttemptStore "p" 30 1800.
Definition demo_show : Z := 5.
Definition demo_quota : gmap Z Z := {[7 := 2]}.
Definition demo_env : env := mkEnv [] [] (time_of_unix 1770000000) [].

Definition demo_r0 : mem :=
  hset mem_empty (quotaAvailableKey "p" demo_show) (format_int 7) (format_int 2).

(** User [u] asks for one ticket for viewer [v] under the order number [o]. *)
Definition demo_req (o u v : Z) : AdmitAttemptRequest :=
  mkAdmitAttemptRequest o u 5 5 7 [v] 1 (time_of_unix 1770003600) (time_of_unix 1770010000)
    (time_of_unix 1770000000).

Definition demo_admit (o u v : Z) (r : mem) : mem :=
  (Admit (Some demo_store) (demo_req o u v) (demo_env, r)).2.2.
Definition demo_r1 : mem := demo_admit 100 1 11 demo_r0.
Definition demo_r2 : mem := demo_admit 101 2 12 demo_r1.
Definition demo_r3 : mem :=
  (PrepareAttemptForConsume (Some demo_store) 5 100 (time_of_unix 1770000001) (demo_env, demo_r1)).2.2.

Lemma sale_opened_one {R} `{RedisHashLaws R} (s : AttemptStore) st c n (r : R) :
  (forall k, hgetall r k = ∅) ->
  sale_opened s st {[c := n]} (hset r (quotaAvailableKey (prefix s) st) (format_int c) (format_int n)).
Proof.
  intros He.
  assert (HR : Rep (prefix s) st r (body (open_sale ∅))).
  { split; cbn; [intros o; rewrite lookup_empty; apply He|].
    intros l z. rewrite He, lookup_empty. by destruct l; cbn; rewrite lookup_empty. }
  apply (rep_hset _ _ _ _ Quota c n) in HR. exact HR.
Qed.

Lemma demo_opened : sale_opened demo_store demo_show demo_quota demo_r0.
Proof. apply (sale_opened_one demo_store demo_show 7 2 mem_empty). intros k. reflexivity. Qed.

Lemma demo_small : quotas_small demo_quota.
Proof. intros c n Hn. unfold demo_quota in Hn. apply lookup_singleton_Some in Hn as [_ <-]. lia. Qed.

Lemma demo_step calm o u v r : store_step demo_store demo_show calm r (demo_admit o u v r).
Proof. apply (ss_admit demo_store demo_show calm r demo_env (demo_req o u v)). split; [done|cbn; lia]. Qed.

Lemma demo_run1 calm : rtc (store_step demo_store demo_show calm) demo_r0 demo_r1.
Proof. apply rtc_once, demo_step. Qed.

Lemma demo_run2 calm : rtc (store_step demo_store demo_show calm) demo_r0 demo_r2.
Proof. eapply rtc_r; [apply demo_run1|apply demo_step]. Qed.

Lemma demo_prepare : store_step demo_store demo_show false demo_r1 demo_r3.
Proof. apply (ss_prepare demo_store demo_show false demo_r1 demo_env 100 (time_of_unix 1770000001)). Qed.

Lemma demo_ttl : 0 < inFlightTTLSeconds demo_store <= 2 ^ 53.
Proof. cbn. lia. Qed.

Ltac compute_record := split; [vm_compute; reflexivity|split; [vm_compute; discriminate|split; vm_compute; reflexivity]].

Lemma rush_store_refines_witness :
  exists l, rtc (step_of true) (open_sale demo_quota) l /\ Rep "p" demo_show demo_r2 (body l).
Proof.
  exact (rush_store_refines demo_store demo_show demo_quota true demo_r0 demo_r2 demo_ttl demo_small
    demo_opened (demo_run2 true)).
Defined.

Lemma rush_no_oversell_witness : 0 <= 0 /\ sumZ snd [(100, 1); (101, 1)] + 0 <= qty demo_quota 7.
Proof.
  apply (rush_no_oversell demo_store demo_show demo_quota demo_r0 demo_r2 7 [(100, 1); (101, 1)] 0
    demo_ttl demo_small demo_opened (demo_run2 false)).
  - apply (bool_decide_unpack _). reflexivity.
  - apply Forall_cons; split; [compute_record|]. apply Forall_cons; split; [compute_record|]. apply Forall_nil.
    exact I.
  - vm_compute. reflexivity.
Defined.

Lemma rush_exclusive_witness : 1 <> 2 /\ forall v, v ∈ [11] -> v ∉ [12].
Proof.
  apply (rush_exclusive demo_store demo_show demo_quota demo_r0 demo_r2 100 101 7 7 1 1 1 2 [11] [12]
    demo_ttl demo_small demo_opened (demo_run2 true));
    try (vm_compute; reflexivity); try apply NoDup_singleton; try lia; compute_record.
Defined.

Lemma rush_state_machine_witness :
  exists stx sty, "PENDING" = astate_text stx /\ "PROCESSING" = astate_text sty /\ edge stx sty /\
    forall f, f ∈ ["user_id"; "viewer_ids"; "ticket_category_id"; "ticket_count"] ->
      hget demo_r3 (attemptRecordKey "p" demo_show 100) f = hget demo_r1 (attemptRecordKey "p" demo_show 100) f.
Proof.
  apply (rush_state_machine demo_store demo_show demo_quota demo_r0 demo_r1 demo_r3 100 "PENDING" "PROCESSING"
    demo_ttl demo_small demo_opened (demo_run1 false) demo_prepare); vm_compute; reflexivity.
Defined.

(** Where exclusivity ends.  The in-flight hashes live 30 seconds, the record of
    a pending attempt until two hours after the sale.  On the in-memory Redis,
    31 seconds after an admission that the consumer has not picked up, the same
    user is admitted again under another order number, and both attempts are
    live. *)
Theorem inflight_expiry_readmits :
  exists r, rtc (store_step demo_store demo_show false) demo_r0 r /\
    live_record demo_store demo_show r 7 (100, 1) /\ live_record demo_store demo_show r 7 (101, 1) /\
    hget r (attemptRecordKey "p" demo_show 100) "user_id" = Some "1" /\
    hget r (attemptRecordKey "p" demo_show 101) "user_id" = Some "1".
Proof.
  exists (demo_admit 101 1 11 (elapse demo_r1 31)). split_and!.
  - eapply rtc_r; [eapply rtc_r; [apply demo_run1|]|apply demo_step].
    apply ss_elapse. split; [lia|done].
  - compute_record.
  - compute_record.
  - vm_compute. reflexivity.
  - vm_compute. reflexivity.
Qed.

(** Where the quota leaks.  A consumer that prepared an attempt and never
    finalizes it (its lease lapses after 30 seconds) leaves no record, and the
    tickets of the attempt are neither on offer nor held by anybody. *)
Theorem lapsed_lease_leaks_quota :
  exists r, rtc (store_step demo_store demo_show false) demo_r0 r /\
    exists_key r (attemptRecordKey "p" demo_show 100) = false /\
    hget demo_r0 (quotaAvailableKey "p" demo_show) "7" = Some "2" /\
    hget r (quotaAvailableKey "p" demo_show) "7" = Some "1" /\
    hgetall r (userInflightKey "p" demo_show) = ∅ /\ hgetall r (userActiveKey "p" demo_show) = ∅.
Proof.
  exists (elapse demo_r3 31). split.
  - eapply rtc_r; [eapply rtc_r; [apply demo_run1|apply demo_prepare]|]. apply ss_elapse. split; [lia|done].
  - split_and!; vm_compute; reflexivity.
Qed.
