(* ===== verification/Base64.v ===== *)
(** * base64.RawURLEncoding

    The unpadded URL alphabet the purchase tokens are written in: encoding of a
    byte string, Go's lenient decoding (line breaks are skipped, the unused low
    bits of the last character are not checked) and the round trip. *)
From Stdlib Require Import ZArith Lia Ascii String.
From stdpp Require Import base list strings.
From S2P Require Import Prelude GoBase.
Open Scope string_scope.
Open Scope list_scope.
Open Scope Z_scope.

Definition byte_of (c : ascii) : Z := Z.of_N (Ascii.N_of_ascii c).
Definition char_of (z : Z) : ascii := Ascii.ascii_of_N (Z.to_N z).

(** The 64 characters: A-Z, a-z, 0-9, - and _. *)
Definition sextet_char (i : Z) : ascii :=
  if i <? 26 then char_of (65 + i)
  else if i <? 52 then char_of (97 + (i - 26))
  else if i <? 62 then char_of (48 + (i - 52))
  else if i =? 62 then "-"%char else "_"%char.

Definition char_sextet (c : ascii) : option Z :=
  let z := byte_of c in
  if (65 <=? z) && (z <=? 90) then Some (z - 65)
  else if (97 <=? z) && (z <=? 122) then Some (z - 97 + 26)
  else if (48 <=? z) && (z <=? 57) then Some (z - 48 + 52)
  else if z =? 45 then Some 62
  else if z =? 95 then Some 63
  else None.

Fixpoint b64_encode (s : string) : string :=
  match s with
  | EmptyString => ""
  | String a EmptyString =>
      let a := byte_of a in
      String (sextet_char (a / 4)) (String (sextet_char (a mod 4 * 16)) "")
  | String a (String b EmptyString) =>
      let a := byte_of a in let b := byte_of b in
      String (sextet_char (a / 4)) (String (sextet_char (a mod 4 * 16 + b / 16))
        (String (sextet_char (b mod 16 * 4)) ""))
  | String a (String b (String c s')) =>
      let a := byte_of a in let b := byte_of b in let c := byte_of c in
      String (sextet_char (a / 4)) (String (sextet_char (a mod 4 * 16 + b / 16))
        (String (sextet_char (b mod 16 * 4 + c / 64)) (String (sextet_char (c mod 64)) (b64_encode s'))))
  end.

(** Go's decoder skips carriage returns and line feeds. *)
Fixpoint drop_breaks (s : string) : string :=
  match s with
  | EmptyString => ""
  | String c s' => if (byte_of c =? 10) || (byte_of c =? 13) then drop_breaks s'
                   else String c (drop_breaks s')
  end.

Fixpoint decode_quads (s : string) : option string :=
  match s with
  | EmptyString => Some ""
  | String _ EmptyString => None
  | String a (String b EmptyString) =>
      a ← char_sextet a; b ← char_sextet b; Some (String (char_of (a * 4 + b / 16)) "")
  | String a (String b (String c EmptyString)) =>
      a ← char_sextet a; b ← char_sextet b; c ← char_sextet c;
      Some (String (char_of (a * 4 + b / 16)) (String (char_of (b mod 16 * 16 + c / 4)) ""))
  | String a (String b (String c (String d s'))) =>
      a ← char_sextet a; b ← char_sextet b; c ← char_sextet c; d ← char_sextet d;
      rest ← decode_quads s';
      Some (String (char_of (a * 4 + b / 16)) (String (char_of (b mod 16 * 16 + c / 4))
        (String (char_of (c mod 4 * 64 + d)) rest)))
  end.

Definition b64_decode (s : string) : option string := decode_quads (drop_breaks s).

Lemma byte_range c : 0 <= byte_of c < 256.
Proof. unfold byte_of. pose proof (Ascii.N_ascii_bounded c). lia. Qed.

Lemma char_byte c : char_of (byte_of c) = c.
Proof. unfold char_of, byte_of. rewrite N2Z.id. apply Ascii.ascii_N_embedding. Qed.

(** Facts about the 64 characters, by enumeration. *)
Definition sextets : list Z := map Z.of_nat (seq 0 64).

Lemma sextet_cases (P : Z -> bool) i :
  forallb P sextets = true -> 0 <= i < 64 -> P i = true.
Proof.
  intros Hall Hi. rewrite forallb_forall in Hall. apply Hall. unfold sextets.
  apply in_map_iff. exists (Z.to_nat i). split; [lia|]. apply in_seq. lia.
Qed.

Lemma sextet_char_sextet i : 0 <= i < 64 -> char_sextet (sextet_char i) = Some i.
Proof.
  intros Hi. apply (sextet_cases (fun i => bool_decide (char_sextet (sextet_char i) = Some i))) in Hi;
    [by apply bool_decide_eq_true in Hi|reflexivity].
Qed.

Definition b64_char (c : ascii) : bool := bool_decide (is_Some (char_sextet c)).

Lemma sextet_char_ok i : 0 <= i < 64 -> b64_char (sextet_char i) = true.
Proof. intros Hi. unfold b64_char. rewrite sextet_char_sextet by done. by apply bool_decide_eq_true. Qed.

Ltac byte_bounds :=
  repeat match goal with
  | |- context [byte_of ?c] =>
      lazymatch goal with
      | H : 0 <= byte_of c < 256 |- _ => fail
      | _ => pose proof (byte_range c)
      end
  end.

(** Induction three bytes at a time. *)
Lemma string_ind3 (P : string -> Prop) :
  P "" -> (forall a, P (String a "")) -> (forall a b, P (String a (String b ""))) ->
  (forall a b c s, P s -> P (String a (String b (String c s)))) -> forall s, P s.
Proof.
  intros H0 H1 H2 H3.
  fix IH 1. intros [|a [|b [|c s]]]; [apply H0|apply H1|apply H2|apply H3, IH].
Qed.

Lemma b64_encode_chars s : sall b64_char (b64_encode s) = true.
Proof.
  induction s as [|a|a b|a b c s IH] using string_ind3; cbn [b64_encode sall];
    byte_bounds;
    rewrite ?sextet_char_ok; try done; try apply IH; Z.div_mod_to_equations; lia.
Qed.

Lemma drop_breaks_id s : sall b64_char s = true -> drop_breaks s = s.
Proof.
  induction s as [|c s IH]; [done|]. cbn [sall drop_breaks]. intros Hc. bool_norm.
  rewrite IH by done. destruct (_ || _) eqn:E; [|done]. exfalso.
  apply bool_decide_eq_true in H as [x Hx]. unfold char_sextet in Hx.
  apply orb_true_iff in E as [E|E]; bool_norm; rewrite E in Hx; discriminate.
Qed.

Lemma decode_encode s : decode_quads (b64_encode s) = Some s.
Proof.
  induction s as [|a|a b|a b c s IH] using string_ind3; cbn [b64_encode decode_quads];
    byte_bounds;
    rewrite ?sextet_char_sextet by (Z.div_mod_to_equations; lia); cbn [mbind option_bind].
  - done.
  - replace (byte_of a / 4 * 4 + byte_of a mod 4 * 16 / 16) with (byte_of a)
      by (Z.div_mod_to_equations; lia). by rewrite char_byte.
  - replace (byte_of a / 4 * 4 + (byte_of a mod 4 * 16 + byte_of b / 16) / 16) with (byte_of a)
      by (Z.div_mod_to_equations; lia).
    replace ((byte_of a mod 4 * 16 + byte_of b / 16) mod 16 * 16 + byte_of b mod 16 * 4 / 4) with (byte_of b)
      by (Z.div_mod_to_equations; lia). by rewrite !char_byte.
  - rewrite IH. cbn [mbind option_bind].
    replace (byte_of a / 4 * 4 + (byte_of a mod 4 * 16 + byte_of b / 16) / 16) with (byte_of a)
      by (Z.div_mod_to_equations; lia).
    replace ((byte_of a mod 4 * 16 + byte_of b / 16) mod 16 * 16 + (byte_of b mod 16 * 4 + byte_of c / 64) / 4)
      with (byte_of b) by (Z.div_mod_to_equations; lia).
    replace ((byte_of b mod 16 * 4 + byte_of c / 64) mod 4 * 64 + byte_of c mod 64) with (byte_of c)
      by (Z.div_mod_to_equations; lia). by rewrite !char_byte.
Qed.

Lemma b64_roundtrip s : b64_decode (b64_encode s) = Some s.
Proof.
  unfold b64_decode. rewrite drop_breaks_id by apply b64_encode_chars. apply decode_encode.
Qed.
