(* ===== verification/PurchaseToken.v ===== *)
(** * Purchase tokens  (services/order-rpc/internal/rush/purchase_token.go)

    A token is "v1.<claims>.<signature>", both parts in unpadded URL base64.
    encoding/json and HMAC-SHA256 are the members of [TokenPrims]; the round
    trip uses of them only that Unmarshal reads back what Marshal wrote. *)
From Stdlib Require Import ZArith Lia Ascii String.
From stdpp Require Import base gmap list strings.
From S2P Require Import Prelude GoBase Base64.
Open Scope string_scope.
Open Scope list_scope.
Open Scope Z_scope.

Definition purchaseTokenVersion : string := "v1".

Inductive token_err := ErrInvalidPurchaseToken | ErrExpiredPurchaseToken | ErrTokenMarshal.

Record PurchaseTokenClaims := mkClaims {
  pt_OrderNumber : Z; pt_UserID : Z; pt_ProgramID : Z; pt_ShowTimeID : Z; pt_TicketCategoryID : Z;
  pt_TicketUserIDs : list Z; pt_TicketCount : Z; pt_SaleWindowEndAt : Z; pt_ShowEndAt : Z;
  pt_DistributionMode : string; pt_TakeTicketMode : string; pt_ExpireAt : Z }.

Record PurchaseTokenCodec := mkCodec { secret : string; token_ttl : Z }.

(** JSON coding of the claims, and the keyed hash. *)
Class TokenPrims := {
  marshal : PurchaseTokenClaims -> option string;
  unmarshal : string -> option PurchaseTokenClaims;
  hmac_sha256 : string -> string -> string }.

Class TokenPrimsLaws `{TokenPrims} := {
  unmarshal_marshal : forall c s, marshal c = Some s -> unmarshal s = Some c }.

Definition NewPurchaseTokenCodec (secret : string) (ttl : Z) : result token_err PurchaseTokenCodec :=
  if bool_decide (trim_space secret = "") || (ttl <=? 0) then Err ErrInvalidPurchaseToken
  else Ok (mkCodec secret ttl).

(** [now]: what [c.now()] reads, if it is called. *)
Definition normalizeClaims (c : PurchaseTokenCodec) (now : Z) (claims : PurchaseTokenClaims)
  : result token_err PurchaseTokenClaims :=
  if (pt_OrderNumber claims <=? 0) || (pt_UserID claims <=? 0) || (pt_ProgramID claims <=? 0)
     || (pt_TicketCategoryID claims <=? 0) then Err ErrInvalidPurchaseToken
  else
    let showTimeID := if pt_ShowTimeID claims <=? 0 then pt_ProgramID claims else pt_ShowTimeID claims in
    if (length (pt_TicketUserIDs claims) =? 0)%nat then Err ErrInvalidPurchaseToken
    else
      let n := Z.of_nat (length (pt_TicketUserIDs claims)) in
      let ticketCount := if pt_TicketCount claims =? 0 then n else pt_TicketCount claims in
      if negb (ticketCount =? n) then Err ErrInvalidPurchaseToken
      else
        let expireAt := if pt_ExpireAt claims =? 0 then unix_sec (now + token_ttl c) else pt_ExpireAt claims in
        let saleWindowEndAt := if pt_SaleWindowEndAt claims =? 0 then expireAt else pt_SaleWindowEndAt claims in
        let showEndAt := if pt_ShowEndAt claims =? 0 then saleWindowEndAt else pt_ShowEndAt claims in
        Ok (mkClaims (pt_OrderNumber claims) (pt_UserID claims) (pt_ProgramID claims) showTimeID
              (pt_TicketCategoryID claims) (pt_TicketUserIDs claims) ticketCount saleWindowEndAt showEndAt
              (pt_DistributionMode claims) (pt_TakeTicketMode claims) expireAt).

Section codec.
Context `{TokenPrims}.

Definition sign (c : PurchaseTokenCodec) (payload : string) : string := hmac_sha256 (secret c) payload.

(** A nil codec answers [ErrInvalidPurchaseToken]. *)
Definition Issue (c : option PurchaseTokenCodec) (now : Z) (claims : PurchaseTokenClaims)
  : result token_err string :=
  match c with
  | None => Err ErrInvalidPurchaseToken
  | Some c =>
      normalized ← normalizeClaims c now claims;
      match marshal normalized with
      | None => Err ErrTokenMarshal
      | Some payload =>
          Ok (purchaseTokenVersion +:+ "." +:+ b64_encode payload +:+ "." +:+ b64_encode (sign c payload))
      end
  end.

(** [now1] is read when the claims carry no expiry, [now2] for the final check. *)
Definition Verify (c : option PurchaseTokenCodec) (now1 now2 : Z) (token : string)
  : result token_err PurchaseTokenClaims :=
  match c with
  | None => Err ErrInvalidPurchaseToken
  | Some c =>
      if bool_decide (token = "") then Err ErrInvalidPurchaseToken
      else match split_on "." token with
      | [version; part1; part2] =>
          if negb (bool_decide (version = purchaseTokenVersion)) then Err ErrInvalidPurchaseToken
          else match b64_decode part1 with
          | None => Err ErrInvalidPurchaseToken
          | Some payload =>
              match b64_decode part2 with
              | None => Err ErrInvalidPurchaseToken
              | Some signature =>
                  if negb (bool_decide (signature = sign c payload)) then Err ErrInvalidPurchaseToken
                  else match unmarshal payload with
                  | None => Err ErrInvalidPurchaseToken
                  | Some claims =>
                      match normalizeClaims c now1 claims with
                      | Err _ => Err ErrInvalidPurchaseToken
                      | Ok normalized =>
                          if pt_ExpireAt normalized <=? unix_sec now2 then Err ErrExpiredPurchaseToken
                          else Ok normalized
                      end
                  end
              end
          end
      | _ => Err ErrInvalidPurchaseToken
      end
  end.

(** ** Lemmas *)

Lemma b64_no_dot s :
  sall b64_char s = true -> sall (fun c => negb (bool_decide (c = "."%char))) s = true.
Proof.
  apply sall_impl. intros c Hc. rewrite bool_decide_eq_false_2; [done|]. intros ->. discriminate Hc.
Qed.

Lemma split_token p g :
  split_on "." (purchaseTokenVersion +:+ "." +:+ b64_encode p +:+ "." +:+ b64_encode g)
  = [purchaseTokenVersion; b64_encode p; b64_encode g].
Proof.
  change (purchaseTokenVersion +:+ "." +:+ b64_encode p +:+ "." +:+ b64_encode g)
    with (purchaseTokenVersion +:+ String "." (b64_encode p +:+ String "." (b64_encode g))).
  rewrite split_on_app by done.
  rewrite split_on_app by apply b64_no_dot, b64_encode_chars.
  by rewrite split_on_nosep by apply b64_no_dot, b64_encode_chars.
Qed.

(** The signature of what a verifier accepts covers the claims it returns. *)
Lemma verify_ok c now1 now2 token claims :
  Verify (Some c) now1 now2 token = Ok claims <->
  exists part1 part2 payload raw,
    split_on "." token = [purchaseTokenVersion; part1; part2] /\
    b64_decode part1 = Some payload /\ b64_decode part2 = Some (sign c payload) /\
    unmarshal payload = Some raw /\ normalizeClaims c now1 raw = Ok claims /\
    unix_sec now2 < pt_ExpireAt claims.
Proof.
  unfold Verify. split.
  - case_bool_decide; [done|]. destruct (split_on "." token) as [|v [|p1 [|p2 [|]]]]; try done.
    case_bool_decide as Hv; [|done]. subst v. cbn [negb].
    destruct (b64_decode p1) as [payload|] eqn:E1; [|done].
    destruct (b64_decode p2) as [sg|] eqn:E2; [|done].
    case_bool_decide as Hs; [|done]. subst sg. cbn [negb].
    destruct (unmarshal payload) as [raw|] eqn:E3; [|done].
    destruct (normalizeClaims c now1 raw) as [n|] eqn:E4; [|done].
    destruct (Z.leb_spec (pt_ExpireAt n) (unix_sec now2)); [done|]. intros [= <-].
    exists p1, p2, payload, raw. by split_and!.
  - intros (p1 & p2 & payload & raw & Hs & E1 & E2 & E3 & E4 & He).
    rewrite bool_decide_eq_false_2 by (by intros ->). rewrite Hs.
    rewrite bool_decide_eq_true_2 by done. cbn [negb]. rewrite E1, E2.
    rewrite bool_decide_eq_true_2 by done. cbn [negb]. rewrite E3, E4.
    destruct (Z.leb_spec (pt_ExpireAt claims) (unix_sec now2)); [lia|done].
Qed.

(** Normalized claims with an expiry are a fixed point. *)
Lemma normalize_fixed c now now' claims n :
  normalizeClaims c now claims = Ok n -> pt_ExpireAt n <> 0 -> normalizeClaims c now' n = Ok n.
Proof.
  unfold normalizeClaims. destr_if; [done|]. destr_if; [done|]. destr_if; [done|].
  intros [= <-] He. cbn in *. bool_norm.
  rewrite Heqb0. 
  repeat match goal with |- context [?a <=? 0] => destruct (Z.leb_spec a 0) end; try lia;
  repeat match goal with |- context [?a =? ?b] => destruct (Z.eqb_spec a b) end; try lia; try done;
  cbn in *; try lia; repeat destr_if; bool_norm; try lia; try congruence.
Qed.

End codec.

(** ** Properties *)

(** Verifying an issued token normalizes its claims once more. *)
Lemma verify_of_issue `{TokenPrimsLaws} c now claims token n now1 now2 :
  Issue (Some c) now claims = Ok token -> normalizeClaims c now claims = Ok n ->
  Verify (Some c) now1 now2 token =
    match normalizeClaims c now1 n with
    | Err _ => Err ErrInvalidPurchaseToken
    | Ok v => if pt_ExpireAt v <=? unix_sec now2 then Err ErrExpiredPurchaseToken else Ok v
    end.
Proof.
  intros Hi Hn. unfold Issue in Hi. rewrite Hn in Hi. cbn [mbind result_bind] in Hi.
  destruct (marshal n) as [payload|] eqn:Em; [|done].
  match type of Hi with Ok ?t = Ok token => assert (Htok : t = token) by congruence end.
  rewrite <- Htok. unfold Verify. rewrite split_token. rewrite bool_decide_eq_false_2 by done.
  rewrite bool_decide_eq_true_2 by done. cbn [negb]. rewrite !b64_roundtrip.
  rewrite bool_decide_eq_true_2 by done. cbn [negb]. by rewrite (unmarshal_marshal _ _ Em).
Qed.

(** An issued token verifies to the normalized claims it was issued for, until
    the second of its expiry, and is reported expired from then on. *)
Theorem token_issue_verify `{TokenPrimsLaws} c now claims token n now1 now2 :
  Issue (Some c) now claims = Ok token -> normalizeClaims c now claims = Ok n -> pt_ExpireAt n <> 0 ->
  Verify (Some c) now1 now2 token =
    if pt_ExpireAt n <=? unix_sec now2 then Err ErrExpiredPurchaseToken else Ok n.
Proof. intros Hi Hn He. by rewrite (verify_of_issue _ _ _ _ _ _ _ Hi Hn), (normalize_fixed c now now1 _ _ Hn He). Qed.

(** [Verify] accepts exactly the unexpired tokens whose signature part is the
    HMAC of their payload part under the codec's secret: what it returns are the
    claims in that payload, normalized, and they expire in the future. *)
Theorem token_verify_sound `{TokenPrims} c now1 now2 token claims :
  Verify c now1 now2 token = Ok claims <->
  exists codec part1 part2 payload raw,
    c = Some codec /\ split_on "." token = [purchaseTokenVersion; part1; part2] /\
    b64_decode part1 = Some payload /\ b64_decode part2 = Some (hmac_sha256 (secret codec) payload) /\
    unmarshal payload = Some raw /\ normalizeClaims codec now1 raw = Ok claims /\
    unix_sec now2 < pt_ExpireAt claims.
Proof.
  destruct c as [codec|]; [|by split; [|intros (? & ? & ? & ? & ? & ? & _)]].
  rewrite verify_ok. split.
  - intros (p1 & p2 & payload & raw & ?). exists codec, p1, p2, payload, raw. by split.
  - intros (codec' & p1 & p2 & payload & raw & [= <-] & ?). by exists p1, p2, payload, raw.
Qed.

(** *** A concrete codec for the witnesses *)

Definition demo_claims : PurchaseTokenClaims :=
  mkClaims 100 1 5 5 7 [11; 12] 2 1770003600 1770010000 "" "" 1770000900.

#[local] Instance claims_eq_dec : EqDecision PurchaseTokenClaims.
Proof. solve_decision. Defined.

Definition demo_prims : TokenPrims :=
  {| marshal c := if decide (c = demo_claims) then Some "claims" else None;
     unmarshal s := if decide (s = "claims") then Some demo_claims else None;
     hmac_sha256 k p := k +:+ p |}.

Lemma demo_prims_laws : @TokenPrimsLaws demo_prims.
Proof.
  split. cbn. intros c s. destruct (decide (c = demo_claims)) as [->|]; [|done].
  by intros [= <-].
Qed.

Lemma token_issue_verify_witness :
  exists token,
    @Issue demo_prims (Some (mkCodec "key" (900 * second))) (time_of_unix 1770000000) demo_claims = Ok token /\
    @Verify demo_prims (Some (mkCodec "key" (900 * second))) 0 (time_of_unix 1770000100) token = Ok demo_claims.
Proof.
  eexists. split; [reflexivity|].
  apply (@token_issue_verify demo_prims demo_prims_laws (mkCodec "key" (900 * second))
    (time_of_unix 1770000000) demo_claims _ demo_claims 0 (time_of_unix 1770000100));
    [reflexivity|reflexivity|discriminate].
Defined.
