(* ===== verification/FreezeToken.v ===== *)
(** * Seat-freeze tokens  (pkg/seatfreeze/freeze_token.go)

    A freeze of seats for an order is named "freeze-st<show>-tc<category>-o<order>".
    [ParseToken] scans the format and accepts only what prints back as it was
    read. *)
From Stdlib Require Import ZArith Lia Ascii String.
From stdpp Require Import base list strings.
From S2P Require Import Prelude GoBase.
Open Scope string_scope.
Open Scope list_scope.
Open Scope Z_scope.

Record Token := mkToken { ShowTimeID : Z; TicketCategoryID : Z; tok_OrderNumber : Z }.

Definition FormatToken (showTimeID ticketCategoryID orderNumber : Z) : string :=
  "freeze-st" +:+ format_int showTimeID +:+ "-tc" +:+ format_int ticketCategoryID
  +:+ "-o" +:+ format_int orderNumber.

(** ** fmt.Sscanf of a format of literals and [%d] *)

(** A literal of the format must be next in the input. *)
Fixpoint scan_literal (lit s : string) : option string :=
  match lit, s with
  | EmptyString, _ => Some s
  | String c lit, String d s => if decide (c = d) then scan_literal lit s else None
  | String _ _, EmptyString => None
  end.

(** The longest run of digits, and the rest. *)
Fixpoint take_digits (s : string) : string * string :=
  match s with
  | EmptyString => ("", "")
  | String c s' => if is_digit c then let '(d, r) := take_digits s' in (String c d, r) else ("", s)
  end.

(** [%d]: leading spaces, an optional sign, digits, in the range of int64. *)
Definition scan_int (s : string) : option (Z * string) :=
  let s := trim_left s in
  let '(sign, s) := match s with
                    | String "-" s' => (true, s')
                    | String "+" s' => (false, s')
                    | _ => (false, s)
                    end in
  let '(d, rest) := take_digits s in
  v ← parse_unsigned d;
  let v := if sign : bool then - v else v in
  if in_int64 v then Some (v, rest) else None.

(** [fmt.Sscanf(value, "freeze-st%d-tc%d-o%d", ...)]; input left over is no error. *)
Definition sscanf_token (value : string) : option Token :=
  s ← scan_literal "freeze-st" value;
  '(st, s) ← scan_int s;
  s ← scan_literal "-tc" s;
  '(tc, s) ← scan_int s;
  s ← scan_literal "-o" s;
  '(o, _) ← scan_int s;
  Some (mkToken st tc o).

Inductive freeze_token_err := ErrInvalidFreezeToken (value : string).

Definition ParseToken (value : string) : result freeze_token_err Token :=
  match sscanf_token value with
  | None => Err (ErrInvalidFreezeToken value)
  | Some token =>
      if (ShowTimeID token <=? 0) || (TicketCategoryID token <=? 0) || (tok_OrderNumber token <=? 0)
         || negb (bool_decide (FormatToken (ShowTimeID token) (TicketCategoryID token) (tok_OrderNumber token) = value))
      then Err (ErrInvalidFreezeToken value)
      else Ok token
  end.

Lemma scan_literal_app lit s : scan_literal lit (lit +:+ s) = Some s.
Proof. induction lit as [|c lit IH]; cbn; [done|]. by rewrite decide_True. Qed.

(** Digits stop at the first character that is none. *)
Lemma take_digits_app d s :
  sall is_digit d = true -> (forall c t, s = String c t -> is_digit c = false) ->
  take_digits (d +:+ s) = (d, s).
Proof.
  intros Hd Hs. induction d as [|c d IH]; cbn in *.
  - destruct s as [|c t]; [done|]. cbn. by rewrite (Hs c t eq_refl).
  - bool_norm. rewrite H. by rewrite IH.
Qed.

Lemma digit_cases c : is_digit c = true -> is_space c = false /\ c <> "-"%char /\ c <> "+"%char.
Proof.
  intros Hc. destruct c as [[] [] [] [] [] [] [] []]; try discriminate Hc; (split; [reflexivity|split; discriminate]).
Qed.

Lemma scan_int_format z s :
  0 <= z -> in_int64 z = true -> (forall c t, s = String c t -> is_digit c = false) ->
  scan_int (format_int z +:+ s) = Some (z, s).
Proof.
  intros Hz Hr Hs. pose proof (format_nonneg_digits z Hz) as Hd.
  pose proof (format_int_nonempty z) as Hne.
  assert (Hp : parse_unsigned (format_int z) = Some z).
  { unfold format_int. destruct (Z.ltb_spec z 0); [lia|]. by apply parse_unsigned_format. }
  destruct (format_int z) as [|c d] eqn:E; [done|].
  assert (Hc : is_digit c = true) by (cbn in Hd; by bool_norm).
  destruct (digit_cases c Hc) as (Hsp & Hm & Hpl).
  unfold scan_int. cbn [String.append trim_left]. rewrite Hsp.
  assert (Hsign : (match String c (d +:+ s) with
    | String "-" s' => (true, s') | String "+" s' => (false, s') | _ => (false, String c (d +:+ s)) end)
    = (false, String c (d +:+ s))).
  { destruct c as [[] [] [] [] [] [] [] []]; first [reflexivity|congruence]. }
  rewrite Hsign. change (String c (d +:+ s)) with ((String c d) +:+ s).
  rewrite take_digits_app by done. rewrite Hp. cbn [mbind option_bind]. by rewrite Hr.
Qed.

Lemma format_token_scans st tc o :
  0 <= st -> 0 <= tc -> 0 <= o -> in_int64 st = true -> in_int64 tc = true -> in_int64 o = true ->
  sscanf_token (FormatToken st tc o) = Some (mkToken st tc o).
Proof.
  intros. unfold sscanf_token, FormatToken.
  rewrite scan_literal_app. cbn [mbind option_bind].
  rewrite scan_int_format by (done || by intros ? ? [= <- _]). cbn [mbind option_bind].
  rewrite scan_literal_app. cbn [mbind option_bind].
  rewrite scan_int_format by (done || by intros ? ? [= <- _]). cbn [mbind option_bind].
  rewrite scan_literal_app. cbn [mbind option_bind].
  rewrite <- (sapp_nil_r (format_int o)).
  by rewrite scan_int_format by (done || by intros ? ? [= ]).
Qed.

(** The parser accepts exactly the strings [FormatToken] prints for positive
    64-bit identifiers, and gives those identifiers back: a freeze token names
    one show, category and order. *)
Theorem freeze_token_exact value t :
  in_int64 (ShowTimeID t) = true -> in_int64 (TicketCategoryID t) = true ->
  in_int64 (tok_OrderNumber t) = true ->
  (ParseToken value = Ok t <->
   0 < ShowTimeID t /\ 0 < TicketCategoryID t /\ 0 < tok_OrderNumber t /\
   value = FormatToken (ShowTimeID t) (TicketCategoryID t) (tok_OrderNumber t)).
Proof.
  intros H1 H2 H3. unfold ParseToken. split.
  - destruct (sscanf_token value) as [t'|]; [|done]. destr_if; [done|]. intros [= ->].
    bool_norm. by split_and!.
  - intros (P1 & P2 & P3 & ->). rewrite format_token_scans by (lia || done).
    destruct t as [st tc o]; cbn in *.
    destruct (Z.leb_spec st 0), (Z.leb_spec tc 0), (Z.leb_spec o 0); try lia.
    by rewrite bool_decide_eq_true_2.
Qed.

Lemma freeze_token_exact_witness :
  ParseToken "freeze-st5-tc7-o100" = Ok (mkToken 5 7 100) <->
  0 < 5 /\ 0 < 7 /\ 0 < 100 /\ "freeze-st5-tc7-o100" = FormatToken 5 7 100.
Proof. apply (freeze_token_exact "freeze-st5-tc7-o100" (mkToken 5 7 100)); reflexivity. Defined.
