(* ===== verification/PayService.v ===== *)
(** * The pay service  (services/pay-rpc/internal)

    Two tables, with the unique keys of sql/pay: one pay bill and one refund bill
    per order.  The SQL of the models is written over lists of rows; a statement
    may fail, and a transaction is rolled back or not committed, by the schedule
    of [IO].  Amounts go through float64 and a decimal(10,0) column.  Times in
    responses are kept as instants instead of formatted text. *)
From Stdlib Require Import ZArith Lia Ascii String.
From stdpp Require Import base gmap list strings.
From S2P Require Import Prelude GoBase Effects.
Open Scope string_scope.
Open Scope list_scope.
Open Scope Z_scope.

Module Pay.

Definition payStatusCreated : Z := 1.
Definition payStatusPaid : Z := 2.
Definition payStatusRefunded : Z := 3.
Definition refundStatusCreated : Z := 1.
Definition refundStatusRefunded : Z := 2.

Record DPayBill := mkPayBill {
  pb_Id : Z; pb_PayBillNo : Z; pb_OrderNumber : Z; pb_UserId : Z; pb_Subject : string;
  pb_Channel : string; pb_OrderAmount : Z; pb_PayStatus : Z; pb_PayTime : option Z;
  pb_CreateTime : Z; pb_EditTime : Z; pb_Status : Z }.

Record DRefundBill := mkRefundBill {
  rb_Id : Z; rb_RefundBillNo : Z; rb_OrderNumber : Z; rb_PayBillId : Z; rb_UserId : Z;
  rb_RefundAmount : Z; rb_RefundStatus : Z; rb_RefundReason : option string; rb_RefundTime : option Z;
  rb_CreateTime : Z; rb_EditTime : Z; rb_Status : Z }.

Record paydb := mkPayDB { pay_bills : list DPayBill; refund_bills : list DRefundBill }.

(** ** The models *)

Definition duplicate_key {A} (key : string) : M paydb A := throw (EMySQL 1062 key).

(** The range of a decimal(10,0) column. *)
Definition decimal10 (z : Z) : bool := (-9999999999 <=? z) && (z <=? 9999999999).

Definition insertPayBill (b : DPayBill) : M paydb unit := fun db =>
  if negb (decimal10 (pb_OrderAmount b)) then throw (EMySQL 1264 "order_amount") db
  else if existsb (fun r => pb_Id r =? pb_Id b) (pay_bills db) then duplicate_key "PRIMARY" db
  else if existsb (fun r => pb_PayBillNo r =? pb_PayBillNo b) (pay_bills db) then duplicate_key "uk_pay_bill_no" db
  else if existsb (fun r => pb_OrderNumber r =? pb_OrderNumber b) (pay_bills db)
  then duplicate_key "uk_order_number" db
  else (Ok tt, mkPayDB (pay_bills db ++ [b]) (refund_bills db)).

(** [where status = 1 and order_number = ? limit 1 for update]. *)
Definition findPayBillForUpdate (orderNumber : Z) : M paydb DPayBill := fun db =>
  match find (fun r => (pb_Status r =? 1) && (pb_OrderNumber r =? orderNumber)) (pay_bills db) with
  | Some r => (Ok r, db)
  | None => (Err ENotFound, db)
  end.

(** The generated [FindOneByOrderNumber]: any status. *)
Definition findPayBill (orderNumber : Z) : M paydb DPayBill := fun db =>
  match find (fun r => pb_OrderNumber r =? orderNumber) (pay_bills db) with
  | Some r => (Ok r, db)
  | None => (Err ENotFound, db)
  end.

Definition refund_row (orderNumber refundTime : Z) (r : DPayBill) : DPayBill :=
  if (pb_Status r =? 1) && (pb_OrderNumber r =? orderNumber)
  then mkPayBill (pb_Id r) (pb_PayBillNo r) (pb_OrderNumber r) (pb_UserId r) (pb_Subject r)
         (pb_Channel r) (pb_OrderAmount r) 3 (pb_PayTime r) (pb_CreateTime r) refundTime (pb_Status r)
  else r.

Definition UpdateRefundStatus (orderNumber refundTime : Z) : M paydb unit := fun db =>
  (Ok tt, mkPayDB (map (refund_row orderNumber refundTime) (pay_bills db)) (refund_bills db)).

Definition insertRefundBill (b : DRefundBill) : M paydb unit := fun db =>
  if negb (decimal10 (rb_RefundAmount b)) then throw (EMySQL 1264 "refund_amount") db
  else if existsb (fun r => rb_Id r =? rb_Id b) (refund_bills db) then duplicate_key "PRIMARY" db
  else if existsb (fun r => rb_RefundBillNo r =? rb_RefundBillNo b) (refund_bills db)
  then duplicate_key "uk_refund_bill_no" db
  else if existsb (fun r => rb_OrderNumber r =? rb_OrderNumber b) (refund_bills db)
  then duplicate_key "uk_order_number" db
  else (Ok tt, mkPayDB (pay_bills db) (refund_bills db ++ [b])).

Definition findRefundBillForUpdate (orderNumber : Z) : M paydb DRefundBill := fun db =>
  match find (fun r => (rb_Status r =? 1) && (rb_OrderNumber r =? orderNumber)) (refund_bills db) with
  | Some r => (Ok r, db)
  | None => (Err ENotFound, db)
  end.

(** ** pay_domain_helper.go *)

Record MockPayReq := mkMockPayReq {
  mp_OrderNumber : Z; mp_UserId : Z; mp_Subject : string; mp_Channel : string; mp_Amount : Z }.
Record MockPayResp := mkMockPayResp { mr_PayBillNo : Z; mr_PayStatus : Z; mr_PayTime : option Z }.
Record RefundReq := mkRefundReq {
  rq_OrderNumber : Z; rq_UserId : Z; rq_Amount : Z; rq_Channel : string; rq_Reason : string }.
Record RefundResp := mkRefundResp {
  rr_RefundBillNo : Z; rr_OrderNumber : Z; rr_RefundAmount : Z; rr_PayStatus : Z; rr_RefundTime : option Z }.
Record GetPayBillResp := mkGetPayBillResp {
  gp_PayBillNo : Z; gp_OrderNumber : Z; gp_UserId : Z; gp_Subject : string; gp_Channel : string;
  gp_Amount : Z; gp_PayStatus : Z; gp_PayTime : option Z }.

Definition validateMockPayReq (r : MockPayReq) : bool :=
  negb ((mp_OrderNumber r <=? 0) || (mp_UserId r <=? 0) || bool_decide (mp_Subject r = "") || (mp_Amount r <=? 0)).
Definition validateGetPayBillReq (orderNumber : Z) : bool := negb (orderNumber <=? 0).
Definition validateRefundReq (r : RefundReq) : bool :=
  negb ((rq_OrderNumber r <=? 0) || (rq_UserId r <=? 0) || (rq_Amount r <=? 0)).

Definition invalidArgument : err := statusX InvalidArgument ErrInvalidParam.

Definition normalizePayChannel (channel : string) : string :=
  if bool_decide (channel = "") then "mock" else channel.

Definition newNullString (value : string) : option string :=
  if bool_decide (value = "") then None else Some value.

Definition mapMockPayResp (b : DPayBill) : MockPayResp :=
  mkMockPayResp (pb_PayBillNo b) (pb_PayStatus b) (pb_PayTime b).

Definition mapGetPayBillResp (b : DPayBill) : GetPayBillResp :=
  mkGetPayBillResp (pb_PayBillNo b) (pb_OrderNumber b) (pb_UserId b) (pb_Subject b) (pb_Channel b)
    (pb_OrderAmount b) (pb_PayStatus b) (pb_PayTime b).

Definition mapRefundPayStatus (refundStatus : Z) : Z :=
  if refundStatus =? refundStatusRefunded then payStatusRefunded else payStatusPaid.

Definition mapRefundResp (b : DRefundBill) : RefundResp :=
  mkRefundResp (rb_RefundBillNo b) (rb_OrderNumber b) (rb_RefundAmount b)
    (mapRefundPayStatus (rb_RefundStatus b)) (rb_RefundTime b).

Definition mapPayError (e : err) : err :=
  if negb (bool_decide (status_code e = UnknownCode)) then e
  else if err_is_x e ErrInvalidParam then statusX InvalidArgument ErrInvalidParam
  else if err_is_x e ErrPayBillNotFound || err_is e ENotFound then statusX NotFound ErrPayBillNotFound
  else if err_is_x e ErrOrderStatusInvalid then statusX FailedPrecondition ErrOrderStatusInvalid
  else e.

(** ** The handlers *)

Definition MockPay (r : MockPayReq) : IO paydb MockPayResp :=
  if negb (validateMockPayReq r) then throw invalidArgument
  else
    now ← now;
    map_err mapPayError (transact (
      found ← attempt (call (findPayBillForUpdate (mp_OrderNumber r)));
      match found with
      | Ok b => mret (mapMockPayResp b)
      | Err e =>
          if negb (bool_decide (e = ENotFound)) then throw e
          else
            id ← newID;
            billNo ← newID;
            let b := mkPayBill id billNo (mp_OrderNumber r) (mp_UserId r) (mp_Subject r)
                       (normalizePayChannel (mp_Channel r)) (f64 (mp_Amount r)) payStatusPaid (Some now)
                       now now 1 in
            _ ← call (insertPayBill b);
            mret (mapMockPayResp b)
      end)).

(** The transaction of [Refund]. *)
Definition refundTx (r : RefundReq) (now : Z) : IO paydb RefundResp :=
      found ← attempt (call (findRefundBillForUpdate (rq_OrderNumber r)));
      match found with
      | Ok b => mret (mapRefundResp b)
      | Err e =>
        if negb (err_is e ENotFound) then throw e
        else
          foundPay ← attempt (call (findPayBillForUpdate (rq_OrderNumber r)));
          match foundPay with
          | Err e => if err_is e ENotFound then throw (EX ErrPayBillNotFound) else throw e
          | Ok payBill =>
            again ← attempt (call (findRefundBillForUpdate (rq_OrderNumber r)));
            match again with
            | Ok b => mret (mapRefundResp b)
            | Err e =>
              if negb (err_is e ENotFound) then throw e
              else if negb (pb_PayStatus payBill =? payStatusPaid) then throw (EX ErrOrderStatusInvalid)
              else if pb_OrderAmount payBill <? rq_Amount r then throw (EX ErrInvalidParam)
              else
                _ ← call (UpdateRefundStatus (rq_OrderNumber r) now);
                id ← newID;
                billNo ← newID;
                let b := mkRefundBill id billNo (rq_OrderNumber r) (pb_Id payBill) (rq_UserId r)
                           (f64 (rq_Amount r)) refundStatusRefunded (newNullString (rq_Reason r)) (Some now)
                           now now 1 in
                _ ← call (insertRefundBill b);
                mret (mapRefundResp b)
            end
          end
      end.

Definition Refund (r : RefundReq) : IO paydb RefundResp :=
  if negb (validateRefundReq r) then throw invalidArgument
  else
    now ← now;
    map_err mapPayError (transact (refundTx r now)).

Definition GetPayBill (orderNumber : Z) : IO paydb GetPayBillResp :=
  if negb (validateGetPayBillReq orderNumber) then throw invalidArgument
  else
    found ← attempt (call (findPayBill orderNumber));
    match found with
    | Ok b => mret (mapGetPayBillResp b)
    | Err e => if err_is e ENotFound then throw (mapPayError (EX ErrPayBillNotFound))
               else throw (mapPayError e)
    end.

End Pay.

(** ** The invariant of the two tables *)

Module PayInv.
Import Pay.

Record pay_inv (db : paydb) : Prop := {
  pi_pay_unique : NoDup (map pb_OrderNumber (pay_bills db));
  pi_refund_unique : NoDup (map rb_OrderNumber (refund_bills db));
  pi_pay_rows : Forall (fun b => pb_Status b = 1 /\
    (pb_PayStatus b = payStatusPaid \/ pb_PayStatus b = payStatusRefunded)) (pay_bills db);
  pi_refund_rows : Forall (fun r => rb_Status r = 1 /\ rb_RefundStatus r = refundStatusRefunded /\
    exists b, b ∈ pay_bills db /\ pb_OrderNumber b = rb_OrderNumber r /\
      pb_PayStatus b = payStatusRefunded /\ pb_Id b = rb_PayBillId r /\
      0 < rb_RefundAmount r <= pb_OrderAmount b) (refund_bills db);
  pi_refunded : Forall (fun b => pb_PayStatus b = payStatusRefunded ->
    pb_OrderNumber b ∈ map rb_OrderNumber (refund_bills db)) (pay_bills db) }.

Lemma existsb_false {A} (f : A -> bool) l : existsb f l = false -> forall x, x ∈ l -> f x = false.
Proof.
  intros E x Hx. destruct (f x) eqn:Ef; [|done]. exfalso.
  assert (existsb f l = true); [|congruence]. apply existsb_exists. exists x.
  split; [by apply list_elem_of_In|done].
Qed.

Lemma find_pay_readonly o : readonly (findPayBillForUpdate o).
Proof. intros db. unfold findPayBillForUpdate. by destruct (find _ _). Qed.
Lemma find_refund_readonly o : readonly (findRefundBillForUpdate o).
Proof. intros db. unfold findRefundBillForUpdate. by destruct (find _ _). Qed.
Lemma find_any_readonly o : readonly (findPayBill o).
Proof. intros db. unfold findPayBill. by destruct (find _ _). Qed.

Lemma find_pay_ok o db b db' :
  findPayBillForUpdate o db = (Ok b, db') ->
  b ∈ pay_bills db /\ pb_Status b = 1 /\ pb_OrderNumber b = o.
Proof.
  unfold findPayBillForUpdate. destruct (find _ _) as [r|] eqn:E; [|done]. intros [= <- <-].
  apply find_elem in E as [? ?]. by bool_norm.
Qed.

Lemma find_refund_ok o db b db' :
  findRefundBillForUpdate o db = (Ok b, db') ->
  b ∈ refund_bills db /\ rb_Status b = 1 /\ rb_OrderNumber b = o.
Proof.
  unfold findRefundBillForUpdate. destruct (find _ _) as [r|] eqn:E; [|done]. intros [= <- <-].
  apply find_elem in E as [? ?]. by bool_norm.
Qed.

(** What a successful insert says about the keys. *)
Lemma insert_pay_ok b db db' :
  insertPayBill b db = (Ok tt, db') ->
  pb_OrderNumber b ∉ map pb_OrderNumber (pay_bills db) /\
  decimal10 (pb_OrderAmount b) = true /\ db' = mkPayDB (pay_bills db ++ [b]) (refund_bills db).
Proof.
  unfold insertPayBill. repeat (destr_if; [done|]). intros [= <-]. bool_norm. split_and!; [|done..].
  intros Hin. apply list_elem_of_fmap in Hin as (r & Hr & Hin).
  eapply existsb_false in Heqb3; [|exact Hin]. cbn in Heqb3. bool_norm. congruence.
Qed.

Lemma insert_refund_ok b db db' :
  insertRefundBill b db = (Ok tt, db') ->
  rb_OrderNumber b ∉ map rb_OrderNumber (refund_bills db) /\
  decimal10 (rb_RefundAmount b) = true /\ db' = mkPayDB (pay_bills db) (refund_bills db ++ [b]).
Proof.
  unfold insertRefundBill. repeat (destr_if; [done|]). intros [= <-]. bool_norm. split_and!; [|done..].
  intros Hin. apply list_elem_of_fmap in Hin as (r & Hr & Hin).
  eapply existsb_false in Heqb3; [|exact Hin]. cbn in Heqb3. bool_norm. congruence.
Qed.

Lemma pay_inv_insert db b :
  pay_inv db -> pb_OrderNumber b ∉ map pb_OrderNumber (pay_bills db) ->
  pb_Status b = 1 -> pb_PayStatus b = payStatusPaid ->
  pay_inv (mkPayDB (pay_bills db ++ [b]) (refund_bills db)).
Proof.
  intros [I1 I2 I3 I4 I5] Hnew Hst Hpaid. split; cbn.
  - rewrite map_app. apply NoDup_app. split_and!; [done| |apply NoDup_singleton].
    intros x Hx Hb. apply list_elem_of_singleton in Hb as ->. done.
  - done.
  - apply Forall_app. split; [done|]. apply Forall_singleton. auto.
  - eapply Forall_impl; [exact I4|]. intros r (? & ? & p & Hp & ?).
    split_and!; [done..|]. exists p. split; [|done]. apply elem_of_app. by left.
  - apply Forall_app. split; [done|]. apply Forall_singleton. rewrite Hpaid. done.
Qed.

(** The refund of one paid bill: its row and a new refund bill. *)
Lemma pay_inv_refund db b r now :
  pay_inv db -> b ∈ pay_bills db -> pb_PayStatus b = payStatusPaid ->
  rb_OrderNumber r = pb_OrderNumber b -> rb_OrderNumber r ∉ map rb_OrderNumber (refund_bills db) ->
  rb_Status r = 1 -> rb_RefundStatus r = refundStatusRefunded -> rb_PayBillId r = pb_Id b ->
  0 < rb_RefundAmount r <= pb_OrderAmount b ->
  pay_inv (mkPayDB (map (refund_row (pb_OrderNumber b) now) (pay_bills db)) (refund_bills db ++ [r])).
Proof.
  intros [I1 I2 I3 I4 I5] Hb Hpaid Ho Hnew Hst Hrst Hid Hamt.
  assert (Hrow : forall x, x ∈ pay_bills db -> pb_OrderNumber x = pb_OrderNumber b ->
    pb_PayStatus (refund_row (pb_OrderNumber b) now x) = payStatusRefunded /\
    pb_Id (refund_row (pb_OrderNumber b) now x) = pb_Id x /\
    pb_OrderAmount (refund_row (pb_OrderNumber b) now x) = pb_OrderAmount x).
  { intros x Hx E. rewrite Forall_forall in I3. destruct (I3 x Hx) as [Hs _].
    unfold refund_row. rewrite Hs, E, !Z.eqb_refl. done. }
  assert (Hsame : forall x, pb_OrderNumber (refund_row (pb_OrderNumber b) now x) = pb_OrderNumber x)
    by (intros x; unfold refund_row; by destruct (_ && _)).
  assert (Hoth : forall x, pb_OrderNumber x <> pb_OrderNumber b -> refund_row (pb_OrderNumber b) now x = x).
  { intros x Hne. unfold refund_row. destruct (Z.eqb_spec (pb_OrderNumber x) (pb_OrderNumber b)); [done|].
    by rewrite andb_false_r. }
  split; cbn.
  - rewrite map_map. by rewrite (map_ext _ _ Hsame).
  - rewrite map_app. apply NoDup_app. split_and!; [done| |apply NoDup_singleton].
    intros x Hx Hb'. apply list_elem_of_singleton in Hb' as ->. done.
  - rewrite Forall_fmap. eapply Forall_impl; [exact I3|]. intros x [Hs Hp]. cbn. unfold refund_row.
    destruct (_ && _); cbn; auto.
  - apply Forall_app. split.
    + apply Forall_forall. intros q Hq. rewrite Forall_forall in I4.
      destruct (I4 q Hq) as (? & ? & p & Hp & Hpo & Hps & Hpid & Hpa1 & Hpa2). split_and!; [done..|].
      exists p. split_and!; [|done..]. apply list_elem_of_fmap. exists p. split; [|done].
      symmetry. apply Hoth. intros E. apply Hnew. rewrite Ho, <- E, Hpo.
      apply list_elem_of_fmap. by exists q.
    + apply Forall_singleton. split_and!; [done..|]. destruct (Hrow b Hb eq_refl) as (H1 & H2 & H3).
      exists (refund_row (pb_OrderNumber b) now b). rewrite H1, H2, H3, Hsame. split_and!;
        [apply list_elem_of_fmap; by exists b|by symmetry|done|by symmetry|lia|lia].
  - rewrite Forall_fmap. apply Forall_forall. intros x Hx. cbn. rewrite Hsame, map_app.
    intros Hs. apply elem_of_app. destruct (decide (pb_OrderNumber x = pb_OrderNumber b)) as [E|E].
    + right. apply list_elem_of_singleton. cbn. congruence.
    + left. rewrite Hoth in Hs by done. rewrite Forall_forall in I5. by apply I5.
Qed.

Lemma decimal_f64 z : decimal10 (f64 z) = true -> 0 < z -> f64 z = z.
Proof.
  intros Hd Hz. unfold decimal10 in Hd. bool_norm. unfold f64 in *.
  destruct (Z.leb_spec (Z.abs z) (2 ^ 53)) as [|Hbig]; [done|]. exfalso.
  cbn zeta in H0. replace (Z.abs z) with z in * by lia. rewrite Z.sgn_pos in H0 by done.
  set (e := Z.log2 z - 52) in *.
  assert (He : 1 <= e).
  { unfold e. assert (53 <= Z.log2 z); [|lia]. apply Z.log2_le_pow2; lia. }
  assert (Hq : 2 ^ 52 <= z / 2 ^ e).
  { apply Z.div_le_lower_bound; [apply Z.pow_pos_nonneg; lia|].
    rewrite <- Z.pow_add_r by lia. replace (e + 52) with (Z.log2 z) by (unfold e; lia).
    apply Z.log2_spec; lia. }
  assert (Hp : 2 <= 2 ^ e) by (apply (Z.pow_le_mono_r 2 1 e); lia).
  revert H0. repeat match goal with |- context [if ?b then _ else _] => destruct b end; nia.
Qed.

(** *** The handlers keep the invariant, under every schedule *)

(** Two fresh identifiers, an insert, and the response. *)
Lemma ids_then_insert {A B} (row : Z -> Z -> B) (ins : B -> M paydb unit) (resp : B -> A) e db a e' db' :
  (id ← newID; billNo ← newID; _ ← call (ins (row id billNo)); mret (resp (row id billNo))) (e, db)
    = (Ok a, (e', db')) ->
  exists id billNo, ins (row id billNo) db = (Ok tt, db') /\ a = resp (row id billNo).
Proof.
  intros Hrun. apply bind_ok in Hrun as (id & [e1 db1] & H1 & Hrun). apply newID_ok in H1 as ->.
  apply bind_ok in Hrun as (billNo & [e2 db2] & H2 & Hrun). apply newID_ok in H2 as ->.
  apply bind_ok in Hrun as ([] & [e3 db3] & H3 & Hrun). apply call_ok in H3.
  apply ret_ok in Hrun as [<- [= <- <-]]. by exists id, billNo.
Qed.

Lemma mock_pay_keeps r : keeps pay_inv (MockPay r).
Proof.
  unfold MockPay. destr_if; [apply keeps_throw|]. apply keeps_bind; [apply keeps_now|]. intros now.
  apply keeps_map_err, transact_keeps. intros e db resp e' db' Hinv Hrun.
  apply bind_ok in Hrun as (found & [e1 db1] & Hf & Hrun). apply attempt_ok in Hf.
  apply call_readonly in Hf; [subst db1|apply find_pay_readonly].
  destruct found as [b|x]; [by apply ret_ok in Hrun as [_ [= _ <-]]|].
  destruct (negb (bool_decide _)); [done|]. cbn zeta in Hrun.
  apply (ids_then_insert _ insertPayBill mapMockPayResp) in Hrun
    as (id & billNo & Hins & _).
  apply insert_pay_ok in Hins as (Hnew & _ & ->). by apply pay_inv_insert.
Qed.

Lemma refund_keeps r : keeps pay_inv (Refund r).
Proof.
  unfold Refund. destr_if; [apply keeps_throw|]. apply keeps_bind; [apply keeps_now|]. intros now.
  apply keeps_map_err, transact_keeps. intros e db resp e' db' Hinv Hrun. unfold refundTx in Hrun.
  apply bind_ok in Hrun as (found & [e1 db1] & Hf & Hrun). apply attempt_ok in Hf.
  apply call_readonly in Hf; [subst db1|apply find_refund_readonly].
  destruct found as [b|x]; [by apply ret_ok in Hrun as [_ [= _ <-]]|].
  destruct (negb (err_is _ _)); [done|].
  apply bind_ok in Hrun as (foundPay & [e2 db2] & Hp & Hrun). apply attempt_ok in Hp.
  pose proof (call_readonly _ _ _ _ _ _ (find_pay_readonly _) Hp) as ->.
  destruct foundPay as [payBill|x']; [|by destruct (err_is _ _)].
  apply call_ok, find_pay_ok in Hp as (Hin & Hst & Ho).
  apply bind_ok in Hrun as (again & [e3 db3] & Hf & Hrun). apply attempt_ok in Hf.
  apply call_readonly in Hf; [subst db3|apply find_refund_readonly].
  destruct again as [b|x']; [by apply ret_ok in Hrun as [_ [= _ <-]]|].
  destruct (negb (err_is _ _)); [done|]. destr_if; [done|]. destr_if; [done|]. bool_norm.
  apply bind_ok in Hrun as ([] & [e4 db4] & Hupd & Hrun). apply call_ok in Hupd as [= <-].
  cbn zeta in Hrun.
  apply (ids_then_insert _ insertRefundBill mapRefundResp) in Hrun
    as (id & billNo & Hins & _).
  apply insert_refund_ok in Hins as (Hnew & Hd & ->).
  cbn [rb_RefundAmount rb_OrderNumber pay_bills refund_bills] in *.
  unfold validateRefundReq in Heqb. bool_norm. rewrite decimal_f64 in * by done.
  rewrite <- Ho. apply pay_inv_refund; cbn; rewrite ?decimal_f64 by done; auto; by rewrite Ho.
Qed.

Lemma get_pay_bill_keeps o : keeps pay_inv (GetPayBill o).
Proof.
  unfold GetPayBill. destr_if; [apply keeps_throw|]. apply keeps_bind.
  - apply keeps_attempt, keeps_call. intros db Hdb. by rewrite find_any_readonly.
  - intros [b|x]; [apply keeps_ret|]. destruct (err_is _ _); apply keeps_throw.
Qed.

End PayInv.

Import Pay PayInv.

(** ** Properties *)

(** Any request, under any faults, clock and identifiers. *)
Inductive pay_step : paydb -> paydb -> Prop :=
  | step_mock_pay r e db : pay_step db (MockPay r (e, db)).2.2
  | step_refund r e db : pay_step db (Refund r (e, db)).2.2
  | step_get_bill o e db : pay_step db (GetPayBill o (e, db)).2.2.

Definition empty_pay : paydb := mkPayDB [] [].

Lemma pay_inv_empty : pay_inv empty_pay.
Proof. split; cbn; constructor. Qed.

Lemma pay_inv_step db db' : pay_step db db' -> pay_inv db -> pay_inv db'.
Proof.
  destruct 1; intros Hi.
  - by apply (mock_pay_keeps r (e, db)).
  - by apply (refund_keeps r (e, db)).
  - by apply (get_pay_bill_keeps o (e, db)).
Qed.

(** In every state the pay service reaches, whatever fails on the way, an order
    has at most one pay bill and one refund bill; it has a refund bill exactly
    when its pay bill is refunded; and the refund does not exceed the payment. *)
Theorem pay_ledger_consistent db :
  rtc pay_step empty_pay db ->
  NoDup (map pb_OrderNumber (pay_bills db)) /\ NoDup (map rb_OrderNumber (refund_bills db)) /\
  (forall o, o ∈ map rb_OrderNumber (refund_bills db) <->
     exists b, b ∈ pay_bills db /\ pb_OrderNumber b = o /\ pb_PayStatus b = payStatusRefunded) /\
  (forall r, r ∈ refund_bills db -> exists b, b ∈ pay_bills db /\
     pb_OrderNumber b = rb_OrderNumber r /\ 0 < rb_RefundAmount r <= pb_OrderAmount b).
Proof.
  intros Hr. assert (Hi : pay_inv db).
  { remember empty_pay as db0. assert (Hi0 : pay_inv db0) by (subst; apply pay_inv_empty).
    clear Heqdb0. induction Hr; eauto using pay_inv_step. }
  destruct Hi as [I1 I2 I3 I4 I5]. rewrite Forall_forall in I4. rewrite Forall_forall in I5. split_and!; [done|done| |].
  - intros o. split.
    + intros Ho. apply list_elem_of_fmap in Ho as (r & -> & Hin).
      destruct (I4 r Hin) as (_ & _ & b & Hb & E & Hs & _). eauto.
    + intros (b & Hb & <- & Hs). by apply I5.
  - intros r Hin. destruct (I4 r Hin) as (_ & _ & b & Hb & E & _ & _ & Ha). eauto.
Qed.

Definition demo_pay_env : env := mkEnv [] [] (time_of_unix 1770000000) [1; 2; 3; 4].
Definition demo_pay : MockPayReq := mkMockPayReq 100 1 "show" "" 300.
Definition demo_refund : RefundReq := mkRefundReq 100 1 250 "" "rain".
Definition demo_paid : paydb := (MockPay demo_pay (demo_pay_env, empty_pay)).2.2.
Definition demo_refunded : paydb := (Refund demo_refund (mkEnv [] [] 0 [3; 4], demo_paid)).2.2.

Lemma pay_ledger_consistent_witness :
  100 ∈ map rb_OrderNumber (refund_bills demo_refunded) <->
  exists b, b ∈ pay_bills demo_refunded /\ pb_OrderNumber b = 100 /\ pb_PayStatus b = payStatusRefunded.
Proof.
  apply (pay_ledger_consistent demo_refunded).
  eapply rtc_l; [apply (step_mock_pay demo_pay demo_pay_env empty_pay)|].
  eapply rtc_l; [apply (step_refund demo_refund (mkEnv [] [] 0 [3; 4]) demo_paid)|apply rtc_refl].
Defined.

Lemma mock_pay_found r e db resp e1 db1 :
  MockPay r (e, db) = (Ok resp, (e1, db1)) ->
  (exists b, b ∈ pay_bills db1 /\ pb_Status b = 1 /\ pb_OrderNumber b = mp_OrderNumber r /\
     resp = mapMockPayResp b) /\
  (db1 = db \/ mp_OrderNumber r ∉ map pb_OrderNumber (pay_bills db)).
Proof.
  unfold MockPay. destr_if; [done|]. intros Hrun.
  apply bind_ok in Hrun as (t & [e0 db0] & Hn & Hrun). apply now_state in Hn as [-> _].
  apply map_err_ok, transact_ok in Hrun as (e2 & e3 & Hrun).
  apply bind_ok in Hrun as (found & [e4 db4] & Hf & Hrun). apply attempt_ok in Hf.
  pose proof (call_readonly _ _ _ _ _ _ (find_pay_readonly _) Hf) as ->.
  destruct found as [b|x].
  - apply ret_ok in Hrun as [<- [= _ <-]]. apply call_ok, find_pay_ok in Hf as (? & ? & ?).
    split; [by exists b|by left].
  - destruct (negb (bool_decide _)); [done|]. cbn zeta in Hrun.
    apply (ids_then_insert _ insertPayBill mapMockPayResp) in Hrun as (id & billNo & Hins & ->).
    apply insert_pay_ok in Hins as (Hnew & _ & ->). split; [|by right].
    eexists. split; [cbn; apply elem_of_app; right; by apply list_elem_of_singleton|].
    by split_and!.
Qed.

(** A refund answers with a refund bill of the order. *)
Lemma refund_found r e db resp e1 db1 :
  Refund r (e, db) = (Ok resp, (e1, db1)) ->
  exists b, b ∈ refund_bills db1 /\ rb_OrderNumber b = rq_OrderNumber r /\ resp = mapRefundResp b.
Proof.
  unfold Refund. destr_if; [done|]. intros Hrun.
  apply bind_ok in Hrun as (t & [e0 db0] & Hn & Hrun). apply now_state in Hn as [-> _].
  apply map_err_ok, transact_ok in Hrun as (e2 & e3 & Hrun). unfold refundTx in Hrun.
  apply bind_ok in Hrun as (found & [e4 db4] & Hf & Hrun). apply attempt_ok in Hf.
  pose proof (call_readonly _ _ _ _ _ _ (find_refund_readonly _) Hf) as ->.
  destruct found as [b|x].
  { apply ret_ok in Hrun as [<- [= _ <-]]. apply call_ok, find_refund_ok in Hf as (? & _ & ?). by exists b. }
  destruct (negb (err_is _ _)); [done|].
  apply bind_ok in Hrun as (foundPay & [e5 db5] & Hp & Hrun). apply attempt_ok in Hp.
  pose proof (call_readonly _ _ _ _ _ _ (find_pay_readonly _) Hp) as ->.
  destruct foundPay as [payBill|x']; [|by destruct (err_is _ _)].
  apply bind_ok in Hrun as (again & [e6 db6] & Hf' & Hrun). apply attempt_ok in Hf'.
  pose proof (call_readonly _ _ _ _ _ _ (find_refund_readonly _) Hf') as ->.
  destruct again as [b|x'].
  { apply ret_ok in Hrun as [<- [= _ <-]]. apply call_ok, find_refund_ok in Hf' as (? & _ & ?). by exists b. }
  destruct (negb (err_is _ _)); [done|]. destr_if; [done|]. destr_if; [done|].
  apply bind_ok in Hrun as ([] & [e7 db7] & Hupd & Hrun). cbn zeta in Hrun.
  apply (ids_then_insert _ insertRefundBill mapRefundResp) in Hrun as (id & billNo & Hins & ->).
  apply insert_refund_ok in Hins as (_ & _ & ->). eexists.
  split; [cbn; apply elem_of_app; right; by apply list_elem_of_singleton|done].
Qed.

(** Paying twice is paying once.  After a successful [MockPay], a later
    successful [MockPay] for the same order, whatever the rest of the request,
    answers with the same bill and leaves the tables alone. *)
Theorem mock_pay_idempotent r r' e db resp e1 db1 e' resp' e2 db2 :
  pay_inv db -> MockPay r (e, db) = (Ok resp, (e1, db1)) ->
  mp_OrderNumber r' = mp_OrderNumber r -> MockPay r' (e', db1) = (Ok resp', (e2, db2)) ->
  resp' = resp /\ db2 = db1.
Proof.
  intros Hi H1 Ho H2. assert (Hi1 : pay_inv db1).
  { pose proof (mock_pay_keeps r (e, db) Hi) as Hk. by rewrite H1 in Hk. }
  apply mock_pay_found in H1 as [(b & Hb & _ & Hbo & ->) _].
  apply mock_pay_found in H2 as [(b' & Hb' & _ & Hbo' & ->) [->|Hnew]].
  - split; [|done]. f_equal. eapply NoDup_map_inj; [apply Hi1|done|done|congruence].
  - exfalso. apply Hnew. rewrite Ho, <- Hbo. apply list_elem_of_fmap. by exists b.
Qed.

Lemma mock_pay_idempotent_witness :
  exists resp resp', (MockPay demo_pay (demo_pay_env, empty_pay)).1 = Ok resp /\
    (MockPay (mkMockPayReq 100 9 "other" "x" 1) (demo_pay_env, demo_paid)).1 = Ok resp' /\
    resp' = resp /\ (MockPay (mkMockPayReq 100 9 "other" "x" 1) (demo_pay_env, demo_paid)).2.2 = demo_paid.
Proof.
  destruct (MockPay demo_pay (demo_pay_env, empty_pay)) as [[resp|x] [e1 db1]] eqn:E1;
    [|vm_compute in E1; discriminate].
  destruct (MockPay (mkMockPayReq 100 9 "other" "x" 1) (demo_pay_env, demo_paid)) as [[resp'|x] [e2 db2]] eqn:E2;
    [|vm_compute in E2; discriminate].
  assert (Hdb : demo_paid = db1) by (unfold demo_paid; rewrite E1; reflexivity).
  rewrite Hdb in E2.
  destruct (mock_pay_idempotent demo_pay (mkMockPayReq 100 9 "other" "x" 1) demo_pay_env empty_pay resp e1 db1
    demo_pay_env resp' e2 db2 pay_inv_empty E1 eq_refl E2) as [Hr Hd].
  exists resp, resp'. repeat split; [exact Hr|]. rewrite Hdb. exact Hd.
Defined.

(** What [Refund] answers when nothing fails. *)
Definition refund_outcome (r : RefundReq) (db : paydb) (resp : result err RefundResp) : Prop :=
  match find (fun x => (rb_Status x =? 1) && (rb_OrderNumber x =? rq_OrderNumber r)) (refund_bills db) with
  | Some b => resp = Ok (mapRefundResp b)
  | None =>
      match find (fun x => (pb_Status x =? 1) && (pb_OrderNumber x =? rq_OrderNumber r)) (pay_bills db) with
      | None => resp = Err (statusX NotFound ErrPayBillNotFound)
      | Some b =>
          if pb_OrderAmount b <? rq_Amount r then resp = Err (statusX InvalidArgument ErrInvalidParam)
          else exists x, resp = Ok x /\ rr_OrderNumber x = rq_OrderNumber r /\
                 rr_RefundAmount x = rq_Amount r /\ rr_PayStatus x = payStatusRefunded
      end
  end.

Lemma find_refund_run o db : findRefundBillForUpdate o db =
  (of_option ENotFound (find (fun r => (rb_Status r =? 1) && (rb_OrderNumber r =? o)) (refund_bills db)), db).
Proof. unfold findRefundBillForUpdate. by destruct (find _ _). Qed.

Lemma find_pay_run o db : findPayBillForUpdate o db =
  (of_option ENotFound (find (fun r => (pb_Status r =? 1) && (pb_OrderNumber r =? o)) (pay_bills db)), db).
Proof. unfold findPayBillForUpdate. by destruct (find _ _). Qed.

Lemma existsb_none {A} (f : A -> bool) l : Forall (fun x => f x = false) l -> existsb f l = false.
Proof. induction 1 as [|x l Hx _ IH]; cbn; [done|]. by rewrite Hx, IH. Qed.

Lemma find_none_key {A} (f : A -> bool) l : find f l = None -> Forall (fun x => f x = false) l.
Proof. intros E. apply Forall_forall. intros x Hx. by eapply find_none_elem. Qed.

Lemma insert_refund_fresh b db :
  decimal10 (rb_RefundAmount b) = true ->
  Forall (fun x => rb_Id x <> rb_Id b /\ rb_RefundBillNo x <> rb_RefundBillNo b) (refund_bills db) ->
  Forall (fun x => rb_OrderNumber x <> rb_OrderNumber b) (refund_bills db) ->
  insertRefundBill b db = (Ok tt, mkPayDB (pay_bills db) (refund_bills db ++ [b])).
Proof.
  intros Hd Hf Ho. unfold insertRefundBill. rewrite Hd. cbn [negb].
  rewrite !existsb_none; [done|..].
  - eapply Forall_impl; [exact Ho|]. intros x ?. by apply Z.eqb_neq.
  - eapply Forall_impl; [exact Hf|]. intros x [_ ?]. by apply Z.eqb_neq.
  - eapply Forall_impl; [exact Hf|]. intros x [? _]. by apply Z.eqb_neq.
Qed.

Lemma refund_body r w id1 id2 db :
  pay_inv db -> validateRefundReq r = true ->
  Forall (fun x => rb_Id x <> id1 /\ rb_RefundBillNo x <> id2) (refund_bills db) ->
  Forall (fun b => decimal10 (pb_OrderAmount b) = true) (pay_bills db) ->
  exists res e' db', refundTx r w (mkEnv [] [] w [id1; id2], db) = (res, (e', db')) /\ faults e' = [] /\
    refund_outcome r db (match res with Ok a => Ok a | Err x => Err (mapPayError x) end).
Proof.
  intros Hi Hv Hids Hdec. set (e := mkEnv [] [] w [id1; id2]). unfold refundTx, refund_outcome.
  rewrite attempt_call_bind, find_refund_run by done. cbn [fst snd].
  destruct (find _ (refund_bills db)) as [b|] eqn:Er; cbn [of_option].
  { by exists (Ok (mapRefundResp b)), e, db. }
  change (negb (err_is ENotFound ENotFound)) with false. cbn iota.
  rewrite attempt_call_bind, find_pay_run by done. cbn [fst snd].
  destruct (find _ (pay_bills db)) as [b|] eqn:Ep; cbn [of_option].
  2: { by exists (Err (EX ErrPayBillNotFound)), e, db. }
  rewrite attempt_call_bind, find_refund_run by done. cbn [fst snd]. rewrite Er. cbn [of_option].
  change (negb (err_is ENotFound ENotFound)) with false. cbn iota.
  apply find_elem in Ep as [Hin Hb]. bool_norm. pose proof (find_none_key _ _ Er) as Hnone.
  assert (Hno : Forall (fun x => rb_OrderNumber x <> rq_OrderNumber r) (refund_bills db)).
  { apply Forall_forall. intros x Hx. rewrite Forall_forall in Hnone. specialize (Hnone x Hx).
    pose proof (pi_refund_rows _ Hi) as Hrows. rewrite Forall_forall in Hrows.
    destruct (Hrows x Hx) as [Hs _]. rewrite Hs in Hnone. cbn in Hnone. by bool_norm. }
  assert (Hpaid : pb_PayStatus b = payStatusPaid).
  { pose proof (pi_pay_rows _ Hi) as Hrows. rewrite Forall_forall in Hrows.
    destruct (Hrows b Hin) as [_ [?|Href]]; [done|]. exfalso.
    pose proof (pi_refunded _ Hi) as Hr. rewrite Forall_forall in Hr. specialize (Hr b Hin Href).
    apply list_elem_of_fmap in Hr as (x & E & Hx). rewrite Forall_forall in Hno. apply (Hno x Hx).
    congruence. }
  rewrite Hpaid. change (negb (payStatusPaid =? payStatusPaid)) with false. cbn iota.
  destruct (Z.ltb_spec (pb_OrderAmount b) (rq_Amount r)) as [|Hle].
  { exists (Err (EX ErrInvalidParam)), e, db. done. }
  rewrite Forall_forall in Hdec. specialize (Hdec b Hin). unfold decimal10 in Hdec. bool_norm.
  unfold validateRefundReq in Hv. bool_norm.
  rewrite f64_exact by lia.
  erewrite call_bind by reflexivity. unfold e. rewrite !newID_bind. cbn beta zeta.
  erewrite call_bind; [|done|apply insert_refund_fresh; [|done|done]].
  - eexists _, _, _. split_and!; [reflexivity|done|]. by eexists.
  - unfold decimal10. apply andb_true_iff. cbn. split; apply Z.leb_le; lia.
Qed.

(** Without faults and with fresh identifiers, [Refund] of a valid request
    answers an existing refund again, reports an unpaid order or an amount above
    the payment, and otherwise refunds exactly the amount asked for; it never
    meets a refunded bill without its refund. *)
Theorem refund_functional r w id1 id2 db :
  pay_inv db -> validateRefundReq r = true ->
  Forall (fun x => rb_Id x <> id1 /\ rb_RefundBillNo x <> id2) (refund_bills db) ->
  Forall (fun b => decimal10 (pb_OrderAmount b) = true) (pay_bills db) ->
  refund_outcome r db (Refund r (mkEnv [] [] w [id1; id2], db)).1.
Proof.
  intros Hi Hv Hids Hdec. set (e := mkEnv [] [] w [id1; id2]).
  unfold Refund. rewrite Hv. cbn [negb].
  match goal with |- refund_outcome _ _ ((now ≫= ?k) _).1 =>
    change ((now ≫= k) (e, db)) with (k w (e, db)) end.
  cbn beta. unfold map_err.
  match goal with |- context [transact ?b (e, db)] =>
    assert (Hb : exists res e' db', b (e, db) = (res, (e', db')) /\ faults e' = [] /\
      refund_outcome r db (match res with Ok a => Ok a | Err x => Err (mapPayError x) end))
  end.
  { by apply refund_body. }
  destruct Hb as (res & e' & db' & Hb & He' & Hout).
  rewrite (transact_nofault _ e db _ _ _ eq_refl Hb He'). by destruct res.
Qed.

Lemma refund_functional_witness :
  decimal10 300 = true /\ refund_outcome demo_refund demo_paid (Refund demo_refund (mkEnv [] [] 0 [3; 4], demo_paid)).1.
Proof.
  assert (Hr : refund_bills demo_paid = []) by (vm_compute; reflexivity).
  assert (Hp : map pb_OrderAmount (pay_bills demo_paid) = [300]) by (vm_compute; reflexivity).
  split; [reflexivity|]. apply (refund_functional demo_refund 0 3 4 demo_paid).
  - apply (mock_pay_keeps demo_pay (demo_pay_env, empty_pay) pay_inv_empty).
  - reflexivity.
  - rewrite Hr. constructor.
  - apply Forall_forall. intros b Hb.
    assert (Hm : pb_OrderAmount b ∈ map pb_OrderAmount (pay_bills demo_paid))
      by (apply list_elem_of_fmap; by exists b).
    rewrite Hp in Hm. apply list_elem_of_singleton in Hm. by rewrite Hm.
Defined.
