(* ===== verification/ProgramDB.v ===== *)
(** * The program tables  (services/program-rpc/internal/model)

    d_program, d_program_show_time, d_program_group and d_program_category by primary
    key, with the rows go-zero's cached models keep in Redis, and d_ticket_category as
    a list.  A row read through a cached model is the cached one when there is one,
    and "no such row" can be cached too.  What fills the cache and what lets it lapse
    is not a step of a reader here: theorems take the cache as it comes.

    What MySQL does with a JSON column, a collation and a datetime literal is a
    parameter.  The ranges of the integer columns are not modelled. *)
From Stdlib Require Import ZArith Lia Ascii String.
From stdpp Require Import base gmap list strings sorting.
From S2P Require Import Prelude GoBase Effects Sql PayService.
Open Scope string_scope.
Open Scope list_scope.
Open Scope Z_scope.

(** ** Rows *)

(** The nullable text columns of d_program: strings in a request, nullable in a row. *)
Record texts (T : Type) := mkTexts {
  tx_Actor : T; tx_Place : T; tx_ItemPicture : T; tx_PreSellInstruction : T; tx_ImportantNotice : T;
  tx_RefundTicketRule : T; tx_DeliveryInstruction : T; tx_EntryRule : T; tx_ChildPurchase : T;
  tx_InvoiceSpecification : T; tx_RealTicketPurchaseRule : T; tx_AbnormalOrderDescription : T;
  tx_KindReminder : T; tx_PerformanceDuration : T; tx_EntryTime : T; tx_MainActor : T;
  tx_MinPerformanceDuration : T; tx_ProhibitedItem : T; tx_DepositSpecification : T; tx_RefundExplain : T;
  tx_RefundRuleJson : T; tx_RelNameTicketEntranceExplain : T; tx_ChooseSeatExplain : T;
  tx_ElectronicDeliveryTicketExplain : T; tx_ElectronicInvoiceExplain : T }.
Arguments mkTexts {T}.
Arguments tx_Actor {T} _.
Arguments tx_Place {T} _.
Arguments tx_ItemPicture {T} _.
Arguments tx_PreSellInstruction {T} _.
Arguments tx_ImportantNotice {T} _.
Arguments tx_RefundTicketRule {T} _.
Arguments tx_DeliveryInstruction {T} _.
Arguments tx_EntryRule {T} _.
Arguments tx_ChildPurchase {T} _.
Arguments tx_InvoiceSpecification {T} _.
Arguments tx_RealTicketPurchaseRule {T} _.
Arguments tx_AbnormalOrderDescription {T} _.
Arguments tx_KindReminder {T} _.
Arguments tx_PerformanceDuration {T} _.
Arguments tx_EntryTime {T} _.
Arguments tx_MainActor {T} _.
Arguments tx_MinPerformanceDuration {T} _.
Arguments tx_ProhibitedItem {T} _.
Arguments tx_DepositSpecification {T} _.
Arguments tx_RefundExplain {T} _.
Arguments tx_RefundRuleJson {T} _.
Arguments tx_RelNameTicketEntranceExplain {T} _.
Arguments tx_ChooseSeatExplain {T} _.
Arguments tx_ElectronicDeliveryTicketExplain {T} _.
Arguments tx_ElectronicInvoiceExplain {T} _.

Definition map_texts {A B} (f : A -> B) (t : texts A) : texts B :=
  mkTexts (f (tx_Actor t)) (f (tx_Place t)) (f (tx_ItemPicture t)) (f (tx_PreSellInstruction t))
    (f (tx_ImportantNotice t)) (f (tx_RefundTicketRule t)) (f (tx_DeliveryInstruction t)) (f (tx_EntryRule t))
    (f (tx_ChildPurchase t)) (f (tx_InvoiceSpecification t)) (f (tx_RealTicketPurchaseRule t))
    (f (tx_AbnormalOrderDescription t)) (f (tx_KindReminder t)) (f (tx_PerformanceDuration t))
    (f (tx_EntryTime t)) (f (tx_MainActor t)) (f (tx_MinPerformanceDuration t)) (f (tx_ProhibitedItem t))
    (f (tx_DepositSpecification t)) (f (tx_RefundExplain t)) (f (tx_RefundRuleJson t))
    (f (tx_RelNameTicketEntranceExplain t)) (f (tx_ChooseSeatExplain t))
    (f (tx_ElectronicDeliveryTicketExplain t)) (f (tx_ElectronicInvoiceExplain t)).

(** Texts that hold a refund rule and nothing else. *)
Definition rule_texts (rule : option string) : texts (option string) :=
  mkTexts None None None None None None None None None None None None None None None None None None None None
    rule None None None None.

Record DProgram := mkProgram {
  pg_Id : Z; pg_ProgramGroupId : Z; pg_Prime : Z; pg_AreaId : Z; pg_ProgramCategoryId : Z;
  pg_ParentProgramCategoryId : Z; pg_Title : string; pg_Detail : string; pg_PreSell : Z;
  pg_PerOrderLimitPurchaseCount : Z; pg_PerAccountLimitPurchaseCount : Z;
  pg_MinPerformanceCount : option Z; pg_TotalCount : option Z; pg_PermitRefund : Z;
  pg_RelNameTicketEntrance : Z; pg_PermitChooseSeat : Z; pg_ElectronicDeliveryTicket : Z;
  pg_ElectronicInvoice : Z; pg_HighHeat : Z; pg_ProgramStatus : Z; pg_Texts : texts (option string);
  pg_IssueTime : option time; pg_RushSaleOpenTime : option time; pg_RushSaleEndTime : option time;
  pg_InventoryPreheatStatus : Z; pg_CreateTime : time; pg_EditTime : time; pg_Status : Z }.

Definition pg_RefundTicketRule (p : DProgram) : option string := tx_RefundTicketRule (pg_Texts p).
Definition pg_RefundExplain (p : DProgram) : option string := tx_RefundExplain (pg_Texts p).
Definition pg_RefundRuleJson (p : DProgram) : option string := tx_RefundRuleJson (pg_Texts p).
Definition pg_Place (p : DProgram) : option string := tx_Place (pg_Texts p).

(** The columns the handlers write on a row they have read. *)
Definition set_program (status preheat : Z) (create edit : time) (p : DProgram) : DProgram :=
  mkProgram (pg_Id p) (pg_ProgramGroupId p) (pg_Prime p) (pg_AreaId p) (pg_ProgramCategoryId p)
    (pg_ParentProgramCategoryId p) (pg_Title p) (pg_Detail p) (pg_PreSell p)
    (pg_PerOrderLimitPurchaseCount p) (pg_PerAccountLimitPurchaseCount p) (pg_MinPerformanceCount p)
    (pg_TotalCount p) (pg_PermitRefund p) (pg_RelNameTicketEntrance p) (pg_PermitChooseSeat p)
    (pg_ElectronicDeliveryTicket p) (pg_ElectronicInvoice p) (pg_HighHeat p) status (pg_Texts p)
    (pg_IssueTime p) (pg_RushSaleOpenTime p) (pg_RushSaleEndTime p) preheat create edit (pg_Status p).

Record DProgramShowTime := mkShowTime {
  st_Id : Z; st_ProgramId : Z; st_ShowTime : time; st_ShowDayTime : option time; st_ShowWeekTime : string;
  st_ShowEndTime : option time; st_CreateTime : option time; st_EditTime : option time; st_Status : Z }.

Record DProgramGroup := mkGroup {
  gr_Id : Z; gr_ProgramJson : string; gr_RecentShowTime : time; gr_CreateTime : time; gr_EditTime : time;
  gr_Status : Z }.

Record DProgramCategory := mkKind {
  kd_Id : Z; kd_ParentId : Z; kd_Name : string; kd_Type : Z; kd_CreateTime : time; kd_EditTime : time;
  kd_Status : Z }.

Record DTicketCategory := mkCategory {
  tc_Id : Z; tc_ProgramId : Z; tc_ShowTimeId : Z; tc_Introduce : string; tc_Price : Z; tc_TotalNumber : Z;
  tc_RemainNumber : Z; tc_CreateTime : time; tc_EditTime : time; tc_Status : Z }.

(** What Redis holds for the cached models: a row, or that there is none. *)
Record row_cache := mkCache {
  ca_programs : gmap Z (option DProgram); ca_shows : gmap Z (option DProgramShowTime);
  ca_groups : gmap Z (option DProgramGroup); ca_first : gmap Z (option DProgramShowTime) }.
Definition no_cache : row_cache := mkCache ∅ ∅ ∅ ∅.

Record programdb := mkProgramDB {
  show_times : gmap Z DProgramShowTime; programs : gmap Z DProgram; groups : gmap Z DProgramGroup;
  kinds : list DProgramCategory; cached : row_cache }.

Definition set_shows (t : gmap Z DProgramShowTime) (db : programdb) : programdb :=
  mkProgramDB t (programs db) (groups db) (kinds db) (cached db).
Definition set_programs (t : gmap Z DProgram) (db : programdb) : programdb :=
  mkProgramDB (show_times db) t (groups db) (kinds db) (cached db).
Definition set_groups (t : gmap Z DProgramGroup) (db : programdb) : programdb :=
  mkProgramDB (show_times db) (programs db) t (kinds db) (cached db).
Definition set_kinds (t : list DProgramCategory) (db : programdb) : programdb :=
  mkProgramDB (show_times db) (programs db) (groups db) t (cached db).
Definition set_cached (c : row_cache) (db : programdb) : programdb :=
  mkProgramDB (show_times db) (programs db) (groups db) (kinds db) c.

(** ** Cached reads *)

Definition cached_row {A} (cache : gmap Z (option A)) (table : gmap Z A) (id : Z) : option A :=
  match cache !! id with Some row => row | None => table !! id end.

Definition seen_show (db : programdb) (id : Z) : option DProgramShowTime :=
  cached_row (ca_shows (cached db)) (show_times db) id.
Definition seen_program (db : programdb) (id : Z) : option DProgram :=
  cached_row (ca_programs (cached db)) (programs db) id.
Definition findShowTime (id : Z) : M programdb DProgramShowTime := fun db => (of_option ENotFound (seen_show db id), db).
Definition findProgram (id : Z) : M programdb DProgram := fun db => (of_option ENotFound (seen_program db id), db).

(** ** What MySQL does *)

Class ColumnPrims := {
  (** The text a JSON column gives back for a document. *)
  json_value : string -> option string;
  (** Equality under the collation of a text column. *)
  same_text : string -> string -> bool;
  (** A string compared with a datetime column. *)
  datetime_literal : string -> option time }.

Section statements.
Context `{ColumnPrims}.

Definition fits_opt (width : nat) (v : option string) : bool :=
  match v with None => true | Some s => fits width s end.
(** A text column has 65535 bytes. *)
Definition fits_text (s : string) : bool := Z.of_nat (String.length s) <=? 65535.
Definition text_opt (v : option string) : bool := match v with None => true | Some s => fits_text s end.

(** *** d_program_model.go *)

Definition program_columns (p : DProgram) : result err unit :=
  let t := pg_Texts p in
  if negb (fits 512 (pg_Title p)) then too_long "title"
  else if negb (fits_opt 256 (tx_Actor t)) then too_long "actor"
  else if negb (fits_opt 100 (tx_Place t)) then too_long "place"
  else if negb (text_opt (tx_ItemPicture t)) then too_long "item_picture"
  else if negb (fits_opt 256 (tx_PreSellInstruction t)) then too_long "pre_sell_instruction"
  else if negb (fits_opt 512 (tx_ImportantNotice t)) then too_long "important_notice"
  else if negb (fits_text (pg_Detail p)) then too_long "detail"
  else if negb (fits_opt 512 (tx_RefundTicketRule t)) then too_long "refund_ticket_rule"
  else if negb (fits_opt 512 (tx_DeliveryInstruction t)) then too_long "delivery_instruction"
  else if negb (fits_opt 512 (tx_EntryRule t)) then too_long "entry_rule"
  else if negb (fits_opt 512 (tx_ChildPurchase t)) then too_long "child_purchase"
  else if negb (fits_opt 512 (tx_InvoiceSpecification t)) then too_long "invoice_specification"
  else if negb (text_opt (tx_RealTicketPurchaseRule t)) then too_long "real_ticket_purchase_rule"
  else if negb (text_opt (tx_AbnormalOrderDescription t)) then too_long "abnormal_order_description"
  else if negb (text_opt (tx_KindReminder t)) then too_long "kind_reminder"
  else if negb (fits_opt 100 (tx_PerformanceDuration t)) then too_long "performance_duration"
  else if negb (fits_opt 512 (tx_EntryTime t)) then too_long "entry_time"
  else if negb (fits_opt 100 (tx_MainActor t)) then too_long "main_actor"
  else if negb (fits_opt 100 (tx_MinPerformanceDuration t)) then too_long "min_performance_duration"
  else if negb (text_opt (tx_ProhibitedItem t)) then too_long "prohibited_item"
  else if negb (fits_opt 512 (tx_DepositSpecification t)) then too_long "deposit_specification"
  else if negb (fits_opt 512 (tx_RefundExplain t)) then too_long "refund_explain"
  else if negb (fits_opt 512 (tx_RelNameTicketEntranceExplain t)) then too_long "rel_name_ticket_entrance_explain"
  else if negb (fits_opt 512 (tx_ChooseSeatExplain t)) then too_long "choose_seat_explain"
  else if negb (fits_opt 512 (tx_ElectronicDeliveryTicketExplain t)) then too_long "electronic_delivery_ticket_explain"
  else if negb (fits_opt 512 (tx_ElectronicInvoiceExplain t)) then too_long "electronic_invoice_explain"
  else match tx_RefundRuleJson t with
  | Some s => match json_value s with None => Err (EMySQL 3140 "Invalid JSON text") | Some _ => Ok tt end
  | None => Ok tt
  end.

Definition stored_texts (t : texts (option string)) : texts (option string) :=
  mkTexts (tx_Actor t) (tx_Place t) (tx_ItemPicture t) (tx_PreSellInstruction t) (tx_ImportantNotice t)
    (tx_RefundTicketRule t) (tx_DeliveryInstruction t) (tx_EntryRule t) (tx_ChildPurchase t)
    (tx_InvoiceSpecification t) (tx_RealTicketPurchaseRule t) (tx_AbnormalOrderDescription t)
    (tx_KindReminder t) (tx_PerformanceDuration t) (tx_EntryTime t) (tx_MainActor t)
    (tx_MinPerformanceDuration t) (tx_ProhibitedItem t) (tx_DepositSpecification t) (tx_RefundExplain t)
    (tx_RefundRuleJson t ≫= json_value) (tx_RelNameTicketEntranceExplain t) (tx_ChooseSeatExplain t)
    (tx_ElectronicDeliveryTicketExplain t) (tx_ElectronicInvoiceExplain t).

Definition stored_program (create : time) (p : DProgram) : DProgram :=
  mkProgram (pg_Id p) (pg_ProgramGroupId p) (pg_Prime p) (pg_AreaId p) (pg_ProgramCategoryId p)
    (pg_ParentProgramCategoryId p) (pg_Title p) (pg_Detail p) (pg_PreSell p)
    (pg_PerOrderLimitPurchaseCount p) (pg_PerAccountLimitPurchaseCount p) (pg_MinPerformanceCount p)
    (pg_TotalCount p) (pg_PermitRefund p) (pg_RelNameTicketEntrance p) (pg_PermitChooseSeat p)
    (pg_ElectronicDeliveryTicket p) (pg_ElectronicInvoice p) (pg_HighHeat p) (pg_ProgramStatus p)
    (stored_texts (pg_Texts p)) (mysql_datetime <$> pg_IssueTime p) (mysql_datetime <$> pg_RushSaleOpenTime p)
    (mysql_datetime <$> pg_RushSaleEndTime p) (pg_InventoryPreheatStatus p) create
    (mysql_datetime (pg_EditTime p)) (pg_Status p).

(** [FindOne] of the uncached model, and [FindOneForUpdate]. *)
Definition program_row (id : Z) : M programdb DProgram := fun db =>
  (of_option ENotFound (programs db !! id), db).
Definition FindProgramForUpdate (id : Z) : M programdb DProgram := fun db =>
  (match programs db !! id with
   | Some p => if pg_Status p =? 1 then Ok p else Err ENotFound
   | None => Err ENotFound
   end, db).

Definition InsertProgramRow (p : DProgram) : M programdb unit := fun db =>
  match program_columns p with
  | Err x => (Err x, db)
  | Ok _ => match programs db !! pg_Id p with
            | Some _ => (dup_entry "PRIMARY", db)
            | None => (Ok tt, set_programs (<[pg_Id p := stored_program (mysql_datetime (pg_CreateTime p)) p]> (programs db)) db)
            end
  end.

(** UPDATE sets every column but id and create_time. *)
Definition UpdateProgramRow (p : DProgram) : M programdb unit := fun db =>
  match programs db !! pg_Id p with
  | None => (Ok tt, db)
  | Some old =>
      match program_columns p with
      | Err x => (Err x, db)
      | Ok _ => (Ok tt, set_programs (<[pg_Id p := stored_program (pg_CreateTime old) p]> (programs db)) db)
      end
  end.

(** *** d_program_show_time_model.go *)

Definition show_row (id : Z) : M programdb DProgramShowTime := fun db =>
  (of_option ENotFound (show_times db !! id), db).

Definition show_order (a b : DProgramShowTime) : Prop :=
  st_ProgramId a < st_ProgramId b \/ (st_ProgramId a = st_ProgramId b /\ st_ShowTime a <= st_ShowTime b).
#[global] Instance show_order_dec a b : Decision (show_order a b).
Proof. unfold show_order. apply _. Defined.

Definition live_shows (ids : list Z) (db : programdb) : list DProgramShowTime :=
  filter (fun s => (st_Status s =? 1) && bool_decide (st_ProgramId s ∈ ids) = true) (map_to_list (show_times db)).*2.

(** Rows of equal key come in the order of the table. *)
Definition FindShowTimesByProgramIds (ids : list Z) : M programdb (list DProgramShowTime) := fun db =>
  (Ok (merge_sort show_order (live_shows ids db)), db).
Definition first_show (id : Z) (db : programdb) : option DProgramShowTime :=
  head (merge_sort show_order (live_shows [id] db)).
Definition FindFirstByProgramId (id : Z) : M programdb DProgramShowTime := fun db =>
  (of_option ENotFound (first_show id db), db).

(** INSERT leaves create_time null; UPDATE leaves it alone. *)
Definition stored_show (create : option time) (s : DProgramShowTime) : DProgramShowTime :=
  mkShowTime (st_Id s) (st_ProgramId s) (mysql_datetime (st_ShowTime s)) (mysql_datetime <$> st_ShowDayTime s)
    (st_ShowWeekTime s) (mysql_datetime <$> st_ShowEndTime s) create (mysql_datetime <$> st_EditTime s) (st_Status s).

Definition InsertShowTimeRow (s : DProgramShowTime) : M programdb unit := fun db =>
  if negb (fits 64 (st_ShowWeekTime s)) then (too_long "show_week_time", db)
  else match show_times db !! st_Id s with
  | Some _ => (dup_entry "PRIMARY", db)
  | None => (Ok tt, set_shows (<[st_Id s := stored_show None s]> (show_times db)) db)
  end.

Definition UpdateShowTimeRow (s : DProgramShowTime) : M programdb unit := fun db =>
  match show_times db !! st_Id s with
  | None => (Ok tt, db)
  | Some old =>
      if negb (fits 64 (st_ShowWeekTime s)) then (too_long "show_week_time", db)
      else (Ok tt, set_shows (<[st_Id s := stored_show (st_CreateTime old) s]> (show_times db)) db)
  end.

(** *** d_program_group_model.go *)

Definition group_row (id : Z) : M programdb DProgramGroup := fun db =>
  (match groups db !! id with
   | Some g => if gr_Status g =? 1 then Ok g else Err ENotFound
   | None => Err ENotFound
   end, db).

Definition UpdateGroupRow (g : DProgramGroup) : M programdb unit := fun db =>
  match groups db !! gr_Id g with
  | None => (Ok tt, db)
  | Some old =>
      if negb (fits_text (gr_ProgramJson g)) then (too_long "program_json", db)
      else (Ok tt, set_groups (<[gr_Id g := mkGroup (gr_Id g) (gr_ProgramJson g) (mysql_datetime (gr_RecentShowTime g))
             (gr_CreateTime old) (mysql_datetime (gr_EditTime g)) (gr_Status g)]> (groups db)) db)
  end.

(** *** d_program_category_model.go *)

Definition kind_order (a b : DProgramCategory) : Prop :=
  kd_Type a < kd_Type b \/ (kd_Type a = kd_Type b /\
    (kd_ParentId a < kd_ParentId b \/ (kd_ParentId a = kd_ParentId b /\ kd_Id a <= kd_Id b))).
#[global] Instance kind_order_dec a b : Decision (kind_order a b).
Proof. unfold kind_order. apply _. Defined.

(** Ordered by type, parent and id; a condition on one of them makes its place in the
    order idle. *)
Definition live_kinds (p : DProgramCategory -> bool) (db : programdb) : list DProgramCategory :=
  merge_sort kind_order (filter (fun k => (kd_Status k =? 1) && p k = true) (kinds db)).
Definition select_kinds (p : DProgramCategory -> bool) : M programdb (list DProgramCategory) := fun db =>
  (Ok (live_kinds p db), db).
Definition FindAllKinds : M programdb (list DProgramCategory) := select_kinds (fun _ => true).
Definition FindKindsByType (tp : Z) : M programdb (list DProgramCategory) := select_kinds (fun k => kd_Type k =? tp).
Definition FindKindsByParentID (parentID : Z) : M programdb (list DProgramCategory) :=
  select_kinds (fun k => kd_ParentId k =? parentID).

Definition kind_at (parentId : Z) (name : string) (tp : Z) (k : DProgramCategory) : bool :=
  (kd_ParentId k =? parentId) && same_text (kd_Name k) name && (kd_Type k =? tp).
Definition FindOneByParentIdNameType (parentId : Z) (name : string) (tp : Z) : M programdb DProgramCategory := fun db =>
  (of_option ENotFound (find (kind_at parentId name tp) (kinds db)), db).

(** The id is the table's next one. *)
Definition next_kind (ks : list DProgramCategory) : Z := 1 + foldr Z.max 0 (map kd_Id ks).
Definition InsertKind (k : DProgramCategory) : M programdb unit := fun db =>
  if negb (fits 120 (kd_Name k)) then (too_long "name", db)
  else if existsb (kind_at (kd_ParentId k) (kd_Name k) (kd_Type k)) (kinds db) then (dup_entry "uk_parent_name_type", db)
  else (Ok tt, set_kinds (kinds db ++ [mkKind (next_kind (kinds db)) (kd_ParentId k) (kd_Name k) (kd_Type k)
          (mysql_datetime (kd_CreateTime k)) (mysql_datetime (kd_EditTime k)) (kd_Status k)]) db).

(** *** Pages of d_program *)

Record ProgramHomeListQuery := mkHomeQuery { hq_AreaId : Z; hq_ParentProgramCategoryIds : list Z; hq_Limit : Z }.
Record ProgramPageListQuery := mkPageQuery {
  pq_PageNumber : Z; pq_PageSize : Z; pq_AreaId : Z; pq_ParentProgramCategoryId : Z; pq_ProgramCategoryId : Z;
  pq_TimeType : Z; pq_StartDateTime : string; pq_EndDateTime : string; pq_Type : Z }.

Definition program_list (p : DProgram -> bool) (db : programdb) : list DProgram :=
  filter (fun r => p r = true) (map_to_list (programs db)).*2.

Definition buildProgramBaseConditions (areaId : Z) (p : DProgram) : bool :=
  (pg_Status p =? 1) && (pg_ProgramStatus p =? 1) &&
  (if 0 <? areaId then pg_AreaId p =? areaId else pg_Prime p =? 1).

(** A null day or a literal MySQL cannot read makes the comparison unknown. *)
Definition day_between (start stop : string) (s : DProgramShowTime) : bool :=
  match st_ShowDayTime s, datetime_literal start, datetime_literal stop with
  | Some d, Some a, Some b => (a <=? d) && (d <=? b)
  | _, _, _ => false
  end.

Definition buildProgramPageConditions (db : programdb) (q : ProgramPageListQuery) (p : DProgram) : bool :=
  buildProgramBaseConditions (pq_AreaId q) p &&
  (if 0 <? pq_ParentProgramCategoryId q then pg_ParentProgramCategoryId p =? pq_ParentProgramCategoryId q else true) &&
  (if 0 <? pq_ProgramCategoryId q then pg_ProgramCategoryId p =? pq_ProgramCategoryId q else true) &&
  (if (0 <? pq_TimeType q) && negb (bool_decide (pq_StartDateTime q = "")) && negb (bool_decide (pq_EndDateTime q = ""))
   then existsb (day_between (pq_StartDateTime q) (pq_EndDateTime q)) (live_shows [pg_Id p] db) else true).

(** Ascending, null first. *)
Definition null_first (a b : option time) (tie : bool) : bool :=
  match a, b with
  | None, None => tie
  | None, Some _ => true
  | Some _, None => false
  | Some x, Some y => (x <? y) || ((x =? y) && tie)
  end.

Definition hot_first (a b : DProgram) : bool :=
  (pg_HighHeat b <? pg_HighHeat a) || ((pg_HighHeat a =? pg_HighHeat b) && (pg_Id b <=? pg_Id a)).

Definition buildProgramPageOrderBy (db : programdb) (tp : Z) (a b : DProgram) : bool :=
  if tp =? 2 then hot_first a b
  else if tp =? 3 then
    null_first (st_ShowTime <$> first_show (pg_Id a) db) (st_ShowTime <$> first_show (pg_Id b) db) (pg_Id a <=? pg_Id b)
  else if tp =? 4 then null_first (pg_IssueTime a) (pg_IssueTime b) (pg_Id a <=? pg_Id b)
  else pg_Id b <=? pg_Id a.

Definition ordered_by (le : DProgram -> DProgram -> bool) (a b : DProgram) : Prop := le a b = true.
#[global] Instance ordered_by_dec le a b : Decision (ordered_by le a b).
Proof. unfold ordered_by. apply _. Defined.
Definition sort_programs (le : DProgram -> DProgram -> bool) (l : list DProgram) : list DProgram :=
  merge_sort (ordered_by le) l.

Definition FindHomeList (q : ProgramHomeListQuery) : M programdb (list DProgram) := fun db =>
  let rows := sort_programs hot_first (program_list (fun p => buildProgramBaseConditions (hq_AreaId q) p &&
    (if bool_decide (hq_ParentProgramCategoryIds q = []) then true
     else bool_decide (pg_ParentProgramCategoryId p ∈ hq_ParentProgramCategoryIds q))) db) in
  (Ok (if 0 <? hq_Limit q then take (Z.to_nat (hq_Limit q)) rows else rows), db).

Definition CountPageList (q : ProgramPageListQuery) : M programdb Z := fun db =>
  (Ok (Z.of_nat (length (program_list (buildProgramPageConditions db q) db))), db).

Definition FindPageList (q : ProgramPageListQuery) : M programdb (list DProgram) := fun db =>
  let pageNumber := if pq_PageNumber q <=? 0 then 1 else pq_PageNumber q in
  let pageSize := if pq_PageSize q <=? 0 then 10 else pq_PageSize q in
  (limit_offset pageSize (wrap64 (wrap64 (pageNumber - 1) * pageSize))
     (sort_programs (buildProgramPageOrderBy db (pq_Type q)) (program_list (buildProgramPageConditions db q) db)), db).

End statements.

(** *** d_ticket_category_model.go *)

Definition category_order (a b : DTicketCategory) : Prop :=
  tc_Price a < tc_Price b \/ (tc_Price a = tc_Price b /\ tc_Id a <= tc_Id b).
#[global] Instance category_order_dec a b : Decision (category_order a b).
Proof. unfold category_order. apply _. Defined.

Definition live_categories (p : DTicketCategory -> bool) (db : list DTicketCategory) : list DTicketCategory :=
  merge_sort category_order (filter (fun c => (tc_Status c =? 1) && p c = true) db).
Definition select_categories (p : DTicketCategory -> bool) : M (list DTicketCategory) (list DTicketCategory) := fun db =>
  (Ok (live_categories p db), db).

Definition findCategories (showTimeId : Z) : M (list DTicketCategory) (list DTicketCategory) :=
  select_categories (fun c => tc_ShowTimeId c =? showTimeId).
Definition FindCategoriesByProgramId (programId : Z) : M (list DTicketCategory) (list DTicketCategory) :=
  select_categories (fun c => tc_ProgramId c =? programId).
Definition category_row (id : Z) : M (list DTicketCategory) DTicketCategory := fun db =>
  (of_option ENotFound (find (fun c => tc_Id c =? id) db), db).

(** [price] is a decimal(10,0) written from a float64. *)
Definition InsertCategoryRow (c : DTicketCategory) : M (list DTicketCategory) unit := fun db =>
  if negb (fits 256 (tc_Introduce c)) then (too_long "introduce", db)
  else if negb (Pay.decimal10 (f64 (tc_Price c))) then (out_of_range "price", db)
  else if existsb (fun r => tc_Id r =? tc_Id c) db then (dup_entry "PRIMARY", db)
  else (Ok tt, db ++ [mkCategory (tc_Id c) (tc_ProgramId c) (tc_ShowTimeId c) (tc_Introduce c) (f64 (tc_Price c))
          (tc_TotalNumber c) (tc_RemainNumber c) (mysql_datetime (tc_CreateTime c)) (mysql_datetime (tc_EditTime c))
          (tc_Status c)]).

Record TicketCategoryPriceAggregate := mkPriceAggregate { pa_ProgramId : Z; pa_MinPrice : Z; pa_MaxPrice : Z }.

(** One row per program that has a live category. *)
Definition price_range (db : list DTicketCategory) (programId : Z) : option TicketCategoryPriceAggregate :=
  match map tc_Price (filter (fun c => (tc_Status c =? 1) && (tc_ProgramId c =? programId) = true) db) with
  | [] => None
  | p :: ps => Some (mkPriceAggregate programId (foldr Z.min p ps) (foldr Z.max p ps))
  end.
Definition FindPriceAggregateByProgramIds (programIds : list Z)
  : M (list DTicketCategory) (list TicketCategoryPriceAggregate) := fun db =>
  (Ok (omap (price_range db) (remove_dups programIds)), db).
