(* ===== verification/RefundRule.v ===== *)
(** * Refund rules  (services/program-rpc/internal/logic)

    The evaluation of a program's refund rule (refund_rule.go) and the handler
    that applies it (evaluate_refund_rule_logic.go).  The JSON decoder is a
    parameter; [sort.Slice] is any function that returns a sorted permutation,
    so the results do not depend on how it orders stages of equal time. *)
From Stdlib Require Import ZArith Lia Ascii String Sorted.
From stdpp Require Import base gmap list strings.
From S2P Require Import Prelude GoBase Effects Sql PayService ProgramDB.
Open Scope string_scope.
Open Scope list_scope.
Open Scope Z_scope.

(** ** Data *)

Record refundStage := mkStage { BeforeMinutes : Z; StagePercent : Z }.
Record refundRule := mkRule { Version : Z; Stages : list refundStage }.

Record refundRuleResult := mkRuleResult {
  AllowRefund : bool; RefundPercent : Z; RefundAmount : Z; RejectReason : string; NoMatch : bool }.

Record EvaluateRefundRuleReq := mkEvalReq { ev_ShowTimeId : Z; ev_OrderAmount : Z }.
Record EvaluateRefundRuleResp := mkEvalResp {
  er_AllowRefund : bool; er_RefundPercent : Z; er_RefundAmount : Z; er_RejectReason : string }.

(** [json.Unmarshal] into a rule, and [sort.Slice] by descending [BeforeMinutes]. *)
Class RulePrims := {
  unmarshal_rule : string -> option refundRule;
  sort_stages : list refundStage -> list refundStage }.

Definition later_stage (a b : refundStage) : Prop := BeforeMinutes b <= BeforeMinutes a.

Class RulePrimsLaws `{RulePrims} := {
  sort_stages_perm l : sort_stages l ≡ₚ l;
  sort_stages_sorted l : StronglySorted later_stage (sort_stages l) }.

(** ** refund_rule.go *)

Definition errInvalidRefundRule : err := EOther "invalid refund rule".

Section rule.
Context `{RulePrims}.

Definition valid_stage (s : refundStage) : bool :=
  negb ((BeforeMinutes s <? 0) || (StagePercent s <? 0) || (100 <? StagePercent s)).

Fixpoint match_stages (remainingMinutes orderAmount : Z) (stages : list refundStage)
  : result err refundRuleResult :=
  match stages with
  | [] => Ok (mkRuleResult false 0 0 "refund stage not matched" true)
  | s :: rest =>
      if negb (valid_stage s) then Err errInvalidRefundRule
      else if BeforeMinutes s <=? remainingMinutes
      then Ok (mkRuleResult true (StagePercent s)
             (Z.quot (wrap64 (orderAmount * StagePercent s)) 100) "" false)
      else match_stages remainingMinutes orderAmount rest
  end.

Definition remaining_minutes (showTime now : time) : Z := Z.quot (time_sub showTime now) minute.

Definition evaluateRefundRule (ruleJSON : string) (showTime now : time) (orderAmount : Z)
  : result err refundRuleResult :=
  if bool_decide (ruleJSON = "") || is_zero_time showTime || is_zero_time now || (orderAmount <=? 0)
  then Err errInvalidRefundRule
  else match unmarshal_rule ruleJSON with
  | None => Err errInvalidRefundRule
  | Some rule =>
      if negb (Version rule =? 1) || bool_decide (Stages rule = []) then Err errInvalidRefundRule
      else match_stages (remaining_minutes showTime now) orderAmount (sort_stages (Stages rule))
  end.

(** ** program_domain_helper.go *)

Definition nullStringValue (v : option string) : string := default "" v.

Definition programNotFoundError : err := EStatus NotFound "program not found".
Definition rushSaleRefundBlockedReason : string := "秒杀活动进行中，暂不支持退票".

Definition programRefundDisabledReason (p : DProgram) : string :=
  let reason := nullStringValue (pg_RefundExplain p) in
  if negb (bool_decide (reason = "")) then reason else "program does not permit refund".

Definition programRefundNoMatchReason (p : DProgram) (fallback : string) : string :=
  let rule := nullStringValue (pg_RefundTicketRule p) in
  let explain := nullStringValue (pg_RefundExplain p) in
  let parts := (if negb (bool_decide (rule = "")) then [rule] else [])
               ++ (if negb (bool_decide (explain = "")) then [explain] else []) in
  match parts with [] => fallback | _ => join "；" parts end.

(** [isRefundBlockedDuringRushSale(program, time.Time{})] reads the clock itself. *)
Definition in_window (openAt endAt now : time) : bool := negb (now <? openAt) && negb (endAt <? now).

Definition isRefundBlockedDuringRushSale {S} (p : DProgram) (now : time) : IO S bool :=
  match pg_RushSaleOpenTime p, pg_RushSaleEndTime p with
  | Some openAt, Some endAt =>
      n ← (if is_zero_time now then Effects.now else mret now);
      if endAt <? openAt then mret false else mret (in_window openAt endAt n)
  | _, _ => mret false
  end.

(** ** evaluate_refund_rule_logic.go *)

Definition not_found_error (e : err) : err := if err_is e ENotFound then programNotFoundError else e.

Definition applyRefundRule (p : DProgram) (st : DProgramShowTime) (amount : Z)
  : IO programdb EvaluateRefundRuleResp :=
  if pg_PermitRefund p =? 0 then mret (mkEvalResp false 0 0 (programRefundDisabledReason p))
  else if pg_PermitRefund p =? 2 then mret (mkEvalResp true 100 amount "")
  else if pg_PermitRefund p =? 1 then
    n ← now;
    match evaluateRefundRule (nullStringValue (pg_RefundRuleJson p)) (st_ShowTime st) n amount with
    | Err _ => throw (EStatus InternalCode "invalid refund rule")
    | Ok res =>
        let rejectReason := if NoMatch res then programRefundNoMatchReason p (RejectReason res)
                            else RejectReason res in
        mret (mkEvalResp (AllowRefund res) (RefundPercent res) (RefundAmount res) rejectReason)
    end
  else mret (mkEvalResp false 0 0 (programRefundDisabledReason p)).

Definition EvaluateRefundRule (r : EvaluateRefundRuleReq) : IO programdb EvaluateRefundRuleResp :=
  if (ev_ShowTimeId r <=? 0) || (ev_OrderAmount r <=? 0) then throw (statusX InvalidArgument ErrInvalidParam)
  else
    st ← map_err not_found_error (call (findShowTime (ev_ShowTimeId r)));
    p ← map_err not_found_error (call (findProgram (st_ProgramId st)));
    blocked ← isRefundBlockedDuringRushSale p zero_time;
    if (blocked : bool) then mret (mkEvalResp false 0 0 rushSaleRefundBlockedReason)
    else applyRefundRule p st (ev_OrderAmount r).

(** ** Correctness *)

Lemma valid_stage_spec s :
  valid_stage s = true <-> 0 <= BeforeMinutes s /\ 0 <= StagePercent s <= 100.
Proof.
  unfold valid_stage. rewrite negb_true_iff, !orb_false_iff, !Z.ltb_ge. lia.
Qed.

Lemma match_stages_ok m amount l res :
  StronglySorted later_stage l -> match_stages m amount l = Ok res ->
  (NoMatch res = negb (AllowRefund res)) /\
  if AllowRefund res then
    exists s, s ∈ l /\ valid_stage s = true /\ BeforeMinutes s <= m /\
      (forall s', s' ∈ l -> BeforeMinutes s' <= m -> BeforeMinutes s' <= BeforeMinutes s) /\
      RefundPercent res = StagePercent s /\
      RefundAmount res = Z.quot (wrap64 (amount * StagePercent s)) 100
  else Forall (fun s => valid_stage s = true /\ m < BeforeMinutes s) l /\
       RefundPercent res = 0 /\ RefundAmount res = 0.
Proof.
  induction 1 as [|s l Hl IH Hs]; cbn; [by intros [= <-]|].
  destruct (valid_stage s) eqn:Ev; cbn [negb]; [|done].
  destruct (Z.leb_spec (BeforeMinutes s) m) as [Hle|Hlt].
  - intros [= <-]. cbn. split; [done|]. exists s. split_and!; try done; [by left|].
    intros s' [->|Hin]%elem_of_cons Hm; [lia|]. rewrite Forall_forall in Hs. by apply Hs.
  - intros Hr. destruct (IH Hr) as [Hn Hb]. split; [done|]. destruct (AllowRefund res).
    + destruct Hb as (t & Hin & Hv & Hle & Hmax & ? & ?). exists t. split_and!; try done; [by right|].
      intros s' [->|Hs']%elem_of_cons Hm; [lia|auto].
    + destruct Hb as (Hall & ? & ?). split; [|done]. constructor; [done|done].
Qed.

(** Bounds of a refunded amount: no wrap-around below [max_int64 / 100]. *)
Lemma refund_amount_bounds amount pct :
  0 < amount -> amount * 100 <= max_int64 -> 0 <= pct <= 100 ->
  Z.quot (wrap64 (amount * pct)) 100 = amount * pct / 100 /\ 0 <= amount * pct / 100 <= amount.
Proof.
  intros Ha Hmax Hp. assert (0 <= amount * pct <= amount * 100) by nia.
  assert (in_int64 (amount * pct) = true).
  { unfold in_int64. apply andb_true_iff. unfold max_int64, min_int64 in *. lia. }
  rewrite wrap64_id by done. rewrite Z.quot_div_nonneg by lia. split; [done|].
  split; [apply Z.div_pos; lia|]. apply Z.div_le_upper_bound; lia.
Qed.
End rule.

(** C38: the rule refunds by the stage with the greatest lead time that is still
    met: the refund is that stage's percentage of the amount, rounded down, and
    never more than the amount; no stage is met exactly when the answer is
    "not matched", and then every stage was well formed. *)
Theorem refund_rule_spec `{RulePrimsLaws} ruleJSON rule showTime now amount res :
  unmarshal_rule ruleJSON = Some rule -> amount * 100 <= max_int64 ->
  evaluateRefundRule ruleJSON showTime now amount = Ok res ->
  let m := remaining_minutes showTime now in
  if AllowRefund res then
    exists s, s ∈ Stages rule /\ BeforeMinutes s <= m /\
      (forall s', s' ∈ Stages rule -> BeforeMinutes s' <= m -> BeforeMinutes s' <= BeforeMinutes s) /\
      RefundPercent res = StagePercent s /\ 0 <= StagePercent s <= 100 /\
      RefundAmount res = amount * StagePercent s / 100 /\ 0 <= RefundAmount res <= amount
  else NoMatch res = true /\ RefundAmount res = 0 /\
       (forall s, s ∈ Stages rule -> valid_stage s = true /\ m < BeforeMinutes s).
Proof.
  intros Hu Hmax. unfold evaluateRefundRule. destr_if; [done|]. rewrite Hu. destr_if; [done|]. bool_norm.
  intros Hr. apply match_stages_ok in Hr as [Hn Hr]; [|apply sort_stages_sorted]. cbn zeta.
  destruct (AllowRefund res).
  - destruct Hr as (s & Hin & Hv & Hle & Hbest & Hp & Hamt). apply valid_stage_spec in Hv as [Hv0 Hv].
    destruct (refund_amount_bounds amount (StagePercent s)) as [E Hb]; [lia|done|done|].
    rewrite E in Hamt. exists s. rewrite Hamt. rewrite sort_stages_perm in Hin. split_and!; try done; try lia.
    intros s' Hs'. apply Hbest. by rewrite sort_stages_perm.
  - destruct Hr as (Hall & _ & ?). split_and!; [done..|]. intros s Hs. rewrite Forall_forall in Hall.
    apply Hall. by rewrite sort_stages_perm.
Qed.

(** The clock of the schedule. *)
Lemma call_wall {S A} (m : M S A) e s r e' s' : call m (e, s) = (r, (e', s')) -> wall e' = wall e.
Proof.
  unfold call, draw. destruct (faults e) as [|[|x|x] fs]; [destruct (m s)|destruct (m s)|..];
    by intros [= _ <- _].
Qed.

Lemma now_wall {S} e (s : S) n e' s' : now (e, s) = (Ok n, (e', s')) -> wall e <= n <= wall e' /\ s' = s.
Proof. unfold now. destruct (ticks e); intros [= <- <- <-]; cbn; split; try done; lia. Qed.

(** The answer the handler gives for a program, once it is read at [n]. *)
Lemma apply_rule_ok `{RulePrimsLaws} p st amount e db resp s' :
  0 < amount -> amount * 100 <= max_int64 ->
  applyRefundRule p st amount (e, db) = (Ok resp, s') ->
  0 <= er_RefundPercent resp <= 100 /\ 0 <= er_RefundAmount resp <= amount /\
  (er_AllowRefund resp = true -> (pg_PermitRefund p = 1 \/ pg_PermitRefund p = 2) /\
     er_RefundAmount resp = amount * er_RefundPercent resp / 100) /\
  (er_AllowRefund resp = false -> er_RefundAmount resp = 0) /\ wall e <= wall s'.1.
Proof.
  intros Ha Hmax. unfold applyRefundRule. destr_if; [by intros [= <- <-]; cbn; split_and!; lia|].
  destr_if.
  { intros [= <- <-]. cbn. bool_norm. split_and!; try lia. intros _. split; [by right|].
    by rewrite Z.div_mul. }
  destr_if; [|by intros [= <- <-]; cbn; split_and!; lia].
  intros (n & [e1 db1] & Hn & Hr)%bind_ok. apply now_wall in Hn as [Hw ->].
  destruct (evaluateRefundRule _ _ _ _) as [res|] eqn:E; [|done].
  apply ret_ok in Hr as [<- <-]. cbn. unfold evaluateRefundRule in E. destr_if; [done|].
  destruct (unmarshal_rule _) as [rule|]; [|done]. destr_if; [done|].
  apply match_stages_ok in E as [_ E]; [|apply sort_stages_sorted]. destruct (AllowRefund res).
  - destruct E as (s & _ & Hv & _ & _ & -> & ->). apply valid_stage_spec in Hv as [_ Hv].
    destruct (refund_amount_bounds amount (StagePercent s) Ha Hmax Hv) as [-> ?].
    bool_norm. split_and!; try lia.
  - destruct E as (_ & -> & ->). split_and!; try lia.
Qed.

(** A lookup that succeeded found the row and left everything else alone. *)
Lemma lookup_call_ok {A} (m : M programdb A) o f e db a e' db' :
  (forall s, m s = (of_option ENotFound (o s), s)) ->
  map_err f (call m) (e, db) = (Ok a, (e', db')) -> o db = Some a /\ db' = db /\ wall e' = wall e.
Proof.
  intros Hm Hc. apply map_err_ok in Hc. pose proof (call_wall _ _ _ _ _ _ Hc) as ->.
  apply call_ok in Hc. rewrite Hm in Hc. injection Hc as Ho <-. by apply of_option_ok in Ho.
Qed.

(** A sale window that does not block was read outside of the window. *)
Lemma not_blocked p e (db : programdb) e' db' :
  isRefundBlockedDuringRushSale p zero_time (e, db) = (Ok false, (e', db')) ->
  db' = db /\ wall e <= wall e' /\
  forall openAt endAt, pg_RushSaleOpenTime p = Some openAt -> pg_RushSaleEndTime p = Some endAt ->
    openAt <= endAt -> exists n, wall e <= n <= wall e' /\ (n < openAt \/ endAt < n).
Proof.
  unfold isRefundBlockedDuringRushSale. destruct (pg_RushSaleOpenTime p) as [o|]; [|by intros [= <- <-]].
  destruct (pg_RushSaleEndTime p) as [d|]; [|by intros [= <- <-]].
  change (is_zero_time zero_time) with true. cbn iota.
  intros (n & [e1 db1] & Hn & Hr)%bind_ok. apply now_wall in Hn as [Hw ->].
  destruct (Z.ltb_spec d o) as [Hlt|Hle].
  - apply ret_ok in Hr as [_ [= <- <-]]. split_and!; [done|lia|]. intros ? ? [= <-] [= <-]. lia.
  - apply ret_ok in Hr as [Hb [= <- <-]]. split_and!; [done|lia|]. intros ? ? [= <-] [= <-] _.
    exists n. split; [done|]. unfold in_window in Hb.
    destruct (Z.ltb_spec n o); [by left|]. destruct (Z.ltb_spec d n); [by right|done].
Qed.

(** Whatever fails, an answer of [EvaluateRefundRule] never promises more than
    the order's amount, promises exactly the percentage it names, and promises
    nothing when it refuses; a refund is only allowed for a program that permits
    one, and the handler changes nothing. *)
Theorem evaluate_refund_bounded `{RulePrimsLaws} r e db resp e' db' :
  ev_OrderAmount r * 100 <= max_int64 -> EvaluateRefundRule r (e, db) = (Ok resp, (e', db')) ->
  0 <= er_RefundAmount resp <= ev_OrderAmount r /\ 0 <= er_RefundPercent resp <= 100 /\
  (er_AllowRefund resp = false -> er_RefundAmount resp = 0) /\
  (er_AllowRefund resp = true ->
     er_RefundAmount resp = ev_OrderAmount r * er_RefundPercent resp / 100 /\
     exists st p, seen_show db (ev_ShowTimeId r) = Some st /\ seen_program db (st_ProgramId st) = Some p /\
       (pg_PermitRefund p = 1 \/ pg_PermitRefund p = 2) /\
       (forall openAt endAt, pg_RushSaleOpenTime p = Some openAt -> pg_RushSaleEndTime p = Some endAt ->
          openAt <= endAt -> exists n, wall e <= n <= wall e' /\ (n < openAt \/ endAt < n))).
Proof.
  intros Hmax. unfold EvaluateRefundRule. destr_if; [done|]. bool_norm.
  intros (st & [e1 db1] & Hst & Hr)%bind_ok.
  apply (lookup_call_ok _ (fun db => seen_show db (ev_ShowTimeId r))) in Hst as (Hst & -> & Hw1); [|done].
  apply bind_ok in Hr as (p & [e2 db2] & Hp & Hr).
  apply (lookup_call_ok _ (fun db => seen_program db (st_ProgramId st))) in Hp as (Hp & -> & Hw2); [|done].
  apply bind_ok in Hr as ([] & [e3 db3] & Hb & Hr).
  { apply ret_ok in Hr as [<- _]. cbn. split_and!; try lia; done. }
  apply not_blocked in Hb as (-> & _ & Hwin). apply apply_rule_ok in Hr as (Hpct & Ham & Hal & Hno & Hw); [|lia|done].
  split_and!; try done; try lia. intros Hyes. destruct (Hal Hyes) as [Hperm Hamt]. split; [done|].
  exists st, p. split_and!; try done. intros o d Ho Hd Hle.
  destruct (Hwin o d Ho Hd Hle) as (n & Hn & Hout). exists n. cbn in Hw. split; [lia|done].
Qed.

(** ** A rule at work *)

Definition demo_rule : refundRule := mkRule 1 [mkStage 60 50; mkStage 1440 80].

Fixpoint insert_stage (s : refundStage) (l : list refundStage) : list refundStage :=
  match l with
  | [] => [s]
  | t :: l' => if BeforeMinutes t <? BeforeMinutes s then s :: l else t :: insert_stage s l'
  end.

#[global] Instance demo_rule_prims : RulePrims := {
  unmarshal_rule s := if bool_decide (s = "rule") then Some demo_rule else None;
  sort_stages l := foldr insert_stage [] l }.

Lemma insert_stage_perm s l : insert_stage s l ≡ₚ s :: l.
Proof. induction l as [|t l IH]; cbn; [done|]. destr_if; [done|]. rewrite IH. constructor. Qed.

#[global] Instance demo_rule_laws : RulePrimsLaws.
Proof.
  split.
  - induction l as [|s l IH]; cbn; [done|]. rewrite insert_stage_perm. by constructor.
  - induction l as [|s l IH]; cbn; [constructor|]. cbn in IH. revert IH.
    generalize (foldr insert_stage [] l). clear. induction 1 as [|t l Hl IH Ht]; cbn; [repeat constructor|].
    destruct (Z.ltb_spec (BeforeMinutes t) (BeforeMinutes s)) as [Hlt|Hle].
    + constructor; [by constructor|]. constructor; [unfold later_stage; lia|].
      eapply Forall_impl; [exact Ht|]. unfold later_stage. intros ? ?; lia.
    + constructor; [done|]. rewrite insert_stage_perm. by constructor.
Qed.

Definition demo_program : DProgram :=
  mkProgram 7 1 1 1 1 1 "show" "detail" 0 6 6 None None 1 0 0 1 1 0 1
    (rule_texts (Some "rule")) None (Some (time_of_unix 100)) (Some (time_of_unix 200)) 0 0 0 1.
Definition demo_show (t : time) : DProgramShowTime := mkShowTime 3 7 t None "" None None None 1.
Definition demo_programdb : programdb :=
  mkProgramDB {[3 := demo_show (time_of_unix 100000)]} {[7 := demo_program]} ∅ [] no_cache.

Lemma refund_rule_spec_witness :
  exists res, evaluateRefundRule "rule" (time_of_unix 100000) (time_of_unix 300) 599 = Ok res /\
    RefundAmount res = 479.
Proof.
  destruct (evaluateRefundRule "rule" (time_of_unix 100000) (time_of_unix 300) 599) as [res|x] eqn:E;
    [|vm_compute in E; discriminate].
  exists res. split; [reflexivity|].
  assert (Hu : unmarshal_rule "rule" = Some demo_rule) by reflexivity.
  assert (Hm : 599 * 100 <= max_int64) by (vm_compute; discriminate).
  pose proof (refund_rule_spec "rule" demo_rule (time_of_unix 100000) (time_of_unix 300) 599 res Hu Hm E) as H.
  vm_compute in E. injection E as <-. reflexivity.
Defined.

Lemma evaluate_refund_bounded_witness :
  exists resp e' db', EvaluateRefundRule (mkEvalReq 3 599) (mkEnv [] [] (time_of_unix 300) [], demo_programdb)
      = (Ok resp, (e', db')) /\ er_AllowRefund resp = true /\ 0 <= er_RefundAmount resp <= 599.
Proof.
  destruct (EvaluateRefundRule (mkEvalReq 3 599) (mkEnv [] [] (time_of_unix 300) [], demo_programdb))
    as [[resp|x] [e' db']] eqn:E; [|vm_compute in E; discriminate].
  exists resp, e', db'. split; [reflexivity|].
  assert (Hm : ev_OrderAmount (mkEvalReq 3 599) * 100 <= max_int64) by (vm_compute; discriminate).
  destruct (evaluate_refund_bounded (mkEvalReq 3 599) _ _ resp e' db' Hm E) as (H & _).
  split; [|exact H]. vm_compute in E. injection E as <- _ _. reflexivity.
Defined.

