(* ===== verification/SeatAssign.v ===== *)
(** * Choosing seats  (services/program-rpc/internal/logic/seat_assignment.go)

    The seats of a category are looked through row by row for the first run of
    adjacent columns that is long enough; when no row has one, the first seats in
    order are taken.  [select] is that search over any kind of seat, with the test
    of adjacency as an argument: [assignSeats] runs it on sorted candidates, the
    freeze script of SeatStore on the members of a sorted set. *)
From Stdlib Require Import ZArith Lia Ascii String Sorted.
From stdpp Require Import base gmap sets list sorting.
From S2P Require Import Prelude GoBase Effects.
Open Scope list_scope.
Open Scope Z_scope.

(** ** The search *)

Section select.
Context {A : Type} (row : A -> Z) (next : A -> A -> bool).

(** [i] extends the run that [i - 1] belongs to. *)
Definition extends (seats : list A) (i : nat) : bool :=
  match seats !! (i - 1)%nat, seats !! i with
  | Some a, Some b => next a b
  | _, _ => false
  end.

(** The loop [for i := ...; i <= len(rowSeats); i++], [fuel] iterations left. *)
Fixpoint run_loop (fuel : nat) (seats : list A) (count runStart i : nat) : option (list A) :=
  match fuel with
  | O => None
  | S fuel =>
      if extends seats i then run_loop fuel seats count runStart (S i)
      else if (count <=? i - runStart)%nat then Some (take count (drop runStart seats))
      else run_loop fuel seats count i (S i)
  end.

(** [i] runs from 1 to [len(rowSeats)]: as many iterations as there are seats. *)
Definition firstConsecutiveSeats (seats : list A) (count : nat) : option (list A) :=
  if (length seats <? count)%nat then None else run_loop (length seats) seats count 0 1.

(** The seats that follow in the row [r], and the rest. *)
Fixpoint span_row (r : Z) (seats : list A) : list A * list A :=
  match seats with
  | [] => ([], [])
  | s :: rest => if row s =? r then let '(g, rest') := span_row r rest in (s :: g, rest')
                 else ([], seats)
  end.

(** The loop over the rows; a row takes at least one seat, so [length seats] rounds
    are enough. *)
Fixpoint row_loop (fuel : nat) (seats : list A) (count : nat) : option (list A) :=
  match fuel, seats with
  | S fuel, s :: rest =>
      let '(g, rest') := span_row (row s) rest in
      match firstConsecutiveSeats (s :: g) count with
      | Some w => Some w
      | None => row_loop fuel rest' count
      end
  | _, _ => None
  end.

Definition select (seats : list A) (count : nat) : list A :=
  match row_loop (length seats) seats count with
  | Some w => w
  | None => take count seats
  end.

(** *** What the search finds *)

(** [w] is a run: each seat is next to the one before it. *)
Definition run (w : list A) : Prop :=
  forall i a b, w !! i = Some a -> w !! S i = Some b -> next a b = true.

(** [w] is a piece of [l]. *)
Definition piece (w l : list A) : Prop := exists l1 l2, l = l1 ++ w ++ l2.

Lemma piece_take_drop l i n : piece (take n (drop i l)) l.
Proof.
  exists (take i l), (drop n (drop i l)). by rewrite take_drop, take_drop.
Qed.

Lemma run_piece w l : run l -> piece w l -> run w.
Proof.
  intros Hl (l1 & l2 & ->) i a b Ha Hb.
  apply (Hl (length l1 + i)%nat).
  - rewrite lookup_app_r by lia. replace (length l1 + i - length l1)%nat with i by lia.
    by apply lookup_app_l_Some.
  - rewrite lookup_app_r by lia. replace (S (length l1 + i) - length l1)%nat with (S i) by lia.
    by apply lookup_app_l_Some.
Qed.

Lemma extends_true seats i : (0 < i)%nat -> extends seats i = true ->
  exists a b, seats !! (i - 1)%nat = Some a /\ seats !! i = Some b /\ next a b = true.
Proof.
  intros _. unfold extends. destruct (seats !! (i - 1)%nat) as [a|]; [|done].
  destruct (seats !! i) as [b|]; [|done]. eauto.
Qed.

(** The seats from [runStart] to [i] form a run. *)
Definition run_at (seats : list A) (from upto : nat) : Prop :=
  forall i, (from < i < upto)%nat -> extends seats i = true.

Lemma run_at_take seats from n :
  (0 < n)%nat -> run_at seats from (from + n) -> run (take n (drop from seats)).
Proof.
  intros Hn Hr i a b Ha Hb.
  rewrite lookup_take_Some, lookup_drop in Ha, Hb. destruct Ha as [Ha _], Hb as [Hb Hlt].
  destruct (extends_true seats (S (from + i))) as (a' & b' & Ea & Eb & Hab); [lia|apply Hr; lia|].
  replace (S (from + i) - 1)%nat with (from + i)%nat in Ea by lia.
  replace (from + S i)%nat with (S (from + i)) in Hb by lia. congruence.
Qed.

Lemma run_loop_some fuel seats count runStart i w :
  (0 < count)%nat -> (runStart < i)%nat -> (i + fuel = S (length seats))%nat ->
  run_at seats runStart i -> run_loop fuel seats count runStart i = Some w ->
  length w = count /\ run w /\ piece w seats.
Proof.
  intros Hc. revert runStart i. induction fuel as [|fuel IH]; intros rs i Hlt Hfuel Hrun; cbn; [done|].
  destruct (extends seats i) eqn:Ee.
  - apply IH; [lia..|]. intros j Hj. destruct (decide (j = i)) as [->|]; [done|]. apply Hrun. lia.
  - destruct (Nat.leb_spec count (i - rs)) as [Hle|Hgt].
    + intros [= <-]. split_and!; [|apply run_at_take; [done|]|apply piece_take_drop].
      * rewrite length_take, length_drop. lia.
      * intros j Hj. apply Hrun. lia.
    + apply IH; [lia..|]. intros j Hj. lia.
Qed.

(** A run of [count] seats is not missed. *)
Lemma run_loop_none fuel seats count runStart i j :
  (0 < count)%nat -> (runStart < i <= length seats)%nat -> (i + fuel = S (length seats))%nat ->
  (runStart <= j)%nat -> (j + count <= length seats)%nat -> run_at seats j (j + count) ->
  run_loop fuel seats count runStart i <> None.
Proof.
  intros Hc. revert runStart i. induction fuel as [|fuel IH]; intros rs i Hlt Hfuel Hj Hend Hrun; cbn; [lia|].
  destruct (extends seats i) eqn:Ee.
  { apply IH; try lia; [|done]. destruct (extends_true seats i) as (_ & b & _ & Hb & _); [lia|done|].
    apply lookup_lt_Some in Hb. lia. }
  destruct (Nat.leb_spec count (i - rs)) as [Hle|Hgt]; [done|].
  assert (i <= j)%nat; [|by apply IH; try lia]. destruct (decide (i <= j)%nat); [done|]. exfalso.
  destruct (decide (i < j + count)%nat); [|lia]. rewrite (Hrun i) in Ee by lia. done.
Qed.

Lemma first_some seats count w :
  (0 < count)%nat -> firstConsecutiveSeats seats count = Some w ->
  length w = count /\ run w /\ piece w seats.
Proof.
  intros Hc. unfold firstConsecutiveSeats. destruct (Nat.ltb_spec (length seats) count); [done|].
  apply run_loop_some; [lia..|]. intros i. lia.
Qed.

Lemma first_none seats count w :
  (0 < count)%nat -> length w = count -> run w -> piece w seats -> firstConsecutiveSeats seats count <> None.
Proof.
  intros Hc Hw Hrun (l1 & l2 & ->). unfold firstConsecutiveSeats.
  destruct (Nat.ltb_spec (length (l1 ++ w ++ l2)) count); [rewrite !length_app in *; lia|].
  apply (run_loop_none _ _ _ _ _ (length l1)); [lia..|rewrite !length_app; lia|].
  intros i Hi. unfold extends.
  rewrite (lookup_app_r l1 _ i), (lookup_app_r l1 _ (i - 1)) by lia.
  rewrite (lookup_app_l w _ (i - length l1)), (lookup_app_l w _ (i - 1 - length l1)) by lia.
  destruct (w !! (i - 1 - length l1)%nat) as [a|] eqn:Ea; [|apply lookup_ge_None in Ea; lia].
  destruct (w !! (i - length l1)%nat) as [b|] eqn:Eb; [|apply lookup_ge_None in Eb; lia].
  apply (Hrun (i - 1 - length l1)%nat a b Ea). replace (S (i - 1 - length l1)) with (i - length l1)%nat by lia.
  done.
Qed.

(** *** Row by row *)

Definition same_row (w : list A) : Prop := forall a b, a ∈ w -> b ∈ w -> row a = row b.

Lemma span_row_app r l g rest : span_row r l = (g, rest) ->
  l = g ++ rest /\ (forall a, a ∈ g -> row a = r) /\ (forall a, head rest = Some a -> row a <> r).
Proof.
  revert g rest. induction l as [|s l IH]; intros g rest; cbn.
  - intros [= <- <-]. split_and!; [done|by intros ? ?%not_elem_of_nil|done].
  - destruct (Z.eqb_spec (row s) r) as [Hr|Hr].
    + destruct (span_row r l) as [g' rest'] eqn:E. intros [= <- <-].
      destruct (IH _ _ eq_refl) as (-> & Hg & Hhd). split_and!; [done| |done].
      intros a [->|?]%elem_of_cons; auto.
    + intros [= <- <-]. split_and!; [done|by intros ? ?%not_elem_of_nil|]. by intros a [= <-].
Qed.

Lemma piece_r w g rest : piece w rest -> piece w (g ++ rest).
Proof. intros (l1 & l2 & ->). exists (g ++ l1), l2. by rewrite app_assoc. Qed.

Lemma piece_l w g rest : piece w g -> piece w (g ++ rest).
Proof. intros (l1 & l2 & ->). exists l1, (l2 ++ rest). by rewrite <- !app_assoc. Qed.

Lemma piece_elem w l a : piece w l -> a ∈ w -> a ∈ l.
Proof. intros (l1 & l2 & ->) Ha. rewrite !elem_of_app. auto. Qed.

Lemma row_loop_some fuel l count w : (0 < count)%nat ->
  row_loop fuel l count = Some w -> length w = count /\ run w /\ same_row w /\ piece w l.
Proof.
  intros Hc. revert l. induction fuel as [|fuel IH]; intros [|s l]; cbn; try done.
  destruct (span_row (row s) l) as [g rest] eqn:E. apply span_row_app in E as (-> & Hg & _).
  destruct (firstConsecutiveSeats (s :: g) count) as [w'|] eqn:Ef.
  - intros [= ->]. apply first_some in Ef as (Hl & Hr & Hp); [|done].
    assert (Hrow : forall a, a ∈ w -> row a = row s).
    { intros a Ha. eapply piece_elem in Ha; [|exact Hp]. apply elem_of_cons in Ha as [->|?]; auto. }
    split_and!; [done|done| |by apply (piece_l w (s :: g))].
    intros a b Ha Hb. by rewrite (Hrow a), (Hrow b).
  - intros Hr. apply IH in Hr as (? & ? & ? & ?). split_and!; [done..|]. by apply (piece_r w (s :: g)).
Qed.

(** A run within a row lies in one of the groups the loop looks at. *)
Lemma piece_split w g rest r :
  w <> [] -> same_row w -> (forall a, a ∈ g -> row a = r) -> (forall a, head rest = Some a -> row a <> r) ->
  piece w (g ++ rest) -> piece w g \/ piece w rest.
Proof.
  intros Hne Hsame Hg Hrest (l1 & l2 & E). apply app_eq_app in E as (k & [[-> E]|[-> ->]]).
  - apply app_eq_app in E as (k' & [[-> ->]|[-> ->]]).
    + destruct k' as [|b k']; [left; exists l1, []; by rewrite !app_nil_r|].
      destruct k as [|a k]; [right; by exists [], l2|]. exfalso.
      apply (Hrest b eq_refl). rewrite <- (Hg a) by set_solver. apply Hsame; set_solver.
    + left. by exists l1, k'.
  - right. by exists k, l2.
Qed.

Lemma row_loop_none fuel l count w : (0 < count)%nat -> (length l <= fuel)%nat ->
  length w = count -> run w -> same_row w -> piece w l -> row_loop fuel l count <> None.
Proof.
  intros Hc Hf Hl Hrun Hsame Hp. revert l Hf Hp. induction fuel as [|fuel IH]; intros [|s l] Hf Hp; cbn in *; try lia.
  1,2: destruct Hp as (l1 & l2 & E); destruct l1; [|done]; destruct w; cbn in *; [lia|done].
  destruct (span_row (row s) l) as [g rest] eqn:E. apply span_row_app in E as (-> & Hg & Hhd).
  destruct (firstConsecutiveSeats (s :: g) count) as [w'|] eqn:Ef; [done|].
  rewrite app_comm_cons in Hp. apply (piece_split w (s :: g) rest (row s)) in Hp as [Hp|Hp]; try done.
  - exfalso. by apply (first_none (s :: g) count w).
  - apply IH; [|done]. rewrite length_app in Hf. lia.
  - intros ->. cbn in Hl. lia.
  - intros a [->|?]%elem_of_cons; auto.
Qed.

(** The search returns seats of the list, as many as asked for, and a run within
    one row whenever there is one. *)
Lemma select_spec l count : (0 < count <= length l)%nat ->
  length (select l count) = count /\ piece (select l count) l /\
  ((exists w, length w = count /\ run w /\ same_row w /\ piece w l) ->
   run (select l count) /\ same_row (select l count)).
Proof.
  intros [Hc Hlen]. unfold select. destruct (row_loop (length l) l count) as [w|] eqn:E.
  - apply row_loop_some in E as (? & ? & ? & ?); [|done]. done.
  - split_and!.
    + rewrite length_take. lia.
    + exists [], (drop count l). by rewrite take_drop.
    + intros (w & ? & ? & ? & ?). exfalso. by apply (row_loop_none (length l) l count w).
Qed.
End select.

(** ** Two descriptions of the same seats give the same choice *)

Section transfer.
Context {A B : Type} (f : A -> B).
Context (row : A -> Z) (next : A -> A -> bool) (row' : B -> Z) (next' : B -> B -> bool).

Lemma run_loop_map fuel l count rs i :
  (forall a b, a ∈ l -> b ∈ l -> next' (f a) (f b) = next a b) ->
  run_loop next' fuel (map f l) count rs i = option_map (map f) (run_loop next fuel l count rs i).
Proof.
  intros Hn. revert rs i. induction fuel as [|fuel IH]; intros rs i; [done|]. cbn [run_loop].
  assert (extends next' (map f l) i = extends next l i) as ->.
  { unfold extends. rewrite !list_lookup_fmap. destruct (l !! (i - 1)%nat) as [a|] eqn:Ea; [|done].
    destruct (l !! i) as [b|] eqn:Eb; [|done]. cbn. by apply Hn; eapply list_elem_of_lookup_2. }
  destruct (extends next l i); [apply IH|]. destruct (count <=? i - rs)%nat; [|apply IH].
  cbn. by rewrite List.skipn_map, List.firstn_map.
Qed.

Lemma first_map l count :
  (forall a b, a ∈ l -> b ∈ l -> next' (f a) (f b) = next a b) ->
  firstConsecutiveSeats next' (map f l) count = option_map (map f) (firstConsecutiveSeats next l count).
Proof.
  intros Hn. unfold firstConsecutiveSeats. rewrite length_map. destruct (_ <? _)%nat; [done|].
  by apply run_loop_map.
Qed.

Lemma span_row_map r l : (forall a, a ∈ l -> row' (f a) = row a) ->
  span_row row' r (map f l) = (map f (span_row row r l).1, map f (span_row row r l).2).
Proof.
  induction l as [|a l IH]; intros Hr; cbn; [done|]. rewrite Hr by left.
  destruct (row a =? r); [|done]. rewrite IH by (intros; apply Hr; by right).
  by destruct (span_row row r l).
Qed.

Lemma row_loop_map fuel l count :
  (forall a, a ∈ l -> row' (f a) = row a) ->
  (forall a b, a ∈ l -> b ∈ l -> row a = row b -> next' (f a) (f b) = next a b) ->
  row_loop row' next' fuel (map f l) count = option_map (map f) (row_loop row next fuel l count).
Proof.
  revert l. induction fuel as [|fuel IH]; intros [|s l] Hr Hn; cbn; try done.
  rewrite Hr by left. rewrite span_row_map by (intros; apply Hr; by right).
  destruct (span_row row (row s) l) as [g rest] eqn:E. cbn [fst snd].
  apply span_row_app in E as (-> & Hg & _).
  change (f s :: map f g) with (map f (s :: g)). rewrite first_map.
  - destruct (firstConsecutiveSeats next (s :: g) count); [done|]. cbn. apply IH.
    + intros a Ha. apply Hr. set_solver.
    + intros a b Ha Hb. apply Hn; set_solver.
  - assert (Hrow : forall a, a ∈ s :: g -> row a = row s).
    { intros a [->|Ha]%elem_of_cons; [done|auto]. }
    intros a b Ha Hb. apply Hn; [set_solver..|]. by rewrite (Hrow a), (Hrow b).
Qed.

Lemma select_map l count :
  (forall a, a ∈ l -> row' (f a) = row a) ->
  (forall a b, a ∈ l -> b ∈ l -> row a = row b -> next' (f a) (f b) = next a b) ->
  select row' next' (map f l) count = map f (select row next l count).
Proof.
  intros Hr Hn. unfold select. rewrite length_map, row_loop_map by done.
  destruct (row_loop row next (length l) l count); [done|]. cbn. apply List.firstn_map.
Qed.
End transfer.

(** ** Seats in order *)

Section ordered.
Context {A : Type} (row col : A -> Z).

Definition before (a b : A) : Prop := row a < row b \/ (row a = row b /\ col a < col b).

(** [w] holds the seats [c], [c + 1], ... of the row [r]. *)
Definition adjacent (r c : Z) (w : list A) : Prop :=
  forall i a, w !! i = Some a -> row a = r /\ col a = c + Z.of_nat i.

Lemma sorted_split (l1 l2 : list A) a b :
  StronglySorted before (l1 ++ l2) -> a ∈ l1 -> b ∈ l2 -> before a b.
Proof. intros Hs Ha Hb. eapply StronglySorted_app_1_elem_of; eauto. Qed.

Lemma sorted_tail (l1 l2 : list A) : StronglySorted before (l1 ++ l2) -> StronglySorted before l2.
Proof. apply StronglySorted_app_1_r. Qed.

Lemma adjacent_snoc r c w a n :
  length w = n -> adjacent r c w -> row a = r -> col a = c + Z.of_nat n -> adjacent r c (w ++ [a]).
Proof.
  intros <- Hw Hr Hc i b. rewrite lookup_app_Some, list_lookup_singleton_Some.
  intros [?|(? & ? & <-)]; [auto|]. split; [done|]. lia.
Qed.

(** Adjacent seats of a row are neighbours in the order. *)
Lemma adjacent_piece (l : list A) r c n :
  StronglySorted before l -> (0 < n)%nat ->
  (forall k, (k < n)%nat -> exists s, s ∈ l /\ row s = r /\ col s = c + Z.of_nat k) ->
  exists w, piece w l /\ length w = n /\ adjacent r c w.
Proof.
  intros Hs. induction n as [|[|n] IH]; intros Hn Hall; [lia| |].
  - destruct (Hall 0%nat) as (s & Hin & Hr & Hc); [lia|]. exists [s].
    apply list_elem_of_split in Hin as (l1 & l2 & ->). split_and!; [by exists l1, l2|done|].
    intros i a (-> & <-)%list_lookup_singleton_Some. done.
  - destruct IH as (w & (l1 & l2 & E) & Hlen & Hw); [lia|intros k ?; apply Hall; lia|].
    destruct (Hall (S n)) as (t & Hin & Hr & Hc); [lia|].
    assert (Hlast : exists z, z ∈ w /\ row z = r /\ col z = c + Z.of_nat n).
    { destruct (lookup_lt_is_Some_2 w n) as [z Hz]; [lia|]. exists z.
      split; [by eapply list_elem_of_lookup_2|by apply Hw]. }
    destruct Hlast as (z & Hz & Hzr & Hzc). subst l. rewrite !elem_of_app in Hin.
    destruct Hin as [Hin|[Hin|Hin]].
    + assert (Hb : before t z) by (apply (sorted_split l1 (w ++ l2) t z Hs Hin); set_solver).
      destruct Hb as [?|[? ?]]; lia.
    + apply list_elem_of_lookup in Hin as (i & Hi). pose proof (lookup_lt_Some _ _ _ Hi).
      destruct (Hw i t Hi). lia.
    + destruct l2 as [|u l2]; [by apply not_elem_of_nil in Hin|].
      assert (Hu : row u = r /\ col u = c + Z.of_nat (S n)).
      { rewrite app_assoc in Hs. assert (Hzu : before z u).
        { apply (sorted_split (l1 ++ w) (u :: l2) z u Hs); set_solver. }
        apply elem_of_cons in Hin as [->|Hin]; [done|].
        apply sorted_tail in Hs. apply StronglySorted_inv in Hs as [_ Hs].
        rewrite Forall_forall in Hs. specialize (Hs t Hin).
        destruct Hzu as [?|[? ?]], Hs as [?|[? ?]]; split; lia. }
      exists (w ++ [u]). split_and!.
      * exists l1, l2. by rewrite <- app_assoc.
      * rewrite length_app. cbn. lia.
      * destruct Hu. by apply (adjacent_snoc _ _ _ _ (S n)).
Qed.

Lemma same_row_run next (w l : list A) :
  (forall a b, a ∈ l -> b ∈ l -> next a b = true -> col b = col a + 1) ->
  (forall a, a ∈ w -> a ∈ l) -> run next w -> same_row row w -> w <> [] -> exists r c, adjacent r c w.
Proof.
  intros Hnext Hin Hrun Hsame Hne. destruct w as [|s w]; [done|]. exists (row s), (col s).
  intros i. induction i as [|i IH]; intros a Ha.
  - cbn in Ha. injection Ha as <-. split; [done|lia].
  - destruct (lookup_lt_is_Some_2 (s :: w) i) as [b Hb]; [apply lookup_lt_Some in Ha; lia|].
    destruct (IH b Hb) as [Hr Hc]. split.
    + apply Hsame; [by eapply list_elem_of_lookup_2|by left].
    + rewrite (Hnext b a); [lia|..]; [by eapply Hin, list_elem_of_lookup_2..|by eapply Hrun].
Qed.

Lemma adjacent_run next (w : list A) :
  (forall a b, a ∈ w -> b ∈ w -> row a = row b -> col b = col a + 1 -> next a b = true) ->
  forall r c, adjacent r c w -> run next w /\ same_row row w.
Proof.
  intros Hnext r c Hw. split.
  - intros i a b Ha Hb. destruct (Hw i a Ha), (Hw (S i) b Hb).
    apply Hnext; [by eapply list_elem_of_lookup_2..|congruence|lia].
  - intros a b (i & Hi)%list_elem_of_lookup (j & Hj)%list_elem_of_lookup.
    destruct (Hw i a Hi), (Hw j b Hj). congruence.
Qed.

(** Two ways of ordering the same seats by position agree. *)
Lemma sorted_unique (l l' : list A) :
  StronglySorted before l -> StronglySorted before l' -> l ≡ₚ l' -> l = l'.
Proof.
  intros H1 H2. apply (StronglySorted_unique_strong before); [|done|done].
  intros a b _ _ [?|[? ?]] [?|[? ?]]; lia.
Qed.
End ordered.

(** ** The assignment *)

Record seatCandidate := mkCandidate {
  sc_ID : Z; sc_TicketCategoryID : Z; sc_RowCode : Z; sc_ColCode : Z; sc_Price : Z }.

(** The order of [sort.Slice]; seats it does not separate have the same ID. *)
Definition seat_less (a b : seatCandidate) : bool :=
  if negb (sc_RowCode a =? sc_RowCode b) then sc_RowCode a <? sc_RowCode b
  else if negb (sc_ColCode a =? sc_ColCode b) then sc_ColCode a <? sc_ColCode b
  else sc_ID a <? sc_ID b.

Definition seat_le (a b : seatCandidate) : Prop := seat_less b a = false.
#[global] Instance seat_le_dec a b : Decision (seat_le a b) := decide (seat_less b a = false).

Definition go_next (a b : seatCandidate) : bool := sc_ColCode b =? wrap64 (sc_ColCode a + 1).

Definition assignSeats (candidates : list seatCandidate) (count : Z) : result err (list seatCandidate) :=
  if count <=? 0 then Err (EX ErrInvalidParam)
  else if Z.of_nat (length candidates) <? count then Err (EX ErrSeatInventoryInsufficient)
  else Ok (select sc_RowCode go_next (merge_sort seat_le candidates) (Z.to_nat count)).

Lemma seat_le_spec a b : seat_le a b <->
  (sc_RowCode a < sc_RowCode b \/ sc_RowCode a = sc_RowCode b /\
   (sc_ColCode a < sc_ColCode b \/ sc_ColCode a = sc_ColCode b /\ sc_ID a <= sc_ID b)).
Proof.
  unfold seat_le, seat_less. destruct (Z.eqb_spec (sc_RowCode b) (sc_RowCode a)); cbn.
  - destruct (Z.eqb_spec (sc_ColCode b) (sc_ColCode a)); cbn; rewrite Z.ltb_ge; lia.
  - rewrite Z.ltb_ge. lia.
Qed.

#[global] Instance seat_le_total : Total seat_le.
Proof. intros a b. rewrite !seat_le_spec. lia. Qed.
#[global] Instance seat_le_trans : Transitive seat_le.
Proof. intros a b c. rewrite !seat_le_spec. lia. Qed.

Definition position (s : seatCandidate) : Z * Z := (sc_RowCode s, sc_ColCode s).

(** Without two seats at one place, the order is strict. *)
Lemma candidates_sorted l : NoDup (map position l) ->
  StronglySorted (before sc_RowCode sc_ColCode) (merge_sort seat_le l).
Proof.
  intros Hnd. assert (Hnd' : NoDup (map position (merge_sort seat_le l))).
  { pose proof (Permutation_map position (merge_sort_Permutation seat_le l)) as Hp. by rewrite Hp. }
  pose proof (StronglySorted_merge_sort seat_le l) as Hs. revert Hnd'.
  induction Hs as [|s l' Hl' IH Hall]; cbn; intros Hnd'; [constructor|].
  apply NoDup_cons in Hnd' as [Hnew Hnd']. constructor; [by apply IH|].
  rewrite Forall_forall in Hall |- *. intros t Ht. specialize (Hall t Ht).
  rewrite seat_le_spec in Hall. unfold before. destruct Hall as [?|[? [?|[E ?]]]]; [lia|lia|].
  exfalso. apply Hnew, list_elem_of_fmap. exists t. split; [|done]. unfold position. congruence.
Qed.

Lemma piece_submseteq {A} (w l : list A) : piece w l -> w ⊆+ l.
Proof.
  intros (l1 & l2 & ->). etrans; [apply (submseteq_inserts_r l2); reflexivity|].
  apply submseteq_inserts_l. reflexivity.
Qed.

(** C37: [assignSeats] answers with exactly [count] of the candidates, none twice; and
    whenever some row has [count] free seats side by side, the seats it picks are
    side by side in one row.  It fails only when there are too few candidates or
    nothing was asked for. *)
Theorem assign_seats_spec candidates count :
  (is_ok (assignSeats candidates count) = true <-> 0 < count <= Z.of_nat (length candidates)) /\
  forall seats, assignSeats candidates count = Ok seats ->
    Z.of_nat (length seats) = count /\ seats ⊆+ candidates /\
    (NoDup (map position candidates) ->
     (forall s, s ∈ candidates -> in_int64 (sc_ColCode s + 1) = true) ->
     (exists r c, forall k, 0 <= k < count ->
        exists s, s ∈ candidates /\ sc_RowCode s = r /\ sc_ColCode s = c + k) ->
     exists r c, adjacent sc_RowCode sc_ColCode r c seats).
Proof.
  unfold assignSeats. destruct (Z.leb_spec count 0); [split; [cbn; split; [done|lia]|done]|].
  destruct (Z.ltb_spec (Z.of_nat (length candidates)) count); [split; [cbn; split; [done|lia]|done]|].
  split; [cbn; split; [lia|done]|]. intros seats [= <-].
  pose proof (merge_sort_Permutation seat_le candidates) as Hperm.
  set (l := merge_sort seat_le candidates) in *.
  destruct (select_spec sc_RowCode go_next l (Z.to_nat count)) as (Hlen & Hp & Hrun).
  { apply Permutation_length in Hperm. lia. }
  split_and!; [lia|rewrite <- Hperm; by apply piece_submseteq|].
  intros Hnd Hrange (r & c & Hall).
  assert (Hmem : forall a, a ∈ l -> in_int64 (sc_ColCode a + 1) = true).
  { intros a Ha. apply Hrange. by rewrite <- Hperm. }
  destruct (adjacent_piece sc_RowCode sc_ColCode l r c (Z.to_nat count)) as (w & Hwp & Hwl & Hw).
  { by apply candidates_sorted. }
  { lia. }
  { intros k Hk. destruct (Hall (Z.of_nat k)) as (s & Hs & ? & ?); [lia|]. exists s. by rewrite Hperm. }
  destruct (adjacent_run sc_RowCode sc_ColCode go_next w) with (r := r) (c := c) as [Hwr Hws]; [|done|].
  { intros a b Ha _ _ Hc. unfold go_next. apply Z.eqb_eq. rewrite wrap64_id; [done|].
    apply Hmem. by eapply piece_elem. }
  destruct Hrun as [Hr Hs]; [by exists w|].
  eapply (same_row_run _ _ go_next _ l); [|by intros a; apply piece_elem|done|done|].
  - intros a b Ha _. unfold go_next. intros E. apply Z.eqb_eq in E. rewrite wrap64_id in E; auto.
  - intros E. rewrite E in Hlen. cbn in Hlen. lia.
Qed.

Definition demo_candidates : list seatCandidate :=
  [mkCandidate 5 1 2 7 10; mkCandidate 1 1 1 1 10; mkCandidate 2 1 1 3 10; mkCandidate 4 1 2 6 10].

Lemma assign_seats_spec_witness :
  (is_ok (assignSeats demo_candidates 2) = true <-> 0 < 2 <= 4) /\
  assignSeats demo_candidates 2 = Ok [mkCandidate 4 1 2 6 10; mkCandidate 5 1 2 7 10].
Proof. split; [apply (assign_seats_spec demo_candidates 2)|reflexivity]. Defined.
