(* ===== verification/RedisZ.v ===== *)
(** * Strings and sorted sets of the Redis server

    The second part of the Redis interface, used by the seat ledger: [RedisZ]
    lists the commands on strings and sorted sets, [RedisZLaws] what Redis
    documents about them, on the observations GET, the scored members of a
    sorted set, and TTL.  Scores are integers here: the scripts compute them from
    row and column codes.  [MemZ] is a concrete store that satisfies the laws. *)
From Stdlib Require Import ZArith Lia Ascii String Sorted.
From stdpp Require Import base gmap sets list strings sorting.
From S2P Require Import Prelude GoBase Effects.
Open Scope string_scope.
Open Scope list_scope.
Open Scope Z_scope.

Class RedisZ (R : Type) := {
  sget : R -> string -> option string;            (* GET *)
  zset : R -> string -> gmap string Z;            (* the members and scores of a sorted set *)
  kttl : R -> string -> Z;                        (* TTL: -2 missing, -1 none *)
  sput : R -> string -> string -> R;              (* SET key value KEEPTTL *)
  zadd : R -> string -> Z -> string -> R;         (* ZADD key score member *)
  zrem : R -> string -> string -> R;              (* ZREM key member *)
  kdel : R -> string -> R;                        (* DEL key *)
  kexpire : R -> string -> Z -> R;                (* EXPIRE key seconds *)
  kelapse : R -> Z -> R;                          (* seconds pass on the server *)
  kkeys : R -> string -> list string              (* KEYS prefix* *)
}.

(** EXISTS. *)
Definition kexists `{RedisZ R} (r : R) (k : string) : bool :=
  bool_decide (is_Some (sget r k)) || negb (bool_decide (zset r k = ∅)).

(** SET, SETEX: the value of a string key, with no deadline or a new one. *)
Definition sset `{RedisZ R} (r : R) (k v : string) : R := sput (kdel r k) k v.
Definition setex `{RedisZ R} (r : R) (k v : string) (s : Z) : R := kexpire (sset r k v) k s.

(** INCRBY: a missing key counts as 0; the deadline stays. *)
Definition incrby `{RedisZ R} (r : R) (k : string) (d : Z) : result err Z * R :=
  if negb (bool_decide (zset r k = ∅)) then (Err (EOther "WRONGTYPE"), r)
  else match (match sget r k with None => Some 0 | Some raw => parse_int64 raw end) with
  | Some n => if in_int64 (n + d) then (Ok (n + d), sput r k (format_int (n + d)))
              else (Err (EOther "increment or decrement would overflow"), r)
  | None => (Err (EOther "value is not an integer"), r)
  end.

Class RedisZLaws (R : Type) `{RedisZ R} := {
  sget_sput : forall r k v k', zset r k = ∅ ->
    sget (sput r k v) k' = if decide (k = k') then Some v else sget r k';
  zset_sput : forall r k v k', zset r k = ∅ -> zset (sput r k v) k' = zset r k';
  zset_zadd : forall r k s m k', sget r k = None ->
    zset (zadd r k s m) k' = if decide (k = k') then <[m := s]> (zset r k') else zset r k';
  sget_zadd : forall r k s m k', sget r k = None -> sget (zadd r k s m) k' = sget r k';
  zset_zrem : forall r k m k',
    zset (zrem r k m) k' = if decide (k = k') then delete m (zset r k') else zset r k';
  sget_zrem : forall r k m k', sget (zrem r k m) k' = sget r k';
  sget_del : forall r k k', sget (kdel r k) k' = if decide (k = k') then None else sget r k';
  zset_del : forall r k k', zset (kdel r k) k' = if decide (k = k') then ∅ else zset r k';
  sget_expire : forall r k s k', 0 < s -> sget (kexpire r k s) k' = sget r k';
  zset_expire : forall r k s k', 0 < s -> zset (kexpire r k s) k' = zset r k';
  sget_elapse : forall r d k, 0 <= d ->
    sget (kelapse r d) k = if decide (0 <= kttl r k <= d) then None else sget r k;
  zset_elapse : forall r d k, 0 <= d ->
    zset (kelapse r d) k = if decide (0 <= kttl r k <= d) then ∅ else zset r k;
  kkeys_spec : forall r p k, k ∈ kkeys r p <-> kexists r k = true /\ String.prefix p k = true
}.

(** ** ZRANGE *)

(** Members come by score, then by their bytes. *)
Definition zle (a b : string * Z) : Prop := a.2 < b.2 \/ (a.2 = b.2 /\ String.le a.1 b.1).

#[global] Instance zle_dec a b : Decision (zle a b).
Proof. unfold zle. apply _. Defined.
#[global] Instance zle_total : Total zle.
Proof.
  intros [a x] [b y]. unfold zle. cbn.
  destruct (total String.le a b); destruct (Z.lt_trichotomy x y) as [?|[?|?]]; auto.
Qed.
#[global] Instance zle_trans : Transitive zle.
Proof.
  intros [a x] [b y] [c z]. unfold zle. cbn.
  intros [?|[-> ?]] [?|[-> ?]]; [left; lia|by left|by left|right; split; [done|by etrans]].
Qed.

(** ZRANGE key 0 -1. *)
Definition zmembers (z : gmap string Z) : list string := map fst (merge_sort zle (map_to_list z)).
Definition zrange `{RedisZ R} (r : R) (k : string) : list string := zmembers (zset r k).

Lemma zmembers_perm z : zmembers z ≡ₚ map fst (map_to_list z).
Proof. unfold zmembers. by rewrite merge_sort_Permutation. Qed.

Lemma elem_of_zmembers z m : m ∈ zmembers z <-> is_Some (z !! m).
Proof.
  rewrite zmembers_perm. rewrite list_elem_of_fmap. split.
  - intros ([k s] & -> & Hin). apply elem_of_map_to_list in Hin. by exists s.
  - intros [s Hs]. exists (m, s). split; [done|]. by apply elem_of_map_to_list.
Qed.

Lemma NoDup_zmembers z : NoDup (zmembers z).
Proof. rewrite zmembers_perm. apply NoDup_fst_map_to_list. Qed.

Lemma length_zmembers z : length (zmembers z) = size z.
Proof. rewrite zmembers_perm, length_map. apply length_map_to_list. Qed.

Lemma zmembers_nil z : zmembers z = [] <-> z = ∅.
Proof. rewrite <- map_size_empty_iff, <- length_zmembers. split; [by intros ->|apply nil_length_inv]. Qed.

(** Adding and removing the members of a list. *)
Definition zadd_all (score : string -> Z) (ms : list string) (z : gmap string Z) : gmap string Z :=
  foldl (fun z m => <[m := score m]> z) z ms.
Definition zrem_all (ms : list string) (z : gmap string Z) : gmap string Z :=
  foldl (fun z m => delete m z) z ms.

Lemma lookup_zadd_all score ms z m :
  zadd_all score ms z !! m = if decide (m ∈ ms) then Some (score m) else z !! m.
Proof.
  unfold zadd_all. revert z. induction ms as [|a ms IH]; intros z; cbn; [done|].
  rewrite IH. destruct (decide (m ∈ ms)) as [Hin|Hin].
  - rewrite decide_True; [done|by right].
  - destruct (decide (m = a)) as [->|Hne].
    + rewrite decide_True by left. apply lookup_insert_eq.
    + rewrite decide_False by (intros [?|?]%elem_of_cons; done). by apply lookup_insert_ne.
Qed.

Lemma lookup_zrem_all ms z m :
  zrem_all ms z !! m = if decide (m ∈ ms) then None else z !! m.
Proof.
  unfold zrem_all. revert z. induction ms as [|a ms IH]; intros z; cbn; [done|].
  rewrite IH. destruct (decide (m ∈ ms)) as [Hin|Hin].
  - rewrite decide_True; [done|by right].
  - destruct (decide (m = a)) as [->|Hne].
    + rewrite decide_True by left. apply lookup_delete_eq.
    + rewrite decide_False by (intros [?|?]%elem_of_cons; done). by apply lookup_delete_ne.
Qed.

Section derived.
Context {R : Type} `{RedisZLaws R}.

Definition kexpire_if (r : R) (k : string) (s : Z) : R := if 0 <? s then kexpire r k s else r.

Lemma sget_expire_if r k s k' : sget (kexpire_if r k s) k' = sget r k'.
Proof. unfold kexpire_if. destruct (Z.ltb_spec 0 s); [by apply sget_expire|done]. Qed.
Lemma zset_expire_if r k s k' : zset (kexpire_if r k s) k' = zset r k'.
Proof. unfold kexpire_if. destruct (Z.ltb_spec 0 s); [by apply zset_expire|done]. Qed.

Lemma sget_sset r k v k' : sget (sset r k v) k' = if decide (k = k') then Some v else sget r k'.
Proof.
  unfold sset. rewrite sget_sput; [|by rewrite zset_del, decide_True].
  destruct (decide (k = k')); [done|]. by rewrite sget_del, decide_False.
Qed.
Lemma zset_sset r k v k' : zset (sset r k v) k' = if decide (k = k') then ∅ else zset r k'.
Proof. unfold sset. rewrite zset_sput; [|by rewrite zset_del, decide_True]. by rewrite zset_del. Qed.

(** ZADD of members to one key, and ZREM of members from one key. *)
Definition zadds (r : R) (k : string) (score : string -> Z) (ms : list string) : R :=
  foldl (fun r m => zadd r k (score m) m) r ms.
Definition zrems (r : R) (k : string) (ms : list string) : R := foldl (fun r m => zrem r k m) r ms.

Lemma sget_zadds r k score ms k' : sget r k = None -> sget (zadds r k score ms) k' = sget r k'.
Proof.
  unfold zadds. revert r. induction ms as [|m ms IH]; intros r Hk; cbn; [done|].
  rewrite IH; by rewrite sget_zadd.
Qed.
Lemma zset_zadds r k score ms k' : sget r k = None ->
  zset (zadds r k score ms) k' = if decide (k = k') then zadd_all score ms (zset r k') else zset r k'.
Proof.
  unfold zadds, zadd_all. revert r. induction ms as [|m ms IH]; intros r Hk; cbn; [by destruct (decide _)|].
  rewrite IH by (by rewrite sget_zadd). rewrite zset_zadd by done. by destruct (decide _).
Qed.
End derived.

(** ** A store in memory *)

Module MemZ.

Inductive cell := CStr (v : string) | CSet (z : gmap string Z).

(** A value and its deadline, in seconds of the server's clock. *)
Record mem := mkMem { cells : gmap string (cell * option Z); clock : Z }.

Definition mem_empty : mem := mkMem ∅ 0.

Definition empty_cell (c : cell) : bool := match c with CStr _ => false | CSet z => bool_decide (z = ∅) end.
Definition passed (now : Z) (dl : option Z) : bool := match dl with Some t => t <=? now | None => false end.

Definition live (m : mem) (k : string) : option (cell * option Z) :=
  match cells m !! k with
  | Some (c, dl) => if empty_cell c || passed (clock m) dl then None else Some (c, dl)
  | None => None
  end.

Definition mem_get (m : mem) (k : string) : option string :=
  match live m k with Some (CStr v, _) => Some v | _ => None end.
Definition mem_zset (m : mem) (k : string) : gmap string Z :=
  match live m k with Some (CSet z, _) => z | _ => ∅ end.
Definition mem_deadline (m : mem) (k : string) : option Z :=
  match live m k with Some (_, dl) => dl | None => None end.
Definition mem_ttl (m : mem) (k : string) : Z :=
  match live m k with Some (_, Some t) => t - clock m | Some (_, None) => -1 | None => -2 end.
Definition mem_put (m : mem) (k : string) (c : cell) (dl : option Z) : mem :=
  mkMem (<[k := (c, dl)]> (cells m)) (clock m).
Definition mem_sput (m : mem) (k v : string) : mem := mem_put m k (CStr v) (mem_deadline m k).
Definition mem_zadd (m : mem) (k : string) (s : Z) (x : string) : mem :=
  mem_put m k (CSet (<[x := s]> (mem_zset m k))) (mem_deadline m k).
Definition mem_zrem (m : mem) (k x : string) : mem :=
  match live m k with
  | Some (CSet z, dl) => mem_put m k (CSet (delete x z)) dl
  | _ => m
  end.
Definition mem_del (m : mem) (k : string) : mem := mem_put m k (CSet ∅) None.
Definition mem_expire (m : mem) (k : string) (s : Z) : mem :=
  match live m k with Some (c, _) => mem_put m k c (Some (clock m + s)) | None => m end.
Definition mem_elapse (m : mem) (d : Z) : mem := mkMem (cells m) (clock m + d).
Definition mem_keys (m : mem) (p : string) : list string :=
  filter (fun k => is_Some (live m k) /\ String.prefix p k = true) (map fst (map_to_list (cells m))).

#[export] Instance mem_redis : RedisZ mem := {
  sget := mem_get; zset := mem_zset; kttl := mem_ttl; sput := mem_sput; zadd := mem_zadd;
  zrem := mem_zrem; kdel := mem_del; kexpire := mem_expire; kelapse := mem_elapse; kkeys := mem_keys }.

Lemma zlive_put m k c dl k' :
  live (mem_put m k c dl) k' =
  if decide (k = k') then (if empty_cell c || passed (clock m) dl then None else Some (c, dl)) else live m k'.
Proof.
  unfold live, mem_put. cbn. destruct (decide (k = k')) as [->|].
  - by rewrite lookup_insert_eq.
  - by rewrite lookup_insert_ne.
Qed.

Lemma live_ok m k c dl : live m k = Some (c, dl) -> empty_cell c = false /\ passed (clock m) dl = false.
Proof.
  unfold live. destruct (cells m !! k) as [[c' dl']|]; [|done].
  destruct (empty_cell c' || passed (clock m) dl') eqn:E; [done|]. intros [= <- <-]. by bool_norm.
Qed.

Lemma zdeadline_ok m k : passed (clock m) (mem_deadline m k) = false.
Proof. unfold mem_deadline. destruct (live m k) as [[c dl]|] eqn:E; [|done]. by apply live_ok in E as [_ ?]. Qed.

Lemma get_put m k c dl k' : passed (clock m) dl = false ->
  mem_get (mem_put m k c dl) k' =
  if decide (k = k') then (match c with CStr v => Some v | CSet _ => None end) else mem_get m k'.
Proof.
  intros Hp. unfold mem_get. rewrite zlive_put, Hp, orb_false_r. destruct (decide (k = k')); [|done].
  destruct c as [v|z]; cbn; [done|]. by destruct (bool_decide _).
Qed.

Lemma zset_put m k c dl k' : passed (clock m) dl = false ->
  mem_zset (mem_put m k c dl) k' =
  if decide (k = k') then (match c with CStr _ => ∅ | CSet z => z end) else mem_zset m k'.
Proof.
  intros Hp. unfold mem_zset. rewrite zlive_put, Hp, orb_false_r. destruct (decide (k = k')); [|done].
  destruct c as [v|z]; cbn; [done|]. destruct (bool_decide (z = ∅)) eqn:E; [|done].
  by apply bool_decide_eq_true in E as ->.
Qed.

Lemma zlive_elapse m d k : 0 <= d ->
  live (mem_elapse m d) k = if decide (0 <= mem_ttl m k <= d) then None else live m k.
Proof.
  intros Hd. destruct (live m k) as [[c dl]|] eqn:E.
  - pose proof (live_ok _ _ _ _ E) as [_ Hp]. unfold mem_ttl. rewrite E. unfold live, mem_elapse in *. cbn.
    destruct (cells m !! k) as [[c' dl']|]; [|done]. destruct (empty_cell c'); [done|]. cbn [orb] in *.
    destruct (passed (clock m) dl'); [done|]. injection E as <- <-. destruct dl' as [t|]; cbn in *.
    + destruct (Z.leb_spec t (clock m + d)); destruct (Z.leb_spec t (clock m)); destruct (decide _); done || lia.
    + destruct (decide _); done || lia.
  - unfold mem_ttl. rewrite E. rewrite decide_False by lia. unfold live, mem_elapse in *. cbn.
    destruct (cells m !! k) as [[c' dl']|]; [|done]. destruct (empty_cell c'); [done|]. cbn [orb] in *.
    destruct dl' as [t|]; cbn in *; [|done]. destruct (Z.leb_spec t (clock m)); [|done].
    by destruct (Z.leb_spec t (clock m + d)); [|lia].
Qed.

Lemma kexists_live m k : kexists m k = true <-> is_Some (live m k).
Proof.
  unfold kexists, sget, zset, mem_redis, mem_get, mem_zset. destruct (live m k) as [[[v|z] dl]|] eqn:E.
  - rewrite bool_decide_eq_true_2 by done. done.
  - apply live_ok in E as [E _]. cbn in E |- *. rewrite E. done.
  - rewrite bool_decide_eq_false_2, bool_decide_eq_true_2 by (done || by intros []). by split; [|intros []].
Qed.

#[export] Instance mem_redis_laws : RedisZLaws mem.
Proof.
  split.
  - intros. cbn. unfold mem_sput. by rewrite get_put by apply zdeadline_ok.
  - intros r k v k' Hz. cbn in *. unfold mem_sput. rewrite zset_put by apply zdeadline_ok.
    by destruct (decide (k = k')) as [->|].
  - intros. cbn. unfold mem_zadd. rewrite zset_put by apply zdeadline_ok. by destruct (decide (k = k')) as [->|].
  - intros r k s m k' Hg. cbn in *. unfold mem_zadd. rewrite get_put by apply zdeadline_ok.
    by destruct (decide (k = k')) as [->|].
  - intros r k m k'. cbn. unfold mem_zrem. destruct (live r k) as [[[v|z] dl]|] eqn:E.
    + destruct (decide (k = k')) as [->|]; [|done]. unfold mem_zset. rewrite E. by rewrite delete_empty.
    + pose proof (live_ok _ _ _ _ E) as [_ ?]. rewrite zset_put by done.
      destruct (decide (k = k')) as [->|]; [|done]. unfold mem_zset. by rewrite E.
    + destruct (decide (k = k')) as [->|]; [|done]. unfold mem_zset. rewrite E. by rewrite delete_empty.
  - intros r k m k'. cbn. unfold mem_zrem. destruct (live r k) as [[[v|z] dl]|] eqn:E; [done| |done].
    pose proof (live_ok _ _ _ _ E) as [_ ?]. rewrite get_put by done.
    destruct (decide (k = k')) as [->|]; [|done]. unfold mem_get. by rewrite E.
  - intros. cbn. unfold mem_del. by rewrite get_put.
  - intros. cbn. unfold mem_del. by rewrite zset_put.
  - intros r k s k' Hs. cbn. unfold mem_expire. destruct (live r k) as [[c dl]|] eqn:E; [|done].
    rewrite get_put by (cbn; apply Z.leb_gt; lia). destruct (decide (k = k')) as [->|]; [|done].
    unfold mem_get. rewrite E. by destruct c.
  - intros r k s k' Hs. cbn. unfold mem_expire. destruct (live r k) as [[c dl]|] eqn:E; [|done].
    rewrite zset_put by (cbn; apply Z.leb_gt; lia). destruct (decide (k = k')) as [->|]; [|done].
    unfold mem_zset. rewrite E. by destruct c.
  - intros. cbn. unfold mem_get. rewrite zlive_elapse by done. by destruct (decide _).
  - intros. cbn. unfold mem_zset. rewrite zlive_elapse by done. by destruct (decide _).
  - intros r p k. rewrite kexists_live. cbn. unfold mem_keys. rewrite list_elem_of_filter.
    split; [by intros [? _]|]. intros [Hl Hp]. split; [done|].
    unfold live in Hl. destruct (cells r !! k) as [x|] eqn:E; [|by destruct Hl].
    apply list_elem_of_fmap. exists (k, x). split; [done|]. by apply elem_of_map_to_list.
Qed.

End MemZ.
