(* ===== verification/SeatDB.v ===== *)
(** * The seat table  (services/program-rpc/internal/model/d_seat_model.go)

    Rows of d_seat with the statements of the model the seat ledger and the
    freeze handlers use.  A statement sees the rows in the order of its ORDER BY;
    [freeze_token] is a varchar(64), so a longer token is refused by the server
    (MySQL 8 in its default strict mode); a datetime is rounded to the second. *)
From Stdlib Require Import ZArith Lia Ascii String Sorted.
From stdpp Require Import base gmap sets list strings sorting.
From S2P Require Import Prelude GoBase Effects Sql PayService.
Open Scope string_scope.
Open Scope list_scope.
Open Scope Z_scope.

Record DSeat := mkSeatRow {
  Id : Z; ProgramId : Z; ShowTimeId : Z; TicketCategoryId : Z; RowCode : Z; ColCode : Z;
  SeatType : Z; Price : Z; SeatStatus : Z; FreezeToken : option string;
  FreezeExpireTime : option Z; CreateTime : Z; EditTime : Z; Status : Z }.

#[global] Instance DSeat_eq_dec : EqDecision DSeat.
Proof. solve_decision. Defined.

Notation seatdb := (list DSeat) (only parsing).

(** Changes the columns every statement of the model sets. *)
Definition set_seat (status : Z) (token : option string) (expire : option Z) (edit : Z) (s : DSeat) : DSeat :=
  mkSeatRow (Id s) (ProgramId s) (ShowTimeId s) (TicketCategoryId s) (RowCode s) (ColCode s)
    (SeatType s) (Price s) status token expire (CreateTime s) edit (Status s).

Definition update_where (p : DSeat -> bool) (f : DSeat -> DSeat) (db : seatdb) : seatdb :=
  map (fun s => if p s then f s else s) db.

(** [order by row_code, col_code, id]. *)
Definition seat_order (a b : DSeat) : Prop :=
  RowCode a < RowCode b \/ (RowCode a = RowCode b /\
    (ColCode a < ColCode b \/ (ColCode a = ColCode b /\ Id a <= Id b))).
Definition id_order (a b : DSeat) : Prop := Id a <= Id b.

#[global] Instance seat_order_dec a b : Decision (seat_order a b).
Proof. unfold seat_order. apply _. Defined.
#[global] Instance id_order_dec a b : Decision (id_order a b).
Proof. unfold id_order. apply _. Defined.

Definition in_ids (ids : list Z) (s : DSeat) : bool := bool_decide (Id s ∈ ids).
Definition has_token (token : string) (s : DSeat) : bool := bool_decide (FreezeToken s = Some token).

(** ** Reads *)

Definition select_seats (p : DSeat -> bool) (order : DSeat -> DSeat -> Prop)
  `{forall a b, Decision (order a b)} : M seatdb (list DSeat) := fun db =>
  (Ok (merge_sort order (filter (fun s => (Status s =? 1) && p s = true) db)), db).

Definition FindByShowTimeAndTicketCategoryAndSeatStatus (showTimeId ticketCategoryId seatStatus : Z)
  : M seatdb (list DSeat) :=
  select_seats (fun s => (ShowTimeId s =? showTimeId) && (TicketCategoryId s =? ticketCategoryId)
                         && (SeatStatus s =? seatStatus)) seat_order.

Definition FindByFreezeToken (freezeToken : string) : M seatdb (list DSeat) :=
  select_seats (has_token freezeToken) seat_order.

Definition FindByShowTimeAndIDsForUpdate (showTimeId : Z) (seatIDs : list Z) : M seatdb (list DSeat) :=
  match seatIDs with
  | [] => mret []
  | _ => select_seats (fun s => (ShowTimeId s =? showTimeId) && in_ids seatIDs s) id_order
  end.

(** ** Updates *)

Definition token_width : nat := 64.

(** A string for a varchar(64) column. *)
Definition fits_token (token : string) : bool := (String.length token <=? token_width)%nat.

Definition data_too_long {A} : M seatdb A := throw (EMySQL 1406 "Data too long for column 'freeze_token'").

Definition seats_at (showTimeId seatStatus : Z) (seatIDs : list Z) (s : DSeat) : bool :=
  (Status s =? 1) && (ShowTimeId s =? showTimeId) && (SeatStatus s =? seatStatus) && in_ids seatIDs s.

(** An UPDATE that stores [freezeToken] fails only when a row would take it. *)
Definition update_token (p : DSeat -> bool) (f : DSeat -> DSeat) (freezeToken : string) : M seatdb unit := fun db =>
  if existsb p db && negb (fits_token freezeToken) then data_too_long db
  else (Ok tt, update_where p f db).

Definition BatchFreezeByShowTimeAndIDs (showTimeId : Z) (seatIDs : list Z) (freezeToken : string)
  (expireTime now : time) : M seatdb unit :=
  match seatIDs with
  | [] => mret tt
  | _ => update_token (seats_at showTimeId 1 seatIDs)
           (set_seat 2 (Some freezeToken) (Some (mysql_datetime expireTime)) (mysql_datetime now)) freezeToken
  end.

Definition BatchConfirmByShowTimeAndIDs (showTimeId : Z) (seatIDs : list Z) (freezeToken : string)
  (expireTime now : time) : M seatdb unit :=
  match seatIDs with
  | [] => mret tt
  | _ => update_token (fun s => seats_at showTimeId 2 seatIDs s && has_token freezeToken s)
           (set_seat 3 (Some freezeToken) (Some (mysql_datetime expireTime)) (mysql_datetime now)) freezeToken
  end.

Definition ReleaseFrozenByShowTimeAndIDs (showTimeId : Z) (seatIDs : list Z) (freezeToken : string) (now : time)
  : M seatdb unit :=
  match seatIDs with
  | [] => mret tt
  | _ => modify (update_where (fun s => seats_at showTimeId 2 seatIDs s && has_token freezeToken s)
           (set_seat 1 None None (mysql_datetime now)))
  end.

Definition ReleaseSoldByShowTimeAndIDs (showTimeId : Z) (seatIDs : list Z) (now : time) : M seatdb unit :=
  match seatIDs with
  | [] => mret tt
  | _ => modify (update_where (seats_at showTimeId 3 seatIDs) (set_seat 1 None None (mysql_datetime now)))
  end.

(** *** Creating seats *)

Definition price_order (a b : DSeat) : Prop := Price a < Price b \/ (Price a = Price b /\ seat_order a b).
#[global] Instance price_order_dec a b : Decision (price_order a b).
Proof. unfold price_order. apply _. Defined.

Definition FindSeatsByProgramID (programID : Z) : M seatdb (list DSeat) :=
  select_seats (fun s => ProgramId s =? programID) price_order.

Definition FindOneByProgramIdRowCodeColCode (programId rowCode colCode : Z) : M seatdb DSeat := fun db =>
  (of_option ENotFound (find (fun s => (ProgramId s =? programId) && (RowCode s =? rowCode) && (ColCode s =? colCode)) db), db).

(** [price] is a decimal(10,0) written from a float64; seats of one show differ in row
    or column. *)
Definition InsertSeatRow (s : DSeat) : M seatdb unit := fun db =>
  if negb (Pay.decimal10 (f64 (Price s))) then (out_of_range "price", db)
  else if existsb (fun r => Id r =? Id s) db then (dup_entry "PRIMARY", db)
  else if existsb (fun r => (ShowTimeId r =? ShowTimeId s) && (RowCode r =? RowCode s) && (ColCode r =? ColCode s)) db
  then (dup_entry "uk_show_time_row_col", db)
  else (Ok tt, db ++ [mkSeatRow (Id s) (ProgramId s) (ShowTimeId s) (TicketCategoryId s) (RowCode s) (ColCode s)
          (SeatType s) (f64 (Price s)) (SeatStatus s) (FreezeToken s) (mysql_datetime <$> FreezeExpireTime s)
          (mysql_datetime (CreateTime s)) (mysql_datetime (EditTime s)) (Status s)]).

(** The statement of reset_program_logic.go. *)
Definition ResetSeatRows (programId : Z) (now : time) : M seatdb unit :=
  modify (update_where (fun s => (Status s =? 1) && (ProgramId s =? programId) && ((SeatStatus s =? 2) || (SeatStatus s =? 3)))
    (set_seat 1 None None (mysql_datetime now))).

(** ** What the statements do *)

Lemma select_seats_ok p order `{forall a b, Decision (order a b)} db l db' :
  select_seats p order db = (Ok l, db') ->
  db' = db /\ l ≡ₚ filter (fun s => (Status s =? 1) && p s = true) db.
Proof. intros [= <- <-]. split; [done|]. apply merge_sort_Permutation. Qed.

Lemma select_seats_elem p order `{forall a b, Decision (order a b)} db l db' s :
  select_seats p order db = (Ok l, db') -> s ∈ l <-> s ∈ db /\ Status s = 1 /\ p s = true.
Proof.
  intros [_ Hl]%select_seats_ok. rewrite Hl, list_elem_of_filter, andb_true_iff, Z.eqb_eq. tauto.
Qed.

Lemma select_seats_readonly p order `{forall a b, Decision (order a b)} : readonly (select_seats p order).
Proof. by intros db. Qed.

Lemma find_for_update_readonly st ids : readonly (FindByShowTimeAndIDsForUpdate st ids).
Proof. intros db. by destruct ids. Qed.

Lemma find_for_update_ok st ids db l db' :
  FindByShowTimeAndIDsForUpdate st ids db = (Ok l, db') ->
  db' = db /\ (forall s, s ∈ l -> s ∈ db /\ Status s = 1 /\ ShowTimeId s = st /\ Id s ∈ ids) /\
  (NoDup (map Id db) -> NoDup (map Id l)) /\
  (forall s, s ∈ db -> Status s = 1 -> ShowTimeId s = st -> Id s ∈ ids -> s ∈ l).
Proof.
  destruct ids as [|i ids]; cbn -[select_seats].
  - intros [= <- <-]. split_and!; [done|by intros ? ?%not_elem_of_nil|constructor|by intros ? _ _ _ ?%not_elem_of_nil].
  - intros H. split_and!.
    + by apply select_seats_ok in H as [-> _].
    + intros s Hs. eapply select_seats_elem in Hs as (? & ? & ?); [|exact H]. bool_norm.
      unfold in_ids in *. by bool_norm.
    + intros Hnd. apply select_seats_ok in H as [_ Hl].
      rewrite (Permutation_map Id Hl). by apply NoDup_map_filter.
    + intros s Hs H1 H2 H3. eapply select_seats_elem; [exact H|]. split_and!; [done..|].
      unfold in_ids. apply andb_true_iff. split; [by apply Z.eqb_eq|by apply bool_decide_eq_true].
Qed.

(** What an update may do to one row: nothing, or [f] where [p] holds. *)
Lemma update_where_rows (p : DSeat -> bool) (f : DSeat -> DSeat) (db : list DSeat) : Forall2 (fun (s s' : DSeat) => s' = if p s then f s else s) db (update_where p f db).
Proof. unfold update_where. induction db; cbn; by constructor. Qed.

Lemma update_token_ok p f t (db db' : list DSeat) : update_token p f t db = (Ok tt, db') -> db' = update_where p f db.
Proof. unfold update_token. destr_if; [done|]. by intros [= <-]. Qed.

(** A token that does not fit is never stored. *)
Lemma update_token_long p f t db : fits_token t = false ->
  (exists s, s ∈ db /\ p s = true) -> exists e, update_token p f t db = (Err e, db).
Proof.
  intros Ht (s & Hs & Hp). unfold update_token.
  assert (existsb p db = true) as -> by (apply existsb_exists; exists s; split; [by apply list_elem_of_In|done]).
  rewrite Ht. by eexists.
Qed.
