(* ===== verification/SeatStore.v ===== *)
(** * The seat ledger in Redis  (services/program-rpc/internal/seatcache)

    Per show and ticket category: a stock counter, a sorted set of available
    seats, one of sold seats and one per freeze token.  The Lua scripts are state
    transformers of a Redis server; the methods of [SeatStockStore] issue them and
    decode the answers; the loader fills the ledger from the seat table. *)
From Stdlib Require Import ZArith Lia Ascii String.
From stdpp Require Import base gmap sets list strings.
From S2P Require Import Prelude GoBase Effects Sql RedisZ SeatAssign SeatDB.
Open Scope string_scope.
Open Scope list_scope.
Open Scope Z_scope.

Module Cache.

(** ** Seats as members of a sorted set *)

Record Seat := mkSeat {
  SeatID : Z; TicketCategoryID : Z; RowCode : Z; ColCode : Z; Price : Z }.

#[global] Instance Seat_eq_dec : EqDecision Seat.
Proof. solve_decision. Defined.

Definition encodeSeatMember (s : Seat) : string :=
  format_int (SeatID s) +:+ "|" +:+ format_int (TicketCategoryID s) +:+ "|" +:+ format_int (RowCode s)
  +:+ "|" +:+ format_int (ColCode s) +:+ "|" +:+ format_int (Price s).

Definition parse_field (s : string) : result err Z := of_option (EOther "strconv.ParseInt") (parse_int64 s).

Definition decodeSeatMember (member : string) : result err Seat :=
  match split_on "|" member with
  | [p0; p1; p2; p3; p4] =>
      seatID ← parse_field p0;
      ticketCategoryID ← parse_field p1;
      rowCode ← parse_field p2;
      colCode ← parse_field p3;
      price ← parse_field p4;
      Ok (mkSeat seatID ticketCategoryID rowCode colCode price)
  | _ => Err (EOther "invalid seat member")
  end.

Definition seatSortScore (rowCode colCode : Z) : Z := wrap64 (rowCode * 1000000 + colCode).

Definition newSeatFromModel (s : DSeat) : Seat :=
  mkSeat (Id s) (SeatDB.TicketCategoryId s) (SeatDB.RowCode s) (SeatDB.ColCode s) (SeatDB.Price s).

(** ** Keys *)

Definition defaultSeatLedgerPrefix : string := "livepass:program:seat-ledger".

Definition seatLedgerScopeTag (showTimeID : Z) : string := "{st:" +:+ format_int showTimeID +:+ "}".

Definition scope_suffix (showTimeID ticketCategoryID : Z) : string :=
  seatLedgerScopeTag showTimeID +:+ ":" +:+ format_int ticketCategoryID.

Definition stockKey (prefix : string) (st tc : Z) : string := prefix +:+ ":stock:" +:+ scope_suffix st tc.
Definition availableSeatsKey (prefix : string) (st tc : Z) : string := prefix +:+ ":available:" +:+ scope_suffix st tc.
Definition soldSeatsKey (prefix : string) (st tc : Z) : string := prefix +:+ ":sold:" +:+ scope_suffix st tc.
Definition loadingKey (prefix : string) (st tc : Z) : string := prefix +:+ ":loading:" +:+ scope_suffix st tc.
(** [frozenSeatsPattern] without its final star. *)
Definition frozenSeatsPattern (prefix : string) (st tc : Z) : string :=
  prefix +:+ ":frozen:" +:+ scope_suffix st tc +:+ ":".
Definition frozenSeatsKey (prefix : string) (st tc : Z) (freezeToken : string) : string :=
  frozenSeatsPattern prefix st tc +:+ freezeToken.

(** ** Replies *)

Inductive reply := RInt (z : Z) | RStr (s : string) | RArr (l : list reply).

Definition parseEvalInt64 (v : reply) : result err Z :=
  match v with
  | RInt z => Ok z
  | RStr s => parse_field s
  | RArr _ => Err (EOther "unsupported eval result type")
  end.

Definition parseEvalString (v : reply) : result err string :=
  match v with
  | RStr s => Ok s
  | RInt z => Ok (format_int z)
  | RArr _ => Err (EOther "unsupported eval string type")
  end.

Fixpoint parse_strings (l : list reply) : result err (list string) :=
  match l with
  | [] => Ok []
  | v :: l => s ← parseEvalString v; rest ← parse_strings l; Ok (s :: rest)
  end.

Definition parseEvalStrings (v : reply) : result err (list string) :=
  match v with RArr l => parse_strings l | _ => Err (EOther "unsupported eval strings type") end.

Fixpoint decode_seats (ms : list string) : result err (list Seat) :=
  match ms with
  | [] => Ok []
  | m :: ms => s ← decodeSeatMember m; rest ← decode_seats ms; Ok (s :: rest)
  end.

Definition durationSeconds (value defaultValue : duration) : Z :=
  let value := if value <=? 0 then defaultValue else value in
  let seconds := Z.quot value second in
  let seconds := if negb (Z.rem value second =? 0) then seconds + 1 else seconds in
  if seconds <=? 0 then 1 else seconds.

(** ** The scripts *)

(** [parseSeat] of the scripts: the numbers of a member as Lua sees them.  Every
    member is written by [encodeSeatMember]; on anything else the scripts raise an
    error when they compute with the missing numbers. *)
Definition lua_row (m : string) : Z :=
  match decodeSeatMember m with Ok s => f64 (RowCode s) | Err _ => 0 end.
Definition lua_col (m : string) : Z :=
  match decodeSeatMember m with Ok s => f64 (ColCode s) | Err _ => 0 end.
Definition lua_score (m : string) : Z := f64 (f64 (lua_row m * 1000000) + lua_col m).
Definition lua_next (prev cur : string) : bool :=
  (lua_row cur =? lua_row prev) && (lua_col cur =? f64 (lua_col prev + 1)).

(** Members the scripts can compute with. *)
Definition seat_members (ms : list string) : bool := forallb (fun m => is_ok (decodeSeatMember m)) ms.

Section scripts.
Context {R : Type} `{RedisZ R}.

Definition script_error : M R reply := throw (EOther "ERR user_script").

Definition expire_when (k : string) (s : Z) (r : R) : R := if 0 <? s then kexpire r k s else r.

(** freeze_auto_assigned_seats.lua *)
Definition freezeAutoAssignedSeatsScript (stockK availableK frozenK : string) (count stockTTL seatTTL : Z)
  : M R reply := fun r =>
  if negb (kexists r stockK) then (Ok (RArr [RInt (-1)]), r)
  else match (match sget r stockK with Some raw => parse_int64 raw | None => None end) with
  | None => script_error r
  | Some availableCount =>
    if f64 availableCount <? count then (Ok (RArr [RInt 0]), r)
    else
      let existing := zrange r frozenK in
      if negb (bool_decide (existing = [])) then
        (Ok (RArr (RInt 1 :: map RStr existing)),
         expire_when availableK seatTTL (expire_when frozenK seatTTL (expire_when stockK stockTTL r)))
      else
        let available := zrange r availableK in
        if Z.of_nat (length available) <? count then (Ok (RArr [RInt 0]), r)
        else if negb (seat_members available) then script_error r
        else
          let selected := select lua_row lua_next available (Z.to_nat count) in
          let r := foldl (fun r m => zadd (zrem r availableK m) frozenK (lua_score m) m) r selected in
          match incrby r stockK (- count) with
          | (Err e, r) => (Err e, r)
          | (Ok _, r) =>
              (Ok (RArr (RInt 1 :: map RStr selected)),
               expire_when availableK seatTTL (expire_when frozenK seatTTL (expire_when stockK stockTTL r)))
          end
  end.

(** release_frozen_seats.lua *)
Definition releaseFrozenSeatsScript (stockK availableK frozenK : string) (stockTTL seatTTL : Z)
  : M R reply := fun r =>
  if negb (kexists r stockK) then (Ok (RInt (-1)), r)
  else
    let frozen := zrange r frozenK in
    let expire r := expire_when availableK seatTTL (expire_when stockK stockTTL r) in
    if bool_decide (frozen = []) then (Ok (RInt 1), expire r)
    else if negb (seat_members frozen) then script_error r
    else
      let r := foldl (fun r m => zadd r availableK (lua_score m) m) r frozen in
      match incrby (kdel r frozenK) stockK (Z.of_nat (length frozen)) with
      | (Err e, r) => (Err e, r)
      | (Ok _, r) => (Ok (RInt 1), expire r)
      end.

(** confirm_frozen_seats.lua *)
Definition confirmFrozenSeatsScript (stockK soldK frozenK : string) (stockTTL seatTTL : Z)
  : M R reply := fun r =>
  if negb (kexists r stockK) then (Ok (RInt (-1)), r)
  else
    let frozen := zrange r frozenK in
    let expire r := expire_when soldK seatTTL (expire_when stockK stockTTL r) in
    if bool_decide (frozen = []) then (Ok (RInt 1), expire r)
    else if negb (seat_members frozen) then script_error r
    else
      let r := foldl (fun r m => zadd r soldK (lua_score m) m) r frozen in
      (Ok (RInt 1), expire (kdel r frozenK)).

End scripts.

(** ** seat_stock_loader.go *)

Record seatStockLoader := mkLoader {
  l_prefix : string; l_stockTTLSeconds : Z; l_seatTTLSeconds : Z; loadingCooldownSeconds : Z }.

Record SeatStockStore := mkStore {
  prefix : string; stockTTLSeconds : Z; seatTTLSeconds : Z; loader : option seatStockLoader }.

Record Config := mkConfig {
  cfg_Prefix : string; cfg_StockTTL : duration; cfg_SeatTTL : duration; cfg_LoadingCooldown : duration }.

Definition defaultSeatLedgerStockTTL : duration := 4 * 3600 * second.
Definition defaultSeatLedgerSeatTTL : duration := 4 * 3600 * second.
Definition defaultSeatLedgerLoadingCooldown : duration := 3 * second.

(** [newSeatStockLoader]: [nil] without a seat model. *)
Definition newSeatStockLoader (hasModel : bool) (prefix : string) (stockTTL seatTTL cooldown : Z)
  : option seatStockLoader :=
  if hasModel then Some (mkLoader prefix stockTTL seatTTL cooldown) else None.

Definition NewSeatStockStore (hasRedis hasModel : bool) (cfg : Config) : option SeatStockStore :=
  if negb hasRedis then None
  else
    let prefix := if bool_decide (cfg_Prefix cfg = "") then defaultSeatLedgerPrefix else cfg_Prefix cfg in
    let stockTTL := durationSeconds (cfg_StockTTL cfg) defaultSeatLedgerStockTTL in
    let seatTTL := durationSeconds (cfg_SeatTTL cfg) defaultSeatLedgerSeatTTL in
    let cooldown := durationSeconds (cfg_LoadingCooldown cfg) defaultSeatLedgerLoadingCooldown in
    Some (mkStore prefix stockTTL seatTTL (newSeatStockLoader hasModel prefix stockTTL seatTTL cooldown)).

Definition seatStatusAvailable : Z := 1.
Definition seatStatusFrozen : Z := 2.
Definition seatStatusSold : Z := 3.

Section store.
Context {R : Type} `{RedisZ R}.

Definition rcmd (f : R -> R) : IO R unit := call (modify f).

(** [Schedule]: SETNX of the loading key; the answer tells whether a load is started. *)
Definition Schedule (l : option seatStockLoader) (st tc : Z) : IO R bool :=
  match l with
  | None => mret false
  | Some l =>
      res ← attempt (call (fun r => let k := loadingKey (l_prefix l) st tc in
        if kexists r k then (Ok false, r) else (Ok true, setex r k "1" (loadingCooldownSeconds l))));
      mret (match res with Ok b => b | Err _ => false end)
  end.

Definition addSeat (l : seatStockLoader) (key : string) (s : Seat) : IO R unit :=
  _ ← rcmd (fun r => zadd r key (seatSortScore (RowCode s) (ColCode s)) (encodeSeatMember s));
  if 0 <? l_seatTTLSeconds l then rcmd (fun r => kexpire r key (l_seatTTLSeconds l)) else mret tt.

(** The deletions and additions of [loadWithContext], once the rows are read.  The
    seats of a token are added group by group in Go, in the order of an iteration
    over a map; they go to separate keys, so this order does not show. *)
Definition rebuild (l : seatStockLoader) (st tc : Z) (available frozen sold : list DSeat) : IO R unit :=
  let stockK := stockKey (l_prefix l) st tc in
  frozenKeys ← call (fun r => (Ok (kkeys r (frozenSeatsPattern (l_prefix l) st tc)), r));
  _ ← rcmd (fun r => foldl kdel r ([stockK; availableSeatsKey (l_prefix l) st tc;
        soldSeatsKey (l_prefix l) st tc; loadingKey (l_prefix l) st tc] ++ frozenKeys));
  let count := format_int (Z.of_nat (length available)) in
  _ ← rcmd (fun r => if 0 <? l_stockTTLSeconds l then setex r stockK count (l_stockTTLSeconds l)
                     else sset r stockK count);
  _ ← each (fun s => addSeat l (availableSeatsKey (l_prefix l) st tc) (newSeatFromModel s)) available;
  _ ← each (fun s => addSeat l (soldSeatsKey (l_prefix l) st tc) (newSeatFromModel s)) sold;
  each (fun s => match FreezeToken s with
                 | None => mret tt
                 | Some t => if bool_decide (t = "") then mret tt
                             else addSeat l (frozenSeatsKey (l_prefix l) st tc t) (newSeatFromModel s)
                 end) frozen.

(** ** seat_stock_store.go *)

Definition not_ready {A} : IO R A := throw (EX ErrProgramSeatLedgerNotReady).

Definition with_store {A} (s : option SeatStockStore) (k : SeatStockStore -> IO R A) : IO R A :=
  match s with None => not_ready | Some s => k s end.

Definition decode_freeze (v : reply) : result err (Z * list string) :=
  values ← parseEvalStrings v;
  match values with
  | [] => Err (EOther "unexpected empty freeze seat result")
  | c :: members => code ← parse_field c; Ok (code, members)
  end.

Definition FreezeAutoAssignedSeats (s : option SeatStockStore) (st tc : Z) (freezeToken : string) (count : Z)
  : IO R (list Seat) := with_store s (fun s =>
  v ← call (freezeAutoAssignedSeatsScript (stockKey (prefix s) st tc) (availableSeatsKey (prefix s) st tc)
        (frozenSeatsKey (prefix s) st tc freezeToken) count (stockTTLSeconds s) (seatTTLSeconds s));
  '(code, members) ← lift (decode_freeze v);
  if code =? 1 then lift (decode_seats members)
  else if code =? 0 then throw (EX ErrSeatInventoryInsufficient)
  else if code =? -1 then _ ← Schedule (loader s) st tc; not_ready
  else throw (EOther "unexpected freeze seat result")).

(** The answer of a release or confirm script: 1, or -1 without a ledger. *)
Definition settle (s : SeatStockStore) (st tc : Z) (v : reply) : IO R unit :=
  code ← lift (parseEvalInt64 v);
  if code =? -1 then _ ← Schedule (loader s) st tc; not_ready
  else if negb (code =? 1) then throw (EOther "unexpected frozen seat result")
  else mret tt.

Definition ReleaseFrozenSeats (s : option SeatStockStore) (st tc : Z) (freezeToken : string) : IO R unit :=
  with_store s (fun s =>
  v ← call (releaseFrozenSeatsScript (stockKey (prefix s) st tc) (availableSeatsKey (prefix s) st tc)
        (frozenSeatsKey (prefix s) st tc freezeToken) (stockTTLSeconds s) (seatTTLSeconds s));
  settle s st tc v).

Definition ConfirmFrozenSeats (s : option SeatStockStore) (st tc : Z) (freezeToken : string) : IO R unit :=
  with_store s (fun s =>
  v ← call (confirmFrozenSeatsScript (stockKey (prefix s) st tc) (soldSeatsKey (prefix s) st tc)
        (frozenSeatsKey (prefix s) st tc freezeToken) (stockTTLSeconds s) (seatTTLSeconds s));
  settle s st tc v).

Definition Clear (s : option SeatStockStore) (st tc : Z) : IO R unit := with_store s (fun s =>
  frozenKeys ← call (fun r => (Ok (kkeys r (frozenSeatsPattern (prefix s) st tc)), r));
  rcmd (fun r => foldl kdel r ([stockKey (prefix s) st tc; availableSeatsKey (prefix s) st tc;
    soldSeatsKey (prefix s) st tc; loadingKey (prefix s) st tc] ++ frozenKeys))).

(** [strings.Contains(err.Error(), "nil")], of the errors that carry a text. *)
Definition mentions_nil (e : err) : bool :=
  match e with
  | EOther msg | EMySQL _ msg | EStatus _ msg => bool_decide (is_Some (String.index 0 "nil" msg))
  | _ => false
  end.

Definition listSeats (key : string) : IO R (list Seat) :=
  res ← attempt (call (fun r => (Ok (zrange r key), r)));
  match res with
  | Err e => if mentions_nil e then mret [] else throw e
  | Ok values => lift (decode_seats values)
  end.

Definition FrozenSeats (s : option SeatStockStore) (st tc : Z) (freezeToken : string) : IO R (list Seat) :=
  with_store s (fun s => listSeats (frozenSeatsKey (prefix s) st tc freezeToken)).

Record SeatLedgerSnapshot := mkSnapshot {
  Ready : bool; Loading : bool; AvailableCount : Z; AvailableSeats : list Seat;
  SoldSeats : list Seat; FrozenSeatsByToken : list (string * list Seat) }.

Definition trim_prefix (p s : string) : string :=
  if String.prefix p s then String.substring (String.length p) (String.length s - String.length p) s else s.

Definition Snapshot (s : option SeatStockStore) (st tc : Z) : IO R SeatLedgerSnapshot := with_store s (fun s =>
  ready ← call (fun r => (Ok (kexists r (stockKey (prefix s) st tc)), r));
  loading ← call (fun r => (Ok (kexists r (loadingKey (prefix s) st tc)), r));
  if negb ready then mret (mkSnapshot ready loading 0 [] [] [])
  else
    raw ← call (fun r => (Ok (default "" (sget r (stockKey (prefix s) st tc))), r));
    availableCount ← lift (parse_field raw);
    availableSeats ← listSeats (availableSeatsKey (prefix s) st tc);
    soldSeats ← listSeats (soldSeatsKey (prefix s) st tc);
    frozenKeys ← call (fun r => (Ok (kkeys r (frozenSeatsPattern (prefix s) st tc)), r));
    frozen ← each_map (fun key => seats ← listSeats key;
                         mret (trim_prefix (frozenSeatsPattern (prefix s) st tc) key, seats)) frozenKeys;
    mret (mkSnapshot ready loading availableCount availableSeats soldSeats frozen)).

End store.

End Cache.
