(* ===== verification/SeatLedger.v ===== *)
(** * The seat ledger is an assignment of seats to places

    The four kinds of keys of one category hold one map from seats to places:
    on sale, frozen for a token, or sold.  [refines] ties a Redis server to such a
    map; every method of the store, with any fault, is a step of the abstract
    ledger [astep], where seats move only from sale to one token, and from a token
    to sold or back to sale.  The choice the script makes is the choice of
    [assignSeats]. *)
From Stdlib Require Import ZArith Lia Ascii String Sorted.
From stdpp Require Import base gmap sets list strings sorting relations.
From S2P Require Import Prelude GoBase Effects Sql RedisZ SeatAssign SeatDB SeatStore.
Open Scope string_scope.
Open Scope list_scope.
Open Scope Z_scope.

Import Cache.

(** ** Keys are apart *)

Inductive place := OnSale | Sold | FrozenFor (token : string).

#[global] Instance place_eq_dec : EqDecision place.
Proof. solve_decision. Defined.

Definition place_key (prefix : string) (st tc : Z) (p : place) : string :=
  match p with
  | OnSale => availableSeatsKey prefix st tc
  | Sold => soldSeatsKey prefix st tc
  | FrozenFor t => frozenSeatsKey prefix st tc t
  end.

Lemma place_key_inj prefix st tc p q : place_key prefix st tc p = place_key prefix st tc q -> p = q.
Proof.
  destruct p, q; cbn; unfold availableSeatsKey, soldSeatsKey, frozenSeatsKey, frozenSeatsPattern;
    rewrite ?sapp_assoc; intros E; apply sapp_inj_l in E; try done.
  f_equal. by repeat apply sapp_inj_l in E.
Qed.

Lemma place_key_not_stock prefix st tc p : place_key prefix st tc p <> stockKey prefix st tc.
Proof.
  destruct p; cbn; unfold availableSeatsKey, soldSeatsKey, frozenSeatsKey, frozenSeatsPattern, stockKey;
    rewrite ?sapp_assoc; intros E; apply sapp_inj_l in E; done.
Qed.

Lemma place_key_not_loading prefix st tc p st' tc' : place_key prefix st tc p <> loadingKey prefix st' tc'.
Proof.
  destruct p; cbn; unfold availableSeatsKey, soldSeatsKey, frozenSeatsKey, frozenSeatsPattern, loadingKey;
    rewrite ?sapp_assoc; intros E; apply sapp_inj_l in E; done.
Qed.

Lemma stock_not_loading prefix st tc st' tc' : stockKey prefix st tc <> loadingKey prefix st' tc'.
Proof. unfold stockKey, loadingKey. intros E; by apply sapp_inj_l in E. Qed.

(** ** Members *)

Lemma decode_encode_seat s :
  in_int64 (SeatID s) = true -> in_int64 (TicketCategoryID s) = true -> in_int64 (RowCode s) = true ->
  in_int64 (ColCode s) = true -> in_int64 (Price s) = true ->
  decodeSeatMember (encodeSeatMember s) = Ok s.
Proof.
  intros H1 H2 H3 H4 H5. unfold decodeSeatMember, encodeSeatMember.
  change (split_on "|" _) with (split_on "|" (join "|"
    [format_int (SeatID s); format_int (TicketCategoryID s); format_int (RowCode s); format_int (ColCode s);
     format_int (Price s)])).
  change ("|"%string) with (String "|" ""). rewrite split_join; [|done|].
  - unfold parse_field. rewrite !parse_format by done. by destruct s.
  - repeat constructor; by apply format_int_no.
Qed.

(** ** The abstract ledger *)

Notation ledger := (gmap string place) (only parsing).

Definition assign (ms : list string) (p : place) (l : ledger) : ledger :=
  foldl (fun l m => <[m := p]> l) l ms.

Definition move_all (p q : place) (l : ledger) : ledger := (fun x => if decide (x = p) then q else x) <$> l.

Inductive astep : ledger -> ledger -> Prop :=
  | a_freeze l t ms : Forall (fun m => l !! m = Some OnSale) ms -> (forall m, l !! m <> Some (FrozenFor t)) ->
      astep l (assign ms (FrozenFor t) l)
  | a_release l t : astep l (move_all (FrozenFor t) OnSale l)
  | a_confirm l t : astep l (move_all (FrozenFor t) Sold l).

Lemma lookup_assign ms p l m : assign ms p l !! m = if decide (m ∈ ms) then Some p else l !! m.
Proof.
  unfold assign. revert l. induction ms as [|a ms IH]; intros l; cbn; [done|]. rewrite IH.
  destruct (decide (m ∈ ms)) as [Hin|Hin].
  - rewrite decide_True; [done|by right].
  - destruct (decide (m = a)) as [->|Hne].
    + rewrite decide_True by left. apply lookup_insert_eq.
    + rewrite decide_False by (intros [?|?]%elem_of_cons; done). by apply lookup_insert_ne.
Qed.

Lemma lookup_move_all p q l m :
  move_all p q l !! m = (fun x => if decide (x = p) then q else x) <$> (l !! m).
Proof. apply lookup_fmap. Qed.

(** ** Refinement *)

Section refines.
Context {R : Type} `{RedisZLaws R} (prefix : string) (st tc : Z).
Local Notation sk := (stockKey prefix st tc).
Local Notation key := (place_key prefix st tc).

Record refines (r : R) (l : ledger) : Prop := {
  rf_small : Z.of_nat (size l) <= 2 ^ 53;
  rf_stock : sget r sk = Some (format_int (Z.of_nat (size (zset r (key OnSale)))));
  rf_stock_type : zset r sk = ∅;
  rf_types : forall p, sget r (key p) = None;
  rf_scores : forall p m sc, zset r (key p) !! m = Some sc ->
    sc = lua_score m /\ is_ok (decodeSeatMember m) = true;
  rf_places : forall p m, is_Some (zset r (key p) !! m) <-> l !! m = Some p }.

Lemma on_sale_size r l : refines r l -> (size (zset r (key OnSale)) <= size l)%nat.
Proof.
  intros Hr. rewrite <- !size_dom. apply subseteq_size. intros m. rewrite !elem_of_dom.
  intros Hm. apply (rf_places r l Hr OnSale) in Hm. by rewrite Hm.
Qed.

Lemma placed_members r l p m : refines r l -> m ∈ zrange r (key p) <-> l !! m = Some p.
Proof. intros Hr. unfold zrange. rewrite elem_of_zmembers. apply (rf_places r l Hr). Qed.

Lemma members_decode r l p : refines r l -> seat_members (zrange r (key p)) = true.
Proof.
  intros Hr. apply forallb_forall. intros m Hm%list_elem_of_In.
  unfold zrange in Hm. apply elem_of_zmembers in Hm as [sc Hsc]. by apply (rf_scores r l Hr) in Hsc as [_ ?].
Qed.

Lemma refines_same r r' l : refines r l ->
  sget r' sk = sget r sk -> zset r' sk = zset r sk ->
  (forall p, sget r' (key p) = sget r (key p) /\ zset r' (key p) = zset r (key p)) -> refines r' l.
Proof.
  intros [H1 H2 H3 H4 H5 H6] Hs Hz Hk. split; [done|..].
  - rewrite Hs. destruct (Hk OnSale) as [_ ->]. done.
  - by rewrite Hz.
  - intros p. by destruct (Hk p) as [-> _].
  - intros p m sc. destruct (Hk p) as [_ ->]. apply H5.
  - intros p m. destruct (Hk p) as [_ ->]. apply H6.
Qed.

(** Seats [ms] move from the place [p] to the place [q]. *)
Lemma refines_move r r' l l' p q ms n :
  refines r l -> p <> q -> (forall m, m ∈ ms -> l !! m = Some p) ->
  (forall m, l' !! m = if decide (m ∈ ms) then Some q else l !! m) ->
  sget r' sk = Some (format_int n) -> n = Z.of_nat (size (zset r' (key OnSale))) -> zset r' sk = ∅ ->
  (forall x, sget r' (key x) = None) ->
  (forall x, zset r' (key x) = if decide (x = p) then zrem_all ms (zset r (key p))
     else if decide (x = q) then zadd_all lua_score ms (zset r (key q)) else zset r (key x)) ->
  refines r' l'.
Proof.
  intros Hr Hpq Hms Hl' Hsk -> Hst Hty Hz. split; try done.
  - replace (size l') with (size l); [apply Hr|]. rewrite <- !size_dom. f_equal.
    apply set_eq. intros m. rewrite !elem_of_dom, Hl'. destruct (decide (m ∈ ms)) as [Hin|]; [|done].
    rewrite (Hms m Hin). done.
  - intros x m sc. rewrite Hz. destruct (decide (x = p)) as [->|].
    { rewrite lookup_zrem_all. destruct (decide (m ∈ ms)); [done|]. apply Hr. }
    destruct (decide (x = q)) as [->|]; [|apply Hr].
    rewrite lookup_zadd_all. destruct (decide (m ∈ ms)) as [Hin|]; [|apply Hr].
    intros [= <-]. split; [done|]. apply Hms in Hin. apply (rf_places r l Hr) in Hin as [sc Hsc].
    by apply (rf_scores r l Hr) in Hsc as [_ ?].
  - intros x m. rewrite Hz, Hl'. destruct (decide (x = p)) as [->|Hxp].
    { rewrite lookup_zrem_all. destruct (decide (m ∈ ms)); [|apply Hr].
      split; [by intros []|]. by intros [= ->]. }
    destruct (decide (x = q)) as [->|Hxq].
    + rewrite lookup_zadd_all. destruct (decide (m ∈ ms)); [by split|apply Hr].
    + destruct (decide (m ∈ ms)) as [Hin|]; [|apply Hr]. rewrite (rf_places r l Hr).
      rewrite (Hms m Hin). split; congruence.
Qed.
End refines.

(** ** The scripts *)

Section scripts.
Context {R : Type} `{RedisZLaws R} (prefix : string) (st tc : Z).
Local Notation sk := (stockKey prefix st tc).
Local Notation key := (place_key prefix st tc).
Local Notation refines := (refines prefix st tc).

Lemma expire_when_views k s r k' :
  sget (expire_when k s r) k' = sget r k' /\ zset (expire_when k s r) k' = zset r k'.
Proof.
  unfold expire_when. destruct (Z.ltb_spec 0 s); [|done]. by rewrite sget_expire, zset_expire.
Qed.

Lemma refines_expire r l k s : refines r l -> refines (expire_when k s r) l.
Proof. intros Hr. eapply refines_same; [exact Hr|apply expire_when_views..|]. intros p. apply expire_when_views. Qed.

Lemma incrby_stock r n d : zset r sk = ∅ -> sget r sk = Some (format_int n) ->
  in_int64 n = true -> in_int64 (n + d) = true ->
  incrby r sk d = (Ok (n + d), sput r sk (format_int (n + d))).
Proof.
  intros Hz Hs Hn Hd. unfold incrby. rewrite bool_decide_eq_true_2 by done. rewrite Hs. cbn [negb].
  rewrite parse_format by done. by rewrite Hd.
Qed.

(** Members of [p] are removed one by one and added to [q]. *)
Lemma move_views p q ms r : p <> q -> sget r (key q) = None ->
  let r' := foldl (fun r m => zadd (zrem r (key p) m) (key q) (lua_score m) m) r ms in
  (forall k, sget r' k = sget r k) /\
  (forall k, k <> key p -> k <> key q -> zset r' k = zset r k) /\
  zset r' (key p) = zrem_all ms (zset r (key p)) /\
  zset r' (key q) = zadd_all lua_score ms (zset r (key q)).
Proof.
  intros Hpq. assert (Hk : key p <> key q) by (intros ?%place_key_inj; done).
  revert r. induction ms as [|m ms IH]; intros r Hty; cbn [foldl]; [done|].
  assert (Hq : sget (zrem r (key p) m) (key q) = None) by (by rewrite sget_zrem).
  destruct (IH (zadd (zrem r (key p) m) (key q) (lua_score m) m)) as (H1 & H2 & H3 & H4).
  { by rewrite sget_zadd, sget_zrem. }
  split_and!.
  - intros k. by rewrite H1, sget_zadd, sget_zrem.
  - intros k Hkp Hkq. rewrite H2 by done. rewrite zset_zadd, zset_zrem, !decide_False by done. done.
  - rewrite H3, zset_zadd, decide_False by done. by rewrite zset_zrem, decide_True.
  - rewrite H4, zset_zadd, decide_True by done. by rewrite zset_zrem, decide_False.
Qed.

Lemma add_views q ms r : sget r (key q) = None ->
  let r' := foldl (fun r m => zadd r (key q) (lua_score m) m) r ms in
  (forall k, sget r' k = sget r k) /\
  (forall k, k <> key q -> zset r' k = zset r k) /\
  zset r' (key q) = zadd_all lua_score ms (zset r (key q)).
Proof.
  revert r. induction ms as [|m ms IH]; intros r Hty; cbn [foldl]; [done|].
  destruct (IH (zadd r (key q) (lua_score m) m)) as (H1 & H2 & H3); [by rewrite sget_zadd|].
  split_and!.
  - intros k. by rewrite H1, sget_zadd.
  - intros k Hk. rewrite H2 by done. by rewrite zset_zadd, decide_False.
  - by rewrite H3, zset_zadd, decide_True.
Qed.

Lemma zrem_all_members (z : gmap string Z) : zrem_all (zmembers z) z = ∅.
Proof.
  apply map_eq. intros m. rewrite lookup_zrem_all, lookup_empty. destruct (decide _) as [|Hn]; [done|].
  destruct (z !! m) eqn:E; [|done]. exfalso. apply Hn, elem_of_zmembers. by rewrite E.
Qed.

Lemma size_zrem_all ms (z : gmap string Z) : NoDup ms -> (forall m, m ∈ ms -> is_Some (z !! m)) ->
  (size (zrem_all ms z) + length ms = size z)%nat.
Proof.
  unfold zrem_all. intros Hnd. revert z. induction Hnd as [|m ms Hm Hnd IH]; intros z Hall; cbn; [lia|].
  destruct (Hall m) as [sc Hsc]; [by left|].
  rewrite <- (insert_delete_id z m sc Hsc) at 2. rewrite map_size_insert_None by apply lookup_delete_eq.
  rewrite <- (IH (delete m z)); [lia|]. intros x Hx. rewrite lookup_delete_ne by (intros ->; done).
  apply Hall. by right.
Qed.

Lemma size_zadd_all score ms (z : gmap string Z) : NoDup ms -> (forall m, m ∈ ms -> z !! m = None) ->
  size (zadd_all score ms z) = (length ms + size z)%nat.
Proof.
  unfold zadd_all. intros Hnd. revert z. induction Hnd as [|m ms Hm Hnd IH]; intros z Hall; cbn; [done|].
  rewrite IH.
  - rewrite map_size_insert_None by (apply Hall; by left). lia.
  - intros x Hx. rewrite lookup_insert_ne by (intros ->; done). apply Hall. by right.
Qed.

Lemma ledger_int64 (n : nat) l (r : R) : refines r l -> (n <= size l)%nat -> in_int64 (Z.of_nat n) = true.
Proof.
  intros Hr Hn. pose proof (rf_small _ _ _ _ _ Hr). unfold in_int64, min_int64, max_int64.
  apply andb_true_iff. lia.
Qed.

Lemma stock_exists r l : refines r l -> kexists r sk = true.
Proof. intros Hr. unfold kexists. by rewrite (rf_stock _ _ _ _ _ Hr), bool_decide_eq_true_2 by done. Qed.

(** What a freeze finds and does. *)
Definition freeze_reply (r r' : R) (l l' : ledger) (t : string) (count : Z) (v : reply) : Prop :=
  let onsale := zrange r (key OnSale) in
  let mine := zrange r (key (FrozenFor t)) in
  if Z.of_nat (length onsale) <? count then v = RArr [RInt 0] /\ l' = l
  else if negb (bool_decide (mine = [])) then v = RArr (RInt 1 :: map RStr mine) /\ l' = l
  else v = RArr (RInt 1 :: map RStr (select lua_row lua_next onsale (Z.to_nat count))) /\
       l' = assign (select lua_row lua_next onsale (Z.to_nat count)) (FrozenFor t) l.

Lemma freeze_script_spec r l t count stockTTL seatTTL :
  refines r l -> 0 < count ->
  exists v r' l', freezeAutoAssignedSeatsScript sk (key OnSale) (key (FrozenFor t)) count stockTTL seatTTL r
      = (Ok v, r') /\ refines r' l' /\ freeze_reply r r' l l' t count v /\ rtc astep l l'.
Proof.
  intros Hr Hcount. unfold freezeAutoAssignedSeatsScript, freeze_reply.
  rewrite (stock_exists r l Hr). cbn [negb]. rewrite (rf_stock _ _ _ _ _ Hr).
  pose proof (on_sale_size _ _ _ r l Hr) as Hsz.
  rewrite parse_format by (by eapply ledger_int64).
  rewrite f64_exact by (pose proof (rf_small _ _ _ _ _ Hr); lia).
  set (onsale := zrange r (key OnSale)).
  assert (Hlen : length onsale = size (zset r (key OnSale))) by apply length_zmembers.
  rewrite <- Hlen in *. destruct (Z.ltb_spec (Z.of_nat (length onsale)) count) as [|Hge].
  { exists (RArr [RInt 0]), r, l. split_and!; try done. }
  set (mine := zrange r (key (FrozenFor t))).
  destruct (bool_decide (mine = [])) eqn:Em; cbn [negb].
  2: { eexists _, _, l. split_and!; [reflexivity|by repeat apply refines_expire|done..]. }
  assert (Hmem : seat_members onsale = true) by apply (members_decode _ _ _ r l OnSale Hr).
  bool_norm. rewrite Hmem. cbn [negb].
  destruct (select_spec lua_row lua_next onsale (Z.to_nat count)) as (Hl & Hp & _); [lia|].
  set (ms := select lua_row lua_next onsale (Z.to_nat count)) in *.
  assert (Hms : forall m, m ∈ ms -> l !! m = Some OnSale).
  { intros m Hm. eapply placed_members; [exact Hr|]. by eapply piece_elem. }
  assert (Hnd : NoDup ms).
  { destruct Hp as (l1 & l2 & E). pose proof (NoDup_zmembers (zset r (key OnSale))) as Hn.
    fold onsale in Hn. unfold onsale, zrange in E. unfold onsale, zrange in Hn. 
    rewrite E in Hn. apply NoDup_app in Hn as (_ & _ & Hn). by apply NoDup_app in Hn as [? _]. }
  destruct (move_views OnSale (FrozenFor t) ms r) as (V1 & V2 & V3 & V4); [done|apply Hr|].
  set (r1 := foldl _ r ms) in *.
  assert (Hsize : (size (zset r1 (key OnSale)) + Z.to_nat count = length onsale)%nat).
  { rewrite V3, <- Hl, Hlen. apply size_zrem_all; [done|]. intros m Hm.
    apply (rf_places _ _ _ _ _ Hr OnSale). by apply Hms. }
  assert (Hsk : forall p, sk <> key p) by (intros p E; by apply (place_key_not_stock prefix st tc p)).
  rewrite (incrby_stock r1 (Z.of_nat (length onsale)) (- count)).
  2: { rewrite V2; [apply Hr|apply Hsk..]. }
  2: { rewrite V1, (rf_stock _ _ _ _ _ Hr). by rewrite Hlen. }
  2: { by eapply ledger_int64. }
  2: { replace (Z.of_nat (length onsale) + - count) with (Z.of_nat (size (zset r1 (key OnSale)))) by lia.
       eapply ledger_int64; [exact Hr|lia]. }
  set (n := Z.of_nat (length onsale) + - count).
  assert (Hzsk : zset r1 sk = ∅) by (rewrite V2; [apply Hr|apply Hsk..]).
  eexists _, _, (assign ms (FrozenFor t) l). split_and!; [reflexivity| |done|done|].
  - do 3 apply refines_expire. eapply (refines_move _ _ _ r _ l _ OnSale (FrozenFor t) ms n); [done..|apply lookup_assign| | | | |].
    + by rewrite sget_sput, decide_True.
    + rewrite zset_sput by done. lia.
    + by rewrite zset_sput.
    + intros x. rewrite sget_sput, decide_False, V1 by (done || apply Hsk). apply Hr.
    + intros x. rewrite zset_sput by done. destruct (decide (x = OnSale)) as [->|]; [done|].
      destruct (decide (x = FrozenFor t)) as [->|]; [done|].
      apply V2; intros E%place_key_inj; done.
  - apply rtc_once, a_freeze; [by apply Forall_forall|]. intros m Hm.
    apply (placed_members _ _ _ r l (FrozenFor t) m Hr) in Hm. change (zrange _ _) with mine in Hm.
    rewrite Em in Hm. by apply not_elem_of_nil in Hm.
Qed.

Lemma move_all_none p q (l : ledger) : (forall m, l !! m <> Some p) -> move_all p q l = l.
Proof.
  intros Hn. apply map_eq. intros m. rewrite lookup_move_all. specialize (Hn m).
  destruct (l !! m) as [x|]; [|done]. cbn. destruct (decide (x = p)) as [->|]; done.
Qed.

Lemma mine_empty r l t : refines r l -> zrange r (key (FrozenFor t)) = [] -> forall m, l !! m <> Some (FrozenFor t).
Proof.
  intros Hr Em m Hm. apply (placed_members _ _ _ r l (FrozenFor t) m Hr) in Hm. rewrite Em in Hm.
  by apply not_elem_of_nil in Hm.
Qed.

Lemma lookup_moved r l t q m : refines r l ->
  move_all (FrozenFor t) q l !! m =
  if decide (m ∈ zrange r (key (FrozenFor t))) then Some q else l !! m.
Proof.
  intros Hr. rewrite lookup_move_all. destruct (decide _) as [Hin|Hin].
  - apply (placed_members _ _ _ r l (FrozenFor t) m Hr) in Hin. rewrite Hin. cbn. by rewrite decide_True.
  - destruct (l !! m) as [x|] eqn:E; [|done]. cbn. rewrite decide_False; [done|]. intros ->.
    by apply Hin, (placed_members _ _ _ r l (FrozenFor t) m Hr).
Qed.

Lemma release_script_spec r l t stockTTL seatTTL : refines r l ->
  exists r', releaseFrozenSeatsScript sk (key OnSale) (key (FrozenFor t)) stockTTL seatTTL r = (Ok (RInt 1), r') /\
    refines r' (move_all (FrozenFor t) OnSale l).
Proof.
  intros Hr. unfold releaseFrozenSeatsScript. rewrite (stock_exists r l Hr). cbn [negb].
  pose proof (lookup_moved r l t OnSale) as Hmoved. pose proof (members_decode _ _ _ r l (FrozenFor t) Hr) as Hdec.
  pose proof (mine_empty r l t Hr) as Hnone.
  assert (Hin : forall m, m ∈ zrange r (key (FrozenFor t)) -> l !! m = Some (FrozenFor t)).
  { intros m. apply (placed_members _ _ _ r l (FrozenFor t) m Hr). }
  set (ms := zrange r (key (FrozenFor t))) in *. destruct (bool_decide (ms = [])) eqn:Em; bool_norm.
  { eexists. split; [reflexivity|]. do 2 apply refines_expire. by rewrite move_all_none by auto. }
  rewrite Hdec. cbn [negb]. destruct (add_views OnSale ms r) as (V1 & V2 & V3); [apply Hr|].
  set (r1 := foldl _ r ms) in *.
  assert (Hnd : NoDup ms) by apply NoDup_zmembers.
  assert (Hnew : forall m, m ∈ ms -> zset r (key OnSale) !! m = None).
  { intros m Hm. apply Hin in Hm. destruct (zset r (key OnSale) !! m) eqn:E; [|done].
    assert (is_Some (zset r (key OnSale) !! m)) as Hs by (by rewrite E).
    apply (rf_places _ _ _ _ _ Hr OnSale) in Hs. congruence. }
  assert (Hsk : forall p, sk <> key p) by (intros p E; by apply (place_key_not_stock prefix st tc p)).
  assert (Hff : key (FrozenFor t) <> key OnSale) by (intros E%place_key_inj; done).
  assert (Hsize : size (zset (kdel r1 (key (FrozenFor t))) (key OnSale)) = (length ms + size (zset r (key OnSale)))%nat).
  { rewrite zset_del, decide_False by done. rewrite V3. by apply size_zadd_all. }
  assert (Hbound : (length ms + size (zset r (key OnSale)) <= size l)%nat).
  { rewrite <- (length_zmembers (zset r (key OnSale))), <- length_app, <- size_dom.
    rewrite <- (size_list_to_set (C := gset string)).
    - apply subseteq_size. intros m. rewrite elem_of_list_to_set, elem_of_app, elem_of_dom, elem_of_zmembers.
      intros [Hm|Hm]; [by rewrite (Hin m Hm)|]. apply (rf_places _ _ _ _ _ Hr OnSale) in Hm. by rewrite Hm.
    - apply NoDup_app. split_and!; [done| |apply NoDup_zmembers]. intros m Hm Hm'.
      apply elem_of_zmembers in Hm'. rewrite Hnew in Hm' by done. by destruct Hm'. }
  assert (Hz1 : zset (kdel r1 (key (FrozenFor t))) sk = ∅).
  { rewrite zset_del, decide_False by auto. rewrite V2 by auto. apply Hr. }
  rewrite (incrby_stock _ (Z.of_nat (size (zset r (key OnSale))))); [|done| | |].
  2: { rewrite sget_del, decide_False by auto. rewrite V1. apply Hr. }
  2: { eapply ledger_int64; [exact Hr|lia]. }
  2: { rewrite <- Nat2Z.inj_add. eapply ledger_int64; [exact Hr|lia]. }
  eexists. split; [reflexivity|]. do 2 apply refines_expire.
  eapply (refines_move _ _ _ r _ l _ (FrozenFor t) OnSale ms); [done..|auto| | | | |].
  - by rewrite sget_sput, decide_True.
  - rewrite zset_sput by done. lia.
  - by rewrite zset_sput.
  - intros x. rewrite sget_sput, decide_False by auto. rewrite sget_del. destruct (decide _); [done|].
    rewrite V1. apply Hr.
  - intros x. rewrite zset_sput by done. rewrite zset_del.
    destruct (decide (x = FrozenFor t)) as [->|Hx].
    + rewrite decide_True by done. symmetry. apply zrem_all_members.
    + rewrite decide_False by (intros E%place_key_inj; congruence). destruct (decide (x = OnSale)) as [->|]; [done|].
      apply V2. intros E%place_key_inj; done.
Qed.

Lemma confirm_script_spec r l t stockTTL seatTTL : refines r l ->
  exists r', confirmFrozenSeatsScript sk (key Sold) (key (FrozenFor t)) stockTTL seatTTL r = (Ok (RInt 1), r') /\
    refines r' (move_all (FrozenFor t) Sold l).
Proof.
  intros Hr. unfold confirmFrozenSeatsScript. rewrite (stock_exists r l Hr). cbn [negb].
  pose proof (lookup_moved r l t Sold) as Hmoved. pose proof (members_decode _ _ _ r l (FrozenFor t) Hr) as Hdec.
  pose proof (mine_empty r l t Hr) as Hnone.
  assert (Hin : forall m, m ∈ zrange r (key (FrozenFor t)) -> l !! m = Some (FrozenFor t)).
  { intros m. apply (placed_members _ _ _ r l (FrozenFor t) m Hr). }
  set (ms := zrange r (key (FrozenFor t))) in *. destruct (bool_decide (ms = [])) eqn:Em; bool_norm.
  { eexists. split; [reflexivity|]. do 2 apply refines_expire. by rewrite move_all_none by auto. }
  rewrite Hdec. cbn [negb]. destruct (add_views Sold ms r) as (V1 & V2 & V3); [apply Hr|].
  set (r1 := foldl _ r ms) in *.
  assert (Hsk : forall p, sk <> key p) by (intros p E; by apply (place_key_not_stock prefix st tc p)).
  assert (Hne : forall p q, p <> q -> key p <> key q) by (intros p q ? E%place_key_inj; done).
  eexists. split; [reflexivity|]. do 2 apply refines_expire.
  eapply (refines_move _ _ _ r _ l _ (FrozenFor t) Sold ms (Z.of_nat (size (zset r (key OnSale)))));
    [done..|auto| | | | |].
  - rewrite sget_del, decide_False by auto. rewrite V1. apply Hr.
  - rewrite zset_del, decide_False by auto. by rewrite V2 by auto.
  - rewrite zset_del, decide_False by auto. rewrite V2 by auto. apply Hr.
  - intros x. rewrite sget_del. destruct (decide _); [done|]. rewrite V1. apply Hr.
  - intros x. rewrite zset_del. destruct (decide (x = FrozenFor t)) as [->|Hx].
    + rewrite decide_True by done. symmetry. apply zrem_all_members.
    + rewrite decide_False by auto. destruct (decide (x = Sold)) as [->|]; [done|]. apply V2. auto.
Qed.
End scripts.

(** ** The methods of the store *)

Section methods.
Context {R : Type} `{RedisZLaws R} (s : SeatStockStore) (st tc : Z).
Local Notation sk := (stockKey (prefix s) st tc).
Local Notation key := (place_key (prefix s) st tc).
Local Notation refines := (refines (prefix s) st tc).

Lemma parse_strings_members ms : parse_strings (map RStr ms) = Ok ms.
Proof. induction ms as [|m ms IH]; cbn; [done|]. by rewrite IH. Qed.

Lemma decode_freeze_members ms : decode_freeze (RArr (RInt 1 :: map RStr ms)) = Ok (1, ms).
Proof. unfold decode_freeze. cbn [parseEvalStrings parse_strings]. rewrite parse_strings_members. reflexivity. Qed.

(** A script's answer is read without touching the server. *)
Lemma call_then {A B} (m : M R A) (k : A -> IO R B) e r a r1 :
  m r = (Ok a, r1) -> (forall e', (k a (e', r1)).2.2 = r1) ->
  ((call m ≫= k) (e, r)).2.2 = r \/ ((call m ≫= k) (e, r)).2.2 = r1.
Proof.
  intros Hm Hk. rewrite bind_unfold. unfold call. destruct (draw e) as [[|x|x] e']; rewrite ?Hm; cbn; auto.
Qed.

Lemma freeze_method e r l t count : refines r l -> 0 < count ->
  exists l', rtc astep l l' /\ refines (FreezeAutoAssignedSeats (Some s) st tc t count (e, r)).2.2 l'.
Proof.
  intros Hr Hc. destruct (freeze_script_spec (prefix s) st tc r l t count (stockTTLSeconds s) (seatTTLSeconds s) Hr Hc)
    as (v & r' & l' & Hs & Hr' & Hrep & Hstep).
  unfold FreezeAutoAssignedSeats, Cache.with_store.
  match goal with |- context [call ?m ≫= ?k] => destruct (call_then m k e r v r' Hs) as [E|E] end.
  - intros e'. unfold freeze_reply in Hrep. destruct (_ <? count); [by destruct Hrep as [-> _]|].
    destruct (negb _); destruct Hrep as [-> _]; rewrite decode_freeze_members; reflexivity.
  - exists l. rewrite E. split; [apply rtc_refl|done].
  - exists l'. by rewrite E.
Qed.

Lemma release_method e r l t : refines r l ->
  exists l', rtc astep l l' /\ refines (ReleaseFrozenSeats (Some s) st tc t (e, r)).2.2 l'.
Proof.
  intros Hr. destruct (release_script_spec (prefix s) st tc r l t (stockTTLSeconds s) (seatTTLSeconds s) Hr)
    as (r' & Hs & Hr'). unfold ReleaseFrozenSeats, Cache.with_store.
  match goal with |- context [call ?m ≫= ?k] => destruct (call_then m k e r _ r' Hs) as [E|E] end; [done|..].
  - exists l. rewrite E. split; [apply rtc_refl|done].
  - eexists. rewrite E. split; [apply rtc_once, a_release|done].
Qed.

Lemma confirm_method e r l t : refines r l ->
  exists l', rtc astep l l' /\ refines (ConfirmFrozenSeats (Some s) st tc t (e, r)).2.2 l'.
Proof.
  intros Hr. destruct (confirm_script_spec (prefix s) st tc r l t (stockTTLSeconds s) (seatTTLSeconds s) Hr)
    as (r' & Hs & Hr'). unfold ConfirmFrozenSeats, Cache.with_store.
  match goal with |- context [call ?m ≫= ?k] => destruct (call_then m k e r _ r' Hs) as [E|E] end; [done|..].
  - exists l. rewrite E. split; [apply rtc_refl|done].
  - eexists. rewrite E. split; [apply rtc_once, a_confirm|done].
Qed.

(** What happens to the category's ledger while it is loaded: calls of the store,
    whatever fails and whatever they answer, marks of the loader, and time that
    expires none of the ledger's keys. *)
Inductive lstep (r : R) : R -> Prop :=
  | ls_freeze e t count : 0 < count -> lstep r (FreezeAutoAssignedSeats (Some s) st tc t count (e, r)).2.2
  | ls_release e t : lstep r (ReleaseFrozenSeats (Some s) st tc t (e, r)).2.2
  | ls_confirm e t : lstep r (ConfirmFrozenSeats (Some s) st tc t (e, r)).2.2
  | ls_mark cooldown : 0 < cooldown -> lstep r (setex r (loadingKey (prefix s) st tc) "1" cooldown)
  | ls_elapse d : 0 <= d -> ~ (0 <= kttl r sk <= d) -> (forall p, ~ (0 <= kttl r (key p) <= d)) ->
      lstep r (kelapse r d).

Lemma lstep_refines r r' l : refines r l -> lstep r r' -> exists l', rtc astep l l' /\ refines r' l'.
Proof.
  intros Hr. destruct 1 as [e t count Hc|e t|e t|cd Hcd|d Hd Hsk Hk].
  - by apply freeze_method.
  - by apply release_method.
  - by apply confirm_method.
  - exists l. split; [apply rtc_refl|]. unfold setex. eapply refines_same; [exact Hr|..].
    + rewrite sget_expire, sget_sset, decide_False; [done|intros E; by apply (stock_not_loading (prefix s) st tc st tc)|done].
    + rewrite zset_expire, zset_sset, decide_False; [done|intros E; by apply (stock_not_loading (prefix s) st tc st tc)|done].
    + intros p. pose proof (place_key_not_loading (prefix s) st tc p st tc).
      rewrite sget_expire, zset_expire, sget_sset, zset_sset, !decide_False by auto. done.
  - exists l. split; [apply rtc_refl|]. eapply refines_same; [exact Hr|..].
    + by rewrite sget_elapse, decide_False.
    + by rewrite zset_elapse, decide_False.
    + intros p. by rewrite sget_elapse, zset_elapse, !decide_False.
Qed.

Lemma lrun_refines r r' l : refines r l -> rtc lstep r r' ->
  exists l', rtc astep l l' /\ refines r' l'.
Proof.
  intros Hr Hrun. revert l Hr. induction Hrun as [r|r r1 r' Hst Hrun IH]; intros l Hr.
  - exists l. split; [apply rtc_refl|done].
  - destruct (lstep_refines r r1 l Hr Hst) as (l1 & Hs1 & Hr1). destruct (IH l1 Hr1) as (l' & Hs' & Hr').
    exists l'. split; [by etrans|done].
Qed.

(** C31: the keys of a category implement one assignment of seats to places.  From a loaded
    ledger, and as long as none of its keys expires and it is neither cleared nor loaded
    again, every run of the store's other methods, with any faults, is a run of the
    abstract ledger, in which a seat goes from sale to a single token and from there to
    sold or back to sale. *)
Theorem seat_ledger_refines r r' l : refines r l -> rtc lstep r r' ->
  exists l', rtc astep l l' /\ refines r' l'.
Proof. apply lrun_refines. Qed.

(** *** Consequences on the abstract ledger *)

Lemma astep_dom l l' : astep l l' -> dom l' = dom l.
Proof.
  destruct 1 as [l t ms Hms _|l t|l t].
  - apply set_eq. intros m. rewrite !elem_of_dom, lookup_assign. destruct (decide (m ∈ ms)) as [Hm|]; [|done].
    rewrite Forall_forall in Hms. by rewrite (Hms m Hm).
  - apply dom_fmap_L.
  - apply dom_fmap_L.
Qed.

Lemma astep_sold l l' m : astep l l' -> l !! m = Some Sold -> l' !! m = Some Sold.
Proof.
  intros Hst Hm. destruct Hst as [l t ms Hms _|l t|l t].
  - rewrite lookup_assign. destruct (decide (m ∈ ms)) as [Hin|]; [|done].
    rewrite Forall_forall in Hms. specialize (Hms m Hin). congruence.
  - rewrite lookup_move_all, Hm. done.
  - rewrite lookup_move_all, Hm. done.
Qed.

Lemma run_sold l l' m : rtc astep l l' -> l !! m = Some Sold -> l' !! m = Some Sold.
Proof. induction 1; [done|]. intros. eauto using astep_sold. Qed.

Lemma run_dom l l' : rtc astep l l' -> dom l' = dom l.
Proof. induction 1 as [|l l1 l' Hst _ IH]; [done|]. rewrite IH. by apply astep_dom. Qed.

End methods.

(** ** The script chooses what [assignSeats] chooses *)

Definition seat_of (m : string) : Seat :=
  match decodeSeatMember m with Ok s => s | Err _ => mkSeat 0 0 0 0 0 end.
Definition candidate_of (s : Seat) : seatCandidate :=
  mkCandidate (SeatID s) (TicketCategoryID s) (RowCode s) (ColCode s) (f64 (Price s)).

(** Codes the columns of d_seat can hold, with columns below a million. *)
Definition placed_seat (s : Seat) : Prop := 0 <= RowCode s < 2 ^ 31 /\ 0 <= ColCode s < 1000000.

Lemma lua_codes m : is_ok (decodeSeatMember m) = true -> placed_seat (seat_of m) ->
  lua_row m = RowCode (seat_of m) /\ lua_col m = ColCode (seat_of m) /\
  lua_score m = RowCode (seat_of m) * 1000000 + ColCode (seat_of m).
Proof.
  unfold lua_score, lua_row, lua_col, seat_of, placed_seat. destruct (decodeSeatMember m) as [s|]; [|done].
  intros _ [Hr Hc]. rewrite !(f64_exact (RowCode s)), !(f64_exact (ColCode s)) by lia.
  rewrite !f64_exact; [done|lia|]. rewrite f64_exact by lia. lia.
Qed.

Lemma lua_next_go a b :
  is_ok (decodeSeatMember a) = true -> is_ok (decodeSeatMember b) = true ->
  placed_seat (seat_of a) -> placed_seat (seat_of b) -> lua_row a = lua_row b ->
  go_next (candidate_of (seat_of a)) (candidate_of (seat_of b)) = lua_next a b.
Proof.
  intros Ha Hb Pa Pb Hrow. unfold lua_next, go_next. cbn. rewrite Hrow, Z.eqb_refl. cbn.
  destruct (lua_codes a Ha Pa) as (_ & -> & _), (lua_codes b Hb Pb) as (_ & -> & _).
  destruct Pa, Pb. rewrite wrap64_id; [by rewrite f64_exact by lia|].
  unfold in_int64, min_int64, max_int64. apply andb_true_iff. lia.
Qed.

(** The order of a sorted set of seats is the order of their places. *)
Lemma members_in_order (z : gmap string Z) :
  (forall m sc, z !! m = Some sc -> sc = lua_score m /\ is_ok (decodeSeatMember m) = true) ->
  (forall m, m ∈ zmembers z -> placed_seat (seat_of m)) ->
  (forall m m', m ∈ zmembers z -> m' ∈ zmembers z -> RowCode (seat_of m) = RowCode (seat_of m') ->
     ColCode (seat_of m) = ColCode (seat_of m') -> m = m') ->
  StronglySorted (before sc_RowCode sc_ColCode) (map (fun m => candidate_of (seat_of m)) (zmembers z)).
Proof.
  intros Hsc Hpl Huniq. pose proof (NoDup_zmembers z) as Hnd. unfold zmembers in *.
  assert (Hel : forall x, x ∈ merge_sort zle (map_to_list z) -> z !! x.1 = Some x.2).
  { intros [m sc] Hx. rewrite merge_sort_Permutation in Hx. by apply elem_of_map_to_list in Hx. }
  pose proof (StronglySorted_merge_sort zle (map_to_list z)) as Hs. revert Hel Hnd Hpl Huniq.
  induction Hs as [|x l Hl IH Hall]; cbn; intros Hel Hnd Hpl Huniq; [constructor|].
  apply NoDup_cons in Hnd as [Hx Hnd]. constructor.
  - apply IH; [intros; apply Hel; by right|done|intros; apply Hpl; by right|].
    intros m m' Hm Hm'. apply Huniq; by right.
  - rewrite Forall_forall. intros c (m & -> & Hm)%list_elem_of_fmap.
    pose proof Hm as Hm0. apply list_elem_of_fmap in Hm as (y & -> & Hy).
    rewrite Forall_forall in Hall. specialize (Hall y Hy).
    destruct (Hsc x.1 x.2) as [Sx Dx]; [apply Hel; by left|].
    destruct (Hsc y.1 y.2) as [Sy Dy]; [apply Hel; by right|].
    assert (Px : placed_seat (seat_of x.1)) by (apply Hpl; by left).
    assert (Py : placed_seat (seat_of y.1)) by (apply Hpl; by right).
    destruct (lua_codes x.1 Dx Px) as (_ & _ & Ex), (lua_codes y.1 Dy Py) as (_ & _ & Ey).
    unfold before. cbn. destruct Px, Py. destruct Hall as [Hlt|[E _]]; [lia|].
    exfalso. apply Hx. replace x.1 with y.1; [done|]. apply Huniq; [by right|by left|lia|lia].
Qed.

Lemma decode_members ms : seat_members ms = true -> decode_seats ms = Ok (map seat_of ms).
Proof.
  induction ms as [|m ms IH]; cbn; [done|]. intros H. bool_norm. unfold seat_of at 1.
  destruct (decodeSeatMember m); [|done]. cbn. by rewrite IH.
Qed.

Lemma lift_bind {S A B} (a : A) (k : A -> M S B) x : (lift (Ok a) ≫= k) x = k a x.
Proof. done. Qed.

Section choice.
Context {R : Type} `{RedisZLaws R} (s : SeatStockStore) (st tc : Z).
Local Notation key := (place_key (prefix s) st tc).

(** C33: the Lua script and [assignSeats] implement the same choice.  Without faults,
    for a token that holds no seats, [FreezeAutoAssignedSeats] answers with the
    seats (or the error) that [assignSeats] gives for the seats on sale, as long
    as no two of them share a place. *)
Theorem freeze_is_assignSeats e r l t count candidates :
  refines (prefix s) st tc r l -> faults e = [] -> 0 < count ->
  zrange r (key (FrozenFor t)) = [] ->
  (forall m, m ∈ zrange r (key OnSale) -> placed_seat (seat_of m)) ->
  (forall m m', m ∈ zrange r (key OnSale) -> m' ∈ zrange r (key OnSale) ->
     RowCode (seat_of m) = RowCode (seat_of m') -> ColCode (seat_of m) = ColCode (seat_of m') -> m = m') ->
  candidates ≡ₚ map (fun m => candidate_of (seat_of m)) (zrange r (key OnSale)) ->
  map candidate_of <$> (FreezeAutoAssignedSeats (Some s) st tc t count (e, r)).1 = assignSeats candidates count.
Proof.
  intros Hr He Hc Hmine Hpl Huniq Hperm.
  destruct (freeze_script_spec (prefix s) st tc r l t count (stockTTLSeconds s) (seatTTLSeconds s) Hr Hc)
    as (v & r' & l' & Hs & _ & Hrep & _).
  unfold FreezeAutoAssignedSeats, Cache.with_store.
  assert (Hlen : length candidates = length (zrange r (key OnSale))) by (by rewrite Hperm, length_map).
  erewrite call_bind by done. unfold freeze_reply in Hrep. unfold assignSeats.
  destruct (Z.leb_spec count 0); [lia|]. rewrite Hlen.
  destruct (Z.ltb_spec (Z.of_nat (length (zrange r (key OnSale)))) count) as [|Hge].
  { destruct Hrep as [-> _]. reflexivity. }
  rewrite bool_decide_eq_true_2 in Hrep by done. cbn [negb] in Hrep. destruct Hrep as [-> _].
  rewrite decode_freeze_members, lift_bind. change (1 =? 1) with true. cbn iota.
  change (availableSeatsKey (prefix s) st tc) with (key OnSale).
  set (onsale := zrange r (key OnSale)) in *.
  assert (Hdec : seat_members onsale = true) by apply (members_decode _ _ _ r l OnSale Hr).
  assert (Hd : forall m, m ∈ onsale -> is_ok (decodeSeatMember m) = true).
  { intros m Hm. unfold seat_members in Hdec. rewrite forallb_forall in Hdec. by apply Hdec, list_elem_of_In. }
  destruct (select_spec lua_row lua_next onsale (Z.to_nat count)) as (_ & Hp & _); [lia|].
  rewrite decode_members.
  2: { apply forallb_forall. intros m Hm%list_elem_of_In. apply Hd. by eapply piece_elem. }
  cbn. f_equal. rewrite map_map. rewrite <- (select_map (fun m => candidate_of (seat_of m)) _ _ sc_RowCode go_next).
  - f_equal. apply (sorted_unique sc_RowCode sc_ColCode).
    + apply members_in_order; [intros m sc; apply (rf_scores _ _ _ _ _ Hr OnSale)|done|done].
    + apply candidates_sorted. rewrite Hperm, map_map. apply NoDup_fmap_2_strong; [|apply NoDup_zmembers].
      intros m m' Hm Hm' [= E1 E2]. by apply Huniq.
    + by rewrite merge_sort_Permutation, Hperm.
  - intros m Hm. by destruct (lua_codes m (Hd m Hm) (Hpl m Hm)) as (-> & _ & _).
  - intros a b Ha Hb Hrow. apply lua_next_go; auto.
Qed.
End choice.

(** ** Loading *)

Section load.
Context {R : Type} `{RedisZLaws R} (ld : seatStockLoader) (st tc : Z).
Local Notation sk := (stockKey (l_prefix ld) st tc).
Local Notation key := (place_key (l_prefix ld) st tc).

(** A row of d_seat the ledger can carry. *)
Definition row_ok (s : DSeat) : Prop :=
  placed_seat (newSeatFromModel s) /\ in_int64 (Id s) = true /\
  in_int64 (SeatDB.TicketCategoryId s) = true /\ in_int64 (SeatDB.Price s) = true.

Definition member (s : DSeat) : string := encodeSeatMember (newSeatFromModel s).

Lemma row_member s : row_ok s ->
  decodeSeatMember (member s) = Ok (newSeatFromModel s) /\
  seatSortScore (SeatDB.RowCode s) (SeatDB.ColCode s) = lua_score (member s).
Proof.
  intros (Hp & Hi & Ht & Hpr). destruct Hp as [Hr Hc]. cbn in Hr, Hc.
  assert (Hd : decodeSeatMember (member s) = Ok (newSeatFromModel s)).
  { apply decode_encode_seat; cbn; try done; unfold in_int64, min_int64, max_int64; apply andb_true_iff; lia. }
  split; [done|]. destruct (lua_codes (member s)) as (_ & _ & ->).
  - by rewrite Hd.
  - unfold seat_of. by rewrite Hd.
  - unfold seat_of. rewrite Hd. cbn. unfold seatSortScore. apply wrap64_id.
    unfold in_int64, min_int64, max_int64. apply andb_true_iff. lia.
Qed.

Lemma member_inj a b : member a = member b -> Id a = Id b.
Proof.
  unfold member, encodeSeatMember. cbn. intros E. by apply format_sep_inj in E as [? _].
Qed.

(** The ledger's sorted sets hold exactly [ps]. *)
Definition filled (r : R) (ps : list (place * string)) : Prop := forall p,
  sget r (key p) = None /\
  forall m, zset r (key p) !! m = if decide ((p, m) ∈ ps) then Some (lua_score m) else None.

Lemma addSeat_run e r p s ps v : faults e = [] -> row_ok s -> filled r ps ->
  sget r sk = v -> zset r sk = ∅ ->
  exists r', addSeat ld (key p) (newSeatFromModel s) (e, r) = (Ok tt, (e, r')) /\
    filled r' ((p, member s) :: ps) /\ sget r' sk = v /\ zset r' sk = ∅.
Proof.
  intros He Hs Hf Hv Hz. destruct (row_member s Hs) as [_ Hscore]. unfold addSeat, rcmd.
  erewrite call_bind by done.
  set (r1 := zadd r (key p) (seatSortScore (RowCode (newSeatFromModel s)) (ColCode (newSeatFromModel s)))
               (encodeSeatMember (newSeatFromModel s))).
  assert (Hsk : forall p, key p <> sk) by apply place_key_not_stock.
  assert (Hf1 : filled r1 ((p, member s) :: ps) /\ sget r1 sk = v /\ zset r1 sk = ∅).
  { destruct (Hf p) as [Hty _]. unfold r1. split_and!.
    - intros q. destruct (Hf q) as [Hq Hm]. rewrite sget_zadd by done. split; [done|]. intros m.
      rewrite zset_zadd by done. destruct (decide (key p = key q)) as [E|E].
      + apply place_key_inj in E as ->. cbn. rewrite Hscore. change (encodeSeatMember _) with (member s).
        destruct (decide (m = member s)) as [->|Hne].
        * rewrite lookup_insert_eq, decide_True by (by left). done.
        * rewrite lookup_insert_ne, Hm by done. apply decide_ext. rewrite elem_of_cons.
          split; [by right|]. intros [[= ->]|?]; done.
      + rewrite Hm. apply decide_ext. rewrite elem_of_cons. split; [by right|]. intros [[= -> _]|?]; done.
    - by rewrite sget_zadd.
    - by rewrite zset_zadd, decide_False. }
  destruct (Z.ltb_spec 0 (l_seatTTLSeconds ld)).
  - exists (kexpire r1 (key p) (l_seatTTLSeconds ld)). split; [by rewrite call_nofault by done|].
    destruct Hf1 as (Hf1 & Hv1 & Hz1). split_and!; [|by rewrite sget_expire|by rewrite zset_expire].
    intros q. rewrite sget_expire, zset_expire by done. apply Hf1.
  - by exists r1.
Qed.

Lemma add_rows_run e r pl rows ps v : faults e = [] -> Forall row_ok rows -> filled r ps ->
  sget r sk = v -> zset r sk = ∅ ->
  exists r', each (fun s => addSeat ld (key (pl s)) (newSeatFromModel s)) rows (e, r) = (Ok tt, (e, r')) /\
    filled r' (rev (map (fun s => (pl s, member s)) rows) ++ ps) /\ sget r' sk = v /\ zset r' sk = ∅.
Proof.
  intros He Hall. revert r ps. induction Hall as [|s rows Hs Hall IH]; intros r ps Hf Hv Hz; [by exists r|].
  destruct (addSeat_run e r (pl s) s ps v He Hs Hf Hv Hz) as (r1 & Hr1 & Hf1 & Hv1 & Hz1).
  destruct (IH r1 _ Hf1 Hv1 Hz1) as (r' & Hr' & Hf' & Hv' & Hz'). exists r'. split_and!; [|cbn [map rev]; by rewrite <- app_assoc|done..].
  cbn [each]. rewrite bind_unfold, Hr1. exact Hr'.
Qed.

Lemma kdel_all_views ks (r : R) k :
  sget (foldl kdel r ks) k = (if decide (k ∈ ks) then None else sget r k) /\
  zset (foldl kdel r ks) k = (if decide (k ∈ ks) then ∅ else zset r k).
Proof.
  revert r. induction ks as [|a ks IH]; intros r; cbn; [done|]. destruct (IH (kdel r a)) as [-> ->].
  rewrite sget_del, zset_del. destruct (decide (k ∈ ks)).
  - by rewrite !decide_True by (by right).
  - destruct (decide (a = k)) as [->|]; [by rewrite !decide_True by left|].
    by rewrite !decide_False by (intros [?|?]%elem_of_cons; done).
Qed.

Lemma not_exists (r : R) k : kexists r k = false -> sget r k = None /\ zset r k = ∅.
Proof.
  unfold kexists. intros E. bool_norm. split; [by apply eq_None_not_Some|done].
Qed.

Lemma frozen_key_prefix t : String.prefix (frozenSeatsPattern (l_prefix ld) st tc) (key (FrozenFor t)) = true.
Proof.
  cbn. unfold frozenSeatsKey. induction (frozenSeatsPattern _ _ _) as [|c p IH]; cbn; [by destruct t|].
  destruct (ascii_dec c c); [done|congruence].
Qed.

Lemma elem_of_rev {A} (x : A) l : x ∈ rev l <-> x ∈ l.
Proof. rewrite !list_elem_of_In. symmetry. apply in_rev. Qed.

(** The place of a row that was read with its status. *)
Definition frozen_place (s : DSeat) : place := FrozenFor (default "" (FreezeToken s)).

Definition loaded_pairs (available frozen sold : list DSeat) : list (place * string) :=
  map (fun s => (OnSale, member s)) available ++ map (fun s => (Sold, member s)) sold
  ++ map (fun s => (frozen_place s, member s)) frozen.

Definition loaded_ledger (available frozen sold : list DSeat) : ledger :=
  list_to_map (map (fun pm => (pm.2, pm.1)) (loaded_pairs available frozen sold)).

Lemma filled_refines r available frozen sold :
  filled r (rev (map (fun s => (frozen_place s, member s)) frozen) ++
            rev (map (fun s => (Sold, member s)) sold) ++ rev (map (fun s => (OnSale, member s)) available) ++ []) ->
  Forall row_ok (available ++ sold ++ frozen) -> NoDup (map Id (available ++ sold ++ frozen)) ->
  Z.of_nat (length (available ++ sold ++ frozen)) <= 2 ^ 53 ->
  sget r sk = Some (format_int (Z.of_nat (length available))) -> zset r sk = ∅ ->
  refines (l_prefix ld) st tc r (loaded_ledger available frozen sold).
Proof.
  intros Hf Hall Hnd Hsmall Hv Hz.
  assert (Hin : forall p m, (p, m) ∈ rev (map (fun s => (frozen_place s, member s)) frozen) ++
     rev (map (fun s => (Sold, member s)) sold) ++ rev (map (fun s => (OnSale, member s)) available) ++ [] <->
     (p, m) ∈ loaded_pairs available frozen sold).
  { intros p m. unfold loaded_pairs. rewrite app_nil_r, !elem_of_app, !elem_of_rev. tauto. }
  assert (Hmem : map (fun pm => pm.2) (loaded_pairs available frozen sold) = map member (available ++ sold ++ frozen)).
  { unfold loaded_pairs. by rewrite !map_app, !map_map. }
  assert (Hnd' : NoDup (map member (available ++ sold ++ frozen))).
  { apply NoDup_fmap_2_strong.
    - intros a b Ha Hb E%member_inj. by eapply NoDup_map_inj.
    - by eapply NoDup_fmap_1. }
  assert (Hlook : forall p m, loaded_ledger available frozen sold !! m = Some p <-> (p, m) ∈ loaded_pairs available frozen sold).
  { intros p m. unfold loaded_ledger. rewrite <- elem_of_list_to_map.
    - rewrite list_elem_of_fmap. split.
      + intros ([p' m'] & [= -> ->] & ?). done.
      + intros ?. by exists (p, m).
    - rewrite map_map. cbn. by rewrite Hmem. }
  split; try done.
  - unfold loaded_ledger. rewrite <- length_map_to_list, map_to_list_to_map.
    + rewrite length_map, <- (length_map (fun pm => pm.2)), Hmem, length_map. done.
    + change (NoDup (map fst (map (fun pm : place * string => (pm.2, pm.1)) (loaded_pairs available frozen sold)))).
      rewrite map_map. cbn. by rewrite Hmem.
  - destruct (Hf OnSale) as [_ Hl]. rewrite Hv. do 3 f_equal.
    rewrite <- (length_map member), <- size_dom. rewrite <- (size_list_to_set (C := gset string)).
    + f_equal. apply set_eq. intros m. rewrite elem_of_list_to_set, elem_of_dom, Hl.
      destruct (decide _) as [Hd|Hd]; rewrite Hin in Hd; unfold loaded_pairs in Hd; rewrite !elem_of_app in Hd.
      * split; [done|]. intros _. destruct Hd as [Hd|[Hd|Hd]]; apply list_elem_of_fmap in Hd as (x & [=] & ?); subst.
        apply list_elem_of_fmap. eauto.
      * split; [|by intros []]. intros (x & -> & ?)%list_elem_of_fmap. exfalso. apply Hd. left.
        apply list_elem_of_fmap. eauto.
    + rewrite !map_app in Hnd'. by apply NoDup_app in Hnd' as [? _].
  - intros p. apply Hf.
  - intros p m sc. destruct (Hf p) as [_ Hl]. rewrite Hl. destruct (decide _) as [Hd|]; [|done]. intros [= <-].
    split; [done|]. rewrite Hin in Hd.
    assert (Hm : m ∈ map member (available ++ sold ++ frozen)).
    { rewrite <- Hmem. apply list_elem_of_fmap. by exists (p, m). }
    apply list_elem_of_fmap in Hm as (x & -> & Hx). rewrite Forall_forall in Hall.
    by destruct (row_member x (Hall x Hx)) as [-> _].
  - intros p m. destruct (Hf p) as [_ Hl]. rewrite Hl, Hlook, <- Hin. destruct (decide _); split; try done; by intros [].
Qed.

Lemma each_ext {S A} (f g : A -> M S unit) xs x :
  (forall a y, a ∈ xs -> f a y = g a y) -> each f xs x = each g xs x.
Proof.
  revert x. induction xs as [|a xs IH]; intros x Hfg; [done|]. cbn. rewrite !bind_unfold, Hfg by left.
  destruct (g a x) as [[u|err] y]; [|done]. apply IH. intros b z Hb. apply Hfg. by right.
Qed.

Lemma cleared r : filled (foldl kdel r ([sk; availableSeatsKey (l_prefix ld) st tc;
    soldSeatsKey (l_prefix ld) st tc; loadingKey (l_prefix ld) st tc]
    ++ kkeys r (frozenSeatsPattern (l_prefix ld) st tc))) [].
Proof.
  intros p. destruct (kdel_all_views ([sk; availableSeatsKey (l_prefix ld) st tc;
    soldSeatsKey (l_prefix ld) st tc; loadingKey (l_prefix ld) st tc]
    ++ kkeys r (frozenSeatsPattern (l_prefix ld) st tc)) r (key p)) as [-> ->].
  destruct (decide _) as [Hin|Hin].
  - split; [done|]. intros m. rewrite lookup_empty, decide_False; [done|by intros ?%not_elem_of_nil].
  - assert (Hn : kexists r (key p) = false).
    { destruct p as [| |t]; [exfalso; apply Hin; set_solver..|]. apply not_true_iff_false. intros Hex. apply Hin.
      apply elem_of_app. right. apply kkeys_spec. split; [done|]. apply frozen_key_prefix. }
    apply not_exists in Hn as [-> ->]. split; [done|].
    intros m. rewrite lookup_empty, decide_False; [done|by intros ?%not_elem_of_nil].
Qed.

(** Loading establishes the ledger.  Whatever was in the keys of the category,
    a load without faults leaves exactly the assignment the rows describe:
    available rows on sale, sold rows sold, frozen rows with their tokens. *)
Theorem load_establishes e r available frozen sold :
  faults e = [] -> Forall row_ok (available ++ sold ++ frozen) ->
  NoDup (map Id (available ++ sold ++ frozen)) ->
  Z.of_nat (length (available ++ sold ++ frozen)) <= 2 ^ 53 ->
  Forall (fun s => exists t, FreezeToken s = Some t /\ t <> "") frozen ->
  exists r', rebuild ld st tc available frozen sold (e, r) = (Ok tt, (e, r')) /\
    refines (l_prefix ld) st tc r' (loaded_ledger available frozen sold).
Proof.
  intros He Hall Hnd Hsmall Htok. pose proof Hall as Hrows.
  apply Forall_app in Hrows as [Hav Hrows]. apply Forall_app in Hrows as [Hso Hfr].
  unfold rebuild, rcmd. erewrite call_bind by done. erewrite call_bind by done. erewrite call_bind by done.
  pose proof (cleared r) as Hc. set (r0 := foldl kdel r _) in *.
  set (count := format_int (Z.of_nat (length available))).
  set (r1 := if 0 <? l_stockTTLSeconds ld then setex r0 sk count (l_stockTTLSeconds ld) else sset r0 sk count).
  assert (H1 : filled r1 [] /\ sget r1 sk = Some count /\ zset r1 sk = ∅).
  { assert (Hset : filled (sset r0 sk count) [] /\ sget (sset r0 sk count) sk = Some count /\ zset (sset r0 sk count) sk = ∅).
    { split_and!; [|by rewrite sget_sset, decide_True|by rewrite zset_sset, decide_True].
      intros p. pose proof (place_key_not_stock (l_prefix ld) st tc p).
      rewrite sget_sset, zset_sset, !decide_False by auto. apply Hc. }
    unfold r1. destruct (Z.ltb_spec 0 (l_stockTTLSeconds ld)); [|done]. unfold setex.
    destruct Hset as (Hf & Hs & Hz). split_and!; [|by rewrite sget_expire|by rewrite zset_expire].
    intros p. rewrite sget_expire, zset_expire by done. apply Hf. }
  destruct H1 as (Hf1 & Hs1 & Hz1).
  destruct (add_rows_run e r1 (fun _ => OnSale) available [] (Some count)) as (r2 & E2 & Hf2 & Hs2 & Hz2); [done..|].
  destruct (add_rows_run e r2 (fun _ => Sold) sold _ (Some count) He Hso Hf2 Hs2 Hz2) as (r3 & E3 & Hf3 & Hs3 & Hz3).
  destruct (add_rows_run e r3 frozen_place frozen _ (Some count) He Hfr Hf3 Hs3 Hz3) as (r4 & E4 & Hf4 & Hs4 & Hz4).
  exists r4. split.
  - rewrite bind_unfold. cbn in E2, E3, E4. rewrite E2. rewrite bind_unfold, E3. rewrite <- E4.
    apply each_ext. intros s y Hs. rewrite Forall_forall in Htok. destruct (Htok s Hs) as (t & Et & Hne).
    rewrite Et. rewrite bool_decide_eq_false_2 by done. unfold frozen_place. by rewrite ?Et.
  - by apply filled_refines.
Qed.
End load.
