(* ===== verification/SeatDemo.v ===== *)
(** * A seat ledger at work

    The theorems on the seat ledger applied to a ledger in [MemZ], and the lapse of
    its keys: they have separate deadlines, so the available seats can be gone
    while the stock counter still offers them. *)
From Stdlib Require Import ZArith Lia Ascii String.
From stdpp Require Import base gmap sets list strings relations.
From S2P Require Import Prelude GoBase Effects Sql RedisZ SeatAssign SeatDB SeatStore SeatLedger.
Import Cache MemZ.
Open Scope string_scope.
Open Scope list_scope.
Open Scope Z_scope.

Definition demo_seat (id row col : Z) : DSeat :=
  mkSeatRow id 7 3 5 row col 1 100 1 None None 0 0 1.
Definition demo_rows : list DSeat := [demo_seat 11 1 1; demo_seat 12 1 3; demo_seat 13 2 6; demo_seat 14 2 7].

(** The default configuration: both kinds of keys live for four hours. *)
Definition demo_loader : seatStockLoader := mkLoader "l" 14400 14400 3.
Definition demo_store : SeatStockStore := mkStore "l" 14400 14400 (Some demo_loader).
Definition calm : env := mkEnv [] [] 0 [].

Definition demo_mem : mem := (rebuild demo_loader 3 5 demo_rows [] [] (calm, mem_empty)).2.2.

Lemma demo_rows_ok : Forall row_ok (demo_rows ++ [] ++ []).
Proof. repeat constructor; unfold placed_seat; cbn; try lia; try reflexivity. Qed.

Lemma demo_rows_unique : NoDup (map Id (demo_rows ++ [] ++ [])).
Proof. cbn. repeat (constructor; [set_solver|]). constructor. Qed.

Lemma load_establishes_witness :
  faults calm = [] /\ exists r', rebuild demo_loader 3 5 demo_rows [] [] (calm, mem_empty) = (Ok tt, (calm, r')) /\
    refines "l" 3 5 r' (loaded_ledger demo_rows [] []).
Proof.
  split; [reflexivity|].
  apply (load_establishes demo_loader 3 5 calm mem_empty demo_rows [] [] eq_refl demo_rows_ok demo_rows_unique).
  - cbn. lia.
  - constructor.
Defined.

Lemma demo_refines : refines "l" 3 5 demo_mem (loaded_ledger demo_rows [] []).
Proof.
  destruct load_establishes_witness as (_ & r' & E & Hr). unfold demo_mem. rewrite E. exact Hr.
Qed.

(** Two seats are frozen for a token and confirmed. *)
Definition demo_run1 : mem := (FreezeAutoAssignedSeats (Some demo_store) 3 5 "t" 2 (calm, demo_mem)).2.2.
Definition demo_run2 : mem := (ConfirmFrozenSeats (Some demo_store) 3 5 "t" (calm, demo_run1)).2.2.

Lemma demo_steps : rtc (lstep demo_store 3 5) demo_mem demo_run2.
Proof.
  apply (rtc_l _ demo_mem demo_run1 demo_run2); [|apply rtc_once].
  - unfold demo_run1. constructor. lia.
  - unfold demo_run2. apply ls_confirm.
Qed.

Lemma seat_ledger_refines_witness :
  exists l', rtc astep (loaded_ledger demo_rows [] []) l' /\ refines "l" 3 5 demo_run2 l'.
Proof. exact (seat_ledger_refines demo_store 3 5 demo_mem demo_run2 _ demo_refines demo_steps). Defined.


Lemma demo_on_sale : zrange demo_mem (place_key "l" 3 5 OnSale)
  = ["11|5|1|1|100"; "12|5|1|3|100"; "13|5|2|6|100"; "14|5|2|7|100"].
Proof. vm_compute. reflexivity. Qed.

Lemma freeze_is_assignSeats_witness :
  map candidate_of <$> (FreezeAutoAssignedSeats (Some demo_store) 3 5 "t" 2 (calm, demo_mem)).1
  = assignSeats (map (fun m => candidate_of (seat_of m)) (zrange demo_mem (place_key "l" 3 5 OnSale))) 2.
Proof.
  apply (freeze_is_assignSeats demo_store 3 5 calm demo_mem _ "t" 2 _ demo_refines eq_refl).
  - lia.
  - vm_compute. reflexivity.
  - intros m Hm. change (prefix demo_store) with "l" in Hm. rewrite demo_on_sale in Hm.
    repeat (apply elem_of_cons in Hm as [->|Hm]; [vm_compute; repeat split; congruence|]).
    by apply not_elem_of_nil in Hm.
  - intros m m' Hm Hm'. change (prefix demo_store) with "l" in Hm, Hm'. rewrite demo_on_sale in Hm, Hm'.
    repeat (apply elem_of_cons in Hm as [->|Hm];
      [repeat (apply elem_of_cons in Hm' as [->|Hm']; [vm_compute; congruence|]); by apply not_elem_of_nil in Hm'|]).
    by apply not_elem_of_nil in Hm.
  - reflexivity.
Defined.

(** A freeze, a confirmation 100 seconds later, and almost four hours. *)
Definition demo_later : mem :=
  kelapse (ConfirmFrozenSeats (Some demo_store) 3 5 "t" (calm, kelapse demo_run1 100)).2.2 14350.

(** The available seats can lapse before the stock counter.  With the default
    deadlines, a confirmation renews the counter but not the available seats: 14350
    seconds later the counter still offers two seats, no seat is available, and a
    freeze is answered "insufficient" without any reload. *)
Theorem available_lapses_first :
  sget demo_later (stockKey "l" 3 5) = Some "2" /\
  zrange demo_later (availableSeatsKey "l" 3 5) = [] /\
  (FreezeAutoAssignedSeats (Some demo_store) 3 5 "u" 1 (calm, demo_later)).1 = Err (EX ErrSeatInventoryInsufficient) /\
  sget (FreezeAutoAssignedSeats (Some demo_store) 3 5 "u" 1 (calm, demo_later)).2.2 (loadingKey "l" 3 5) = None.
Proof. repeat split; vm_compute; reflexivity. Qed.
