(* ===== verification/SeatFreeze.v ===== *)
(** * Freezing, confirming and releasing seats  (services/program-rpc/internal/logic)

    The handlers of the program service that move seats: they change the seat
    table in a transaction and the ledger in Redis, one after the other.  The
    state is the program service's world: its Redis, the seat table, the shows and
    programs, and the ticket categories.  The in-process locks serialize handlers
    of one category or token; a handler here runs by itself.  Parsing of local
    times is a parameter. *)
From Stdlib Require Import ZArith Lia Ascii String.
From stdpp Require Import base gmap sets list strings sorting.
From S2P Require Import Prelude GoBase Effects Sql FreezeToken ProgramDB RefundRule RedisZ SeatAssign SeatDB SeatStore SeatLedger.
Open Scope string_scope.
Open Scope list_scope.
Open Scope Z_scope.

Record world (R : Type) := mkWorld {
  w_redis : R; w_seats : list DSeat; w_programs : programdb; w_categories : list DTicketCategory }.
Arguments mkWorld {R} _ _ _ _.
Arguments w_redis {R} _.
Arguments w_seats {R} _.
Arguments w_programs {R} _.
Arguments w_categories {R} _.

Record AutoAssignReq := mkAssignReq {
  as_ShowTimeId : Z; as_TicketCategoryId : Z; as_Count : Z; as_FreezeToken : string; as_FreezeExpireTime : string }.
Record SeatInfo := mkSeatInfo {
  si_SeatId : Z; si_TicketCategoryId : Z; si_RowCode : Z; si_ColCode : Z; si_Price : Z }.
Record AutoAssignResp := mkAssignResp {
  ar_FreezeToken : string; ar_ExpireTime : time; ar_Seats : list SeatInfo }.
Record ReleaseSoldReq := mkSoldReq { rs_ShowTimeId : Z; rs_SeatIds : list Z; rs_RequestNo : string }.

Definition invalidParam : err := statusX InvalidArgument ErrInvalidParam.

Section handlers.
Context {R : Type} `{RedisZ R} `{LocalTime}.

Definition on_redis {A} : IO R A -> IO (world R) A :=
  on w_redis (fun r w => mkWorld r (w_seats w) (w_programs w) (w_categories w)).
Definition on_seats {A} : IO (list DSeat) A -> IO (world R) A :=
  on w_seats (fun s w => mkWorld (w_redis w) s (w_programs w) (w_categories w)).
Definition on_programs {A} : IO programdb A -> IO (world R) A :=
  on w_programs (fun p w => mkWorld (w_redis w) (w_seats w) p (w_categories w)).
Definition on_categories {A} : IO (list DTicketCategory) A -> IO (world R) A :=
  on w_categories (fun c w => mkWorld (w_redis w) (w_seats w) (w_programs w) c).

(** The store of the service context: nil without a Redis client. *)
Variable store : option Cache.SeatStockStore.

(** [if errors.Is(err, model.ErrNotFound) { return x }; return err]. *)
Definition or_not_found (x e : err) : err := if err_is e ENotFound then x else e.

(** ** auto_assign_and_freeze_seats_logic.go *)

Definition validateAutoAssignAndFreezeSeatsReq (r : AutoAssignReq) : bool :=
  if (as_ShowTimeId r <=? 0) || (as_TicketCategoryId r <=? 0) || (as_Count r <=? 0)
     || bool_decide (as_FreezeToken r = "") then false
  else match ParseToken (as_FreezeToken r) with
  | Err _ => false
  | Ok t => negb (negb (FreezeToken.ShowTimeID t =? as_ShowTimeId r)
                  || negb (FreezeToken.TicketCategoryID t =? as_TicketCategoryId r))
  end.

Definition mapAutoAssignSeatError (e : err) : err :=
  if negb (bool_decide (status_code e = UnknownCode)) then e
  else if err_is_x e ErrProgramShowTimeNotFound then statusX NotFound ErrProgramShowTimeNotFound
  else if err_is_x e ErrProgramTicketCategoryNotFound then statusX NotFound ErrProgramTicketCategoryNotFound
  else if err_is_x e ErrSeatInventoryInsufficient then statusX FailedPrecondition ErrSeatInventoryInsufficient
  else if err_is_x e ErrSeatFreezeRequestConflict then statusX FailedPrecondition ErrSeatFreezeRequestConflict
  else if err_is_x e ErrProgramSeatLedgerNotReady then statusX FailedPrecondition ErrProgramSeatLedgerNotReady
  else if err_is_x e ErrSeatFreezeStatusInvalid then statusX FailedPrecondition ErrSeatFreezeStatusInvalid
  else e.

Definition findTicketCategory (cs : list DTicketCategory) (id : Z) : option DTicketCategory :=
  find (fun c => tc_Id c =? id) cs.

Definition seatCandidateIDs (seats : list seatCandidate) : list Z := map sc_ID seats.

Definition toSeatInfoList (seats : list seatCandidate) : list SeatInfo :=
  map (fun s => mkSeatInfo (sc_ID s) (sc_TicketCategoryID s) (sc_RowCode s) (sc_ColCode s) (sc_Price s)) seats.

Definition parseFreezeExpireTime (value : string) : result err time :=
  if bool_decide (value = "") then Err (EX ErrInvalidParam)
  else match parse_local value with
  | None => Err (EX ErrInvalidParam)
  | Some t => if is_zero_time t then Err (EX ErrInvalidParam) else Ok t
  end.

(** The loop of [validateFrozenSeatsPersistedInDB] over the rows of the token. *)
Fixpoint check_persisted (showTimeID ticketCategoryID : Z) (expected : gset Z) (expireTime : time)
  (dbSeats : list DSeat) : result err (gset Z * time) :=
  match dbSeats with
  | [] => Ok (expected, expireTime)
  | s :: rest =>
      if negb (SeatDB.ShowTimeId s =? showTimeID) || negb (SeatDB.TicketCategoryId s =? ticketCategoryID)
         || negb (SeatStatus s =? 2) then Err (EX ErrSeatFreezeRequestConflict)
      else if negb (bool_decide (Id s ∈ expected)) then Err (EX ErrSeatFreezeRequestConflict)
      else match FreezeExpireTime s with
      | None => Err (EX ErrSeatFreezeStatusInvalid)
      | Some t =>
          let expected := expected ∖ {[Id s]} in
          if is_zero_time expireTime then check_persisted showTimeID ticketCategoryID expected t rest
          else if negb (expireTime =? t) then Err (EX ErrSeatFreezeStatusInvalid)
          else check_persisted showTimeID ticketCategoryID expected expireTime rest
      end
  end.

Definition validateFrozenSeatsPersistedInDB (showTimeID ticketCategoryID : Z) (freezeToken : string)
  (seats : list Cache.Seat) : IO (world R) time :=
  dbSeats ← on_seats (call (FindByFreezeToken freezeToken));
  if negb (length dbSeats =? length seats)%nat then throw (EX ErrSeatFreezeRequestConflict)
  else
    '(expected, expireTime) ← lift (check_persisted showTimeID ticketCategoryID
        (list_to_set (map Cache.SeatID seats)) zero_time dbSeats);
    if negb (bool_decide (expected = ∅)) then throw (EX ErrSeatFreezeRequestConflict) else mret expireTime.

Definition buildExistingSeatFreezeResp (r : AutoAssignReq) (seats : list Cache.Seat) : IO (world R) AutoAssignResp :=
  if negb (Z.of_nat (length seats) =? as_Count r) then throw (EX ErrSeatFreezeRequestConflict)
  else
    expireTime ← validateFrozenSeatsPersistedInDB (as_ShowTimeId r) (as_TicketCategoryId r) (as_FreezeToken r) seats;
    mret (mkAssignResp (as_FreezeToken r) expireTime (toSeatInfoList (map candidate_of seats))).

(** The transaction of [persistFrozenSeatsToDB]. *)
Definition persist_tx (showTimeID : Z) (seatIDs : list Z) (freezeToken : string) (expireTime : time)
  : IO (list DSeat) unit :=
  seats ← call (FindByShowTimeAndIDsForUpdate showTimeID seatIDs);
  if negb (length seats =? length seatIDs)%nat then throw (EX ErrSeatFreezeStatusInvalid)
  else if existsb (fun s => negb (SeatStatus s =? 1)) seats then throw (EX ErrSeatFreezeStatusInvalid)
  else
    now ← now;
    call (BatchFreezeByShowTimeAndIDs showTimeID seatIDs freezeToken expireTime now).

Definition persistFrozenSeatsToDB (showTimeID : Z) (seatIDs : list Z) (freezeToken : string) (expireTime : time)
  : IO (world R) unit :=
  match seatIDs with
  | [] => throw (EX ErrSeatInventoryInsufficient)
  | _ => on_seats (transact (persist_tx showTimeID seatIDs freezeToken expireTime))
  end.

(** [_ = seatStore.ReleaseFrozenSeats(...)]: the compensation ignores its error. *)
Definition release_ledger (st tc : Z) (t : string) : IO (world R) unit :=
  _ ← attempt (on_redis (Cache.ReleaseFrozenSeats store st tc t)); mret tt.

Definition freeze_new (r : AutoAssignReq) : IO (world R) AutoAssignResp :=
  let st := as_ShowTimeId r in let tc := as_TicketCategoryId r in let t := as_FreezeToken r in
  dbSeats ← on_seats (call (FindByFreezeToken t));
  if (0 <? length dbSeats)%nat then throw (EX ErrSeatFreezeStatusInvalid)
  else
    reserved ← on_redis (Cache.FreezeAutoAssignedSeats store st tc t (as_Count r));
    let selected := map candidate_of reserved in
    match parseFreezeExpireTime (as_FreezeExpireTime r) with
    | Err _ => _ ← release_ledger st tc t; throw (EX ErrInvalidParam)
    | Ok expireTime =>
        res ← attempt (persistFrozenSeatsToDB st (seatCandidateIDs selected) t expireTime);
        match res with
        | Err e => _ ← release_ledger st tc t; throw e
        | Ok _ => mret (mkAssignResp t expireTime (toSeatInfoList selected))
        end
    end.

Definition AutoAssignAndFreezeSeats (r : AutoAssignReq) : IO (world R) AutoAssignResp :=
  if negb (validateAutoAssignAndFreezeSeatsReq r) then throw invalidParam
  else map_err mapAutoAssignSeatError (
    match store with
    | None => throw (EX ErrProgramSeatLedgerNotReady)
    | Some _ =>
      _ ← map_err (or_not_found (EX ErrProgramShowTimeNotFound)) (on_programs (call (findShowTime (as_ShowTimeId r))));
      categories ← map_err (or_not_found (EX ErrProgramTicketCategoryNotFound))
                    (on_categories (call (findCategories (as_ShowTimeId r))));
      match findTicketCategory categories (as_TicketCategoryId r) with
      | None => throw (EX ErrProgramTicketCategoryNotFound)
      | Some _ =>
          existing ← on_redis (Cache.FrozenSeats store (as_ShowTimeId r) (as_TicketCategoryId r) (as_FreezeToken r));
          if (0 <? length existing)%nat then buildExistingSeatFreezeResp r existing
          else freeze_new r
      end
    end).

(** ** seat_freeze_db_state.go *)

Record seatFreezeDBState := mkDBState { fs_token : Token; dbSeats : list DSeat; allFrozen : bool; allSold : bool }.

Definition loadSeatFreezeDBState (freezeToken : string) : IO (world R) seatFreezeDBState :=
  match ParseToken freezeToken with
  | Err _ => throw (EX ErrInvalidParam)
  | Ok token =>
      seats ← on_seats (call (FindByFreezeToken freezeToken));
      if existsb (fun s => negb (SeatDB.ShowTimeId s =? FreezeToken.ShowTimeID token)
                           || negb (SeatDB.TicketCategoryId s =? FreezeToken.TicketCategoryID token)) seats
      then throw (EX ErrSeatFreezeStatusInvalid)
      else
        let some := (0 <? length seats)%nat in
        mret (mkDBState token seats (some && forallb (fun s => SeatStatus s =? 2) seats)
                (some && forallb (fun s => SeatStatus s =? 3) seats))
  end.

(** ** confirm_seat_freeze_logic.go and release_seat_freeze_logic.go *)

Definition mapSeatFreezeError (e : err) : err :=
  if negb (bool_decide (status_code e = UnknownCode)) then e
  else if err_is_x e ErrSeatFreezeNotFound then statusX NotFound ErrSeatFreezeNotFound
  else if err_is_x e ErrSeatFreezeStatusInvalid then statusX FailedPrecondition ErrSeatFreezeStatusInvalid
  else if err_is_x e ErrProgramSeatLedgerNotReady then statusX FailedPrecondition ErrProgramSeatLedgerNotReady
  else e.

(** The transaction both handlers run: the frozen rows are locked and checked, then
    updated. *)
Definition frozen_tx (showTimeID : Z) (seatIDs : list Z) (freezeToken : string)
  (update : IO (list DSeat) unit) : IO (list DSeat) unit :=
  seats ← call (FindByShowTimeAndIDsForUpdate showTimeID seatIDs);
  if negb (length seats =? length seatIDs)%nat then throw (EX ErrSeatFreezeStatusInvalid)
  else if existsb (fun s => negb (SeatStatus s =? 2) || negb (has_token freezeToken s)) seats
  then throw (EX ErrSeatFreezeStatusInvalid)
  else update.

Definition confirm_update (st : Z) (ids : list Z) (t : string) (now : time) : IO (list DSeat) unit :=
  edit ← Effects.now; call (BatchConfirmByShowTimeAndIDs st ids t now edit).

Definition release_update (st : Z) (ids : list Z) (t : string) : IO (list DSeat) unit :=
  edit ← Effects.now; call (ReleaseFrozenByShowTimeAndIDs st ids t edit).

Definition ConfirmSeatFreeze (freezeToken : string) : IO (world R) unit :=
  if bool_decide (freezeToken = "") then throw invalidParam
  else
    now ← now;
    map_err mapSeatFreezeError (
    match store with
    | None => throw (EX ErrProgramSeatLedgerNotReady)
    | Some _ =>
      state ← loadSeatFreezeDBState freezeToken;
      if (length (dbSeats state) =? 0)%nat then throw (EX ErrSeatFreezeNotFound)
      else if allSold state then mret tt
      else if negb (allFrozen state) then throw (EX ErrSeatFreezeStatusInvalid)
      else
        let st := FreezeToken.ShowTimeID (fs_token state) in let tc := FreezeToken.TicketCategoryID (fs_token state) in
        frozenSeats ← on_redis (Cache.FrozenSeats store st tc freezeToken);
        if (length frozenSeats =? 0)%nat || negb (length frozenSeats =? length (dbSeats state))%nat
        then throw (EX ErrSeatFreezeStatusInvalid)
        else
          let ids := map Cache.SeatID frozenSeats in
          _ ← on_seats (transact (frozen_tx st ids freezeToken (confirm_update st ids freezeToken now)));
          on_redis (Cache.ConfirmFrozenSeats store st tc freezeToken)
    end).

Definition ReleaseSeatFreeze (freezeToken : string) : IO (world R) unit :=
  if bool_decide (freezeToken = "") then throw invalidParam
  else map_err mapSeatFreezeError (
    match store with
    | None => throw (EX ErrProgramSeatLedgerNotReady)
    | Some _ =>
      state ← loadSeatFreezeDBState freezeToken;
      let st := FreezeToken.ShowTimeID (fs_token state) in let tc := FreezeToken.TicketCategoryID (fs_token state) in
      if (length (dbSeats state) =? 0)%nat then
        res ← attempt (on_redis (Cache.ReleaseFrozenSeats store st tc freezeToken));
        match res with
        | Err e => if negb (err_is_x e ErrProgramSeatLedgerNotReady) then throw e else mret tt
        | Ok _ => mret tt
        end
      else if allSold state then throw (EX ErrSeatFreezeStatusInvalid)
      else if negb (allFrozen state) then throw (EX ErrSeatFreezeStatusInvalid)
      else
        frozenSeats ← on_redis (Cache.FrozenSeats store st tc freezeToken);
        if (length frozenSeats =? 0)%nat || negb (length frozenSeats =? length (dbSeats state))%nat
        then throw (EX ErrSeatFreezeStatusInvalid)
        else
          let ids := map Cache.SeatID frozenSeats in
          _ ← on_seats (transact (frozen_tx st ids freezeToken (release_update st ids freezeToken)));
          on_redis (Cache.ReleaseFrozenSeats store st tc freezeToken)
    end).

(** ** release_sold_seats_logic.go *)

Fixpoint keep_seat_ids (seen : list Z) (ids : list Z) : list Z :=
  match ids with
  | [] => []
  | i :: ids => if (i <=? 0) || bool_decide (i ∈ seen) then keep_seat_ids seen ids
                else i :: keep_seat_ids (i :: seen) ids
  end.
Definition uniqueSeatIDs (ids : list Z) : list Z := keep_seat_ids [] ids.

Definition sold_tx (st : Z) (ids : list Z) : IO (list DSeat) unit :=
  seats ← call (FindByShowTimeAndIDsForUpdate st ids);
  if negb (length seats =? length ids)%nat then throw (EStatus NotFound "seat not found")
  else if existsb (fun s => negb (SeatStatus s =? 1) && negb (SeatStatus s =? 3)) seats
  then throw (EStatus FailedPrecondition "seat status invalid")
  else edit ← now; call (ReleaseSoldByShowTimeAndIDs st ids edit).

Definition ReleaseSoldSeats (r : ReleaseSoldReq) : IO (world R) unit :=
  if (rs_ShowTimeId r <=? 0) || (length (rs_SeatIds r) =? 0)%nat || bool_decide (rs_RequestNo r = "")
  then throw invalidParam
  else
    showTime ← map_err (or_not_found (EStatus NotFound "show time not found"))
                (on_programs (call (findShowTime (rs_ShowTimeId r))));
    program ← map_err (or_not_found programNotFoundError) (on_programs (call (findProgram (st_ProgramId showTime))));
    blocked ← isRefundBlockedDuringRushSale program zero_time;
    if (blocked : bool) then throw (EStatus FailedPrecondition rushSaleRefundBlockedReason)
    else on_seats (transact (sold_tx (rs_ShowTimeId r) (uniqueSeatIDs (rs_SeatIds r)))).

(** ** prime_seat_ledger_logic.go and the loader's reads *)

(** [LoadSync]; the rows are read before anything is deleted. *)
Definition LoadSync (l : Cache.seatStockLoader) (st tc : Z) : IO (world R) unit :=
  available ← on_seats (call (FindByShowTimeAndTicketCategoryAndSeatStatus st tc Cache.seatStatusAvailable));
  frozen ← on_seats (call (FindByShowTimeAndTicketCategoryAndSeatStatus st tc Cache.seatStatusFrozen));
  sold ← on_seats (call (FindByShowTimeAndTicketCategoryAndSeatStatus st tc Cache.seatStatusSold));
  on_redis (Cache.rebuild l st tc available frozen sold).

Definition PrimeFromDB (st tc : Z) : IO (world R) unit :=
  match store with
  | None => throw (EX ErrProgramSeatLedgerNotReady)
  | Some s => match Cache.loader s with
              | None => throw (EX ErrProgramSeatLedgerNotReady)
              | Some l => LoadSync l st tc
              end
  end.

Definition mapPrimeSeatLedgerError (e : err) : err :=
  if negb (bool_decide (status_code e = UnknownCode)) then e
  else if err_is_x e ErrInvalidParam then statusX InvalidArgument ErrInvalidParam
  else if err_is_x e ErrProgramShowTimeNotFound then statusX NotFound ErrProgramShowTimeNotFound
  else if err_is_x e ErrProgramTicketCategoryNotFound then statusX NotFound ErrProgramTicketCategoryNotFound
  else if err_is_x e ErrProgramSeatLedgerNotReady then statusX FailedPrecondition ErrProgramSeatLedgerNotReady
  else if err_is_x e ErrInternal then statusX InternalCode ErrInternal
  else e.

Definition primeSeatLedger (showTimeID : Z) : IO (world R) unit :=
  match store with
  | None => throw (EX ErrProgramSeatLedgerNotReady)
  | Some _ =>
      if showTimeID <=? 0 then throw (EX ErrInvalidParam)
      else
        _ ← map_err (or_not_found (EX ErrProgramShowTimeNotFound)) (on_programs (call (findShowTime showTimeID)));
        categories ← map_err (or_not_found (EX ErrProgramTicketCategoryNotFound))
                      (on_categories (call (findCategories showTimeID)));
        each (fun c => if tc_Id c <=? 0 then mret tt else PrimeFromDB showTimeID (tc_Id c)) categories
  end.

Definition PrimeSeatLedger (showTimeID : Z) : IO (world R) unit :=
  if showTimeID <=? 0 then throw invalidParam else map_err mapPrimeSeatLedgerError (primeSeatLedger showTimeID).

End handlers.

(** ** What a handler may do to a row *)

(** Everything but the state of the seat. *)
Definition same_seat (s s' : DSeat) : Prop :=
  Id s' = Id s /\ ProgramId s' = ProgramId s /\ SeatDB.ShowTimeId s' = SeatDB.ShowTimeId s /\
  SeatDB.TicketCategoryId s' = SeatDB.TicketCategoryId s /\ SeatDB.RowCode s' = SeatDB.RowCode s /\
  SeatDB.ColCode s' = SeatDB.ColCode s /\ SeatDB.Price s' = SeatDB.Price s /\ Status s' = Status s.

Inductive seat_op := Freeze (t : string) | Confirm (t : string) | Release (t : string) | ReleaseSold.

Definition seat_moved (op : seat_op) (s s' : DSeat) : Prop :=
  Status s = 1 /\ same_seat s s' /\
  match op with
  | Freeze t => SeatStatus s = 1 /\ SeatStatus s' = 2 /\ FreezeToken s' = Some t
  | Confirm t => SeatStatus s = 2 /\ FreezeToken s = Some t /\ SeatStatus s' = 3 /\ FreezeToken s' = Some t
  | Release t => SeatStatus s = 2 /\ FreezeToken s = Some t /\ SeatStatus s' = 1 /\ FreezeToken s' = None
  | ReleaseSold => SeatStatus s = 3 /\ SeatStatus s' = 1 /\ FreezeToken s' = None
  end.

Definition seat_step (op : seat_op) (s s' : DSeat) : Prop := s' = s \/ seat_moved op s s'.

#[global] Instance seat_step_refl op : Reflexive (seat_step op).
Proof. intros s. by left. Qed.

#[global] Instance seat_step_trans op : Transitive (seat_step op).
Proof.
  intros a b c [->|Hab] [->|Hbc]; try (by left); try (by right).
  exfalso. destruct Hab as (_ & _ & Hab), Hbc as (_ & _ & Hbc).
  destruct op; intuition congruence.
Qed.

Definition rows_step (op : seat_op) : list DSeat -> list DSeat -> Prop := Forall2 (seat_step op).

Lemma rows_step_refl op db : rows_step op db db.
Proof. unfold rows_step. induction db; constructor; [by left|done]. Qed.

Lemma rows_step_trans op a b c : rows_step op a b -> rows_step op b c -> rows_step op a c.
Proof. unfold rows_step. intros. by etrans. Qed.

(** An update that moves the rows it selects. *)
Lemma update_rows_step op p f (db : list DSeat) :
  (forall s, p s = true -> seat_moved op s (f s)) -> rows_step op db (update_where p f db).
Proof.
  intros Hf. eapply Forall2_impl; [apply update_where_rows|]. cbn. intros s s' ->.
  destruct (p s) eqn:E; [right; auto|by left].
Qed.

Lemma seats_at_spec st n ids s : seats_at st n ids s = true ->
  Status s = 1 /\ SeatDB.ShowTimeId s = st /\ SeatStatus s = n /\ Id s ∈ ids.
Proof. unfold seats_at, in_ids. intros E. by bool_norm. Qed.

Lemma set_seat_same n t x e s : same_seat s (set_seat n t x e s).
Proof. by repeat split. Qed.

Lemma freeze_rows st ids t exp nw db db' :
  BatchFreezeByShowTimeAndIDs st ids t exp nw db = (Ok tt, db') -> rows_step (Freeze t) db db'.
Proof.
  destruct ids as [|i ids]; [intros [= <-]; apply rows_step_refl|].
  intros ->%update_token_ok. apply update_rows_step. intros s Hs. apply seats_at_spec in Hs as (H1 & _ & H2 & _).
  split_and!; [done|apply set_seat_same|done..].
Qed.

Lemma confirm_rows st ids t exp nw db db' :
  BatchConfirmByShowTimeAndIDs st ids t exp nw db = (Ok tt, db') -> rows_step (Confirm t) db db'.
Proof.
  destruct ids as [|i ids]; [intros [= <-]; apply rows_step_refl|].
  intros ->%update_token_ok. apply update_rows_step. intros s Hs. bool_norm. unfold has_token in *. bool_norm.
  apply seats_at_spec in H as (H1 & _ & H2 & _). split_and!; [done|apply set_seat_same|done..].
Qed.

Lemma release_rows st ids t nw db db' :
  ReleaseFrozenByShowTimeAndIDs st ids t nw db = (Ok tt, db') -> rows_step (Release t) db db'.
Proof.
  destruct ids as [|i ids]; [intros [= <-]; apply rows_step_refl|].
  intros [= <-]. apply update_rows_step. intros s Hs. bool_norm. unfold has_token in *. bool_norm.
  apply seats_at_spec in H as (H1 & _ & H2 & _). split_and!; [done|apply set_seat_same|done..].
Qed.

Lemma sold_rows st ids nw db db' :
  ReleaseSoldByShowTimeAndIDs st ids nw db = (Ok tt, db') -> rows_step ReleaseSold db db'.
Proof.
  destruct ids as [|i ids]; [intros [= <-]; apply rows_step_refl|].
  intros [= <-]. apply update_rows_step. intros s Hs.
  apply seats_at_spec in Hs as (H1 & _ & H2 & _). split_and!; [done|apply set_seat_same|done..].
Qed.

Section lifecycle.
Context {R : Type} `{RedisZ R} `{LocalTime} (store : option Cache.SeatStockStore).

(** A property of the seat table only. *)
Definition of_seats (Q : list DSeat -> Prop) (w : world R) : Prop := Q (w_seats w).

Lemma keeps_redis {A} Q (m : IO R A) : keeps (of_seats Q) (on_redis m).
Proof. intros [e w] Hw. unfold on_redis, on. by destruct (m (e, w_redis w)) as [r [e' t]]. Qed.
Lemma keeps_programs {A} Q (m : IO programdb A) : keeps (of_seats Q) (on_programs (R := R) m).
Proof. intros [e w] Hw. unfold on_programs, on. by destruct (m (e, w_programs w)) as [r [e' t]]. Qed.
Lemma keeps_categories {A} Q (m : IO (list DTicketCategory) A) : keeps (of_seats Q) (on_categories (R := R) m).
Proof. intros [e w] Hw. unfold on_categories, on. by destruct (m (e, w_categories w)) as [r [e' t]]. Qed.
Lemma keeps_seats {A} Q (m : IO (list DSeat) A) : keeps Q m -> keeps (of_seats Q) (on_seats (R := R) m).
Proof.
  intros Hm [e w] Hw. unfold on_seats, on. specialize (Hm (e, w_seats w) Hw).
  by destruct (m (e, w_seats w)) as [r [e' t]].
Qed.
Lemma keeps_read {A} (Q : list DSeat -> Prop) (m : M (list DSeat) A) : readonly m -> keeps Q (call m).
Proof. intros Hm. apply keeps_call. intros s Hs. by rewrite Hm. Qed.

Lemma keeps_blocked Q p t : keeps (of_seats Q) (isRefundBlockedDuringRushSale (S := world R) p t).
Proof.
  unfold isRefundBlockedDuringRushSale. destruct (pg_RushSaleOpenTime p); [|apply keeps_ret].
  destruct (pg_RushSaleEndTime p); [|apply keeps_ret]. apply keeps_bind.
  - destr_if; [apply keeps_now|apply keeps_ret].
  - intros n. destr_if; apply keeps_ret.
Qed.

(** The rows a locked read returns do not change before the update. *)
Lemma body_after_find (Q : list DSeat -> Prop) st ids (k : list DSeat -> IO (list DSeat) unit) :
  (forall l, body_ok Q (k l)) -> body_ok Q (call (FindByShowTimeAndIDsForUpdate st ids) ≫= k).
Proof.
  intros Hk e s a e' s' Hs (l & [e1 s1] & Hf & Hr)%bind_ok.
  pose proof (call_readonly _ _ _ _ _ _ (find_for_update_readonly st ids) Hf) as ->.
  by eapply Hk.
Qed.

Lemma body_now_call (Q : list DSeat -> Prop) (m : Z -> M (list DSeat) unit) :
  (forall n db db', Q db -> m n db = (Ok tt, db') -> Q db') -> body_ok Q (n ← now; call (m n)).
Proof.
  intros Hm e s [] e' s' Hs (n & [e1 s1] & Hn & Hr)%bind_ok. apply now_state in Hn as [-> _].
  apply call_ok in Hr. by eapply Hm.
Qed.

Lemma body_throw (Q : list DSeat -> Prop) {A} x : body_ok Q (throw x : IO (list DSeat) A).
Proof. by intros e s a e' s' _ []%throw_ok. Qed.

Lemma persist_step db0 st ids t exp : keeps (rows_step (Freeze t) db0) (transact (persist_tx st ids t exp)).
Proof.
  apply transact_keeps. apply body_after_find. intros l. destr_if; [apply body_throw|].
  destr_if; [apply body_throw|]. apply body_now_call. intros n db db' Hs Hu.
  eapply rows_step_trans; [exact Hs|by eapply freeze_rows].
Qed.

Lemma frozen_step op db0 st ids t update : body_ok (rows_step op db0) update ->
  keeps (rows_step op db0) (transact (frozen_tx st ids t update)).
Proof.
  intros Hu. apply transact_keeps. apply body_after_find. intros l. destr_if; [apply body_throw|].
  by destr_if; [apply body_throw|].
Qed.

Lemma sold_step db0 st ids : keeps (rows_step ReleaseSold db0) (transact (sold_tx st ids)).
Proof.
  apply transact_keeps. apply body_after_find. intros l. destr_if; [apply body_throw|].
  destr_if; [apply body_throw|]. apply body_now_call. intros n db db' Hs Hu.
  eapply rows_step_trans; [exact Hs|by eapply sold_rows].
Qed.

(** Steps through a handler whose only change of the seat table is [t]. *)
Ltac keep_with t :=
  repeat first
    [ t | apply keeps_ret | apply keeps_throw | apply keeps_lift | apply keeps_redis | apply keeps_programs
    | apply keeps_categories | apply keeps_now | apply keeps_blocked
    | apply keeps_map_err | apply keeps_attempt
    | apply keeps_seats, keeps_read; intros ?; reflexivity
    | apply keeps_bind; [|intros ?]
    | match goal with
      | |- keeps _ (if ?b then _ else _) => destruct b
      | |- keeps _ (match ?x with _ => _ end) => destruct x
      | |- keeps _ (let '(_, _) := ?x in _) => destruct x
      end ].

Lemma load_state_keeps Q t : keeps (of_seats Q) (loadSeatFreezeDBState (R := R) t).
Proof. unfold loadSeatFreezeDBState. keep_with fail. Qed.

Lemma auto_assign_rows r db0 :
  keeps (of_seats (rows_step (Freeze (as_FreezeToken r)) db0)) (AutoAssignAndFreezeSeats store r).
Proof.
  unfold AutoAssignAndFreezeSeats, buildExistingSeatFreezeResp, validateFrozenSeatsPersistedInDB, freeze_new,
    release_ledger, persistFrozenSeatsToDB.
  keep_with ltac:(apply keeps_seats, persist_step).
Qed.

Lemma confirm_seat_rows t db0 : keeps (of_seats (rows_step (Confirm t) db0)) (ConfirmSeatFreeze (R := R) store t).
Proof.
  unfold ConfirmSeatFreeze.
  keep_with ltac:(first [apply load_state_keeps | apply keeps_seats, frozen_step]).
  apply body_now_call. intros n db db' Hs Hu. eapply rows_step_trans; [exact Hs|by eapply confirm_rows].
Qed.

Lemma release_seat_rows t db0 : keeps (of_seats (rows_step (Release t) db0)) (ReleaseSeatFreeze (R := R) store t).
Proof.
  unfold ReleaseSeatFreeze.
  keep_with ltac:(first [apply load_state_keeps | apply keeps_seats, frozen_step]).
  apply body_now_call. intros n db db' Hs Hu. eapply rows_step_trans; [exact Hs|by eapply release_rows].
Qed.

Lemma release_sold_rows r db0 : keeps (of_seats (rows_step ReleaseSold db0)) (ReleaseSoldSeats (R := R) r).
Proof. unfold ReleaseSoldSeats. keep_with ltac:(apply keeps_seats, sold_step). Qed.

(** C32: whatever fails, a handler moves seats only where it may.  Freezing takes only
    available seats, for its own token; confirming and releasing touch only the seats
    frozen for their token; releasing sold seats touches only sold ones; no handler
    changes what a seat is, and no other row of the table. *)
Theorem seat_lifecycle e w :
  (forall r, rows_step (Freeze (as_FreezeToken r)) (w_seats w)
     (w_seats (AutoAssignAndFreezeSeats store r (e, w)).2.2)) /\
  (forall t, rows_step (Confirm t) (w_seats w) (w_seats (ConfirmSeatFreeze store t (e, w)).2.2)) /\
  (forall t, rows_step (Release t) (w_seats w) (w_seats (ReleaseSeatFreeze store t (e, w)).2.2)) /\
  (forall r, rows_step ReleaseSold (w_seats w) (w_seats (ReleaseSoldSeats r (e, w)).2.2)).
Proof.
  split_and!; intros x.
  - apply (auto_assign_rows x (w_seats w) (e, w)), rows_step_refl.
  - apply (confirm_seat_rows x (w_seats w) (e, w)), rows_step_refl.
  - apply (release_seat_rows x (w_seats w) (e, w)), rows_step_refl.
  - apply (release_sold_rows x (w_seats w) (e, w)), rows_step_refl.
Qed.
End lifecycle.

(** ** What a successful answer means *)

Lemma pigeonhole {A} (k l : list A) : NoDup k -> (forall x, x ∈ k -> x ∈ l) -> (length l <= length k)%nat -> k ≡ₚ l.
Proof. intros Hnd Hsub Hlen. apply submseteq_length_Permutation; [by apply NoDup_submseteq|done]. Qed.


(** Rows of a show in one state, for one token. *)
Definition rows_for (st status : Z) (t : string) (db : list DSeat) (ids : list Z) (rows : list DSeat) : Prop :=
  map Id rows ≡ₚ ids /\ NoDup ids /\ forall s, s ∈ rows ->
    s ∈ db /\ Status s = 1 /\ SeatDB.ShowTimeId s = st /\ SeatStatus s = status /\ FreezeToken s = Some t.

(** The locked rows are exactly the rows asked for. *)
Lemma locked_rows st ids (db l db' : list DSeat) :
  FindByShowTimeAndIDsForUpdate st ids db = (Ok l, db') -> NoDup (map Id db) ->
  length l = length ids -> map Id l ≡ₚ ids /\ NoDup ids.
Proof.
  intros Hf Hnd Hlen. apply find_for_update_ok in Hf as (_ & Hin & Hndl & _). specialize (Hndl Hnd).
  assert (Hp : map Id l ≡ₚ ids).
  { apply pigeonhole; [done| |rewrite length_map; lia].
    intros i (s & -> & Hs)%list_elem_of_fmap. by apply Hin. }
  split; [done|]. by rewrite <- Hp.
Qed.

(** Rows moved by an update that selects them all. *)
Lemma moved_rows st n t (p : DSeat -> bool) (f : DSeat -> DSeat) (db l : list DSeat) ids :
  map Id l ≡ₚ ids -> NoDup ids ->
  (forall s, s ∈ l -> s ∈ db /\ Status s = 1 /\ SeatDB.ShowTimeId s = st /\ p s = true) ->
  (forall s, same_seat s (f s) /\ SeatStatus (f s) = n /\ FreezeToken (f s) = Some t) ->
  rows_for st n t (update_where p f db) ids (map f l).
Proof.
  intros Hp Hnd Hl Hf. split_and!; [|done|].
  - rewrite map_map. rewrite (map_ext _ Id); [done|]. intros s. by destruct (Hf s) as [[? _] _].
  - intros s' (s & -> & Hs)%list_elem_of_fmap. destruct (Hl s Hs) as (Hdb & H1 & H2 & H3).
    destruct (Hf s) as (Hsame & Hn & Ht). destruct Hsame as (_ & _ & E1 & _ & _ & _ & _ & E2).
    split_and!; [|congruence..]. apply list_elem_of_fmap. exists s. by rewrite H3.
Qed.

Lemma existsb_all_false {A} (f : A -> bool) l : existsb f l = false -> forall x, x ∈ l -> f x = false.
Proof.
  intros E x Hx. destruct (f x) eqn:Ef; [|done]. rewrite <- E. symmetry. apply existsb_elem. eauto.
Qed.

Lemma persist_tx_ok st ids t exp e (db : list DSeat) e' db' :
  persist_tx st ids t exp (e, db) = (Ok tt, (e', db')) -> NoDup (map Id db) -> ids <> [] ->
  fits_token t = true /\ exists rows, rows_for st 2 t db' ids rows.
Proof.
  intros Hrun Hnd Hne. unfold persist_tx in Hrun. apply bind_ok in Hrun as (l & [e1 db1] & Hf & Hrun).
  pose proof (call_readonly _ _ _ _ _ _ (find_for_update_readonly st ids) Hf) as ->. apply call_ok in Hf.
  destr_if; [done|]. destr_if; [done|]. bool_norm. apply Nat.eqb_eq in Heqb.
  apply bind_ok in Hrun as (n & [e2 db2] & Hn & Hrun). apply now_state in Hn as [-> _]. apply call_ok in Hrun.
  destruct (locked_rows st ids db l db Hf Hnd Heqb) as [Hp Hndi].
  apply find_for_update_ok in Hf as (_ & Hin & _ & _).
  assert (Hsel : forall s, s ∈ l -> s ∈ db /\ Status s = 1 /\ SeatDB.ShowTimeId s = st /\ seats_at st 1 ids s = true).
  { intros s Hs. destruct (Hin s Hs) as (? & H1 & H2 & H3). pose proof (existsb_all_false _ _ Heqb0 s Hs) as H4.
    cbn in H4. bool_norm. split_and!; [done..|]. unfold seats_at, in_ids.
    rewrite H1, H2, H4, !Z.eqb_refl, bool_decide_eq_true_2 by done. done. }
  unfold BatchFreezeByShowTimeAndIDs in Hrun. destruct ids as [|i ids]; [done|].
  split.
  - unfold update_token in Hrun. destruct (fits_token t); [done|]. rewrite andb_true_r in Hrun.
    destruct (existsb _ db) eqn:Ex; [done|]. exfalso.
    destruct l as [|s l]; [apply Permutation_nil_l in Hp; done|].
    destruct (Hsel s) as (Hdb & _ & _ & Hs); [by left|]. by rewrite (existsb_all_false _ _ Ex s Hdb) in Hs.
  - apply update_token_ok in Hrun as ->. eexists. eapply (moved_rows st 2 t _ _ db l); [done|done|exact Hsel|].
    intros s. split_and!; [apply set_seat_same|done..].
Qed.

Lemma check_persisted_ok st tc E x l E' t' :
  check_persisted st tc E x l = Ok (E', t') ->
  (forall s, s ∈ l -> SeatDB.ShowTimeId s = st /\ SeatStatus s = 2 /\ Id s ∈ E) /\
  E' = E ∖ list_to_set (map Id l).
Proof.
  revert E x. induction l as [|s l IH]; intros E x; cbn.
  - intros [= <- <-]. split; [by intros ? ?%not_elem_of_nil|set_solver].
  - destr_if; [done|]. bool_norm. destr_if; [done|]. bool_norm.
    destruct (FreezeExpireTime s) as [t|]; [|done].
    assert (Hstep : forall y, check_persisted st tc (E ∖ {[Id s]}) y l = Ok (E', t') ->
      (forall s', s' ∈ s :: l -> SeatDB.ShowTimeId s' = st /\ SeatStatus s' = 2 /\ Id s' ∈ E) /\
      E' = E ∖ ({[Id s]} ∪ list_to_set (map Id l))).
    { intros y Hy. destruct (IH _ _ Hy) as [Hl ->]. split; [|set_solver].
      intros s' [->|Hs']%elem_of_cons; [done|]. destruct (Hl s' Hs') as (? & ? & ?). split_and!; [done..|set_solver]. }
    destr_if; [apply Hstep|]. destr_if; [done|]. apply Hstep.
Qed.

Section answers.
Context {R : Type} `{RedisZ R} `{LocalTime} (store : option Cache.SeatStockStore).

Lemma read_seats {A} (m : M (list DSeat) A) e (w : world R) a e' w' :
  readonly m -> on_seats (call m) (e, w) = (Ok a, (e', w')) -> w' = w /\ m (w_seats w) = (Ok a, w_seats w).
Proof.
  intros Hm (t & Hc & ->)%on_ok. pose proof (call_readonly _ _ _ _ _ _ Hm Hc) as ->.
  apply call_ok in Hc. by destruct w.
Qed.

Lemma read_programs {A} (m : M programdb A) f e (w : world R) a e' w' :
  readonly m -> map_err f (on_programs (call m)) (e, w) = (Ok a, (e', w')) -> w' = w.
Proof.
  intros Hm Hc. apply map_err_ok, on_ok in Hc as (t & Hc & ->).
  pose proof (call_readonly _ _ _ _ _ _ Hm Hc) as ->. by destruct w.
Qed.

Lemma read_categories {A} (m : M (list DTicketCategory) A) f e (w : world R) a e' w' :
  readonly m -> map_err f (on_categories (call m)) (e, w) = (Ok a, (e', w')) -> w' = w.
Proof.
  intros Hm Hc. apply map_err_ok, on_ok in Hc as (t & Hc & ->).
  pose proof (call_readonly _ _ _ _ _ _ Hm Hc) as ->. by destruct w.
Qed.

Lemma redis_seats {A} (m : IO R A) e (w : world R) x e' w' :
  on_redis m (e, w) = (x, (e', w')) -> w_seats w' = w_seats w.
Proof. unfold on_redis, on. destruct (m (e, w_redis w)) as [y [e1 t]]. by intros [= _ _ <-]. Qed.

Lemma info_ids seats : map si_SeatId (toSeatInfoList (map candidate_of seats)) = map Cache.SeatID seats.
Proof. unfold toSeatInfoList. by rewrite !map_map. Qed.

Lemma existing_ok r seats e (w : world R) resp e' w' :
  buildExistingSeatFreezeResp r seats (e, w) = (Ok resp, (e', w')) -> NoDup (map Id (w_seats w)) ->
  w' = w /\ ar_FreezeToken resp = as_FreezeToken r /\ map si_SeatId (ar_Seats resp) = map Cache.SeatID seats /\
  exists rows, rows_for (as_ShowTimeId r) 2 (as_FreezeToken r) (w_seats w) (map Cache.SeatID seats) rows.
Proof.
  intros Hrun Hnd. unfold buildExistingSeatFreezeResp in Hrun. destr_if; [done|].
  apply bind_ok in Hrun as (exp & [e1 w1] & Hv & Hr). apply ret_ok in Hr as [<- [= <- <-]].
  unfold validateFrozenSeatsPersistedInDB in Hv. apply bind_ok in Hv as (l & [e2 w2] & Hf & Hv).
  apply read_seats in Hf as [-> Hf]; [|apply select_seats_readonly]. destr_if; [done|]. bool_norm.
  apply Nat.eqb_eq in Heqb0.
  apply bind_ok in Hv as ([E' t'] & [e3 w3] & Hc & Hv). injection Hc as Hc <- <-.
  destr_if; [done|]. apply ret_ok in Hv as [_ [= _ <-]]. bool_norm.
  apply check_persisted_ok in Hc as [Hl ->]. split_and!; [done|done|apply info_ids|]. exists l.
  assert (Hin : forall s, s ∈ l -> s ∈ w_seats w /\ Status s = 1 /\ has_token (as_FreezeToken r) s = true).
  { intros s Hs. by eapply select_seats_elem in Hs; [|exact Hf]. }
  assert (Hndl : NoDup (map Id l)).
  { apply select_seats_ok in Hf as [_ Hperm]. rewrite (Permutation_map Id Hperm). by apply NoDup_map_filter. }
  assert (Hp : map Id l ≡ₚ map Cache.SeatID seats).
  { apply pigeonhole; [done| |rewrite !length_map; lia].
    intros i (s & -> & Hs)%list_elem_of_fmap. destruct (Hl s Hs) as (_ & _ & Hin'). by rewrite elem_of_list_to_set in Hin'. }
  split_and!; [done|by rewrite <- Hp|]. intros s Hs. destruct (Hin s Hs) as (? & ? & Ht), (Hl s Hs) as (? & ? & _).
  unfold has_token in Ht. by bool_norm.
Qed.

Lemma fresh_ok r e (w : world R) resp e' w' :
  freeze_new store r (e, w) = (Ok resp, (e', w')) -> NoDup (map Id (w_seats w)) ->
  ar_FreezeToken resp = as_FreezeToken r /\ fits_token (as_FreezeToken r) = true /\ ar_Seats resp <> [] /\
  exists rows, rows_for (as_ShowTimeId r) 2 (as_FreezeToken r) (w_seats w') (map si_SeatId (ar_Seats resp)) rows.
Proof.
  intros Hrun Hnd. unfold freeze_new in Hrun. apply bind_ok in Hrun as (l & [e1 w1] & Hf & Hrun).
  apply read_seats in Hf as [-> _]; [|apply select_seats_readonly]. destr_if; [done|].
  apply bind_ok in Hrun as (seats & [e2 w2] & Hz & Hrun). apply redis_seats in Hz.
  destruct (parseFreezeExpireTime _) as [exp|x].
  2: { by apply bind_ok in Hrun as (? & [? ?] & _ & ?). }
  apply bind_ok in Hrun as (res & [e3 w3] & Hp & Hrun). apply attempt_ok in Hp.
  destruct res as [[]|x]; [|by apply bind_ok in Hrun as (? & [? ?] & _ & ?)].
  apply ret_ok in Hrun as [<- [= <- <-]]. cbn [ar_FreezeToken ar_Seats]. rewrite info_ids.
  unfold persistFrozenSeatsToDB in Hp.
  assert (Hids : seatCandidateIDs (map candidate_of seats) = map Cache.SeatID seats).
  { unfold seatCandidateIDs. by rewrite map_map. }
  rewrite Hids in Hp. destruct (map Cache.SeatID seats) as [|i ids] eqn:Es; [done|].
  apply on_ok in Hp as (db' & Hp & ->). cbn [w_seats]. rewrite Hz in Hp.
  apply transact_ok in Hp as (ea & eb & Hp). apply persist_tx_ok in Hp as (Hfit & rows & Hrows); [|done|done].
  split_and!; [done|done| |by exists rows]. destruct seats; [done|]. done.
Qed.

(** The two ways a freeze succeeds. *)
Lemma auto_assign_cases r e (w : world R) resp e' w' :
  AutoAssignAndFreezeSeats store r (e, w) = (Ok resp, (e', w')) ->
  exists e1 w1, w_seats w1 = w_seats w /\
    (freeze_new store r (e1, w1) = (Ok resp, (e', w')) \/
     exists seats, seats <> [] /\ buildExistingSeatFreezeResp r seats (e1, w1) = (Ok resp, (e', w'))).
Proof.
  unfold AutoAssignAndFreezeSeats. destr_if; [done|]. intros Hrun. apply map_err_ok in Hrun.
  destruct store as [s|]; [|done]. apply bind_ok in Hrun as (? & [e1 w1] & Hst & Hrun).
  apply read_programs in Hst as ->; [|by intros ?].
  apply bind_ok in Hrun as (cats & [e2 w2] & Hc & Hrun). apply read_categories in Hc as ->; [|by intros ?].
  destruct (findTicketCategory _ _); [|done].
  apply bind_ok in Hrun as (seats & [e3 w3] & Hz & Hrun). apply redis_seats in Hz.
  exists e3, w3. split; [done|]. destr_if; [right; exists seats; split; [by destruct seats|done]|by left].
Qed.

(** An answer of [AutoAssignAndFreezeSeats] is backed by the table.  Whatever
    failed on the way, the answered seats are distinct active rows of the show that
    are frozen for the request's token, so no other token holds any of them. *)
Theorem auto_assign_ok r e (w : world R) resp e' w' :
  NoDup (map Id (w_seats w)) -> AutoAssignAndFreezeSeats store r (e, w) = (Ok resp, (e', w')) ->
  ar_FreezeToken resp = as_FreezeToken r /\ ar_Seats resp <> [] /\
  exists rows, rows_for (as_ShowTimeId r) 2 (as_FreezeToken r) (w_seats w') (map si_SeatId (ar_Seats resp)) rows.
Proof.
  intros Hnd (e1 & w1 & Hs & [Hrun|(seats & Hne & Hrun)])%auto_assign_cases; rewrite <- Hs in Hnd.
  - apply fresh_ok in Hrun as (? & _ & ? & ?); done.
  - apply existing_ok in Hrun as (-> & ? & Hids & Hrows); [|done]. split_and!; [done| |by rewrite Hids].
    intros E. rewrite E in Hids. by destruct seats.
Qed.

(** If the token does not fit [freeze_token] and no row holds it, the call fails. *)
Lemma long_token_never_freezes r e (w : world R) :
  fits_token (as_FreezeToken r) = false ->
  (forall s, s ∈ w_seats w -> FreezeToken s <> Some (as_FreezeToken r)) -> NoDup (map Id (w_seats w)) ->
  is_ok (AutoAssignAndFreezeSeats store r (e, w)).1 = false.
Proof.
  intros Hlong Hnone Hnd. destruct (AutoAssignAndFreezeSeats store r (e, w)) as [[resp|x] [e' w']] eqn:Hrun; [|done].
  exfalso. apply auto_assign_cases in Hrun as (e1 & w1 & Hs & [Hrun|(seats & Hne & Hrun)]); rewrite <- Hs in Hnd, Hnone.
  - apply fresh_ok in Hrun as (_ & Hfit & _); [congruence|done].
  - apply existing_ok in Hrun as (-> & _ & _ & rows & Hp & _ & Hrows); [|done].
    destruct rows as [|s rows]; [apply Permutation_nil_l in Hp; by destruct seats|].
    destruct (Hrows s) as (Hdb & _ & _ & _ & Ht); [by left|]. by apply (Hnone s).
Qed.

End answers.

(** ** Tokens of snowflake identifiers *)

Lemma read_digits_bound s acc v : 0 <= acc -> read_digits s acc = Some v ->
  v < (acc + 1) * 10 ^ Z.of_nat (String.length s).
Proof.
  revert acc. induction s as [|c s IH]; intros acc Hacc; cbn -[Z.pow Z.mul]; [intros [= <-]; lia|].
  unfold char_digit. destruct (_ && _) eqn:E; [|done]. cbn -[Z.pow Z.mul]. apply andb_true_iff in E as [E1 E2]. apply Nat.leb_le in E1, E2. intros Hr.
  apply IH in Hr; [|lia]. rewrite Nat2Z.inj_succ, Z.pow_succ_r by lia. nia.
Qed.

Lemma format_length k z : 10 ^ Z.of_nat k <= z -> (k < String.length (format_int z))%nat.
Proof.
  intros Hz. assert (0 <= z) by (pose proof (Z.pow_nonneg 10 (Z.of_nat k)); lia).
  pose proof (parse_unsigned_format z ltac:(done)) as Hp.
  assert (Hf : format_int z = digits (dec_fuel z) z "").
  { unfold format_int. destruct (Z.ltb_spec z 0); [lia|done]. }
  rewrite Hf. unfold parse_unsigned in Hp. destruct (digits (dec_fuel z) z "") as [|c s] eqn:E; [done|].
  rewrite <- E in *. apply read_digits_bound in Hp; [|lia].
  destruct (decide (k < String.length (digits (dec_fuel z) z ""))%nat); [done|].
  assert (10 ^ Z.of_nat (String.length (digits (dec_fuel z) z "")) <= 10 ^ Z.of_nat k) by (apply Z.pow_le_mono_r; lia).
  lia.
Qed.

Lemma length_sapp (a b : string) : String.length (a +:+ b) = (String.length a + String.length b)%nat.
Proof. induction a as [|c a IH]; cbn; [done|]. by rewrite IH. Qed.

Lemma snowflake_token_long st tc o :
  10 ^ 18 <= st -> 10 ^ 18 <= tc -> 10 ^ 12 <= o -> fits_token (FormatToken st tc o) = false.
Proof.
  intros Hst Htc Ho. apply (format_length 18) in Hst, Htc. apply (format_length 12) in Ho.
  unfold fits_token, FormatToken, token_width. rewrite !length_sapp. apply Nat.leb_gt. cbn [String.length]. lia.
Qed.

(** C39: shows and ticket categories created through the API can not freeze a seat.
    Their identifiers are snowflakes of nineteen digits and an order number has at
    least thirteen, so the freeze token has more than the 64 characters of its
    column: a call for a fresh token fails, whatever else happens. *)
Theorem snowflake_show_never_freezes {R : Type} `{RedisZ R} `{LocalTime} store r o e (w : world R) :
  as_FreezeToken r = FormatToken (as_ShowTimeId r) (as_TicketCategoryId r) o ->
  10 ^ 18 <= as_ShowTimeId r -> 10 ^ 18 <= as_TicketCategoryId r -> 10 ^ 12 <= o ->
  (forall s, s ∈ w_seats w -> FreezeToken s <> Some (as_FreezeToken r)) -> NoDup (map Id (w_seats w)) ->
  is_ok (AutoAssignAndFreezeSeats store r (e, w)).1 = false.
Proof.
  intros Ht Hst Htc Ho Hnone Hnd. apply long_token_never_freezes; [|done|done].
  rewrite Ht. by apply snowflake_token_long.
Qed.

(** ** Confirming and releasing *)

Section settled.
Context {R : Type} `{RedisZ R} `{LocalTime} (store : option Cache.SeatStockStore).

Lemma load_state_ok t e (w : world R) state e' w' :
  loadSeatFreezeDBState t (e, w) = (Ok state, (e', w')) ->
  w' = w /\
  (forall s, s ∈ dbSeats state <-> s ∈ w_seats w /\ Status s = 1 /\ FreezeToken s = Some t) /\
  (NoDup (map Id (w_seats w)) -> NoDup (map Id (dbSeats state))) /\
  (forall s, s ∈ dbSeats state -> SeatDB.ShowTimeId s = FreezeToken.ShowTimeID (fs_token state)) /\
  (allFrozen state = true -> forall s, s ∈ dbSeats state -> SeatStatus s = 2) /\
  (allSold state = true -> forall s, s ∈ dbSeats state -> SeatStatus s = 3).
Proof.
  unfold loadSeatFreezeDBState. destruct (ParseToken t) as [tok|]; [|done].
  intros (l & [e1 w1] & Hf & Hr)%bind_ok. apply read_seats in Hf as [-> Hf]; [|apply select_seats_readonly].
  destr_if; [done|]. apply ret_ok in Hr as [<- [= _ <-]]. cbn. split_and!; [done|..].
  - intros s. rewrite (select_seats_elem _ _ _ _ _ s Hf). unfold has_token. by rewrite bool_decide_eq_true.
  - intros Hnd. apply select_seats_ok in Hf as [_ Hp]. rewrite (Permutation_map Id Hp). by apply NoDup_map_filter.
  - intros s Hs. pose proof (existsb_all_false _ _ Heqb s Hs) as E. cbn in E. by bool_norm.
  - intros [_ Ha]%andb_true_iff s Hs. rewrite forallb_forall in Ha. apply Z.eqb_eq, Ha. by apply list_elem_of_In.
  - intros [_ Ha]%andb_true_iff s Hs. rewrite forallb_forall in Ha. apply Z.eqb_eq, Ha. by apply list_elem_of_In.
Qed.

(** When the transaction goes through, the locked rows are all the rows of the token. *)
Lemma frozen_tx_all st ids t update e (db rows : list DSeat) e' db' :
  frozen_tx st ids t update (e, db) = (Ok tt, (e', db')) -> NoDup (map Id db) -> NoDup (map Id rows) ->
  (forall s, s ∈ rows <-> s ∈ db /\ Status s = 1 /\ FreezeToken s = Some t) ->
  length ids = length rows ->
  (forall s, s ∈ rows -> Id s ∈ ids) /\ exists e1, update (e1, db) = (Ok tt, (e', db')).
Proof.
  intros Hrun Hnd Hndr Hrows Hlen. unfold frozen_tx in Hrun.
  apply bind_ok in Hrun as (l & [e1 db1] & Hf & Hrun).
  pose proof (call_readonly _ _ _ _ _ _ (find_for_update_readonly st ids) Hf) as ->. apply call_ok in Hf.
  destr_if; [done|]. destr_if; [done|]. bool_norm. apply Nat.eqb_eq in Heqb.
  destruct (locked_rows st ids db l db Hf Hnd Heqb) as [Hp _].
  apply find_for_update_ok in Hf as (_ & Hin & Hndl & _). split; [|by exists e1].
  assert (Hpr : map Id l ≡ₚ map Id rows).
  { apply pigeonhole; [by apply Hndl| |rewrite !length_map; lia].
    intros i (s & -> & Hs)%list_elem_of_fmap. destruct (Hin s Hs) as (? & ? & _).
    pose proof (existsb_all_false _ _ Heqb0 s Hs) as E. cbn in E. unfold has_token in E. bool_norm.
    apply list_elem_of_fmap. exists s. split; [done|]. by apply Hrows. }
  intros s Hs. rewrite <- Hp, Hpr. apply list_elem_of_fmap. by exists s.
Qed.

Lemma elem_of_update_where p f (db : list DSeat) s' :
  s' ∈ update_where p f db -> exists s, s ∈ db /\ s' = if p s then f s else s.
Proof. unfold update_where. intros (s & -> & Hs)%list_elem_of_fmap. eauto. Qed.

(** After a successful confirmation every active row of the token is sold, and
    there is at least one. *)
Lemma confirm_ok t e (w : world R) e' w' :
  NoDup (map Id (w_seats w)) -> ConfirmSeatFreeze store t (e, w) = (Ok tt, (e', w')) ->
  (exists s, s ∈ w_seats w' /\ Status s = 1 /\ FreezeToken s = Some t) /\
  (forall s, s ∈ w_seats w' -> Status s = 1 -> FreezeToken s = Some t -> SeatStatus s = 3).
Proof.
  intros Hnd Hrun. unfold ConfirmSeatFreeze in Hrun. destr_if; [done|].
  apply bind_ok in Hrun as (n & [e1 w1] & Hn & Hrun). apply now_state in Hn as [-> _].
  apply map_err_ok in Hrun. destruct store as [s0|]; [|done].
  apply bind_ok in Hrun as (state & [e2 w2] & Hl & Hrun).
  apply load_state_ok in Hl as (-> & Hel & Hndr & Hst & Hfr & Hso). specialize (Hndr Hnd).
  destr_if; [done|]. apply Nat.eqb_neq in Heqb0.
  assert (Hex : exists s, s ∈ dbSeats state) by (destruct (dbSeats state) as [|s l]; [done|exists s; by left]).
  destruct Hex as [x Hx]. destruct (allSold state) eqn:Eso.
  { apply ret_ok in Hrun as [_ [= _ <-]]. specialize (Hso eq_refl). split.
    - exists x. by apply Hel.
    - intros s H1 H2 H3. apply Hso, Hel. done. }
  destruct (allFrozen state) eqn:Efr; [|done]. specialize (Hfr eq_refl). cbn [negb] in Hrun.
  apply bind_ok in Hrun as (seats & [e3 w3] & Hz & Hrun). apply redis_seats in Hz.
  destruct (_ || _) eqn:Elen; [done|]. apply orb_false_iff in Elen as [Hn0 Hlen].
  apply negb_false_iff, Nat.eqb_eq in Hlen. apply Nat.eqb_neq in Hn0.
  apply bind_ok in Hrun as ([] & [e4 w4] & Htx & Hrun). apply redis_seats in Hrun. rewrite Hrun.
  apply on_ok in Htx as (db' & Htx & ->). cbn [w_seats]. rewrite Hz in Htx.
  apply transact_ok in Htx as (ea & eb & Htx).
  eapply (frozen_tx_all _ _ _ _ _ _ (dbSeats state)) in Htx as (Hids & ec & Hup); [|done..|by rewrite length_map].
  apply bind_ok in Hup as (nw & [ed dbd] & Hn & Hup). apply now_state in Hn as [-> _]. apply call_ok in Hup.
  set (ids := map Cache.SeatID seats) in *.
  assert (Hne : ids <> []) by (unfold ids; destruct seats; done).
  unfold BatchConfirmByShowTimeAndIDs in Hup. destruct ids as [|i ids]; [done|].
  apply update_token_ok in Hup as ->.
  set (p := fun s => seats_at _ 2 _ s && has_token t s).
  assert (Hp : forall s, s ∈ dbSeats state -> p s = true).
  { intros s Hs. unfold p, seats_at, in_ids, has_token. pose proof Hs as (_ & H3 & H4)%Hel.
    rewrite H3, H4, (Hfr s Hs), (Hst s Hs), !Z.eqb_refl, !bool_decide_eq_true_2; auto. }
  split.
  - pose proof Hx as (H3 & H4 & H5)%Hel. eexists.
    split; [unfold update_where; apply list_elem_of_fmap; exists x; split; [reflexivity|done]|].
    by rewrite (Hp x Hx).
  - intros s' Hs' H3 H4. apply elem_of_update_where in Hs' as (s & Hs & ->). destruct (p s) eqn:Ep; [done|].
    exfalso. rewrite Hp in Ep; [done|]. by apply Hel.
Qed.

(** After a successful release no active row is held by the token. *)
Lemma release_ok t e (w : world R) e' w' :
  NoDup (map Id (w_seats w)) -> ReleaseSeatFreeze store t (e, w) = (Ok tt, (e', w')) ->
  forall s, s ∈ w_seats w' -> Status s = 1 -> FreezeToken s <> Some t.
Proof.
  intros Hnd Hrun. unfold ReleaseSeatFreeze in Hrun. destr_if; [done|].
  apply map_err_ok in Hrun. destruct store as [s0|]; [|done].
  apply bind_ok in Hrun as (state & [e2 w2] & Hl & Hrun).
  apply load_state_ok in Hl as (-> & Hel & Hndr & Hst & Hfr & _). specialize (Hndr Hnd).
  destr_if.
  { apply Nat.eqb_eq in Heqb0. assert (Hw : w_seats w' = w_seats w).
    { apply bind_ok in Hrun as (res & [e3 w3] & Hz & Hrun). apply attempt_ok, redis_seats in Hz. rewrite <- Hz.
      destruct res as [u|x]; [by apply ret_ok in Hrun as [_ [= _ <-]]|].
      destr_if; [done|]. by apply ret_ok in Hrun as [_ [= _ <-]]. }
    rewrite Hw. intros s H1 H2 H3. assert (Hs : s ∈ dbSeats state) by (by apply Hel).
    destruct (dbSeats state); [by apply not_elem_of_nil in Hs|done]. }
  destruct (allSold state); [done|]. destruct (allFrozen state) eqn:Efr; [|done].
  specialize (Hfr eq_refl). cbn [negb] in Hrun.
  apply bind_ok in Hrun as (seats & [e3 w3] & Hz & Hrun). apply redis_seats in Hz.
  destruct (_ || _) eqn:Elen; [done|]. apply orb_false_iff in Elen as [Hn0 Hlen].
  apply negb_false_iff, Nat.eqb_eq in Hlen. apply Nat.eqb_neq in Hn0.
  apply bind_ok in Hrun as ([] & [e4 w4] & Htx & Hrun). apply redis_seats in Hrun. rewrite Hrun.
  apply on_ok in Htx as (db' & Htx & ->). cbn [w_seats]. rewrite Hz in Htx.
  apply transact_ok in Htx as (ea & eb & Htx).
  eapply (frozen_tx_all _ _ _ _ _ _ (dbSeats state)) in Htx as (Hids & ec & Hup); [|done..|by rewrite length_map].
  apply bind_ok in Hup as (nw & [ed dbd] & Hn & Hup). apply now_state in Hn as [-> _]. apply call_ok in Hup.
  set (ids := map Cache.SeatID seats) in *.
  assert (Hne : ids <> []) by (unfold ids; destruct seats; done).
  unfold ReleaseFrozenByShowTimeAndIDs in Hup. destruct ids as [|i ids]; [done|].
  injection Hup as <-. intros s' Hs' H3 H4. apply elem_of_update_where in Hs' as (s & Hs & ->).
  destr_if; [done|]. assert (Hin : s ∈ dbSeats state) by (by apply Hel).
  unfold seats_at, in_ids, has_token in Heqb1.
  rewrite H3, H4, (Hfr s Hin), (Hst s Hin), !Z.eqb_refl, !bool_decide_eq_true_2 in Heqb1 by auto. done.
Qed.
End settled.
