(* ===== verification/SeatFreezeDemo.v ===== *)
(** * The freeze handlers at work

    Witnesses for the theorems of SeatFreeze: a show with one category of four
    seats, its ledger loaded in [MemZ], and a token for two of them. *)
From Stdlib Require Import ZArith Lia Ascii String.
From stdpp Require Import base gmap sets list strings.
From S2P Require Import Prelude GoBase Effects Sql FreezeToken ProgramDB RefundRule RedisZ SeatAssign SeatDB SeatStore SeatLedger SeatDemo SeatFreeze.
Import MemZ.
Open Scope string_scope.
Open Scope list_scope.
Open Scope Z_scope.

#[global] Instance demo_time : LocalTime := fun s => if bool_decide (s = "noon") then Some (time_of_unix 1000) else None.

Definition demo_token : string := FormatToken 3 5 77.
Definition demo_world : world mem :=
  mkWorld demo_mem demo_rows (mkProgramDB {[3 := demo_show 0]} ∅ ∅ [] no_cache) [mkCategory 5 7 3 "A" 100 2 2 0 0 1].
Definition demo_request : AutoAssignReq := mkAssignReq 3 5 2 demo_token "noon".
Definition frozen_world : world mem := (AutoAssignAndFreezeSeats (Some demo_store) demo_request (calm, demo_world)).2.2.
Definition sold_world : world mem := (ConfirmSeatFreeze (Some demo_store) demo_token (calm, frozen_world)).2.2.

Lemma rows_unique : NoDup (map Id demo_rows).
Proof. cbn. repeat (constructor; [set_solver|]). constructor. Qed.

Lemma auto_assign_ok_witness :
  exists resp, (AutoAssignAndFreezeSeats (Some demo_store) demo_request (calm, demo_world)).1 = Ok resp /\
    map si_SeatId (ar_Seats resp) = [13; 14] /\ ar_FreezeToken resp = demo_token.
Proof.
  destruct (AutoAssignAndFreezeSeats (Some demo_store) demo_request (calm, demo_world)) as [[resp|x] [e' w']] eqn:E;
    [|vm_compute in E; discriminate].
  exists resp. destruct (auto_assign_ok (Some demo_store) demo_request calm demo_world resp e' w' rows_unique E) as (H & _).
  split; [reflexivity|]. split; [|exact H]. vm_compute in E. injection E as <- _ _. reflexivity.
Defined.

Definition snowflake_request : AutoAssignReq :=
  mkAssignReq 2040000000000000001 2040000000000000002 2
    (FormatToken 2040000000000000001 2040000000000000002 68719476736000000) "noon".

Lemma snowflake_show_never_freezes_witness :
  is_ok (AutoAssignAndFreezeSeats (Some demo_store) snowflake_request (calm, demo_world)).1 = false.
Proof.
  apply (snowflake_show_never_freezes (Some demo_store) snowflake_request 68719476736000000 calm demo_world);
    [reflexivity|vm_compute; discriminate|vm_compute; discriminate|vm_compute; discriminate| |exact rows_unique].
  intros s Hs. cbn in Hs. repeat (apply elem_of_cons in Hs as [->|Hs]; [discriminate|]). by apply not_elem_of_nil in Hs.
Defined.

Lemma frozen_unique : NoDup (map Id (w_seats frozen_world)).
Proof.
  assert (map Id (w_seats frozen_world) = map Id demo_rows) as -> by (vm_compute; reflexivity). apply rows_unique.
Qed.
