(* ===== verification/SeatLocks.v ===== *)
(** * The locks of the seat handlers  (program-rpc/internal/logic/seat_freeze_keyed_locker.go)

    One mutex per key, kept in a map while somebody uses it and counted by its users.
    The goroutines of a process run its four sections in any order: [Lock] takes the
    entry under the locker's mutex, then locks it; the function it returns unlocks the
    entry, then gives it back under the locker's mutex. *)
From Stdlib Require Import ZArith Lia Ascii String.
From stdpp Require Import base gmap sets list strings relations.
From S2P Require Import Prelude GoBase Effects.
Open Scope string_scope.
Open Scope list_scope.
Open Scope Z_scope.

(** ** The locker *)

Record seatFreezeLockEntry := mkLockEntry { le_locked : bool; le_refs : Z }.
(** Entries live at addresses: the map forgets one while goroutines still point to it. *)
Record seatFreezeKeyedLocker := mkLocker { kl_heap : gmap nat seatFreezeLockEntry; kl_entries : gmap string nat }.
Definition newSeatFreezeKeyedLocker : seatFreezeKeyedLocker := mkLocker ∅ ∅.

Definition add_refs (d : Z) (e : seatFreezeLockEntry) : seatFreezeLockEntry := mkLockEntry (le_locked e) (le_refs e + d).

Definition acquireEntry (key : string) (l : seatFreezeKeyedLocker) : nat * seatFreezeKeyedLocker :=
  match kl_entries l !! key with
  | Some a => (a, mkLocker (alter (add_refs 1) a (kl_heap l)) (kl_entries l))
  | None =>
      let a := fresh (dom (kl_heap l)) in
      (a, mkLocker (<[a := add_refs 1 (mkLockEntry false 0)]> (kl_heap l)) (<[key := a]> (kl_entries l)))
  end.

Definition releaseEntry (key : string) (l : seatFreezeKeyedLocker) : seatFreezeKeyedLocker :=
  match kl_entries l !! key with
  | None => l
  | Some a =>
      let heap := alter (add_refs (-1)) a (kl_heap l) in
      let refs := match heap !! a with Some e => le_refs e | None => 0 end in
      mkLocker heap (if refs <=? 0 then delete key (kl_entries l) else kl_entries l)
  end.

(** [sync.Mutex]: [None] where [Lock] blocks and where [Unlock] is a fatal error. *)
Definition mu_lock (a : nat) (l : seatFreezeKeyedLocker) : option seatFreezeKeyedLocker :=
  e ← kl_heap l !! a;
  if le_locked e then None else Some (mkLocker (<[a := mkLockEntry true (le_refs e)]> (kl_heap l)) (kl_entries l)).
Definition mu_unlock (a : nat) (l : seatFreezeKeyedLocker) : option seatFreezeKeyedLocker :=
  e ← kl_heap l !! a;
  if le_locked e then Some (mkLocker (<[a := mkLockEntry false (le_refs e)]> (kl_heap l)) (kl_entries l)) else None.

Definition seatFreezeLockKey (showTimeID ticketCategoryID : Z) : string :=
  "seat_freeze:" +:+ format_int showTimeID +:+ ":" +:+ format_int ticketCategoryID.
Definition seatFreezeTokenLockKey (freezeToken : string) : string := "seat_freeze_token:" +:+ freezeToken.

(** ** Goroutines *)

(** Where a goroutine stands between [Lock] and the end of the unlock. *)
Inductive lock_phase := Waiting (key : string) (a : nat) | Holding (key : string) (a : nat) | Releasing (key : string).
Definition phase_key (p : lock_phase) : string := match p with Waiting k _ | Holding k _ | Releasing k => k end.

Definition lock_state : Type := seatFreezeKeyedLocker * gmap nat lock_phase.
Inductive lock_step : lock_state -> lock_state -> Prop :=
  | ls_acquire t key l ts : ts !! t = None ->
      lock_step (l, ts) ((acquireEntry key l).2, <[t := Waiting key (acquireEntry key l).1]> ts)
  | ls_lock t key a l l' ts : ts !! t = Some (Waiting key a) -> mu_lock a l = Some l' ->
      lock_step (l, ts) (l', <[t := Holding key a]> ts)
  | ls_unlock t key a l l' ts : ts !! t = Some (Holding key a) -> mu_unlock a l = Some l' ->
      lock_step (l, ts) (l', <[t := Releasing key]> ts)
  | ls_release t key l ts : ts !! t = Some (Releasing key) ->
      lock_step (l, ts) (releaseEntry key l, delete t ts).

(** ** The invariant *)

(** How many goroutines use [key]. *)
Definition uses (key : string) (_ : nat) (p : lock_phase) : Z := if decide (phase_key p = key) then 1 else 0.
Definition users_of (key : string) (ts : gmap nat lock_phase) : Z := msum (uses key) ts.

Definition points_to (p : lock_phase) (a : nat) : Prop := match p with Waiting _ b | Holding _ b => b = a | Releasing _ => True end.

Record locks_ok (l : seatFreezeKeyedLocker) (ts : gmap nat lock_phase) : Prop := {
  lo_entry : forall k a, kl_entries l !! k = Some a -> exists e, kl_heap l !! a = Some e /\ le_refs e = users_of k ts /\
    0 < users_of k ts /\ (le_locked e = true <-> exists t, ts !! t = Some (Holding k a));
  lo_apart : forall k k' a, kl_entries l !! k = Some a -> kl_entries l !! k' = Some a -> k = k';
  lo_phase : forall t p, ts !! t = Some p -> exists a, kl_entries l !! phase_key p = Some a /\ points_to p a;
  lo_one : forall t t' k a a', ts !! t = Some (Holding k a) -> ts !! t' = Some (Holding k a') -> t = t' }.

Lemma uses_nonneg k ts : 0 <= users_of k ts.
Proof. apply msum_nonneg. intros t p _. unfold uses. destruct (decide _); lia. Qed.
Lemma uses_none k ts : users_of k ts <= 0 -> forall t p, ts !! t = Some p -> phase_key p <> k.
Proof.
  intros Hu t p Hp Hk. pose proof (msum_delete (uses k) ts t p Hp) as Hd. pose proof (uses_nonneg k (delete t ts)) as Hn.
  unfold users_of, uses in *. rewrite decide_True in Hd by done. lia.
Qed.
(** A goroutine that moves on keeps its key. *)
Lemma uses_move k t p q ts : ts !! t = Some p -> phase_key q = phase_key p -> users_of k (<[t := q]> ts) = users_of k ts.
Proof. intros Hp Hk. unfold users_of. rewrite (msum_insert _ _ _ _ _ Hp). unfold uses. rewrite Hk. lia. Qed.
Lemma uses_new k t p ts : ts !! t = None -> users_of k (<[t := p]> ts) = uses k t p + users_of k ts.
Proof. intros Ht. unfold users_of. by rewrite msum_insert_new. Qed.

Lemma uses_zero k ts : (forall t p, ts !! t = Some p -> phase_key p <> k) -> users_of k ts = 0.
Proof.
  induction ts as [|t p ts Ht IH] using map_ind; [done|]. intros Hk. rewrite uses_new by done. rewrite IH.
  - unfold uses. by rewrite decide_False by (apply (Hk t), lookup_insert_eq).
  - intros t' p' Ht'. apply (Hk t'). rewrite lookup_insert_ne; [done|by intros ->; congruence].
Qed.

(** Who holds what, after a goroutine [t] moved to a phase that holds nothing. *)
Lemma holders_same t p (ts : gmap nat lock_phase) k a : (forall k a, p <> Holding k a) -> (forall k a, ts !! t <> Some (Holding k a)) ->
  (exists t', <[t := p]> ts !! t' = Some (Holding k a)) <-> (exists t', ts !! t' = Some (Holding k a)).
Proof.
  intros Hp Ht. split; intros [t' Ht'].
  - destruct (decide (t = t')) as [<-|]; [rewrite lookup_insert_eq in Ht'; injection Ht' as ->; by destruct (Hp k a)|].
    rewrite lookup_insert_ne in Ht' by done. by exists t'.
  - exists t'. destruct (decide (t = t')) as [<-|]; [by destruct (Ht k a)|]. by rewrite lookup_insert_ne.
Qed.

Lemma locker_acquire_ok t key l ts : locks_ok l ts -> ts !! t = None ->
  locks_ok (acquireEntry key l).2 (<[t := Waiting key (acquireEntry key l).1]> ts).
Proof.
  intros [He Ha Hp Ho] Ht. assert (Hhold : forall b k a, (exists t', <[t := Waiting key b]> ts !! t' = Some (Holding k a)) <-> (exists t', ts !! t' = Some (Holding k a))).
  { intros b k a. apply holders_same; [done|by rewrite Ht]. }
  assert (Hone : forall b t1 t2 k a a', <[t := Waiting key b]> ts !! t1 = Some (Holding k a) -> <[t := Waiting key b]> ts !! t2 = Some (Holding k a') -> t1 = t2).
  { intros b t1 t2 k a a'. rewrite !lookup_insert_Some. intros [[_ ?]|[_ H1]] [[_ ?]|[_ H2]]; try done. by eapply Ho. }
  unfold acquireEntry. destruct (kl_entries l !! key) as [a|] eqn:Ek; cbn [fst snd].
  - split; cbn [kl_heap kl_entries].
    + intros k b Hk. destruct (He k b Hk) as (e & Hb & Hr & Hpos & Hl). rewrite uses_new by done. unfold uses. cbn [phase_key].
      destruct (decide (key = k)) as [<-|Hne].
      * assert (b = a) as -> by congruence. exists (add_refs 1 e). rewrite lookup_alter_eq, Hb. cbn. split_and!; [done|lia|lia|by rewrite Hhold].
      * assert (b <> a) by (intros ->; by destruct Hne; eapply Ha). exists e. rewrite lookup_alter_ne by done. split_and!; [done|lia|lia|by rewrite Hhold].
    + done.
    + intros t' p'. rewrite lookup_insert_Some. intros [[<- <-]|[_ H']]; [by exists a|by apply (Hp t')].
    + intros t1 t2 k b b2; apply Hone.
  - set (a := fresh (dom (kl_heap l))). assert (Hfresh : kl_heap l !! a = None) by apply not_elem_of_dom, is_fresh.
    assert (Hno : users_of key ts = 0 /\ forall t' b, ts !! t' <> Some (Holding key b)).
    { split; [apply uses_zero|]; intros t' x Ht'; destruct (Hp _ _ Ht') as (c & Hc & _); cbn in Hc; congruence. }
    destruct Hno as [Hzero Hnone]. split; cbn [kl_heap kl_entries].
    + intros k b. rewrite lookup_insert_Some. intros [[<- <-]|[Hne Hk]].
      * exists (add_refs 1 (mkLockEntry false 0)). rewrite lookup_insert_eq, uses_new, Hzero by done. unfold uses. cbn [phase_key].
        rewrite decide_True by done. cbn. split_and!; [done|lia|lia|]. split; [done|]. intros [t' Ht']%Hhold. by destruct (Hnone t' a).
      * destruct (He k b Hk) as (e & Hb & Hr & Hpos & Hl). exists e. rewrite lookup_insert_ne by congruence. rewrite uses_new by done. unfold uses. cbn [phase_key].
        rewrite decide_False by done. split_and!; [done|lia|lia|by rewrite Hhold].
    + intros k k' b. rewrite !lookup_insert_Some. intros [[<- <-]|[_ H1]] [[<- E]|[_ H2]]; [done| | |by eapply Ha].
      * destruct (He _ _ H2) as (e & Hb & _). congruence.
      * destruct (He _ _ H1) as (e & Hb & _). congruence.
    + intros t' p'. rewrite lookup_insert_Some. intros [[<- <-]|[_ H']]; [exists a; by rewrite lookup_insert_eq|].
      destruct (Hp _ _ H') as (b & Hb & Hpt). exists b. rewrite lookup_insert_ne by (intros ->; congruence). done.
    + intros t1 t2 k b b2; apply Hone.
Qed.

(** Locking and unlocking change one entry, and one goroutine's phase. *)
Lemma locker_turn_ok t p q key a e b l ts : locks_ok l ts -> ts !! t = Some p -> phase_key p = key -> phase_key q = key ->
  kl_entries l !! key = Some a -> kl_heap l !! a = Some e -> points_to q a ->
  (b = true <-> exists t', <[t := q]> ts !! t' = Some (Holding key a)) ->
  (forall k c, k <> key -> q <> Holding k c) -> (forall t' c, q = Holding key c -> ts !! t' <> Some (Holding key c)) ->
  (forall k c, k <> key -> p <> Holding k c) ->
  locks_ok (mkLocker (<[a := mkLockEntry b (le_refs e)]> (kl_heap l)) (kl_entries l)) (<[t := q]> ts).
Proof.
  intros [He Ha Hp Ho] Ht Hpk Hqk Hk Hea Hpt Hb Hq Hfree Hpo. split; cbn [kl_heap kl_entries].
  - intros k c Hkc. rewrite (uses_move k t p q ts Ht) by congruence. destruct (decide (k = key)) as [->|Hne].
    + assert (c = a) as -> by congruence. destruct (He _ _ Hk) as (e' & He' & Hr & Hpos & _). assert (e' = e) as -> by congruence.
      exists (mkLockEntry b (le_refs e)). rewrite lookup_insert_eq. cbn. split_and!; done.
    + destruct (He _ _ Hkc) as (e' & He' & Hr & Hpos & Hl). exists e'.
      rewrite lookup_insert_ne by (intros ->; by destruct Hne; eapply Ha). split_and!; [done..|]. rewrite Hl.
      split; intros [t' Ht']; exists t'; (destruct (decide (t = t')) as [<-|]; [|by rewrite ?lookup_insert_ne in * by done]).
      * by destruct (Hpo k c Hne); rewrite Ht in Ht'; injection Ht'.
      * by rewrite lookup_insert_eq in Ht'; injection Ht' as ->; destruct (Hq k c Hne).
  - done.
  - intros t' p'. rewrite lookup_insert_Some. intros [[<- <-]|[_ H']]; [exists a; by rewrite Hqk|by apply (Hp t')].
  - assert (Hsame : forall t' k c d, ts !! t' = Some (Holding k c) -> q = Holding k d -> False).
    { intros t' k c d Ht' ->. cbn in Hqk. subst k. destruct (Hp _ _ Ht') as (x & Hx & Hcx). cbn in Hx, Hcx.
      assert (x = a) as -> by congruence. cbn in Hpt. subst. by apply (Hfree t' a). }
    intros t1 t2 k c d. rewrite !lookup_insert_Some. intros [[<- H1]|[_ H1]] [[<- H2]|[_ H2]]; [done| | |by eapply Ho].
    + by destruct (Hsame _ _ _ _ H2 H1).
    + by destruct (Hsame _ _ _ _ H1 H2).
Qed.

Lemma locker_lock_ok t key a l l' ts : locks_ok l ts -> ts !! t = Some (Waiting key a) -> mu_lock a l = Some l' ->
  locks_ok l' (<[t := Holding key a]> ts).
Proof.
  intros Hok Ht Hm. pose proof Hok as [He Ha Hp Ho]. destruct (Hp _ _ Ht) as (b & Hk & Hb). cbn in Hk, Hb. subst b.
  destruct (He _ _ Hk) as (e & Hea & Hr & Hpos & Hl). unfold mu_lock in Hm. rewrite Hea in Hm. cbn in Hm.
  destruct (le_locked e); [done|]. injection Hm as <-. eapply locker_turn_ok; eauto; try done.
  - split; [|done]. intros _. exists t. by rewrite lookup_insert_eq.
  - by intros k c Hne [= <-].
  - intros t' c [= <-] Ht'. by assert (false = true) by (apply Hl; eauto).
Qed.
Lemma locker_unlock_ok t key a l l' ts : locks_ok l ts -> ts !! t = Some (Holding key a) -> mu_unlock a l = Some l' ->
  locks_ok l' (<[t := Releasing key]> ts).
Proof.
  intros Hok Ht Hm. pose proof Hok as [He Ha Hp Ho]. destruct (Hp _ _ Ht) as (b & Hk & Hb). cbn in Hk, Hb. subst b.
  destruct (He _ _ Hk) as (e & Hea & Hr & Hpos & Hl). unfold mu_unlock in Hm. rewrite Hea in Hm. cbn in Hm.
  destruct (le_locked e); [|done]. injection Hm as <-. eapply locker_turn_ok; eauto; try done.
  - split; [done|]. intros [t' Ht']. destruct (decide (t = t')) as [<-|Hne]; [by rewrite lookup_insert_eq in Ht'|].
    rewrite lookup_insert_ne in Ht' by done. destruct Hne. by eapply Ho.
  - by intros k c Hne [= <-].
Qed.

Lemma locker_release_ok t key l ts : locks_ok l ts -> ts !! t = Some (Releasing key) -> locks_ok (releaseEntry key l) (delete t ts).
Proof.
  intros [He Ha Hp Ho] Ht. destruct (Hp _ _ Ht) as (a & Hk & _). cbn in Hk. destruct (He _ _ Hk) as (e & Hea & Hr & Hpos & Hl).
  assert (Hu : forall k, users_of k (delete t ts) = users_of k ts - uses k t (Releasing key)) by (intros k; by apply msum_delete).
  assert (Hhold : forall k c, (exists t', delete t ts !! t' = Some (Holding k c)) <-> (exists t', ts !! t' = Some (Holding k c))).
  { intros k c. split; intros [t' Ht']; exists t'; [by apply lookup_delete_Some in Ht' as [_ ?]|].
    apply lookup_delete_Some. split; [intros ->; congruence|done]. }
  assert (Hone : forall t1 t2 k c d, delete t ts !! t1 = Some (Holding k c) -> delete t ts !! t2 = Some (Holding k d) -> t1 = t2).
  { intros t1 t2 k c d [_ H1]%lookup_delete_Some [_ H2]%lookup_delete_Some. by eapply Ho. }
  unfold releaseEntry. rewrite Hk, lookup_alter_eq, Hea. cbn [fmap option_fmap option_map le_refs add_refs].
  assert (Hother : forall k c, kl_entries l !! k = Some c -> k <> key -> exists e', alter (add_refs (-1)) a (kl_heap l) !! c = Some e' /\
    le_refs e' = users_of k (delete t ts) /\ 0 < users_of k (delete t ts) /\ (le_locked e' = true <-> exists t', delete t ts !! t' = Some (Holding k c))).
  { intros k c Hkc Hne. destruct (He _ _ Hkc) as (e' & He' & Hr' & Hpos' & Hl'). exists e'.
    rewrite lookup_alter_ne by (intros ->; by destruct Hne; eapply Ha). rewrite Hu. unfold uses. cbn [phase_key].
    rewrite decide_False by done. split_and!; [done|lia|lia|by rewrite Hhold]. }
  assert (Hkey : users_of key (delete t ts) = le_refs e - 1) by (rewrite Hu; unfold uses; cbn [phase_key]; rewrite decide_True by done; lia).
  destruct (Z.leb_spec (le_refs e + -1) 0) as [Hle|Hgt]; (split; cbn [kl_heap kl_entries]; [| | |exact Hone]).
  - intros k c [Hne Hkc]%lookup_delete_Some. by apply Hother.
  - intros k k' c [_ H1]%lookup_delete_Some [_ H2]%lookup_delete_Some. by eapply Ha.
  - intros t' p Ht'. assert (users_of key (delete t ts) <= 0) as Hz by lia. pose proof (uses_none key (delete t ts) Hz t' p Ht').
    apply lookup_delete_Some in Ht' as [_ Ht']. destruct (Hp _ _ Ht') as (c & Hc & Hpt). exists c. by rewrite lookup_delete_ne.
  - intros k c Hkc. destruct (decide (k = key)) as [->|]; [|by apply Hother]. assert (c = a) as -> by congruence.
    exists (add_refs (-1) e). rewrite lookup_alter_eq, Hea. cbn. split_and!; [done|lia|lia|by rewrite Hhold].
  - done.
  - intros t' p [_ Ht']%lookup_delete_Some. by apply (Hp t').
Qed.

Lemma locks_ok_run l ts : rtc lock_step (newSeatFreezeKeyedLocker, ∅) (l, ts) -> locks_ok l ts.
Proof.
  intros Hrun. change (locks_ok (l, ts).1 (l, ts).2). revert Hrun. generalize (l, ts). intros st.
  apply (rtc_ind_r (fun st => locks_ok st.1 st.2)).
  - split; cbn; intros *; by rewrite ?lookup_empty.
  - intros s1 s2 _ Hs Hok. destruct Hs; cbn in *; [by apply locker_acquire_ok|by eapply locker_lock_ok|by eapply locker_unlock_ok|by apply locker_release_ok].
Qed.

(** ** What the locks give *)

(** C34: the handlers of one key run one after the other, in every interleaving of the
    goroutines of a process.  At most one goroutine holds a key; whoever waits can lock
    unless another goroutine holds the same key; no unlock is one of an unlocked mutex;
    and the map has an entry exactly for the keys in use. *)
Theorem seat_locks_exclude l ts : rtc lock_step (newSeatFreezeKeyedLocker, ∅) (l, ts) ->
  (forall t t' key a a', ts !! t = Some (Holding key a) -> ts !! t' = Some (Holding key a') -> t = t') /\
  (forall t key a, ts !! t = Some (Waiting key a) -> is_Some (mu_lock a l) \/ exists t' a', ts !! t' = Some (Holding key a')) /\
  (forall t key a, ts !! t = Some (Holding key a) -> is_Some (mu_unlock a l)) /\
  (forall key, is_Some (kl_entries l !! key) <-> exists t p, ts !! t = Some p /\ phase_key p = key).
Proof.
  intros [He Ha Hp Ho]%locks_ok_run. split_and!.
  - exact Ho.
  - intros t key a Ht. destruct (Hp _ _ Ht) as (b & Hk & Hb). cbn in Hk, Hb. subst b. destruct (He _ _ Hk) as (e & Hea & _ & _ & Hl).
    unfold mu_lock. rewrite Hea. cbn. destruct (le_locked e); [|left; eauto]. right. destruct Hl as [Hl _]. destruct (Hl eq_refl) as [t' Ht']. eauto.
  - intros t key a Ht. destruct (Hp _ _ Ht) as (b & Hk & Hb). cbn in Hk, Hb. subst b. destruct (He _ _ Hk) as (e & Hea & _ & _ & Hl).
    unfold mu_unlock. rewrite Hea. cbn. rewrite (proj2 Hl) by eauto. eauto.
  - intros key. split.
    + intros [a Hk]. destruct (He _ _ Hk) as (e & _ & _ & Hpos & _).
      destruct (decide (map_Exists (fun _ p => phase_key p = key) ts)) as [(t & p & Ht & Hpk)|Hno]; [eauto|].
      rewrite uses_zero in Hpos; [lia|]. intros t p Ht Hpk. apply Hno. by exists t, p.
    + intros (t & p & Ht & <-). destruct (Hp _ _ Ht) as (a & Hk & _). eauto.
Qed.

(** Keys of different shows or categories, and of tokens, never meet. *)
Lemma freeze_key_inj s c s' c' : seatFreezeLockKey s c = seatFreezeLockKey s' c' -> s = s' /\ c = c'.
Proof.
  unfold seatFreezeLockKey. intros E. apply sapp_inj_l in E.
  change (format_int s +:+ String ":" (format_int c) = format_int s' +:+ String ":" (format_int c')) in E.
  apply format_sep_inj in E as [-> E]; [|done]. split; [done|by apply format_int_inj].
Qed.
Lemma freeze_key_not_token s c token : seatFreezeLockKey s c <> seatFreezeTokenLockKey token.
Proof. done. Qed.

(** Two goroutines meet at one key: the first holds it, the second waits. *)
Definition meeting : lock_state :=
  let key := seatFreezeLockKey 3 5 in
  let '(a, l) := acquireEntry key newSeatFreezeKeyedLocker in
  let '(_, l) := acquireEntry key (default l (mu_lock a l)) in
  (l, {[1%nat := Holding key a; 2%nat := Waiting key a]}).

Lemma seat_locks_exclude_witness : rtc lock_step (newSeatFreezeKeyedLocker, ∅) meeting /\
  mu_lock 0 meeting.1 = None /\ is_Some (mu_unlock 0 meeting.1) /\ is_Some (kl_entries meeting.1 !! "seat_freeze:3:5").
Proof.
  assert (Hrun : rtc lock_step (newSeatFreezeKeyedLocker, ∅) meeting).
  { eapply rtc_l; [apply (ls_acquire 1%nat "seat_freeze:3:5"); reflexivity|].
    eapply rtc_l; [apply (ls_lock 1%nat "seat_freeze:3:5" 0%nat); [reflexivity|vm_compute; reflexivity]|].
    eapply rtc_l; [apply (ls_acquire 2%nat "seat_freeze:3:5"); reflexivity|]. apply rtc_refl. }
  destruct meeting as [l ts] eqn:Em. destruct (seat_locks_exclude l ts Hrun) as (_ & _ & Hunlock & Huse).
  split; [exact Hrun|]. split; [|split].
  - change (mu_lock 0 (l, ts).1 = None). rewrite <- Em. vm_compute. reflexivity.
  - apply (Hunlock 1%nat "seat_freeze:3:5"). change ((l, ts).2 !! 1%nat = Some (Holding "seat_freeze:3:5" 0)). rewrite <- Em. vm_compute. reflexivity.
  - apply Huse. exists 2%nat, (Waiting "seat_freeze:3:5" 0). split; [|reflexivity].
    change ((l, ts).2 !! 2%nat = Some (Waiting "seat_freeze:3:5" 0)). rewrite <- Em. vm_compute. reflexivity.
Defined.
