(* ===== verification/OrderDB.v ===== *)
(** * The order tables  (services/order-rpc/internal/model)

    One database of the order service: the sharded tables d_order_xx and
    d_order_ticket_user_xx by suffix, the three guard tables and the delay-task
    outbox, with the primary and unique keys of sql/order.  Statements see and
    change the rows of one table.  A datetime column rounds to the second, a
    varchar and a decimal(10,0) column refuse what does not fit (MySQL 8 in its
    default strict mode); the ranges of the integer columns are not modelled. *)
From Stdlib Require Import ZArith Lia Ascii String Sorted.
From stdpp Require Import base gmap sets list strings sorting.
From S2P Require Import Prelude GoBase Effects Sql SeatDB PayService.
Open Scope string_scope.
Open Scope list_scope.
Open Scope Z_scope.

(** ** Rows *)

Record DOrder := mkOrder {
  do_Id : Z; do_OrderNumber : Z; do_ProgramId : Z; do_ShowTimeId : Z; do_ProgramTitle : string;
  do_ProgramItemPicture : string; do_ProgramPlace : string; do_ProgramShowTime : time;
  do_ProgramPermitChooseSeat : Z; do_UserId : Z; do_DistributionMode : string; do_TakeTicketMode : string;
  do_TicketCount : Z; do_OrderPrice : Z; do_OrderStatus : Z; do_FreezeToken : string;
  do_OrderExpireTime : time; do_CreateOrderTime : time; do_CancelOrderTime : option time;
  do_PayOrderTime : option time; do_CreateTime : time; do_EditTime : time; do_Status : Z }.

Record DOrderTicketUser := mkTicket {
  dt_Id : Z; dt_OrderNumber : Z; dt_ShowTimeId : Z; dt_UserId : Z; dt_TicketUserId : Z;
  dt_TicketUserName : string; dt_TicketUserIdNumber : string; dt_TicketCategoryId : Z;
  dt_TicketCategoryName : string; dt_TicketPrice : Z; dt_SeatId : Z; dt_SeatRow : Z; dt_SeatCol : Z;
  dt_SeatPrice : Z; dt_OrderStatus : Z; dt_CreateOrderTime : time; dt_CreateTime : time;
  dt_EditTime : time; dt_Status : Z }.

(** The three guard tables have one shape: [dg_Key] is the user, the viewer or the seat. *)
Record DOrderGuard := mkGuard {
  dg_Id : Z; dg_OrderNumber : Z; dg_ProgramId : Z; dg_ShowTimeId : Z; dg_Key : Z;
  dg_CreateTime : time; dg_EditTime : time; dg_Status : Z }.
Definition DOrderUserGuard : Type := DOrderGuard.
Definition DOrderViewerGuard : Type := DOrderGuard.
Definition DOrderSeatGuard : Type := DOrderGuard.

Record DDelayTaskOutbox := mkTask {
  ot_Id : Z; ot_TaskType : string; ot_TaskKey : string; ot_Payload : string; ot_ExecuteAt : time;
  ot_TaskStatus : Z; ot_PublishAttempts : Z; ot_ConsumeAttempts : Z; ot_LastPublishError : string;
  ot_LastConsumeError : string; ot_PublishedTime : option time; ot_ProcessedTime : option time;
  ot_CreateTime : time; ot_EditTime : time; ot_Status : Z }.

#[global] Instance DOrder_eq_dec : EqDecision DOrder.
Proof. solve_decision. Defined.
#[global] Instance DOrderTicketUser_eq_dec : EqDecision DOrderTicketUser.
Proof. solve_decision. Defined.
#[global] Instance DOrderGuard_eq_dec : EqDecision DOrderGuard.
Proof. solve_decision. Defined.
#[global] Instance DDelayTaskOutbox_eq_dec : EqDecision DDelayTaskOutbox.
Proof. solve_decision. Defined.

Record shard := mkShard {
  s_orders : gmap string (list DOrder); s_tickets : gmap string (list DOrderTicketUser);
  s_user_guards : list DOrderUserGuard; s_viewer_guards : list DOrderViewerGuard;
  s_seat_guards : list DOrderSeatGuard; s_outbox : list DDelayTaskOutbox }.

(** ** Tables of a shard *)

Definition set_orders (t : gmap string (list DOrder)) (s : shard) : shard :=
  mkShard t (s_tickets s) (s_user_guards s) (s_viewer_guards s) (s_seat_guards s) (s_outbox s).
Definition set_tickets (t : gmap string (list DOrderTicketUser)) (s : shard) : shard :=
  mkShard (s_orders s) t (s_user_guards s) (s_viewer_guards s) (s_seat_guards s) (s_outbox s).
Definition set_user_guards (t : list DOrderUserGuard) (s : shard) : shard :=
  mkShard (s_orders s) (s_tickets s) t (s_viewer_guards s) (s_seat_guards s) (s_outbox s).
Definition set_viewer_guards (t : list DOrderViewerGuard) (s : shard) : shard :=
  mkShard (s_orders s) (s_tickets s) (s_user_guards s) t (s_seat_guards s) (s_outbox s).
Definition set_seat_guards (t : list DOrderSeatGuard) (s : shard) : shard :=
  mkShard (s_orders s) (s_tickets s) (s_user_guards s) (s_viewer_guards s) t (s_outbox s).
Definition set_outbox (t : list DDelayTaskOutbox) (s : shard) : shard :=
  mkShard (s_orders s) (s_tickets s) (s_user_guards s) (s_viewer_guards s) (s_seat_guards s) t.

(** A statement on the table of a suffix, which has to exist. *)
Definition on_table {T A} (tables : shard -> gmap string T) (set_tables : gmap string T -> shard -> shard)
  (suffix : string) (m : M T A) : M shard A := fun s =>
  match tables s !! suffix with
  | None => (Err (EMySQL 1146 suffix), s)
  | Some rows => let '(r, rows') := m rows in (r, set_tables (<[suffix := rows']> (tables s)) s)
  end.
Definition on_order_table {A} (suffix : string) : M (list DOrder) A -> M shard A :=
  on_table s_orders set_orders suffix.
Definition on_ticket_table {A} (suffix : string) : M (list DOrderTicketUser) A -> M shard A :=
  on_table s_tickets set_tickets suffix.

(** ** d_order_model.go *)

(** The row INSERT stores: [pay_order_time] is not among its columns. *)
Definition stored_order (o : DOrder) : DOrder :=
  mkOrder (do_Id o) (do_OrderNumber o) (do_ProgramId o) (do_ShowTimeId o) (do_ProgramTitle o)
    (do_ProgramItemPicture o) (do_ProgramPlace o) (mysql_datetime (do_ProgramShowTime o))
    (do_ProgramPermitChooseSeat o) (do_UserId o) (do_DistributionMode o) (do_TakeTicketMode o)
    (do_TicketCount o) (do_OrderPrice o) (do_OrderStatus o) (do_FreezeToken o)
    (mysql_datetime (do_OrderExpireTime o)) (mysql_datetime (do_CreateOrderTime o))
    (mysql_datetime <$> do_CancelOrderTime o) None (mysql_datetime (do_CreateTime o))
    (mysql_datetime (do_EditTime o)) (do_Status o).

Definition order_columns (o : DOrder) : result err unit :=
  if negb (fits 256 (do_ProgramTitle o)) then too_long "program_title"
  else if negb (fits 512 (do_ProgramItemPicture o)) then too_long "program_item_picture"
  else if negb (fits 256 (do_ProgramPlace o)) then too_long "program_place"
  else if negb (fits 64 (do_DistributionMode o)) then too_long "distribution_mode"
  else if negb (fits 64 (do_TakeTicketMode o)) then too_long "take_ticket_mode"
  else if negb (Pay.decimal10 (do_OrderPrice o)) then out_of_range "order_price"
  else if negb (fits 64 (do_FreezeToken o)) then too_long "freeze_token"
  else Ok tt.

Definition insert_order1 (o : DOrder) (rows : list DOrder) : result err (list DOrder) :=
  _ ← order_columns o;
  if existsb (fun r => do_Id r =? do_Id o) rows then dup_entry "PRIMARY"
  else if existsb (fun r => do_OrderNumber r =? do_OrderNumber o) rows then dup_entry "uk_order_number"
  else Ok (rows ++ [stored_order o]).

Definition InsertOrderRow (o : DOrder) : M (list DOrder) unit := insert_batch insert_order1 [o].

Definition order_at (orderNumber : Z) (o : DOrder) : bool := (do_Status o =? 1) && (do_OrderNumber o =? orderNumber).

(** [FindOneByOrderNumber], and its variant for update. *)
Definition FindOneByOrderNumber (orderNumber : Z) : M (list DOrder) DOrder := fun rows =>
  (of_option ENotFound (find (order_at orderNumber) rows), rows).

(** Newest first. *)
Definition newest_order (a b : DOrder) : Prop :=
  do_CreateOrderTime b < do_CreateOrderTime a \/
  (do_CreateOrderTime a = do_CreateOrderTime b /\ do_Id b <= do_Id a).
#[global] Instance newest_order_dec a b : Decision (newest_order a b).
Proof. unfold newest_order. apply _. Defined.

Definition by_user_status (userId orderStatus : Z) (o : DOrder) : bool :=
  (do_Status o =? 1) && (do_UserId o =? userId) && ((orderStatus <=? 0) || (do_OrderStatus o =? orderStatus)).

Definition count_orders (p : DOrder -> bool) : M (list DOrder) Z := fun rows =>
  (Ok (Z.of_nat (length (filter (fun o => p o = true) rows))), rows).

Definition order_page (p : DOrder -> bool) (limit offset : Z) : M (list DOrder) (list DOrder) := fun rows =>
  (limit_offset limit offset (merge_sort newest_order (filter (fun o => p o = true) rows)), rows).

Definition sum_tickets (p : DOrder -> bool) : M (list DOrder) Z := fun rows =>
  (Ok (sumZ do_TicketCount (filter (fun o => p o = true) rows)), rows).

Definition by_user_show (userId showTimeId : Z) (o : DOrder) : bool :=
  (do_Status o =? 1) && (do_UserId o =? userId) && (do_ShowTimeId o =? showTimeId).

Definition CountByUserShowTimeAndStatus (userId showTimeId orderStatus : Z) : M (list DOrder) Z :=
  sum_tickets (fun o => by_user_show userId showTimeId o && (do_OrderStatus o =? orderStatus)).

Definition CountActiveTickets (userId showTimeId : Z) : M (list DOrder) Z :=
  sum_tickets (fun o => by_user_show userId showTimeId o && ((do_OrderStatus o =? 1) || (do_OrderStatus o =? 3))).

Definition ListUnpaidReservations (userId showTimeId : Z) : M (list DOrder) (gmap Z Z) := fun rows =>
  (Ok (foldl (fun m o => <[do_OrderNumber o := do_TicketCount o]> m) ∅
         (filter (fun o => by_user_show userId showTimeId o && (do_OrderStatus o =? 1) = true) rows)), rows).

(** Earliest expiry first. *)
Definition expiry_order (a b : DOrder) : Prop :=
  do_OrderExpireTime a < do_OrderExpireTime b \/
  (do_OrderExpireTime a = do_OrderExpireTime b /\ do_Id a <= do_Id b).
#[global] Instance expiry_order_dec a b : Decision (expiry_order a b).
Proof. unfold expiry_order. apply _. Defined.

Definition expired_unpaid (before : time) (o : DOrder) : bool :=
  (do_Status o =? 1) && (do_OrderStatus o =? 1) && (do_OrderExpireTime o <=? before).

Definition expired_page (p : DOrder -> bool) (limit : Z) : M (list DOrder) (list DOrder) := fun rows =>
  (limit_offset limit 0 (merge_sort expiry_order (filter (fun o => p o = true) rows)), rows).

Definition FindExpiredUnpaid (before : time) (limit : Z) : M (list DOrder) (list DOrder) :=
  expired_page (expired_unpaid before) limit.

(** The columns the UPDATE statements set. *)
Definition set_order (status : Z) (cancel pay : option time) (edit : time) (o : DOrder) : DOrder :=
  mkOrder (do_Id o) (do_OrderNumber o) (do_ProgramId o) (do_ShowTimeId o) (do_ProgramTitle o)
    (do_ProgramItemPicture o) (do_ProgramPlace o) (do_ProgramShowTime o) (do_ProgramPermitChooseSeat o)
    (do_UserId o) (do_DistributionMode o) (do_TakeTicketMode o) (do_TicketCount o) (do_OrderPrice o)
    status (do_FreezeToken o) (do_OrderExpireTime o) (do_CreateOrderTime o) cancel pay
    (do_CreateTime o) edit (do_Status o).

Definition UpdateCancelRow (orderNumber : Z) (cancelTime : time) : M (list DOrder) unit :=
  modify (update_rows (fun o => order_at orderNumber o && (do_OrderStatus o =? 1))
    (fun o => set_order 2 (Some (mysql_datetime cancelTime)) (do_PayOrderTime o) (mysql_datetime cancelTime) o)).

Definition UpdatePayRow (orderNumber : Z) (payTime : time) : M (list DOrder) unit :=
  modify (update_rows (fun o => order_at orderNumber o && (do_OrderStatus o =? 1))
    (fun o => set_order 3 (do_CancelOrderTime o) (Some (mysql_datetime payTime)) (mysql_datetime payTime) o)).

Definition UpdateRefundRow (orderNumber : Z) (refundTime : time) : M (list DOrder) unit :=
  modify (update_rows (fun o => order_at orderNumber o && ((do_OrderStatus o =? 2) || (do_OrderStatus o =? 3)))
    (fun o => set_order 4 (do_CancelOrderTime o) (do_PayOrderTime o) (mysql_datetime refundTime) o)).

(** ** d_order_ticket_user_model.go *)

Definition stored_ticket (t : DOrderTicketUser) : DOrderTicketUser :=
  mkTicket (dt_Id t) (dt_OrderNumber t) (dt_ShowTimeId t) (dt_UserId t) (dt_TicketUserId t)
    (dt_TicketUserName t) (dt_TicketUserIdNumber t) (dt_TicketCategoryId t) (dt_TicketCategoryName t)
    (dt_TicketPrice t) (dt_SeatId t) (dt_SeatRow t) (dt_SeatCol t) (dt_SeatPrice t) (dt_OrderStatus t)
    (mysql_datetime (dt_CreateOrderTime t)) (mysql_datetime (dt_CreateTime t))
    (mysql_datetime (dt_EditTime t)) (dt_Status t).

Definition ticket_columns (t : DOrderTicketUser) : result err unit :=
  if negb (fits 128 (dt_TicketUserName t)) then too_long "ticket_user_name"
  else if negb (fits 64 (dt_TicketUserIdNumber t)) then too_long "ticket_user_id_number"
  else if negb (fits 128 (dt_TicketCategoryName t)) then too_long "ticket_category_name"
  else if negb (Pay.decimal10 (dt_TicketPrice t)) then out_of_range "ticket_price"
  else if negb (Pay.decimal10 (dt_SeatPrice t)) then out_of_range "seat_price"
  else Ok tt.

Definition insert_ticket1 (t : DOrderTicketUser) (rows : list DOrderTicketUser) : result err (list DOrderTicketUser) :=
  _ ← ticket_columns t;
  if existsb (fun r => dt_Id r =? dt_Id t) rows then dup_entry "PRIMARY" else Ok (rows ++ [stored_ticket t]).

Definition InsertTicketRows (ts : list DOrderTicketUser) : M (list DOrderTicketUser) unit :=
  insert_batch insert_ticket1 ts.

Definition ticket_at (orderNumber : Z) (t : DOrderTicketUser) : bool :=
  (dt_Status t =? 1) && (dt_OrderNumber t =? orderNumber).
Definition ticket_order (a b : DOrderTicketUser) : Prop := dt_Id a <= dt_Id b.
#[global] Instance ticket_order_dec a b : Decision (ticket_order a b).
Proof. unfold ticket_order. apply _. Defined.

Definition FindTicketsByOrderNumber (orderNumber : Z) : M (list DOrderTicketUser) (list DOrderTicketUser) := fun rows =>
  (Ok (merge_sort ticket_order (filter (fun t => ticket_at orderNumber t = true) rows)), rows).

Definition set_ticket (status : Z) (edit : time) (t : DOrderTicketUser) : DOrderTicketUser :=
  mkTicket (dt_Id t) (dt_OrderNumber t) (dt_ShowTimeId t) (dt_UserId t) (dt_TicketUserId t)
    (dt_TicketUserName t) (dt_TicketUserIdNumber t) (dt_TicketCategoryId t) (dt_TicketCategoryName t)
    (dt_TicketPrice t) (dt_SeatId t) (dt_SeatRow t) (dt_SeatCol t) (dt_SeatPrice t) status
    (dt_CreateOrderTime t) (dt_CreateTime t) edit (dt_Status t).

Definition UpdateCancelTickets (orderNumber : Z) (cancelTime : time) : M (list DOrderTicketUser) unit :=
  modify (update_rows (fun t => ticket_at orderNumber t && (dt_OrderStatus t =? 1))
    (set_ticket 2 (mysql_datetime cancelTime))).
Definition UpdatePayTickets (orderNumber : Z) (payTime : time) : M (list DOrderTicketUser) unit :=
  modify (update_rows (fun t => ticket_at orderNumber t && (dt_OrderStatus t =? 1))
    (set_ticket 3 (mysql_datetime payTime))).
Definition UpdateRefundTickets (orderNumber : Z) (refundTime : time) : M (list DOrderTicketUser) unit :=
  modify (update_rows (fun t => ticket_at orderNumber t && ((dt_OrderStatus t =? 2) || (dt_OrderStatus t =? 3)))
    (set_ticket 4 (mysql_datetime refundTime))).

(** ** The guard models *)

Definition stored_guard (g : DOrderGuard) : DOrderGuard :=
  mkGuard (dg_Id g) (dg_OrderNumber g) (dg_ProgramId g) (dg_ShowTimeId g) (dg_Key g)
    (mysql_datetime (dg_CreateTime g)) (mysql_datetime (dg_EditTime g)) (dg_Status g).

Definition same_guard (a b : DOrderGuard) : bool := (dg_ShowTimeId a =? dg_ShowTimeId b) && (dg_Key a =? dg_Key b).

Definition insert_guard1 (uk : string) (g : DOrderGuard) (rows : list DOrderGuard) : result err (list DOrderGuard) :=
  if existsb (fun r => dg_Id r =? dg_Id g) rows then dup_entry "PRIMARY"
  else if existsb (fun r => same_guard r g) rows then dup_entry uk
  else Ok (rows ++ [stored_guard g]).

Definition uk_show_time_user : string := "uk_show_time_user".
Definition uk_show_time_viewer : string := "uk_show_time_viewer".
Definition uk_show_time_seat : string := "uk_show_time_seat".

Definition InsertUserGuardRow (g : DOrderUserGuard) : M (list DOrderGuard) unit :=
  insert_batch (insert_guard1 uk_show_time_user) [g].
Definition InsertViewerGuardRows (gs : list DOrderViewerGuard) : M (list DOrderGuard) unit :=
  insert_batch (insert_guard1 uk_show_time_viewer) gs.
Definition InsertSeatGuardRows (gs : list DOrderSeatGuard) : M (list DOrderGuard) unit :=
  insert_batch (insert_guard1 uk_show_time_seat) gs.

Definition DeleteByOrderNumber (orderNumber : Z) : M (list DOrderGuard) unit :=
  modify (filter (fun g => dg_OrderNumber g <> orderNumber)).

Definition guard_order (a b : DOrderGuard) : Prop := dg_Id a <= dg_Id b.
#[global] Instance guard_order_dec a b : Decision (guard_order a b).
Proof. unfold guard_order. apply _. Defined.

Definition active_guard (showTimeID afterID : Z) (g : DOrderGuard) : bool :=
  (dg_ShowTimeId g =? showTimeID) && (dg_Status g =? 1) && (afterID <? dg_Id g).

Definition FindActiveByShowTimeAfterID (showTimeID afterID limit : Z) : M (list DOrderGuard) (list DOrderGuard) :=
  fun rows =>
  (Ok (take (Z.to_nat (if limit <=? 0 then 100 else limit))
         (merge_sort guard_order (filter (fun g => active_guard showTimeID afterID g = true) rows))), rows).

(** ** d_delay_task_outbox_model.go *)

Definition stored_task (t : DDelayTaskOutbox) : DDelayTaskOutbox :=
  mkTask (ot_Id t) (ot_TaskType t) (ot_TaskKey t) (ot_Payload t) (mysql_datetime (ot_ExecuteAt t))
    (ot_TaskStatus t) (ot_PublishAttempts t) (ot_ConsumeAttempts t) (ot_LastPublishError t)
    (ot_LastConsumeError t) (mysql_datetime <$> ot_PublishedTime t) (mysql_datetime <$> ot_ProcessedTime t)
    (mysql_datetime (ot_CreateTime t)) (mysql_datetime (ot_EditTime t)) (ot_Status t).

(** ON DUPLICATE KEY UPDATE: the task starts over. *)
Definition rearm_task (t old : DDelayTaskOutbox) : DDelayTaskOutbox :=
  mkTask (ot_Id old) (ot_TaskType old) (ot_TaskKey old) (ot_Payload t) (mysql_datetime (ot_ExecuteAt t))
    0 0 0 "" "" None None (ot_CreateTime old) (mysql_datetime (ot_EditTime t)) 1.

Definition same_task (taskType taskKey : string) (t : DDelayTaskOutbox) : bool :=
  bool_decide (ot_TaskType t = taskType) && bool_decide (ot_TaskKey t = taskKey).

Definition upsert_task1 (t : DDelayTaskOutbox) (rows : list DDelayTaskOutbox) : result err (list DDelayTaskOutbox) :=
  if negb (fits 64 (ot_TaskType t)) then too_long "task_type"
  else if negb (fits 128 (ot_TaskKey t)) then too_long "task_key"
  else if negb (fits 512 (ot_LastPublishError t)) then too_long "last_publish_error"
  else if negb (fits 512 (ot_LastConsumeError t)) then too_long "last_consume_error"
  else match find (fun r => ot_Id r =? ot_Id t) rows with
  | Some r => Ok (update_rows (fun x => ot_Id x =? ot_Id r) (rearm_task t) rows)
  | None =>
      match find (same_task (ot_TaskType t) (ot_TaskKey t)) rows with
      | Some r => Ok (update_rows (fun x => ot_Id x =? ot_Id r) (rearm_task t) rows)
      | None => Ok (rows ++ [stored_task t])
      end
  end.

Definition InsertTaskRows (ts : list DDelayTaskOutbox) : M (list DDelayTaskOutbox) unit := insert_batch upsert_task1 ts.

Definition live_task (taskType taskKey : string) (t : DDelayTaskOutbox) : bool :=
  same_task taskType taskKey t && (ot_Status t =? 1).

Definition find_task (taskType taskKey : string) : M (list DDelayTaskOutbox) DDelayTaskOutbox := fun rows =>
  (of_option ENotFound (find (live_task taskType taskKey) rows), rows).

Definition processed_task (processedAt : time) (t : DDelayTaskOutbox) : DDelayTaskOutbox :=
  mkTask (ot_Id t) (ot_TaskType t) (ot_TaskKey t) (ot_Payload t) (ot_ExecuteAt t) 3
    (ot_PublishAttempts t) (ot_ConsumeAttempts t + 1) (ot_LastPublishError t) "" (ot_PublishedTime t)
    (Some (mysql_datetime processedAt)) (ot_CreateTime t) (mysql_datetime processedAt) (ot_Status t).

Definition MarkProcessed (taskType taskKey : string) (processedAt : time) : IO (list DDelayTaskOutbox) (Z * Z) :=
  row ← attempt (call (find_task taskType taskKey));
  match row with
  | Err e => if err_is e ENotFound then mret (0, 0) else throw e
  | Ok row =>
      _ ← call (modify (update_rows (live_task taskType taskKey) (processed_task processedAt)));
      mret (ot_TaskStatus row, ot_ConsumeAttempts row + 1)
  end.
