(* ===== verification/OrderRepo.v ===== *)
(** * The order repository  (services/order-rpc/repository)

    Several databases, by key; a route names the database and the table suffix of
    an order.  [OrderTx] is the operations a transaction may use on its database;
    the repository routes, runs transactions and pages through tables.  The fuel
    of a paging loop is one round per row of the table it reads. *)
From Stdlib Require Import ZArith Lia Ascii String Sorted.
From stdpp Require Import base gmap sets list strings sorting.
From S2P Require Import Prelude GoBase Effects Sql Sharding SeatDB OrderDB.
Import Codec Routes.
Open Scope string_scope.
Open Scope list_scope.
Open Scope Z_scope.

(** The databases of [ShardConns]. *)
Notation dbs := (gmap string shard) (only parsing).

(** ** order_transaction.go *)

(** Each statement is a call; [suffix] is that of the route. *)
Module Tx.

Definition on_guards {A} (get : shard -> list DOrderGuard) (set : list DOrderGuard -> shard -> shard)
  (m : M (list DOrderGuard) A) : M shard A := zoom get set m.

Definition InsertOrder (suffix : string) (o : DOrder) : IO shard unit :=
  call (on_order_table suffix (InsertOrderRow o)).

(** A batch without rows sends nothing. *)
Definition unless_empty {A} (rows : list A) (m : IO shard unit) : IO shard unit :=
  match rows with [] => mret tt | _ => m end.

Definition InsertOrderTickets (suffix : string) (ts : list DOrderTicketUser) : IO shard unit :=
  unless_empty ts (call (on_ticket_table suffix (InsertTicketRows ts))).

Definition InsertUserGuard (g : option DOrderUserGuard) : IO shard unit :=
  match g with
  | None => mret tt
  | Some g => call (on_guards s_user_guards set_user_guards (InsertUserGuardRow g))
  end.

Definition InsertViewerGuards (gs : list DOrderViewerGuard) : IO shard unit :=
  unless_empty gs (call (on_guards s_viewer_guards set_viewer_guards (InsertViewerGuardRows gs))).

Definition InsertSeatGuards (gs : list DOrderSeatGuard) : IO shard unit :=
  unless_empty gs (call (on_guards s_seat_guards set_seat_guards (InsertSeatGuardRows gs))).

Definition InsertDelayTasks (ts : list DDelayTaskOutbox) : IO shard unit :=
  unless_empty ts (call (zoom s_outbox set_outbox (InsertTaskRows ts))).

Definition MarkDelayTaskProcessed (taskType taskKey : string) (processedAt : time) : IO shard (Z * Z) :=
  on s_outbox set_outbox (MarkProcessed taskType taskKey processedAt).

Definition DeleteGuardsByOrderNumber (orderNumber : Z) : IO shard unit :=
  _ ← call (on_guards s_user_guards set_user_guards (DeleteByOrderNumber orderNumber));
  _ ← call (on_guards s_viewer_guards set_viewer_guards (DeleteByOrderNumber orderNumber));
  call (on_guards s_seat_guards set_seat_guards (DeleteByOrderNumber orderNumber)).

Definition FindOrderByNumberForUpdate (suffix : string) (orderNumber : Z) : IO shard DOrder :=
  call (on_order_table suffix (FindOneByOrderNumber orderNumber)).

Definition UpdateCancelStatus (suffix : string) (orderNumber : Z) (cancelTime : time) : IO shard unit :=
  _ ← call (on_order_table suffix (UpdateCancelRow orderNumber cancelTime));
  call (on_ticket_table suffix (UpdateCancelTickets orderNumber cancelTime)).

Definition UpdatePayStatus (suffix : string) (orderNumber : Z) (payTime : time) : IO shard unit :=
  _ ← call (on_order_table suffix (UpdatePayRow orderNumber payTime));
  call (on_ticket_table suffix (UpdatePayTickets orderNumber payTime)).

Definition UpdateRefundStatus (suffix : string) (orderNumber : Z) (refundTime : time) : IO shard unit :=
  _ ← call (on_order_table suffix (UpdateRefundRow orderNumber refundTime));
  call (on_ticket_table suffix (UpdateRefundTickets orderNumber refundTime)).

End Tx.

(** ** order_repository_sharded.go *)

Record Dependencies := mkDeps { dep_RouteMap : option RouteMap; dep_Router : option StaticRouter }.

Definition route_error (e : route_err) : err :=
  EOther (match e with
          | ErrRouteNotFound => "route not found"
          | ErrInvalidRouteEntry => "invalid route entry"
          | ErrRouteVersionMissing => "route map version missing"
          end).

(** [ParseOrderNumber] only fails with [ErrInvalidOrderNumber]. *)
Definition number_error (e : codec_err + route_err) : err :=
  match e with inl _ => EOther "invalid order number" | inr e => route_error e end.

Definition of_route {S A E} (conv : E -> err) (r : result E A) : IO S A :=
  lift (match r with Ok a => Ok a | Err e => Err (conv e) end).

Section repository.
Variable deps : Dependencies.

Definition RouteOfUser {S} (userID : Z) : IO S Route :=
  match dep_Router deps with
  | None => throw (route_error ErrRouteNotFound)
  | Some router => of_route route_error (RouteByUserID router userID)
  end.

Definition RouteOfOrder {S} (orderNumber : Z) : IO S Route :=
  match dep_Router deps with
  | None => throw (route_error ErrRouteNotFound)
  | Some router => wall ← now; of_route number_error (RouteByOrderNumber router wall orderNumber)
  end.

(** [storeForRoute]: the database of a route, when its connection is configured. *)
Definition at_shard {A} (dbKey : string) (m : IO shard A) : IO dbs A := fun '(e, d) =>
  match d !! dbKey with
  | None => (Err (EOther ("shard db key not configured: " +:+ dbKey)), (e, d))
  | Some sh => let '(r, (e', sh')) := m (e, sh) in (r, (e', <[dbKey := sh']> d))
  end.

Definition transactByRoute {A} (route : Route) (fn : string -> IO shard A) : IO dbs A :=
  at_shard (r_DBKey route) (transact (fn (r_TableSuffix route))).

(** [fn] gets the suffix of the transaction's route. *)
Definition TransactByOrderNumber {A} (orderNumber : Z) (fn : string -> IO shard A) : IO dbs A :=
  route ← RouteOfOrder orderNumber; transactByRoute route fn.

Definition TransactByUserID {A} (userID : Z) (fn : string -> IO shard A) : IO dbs A :=
  route ← RouteOfUser userID; transactByRoute route fn.

Definition FindOrderByNumber (orderNumber : Z) : IO dbs DOrder :=
  route ← RouteOfOrder orderNumber;
  at_shard (r_DBKey route) (call (on_order_table (r_TableSuffix route) (FindOneByOrderNumber orderNumber))).

Definition FindOrderTicketsByNumber (orderNumber : Z) : IO dbs (list DOrderTicketUser) :=
  route ← RouteOfOrder orderNumber;
  at_shard (r_DBKey route) (call (on_ticket_table (r_TableSuffix route) (FindTicketsByOrderNumber orderNumber))).

(** [FindPageByUserAndStatus]: the count and the page are two queries. *)
Definition FindOrderPageByUser (userID orderStatus pageNumber pageSize : Z) : IO dbs (list DOrder * Z) :=
  route ← RouteOfUser userID;
  at_shard (r_DBKey route) (
    total ← call (on_order_table (r_TableSuffix route) (count_orders (by_user_status userID orderStatus)));
    if total =? 0 then mret ([], 0)
    else
      page ← call (on_order_table (r_TableSuffix route)
               (order_page (by_user_status userID orderStatus) pageSize (wrap64 (wrap64 (pageNumber - 1) * pageSize))));
      mret (page, total)).

Definition CountActiveTicketsByUserShowTime (userID showTimeID : Z) : IO dbs Z :=
  route ← RouteOfUser userID;
  at_shard (r_DBKey route) (call (on_order_table (r_TableSuffix route) (CountActiveTickets userID showTimeID))).

Definition ListUnpaidReservationsByUserShowTime (userID showTimeID : Z) : IO dbs (gmap Z Z) :=
  route ← RouteOfUser userID;
  at_shard (r_DBKey route) (call (on_order_table (r_TableSuffix route) (ListUnpaidReservations userID showTimeID))).

(** *** The scan of expired orders *)

Definition orderMatchesLogicSlot (wall : time) (o : DOrder) (logicSlot : Z) : bool :=
  match LogicSlotByOrderNumber wall (do_OrderNumber o) with
  | Err _ => false
  | Ok slot => slot =? logicSlot
  end.

(** The rows after the cursor: its expiry time and id. *)
Definition after_cursor (cursor : option (time * Z)) (o : DOrder) : bool :=
  match cursor with
  | None => true
  | Some (t, i) => (t <? do_OrderExpireTime o) || ((do_OrderExpireTime o =? t) && (i <? do_Id o))
  end.

(** [for _, order := range batch]: the second component says the limit is reached. *)
Fixpoint scan_batch (logicSlot limit : Z) (batch orders : list DOrder) : IO shard (list DOrder * bool) :=
  match batch with
  | [] => mret (orders, false)
  | o :: batch =>
      wall ← now;
      if orderMatchesLogicSlot wall o logicSlot then
        let orders := orders ++ [o] in
        if limit <=? Z.of_nat (length orders) then mret (orders, true)
        else scan_batch logicSlot limit batch orders
      else scan_batch logicSlot limit batch orders
  end.

Fixpoint scan_pages (fuel : nat) (suffix : string) (logicSlot : Z) (before : time) (limit queryLimit : Z)
  (cursor : option (time * Z)) (orders : list DOrder) : IO shard (list DOrder) :=
  match fuel with
  | O => throw (EOther "out of fuel")
  | S fuel =>
      if limit <=? Z.of_nat (length orders) then mret orders
      else
        batch ← call (on_order_table suffix
                  (expired_page (fun o => expired_unpaid before o && after_cursor cursor o) queryLimit));
        match last batch with
        | None => mret orders
        | Some lastRow =>
            '(orders, full) ← scan_batch logicSlot limit batch orders;
            if (full : bool) then mret orders
            else if Z.of_nat (length batch) <? queryLimit then mret orders
            else scan_pages fuel suffix logicSlot before limit queryLimit
                   (Some (do_OrderExpireTime lastRow, do_Id lastRow)) orders
        end
  end.

Definition table_size (suffix : string) (sh : shard) : nat := length (default [] (s_orders sh !! suffix)).

Definition scan_expired (suffix : string) (logicSlot : Z) (before : time) (limit : Z) : IO shard (list DOrder) :=
  fun '(e, sh) =>
  scan_pages (S (table_size suffix sh)) suffix logicSlot before limit (if limit <? 32 then 32 else limit)
    None [] (e, sh).

Definition FindExpiredUnpaidBySlot (logicSlot : Z) (before : time) (limit : Z) : IO dbs (list DOrder) :=
  match dep_RouteMap deps with
  | None => throw (route_error ErrRouteNotFound)
  | Some routes =>
      route ← of_route route_error (RouteByLogicSlot routes logicSlot);
      at_shard (r_DBKey route)
        (if limit <=? 0 then mret [] else scan_expired (r_TableSuffix route) logicSlot before limit)
  end.

(** *** The walks over the guards *)

(** One database: [fn] folds the batches into its accumulator. *)
Fixpoint walk_pages {A} (fuel : nat) (find : Z -> Z -> M shard (list DOrderGuard)) (batchSize afterID : Z)
  (fn : A -> list DOrderGuard -> result err A) (acc : A) : IO shard A :=
  match fuel with
  | O => throw (EOther "out of fuel")
  | S fuel =>
      rows ← call (find afterID batchSize);
      match last rows with
      | None => mret acc
      | Some lastRow =>
          acc ← lift (fn acc rows);
          if Z.of_nat (length rows) <? batchSize then mret acc
          else walk_pages fuel find batchSize (dg_Id lastRow) fn acc
      end
  end.

Definition sortedShardDBKeys (d : dbs) : list string := merge_sort String.le (elements (dom d)).

Fixpoint walk_dbs {A} (guards : shard -> list DOrderGuard)
  (find : Z -> Z -> M shard (list DOrderGuard)) (batchSize : Z)
  (fn : A -> list DOrderGuard -> result err A) (keys : list string) (acc : A) : IO dbs A :=
  match keys with
  | [] => mret acc
  | key :: keys =>
      acc ← at_shard key (fun '(e, sh) => walk_pages (S (length (guards sh))) find batchSize 0 fn acc (e, sh));
      walk_dbs guards find batchSize fn keys acc
  end.

Definition walk_guards {A} (guards : shard -> list DOrderGuard) (set : list DOrderGuard -> shard -> shard)
  (showTimeID batchSize : Z) (fn : A -> list DOrderGuard -> result err A) (acc : A) : IO dbs A :=
  if showTimeID <=? 0 then throw (route_error ErrRouteNotFound)
  else fun '(e, d) =>
    walk_dbs guards (fun afterID limit => zoom guards set (FindActiveByShowTimeAfterID showTimeID afterID limit))
      (if batchSize <=? 0 then 100 else batchSize) fn (sortedShardDBKeys d) acc (e, d).

Definition WalkActiveUserGuardsByShowTime {A} (showTimeID batchSize : Z)
  (fn : A -> list DOrderUserGuard -> result err A) (acc : A) : IO dbs A :=
  walk_guards s_user_guards set_user_guards showTimeID batchSize fn acc.

Definition WalkActiveViewerGuardsByShowTime {A} (showTimeID batchSize : Z)
  (fn : A -> list DOrderViewerGuard -> result err A) (acc : A) : IO dbs A :=
  walk_guards s_viewer_guards set_viewer_guards showTimeID batchSize fn acc.

End repository.
