(* ===== verification/OrderPaging.v ===== *)
(** * The paging loops of the order repository

    The scan of expired orders and the walks over the guard tables read a table
    page by page, each page starting after the last row of the one before.  When
    nothing else writes and no statement fails, the pages together are exactly the
    rows a single query would return, and the loops end within their fuel. *)
From Stdlib Require Import ZArith Lia Ascii String Sorted.
From stdpp Require Import base gmap sets list strings sorting.
From S2P Require Import Prelude GoBase Effects Sql Sharding SeatDB OrderDB OrderRepo.
Import Codec Routes.
Open Scope string_scope.
Open Scope list_scope.
Open Scope Z_scope.

Lemma filter_cons_bool {A} (p : A -> bool) a l :
  filter (fun a => p a = true) (a :: l) =
  if p a then a :: filter (fun a => p a = true) l else filter (fun a => p a = true) l.
Proof. rewrite filter_cons. destruct (decide (p a = true)) as [E|E]; destruct (p a); congruence. Qed.
Lemma filter_none {A} (p : A -> bool) l : Forall (fun a => p a <> true) l -> filter (fun a => p a = true) l = [].
Proof. induction 1; [done|]. by rewrite filter_cons_False. Qed.
Lemma filter_all {A} (p : A -> bool) l : Forall (fun a => p a = true) l -> filter (fun a => p a = true) l = l.
Proof. induction 1; [done|]. rewrite filter_cons_True by done. by f_equal. Qed.

(** ** Keyset pagination over a sorted table *)

Section keyset.
Context {A : Type} (order : A -> A -> Prop) `{forall a b, Decision (order a b)}.
Context (id : A -> Z) (after : A -> A -> bool).
Hypothesis order_total : forall a b, order a b \/ order b a.
Hypothesis order_trans : Transitive order.
Hypothesis order_antisym : forall a b, order a b -> order b a -> id a = id b.
Hypothesis after_self : forall a, after a a = false.
Hypothesis after_spec : forall a b, id a <> id b -> after a b = true <-> order a b.

#[local] Instance order_total_inst : Total order.
Proof. exact order_total. Qed.

Lemma sorted_merge l : StronglySorted order (merge_sort order l).
Proof. apply StronglySorted_merge_sort; apply _. Qed.

Lemma filter_after l1 x l2 :
  StronglySorted order (l1 ++ x :: l2) -> NoDup (map id (l1 ++ x :: l2)) ->
  filter (fun o => after x o = true) (l1 ++ x :: l2) = l2.
Proof.
  intros Hs Hnd. rewrite filter_app, filter_cons_False.
  2: { by rewrite after_self. }
  rewrite map_app in Hnd. cbn in Hnd. apply NoDup_app in Hnd as (_ & Hdisj & [Hx Hnd2]%NoDup_cons).
  rewrite filter_none.
  2: { apply Forall_forall. intros y Hy. assert (Hne : id x <> id y).
       { intros E. apply (Hdisj (id y)); [apply list_elem_of_fmap; by exists y|]. rewrite <- E. by left. }
       rewrite after_spec by done. intros Hxy. apply Hne. apply order_antisym; [done|]. revert Hs. clear -Hy. induction l1 as [|z l1 IH]; cbn; [by apply not_elem_of_nil in Hy|].
       intros [Hs Hz]%StronglySorted_inv. apply elem_of_cons in Hy as [->|Hy]; [|by apply IH].
       rewrite Forall_forall in Hz. apply Hz, elem_of_app. right. by left. }
  cbn. assert (Hl2 : Forall (fun o => after x o = true) l2).
  { apply Forall_forall. intros y Hy. rewrite after_spec.
    - assert (Hs' : StronglySorted order (x :: l2)).
      { clear -Hs. induction l1 as [|z l1 IH]; [done|]. apply IH. by apply StronglySorted_inv in Hs as [? _]. }
      apply StronglySorted_inv in Hs' as [_ Hf]. rewrite Forall_forall in Hf. by apply Hf.
    - intros E. apply Hx. rewrite E. apply list_elem_of_fmap. by exists y. }
  by apply filter_all.
Qed.

(** The query after the cursor [x] returns what follows [x] in the sorted table. *)
Lemma page_after (p : A -> bool) rows l1 x l2 :
  NoDup (map id rows) -> merge_sort order (filter (fun o => p o = true) rows) = l1 ++ x :: l2 ->
  merge_sort order (filter (fun o => p o && after x o = true) rows) = l2.
Proof.
  intros Hnd Hl.
  assert (Hp : filter (fun o => p o = true) rows ≡ₚ l1 ++ x :: l2) by (rewrite <- Hl; symmetry; apply merge_sort_Permutation).
  assert (Hndl : NoDup (map id (l1 ++ x :: l2))) by (rewrite <- Hp; by apply NoDup_map_filter).
  assert (Hsl : StronglySorted order (l1 ++ x :: l2)) by (rewrite <- Hl; apply sorted_merge).
  assert (Hperm : merge_sort order (filter (fun o => p o && after x o = true) rows) ≡ₚ l2).
  { rewrite merge_sort_Permutation, <- (filter_after l1 x l2 Hsl Hndl), <- Hp.
    clear. induction rows as [|a rows IH]; [done|]. rewrite !filter_cons.
    destruct (p a) eqn:Ep; cbn [andb].
    - destruct (decide (true = true)); [|done]. rewrite filter_cons. destruct (decide (after x a = true)); by rewrite IH.
    - destruct (decide (false = true)); [done|]. done. }
  apply (StronglySorted_unique_strong order); [|apply sorted_merge| |done].
  - intros a b Ha Hb Hab Hba. apply (NoDup_map_inj id (l1 ++ x :: l2)); [done| | |by apply order_antisym].
    + rewrite Hperm in Ha. apply elem_of_app. right. by right.
    + apply elem_of_app. right. by right.
  - clear -Hsl. induction l1 as [|z l1 IH]; cbn in Hsl; apply StronglySorted_inv in Hsl as [? _]; [done|by apply IH].
Qed.
End keyset.

Lemma take_all_short {A} (n : nat) (l : list A) : (length (take n l) < n)%nat -> take n l = l.
Proof. rewrite length_take. intros Hlen. apply take_ge. lia. Qed.

(** ** The scan of expired orders *)

Definition expiry_after (a b : DOrder) : bool := after_cursor (Some (do_OrderExpireTime a, do_Id a)) b.

Lemma expiry_after_self a : expiry_after a a = false.
Proof. unfold expiry_after, after_cursor. by rewrite !Z.ltb_irrefl, andb_false_r. Qed.
Lemma expiry_after_spec a b : do_Id a <> do_Id b -> expiry_after a b = true <-> expiry_order a b.
Proof.
  unfold expiry_after, after_cursor, expiry_order.
  rewrite orb_true_iff, andb_true_iff, !Z.ltb_lt, Z.eqb_eq. lia.
Qed.

Lemma expiry_total a b : expiry_order a b \/ expiry_order b a.
Proof. unfold expiry_order. lia. Qed.
Lemma expiry_trans : Transitive expiry_order.
Proof. intros a b c. unfold expiry_order. lia. Qed.
Lemma expiry_antisym a b : expiry_order a b -> expiry_order b a -> do_Id a = do_Id b.
Proof. unfold expiry_order. lia. Qed.

(** A clock that stands still and peers that answer. *)
Definition still (w : time) (ids : list Z) : env := mkEnv [] [] w ids.

Definition in_slot (wall : time) (logicSlot : Z) (o : DOrder) : bool := orderMatchesLogicSlot wall o logicSlot.

Lemma scan_batch_run w ids slot limit batch : forall orders sh,
  Z.of_nat (length orders) < limit ->
  scan_batch slot limit batch orders (still w ids, sh) =
    (Ok (let m := filter (fun o => in_slot w slot o = true) batch in
         if limit <=? Z.of_nat (length orders + length m)
         then (take (Z.to_nat limit) (orders ++ m), true) else (orders ++ m, false)), (still w ids, sh)).
Proof.
  induction batch as [|o batch IH]; intros orders sh Hlen; cbn [scan_batch].
  { cbn. rewrite Nat.add_0_r, app_nil_r. destruct (Z.leb_spec limit (Z.of_nat (length orders))); [lia|done]. }
  change ((now ≫= ?k) (still w ids, sh)) with (k w (still w ids, sh)). cbv beta.
  rewrite filter_cons_bool. change (orderMatchesLogicSlot w o slot) with (in_slot w slot o).
  destruct (in_slot w slot o) eqn:Eo.
  - cbv zeta. cbn [length]. rewrite length_app. cbn [length].
    destruct (Z.leb_spec limit (Z.of_nat (length orders + 1))) as [Hge|Hlt].
    + destruct (Z.leb_spec limit (Z.of_nat (length orders + S (length (filter (fun o0 => in_slot w slot o0 = true) batch))))); [|lia].
      unfold mret, M_ret. rewrite (app_assoc orders [o] (filter _ batch) : orders ++ o :: _ = _), take_app_length'; [done|]. rewrite length_app. cbn. lia.
    + rewrite IH by (rewrite length_app; cbn; lia). rewrite length_app. cbn [length].
      rewrite <- app_assoc. cbn [app].
      by replace (length orders + 1 + length (filter (fun o0 => in_slot w slot o0 = true) batch))%nat
        with (length orders + S (length (filter (fun o0 => in_slot w slot o0 = true) batch)))%nat by lia.
  - by apply IH.
Qed.

Lemma read_table {A} suffix sh rows (m : M (list DOrder) A) :
  s_orders sh !! suffix = Some rows -> (m rows).2 = rows -> on_order_table suffix m sh = ((m rows).1, sh).
Proof.
  intros Hr Hm. unfold on_order_table, on_table. rewrite Hr. destruct (m rows) as [r rows']. cbn in *. subst rows'.
  rewrite insert_id by done. by destruct sh.
Qed.

Lemma last_app_some {A} (l1 l2 : list A) x : last l2 = Some x -> last (l1 ++ l2) = Some x.
Proof. intros Hl. rewrite last_app. by rewrite Hl. Qed.

Definition cursor_of (l : list DOrder) : option (time * Z) :=
  match last l with None => None | Some x => Some (do_OrderExpireTime x, do_Id x) end.

Section scan.
Context (w : time) (ids : list Z) (suffix : string) (slot : Z) (before : time) (limit q : Z) (sh : shard).
Context (rows : list DOrder).
Hypothesis Hrows : s_orders sh !! suffix = Some rows.
Hypothesis Hids : NoDup (map do_Id rows).
Hypothesis Hq : 0 < q.

Definition expired_rows : list DOrder := merge_sort expiry_order (filter (fun o => expired_unpaid before o = true) rows).

Lemma query_rest l1 l2 : expired_rows = l1 ++ l2 ->
  merge_sort expiry_order (filter (fun o => expired_unpaid before o && after_cursor (cursor_of l1) o = true) rows) = l2.
Proof.
  intros HL. unfold expired_rows in HL. unfold cursor_of. destruct l1 as [|x l1 _] using rev_ind.
  - cbn [app] in HL. rewrite <- HL. cbn [last after_cursor]. f_equal. apply list_filter_iff. intros o. by rewrite andb_true_r.
  - rewrite last_snoc. rewrite <- app_assoc in HL.
    apply (page_after expiry_order do_Id expiry_after expiry_total expiry_trans expiry_antisym expiry_after_self expiry_after_spec
      (expired_unpaid before) rows l1 x l2 Hids HL).
Qed.

Lemma scan_pages_run fuel : forall l1 l2, expired_rows = l1 ++ l2 -> (length l2 < fuel)%nat ->
  Z.of_nat (length (filter (fun o => in_slot w slot o = true) l1)) <= limit ->
  scan_pages fuel suffix slot before limit q (cursor_of l1) (filter (fun o => in_slot w slot o = true) l1)
    (still w ids, sh) =
  (Ok (take (Z.to_nat limit) (filter (fun o => in_slot w slot o = true) expired_rows)), (still w ids, sh)).
Proof.
  induction fuel as [|fuel IH]; intros l1 l2 HL Hf Hlim; [lia|]. cbn [scan_pages].
  set (m1 := filter (fun o => in_slot w slot o = true) l1) in *.
  destruct (Z.leb_spec limit (Z.of_nat (length m1))) as [Hge|Hlt].
  { rewrite HL, filter_app. fold m1. rewrite take_app_length'; [done|lia]. }
  erewrite call_bind; [|done|].
  2: { rewrite (read_table _ _ rows) by done. unfold expired_page. cbn [fst]. rewrite (query_rest l1 l2) by done.
       unfold limit_offset. destruct (Z.ltb_spec q 0); [lia|]. reflexivity. }
  change (Z.to_nat 0) with 0%nat. rewrite drop_0. set (batch := take (Z.to_nat q) l2).
  assert (Hl2 : l2 = batch ++ drop (Z.to_nat q) l2) by (symmetry; apply take_drop).
  destruct (last batch) as [x|] eqn:Hx.
  2: { apply last_None in Hx. assert (l2 = []) as ->.
       { destruct l2 as [|y l2']; [done|]. exfalso. unfold batch in Hx.
         apply (f_equal length) in Hx. rewrite length_take in Hx. cbn in Hx. lia. }
       rewrite HL, app_nil_r. fold m1. rewrite take_ge; [done|lia]. }
  rewrite bind_unfold, scan_batch_run by done. cbv zeta. set (m := filter (fun o => in_slot w slot o = true) batch).
  assert (Hall : filter (fun o => in_slot w slot o = true) expired_rows =
    (m1 ++ m) ++ filter (fun o => in_slot w slot o = true) (drop (Z.to_nat q) l2)).
  { rewrite HL, Hl2 at 1. by rewrite !filter_app, app_assoc. }
  destruct (Z.leb_spec limit (Z.of_nat (length m1 + length m))) as [Hfull|Hpart].
  - rewrite Hall, (take_app_le (m1 ++ m)); [done|]. rewrite length_app. lia.
  - destruct (Z.ltb_spec (Z.of_nat (length batch)) q) as [Hs|Hs].
    + rewrite Hall. assert (drop (Z.to_nat q) l2 = []) as ->.
      { apply drop_ge. unfold batch in Hs. rewrite length_take in Hs. lia. }
      rewrite app_nil_r, take_ge; [done|]. rewrite length_app. lia.
    + assert (Hc : Some (do_OrderExpireTime x, do_Id x) = cursor_of (l1 ++ batch)).
      { unfold cursor_of. by rewrite (last_app_some l1 batch x Hx). }
      rewrite Hc. unfold m1, m. rewrite <- filter_app. apply (IH _ (drop (Z.to_nat q) l2)).
      * by rewrite <- app_assoc, <- Hl2.
      * rewrite length_drop. unfold batch in Hs. rewrite length_take in Hs. lia.
      * rewrite filter_app, length_app. fold m1 m. lia.
Qed.

End scan.

(** C29: the scan for expired orders of a logic slot returns exactly the first [limit]
    unpaid orders of the slot that have expired, earliest first, however many pages
    it takes and however many orders of other slots share the table; it always ends. *)
Theorem expired_scan_exact deps m route d sh rows logicSlot before limit w ids :
  dep_RouteMap deps = Some m -> RouteByLogicSlot m logicSlot = Ok route ->
  d !! r_DBKey route = Some sh -> s_orders sh !! r_TableSuffix route = Some rows -> NoDup (map do_Id rows) ->
  FindExpiredUnpaidBySlot deps logicSlot before limit (still w ids, d) =
  (Ok (take (Z.to_nat limit) (filter (fun o => in_slot w logicSlot o = true)
        (merge_sort expiry_order (filter (fun o => expired_unpaid before o = true) rows)))), (still w ids, d)).
Proof.
  intros Hm Hr Hd Hs Hnd. unfold FindExpiredUnpaidBySlot. rewrite Hm. unfold of_route. rewrite Hr.
  change ((lift (Ok route) ≫= ?k) (still w ids, d)) with (k route (still w ids, d)). cbv beta.
  unfold at_shard. rewrite Hd. destruct (Z.leb_spec limit 0) as [Hle|Hpos].
  { unfold mret, M_ret. rewrite insert_id by done. by replace (Z.to_nat limit) with 0%nat by lia. }
  unfold scan_expired. assert (Hq : 0 < (if limit <? 32 then 32 else limit)) by (destruct (Z.ltb_spec limit 32); lia).
  pose proof (scan_pages_run w ids (r_TableSuffix route) logicSlot before limit _ sh rows Hs Hnd Hq
    (S (table_size (r_TableSuffix route) sh)) [] (expired_rows before rows) eq_refl) as Hrun.
  cbn [filter list_filter cursor_of last] in Hrun. rewrite Hrun.
  - by rewrite insert_id.
  - unfold table_size, expired_rows. rewrite Hs. cbn [default].
    rewrite (Permutation_length (merge_sort_Permutation _ _)). unfold id.
    pose proof (length_filter (fun o => expired_unpaid before o = true) rows). lia.
  - cbn. lia.
Qed.

(** ** The walks over the guards *)

Definition guard_after (a b : DOrderGuard) : bool := dg_Id a <? dg_Id b.

Lemma guard_total a b : guard_order a b \/ guard_order b a.
Proof. unfold guard_order. lia. Qed.
Lemma guard_trans : Transitive guard_order.
Proof. intros a b c. unfold guard_order. lia. Qed.
Lemma guard_antisym a b : guard_order a b -> guard_order b a -> dg_Id a = dg_Id b.
Proof. unfold guard_order. lia. Qed.
Lemma guard_after_self a : guard_after a a = false.
Proof. apply Z.ltb_irrefl. Qed.
Lemma guard_after_spec a b : dg_Id a <> dg_Id b -> guard_after a b = true <-> guard_order a b.
Proof. unfold guard_after, guard_order. rewrite Z.ltb_lt. lia. Qed.

(** What a walk is to visit: the active guards of the show, by identifier. *)
Definition show_guards (showTimeID : Z) (rows : list DOrderGuard) : list DOrderGuard :=
  merge_sort guard_order (filter (fun g => active_guard showTimeID 0 g = true) rows).

Definition id_of_last (l : list DOrderGuard) : Z := match last l with None => 0 | Some x => dg_Id x end.

Section walk.
Context {A : Type} (guards : shard -> list DOrderGuard) (set : list DOrderGuard -> shard -> shard).
Hypothesis set_get : forall sh, set (guards sh) sh = sh.
Context (w : time) (ids : list Z) (showTimeID batchSize : Z) (f : A -> DOrderGuard -> A).
Hypothesis Hbatch : 0 < batchSize.

Definition fold_batch (acc : A) (rows : list DOrderGuard) : result err A := Ok (foldl f acc rows).
Definition page_of (afterID limit : Z) : M shard (list DOrderGuard) :=
  zoom guards set (FindActiveByShowTimeAfterID showTimeID afterID limit).

Lemma walk_rest rows l1 l2 : NoDup (map dg_Id rows) -> show_guards showTimeID rows = l1 ++ l2 ->
  merge_sort guard_order (filter (fun g => active_guard showTimeID (id_of_last l1) g = true) rows) = l2.
Proof.
  intros Hnd HL. unfold id_of_last. destruct l1 as [|x l1 _] using rev_ind; [exact HL|].
  rewrite last_snoc. rewrite <- app_assoc in HL.
  assert (Hx : 0 < dg_Id x).
  { assert (Hin : x ∈ show_guards showTimeID rows) by (rewrite HL; apply elem_of_app; right; by left).
    unfold show_guards in Hin. rewrite merge_sort_Permutation in Hin.
    apply list_elem_of_filter in Hin as [Hin _]. unfold active_guard in Hin. by bool_norm. }
  rewrite <- (page_after guard_order dg_Id guard_after guard_total guard_trans guard_antisym guard_after_self
    guard_after_spec (active_guard showTimeID 0) rows l1 x l2 Hnd HL).
  f_equal. apply list_filter_iff. intros g. unfold active_guard, guard_after.
  rewrite !andb_true_iff, !Z.ltb_lt. lia.
Qed.

Lemma walk_pages_run sh fuel : NoDup (map dg_Id (guards sh)) -> forall acc l1 l2,
  show_guards showTimeID (guards sh) = l1 ++ l2 -> (length l2 < fuel)%nat ->
  walk_pages fuel page_of batchSize (id_of_last l1) fold_batch acc (still w ids, sh) =
  (Ok (foldl f acc l2), (still w ids, sh)).
Proof.
  intros Hnd. induction fuel as [|fuel IH]; intros acc l1 l2 HL Hf; [lia|]. cbn [walk_pages].
  assert (Hq : page_of (id_of_last l1) batchSize sh = (Ok (take (Z.to_nat batchSize) l2), sh)).
  { unfold page_of, zoom, FindActiveByShowTimeAfterID. rewrite (walk_rest _ l1 l2) by done.
    destruct (Z.leb_spec batchSize 0); [lia|]. by rewrite set_get. }
  erewrite call_bind; [|done|exact Hq]. set (batch := take (Z.to_nat batchSize) l2).
  destruct (last batch) as [x|] eqn:Hx.
  2: { apply last_None in Hx. destruct l2 as [|y l2]; [done|]. exfalso. unfold batch in Hx.
       apply (f_equal length) in Hx. rewrite length_take in Hx. cbn in Hx. lia. }
  change ((lift (fold_batch acc batch) ≫= ?k) (still w ids, sh)) with (k (foldl f acc batch) (still w ids, sh)).
  cbv beta. assert (Hl2 : l2 = batch ++ drop (Z.to_nat batchSize) l2) by (symmetry; apply take_drop).
  destruct (Z.ltb_spec (Z.of_nat (length batch)) batchSize) as [Hs|Hs]; unfold batch in Hs; rewrite length_take in Hs.
  - assert (batch = l2) as -> by (apply take_ge; lia). done.
  - assert (Hid : dg_Id x = id_of_last (l1 ++ batch)) by (unfold id_of_last; by rewrite (last_app_some l1 batch x Hx)).
    rewrite Hid, (IH _ _ (drop (Z.to_nat batchSize) l2)).
    + rewrite Hl2 at 2. by rewrite foldl_app.
    + by rewrite <- app_assoc, <- Hl2.
    + rewrite length_drop. lia.
Qed.

Definition guards_at (d : gmap string shard) (key : string) : list DOrderGuard :=
  match d !! key with None => [] | Some sh => show_guards showTimeID (guards sh) end.

Lemma walk_dbs_run (d : gmap string shard) : map_Forall (fun _ sh => NoDup (map dg_Id (guards sh))) d ->
  forall keys acc, Forall (fun k => is_Some (d !! k)) keys ->
  walk_dbs guards page_of batchSize fold_batch keys acc (still w ids, d) =
  (Ok (foldl f acc (mjoin (map (guards_at d) keys))), (still w ids, d)).
Proof.
  intros Hnd. induction keys as [|k keys IH]; intros acc Hk; [done|].
  apply Forall_cons in Hk as [[sh Hsh] Hk]. cbn [walk_dbs]. rewrite bind_unfold.
  unfold at_shard. rewrite Hsh.
  pose proof (walk_pages_run sh (S (length (guards sh))) (Hnd _ _ Hsh) acc [] (show_guards showTimeID (guards sh))
    eq_refl) as Hrun. change (id_of_last []) with 0 in Hrun. rewrite Hrun.
  - rewrite insert_id by done. rewrite IH by done. cbn. unfold guards_at at 2. rewrite Hsh. by rewrite foldl_app.
  - unfold show_guards. rewrite (Permutation_length (merge_sort_Permutation _ _)).
    pose proof (length_filter (fun g => active_guard showTimeID 0 g = true) (guards sh)). lia.
Qed.

End walk.

(** A walk over every database folds [f] over exactly the active guards of the show:
    database by database in the order of their keys, each by identifier. *)
Lemma walk_guards_run {A} guards set (d : gmap string shard) w ids showTimeID batchSize (f : A -> DOrderGuard -> A) acc :
  (forall sh, set (guards sh) sh = sh) -> 0 < showTimeID ->
  map_Forall (fun _ sh => NoDup (map dg_Id (guards sh))) d ->
  walk_guards guards set showTimeID batchSize (fun acc rows => Ok (foldl f acc rows)) acc (still w ids, d) =
  (Ok (foldl f acc (mjoin (map (guards_at guards showTimeID d) (sortedShardDBKeys d)))), (still w ids, d)).
Proof.
  intros Hset Hst Hnd. unfold walk_guards. destruct (Z.leb_spec showTimeID 0); [lia|].
  apply (walk_dbs_run guards set Hset w ids showTimeID); [destruct (Z.leb_spec batchSize 0); lia|done|].
  apply Forall_forall. intros k Hk. unfold sortedShardDBKeys in Hk. rewrite merge_sort_Permutation in Hk.
  by apply elem_of_elements, elem_of_dom in Hk.
Qed.

(** The walk over the user guards of a show visits every active guard of every
    database once, in order, whatever the batch size; it always ends. *)
Theorem user_guard_walk_exact {A} (d : gmap string shard) w ids showTimeID batchSize (f : A -> DOrderGuard -> A) acc :
  0 < showTimeID -> map_Forall (fun _ sh => NoDup (map dg_Id (s_user_guards sh))) d ->
  WalkActiveUserGuardsByShowTime showTimeID batchSize (fun acc rows => Ok (foldl f acc rows)) acc (still w ids, d) =
  (Ok (foldl f acc (mjoin (map (guards_at s_user_guards showTimeID d) (sortedShardDBKeys d)))), (still w ids, d)).
Proof. intros Hst Hnd. apply walk_guards_run; [by intros []|done|done]. Qed.
