(* ===== verification/OrderFlow.v ===== *)
(** * The life of an order  (services/order-rpc/internal/logic)

    Cancelling, paying, checking a payment, refunding and closing an order.  The
    order service owns its databases and the rush store's Redis; it calls the
    program service, through the interface [ProgramRpc], and the pay service.  A
    remote call may fail before the peer runs or lose the answer of a peer that
    did.  The lock on an order is a call of the lock service, which may refuse.
    Log lines are not modelled; times in answers are instants, not text. *)
From Stdlib Require Import ZArith Lia Ascii String.
From stdpp Require Import base gmap sets list strings.
From S2P Require Import Prelude GoBase Effects Sql Redis RushRecord RushStore PayService ProgramDB RefundRule SeatFreeze OrderDB OrderRepo.
Open Scope string_scope.
Open Scope list_scope.
Open Scope Z_scope.

(** ** Remote calls *)

(** What a gRPC server answers for an error that is not a status: the context's
    errors have codes, everything else is Unknown with the error's text. *)
Fixpoint grpc_status (e : err) : err :=
  match e with
  | EStatus _ _ => e
  | ESeatFreeze cause => grpc_status cause
  | EDeadline => EStatus DeadlineExceeded "context deadline exceeded"
  | ECanceled => EStatus CanceledCode "context canceled"
  | EX x => EStatus UnknownCode (xerr_text x)
  | EOther msg => EStatus UnknownCode msg
  | EMySQL _ msg => EStatus UnknownCode msg
  | ENotFound => EStatus UnknownCode "sql: no rows in result set"
  | ENetTimeout => EStatus UnknownCode "i/o timeout"
  | ELocked => EStatus UnknownCode "repeat guard locked"
  end.

(** A handler of a peer called over the network. *)
Definition rpc {S A} (m : IO S A) : IO S A := fun '(e, s) =>
  let '(f, e) := draw e in
  match f with
  | NoFault => map_err grpc_status m (e, s)
  | FailBefore x => (Err x, (e, s))
  | FailAfter x => (Err x, (m (e, s)).2)
  end.

Lemma keeps_rpc {S A} (P : S -> Prop) (m : IO S A) : keeps P m -> keeps P (rpc m).
Proof.
  intros Hm [e s] Hs. unfold rpc. cbn in *. destruct (draw e) as [[|x|x] e1]; [|done|].
  - by apply keeps_map_err.
  - cbn. by apply (Hm (e1, s)).
Qed.

Lemma rpc_ok {S A} (m : IO S A) e s a e' s' :
  rpc m (e, s) = (Ok a, (e', s')) -> exists e1, m (e1, s) = (Ok a, (e', s')).
Proof.
  unfold rpc. destruct (draw e) as [[|x|x] e1]; [|done|done]. intros H%map_err_ok. by exists e1.
Qed.

(** The program service as its client sees it.  The handlers do not read the
    release reason. *)
Class ProgramRpc (P : Type) := {
  rpc_AutoAssignAndFreezeSeats : AutoAssignReq -> IO P AutoAssignResp;
  rpc_ConfirmSeatFreeze : string -> IO P unit;
  rpc_ReleaseSeatFreeze : string -> IO P unit;
  rpc_ReleaseSoldSeats : ReleaseSoldReq -> IO P unit;
  rpc_EvaluateRefundRule : EvaluateRefundRuleReq -> IO P EvaluateRefundRuleResp }.

(** ** The service *)

Record ServiceContext := mkSvc {
  sv_deps : Dependencies; sv_AttemptStore : option AttemptStore; sv_RepeatGuard : bool }.

Record orders (P R : Type) := mkOrders {
  ow_dbs : gmap string shard; ow_rush : R; ow_program : P; ow_pay : Pay.paydb }.
Arguments mkOrders {P R} _ _ _ _.
Arguments ow_dbs {P R} _.
Arguments ow_rush {P R} _.
Arguments ow_program {P R} _.
Arguments ow_pay {P R} _.

Definition orderStatusUnpaid : Z := 1.
Definition orderStatusCancelled : Z := 2.
Definition orderStatusPaid : Z := 3.
Definition orderStatusRefunded : Z := 4.

(** jobs/order-close/taskdef. *)
Definition TaskTypeCloseTimeout : string := "order.close_timeout".
Definition TaskKey (orderNumber : Z) : string := TaskTypeCloseTimeout +:+ ":" +:+ format_int orderNumber.

(** ** Pure helpers of order_domain_helper.go *)

Definition validateUserOrderReq (userID orderNumber : Z) : bool := negb ((userID <=? 0) || (orderNumber <=? 0)).
Definition validateUserShowTimeReq (userID showTimeID : Z) : bool := negb ((userID <=? 0) || (showTimeID <=? 0)).

Definition is_any (e : err) (xs : list xerr) : bool := existsb (err_is_x e) xs.

(** [status.Error(c, err.Error())]; an error that is one of the sentinels has its text,
    unless it wraps it. *)
Fixpoint err_text (e : err) : string :=
  match e with
  | EX x => xerr_text x
  | EStatus _ msg => msg
  | ESeatFreeze cause => err_text cause
  | EOther msg => msg
  | _ => ""
  end.

Definition mapOrderError (e : err) : err :=
  if negb (bool_decide (status_code e = UnknownCode)) then e
  else if err_is_x e ErrInvalidParam then EStatus InvalidArgument (err_text e)
  else if err_is_x e ErrInternal then EStatus InternalCode (err_text e)
  else if is_any e [ErrOrderNotFound; ErrPayBillNotFound] then EStatus NotFound (err_text e)
  else if is_any e [ErrOrderSubmitTooFrequent; ErrOrderOperateTooFrequent] then EStatus ResourceExhausted (err_text e)
  else if is_any e [ErrOrderStatusInvalid; ErrOrderTicketUserInvalid; ErrOrderPurchaseLimitExceeded;
                    ErrOrderLimitLedgerNotReady; ErrOrderExpired; ErrOrderAlreadyPaid; ErrOrderRefundNotAllowed;
                    ErrOrderRefundWindowClosed; ErrSeatInventoryInsufficient]
  then EStatus FailedPrecondition (err_text e)
  else if err_is_x e ErrOrderRefundRuleInvalid then EStatus InternalCode (err_text e)
  else e.

Definition calculateRefundPercent (orderPrice refundAmount : Z) : Z :=
  if (orderPrice <=? 0) || (refundAmount <=? 0) then 0
  else wrap64 (Z.quot (wrap64 (wrap64 (refundAmount * 100) + Z.quot orderPrice 2)) orderPrice).

Definition orderTicketSeatIDs (ts : list DOrderTicketUser) : list Z :=
  filter (fun i => 0 < i) (map dt_SeatId ts).

Definition buildRefundRequestNo (orderNumber : Z) : string := "refund-" +:+ format_int orderNumber.

Definition refundRejectReasonToError (reason : string) : err :=
  if bool_decide (reason = "") then EX ErrOrderRefundNotAllowed
  else if bool_decide (reason = "refund stage not matched") then EX ErrOrderRefundWindowClosed
  else if bool_decide (reason = "program does not permit refund") then EX ErrOrderRefundNotAllowed
  else EStatus FailedPrecondition reason.

Definition compensationRefundReason : string := "订单已取消，支付晚到补偿退款".

(** ** Requests and answers *)

Record PayOrderReq := mkPayOrderReq { py_UserId : Z; py_OrderNumber : Z; py_Subject : string; py_Channel : string }.
(** [PayOrderResp] and [PayCheckResp]: the fields of the bill are zero without one. *)
Record PayOrderResp := mkPayOrderResp {
  pr_OrderNumber : Z; pr_OrderStatus : Z; pr_PayBillNo : Z; pr_PayStatus : Z; pr_PayTime : option time }.
Record RefundOrderReq := mkRefundOrderReq { ro_UserId : Z; ro_OrderNumber : Z; ro_Reason : string }.
Record RefundOrderResp := mkRefundOrderResp {
  rf_OrderNumber : Z; rf_OrderStatus : Z; rf_RefundAmount : Z; rf_RefundPercent : Z; rf_RefundBillNo : Z;
  rf_RefundTime : option time }.

(** [mapPayOrderResp] and [mapPayCheckResp], for an order that exists. *)
Definition mapPayOrderResp (orderNumber orderStatus : Z) (bill : option Pay.GetPayBillResp) : PayOrderResp :=
  match bill with
  | None => mkPayOrderResp orderNumber orderStatus 0 0 None
  | Some b => mkPayOrderResp orderNumber orderStatus (Pay.gp_PayBillNo b) (Pay.gp_PayStatus b) (Pay.gp_PayTime b)
  end.

Definition mapRefundOrderResp (orderNumber : Z) (bill : Pay.RefundResp) (percent : Z) : RefundOrderResp :=
  mkRefundOrderResp orderNumber orderStatusRefunded (Pay.rr_RefundAmount bill) percent
    (Pay.rr_RefundBillNo bill) (Pay.rr_RefundTime bill).

Definition applyRefundPayStatus (b : Pay.GetPayBillResp) (r : Pay.RefundResp) : Pay.GetPayBillResp :=
  if 0 <? Pay.rr_PayStatus r
  then Pay.mkGetPayBillResp (Pay.gp_PayBillNo b) (Pay.gp_OrderNumber b) (Pay.gp_UserId b) (Pay.gp_Subject b)
         (Pay.gp_Channel b) (Pay.gp_Amount b) (Pay.rr_PayStatus r) (Pay.gp_PayTime b)
  else b.

(** ** Transactions on an order *)

(** [if errors.Is(err, model.ErrNotFound) { return xerr.ErrOrderNotFound }; return err]. *)
Definition order_not_found (e : err) : err := if err_is e ENotFound then EX ErrOrderNotFound else e.

Definition lock_row (suffix : string) (orderNumber : Z) : IO shard DOrder :=
  map_err order_not_found (Tx.FindOrderByNumberForUpdate suffix orderNumber).

Definition cancelTx (orderNumber : Z) (suffix : string) : IO shard bool :=
  order ← lock_row suffix orderNumber;
  if do_OrderStatus order =? orderStatusCancelled then mret false
  else if negb (do_OrderStatus order =? orderStatusUnpaid) then throw (EX ErrOrderStatusInvalid)
  else
    cancelTime ← now;
    _ ← Tx.UpdateCancelStatus suffix (do_OrderNumber order) cancelTime;
    _ ← Tx.DeleteGuardsByOrderNumber (do_OrderNumber order);
    mret true.

Definition payTx (orderNumber : Z) (payTime : time) (suffix : string) : IO shard unit :=
  order ← lock_row suffix orderNumber;
  if do_OrderStatus order =? orderStatusPaid then mret tt
  else if negb (do_OrderStatus order =? orderStatusUnpaid) then throw (EX ErrOrderStatusInvalid)
  else Tx.UpdatePayStatus suffix (do_OrderNumber order) payTime.

Definition refundedTx (orderNumber : Z) (suffix : string) : IO shard unit :=
  order ← lock_row suffix orderNumber;
  if do_OrderStatus order =? orderStatusRefunded then mret tt
  else if negb (do_OrderStatus order =? orderStatusPaid) && negb (do_OrderStatus order =? orderStatusCancelled)
  then throw (EX ErrOrderStatusInvalid)
  else
    refundTime ← now;
    _ ← Tx.UpdateRefundStatus suffix orderNumber refundTime;
    Tx.DeleteGuardsByOrderNumber (do_OrderNumber order).

(** The answer of [finalizeCloseTimeoutTask]: the snapshot, whether it changed, and what
    the outbox row was. *)
Definition closeTx (orderNumber : Z) (t : time) (suffix : string) : IO shard (option DOrder * bool * (Z * Z)) :=
  let mark := Tx.MarkDelayTaskProcessed TaskTypeCloseTimeout (TaskKey orderNumber) t in
  found ← attempt (Tx.FindOrderByNumberForUpdate suffix orderNumber);
  match found with
  | Err e => if err_is e ENotFound then m ← mark; mret (None, false, m) else throw e
  | Ok order =>
      if negb (do_OrderStatus order =? orderStatusUnpaid) then m ← mark; mret (Some order, false, m)
      else if t <? do_OrderExpireTime order then mret (Some order, false, (0, 0))
      else
        _ ← Tx.UpdateCancelStatus suffix (do_OrderNumber order) t;
        _ ← Tx.DeleteGuardsByOrderNumber (do_OrderNumber order);
        m ← mark;
        mret (Some (set_order orderStatusCancelled (Some t) (do_PayOrderTime order) (do_EditTime order) order), true, m)
  end.

(** ** Handlers *)

Section handlers.
Context {P R : Type} `{ProgramRpc P} `{RedisHash R}.
Variable svc : ServiceContext.

Notation W := (orders P R).

Definition on_dbs {A} : IO (gmap string shard) A -> IO W A :=
  on ow_dbs (fun d w => mkOrders d (ow_rush w) (ow_program w) (ow_pay w)).
Definition on_rush {A} : IO R A -> IO W A :=
  on ow_rush (fun r w => mkOrders (ow_dbs w) r (ow_program w) (ow_pay w)).
Definition on_program {A} : IO P A -> IO W A :=
  on ow_program (fun p w => mkOrders (ow_dbs w) (ow_rush w) p (ow_pay w)).
Definition on_pay {A} : IO Pay.paydb A -> IO W A :=
  on ow_pay (fun p w => mkOrders (ow_dbs w) (ow_rush w) (ow_program w) p).

Definition ReleaseSeatFreeze_ (freezeToken : string) : IO W unit := on_program (rpc (rpc_ReleaseSeatFreeze freezeToken)).
Definition Refund_ (r : Pay.RefundReq) : IO W Pay.RefundResp := on_pay (rpc (Pay.Refund r)).
Definition GetPayBill_ (orderNumber : Z) : IO W Pay.GetPayBillResp := on_pay (rpc (Pay.GetPayBill orderNumber)).

(** The key is [repeatguard.OrderStatusKey(orderNumber)]; the lock is released when
    the handler returns. *)
Definition lockOrderStatusGuard (orderNumber : Z) : IO W unit :=
  if sv_RepeatGuard svc
  then map_err (fun e => if err_is e ELocked then EX ErrOrderOperateTooFrequent else e) (call (mret tt))
  else mret tt.

Definition transactOrder {A} (orderNumber : Z) (fn : string -> IO shard A) : IO W A :=
  on_dbs (TransactByOrderNumber (sv_deps svc) orderNumber fn).

Definition loadOrderSnapshot (orderNumber : Z) : IO W DOrder :=
  transactOrder orderNumber (fun suffix => lock_row suffix orderNumber).

Definition finalizeOrderCancel (orderNumber : Z) : IO W bool := transactOrder orderNumber (cancelTx orderNumber).

Definition finalizeOrderPay (orderNumber : Z) (payTime : time) : IO W unit :=
  transactOrder orderNumber (payTx orderNumber payTime).

Definition convergeOrderRefunded (orderNumber : Z) : IO W unit := transactOrder orderNumber (refundedTx orderNumber).

Definition finalizeCloseTimeoutTask (orderNumber : Z) (t : time) : IO W (option DOrder * bool * (Z * Z)) :=
  transactOrder orderNumber (closeTx orderNumber t).

(** [FindOrderByNumber] followed by the owner check. *)
Definition findOwnedOrder (userID orderNumber : Z) : IO W DOrder :=
  order ← map_err order_not_found (on_dbs (FindOrderByNumber (sv_deps svc) orderNumber));
  if negb (do_UserId order =? userID) then throw (EX ErrOrderNotFound) else mret order.

Definition mustGetPayBillForOrder (orderNumber : Z) : IO W Pay.GetPayBillResp :=
  map_err (fun e => if bool_decide (status_code e = NotFound) then EX ErrPayBillNotFound else e)
    (GetPayBill_ orderNumber).

(** *** rush_attempt_release_helper.go *)

Definition syncClosedRushAttempt (showTimeID orderNumber : Z) (t : time) : IO W unit :=
  match sv_AttemptStore svc with
  | None => mret tt
  | Some _ =>
      if showTimeID <=? 0 then mret tt
      else
        t ← (if is_zero_time t then now else mret t);
        found ← attempt (on_rush (GetByShowTimeAndOrderNumber (sv_AttemptStore svc) showTimeID orderNumber));
        match found with
        | Err e => if err_is_x e ErrOrderNotFound then mret tt else throw e
        | Ok record =>
            outcome ← on_rush (FinalizeClosedOrder (sv_AttemptStore svc) (Some record) t);
            match outcome with
            | AttemptTransitioned | AttemptAlreadyFailed => mret tt
            | _ => throw (EX ErrInternal)
            end
        end
  end.

(** Its error is only logged. *)
Definition sync_closed (order : DOrder) : IO W unit :=
  t ← now;
  _ ← attempt (syncClosedRushAttempt (do_ShowTimeId order) (do_OrderNumber order) t);
  mret tt.

Definition releaseOrderCreateFreeze (freezeToken : string) : IO W unit :=
  if bool_decide (freezeToken = "") then mret tt
  else _ ← attempt (ReleaseSeatFreeze_ freezeToken); mret tt.

(** *** cancel_order_logic.go *)

Definition cancelOrderWithLock (orderNumber userID : Z) (requireOwner : bool) : IO W bool :=
  if orderNumber <=? 0 then throw (EX ErrInvalidParam)
  else
    _ ← lockOrderStatusGuard orderNumber;
    order ← loadOrderSnapshot orderNumber;
    if requireOwner && negb (do_UserId order =? userID) then throw (EX ErrOrderNotFound)
    else if do_OrderStatus order =? orderStatusCancelled then _ ← sync_closed order; mret false
    else if negb (do_OrderStatus order =? orderStatusUnpaid) then throw (EX ErrOrderStatusInvalid)
    else
      _ ← ReleaseSeatFreeze_ (do_FreezeToken order);
      changed ← finalizeOrderCancel (do_OrderNumber order);
      _ ← (if (changed : bool) then sync_closed order else mret tt);
      mret changed.

Definition CancelOrder (userID orderNumber : Z) : IO W unit :=
  if negb (validateUserOrderReq userID orderNumber) then throw invalidParam
  else map_err mapOrderError (_ ← cancelOrderWithLock orderNumber userID true; mret tt).

(** *** pay_order_logic.go *)

(** [PayTime] travels as text in seconds, local time. *)
Definition answered_time (t : option time) : IO W time :=
  match t with None => now | Some t => mret (time_of_unix (unix_sec t)) end.

Definition PayOrder (r : PayOrderReq) : IO W PayOrderResp :=
  if negb (validateUserOrderReq (py_UserId r) (py_OrderNumber r)) then throw invalidParam
  else map_err mapOrderError (
    _ ← lockOrderStatusGuard (py_OrderNumber r);
    order ← loadOrderSnapshot (py_OrderNumber r);
    if negb (do_UserId order =? py_UserId r) then throw (EX ErrOrderNotFound)
    else if do_OrderStatus order =? orderStatusPaid then
      bill ← mustGetPayBillForOrder (do_OrderNumber order);
      mret (mapPayOrderResp (do_OrderNumber order) (do_OrderStatus order) (Some bill))
    else if negb (do_OrderStatus order =? orderStatusUnpaid) then throw (EX ErrOrderStatusInvalid)
    else
      t ← now;
      if negb (t <? do_OrderExpireTime order) then throw (EX ErrOrderExpired)
      else
        let subject := if bool_decide (py_Subject r = "") then do_ProgramTitle order else py_Subject r in
        mockResp ← on_pay (rpc (Pay.MockPay (Pay.mkMockPayReq (do_OrderNumber order) (do_UserId order) subject
                     (py_Channel r) (do_OrderPrice order))));
        _ ← on_program (rpc (rpc_ConfirmSeatFreeze (do_FreezeToken order)));
        payTime ← answered_time (Pay.mr_PayTime mockResp);
        _ ← finalizeOrderPay (do_OrderNumber order) payTime;
        mret (mkPayOrderResp (do_OrderNumber order) orderStatusPaid (Pay.mr_PayBillNo mockResp)
                (Pay.mr_PayStatus mockResp) (Pay.mr_PayTime mockResp))).

(** *** pay_check_logic.go *)

Definition compensation (order : DOrder) (userID : Z) : Pay.RefundReq :=
  Pay.mkRefundReq (do_OrderNumber order) userID (do_OrderPrice order) "mock" compensationRefundReason.

Definition PayCheck (userID orderNumber : Z) : IO W PayOrderResp :=
  if negb (validateUserOrderReq userID orderNumber) then throw invalidParam
  else map_err mapOrderError (
    order ← findOwnedOrder userID orderNumber;
    let o := do_OrderNumber order in let st := do_OrderStatus order in
    if negb (st =? orderStatusPaid) && negb (st =? orderStatusRefunded) && negb (st =? orderStatusCancelled)
    then mret (mapPayOrderResp o st None)
    else if st =? orderStatusCancelled then
      found ← attempt (GetPayBill_ o);
      match found with
      | Err e => if bool_decide (status_code e = NotFound) then mret (mapPayOrderResp o st None) else throw e
      | Ok bill =>
          if Pay.gp_PayStatus bill =? Pay.payStatusPaid then
            refundResp ← Refund_ (compensation order userID);
            _ ← convergeOrderRefunded o;
            mret (mapPayOrderResp o orderStatusRefunded (Some (applyRefundPayStatus bill refundResp)))
          else if Pay.gp_PayStatus bill =? Pay.payStatusRefunded then
            _ ← convergeOrderRefunded o;
            mret (mapPayOrderResp o orderStatusRefunded (Some bill))
          else mret (mapPayOrderResp o st (Some bill))
      end
    else
      bill ← mustGetPayBillForOrder o;
      mret (mapPayOrderResp o st (Some bill))).

(** *** refund_order_logic.go *)

Definition full_refund (order : DOrder) (r : RefundOrderReq) : Pay.RefundReq :=
  Pay.mkRefundReq (do_OrderNumber order) (ro_UserId r) (do_OrderPrice order) "mock" (ro_Reason r).

Definition refund_percent (order : DOrder) (resp : Pay.RefundResp) : Z :=
  calculateRefundPercent (do_OrderPrice order) (Pay.rr_RefundAmount resp).

Definition refundOrReuse (order : DOrder) (bill : Pay.GetPayBillResp) (r : RefundOrderReq) : IO W (Pay.RefundResp * Z) :=
  if Pay.gp_PayStatus bill =? Pay.payStatusRefunded then
    refundResp ← Refund_ (full_refund order r);
    mret (refundResp, refund_percent order refundResp)
  else if negb (Pay.gp_PayStatus bill =? Pay.payStatusPaid) then throw (EX ErrOrderStatusInvalid)
  else
    rule ← on_program (rpc (rpc_EvaluateRefundRule (mkEvalReq (do_ShowTimeId order) (do_OrderPrice order))));
    if negb (er_AllowRefund rule) then throw (refundRejectReasonToError (er_RejectReason rule))
    else
      refundResp ← Refund_ (Pay.mkRefundReq (do_OrderNumber order) (ro_UserId r) (er_RefundAmount rule) "mock" (ro_Reason r));
      mret (refundResp, er_RefundPercent rule).

Definition release_sold (order : DOrder) (tickets : list DOrderTicketUser) : IO W unit :=
  match orderTicketSeatIDs tickets with
  | [] => mret tt
  | ids => on_program (rpc (rpc_ReleaseSoldSeats
             (mkSoldReq (do_ShowTimeId order) ids (buildRefundRequestNo (do_OrderNumber order)))))
  end.

Definition RefundOrder (r : RefundOrderReq) : IO W RefundOrderResp :=
  if negb (validateUserOrderReq (ro_UserId r) (ro_OrderNumber r)) then throw invalidParam
  else map_err mapOrderError (
    order ← findOwnedOrder (ro_UserId r) (ro_OrderNumber r);
    tickets ← on_dbs (FindOrderTicketsByNumber (sv_deps svc) (ro_OrderNumber r));
    if do_OrderStatus order =? orderStatusRefunded then
      refundResp ← Refund_ (full_refund order r);
      mret (mapRefundOrderResp (do_OrderNumber order) refundResp (refund_percent order refundResp))
    else if negb (do_OrderStatus order =? orderStatusPaid) then throw (EX ErrOrderStatusInvalid)
    else
      bill ← mustGetPayBillForOrder (do_OrderNumber order);
      '(refundResp, percent) ← refundOrReuse order bill r;
      _ ← release_sold order tickets;
      _ ← convergeOrderRefunded (do_OrderNumber order);
      mret (mapRefundOrderResp (do_OrderNumber order) refundResp percent)).

(** *** close_expired_order_logic.go and close_expired_orders_logic.go *)

Definition CloseExpiredOrder (orderNumber : Z) : IO W unit :=
  if orderNumber <=? 0 then throw (mapOrderError (EX ErrInvalidParam))
  else
    _ ← map_err mapOrderError (lockOrderStatusGuard orderNumber);
    t ← now;
    res ← attempt (finalizeCloseTimeoutTask orderNumber t);
    match res with
    | Err e => if err_is_x e ErrOrderStatusInvalid then mret tt else throw (mapOrderError e)
    | Ok (Some order, true, _) =>
        _ ← sync_closed order;
        _ ← attempt (ReleaseSeatFreeze_ (do_FreezeToken order));
        mret tt
    | Ok _ => mret tt
    end.

(** [range orders]: the number of orders closed. *)
Fixpoint close_each (rows : list DOrder) : IO W Z :=
  match rows with
  | [] => mret 0
  | o :: rows =>
      changed ← map_err mapOrderError (cancelOrderWithLock (do_OrderNumber o) 0 false);
      n ← close_each rows;
      mret (n + (if (changed : bool) then 1 else 0))
  end.

Fixpoint close_slots (slots : nat) (logicSlot : Z) (t : time) (remaining : Z) : IO W Z :=
  match slots with
  | O => mret 0
  | S slots =>
      if remaining <=? 0 then mret 0
      else
        rows ← on_dbs (FindExpiredUnpaidBySlot (sv_deps svc) logicSlot t remaining);
        closed ← close_each rows;
        n ← close_slots slots (logicSlot + 1) t (remaining - Z.of_nat (length rows));
        mret (closed + n)
  end.

Record CloseExpiredOrdersReq := mkCloseReq { co_Limit : Z; co_LogicSlotStart : Z; co_LogicSlotCount : Z }.

Definition normalizeCloseExpiredOrderSlotWindow (r : CloseExpiredOrdersReq) : Z * Z :=
  (if co_LogicSlotStart r <? 0 then 0 else co_LogicSlotStart r,
   if co_LogicSlotCount r <=? 0 then 1 else co_LogicSlotCount r).

Definition CloseExpiredOrders (r : CloseExpiredOrdersReq) : IO W Z :=
  let limit := if co_Limit r <=? 0 then 100 else co_Limit r in
  t ← now;
  let '(start, count) := normalizeCloseExpiredOrderSlotWindow r in
  close_slots (Z.to_nat (wrap64 (start + count) - start)) start t limit.

(** *** Previews and views *)

Record PreviewRefundOrderResp := mkPreview {
  pv_OrderNumber : Z; pv_AllowRefund : bool; pv_RefundAmount : Z; pv_RefundPercent : Z; pv_RejectReason : string }.

Definition previewRefundOrder (order : DOrder) : IO W PreviewRefundOrderResp :=
  let o := do_OrderNumber order in
  let reject reason := mret (mkPreview o false 0 0 reason) in
  if do_OrderStatus order =? orderStatusRefunded then reject "订单已退款"
  else if negb (do_OrderStatus order =? orderStatusPaid) then reject "当前订单不可退"
  else
    bill ← mustGetPayBillForOrder o;
    if Pay.gp_PayStatus bill =? Pay.payStatusRefunded then reject "订单已退款"
    else if negb (Pay.gp_PayStatus bill =? Pay.payStatusPaid) then reject "当前订单不可退"
    else
      rule ← on_program (rpc (rpc_EvaluateRefundRule (mkEvalReq (do_ShowTimeId order) (do_OrderPrice order))));
      if negb (er_AllowRefund rule)
      then reject (if bool_decide (er_RejectReason rule = "") then "当前订单不可退" else er_RejectReason rule)
      else mret (mkPreview o true (er_RefundAmount rule) (er_RefundPercent rule) "").

Definition PreviewRefundOrder (userID orderNumber : Z) : IO W PreviewRefundOrderResp :=
  if negb (validateUserOrderReq userID orderNumber) then throw invalidParam
  else map_err mapOrderError (order ← findOwnedOrder userID orderNumber; previewRefundOrder order).

Definition deriveTicketStatus (order : DOrder) (details : list DOrderTicketUser) : Z :=
  match details with
  | [] => do_OrderStatus order
  | d :: rest => if forallb (fun x => dt_OrderStatus x =? dt_OrderStatus d) rest then dt_OrderStatus d
                 else do_OrderStatus order
  end.

Definition derivePayStatus (order : DOrder) : IO W Z :=
  if negb (do_OrderStatus order =? orderStatusPaid) && negb (do_OrderStatus order =? orderStatusRefunded) then mret 0
  else
    found ← attempt (mustGetPayBillForOrder (do_OrderNumber order));
    match found with
    | Ok bill => mret (Pay.gp_PayStatus bill)
    | Err e => if (do_OrderStatus order =? orderStatusRefunded) && err_is_x e ErrPayBillNotFound
               then mret Pay.payStatusRefunded else throw e
    end.

End handlers.
