(* ===== verification/OrderCreate.v ===== *)
(** * Writing an order  (services/order-rpc/internal/event, order_create_event_mapper.go)

    The event a consumer reads, the rows it becomes and the transaction that writes
    them: the order, its tickets, the guards of its user, viewers and seats, and the
    task that will close it. *)
From Stdlib Require Import ZArith Lia Ascii String.
From stdpp Require Import base gmap sets list strings.
From S2P Require Import Prelude GoBase Effects Sql ProgramDB SeatFreeze OrderDB OrderRepo OrderFlow.
Open Scope string_scope.
Open Scope list_scope.
Open Scope Z_scope.

(** ** order_create_event.go *)

Record ProgramSnapshot := mkProgramSnapshot {
  ps_Title : string; ps_ItemPicture : string; ps_Place : string; ps_ShowTime : string; ps_PermitChooseSeat : Z }.
Record TicketCategorySnapshot := mkCategorySnapshot { cs_ID : Z; cs_Name : string; cs_Price : Z }.
Record TicketUserSnapshot := mkUserSnapshot { us_TicketUserID : Z; us_Name : string; us_IDNumber : string }.
Record SeatSnapshot := mkSeatSnapshot { ss_SeatID : Z; ss_RowCode : Z; ss_ColCode : Z; ss_Price : Z }.

Record OrderCreateEvent := mkEvent {
  ev_EventID : string; ev_Version : string; ev_OrderNumber : Z; ev_RequestNo : string; ev_OccurredAt : string;
  ev_UserID : Z; ev_ProgramID : Z; ev_ShowTimeID : Z; ev_TicketCategoryID : Z; ev_TicketUserIDs : list Z;
  ev_TicketCount : Z; ev_DistributionMode : string; ev_TakeTicketMode : string; ev_SaleWindowEndAt : string;
  ev_ShowEndAt : string; ev_FreezeToken : string; ev_FreezeExpireTime : string;
  ev_ProgramSnapshot : ProgramSnapshot; ev_TicketCategorySnapshot : TicketCategorySnapshot;
  ev_TicketUserSnapshot : list TicketUserSnapshot; ev_SeatSnapshot : list SeatSnapshot }.

Definition OrderCreateEventVersion : string := "v1".

Definition no_program : ProgramSnapshot := mkProgramSnapshot "" "" "" "" 0.
Definition no_category : TicketCategorySnapshot := mkCategorySnapshot 0 "" 0.

Definition PartitionKey (e : OrderCreateEvent) : string := format_int (ev_OrderNumber e).

(** ** order_create_event_mapper.go and delay_task_outbox_helper.go *)

Record orderWriteModels := mkWriteModels {
  wm_order : DOrder; wm_orderTickets : list DOrderTicketUser; wm_userGuard : option DOrderUserGuard;
  wm_viewerGuards : list DOrderViewerGuard; wm_seatGuards : list DOrderSeatGuard;
  wm_delayTaskRows : list DDelayTaskOutbox }.


(** [taskdef.Marshal]. *)
Definition close_payload (orderNumber : Z) : string :=
  "{" +:+ quote +:+ "orderNumber" +:+ quote +:+ ":" +:+ format_int orderNumber +:+ "}".

Definition newCloseTimeoutDelayTaskRow {S} (t : time) (orderNumber : Z) (executeAt : time) : IO S DDelayTaskOutbox :=
  id ← newID;
  mret (mkTask id TaskTypeCloseTimeout (TaskKey orderNumber) (close_payload orderNumber) executeAt 0 0 0 "" ""
          None None t t 1).

Section mapper.
Context `{LocalTime}.

Definition parseOrderTime (value : string) : result err time :=
  of_option (EStatus InternalCode "parsing time") (parse_local value).

(** The rows of one viewer and its seat. *)
Definition ticket_rows {S} (e : OrderCreateEvent) (createOrderTime t : time) (u : TicketUserSnapshot) (s : SeatSnapshot)
  : IO S (DOrderTicketUser * DOrderViewerGuard * DOrderSeatGuard) :=
  let o := ev_OrderNumber e in let st := ev_ShowTimeID e in let tc := ev_TicketCategorySnapshot e in
  id1 ← newID;
  id2 ← newID;
  id3 ← newID;
  mret (mkTicket id1 o st (ev_UserID e) (us_TicketUserID u) (us_Name u) (us_IDNumber u) (cs_ID tc) (cs_Name tc)
          (f64 (cs_Price tc)) (ss_SeatID s) (ss_RowCode s) (ss_ColCode s) (f64 (ss_Price s)) orderStatusUnpaid
          createOrderTime t t 1,
        mkGuard id2 o (ev_ProgramID e) st (us_TicketUserID u) t t 1,
        mkGuard id3 o (ev_ProgramID e) st (ss_SeatID s) t t 1).

Definition mapEventToOrderWriteModels {S} (e : OrderCreateEvent) (t : time) : IO S orderWriteModels :=
  let n := length (ev_TicketUserSnapshot e) in
  if (n =? 0)%nat || negb (n =? length (ev_SeatSnapshot e))%nat then throw (EX ErrInternal)
  else
    showTime ← lift (parseOrderTime (ps_ShowTime (ev_ProgramSnapshot e)));
    expireTime ← lift (parseOrderTime (ev_FreezeExpireTime e));
    createTime ← lift (parseOrderTime (ev_OccurredAt e));
    id ← newID;
    let p := ev_ProgramSnapshot e in
    let order := mkOrder id (ev_OrderNumber e) (ev_ProgramID e) (ev_ShowTimeID e) (ps_Title p) (ps_ItemPicture p)
      (ps_Place p) showTime (ps_PermitChooseSeat p) (ev_UserID e) (ev_DistributionMode e) (ev_TakeTicketMode e)
      (Z.of_nat n) (f64 (wrap64 (cs_Price (ev_TicketCategorySnapshot e) * Z.of_nat n))) orderStatusUnpaid
      (ev_FreezeToken e) expireTime createTime None None t t 1 in
    rows ← each_map (fun us => ticket_rows e createTime t us.1 us.2)
             (zip (ev_TicketUserSnapshot e) (ev_SeatSnapshot e));
    task ← newCloseTimeoutDelayTaskRow t (ev_OrderNumber e) expireTime;
    guardId ← newID;
    mret (mkWriteModels order (map (fun r => r.1.1) rows)
            (Some (mkGuard guardId (ev_OrderNumber e) (ev_ProgramID e) (ev_ShowTimeID e) (ev_UserID e) t t 1))
            (map (fun r => r.1.2) rows) (map (fun r => r.2) rows) [task]).
End mapper.

(** ** The transaction of create_order_consumer_logic.go *)

(** [errors.As] a MySQL error. *)
Fixpoint mysql_error (e : err) : option (Z * string) :=
  match e with
  | EMySQL n msg => Some (n, msg)
  | ESeatFreeze cause => mysql_error cause
  | _ => None
  end.

Definition isDuplicateOrderNumberErr (e : err) : bool :=
  match mysql_error e with Some (n, _) => n =? 1062 | None => false end.

Definition createTx (m : orderWriteModels) (suffix : string) : IO shard unit :=
  res ← attempt (Tx.InsertOrder suffix (wm_order m));
  match res with
  | Err e => if isDuplicateOrderNumberErr e then mret tt else throw e
  | Ok _ =>
      _ ← Tx.InsertOrderTickets suffix (wm_orderTickets m);
      _ ← Tx.InsertUserGuard (wm_userGuard m);
      _ ← Tx.InsertViewerGuards (wm_viewerGuards m);
      _ ← Tx.InsertSeatGuards (wm_seatGuards m);
      Tx.InsertDelayTasks (wm_delayTaskRows m)
  end.
