(* ===== verification/OrderLife.v ===== *)
(** * What the transactions of the order service preserve

    Every handler changes the order tables through five transactions: writing an
    order, cancelling it, marking it paid, marking it refunded, and closing it when
    its time is over.  They lock the order's row, so handlers interleave at
    transactions: a step here is one transaction, with any faults, any clock and
    any arguments.  A run of such steps covers every interleaving of every handler,
    with or without the lock on the order. *)
From Stdlib Require Import ZArith Lia Ascii String.
From stdpp Require Import base gmap sets list strings.
From S2P Require Import Prelude GoBase Effects Sql Sharding SeatDB ProgramDB SeatFreeze OrderDB OrderRepo OrderFlow OrderCreate.
Import Slot Codec Routes.
Open Scope string_scope.
Open Scope list_scope.
Open Scope Z_scope.

(** ** What a transaction may do *)

(** The moves of [order_status]. *)
Definition allowed (from to : Z) : bool :=
  ((from =? 1) && ((to =? 2) || (to =? 3))) || ((to =? 4) && ((from =? 2) || (from =? 3))).

Definition active (o : DOrder) : bool := (do_OrderStatus o =? 1) || (do_OrderStatus o =? 3).

Definition same_guards (sh sh' : shard) : Prop :=
  s_user_guards sh' = s_user_guards sh /\ s_viewer_guards sh' = s_viewer_guards sh /\
  s_seat_guards sh' = s_seat_guards sh.

Definition without (n : Z) (l : list DOrderGuard) : list DOrderGuard := filter (fun g => dg_OrderNumber g <> n) l.

Definition dropped_guards (n : Z) (sh sh' : shard) : Prop :=
  s_user_guards sh' = without n (s_user_guards sh) /\ s_viewer_guards sh' = without n (s_viewer_guards sh) /\
  s_seat_guards sh' = without n (s_seat_guards sh).

(** An update moves the rows of order [n] that satisfy [p] to status [to], and stamps them
    with a whole second: cancelling and paying in a column of their own. *)
Definition moves (n to : Z) (p : DOrder -> bool) (f : DOrder -> DOrder) : Prop :=
  (forall x, p x = true -> order_at n x = true /\ allowed (do_OrderStatus x) to = true) /\
  (forall x, order_at n x = true -> allowed (do_OrderStatus x) to = true -> p x = true) /\
  forall x, exists t, mysql_datetime t = t /\
    f x = set_order to (if to =? 2 then Some t else do_CancelOrderTime x) (if to =? 3 then Some t else do_PayOrderTime x) t x.

Inductive changed (n : Z) (suffix : string) (sh sh' : shard) : Prop :=
  | changed_not : s_orders sh' = s_orders sh -> same_guards sh sh' -> changed n suffix sh sh'
  | changed_row rows row to p f :
      s_orders sh !! suffix = Some rows -> row ∈ rows -> order_at n row = true ->
      allowed (do_OrderStatus row) to = true -> moves n to p f ->
      s_orders sh' = <[suffix := update_rows p f rows]> (s_orders sh) ->
      (if to =? 3 then same_guards sh sh' else dropped_guards n sh sh') -> changed n suffix sh sh'.

(** ** The statements *)

Lemma on_order_table_ok {A} suffix (m : M (list DOrder) A) sh a sh' :
  on_order_table suffix m sh = (Ok a, sh') ->
  exists rows rows', s_orders sh !! suffix = Some rows /\ m rows = (Ok a, rows') /\
    sh' = set_orders (<[suffix := rows']> (s_orders sh)) sh.
Proof.
  unfold on_order_table, on_table. destruct (s_orders sh !! suffix) as [rows|]; [|done].
  destruct (m rows) as [r rows'] eqn:E. intros [= -> <-]. by exists rows, rows'.
Qed.

Lemma on_ticket_table_ok {A} suffix (m : M (list DOrderTicketUser) A) sh a sh' :
  on_ticket_table suffix m sh = (Ok a, sh') -> exists ts, sh' = set_tickets ts sh.
Proof.
  unfold on_ticket_table, on_table. destruct (s_tickets sh !! suffix) as [rows|]; [|done].
  destruct (m rows) as [r rows']. intros [= -> <-]. by eexists.
Qed.

Lemma zoom_ok {S T A} (proj : S -> T) upd (m : M T A) s a s' :
  zoom proj upd m s = (Ok a, s') -> exists t', m (proj s) = (Ok a, t') /\ s' = upd t' s.
Proof. unfold zoom. destruct (m (proj s)) as [r t] eqn:E. intros [= -> <-]. eauto. Qed.

Lemma find_row_ok suffix n e sh row e' sh' :
  Tx.FindOrderByNumberForUpdate suffix n (e, sh) = (Ok row, (e', sh')) ->
  sh' = sh /\ exists rows, s_orders sh !! suffix = Some rows /\ row ∈ rows /\ order_at n row = true.
Proof.
  intros (rows & rows' & Hr & Hf & ->)%call_ok%on_order_table_ok.
  unfold FindOneByOrderNumber in Hf. destruct (find _ _) as [x|] eqn:E; [|done]. injection Hf as <- <-.
  apply find_elem in E as [Hin Hx]. split; [|by exists rows].
  rewrite insert_id by done. by destruct sh.
Qed.

Lemma find_row_state suffix n e sh r e' sh' :
  Tx.FindOrderByNumberForUpdate suffix n (e, sh) = (r, (e', sh')) -> sh' = sh.
Proof.
  intros E. apply (call_readonly _ _ _ _ _ _) in E; [done|]. intros s. unfold on_order_table, on_table.
  destruct (s_orders s !! suffix) as [rows|] eqn:Hr; [|done]. cbn. rewrite insert_id by done. by destruct s.
Qed.

Lemma lock_row_ok suffix n e sh row e' sh' :
  lock_row suffix n (e, sh) = (Ok row, (e', sh')) ->
  sh' = sh /\ exists rows, s_orders sh !! suffix = Some rows /\ row ∈ rows /\ order_at n row = true.
Proof. intros E%map_err_ok. by apply find_row_ok in E. Qed.

Lemma drop_ok n e sh a e' sh' :
  Tx.DeleteGuardsByOrderNumber n (e, sh) = (Ok a, (e', sh')) ->
  s_orders sh' = s_orders sh /\ dropped_guards n sh sh'.
Proof.
  intros ([] & [e1 s1] & H1 & ([] & [e2 s2] & H2 & H3)%bind_ok)%bind_ok.
  apply call_ok, zoom_ok in H1 as (? & [= <-] & ->). apply call_ok, zoom_ok in H2 as (? & [= <-] & ->).
  destruct a. apply call_ok, zoom_ok in H3 as (? & [= <-] & ->). done.
Qed.

Lemma mark_ok ty key t e sh m e' sh' :
  Tx.MarkDelayTaskProcessed ty key t (e, sh) = (Ok m, (e', sh')) -> s_orders sh' = s_orders sh /\ same_guards sh sh'.
Proof.
  unfold Tx.MarkDelayTaskProcessed, on. destruct (MarkProcessed ty key t (e, s_outbox sh)) as [r [e1 t1]].
  by intros [= _ _ <-].
Qed.

(** The update of the order's row, and that of its tickets. *)
Lemma update_ok suffix (p : DOrder -> bool) f (q : M (list DOrderTicketUser) unit) e sh a e' sh' :
  (_ ← call (on_order_table suffix (modify (update_rows p f)));
   call (on_ticket_table suffix q)) (e, sh) = (Ok a, (e', sh')) ->
  exists rows, s_orders sh !! suffix = Some rows /\
    s_orders sh' = <[suffix := update_rows p f rows]> (s_orders sh) /\ same_guards sh sh'.
Proof.
  intros ([] & [e1 s1] & (rows & rows' & Hr & [= <-] & ->)%call_ok%on_order_table_ok & H2)%bind_ok.
  apply call_ok, on_ticket_table_ok in H2 as [ts ->]. by exists rows.
Qed.

Lemma moves_when n to (cond : DOrder -> bool) (f : DOrder -> DOrder) :
  (forall x, cond x = true <-> allowed (do_OrderStatus x) to = true) ->
  (forall x, exists t, mysql_datetime t = t /\
     f x = set_order to (if to =? 2 then Some t else do_CancelOrderTime x) (if to =? 3 then Some t else do_PayOrderTime x) t x) ->
  moves n to (fun x => order_at n x && cond x) f.
Proof.
  intros Hc Hf. split; [|split; [|done]].
  - intros x [H1 H2]%andb_true_iff. by rewrite Hc in H2.
  - intros x H1 H2. apply andb_true_iff. by rewrite Hc.
Qed.

Lemma allowed_unpaid x to : to = 2 \/ to = 3 -> (x =? 1) = true <-> allowed x to = true.
Proof.
  unfold allowed. intros [-> | ->]; destruct (Z.eqb_spec x 1); cbn; try tauto;
    destruct (Z.eqb_spec x 2), (Z.eqb_spec x 3); cbn; split; (done || lia).
Qed.
Lemma allowed_refund x : ((x =? 2) || (x =? 3)) = true <-> allowed x 4 = true.
Proof. unfold allowed. rewrite andb_false_r. done. Qed.

Lemma cancel_update suffix n t e sh a e' sh' :
  Tx.UpdateCancelStatus suffix n t (e, sh) = (Ok a, (e', sh')) ->
  exists rows p f, s_orders sh !! suffix = Some rows /\ moves n 2 p f /\
    s_orders sh' = <[suffix := update_rows p f rows]> (s_orders sh) /\ same_guards sh sh'.
Proof.
  intros (rows & ? & ? & ?)%update_ok. eexists rows, _, _. split_and!; [done| |done..].
  apply (moves_when n 2 (fun x => do_OrderStatus x =? 1)); [intros x; apply allowed_unpaid; auto|eauto using mysql_datetime_idem].
Qed.

Lemma pay_update suffix n t e sh a e' sh' :
  Tx.UpdatePayStatus suffix n t (e, sh) = (Ok a, (e', sh')) ->
  exists rows p f, s_orders sh !! suffix = Some rows /\ moves n 3 p f /\
    s_orders sh' = <[suffix := update_rows p f rows]> (s_orders sh) /\ same_guards sh sh'.
Proof.
  intros (rows & ? & ? & ?)%update_ok. eexists rows, _, _. split_and!; [done| |done..].
  apply (moves_when n 3 (fun x => do_OrderStatus x =? 1)); [intros x; apply allowed_unpaid; auto|eauto using mysql_datetime_idem].
Qed.

Lemma refund_update suffix n t e sh a e' sh' :
  Tx.UpdateRefundStatus suffix n t (e, sh) = (Ok a, (e', sh')) ->
  exists rows p f, s_orders sh !! suffix = Some rows /\ moves n 4 p f /\
    s_orders sh' = <[suffix := update_rows p f rows]> (s_orders sh) /\ same_guards sh sh'.
Proof.
  intros (rows & ? & ? & ?)%update_ok. eexists rows, _, _. split_and!; [done| |done..].
  apply (moves_when n 4 (fun x => (do_OrderStatus x =? 2) || (do_OrderStatus x =? 3)));
    [intros x; apply allowed_refund|eauto using mysql_datetime_idem].
Qed.

(** ** The transactions *)

Lemma row_number n row : order_at n row = true -> do_OrderNumber row = n.
Proof. unfold order_at. intros E. by bool_norm. Qed.

(** After the update, the guards go. *)
Lemma changed_dropped n suffix sh rows row to p f sh1 sh2 :
  s_orders sh !! suffix = Some rows -> row ∈ rows -> order_at n row = true ->
  allowed (do_OrderStatus row) to = true -> moves n to p f -> to <> 3 ->
  s_orders sh1 = <[suffix := update_rows p f rows]> (s_orders sh) -> same_guards sh sh1 ->
  s_orders sh2 = s_orders sh1 -> dropped_guards n sh1 sh2 -> changed n suffix sh sh2.
Proof.
  intros Hr Hin Hrow Hal Hm Hto Ho (G1 & G2 & G3) Ho2 (D1 & D2 & D3).
  apply (changed_row _ _ _ _ rows row to p f); [done..|congruence|].
  destruct (Z.eqb_spec to 3); [done|]. unfold dropped_guards. rewrite D1, D2, D3, G1, G2, G3. done.
Qed.

Lemma cancelTx_changed n suffix e sh b e' sh' :
  cancelTx n suffix (e, sh) = (Ok b, (e', sh')) -> changed n suffix sh sh'.
Proof.
  intros (row & [e1 s1] & Hl & Hrun)%bind_ok. apply lock_row_ok in Hl as [-> (rows & Hr & Hin & Hrow)].
  destr_if. { apply ret_ok in Hrun as [_ [= _ <-]]. by apply changed_not. }
  destr_if; [done|]. bool_norm.
  apply bind_ok in Hrun as (t & [e2 s2] & Hn & Hrun). apply now_state in Hn as [-> _].
  rewrite (row_number _ _ Hrow) in Hrun.
  apply bind_ok in Hrun as (u & [e3 s3] & (rows' & p & f & Hr' & Hm & Ho & Hg)%cancel_update & Hrun).
  assert (rows' = rows) as -> by congruence.
  apply bind_ok in Hrun as (v & [e4 s4] & [Ho2 Hd]%drop_ok & Hrun). apply ret_ok in Hrun as [_ [= _ <-]].
  eapply (changed_dropped n suffix sh rows row 2); eauto. apply allowed_unpaid; [auto|]. by apply Z.eqb_eq.
Qed.

Lemma payTx_changed n t suffix e sh b e' sh' :
  payTx n t suffix (e, sh) = (Ok b, (e', sh')) -> changed n suffix sh sh'.
Proof.
  intros (row & [e1 s1] & Hl & Hrun)%bind_ok. apply lock_row_ok in Hl as [-> (rows & Hr & Hin & Hrow)].
  destr_if. { apply ret_ok in Hrun as [_ [= _ <-]]. by apply changed_not. }
  destr_if; [done|]. bool_norm. rewrite (row_number _ _ Hrow) in Hrun.
  apply pay_update in Hrun as (rows' & p & f & Hr' & Hm & Ho & Hg).
  assert (rows' = rows) as -> by congruence.
  apply (changed_row _ _ _ _ rows row 3 p f); [done..| |done|done|done]. apply allowed_unpaid; [auto|]. by apply Z.eqb_eq.
Qed.

Lemma refundedTx_changed n suffix e sh b e' sh' :
  refundedTx n suffix (e, sh) = (Ok b, (e', sh')) -> changed n suffix sh sh'.
Proof.
  intros (row & [e1 s1] & Hl & Hrun)%bind_ok. apply lock_row_ok in Hl as [-> (rows & Hr & Hin & Hrow)].
  destr_if. { apply ret_ok in Hrun as [_ [= _ <-]]. by apply changed_not. }
  destruct (negb _ && negb _) eqn:Est; [done|].
  apply bind_ok in Hrun as (t & [e2 s2] & Hn & Hrun). apply now_state in Hn as [-> _].
  rewrite (row_number _ _ Hrow) in Hrun.
  apply bind_ok in Hrun as (u & [e3 s3] & (rows' & p & f & Hr' & Hm & Ho & Hg)%refund_update & [Ho2 Hd]%drop_ok).
  assert (rows' = rows) as -> by congruence.
  eapply (changed_dropped n suffix sh rows row 4); eauto. apply allowed_refund.
  apply andb_false_iff in Est as [E|E]; apply negb_false_iff, Z.eqb_eq in E; rewrite E; reflexivity.
Qed.

Lemma closeTx_changed n t suffix e sh b e' sh' :
  closeTx n t suffix (e, sh) = (Ok b, (e', sh')) -> changed n suffix sh sh'.
Proof.
  intros (found & [e1 s1] & Hl & Hrun)%bind_ok. apply attempt_ok in Hl.
  pose proof (find_row_state _ _ _ _ _ _ _ Hl) as ->.
  assert (Hmark : forall (k : Z * Z -> option DOrder * bool * (Z * Z)) (e1 : env) s2,
    (m ← Tx.MarkDelayTaskProcessed TaskTypeCloseTimeout (TaskKey n) t; mret (k m)) (e1, s2) = (Ok b, (e', sh')) ->
    s_orders sh' = s_orders s2 /\ same_guards s2 sh').
  { intros k e2 s2 (m & [e3 s3] & Hm%mark_ok & Hrun')%bind_ok. apply ret_ok in Hrun' as [_ [= _ <-]]. done. }
  destruct found as [row|x].
  2: { destr_if; [|done]. apply Hmark in Hrun as [? ?]. by apply changed_not. }
  apply find_row_ok in Hl as (_ & rows & Hr & Hin & Hrow).
  destr_if. { apply (Hmark (fun m => (Some row, false, m))) in Hrun as [? ?]. by apply changed_not. }
  destr_if. { apply ret_ok in Hrun as [_ [= _ <-]]. by apply changed_not. }
  bool_norm. rewrite (row_number _ _ Hrow) in Hrun.
  apply bind_ok in Hrun as (u & [e3 s3] & (rows' & p & f & Hr' & Hm & Ho & Hg)%cancel_update & Hrun).
  assert (rows' = rows) as -> by congruence.
  apply bind_ok in Hrun as (v & [e4 s4] & [Ho2 Hd]%drop_ok & Hrun).
  apply (Hmark (fun m => (Some _, true, m))) in Hrun as [Ho3 (G1 & G2 & G3)].
  eapply (changed_dropped n suffix sh rows row 2 p f s3); eauto; [|congruence|].
  - apply allowed_unpaid; [auto|]. by apply Z.eqb_eq.
  - destruct Hd as (D1 & D2 & D3). unfold dropped_guards. by rewrite G1, G2, G3.
Qed.

(** ** Writing an order *)

(** A fault of the network is not a duplicate-key error of the server. *)
Definition net_fault (f : fault) : Prop :=
  match f with NoFault => True | FailBefore x | FailAfter x => mysql_error x = None end.
Definition net_faults (e : env) : Prop := Forall net_fault (faults e).

Definition gkey (g : DOrderGuard) : Z * Z := (dg_ShowTimeId g, dg_Key g).

Lemma insert_order_ok o rows rows' :
  InsertOrderRow o rows = (Ok tt, rows') ->
  rows' = rows ++ [stored_order o] /\ do_OrderNumber o ∉ map do_OrderNumber rows /\ order_columns o = Ok tt.
Proof.
  unfold InsertOrderRow, insert_batch. cbn [insert_each]. unfold insert_order1.
  destruct (order_columns o) as [[]|x] eqn:Ec; [|done]. cbn [mbind result_bind].
  destruct (existsb _ rows); [done|]. destruct (existsb (fun r => do_OrderNumber r =? _) rows) eqn:E; [done|].
  intros [= <-]. split_and!; [done| |done]. intros (r & Hr & Hin)%list_elem_of_fmap.
  assert (existsb (fun r => do_OrderNumber r =? do_OrderNumber o) rows = true); [|congruence].
  apply existsb_elem. exists r. split; [done|]. by apply Z.eqb_eq.
Qed.

Lemma insert_order_err o rows x rows' : InsertOrderRow o rows = (Err x, rows') -> rows' = rows.
Proof. unfold InsertOrderRow, insert_batch. destruct (insert_each _ _ _); congruence. Qed.

Lemma insert_guards_ok uk gs : forall rows rows',
  insert_each (insert_guard1 uk) gs rows = Ok rows' ->
  rows' = rows ++ map stored_guard gs /\
  (NoDup (map gkey rows) -> NoDup (map gkey rows')).
Proof.
  induction gs as [|g gs IH]; cbn [insert_each]; intros rows rows'; [intros [= <-]; by rewrite app_nil_r|].
  intros (rows1 & H1 & H2)%result_bind_ok. unfold insert_guard1 in H1.
  destruct (existsb _ rows); [done|]. destruct (existsb (fun r => same_guard r g) rows) eqn:E; [done|].
  injection H1 as <-. apply IH in H2 as [-> Hnd]. split; [by rewrite <- app_assoc|].
  intros Hr. apply Hnd. rewrite map_app. apply NoDup_app. split_and!; [done| |apply NoDup_singleton].
  intros k (r & -> & Hin)%list_elem_of_fmap Hk%list_elem_of_singleton.
  assert (existsb (fun r => same_guard r g) rows = true); [|congruence].
  apply existsb_elem. exists r. split; [done|]. unfold gkey in Hk. cbn in Hk. unfold same_guard.
  apply andb_true_iff. by split; apply Z.eqb_eq; congruence.
Qed.

Lemma insert_batch_ok {A} (f : A -> list A -> result err (list A)) new rows a rows' :
  insert_batch f new rows = (Ok a, rows') -> insert_each f new rows = Ok rows'.
Proof. unfold insert_batch. destruct (insert_each f new rows); congruence. Qed.

Lemma unless_empty_ok {A} (new : list A) (m : IO shard unit) e sh a e' sh' :
  Tx.unless_empty new m (e, sh) = (Ok a, (e', sh')) -> (new = [] /\ sh' = sh) \/ m (e, sh) = (Ok a, (e', sh')).
Proof. destruct new; [intros [_ [= _ <-]]%ret_ok; by left|by right]. Qed.

(** The guards of one batch, appended. *)
Definition appended (gs : list DOrderGuard) (l l' : list DOrderGuard) : Prop :=
  l' = l ++ map stored_guard gs /\ (NoDup (map gkey l) -> NoDup (map gkey l')).

Lemma appended_nil l : appended [] l l.
Proof. unfold appended. cbn. by rewrite app_nil_r. Qed.

Inductive created (m : orderWriteModels) (suffix : string) (sh sh' : shard) : Prop :=
  | created_rows rows :
      order_columns (wm_order m) = Ok tt ->
      s_orders sh !! suffix = Some rows -> do_OrderNumber (wm_order m) ∉ map do_OrderNumber rows ->
      s_orders sh' = <[suffix := rows ++ [stored_order (wm_order m)]]> (s_orders sh) ->
      appended (option_list (wm_userGuard m)) (s_user_guards sh) (s_user_guards sh') ->
      appended (wm_viewerGuards m) (s_viewer_guards sh) (s_viewer_guards sh') ->
      appended (wm_seatGuards m) (s_seat_guards sh) (s_seat_guards sh') -> created m suffix sh sh'.

Lemma insert_user_ok g e sh a e' sh' :
  Tx.InsertUserGuard g (e, sh) = (Ok a, (e', sh')) ->
  exists l, sh' = set_user_guards l sh /\ appended (option_list g) (s_user_guards sh) l.
Proof.
  destruct g as [g|]; cbn.
  - intros (l & H%insert_batch_ok & ->)%call_ok%zoom_ok. exists l. split; [done|]. by apply insert_guards_ok in H.
  - intros [_ [= _ <-]]%ret_ok. exists (s_user_guards sh). split; [by destruct sh|apply appended_nil].
Qed.

Lemma insert_viewers_ok gs e sh a e' sh' :
  Tx.InsertViewerGuards gs (e, sh) = (Ok a, (e', sh')) ->
  exists l, sh' = set_viewer_guards l sh /\ appended gs (s_viewer_guards sh) l.
Proof.
  intros [[-> ->]|H]%unless_empty_ok.
  - exists (s_viewer_guards sh). split; [by destruct sh|apply appended_nil].
  - apply call_ok, zoom_ok in H as (l & H%insert_batch_ok & ->). exists l. split; [done|]. by apply insert_guards_ok in H.
Qed.

Lemma insert_seats_ok gs e sh a e' sh' :
  Tx.InsertSeatGuards gs (e, sh) = (Ok a, (e', sh')) ->
  exists l, sh' = set_seat_guards l sh /\ appended gs (s_seat_guards sh) l.
Proof.
  intros [[-> ->]|H]%unless_empty_ok.
  - exists (s_seat_guards sh). split; [by destruct sh|apply appended_nil].
  - apply call_ok, zoom_ok in H as (l & H%insert_batch_ok & ->). exists l. split; [done|]. by apply insert_guards_ok in H.
Qed.

(** The attempt to insert the order: it went in, or the row was there, or it failed. *)
Lemma insert_order_cases suffix o e sh r e' sh' : net_faults e ->
  Tx.InsertOrder suffix o (e, sh) = (r, (e', sh')) ->
  match r with
  | Ok _ => exists rows, order_columns o = Ok tt /\ s_orders sh !! suffix = Some rows /\
      do_OrderNumber o ∉ map do_OrderNumber rows /\
      sh' = set_orders (<[suffix := rows ++ [stored_order o]]> (s_orders sh)) sh
  | Err x => isDuplicateOrderNumberErr x = true -> sh' = sh
  end.
Proof.
  intros Hnet. unfold Tx.InsertOrder, call, draw. unfold net_faults in Hnet.
  assert (Hrun : forall e1, (let '(r, s') := on_order_table suffix (InsertOrderRow o) sh in (r, (e1, s'))) = (r, (e', sh')) ->
    match r with
    | Ok _ => exists rows, order_columns o = Ok tt /\ s_orders sh !! suffix = Some rows /\
      do_OrderNumber o ∉ map do_OrderNumber rows /\
        sh' = set_orders (<[suffix := rows ++ [stored_order o]]> (s_orders sh)) sh
    | Err x => isDuplicateOrderNumberErr x = true -> sh' = sh
    end).
  { intros e1. destruct (on_order_table suffix (InsertOrderRow o) sh) as [r1 s1] eqn:E. intros [= <- <- <-].
    destruct r1 as [[]|x].
    - apply on_order_table_ok in E as (rows & rows' & Hr & (-> & Hnew & Hc)%insert_order_ok & ->). by exists rows.
    - intros _. unfold on_order_table, on_table in E. destruct (s_orders sh !! suffix) as [rows|] eqn:Hr; [|congruence].
      destruct (InsertOrderRow o rows) as [r2 rows'] eqn:E2. injection E as -> <-.
      apply insert_order_err in E2 as ->. rewrite insert_id by done. by destruct sh. }
  destruct (faults e) as [|[|x|x] fs]; [apply Hrun|apply Hrun|..]; apply Forall_cons in Hnet as [Hx _]; cbn in Hx;
    intros [= <- <- <-]; unfold isDuplicateOrderNumberErr; by rewrite Hx.
Qed.

Lemma createTx_ok m suffix e sh a e' sh' : net_faults e ->
  createTx m suffix (e, sh) = (Ok a, (e', sh')) -> sh' = sh \/ created m suffix sh sh'.
Proof.
  intros Hnet (r & [e1 s1] & Hi & Hrun)%bind_ok. apply attempt_ok in Hi.
  apply insert_order_cases in Hi; [|done]. destruct r as [u|x].
  2: { destr_if; [|done]. apply ret_ok in Hrun as [_ [= _ <-]]. left. by apply Hi. }
  destruct Hi as (rows & Hc & Hr & Hnew & ->). right.
  apply bind_ok in Hrun as (u1 & [e2 s2] & Ht & Hrun).
  assert (exists ts, s2 = set_tickets ts (set_orders (<[suffix:=rows ++ [stored_order (wm_order m)]]> (s_orders sh)) sh)) as [ts ->].
  { apply unless_empty_ok in Ht as [[_ ->]|Ht]; [by eexists|]. by apply call_ok, on_ticket_table_ok in Ht. }
  apply bind_ok in Hrun as (u2 & [e3 s3] & (l1 & -> & H1)%insert_user_ok & Hrun).
  apply bind_ok in Hrun as (u3 & [e4 s4] & (l2 & -> & H2)%insert_viewers_ok & Hrun).
  apply bind_ok in Hrun as (u4 & [e5 s5] & (l3 & -> & H3)%insert_seats_ok & Hrun).
  assert (exists l, sh' = set_outbox l (set_seat_guards l3 (set_viewer_guards l2 (set_user_guards l1
    (set_tickets ts (set_orders (<[suffix:=rows ++ [stored_order (wm_order m)]]> (s_orders sh)) sh)))))) as [l ->].
  { apply unless_empty_ok in Hrun as [[_ ->]|Hrun]; [by eexists|].
    apply call_ok, zoom_ok in Hrun as (l & _ & ->). by exists l. }
  by apply (created_rows _ _ _ _ rows).
Qed.

(** *** What the mapper writes *)

Lemma each_map_ok {S A B} (f : A -> M S B) l : forall s ys s',
  each_map f l s = (Ok ys, s') -> Forall2 (fun x y => exists s1 s2, f x s1 = (Ok y, s2)) l ys.
Proof.
  induction l as [|x l IH]; cbn; intros s ys s'; [intros [<- _]%ret_ok; constructor|].
  intros (y & s1 & Hy & (ys' & s2 & Hys & [<- _]%ret_ok)%bind_ok)%bind_ok. constructor; eauto.
Qed.

Definition own_models (m : orderWriteModels) : Prop :=
  let n := do_OrderNumber (wm_order m) in
  do_Status (wm_order m) = 1 /\ (do_OrderStatus (wm_order m) = 1 /\ do_CancelOrderTime (wm_order m) = None) /\
  (exists g, wm_userGuard m = Some g /\ dg_OrderNumber g = n /\
     gkey g = (do_ShowTimeId (wm_order m), do_UserId (wm_order m))) /\
  Forall (fun g => dg_OrderNumber g = n) (wm_viewerGuards m) /\
  Forall (fun g => dg_OrderNumber g = n) (wm_seatGuards m).

Lemma mapper_own `{LocalTime} {S} ev t (e : env) (s : S) m es' :
  mapEventToOrderWriteModels ev t (e, s) = (Ok m, es') ->
  own_models m /\ do_OrderNumber (wm_order m) = ev_OrderNumber ev.
Proof.
  unfold mapEventToOrderWriteModels. destr_if; [done|].
  intros (? & ? & _ & (? & ? & _ & (? & ? & _ & (id & s1 & _ & Hrun)%bind_ok)%bind_ok)%bind_ok)%bind_ok.
  cbn zeta in Hrun. apply bind_ok in Hrun as (rows & s2 & Hrows & Hrun).
  apply bind_ok in Hrun as (task & s3 & _ & (gid & s4 & _ & [<- _]%ret_ok)%bind_ok).
  split; [|done]. unfold own_models. cbn. apply each_map_ok in Hrows.
  assert (Hall : Forall (fun r => dg_OrderNumber r.1.2 = ev_OrderNumber ev /\ dg_OrderNumber r.2 = ev_OrderNumber ev) rows).
  { apply Forall_forall. intros r Hr. apply list_elem_of_lookup in Hr as [i Hi].
    destruct (Forall2_lookup_r _ _ _ _ _ Hrows Hi) as ([u s0] & _ & sa & sb & Hrow). unfold ticket_rows in Hrow.
    apply bind_ok in Hrow as (? & ? & _ & (? & ? & _ & (? & ? & _ & [<- _]%ret_ok)%bind_ok)%bind_ok). done. }
  split_and!; [done|done|done|by eexists| |]; apply Forall_map; eapply Forall_impl; try exact Hall; by intros ? [].
Qed.

(** ** Routing *)

Definition routes_to (router : StaticRouter) (n : Z) (r : Route) : Prop :=
  exists wall, RouteByOrderNumber router wall n = Ok r.

Lemma slot_wall w1 w2 n s1 s2 :
  LogicSlotByOrderNumber w1 n = Ok s1 -> LogicSlotByOrderNumber w2 n = Ok s2 -> s1 = s2.
Proof.
  unfold LogicSlotByOrderNumber, ParseOrderNumber. destruct (n <=? 0); [done|].
  destruct (isOldFormatOrderNumber w1 _); [done|]. destruct (isOldFormatOrderNumber w2 _); [done|].
  intros [= <-] [= <-]. done.
Qed.

Lemma routes_to_fun router n r1 r2 : routes_to router n r1 -> routes_to router n r2 -> r1 = r2.
Proof.
  intros [w1 H1] [w2 H2]. unfold RouteByOrderNumber in *.
  destruct (LogicSlotByOrderNumber w1 n) as [s1|] eqn:E1; [|done].
  destruct (LogicSlotByOrderNumber w2 n) as [s2|] eqn:E2; [|done].
  rewrite (slot_wall _ _ _ _ _ E1 E2) in H1. destruct (RouteByLogicSlot _ s2); congruence.
Qed.

Lemma draw_faults e : faults (draw e).2 = tail (faults e).
Proof. unfold draw. destruct (faults e) eqn:E; cbn; [by rewrite E|done]. Qed.

Lemma transact_cases {S A} (body : IO S A) e s :
  (transact body (e, s)).2.2 = s \/
  exists a e2, body ((draw e).2, s) = (Ok a, (e2, (transact body (e, s)).2.2)).
Proof.
  unfold transact. destruct (draw e) as [[|x|x] e1]; [|by left..]. cbn [snd].
  destruct (body (e1, s)) as [[a|x] [e2 s2]]; [|by left].
  destruct (draw e2) as [[|x|x] e3]; cbn; [right; eauto|by left|right; eauto].
Qed.

(** A transaction on an order changes at most the database its number routes to. *)
Lemma order_transact {A} deps n (fn : string -> IO shard A) e d :
  let d' := (TransactByOrderNumber deps n fn (e, d)).2.2 in
  d' = d \/ exists router r sh sh' e1 a e2,
    dep_Router deps = Some router /\ routes_to router n r /\ d !! r_DBKey r = Some sh /\
    fn (r_TableSuffix r) (e1, sh) = (Ok a, (e2, sh')) /\ d' = <[r_DBKey r := sh']> d /\
    faults e1 = tail (faults e).
Proof.
  cbv zeta. unfold TransactByOrderNumber, RouteOfOrder. destruct (dep_Router deps) as [router|]; [|by left].
  unfold mbind, M_bind. assert (Hnow : exists w e0, now (e, d) = (Ok w, (e0, d)) /\ faults e0 = faults e).
  { unfold now. destruct (ticks e); eauto. }
  destruct Hnow as (w & e0 & -> & Hf). unfold of_route, lift.
  destruct (RouteByOrderNumber router w n) as [r|x] eqn:Er; [|by left].
  unfold transactByRoute, at_shard. destruct (d !! r_DBKey r) as [sh|] eqn:Esh; [|by left].
  destruct (transact_cases (fn (r_TableSuffix r)) e0 sh) as [Hs|(a & e2 & Hs)];
    destruct (transact (fn (r_TableSuffix r)) (e0, sh)) as [res [e' sh']]; cbn in *.
  - left. subst sh'. by apply insert_id.
  - right. exists router, r, sh, sh', (draw e0).2, a, e2. split_and!; [done|by exists w|done..|].
    by rewrite draw_faults, Hf.
Qed.

(** ** The invariant *)

Section life.
Context (deps : Dependencies) (router : StaticRouter).
Hypothesis Hrouter : dep_Router deps = Some router.

Definition in_table (sh : shard) (suffix : string) (o : DOrder) : Prop :=
  exists rows, s_orders sh !! suffix = Some rows /\ o ∈ rows.

(** Every guard belongs to an active order of its database. *)
Definition live_guards (sh : shard) (gs : list DOrderGuard) : Prop :=
  forall g, g ∈ gs -> exists suffix o, in_table sh suffix o /\ active o = true /\ do_OrderNumber o = dg_OrderNumber g.

Record shard_inv (key : string) (sh : shard) : Prop := {
  si_place : forall suffix o, in_table sh suffix o -> do_Status o = 1 /\
    exists r, routes_to router (do_OrderNumber o) r /\ r_DBKey r = key /\ r_TableSuffix r = suffix /\
      RouteByUserID router (do_UserId o) = Ok r;
  si_unique : forall suffix rows, s_orders sh !! suffix = Some rows -> NoDup (map do_OrderNumber rows);
  si_users : NoDup (map gkey (s_user_guards sh));
  si_viewers : NoDup (map gkey (s_viewer_guards sh));
  si_seats : NoDup (map gkey (s_seat_guards sh));
  si_guarded : forall suffix o, in_table sh suffix o -> active o = true ->
    exists g, g ∈ s_user_guards sh /\ dg_OrderNumber g = do_OrderNumber o /\ gkey g = (do_ShowTimeId o, do_UserId o);
  si_live : live_guards sh (s_user_guards sh) /\ live_guards sh (s_viewer_guards sh) /\ live_guards sh (s_seat_guards sh) }.

(** Two rows with one number in one database are one row. *)
Lemma same_row key sh s1 s2 o1 o2 : shard_inv key sh -> in_table sh s1 o1 -> in_table sh s2 o2 ->
  do_OrderNumber o1 = do_OrderNumber o2 -> s1 = s2 /\ o1 = o2.
Proof.
  intros Hi H1 H2 E. destruct (si_place _ _ Hi _ _ H1) as (_ & r1 & R1 & _ & S1 & _).
  destruct (si_place _ _ Hi _ _ H2) as (_ & r2 & R2 & _ & S2 & _). rewrite E in R1.
  assert (r1 = r2) as -> by (by eapply routes_to_fun). assert (s1 = s2) as -> by congruence. split; [done|].
  destruct H1 as (rows & Hr & Hin1), H2 as (rows' & Hr' & Hin2). assert (rows' = rows) as -> by congruence.
  by eapply (NoDup_map_inj do_OrderNumber); [eapply si_unique| | |].
Qed.

Lemma elem_of_without n g l : g ∈ without n l <-> g ∈ l /\ dg_OrderNumber g <> n.
Proof. unfold without. rewrite list_elem_of_filter. tauto. Qed.

(** *** A row moves *)

Section moved.
Context (key suffix : string) (n to : Z) (sh sh' : shard) (rows : list DOrder) (row : DOrder).
Context (p : DOrder -> bool) (f : DOrder -> DOrder).
Hypothesis Hinv : shard_inv key sh.
Hypothesis Hrows : s_orders sh !! suffix = Some rows.
Hypothesis Hin : row ∈ rows.
Hypothesis Hrow : order_at n row = true.
Hypothesis Hallowed : allowed (do_OrderStatus row) to = true.
Hypothesis Hmoves : moves n to p f.
Hypothesis Horders : s_orders sh' = <[suffix := update_rows p f rows]> (s_orders sh).

(** The rows afterwards: the moved one, and all others as they were. *)
Lemma rows_after s o' : in_table sh' s o' <->
  (s = suffix /\ o' = f row) \/ (in_table sh s o' /\ do_OrderNumber o' <> n).
Proof.
  destruct Hmoves as (Hp & Hq & Hf).
  assert (Hrn : do_OrderNumber row = n) by (by apply row_number).
  assert (Htab : in_table sh suffix row) by (by exists rows).
  assert (Hprow : p row = true) by (by apply Hq).
  assert (Honly : forall x, x ∈ rows -> p x = true -> x = row).
  { intros x Hx Hpx. apply Hp in Hpx as [Hx1 _]. apply row_number in Hx1.
    eapply (same_row key sh suffix suffix); [done|by exists rows|done|congruence]. }
  split.
  - intros (rows' & Hr' & Hin'). rewrite Horders in Hr'. destruct (decide (s = suffix)) as [->|Hne].
    + rewrite lookup_insert_eq in Hr'. injection Hr' as <-. unfold update_rows in Hin'.
      apply list_elem_of_fmap in Hin' as (x & -> & Hx). destruct (p x) eqn:Ep.
      * left. split; [done|]. by rewrite (Honly x).
      * right. split; [by exists rows|]. intros E. assert (x = row) as ->; [|congruence].
        eapply (same_row key sh suffix suffix); [done|by exists rows|done|congruence].
    + rewrite lookup_insert_ne in Hr' by done. right. assert (Ht : in_table sh s o') by (by exists rows').
      split; [done|]. intros E. destruct (same_row key sh s suffix o' row Hinv Ht Htab) as [? _]; congruence.
  - intros [[-> ->]|[(rows' & Hr' & Hin') Hne]].
    + exists (update_rows p f rows). rewrite Horders, lookup_insert_eq. split; [done|].
      unfold update_rows. apply list_elem_of_fmap. exists row. by rewrite Hprow.
    + destruct (decide (s = suffix)) as [->|Hs].
      * exists (update_rows p f rows). rewrite Horders, lookup_insert_eq. split; [done|].
        assert (rows' = rows) as -> by congruence. unfold update_rows. apply list_elem_of_fmap. exists o'.
        split; [|done]. destruct (p o') eqn:Ep; [|done]. exfalso. apply Hp in Ep as [E _]. by apply row_number in E.
      * exists rows'. by rewrite Horders, lookup_insert_ne.
Qed.

Lemma moved_row : exists t, mysql_datetime t = t /\
  f row = set_order to (if to =? 2 then Some t else do_CancelOrderTime row) (if to =? 3 then Some t else do_PayOrderTime row) t row.
Proof. destruct Hmoves as (_ & _ & Hf). apply Hf. Qed.

Lemma moved_live (gs : list DOrderGuard) : live_guards sh gs -> live_guards sh' (without n gs).
Proof.
  intros Hl g [Hg Hne]%elem_of_without. destruct (Hl g Hg) as (s & o & Ho & Ha & E). exists s, o.
  split_and!; [|done..]. apply rows_after. right. split; [done|congruence].
Qed.

Lemma paid_live (gs : list DOrderGuard) : to = 3 -> live_guards sh gs -> live_guards sh' gs.
Proof.
  intros Hto Hl g Hg. destruct (Hl g Hg) as (s & o & Ho & Ha & E).
  destruct (decide (dg_OrderNumber g = n)) as [En|Hne].
  - destruct moved_row as (t & _ & Ef). exists suffix, (f row). split_and!; [apply rows_after; by left| |].
    + rewrite Ef. unfold active. cbn. by rewrite Hto.
    + rewrite Ef. cbn. rewrite En. by apply row_number.
  - exists s, o. split_and!; [|done..]. apply rows_after. right. split; [done|congruence].
Qed.

Lemma moved_inv :
  (if to =? 3 then same_guards sh sh' else dropped_guards n sh sh') -> shard_inv key sh'.
Proof.
  intros Hg. destruct moved_row as (t & _ & Ef). pose proof (row_number _ _ Hrow) as Hrn.
  assert (Htab : in_table sh suffix row) by (by exists rows).
  assert (Hpl : forall s o, in_table sh' s o -> do_Status o = 1 /\
    exists r, routes_to router (do_OrderNumber o) r /\ r_DBKey r = key /\ r_TableSuffix r = s /\
      RouteByUserID router (do_UserId o) = Ok r).
  { intros s o [[-> ->]|[Ho _]]%rows_after; [|by apply (si_place _ _ Hinv)]. rewrite Ef. cbn.
    apply (si_place _ _ Hinv _ _ Htab). }
  assert (Hun : forall s rs, s_orders sh' !! s = Some rs -> NoDup (map do_OrderNumber rs)).
  { intros s rs. rewrite Horders. destruct (decide (s = suffix)) as [->|Hne].
    - rewrite lookup_insert_eq. intros [= <-]. unfold update_rows. rewrite map_map.
      erewrite map_ext_in; [exact (si_unique _ _ Hinv _ _ Hrows)|]. intros x _. destruct (p x); [|done].
      destruct Hmoves as (_ & _ & Hf). destruct (Hf x) as (? & _ & ->). done.
    - rewrite lookup_insert_ne by done. apply (si_unique _ _ Hinv). }
  destruct Hinv as [_ _ U V S G (L1 & L2 & L3)]. destruct (Z.eqb_spec to 3) as [E3|E3].
  - destruct Hg as (G1 & G2 & G3). split; [done|done|by rewrite G1|by rewrite G2|by rewrite G3| |].
    + intros s o Ho Ha. rewrite G1. apply rows_after in Ho as [[-> ->]|[Ho _]]; [|by apply (G s)].
      rewrite Ef. cbn. apply (G suffix); [done|]. unfold allowed in Hallowed. unfold active.
      rewrite E3 in Hallowed. cbn in Hallowed. rewrite orb_false_r, andb_true_r in Hallowed. by rewrite Hallowed.
    + rewrite G1, G2, G3. split_and!; by apply paid_live.
  - destruct Hg as (G1 & G2 & G3).
    split; [done|done|rewrite G1|rewrite G2|rewrite G3| |]; try (by apply NoDup_map_filter).
    + intros s o Ho Ha. rewrite G1. apply rows_after in Ho as [[-> ->]|[Ho Hne]].
      * exfalso. rewrite Ef in Ha. unfold active in Ha. cbn in Ha. unfold allowed in Hallowed.
        apply orb_true_iff in Ha as [E1%Z.eqb_eq|E1%Z.eqb_eq]; [|done]. rewrite E1 in Hallowed.
        cbn in Hallowed. by rewrite andb_false_r in Hallowed.
      * destruct (G s o Ho Ha) as (g & Hg & E & K). exists g. split_and!; [|done..]. apply elem_of_without.
        split; [done|congruence].
    + rewrite G1, G2, G3. split_and!; by apply moved_live.
Qed.
End moved.

(** *** A row is written *)

Lemma created_tables m suffix sh sh' s o : created m suffix sh sh' ->
  in_table sh' s o <-> in_table sh s o \/ (s = suffix /\ o = stored_order (wm_order m)).
Proof.
  intros [rows _ Hr Hnew Ho _ _ _]. unfold in_table. rewrite Ho. destruct (decide (s = suffix)) as [->|Hne].
  - rewrite lookup_insert_eq. split.
    + intros (rows' & [= <-] & [Hin|Hin%list_elem_of_singleton]%elem_of_app); [left; eauto|by right].
    + intros [(rows' & Hr' & Hin)|[_ ->]]; eexists; (split; [reflexivity|]); apply elem_of_app;
        [left; congruence|right; by apply list_elem_of_singleton].
  - rewrite lookup_insert_ne by done. split; [intros ?; by left|]. by intros [?|[? _]].
Qed.

Lemma appended_elem gs l l' g : appended gs l l' -> g ∈ l' -> g ∈ l \/ exists g0, g0 ∈ gs /\ g = stored_guard g0.
Proof. intros [-> _] [?|(g0 & -> & ?)%list_elem_of_fmap]%elem_of_app; eauto. Qed.

Lemma created_live m suffix sh sh' gs l l' :
  created m suffix sh sh' -> do_OrderStatus (wm_order m) = 1 ->
  Forall (fun g => dg_OrderNumber g = do_OrderNumber (wm_order m)) gs -> appended gs l l' ->
  live_guards sh l -> live_guards sh' l'.
Proof.
  intros Hc Hst Hall Happ Hl g Hg. destruct (appended_elem _ _ _ _ Happ Hg) as [Hin|(g0 & Hin & ->)].
  - destruct (Hl g Hin) as (s & o & Ho & Ha & E). exists s, o. split_and!; [|done..].
    apply (created_tables m suffix _ _ _ _ Hc). by left.
  - exists suffix, (stored_order (wm_order m)). split_and!.
    + apply (created_tables m suffix _ _ _ _ Hc). by right.
    + unfold active. cbn. by rewrite Hst.
    + rewrite Forall_forall in Hall. symmetry. exact (Hall g0 Hin).
Qed.

Lemma created_inv key m suffix sh sh' r :
  shard_inv key sh -> created m suffix sh sh' -> own_models m ->
  routes_to router (do_OrderNumber (wm_order m)) r -> r_DBKey r = key -> r_TableSuffix r = suffix ->
  RouteByUserID router (do_UserId (wm_order m)) = Ok r -> shard_inv key sh'.
Proof.
  intros Hinv Hc (Hs & [Hst _] & (g & Hg & Hgn & Hgk) & Hv & Hse) Hr Hk Hsfx Hu.
  pose proof Hc as [rows _ Hrows Hnew Ho A1 A2 A3]. destruct Hinv as [PL UN U V S G (L1 & L2 & L3)].
  split.
  - intros s o [Hin|[-> ->]]%(created_tables m suffix _ _ _ _ Hc); [by apply PL|]. split; [done|]. by exists r.
  - intros s rs. rewrite Ho. destruct (decide (s = suffix)) as [->|Hne].
    + rewrite lookup_insert_eq. intros [= <-]. rewrite map_app. apply NoDup_app. split_and!;
        [by apply (UN suffix)| |apply NoDup_singleton]. by intros n Hn ->%list_elem_of_singleton.
    + rewrite lookup_insert_ne by done. apply UN.
  - by apply A1.
  - by apply A2.
  - by apply A3.
  - intros s o [Hin|[-> ->]]%(created_tables m suffix _ _ _ _ Hc) Ha.
    + destruct (G s o Hin Ha) as (g' & Hg' & ?). exists g'. split; [|done]. destruct A1 as [-> _].
      apply elem_of_app. by left.
    + exists (stored_guard g). split_and!; [|done|done]. destruct A1 as [-> _]. rewrite Hg. cbn.
      apply elem_of_app. right. by left.
  - split_and!.
    + apply (created_live m suffix sh sh' _ _ _ Hc Hst) with (3 := L1) (2 := A1). rewrite Hg. by apply Forall_singleton.
    + apply (created_live m suffix sh sh' _ _ _ Hc Hst Hv A2 L2).
    + apply (created_live m suffix sh sh' _ _ _ Hc Hst Hse A3 L3).
Qed.

Lemma changed_inv key n suffix sh sh' :
  shard_inv key sh -> changed n suffix sh sh' -> shard_inv key sh'.
Proof.
  intros Hinv [Ho (G1 & G2 & G3)|rows row to p f Hr Hin Hrow Hal Hm Ho Hg].
  - destruct Hinv as [PL UN U V S G (L1 & L2 & L3)].
    split; unfold live_guards in *; unfold in_table in *; rewrite ?Ho, ?G1, ?G2, ?G3; first [assumption|split_and!; assumption].
  - by eapply moved_inv.
Qed.

(** ** Steps *)

(** One transaction, whatever it answers. *)
Inductive order_step `{LocalTime} : gmap string shard -> gmap string shard -> Prop :=
  | step_write ev t e0 m es e d issued workerID seq :
      mapEventToOrderWriteModels ev t (e0, tt) = (Ok m, es) ->
      BuildOrderNumber (ev_UserID ev) issued workerID seq = Ok (ev_OrderNumber ev) ->
      net_faults e ->
      order_step d (TransactByOrderNumber deps (ev_OrderNumber ev) (createTx m) (e, d)).2.2
  | step_cancel n e d : order_step d (TransactByOrderNumber deps n (cancelTx n) (e, d)).2.2
  | step_pay n t e d : order_step d (TransactByOrderNumber deps n (payTx n t) (e, d)).2.2
  | step_refunded n e d : order_step d (TransactByOrderNumber deps n (refundedTx n) (e, d)).2.2
  | step_close n t e d : order_step d (TransactByOrderNumber deps n (closeTx n t) (e, d)).2.2.

Definition life_inv (d : gmap string shard) : Prop := map_Forall shard_inv d.

(** What a step does to one database: nothing, a new order, or a row that moves. *)
Inductive shard_step : string -> shard -> shard -> Prop :=
  | shard_new m r sh sh' : own_models m -> created m (r_TableSuffix r) sh sh' ->
      routes_to router (do_OrderNumber (wm_order m)) r ->
      RouteByUserID router (do_UserId (wm_order m)) = Ok r -> shard_step (r_DBKey r) sh sh'
  | shard_move key n suffix sh sh' : changed n suffix sh sh' -> shard_step key sh sh'.

Lemma shard_step_inv key sh sh' : shard_step key sh sh' -> shard_inv key sh -> shard_inv key sh'.
Proof. destruct 1; [intros; by eapply created_inv|intros; by eapply changed_inv]. Qed.

Lemma built_routes user issued w s n r :
  BuildOrderNumber user issued w s = Ok n -> routes_to router n r -> RouteByUserID router user = Ok r.
Proof.
  intros Hb [wall Hr]. apply BuildOrderNumber_ok in Hb as (db & tb & Hg & Ht & Hw & Hs & ->).
  pose proof (geneParts_range _ _ _ Hg) as [Hdb Htb]. unfold RouteByOrderNumber in Hr.
  destruct (LogicSlotByOrderNumber wall _) as [slot|] eqn:E; [|done].
  assert (Hpos : 0 < pack (unix_sec issued - orderNumberEpoch) db tb w s).
  { unfold LogicSlotByOrderNumber, ParseOrderNumber in E. destruct (Z.leb_spec (pack (unix_sec issued - orderNumberEpoch) db tb w s) 0); done. }
  assert (Hslot : LogicSlotByOrderNumber issued (pack (unix_sec issued - orderNumberEpoch) db tb w s)
    = Ok (LogicSlotByUserID user)).
  { unfold LogicSlotByOrderNumber. rewrite ParseOrderNumber_pack by lia. unfold LogicSlotByUserID. by rewrite Hg. }
  rewrite (slot_wall _ _ _ _ _ E Hslot) in Hr. unfold RouteByUserID.
  destruct (RouteByLogicSlot _ _); congruence.
Qed.

Lemma mapper_user `{LocalTime} {S} ev t (e : env) (s : S) m es' :
  mapEventToOrderWriteModels ev t (e, s) = (Ok m, es') -> do_UserId (wm_order m) = ev_UserID ev.
Proof.
  unfold mapEventToOrderWriteModels. destr_if; [done|].
  intros (? & ? & _ & (? & ? & _ & (? & ? & _ & (id & s1 & _ & Hrun)%bind_ok)%bind_ok)%bind_ok)%bind_ok.
  cbn zeta in Hrun. by apply bind_ok in Hrun as (rows & s2 & _ & (task & s3 & _ & (gid & s4 & _ & [<- _]%ret_ok)%bind_ok)%bind_ok).
Qed.

(** A step changes at most one database, by a [shard_step]. *)
Lemma order_step_shard `{LocalTime} d d' : order_step d d' ->
  d' = d \/ exists key sh sh', d !! key = Some sh /\ d' = <[key := sh']> d /\ shard_step key sh sh'.
Proof.
  destruct 1 as [ev t e0 m es e d issued w s Hm Hb Hnet|n e d|n t e d|n e d|n t e d];
    match goal with |- context [TransactByOrderNumber deps ?n ?fn (?e, d)] =>
      destruct (order_transact deps n fn e d) as [->|(rt & r & sh & sh' & e1 & a & e2 & Hrt & Hr & Hsh & Hrun & -> & Hf)];
      [by left|]; rewrite Hrouter in Hrt; injection Hrt as <-
    end.
  - pose proof (mapper_own _ _ _ _ _ _ Hm) as [Hown Hn]. pose proof (mapper_user _ _ _ _ _ _ Hm) as Hu.
    apply createTx_ok in Hrun as [->|Hc].
    + left. by apply insert_id.
    + right. exists (r_DBKey r), sh, sh'. split_and!; [done|done|]. eapply shard_new; [done|done|by rewrite Hn|].
      rewrite Hu. by eapply built_routes.
    + unfold net_faults in *. rewrite Hf. destruct (faults e); [done|]. by apply Forall_cons in Hnet as [_ ?].
  - right. exists (r_DBKey r), sh, sh'. split_and!; [done|done|]. eapply shard_move. by eapply cancelTx_changed.
  - right. exists (r_DBKey r), sh, sh'. split_and!; [done|done|]. eapply shard_move. by eapply payTx_changed.
  - right. exists (r_DBKey r), sh, sh'. split_and!; [done|done|]. eapply shard_move. by eapply refundedTx_changed.
  - right. exists (r_DBKey r), sh, sh'. split_and!; [done|done|]. eapply shard_move. by eapply closeTx_changed.
Qed.

Lemma life_inv_step `{LocalTime} d d' : order_step d d' -> life_inv d -> life_inv d'.
Proof.
  intros [->|(key & sh & sh' & Hsh & -> & Hs)]%order_step_shard Hi; [done|].
  apply map_Forall_insert_2; [|done]. eapply shard_step_inv; [done|]. by apply Hi.
Qed.

Lemma life_inv_steps `{LocalTime} d d' : rtc order_step d d' -> life_inv d -> life_inv d'.
Proof. induction 1; eauto using life_inv_step. Qed.

(** ** Properties *)

(** The columns that never change. *)
Definition same_order (a b : DOrder) : Prop :=
  b = set_order (do_OrderStatus b) (do_CancelOrderTime b) (do_PayOrderTime b) (do_EditTime b) a.

Definition status_step (a b : Z) : Prop := allowed a b = true.

Lemma same_order_refl a : same_order a a.
Proof. by destruct a. Qed.
Lemma same_order_trans a b c : same_order a b -> same_order b c -> same_order a c.
Proof. unfold same_order. intros -> ->. by destruct a. Qed.

Lemma changed_row_kept n suffix sh sh' s o : changed n suffix sh sh' -> in_table sh s o ->
  exists o', in_table sh' s o' /\ same_order o o' /\ rtc status_step (do_OrderStatus o) (do_OrderStatus o').
Proof.
  intros [Ho _|rows row to p f Hr _ _ _ (Hp & _ & Hf) Ho _] (rs & Hrs & Hin).
  - exists o. split_and!; [exists rs; by rewrite Ho|apply same_order_refl|done].
  - destruct (decide (s = suffix)) as [->|Hne].
    + assert (rs = rows) as -> by congruence. exists (if p o then f o else o). split_and!.
      * exists (update_rows p f rows). rewrite Ho, lookup_insert_eq. split; [done|].
        unfold update_rows. apply list_elem_of_fmap. by exists o.
      * destruct (p o); [|apply same_order_refl]. by destruct (Hf o) as (? & _ & ->).
      * destruct (p o) eqn:Ep; [|done]. destruct (Hf o) as (? & _ & ->). apply rtc_once.
        by apply Hp in Ep as [_ ?].
    + exists o. split_and!; [|apply same_order_refl|done]. exists rs. by rewrite Ho, lookup_insert_ne.
Qed.

Lemma shard_row_kept key sh sh' s o : shard_step key sh sh' -> in_table sh s o ->
  exists o', in_table sh' s o' /\ same_order o o' /\ rtc status_step (do_OrderStatus o) (do_OrderStatus o').
Proof.
  intros [m r ? ? _ Hc _ _|k n suffix ? ? Hc] Hin; [|by eapply changed_row_kept].
  exists o. split_and!; [|apply same_order_refl|done]. eapply created_tables; [done|]. by left.
Qed.

(** Rows are never lost, and move along the life cycle. *)
Definition rows_kept (d d' : gmap string shard) : Prop := forall key sh suffix o,
  d !! key = Some sh -> in_table sh suffix o ->
  exists sh' o', d' !! key = Some sh' /\ in_table sh' suffix o' /\ same_order o o' /\
    rtc status_step (do_OrderStatus o) (do_OrderStatus o').

Lemma rows_kept_refl d : rows_kept d d.
Proof. intros key sh suffix o Hsh Ho. exists sh, o. split_and!; [done|done|apply same_order_refl|done]. Qed.

Lemma rows_kept_trans d1 d2 d3 : rows_kept d1 d2 -> rows_kept d2 d3 -> rows_kept d1 d3.
Proof.
  intros H1 H2 key sh suffix o Hsh Ho. destruct (H1 key sh suffix o Hsh Ho) as (sh2 & o2 & Hsh2 & Ho2 & Hsame & Hst).
  destruct (H2 key sh2 suffix o2 Hsh2 Ho2) as (sh3 & o3 & H3 & H4 & H5 & H6). exists sh3, o3.
  split_and!; [done|done|by eapply same_order_trans|by etrans].
Qed.

Lemma order_step_kept `{LocalTime} d d' : order_step d d' -> rows_kept d d'.
Proof.
  intros [->|(k & s1 & s2 & Hk & -> & Hst)]%order_step_shard; [apply rows_kept_refl|].
  intros key sh suffix o Hsh Ho. destruct (decide (k = key)) as [->|Hne].
  - assert (s1 = sh) as -> by congruence.
    destruct (shard_row_kept _ _ _ _ _ Hst Ho) as (o2 & ? & ? & ?). exists s2, o2. by rewrite lookup_insert_eq.
  - exists sh, o. rewrite lookup_insert_ne by done. split_and!; [done|done|apply same_order_refl|done].
Qed.

Lemma order_steps_kept `{LocalTime} d d' : rtc order_step d d' -> rows_kept d d'.
Proof. induction 1; [apply rows_kept_refl|]. by eapply rows_kept_trans; [apply order_step_kept|]. Qed.

(** C8: the life of an order under every interleaving of the handlers and every
    fault.  Its row is never lost, nothing but its status, times of cancelling,
    paying and editing ever changes, and the status only moves from unpaid to
    cancelled or paid, and from cancelled or paid to refunded. *)
Theorem order_lifecycle `{LocalTime} d d' key sh suffix o :
  rtc order_step d d' -> d !! key = Some sh -> in_table sh suffix o ->
  exists sh' o', d' !! key = Some sh' /\ in_table sh' suffix o' /\ same_order o o' /\
    rtc status_step (do_OrderStatus o) (do_OrderStatus o').
Proof. intros Hr. by apply order_steps_kept. Qed.

(** *** The types of the columns *)

(** Which of its two dates a row of each status has; there is no other status. *)
Definition dated (status : Z) (cancel pay : option time) : Prop :=
  match status with
  | 1 => cancel = None /\ pay = None
  | 2 => is_Some cancel /\ pay = None
  | 3 => cancel = None /\ is_Some pay
  | 4 => (is_Some cancel /\ pay = None) \/ (cancel = None /\ is_Some pay)
  | _ => False
  end.

(** A row has the dates of its status, in whole seconds, and its texts and price fit the
    columns. *)
Definition typed_row (o : DOrder) : Prop :=
  dated (do_OrderStatus o) (do_CancelOrderTime o) (do_PayOrderTime o) /\ order_columns o = Ok tt /\
  Forall (fun t => mysql_datetime t = t)
    ([do_ProgramShowTime o; do_OrderExpireTime o; do_CreateOrderTime o; do_CreateTime o; do_EditTime o] ++
     option_list (do_CancelOrderTime o) ++ option_list (do_PayOrderTime o)).

Lemma typed_stored o : order_columns o = Ok tt -> do_OrderStatus o = 1 -> do_CancelOrderTime o = None -> typed_row (stored_order o).
Proof.
  intros Hc Hs Hn. split; [unfold dated; cbn; by rewrite Hs, Hn|]. split; [exact Hc|]. cbn. rewrite Hn. cbn.
  repeat (constructor; [apply mysql_datetime_idem|]). constructor.
Qed.

Lemma allowed_from a to : allowed a to = true -> (a = 1 /\ (to = 2 \/ to = 3)) \/ ((a = 2 \/ a = 3) /\ to = 4).
Proof.
  unfold allowed. rewrite orb_true_iff, !andb_true_iff, !orb_true_iff, !Z.eqb_eq. lia.
Qed.

(** A move keeps a row typed. *)
Lemma typed_moved n to p f o : moves n to p f -> p o = true -> typed_row o -> typed_row (f o).
Proof.
  intros (Hp & _ & Hf) Ho (Hd & Hc & Ht). apply Hp in Ho as [_ Hal]. destruct (Hf o) as (t & Hsec & ->).
  rewrite !Forall_app, !Forall_cons in Ht. destruct Ht as ((? & ? & ? & ? & _) & Hcancel & Hpay).
  apply allowed_from in Hal. unfold typed_row, set_order. cbn. split; [|split; [exact Hc|]].
  - unfold dated in *. destruct Hal as [[E [-> | ->]]|[[E|E] ->]]; rewrite E in Hd; cbn; intuition eauto.
  - destruct Hal as [[E [-> | ->]]|[[E|E] ->]]; rewrite E in Hd; cbn in *;
      repeat (constructor; [done|]); destruct Hd as [Hd1 Hd2]; rewrite ?Hd1, ?Hd2; cbn; rewrite ?app_nil_r;
      by repeat constructor.
Qed.

(** Every row of the new table comes from one of the old table. *)
Lemma changed_row_origin n suffix sh sh' s o' : changed n suffix sh sh' -> in_table sh' s o' ->
  exists o, in_table sh s o /\ same_order o o' /\ rtc status_step (do_OrderStatus o) (do_OrderStatus o').
Proof.
  intros [Ho _|rows row to p f Hr _ _ _ (Hp & _ & Hf) Ho _] (rs & Hrs & Hin); rewrite Ho in Hrs.
  - exists o'. split_and!; [by exists rs|apply same_order_refl|done].
  - destruct (decide (s = suffix)) as [->|Hne].
    + rewrite lookup_insert_eq in Hrs. injection Hrs as <-. apply list_elem_of_fmap in Hin as (o & -> & Hin).
      exists o. split; [by exists rows|]. destruct (p o) eqn:Ep; [|split; [apply same_order_refl|done]].
      destruct (Hf o) as (? & _ & ->). split; [done|]. apply rtc_once. by apply Hp in Ep as [_ ?].
    + rewrite lookup_insert_ne in Hrs by done. exists o'. split_and!; [by exists rs|apply same_order_refl|done].
Qed.

Definition rows_typed (sh : shard) : Prop := forall suffix o, in_table sh suffix o -> typed_row o.

Lemma rows_typed_step key sh sh' : shard_step key sh sh' -> rows_typed sh -> rows_typed sh'.
Proof.
  intros [m r ? ? (_ & [Hst Hno] & _) Hc _ _|k n sfx ? ? Hc] Ht s o Hin.
  - destruct (proj1 (created_tables m (r_TableSuffix r) _ _ _ _ Hc) Hin) as [?|[_ ->]]; [by eapply Ht|].
    destruct Hc as [rows Hcol _ _ _ _ _ _]. by apply typed_stored.
  - destruct Hc as [Ho _|rows row to p f Hr _ _ _ Hm Ho _]; destruct Hin as (rs & Hrs & Hin); rewrite Ho in Hrs; [by eapply Ht; exists rs|].
    destruct (decide (s = sfx)) as [->|Hne]; [|rewrite lookup_insert_ne in Hrs by done; eapply Ht; by exists rs].
    rewrite lookup_insert_eq in Hrs. injection Hrs as <-. apply list_elem_of_fmap in Hin as (x & -> & Hx).
    assert (typed_row x) by (eapply Ht; by exists rows). destruct (p x) eqn:Ep; [by eapply typed_moved|done].
Qed.

Lemma rows_typed_steps `{LocalTime} d d' : rtc order_step d d' ->
  map_Forall (fun _ => rows_typed) d -> map_Forall (fun _ => rows_typed) d'.
Proof.
  induction 1 as [|d1 d2 d3 Hs _ IH]; [done|]. intros Hd. apply IH.
  apply order_step_shard in Hs as [->|(k & s1 & s2 & Hk & -> & Hst)]; [done|].
  apply map_Forall_insert_2; [|done]. eapply rows_typed_step; [done|]. by eapply Hd.
Qed.

(** Databases before the first order. *)
Definition empty_shard (sh : shard) : Prop :=
  (forall suffix rows, s_orders sh !! suffix = Some rows -> rows = []) /\
  s_user_guards sh = [] /\ s_viewer_guards sh = [] /\ s_seat_guards sh = [].
Definition empty_dbs (d : gmap string shard) : Prop := map_Forall (fun _ sh => empty_shard sh) d.

Lemma life_inv_empty d : empty_dbs d -> life_inv d.
Proof.
  intros He key sh Hsh. destruct (He _ _ Hsh) as (Ht & G1 & G2 & G3).
  assert (Hno : forall s o, ~ in_table sh s o).
  { intros s o (rows & Hr & Hin). rewrite (Ht _ _ Hr) in Hin. by apply not_elem_of_nil in Hin. }
  assert (Hlive : live_guards sh []) by (by intros g ?%not_elem_of_nil).
  split; rewrite ?G1, ?G2, ?G3; cbn; try exact (NoDup_nil_2 (A := Z * Z)); try by (intros s o Hin; destruct (Hno s o Hin)).
  - intros s rows Hr. rewrite (Ht _ _ Hr). constructor.
  - done.
Qed.

(** C24: the rows of orders stay well typed and in their place.  In every reachable state,
    every row of an order table has one of the four statuses, with a time of cancelling
    exactly when it was cancelled and a time of paying exactly when it was paid, and a
    refunded one with one of the two; its dates are whole seconds and its texts and price
    fit the columns; and the database and the table that hold it are those to which both
    its order number and its user route. *)
Theorem order_rows_typed `{LocalTime} d0 d key sh suffix o :
  empty_dbs d0 -> rtc order_step d0 d -> d !! key = Some sh -> in_table sh suffix o ->
  typed_row o /\ exists r, routes_to router (do_OrderNumber o) r /\ RouteByUserID router (do_UserId o) = Ok r /\
    r_DBKey r = key /\ r_TableSuffix r = suffix.
Proof.
  intros He Hr Hsh Hin. split.
  - refine (rows_typed_steps d0 d Hr _ key sh Hsh suffix o Hin). intros k s Hk sfx x (rows & Hrows & Hx).
    destruct (He k s Hk) as [Hempty _]. rewrite (Hempty _ _ Hrows) in Hx. by apply not_elem_of_nil in Hx.
  - pose proof (life_inv_steps _ _ Hr (life_inv_empty _ He) _ _ Hsh) as Hinv.
    destruct (si_place _ _ Hinv _ _ Hin) as (_ & r & ? & ? & ? & ?). by exists r.
Qed.

(** C7: one active order per user and show.  In every reachable state, however the
    handlers interleave and whatever fails, two orders of one user for one show
    that are unpaid or paid are the same order, in all databases and tables. *)
Theorem one_active_order `{LocalTime} d0 d k1 sh1 s1 o1 k2 sh2 s2 o2 :
  empty_dbs d0 -> rtc order_step d0 d ->
  d !! k1 = Some sh1 -> in_table sh1 s1 o1 -> d !! k2 = Some sh2 -> in_table sh2 s2 o2 ->
  active o1 = true -> active o2 = true -> do_UserId o1 = do_UserId o2 -> do_ShowTimeId o1 = do_ShowTimeId o2 ->
  k1 = k2 /\ s1 = s2 /\ o1 = o2.
Proof.
  intros He Hr H1 I1 H2 I2 A1 A2 Hu Hs.
  pose proof (life_inv_steps _ _ Hr (life_inv_empty _ He)) as Hinv.
  pose proof (Hinv _ _ H1) as V1. pose proof (Hinv _ _ H2) as V2.
  destruct (si_place _ _ V1 _ _ I1) as (_ & r1 & _ & K1 & _ & U1).
  destruct (si_place _ _ V2 _ _ I2) as (_ & r2 & _ & K2 & _ & U2).
  rewrite Hu in U1. assert (k1 = k2) as -> by congruence. assert (sh1 = sh2) as -> by congruence. split; [done|].
  destruct (si_guarded _ _ V1 _ _ I1 A1) as (g1 & G1 & N1 & Y1).
  destruct (si_guarded _ _ V1 _ _ I2 A2) as (g2 & G2 & N2 & Y2).
  assert (g1 = g2) as <-.
  { eapply (NoDup_map_inj gkey); [apply (si_users _ _ V1)|done|done|]. by rewrite Y1, Y2, Hu, Hs. }
  eapply same_row; [exact V1|exact I1|exact I2|congruence].
Qed.

(** The guards are exactly the claims of active orders.  In every reachable state
    a database holds at most one guard per show and user, viewer or seat; every
    guard belongs to an unpaid or paid order of that database, and every such
    order has the guard of its user. *)
Theorem guards_track_orders `{LocalTime} d0 d key sh :
  empty_dbs d0 -> rtc order_step d0 d -> d !! key = Some sh ->
  NoDup (map gkey (s_user_guards sh)) /\ NoDup (map gkey (s_viewer_guards sh)) /\ NoDup (map gkey (s_seat_guards sh)) /\
  (forall g, g ∈ s_user_guards sh ++ s_viewer_guards sh ++ s_seat_guards sh ->
     exists suffix o, in_table sh suffix o /\ active o = true /\ do_OrderNumber o = dg_OrderNumber g) /\
  (forall suffix o, in_table sh suffix o -> active o = true ->
     exists g, g ∈ s_user_guards sh /\ dg_OrderNumber g = do_OrderNumber o /\ gkey g = (do_ShowTimeId o, do_UserId o)).
Proof.
  intros He Hr Hsh. pose proof (life_inv_steps _ _ Hr (life_inv_empty _ He) _ _ Hsh) as [_ _ U V S G (L1 & L2 & L3)].
  split_and!; [done..| |done]. intros g [Hg|[Hg|Hg]%elem_of_app]%elem_of_app; [by apply L1|by apply L2|by apply L3].
Qed.
End life.
