(* ===== verification/ProgramService.v ===== *)
(** * The program service as the order service's peer

    [ProgramRpcLaws] is what the order service relies on: a confirmed token's seats
    are sold, a released token holds nothing, released sold seats are on sale.  The
    handlers of the program service discharge it, for every Redis. *)
From Stdlib Require Import ZArith Lia Ascii String.
From stdpp Require Import base gmap sets list strings.
From S2P Require Import Prelude GoBase Effects Sql ProgramDB RefundRule RedisZ SeatDB SeatStore SeatFreeze OrderFlow.
Open Scope string_scope.
Open Scope list_scope.
Open Scope Z_scope.

(** ** The interface's laws *)

Class ProgramRpcLaws (P : Type) `{ProgramRpc P} := {
  program_ok : P -> Prop;
  sold_for : P -> string -> Prop;
  held_by : P -> string -> Prop;
  on_sale : P -> Z -> Z -> Prop;
  auto_assign_keeps r : keeps program_ok (rpc_AutoAssignAndFreezeSeats r);
  confirm_keeps t : keeps program_ok (rpc_ConfirmSeatFreeze t);
  release_keeps t : keeps program_ok (rpc_ReleaseSeatFreeze t);
  release_sold_keeps r : keeps program_ok (rpc_ReleaseSoldSeats r);
  evaluate_state r e p : (rpc_EvaluateRefundRule r (e, p)).2.2 = p;
  confirm_sold t e p e' p' : program_ok p ->
    rpc_ConfirmSeatFreeze t (e, p) = (Ok tt, (e', p')) -> sold_for p' t;
  release_frees t e p e' p' : program_ok p ->
    rpc_ReleaseSeatFreeze t (e, p) = (Ok tt, (e', p')) -> ~ held_by p' t;
  release_sold_back r e p e' p' : program_ok p ->
    rpc_ReleaseSoldSeats r (e, p) = (Ok tt, (e', p')) ->
    forall i, i ∈ rs_SeatIds r -> 0 < i -> on_sale p' (rs_ShowTimeId r) i }.

(** ** The handlers of program-rpc *)

Section service.
Context {R : Type} `{RedisZ R} `{LocalTime} `{RulePrims} (store : option Cache.SeatStockStore).

Definition program_service : ProgramRpc (world R) := {|
  rpc_AutoAssignAndFreezeSeats := AutoAssignAndFreezeSeats store;
  rpc_ConfirmSeatFreeze := ConfirmSeatFreeze store;
  rpc_ReleaseSeatFreeze := ReleaseSeatFreeze store;
  rpc_ReleaseSoldSeats := ReleaseSoldSeats;
  rpc_EvaluateRefundRule := fun r => on_programs (EvaluateRefundRule r) |}.

Definition ids_unique (w : world R) : Prop := NoDup (map Id (w_seats w)).

Lemma rows_step_ids op (db db' : list DSeat) : rows_step op db db' -> map Id db' = map Id db.
Proof.
  induction 1 as [|s s' db db' [->|(_ & (E & _) & _)] _ IH]; cbn; [done|by rewrite IH|by rewrite IH, E].
Qed.

Lemma ids_kept {A} op (m : IO (world R) A) :
  (forall db0, keeps (of_seats (rows_step op db0)) m) -> keeps ids_unique m.
Proof.
  intros Hm [e w] Hw. cbn in *. specialize (Hm (w_seats w) (e, w) (rows_step_refl op (w_seats w))). cbn in Hm.
  unfold of_seats in Hm. apply rows_step_ids in Hm. unfold ids_unique. by rewrite Hm.
Qed.

Lemma evaluate_keeps_programs r e (db : programdb) : (EvaluateRefundRule r (e, db)).2.2 = db.
Proof.
  assert (Hk : keeps (fun x => x = db) (EvaluateRefundRule r)); [|by apply (Hk (e, db))].
  unfold EvaluateRefundRule. destr_if; [apply keeps_throw|].
  apply keeps_bind; [apply keeps_map_err, keeps_call; by intros ? ->|]. intros st.
  apply keeps_bind; [apply keeps_map_err, keeps_call; by intros ? ->|]. intros p.
  apply keeps_bind.
  { unfold isRefundBlockedDuringRushSale. destruct (pg_RushSaleOpenTime p); [|apply keeps_ret].
    destruct (pg_RushSaleEndTime p); [|apply keeps_ret].
    apply keeps_bind; [destr_if; [apply keeps_now|apply keeps_ret]|]. intros n. destr_if; apply keeps_ret. }
  intros b. destr_if; [apply keeps_ret|]. unfold applyRefundRule.
  repeat first [apply keeps_ret | apply keeps_throw | apply keeps_lift | apply keeps_now
    | apply keeps_bind; [|intros ?]
    | match goal with |- keeps _ (if ?b then _ else _) => destruct b | |- keeps _ (match ?x with _ => _ end) => destruct x end].
Qed.

(** A seat of a show anybody may take. *)
Definition seat_on_sale (w : world R) (showTimeId i : Z) : Prop :=
  exists s, s ∈ w_seats w /\ Status s = 1 /\ SeatDB.ShowTimeId s = showTimeId /\ Id s = i /\ SeatStatus s = 1.

Lemma keep_seat_ids_elem seen ids i : 0 < i -> i ∈ ids -> i ∈ seen \/ i ∈ keep_seat_ids seen ids.
Proof.
  intros Hi. revert seen. induction ids as [|j ids IH]; cbn; intros seen; [by intros ?%not_elem_of_nil|].
  intros [->|Hin]%elem_of_cons.
  - destruct (Z.leb_spec j 0); [lia|]. cbn. case_bool_decide; [by left|]. right. by left.
  - destruct (_ || _); [by apply IH|]. destruct (IH (j :: seen) Hin) as [[->|?]%elem_of_cons|?]; [right; by left|by left|].
    right. by right.
Qed.

Lemma sold_tx_ok st ids e (db : list DSeat) a e' db' : sold_tx st ids (e, db) = (Ok a, (e', db')) ->
  NoDup (map Id db) -> forall i, i ∈ ids ->
  exists s, s ∈ db' /\ Status s = 1 /\ SeatDB.ShowTimeId s = st /\ Id s = i /\ SeatStatus s = 1.
Proof.
  intros Hrun Hnd i Hi. unfold sold_tx in Hrun. apply bind_ok in Hrun as (l & [e1 db1] & Hf & Hrun).
  pose proof (call_readonly _ _ _ _ _ _ (find_for_update_readonly st ids) Hf) as ->. apply call_ok in Hf.
  destr_if; [done|]. destr_if; [done|]. bool_norm. apply Nat.eqb_eq in Heqb.
  apply bind_ok in Hrun as (n & [e2 db2] & Hn & Hrun). apply now_state in Hn as [-> _]. apply call_ok in Hrun.
  destruct (locked_rows st ids db l db Hf Hnd Heqb) as [Hp Hndi].
  apply find_for_update_ok in Hf as (_ & Hin & _ & _).
  rewrite <- Hp in Hi. apply list_elem_of_fmap in Hi as (s & -> & Hs).
  destruct (Hin s Hs) as (Hdb & K1 & K2 & K3). pose proof (existsb_all_false _ _ Heqb0 s Hs) as K4. cbn in K4.
  unfold ReleaseSoldByShowTimeAndIDs in Hrun. destruct ids as [|j ids]; [by apply not_elem_of_nil in K3|].
  injection Hrun as _ <-. destruct (seats_at st 3 (j :: ids) s) eqn:Es.
  - eexists. split; [unfold update_where; apply list_elem_of_fmap; exists s; split; [reflexivity|done]|]. by rewrite Es.
  - exists s. split_and!; [|done..|].
    + unfold update_where. apply list_elem_of_fmap. exists s. by rewrite Es.
    + apply andb_false_iff in K4 as [E|E]; apply negb_false_iff, Z.eqb_eq in E; [done|].
      exfalso. unfold seats_at, in_ids in Es. rewrite K1, K2, E, !Z.eqb_refl, bool_decide_eq_true_2 in Es by done. done.
Qed.

Lemma release_sold_ok r e (w : world R) e' w' : NoDup (map Id (w_seats w)) ->
  ReleaseSoldSeats r (e, w) = (Ok tt, (e', w')) ->
  forall i, i ∈ rs_SeatIds r -> 0 < i -> seat_on_sale w' (rs_ShowTimeId r) i.
Proof.
  intros Hnd Hrun i Hi Hpos. unfold ReleaseSoldSeats in Hrun. destr_if; [done|].
  apply bind_ok in Hrun as (st & [e1 w1] & Hst & Hrun). apply read_programs in Hst as ->; [|by intros ?].
  apply bind_ok in Hrun as (p & [e2 w2] & Hp & Hrun). apply read_programs in Hp as ->; [|by intros ?].
  apply bind_ok in Hrun as (b & [e3 w3] & Hb & Hrun).
  assert (w_seats w3 = w_seats w) as Hw.
  { pose proof (keeps_blocked (eq (w_seats w)) p zero_time (e2, w) eq_refl) as Hk. rewrite Hb in Hk. by symmetry. }
  destruct b; [done|]. apply on_ok in Hrun as (db' & Hrun & ->). rewrite Hw in Hrun.
  apply transact_ok in Hrun as (ea & eb & Hrun). eapply sold_tx_ok in Hrun; [exact Hrun|done|].
  destruct (keep_seat_ids_elem [] (rs_SeatIds r) i Hpos Hi) as [?%not_elem_of_nil|?]; done.
Qed.

Definition token_sold (w : world R) (t : string) : Prop :=
  (exists s, s ∈ w_seats w /\ Status s = 1 /\ FreezeToken s = Some t) /\
  (forall s, s ∈ w_seats w -> Status s = 1 -> FreezeToken s = Some t -> SeatStatus s = 3).
Definition token_held (w : world R) (t : string) : Prop :=
  exists s, s ∈ w_seats w /\ Status s = 1 /\ FreezeToken s = Some t.

Lemma evaluate_keeps_world r e (w : world R) : (on_programs (EvaluateRefundRule r) (e, w)).2.2 = w.
Proof.
  unfold on_programs, on. pose proof (evaluate_keeps_programs r e (w_programs w)) as E.
  destruct (EvaluateRefundRule r (e, w_programs w)) as [res [e' db]]. cbn in *. subst db. by destruct w.
Qed.

Lemma released_not_held t e (w : world R) e' w' : NoDup (map Id (w_seats w)) ->
  ReleaseSeatFreeze store t (e, w) = (Ok tt, (e', w')) -> ~ token_held w' t.
Proof. intros Hw Hrun (s & H1' & H2' & H3'). by eapply release_ok. Qed.

Definition program_service_laws : @ProgramRpcLaws (world R) program_service :=
  @Build_ProgramRpcLaws (world R) program_service ids_unique token_sold token_held seat_on_sale
    (fun r => ids_kept _ _ (auto_assign_rows store r))
    (fun t => ids_kept _ _ (confirm_seat_rows store t))
    (fun t => ids_kept _ _ (release_seat_rows store t))
    (fun r => ids_kept _ _ (release_sold_rows r))
    evaluate_keeps_world (fun t e p e' p' => confirm_ok store t e p e' p')
    (fun t e p e' p' => released_not_held t e p e' p') release_sold_ok.
End service.
