(* ===== verification/OrderAnswers.v ===== *)
(** * What the answers of the order service mean

    Theorems about whole handlers, over the interfaces of the program and the pay
    service, whatever fails on the way: a paid order is paid in every service, a
    cancelled one holds no seat, a refunded one has its refund, and the close task
    closes only what has expired. *)
From Stdlib Require Import ZArith Lia Ascii String.
From stdpp Require Import base gmap sets list sorting strings.
From S2P Require Import Prelude GoBase Effects Sql Sharding Redis RushRecord RushStore PayService ProgramDB RefundRule SeatDB SeatFreeze OrderDB OrderRepo OrderFlow OrderCreate OrderLife ProgramService.
Import Slot Codec Routes.
Open Scope string_scope.
Open Scope list_scope.
Open Scope Z_scope.

(** ** Remote calls *)

Lemma rpc_state {S A} (m : IO S A) e s : (forall e1, (m (e1, s)).2.2 = s) -> (rpc m (e, s)).2.2 = s.
Proof.
  intros Hm. unfold rpc. destruct (draw e) as [[|x|x] e1]; [|done|].
  - unfold map_err. specialize (Hm e1). by destruct (m (e1, s)) as [[a|x] [e2 s2]].
  - cbn. apply Hm.
Qed.

(** ** The row of an order *)

(** The row the repository finds for [n]. *)
Definition row_in (sh : shard) (suffix : string) (n : Z) (o : DOrder) : Prop :=
  exists rows, s_orders sh !! suffix = Some rows /\ find (order_at n) rows = Some o.

Definition order_now (deps : Dependencies) (d : gmap string shard) (n : Z) (o : DOrder) : Prop :=
  exists router r sh, dep_Router deps = Some router /\ routes_to router n r /\
    d !! r_DBKey r = Some sh /\ row_in sh (r_TableSuffix r) n o.

Lemma row_in_fun sh suffix n o1 o2 : row_in sh suffix n o1 -> row_in sh suffix n o2 -> o1 = o2.
Proof. intros (rows & H1 & H2) (rows' & H3 & H4). congruence. Qed.

Lemma order_now_fun deps d n o1 o2 : order_now deps d n o1 -> order_now deps d n o2 -> o1 = o2.
Proof.
  intros (t1 & r1 & s1 & H1 & R1 & D1 & O1) (t2 & r2 & s2 & H2 & R2 & D2 & O2).
  assert (t2 = t1) as -> by congruence. rewrite (routes_to_fun _ _ _ _ R2 R1) in D2, O2.
  assert (s2 = s1) as -> by congruence. by eapply row_in_fun.
Qed.

Lemma row_in_at sh suffix n o : row_in sh suffix n o -> order_at n o = true.
Proof. intros (rows & _ & E). by apply find_elem in E as [_ ?]. Qed.

Lemma order_now_number deps d n o : order_now deps d n o -> do_OrderNumber o = n.
Proof. intros (? & ? & ? & _ & _ & _ & H). by eapply row_number, row_in_at. Qed.

(** An update keeps the row found, changed or not. *)
Lemma find_update n to p f rows row : moves n to p f -> find (order_at n) rows = Some row ->
  find (order_at n) (update_rows p f rows) = Some (if p row then f row else row).
Proof.
  intros (Hp & _ & Hf). induction rows as [|x rows IH]; cbn; [done|].
  assert (Hat : order_at n (if p x then f x else x) = order_at n x).
  { destruct (p x); [|done]. destruct (Hf x) as (? & _ & ->). done. }
  rewrite Hat. destruct (order_at n x); [by intros [= ->]|done].
Qed.

Lemma find_row_in suffix n e sh row e' sh' :
  Tx.FindOrderByNumberForUpdate suffix n (e, sh) = (Ok row, (e', sh')) -> sh' = sh /\ row_in sh suffix n row.
Proof.
  intros Hf. pose proof (find_row_state _ _ _ _ _ _ _ Hf) as ->. split; [done|].
  apply call_ok, on_order_table_ok in Hf as (rows & rows' & Hr & Hf & _). exists rows. split; [done|].
  unfold FindOneByOrderNumber in Hf. injection Hf as Hf _. by apply of_option_ok in Hf.
Qed.

Lemma lock_row_in suffix n e sh row e' sh' :
  lock_row suffix n (e, sh) = (Ok row, (e', sh')) -> sh' = sh /\ row_in sh suffix n row.
Proof. intros E%map_err_ok. by apply find_row_in in E. Qed.

Definition guards_gone (n : Z) (sh : shard) : Prop :=
  forall g, g ∈ s_user_guards sh ++ s_viewer_guards sh ++ s_seat_guards sh -> dg_OrderNumber g <> n.

Lemma dropped_gone n sh sh' : dropped_guards n sh sh' -> guards_gone n sh'.
Proof.
  intros (G1 & G2 & G3) g. rewrite G1, G2, G3. unfold without. rewrite !elem_of_app, !list_elem_of_filter. tauto.
Qed.

Lemma dropped_trans n sh sh1 sh2 : same_guards sh sh1 -> dropped_guards n sh1 sh2 -> dropped_guards n sh sh2.
Proof. intros (A & B & C) (D & E & F). unfold dropped_guards. by rewrite D, E, F, A, B, C. Qed.

(** What a successful transaction leaves: the row [row] has become [row'], in status
    [to]; either it was there already, or it moved there. *)
Definition settled (n to : Z) (suffix : string) (sh sh' : shard) (row row' : DOrder) : Prop :=
  row_in sh suffix n row /\ row_in sh' suffix n row' /\ same_order row row' /\ do_OrderStatus row' = to /\
  ((sh' = sh /\ do_OrderStatus row = to) \/
   (allowed (do_OrderStatus row) to = true /\ (to <> 3 -> guards_gone n sh'))).

Lemma settled_moved n to suffix sh sh' rows row p f :
  row_in sh suffix n row -> s_orders sh !! suffix = Some rows -> moves n to p f ->
  allowed (do_OrderStatus row) to = true ->
  s_orders sh' = <[suffix := update_rows p f rows]> (s_orders sh) -> (to <> 3 -> guards_gone n sh') ->
  exists row', settled n to suffix sh sh' row row'.
Proof.
  intros Hin Hr Hm Hal Ho Hg. exists (f row). pose proof (row_in_at _ _ _ _ Hin) as Hat.
  assert (Hp : p row = true) by (by apply Hm).
  destruct Hm as (Hp1 & Hp2 & Hf). destruct (Hf row) as (t & _ & Ef).
  split_and!; [done| | | |by right].
  - exists (update_rows p f rows). rewrite Ho, lookup_insert_eq. split; [done|].
    destruct Hin as (rows' & Hr' & Hfind). assert (rows' = rows) as -> by congruence.
    rewrite (find_update n to p f rows row) by done. by rewrite Hp.
  - by rewrite Ef.
  - by rewrite Ef.
Qed.

Lemma settled_same n suffix sh row : row_in sh suffix n row -> settled n (do_OrderStatus row) suffix sh sh row row.
Proof. intros Hin. split_and!; [done|done|apply same_order_refl|done|by left]. Qed.

Lemma cancelTx_settled n suffix e sh b e' sh' :
  cancelTx n suffix (e, sh) = (Ok b, (e', sh')) -> exists row row', settled n 2 suffix sh sh' row row'.
Proof.
  intros (row & [e1 s1] & Hl & Hrun)%bind_ok. apply lock_row_in in Hl as [-> Hin]. exists row.
  destruct (Z.eqb_spec (do_OrderStatus row) orderStatusCancelled) as [E|_].
  { apply ret_ok in Hrun as [_ [= _ <-]]. exists row. change 2 with orderStatusCancelled. rewrite <- E. by apply settled_same. }
  destruct (Z.eqb_spec (do_OrderStatus row) orderStatusUnpaid) as [E|_]; [|done]. cbn [negb] in Hrun.
  apply bind_ok in Hrun as (t & [e2 s2] & Hn & Hrun). apply now_state in Hn as [-> _].
  rewrite (row_number _ _ (row_in_at _ _ _ _ Hin)) in Hrun.
  apply bind_ok in Hrun as (u & [e3 s3] & (rows & p & f & Hr & Hm & Ho & Hg)%cancel_update & Hrun).
  apply bind_ok in Hrun as (v & [e4 s4] & [Ho2 Hd]%drop_ok & Hrun). apply ret_ok in Hrun as [_ [= _ <-]].
  eapply (settled_moved n 2 suffix sh s4 rows row p f); [done..| |congruence|].
  - by rewrite E.
  - intros _. by eapply dropped_gone.
Qed.

Lemma payTx_settled n t suffix e sh b e' sh' :
  payTx n t suffix (e, sh) = (Ok b, (e', sh')) -> exists row row', settled n 3 suffix sh sh' row row'.
Proof.
  intros (row & [e1 s1] & Hl & Hrun)%bind_ok. apply lock_row_in in Hl as [-> Hin]. exists row.
  destruct (Z.eqb_spec (do_OrderStatus row) orderStatusPaid) as [E|_].
  { apply ret_ok in Hrun as [_ [= _ <-]]. exists row. change 3 with orderStatusPaid. rewrite <- E. by apply settled_same. }
  destruct (Z.eqb_spec (do_OrderStatus row) orderStatusUnpaid) as [E|_]; [|done]. cbn [negb] in Hrun.
  rewrite (row_number _ _ (row_in_at _ _ _ _ Hin)) in Hrun.
  apply pay_update in Hrun as (rows & p & f & Hr & Hm & Ho & Hg).
  eapply (settled_moved n 3 suffix sh sh' rows row p f); [done..| |done|done]. by rewrite E.
Qed.

Lemma refundedTx_settled n suffix e sh b e' sh' :
  refundedTx n suffix (e, sh) = (Ok b, (e', sh')) -> exists row row', settled n 4 suffix sh sh' row row'.
Proof.
  intros (row & [e1 s1] & Hl & Hrun)%bind_ok. apply lock_row_in in Hl as [-> Hin]. exists row.
  destruct (Z.eqb_spec (do_OrderStatus row) orderStatusRefunded) as [E|_].
  { apply ret_ok in Hrun as [_ [= _ <-]]. exists row. change 4 with orderStatusRefunded. rewrite <- E. by apply settled_same. }
  destruct (negb _ && negb _) eqn:Est; [done|].
  apply bind_ok in Hrun as (t & [e2 s2] & Hn & Hrun). apply now_state in Hn as [-> _].
  rewrite (row_number _ _ (row_in_at _ _ _ _ Hin)) in Hrun.
  apply bind_ok in Hrun as (u & [e3 s3] & (rows & p & f & Hr & Hm & Ho & Hg)%refund_update & [Ho2 Hd]%drop_ok).
  eapply (settled_moved n 4 suffix sh sh' rows row p f); [done..| |congruence|].
  - apply andb_false_iff in Est as [E|E]; apply negb_false_iff, Z.eqb_eq in E; by rewrite E.
  - intros _. by eapply dropped_gone.
Qed.

(** ** Transactions of the service *)

Lemma transact_order_ok {A} deps n (fn : string -> IO shard A) e d a e' d' :
  TransactByOrderNumber deps n fn (e, d) = (Ok a, (e', d')) ->
  exists router r sh sh' e1 e2, dep_Router deps = Some router /\ routes_to router n r /\
    d !! r_DBKey r = Some sh /\ fn (r_TableSuffix r) (e1, sh) = (Ok a, (e2, sh')) /\ d' = <[r_DBKey r := sh']> d.
Proof.
  unfold TransactByOrderNumber, RouteOfOrder. destruct (dep_Router deps) as [router|]; [|done].
  intros (r & [e1 d1] & Hr & Hrun)%bind_ok.
  apply bind_ok in Hr as (wl & [e2 d2] & Hn & Hr). apply now_state in Hn as [-> _].
  unfold of_route, lift in Hr. destruct (RouteByOrderNumber router wl n) as [r'|x] eqn:Er; [|done].
  injection Hr as -> <- <-. unfold transactByRoute, at_shard in Hrun.
  destruct (d !! r_DBKey r) as [sh|] eqn:Esh; [|done].
  destruct (transact (fn (r_TableSuffix r)) (e2, sh)) as [res [e3 sh']] eqn:E. injection Hrun as -> <- <-.
  apply transact_ok in E as (ea & eb & E). exists router, r, sh, sh', ea, eb. split_and!; [done|by exists wl|done..].
Qed.

(** Reading through the repository. *)
Lemma find_order_ok deps n e d o e' d' :
  FindOrderByNumber deps n (e, d) = (Ok o, (e', d')) -> d' = d /\ order_now deps d n o.
Proof.
  unfold FindOrderByNumber, RouteOfOrder. destruct (dep_Router deps) as [router|] eqn:Hrt; [|done].
  intros (r & [e1 d1] & Hr & Hrun)%bind_ok.
  apply bind_ok in Hr as (wl & [e2 d2] & Hn & Hr). apply now_state in Hn as [-> _].
  unfold of_route, lift in Hr. destruct (RouteByOrderNumber router wl n) as [r'|x] eqn:Er; [|done].
  injection Hr as -> <- <-. unfold at_shard in Hrun.
  destruct (d !! r_DBKey r) as [sh|] eqn:Esh; [|done].
  destruct (call _ (e2, sh)) as [res [e3 sh']] eqn:E. injection Hrun as -> <- <-.
  apply find_row_in in E as [-> Hin]. split; [by apply insert_id|]. exists router, r, sh.
  split_and!; [done|by exists wl|done..].
Qed.

Section answers.
Context {P R : Type} `{ProgramRpcLaws P} `{RedisHash R} (svc : ServiceContext).
Notation W := (orders P R).
Notation deps := (sv_deps svc).

Lemma on_dbs_ok {A} (m : IO (gmap string shard) A) e (w : W) a e' w' :
  on_dbs m (e, w) = (Ok a, (e', w')) -> exists d, m (e, ow_dbs w) = (Ok a, (e', d)) /\
    w' = mkOrders d (ow_rush w) (ow_program w) (ow_pay w).
Proof. intros (d & E & ->)%on_ok. eauto. Qed.
Lemma on_pay_ok {A} (m : IO Pay.paydb A) e (w : W) a e' w' :
  on_pay m (e, w) = (Ok a, (e', w')) -> exists p, m (e, ow_pay w) = (Ok a, (e', p)) /\
    w' = mkOrders (ow_dbs w) (ow_rush w) (ow_program w) p.
Proof. intros (p & E & ->)%on_ok. eauto. Qed.
Lemma on_program_ok {A} (m : IO P A) e (w : W) a e' w' :
  on_program m (e, w) = (Ok a, (e', w')) -> exists p, m (e, ow_program w) = (Ok a, (e', p)) /\
    w' = mkOrders (ow_dbs w) (ow_rush w) p (ow_pay w).
Proof. intros (p & E & ->)%on_ok. eauto. Qed.
Lemma on_rush_state {A} (m : IO R A) e (w : W) :
  ow_dbs (on_rush m (e, w)).2.2 = ow_dbs w /\ ow_program (on_rush m (e, w)).2.2 = ow_program w /\
  ow_pay (on_rush m (e, w)).2.2 = ow_pay w.
Proof. unfold on_rush, on. by destruct (m (e, ow_rush w)) as [r [e' t]]. Qed.

(** What a step outside the rush store leaves alone. *)
Definition same_but_rush (w w' : W) : Prop :=
  ow_dbs w' = ow_dbs w /\ ow_program w' = ow_program w /\ ow_pay w' = ow_pay w.

Lemma rush_keeps w0 {A} (m : IO R A) : keeps (same_but_rush w0) (on_rush m).
Proof.
  intros [e w] (K1 & K2 & K3). cbn in K1, K2, K3. change (same_but_rush w0 (on_rush m (e, w)).2.2). destruct (on_rush_state m e w) as (E1 & E2 & E3).
  unfold same_but_rush. by rewrite E1, E2, E3.
Qed.

Lemma sync_keeps w0 st n t : keeps (same_but_rush w0) (syncClosedRushAttempt (P := P) svc st n t).
Proof.
  unfold syncClosedRushAttempt. destruct (sv_AttemptStore svc); [|apply keeps_ret]. destr_if; [apply keeps_ret|].
  apply keeps_bind; [destr_if; [apply keeps_now|apply keeps_ret]|]. intros t'.
  apply keeps_bind; [apply keeps_attempt, rush_keeps|]. intros [record|x].
  - apply keeps_bind; [apply rush_keeps|]. intros []; try apply keeps_ret; apply keeps_throw.
  - destr_if; [apply keeps_ret|apply keeps_throw].
Qed.

Lemma sync_closed_state o e (w : W) r e' w' : sync_closed svc o (e, w) = (r, (e', w')) -> same_but_rush w w'.
Proof.
  intros E. assert (Hk : keeps (same_but_rush w) (sync_closed (P := P) svc o)).
  { unfold sync_closed. apply keeps_bind; [apply keeps_now|]. intros t.
    apply keeps_bind; [apply keeps_attempt, sync_keeps|]. intros _. apply keeps_ret. }
  specialize (Hk (e, w)). rewrite E in Hk. by apply Hk.
Qed.

Lemma lock_ok n e (w : W) a e' w' : lockOrderStatusGuard svc n (e, w) = (Ok a, (e', w')) -> w' = w.
Proof.
  unfold lockOrderStatusGuard. destruct (sv_RepeatGuard svc).
  - intros E%map_err_ok%call_ok. by injection E.
  - intros E. by injection E.
Qed.

Lemma transact_ok_order {A} n (fn : string -> IO shard A) e (w : W) a e' w' :
  transactOrder svc n fn (e, w) = (Ok a, (e', w')) ->
  exists router r sh sh' e1 e2, dep_Router deps = Some router /\ routes_to router n r /\
    ow_dbs w !! r_DBKey r = Some sh /\ fn (r_TableSuffix r) (e1, sh) = (Ok a, (e2, sh')) /\
    w' = mkOrders (<[r_DBKey r := sh']> (ow_dbs w)) (ow_rush w) (ow_program w) (ow_pay w).
Proof.
  intros (d & Hrun & ->)%on_dbs_ok.
  apply transact_order_ok in Hrun as (router & r & sh & sh' & e1 & e2 & K1 & K2 & K3 & K4 & ->).
  by exists router, r, sh, sh', e1, e2.
Qed.

Lemma snapshot_ok n e (w : W) o e' w' : loadOrderSnapshot svc n (e, w) = (Ok o, (e', w')) ->
  w' = w /\ order_now deps (ow_dbs w) n o.
Proof.
  intros (router & r & sh & sh' & e1 & e2 & K1 & K2 & K3 & Hl & ->)%transact_ok_order.
  apply lock_row_in in Hl as [-> Hin]. split; [rewrite insert_id by done; by destruct w|]. by exists router, r, sh.
Qed.

(** The order a settled transaction leaves behind. *)
Definition order_settled (n to : Z) (w w' : W) : Prop :=
  exists o o', order_now deps (ow_dbs w) n o /\ order_now deps (ow_dbs w') n o' /\ same_order o o' /\
    do_OrderStatus o' = to /\ ow_program w' = ow_program w /\ ow_pay w' = ow_pay w /\
    (do_OrderStatus o = to \/ allowed (do_OrderStatus o) to = true /\
     (to <> 3 -> exists router r sh, dep_Router deps = Some router /\ routes_to router n r /\
        ow_dbs w' !! r_DBKey r = Some sh /\ guards_gone n sh)).

Lemma settle_order {A} n to (fn : string -> IO shard A) e (w : W) a e' w' :
  (forall suffix e sh a e' sh', fn suffix (e, sh) = (Ok a, (e', sh')) ->
     exists row row', settled n to suffix sh sh' row row') ->
  transactOrder svc n fn (e, w) = (Ok a, (e', w')) -> order_settled n to w w'.
Proof.
  intros Hfn (router & r & sh & sh' & e1 & e2 & K1 & K2 & K3 & Hrun & ->)%transact_ok_order.
  apply Hfn in Hrun as (row & row' & Hin & Hin' & Hsame & Hst & Hcase). exists row, row'. cbn.
  assert (Hl : <[r_DBKey r:=sh']> (ow_dbs w) !! r_DBKey r = Some sh') by apply lookup_insert_eq.
  split_and!; [by exists router, r, sh|by exists router, r, sh'|done..|].
  destruct Hcase as [[_ ?]|[? Hg]]; [by left|right]. split; [done|]. intros Hto. exists router, r, sh'. auto.
Qed.

Lemma finalize_cancel_ok n e (w : W) b e' w' :
  finalizeOrderCancel svc n (e, w) = (Ok b, (e', w')) -> order_settled n 2 w w'.
Proof. apply settle_order. intros *. apply cancelTx_settled. Qed.
Lemma finalize_pay_ok n t e (w : W) b e' w' :
  finalizeOrderPay svc n t (e, w) = (Ok b, (e', w')) -> order_settled n 3 w w'.
Proof. apply settle_order. intros *. apply payTx_settled. Qed.
Lemma converge_ok n e (w : W) b e' w' :
  convergeOrderRefunded svc n (e, w) = (Ok b, (e', w')) -> order_settled n 4 w w'.
Proof. apply settle_order. intros *. apply refundedTx_settled. Qed.

Lemma owned_ok u n e (w : W) o e' w' : findOwnedOrder svc u n (e, w) = (Ok o, (e', w')) ->
  w' = w /\ order_now deps (ow_dbs w) n o /\ do_UserId o = u.
Proof.
  intros (o' & [e1 w1] & Hf & Hrun)%bind_ok. apply map_err_ok, on_dbs_ok in Hf as (d & Hf & ->).
  apply find_order_ok in Hf as [-> Hn]. destruct (Z.eqb_spec (do_UserId o') u) as [E|_]; [|done].
  apply ret_ok in Hrun as [<- [= _ <-]]. split; [by destruct w|done].
Qed.

(** *** Paying *)

Lemma get_bill_ok n e (w : W) b e' w' : GetPayBill_ n (e, w) = (Ok b, (e', w')) ->
  w' = w /\ exists p, p ∈ Pay.pay_bills (ow_pay w) /\ Pay.pb_OrderNumber p = n /\ b = Pay.mapGetPayBillResp p.
Proof.
  intros (db & (e1 & Hrun)%rpc_ok & ->)%on_pay_ok. unfold Pay.GetPayBill in Hrun. destr_if; [done|].
  apply bind_ok in Hrun as (found & [e2 db2] & Hf & Hrun). apply attempt_ok in Hf.
  pose proof (call_readonly _ _ _ _ _ _ (PayInv.find_any_readonly n) Hf) as ->.
  destruct found as [p|x]; [|by destr_if]. apply ret_ok in Hrun as [<- [= _ <-]].
  split; [by destruct w|]. exists p. apply call_ok in Hf. unfold Pay.findPayBill in Hf.
  destruct (find _ _) as [q|] eqn:E; [|done]. injection Hf as ->. apply find_elem in E as [? E].
  split_and!; [done|by apply Z.eqb_eq|done].
Qed.

Lemma must_bill_ok n e (w : W) b e' w' : mustGetPayBillForOrder n (e, w) = (Ok b, (e', w')) ->
  w' = w /\ exists p, p ∈ Pay.pay_bills (ow_pay w) /\ Pay.pb_OrderNumber p = n /\ b = Pay.mapGetPayBillResp p.
Proof. intros E%map_err_ok. by apply get_bill_ok in E. Qed.

(** The answer names the bill [b] of order [n]. *)
Definition billed (n : Z) (resp : PayOrderResp) (b : Pay.DPayBill) (db : Pay.paydb) : Prop :=
  b ∈ Pay.pay_bills db /\ Pay.pb_OrderNumber b = n /\
  pr_PayBillNo resp = Pay.pb_PayBillNo b /\ pr_PayStatus resp = Pay.pb_PayStatus b.

(** A bill that was there already stays as it is; a new one is paid, over the amount. *)
Definition paid_by (r : Pay.MockPayReq) (b : Pay.DPayBill) (db db' : Pay.paydb) : Prop :=
  (b ∈ Pay.pay_bills db /\ db' = db) \/
  (Pay.mp_OrderNumber r ∉ map Pay.pb_OrderNumber (Pay.pay_bills db) /\
   db' = Pay.mkPayDB (Pay.pay_bills db ++ [b]) (Pay.refund_bills db) /\
   Pay.pb_PayStatus b = Pay.payStatusPaid /\ Pay.pb_UserId b = Pay.mp_UserId r /\ Pay.pb_OrderAmount b = f64 (Pay.mp_Amount r)).

Lemma mock_pay_by r e db resp e1 db1 : Pay.MockPay r (e, db) = (Ok resp, (e1, db1)) ->
  exists b, b ∈ Pay.pay_bills db1 /\ Pay.pb_OrderNumber b = Pay.mp_OrderNumber r /\ resp = Pay.mapMockPayResp b /\ paid_by r b db db1.
Proof.
  unfold Pay.MockPay. destr_if; [done|]. intros Hrun.
  apply bind_ok in Hrun as (t & [e0 db0] & Hn & Hrun). apply now_state in Hn as [-> _].
  apply map_err_ok, transact_ok in Hrun as (e2 & e3 & Hrun).
  apply bind_ok in Hrun as (found & [e4 db4] & Hf & Hrun). apply attempt_ok in Hf.
  pose proof (call_readonly _ _ _ _ _ _ (PayInv.find_pay_readonly _) Hf) as ->.
  destruct found as [b|x].
  - apply ret_ok in Hrun as [<- [= _ <-]]. apply call_ok, PayInv.find_pay_ok in Hf as (? & ? & ?).
    exists b. split_and!; [done..|by left].
  - destruct (negb (bool_decide _)); [done|]. cbn zeta in Hrun.
    apply (PayInv.ids_then_insert _ Pay.insertPayBill Pay.mapMockPayResp) in Hrun as (id & billNo & Hins & ->).
    apply PayInv.insert_pay_ok in Hins as (Hnew & _ & ->). eexists.
    split; [cbn; apply elem_of_app; right; by apply list_elem_of_singleton|]. by split_and!; [..|right].
Qed.

(** C25: what an accepted [PayOrder] means.  Whatever fails on the way, when it answers, the
    order belongs to the caller and its row is paid, otherwise as it was; and the answer
    names a pay bill of this order that the pay service holds.  If the order was paid
    already, nothing has changed.  If it was unpaid, every seat frozen with its token is
    sold in the seat table, and the bill is either one that was there, as it was, or the first of this
    order: paid, by this user, over the price of the order. *)
Theorem pay_order_ok r e (w : W) resp e' w' :
  program_ok (ow_program w) -> PayOrder svc r (e, w) = (Ok resp, (e', w')) ->
  exists o o' b, order_now deps (ow_dbs w) (py_OrderNumber r) o /\ do_UserId o = py_UserId r /\
    order_now deps (ow_dbs w') (py_OrderNumber r) o' /\ same_order o o' /\ do_OrderStatus o' = orderStatusPaid /\
    pr_OrderStatus resp = orderStatusPaid /\ billed (py_OrderNumber r) resp b (ow_pay w') /\
    ((do_OrderStatus o = orderStatusPaid /\ w' = w) \/
     (do_OrderStatus o = orderStatusUnpaid /\ sold_for (ow_program w') (do_FreezeToken o) /\
      exists subject, paid_by (Pay.mkMockPayReq (py_OrderNumber r) (py_UserId r) subject (py_Channel r) (do_OrderPrice o)) b (ow_pay w) (ow_pay w'))).
Proof.
  intros Hok Hrun. unfold PayOrder in Hrun. destr_if; [done|]. apply map_err_ok in Hrun.
  apply bind_ok in Hrun as (u & [e1 w1] & Hl & Hrun). apply lock_ok in Hl as ->.
  apply bind_ok in Hrun as (o & [e2 w2] & Hl & Hrun). apply snapshot_ok in Hl as [-> Ho].
  pose proof (order_now_number _ _ _ _ Ho) as Hn. rewrite Hn in Hrun.
  destruct (Z.eqb_spec (do_UserId o) (py_UserId r)) as [Hu|]; [|done]. cbn [negb] in Hrun. exists o.
  destruct (Z.eqb_spec (do_OrderStatus o) orderStatusPaid) as [Hst|_].
  { apply bind_ok in Hrun as (b & [e3 w3] & (-> & p & Hp & Hpn & ->)%must_bill_ok & Hrun).
    apply ret_ok in Hrun as [<- [= _ <-]]. exists o, p. cbn.
    split_and!; [done..|apply same_order_refl|done|done|done|by left]. }
  destruct (Z.eqb_spec (do_OrderStatus o) orderStatusUnpaid) as [Hst|_]; [|done]. cbn [negb] in Hrun.
  apply bind_ok in Hrun as (t & [e3 w3] & Ht & Hrun). apply now_state in Ht as [-> _].
  destr_if; [done|]. cbn zeta in Hrun.
  apply bind_ok in Hrun as (m & [e4 w4] & (db & (ea & Hpay)%rpc_ok & ->)%on_pay_ok & Hrun).
  apply bind_ok in Hrun as (v & [e5 w5] & (p & (eb & Hconf)%rpc_ok & ->)%on_program_ok & Hrun).
  destruct v. apply confirm_sold in Hconf; [|done]. cbn in Hrun.
  apply bind_ok in Hrun as (t' & [e6 w6] & Ht & Hrun).
  assert (w6 = mkOrders (ow_dbs w) (ow_rush w) p db) as ->.
  { unfold answered_time in Ht. destruct (Pay.mr_PayTime m).
    - by apply ret_ok in Ht as [_ [= _ <-]].
    - by apply now_state in Ht as [-> _]. }
  apply bind_ok in Hrun as ([] & [e7 w7] & (o1 & o' & Ho1 & Ho' & Hs & Hst' & Hp & Hpy & _)%finalize_pay_ok & Hrun).
  apply ret_ok in Hrun as [<- [= _ <-]]. cbn in *. rewrite (order_now_fun _ _ _ _ _ Ho1 Ho) in Hs.
  apply mock_pay_by in Hpay as (b & Hb & Hbn & -> & Hby). rewrite Hu in Hby.
  exists o', b. rewrite Hp, Hpy. split_and!; [done..|]. right. split_and!; [done..|by eexists].
Qed.

(** *** Cancelling *)

(** No guard of order [n] is left where its row is. *)
Definition unguarded (d : gmap string shard) (n : Z) : Prop :=
  exists router r sh, dep_Router deps = Some router /\ routes_to router n r /\
    d !! r_DBKey r = Some sh /\ guards_gone n sh.

Lemma release_ok_ t e (w : W) a e' w' : program_ok (ow_program w) ->
  ReleaseSeatFreeze_ t (e, w) = (Ok a, (e', w')) ->
  ~ held_by (ow_program w') t /\ ow_dbs w' = ow_dbs w /\ ow_pay w' = ow_pay w.
Proof.
  intros Hok (p & (e1 & Hr)%rpc_ok & ->)%on_program_ok. cbn. destruct a.
  split_and!; [|done..]. by eapply release_frees.
Qed.

Lemma cancel_with_lock_ok n u owner e (w : W) b e' w' : program_ok (ow_program w) ->
  cancelOrderWithLock svc n u owner (e, w) = (Ok b, (e', w')) ->
  exists o o', order_now deps (ow_dbs w) n o /\ (owner = true -> do_UserId o = u) /\
    order_now deps (ow_dbs w') n o' /\ same_order o o' /\ do_OrderStatus o' = orderStatusCancelled /\
    ow_pay w' = ow_pay w /\
    (do_OrderStatus o = orderStatusCancelled \/
     do_OrderStatus o = orderStatusUnpaid /\ ~ held_by (ow_program w') (do_FreezeToken o) /\ unguarded (ow_dbs w') n).
Proof.
  intros Hok Hrun. unfold cancelOrderWithLock in Hrun. destr_if; [done|].
  apply bind_ok in Hrun as (x & [e1 w1] & Hl & Hrun). apply lock_ok in Hl as ->.
  apply bind_ok in Hrun as (o & [e2 w2] & Hl & Hrun). apply snapshot_ok in Hl as [-> Ho].
  pose proof (order_now_number _ _ _ _ Ho) as Hn. rewrite Hn in Hrun. exists o.
  destruct (owner && _) eqn:Eu; [done|].
  assert (Hu : owner = true -> do_UserId o = u) by (intros ->; by apply negb_false_iff, Z.eqb_eq in Eu).
  destruct (Z.eqb_spec (do_OrderStatus o) orderStatusCancelled) as [Hst|_].
  { apply bind_ok in Hrun as (y & [e3 w3] & (S1 & S2 & S3)%sync_closed_state & Hrun).
    apply ret_ok in Hrun as [_ [= _ <-]]. exists o. rewrite S1, S3.
    split_and!; [done..|apply same_order_refl|done|done|by left]. }
  destruct (Z.eqb_spec (do_OrderStatus o) orderStatusUnpaid) as [Hst|_]; [|done]. cbn [negb] in Hrun.
  apply bind_ok in Hrun as (y & [e3 w3] & (Hf & D3 & P3)%release_ok_ & Hrun); [|done].
  apply bind_ok in Hrun as (c & [e4 w4] & (o1 & o' & Ho1 & Ho' & Hs & Hst' & Hp & Hpy & Hg)%finalize_cancel_ok & Hrun).
  rewrite D3 in Ho1. pose proof (order_now_fun _ _ _ _ _ Ho1 Ho) as ->.
  apply bind_ok in Hrun as (z & [e5 w5] & Hsync & Hrun). apply ret_ok in Hrun as [_ [= _ <-]].
  assert (same_but_rush w4 w5) as (S1 & S2 & S3).
  { destruct c; [by apply sync_closed_state in Hsync|]. by apply ret_ok in Hsync as [_ [= _ <-]]. }
  exists o'. rewrite S1, S2, S3, Hp, Hpy. split_and!; [done..|right]. split_and!; [done..|].
  destruct Hg as [E|[_ Hg]]; [rewrite Hst in E; done|]. by apply Hg.
Qed.

(** An accepted [CancelOrder] has cancelled the caller's order: its row is
    cancelled and otherwise as it was, no bill changed, and unless it was
    cancelled before, the program service holds no seat for its token and none
    of its guards is left, so that its seats and its buyers are free again. *)
Theorem cancel_order_ok u n e (w : W) e' w' :
  program_ok (ow_program w) -> CancelOrder svc u n (e, w) = (Ok tt, (e', w')) ->
  exists o o', order_now deps (ow_dbs w) n o /\ do_UserId o = u /\
    order_now deps (ow_dbs w') n o' /\ same_order o o' /\ do_OrderStatus o' = orderStatusCancelled /\
    ow_pay w' = ow_pay w /\
    (do_OrderStatus o = orderStatusCancelled \/
     do_OrderStatus o = orderStatusUnpaid /\ ~ held_by (ow_program w') (do_FreezeToken o) /\ unguarded (ow_dbs w') n).
Proof.
  intros Hok Hrun. unfold CancelOrder in Hrun. destr_if; [done|]. apply map_err_ok in Hrun.
  apply bind_ok in Hrun as (b & [e1 w1] & Hc & Hrun). apply ret_ok in Hrun as [_ [= _ <-]].
  apply cancel_with_lock_ok in Hc as (o & o' & ? & Hu & ? & ? & ? & ? & ?); [|done].
  exists o, o'. split_and!; auto.
Qed.

(** *** Refunding *)

(** A ticket row of order [n]. *)
Definition ticket_in (d : gmap string shard) (n : Z) (t : DOrderTicketUser) : Prop :=
  exists router r sh rows, dep_Router deps = Some router /\ routes_to router n r /\
    d !! r_DBKey r = Some sh /\ s_tickets sh !! r_TableSuffix r = Some rows /\ t ∈ rows /\ ticket_at n t = true.

Lemma find_tickets_ok n e d ts e' d' :
  FindOrderTicketsByNumber deps n (e, d) = (Ok ts, (e', d')) -> d' = d /\ forall t, ticket_in d n t -> t ∈ ts.
Proof.
  unfold FindOrderTicketsByNumber, RouteOfOrder. destruct (dep_Router deps) as [router|] eqn:Hrt; [|done].
  intros (r & [e1 d1] & Hr & Hrun)%bind_ok.
  apply bind_ok in Hr as (wl & [e2 d2] & Hn & Hr). apply now_state in Hn as [-> _].
  unfold of_route, lift in Hr. destruct (RouteByOrderNumber router wl n) as [r'|x] eqn:Er; [|done].
  injection Hr as -> <- <-. unfold at_shard in Hrun.
  destruct (d !! r_DBKey r) as [sh|] eqn:Esh; [|done].
  destruct (call _ (e2, sh)) as [res [e3 sh']] eqn:E. injection Hrun as -> <- <-. apply call_ok in E.
  unfold on_ticket_table, on_table in E. destruct (s_tickets sh !! r_TableSuffix r) as [rows|] eqn:Et; [|done].
  injection E as <- <-. cbn. rewrite (insert_id _ _ _ Et). split; [rewrite insert_id; [done|]; rewrite Esh; by destruct sh|].
  intros t (router1 & r1 & sh1 & rows1 & A1 & A2 & A3 & A4 & A5 & A6).
  assert (router1 = router) as -> by congruence.
  assert (r1 = r) as -> by (eapply routes_to_fun; [done|by exists wl]).
  assert (sh1 = sh) as -> by congruence. assert (rows1 = rows) as -> by congruence.
  rewrite merge_sort_Permutation. by apply list_elem_of_filter.
Qed.

(** The refund a bill answers for. *)
Definition refunded_as (n : Z) (resp : Pay.RefundResp) (db : Pay.paydb) : Prop :=
  exists b, b ∈ Pay.refund_bills db /\ Pay.rb_OrderNumber b = n /\ Pay.rr_RefundAmount resp = Pay.rb_RefundAmount b /\
    Pay.rr_RefundBillNo resp = Pay.rb_RefundBillNo b.

Lemma refund_call_ok q e (w : W) resp e' w' : Refund_ q (e, w) = (Ok resp, (e', w')) ->
  ow_dbs w' = ow_dbs w /\ ow_program w' = ow_program w /\
  refunded_as (Pay.rq_OrderNumber q) resp (ow_pay w').
Proof.
  intros (p & (e1 & Hr)%rpc_ok & ->)%on_pay_ok. cbn. split_and!; [done..|].
  apply refund_found in Hr as (b & ? & ? & ->). by exists b.
Qed.

Lemma evaluate_ok q e (w : W) a e' w' :
  on_program (rpc (rpc_EvaluateRefundRule q)) (e, w) = (Ok a, (e', w')) -> w' = w.
Proof.
  intros (p & Hr & ->)%on_program_ok.
  pose proof (rpc_state (rpc_EvaluateRefundRule q) e (ow_program w) (fun e1 => evaluate_state q e1 _)) as E.
  rewrite Hr in E. cbn in E. subst p. by destruct w.
Qed.

Lemma refund_or_reuse_ok o b q e (w : W) x e' w' : refundOrReuse o b q (e, w) = (Ok x, (e', w')) ->
  ow_dbs w' = ow_dbs w /\ ow_program w' = ow_program w /\ refunded_as (do_OrderNumber o) x.1 (ow_pay w').
Proof.
  unfold refundOrReuse. destr_if.
  - intros (resp & [e1 w1] & Hr%refund_call_ok & Hrun)%bind_ok. by apply ret_ok in Hrun as [<- [= _ <-]].
  - destr_if; [done|]. intros (rule & [e1 w1] & ->%evaluate_ok & Hrun)%bind_ok. destr_if; [done|].
    apply bind_ok in Hrun as (resp & [e2 w2] & Hr%refund_call_ok & Hrun). by apply ret_ok in Hrun as [<- [= _ <-]].
Qed.

(** The seats of the tickets are on sale again. *)
Lemma release_sold_ok_ o ts e (w : W) a e' w' : program_ok (ow_program w) ->
  release_sold o ts (e, w) = (Ok a, (e', w')) ->
  ow_dbs w' = ow_dbs w /\ ow_pay w' = ow_pay w /\
  forall t, t ∈ ts -> 0 < dt_SeatId t -> on_sale (ow_program w') (do_ShowTimeId o) (dt_SeatId t).
Proof.
  intros Hok. unfold release_sold.
  assert (Hin : forall t, t ∈ ts -> 0 < dt_SeatId t -> dt_SeatId t ∈ orderTicketSeatIDs ts).
  { intros t Ht Hpos. unfold orderTicketSeatIDs. apply list_elem_of_filter. split; [done|].
    by apply list_elem_of_fmap_2. }
  destruct (orderTicketSeatIDs ts) as [|i ids].
  - intros [_ [= _ <-]]%ret_ok. split_and!; [done..|]. intros t Ht Hpos. by apply Hin, not_elem_of_nil in Hpos.
  - intros (p & (e1 & Hr)%rpc_ok & ->)%on_program_ok. cbn. split_and!; [done..|]. intros t Ht Hpos.
    destruct a. eapply release_sold_back in Hr; [|done|by apply Hin|done]. done.
Qed.

(** C26: what an accepted [RefundOrder] means.  The order belongs to the caller and its row
    is refunded, otherwise as it was; the pay service holds the refund bill the answer
    names, with the amount it states.  If the order was paid, the seats of its tickets are
    on sale in the seat table (the Redis ledger keeps them sold until it is loaded again)
    and none of its guards is left.  If it was refunded already, be it by this
    handler or by the compensation of [PayCheck], which gives no seats back, neither the
    order tables nor the program service have changed. *)
Theorem refund_order_ok q e (w : W) resp e' w' :
  program_ok (ow_program w) -> RefundOrder svc q (e, w) = (Ok resp, (e', w')) ->
  exists o o', order_now deps (ow_dbs w) (ro_OrderNumber q) o /\ do_UserId o = ro_UserId q /\
    order_now deps (ow_dbs w') (ro_OrderNumber q) o' /\ same_order o o' /\ do_OrderStatus o' = orderStatusRefunded /\
    (exists b, b ∈ Pay.refund_bills (ow_pay w') /\ Pay.rb_OrderNumber b = ro_OrderNumber q /\
       rf_RefundBillNo resp = Pay.rb_RefundBillNo b /\ rf_RefundAmount resp = Pay.rb_RefundAmount b) /\
    ((do_OrderStatus o = orderStatusRefunded /\ ow_dbs w' = ow_dbs w /\ ow_program w' = ow_program w) \/
     (do_OrderStatus o = orderStatusPaid /\ unguarded (ow_dbs w') (ro_OrderNumber q) /\
      forall t, ticket_in (ow_dbs w) (ro_OrderNumber q) t -> 0 < dt_SeatId t ->
        on_sale (ow_program w') (do_ShowTimeId o) (dt_SeatId t))).
Proof.
  intros Hok Hrun. unfold RefundOrder in Hrun. destr_if; [done|]. apply map_err_ok in Hrun.
  apply bind_ok in Hrun as (o & [e1 w1] & (-> & Ho & Hu)%owned_ok & Hrun).
  apply bind_ok in Hrun as (ts & [e2 w2] & (d & [-> Hts]%find_tickets_ok & ->)%on_dbs_ok & Hrun).
  pose proof (order_now_number _ _ _ _ Ho) as Hn. rewrite Hn in Hrun. exists o.
  destruct (Z.eqb_spec (do_OrderStatus o) orderStatusRefunded) as [Hst|_].
  { apply bind_ok in Hrun as (rr & [e3 w3] & (D & P3 & b & Hb & Hbn & Ha & Hbb)%refund_call_ok & Hrun).
    apply ret_ok in Hrun as [<- [= _ <-]]. exists o. rewrite D. cbn in Hbn. rewrite Hn in Hbn. cbn.
    split_and!; [done..|apply same_order_refl|done| |by left]. by exists b. }
  destruct (Z.eqb_spec (do_OrderStatus o) orderStatusPaid) as [Hst|_]; [|done]. cbn [negb] in Hrun.
  apply bind_ok in Hrun as (bill & [e3 w3] & (-> & _)%must_bill_ok & Hrun).
  apply bind_ok in Hrun as ([rr pct] & [e4 w4] & (D4 & P4 & b & Hb & Hbn & Ha & Hbb)%refund_or_reuse_ok & Hrun).
  apply bind_ok in Hrun as (x & [e5 w5] & (D5 & Y5 & Hseats)%release_sold_ok_ & Hrun); [|by rewrite P4].
  apply bind_ok in Hrun as (y & [e6 w6] & (o1 & o' & Ho1 & Ho' & Hs & Hst' & Hp & Hpy & Hg)%converge_ok & Hrun).
  apply ret_ok in Hrun as [<- [= _ <-]]. rewrite D5, D4 in Ho1. pose proof (order_now_fun _ _ _ _ _ Ho1 Ho) as ->.
  exists o'. rewrite Hp, Hpy, Y5. cbn in *. split_and!; [done..| |right; split_and!; [done| |]].
  - exists b. by rewrite <- Hn.
  - destruct Hg as [E|[_ Hg]]; [rewrite Hst in E; done|]. by apply Hg.
  - intros t Ht Hpos. by apply Hseats; [apply Hts|].
Qed.

(** *** Closing *)

(** What the close task may do to the rows of a table. *)
Definition close_rows (n t : Z) (rows rows' : list DOrder) : Prop :=
  rows' = rows \/
  exists row p f, row ∈ rows /\ order_at n row = true /\ do_OrderStatus row = 1 /\ do_OrderExpireTime row <= t /\
    moves n 2 p f /\ rows' = update_rows p f rows.

Lemma closeTx_rows n t suffix e sh b e' sh' : closeTx n t suffix (e, sh) = (Ok b, (e', sh')) ->
  s_orders sh' = s_orders sh \/ exists rows rows', s_orders sh !! suffix = Some rows /\
    s_orders sh' = <[suffix := rows']> (s_orders sh) /\ close_rows n t rows rows'.
Proof.
  intros (found & [e1 s1] & Hl & Hrun)%bind_ok. apply attempt_ok in Hl.
  pose proof (find_row_state _ _ _ _ _ _ _ Hl) as ->.
  assert (Hmark : forall (k : Z * Z -> option DOrder * bool * (Z * Z)) (e1 : env) s2,
    (m ← Tx.MarkDelayTaskProcessed TaskTypeCloseTimeout (TaskKey n) t; mret (k m)) (e1, s2) = (Ok b, (e', sh')) ->
    s_orders sh' = s_orders s2).
  { intros k e2 s2 (m & [e3 s3] & [Hm _]%mark_ok & Hrun')%bind_ok. by apply ret_ok in Hrun' as [_ [= _ <-]]. }
  destruct found as [row|x].
  2: { destr_if; [|done]. apply Hmark in Hrun. by left. }
  apply find_row_ok in Hl as (_ & rows & Hr & Hin & Hrow).
  destr_if. { apply (Hmark (fun m => (Some row, false, m))) in Hrun. by left. }
  destr_if. { apply ret_ok in Hrun as [_ [= _ <-]]. by left. }
  bool_norm. rewrite (row_number _ _ Hrow) in Hrun.
  apply bind_ok in Hrun as (u & [e3 s3] & (rows' & p & f & Hr' & Hm & Ho & Hg)%cancel_update & Hrun).
  assert (rows' = rows) as -> by congruence.
  apply bind_ok in Hrun as (v & [e4 s4] & [Ho2 Hd]%drop_ok & Hrun).
  apply (Hmark (fun m => (Some _, true, m))) in Hrun.
  right. exists rows, (update_rows p f rows). split_and!; [done|congruence|]. right.
  exists row, p, f. split_and!; try done; by apply Z.eqb_eq.
Qed.

(** Order numbers are a key of every table. *)
Definition numbers_unique (d : gmap string shard) : Prop :=
  forall key sh suffix rows, d !! key = Some sh -> s_orders sh !! suffix = Some rows -> NoDup (map do_OrderNumber rows).

Lemma close_rows_row n t rows rows' o : NoDup (map do_OrderNumber rows) -> close_rows n t rows rows' -> o ∈ rows ->
  exists o', o' ∈ rows' /\ (o' = o \/ do_OrderNumber o = n /\ do_OrderStatus o = 1 /\ do_OrderExpireTime o <= t /\
    do_OrderStatus o' = 2 /\ same_order o o').
Proof.
  intros Hnd [->|(row & p & f & Hin & Hat & Hst & Hexp & (Hp & _ & Hf) & ->)] Ho; [eauto|].
  exists (if p o then f o else o). split; [unfold update_rows; apply list_elem_of_fmap; by exists o|].
  destruct (p o) eqn:Ep; [|by left]. right. apply Hp in Ep as [Eat _].
  assert (o = row) as ->.
  { eapply NoDup_map_inj; [exact Hnd|done|done|]. by rewrite (row_number _ _ Eat), (row_number _ _ Hat). }
  destruct (Hf row) as (? & _ & ->). split_and!; [by apply row_number|done..].
Qed.

Lemma on_program_state {A} (m : IO P A) e (w : W) : ow_dbs (on_program m (e, w)).2.2 = ow_dbs w.
Proof. unfold on_program, on. by destruct (m (e, ow_program w)) as [r [e' t]]. Qed.

(** Nothing but the transaction writes orders. *)
Lemma close_orders n e (w : W) :
  let d' := ow_dbs (CloseExpiredOrder svc n (e, w)).2.2 in
  d' = ow_dbs w \/ exists e2, d' = (TransactByOrderNumber deps n (closeTx n (clock e)) (e2, ow_dbs w)).2.2.
Proof.
  unfold CloseExpiredOrder. cbv zeta. destr_if; [by left|].
  assert (Hlk : exists r e1, lockOrderStatusGuard svc n (e, w) = (r, (e1, w)) /\ clock e1 = clock e).
  { unfold lockOrderStatusGuard. destruct (sv_RepeatGuard svc); [|by eexists _, _].
    unfold map_err, call, draw. destruct (faults e) as [|[|x|x] fs]; cbn; by eexists _, _. }
  destruct Hlk as ([u|x] & e1 & Hlk & Hc).
  2: { rewrite (bind_err_run _ _ _ (mapOrderError x) (e1, w)); [by left|]. unfold map_err. by rewrite Hlk. }
  erewrite bind_ok_run by (unfold map_err; by rewrite Hlk).
  assert (Hnow : exists e2, now (e1, w) = (Ok (clock e), (e2, w))).
  { rewrite <- Hc. unfold now, clock. destruct (ticks e1); by eexists. }
  destruct Hnow as [e2 Hnow]. erewrite bind_ok_run by exact Hnow.
  erewrite bind_ok_run by apply attempt_run. right. exists e2.
  unfold finalizeCloseTimeoutTask, transactOrder, on_dbs, on.
  destruct (TransactByOrderNumber _ _ _ (e2, ow_dbs w)) as [res [e3 d3]]. cbn [snd fst].
  set (w3 := mkOrders d3 (ow_rush w) (ow_program w) (ow_pay w)). change d3 with (ow_dbs w3).
  destruct res as [[[[o|] []] m]|x]; try reflexivity; [|by destruct (err_is_x x ErrOrderStatusInvalid)].
  destruct (sync_closed svc o (e3, w3)) as [[[]|x] [e4 w4]] eqn:Es;
    pose proof (sync_closed_state _ _ _ _ _ _ Es) as (Hd & _).
  2: { by erewrite bind_err_run by exact Es. }
  erewrite bind_ok_run by exact Es. erewrite bind_ok_run by apply attempt_run.
  cbn [mret M_ret snd fst]. unfold ReleaseSeatFreeze_.
  pose proof (on_program_state (rpc (rpc_ReleaseSeatFreeze (do_FreezeToken o))) e4 w4) as Hs.
  unfold mret, M_ret. cbn [snd]. destruct (on_program _ (e4, w4)) as [r5 [e5 w5]]. cbn in *. congruence.
Qed.

(** The close task closes nothing but the order it was asked for, and only after
    its time.  Whatever fails and whatever it answers, every row of every table is
    still there and as it was, except that the row of this order, if it was unpaid
    and had expired when the task looked at the clock, may now be cancelled. *)
Theorem close_only_expired n e (w : W) key sh suffix o :
  numbers_unique (ow_dbs w) -> ow_dbs w !! key = Some sh -> in_table sh suffix o ->
  exists sh' o', ow_dbs (CloseExpiredOrder svc n (e, w)).2.2 !! key = Some sh' /\ in_table sh' suffix o' /\
    (o' = o \/ do_OrderNumber o = n /\ do_OrderStatus o = orderStatusUnpaid /\ do_OrderExpireTime o <= clock e /\
       do_OrderStatus o' = orderStatusCancelled /\ same_order o o').
Proof.
  intros Hun Hsh Hin.
  assert (Hsame : forall d' : gmap string shard, d' !! key = Some sh -> exists sh' o', d' !! key = Some sh' /\
    in_table sh' suffix o' /\ (o' = o \/ do_OrderNumber o = n /\ do_OrderStatus o = orderStatusUnpaid /\
      do_OrderExpireTime o <= clock e /\ do_OrderStatus o' = orderStatusCancelled /\ same_order o o')).
  { intros d' Hd'. exists sh, o. auto. }
  pose proof (close_orders n e w) as Hcl. cbv zeta in Hcl. destruct Hcl as [-> | [e2 ->]]; [by apply Hsame|].
  destruct (order_transact deps n (closeTx n (clock e)) e2 (ow_dbs w))
    as [->|(rt & r & s1 & s2 & e3 & a & e4 & _ & _ & Hs1 & Hrun & -> & _)]; [by apply Hsame|].
  destruct (decide (r_DBKey r = key)) as [<-|Hne]; [|apply Hsame; by rewrite lookup_insert_ne].
  rewrite lookup_insert_eq. assert (s1 = sh) as -> by congruence. exists s2.
  destruct (closeTx_rows _ _ _ _ _ _ _ _ Hrun) as [E|(rows & rows' & Hr & E & Hcl)].
  { exists o. split_and!; [done| |by left]. unfold in_table. by rewrite E. }
  destruct Hin as (rs & Hrs & Hin). unfold in_table. rewrite E. destruct (decide (suffix = r_TableSuffix r)) as [->|Hne].
  - assert (rs = rows) as -> by congruence.
    destruct (close_rows_row _ _ _ _ o (Hun _ _ _ _ Hsh Hr) Hcl Hin) as (o' & Ho' & Hcase).
    exists o'. split_and!; [done| |exact Hcase]. eexists. by rewrite lookup_insert_eq.
  - exists o. split_and!; [done| |by left]. exists rs. by rewrite lookup_insert_ne.
Qed.

End answers.
