(* ===== verification/OrderQuery.v ===== *)
(** * Reading orders  (services/order-rpc/internal/logic)

    The handlers that answer with an order: its detail, a page of orders, the view
    of the customer service, and the progress of an attempt, which comes from the
    rush store as long as it knows the attempt and from the order table afterwards. *)
From Stdlib Require Import ZArith Lia Ascii String.
From stdpp Require Import base gmap sets list strings.
From S2P Require Import Prelude GoBase Effects Sql Sharding Redis RushRecord RushStore PayService ProgramDB RefundRule SeatFreeze OrderDB OrderRepo OrderFlow OrderCreate OrderLife ProgramService OrderAnswers.
Open Scope string_scope.
Open Scope list_scope.
Open Scope Z_scope.

Section format.
Context `{LocalFormat}.

Definition formatOrderTime (value : time) : string := if is_zero_time value then "" else format_local value.
Definition formatOrderNullTime (value : option time) : string :=
  match value with None => "" | Some t => format_local t end.

(** ** The answers *)

Record OrderListInfo := mkListInfo {
  li_OrderNumber : Z; li_ProgramId : Z; li_ShowTimeId : Z; li_ProgramTitle : string; li_ProgramItemPicture : string;
  li_ProgramPlace : string; li_ProgramShowTime : string; li_TicketCount : Z; li_OrderPrice : Z; li_OrderStatus : Z;
  li_OrderExpireTime : string; li_CreateOrderTime : string; li_CancelOrderTime : string }.

Record OrderTicketInfo := mkTicketInfo {
  ti_TicketUserId : Z; ti_TicketUserName : string; ti_TicketUserIdNumber : string; ti_TicketCategoryId : Z;
  ti_TicketCategoryName : string; ti_TicketPrice : Z; ti_SeatId : Z; ti_SeatRow : Z; ti_SeatCol : Z; ti_SeatPrice : Z }.

Record OrderDetailInfo := mkDetail {
  di_summary : OrderListInfo; di_ProgramPermitChooseSeat : Z; di_UserId : Z; di_DistributionMode : string;
  di_TakeTicketMode : string; di_FreezeToken : string; di_OrderTicketInfoVoList : list OrderTicketInfo }.

Record ListOrdersReq := mkListReq { lq_UserId : Z; lq_OrderStatus : Z; lq_PageNumber : Z; lq_PageSize : Z }.
Record ListOrdersResp := mkListResp { lp_PageNum : Z; lp_PageSize : Z; lp_TotalSize : Z; lp_List : list OrderListInfo }.

Record OrderServiceViewResp := mkServiceView {
  sw_OrderNumber : Z; sw_ProgramId : Z; sw_ShowTimeId : Z; sw_OrderStatus : Z; sw_PayStatus : Z; sw_TicketStatus : Z;
  sw_ProgramTitle : string; sw_ProgramShowTime : string; sw_TicketCount : Z; sw_OrderPrice : Z;
  sw_CanRefund : bool; sw_RefundBlockedReason : string }.

Definition mapOrderSummary (o : DOrder) : OrderListInfo :=
  mkListInfo (do_OrderNumber o) (do_ProgramId o) (do_ShowTimeId o) (do_ProgramTitle o) (do_ProgramItemPicture o)
    (do_ProgramPlace o) (formatOrderTime (do_ProgramShowTime o)) (do_TicketCount o) (do_OrderPrice o)
    (do_OrderStatus o) (formatOrderTime (do_OrderExpireTime o)) (formatOrderTime (do_CreateOrderTime o))
    (formatOrderNullTime (do_CancelOrderTime o)).

Definition ticket_info (t : DOrderTicketUser) : OrderTicketInfo :=
  mkTicketInfo (dt_TicketUserId t) (dt_TicketUserName t) (dt_TicketUserIdNumber t) (dt_TicketCategoryId t)
    (dt_TicketCategoryName t) (dt_TicketPrice t) (dt_SeatId t) (dt_SeatRow t) (dt_SeatCol t) (dt_SeatPrice t).

(** The detail repeats the fields of the summary. *)
Definition mapOrderDetail (o : DOrder) (details : list DOrderTicketUser) : OrderDetailInfo :=
  mkDetail (mapOrderSummary o) (do_ProgramPermitChooseSeat o) (do_UserId o) (do_DistributionMode o)
    (do_TakeTicketMode o) (do_FreezeToken o) (map ticket_info details).

Definition mapOrderServiceView (o : DOrder) (payStatus ticketStatus : Z) (preview : PreviewRefundOrderResp)
  : OrderServiceViewResp :=
  mkServiceView (do_OrderNumber o) (do_ProgramId o) (do_ShowTimeId o) (do_OrderStatus o) payStatus ticketStatus
    (do_ProgramTitle o) (formatOrderTime (do_ProgramShowTime o)) (do_TicketCount o) (do_OrderPrice o)
    (pv_AllowRefund preview) (pv_RejectReason preview).

(** ** order_progress_projection.go *)

Record orderProgressProjection := mkProjection {
  pj_OrderNumber : Z; pj_UserID : Z; pj_OrderStatus : Z; pj_Done : bool; pj_ReasonCode : string }.

Context {P R : Type} `{ProgramRpc P} `{RedisHash R}.
Variable svc : ServiceContext.
Notation W := (orders P R).

Definition projectOrderProgressFromDB (orderNumber : Z) : IO W orderProgressProjection :=
  found ← attempt (on_dbs (FindOrderByNumber (sv_deps svc) orderNumber));
  match found with
  | Ok order => mret (mkProjection orderNumber (do_UserId order) PollOrderStatusSuccess true "")
  | Err e => if err_is e ENotFound then mret (mkProjection orderNumber 0 PollOrderStatusFailed true "") else throw e
  end.

(** [now] is not used by the mapping of the record's state. *)
Definition projectOrderProgress (showTimeID orderNumber : Z) : IO W orderProgressProjection :=
  if (showTimeID <=? 0) || (orderNumber <=? 0) then throw (EX ErrInvalidParam)
  else match sv_AttemptStore svc with
  | None => throw (EX ErrInternal)
  | Some _ =>
      found ← attempt (on_rush (GetByShowTimeAndOrderNumber (sv_AttemptStore svc) showTimeID orderNumber));
      match found with
      | Ok record =>
          match MapAttemptRecordToPoll (Some record) with
          | Err _ => throw (EX ErrInternal)
          | Ok (st, done) =>
              mret (mkProjection (ar_OrderNumber record) (ar_UserID record) st done
                     (if done && (st =? PollOrderStatusFailed) then ar_ReasonCode record else ""))
          end
      | Err e => if negb (err_is_x e ErrOrderNotFound) then throw e else projectOrderProgressFromDB orderNumber
      end
  end.

(** ** The handlers *)

Record PollOrderProgressResp := mkPollResp {
  po_OrderNumber : Z; po_OrderStatus : Z; po_Done : bool; po_ReasonCode : string }.

Definition internalStatus : err := statusX InternalCode ErrInternal.

Definition PollOrderProgress (userID showTimeID orderNumber : Z) : IO W PollOrderProgressResp :=
  if (userID <=? 0) || (orderNumber <=? 0) || (showTimeID <=? 0) then throw invalidParam
  else match sv_AttemptStore svc with
  | None => throw internalStatus
  | Some _ =>
      _ ← now;
      projection ← map_err mapOrderError (projectOrderProgress showTimeID orderNumber);
      if (0 <? pj_UserID projection) && negb (pj_UserID projection =? userID)
      then throw (mapOrderError (EX ErrOrderNotFound))
      else mret (mkPollResp (pj_OrderNumber projection) (pj_OrderStatus projection) (pj_Done projection)
                   (pj_ReasonCode projection))
  end.

(** The order number while the attempt is in progress. *)
Definition GetOrderCache (orderNumber showTimeID : Z) : IO W string :=
  if (orderNumber <=? 0) || (showTimeID <=? 0) then throw invalidParam
  else match sv_AttemptStore svc with
  | None => mret ""
  | Some _ =>
      _ ← now;
      res ← attempt (projectOrderProgress showTimeID orderNumber);
      match res with
      | Err _ => mret ""
      | Ok projection =>
          if negb (pj_OrderStatus projection =? PollOrderStatusProcessing) || pj_Done projection then mret ""
          else mret (format_int orderNumber)
      end
  end.

Definition GetOrder (userID orderNumber : Z) : IO W OrderDetailInfo :=
  if negb (validateUserOrderReq userID orderNumber) then throw invalidParam
  else
    order ← map_err (fun e => if err_is e ENotFound then mapOrderError (EX ErrOrderNotFound) else e)
              (on_dbs (FindOrderByNumber (sv_deps svc) orderNumber));
    if negb (do_UserId order =? userID) then throw (mapOrderError (EX ErrOrderNotFound))
    else
      details ← on_dbs (FindOrderTicketsByNumber (sv_deps svc) orderNumber);
      mret (mapOrderDetail order details).

Definition ListOrders (r : ListOrdersReq) : IO W ListOrdersResp :=
  if lq_UserId r <=? 0 then throw (mapOrderError (EX ErrInvalidParam))
  else
    let pageNumber := if lq_PageNumber r <=? 0 then 1 else lq_PageNumber r in
    let pageSize := if lq_PageSize r <=? 0 then 10 else lq_PageSize r in
    '(rows, total) ← on_dbs (FindOrderPageByUser (sv_deps svc) (lq_UserId r) (lq_OrderStatus r) pageNumber pageSize);
    mret (mkListResp pageNumber pageSize total (map mapOrderSummary rows)).

Definition GetOrderServiceView (userID orderNumber : Z) : IO W OrderServiceViewResp :=
  if negb (validateUserOrderReq userID orderNumber) then throw invalidParam
  else
    order ← map_err mapOrderError (findOwnedOrder svc userID orderNumber);
    found ← attempt (on_dbs (FindOrderTicketsByNumber (sv_deps svc) orderNumber));
    details ← (match found with
               | Ok ts => mret ts
               | Err e => if err_is e ENotFound then mret [] else throw (mapOrderError e)
               end);
    payStatus ← map_err mapOrderError (derivePayStatus order);
    preview ← map_err mapOrderError (previewRefundOrder order);
    mret (mapOrderServiceView order payStatus (deriveTicketStatus order details) preview).

(** The handler passes the repository's error on. *)
Definition CountActiveTicketsByUserShowTime_ (userID showTimeID : Z) : IO W Z :=
  if negb (validateUserShowTimeReq userID showTimeID) then throw invalidParam
  else on_dbs (CountActiveTicketsByUserShowTime (sv_deps svc) userID showTimeID).

End format.
