(* ===== verification/OrderEvents.v ===== *)
(** * From a purchase token to an order  (services/order-rpc/internal/logic)

    [CreatePurchaseToken] checks what a user may buy and issues a token;
    [CreateOrder] has the rush store admit the attempt and sends an event;
    [PrimeRushRuntime] loads the rush store before a sale.  The peers are the
    program service ([PreorderRpc]), the user service ([UserRpc]) and a topic of
    events.  The event is sent by a goroutine after the answer: it is a step of its
    own. *)
From Stdlib Require Import ZArith Lia Ascii String.
From stdpp Require Import base gmap sets list strings sorting.
From S2P Require Import Prelude GoBase Effects Sql Sharding OrderNumberGen Redis RushRecord RushStore PurchaseToken FreezeToken PayService ProgramDB SeatFreeze OrderDB OrderRepo OrderFlow OrderCreate OrderQuery.
Open Scope string_scope.
Open Scope list_scope.
Open Scope Z_scope.

(** ** The peers *)

Record PreorderCategory := mkPreorderCategory {
  pc_Id : Z; pc_Introduce : string; pc_Price : Z; pc_AdmissionQuota : Z }.
Record ProgramPreorderInfo := mkPreorder {
  pp_ProgramId : Z; pp_ShowTimeId : Z; pp_Title : string; pp_ItemPicture : string; pp_Place : string;
  pp_ShowTime : string; pp_RushSaleEndTime : string; pp_PermitChooseSeat : Z;
  pp_PerOrderLimitPurchaseCount : Z; pp_PerAccountLimitPurchaseCount : Z;
  pp_TicketCategoryVoList : list PreorderCategory }.
Record TicketUserInfo := mkTicketUser { tu_Id : Z; tu_UserId : Z; tu_RelName : string; tu_IdNumber : string }.

Class PreorderRpc (P : Type) := {
  rpc_GetProgramPreorder : Z -> IO P ProgramPreorderInfo;
  rpc_ListProgramShowTimesForRush : Z -> IO P (list Z) }.
Class UserRpc (U : Type) := { rpc_GetUserAndTicketUserList : Z -> IO U (list TicketUserInfo) }.

(** [json.Marshal] and [json.Unmarshal] of an event. *)
Class EventCodec := {
  marshal_event : OrderCreateEvent -> string;
  unmarshal_event : string -> result err OrderCreateEvent }.

(** ** order_domain_helper.go *)

Definition ticket_user_map (l : list TicketUserInfo) : gmap Z TicketUserInfo :=
  foldl (fun m u => <[tu_Id u := u]> m) ∅ l.

Fixpoint check_requested (users : gmap Z TicketUserInfo) (userID : Z) (seen : gset Z) (ids : list Z) : result err unit :=
  match ids with
  | [] => Ok tt
  | i :: ids =>
      if bool_decide (i ∈ seen) then Err (EX ErrOrderTicketUserInvalid)
      else match users !! i with
           | None => Err (EX ErrOrderTicketUserInvalid)
           | Some u => if negb (tu_UserId u =? userID) then Err (EX ErrOrderTicketUserInvalid)
                       else check_requested users userID ({[i]} ∪ seen) ids
           end
  end.

Definition validateRequestedTicketUsers (userResp : list TicketUserInfo) (userID : Z) (requestedIDs : list Z)
  : result err unit := check_requested (ticket_user_map userResp) userID ∅ requestedIDs.

Definition findPreorderTicketCategory (l : list PreorderCategory) (ticketCategoryID : Z) : option PreorderCategory :=
  find (fun c => pc_Id c =? ticketCategoryID) l.

(** ** order_create_event_builder.go *)

Definition request_no (orderNumber : Z) : string := "order-create-" +:+ format_int orderNumber.

Section events.
Context `{LocalTime} `{LocalFormat}.

Definition fifteen_minutes : Z := 15 * 60 * second.

Fixpoint user_snapshots (users : gmap Z TicketUserInfo) (ids : list Z) : result err (list TicketUserSnapshot) :=
  match ids with
  | [] => Ok []
  | i :: ids =>
      match users !! i with
      | None => Err (EX ErrOrderTicketUserInvalid)
      | Some u => us ← user_snapshots users ids; Ok (mkUserSnapshot (tu_Id u) (tu_RelName u) (tu_IdNumber u) :: us)
      end
  end.

Definition seat_snapshot (s : SeatInfo) : SeatSnapshot :=
  mkSeatSnapshot (si_SeatId s) (si_RowCode s) (si_ColCode s) (si_Price s).

Definition buildOrderCreateEventFromSnapshots {S} (orderNumber userID programID ticketCategoryID : Z)
  (ticketUserIDs : list Z) (distributionMode takeTicketMode : string) (preorder : ProgramPreorderInfo)
  (userResp : list TicketUserInfo) (freezeResp : AutoAssignResp) (t : time) (closeAfter : Z) : IO S OrderCreateEvent :=
  if (orderNumber <=? 0) || (userID <=? 0) || (programID <=? 0) || (ticketCategoryID <=? 0)
  then throw (EX ErrInvalidParam)
  else
    t ← (if is_zero_time t then now else mret t);
    _ ← lift (validateRequestedTicketUsers userResp userID ticketUserIDs);
    if (length ticketUserIDs =? 0)%nat || negb (length (ar_Seats freezeResp) =? length ticketUserIDs)%nat
    then throw (EX ErrInvalidParam)
    else match findPreorderTicketCategory (pp_TicketCategoryVoList preorder) ticketCategoryID with
    | None => throw (EX ErrProgramTicketCategoryNotFound)
    | Some c =>
        users ← lift (user_snapshots (ticket_user_map userResp) ticketUserIDs);
        let answered := format_local (ar_ExpireTime freezeResp) in
        let freezeExpireTime :=
          if bool_decide (answered = "")
          then formatOrderTime (t + (if closeAfter <=? 0 then fifteen_minutes else closeAfter))
          else answered in
        id ← newID;
        mret (mkEvent (format_int id) OrderCreateEventVersion orderNumber (request_no orderNumber) (formatOrderTime t)
          userID programID (pp_ShowTimeId preorder) ticketCategoryID ticketUserIDs (Z.of_nat (length ticketUserIDs))
          distributionMode takeTicketMode "" "" (ar_FreezeToken freezeResp) freezeExpireTime
          (mkProgramSnapshot (pp_Title preorder) (pp_ItemPicture preorder) (pp_Place preorder) (pp_ShowTime preorder)
             (pp_PermitChooseSeat preorder))
          (mkCategorySnapshot (pc_Id c) (pc_Introduce c) (pc_Price c))
          users (map seat_snapshot (ar_Seats freezeResp)))
    end.

Definition buildAttemptCreateEvent {S} (orderNumber : Z) (c : PurchaseTokenClaims) (occurredAt : time)
  : IO S OrderCreateEvent :=
  if (orderNumber <=? 0) || (pt_OrderNumber c <=? 0) || negb (orderNumber =? pt_OrderNumber c)
  then throw (EX ErrInvalidParam)
  else if (pt_UserID c <=? 0) || (pt_ProgramID c <=? 0) || (pt_ShowTimeID c <=? 0) || (pt_TicketCategoryID c <=? 0)
  then throw (EX ErrInvalidParam)
  else
    let n := Z.of_nat (length (pt_TicketUserIDs c)) in
    let ticketCount := if pt_TicketCount c <=? 0 then n else pt_TicketCount c in
    if (ticketCount <=? 0) || negb (n =? ticketCount) then throw (EX ErrInvalidParam)
    else
      occurredAt ← (if is_zero_time occurredAt then now else mret occurredAt);
      id ← newID;
      mret (mkEvent (format_int id) OrderCreateEventVersion orderNumber (request_no orderNumber)
        (formatOrderTime occurredAt) (pt_UserID c) (pt_ProgramID c) (pt_ShowTimeID c) (pt_TicketCategoryID c)
        (pt_TicketUserIDs c) ticketCount (pt_DistributionMode c) (pt_TakeTicketMode c)
        (formatOrderTime (time_of_unix (pt_SaleWindowEndAt c))) (formatOrderTime (time_of_unix (pt_ShowEndAt c)))
        "" "" no_program no_category [] []).
End events.

(** ** The service that takes orders *)

Record CreateContext := mkCreate {
  cc_svc : ServiceContext; cc_PurchaseTokenCodec : option PurchaseTokenCodec; cc_producer : bool;
  cc_CloseAfter : Z; cc_workerID : Z }.

(** The orders' world, the user service, the topic and the process's number generator. *)
Record front (P R U : Type) := mkFront {
  fr_orders : orders P R; fr_users : U; fr_topic : list (string * string); fr_generator : orderNumberGenerator }.
Arguments mkFront {P R U} _ _ _ _.
Arguments fr_orders {P R U} _.
Arguments fr_users {P R U} _.
Arguments fr_topic {P R U} _.
Arguments fr_generator {P R U} _.

(** [time.Sleep]. *)
Definition sleep {S} (d : duration) : IO S unit := fun '(e, s) =>
  (Ok tt, (mkEnv (faults e) (ticks e) (wall e + Z.max 0 d) (xids e), s)).

(** A call of [Next] that no other call overtakes; asleep, it wakes after the wait it
    computed.  Two turns are enough ([wait_turn_terminates]). *)
Fixpoint wait_next (fuel : nat) (last : Z) : IO orderNumberGenerator call :=
  match fuel with
  | O => throw (EOther "out of fuel")
  | S fuel =>
      current ← now;
      '(e, g) ← get;
      let '(g', c) := NextSection g (Waiting last) current in
      _ ← put (e, g');
      match c with
      | Waiting _ => _ ← sleep (waitDuration last current); wait_next fuel last
      | _ => mret c
      end
  end.

Definition Next (userID workerID : Z) : IO orderNumberGenerator Z :=
  t ← now;
  '(e, g) ← get;
  let '(g', c) := NextSection g (Entering (unix_sec t)) t in
  _ ← put (e, g');
  c ← (match c with Waiting last => wait_next 3 last | _ => mret c end);
  match NextResult userID workerID c with
  | Some (Ok n) => mret n
  | _ => throw (EOther "panic: BuildOrderNumber")
  end.

Section handlers.
Context `{LocalTime} `{LocalFormat} `{TokenPrims} `{EventCodec}.
Context {P R U : Type} `{ProgramRpc P} `{PreorderRpc P} `{RedisHash R} `{UserRpc U}.
Variable cx : CreateContext.
Notation svc := (cc_svc cx).
Notation W := (front P R U).

Definition on_orders {A} : IO (orders P R) A -> IO W A :=
  on fr_orders (fun o w => mkFront o (fr_users w) (fr_topic w) (fr_generator w)).
Definition on_users {A} : IO U A -> IO W A :=
  on fr_users (fun u w => mkFront (fr_orders w) u (fr_topic w) (fr_generator w)).
Definition on_topic {A} : IO (list (string * string)) A -> IO W A :=
  on fr_topic (fun t w => mkFront (fr_orders w) (fr_users w) t (fr_generator w)).
Definition on_generator {A} : IO orderNumberGenerator A -> IO W A :=
  on fr_generator (fun g w => mkFront (fr_orders w) (fr_users w) (fr_topic w) g).

Definition GetProgramPreorder_ (showTimeID : Z) : IO W ProgramPreorderInfo :=
  on_orders (on_program (rpc (rpc_GetProgramPreorder showTimeID))).
Definition GetUserAndTicketUserList_ (userID : Z) : IO W (list TicketUserInfo) :=
  on_users (rpc (rpc_GetUserAndTicketUserList userID)).

(** *** create_purchase_token_logic.go *)

Record CreatePurchaseTokenReq := mkTokenReq {
  tq_UserId : Z; tq_ShowTimeId : Z; tq_TicketCategoryId : Z; tq_TicketUserIds : list Z;
  tq_DistributionMode : string; tq_TakeTicketMode : string }.

Definition validateCreatePurchaseTokenReq (r : CreatePurchaseTokenReq) : bool :=
  negb ((tq_UserId r <=? 0) || (tq_ShowTimeId r <=? 0) || (tq_TicketCategoryId r <=? 0)
        || (length (tq_TicketUserIds r) =? 0)%nat) &&
  forallb (fun i => negb (i <=? 0)) (tq_TicketUserIds r).

Definition parsePurchaseTokenTime (primary fallback : string) : result err time :=
  if negb (bool_decide (primary = "")) then parseOrderTime primary
  else if negb (bool_decide (fallback = "")) then parseOrderTime fallback
  else Err (EX ErrInvalidParam).

(** The account's limit counts its unpaid and paid tickets of the show. *)
Definition check_account_limit (r : CreatePurchaseTokenReq) (limit ticketCount : Z) : IO W unit :=
  if limit <=? 0 then mret tt
  else
    activeCount ← on_orders (map_err mapOrderError
      (on_dbs (CountActiveTicketsByUserShowTime (sv_deps svc) (tq_UserId r) (tq_ShowTimeId r))));
    if limit <? wrap64 (activeCount + ticketCount) then throw (mapOrderError (EX ErrOrderPurchaseLimitExceeded))
    else mret tt.

Definition CreatePurchaseToken (r : CreatePurchaseTokenReq) : IO W string :=
  if negb (validateCreatePurchaseTokenReq r) then throw invalidParam
  else match cc_PurchaseTokenCodec cx with
  | None => throw internalStatus
  | Some codec =>
      preorder ← GetProgramPreorder_ (tq_ShowTimeId r);
      userResp ← GetUserAndTicketUserList_ (tq_UserId r);
      match validateRequestedTicketUsers userResp (tq_UserId r) (tq_TicketUserIds r) with
      | Err e => throw (EStatus InvalidArgument (err_text e))
      | Ok _ =>
          if bool_decide (findPreorderTicketCategory (pp_TicketCategoryVoList preorder) (tq_TicketCategoryId r) = None)
          then throw (statusX NotFound ErrProgramTicketCategoryNotFound)
          else
            let ticketCount := Z.of_nat (length (tq_TicketUserIds r)) in
            if (0 <? pp_PerOrderLimitPurchaseCount preorder) && (pp_PerOrderLimitPurchaseCount preorder <? ticketCount)
            then throw (mapOrderError (EX ErrOrderPurchaseLimitExceeded))
            else
              _ ← check_account_limit r (pp_PerAccountLimitPurchaseCount preorder) ticketCount;
              orderNumber ← on_generator (Next (tq_UserId r) (cc_workerID cx));
              match parsePurchaseTokenTime (pp_RushSaleEndTime preorder) (pp_ShowTime preorder),
                    parsePurchaseTokenTime (pp_ShowTime preorder) (pp_RushSaleEndTime preorder) with
              | Ok saleWindowEndAt, Ok showEndAt =>
                  let showTimeID := if pp_ShowTimeId preorder <=? 0 then tq_ShowTimeId r else pp_ShowTimeId preorder in
                  t ← now;
                  match Issue (Some codec) t (mkClaims orderNumber (tq_UserId r) (pp_ProgramId preorder) showTimeID
                          (tq_TicketCategoryId r) (tq_TicketUserIds r) ticketCount (unix_sec saleWindowEndAt)
                          (unix_sec showEndAt) (tq_DistributionMode r) (tq_TakeTicketMode r) 0) with
                  | Ok token => mret token
                  | Err _ => throw internalStatus
                  end
              | _, _ => throw internalStatus
              end
      end
  end.

(** *** create_order_logic.go *)

Definition mapAdmissionRejectCode (code : Z) : err :=
  if (code =? AdmitRejectUserInflightConflict) || (code =? AdmitRejectViewerInflightConflict)
  then EX ErrOrderOperateTooFrequent
  else if code =? AdmitRejectQuotaExhausted then EX ErrSeatInventoryInsufficient
  else EX ErrInternal.

Definition isUnknownResult (e : err) : bool := err_is e EDeadline || err_is e ECanceled || err_is e ENetTimeout.

Definition mapAsyncKafkaSendReason (e : err) : string :=
  if err_is e EDeadline || err_is e ECanceled then "KAFKA_ASYNC_SEND_TIMEOUT" else "KAFKA_ASYNC_SEND_ERROR".

Record asyncOrderCreateEvent := mkAsync {
  ae_orderNumber : Z; ae_showTimeID : Z; ae_key : string; ae_body : string; ae_reasonAt : time }.

(** The answer, and the event its goroutine will send. *)
Definition CreateOrder (userID : Z) (purchaseToken : string) : IO W ((Z * Z) * option asyncOrderCreateEvent) :=
  if (userID <=? 0) || bool_decide (purchaseToken = "") then throw invalidParam
  else match cc_PurchaseTokenCodec cx with
  | None => throw internalStatus
  | Some codec =>
      t1 ← now;
      t2 ← now;
      match Verify (Some codec) t1 t2 purchaseToken with
      | Err _ => throw (mapOrderError (EX ErrInvalidParam))
      | Ok claims =>
          if negb (pt_UserID claims =? userID) then throw (mapOrderError (EX ErrInvalidParam))
          else if bool_decide (sv_AttemptStore svc = None) || negb (cc_producer cx) then throw internalStatus
          else
            t ← now;
            admitted ← attempt (on_orders (on_rush (Admit (sv_AttemptStore svc)
              (mkAdmitAttemptRequest (pt_OrderNumber claims) (pt_UserID claims) (pt_ProgramID claims)
                (pt_ShowTimeID claims) (pt_TicketCategoryID claims) (pt_TicketUserIDs claims) (pt_TicketCount claims)
                (time_of_unix (pt_SaleWindowEndAt claims)) (time_of_unix (pt_ShowEndAt claims)) t))));
            match admitted with
            | Err e =>
                if isUnknownResult e then mret ((pt_OrderNumber claims, pt_ShowTimeID claims), None)
                else throw internalStatus
            | Ok admission =>
                if res_Decision admission =? AdmitDecisionRejected
                then throw (mapOrderError (mapAdmissionRejectCode (res_RejectCode admission)))
                else if res_OrderNumber admission <=? 0 then throw internalStatus
                else if res_Decision admission =? AdmitDecisionReused
                then mret ((res_OrderNumber admission, pt_ShowTimeID claims), None)
                else
                  event ← map_err mapOrderError (buildAttemptCreateEvent (res_OrderNumber admission) claims t);
                  mret ((res_OrderNumber admission, pt_ShowTimeID claims),
                    Some (mkAsync (res_OrderNumber admission) (pt_ShowTimeID claims) (PartitionKey event)
                            (marshal_event event) t))
            end
      end
  end.

(** *** order_create_async_sender.go *)

Definition failPendingAttemptAfterAsyncSendError (item : asyncOrderCreateEvent) (sendErr : err) : IO W unit :=
  found ← attempt (on_orders (on_rush (GetByShowTimeAndOrderNumber (sv_AttemptStore svc)
            (ae_showTimeID item) (ae_orderNumber item))));
  match found with
  | Err _ => mret tt
  | Ok record =>
      t ← (if is_zero_time (ae_reasonAt item) then now else mret (ae_reasonAt item));
      _ ← attempt (on_orders (on_rush (FailBeforeProcessing (sv_AttemptStore svc) (Some record)
            (mapAsyncKafkaSendReason sendErr) t)));
      mret tt
  end.

(** The goroutine of [dispatchOrderCreateEventAsync]; the topic keeps messages by key. *)
Definition dispatchOrderCreateEventAsync (item : asyncOrderCreateEvent) : IO W unit :=
  sent ← attempt (on_topic (Effects.call (modify (fun msgs => msgs ++ [(ae_key item, ae_body item)]))));
  match sent with
  | Ok _ => mret tt
  | Err e => failPendingAttemptAfterAsyncSendError item e
  end.

(** *** prime_rush_runtime_logic.go *)

Definition parsePrimeRuntimeTime (raw : string) : option time :=
  if bool_decide (raw = "") then None else parse_local raw.

Definition rushTTLSeconds (t endAt : time) : Z :=
  let retention := 7 * 24 * 60 * 60 in
  if is_zero_time t || is_zero_time endAt then retention
  else let seconds := seconds_trunc (time_sub endAt t) + retention in
       if seconds <? retention then retention else seconds.

Definition computePrimeActiveTTLSeconds (preorder : ProgramPreorderInfo) (t : time) : Z :=
  match parsePrimeRuntimeTime (pp_RushSaleEndTime preorder) with
  | Some endAt => rushTTLSeconds t endAt
  | None =>
      match parsePrimeRuntimeTime (pp_ShowTime preorder) with
      | Some showTime => rushTTLSeconds t showTime
      | None => 0
      end
  end.

(** One batch of guards into the map of claims. *)
Definition collect_guards (m : gmap Z Z) (batch : list DOrderGuard) : result err (gmap Z Z) :=
  Ok (foldl (fun m g => if (dg_Key g <=? 0) || (dg_OrderNumber g <=? 0) then m else <[dg_Key g := dg_OrderNumber g]> m) m batch).

Fixpoint set_quotas (showTimeID : Z) (cs : list PreorderCategory) : IO R unit :=
  match cs with
  | [] => mret tt
  | c :: cs =>
      if pc_Id c <=? 0 then set_quotas showTimeID cs
      else
        _ ← SetQuotaAvailable (sv_AttemptStore svc) showTimeID (pc_Id c) (pc_AdmissionQuota c);
        set_quotas showTimeID cs
  end.

Definition primeRushRuntimeGuardBatchSize : Z := 256.

Definition primeRushRuntimeByShowTime (showTimeID : Z) : IO (orders P R) unit :=
  preorder ← on_program (rpc (rpc_GetProgramPreorder showTimeID));
  let st := if pp_ShowTimeId preorder <=? 0 then showTimeID else pp_ShowTimeId preorder in
  let store := sv_AttemptStore svc in
  _ ← on_rush (ClearUserInflightByShowTime store st);
  _ ← on_rush (ClearViewerInflightByShowTime store st);
  _ ← on_rush (ClearQuotaByShowTime store st);
  t ← now;
  let ttl := computePrimeActiveTTLSeconds preorder t in
  userRows ← on_dbs (WalkActiveUserGuardsByShowTime st primeRushRuntimeGuardBatchSize collect_guards ∅);
  _ ← on_rush (ReplaceUserActiveByShowTime store st userRows ttl);
  viewerRows ← on_dbs (WalkActiveViewerGuardsByShowTime st primeRushRuntimeGuardBatchSize collect_guards ∅);
  _ ← on_rush (ReplaceViewerActiveByShowTime store st viewerRows ttl);
  on_rush (set_quotas st (pp_TicketCategoryVoList preorder)).

Definition PrimeRushRuntime (programID : Z) : IO (orders P R) unit :=
  if programID <=? 0 then throw (mapOrderError (EX ErrInvalidParam))
  else map_err mapOrderError (
    if bool_decide (sv_AttemptStore svc = None) then throw (EX ErrInternal)
    else
      shows ← on_program (rpc (rpc_ListProgramShowTimesForRush programID));
      match keep_positive_new ∅ shows with
      | [] => throw (EX ErrProgramShowTimeNotFound)
      | ids => each primeRushRuntimeByShowTime (merge_sort Z.le ids)
      end).

End handlers.
