(* ===== verification/OrderConsume.v ===== *)
(** * The consumer of order events  (create_order_consumer_logic.go)

    A message is claimed in the rush store, its seats are frozen, the order is
    written, and the attempt succeeds or fails.  While it works, a goroutine renews
    the claim; [sched] says how often it did so before each look at [lease.lost],
    the only points where the two meet.  An error leaves the message in the topic:
    it is consumed again. *)
From Stdlib Require Import ZArith Lia Ascii String.
From stdpp Require Import base gmap sets list strings.
From S2P Require Import Prelude GoBase Effects Sql Redis RushRecord RushStore PurchaseToken FreezeToken ProgramDB SeatFreeze OrderDB OrderRepo OrderFlow OrderCreate OrderQuery OrderEvents.
Open Scope string_scope.
Open Scope list_scope.
Open Scope Z_scope.

(** ** Pure helpers *)

Definition hasEmbeddedOrderCreateSnapshots (e : OrderCreateEvent) : bool :=
  if bool_decide (ev_FreezeToken e = "") || bool_decide (ev_FreezeExpireTime e = "") then false
  else if (length (ev_TicketUserSnapshot e) =? 0)%nat || (length (ev_SeatSnapshot e) =? 0)%nat then false
  else (length (ev_TicketUserSnapshot e) =? length (ev_SeatSnapshot e))%nat.

Definition event_ticket_count (e : OrderCreateEvent) : option Z :=
  if ev_TicketCount e <=? 0 then
    if (0 <? length (ev_TicketUserIDs e))%nat then Some (Z.of_nat (length (ev_TicketUserIDs e)))
    else if hasEmbeddedOrderCreateSnapshots e then Some (Z.of_nat (length (ev_TicketUserSnapshot e)))
    else None
  else Some (ev_TicketCount e).

Definition validateOrderCreateEvent (e : OrderCreateEvent) : bool :=
  if (ev_OrderNumber e <=? 0) || (ev_UserID e <=? 0) || (ev_ProgramID e <=? 0) || (ev_TicketCategoryID e <=? 0)
  then false
  else if bool_decide (ev_OccurredAt e = "") then false
  else match event_ticket_count e with
  | None => false
  | Some ticketCount =>
      if (0 <? length (ev_TicketUserIDs e))%nat && negb (Z.of_nat (length (ev_TicketUserIDs e)) =? ticketCount) then false
      else negb (hasEmbeddedOrderCreateSnapshots e && negb (Z.of_nat (length (ev_TicketUserSnapshot e)) =? ticketCount))
  end.

Definition buildSeatFreezeToken (showTimeID ticketCategoryID orderNumber : Z) : string :=
  FormatToken showTimeID ticketCategoryID orderNumber.

(** [status.Convert(err).Message()]. *)
Definition isTerminalSeatFreezeError (e : err) : bool :=
  match status_code e with
  | FailedPrecondition | ResourceExhausted => bool_decide (err_text e = xerr_text ErrSeatInventoryInsufficient)
  | _ => false
  end.

Fixpoint contains (sub s : string) : bool :=
  String.prefix sub s || match s with EmptyString => false | String _ s => contains sub s end.

Definition isGuardConflictErr (e : err) : bool :=
  match mysql_error e with
  | Some (n, msg) =>
      (n =? 1062) && (contains "uk_show_time_user" msg || contains "uk_show_time_viewer" msg || contains "uk_show_time_seat" msg)
  | None => false
  end.

Definition isSeatFreezeTimeout (e : err) : bool :=
  err_is e EDeadline || bool_decide (status_code e = DeadlineExceeded).

Definition isUnknownPersistResult (e : err) : bool := isUnknownResult e.

Definition handleFinalizeFailureOutcome (outcome : AttemptTransitionOutcome) : result err bool :=
  match outcome with
  | AttemptTransitioned => Ok true
  | AttemptAlreadyFailed | AttemptAlreadySucceeded | AttemptLostOwnership => Ok false
  | AttemptStateMissing => Err (EX ErrInternal)
  end.

Definition processingLeaseInterval (inFlightTTL : Z) : Z :=
  if inFlightTTL <=? 0 then 100 * millisecond
  else let interval := Z.quot inFlightTTL 3 in
       if interval <? 100 * millisecond then 100 * millisecond else interval.

(** ** The lease *)

(** [lost], and the renewals before each of the next looks. *)
Record processingLease := mkLease { lost : bool; sched : list nat }.

Section consumer.
Context `{LocalTime} `{LocalFormat} `{EventCodec}.
Context {P R U : Type} `{ProgramRpc P} `{PreorderRpc P} `{RedisHash R} `{UserRpc U}.
Variable cx : CreateContext.
Notation svc := (cc_svc cx).
Notation store := (sv_AttemptStore (cc_svc cx)).
Notation W := (front P R U).

Definition startProcessingLease (showTimeID orderNumber : Z) (renewals : list nat) : processingLease :=
  mkLease (bool_decide (store = None) || (showTimeID <=? 0) || (orderNumber <=? 0)) renewals.

(** [n] ticks of the goroutine; it stops at the first renewal that fails. *)
Fixpoint renew (n : nat) (attempt : AttemptRecord) : IO W bool :=
  match n with
  | O => mret false
  | S n =>
      t ← now;
      refreshed ← Effects.attempt (on_orders (on_rush (RefreshProcessingLease store (ar_ShowTimeID attempt) (ar_OrderNumber attempt) t)));
      match refreshed with
      | Ok true => renew n attempt
      | _ => mret true
      end
  end.

(** [lease.lost.Load()], after the renewals that preceded it. *)
Definition look (attempt : AttemptRecord) (l : processingLease) : IO W processingLease :=
  match l with
  | mkLease true rest => mret (mkLease true rest)
  | mkLease false [] => mret l
  | mkLease false (n :: rest) => gone ← renew n attempt; mret (mkLease gone rest)
  end.

(** ** Building the order *)

Definition buildFreezeExpireTime {S} (showTimeRaw : string) (t : time) (closeAfter : Z) : IO S string :=
  t ← (if is_zero_time t then now else mret t);
  let expireAt := t + (if closeAfter <=? 0 then fifteen_minutes else closeAfter) in
  let expireAt := if bool_decide (showTimeRaw = "") then expireAt
                  else match parseOrderTime showTimeRaw with
                       | Ok showTime => if showTime <? expireAt then showTime else expireAt
                       | Err _ => expireAt
                       end in
  mret (formatOrderTime expireAt).

Definition freezeSeatsWithRetry (r : AutoAssignReq) : IO W AutoAssignResp :=
  let freeze := on_orders (on_program (rpc (rpc_AutoAssignAndFreezeSeats r))) in
  res ← attempt freeze;
  match res with
  | Ok resp => mret resp
  | Err e => if isSeatFreezeTimeout e then freeze else throw e
  end.

Definition event_show (e : OrderCreateEvent) : Z := if ev_ShowTimeID e <=? 0 then ev_ProgramID e else ev_ShowTimeID e.

(** What the consumer keeps of the message's own event. *)
Definition keep_identity (from e : OrderCreateEvent) : OrderCreateEvent :=
  mkEvent (ev_EventID from) (ev_Version from) (ev_OrderNumber e)
    (if bool_decide (ev_RequestNo from = "") then ev_RequestNo e else ev_RequestNo from)
    (ev_OccurredAt e) (ev_UserID e) (ev_ProgramID e) (ev_ShowTimeID from) (ev_TicketCategoryID e) (ev_TicketUserIDs e)
    (ev_TicketCount e) (ev_DistributionMode e) (ev_TakeTicketMode e) (ev_SaleWindowEndAt from) (ev_ShowEndAt from)
    (ev_FreezeToken e) (ev_FreezeExpireTime e) (ev_ProgramSnapshot e) (ev_TicketCategorySnapshot e)
    (ev_TicketUserSnapshot e) (ev_SeatSnapshot e).

Definition buildConsumerOrderEvent (e : OrderCreateEvent) (occurredAt : time)
  : IO W (OrderCreateEvent * option AutoAssignResp) :=
  if hasEmbeddedOrderCreateSnapshots e then mret (e, None)
  else
    let showTimeID := event_show e in
    preorder ← GetProgramPreorder_ showTimeID;
    userResp ← GetUserAndTicketUserList_ (ev_UserID e);
    expireTime ← buildFreezeExpireTime (pp_ShowTime preorder) occurredAt (cc_CloseAfter cx);
    freezeResp ← map_err ESeatFreeze (freezeSeatsWithRetry
      (mkAssignReq showTimeID (ev_TicketCategoryID e) (ev_TicketCount e)
         (buildSeatFreezeToken showTimeID (ev_TicketCategoryID e) (ev_OrderNumber e)) expireTime));
    event ← buildOrderCreateEventFromSnapshots (ev_OrderNumber e) (ev_UserID e) (ev_ProgramID e) (ev_TicketCategoryID e)
      (ev_TicketUserIDs e) (ev_DistributionMode e) (ev_TakeTicketMode e) preorder userResp freezeResp occurredAt
      (cc_CloseAfter cx);
    mret (keep_identity e event, Some freezeResp).

(** ** Finishing the attempt *)

Definition finalizeSuccess (attempt : AttemptRecord) (t : time) (l : processingLease) : IO W unit :=
  l ← look attempt l;
  if lost l then mret tt
  else _ ← Effects.attempt (on_orders (on_rush (FinalizeSuccess store (Some attempt) t))); mret tt.

Definition finalizeFailure (attempt : AttemptRecord) (reason freezeToken : string) (l : processingLease) : IO W unit :=
  l ← look attempt l;
  if lost l then mret tt
  else
    t ← now;
    outcome ← Effects.attempt (on_orders (on_rush (FinalizeFailure store (Some attempt) reason t)));
    match outcome with
    | Err e =>
        (* the attempt is read again, but every branch returns the first error *)
        _ ← Effects.attempt (on_orders (on_rush (GetByShowTimeAndOrderNumber store (ar_ShowTimeID attempt) (ar_OrderNumber attempt))));
        throw e
    | Ok outcome =>
        releaseFreeze ← lift (handleFinalizeFailureOutcome outcome);
        if (releaseFreeze : bool) && negb (bool_decide (freezeToken = ""))
        then on_orders (releaseOrderCreateFreeze freezeToken)
        else mret tt
    end.

Definition orderCreatePersistFailureReason : string := "ORDER_PERSIST_FAILED".

Definition resolveOrderPersistFailure (orderNumber : Z) (attempt : AttemptRecord) (freezeResp : option AutoAssignResp)
  (persistErr : err) (t : time) (l : processingLease) : IO W unit :=
  l ← look attempt l;
  if lost l then mret tt
  else if isUnknownPersistResult persistErr then throw persistErr
  else
    found ← Effects.attempt (on_orders (on_dbs (FindOrderByNumber (sv_deps svc) orderNumber)));
    match found with
    | Ok _ => finalizeSuccess attempt t l
    | Err e =>
        if isUnknownPersistResult e then throw e
        else if negb (err_is e ENotFound) then throw persistErr
        else
          finalizeFailure attempt orderCreatePersistFailureReason
            (match freezeResp with Some r => ar_FreezeToken r | None => "" end) l
    end.

(** ** Consume *)

(** From the written order on. *)
Definition write_order (e : OrderCreateEvent) (attempt : AttemptRecord) (freezeResp : option AutoAssignResp)
  (models : orderWriteModels) (t : time) (l : processingLease) : IO W unit :=
  res ← Effects.attempt (on_orders (transactOrder svc (ev_OrderNumber e) (createTx models)));
  match res with
  | Ok _ => finalizeSuccess attempt t l
  | Err x =>
      if isGuardConflictErr x
      then finalizeFailure attempt AttemptReasonAlreadyHasActiveOrder (do_FreezeToken (wm_order models)) l
      else resolveOrderPersistFailure (ev_OrderNumber e) attempt freezeResp x t l
  end.

Definition process_event (e : OrderCreateEvent) (attempt : AttemptRecord) (t occurredAt : time) (l : processingLease)
  : IO W unit :=
  found ← Effects.attempt (on_orders (on_dbs (FindOrderByNumber (sv_deps svc) (ev_OrderNumber e))));
  match found with
  | Ok _ => finalizeSuccess attempt t l
  | Err x =>
      if negb (err_is x ENotFound) then throw x
      else
        built ← Effects.attempt (buildConsumerOrderEvent e occurredAt);
        match built with
        | Err (ESeatFreeze cause) =>
            if isTerminalSeatFreezeError cause then finalizeFailure attempt AttemptReasonSeatExhausted "" l
            else throw (ESeatFreeze cause)
        | Err x => throw x
        | Ok (enriched, freezeResp) =>
            l ← look attempt l;
            if lost l then mret tt
            else
              models ← mapEventToOrderWriteModels enriched t;
              write_order e attempt freezeResp models t l
        end
  end.

Definition Consume (renewals : list nat) (body : string) : IO W unit :=
  e ← lift (unmarshal_event body);
  if negb (validateOrderCreateEvent e) then throw (EX ErrInternal)
  else
    t ← now;
    occurredAt ← lift (parseOrderTime (ev_OccurredAt e));
    prepared ← attempt (match store with
                        | None => throw (EX ErrInternal)
                        | Some _ => on_orders (on_rush (PrepareAttemptForConsume store (event_show e) (ev_OrderNumber e) t))
                        end);
    match prepared with
    | Err x => if err_is_x x ErrOrderNotFound then mret tt else throw x
    | Ok (att, shouldProcess) =>
        if negb (shouldProcess : bool) then mret tt
        else
          process_event e att t occurredAt
            (startProcessingLease (ar_ShowTimeID att) (ar_OrderNumber att) renewals)
    end.

End consumer.
