(* ===== verification/OrderHandlers.v ===== *)
(** * Handlers are runs of transactions

    Between two transactions a handler only reads the order tables: whatever fails,
    what it does to them is a run of the steps of [OrderLife], so that its invariants
    hold after every handler.  The consumer writes at most one order, the one of its
    event. *)
From Stdlib Require Import ZArith Lia Ascii String.
From stdpp Require Import base gmap sets list strings relations.
From S2P Require Import Prelude GoBase Effects Sql Sharding Redis RushRecord RushStore PayService ProgramDB RefundRule SeatFreeze OrderDB OrderRepo OrderFlow OrderCreate OrderLife ProgramService OrderAnswers OrderQuery OrderEvents OrderConsume.
Import Slot Codec Routes.
Open Scope string_scope.
Open Scope list_scope.
Open Scope Z_scope.

(** ** Reads of the repository *)

Lemma on_table_readonly {A} (proj : shard -> gmap string (list A)) set suffix {B} (m : M (list A) B) :
  (forall sh, set (proj sh) sh = sh) -> readonly m -> readonly (on_table proj set suffix m).
Proof.
  intros Hset Hm sh. unfold on_table. destruct (proj sh !! suffix) as [rows|] eqn:E; [|done].
  specialize (Hm rows). destruct (m rows) as [r rows']. cbn in *. subst rows'. by rewrite (insert_id _ _ _ E).
Qed.

Lemma order_table_readonly suffix {B} (m : M (list DOrder) B) : readonly m -> readonly (on_order_table suffix m).
Proof. apply on_table_readonly. by intros []. Qed.
Lemma ticket_table_readonly suffix {B} (m : M (list DOrderTicketUser) B) : readonly m -> readonly (on_ticket_table suffix m).
Proof. apply on_table_readonly. by intros []. Qed.

Lemma keeps_readonly {S A} (m : M S A) s : readonly m -> keeps (eq s) (call m).
Proof. intros Hm. apply keeps_call. intros s' ->. by rewrite Hm. Qed.

Lemma keeps_at_shard {A} (m : IO shard A) key d : (forall sh, keeps (eq sh) m) -> keeps (eq d) (at_shard key m).
Proof.
  intros Hm [e d'] Hd. cbn in Hd. subst d'. unfold at_shard. destruct (d !! key) as [sh|] eqn:E; [|done].
  specialize (Hm sh (e, sh) eq_refl). destruct (m (e, sh)) as [r [e' sh']]. cbn in *. subst sh'. by rewrite insert_id.
Qed.

Lemma keeps_route_order {S} (P : S -> Prop) deps n : keeps P (RouteOfOrder deps n).
Proof.
  unfold RouteOfOrder. destruct (dep_Router deps); [|apply keeps_throw].
  apply keeps_bind; [apply keeps_now|]. intros w. apply keeps_lift.
Qed.
Lemma keeps_route_user {S} (P : S -> Prop) deps u : keeps P (RouteOfUser deps u).
Proof. unfold RouteOfUser. destruct (dep_Router deps); [apply keeps_lift|apply keeps_throw]. Qed.

Lemma find_order_reads deps n d : keeps (eq d) (FindOrderByNumber deps n).
Proof.
  apply keeps_bind; [apply keeps_route_order|]. intros r. apply keeps_at_shard. intros sh.
  by apply keeps_readonly, order_table_readonly.
Qed.
Lemma find_tickets_reads deps n d : keeps (eq d) (FindOrderTicketsByNumber deps n).
Proof.
  apply keeps_bind; [apply keeps_route_order|]. intros r. apply keeps_at_shard. intros sh.
  by apply keeps_readonly, ticket_table_readonly.
Qed.

Lemma scan_batch_keeps {P : shard -> Prop} slot limit batch rows : keeps P (scan_batch slot limit batch rows).
Proof.
  revert rows. induction batch as [|o batch IH]; cbn; intros rows; [apply keeps_ret|].
  apply keeps_bind; [apply keeps_now|]. intros w. repeat destr_if; first [apply IH|apply keeps_ret].
Qed.
Lemma scan_pages_keeps fuel suffix slot before limit q cursor rows sh :
  keeps (eq sh) (scan_pages fuel suffix slot before limit q cursor rows).
Proof.
  revert cursor rows. induction fuel as [|fuel IH]; cbn; intros cursor rows; [apply keeps_throw|].
  destr_if; [apply keeps_ret|]. apply keeps_bind; [by apply keeps_readonly, order_table_readonly|].
  intros batch. destruct (last batch); [|apply keeps_ret].
  apply keeps_bind; [apply scan_batch_keeps|]. intros [rows' []]; [apply keeps_ret|]. destr_if; [apply keeps_ret|apply IH].
Qed.

Lemma expired_scan_reads deps slot before limit d : keeps (eq d) (FindExpiredUnpaidBySlot deps slot before limit).
Proof.
  unfold FindExpiredUnpaidBySlot. destruct (dep_RouteMap deps); [|apply keeps_throw].
  apply keeps_bind; [apply keeps_lift|]. intros ?. apply keeps_at_shard. intros sh. destr_if; [apply keeps_ret|].
  intros [e sh'] Hs. unfold scan_expired. by apply scan_pages_keeps.
Qed.

Lemma walk_pages_keeps {A} fuel find b after (fn : A -> list DOrderGuard -> result err A) acc sh :
  (forall x y, readonly (find x y)) -> keeps (eq sh) (walk_pages fuel find b after fn acc).
Proof.
  intros Hf. revert after acc. induction fuel as [|fuel IH]; cbn; intros after acc; [apply keeps_throw|].
  apply keeps_bind; [by apply keeps_readonly|]. intros rows. destruct (last rows); [|apply keeps_ret].
  apply keeps_bind; [apply keeps_lift|]. intros acc'. destr_if; [apply keeps_ret|apply IH].
Qed.

(** A transaction that only locks a row changes nothing. *)
Lemma lock_row_keeps suffix n sh : keeps (eq sh) (lock_row suffix n).
Proof. apply keeps_map_err. by apply keeps_readonly, order_table_readonly. Qed.

Lemma transact_keeps_order {A} deps n (fn : string -> IO shard A) d :
  (forall suffix sh, keeps (eq sh) (fn suffix)) -> keeps (eq d) (TransactByOrderNumber deps n fn).
Proof.
  intros Hfn. apply keeps_bind; [apply keeps_route_order|]. intros r. apply keeps_at_shard. intros sh. by apply keeps_transact.
Qed.

(** ** The handlers of the life of an order *)

Section handlers.
Context {P R : Type} `{ProgramRpc P} `{RedisHash R} `{LocalTime} (svc : ServiceContext).
Notation W := (orders P R).
Notation deps := (sv_deps svc).

(** From databases [d0], a run of transactions leads to those of [w]. *)
Definition ran (d0 : gmap string shard) (w : W) : Prop := rtc (order_step deps) d0 (ow_dbs w).

Lemma ran_rush d0 {A} (m : IO R A) : keeps (ran d0) (on_rush m).
Proof. intros [e w] Hw. unfold on_rush, on. cbn. by destruct (m (e, ow_rush w)) as [r [e' t]]. Qed.
Lemma ran_program d0 {A} (m : IO P A) : keeps (ran d0) (on_program m).
Proof. intros [e w] Hw. unfold on_program, on. cbn. by destruct (m (e, ow_program w)) as [r [e' t]]. Qed.
Lemma ran_pay d0 {A} (m : IO Pay.paydb A) : keeps (ran d0) (on_pay m).
Proof. intros [e w] Hw. unfold on_pay, on. cbn. by destruct (m (e, ow_pay w)) as [r [e' t]]. Qed.

Lemma ran_reads d0 {A} (m : IO (gmap string shard) A) : (forall d, keeps (eq d) m) -> keeps (ran d0) (on_dbs m).
Proof.
  intros Hm [e w] Hw. unfold on_dbs, on. cbn. specialize (Hm (ow_dbs w) (e, ow_dbs w) eq_refl).
  destruct (m (e, ow_dbs w)) as [r [e' d]]. cbn in *. by subst d.
Qed.

Lemma ran_step d0 {A} n (fn : string -> IO shard A) :
  (forall e d, order_step deps d (TransactByOrderNumber deps n fn (e, d)).2.2) -> keeps (ran d0) (transactOrder svc n fn).
Proof.
  intros Hs [e w] Hw. unfold transactOrder, on_dbs, on. cbn. specialize (Hs e (ow_dbs w)).
  destruct (TransactByOrderNumber deps n fn (e, ow_dbs w)) as [r [e' d]]. cbn in *.
  unfold ran in *. cbn. by eapply rtc_r.
Qed.

Lemma ran_snapshot d0 n : keeps (ran d0) (loadOrderSnapshot svc n).
Proof. apply ran_reads. intros d. apply transact_keeps_order. intros *. apply lock_row_keeps. Qed.
Lemma ran_lock d0 n : keeps (ran d0) (lockOrderStatusGuard (P := P) (R := R) svc n).
Proof.
  unfold lockOrderStatusGuard. destruct (sv_RepeatGuard svc); [|apply keeps_ret].
  apply keeps_map_err, keeps_call. by intros w Hw.
Qed.
Lemma ran_cancel d0 n : keeps (ran d0) (finalizeOrderCancel svc n).
Proof. apply ran_step. intros. apply step_cancel. Qed.
Lemma ran_paid d0 n t : keeps (ran d0) (finalizeOrderPay svc n t).
Proof. apply ran_step. intros. apply step_pay. Qed.
Lemma ran_refunded d0 n : keeps (ran d0) (convergeOrderRefunded svc n).
Proof. apply ran_step. intros. apply step_refunded. Qed.
Lemma ran_close d0 n t : keeps (ran d0) (finalizeCloseTimeoutTask svc n t).
Proof. apply ran_step. intros. apply step_close. Qed.
Lemma ran_owned d0 u n : keeps (ran d0) (findOwnedOrder svc u n).
Proof.
  apply keeps_bind; [apply keeps_map_err, ran_reads; intros d; apply find_order_reads|].
  intros o. destr_if; [apply keeps_throw|apply keeps_ret].
Qed.
Lemma ran_tickets d0 n : keeps (ran d0) (on_dbs (FindOrderTicketsByNumber deps n)).
Proof. apply ran_reads. intros d. apply find_tickets_reads. Qed.
Lemma ran_scan d0 slot t limit : keeps (ran d0) (on_dbs (FindExpiredUnpaidBySlot deps slot t limit)).
Proof. apply ran_reads. intros d. apply expired_scan_reads. Qed.

#[local] Hint Resolve ran_rush ran_program ran_pay ran_snapshot ran_lock ran_cancel ran_paid ran_refunded ran_close
  ran_owned ran_tickets ran_scan keeps_map_err : preserves.

(** A handler is made of reads, transactions and calls of peers. *)
Ltac runs :=
  repeat first
    [ solve [eauto with preserves nocore]
    | apply keeps_ret | apply keeps_throw | apply keeps_now
    | apply keeps_map_err | apply keeps_attempt
    | apply keeps_bind; [|intros ?]
    | destr_if
    | match goal with |- keeps _ (match ?x with _ => _ end) => destruct x end ].

Lemma ran_sync d0 st n t : keeps (ran d0) (syncClosedRushAttempt svc st n t).
Proof. unfold syncClosedRushAttempt. runs. Qed.
Lemma ran_sync_closed d0 o : keeps (ran d0) (sync_closed svc o).
Proof. unfold sync_closed. apply keeps_bind; [apply keeps_now|]. intros t. apply keeps_bind; [apply keeps_attempt, ran_sync|]. intros _. apply keeps_ret. Qed.
#[local] Hint Resolve ran_sync ran_sync_closed : preserves.

Lemma ran_cancel_lock d0 n u owner : keeps (ran d0) (cancelOrderWithLock svc n u owner).
Proof. unfold cancelOrderWithLock, ReleaseSeatFreeze_. runs. Qed.
#[local] Hint Resolve ran_cancel_lock : preserves.

Lemma ran_close_each d0 rows : keeps (ran d0) (close_each svc rows).
Proof. induction rows as [|o rows IH]; cbn; runs. Qed.
Lemma ran_close_slots d0 k slot t remaining : keeps (ran d0) (close_slots svc k slot t remaining).
Proof.
  revert slot remaining. induction k as [|k IH]; cbn; intros slot remaining; [apply keeps_ret|].
  destr_if; [apply keeps_ret|]. apply keeps_bind; [apply ran_scan|]. intros rows.
  apply keeps_bind; [apply ran_close_each|]. intros c. apply keeps_bind; [apply IH|]. intros ?. apply keeps_ret.
Qed.

(** The handlers of the service that change orders. *)
Inductive handler_run : W -> W -> Prop :=
  | run_cancel u n e w : handler_run w (CancelOrder svc u n (e, w)).2.2
  | run_pay r e w : handler_run w (PayOrder svc r (e, w)).2.2
  | run_check u n e w : handler_run w (PayCheck svc u n (e, w)).2.2
  | run_refund r e w : handler_run w (RefundOrder svc r (e, w)).2.2
  | run_close n e w : handler_run w (CloseExpiredOrder svc n (e, w)).2.2
  | run_close_all r e w : handler_run w (CloseExpiredOrders svc r (e, w)).2.2.

Lemma ran_handler d0 w w' : handler_run w w' -> ran d0 w -> ran d0 w'.
Proof.
  assert (Hk : forall A (m : IO W A) e w, keeps (ran d0) m -> ran d0 w -> ran d0 (m (e, w)).2.2)
    by (intros A m e w0 Hm Hw; apply (Hm (e, w0) Hw)).
  destruct 1; intros Hw; apply Hk; try done.
  - unfold CancelOrder. runs.
  - unfold PayOrder, mustGetPayBillForOrder, GetPayBill_, answered_time. runs.
  - unfold PayCheck, mustGetPayBillForOrder, GetPayBill_, Refund_. runs.
  - unfold RefundOrder, mustGetPayBillForOrder, GetPayBill_, refundOrReuse, release_sold, Refund_. runs.
  - unfold CloseExpiredOrder, ReleaseSeatFreeze_. runs.
  - unfold CloseExpiredOrders. destr_if; (apply keeps_bind; [apply keeps_now|]; intros t;
      destruct (normalizeCloseExpiredOrderSlotWindow r); apply ran_close_slots).
Qed.

(** C9: whatever fails, a handler of the order service does to the order tables
    nothing but a run of its transactions: every run of handlers is a run of the
    steps of the order life cycle. *)
Theorem handlers_run_transactions w w' :
  rtc handler_run w w' -> rtc (order_step deps) (ow_dbs w) (ow_dbs w').
Proof.
  intros Hr. change (ran (ow_dbs w) w'). assert (Hw : ran (ow_dbs w) w) by apply rtc_refl.
  revert Hw. generalize (ow_dbs w). intros d0 Hw. induction Hr; [done|]. apply IHHr. by eapply ran_handler.
Qed.

End handlers.

(** ** The consumer *)

(** An operation that does not look at the state. *)
Definition stateless {A} (m : forall S, IO S A) : Prop :=
  forall S e (s : S), m S (e, s) = ((m unit (e, tt)).1, ((m unit (e, tt)).2.1, s)).

Lemma stateless_bind {A B} (m : forall S, IO S A) (f : A -> forall S, IO S B) :
  stateless m -> (forall a, stateless (f a)) -> stateless (fun S => m S ≫= fun a => f a S).
Proof.
  intros Hm Hf S e s. rewrite !bind_unfold, Hm. destruct (m unit (e, tt)) as [[a|x] [e' []]]; cbn; [by rewrite Hf|done].
Qed.
Lemma stateless_newID : stateless (@newID).
Proof. intros S e s. unfold newID. by destruct (xids e). Qed.
Lemma stateless_each_map {A B} (f : A -> forall S, IO S B) l :
  (forall a, stateless (f a)) -> stateless (fun S => each_map (fun a => f a S) l).
Proof.
  intros Hf. induction l as [|a l IH]; cbn; [done|].
  apply (stateless_bind (fun S => f a S) (fun b S => bs ← each_map (fun a => f a S) l; mret (b :: bs))); [done|].
  intros b. by apply (stateless_bind (fun S => each_map (fun a => f a S) l) (fun bs S => mret (b :: bs))).
Qed.

Lemma mapper_stateless `{LocalTime} ev t : stateless (fun S => mapEventToOrderWriteModels (S := S) ev t).
Proof.
  assert (Hid : forall A (k : Z -> forall S, IO S A), (forall i, stateless (k i)) -> stateless (fun S => i ← newID; k i S))
    by (intros A k Hk; exact (stateless_bind (@newID) k stateless_newID Hk)).
  unfold mapEventToOrderWriteModels. destr_if; [done|].
  destruct (parseOrderTime (ps_ShowTime (ev_ProgramSnapshot ev))) as [t1|]; [|done].
  destruct (parseOrderTime (ev_FreezeExpireTime ev)) as [t2|]; [|done].
  destruct (parseOrderTime (ev_OccurredAt ev)) as [t3|]; [|done].
  apply (Hid _ (fun i S => _)). intros i.
  eapply (stateless_bind (fun S => each_map (fun us => ticket_rows ev t3 t us.1 us.2) _) (fun rows S => _)).
  - apply (stateless_each_map (fun us S => ticket_rows ev t3 t us.1 us.2)). intros us.
    do 3 (apply (Hid _ (fun i S => _)); intros ?). done.
  - intros rows. eapply (stateless_bind (fun S => newCloseTimeoutDelayTaskRow t _ _) (fun task S => _)).
    + apply (Hid _ (fun i S => _)). done.
    + intros task. by apply (Hid _ (fun i S => _)).
Qed.

(** From [P] an operation leads to [Q], whatever it answers. *)
Definition leads {S A} (P Q : S -> Prop) (m : IO S A) : Prop := forall es, P es.2 -> Q (m es).2.2.

Section leads.
Context {S : Type} (P Q : S -> Prop) (HPQ : forall s, P s -> Q s).

Lemma leads_keeps {A} (m : IO S A) : keeps P m -> leads P Q m.
Proof. intros Hm es Hs. by apply HPQ, Hm. Qed.
Lemma leads_bind {A B} (m : IO S A) (f : A -> IO S B) :
  keeps P m -> (forall a es es', m es = (Ok a, es') -> leads P Q (f a)) -> leads P Q (m ≫= f).
Proof.
  intros Hm Hf es Hs. rewrite bind_unfold. specialize (Hm es Hs).
  destruct (m es) as [[a|x] es'] eqn:E; [by apply (Hf a es es' E)|by apply HPQ].
Qed.
Lemma leads_then {A B} (m : IO S A) (f : A -> IO S B) :
  leads P Q m -> (forall a, keeps Q (f a)) -> leads P Q (m ≫= f).
Proof.
  intros Hm Hf es Hs. rewrite bind_unfold. specialize (Hm es Hs).
  destruct (m es) as [[a|x] es']; [by apply Hf|done].
Qed.
Lemma leads_attempt {A} (m : IO S A) : leads P Q m -> leads P Q (attempt m).
Proof. intros Hm es Hs. specialize (Hm es Hs). unfold attempt. by destruct (m es). Qed.
End leads.

(** The rows a message for order [n] of user [u] becomes. *)
Definition rows_of_message `{LocalTime} (n u : Z) (m : orderWriteModels) : Prop :=
  exists ev t (e : env) es, mapEventToOrderWriteModels ev t (e, tt) = (Ok m, es) /\
    ev_OrderNumber ev = n /\ ev_UserID ev = u.

Section consumer.
Context `{LocalTime} `{LocalFormat} `{EventCodec}.
Context {P R U : Type} `{ProgramRpc P} `{PreorderRpc P} `{RedisHash R} `{UserRpc U} (cx : CreateContext).
Notation W := (front P R U).
Notation deps := (sv_deps (cc_svc cx)).

(** Only the order tables matter here. *)
Definition tables (w : W) : gmap string shard := ow_dbs (fr_orders w).

(** The tables after at most one transaction that writes such rows. *)
Definition wrote (d0 : gmap string shard) (n u : Z) (d : gmap string shard) : Prop :=
  d = d0 \/ exists m e, rows_of_message n u m /\ d = (TransactByOrderNumber deps n (createTx m) (e, d0)).2.2.

Lemma tables_of_orders (T : gmap string shard -> Prop) {A} (m : IO (orders P R) A) :
  keeps (fun w => T (ow_dbs w)) m -> keeps (fun w : W => T (tables w)) (on_orders m).
Proof.
  intros Hm [e w] Hw. specialize (Hm (e, fr_orders w) Hw). unfold on_orders, on. cbn.
  by destruct (m (e, fr_orders w)) as [r [e' o]].
Qed.
Lemma tables_users (T : gmap string shard -> Prop) {A} (m : IO U A) : keeps (fun w : W => T (tables w)) (on_users m).
Proof. intros [e w] Hw. unfold on_users, on. cbn. by destruct (m (e, fr_users w)) as [r [e' o]]. Qed.

Section tables.
Variable T : gmap string shard -> Prop.
Notation K := (keeps (fun w : W => T (tables w))).

Lemma tables_rush {A} (m : IO R A) : K (on_orders (on_rush m)).
Proof. apply tables_of_orders. intros [e w] Hw. unfold on_rush, on. cbn. by destruct (m (e, ow_rush w)) as [r [e' t]]. Qed.
Lemma tables_program {A} (m : IO P A) : K (on_orders (on_program m)).
Proof. apply tables_of_orders. intros [e w] Hw. unfold on_program, on. cbn. by destruct (m (e, ow_program w)) as [r [e' t]]. Qed.
Lemma tables_find n : K (on_orders (on_dbs (FindOrderByNumber deps n))).
Proof.
  apply tables_of_orders. intros [e w] Hw. unfold on_dbs, on. cbn.
  pose proof (find_order_reads deps n (ow_dbs w) (e, ow_dbs w) eq_refl) as Hd.
  destruct (FindOrderByNumber deps n (e, ow_dbs w)) as [r [e' d]]. cbn in *. by subst d.
Qed.
Lemma tables_release t : K (on_orders (releaseOrderCreateFreeze t)).
Proof.
  apply tables_of_orders. unfold releaseOrderCreateFreeze. destr_if; [apply keeps_ret|].
  apply keeps_bind; [|intros ?; apply keeps_ret]. apply keeps_attempt. intros [e w] Hw.
  change (T (ow_dbs w)) in Hw. change (T (ow_dbs (ReleaseSeatFreeze_ t (e, w)).2.2)). unfold ReleaseSeatFreeze_.
  by rewrite on_program_state.
Qed.
#[local] Hint Resolve tables_rush tables_program tables_find tables_release tables_users : preserves.

Ltac runs :=
  repeat first
    [ solve [eauto with preserves nocore]
    | apply keeps_ret | apply keeps_throw | apply keeps_now | apply keeps_lift | apply keeps_newID
    | apply keeps_map_err | apply keeps_attempt
    | apply keeps_bind; [|intros ?]
    | destr_if
    | match goal with |- keeps _ (match ?x with _ => _ end) => destruct x end ].

Lemma tables_renew n a : K (renew cx n a).
Proof. induction n as [|n IH]; cbn; [apply keeps_ret|]. runs. Qed.
Lemma tables_look a l : K (look cx a l).
Proof.
  destruct l as [[] [|n rest]]; try apply keeps_ret. apply keeps_bind; [apply tables_renew|]. intros g. apply keeps_ret.
Qed.
#[local] Hint Resolve tables_look : preserves.
Lemma tables_success a t l : K (finalizeSuccess cx a t l).
Proof. unfold finalizeSuccess. runs. Qed.
Lemma tables_failure a reason t l : K (finalizeFailure cx a reason t l).
Proof. unfold finalizeFailure. runs. Qed.
#[local] Hint Resolve tables_success tables_failure : preserves.
Lemma tables_resolve n a f x t l : K (resolveOrderPersistFailure cx n a f x t l).
Proof. unfold resolveOrderPersistFailure. runs. Qed.
Lemma tables_freeze r : K (freezeSeatsWithRetry r).
Proof. unfold freezeSeatsWithRetry. runs. Qed.
#[local] Hint Resolve tables_freeze : preserves.
Lemma tables_snapshots n u p c ids dm tm pre us f t ca :
  K (buildOrderCreateEventFromSnapshots n u p c ids dm tm pre us f t ca).
Proof. unfold buildOrderCreateEventFromSnapshots. runs. Qed.
#[local] Hint Resolve tables_snapshots : preserves.
Lemma tables_build ev t : K (buildConsumerOrderEvent cx ev t).
Proof. unfold buildConsumerOrderEvent, GetProgramPreorder_, GetUserAndTicketUserList_, buildFreezeExpireTime. runs. Qed.
Lemma tables_mapper ev t : K (mapEventToOrderWriteModels ev t).
Proof.
  unfold mapEventToOrderWriteModels, newCloseTimeoutDelayTaskRow. destr_if; [apply keeps_throw|].
  do 3 (apply keeps_bind; [apply keeps_lift|]; intros ?). apply keeps_bind; [apply keeps_newID|]; intros ?.
  apply keeps_bind; [|intros ?; runs]. generalize (zip (ev_TicketUserSnapshot ev) (ev_SeatSnapshot ev)).
  intros l. induction l as [|x l IH]; cbn; [apply keeps_ret|].
  apply keeps_bind; [unfold ticket_rows; runs|]. intros y. apply keeps_bind; [exact IH|]. intros ys. apply keeps_ret.
Qed.
End tables.

(** *** The rows are those of the message *)

Lemma built_identity ev t (es es' : env * W) built resp : buildConsumerOrderEvent cx ev t es = (Ok (built, resp), es') ->
  ev_OrderNumber built = ev_OrderNumber ev /\ ev_UserID built = ev_UserID ev.
Proof.
  unfold buildConsumerOrderEvent. destr_if; [by intros [= <- _ _]|].
  intros (pre & s1 & _ & (us & s2 & _ & (ex & s3 & _ & (f & s4 & _ & (b & s5 & Hb & Hret)%bind_ok)%bind_ok)%bind_ok)%bind_ok)%bind_ok.
  apply ret_ok in Hret as [[= <- _] _]. cbn. unfold buildOrderCreateEventFromSnapshots in Hb. destr_if; [done|].
  apply bind_ok in Hb as (t' & s6 & _ & (u' & s7 & _ & Hb)%bind_ok). destr_if; [done|].
  destruct (findPreorderTicketCategory _ _); [|done]. apply bind_ok in Hb as (us' & s8 & _ & (i & s9 & _ & Hb)%bind_ok).
  by apply ret_ok in Hb as [<- _].
Qed.

(** The one transaction. *)
Lemma leads_write d0 n u m : rows_of_message n u m ->
  leads (fun w : W => tables w = d0) (fun w => wrote d0 n u (tables w)) (on_orders (transactOrder (cc_svc cx) n (createTx m))).
Proof.
  intros Hm [e w] Hw. cbn in Hw. subst d0. unfold on_orders, transactOrder, on_dbs, on, tables.
  pose proof (eq_refl (TransactByOrderNumber deps n (createTx m) (e, ow_dbs (fr_orders w)))) as E.
  destruct (TransactByOrderNumber deps n (createTx m) (e, ow_dbs (fr_orders w))) as [r [e' d]] eqn:E' in |- *.
  cbn. right. exists m, e. split; [done|]. by rewrite E'.
Qed.

Lemma not_wrote d0 n u (w : W) : tables w = d0 -> wrote d0 n u (tables w).
Proof. by left. Qed.

Lemma leads_process d0 ev att t occ l :
  leads (fun w : W => tables w = d0) (fun w => wrote d0 (ev_OrderNumber ev) (ev_UserID ev) (tables w))
    (process_event cx ev att t occ l).
Proof.
  set (Q := fun w : W => wrote d0 (ev_OrderNumber ev) (ev_UserID ev) (tables w)).
  assert (Hpq : forall w : W, tables w = d0 -> Q w) by (intros w ?; by left).
  assert (Hk : forall A (m : IO W A), keeps (fun w => tables w = d0) m -> leads (fun w => tables w = d0) Q m)
    by (intros A m; by apply leads_keeps).
  unfold process_event. apply leads_bind; [done|apply keeps_attempt, (tables_find (fun d => d = d0))|].
  intros found es es' _. destruct found as [o|x]; [apply Hk, (tables_success (fun d => d = d0))|].
  destr_if; [apply Hk, keeps_throw|].
  apply leads_bind; [done|apply keeps_attempt, (tables_build (fun d => d = d0))|].
  intros built es1 es1' Hb%attempt_ok. destruct built as [[enriched resp]|[]]; try apply Hk, keeps_throw.
  2: { destr_if; [apply Hk, (tables_failure (fun d => d = d0))|apply Hk, keeps_throw]. }
  apply built_identity in Hb as [En Eu].
  apply leads_bind; [done|apply (tables_look (fun d => d = d0))|]. intros l' es2 es2' _. destr_if; [apply Hk, keeps_ret|].
  apply leads_bind; [done|apply (tables_mapper (fun d => d = d0))|]. intros m [e3 w3] es3' Hm.
  unfold write_order. apply leads_then.
  - apply leads_attempt, leads_write. 
    rewrite mapper_stateless in Hm. destruct (mapEventToOrderWriteModels enriched t (e3, tt)) as [rm es4] eqn:Em.
    injection Hm as -> _. exists enriched, t, e3, es4. by rewrite En, Eu.
  - pose (T := wrote d0 (ev_OrderNumber ev) (ev_UserID ev)). intros [r|y]; [apply (tables_success T)|].
    destr_if; [apply (tables_failure T)|apply (tables_resolve T)].
Qed.

(** C10: consuming a message writes at most one order.  Whatever fails, however
    often the lease is renewed or lost, the order tables are left alone or changed by
    exactly one transaction, which writes the rows mapped from an event with the
    message's order number and user; when that number was issued for the user and
    the network does not forge the server's errors, it is a step of the order life
    cycle. *)
Theorem consume_writes_once renewals body e (w : W) :
  let w' := (Consume cx renewals body (e, w)).2.2 in
  tables w' = tables w \/
  exists ev m e1, unmarshal_event body = Ok ev /\ rows_of_message (ev_OrderNumber ev) (ev_UserID ev) m /\
    tables w' = (TransactByOrderNumber deps (ev_OrderNumber ev) (createTx m) (e1, tables w)).2.2 /\
    (forall issued workerID seq, BuildOrderNumber (ev_UserID ev) issued workerID seq = Ok (ev_OrderNumber ev) ->
       net_faults e1 -> order_step deps (tables w) (tables w')).
Proof.
  cbv zeta. unfold Consume. destruct (unmarshal_event body) as [ev|x] eqn:Eb; [|by left].
  match goal with |- context [(lift (Ok ev) ≫= ?k) (e, w)] =>
    change ((lift (Ok ev) ≫= k) (e, w)) with (k ev (e, w)); set (m := k ev) end.
  assert (Hl : leads (fun w0 : W => tables w0 = tables w)
    (fun w' => wrote (tables w) (ev_OrderNumber ev) (ev_UserID ev) (tables w')) m).
  { subst m. cbv beta. assert (Hpq : forall w0 : W, tables w0 = tables w -> wrote (tables w) (ev_OrderNumber ev) (ev_UserID ev) (tables w0))
      by (intros w0 ?; by left).
    destruct (negb (validateOrderCreateEvent ev)); [by apply leads_keeps, keeps_throw|].
    apply leads_bind; [done|apply keeps_now|]. intros t _ _ _. apply leads_bind; [done|apply keeps_lift|]. intros occ _ _ _.
    apply leads_bind; [done| |].
    - apply keeps_attempt. destruct (sv_AttemptStore (cc_svc cx)); [apply (tables_rush (fun d => d = tables w))|apply keeps_throw].
    - intros [[att []]|x] _ _ _; cbn [negb]; [apply leads_process|by apply leads_keeps, keeps_ret|].
      destr_if; [by apply leads_keeps, keeps_ret|by apply leads_keeps, keeps_throw]. }
  destruct (Hl (e, w) eq_refl) as [E|(ms & e1 & Hrows & E)]; [by left|]. right. exists ev, ms, e1.
  split_and!; [done..|]. intros issued wid seq Hbuilt Hnet. rewrite E.
  destruct Hrows as (en & t & e0 & es & Hm & Hn & Hu). rewrite <- Hn. rewrite <- Hn, <- Hu in Hbuilt.
  by eapply step_write.
Qed.
End consumer.
