(* ===== verification/OrderTopic.v ===== *)
(** * The topic of order events  (order-rpc/internal/mq, order_create_consumer_runner.go)

    The producer, the consumer's loop over a reader of a consumer group, and the worker
    that starts the loop again when it ends.  Kafka is not part of the program: its
    reader, writer and administration are classes, with what kafka-go documents of a
    reader as laws.  Of the handler nothing is assumed; it is [Consume] in the program. *)
From Stdlib Require Import ZArith Lia Ascii String.
From stdpp Require Import base gmap list strings.
From S2P Require Import Prelude GoBase Effects OrderEvents.
Open Scope string_scope.
Open Scope list_scope.
Open Scope nat_scope.

(** ** config.go and topics.go *)

Record KafkaConfig := mkKafka {
  kf_Brokers : list string; kf_TopicOrderCreate : string; kf_ConsumerGroup : string; kf_TopicPartitions : Z;
  kf_ConsumerWorkers : Z; kf_ProducerTimeout : duration; kf_RetryBackoff : duration }.

Definition DefaultOrderCreateTopic : string := "ticketing.attempt.command.v1".
Definition DefaultOrderCreateConsumerGroup : string := "livepass-ticketing-attempt".
Definition OrderCreateTopic (cfg : KafkaConfig) : string :=
  if negb (bool_decide (kf_TopicOrderCreate cfg = "")) then kf_TopicOrderCreate cfg else DefaultOrderCreateTopic.
Definition OrderCreateConsumerGroup (cfg : KafkaConfig) : string :=
  if negb (bool_decide (kf_ConsumerGroup cfg = "")) then kf_ConsumerGroup cfg else DefaultOrderCreateConsumerGroup.

(** ** topic_admin.go *)

(** [kafka.Conn]: dialling a broker, creating a topic, the topics of the partitions. *)
Class KafkaAdmin (K : Type) := {
  dial : string -> M K unit;
  create_topics : string -> Z -> M K unit;
  read_partitions : M K (list string) }.
Definition TopicAlreadyExists : err := EOther "kafka: topic already exists".

Section admin.
Context {K : Type} `{KafkaAdmin K} (cfg : KafkaConfig).

Definition adminTimeout : duration := (if kf_ProducerTimeout cfg <=? 0 then 5 * second else kf_ProducerTimeout cfg)%Z.

Definition readOrderCreateTopicPartitionCount : IO K Z :=
  match kf_Brokers cfg with
  | [] => mret 0%Z
  | broker :: _ =>
      _ ← call (dial broker);
      partitions ← call read_partitions;
      mret (Z.of_nat (length (filter (fun topic => topic = OrderCreateTopic cfg) partitions)))
  end.

Definition EnsureOrderCreateTopic : IO K unit :=
  match kf_Brokers cfg with
  | [] => mret tt
  | broker :: _ =>
      current ← readOrderCreateTopicPartitionCount;
      if (0 <? current)%Z then mret tt
      else
        let partitions := (if kf_TopicPartitions cfg <=? 0 then 1 else kf_TopicPartitions cfg)%Z in
        _ ← call (dial broker);
        created ← attempt (call (create_topics (OrderCreateTopic cfg) partitions));
        match created with
        | Err x => if err_is x TopicAlreadyExists then mret tt else throw x
        | Ok _ => mret tt
        end
  end.

(** The loop asks again until it finds partitions or the deadline has passed. *)
Fixpoint await_partitions (fuel : nat) (deadline : time) : IO K (option Z) :=
  match fuel with
  | O => mret None
  | S fuel =>
      count ← readOrderCreateTopicPartitionCount;
      if (0 <? count)%Z then mret (Some count)
      else
        t ← now;
        if (deadline <? t)%Z then mret (Some count)
        else _ ← sleep (50 * millisecond); await_partitions fuel deadline
  end.
Definition OrderCreateTopicPartitionCount (fuel : nat) : IO K (option Z) :=
  t ← now; await_partitions fuel (t + adminTimeout)%Z.
End admin.

(** ** producer.go *)

Class KafkaWriter (K : Type) := {
  write_messages : string -> string -> string -> M K unit;
  close_writer : M K unit }.
Definition errOrderCreateProducerClosed : err := EOther "order create producer is closed".

(** The writer is dropped when the producer closes. *)
Record kafkaOrderCreateProducer := mkProducer { kp_topic : string; kp_writer : bool; kp_timeout : duration; kp_closed : bool }.
Definition NewOrderCreateProducer (cfg : KafkaConfig) : kafkaOrderCreateProducer :=
  mkProducer (OrderCreateTopic cfg) true (kf_ProducerTimeout cfg) false.

Section producer.
Context {K : Type} `{KafkaWriter K}.
Notation W := (kafkaOrderCreateProducer * K)%type.
Definition on_kafka {A} : IO K A -> IO W A := on snd (fun k w => (w.1, k)).

(** The timeout shows as a deadline among the faults of the call. *)
Definition Send (key value : string) : IO W unit :=
  '(_, (p, _)) ← get;
  if kp_closed p || negb (kp_writer p) then throw errOrderCreateProducerClosed
  else on_kafka (call (write_messages (kp_topic p) key value)).

Definition Close : IO W unit :=
  '(e, (p, k)) ← get;
  if kp_closed p then mret tt
  else
    _ ← put (e, (mkProducer (kp_topic p) false (kp_timeout p) true, k));
    if kp_writer p then on_kafka (call close_writer) else mret tt.
End producer.

(** ** consumer.go *)

(** A reader of a consumer group: the next message of the partitions it was given, with
    its partition and offset, and the commit of a message. *)
Class OrderReader (K : Type) := {
  fetchMessage : IO K (nat * nat * string);
  commitMessages : nat -> nat -> IO K unit }.

(** What a reader and its group hold, by partition: the messages written so far, by
    offset, and the oldest of them the topic still keeps; where the reader goes on, in the
    partitions that the group's generation gave it; and where a generation begins. *)
Record group_view := mkGroup {
  generation : nat; messages : nat -> list string; oldest : nat -> nat;
  position : nat -> option nat; committed : nat -> nat }.

Definition at_partition {A} (p : nat) (a : A) (f f' : nat -> A) : Prop := f' p = a /\ forall q, q <> p -> f' q = f q.

(** What happens without the reader: messages are written and old ones dropped; partitions
    that are not its own are committed; and the group is rebalanced, any number of times,
    which gives the reader other partitions, or the same, each from the committed offset. *)
Definition drifts (v v' : group_view) : Prop :=
  (forall p, messages v p `prefix_of` messages v' p /\ oldest v p <= oldest v' p) /\
  ((generation v' = generation v /\
    forall p, position v' p = position v p /\ (is_Some (position v p) -> committed v' p = committed v p)) \/
   (generation v < generation v' /\ forall p i, position v' p = Some i -> i = committed v' p)).

(** The reader goes on after message [i]; the group's offset is after message [i]. *)
Definition moves_on (v : group_view) (p i : nat) (v' : group_view) : Prop :=
  generation v' = generation v /\ (forall q, messages v' q = messages v q /\ oldest v' q = oldest v q /\ committed v' q = committed v q) /\
  at_partition p (Some (S i)) (position v) (position v').
Definition commits (v : group_view) (p i : nat) (v' : group_view) : Prop :=
  generation v' = generation v /\ (forall q, messages v' q = messages v q /\ oldest v' q = oldest v q /\ position v' q = position v q) /\
  at_partition p (S i) (committed v) (committed v').

(** What kafka-go documents of a reader of a group: it hands out the messages of its
    partitions one after the other, committed or not, from the oldest when the next one
    was dropped, and from the committed offset in a new generation; a commit that fails may
    have been made. *)
Class OrderReaderLaws (K : Type) `{OrderReader K} := {
  view : K -> group_view;
  fetch_spec e k r e' k' : fetchMessage (e, k) = (r, (e', k')) ->
    match r with
    | Ok (p, i, body) => exists v j, drifts (view k) v /\ position v p = Some j /\ i = Nat.max j (oldest v p) /\
        messages v p !! i = Some body /\ moves_on v p i (view k')
    | Err _ => drifts (view k) (view k')
    end;
  commit_spec p i e k r e' k' : commitMessages p i (e, k) = (r, (e', k')) ->
    (exists v, drifts (view k) v /\ commits v p i (view k')) \/ (is_ok r = false /\ drifts (view k) (view k')) }.

(** How [Start] ended: it is still in its loop, or has returned. *)
Inductive started := Looping | Returned (e : option err).

Section consumer.
Context {K S : Type} `{OrderReader K}.
Notation W := (K * S)%type.
(** [ctx.Err() != nil]: whether the process has been told to stop. *)
Variable ctx_done : env -> bool.
Variable handler : string -> IO S unit.

Definition on_reader {A} : IO K A -> IO W A := on fst (fun k w => (k, w.2)).
Definition on_handler {A} : IO S A -> IO W A := on snd (fun s w => (w.1, s)).
Definition stopped : IO W bool := fun '(e, w) => (Ok (ctx_done e), (e, w)).

Definition returned (x : err) : IO W (option started) :=
  stop ← stopped;
  mret (Some (Returned (if err_is x ECanceled || stop then None else Some x))).

(** One round of the loop of [Start]. *)
Definition consume_round : IO W (option started) :=
  fetched ← attempt (on_reader fetchMessage);
  match fetched with
  | Err x => returned x
  | Ok (partition, offset, body) =>
      handled ← attempt (on_handler (handler body));
      match handled with
      | Err x => mret (Some (Returned (Some x)))
      | Ok _ =>
          committed ← attempt (on_reader (commitMessages partition offset));
          match committed with
          | Err x => returned x
          | Ok _ => mret None
          end
      end
  end.

(** The loop ends with the process only: [fuel] says how far it is followed. *)
Fixpoint Start (fuel : nat) : IO W started :=
  match fuel with
  | O => mret Looping
  | Datatypes.S fuel =>
      round ← consume_round;
      match round with
      | Some ended => mret ended
      | None => Start fuel
      end
  end.

(** ** order_create_consumer_runner.go *)

Definition runnerBackoff (cfg : KafkaConfig) : duration := if (kf_RetryBackoff cfg <=? 0)%Z then second else kf_RetryBackoff cfg.
Definition runnerWorkers (cfg : KafkaConfig) : Z := if (kf_ConsumerWorkers cfg <=? 0)%Z then 1 else kf_ConsumerWorkers cfg.

(** A worker: one consumer, started again after the backoff until the process stops.  A
    run of it follows [restarts] starts, each for [fuel] rounds. *)
Fixpoint worker (cfg : KafkaConfig) (restarts fuel : nat) : IO W unit :=
  match restarts with
  | O => mret tt
  | Datatypes.S restarts =>
      ended ← Start fuel;
      match ended with
      | Looping => mret tt
      | Returned _ =>
          stop ← stopped;
          if (stop : bool) then mret tt
          else
            _ ← sleep (runnerBackoff cfg);
            stop ← stopped;
            if (stop : bool) then mret tt else worker cfg restarts fuel
      end
  end.
End consumer.

(** ** What a worker delivers *)

(** The handler, with a note of each message it was given and whether it accepted it. *)
Definition noted {S} (handler : string -> IO S unit) (body : string) : IO (list (string * bool) * S) unit :=
  fun '(e, (notes, s)) => let '(r, (e', s')) := handler body (e, s) in (r, (e', (notes ++ [(body, is_ok r)], s'))).

(** The reader, with a note of each message it handed out and each commit it was asked for. *)
Inductive reader_call := Fetched (p i : nat) | CommitAsked (p i : nat).
Definition noting_reader {K} `{OrderReader K} : OrderReader (K * list reader_call) := {|
  fetchMessage '(e, (k, calls)) := let '(r, (e', k')) := fetchMessage (e, k) in
    (r, (e', (k', calls ++ match r with Ok (p, i, _) => [Fetched p i] | Err _ => [] end)));
  commitMessages p i '(e, (k, calls)) := let '(r, (e', k')) := commitMessages p i (e, k) in
    (r, (e', (k', calls ++ [CommitAsked p i]))) |}.

Record delivery := mkDelivery { dv_generation : nat; dv_partition : nat; dv_offset : nat; dv_body : string }.

(** Each message that is handed over is fetched for it, and committed if it is accepted. *)
Definition calls_of (d : delivery) (accepted : bool) : list reader_call :=
  Fetched (dv_partition d) (dv_offset d) :: if accepted then [CommitAsked (dv_partition d) (dv_offset d)] else [].

Definition handed (ds : list delivery) (g p i : nat) : Prop :=
  exists d, d ∈ ds /\ dv_generation d = g /\ dv_partition d = p /\ dv_offset d = i.
Definition same_run (a b : delivery) : Prop := dv_generation a = dv_generation b /\ dv_partition a = dv_partition b.

(** Between [v0] and [v] the messages [ds] were handed over.  In one generation those of a
    partition go over in order, each once, and none is passed over but those the topic has
    dropped. *)
Record delivered (v0 : group_view) (ds : list delivery) (v : group_view) : Prop := {
  dl_generation : generation v0 <= generation v;
  dl_log p : messages v0 p `prefix_of` messages v p /\ oldest v0 p <= oldest v p;
  dl_given d : d ∈ ds -> generation v0 <= dv_generation d <= generation v /\ messages v (dv_partition d) !! dv_offset d = Some (dv_body d);
  dl_order n m a b : ds !! n = Some a -> ds !! m = Some b -> n < m ->
    dv_generation a <= dv_generation b /\ (same_run a b -> dv_offset a < dv_offset b);
  dl_all a b i : a ∈ ds -> b ∈ ds -> same_run a b -> dv_offset a < i < dv_offset b ->
    i < oldest v (dv_partition a) \/ handed ds (dv_generation a) (dv_partition a) i;
  dl_here a : a ∈ ds -> dv_generation a = generation v -> exists j, position v (dv_partition a) = Some j /\ dv_offset a < j /\
    forall i, dv_offset a < i < j -> i < oldest v (dv_partition a) \/ handed ds (generation v) (dv_partition a) i;
  dl_from p i : generation v = generation v0 -> position v0 p = Some i -> exists j, position v p = Some j /\ i <= j /\
    (forall d, d ∈ ds -> dv_generation d = generation v -> dv_partition d = p -> i <= dv_offset d) /\
    forall o, i <= o < j -> o < oldest v p \/ handed ds (generation v) p o }.

(** What the worker's commits have done to the group's offsets: as long as a partition stays
    its own, they are after a message that was accepted; when commits succeed, after
    every accepted one of the generation. *)
Record settled (commits_succeed : Prop) (v0 : group_view) (ds : list delivery) (oks : list bool) (v : group_view) : Prop := {
  st_offset p : generation v = generation v0 -> is_Some (position v0 p) -> committed v p = committed v0 p \/
    exists n d, ds !! n = Some d /\ oks !! n = Some true /\ dv_partition d = p /\ committed v p = S (dv_offset d);
  st_passed n d : commits_succeed -> ds !! n = Some d -> oks !! n = Some true -> dv_generation d = generation v ->
    dv_offset d < committed v (dv_partition d) }.

Lemma drifts_refl v : drifts v v.
Proof. split; [done|]. left. by split. Qed.

Lemma handed_snoc ds d g p i : handed ds g p i -> handed (ds ++ [d]) g p i.
Proof. intros (a & Ha & ?). exists a. split; [|done]. apply elem_of_app. by left. Qed.
Lemma handed_last ds d : handed (ds ++ [d]) (dv_generation d) (dv_partition d) (dv_offset d).
Proof. exists d. split; [|done]. apply elem_of_app. right. by apply list_elem_of_singleton. Qed.

Lemma delivered_refl v : delivered v [] v.
Proof.
  split.
  - done.
  - by intros p.
  - by intros d ?%not_elem_of_nil.
  - intros n m a b. by rewrite lookup_nil.
  - by intros a b i ?%not_elem_of_nil.
  - by intros a ?%not_elem_of_nil.
  - intros p i _ Hp. exists i. split_and!; [done..|by intros ? ?%not_elem_of_nil|]. intros o Ho. lia.
Qed.

Lemma delivered_drift v0 ds v v' : delivered v0 ds v -> drifts v v' -> delivered v0 ds v'.
Proof.
  intros [Dg Dl Dv Do Da Dh Df] [Hl Hg].
  assert (Hge : generation v <= generation v') by (destruct Hg as [[-> _]|[? _]]; lia).
  split.
  - lia.
  - intros p. destruct (Dl p), (Hl p). split; [by etrans|lia].
  - intros d Hd. destruct (Dv d Hd) as [? ?]. split; [lia|]. eapply prefix_lookup_Some; [done|by apply Hl].
  - done.
  - intros a b i Ha Hb Hs Hi. destruct (Hl (dv_partition a)), (Da a b i Ha Hb Hs Hi); [left; lia|by right].
  - intros a Ha E. destruct (Dv a Ha) as [Hb _]. destruct Hg as [[Hg Hp]|[Hg _]]; [|lia].
    destruct (Dh a Ha) as (j & Hj & Hlt & Hall); [congruence|]. exists j. rewrite (proj1 (Hp _)), Hg.
    split_and!; [done..|]. intros i Hi. destruct (Hl (dv_partition a)), (Hall i Hi); [left; lia|by right].
  - intros p i E Hi. destruct Hg as [[Hg Hp]|[Hg _]]; [|lia].
    destruct (Df p i) as (j & Hj & Hlt & Hmin & Hall); [congruence|done|]. exists j. rewrite (proj1 (Hp _)), Hg.
    split_and!; [done..|]. intros o Ho. destruct (Hl p), (Hall o Ho); [left; lia|by right].
Qed.

Lemma settled_drift C v0 ds oks v v' : delivered v0 ds v -> settled C v0 ds oks v -> drifts v v' -> settled C v0 ds oks v'.
Proof.
  intros Hd [So Sp] [_ Hg]. destruct Hg as [[Hg Hp]|[Hg _]].
  - split.
    + intros p E Hown. rewrite (proj2 (Hp p)); [by apply So; [congruence|]|]. destruct Hown as [i Hi].
      destruct (dl_from _ _ _ Hd p i) as (j & Hj & _); [congruence|done|]. by exists j.
    + intros n d HC Hn Ho E. rewrite Hg in E. rewrite (proj2 (Hp _)); [by eapply Sp|].
      destruct (dl_here _ _ _ Hd d) as (j & Hj & _); [by eapply list_elem_of_lookup_2|done|]. by exists j.
  - pose proof (dl_generation _ _ _ Hd). split; [intros; lia|]. intros n d HC Hn Ho E.
    destruct (dl_given _ _ _ Hd d) as [? _]; [by eapply list_elem_of_lookup_2|]. lia.
Qed.

Lemma delivered_snoc v0 ds v p i j body v' : delivered v0 ds v -> position v p = Some j -> i = Nat.max j (oldest v p) ->
  messages v p !! i = Some body -> moves_on v p i v' ->
  delivered v0 (ds ++ [mkDelivery (generation v) p i body]) v'.
Proof.
  intros [Dg Dl Dv Do Da Dh Df] Hj Hi Hb (Hg & Hm & Hp & Hq). set (d := mkDelivery (generation v) p i body).
  assert (Hin : forall a, a ∈ ds ++ [d] -> a ∈ ds \/ a = d) by (intros a; rewrite elem_of_app, list_elem_of_singleton; done).
  (* the messages of the run that came before [d] *)
  assert (Hbefore : forall a, a ∈ ds -> same_run a d -> dv_offset a < i /\
            forall o, dv_offset a < o < i -> o < oldest v p \/ handed (ds ++ [d]) (generation v) p o).
  { intros a Ha [E1 E2]. cbn in E1, E2. destruct (Dh a Ha E1) as (j' & Hj' & Hlt & Hall). rewrite E2 in *.
    assert (j' = j) as -> by congruence. split; [lia|]. intros o Ho. destruct (decide (o < j)).
    - destruct (Hall o ltac:(lia)); [by left|right; by apply handed_snoc].
    - left. lia. }
  split.
  - lia.
  - intros q. destruct (Hm q) as (-> & -> & _). apply Dl.
  - intros a [Ha| ->]%Hin.
    + rewrite Hg, (proj1 (Hm _)). by apply Dv.
    + cbn. rewrite Hg, (proj1 (Hm _)). split; [lia|exact Hb].
  - intros n m a b. rewrite !lookup_snoc_Some. intros [[_ Ha]|[-> <-]] [[Hmn Hb']|[-> <-]] Hlt; [by eapply Do| |lia|lia].
    apply list_elem_of_lookup_2 in Ha. split; [apply (Dv a Ha)|]. by apply Hbefore.
  - intros a b o [Ha| ->]%Hin [Hb'| ->]%Hin Hs Ho.
    + destruct (Hm (dv_partition a)) as (_ & -> & _). destruct (Da a b o Ha Hb' Hs Ho); [by left|right; by apply handed_snoc].
    + destruct (Hbefore a Ha Hs) as [_ Hall]. destruct Hs as [E1 E2]. cbn in *. rewrite E1, E2.
      destruct (Hm p) as (_ & -> & _). by apply Hall.
    + destruct (Hbefore b Hb') as [? _]; [by destruct Hs|]. cbn in *. lia.
    + lia.
  - intros a [Ha| ->]%Hin E; rewrite Hg in *.
    + destruct (decide (dv_partition a = p)) as [Ep|Hne].
      * destruct (Hbefore a Ha) as [Hlt Hall]; [by split|]. exists (S i). rewrite Ep, Hp. split_and!; [done|lia|].
        intros o Ho. destruct (Hm p) as (_ & -> & _). destruct (decide (o = i)) as [->|]; [right; apply (handed_last ds d)|].
        apply Hall. lia.
      * destruct (Dh a Ha E) as (j' & Hj' & Hlt & Hall). exists j'. rewrite Hq by done. split_and!; [done..|].
        intros o Ho. destruct (Hm (dv_partition a)) as (_ & -> & _). destruct (Hall o Ho); [by left|right; by apply handed_snoc].
    + cbn. exists (S i). split_and!; [done|lia|]. intros o Ho. lia.
  - intros q o E Ho. rewrite Hg in E |- *. destruct (Df q o E Ho) as (j' & Hj' & Hle & Hmin & Hall).
    destruct (Hm q) as (_ & -> & _). destruct (decide (q = p)) as [->|Hne].
    + assert (j' = j) as -> by congruence. exists (S i). rewrite Hp. split_and!; [done|lia| |].
      * intros a [Ha| ->]%Hin ? ?; [by apply Hmin|]. cbn. lia.
      * intros x Hx. destruct (decide (x < j)); [destruct (Hall x ltac:(lia)); [by left|right; by apply handed_snoc]|].
        destruct (decide (x = i)) as [->|]; [right; apply (handed_last ds d)|left; lia].
    + exists j'. rewrite Hq by done. split_and!; [done..| |].
      * intros a [Ha| ->]%Hin ? ?; [by apply Hmin|done].
      * intros x Hx. destruct (Hall x Hx); [by left|right; by apply handed_snoc].
Qed.

(** A message that is being handed over changes no offset of the group. *)
Lemma settled_hand C v0 ds oks v p i d v' : settled C v0 ds oks v -> length oks = length ds -> moves_on v p i v' ->
  settled C v0 (ds ++ [d]) oks v'.
Proof.
  intros [So Sp] Hlen (Hg & Hm & _). split.
  - intros q E Hown. rewrite (proj2 (proj2 (Hm q))). destruct (So q) as [?|(n & a & Ha & Ho & ?)]; [congruence|done|by left|].
    right. exists n, a. split; [by apply lookup_app_l_Some|done].
  - intros n a HC Ha Ho E. rewrite (proj2 (proj2 (Hm _))). apply (Sp n); [done| |done|congruence].
    rewrite lookup_app_l in Ha; [done|]. rewrite <- Hlen. by eapply lookup_lt_Some.
Qed.

Lemma settled_refuse C v0 ds oks v : settled C v0 ds oks v -> settled C v0 ds (oks ++ [false]) v.
Proof.
  intros [So Sp]. split.
  - intros p E Hown. destruct (So p E Hown) as [?|(n & d & Hn & Ho & ?)]; [by left|right]. exists n, d.
    split; [done|]. split; [by apply lookup_app_l_Some|done].
  - intros n d HC Hn. rewrite lookup_snoc_Some. intros [[_ Ho]|[_ [=]]] E. by eapply Sp.
Qed.

(** A commit that fails promises nothing of the message it was asked for. *)
Lemma settled_unknown (C : Prop) v0 ds oks v : ~ C -> settled C v0 ds oks v -> settled C v0 ds (oks ++ [true]) v.
Proof.
  intros HC [So Sp]. split; [|done].
  intros p E Hown. destruct (So p E Hown) as [?|(n & d & Hn & Ho & ?)]; [by left|right]. exists n, d.
  split; [done|]. split; [by apply lookup_app_l_Some|done].
Qed.

(** The commit of the message that was handed over last. *)
Lemma settled_commit C v0 ds d oks v v' : delivered v0 (ds ++ [d]) v -> settled C v0 (ds ++ [d]) oks v -> length oks = length ds ->
  commits v (dv_partition d) (dv_offset d) v' -> settled C v0 (ds ++ [d]) (oks ++ [true]) v'.
Proof.
  intros Hd [So Sp] Hlen (Hg & Hm & Hc & Hq).
  assert (Hlast : (ds ++ [d]) !! length ds = Some d /\ (oks ++ [true]) !! length ds = Some true).
  { rewrite !lookup_snoc_Some. by split; right. }
  split.
  - intros p E Hown. destruct (decide (p = dv_partition d)) as [->|Hne].
    + right. exists (length ds), d. by destruct Hlast.
    + rewrite Hq by done. destruct (So p) as [?|(n & a & Ha & Ho & ?)]; [congruence|done|by left|].
      right. exists n, a. split; [done|]. split; [by apply lookup_app_l_Some|done].
  - intros n a HC Ha Ho E. rewrite Hg in E. destruct (decide (dv_partition a = dv_partition d)) as [Ep|Hne].
    + rewrite Ep, Hc. destruct (decide (n = length ds)) as [->|Hn]; [assert (a = d) as -> by (destruct Hlast; congruence); lia|].
      assert (n < length ds) as Hlt by (apply lookup_lt_Some in Ha; rewrite length_app in Ha; cbn in Ha; lia).
      destruct (dl_order _ _ _ Hd n (length ds) a d Ha (proj1 Hlast) Hlt) as [Hle Hs].
      destruct (dl_given _ _ _ Hd d) as [? _]; [apply elem_of_app; right; by apply list_elem_of_singleton|].
      assert (dv_offset a < dv_offset d) by (apply Hs; split; [lia|done]). lia.
    + rewrite Hq by done. apply (Sp n); [done..| |congruence]. rewrite lookup_snoc_Some in Ho. destruct Ho as [[_ ?]|[-> _]]; [done|].
      exfalso. apply Hne. rewrite Hlen, (proj1 Hlast) in Ha. congruence.
Qed.

Lemma delivered_commit v0 ds v p i v' : delivered v0 ds v -> commits v p i v' -> delivered v0 ds v'.
Proof.
  intros [Dg Dl Dv Do Da Dh Df] (Hg & Hm & _). split.
  - lia.
  - intros q. destruct (Hm q) as (-> & -> & _). apply Dl.
  - intros d Hd. rewrite Hg, (proj1 (Hm _)). by apply Dv.
  - done.
  - intros a b o. destruct (Hm (dv_partition a)) as (_ & -> & _). apply Da.
  - intros a. destruct (Hm (dv_partition a)) as (_ & -> & ->). rewrite Hg. apply Dh.
  - intros q o. destruct (Hm q) as (_ & -> & ->). rewrite Hg. apply Df.
Qed.

Section delivery.
Context {K S : Type} `{OrderReaderLaws K}.
Variables (ctx_done : env -> bool) (handler : string -> IO S unit).
Notation W := ((K * list reader_call) * (list (string * bool) * S))%type.
#[local] Existing Instance noting_reader.

Definition commits_succeed : Prop := forall p i e k, is_ok (commitMessages (K := K) p i (e, k)).1 = true.

(** From the view [v0] the worker handed the messages [ds] over, which were accepted as [oks]
    says, with these calls of the reader and these notes of the handler. *)
Record told (v0 : group_view) (ds : list delivery) (oks : list bool) (w : W) : Prop := {
  to_delivered : delivered v0 ds (view w.1.1);
  to_settled : settled commits_succeed v0 ds oks (view w.1.1);
  to_length : length oks = length ds;
  to_calls : w.1.2 = concat (zip_with calls_of ds oks);
  to_notes : w.2.1 = zip (map dv_body ds) oks }.

Section run.
Variable v0 : group_view.
Definition given (w : W) : Prop := exists ds oks, told v0 ds oks w.

Lemma stopped_given : keeps given (stopped ctx_done).
Proof. by intros [e w] Hw. Qed.
Lemma returned_given x : keeps given (returned ctx_done x).
Proof. unfold returned. apply keeps_bind; [apply stopped_given|]. intros b. apply keeps_ret. Qed.

(** One more message, as the handler took it. *)
Lemma told_snoc ds oks k calls notes s d ok k' s' : told v0 ds oks ((k, calls), (notes, s)) ->
  delivered v0 (ds ++ [d]) (view k') -> settled commits_succeed v0 (ds ++ [d]) (oks ++ [ok]) (view k') ->
  told v0 (ds ++ [d]) (oks ++ [ok]) ((k', calls ++ calls_of d ok), (notes ++ [(dv_body d, ok)], s')).
Proof.
  intros [_ _ Hlen Hc Hn] Hd Hs. cbn in *. split; cbn; [done|done|by rewrite !length_app, Hlen| |].
  - rewrite zip_with_app, concat_app, Hc by done. cbn. by rewrite app_nil_r.
  - rewrite map_app, zip_with_app, Hn by by rewrite length_map. done.
Qed.

Lemma round_given : keeps given (consume_round ctx_done (noted handler)).
Proof.
  intros [e [[k calls] [notes s]]] (ds & oks & Ht). unfold consume_round, on_reader, on_handler, on, noted.
  pose proof Ht as [Hd Hs Hlen _ _]. cbn [fst snd] in Hd, Hs.
  rewrite bind_unfold, attempt_run. cbn [fst snd fetchMessage noting_reader].
  destruct (fetchMessage (e, k)) as [[[[p i] body]|x] [e1 k1]] eqn:Ef; cbn [fst snd]; pose proof (fetch_spec _ _ _ _ _ Ef) as Hf; cbn beta iota in Hf.
  2: { apply returned_given. exists ds, oks. destruct Ht as [_ _ _ Hc Hn]. split; cbn; [by eapply delivered_drift|by eapply settled_drift|done|by rewrite app_nil_r|done]. }
  destruct Hf as (v & j & Hdr & Hj & Hi & Hb & Hmv).
  pose proof (delivered_drift _ _ _ _ Hd Hdr) as Hd1. pose proof (settled_drift _ _ _ _ _ _ Hd Hs Hdr) as Hs1.
  pose proof (delivered_snoc _ _ _ _ _ _ _ _ Hd1 Hj Hi Hb Hmv) as Hd2. set (d := mkDelivery (generation v) p i body) in *.
  pose proof (settled_hand _ _ _ _ _ _ _ d _ Hs1 Hlen Hmv) as Hs2.
  rewrite bind_unfold, attempt_run. cbn [fst snd]. destruct (handler body (e1, s)) as [r [e2 s2]]. cbn [fst snd].
  destruct r as [[]|x]; cbn [is_ok].
  2: { cbn. exists (ds ++ [d]), (oks ++ [false]). refine (told_snoc _ _ _ _ _ s d false _ _ Ht Hd2 _). by apply settled_refuse. }
  rewrite bind_unfold, attempt_run. cbn [fst snd commitMessages noting_reader].
  destruct (commitMessages p i (e2, k1)) as [r [e3 k3]] eqn:Ec. cbn [fst snd].
  assert (Hgiven : given ((k3, (calls ++ [Fetched p i]) ++ [CommitAsked p i]), (notes ++ [(body, true)], s2))).
  { exists (ds ++ [d]), (oks ++ [true]). rewrite <- app_assoc. apply commit_spec in Ec as Hcs.
    destruct Hcs as [(v' & Hdr' & Hcm)|[Hno Hdr']].
    - pose proof (delivered_drift _ _ _ _ Hd2 Hdr') as Hd3.
      apply (told_snoc _ _ _ _ _ s d true _ _ Ht); [by eapply delivered_commit|].
      apply (settled_commit _ _ _ _ _ v'); [done|exact (settled_drift _ _ _ _ _ _ Hd2 Hs2 Hdr')|done|done].
    - apply (told_snoc _ _ _ _ _ s d true _ _ Ht); [by eapply delivered_drift|].
      apply settled_unknown; [|by eapply settled_drift]. intros HC. specialize (HC p i e2 k1). rewrite Ec in HC. cbn in HC. congruence. }
  destruct r; [exact Hgiven|]. by apply returned_given.
Qed.

Lemma start_given fuel : keeps given (Start ctx_done (noted handler) fuel).
Proof.
  induction fuel as [|fuel IH]; cbn [Start]; [apply keeps_ret|]. apply keeps_bind; [apply round_given|].
  intros [ended|]; [apply keeps_ret|done].
Qed.
Lemma worker_given cfg restarts fuel : keeps given (worker ctx_done (noted handler) cfg restarts fuel).
Proof.
  induction restarts as [|restarts IH]; cbn [worker]; [apply keeps_ret|]. apply keeps_bind; [apply start_given|].
  intros [|x]; [apply keeps_ret|]. apply keeps_bind; [apply stopped_given|]. intros b. destr_if; [apply keeps_ret|].
  apply keeps_bind; [by intros [e w] Hw|]. intros u. apply keeps_bind; [apply stopped_given|]. intros b'. destr_if; [apply keeps_ret|done].
Qed.
End run.

End delivery.
