(* ===== verification/OrderLiveness.v ===== *)
(** * An expired order gets closed

    When nothing fails in the order database, the close task of an unpaid order whose
    time is over ends, and the order is cancelled and its guards are gone, whatever
    the other services answer. *)
From Stdlib Require Import ZArith Lia Ascii String.
From stdpp Require Import base gmap sets list strings.
From S2P Require Import Prelude GoBase Effects Sql Sharding Redis RushRecord RushStore PayService ProgramDB RefundRule SeatDB SeatFreeze OrderDB OrderRepo OrderFlow OrderCreate OrderLife ProgramService OrderAnswers.
Import Slot Codec Routes.
Open Scope string_scope.
Open Scope list_scope.
Open Scope Z_scope.

(** ** Runs without faults *)

Lemma on_table_run {T A} (proj : shard -> gmap string T) set suffix (m : M T A) sh rows a rows' :
  proj sh !! suffix = Some rows -> m rows = (Ok a, rows') ->
  on_table proj set suffix m sh = (Ok a, set (<[suffix := rows']> (proj sh)) sh).
Proof. intros E Em. unfold on_table. by rewrite E, Em. Qed.

Lemma find_run suffix n e sh rows o : faults e = [] -> s_orders sh !! suffix = Some rows ->
  find (order_at n) rows = Some o -> Tx.FindOrderByNumberForUpdate suffix n (e, sh) = (Ok o, (e, sh)).
Proof.
  intros He Hr Hf. unfold Tx.FindOrderByNumberForUpdate. rewrite call_nofault by done.
  unfold on_order_table. erewrite on_table_run; [|exact Hr|unfold FindOneByOrderNumber; rewrite Hf; reflexivity].
  cbn. rewrite insert_id by done. by destruct sh.
Qed.

Lemma cancel_run suffix n t e sh rows ts : faults e = [] ->
  s_orders sh !! suffix = Some rows -> s_tickets sh !! suffix = Some ts ->
  exists sh', Tx.UpdateCancelStatus suffix n t (e, sh) = (Ok tt, (e, sh')).
Proof.
  intros He Hr Ht. unfold Tx.UpdateCancelStatus. eexists.
  rewrite (call_bind _ _ e sh tt (set_orders (<[suffix := (UpdateCancelRow n t rows).2]> (s_orders sh)) sh)); [|done|].
  - rewrite call_nofault by done. unfold on_ticket_table. by erewrite on_table_run; [|exact Ht|done].
  - unfold on_order_table. by apply (on_table_run _ _ _ _ _ rows).
Qed.

Lemma delete_run n e sh : faults e = [] -> exists sh', Tx.DeleteGuardsByOrderNumber n (e, sh) = (Ok tt, (e, sh')).
Proof.
  intros He. eexists. unfold Tx.DeleteGuardsByOrderNumber. erewrite call_bind by done. erewrite call_bind by done.
  by rewrite call_nofault.
Qed.

Lemma mark_run ty key t e sh : faults e = [] ->
  exists m sh', Tx.MarkDelayTaskProcessed ty key t (e, sh) = (Ok m, (e, sh')).
Proof.
  intros He. unfold Tx.MarkDelayTaskProcessed, on, MarkProcessed. rewrite attempt_call_bind by done.
  unfold find_task. cbn [fst snd]. destruct (find (live_task ty key) (s_outbox sh)) as [row|]; cbn [of_option].
  - erewrite call_bind by done. by eexists _, _.
  - by eexists _, _.
Qed.

(** The order that is found is unpaid and its time is over. *)
Lemma closeTx_run n t suffix e sh rows ts o : faults e = [] ->
  s_orders sh !! suffix = Some rows -> s_tickets sh !! suffix = Some ts ->
  find (order_at n) rows = Some o -> do_OrderStatus o = 1 -> do_OrderExpireTime o <= t ->
  exists snap m sh', closeTx n t suffix (e, sh) = (Ok (Some snap, true, m), (e, sh')).
Proof.
  intros He Hr Ht Hf Hst Hexp. unfold closeTx. cbv zeta.
  erewrite bind_ok_run; [|unfold attempt; by rewrite (find_run suffix n e sh rows o)].
  cbv beta iota. rewrite Hst. change (negb (1 =? orderStatusUnpaid)) with false. cbv iota.
  destruct (Z.ltb_spec t (do_OrderExpireTime o)); [lia|].
  destruct (cancel_run suffix (do_OrderNumber o) t e sh rows ts) as [sh1 E1]; [done..|].
  erewrite bind_ok_run by exact E1. destruct (delete_run (do_OrderNumber o) e sh1 He) as [sh2 E2].
  erewrite bind_ok_run by exact E2.
  destruct (mark_run TaskTypeCloseTimeout (TaskKey n) t e sh2 He) as (m & sh3 & E3).
  erewrite bind_ok_run by exact E3. by eexists _, _, _.
Qed.

(** A run that reports a change has made it. *)
Lemma closeTx_settled n t suffix e sh snap m e' sh' :
  closeTx n t suffix (e, sh) = (Ok (snap, true, m), (e', sh')) -> exists row row', settled n 2 suffix sh sh' row row'.
Proof.
  intros (found & [e1 s1] & Hl & Hrun)%bind_ok. apply attempt_ok in Hl.
  pose proof (find_row_state _ _ _ _ _ _ _ Hl) as ->.
  destruct found as [row|x].
  2: { destr_if; [|done]. by apply bind_ok in Hrun as (? & ? & _ & [[= ] _]%ret_ok). }
  apply find_row_in in Hl as [_ Hin]. exists row.
  destruct (Z.eqb_spec (do_OrderStatus row) orderStatusUnpaid) as [Hst|]; cbn [negb] in Hrun.
  2: { by apply bind_ok in Hrun as (? & ? & _ & [[= ] _]%ret_ok). }
  destr_if; [by apply ret_ok in Hrun as [[= ] _]|]. rewrite (row_number _ _ (row_in_at _ _ _ _ Hin)) in Hrun.
  apply bind_ok in Hrun as (u & [e2 s2] & (rows & p & f & Hr & Hm & Ho & Hg)%cancel_update & Hrun).
  apply bind_ok in Hrun as (v & [e3 s3] & [Ho2 Hd]%drop_ok & Hrun).
  apply bind_ok in Hrun as (mk & [e4 s4] & [Ho3 (G1 & G2 & G3)]%mark_ok & Hrun). apply ret_ok in Hrun as [_ [= _ <-]].
  eapply (settled_moved n 2 suffix sh s4 rows row p f); [done..| |congruence|].
  - by rewrite Hst.
  - intros _. eapply dropped_gone. destruct Hd as (D1 & D2 & D3). unfold dropped_guards. by rewrite G1, G2, G3.
Qed.

Lemma transact_order_run {A} deps n (fn : string -> IO shard A) (Q : A -> shard -> Prop) router r e d sh :
  faults e = [] -> dep_Router deps = Some router ->
  (forall wall, clock e <= wall -> RouteByOrderNumber router wall n = Ok r) -> d !! r_DBKey r = Some sh ->
  (forall e, faults e = [] -> exists a sh', fn (r_TableSuffix r) (e, sh) = (Ok a, (e, sh')) /\ Q a sh') ->
  exists a e' sh', TransactByOrderNumber deps n fn (e, d) = (Ok a, (e', <[r_DBKey r := sh']> d)) /\ Q a sh'.
Proof.
  intros He Hd Hroute Hsh Hfn. unfold TransactByOrderNumber, RouteOfOrder. rewrite Hd.
  destruct (now_run e d) as (e1 & En & He1 & Hc). rewrite He in He1.
  erewrite bind_ok_run.
  2: { erewrite bind_ok_run by exact En. unfold of_route. rewrite Hroute by lia. reflexivity. }
  unfold transactByRoute, at_shard. rewrite Hsh. destruct (Hfn e1 He1) as (a & sh' & Hrun & HQ).
  rewrite (transact_nofault _ _ _ _ _ _ He1 Hrun He1). by eexists _, _, _.
Qed.

Section liveness.
Context {P R : Type} `{ProgramRpcLaws P} `{RedisHash R} (svc : ServiceContext).
Notation W := (orders P R).
Notation deps := (sv_deps svc).

(** When no call fails before the order is closed, the close task of an order that
    is unpaid, whose time is over when the task looks at the clock, and whose tables
    exist, answers success and leaves the order cancelled and its guards gone,
    whatever the other services answer. *)
Lemma expired_order_closes n (e : env) (w : W) router r sh rows ts o :
  0 < n -> faults e = [] -> dep_Router deps = Some router ->
  (forall wall, clock e <= wall -> RouteByOrderNumber router wall n = Ok r) ->
  ow_dbs w !! r_DBKey r = Some sh -> s_orders sh !! r_TableSuffix r = Some rows ->
  s_tickets sh !! r_TableSuffix r = Some ts -> find (order_at n) rows = Some o ->
  do_OrderStatus o = orderStatusUnpaid -> do_OrderExpireTime o <= clock e ->
  exists e' w' o', CloseExpiredOrder svc n (e, w) = (Ok tt, (e', w')) /\
    order_now deps (ow_dbs w') n o' /\ do_OrderStatus o' = orderStatusCancelled /\ same_order o o' /\
    unguarded svc (ow_dbs w') n.
Proof.
  intros Hn He Hd Hroute Hsh Hr Ht Hf Hst Hexp. unfold CloseExpiredOrder.
  destruct (Z.leb_spec n 0); [lia|].
  assert (Hlk : map_err mapOrderError (lockOrderStatusGuard svc n) (e, w) = (Ok tt, (e, w))).
  { unfold map_err at 1, lockOrderStatusGuard. destruct (sv_RepeatGuard svc); [|done].
    unfold map_err. by rewrite call_nofault. }
  erewrite bind_ok_run by exact Hlk. destruct (now_run e w) as (e1 & En & He1 & Hc).
  erewrite bind_ok_run by exact En. rewrite He in He1.
  assert (Hrow : order_now deps (ow_dbs w) n o).
  { exists router, r, sh. split_and!; [done|exists (clock e); by apply Hroute|done|by exists rows]. }
  set (Q := fun (a : option DOrder * bool * (Z * Z)) sh' => exists snap m row row',
    a = (Some snap, true, m) /\ settled n 2 (r_TableSuffix r) sh sh' row row').
  destruct (transact_order_run deps n (closeTx n (clock e)) Q router r e1 (ow_dbs w) sh He1 Hd)
    as (a & e2 & sh' & Htx & (snap & m & row & row' & -> & Hset)); [intros wl Hwl; apply Hroute; lia|done| |].
  { intros e2 He2. destruct (closeTx_run n (clock e) (r_TableSuffix r) e2 sh rows ts o) as (x & y & z & E); [done..|].
    destruct (closeTx_settled _ _ _ _ _ _ _ _ _ E) as (row & row' & Hs). eexists _, _. split; [exact E|]. by exists x, y, row, row'. }
  destruct Hset as (Hin & Hin' & Hsame & Hst' & Hcase).
  assert (row = o) as -> by (eapply row_in_fun; [exact Hin|by exists rows]).
  set (w2 := mkOrders (<[r_DBKey r := sh']> (ow_dbs w)) (ow_rush w) (ow_program w) (ow_pay w) : W).
  erewrite bind_ok_run.
  2: { unfold attempt, finalizeCloseTimeoutTask, transactOrder, on_dbs, on. rewrite Htx. reflexivity. }
  cbv iota. destruct (sync_closed svc snap (e2, w2)) as [rs [e3 w3]] eqn:Es.
  assert (rs = Ok tt) as ->.
  { unfold sync_closed in Es. destruct (now_run e2 w2) as (e4 & E4 & _). erewrite bind_ok_run in Es by exact E4.
    erewrite bind_ok_run in Es by apply attempt_run. by injection Es. }
  pose proof (sync_closed_state _ _ _ _ _ _ _ Es) as (S1 & _ & _). erewrite bind_ok_run by exact Es.
  erewrite bind_ok_run by apply attempt_run.
  pose proof (on_program_state (rpc (rpc_ReleaseSeatFreeze (do_FreezeToken snap))) e3 w3) as Hp.
  unfold ReleaseSeatFreeze_. destruct (on_program _ (e3, w3)) as [rr [e5 w5]]. cbn in Hp. cbn [snd].
  exists e5, w5, row'. rewrite Hp, S1. cbn [ow_dbs w2].
  assert (Hl : <[r_DBKey r := sh']> (ow_dbs w) !! r_DBKey r = Some sh') by apply lookup_insert_eq.
  assert (Hrt : routes_to router n r) by (exists (clock e); by apply Hroute).
  split_and!; [done|by exists router, r, sh'|done|done|].
  exists router, r, sh'. split_and!; try done. destruct Hcase as [[_ E]|[_ Hg]]; [rewrite Hst in E; done|]. by apply Hg.
Qed.
End liveness.
