(* ===== verification/DelayTask.v ===== *)
(** * Delay tasks  (pkg/delaytask, jobs/order-close, jobs/rush-inventory-preheat)

    A task is a row of an outbox, written in the transaction that needs it.  A
    dispatcher reads every row that is not processed and enqueues it; a worker takes
    tasks from the queue and calls the service, which marks the row processed.  The
    two jobs have one outbox store and one dispatcher, over the databases of their
    service: [D] is a database, [tasks] its outbox table. *)
From Stdlib Require Import ZArith Lia Ascii String Sorted.
From stdpp Require Import base gmap sets list strings sorting.
From S2P Require Import Prelude GoBase Effects Sql SeatDB OrderDB OrderFlow.
Open Scope string_scope.
Open Scope list_scope.
Open Scope Z_scope.

(** ** pkg/delaytask/outbox_lifecycle.go *)

Definition OutboxTaskStatusPending : Z := 0.
Definition OutboxTaskStatusPublished : Z := 1.
Definition OutboxTaskStatusProcessed : Z := 3.
Definition OutboxTaskStatusFailed : Z := 4.

Definition allowedOutboxTransitions : gmap Z (list Z) := {[
  OutboxTaskStatusPending := [OutboxTaskStatusPublished; OutboxTaskStatusFailed];
  OutboxTaskStatusPublished := [OutboxTaskStatusPublished; OutboxTaskStatusProcessed; OutboxTaskStatusFailed];
  OutboxTaskStatusFailed := [OutboxTaskStatusPublished; OutboxTaskStatusProcessed] ]}.

Definition CanTransition (from to : Z) : bool :=
  match allowedOutboxTransitions !! from with
  | None => false
  | Some allowed => bool_decide (to ∈ allowed)
  end.

Definition IsTerminal (status : Z) : bool := status =? OutboxTaskStatusProcessed.
Definition ShouldRepublish (status : Z) : bool :=
  (status =? OutboxTaskStatusPublished) || (status =? OutboxTaskStatusFailed).

(** ** The queue *)

Record Message := mkMessage { mg_Type : string; mg_Key : string; mg_Payload : string; mg_ExecuteAt : time }.

(** [EnqueueTimeout] bounds the wait for the answer: a deadline among the faults. *)
Record Options := mkOptions { op_Queue : string; op_MaxRetry : Z; op_UniqueTTL : Z }.

(** asynq's errors. *)
Definition ErrTaskIDConflict : err := EOther "task ID conflicts with another task".
Definition ErrDuplicateTask : err := EOther "task already exists".
Definition SkipRetry : err := EOther "skip retry for the task".

(** asynq: [enqueue] with a queue, a retry limit, a lock on type and payload, and the
    message, whose key is the task's id; the tasks that exist, by id, with their type
    and payload. *)
Class TaskQueue (Q : Type) := {
  enqueue : string -> option Z -> option Z -> Message -> M Q unit;
  queued : Q -> gmap string (string * string) }.

(** What asynq documents: a new task is added under its id and no other is touched;
    an id that exists, or a task whose type and payload hold the lock, is refused. *)
Class TaskQueueLaws (Q : Type) `{TaskQueue Q} := {
  enqueue_ok q name retry ttl m q' : enqueue name retry ttl m q = (Ok tt, q') ->
    queued q !! mg_Key m = None /\ queued q' = <[mg_Key m := (mg_Type m, mg_Payload m)]> (queued q);
  enqueue_err q name retry ttl m x q' : enqueue name retry ttl m q = (Err x, q') ->
    queued q' = queued q /\
    (x = ErrTaskIDConflict -> is_Some (queued q !! mg_Key m)) /\
    (x = ErrDuplicateTask -> exists id, queued q !! id = Some (mg_Type m, mg_Payload m)) }.

Definition IsDuplicateEnqueueError (e : err) : bool := err_is e ErrTaskIDConflict || err_is e ErrDuplicateTask.

(** [asynqPublisher.Publish]. *)
Definition Publish {Q} `{TaskQueue Q} (o : Options) (m : Message) : IO Q unit :=
  let positive x := if 0 <? x then Some x else None in
  res ← attempt (call (enqueue (op_Queue o) (positive (op_MaxRetry o)) (positive (op_UniqueTTL o)) m));
  match res with
  | Ok _ => mret tt
  | Err e => if IsDuplicateEnqueueError e then mret tt else throw e
  end.

(** ** internal/outbox/store.go *)

Record TaskRef := mkRef { rf_DBKey : string; rf_ID : Z }.
Record Task := mkTaskItem {
  tk_Ref : TaskRef; tk_TaskType : string; tk_TaskKey : string; tk_Payload : string; tk_ExecuteAt : time;
  tk_TaskStatus : Z; tk_PublishAttempts : Z }.

Definition DispatchableStatuses : list Z :=
  [OutboxTaskStatusPending; OutboxTaskStatusPublished; OutboxTaskStatusFailed].

(** [task_status IN (0, 1, 4) AND status = 1]. *)
Definition dispatchable (t : DDelayTaskOutbox) : bool :=
  bool_decide (ot_TaskStatus t ∈ DispatchableStatuses) && (ot_Status t =? 1).

Definition task_of (dbKey : string) (t : DDelayTaskOutbox) : Task :=
  mkTaskItem (mkRef dbKey (ot_Id t)) (ot_TaskType t) (ot_TaskKey t) (ot_Payload t) (ot_ExecuteAt t)
    (ot_TaskStatus t) (ot_PublishAttempts t).

Definition id_order (a b : DDelayTaskOutbox) : Prop := ot_Id a <= ot_Id b.
#[global] Instance id_order_dec a b : Decision (id_order a b).
Proof. unfold id_order. apply _. Defined.

(** By id, then by database. *)
Definition ref_order (a b : Task) : Prop :=
  rf_ID (tk_Ref a) < rf_ID (tk_Ref b) \/
  (rf_ID (tk_Ref a) = rf_ID (tk_Ref b) /\ String.le (rf_DBKey (tk_Ref a)) (rf_DBKey (tk_Ref b))).
#[global] Instance ref_order_dec a b : Decision (ref_order a b).
Proof. unfold ref_order. apply _. Defined.

Definition select_dispatchable (taskType : string) : M (list DDelayTaskOutbox) (list DDelayTaskOutbox) := fun rows =>
  (Ok (merge_sort id_order (filter (fun t => dispatchable t && bool_decide (ot_TaskType t = taskType) = true) rows)), rows).

Definition published_task (publishedAt : time) (t : DDelayTaskOutbox) : DDelayTaskOutbox :=
  mkTask (ot_Id t) (ot_TaskType t) (ot_TaskKey t) (ot_Payload t) (ot_ExecuteAt t) OutboxTaskStatusPublished
    (ot_PublishAttempts t + 1) (ot_ConsumeAttempts t) "" (ot_LastConsumeError t) (Some (mysql_datetime publishedAt))
    (ot_ProcessedTime t) (ot_CreateTime t) (mysql_datetime publishedAt) (ot_Status t).

Definition unpublished_task (publishErr : string) (failedAt : time) (t : DDelayTaskOutbox) : DDelayTaskOutbox :=
  mkTask (ot_Id t) (ot_TaskType t) (ot_TaskKey t) (ot_Payload t) (ot_ExecuteAt t) OutboxTaskStatusFailed
    (ot_PublishAttempts t + 1) (ot_ConsumeAttempts t) publishErr (ot_LastConsumeError t) (ot_PublishedTime t)
    (ot_ProcessedTime t) (ot_CreateTime t) (mysql_datetime failedAt) (ot_Status t).

Definition task_at (id : Z) (t : DDelayTaskOutbox) : bool := (ot_Id t =? id) && dispatchable t.

Definition mark_published (id : Z) (publishedAt : time) : M (list DDelayTaskOutbox) unit :=
  modify (update_rows (task_at id) (published_task publishedAt)).

(** [last_publish_error] has 512 characters; the statement fails when it has a row to
    write a longer one to. *)
Definition mark_failed (id : Z) (failedAt : time) (publishErr : string) : M (list DDelayTaskOutbox) unit := fun rows =>
  if existsb (task_at id) rows && negb (fits 512 publishErr) then (too_long "last_publish_error", rows)
  else (Ok tt, update_rows (task_at id) (unpublished_task publishErr failedAt) rows).

Section jobs.
Context {D Q : Type} (tasks : D -> list DDelayTaskOutbox) (set_tasks : list DDelayTaskOutbox -> D -> D).
Context `{TaskQueue Q}.
Notation conns := (gmap string D).

(** [connForRef], and a statement on the outbox of that connection. *)
Definition on_conn {A} (dbKey : string) (m : M (list DDelayTaskOutbox) A) : IO conns A := fun '(e, d) =>
  match d !! dbKey with
  | None => (Err (EOther "delay task shard not configured"), (e, d))
  | Some x => let '(r, (e', l)) := call m (e, tasks x) in (r, (e', <[dbKey := set_tasks l x]> d))
  end.

Fixpoint list_conns (taskType : string) (dbKeys : list string) : IO conns (list Task) :=
  match dbKeys with
  | [] => mret []
  | dbKey :: dbKeys =>
      res ← attempt (on_conn dbKey (select_dispatchable taskType));
      match res with
      | Ok rows => items ← list_conns taskType dbKeys; mret (map (task_of dbKey) rows ++ items)
      | Err x => if err_is x ENotFound then list_conns taskType dbKeys else throw x
      end
  end.

Definition ListDispatchableByTaskType (taskType : string) : IO conns (list Task) := fun '(e, d) =>
  (items ← list_conns taskType (merge_sort String.le (elements (dom d))); mret (merge_sort ref_order items)) (e, d).

Definition MarkPublished (ref : TaskRef) (publishedAt : time) : IO conns unit :=
  on_conn (rf_DBKey ref) (mark_published (rf_ID ref) publishedAt).
Definition MarkPublishFailed (ref : TaskRef) (failedAt : time) (publishErr : string) : IO conns unit :=
  on_conn (rf_DBKey ref) (mark_failed (rf_ID ref) failedAt publishErr).

(** ** internal/dispatch/run_once_logic.go *)

Record dispatcher := mkDispatcher { dp_conns : conns; dp_queue : Q }.

Definition on_store {A} : IO conns A -> IO dispatcher A := on dp_conns (fun c d => mkDispatcher c (dp_queue d)).
Definition on_queue {A} : IO Q A -> IO dispatcher A := on dp_queue (fun q d => mkDispatcher (dp_conns d) q).

Definition message_of (t : Task) : Message := mkMessage (tk_TaskType t) (tk_TaskKey t) (tk_Payload t) (tk_ExecuteAt t).

Fixpoint publish_each (o : Options) (records : list Task) : IO dispatcher unit :=
  match records with
  | [] => mret tt
  | record :: records =>
      res ← attempt (on_queue (Publish o (message_of record)));
      t ← now;
      _ ← on_store (match res with
                    | Ok _ => MarkPublished (tk_Ref record) t
                    | Err x => if IsDuplicateEnqueueError x then MarkPublished (tk_Ref record) t
                               else MarkPublishFailed (tk_Ref record) t (err_text x)
                    end);
      publish_each o records
  end.

(** The store needs a database, the publisher a queue. *)
Definition Run (publisher : option Options) (taskType : string) : IO dispatcher unit := fun '(e, s) =>
  if bool_decide (dp_conns s = ∅) then (Err (EOther "delay task store is not configured"), (e, s))
  else match publisher with
  | None => (Err (EOther "delay task publisher is not configured"), (e, s))
  | Some o => (records ← on_store (ListDispatchableByTaskType taskType); publish_each o records) (e, s)
  end.

End jobs.
Arguments dispatcher D Q : clear implicits.
Arguments mkDispatcher {D Q} _ _.
Arguments dp_conns {D Q} _.
Arguments dp_queue {D Q} _.
