(* ===== verification/OrderOutbox.v ===== *)
(** * The close tasks of the order service  (jobs/order-close)

    The outbox of the order databases.  Besides the transactions of the order life
    cycle, the dispatcher's statements are steps: they interleave with the
    transactions one by one.  As long as identifiers are fresh and the network does
    not forge the database's answers, every unpaid order has a task to dispatch. *)
From Stdlib Require Import ZArith Lia Ascii String.
From stdpp Require Import base gmap sets list strings sorting relations.
From S2P Require Import Prelude GoBase Effects Sql Sharding SeatDB ProgramDB SeatFreeze OrderDB OrderRepo OrderFlow OrderCreate OrderLife DelayTask.
Import Slot Codec Routes.
Open Scope string_scope.
Open Scope list_scope.
Open Scope Z_scope.

(** ** Faults *)

(** A fault of the network is neither an error of the server nor its not-found answer. *)
Definition quiet_fault (f : fault) : Prop :=
  match f with NoFault => True | FailBefore x | FailAfter x => mysql_error x = None /\ err_is x ENotFound = false end.
Definition quiet (e : env) : Prop := Forall quiet_fault (faults e).

Lemma quiet_net e : quiet e -> net_faults e.
Proof. intros Hq. eapply Forall_impl; [exact Hq|]. intros [|x|x]; cbn; [done|by intros [? _]..]. Qed.
Lemma quiet_tail e fs : quiet e -> fs = tail (faults e) -> Forall quiet_fault fs.
Proof. intros He ->. destruct He; cbn; [constructor|done]. Qed.

(** ** What the transactions do to the outbox *)

Definition outbox_is (l : list DDelayTaskOutbox) (sh : shard) : Prop := s_outbox sh = l.

Lemma table_outbox {T A} (proj : shard -> gmap string T) set suffix (m : M T A) l :
  (forall t sh, s_outbox (set t sh) = s_outbox sh) -> preserves (outbox_is l) (on_table proj set suffix m).
Proof.
  intros Hset sh Hl. unfold on_table. destruct (proj sh !! suffix); [|done]. destruct (m _).
  unfold outbox_is in *. cbn. by rewrite Hset.
Qed.
Lemma guards_outbox {A} get set (m : M (list DOrderGuard) A) l :
  (forall t sh, s_outbox (set t sh) = s_outbox sh) -> preserves (outbox_is l) (Tx.on_guards get set m).
Proof.
  intros Hset sh Hl. unfold Tx.on_guards, zoom. destruct (m _). unfold outbox_is in *. cbn. by rewrite Hset.
Qed.

Ltac outbox_kept :=
  repeat first
    [ apply keeps_call; first [apply table_outbox|apply guards_outbox]; done
    | apply keeps_ret | apply keeps_throw | apply keeps_now | apply keeps_map_err
    | apply keeps_attempt | apply keeps_bind; [|intros ?] | destr_if
    | match goal with |- keeps _ (match ?x with _ => _ end) => destruct x end ].

Lemma find_outbox l suffix n : keeps (outbox_is l) (Tx.FindOrderByNumberForUpdate suffix n).
Proof. unfold Tx.FindOrderByNumberForUpdate, on_order_table. outbox_kept. Qed.
Lemma cancel_outbox l suffix n t : keeps (outbox_is l) (Tx.UpdateCancelStatus suffix n t).
Proof. unfold Tx.UpdateCancelStatus, on_order_table, on_ticket_table. outbox_kept. Qed.
Lemma delete_outbox l n : keeps (outbox_is l) (Tx.DeleteGuardsByOrderNumber n).
Proof. unfold Tx.DeleteGuardsByOrderNumber. outbox_kept. Qed.

Lemma cancelTx_outbox l n suffix : keeps (outbox_is l) (cancelTx n suffix).
Proof.
  unfold cancelTx, lock_row, Tx.FindOrderByNumberForUpdate, Tx.UpdateCancelStatus, Tx.DeleteGuardsByOrderNumber,
    on_order_table, on_ticket_table. outbox_kept.
Qed.
Lemma payTx_outbox l n t suffix : keeps (outbox_is l) (payTx n t suffix).
Proof.
  unfold payTx, lock_row, Tx.FindOrderByNumberForUpdate, Tx.UpdatePayStatus, on_order_table, on_ticket_table. outbox_kept.
Qed.
Lemma refundedTx_outbox l n suffix : keeps (outbox_is l) (refundedTx n suffix).
Proof.
  unfold refundedTx, lock_row, Tx.FindOrderByNumberForUpdate, Tx.UpdateRefundStatus, Tx.DeleteGuardsByOrderNumber,
    on_order_table, on_ticket_table. outbox_kept.
Qed.

Lemma kept_outbox {A} (m : IO shard A) e sh r e' sh' :
  (forall l, keeps (outbox_is l) m) -> m (e, sh) = (r, (e', sh')) -> s_outbox sh' = s_outbox sh.
Proof. intros Hm E. pose proof (Hm (s_outbox sh) (e, sh) eq_refl) as H. by rewrite E in H. Qed.

(** Marking a task leaves the others alone. *)
Definition processed (n : Z) (t : time) (l : list DDelayTaskOutbox) : list DDelayTaskOutbox :=
  update_rows (live_task TaskTypeCloseTimeout (TaskKey n)) (processed_task t) l.

Lemma mark_outbox n t e sh m e' sh' :
  Tx.MarkDelayTaskProcessed TaskTypeCloseTimeout (TaskKey n) t (e, sh) = (Ok m, (e', sh')) ->
  s_orders sh' = s_orders sh /\ (s_outbox sh' = s_outbox sh \/ s_outbox sh' = processed n t (s_outbox sh)).
Proof.
  unfold Tx.MarkDelayTaskProcessed, on. destruct (MarkProcessed _ _ _ (e, s_outbox sh)) as [r [e1 l]] eqn:E.
  intros [= -> <- <-]. split; [done|]. cbn. unfold MarkProcessed in E.
  apply bind_ok in E as (row & [e2 l2] & Hf & E). apply attempt_ok, call_readonly in Hf as ->; [|done].
  destruct row as [row|x].
  - apply bind_ok in E as (u & [e3 l3] & Hu%call_ok & [_ [= _ <-]]%ret_ok). right. by injection Hu.
  - destr_if; [|done]. apply ret_ok in E as [_ [= _ <-]]. by left.
Qed.

(** A not-found answer of the quiet database is true. *)
Lemma find_row_none suffix n e sh x e' sh' : quiet e ->
  Tx.FindOrderByNumberForUpdate suffix n (e, sh) = (Err x, (e', sh')) -> err_is x ENotFound = true ->
  forall rows, s_orders sh !! suffix = Some rows -> find (order_at n) rows = None.
Proof.
  unfold Tx.FindOrderByNumberForUpdate, call, draw. intros Hq.
  assert (Hrun : forall e1, (let '(r, s') := on_order_table suffix (FindOneByOrderNumber n) sh in (r, (e1, s'))) = (Err x, (e', sh')) ->
    err_is x ENotFound = true -> forall rows, s_orders sh !! suffix = Some rows -> find (order_at n) rows = None).
  { intros e1. unfold on_order_table, on_table. intros E Hx rows Hr. rewrite Hr in E. unfold FindOneByOrderNumber in E.
    by destruct (find (order_at n) rows). }
  unfold quiet in Hq. destruct (faults e) as [|[|y|y] fs]; [apply Hrun|apply Hrun|..];
    apply Forall_cons in Hq as [[_ Hy] _]; intros [= <- <- <-]; congruence.
Qed.

(** The close task leaves the outbox alone, or marks its own task when its order is
    not open any more. *)
Lemma closeTx_outbox n t suffix e sh b e' sh' : quiet e ->
  closeTx n t suffix (e, sh) = (Ok b, (e', sh')) ->
  s_outbox sh' = s_outbox sh \/
  (s_outbox sh' = processed n t (s_outbox sh) /\
   forall rows o, s_orders sh' !! suffix = Some rows -> NoDup (map do_OrderNumber rows) -> o ∈ rows ->
     order_at n o = true -> do_OrderStatus o <> 1).
Proof.
  intros Hq (found & [e1 s1] & Hl & Hrun)%bind_ok. apply attempt_ok in Hl.
  pose proof (find_row_state _ _ _ _ _ _ _ Hl) as ->. destruct found as [row|x].
  2: { destruct (err_is x ENotFound) eqn:Hx; [|done]. apply bind_ok in Hrun as (m & [e2 s2] & Hm & [_ [= _ <-]]%ret_ok).
       apply mark_outbox in Hm as [Ho [E|E]]; [by left|]. right. split; [done|]. intros rows o Hr _ Hin Hat _.
       rewrite Ho in Hr. pose proof (find_row_none _ _ _ _ _ _ _ Hq Hl Hx _ Hr) as Hn.
       eapply find_none_elem in Hn; [|exact Hin]. congruence. }
  apply find_row_ok in Hl as (_ & rows & Hr & Hin & Hrow).
  destruct (Z.eqb_spec (do_OrderStatus row) orderStatusUnpaid) as [Hst|Hst]; cbn [negb] in Hrun.
  2: { apply bind_ok in Hrun as (m & [e2 s2] & Hm & [_ [= _ <-]]%ret_ok).
       apply mark_outbox in Hm as [Ho [E|E]]; [by left|]. right. split; [done|]. intros rows' o Hr' Hnd Hino Hat Hso.
       rewrite Ho in Hr'. assert (rows' = rows) as -> by congruence.
       assert (o = row) as -> by (eapply NoDup_map_inj; [exact Hnd|done..|by rewrite (row_number _ _ Hat), (row_number _ _ Hrow)]).
       by apply Hst. }
  destr_if. { apply ret_ok in Hrun as [_ [= _ <-]]. by left. }
  apply bind_ok in Hrun as (u & [e3 s3] & Hc & Hrun).
  apply bind_ok in Hrun as (v & [e4 s4] & Hd & Hrun).
  apply bind_ok in Hrun as (m & [e5 s5] & Hm & [_ [= _ <-]]%ret_ok).
  pose proof (kept_outbox _ _ _ _ _ _ (fun l => cancel_outbox l _ _ _) Hc) as Oc.
  pose proof (kept_outbox _ _ _ _ _ _ (fun l => delete_outbox l _) Hd) as Od.
  apply mark_outbox in Hm as [Ho [E|E]]; [left; congruence|]. right. split; [by rewrite E, Od, Oc|].
  rewrite (row_number _ _ Hrow) in Hc. apply cancel_update in Hc as (rows' & p & f & Hr' & (Hp1 & Hp2 & Hf) & Hoc & _).
  apply drop_ok in Hd as [Hod _]. assert (rows' = rows) as -> by congruence.
  intros rs o Hrs _ Hino Hat Hso. rewrite Ho, Hod, Hoc, lookup_insert_eq in Hrs. injection Hrs as <-.
  apply list_elem_of_fmap in Hino as (o0 & -> & Hin0). destruct (p o0) eqn:Ep.
  - destruct (Hf o0) as (? & _ & E0). rewrite E0 in Hso. done.
  - assert (p o0 = true); [|congruence]. apply Hp2; [done|]. rewrite Hso. done.
Qed.

(** ** Writing the task *)

Lemma createTx_outbox m suffix e sh a e' sh' : quiet e -> wm_delayTaskRows m <> [] ->
  createTx m suffix (e, sh) = (Ok a, (e', sh')) ->
  sh' = sh \/ insert_each upsert_task1 (wm_delayTaskRows m) (s_outbox sh) = Ok (s_outbox sh').
Proof.
  intros Hq Hne (r & [e1 s1] & Hi & Hrun)%bind_ok. apply attempt_ok in Hi.
  apply insert_order_cases in Hi; [|by apply quiet_net]. destruct r as [u|x].
  2: { destr_if; [|done]. apply ret_ok in Hrun as [_ [= _ <-]]. left. by apply Hi. }
  destruct Hi as (rows & _ & _ & _ & ->). right.
  apply bind_ok in Hrun as (u1 & [e2 s2] & Ht & Hrun).
  assert (s_outbox s2 = s_outbox sh) as E2.
  { apply unless_empty_ok in Ht as [[_ ->]|Ht]; [done|]. apply call_ok, on_ticket_table_ok in Ht as [? ->]. done. }
  apply bind_ok in Hrun as (u2 & [e3 s3] & (l1 & -> & _)%insert_user_ok & Hrun).
  apply bind_ok in Hrun as (u3 & [e4 s4] & (l2 & -> & _)%insert_viewers_ok & Hrun).
  apply bind_ok in Hrun as (u4 & [e5 s5] & (l3 & -> & _)%insert_seats_ok & Hrun).
  apply unless_empty_ok in Hrun as [[? _]|Hrun]; [done|].
  apply call_ok, zoom_ok in Hrun as (l & Hl & ->). cbn in Hl. rewrite E2 in Hl.
  by apply insert_batch_ok in Hl.
Qed.

(** The task of order [n], due at [at_]. *)
Record close_task (n : Z) (due : time) (t : DDelayTaskOutbox) : Prop := {
  ct_type : ot_TaskType t = TaskTypeCloseTimeout;
  ct_key : ot_TaskKey t = TaskKey n;
  ct_payload : ot_Payload t = close_payload n;
  ct_due : ot_ExecuteAt t = due }.

Lemma mapper_task `{LocalTime} ev t (e : env) m es :
  mapEventToOrderWriteModels ev t (e, tt) = (Ok m, es) ->
  exists task, wm_delayTaskRows m = [task] /\ ot_TaskStatus task = 0 /\ ot_Status task = 1 /\
    close_task (do_OrderNumber (wm_order m)) (do_OrderExpireTime (wm_order m)) task.
Proof.
  unfold mapEventToOrderWriteModels. destr_if; [done|].
  intros (? & ? & _ & (? & ? & _ & (? & ? & _ & (id & s1 & _ & Hrun)%bind_ok)%bind_ok)%bind_ok)%bind_ok.
  cbn zeta in Hrun. apply bind_ok in Hrun as (rows & s2 & _ & Hrun).
  apply bind_ok in Hrun as (task & s3 & Ht & (gid & s4 & _ & [<- _]%ret_ok)%bind_ok).
  apply bind_ok in Ht as (i & s5 & _ & [<- _]%ret_ok). by eexists.
Qed.

Lemma TaskKey_inj a b : TaskKey a = TaskKey b -> a = b.
Proof.
  unfold TaskKey. intros E. do 2 apply (inj (String.append _)) in E. by apply format_int_inj.
Qed.

(** ** The invariant *)

(** A task that will close order [o]. *)
Definition task_for (o : DOrder) (t : DDelayTaskOutbox) : Prop :=
  close_task (do_OrderNumber o) (do_OrderExpireTime o) t /\ dispatchable t = true.

Record outbox_inv (sh : shard) : Prop := {
  oi_ids : NoDup (map ot_Id (s_outbox sh));
  oi_honest : forall t, t ∈ s_outbox sh -> ot_TaskType t = TaskTypeCloseTimeout ->
    exists n due, close_task n due t;
  oi_open : forall suffix o, in_table sh suffix o -> do_OrderStatus o = 1 ->
    exists t, t ∈ s_outbox sh /\ task_for o t }.

(** A statement that rewrites rows of the outbox but keeps what they are for. *)
Lemma outbox_mapped sh sh' f :
  (forall s o', in_table sh' s o' -> do_OrderStatus o' = 1 ->
     exists o, in_table sh s o /\ do_OrderStatus o = 1 /\ same_order o o') ->
  s_outbox sh' = map f (s_outbox sh) ->
  (forall t, ot_Id (f t) = ot_Id t /\ ot_TaskType (f t) = ot_TaskType t /\
     (forall n due, close_task n due t -> close_task n due (f t)) ) ->
  (forall s o' t, in_table sh' s o' -> do_OrderStatus o' = 1 -> task_for o' t -> dispatchable (f t) = true) ->
  outbox_inv sh -> outbox_inv sh'.
Proof.
  intros Ho Hl Hf Hd [Hids Hhon Hopen]. split.
  - rewrite Hl, map_map. by erewrite map_ext; [exact Hids|intros t; apply Hf].
  - intros t' Hin Hty. rewrite Hl in Hin. apply list_elem_of_fmap in Hin as (t & -> & Hin).
    destruct (Hf t) as (_ & Ety & Hc). rewrite Ety in Hty. destruct (Hhon t Hin Hty) as (n & due & Ht). eauto.
  - intros s o' Hin Hst. destruct (Ho s o' Hin Hst) as (o & Hin0 & Hst0 & Hsame).
    destruct (Hopen s o Hin0 Hst0) as (t & Ht & Htask & Hdis). exists (f t).
    assert (Ht' : task_for o' t) by (rewrite Hsame; done).
    split; [rewrite Hl; apply list_elem_of_fmap; by exists t|]. split; [apply Hf, Ht'|by eapply Hd].
Qed.

Lemma status_one a : rtc status_step a 1 -> a = 1.
Proof.
  intros [->|(b & _ & Hb)]%rtc_inv_r; [done|]. exfalso. unfold status_step, allowed in Hb. rewrite !andb_false_r in Hb. cbn in Hb. by rewrite ?andb_false_r in Hb.
Qed.

Section outbox.
Context (deps : Dependencies) (router : StaticRouter) `{LocalTime}.
Hypothesis Hrouter : dep_Router deps = Some router.

(** Rows that moved. *)
Lemma open_rows n suffix sh sh' : changed n suffix sh sh' -> forall s o', in_table sh' s o' -> do_OrderStatus o' = 1 ->
  exists o, in_table sh s o /\ do_OrderStatus o = 1 /\ same_order o o'.
Proof.
  intros Hc s o' Hin Hst. destruct (changed_row_origin _ _ _ _ _ _ Hc Hin) as (o & Hin0 & Hsame & Hr).
  exists o. rewrite Hst in Hr. split_and!; [done|by apply status_one|done].
Qed.
Lemma same_tables_rows sh sh' : s_orders sh' = s_orders sh -> forall s o', in_table sh' s o' -> do_OrderStatus o' = 1 ->
  exists o, in_table sh s o /\ do_OrderStatus o = 1 /\ same_order o o'.
Proof. intros E s o' (rows & Hr & Hin) Hst. exists o'. split_and!; [exists rows; by rewrite <- E|done|apply same_order_refl]. Qed.

Lemma outbox_moved n suffix sh sh' : changed n suffix sh sh' -> s_outbox sh' = s_outbox sh ->
  outbox_inv sh -> outbox_inv sh'.
Proof.
  intros Hc Hl. apply (outbox_mapped sh sh' id); [by eapply open_rows|by rewrite Hl, map_id|done|].
  by intros s o' t _ _ [_ ?].
Qed.

Lemma processed_kind n t due x : close_task n due x -> close_task n due (processed_task t x).
Proof. by intros []. Qed.

Lemma outbox_processed key n t suffix sh sh' : changed n suffix sh sh' ->
  shard_inv router key sh' -> (forall r, routes_to router n r -> r_DBKey r = key -> r_TableSuffix r = suffix) ->
  s_outbox sh' = processed n t (s_outbox sh) ->
  (forall rows o, s_orders sh' !! suffix = Some rows -> NoDup (map do_OrderNumber rows) -> o ∈ rows ->
     order_at n o = true -> do_OrderStatus o <> 1) ->
  outbox_inv sh -> outbox_inv sh'.
Proof.
  intros Hc Hsi Hsuf Hl Hclosed.
  apply (outbox_mapped sh sh' (fun x => if live_task TaskTypeCloseTimeout (TaskKey n) x then processed_task t x else x)).
  - by eapply open_rows.
  - exact Hl.
  - intros x. destruct (live_task _ _ x); [|done]. split_and!; [done..|]. intros k due. apply processed_kind.
  - intros s o' x Hin Hst [Ht Hd]. destruct (live_task _ _ x) eqn:El; [|done]. exfalso.
    unfold live_task, same_task in El. bool_norm. destruct Ht as [_ Hkey _ _].
    assert (do_OrderNumber o' = n) as En by (apply TaskKey_inj; congruence).
    destruct (si_place _ _ _ Hsi _ _ Hin) as (Hs1 & r & Hr & Hk & Hsx & _). rewrite En in Hr.
    assert (s = suffix) as -> by (rewrite <- Hsx; by apply Hsuf). destruct Hin as (rows & Hrows & Hin).
    apply (Hclosed rows o' Hrows); [by eapply si_unique|done| |done].
    unfold order_at. by rewrite Hs1, En, !Z.eqb_refl.
Qed.

(** *** A new order *)

Definition fresh_task (t : DDelayTaskOutbox) (l : list DDelayTaskOutbox) : Prop := ot_Id t ∉ map ot_Id l.

Lemma update_rows_ids (p : DDelayTaskOutbox -> bool) f l : (forall t, ot_Id (f t) = ot_Id t) ->
  map ot_Id (update_rows p f l) = map ot_Id l.
Proof. intros Hf. unfold update_rows. rewrite map_map. apply map_ext. intros t. by destruct (p t). Qed.

(** An upsert of the task of order [n] leaves a task for it, and the tasks of other
    orders as they were. *)
Lemma upsert_close n due t l l' : close_task n due t -> ot_Status t = 1 -> ot_TaskStatus t = 0 ->
  NoDup (map ot_Id l) -> fresh_task t l -> upsert_task1 t l = Ok l' ->
  NoDup (map ot_Id l') /\
  (exists t', t' ∈ l' /\ close_task n (mysql_datetime due) t' /\ dispatchable t' = true) /\
  (forall x, x ∈ l -> ot_TaskKey x <> TaskKey n -> x ∈ l') /\
  (forall x, x ∈ l' -> x ∈ l \/ close_task n (mysql_datetime due) x).
Proof.
  intros [Hty Hkey Hpay Hdue] Hst Hts Hnd Hfresh. unfold upsert_task1. repeat (destr_if; [done|]).
  assert (Hid : find (fun r => ot_Id r =? ot_Id t) l = None).
  { destruct (find _ l) as [r|] eqn:E; [|done]. apply find_elem in E as [Hin E%Z.eqb_eq].
    destruct Hfresh. rewrite <- E. by apply list_elem_of_fmap_2. }
  rewrite Hid. destruct (find (same_task _ _) l) as [r|] eqn:E; intros [= <-].
  - apply find_elem in E as [Hin Hsame]. unfold same_task in Hsame. bool_norm.
    assert (Hre : close_task n (mysql_datetime due) (rearm_task t r)).
    { split; cbn [rearm_task ot_TaskType ot_TaskKey ot_Payload ot_ExecuteAt]; congruence. }
    split_and!.
    + by rewrite update_rows_ids.
    + exists (rearm_task t r). split_and!; [|done|done]. apply list_elem_of_fmap. exists r. by rewrite Z.eqb_refl.
    + intros x Hx Hne. apply list_elem_of_fmap. exists x. split; [|done].
      destruct (Z.eqb_spec (ot_Id x) (ot_Id r)) as [Ex|]; [|done].
      assert (x = r) as -> by (by eapply NoDup_map_inj). congruence.
    + intros x (y & -> & Hy)%list_elem_of_fmap. destruct (Z.eqb_spec (ot_Id y) (ot_Id r)) as [Ex|]; [|by left].
      assert (y = r) as -> by (by eapply NoDup_map_inj). by right.
  - assert (Hs : close_task n (mysql_datetime due) (stored_task t)).
    { split; cbn [stored_task ot_TaskType ot_TaskKey ot_Payload ot_ExecuteAt]; congruence. }
    split_and!.
    + rewrite map_app. apply NoDup_app. split_and!; [done| |apply NoDup_singleton].
      intros i Hi ->%list_elem_of_singleton. by apply Hfresh.
    + exists (stored_task t). split_and!; [apply elem_of_app; right; by apply list_elem_of_singleton|done|].
      unfold dispatchable. cbn. by rewrite Hst, Hts.
    + intros x Hx _. apply elem_of_app. by left.
    + intros x [?| ->%list_elem_of_singleton]%elem_of_app; [by left|by right].
Qed.

Lemma outbox_created key m r sh sh' task :
  created m (r_TableSuffix r) sh sh' -> routes_to router (do_OrderNumber (wm_order m)) r ->
  shard_inv router key sh ->
  wm_delayTaskRows m = [task] -> ot_TaskStatus task = 0 -> ot_Status task = 1 ->
  close_task (do_OrderNumber (wm_order m)) (do_OrderExpireTime (wm_order m)) task ->
  fresh_task task (s_outbox sh) -> insert_each upsert_task1 [task] (s_outbox sh) = Ok (s_outbox sh') ->
  outbox_inv sh -> outbox_inv sh'.
Proof.
  intros Hc Hr Hsi _ Hts Hst Htask Hfresh Hl [Hids Hhon Hopen].
  cbn [insert_each] in Hl. apply result_bind_ok in Hl as (l' & Hl & [= El]). rewrite El in Hl.
  destruct (upsert_close _ _ _ _ _ Htask Hst Hts Hids Hfresh Hl) as (Hnd' & Hnew & Hkeep & Hfrom). split; [done| |].
  - intros t Hin Hty. destruct (Hfrom t Hin) as [Hold|Ht]; [by apply Hhon|eauto].
  - intros s o Hin Hso. destruct Hc as [rows _ Hrows Hnew0 Ho _ _ _]. destruct Hin as (rs & Hrs & Hin).
    assert (Hcase : in_table sh s o \/ o = stored_order (wm_order m)).
    { rewrite Ho in Hrs. destruct (decide (s = r_TableSuffix r)) as [->|Hne].
      - rewrite lookup_insert_eq in Hrs. injection Hrs as <-.
        apply elem_of_app in Hin as [Hin| ->%list_elem_of_singleton]; [left; by exists rows|by right].
      - rewrite lookup_insert_ne in Hrs by done. left. by exists rs. }
    destruct Hcase as [Hold| ->].
    + destruct (Hopen s o Hold Hso) as (t & Ht & Htf). exists t. split; [|done]. apply Hkeep; [done|].
      destruct Htf as [[_ -> _ _] _]. intros E%TaskKey_inj.
      destruct (si_place _ _ _ Hsi _ _ Hold) as (_ & r' & Hr' & _ & Hs & _). rewrite E in Hr'.
      assert (r' = r) as -> by (by eapply routes_to_fun). subst s. destruct Hold as (rows' & Hr2 & Hin2).
      assert (rows' = rows) as -> by congruence. apply Hnew0. rewrite <- E. by apply list_elem_of_fmap_2.
    + destruct Hnew as (t & Ht & Hct & Hd). exists t. split; [done|]. by split.
Qed.

(** ** Steps *)

Definition fresh_models (d : gmap string shard) (m : orderWriteModels) : Prop :=
  forall key sh t, d !! key = Some sh -> t ∈ wm_delayTaskRows m -> fresh_task t (s_outbox sh).

(** The transactions, over a quiet network and with fresh task identifiers, and the
    statements of the dispatcher. *)
Inductive live_step : gmap string shard -> gmap string shard -> Prop :=
  | live_write ev t e0 m es e d issued workerID seq :
      mapEventToOrderWriteModels ev t (e0, tt) = (Ok m, es) ->
      BuildOrderNumber (ev_UserID ev) issued workerID seq = Ok (ev_OrderNumber ev) ->
      quiet e -> fresh_models d m ->
      live_step d (TransactByOrderNumber deps (ev_OrderNumber ev) (createTx m) (e, d)).2.2
  | live_cancel n e d : live_step d (TransactByOrderNumber deps n (cancelTx n) (e, d)).2.2
  | live_pay n t e d : live_step d (TransactByOrderNumber deps n (payTx n t) (e, d)).2.2
  | live_refunded n e d : live_step d (TransactByOrderNumber deps n (refundedTx n) (e, d)).2.2
  | live_close n t e d : quiet e -> live_step d (TransactByOrderNumber deps n (closeTx n t) (e, d)).2.2
  | live_published ref t e d : live_step d (MarkPublished s_outbox set_outbox ref t (e, d)).2.2
  | live_failed ref t msg e d : live_step d (MarkPublishFailed s_outbox set_outbox ref t msg (e, d)).2.2.

Definition open_inv (d : gmap string shard) : Prop := life_inv router d /\ map_Forall (fun _ => outbox_inv) d.

(** A statement of the dispatcher on one database. *)
Definition marks (f : DDelayTaskOutbox -> DDelayTaskOutbox) : Prop :=
  forall t, ot_Id (f t) = ot_Id t /\ ot_TaskType (f t) = ot_TaskType t /\ ot_Status (f t) = ot_Status t /\
    (ot_TaskStatus (f t) = 1 \/ ot_TaskStatus (f t) = 4) /\ forall n due, close_task n due t -> close_task n due (f t).

Lemma published_marks t : marks (published_task t).
Proof. intros x. split_and!; [done..|by left|by intros ?? []]. Qed.
Lemma unpublished_marks msg t : marks (unpublished_task msg t).
Proof. intros x. split_and!; [done..|by right|by intros ?? []]. Qed.

Lemma on_conn_cases {A} key (m : M (list DDelayTaskOutbox) A) e d :
  let d' := (on_conn s_outbox set_outbox key m (e, d)).2.2 in
  d' = d \/ exists sh, d !! key = Some sh /\ d' = <[key := set_outbox (m (s_outbox sh)).2 sh]> d.
Proof.
  cbv zeta. unfold on_conn. destruct (d !! key) as [sh|] eqn:E; [|by left].
  pose proof (call_state m e (s_outbox sh)) as Hc. destruct (call m (e, s_outbox sh)) as [r [e' l]]. cbn in *.
  destruct Hc as [-> | ->]; [left|right; by exists sh]. rewrite insert_id; [done|]. by destruct sh.
Qed.

Lemma dispatchable_marked f t : marks f -> dispatchable t = true -> dispatchable (f t) = true.
Proof.
  intros Hf Hd. destruct (Hf t) as (_ & _ & Es & Et & _). unfold dispatchable in *. bool_norm. apply andb_true_iff.
  rewrite Es. split; [|by apply Z.eqb_eq]. apply bool_decide_eq_true. unfold DispatchableStatuses.
  destruct Et as [-> | ->]; set_solver.
Qed.

Lemma marked_inv key sh p f d : marks f -> d !! key = Some sh -> open_inv d ->
  open_inv (<[key := set_outbox (update_rows p f (s_outbox sh)) sh]> d).
Proof.
  intros Hf Hsh [Hlife Hout]. split.
  - apply map_Forall_insert_2; [|done]. by destruct (Hlife _ _ Hsh) as [? ? ? ? ? ? ?].
  - apply map_Forall_insert_2; [|done].
    apply (outbox_mapped sh _ (fun t => if p t then f t else t)); [by apply same_tables_rows|done| | |by apply (Hout key)].
    + intros t. destruct (Hf t) as (? & ? & _ & _ & ?). by destruct (p t).
    + intros s o' t _ _ [_ Hd]. destruct (p t); [by apply dispatchable_marked|done].
Qed.

Lemma live_step_inv d d' : live_step d d' -> open_inv d -> open_inv d'.
Proof.
  intros Hs [Hlife Hout].
  assert (Htx : forall A n (fn : string -> IO shard A) e, d' = (TransactByOrderNumber deps n fn (e, d)).2.2 ->
    order_step deps d d' ->
    (forall r sh sh' e1 a e2, routes_to router n r -> d !! r_DBKey r = Some sh ->
       fn (r_TableSuffix r) (e1, sh) = (Ok a, (e2, sh')) -> faults e1 = tail (faults e) ->
       shard_inv router (r_DBKey r) sh' -> outbox_inv sh -> outbox_inv sh') -> open_inv d').
  { intros A n fn e E Hstep Hfn. assert (Hlife' : life_inv router d') by (by eapply life_inv_step). split; [done|].
    destruct (order_transact deps n fn e d) as [E'|(rt & r & sh & sh' & e1 & a & e2 & Hrt & Hr & Hsh & Hrun & E' & Hf)];
      rewrite E' in E; [by rewrite E|]. rewrite Hrouter in Hrt. injection Hrt as <-.
    rewrite E. apply map_Forall_insert_2; [|done]. eapply Hfn; [done..| |by apply (Hout (r_DBKey r))].
    apply Hlife'. by rewrite E, lookup_insert_eq. }
  destruct Hs as [ev t e0 m es e d issued w sq Hm Hb Hq Hfresh|n e d|n t e d|n e d|n t e d Hq|ref t e d|ref t msg e d].
  - pose proof (mapper_task _ _ _ _ _ Hm) as (task & Htasks & Hts & Hst & Htask).
    pose proof (mapper_own _ _ _ _ _ _ Hm) as [Hown En].
    eapply Htx; [done|by eapply step_write, quiet_net|]. intros r sh sh' e1 a e2 Hr Hsh Hrun Hf Hsi Hi.
    assert (Hq1 : quiet e1) by (by eapply quiet_tail).
    pose proof Hrun as Hcr. apply createTx_ok in Hcr as [->|Hc]; [done| |by apply quiet_net].
    apply createTx_outbox in Hrun as [->|Hl]; [done| |done|by rewrite Htasks]. rewrite Htasks in Hl.
    eapply (outbox_created (r_DBKey r) m r sh sh' task); try done; [by rewrite En|by apply Hlife|].
    eapply Hfresh; [done|]. rewrite Htasks. by apply list_elem_of_singleton.
  - eapply Htx; [done|apply step_cancel|]. intros r sh sh' e1 a e2 Hr Hsh Hrun _ _.
    eapply outbox_moved; [by eapply cancelTx_changed|eapply kept_outbox; [|done]]. intros l. apply cancelTx_outbox.
  - eapply Htx; [done|apply step_pay|]. intros r sh sh' e1 a e2 Hr Hsh Hrun _ _.
    eapply outbox_moved; [by eapply payTx_changed|eapply kept_outbox; [|done]]. intros l. apply payTx_outbox.
  - eapply Htx; [done|apply step_refunded|]. intros r sh sh' e1 a e2 Hr Hsh Hrun _ _.
    eapply outbox_moved; [by eapply refundedTx_changed|eapply kept_outbox; [|done]]. intros l. apply refundedTx_outbox.
  - eapply Htx; [done|apply step_close|]. intros r sh sh' e1 a e2 Hr Hsh Hrun Hf Hsi.
    pose proof (closeTx_changed _ _ _ _ _ _ _ _ Hrun) as Hc.
    apply closeTx_outbox in Hrun as [Hl|[Hl Hcl]]; [by eapply outbox_moved| |by eapply quiet_tail].
    eapply outbox_processed; [done|done| |done|done]. intros r' Hr' _. by rewrite (routes_to_fun _ _ _ _ Hr' Hr).
  - unfold MarkPublished. destruct (on_conn_cases (rf_DBKey ref) (mark_published (rf_ID ref) t) e d) as [->|(sh & Hsh & ->)];
      [by split|]. apply marked_inv; [apply published_marks|done|by split].
  - unfold MarkPublishFailed. destruct (on_conn_cases (rf_DBKey ref) (mark_failed (rf_ID ref) t msg) e d) as [->|(sh & Hsh & ->)];
      [by split|]. unfold mark_failed. destr_if; cbn [snd].
    + assert (set_outbox (s_outbox sh) sh = sh) as -> by (by destruct sh). by rewrite insert_id.
    + apply marked_inv; [apply unpublished_marks|done|by split].
Qed.
End outbox.

Section theorem.
Context (deps : Dependencies) (router : StaticRouter) `{LocalTime}.
Hypothesis Hrouter : dep_Router deps = Some router.

Lemma open_inv_empty d : empty_dbs d -> map_Forall (fun _ sh => s_outbox sh = []) d -> open_inv router d.
Proof.
  intros He Ho. split; [by apply life_inv_empty|]. intros key sh Hsh. specialize (Ho key sh Hsh). cbn in Ho.
  split; rewrite ?Ho; [constructor|by intros t ?%not_elem_of_nil|].
  intros s o (rows & Hr & Hin). destruct (He key sh Hsh) as [Hempty _]. rewrite (Hempty _ _ Hr) in Hin.
  by apply not_elem_of_nil in Hin.
Qed.

Lemma open_inv_steps d d' : rtc (live_step deps) d d' -> open_inv router d -> open_inv router d'.
Proof. induction 1; eauto using live_step_inv. Qed.

(** C12: no unpaid order is forgotten.  From empty databases, under every interleaving
    of the transactions of the order service with the statements of the dispatcher,
    whatever of them fails, the outbox of the database that holds an unpaid order has
    a live task, in a status the dispatcher reads, that names the order, carries its
    number and is due when the order expires. *)
Theorem unpaid_orders_have_tasks d0 d key sh suffix o :
  empty_dbs d0 -> map_Forall (fun _ sh => s_outbox sh = []) d0 -> rtc (live_step deps) d0 d ->
  d !! key = Some sh -> in_table sh suffix o -> do_OrderStatus o = orderStatusUnpaid ->
  exists t, t ∈ s_outbox sh /\ ot_TaskType t = TaskTypeCloseTimeout /\ ot_TaskKey t = TaskKey (do_OrderNumber o) /\
    ot_Payload t = close_payload (do_OrderNumber o) /\ ot_ExecuteAt t = do_OrderExpireTime o /\ dispatchable t = true.
Proof.
  intros He Ho Hr Hsh Hin Hst.
  destruct (open_inv_steps _ _ Hr (open_inv_empty _ He Ho)) as [_ Hout].
  destruct (oi_open _ (Hout _ _ Hsh) _ _ Hin Hst) as (t & Ht & [] & Hd). by exists t.
Qed.
End theorem.
