(* ===== verification/OrderClosing.v ===== *)
(** * From the outbox to a closed order  (jobs/order-close)

    The worker of the queue, a run of the dispatcher in which nothing fails, and how
    they come together: what the outbox promises is enqueued, and what the queue
    delivers closes the order. *)
From Stdlib Require Import ZArith Lia Ascii String.
From stdpp Require Import base gmap sets list strings sorting relations.
From S2P Require Import Prelude GoBase Effects Sql Sharding Redis RushRecord RushStore PayService SeatDB ProgramDB SeatFreeze OrderDB OrderRepo OrderFlow OrderCreate OrderLife ProgramService OrderAnswers OrderQuery OrderEvents OrderConsume OrderHandlers OrderLiveness DelayTask OrderOutbox.
Import Slot Codec Routes.
Open Scope string_scope.
Open Scope list_scope.
Open Scope Z_scope.

(** ** close_timeout_task_logic.go *)

(** [taskdef.Parse]: [json.Unmarshal] reads back what [Marshal] wrote. *)
Class ClosePayload := {
  parse_close_payload : string -> option Z;
  parse_marshalled n : in_int64 n = true -> parse_close_payload (close_payload n) = Some n }.

Definition CloseTimeoutHandle `{ClosePayload} {P R} `{ProgramRpc P} `{RedisHash R} (svc : ServiceContext)
  (payload : string) : IO (orders P R) unit :=
  match parse_close_payload payload with
  | None => throw SkipRetry
  | Some n => rpc (CloseExpiredOrder svc n)
  end.

(** ** A run of the dispatcher *)

Section run.
Context {Q : Type} `{TaskQueueLaws Q}.
Notation W := (dispatcher shard Q).

(** The queue refuses nothing but what it has. *)
Definition accepting : Prop :=
  forall name retry ttl m (q : Q) x, (enqueue name retry ttl m q).1 = Err x -> x = ErrTaskIDConflict \/ x = ErrDuplicateTask.

(** Under the id of a close task there is that task. *)
Definition honest (q : Q) : Prop := forall n ty payload, queued q !! TaskKey n = Some (ty, payload) ->
  ty = TaskTypeCloseTimeout /\ payload = close_payload n.

Definition close_message (n : Z) (m : Message) : Prop :=
  mg_Type m = TaskTypeCloseTimeout /\ mg_Key m = TaskKey n /\ mg_Payload m = close_payload n.

Definition holds (q : Q) (n : Z) : Prop := exists id, queued q !! id = Some (TaskTypeCloseTimeout, close_payload n).

Lemma publish_run (o : Options) n m e (q : Q) :
  faults e = [] -> accepting -> honest q -> close_message n m ->
  exists q', Publish o m (e, q) = (Ok tt, (e, q')) /\ queued q ⊆ queued q' /\ honest q' /\ holds q' n.
Proof.
  intros He Hacc Hh (Hty & Hkey & Hpay). unfold Publish. rewrite attempt_call_bind by done.
  destruct (enqueue _ _ _ m q) as [[[]|x] q'] eqn:E; cbn [fst snd].
  - apply enqueue_ok in E as [Hnone Hq]. exists q'. rewrite Hty, Hkey, Hpay in *. split_and!; [done| | |].
    + rewrite Hq. by apply insert_subseteq.
    + intros k ty payload. rewrite Hq. destruct (decide (k = n)) as [->|Hne].
      * rewrite lookup_insert_eq. by intros [= <- <-].
      * rewrite lookup_insert_ne; [apply Hh|]. intros Ek%TaskKey_inj. by apply Hne.
    + exists (TaskKey n). by rewrite Hq, lookup_insert_eq.
  - pose proof (f_equal fst E) as Ex. cbn in Ex. apply Hacc in Ex. apply enqueue_err in E as (Hq & Hc & Hdup).
    exists q'. rewrite Hq. unfold holds. split_and!; [by destruct Ex as [-> | ->]|done|by intros k; rewrite Hq; apply Hh|].
    rewrite Hq. destruct Ex as [Ex|Ex].
    + destruct (Hc Ex) as [[ty payload] Hl]. rewrite Hkey in Hl. destruct (Hh _ _ _ Hl) as [-> ->]. by exists (TaskKey n).
    + destruct (Hdup Ex) as [id Hl]. exists id. by rewrite Hl, Hty, Hpay.
Qed.

Lemma holds_mono (q q' : Q) n : queued q ⊆ queued q' -> holds q n -> holds q' n.
Proof. intros Hs [id Hl]. exists id. by eapply lookup_weaken. Qed.

Lemma select_run key ty e (d : gmap string shard) sh : faults e = [] -> d !! key = Some sh ->
  on_conn s_outbox set_outbox key (select_dispatchable ty) (e, d) =
    (Ok (merge_sort id_order (filter (fun t => dispatchable t && bool_decide (ot_TaskType t = ty) = true) (s_outbox sh))), (e, d)).
Proof.
  intros He Hsh. unfold on_conn. rewrite Hsh, call_nofault by done. cbn [fst snd select_dispatchable].
  assert (set_outbox (s_outbox sh) sh = sh) as -> by (by destruct sh). by rewrite insert_id.
Qed.

(** The tasks the dispatcher reads. *)
Definition to_dispatch (d : gmap string shard) (ty : string) (keys : list string) (x : Task) : Prop :=
  exists key sh t, key ∈ keys /\ d !! key = Some sh /\ t ∈ s_outbox sh /\ dispatchable t = true /\
    ot_TaskType t = ty /\ x = task_of key t.

Lemma list_run ty keys e (d : gmap string shard) : faults e = [] -> (forall k, k ∈ keys -> is_Some (d !! k)) ->
  exists items, list_conns s_outbox set_outbox ty keys (e, d) = (Ok items, (e, d)) /\
    forall x, x ∈ items <-> to_dispatch d ty keys x.
Proof.
  intros He. induction keys as [|k keys IH]; intros Hk.
  { exists []. split; [done|]. intros x. split; [by intros ?%not_elem_of_nil|by intros (? & ? & ? & ?%not_elem_of_nil & _)]. }
  destruct (Hk k) as [sh Hsh]; [by left|]. destruct IH as (items & Hl & Hin); [intros k' ?; apply Hk; by right|].
  eexists. split.
  - cbn [list_conns]. erewrite bind_ok_run; [|unfold attempt; rewrite (select_run k ty e d sh) by done; reflexivity].
    cbv iota. by erewrite bind_ok_run by exact Hl.
  - intros x. rewrite elem_of_app, Hin. split.
    + intros [(t & -> & Ht)%list_elem_of_fmap|(key & sh' & t & ? & H4)].
      * rewrite merge_sort_Permutation in Ht. apply list_elem_of_filter in Ht as [Hf Ht]. bool_norm.
        exists k, sh, t. split_and!; [by left|done..].
      * exists key, sh', t. split; [by right|done].
    + intros (key & sh' & t & Hkey & Hsh' & Ht & Hd & Hty & ->). apply elem_of_cons in Hkey as [->|Hkey].
      * left. assert (sh' = sh) as -> by congruence. apply list_elem_of_fmap. exists t. split; [done|].
        rewrite merge_sort_Permutation. apply list_elem_of_filter. split; [|done].
        by rewrite Hd, (bool_decide_eq_true_2 _ Hty).
      * right. by exists key, sh', t.
Qed.

Lemma marked_run ref t e (d : gmap string shard) : faults e = [] -> is_Some (d !! rf_DBKey ref) ->
  exists d', MarkPublished s_outbox set_outbox ref t (e, d) = (Ok tt, (e, d')) /\ dom d' = dom d.
Proof.
  intros He [sh Hsh]. unfold MarkPublished, on_conn. rewrite Hsh, call_nofault by done. eexists. split; [done|].
  rewrite dom_insert_L. apply subseteq_union_1_L. apply singleton_subseteq_l. by apply elem_of_dom_2 in Hsh.
Qed.

Lemma publish_each_run (o : Options) records : forall e d (q : Q), faults e = [] -> accepting -> honest q ->
  (forall x, x ∈ records -> is_Some (d !! rf_DBKey (tk_Ref x)) /\ exists n, close_message n (message_of x)) ->
  exists e' d' q', publish_each s_outbox set_outbox o records (e, mkDispatcher d q) = (Ok tt, (e', mkDispatcher d' q')) /\
    queued q ⊆ queued q' /\ honest q' /\
    forall x n, x ∈ records -> close_message n (message_of x) -> holds q' n.
Proof.
  induction records as [|r records IH]; intros e d q He Hacc Hh Hr.
  { exists e, d, q. split_and!; [done..|by intros x n ?%not_elem_of_nil]. }
  destruct (Hr r) as [Hkey [n Hm]]; [by left|].
  destruct (publish_run o n (message_of r) e q He Hacc Hh Hm) as (q1 & Hp & Hsub1 & Hh1 & Hn1).
  destruct (now_run e (mkDispatcher d q1)) as (e1 & Hnow & He1 & _). rewrite He in He1.
  destruct (marked_run (tk_Ref r) (clock e) e1 d He1 Hkey) as (d1 & Hmark & Hdom).
  destruct (IH e1 d1 q1 He1 Hacc Hh1) as (e2 & d2 & q2 & Hrun & Hsub2 & Hh2 & Hn2).
  { intros x Hx. destruct (Hr x) as [[sh Hk] ?]; [by right|]. split; [|done].
    apply elem_of_dom. rewrite Hdom. by apply elem_of_dom_2 in Hk. }
  exists e2, d2, q2. split_and!; [|by etrans|done|].
  - cbn [publish_each]. erewrite bind_ok_run; [|unfold attempt, on_queue, on; cbn [dp_queue]; rewrite Hp; reflexivity].
    erewrite bind_ok_run by exact Hnow. erewrite bind_ok_run; [exact Hrun|].
    unfold on_store, on. cbn [dp_conns]. by rewrite Hmark.
  - intros x k [->|Hx]%elem_of_cons Hk; [|by eapply Hn2].
    eapply holds_mono; [exact Hsub2|]. destruct Hm as (_ & Hm & _), Hk as (_ & Hk & _).
    assert (k = n) as -> by (apply TaskKey_inj; congruence). done.
Qed.

(** A run in which nothing fails enqueues every task to dispatch. *)
Lemma dispatch_run (o : Options) e d (q : Q) : faults e = [] -> d <> ∅ -> accepting -> honest q ->
  (forall key sh t, d !! key = Some sh -> t ∈ s_outbox sh -> ot_TaskType t = TaskTypeCloseTimeout ->
     exists n due, close_task n due t) ->
  exists e' s', Run s_outbox set_outbox (Some o) TaskTypeCloseTimeout (e, mkDispatcher d q) = (Ok tt, (e', s')) /\
    honest (dp_queue s') /\
    forall key sh t n due, d !! key = Some sh -> t ∈ s_outbox sh -> dispatchable t = true -> close_task n due t ->
      holds (dp_queue s') n.
Proof.
  intros He Hd Hacc Hh Hhon. unfold Run. rewrite bool_decide_eq_false_2 by done.
  destruct (list_run TaskTypeCloseTimeout (merge_sort String.le (elements (dom d))) e d He) as (items & Hl & Hin).
  { intros k Hk. rewrite merge_sort_Permutation in Hk. by apply elem_of_elements, elem_of_dom in Hk. }
  destruct (publish_each_run o (merge_sort ref_order items) e d q He Hacc Hh) as (e' & d' & q' & Hrun & _ & Hh' & Hn).
  { intros x Hx. rewrite merge_sort_Permutation in Hx. apply Hin in Hx as (key & sh & t & _ & Hsh & Ht & _ & Hty & ->).
    split; [by exists sh|]. destruct (Hhon _ _ _ Hsh Ht Hty) as (n & due & [? ? ? ?]). by exists n. }
  exists e', (mkDispatcher d' q'). split_and!; [|done|].
  - erewrite bind_ok_run; [exact Hrun|]. unfold on_store, on, ListDispatchableByTaskType. cbn [dp_conns].
    by erewrite bind_ok_run by exact Hl.
  - intros key sh t n due Hsh Ht Hdis Hct. apply (Hn (task_of key t)).
    + rewrite merge_sort_Permutation. apply Hin. exists key, sh, t. split_and!; [|done..|apply Hct|done].
      rewrite merge_sort_Permutation. apply elem_of_elements. by apply elem_of_dom_2 in Hsh.
    + destruct Hct. done.
Qed.
End run.

(** ** Rows under every step *)

Section closing.
Context {P R Q : Type} `{ProgramRpcLaws P} `{RedisHash R} `{LocalTime} `{TaskQueueLaws Q} `{ClosePayload}.
Context (svc : ServiceContext) (router : StaticRouter).
Notation deps := (sv_deps svc).
Notation W := (orders P R).
Hypothesis Hrouter : dep_Router deps = Some router.

Lemma marked_kept key (m : M (list DDelayTaskOutbox) unit) e d :
  rows_kept d (on_conn s_outbox set_outbox key m (e, d)).2.2.
Proof.
  destruct (on_conn_cases key m e d) as [->|(sh & Hsh & ->)]; [apply rows_kept_refl|].
  intros k s suffix o Hk Ho. destruct (decide (k = key)) as [->|Hne].
  - assert (s = sh) as -> by congruence. eexists _, o. rewrite lookup_insert_eq.
    split_and!; [done|exact Ho|apply same_order_refl|done].
  - exists s, o. rewrite lookup_insert_ne by done. split_and!; [done|done|apply same_order_refl|done].
Qed.

Lemma live_step_kept d d' : live_step deps d d' -> rows_kept d d'.
Proof.
  destruct 1; try apply marked_kept; apply (order_step_kept deps router Hrouter).
  - eapply step_write; [done..|by apply quiet_net].
  - apply step_cancel.
  - apply step_pay.
  - apply step_refunded.
  - apply step_close.
Qed.

Lemma live_steps_kept d d' : rtc (live_step deps) d d' -> rows_kept d d'.
Proof. induction 1; [apply rows_kept_refl|]. by eapply rows_kept_trans; [apply live_step_kept|]. Qed.

(** Whatever fails, the dispatcher makes live steps. *)
Lemma run_live publisher ty e (s : dispatcher shard Q) :
  rtc (live_step deps) (dp_conns s) (dp_conns (Run s_outbox set_outbox publisher ty (e, s)).2.2).
Proof.
  set (I := fun s' : dispatcher shard Q => rtc (live_step deps) (dp_conns s) (dp_conns s')).
  assert (Hq : forall A (m : IO Q A), keeps I (on_queue (D := shard) m)).
  { intros A m [e0 s0] Hs. unfold on_queue, on. cbn. by destruct (m (e0, dp_queue s0)) as [r [e1 t]]. }
  assert (Hst : forall A (m : IO (gmap string shard) A),
    (forall e0 d, rtc (live_step deps) d (m (e0, d)).2.2) -> keeps I (on_store (Q := Q) m)).
  { intros A m Hm [e0 s0] Hs. unfold on_store, on. cbn. specialize (Hm e0 (dp_conns s0)).
    destruct (m (e0, dp_conns s0)) as [r [e1 t]]. unfold I. cbn in *. by etrans. }
  assert (Hread : forall keys e0 (d : gmap string shard), (list_conns s_outbox set_outbox ty keys (e0, d)).2.2 = d).
  { induction keys as [|k keys IH]; intros e0 d; [done|]. cbn [list_conns]. rewrite bind_unfold. unfold attempt at 1.
    assert (Hd : (on_conn s_outbox set_outbox k (select_dispatchable ty) (e0, d)).2.2 = d).
    { destruct (on_conn_cases k (select_dispatchable ty) e0 d) as [->|(sh & Hsh & ->)]; [done|]. cbn.
      assert (set_outbox (s_outbox sh) sh = sh) as -> by (by destruct sh). by rewrite insert_id. }
    destruct (on_conn _ _ k _ (e0, d)) as [res [e1 d1]]. cbn in Hd. subst d1. destruct res as [rows|x].
    - rewrite bind_unfold. specialize (IH e1 d). by destruct (list_conns _ _ ty keys (e1, d)) as [[items|x] [e2 d2]].
    - destr_if; [apply IH|done]. }
  assert (Hpub : forall o records, keeps I (publish_each s_outbox set_outbox o records)).
  { intros o. induction records as [|r records IH]; cbn [publish_each]; [apply keeps_ret|].
    apply keeps_bind; [apply keeps_attempt, Hq|]. intros res. apply keeps_bind; [apply keeps_now|]. intros t.
    apply keeps_bind; [|by intros _]. apply Hst. intros e0 d. apply rtc_once.
    destruct res as [|x]; [apply live_published|]. destr_if; [apply live_published|apply live_failed]. }
  unfold Run. destr_if; [done|]. destruct publisher as [o|]; [|done].
  assert (Hk : keeps I (records ← on_store (ListDispatchableByTaskType s_outbox set_outbox ty);
                        publish_each s_outbox set_outbox o records)).
  { apply keeps_bind; [|intros records; apply Hpub]. apply Hst. intros e0 d. unfold ListDispatchableByTaskType.
    rewrite bind_unfold. specialize (Hread (merge_sort String.le (elements (dom d))) e0 d).
    destruct (list_conns _ _ ty _ (e0, d)) as [[items|x] [e1 d1]]; cbn in *; by rewrite Hread. }
  exact (Hk (e, s) (rtc_refl _ _)).
Qed.

(** The order of a row. *)
Lemma row_now d key sh suffix o : life_inv router d -> d !! key = Some sh -> in_table sh suffix o ->
  order_now deps d (do_OrderNumber o) o /\
  exists r rows, routes_to router (do_OrderNumber o) r /\ r_DBKey r = key /\ r_TableSuffix r = suffix /\
    s_orders sh !! suffix = Some rows /\ find (order_at (do_OrderNumber o)) rows = Some o.
Proof.
  intros Hlife Hsh Hin. pose proof (Hlife _ _ Hsh) as Hsi.
  destruct (si_place _ _ _ Hsi _ _ Hin) as (Hs1 & r & Hr & Hk & Hsx & _). destruct Hin as (rows & Hrows & Hin).
  assert (Hf : find (order_at (do_OrderNumber o)) rows = Some o).
  { destruct (find _ rows) as [o'|] eqn:E.
    - f_equal. apply find_elem in E as [Hin' Hat%row_number].
      eapply NoDup_map_inj; [by eapply si_unique|done..].
    - eapply find_none_elem in E; [|exact Hin]. unfold order_at in E. by rewrite Hs1, !Z.eqb_refl in E. }
  split; [|by exists r, rows]. exists router, r, sh. subst key suffix. split_and!; [done..|by exists rows].
Qed.

(** C11: an order whose time is over does not stay unpaid.  Take any reachable state
    of the order databases and a queue that is honest about close tasks.  A run of
    the dispatcher in which nothing fails answers success and leaves, for every
    unpaid order, a task in the queue that names it; whatever happens to the
    databases before that task is delivered, its delivery after the order's expiry,
    when nothing fails in the order database, leaves the order in its table and not
    unpaid: cancelled by it, or paid or cancelled before. *)
Theorem expired_orders_get_closed d0 d q (o : Options) e1 :
  empty_dbs d0 -> map_Forall (fun _ sh => s_outbox sh = []) d0 -> rtc (live_step deps) d0 d -> d <> ∅ ->
  accepting (Q := Q) -> honest q -> faults e1 = [] ->
  exists e1' s1, Run s_outbox set_outbox (Some o) TaskTypeCloseTimeout (e1, mkDispatcher d q) = (Ok tt, (e1', s1)) /\
  honest (dp_queue s1) /\
  forall key sh suffix row, d !! key = Some sh -> in_table sh suffix row -> do_OrderStatus row = orderStatusUnpaid ->
    in_int64 (do_OrderNumber row) = true -> 0 < do_OrderNumber row ->
  exists id payload, queued (dp_queue s1) !! id = Some (TaskTypeCloseTimeout, payload) /\
  forall e2 (w : W), rtc (live_step deps) (dp_conns s1) (ow_dbs w) -> faults e2 = [] ->
    do_OrderExpireTime row <= clock e2 ->
    (forall wall, clock e2 <= wall -> exists r, RouteByOrderNumber router wall (do_OrderNumber row) = Ok r) ->
    (forall k s x, ow_dbs w !! k = Some s -> is_Some (s_orders s !! x) -> is_Some (s_tickets s !! x)) ->
  exists row', order_now deps (ow_dbs (CloseTimeoutHandle svc payload (e2, w)).2.2) (do_OrderNumber row) row' /\
    same_order row row' /\ do_OrderStatus row' <> orderStatusUnpaid.
Proof.
  intros Hd0 Hout Hr Hne Hacc Hh He1.
  pose proof (open_inv_steps deps router Hrouter _ _ Hr (open_inv_empty router _ Hd0 Hout)) as Hopen.
  destruct (dispatch_run o e1 d q He1 Hne Hacc Hh) as (e1' & s1 & Hrun & Hh1 & Hq).
  { intros key sh t Hsh. apply (oi_honest _ (proj2 Hopen _ _ Hsh)). }
  exists e1', s1. split_and!; [done|done|]. intros key sh suffix row Hsh Hin Hst Hint Hpos.
  destruct (oi_open _ (proj2 Hopen _ _ Hsh) _ _ Hin Hst) as (t & Ht & Hct & Hdis).
  destruct (Hq _ _ _ _ _ Hsh Ht Hdis Hct) as [id Hid]. exists id, (close_payload (do_OrderNumber row)). split; [done|].
  intros e2 w Hw He2 Hexp Hroute Htick.
  pose proof (run_live (Some o) TaskTypeCloseTimeout e1 (mkDispatcher d q)) as Hlive. rewrite Hrun in Hlive. cbn in Hlive.
  assert (Hall : rtc (live_step deps) d (ow_dbs w)) by (by etrans).
  pose proof (open_inv_steps deps router Hrouter _ _ Hall Hopen) as Hopen2.
  destruct (live_steps_kept _ _ Hall key sh suffix row Hsh Hin) as (sh2 & row2 & Hsh2 & Hin2 & Hsame & _).
  assert (Hrpc : (CloseTimeoutHandle svc (close_payload (do_OrderNumber row)) (e2, w)).2
    = (CloseExpiredOrder svc (do_OrderNumber row) (e2, w)).2).
  { unfold CloseTimeoutHandle, rpc, draw. rewrite parse_marshalled, He2 by done. unfold map_err.
    by destruct (CloseExpiredOrder _ _ _) as [[]]. }
  rewrite Hrpc. destruct (row_now _ _ _ _ _ (proj1 Hopen2) Hsh2 Hin2) as (_ & r & rows & Hrt & <- & <- & Hrows & Hf).
  assert (En : do_OrderNumber row2 = do_OrderNumber row) by (by rewrite Hsame). rewrite En in *.
  assert (Eexp : do_OrderExpireTime row2 = do_OrderExpireTime row) by (by rewrite Hsame).
  destruct (decide (do_OrderStatus row2 = orderStatusUnpaid)) as [Hst2|Hst2].
  - destruct (Htick _ _ (r_TableSuffix r) Hsh2 ltac:(by eexists)) as [ts Hts].
    destruct (expired_order_closes svc (do_OrderNumber row) e2 w router r sh2 rows ts row2) as (e3 & w3 & row3 & -> & Hnow & Hst3 & Hsame3 & _);
      try done; [|by rewrite Eexp|].
    + intros wall Hwall. destruct (Hroute wall Hwall) as [r' Hr']. rewrite Hr'. f_equal. eapply routes_to_fun; [by exists wall|done].
    + exists row3. split_and!; [done|by eapply same_order_trans|by rewrite Hst3].
  - pose proof (ran_handler svc (ow_dbs w) _ _ (run_close svc (do_OrderNumber row) e2 w) (rtc_refl _ _)) as Hran.
    destruct (order_steps_kept deps router Hrouter _ _ Hran _ _ _ _ Hsh2 Hin2) as (sh3 & row3 & Hsh3 & Hin3 & Hsame3 & Hmove).
    pose proof (life_inv_steps deps router Hrouter _ _ Hran (proj1 Hopen2)) as Hlife3.
    destruct (row_now _ _ _ _ _ Hlife3 Hsh3 Hin3) as [Hnow _].
    assert (En3 : do_OrderNumber row3 = do_OrderNumber row) by (by rewrite Hsame3). rewrite En3 in Hnow.
    exists row3. split_and!; [done|by eapply same_order_trans|]. intros E3. rewrite E3 in Hmove. apply Hst2. by apply status_one.
Qed.
End closing.
