(* ===== verification/ProgramCache.v ===== *)
(** * The caches of the program service  (services/program-rpc/internal/programcache)

    An instance keeps the detail views it has assembled, the programs it has not
    found and a snapshot of the categories; the cached models keep rows in Redis.  A
    writer deletes the rows from Redis, forgets its own view and publishes a message;
    every instance that receives it forgets its view too.  The state is the world of
    the program service with the caches of one instance, the messages published and
    the outbox of preheat tasks.  A view is cached as its protobuf bytes, here as its
    value; what lapses or is evicted in an instance's cache is not a step of a reader. *)
From Stdlib Require Import ZArith Lia Ascii String.
From stdpp Require Import base gmap sets list strings sorting.
From S2P Require Import Prelude GoBase Effects Sql FreezeToken ProgramDB RefundRule RedisZ SeatDB SeatStore SeatFreeze OrderDB.
Open Scope string_scope.
Open Scope list_scope.
Open Scope Z_scope.

(** ** The detail view *)

Record ProgramSimpleInfo := mkSimple { ps_ProgramId : Z; ps_AreaId : Z; ps_AreaIdName : string }.
Record ProgramGroupInfo := mkGroupInfo { gi_Id : Z; gi_ProgramSimpleInfoVoList : list ProgramSimpleInfo; gi_RecentShowTime : string }.
Record TicketCategoryInfo := mkCategoryInfo { ci_Id : Z; ci_Introduce : string; ci_Price : Z }.

(** [dv_Texts] has no refund rule: the view does not show it. *)
Record ProgramDetailViewInfo := mkDetail {
  dv_Id : Z; dv_ProgramGroupId : Z; dv_Prime : Z; dv_ProgramGroupVo : ProgramGroupInfo; dv_Title : string;
  dv_PreSell : Z; dv_AreaId : Z; dv_AreaName : string; dv_ProgramCategoryId : Z; dv_ProgramCategoryName : string;
  dv_ParentProgramCategoryId : Z; dv_ParentProgramCategoryName : string; dv_Detail : string;
  dv_PerOrderLimitPurchaseCount : Z; dv_PerAccountLimitPurchaseCount : Z; dv_MinPerformanceCount : Z;
  dv_TotalCount : Z; dv_PermitRefund : Z; dv_RelNameTicketEntrance : Z; dv_PermitChooseSeat : Z;
  dv_ElectronicDeliveryTicket : Z; dv_ElectronicInvoice : Z; dv_HighHeat : Z; dv_ProgramStatus : Z;
  dv_Texts : texts string; dv_IssueTime : string; dv_RushSaleOpenTime : string; dv_RushSaleEndTime : string;
  dv_InventoryPreheatStatus : Z; dv_ShowTime : string; dv_ShowDayTime : string; dv_ShowWeekTime : string;
  dv_TicketCategoryVoList : list TicketCategoryInfo }.

(** [json.Unmarshal] of a group's list of programs. *)
Class GroupJson := parse_group_json : string -> option (list ProgramSimpleInfo).

Section view.
Context `{LocalFormat} `{GroupJson}.

Definition nullInt64Value (v : option Z) : Z := default 0 v.
Definition formatTime (t : time) : string := if is_zero_time t then "" else format_local t.
Definition formatNullTime (t : option time) : string := match t with None => "" | Some t => format_local t end.
Definition formatProgramShowTime (s : option DProgramShowTime) : string :=
  match s with None => "" | Some s => formatTime (st_ShowTime s) end.
Definition formatProgramShowDayTime (s : option DProgramShowTime) : string :=
  match s with None => "" | Some s => formatNullTime (st_ShowDayTime s) end.
Definition programShowWeekTime (s : option DProgramShowTime) : string :=
  match s with None => "" | Some s => st_ShowWeekTime s end.

Definition buildCategoryMap (categories : list DProgramCategory) : gmap Z DProgramCategory :=
  foldl (fun m k => <[kd_Id k := k]> m) ∅ categories.
Definition categoryName (category : option DProgramCategory) : string :=
  match category with None => "" | Some k => kd_Name k end.

Definition parseProgramGroupJSON (group : DProgramGroup) : result err ProgramGroupInfo :=
  items ← (if bool_decide (gr_ProgramJson group = "") then Ok []
           else of_option (EOther "json: cannot unmarshal") (parse_group_json (gr_ProgramJson group)));
  Ok (mkGroupInfo (gr_Id group) items (formatTime (gr_RecentShowTime group))).

Definition toTicketCategoryInfoList (cs : list DTicketCategory) : list TicketCategoryInfo :=
  map (fun c => mkCategoryInfo (tc_Id c) (tc_Introduce c) (tc_Price c)) cs.

Definition shown_texts (t : texts (option string)) : texts string :=
  let s := map_texts nullStringValue t in
  mkTexts (tx_Actor s) (tx_Place s) (tx_ItemPicture s) (tx_PreSellInstruction s) (tx_ImportantNotice s)
    (tx_RefundTicketRule s) (tx_DeliveryInstruction s) (tx_EntryRule s) (tx_ChildPurchase s)
    (tx_InvoiceSpecification s) (tx_RealTicketPurchaseRule s) (tx_AbnormalOrderDescription s)
    (tx_KindReminder s) (tx_PerformanceDuration s) (tx_EntryTime s) (tx_MainActor s)
    (tx_MinPerformanceDuration s) (tx_ProhibitedItem s) (tx_DepositSpecification s) (tx_RefundExplain s)
    "" (tx_RelNameTicketEntranceExplain s) (tx_ChooseSeatExplain s)
    (tx_ElectronicDeliveryTicketExplain s) (tx_ElectronicInvoiceExplain s).

Definition toProgramDetailViewInfo (p : DProgram) (first : DProgramShowTime) (group : ProgramGroupInfo)
  (categories : gmap Z DProgramCategory) (cs : list DTicketCategory) : ProgramDetailViewInfo :=
  mkDetail (pg_Id p) (pg_ProgramGroupId p) (pg_Prime p) group (pg_Title p) (pg_PreSell p) (pg_AreaId p) ""
    (pg_ProgramCategoryId p) (categoryName (categories !! pg_ProgramCategoryId p))
    (pg_ParentProgramCategoryId p) (categoryName (categories !! pg_ParentProgramCategoryId p)) (pg_Detail p)
    (pg_PerOrderLimitPurchaseCount p) (pg_PerAccountLimitPurchaseCount p)
    (nullInt64Value (pg_MinPerformanceCount p)) (nullInt64Value (pg_TotalCount p)) (pg_PermitRefund p)
    (pg_RelNameTicketEntrance p) (pg_PermitChooseSeat p) (pg_ElectronicDeliveryTicket p)
    (pg_ElectronicInvoice p) (pg_HighHeat p) (pg_ProgramStatus p) (shown_texts (pg_Texts p))
    (formatNullTime (pg_IssueTime p)) (formatNullTime (pg_RushSaleOpenTime p))
    (formatNullTime (pg_RushSaleEndTime p)) (pg_InventoryPreheatStatus p)
    (formatProgramShowTime (Some first)) (formatProgramShowDayTime (Some first)) (programShowWeekTime (Some first))
    (toTicketCategoryInfoList cs).

End view.

(** ** invalidation_message.go *)

Definition cacheProgramDetailView : string := "program_detail_view".
Definition cacheCategorySnapshot : string := "category_snapshot".

Record InvalidationEntry := mkEntry { ie_Cache : string; ie_ProgramID : Z }.
Record InvalidationMessage := mkInvalidation {
  im_Version : string; im_Service : string; im_InstanceID : string; im_PublishedAt : time;
  im_Entries : list InvalidationEntry }.

#[global] Instance InvalidationEntry_eq_dec : EqDecision InvalidationEntry.
Proof. solve_decision. Defined.

Definition validate_entry (e : InvalidationEntry) : result err unit :=
  if bool_decide (ie_Cache e = "") then Err (EOther "invalidation entry cache is required")
  else if bool_decide (ie_Cache e = cacheProgramDetailView) then
    if ie_ProgramID e <=? 0 then Err (EOther "program_detail_view requires program_id") else Ok tt
  else if bool_decide (ie_Cache e = cacheCategorySnapshot) then
    if negb (ie_ProgramID e =? 0) then Err (EOther "category_snapshot does not accept program_id") else Ok tt
  else Err (EOther ("unknown cache type: " +:+ ie_Cache e)).

Fixpoint validate_entries (es : list InvalidationEntry) : result err unit :=
  match es with
  | [] => Ok tt
  | e :: es => _ ← validate_entry e; validate_entries es
  end.

Definition Validate (m : InvalidationMessage) : result err unit :=
  match im_Entries m with
  | [] => Err (EOther "invalidation message entries is empty")
  | es => validate_entries es
  end.

(** encoding/json on a message. *)
Class InvalidationCodec := {
  encode_message : InvalidationMessage -> string;
  decode_message : string -> result err InvalidationMessage }.

Section messages.
Context `{InvalidationCodec}.

Definition MarshalInvalidationMessage (m : InvalidationMessage) : result err string :=
  _ ← Validate m; Ok (encode_message m).

Definition ParseInvalidationMessage (payload : string) : result err InvalidationMessage :=
  if bool_decide (payload = "") then Err (EOther "invalidation payload is empty")
  else m ← decode_message payload; _ ← Validate m; Ok m.

(** ** The caches of an instance *)

Record local_cache := mkLocal {
  lc_details : gmap Z ProgramDetailViewInfo; lc_missing : gset Z; lc_kinds : option (list DProgramCategory) }.

(** [ProgramDetailViewCache.Invalidate] and [CategorySnapshotCache.Invalidate]. *)
Definition forget_detail (programID : Z) (l : local_cache) : local_cache :=
  mkLocal (delete programID (lc_details l)) (lc_missing l ∖ {[programID]}) (lc_kinds l).
Definition forget_kinds (l : local_cache) : local_cache := mkLocal (lc_details l) (lc_missing l) None.

(** ** invalidation_registry.go *)

Fixpoint dispatch_entries (seen es : list InvalidationEntry) : M local_cache unit :=
  match es with
  | [] => mret tt
  | e :: es =>
      if bool_decide (e ∈ seen) then dispatch_entries seen es
      else
        _ ← (if bool_decide (ie_Cache e = cacheProgramDetailView) then modify (forget_detail (ie_ProgramID e))
             else if bool_decide (ie_Cache e = cacheCategorySnapshot) then modify forget_kinds
             else throw (EOther ("unknown cache type: " +:+ ie_Cache e)));
        dispatch_entries (e :: seen) es
  end.

Definition Dispatch (m : InvalidationMessage) : M local_cache unit :=
  _ ← lift (Validate m); dispatch_entries [] (im_Entries m).

(** [PubSubSubscriber.handlePayload]: what an instance does with a message. *)
Definition handlePayload (payload : string) : M local_cache unit :=
  m ← lift (ParseInvalidationMessage payload); Dispatch m.

End messages.

(** ** The state of the service *)

Record catalogue (R : Type) := mkCatalogue {
  ct_world : world R; ct_local : local_cache; ct_channel : list string; ct_tasks : list DDelayTaskOutbox }.
Arguments mkCatalogue {R} _ _ _ _.
Arguments ct_world {R} _.
Arguments ct_local {R} _.
Arguments ct_channel {R} _.
Arguments ct_tasks {R} _.

(** The service context: Redis, a publisher, the seat store and the preheat client with
    its lead time are there or not. *)
Record ServiceContext := mkProgramSvc {
  sx_Redis : bool; sx_Publisher : bool; sx_InstanceID : string;
  sx_SeatStockStore : option Cache.SeatStockStore; sx_PreheatLeadTime : option duration }.

Section caches.
Context {R : Type} `{LocalFormat} `{GroupJson} `{ColumnPrims} `{InvalidationCodec}.
Notation C := (catalogue R).

Definition in_world {A} : IO (world R) A -> IO C A :=
  on ct_world (fun w c => mkCatalogue w (ct_local c) (ct_channel c) (ct_tasks c)).
Definition on_db {A} (m : IO programdb A) : IO C A := in_world (on_programs m).
Definition on_cats {A} (m : IO (list DTicketCategory) A) : IO C A := in_world (on_categories m).
Definition in_seats {A} (m : IO (list DSeat) A) : IO C A := in_world (on_seats m).
Definition on_local {A} : IO local_cache A -> IO C A :=
  on ct_local (fun l c => mkCatalogue (ct_world c) l (ct_channel c) (ct_tasks c)).
Definition on_channel {A} : IO (list string) A -> IO C A :=
  on ct_channel (fun l c => mkCatalogue (ct_world c) (ct_local c) l (ct_tasks c)).
Definition on_tasks {A} : IO (list DDelayTaskOutbox) A -> IO C A :=
  on ct_tasks (fun t c => mkCatalogue (ct_world c) (ct_local c) (ct_channel c) t).

(** An operation on the process's own memory. *)
Definition own {S A} (m : M S A) : IO S A := fun '(e, s) => let '(r, s') := m s in (r, (e, s')).

(** [DoWithContext]: the caller may stop waiting, the load goes on. *)
Definition detached {S A} (m : IO S A) : IO S A := fun '(e, s) =>
  let '(f, e) := draw e in
  match f with
  | NoFault => m (e, s)
  | FailBefore x | FailAfter x => (Err x, (m (e, s)).2)
  end.

(** ** category_snapshot_cache.go *)

(** The load looks again: another one may have finished in between. *)
Definition load_kinds : IO C (list DProgramCategory) :=
  l ← on_local (own get);
  match lc_kinds l with
  | Some ks => mret ks
  | None =>
      res ← attempt (on_db (call FindAllKinds));
      ks ← match res with
           | Ok ks => mret ks
           | Err x => if err_is x ENotFound then mret [] else throw x
           end;
      _ ← on_local (own (modify (fun l => mkLocal (lc_details l) (lc_missing l) (Some ks))));
      mret ks
  end.

Definition GetAll : IO C (list DProgramCategory) :=
  l ← on_local (own get);
  match lc_kinds l with Some ks => mret ks | None => detached load_kinds end.

(** ** detail_loader.go *)

Definition ErrProgramNotFound : err := EOther "program detail view not found".

(** [FindOne] of the cached group model, [FindFirstByProgramId] of the cached show model. *)
Definition findGroup (id : Z) : M programdb DProgramGroup := fun db =>
  match ca_groups (cached db) !! id with
  | Some g => (of_option ENotFound g, db)
  | None => group_row id db
  end.
Definition findFirst (programId : Z) : M programdb DProgramShowTime := fun db =>
  match ca_first (cached db) !! programId with
  | Some s => (of_option ENotFound s, db)
  | None => FindFirstByProgramId programId db
  end.

Definition Load (programID : Z) : IO C ProgramDetailViewInfo :=
  program ← map_err (or_not_found ErrProgramNotFound) (on_db (call (findProgram programID)));
  firstShowTime ← map_err (or_not_found ErrProgramNotFound) (on_db (call (findFirst (pg_Id program))));
  categories ← GetAll;
  group ← map_err (or_not_found ErrProgramNotFound) (on_db (call (findGroup (pg_ProgramGroupId program))));
  groupInfo ← lift (parseProgramGroupJSON group);
  res ← attempt (on_cats (call (FindCategoriesByProgramId (pg_Id program))));
  ticketCategories ← match res with
                     | Ok cs => mret cs
                     | Err x => if err_is x ENotFound then mret [] else throw x
                     end;
  mret (toProgramDetailViewInfo program firstShowTime groupInfo (buildCategoryMap categories) ticketCategories).

(** ** detail_cache.go *)

Definition set_detail (programID : Z) (d : ProgramDetailViewInfo) (l : local_cache) : local_cache :=
  mkLocal (<[programID := d]> (lc_details l)) (lc_missing l) (lc_kinds l).
Definition set_missing (programID : Z) (l : local_cache) : local_cache :=
  mkLocal (lc_details l) ({[programID]} ∪ lc_missing l) (lc_kinds l).

(** What the instance remembers of a program: that there is none, or its view. *)
Definition remembered (programID : Z) (l : local_cache) : option (result err ProgramDetailViewInfo) :=
  if bool_decide (programID ∈ lc_missing l) then Some (Err ErrProgramNotFound)
  else Ok <$> lc_details l !! programID.

Definition load_detail (programID : Z) : IO C ProgramDetailViewInfo :=
  l ← on_local (own get);
  match remembered programID l with
  | Some r => lift r
  | None =>
      res ← attempt (Load programID);
      match res with
      | Ok d => _ ← on_local (own (modify (set_detail programID d))); mret d
      | Err x =>
          if err_is x ErrProgramNotFound then
            _ ← on_local (own (modify (set_missing programID))); throw ErrProgramNotFound
          else throw x
      end
  end.

Definition GetDetail (programID : Z) : IO C ProgramDetailViewInfo :=
  l ← on_local (own get);
  match remembered programID l with Some r => lift r | None => detached (load_detail programID) end.

(** get_program_detail_view_logic.go *)
Definition GetProgramDetailView (id : Z) : IO C ProgramDetailViewInfo :=
  map_err (fun x => if err_is x ErrProgramNotFound then programNotFoundError else x) (GetDetail id).

(** ** cache_invalidator.go *)

(** [DEL] of the program's row, its first show and its groups. *)
Definition evict (programID : Z) (groupIDs : list Z) (db : programdb) : programdb :=
  let c := cached db in
  set_cached (mkCache (delete programID (ca_programs c)) (ca_shows c)
    (foldr (fun g m => if g <=? 0 then m else delete g m) (ca_groups c) groupIDs) (delete programID (ca_first c))) db.

Variable svc : ServiceContext.

Definition publish (entries : list InvalidationEntry) : IO C unit :=
  if negb (sx_Publisher svc) then mret tt
  else
    t ← now;
    payload ← lift (MarshalInvalidationMessage (mkInvalidation "v1" "program-rpc" (sx_InstanceID svc) t entries));
    on_channel (call (modify (fun ch => ch ++ [payload]))).

Definition InvalidateProgram (programID : Z) (groupIDs : list Z) : IO C unit :=
  if programID <=? 0 then throw (EOther "program id must be greater than zero")
  else
    _ ← (if sx_Redis svc then on_db (call (modify (evict programID groupIDs))) else mret tt);
    _ ← on_local (own (modify (forget_detail programID)));
    publish [mkEntry cacheProgramDetailView programID].

Definition InvalidateCategorySnapshot : IO C unit :=
  _ ← on_local (own (modify forget_kinds));
  publish [mkEntry cacheCategorySnapshot 0].

End caches.

(** ** A reader after an invalidation *)

Class InvalidationCodecLaws `{InvalidationCodec} := {
  decode_encode m : decode_message (encode_message m) = Ok m;
  encode_nonempty m : encode_message m <> "" }.

(** The view of a program as the tables have it. *)
Definition fresh_view `{LocalFormat} `{GroupJson} (programID : Z) (db : programdb) (cs : list DTicketCategory)
  : result err ProgramDetailViewInfo :=
  match programs db !! programID with
  | None => Err ErrProgramNotFound
  | Some p =>
  match first_show programID db with
  | None => Err ErrProgramNotFound
  | Some s =>
  match (group_row (pg_ProgramGroupId p) db).1 with
  | Err _ => Err ErrProgramNotFound
  | Ok g =>
      info ← parseProgramGroupJSON g;
      Ok (toProgramDetailViewInfo p s info (buildCategoryMap (live_kinds (fun _ => true) db))
            (live_categories (fun c => tc_ProgramId c =? programID) cs))
  end end end.

Section invalidation.
Context {R : Type} `{LocalFormat} `{GroupJson} `{ColumnPrims} `{InvalidationCodecLaws}.
Notation C := (catalogue R).

Definition ct_db (c : C) : programdb := w_programs (ct_world c).
Definition ct_cats (c : C) : list DTicketCategory := w_categories (ct_world c).

Lemma on_db_read {A} (m : M programdb A) e (c : C) : faults e = [] -> readonly m ->
  on_db (call m) (e, c) = ((m (ct_db c)).1, (e, c)).
Proof.
  intros He Hm. unfold on_db, in_world, on, on_programs, on. rewrite call_nofault by done.
  rewrite Hm. by destruct c as [[] ? ? ?].
Qed.

Definition upd_db (f : programdb -> programdb) (c : C) : C :=
  let w := ct_world c in
  mkCatalogue (mkWorld (w_redis w) (w_seats w) (f (w_programs w)) (w_categories w)) (ct_local c) (ct_channel c) (ct_tasks c).
Definition upd_local (f : local_cache -> local_cache) (c : C) : C :=
  mkCatalogue (ct_world c) (f (ct_local c)) (ct_channel c) (ct_tasks c).

Lemma on_db_modify f e (c : C) : faults e = [] -> on_db (call (modify f)) (e, c) = (Ok tt, (e, upd_db f c)).
Proof.
  intros He. unfold on_db, in_world, on, on_programs, on. by rewrite call_nofault by done.
Qed.

Lemma on_local_modify f e (c : C) : on_local (own (modify f)) (e, c) = (Ok tt, (e, upd_local f c)).
Proof. done. Qed.

Lemma on_channel_append x e (c : C) : faults e = [] ->
  on_channel (call (modify (fun ch => ch ++ [x]))) (e, c)
  = (Ok tt, (e, mkCatalogue (ct_world c) (ct_local c) (ct_channel c ++ [x]) (ct_tasks c))).
Proof. intros He. unfold on_channel, on. by rewrite call_nofault by done. Qed.

Lemma on_cats_read {A} (m : M (list DTicketCategory) A) e (c : C) : faults e = [] -> readonly m ->
  on_cats (call m) (e, c) = ((m (ct_cats c)).1, (e, c)).
Proof.
  intros He Hm. unfold on_cats, in_world, on, on_categories, on. rewrite call_nofault by done.
  rewrite Hm. by destruct c as [[] ? ? ?].
Qed.

Lemma findFirst_readonly p : readonly (findFirst p).
Proof. intros db. unfold findFirst. by destruct (ca_first (cached db) !! p). Qed.
Lemma findGroup_readonly g : readonly (findGroup g).
Proof. intros db. unfold findGroup, group_row. by destruct (ca_groups (cached db) !! g). Qed.

(** The snapshot of the categories is the table's, or will be loaded. *)
Definition kinds_current (c : C) : Prop :=
  forall ks, lc_kinds (ct_local c) = Some ks -> ks = live_kinds (fun _ => true) (ct_db c).

Lemma get_all_run e (c : C) : faults e = [] -> kinds_current c ->
  exists c', GetAll (e, c) = (Ok (live_kinds (fun _ => true) (ct_db c)), (e, c')) /\ ct_world c' = ct_world c.
Proof.
  intros He Hk. unfold GetAll, load_kinds, detached, on_local, on, own, get. rewrite bind_unfold. cbn.
  destruct c as [w l ch ts]. cbn in *. destruct (lc_kinds l) as [ks|] eqn:E.
  - exists (mkCatalogue w l ch ts). by rewrite (Hk ks E).
  - unfold draw. rewrite He. rewrite !bind_unfold. cbn. rewrite E. rewrite bind_unfold. unfold attempt.
    rewrite on_db_read by done. cbn. eexists. by split.
Qed.

(** Nothing of the program is cached, and no other version of its group. *)
Definition program_evicted (c : C) (p : Z) : Prop :=
  ca_programs (cached (ct_db c)) !! p = None /\ ca_first (cached (ct_db c)) !! p = None /\
  forall row, programs (ct_db c) !! p = Some row -> ca_groups (cached (ct_db c)) !! pg_ProgramGroupId row = None.

Lemma load_run p e (c : C) : faults e = [] -> kinds_current c -> program_evicted c p ->
  map_Forall (fun id row => pg_Id row = id) (programs (ct_db c)) ->
  exists r c', Load p (e, c) = (r, (e, c')) /\ r = fresh_view p (ct_db c) (ct_cats c).
Proof.
  intros He Hk (Hp & Hf & Hg) Hkeys. unfold Load, fresh_view. rewrite bind_unfold. unfold map_err at 1.
  rewrite on_db_read by done. cbn. unfold seen_program, cached_row. rewrite Hp.
  destruct (programs (ct_db c) !! p) as [row|] eqn:E; cbn; [|by do 2 eexists].
  rewrite (Hkeys _ _ E). rewrite bind_unfold. unfold map_err at 1. rewrite on_db_read by (done || apply findFirst_readonly).
  cbn. unfold findFirst. rewrite Hf. cbn. destruct (first_show p (ct_db c)) as [s|]; cbn; [|by do 2 eexists].
  destruct (get_all_run e c He Hk) as (c1 & Hga & Hw). rewrite bind_unfold, Hga.
  assert (Hdb : ct_db c1 = ct_db c) by (unfold ct_db; by rewrite Hw).
  assert (Hcs : ct_cats c1 = ct_cats c) by (unfold ct_cats; by rewrite Hw).
  rewrite bind_unfold. unfold map_err at 1. rewrite on_db_read by (done || apply findGroup_readonly).
  rewrite Hdb. unfold findGroup. rewrite (Hg _ eq_refl). unfold group_row. cbn.
  destruct (groups (ct_db c) !! pg_ProgramGroupId row) as [g|]; cbn; [|by do 2 eexists].
  destruct (gr_Status g =? 1); cbn; [|by do 2 eexists].
  rewrite bind_unfold. cbn. destruct (parseProgramGroupJSON g) as [info|x]; cbn; [|by do 2 eexists].
  rewrite bind_unfold. unfold attempt. rewrite on_cats_read by done. rewrite Hcs. cbn. by do 2 eexists.
Qed.

Lemma evict_groups gs (m : gmap Z (option DProgramGroup)) g : g ∈ gs -> 0 < g ->
  foldr (fun g m => if g <=? 0 then m else delete g m) m gs !! g = None.
Proof.
  intros Hin Hpos. induction gs as [|x gs IH]; [by apply not_elem_of_nil in Hin|]. cbn.
  destruct (Z.leb_spec x 0) as [Hx|Hx].
  - apply elem_of_cons in Hin as [->|Hin]; [lia|by apply IH].
  - destruct (decide (g = x)) as [->|Hne]; [by rewrite lookup_delete_eq|].
    rewrite lookup_delete_ne by done. apply IH. by apply elem_of_cons in Hin as [->|Hin].
Qed.

Variable svc : ServiceContext.

Lemma detail_entry_valid p : 0 < p -> validate_entry (mkEntry cacheProgramDetailView p) = Ok tt.
Proof.
  intros Hp. unfold validate_entry. cbn [ie_Cache ie_ProgramID].
  rewrite bool_decide_eq_false_2, bool_decide_eq_true_2 by done. by destruct (Z.leb_spec p 0); [lia|].
Qed.

(** An invalidation that nothing disturbs: the rows are gone from Redis, the tables
    are as they were, and one message says so. *)
Lemma invalidate_run p gs e (c : C) :
  faults e = [] -> sx_Redis svc = true -> sx_Publisher svc = true -> 0 < p ->
  exists e' c' t, InvalidateProgram svc p gs (e, c) = (Ok tt, (e', c')) /\
    ct_channel c' = ct_channel c ++
      [encode_message (mkInvalidation "v1" "program-rpc" (sx_InstanceID svc) t [mkEntry cacheProgramDetailView p])] /\
    ct_db c' = evict p gs (ct_db c) /\ ct_cats c' = ct_cats c.
Proof.
  intros He Hr Hp Hpos. unfold InvalidateProgram. destruct (Z.leb_spec p 0) as [|_]; [lia|]. rewrite Hr.
  rewrite (bind_ok_run _ _ _ _ _ (on_db_modify _ _ _ He)), (bind_ok_run _ _ _ _ _ (on_local_modify _ _ _)).
  unfold publish. rewrite Hp. cbn [negb]. set (c1 := upd_local _ _).
  destruct (now_run e c1) as (e' & Hn & He' & _). rewrite (bind_ok_run _ _ _ _ _ Hn).
  unfold MarshalInvalidationMessage, Validate, validate_entries. cbn [im_Entries].
  rewrite detail_entry_valid by done.
  erewrite bind_ok_run by reflexivity. rewrite on_channel_append by (by rewrite He').
  do 3 eexists. by split_and!.
Qed.

Lemma handle_detail p t (l : local_cache) : 0 < p ->
  handlePayload (encode_message (mkInvalidation "v1" "program-rpc" (sx_InstanceID svc) t [mkEntry cacheProgramDetailView p])) l
  = (Ok tt, forget_detail p l).
Proof.
  intros Hp. unfold handlePayload, ParseInvalidationMessage.
  rewrite bool_decide_eq_false_2 by apply encode_nonempty. rewrite bind_unfold. unfold lift at 1.
  rewrite decode_encode. unfold Dispatch, Validate, lift. cbn -[validate_entry]. rewrite detail_entry_valid by done.
  cbn -[validate_entry]. rewrite bind_unfold. cbn -[validate_entry]. by rewrite detail_entry_valid by done.
Qed.

(** C14: the caches of a program are coherent after an invalidation.  When the
    invalidation of a program and of the group it is in goes through, it publishes one
    message, and an instance that has handled it answers the detail view of the program
    exactly as the tables have it, whatever it and Redis had cached of the program
    before; what it needs besides is a snapshot of the categories that is not old. *)
Theorem view_after_invalidation p gs e (c : C) :
  faults e = [] -> sx_Redis svc = true -> sx_Publisher svc = true -> 0 < p ->
  map_Forall (fun id row => pg_Id row = id) (programs (ct_db c)) ->
  (forall row, programs (ct_db c) !! p = Some row -> pg_ProgramGroupId row ∈ gs /\ 0 < pg_ProgramGroupId row) ->
  exists e' c' payload, InvalidateProgram svc p gs (e, c) = (Ok tt, (e', c')) /\
    ct_channel c' = ct_channel c ++ [payload] /\
    forall l ch ts e2, faults e2 = [] ->
      (forall ks, lc_kinds l = Some ks -> ks = live_kinds (fun _ => true) (ct_db c)) ->
    exists l', handlePayload payload l = (Ok tt, l') /\
      (GetProgramDetailView p (e2, mkCatalogue (ct_world c') l' ch ts)).1
      = match fresh_view p (ct_db c) (ct_cats c) with
        | Ok d => Ok d
        | Err x => Err (if err_is x ErrProgramNotFound then programNotFoundError else x)
        end.
Proof.
  intros He Hr Hp Hpos Hkeys Hgs. destruct (invalidate_run p gs e c He Hr Hp Hpos) as (e' & c' & t & Hrun & Hch & Hdb & Hcs).
  exists e', c'. eexists. split_and!; [done|done|]. intros l ch ts e2 He2 Hk. exists (forget_detail p l).
  split; [by apply handle_detail|]. set (c2 := mkCatalogue _ _ _ _).
  destruct (load_run p e2 c2) as (r & c3 & Hl & Hfresh); [done|..].
  - intros ks Hks. unfold ct_db, c2 in *. cbn in *. rewrite Hdb. by apply Hk.
  - unfold program_evicted, ct_db, c2 in *. cbn. rewrite Hdb. cbn. rewrite !lookup_delete_eq. split_and!; [done..|].
    intros row Hrow. apply evict_groups; by apply Hgs.
  - unfold ct_db, c2 in *. cbn. by rewrite Hdb.
  - assert (Hf2 : fresh_view p (ct_db c2) (ct_cats c2) = fresh_view p (ct_db c) (ct_cats c)).
    { unfold ct_db, ct_cats, c2 in *. cbn. by rewrite Hdb, Hcs. }
    rewrite Hf2 in Hfresh. subst r. unfold GetProgramDetailView, map_err, GetDetail, load_detail, detached, on_local, on, own, get.
    rewrite bind_unfold. cbn -[Load]. unfold remembered, draw. cbn -[Load]. rewrite bool_decide_eq_false_2 by set_solver.
    rewrite lookup_delete_eq. cbn -[Load]. rewrite He2. rewrite bind_unfold. cbn -[Load].
    rewrite bool_decide_eq_false_2 by set_solver. rewrite lookup_delete_eq. cbn -[Load].
    fold c2. rewrite bind_unfold. unfold attempt. rewrite Hl.
    destruct (fresh_view p (ct_db c) (ct_cats c)) as [d|x]; cbn; [done|].
    destruct (err_is x ErrProgramNotFound) eqn:Ex; cbn; [done|by rewrite Ex].
Qed.

End invalidation.
