(* ===== verification/ProgramAdmin.v ===== *)
(** * Writing the catalogue  (services/program-rpc/internal/logic)

    Creating and changing programs, show times, ticket categories, seats and kinds of
    programs: each handler checks its request, writes in a transaction, invalidates the
    caches, and schedules the preheat of the program's inventory before its sale opens.
    A failed invalidation is only logged. *)
From Stdlib Require Import ZArith Lia Ascii String.
From stdpp Require Import base gmap sets list strings sorting.
From S2P Require Import Prelude GoBase Effects Sql FreezeToken ProgramDB RefundRule RedisZ SeatDB SeatStore SeatFreeze OrderDB ProgramCache.
Open Scope string_scope.
Open Scope list_scope.
Open Scope Z_scope.

(** ** Requests *)

(** The message of CreateProgram; UpdateProgram has the same fields and an id. *)
Record CreateProgramReq := mkProgramReq {
  rq_ProgramGroupId : Z; rq_Prime : Z; rq_AreaId : Z; rq_ProgramCategoryId : Z; rq_ParentProgramCategoryId : Z;
  rq_Title : string; rq_Detail : string; rq_PreSell : Z; rq_PerOrderLimitPurchaseCount : Z;
  rq_PerAccountLimitPurchaseCount : Z; rq_MinPerformanceCount : Z; rq_TotalCount : Z; rq_PermitRefund : Z;
  rq_RelNameTicketEntrance : Z; rq_PermitChooseSeat : Z; rq_ElectronicDeliveryTicket : Z; rq_ElectronicInvoice : Z;
  rq_HighHeat : Z; rq_ProgramStatus : Z; rq_Texts : texts string; rq_IssueTime : string;
  rq_RushSaleOpenTime : string; rq_RushSaleEndTime : string; rq_Status : Z }.
Record UpdateProgramReq := mkUpdateReq { up_Id : Z; up_Fields : CreateProgramReq }.

Record ProgramShowTimeAddReq := mkShowTimeAdd {
  sa_ProgramId : Z; sa_ShowTime : string; sa_ShowDayTime : string; sa_ShowWeekTime : string; sa_ShowEndTime : string }.
Record UpdateProgramShowTimeReq := mkShowTimeUpdate { su_Id : Z; su_ShowWeekTime : string; su_ShowEndTime : string }.
Record TicketCategoryAddReq := mkCategoryAdd {
  ta_ProgramId : Z; ta_Introduce : string; ta_Price : Z; ta_TotalNumber : Z; ta_RemainNumber : Z }.
Record SeatAddReq := mkSeatAdd {
  sr_ProgramId : Z; sr_TicketCategoryId : Z; sr_RowCode : Z; sr_ColCode : Z; sr_SeatType : Z; sr_Price : Z; sr_SeatStatus : Z }.
Record SeatBatchRelateInfoAddReq := mkBatchItem { bi_TicketCategoryId : Z; bi_Price : Z; bi_Count : Z }.
Record SeatBatchAddReq := mkBatchAdd { ba_ProgramId : Z; ba_List : list SeatBatchRelateInfoAddReq }.
Record ProgramCategoryBatchItem := mkKindItem { ki_ParentId : Z; ki_Name : string; ki_Type : Z }.

#[global] Instance ProgramCategoryBatchItem_eq_dec : EqDecision ProgramCategoryBatchItem.
Proof. solve_decision. Defined.

(** ** program_write_helper.go *)

Record programWriteValues := mkValues {
  pv_id : Z; pv_programGroupId : Z; pv_prime : Z; pv_areaId : Z; pv_programCategoryId : Z;
  pv_parentProgramCategoryId : Z; pv_title : string; pv_detail : string; pv_preSell : Z;
  pv_perOrderLimitPurchaseCount : Z; pv_perAccountLimitPurchaseCount : Z; pv_minPerformanceCount : Z;
  pv_totalCount : Z; pv_permitRefund : Z; pv_relNameTicketEntrance : Z; pv_permitChooseSeat : Z;
  pv_electronicDeliveryTicket : Z; pv_electronicInvoice : Z; pv_highHeat : Z; pv_programStatus : Z;
  pv_texts : texts string; pv_issueTime : string; pv_rushSaleOpenTime : string; pv_rushSaleEndTime : string;
  pv_inventoryPreheatStatus : Z; pv_status : Z }.

(** The id a caller sets afterwards. *)
Definition with_id (id : Z) (v : programWriteValues) : programWriteValues :=
  mkValues id (pv_programGroupId v) (pv_prime v) (pv_areaId v) (pv_programCategoryId v) (pv_parentProgramCategoryId v)
    (pv_title v) (pv_detail v) (pv_preSell v) (pv_perOrderLimitPurchaseCount v) (pv_perAccountLimitPurchaseCount v)
    (pv_minPerformanceCount v) (pv_totalCount v) (pv_permitRefund v) (pv_relNameTicketEntrance v)
    (pv_permitChooseSeat v) (pv_electronicDeliveryTicket v) (pv_electronicInvoice v) (pv_highHeat v)
    (pv_programStatus v) (pv_texts v) (pv_issueTime v) (pv_rushSaleOpenTime v) (pv_rushSaleEndTime v)
    (pv_inventoryPreheatStatus v) (pv_status v).

Definition newCreateProgramValues (r : CreateProgramReq) : programWriteValues :=
  mkValues 0 (rq_ProgramGroupId r) (rq_Prime r) (rq_AreaId r) (rq_ProgramCategoryId r) (rq_ParentProgramCategoryId r)
    (rq_Title r) (rq_Detail r) (rq_PreSell r) (rq_PerOrderLimitPurchaseCount r) (rq_PerAccountLimitPurchaseCount r)
    (rq_MinPerformanceCount r) (rq_TotalCount r) (rq_PermitRefund r) (rq_RelNameTicketEntrance r)
    (rq_PermitChooseSeat r) (rq_ElectronicDeliveryTicket r) (rq_ElectronicInvoice r) (rq_HighHeat r)
    (rq_ProgramStatus r) (rq_Texts r) (rq_IssueTime r) (rq_RushSaleOpenTime r) (rq_RushSaleEndTime r) 0 (rq_Status r).

Definition newUpdateProgramValues (r : UpdateProgramReq) : programWriteValues :=
  with_id (up_Id r) (newCreateProgramValues (up_Fields r)).

Definition default_to (d x : Z) : Z := if x =? 0 then d else x.

Definition applyCreateProgramDefaults (v : programWriteValues) : programWriteValues :=
  mkValues (pv_id v) (pv_programGroupId v) (default_to 1 (pv_prime v)) (pv_areaId v) (pv_programCategoryId v)
    (pv_parentProgramCategoryId v) (pv_title v) (pv_detail v) (pv_preSell v)
    (default_to 6 (pv_perOrderLimitPurchaseCount v)) (default_to 6 (pv_perAccountLimitPurchaseCount v))
    (pv_minPerformanceCount v) (pv_totalCount v) (pv_permitRefund v) (pv_relNameTicketEntrance v)
    (pv_permitChooseSeat v) (default_to 1 (pv_electronicDeliveryTicket v)) (default_to 1 (pv_electronicInvoice v))
    (pv_highHeat v) (default_to 1 (pv_programStatus v)) (pv_texts v) (pv_issueTime v) (pv_rushSaleOpenTime v)
    (pv_rushSaleEndTime v) (pv_inventoryPreheatStatus v) (default_to 1 (pv_status v)).

Definition nullString (value : string) : option string :=
  if bool_decide (trim_space value = "") then None else Some value.
Definition nullInt64 (value : Z) : option Z := if value <=? 0 then None else Some value.
Definition programGroupNotFoundError : err := EStatus NotFound "program group not found".
Definition parse_error : err := EOther "parsing time".

Section values.
Context `{LocalTime}.

Definition parseNullTime (value : string) : result err (option time) :=
  if bool_decide (trim_space value = "") then Ok None
  else match parse_local value with Some t => Ok (Some t) | None => Err parse_error end.

Definition unreadable (value : string) : bool :=
  negb (bool_decide (value = "")) && bool_decide (parse_local value = None).

Definition validateProgramWriteValues (v : programWriteValues) (requireID : bool) : result err unit :=
  if requireID && (pv_id v <=? 0) then Err invalidParam
  else if (pv_programGroupId v <=? 0) || (pv_areaId v <=? 0) || (pv_programCategoryId v <=? 0)
    || (pv_parentProgramCategoryId v <=? 0) || bool_decide (trim_space (pv_title v) = "")
    || bool_decide (trim_space (pv_detail v) = "") then Err invalidParam
  else if unreadable (pv_issueTime v) then Err invalidParam
  else if unreadable (pv_rushSaleOpenTime v) then Err invalidParam
  else if unreadable (pv_rushSaleEndTime v) then Err invalidParam
  else if requireID && (bool_decide (trim_space (pv_rushSaleOpenTime v) = "")
                        || bool_decide (trim_space (pv_rushSaleEndTime v) = "")) then Err invalidParam
  else if negb (bool_decide (pv_rushSaleOpenTime v = "")) && negb (bool_decide (pv_rushSaleEndTime v = "")) then
    let openAt := default zero_time (parse_local (pv_rushSaleOpenTime v)) in
    let endAt := default zero_time (parse_local (pv_rushSaleEndTime v)) in
    if endAt <? openAt then Err invalidParam else Ok tt
  else Ok tt.

Definition or_invalid {A} (r : result err A) : result err A :=
  match r with Ok a => Ok a | Err _ => Err invalidParam end.

Definition buildProgramModel (v : programWriteValues) (now : time) : result err DProgram :=
  issueTime ← or_invalid (parseNullTime (pv_issueTime v));
  rushSaleOpenTime ← or_invalid (parseNullTime (pv_rushSaleOpenTime v));
  rushSaleEndTime ← or_invalid (parseNullTime (pv_rushSaleEndTime v));
  Ok (mkProgram (pv_id v) (pv_programGroupId v) (pv_prime v) (pv_areaId v) (pv_programCategoryId v)
    (pv_parentProgramCategoryId v) (pv_title v) (pv_detail v) (pv_preSell v) (pv_perOrderLimitPurchaseCount v)
    (pv_perAccountLimitPurchaseCount v) (nullInt64 (pv_minPerformanceCount v)) (nullInt64 (pv_totalCount v))
    (pv_permitRefund v) (pv_relNameTicketEntrance v) (pv_permitChooseSeat v) (pv_electronicDeliveryTicket v)
    (pv_electronicInvoice v) (pv_highHeat v) (pv_programStatus v) (map_texts nullString (pv_texts v)) issueTime
    rushSaleOpenTime rushSaleEndTime (pv_inventoryPreheatStatus v) now now (pv_status v)).

(** ** program_sale_window_helper.go *)

Definition validateShowTimeAgainstProgramRushSaleOpenTime (p : DProgram) (showTime : time) : result err unit :=
  match pg_RushSaleOpenTime p with
  | None => Ok tt
  | Some openAt => if is_zero_time showTime then Ok tt else if showTime <? openAt then Err invalidParam else Ok tt
  end.

End values.

(** ** jobs/rush-inventory-preheat/taskdef *)

Definition TaskTypeRushInventoryPreheat : string := "program.rush_inventory_preheat".

Record RushInventoryPreheatPayload := mkPreheatPayload {
  pp_ProgramId : Z; pp_ExpectedRushSaleOpenTime : string; pp_LeadTime : string }.

(** Keeps the characters of a string that satisfy a test. *)
Fixpoint keep_chars (p : ascii -> bool) (s : string) : string :=
  match s with
  | EmptyString => ""
  | String c s => if p c then String c (keep_chars p s) else keep_chars p s
  end.

Section task.
Context `{LocalFormat}.

(** The layout "20060102150405" writes the digits of [format_local]'s. *)
Definition format_compact (t : time) : string := keep_chars is_digit (format_local t).

Definition PreheatTaskKey (programID : Z) (expectedOpenTime : time) : string :=
  TaskTypeRushInventoryPreheat +:+ ":" +:+ format_int programID +:+ ":" +:+ format_compact expectedOpenTime.

(** [json.Marshal] of the payload: its strings have nothing to escape. *)
Definition preheat_payload (programID : Z) (expectedOpenTime : time) (leadTime : duration) : string :=
  let field name := quote +:+ name +:+ quote +:+ ":" in
  "{" +:+ field "programId" +:+ format_int programID +:+ "," +:+
  field "expectedRushSaleOpenTime" +:+ quote +:+ format_local expectedOpenTime +:+ quote +:+ "," +:+
  field "leadTime" +:+ quote +:+ duration_string leadTime +:+ quote +:+ "}".

(** [taskdef.NewMessage], as the row of the outbox that carries it. *)
Definition preheat_task (id programID : Z) (expectedOpenTime : time) (leadTime : duration) (now : time) : DDelayTaskOutbox :=
  mkTask id TaskTypeRushInventoryPreheat (PreheatTaskKey programID expectedOpenTime)
    (preheat_payload programID expectedOpenTime leadTime) (expectedOpenTime - leadTime) 0 0 0 "" "" None None now now 1.

End task.

(** ** inventory_preheat_guard_helper.go *)

Definition ensureProgramInventoryMutableRecord (p : DProgram) : result err unit :=
  if pg_InventoryPreheatStatus p =? 2 then Err (EX ErrProgramInventoryPreheated) else Ok tt.

Definition mapInventoryMutationError (e : err) : err :=
  if negb (bool_decide (status_code e = UnknownCode)) then e
  else if err_is_x e ErrInvalidParam then statusX InvalidArgument ErrInvalidParam
  else if err_is_x e ErrProgramShowTimeNotFound then statusX NotFound ErrProgramShowTimeNotFound
  else if err_is_x e ErrProgramTicketCategoryNotFound then statusX NotFound ErrProgramTicketCategoryNotFound
  else if err_is_x e ErrProgramInventoryPreheated then statusX FailedPrecondition ErrProgramInventoryPreheated
  else if err_is_x e ErrInternal then statusX InternalCode ErrInternal
  else e.

(** ** program_management_helper.go *)

(** The positive values, each once, ascending. *)
Definition uniqueInt64Values (values : list Z) : list Z :=
  merge_sort Z.le (uniqueSeatIDs values).

Section handlers.
Context {R : Type} `{RedisZ R} `{LocalTime} `{LocalFormat} `{GroupJson} `{ColumnPrims} `{InvalidationCodec}.
Notation C := (catalogue R).
Variable svc : ServiceContext.

(** [if err := ...Invalidate...; err != nil { l.Errorf(...) }]. *)
Definition logged (m : IO C unit) : IO C unit := _ ← attempt m; mret tt.

Definition clear_category (showTimes : gmap Z Z) (store : Cache.SeatStockStore) (ticketCategoryID : Z) : IO C unit :=
  if ticketCategoryID <=? 0 then mret tt
  else
    let showTimeID := default 0 (showTimes !! ticketCategoryID) in
    if showTimeID <=? 0 then mret tt
    else
      res ← attempt (in_world (on_redis (Cache.Clear (Some store) showTimeID ticketCategoryID)));
      match res with
      | Ok _ => mret tt
      | Err x => if err_is_x x ErrProgramSeatLedgerNotReady then mret tt else throw x
      end.

Definition find_categories (programID : Z) : IO C (list DTicketCategory) :=
  res ← attempt (on_cats (call (FindCategoriesByProgramId programID)));
  match res with Ok cs => mret cs | Err x => if err_is x ENotFound then mret [] else throw x end.

Definition show_of_category (cs : list DTicketCategory) : gmap Z Z :=
  foldl (fun m c => if (tc_Id c <=? 0) || (tc_ShowTimeId c <=? 0) then m else <[tc_Id c := tc_ShowTimeId c]> m) ∅ cs.

Definition clearProgramSeatLedgers (programID : Z) (ticketCategoryIDs : list Z) : IO C unit :=
  match sx_SeatStockStore svc with
  | None => mret tt
  | Some store =>
      cs ← find_categories programID;
      each (clear_category (show_of_category cs) store) (uniqueInt64Values ticketCategoryIDs)
  end.

Definition clearProgramSeatLedgersByProgram (programID : Z) : IO C unit :=
  cs ← find_categories programID;
  clearProgramSeatLedgers programID (map tc_Id cs).

(** ** rush_inventory_preheat_helper.go *)

(** [EnqueueWithConn]: the task of this opening starts over when it exists. *)
Definition EnqueueWithConn (leadTime : duration) (programID : Z) (expectedOpenTime : time) : IO C unit :=
  t ← now;
  id ← newID;
  on_tasks (call (InsertTaskRows [preheat_task id programID expectedOpenTime leadTime t])).

(** Every caller hands over its transaction, so nothing is undone here. *)
Definition scheduleRushInventoryPreheat (p : DProgram) : IO C unit :=
  match pg_RushSaleOpenTime p, sx_PreheatLeadTime svc with
  | Some openAt, Some leadTime =>
      res ← attempt (on_db (call (FindShowTimesByProgramIds [pg_Id p])));
      match res with
      | Err x => if err_is x ENotFound then mret tt else throw x
      | Ok [] => mret tt
      | Ok _ =>
          t ← now;
          _ ← (if pg_InventoryPreheatStatus p =? 1 then mret tt
               else on_db (call (UpdateProgramRow (set_program (pg_ProgramStatus p) 1 (pg_CreateTime p) t p))));
          EnqueueWithConn leadTime (pg_Id p) openAt
      end
  | _, _ => mret tt
  end.

(** ** create_program_logic.go, update_program_logic.go *)

Definition CreateProgram (r : CreateProgramReq) : IO C Z :=
  let values := applyCreateProgramDefaults (newCreateProgramValues r) in
  _ ← lift (validateProgramWriteValues values false);
  t ← now;
  programID ← newID;
  let values := with_id programID values in
  data ← lift (buildProgramModel values t);
  _ ← transact (
    _ ← map_err (or_not_found programGroupNotFoundError) (on_db (call (group_row (pv_programGroupId values))));
    _ ← on_db (call (InsertProgramRow data));
    scheduleRushInventoryPreheat data);
  _ ← logged (InvalidateProgram svc programID [pv_programGroupId values]);
  mret programID.

Definition validateProgramRushSaleWindowAgainstExistingShowTimes (programID : Z) (rushSaleOpenTime : string) : IO C unit :=
  if (programID <=? 0) || bool_decide (trim_space rushSaleOpenTime = "") then mret tt
  else
    res ← attempt (on_db (call (FindFirstByProgramId programID)));
    match res with
    | Err x => if bool_decide (x = ENotFound) then mret tt else throw x
    | Ok first =>
        match parse_local rushSaleOpenTime with
        | None => throw invalidParam
        | Some openAt => if st_ShowTime first <? openAt then throw invalidParam else mret tt
        end
    end.

(** What the transaction of UpdateProgram writes over the row it has locked. *)
Definition update_tx (values : programWriteValues) (data : DProgram) : IO C (list Z) :=
  _ ← map_err (or_not_found programGroupNotFoundError) (on_db (call (group_row (pv_programGroupId values))));
  current ← map_err (or_not_found programNotFoundError) (on_db (call (FindProgramForUpdate (pv_id values))));
  let data := set_program (pg_ProgramStatus data) (pg_InventoryPreheatStatus current) (pg_CreateTime current) (pg_EditTime data) data in
  let groupIDs := if pg_ProgramGroupId current =? pv_programGroupId values then [pv_programGroupId values]
                  else [pv_programGroupId values; pg_ProgramGroupId current] in
  _ ← validateProgramRushSaleWindowAgainstExistingShowTimes (pv_id values) (pv_rushSaleOpenTime values);
  let shouldReschedule := negb (bool_decide (pg_RushSaleOpenTime current = pg_RushSaleOpenTime data))
                          || negb (bool_decide (pg_RushSaleEndTime current = pg_RushSaleEndTime data)) in
  _ ← on_db (call (UpdateProgramRow data));
  _ ← (if shouldReschedule then scheduleRushInventoryPreheat data else mret tt);
  mret groupIDs.

Definition UpdateProgram (r : UpdateProgramReq) : IO C bool :=
  let values := newUpdateProgramValues r in
  _ ← lift (validateProgramWriteValues values true);
  t ← now;
  data ← lift (buildProgramModel values t);
  groupIDs ← transact (update_tx values data);
  _ ← logged (InvalidateProgram svc (pv_id values) groupIDs);
  mret true.

(** ** invalid_program_logic.go, reset_program_logic.go *)

(** [Update] of the cached model; go-zero logs a failed deletion and tries it again. *)
Definition UpdateCachedProgram (p : DProgram) : IO C unit :=
  _ ← on_db (call (UpdateProgramRow p));
  logged (on_db (call (modify (fun db => set_cached (mkCache (delete (pg_Id p) (ca_programs (cached db)))
    (ca_shows (cached db)) (ca_groups (cached db)) (ca_first (cached db))) db)))).

Definition InvalidProgram (id : Z) : IO C bool :=
  if id <=? 0 then throw invalidParam
  else
    program ← map_err (or_not_found programNotFoundError) (on_db (call (findProgram id)));
    t ← now;
    _ ← UpdateCachedProgram (set_program 0 (pg_InventoryPreheatStatus program) (pg_CreateTime program) t program);
    _ ← logged (InvalidateProgram svc (pg_Id program) [pg_ProgramGroupId program]);
    _ ← clearProgramSeatLedgersByProgram (pg_Id program);
    mret true.

Definition reset_category (programID : Z) (now : time) (c : DTicketCategory) : DTicketCategory :=
  if (tc_Status c =? 1) && (tc_ProgramId c =? programID)
  then mkCategory (tc_Id c) (tc_ProgramId c) (tc_ShowTimeId c) (tc_Introduce c) (tc_Price c) (tc_TotalNumber c)
         (tc_TotalNumber c) (tc_CreateTime c) (mysql_datetime now) (tc_Status c)
  else c.

Definition ResetProgram (programID : Z) : IO C bool :=
  if programID <=? 0 then throw invalidParam
  else
    t ← now;
    programGroupID ← transact (
      program ← map_err (or_not_found programNotFoundError) (on_db (call (program_row programID)));
      _ ← in_seats (call (ResetSeatRows programID t));
      _ ← on_cats (call (modify (map (reset_category programID t))));
      mret (pg_ProgramGroupId program));
    _ ← logged (InvalidateProgram svc programID [programGroupID]);
    _ ← clearProgramSeatLedgersByProgram programID;
    mret true.

(** ** create_program_show_time_logic.go, update_program_show_time_logic.go *)

Definition CreateProgramShowTime (r : ProgramShowTimeAddReq) : IO C Z :=
  if (sa_ProgramId r <=? 0) || bool_decide (sa_ShowTime r = "") || bool_decide (sa_ShowWeekTime r = "")
  then throw invalidParam
  else
    showTime ← lift (of_option invalidParam (parse_local (sa_ShowTime r)));
    showDayTime ← lift (or_invalid (parseNullTime (sa_ShowDayTime r)));
    showEndTime ← lift (or_invalid (parseNullTime (sa_ShowEndTime r)));
    id ← newID;
    t ← now;
    let created := mkShowTime id (sa_ProgramId r) showTime showDayTime (sa_ShowWeekTime r) showEndTime None (Some t) 1 in
    programGroupID ← transact (
      program ← map_err (or_not_found programNotFoundError) (on_db (call (program_row (sa_ProgramId r))));
      _ ← lift (validateShowTimeAgainstProgramRushSaleOpenTime program showTime);
      _ ← on_db (call (InsertShowTimeRow created));
      group ← map_err (or_not_found programGroupNotFoundError) (on_db (call (group_row (pg_ProgramGroupId program))));
      _ ← (if is_zero_time (gr_RecentShowTime group) || (showTime <? gr_RecentShowTime group)
           then on_db (call (UpdateGroupRow (mkGroup (gr_Id group) (gr_ProgramJson group) showTime
                  (gr_CreateTime group) t (gr_Status group))))
           else mret tt);
      _ ← scheduleRushInventoryPreheat program;
      mret (pg_ProgramGroupId program));
    _ ← logged (InvalidateProgram svc (sa_ProgramId r) [programGroupID]);
    mret id.

Definition UpdateProgramShowTime (r : UpdateProgramShowTimeReq) : IO C bool :=
  if (su_Id r <=? 0) || bool_decide (trim_space (su_ShowWeekTime r) = "") then throw invalidParam
  else
    showEndTime ← lift (or_invalid (parseNullTime (su_ShowEndTime r)));
    t ← now;
    ids ← transact (
      current ← map_err (or_not_found (statusX NotFound ErrProgramShowTimeNotFound)) (on_db (call (show_row (su_Id r))));
      program ← map_err (or_not_found programNotFoundError) (on_db (call (program_row (st_ProgramId current))));
      _ ← lift (validateShowTimeAgainstProgramRushSaleOpenTime program (st_ShowTime current));
      _ ← on_db (call (UpdateShowTimeRow (mkShowTime (st_Id current) (st_ProgramId current) (st_ShowTime current)
             (st_ShowDayTime current) (su_ShowWeekTime r) showEndTime (st_CreateTime current) (Some t) (st_Status current))));
      mret (st_ProgramId current, pg_ProgramGroupId program));
    _ ← logged (InvalidateProgram svc ids.1 [ids.2]);
    mret true.

(** ** create_ticket_category_logic.go, create_seat_logic.go, batch_create_seats_logic.go *)

Definition ensureProgramInventoryMutable (programID : Z) : IO C unit :=
  if programID <=? 0 then throw (EX ErrInvalidParam)
  else
    program ← map_err (or_not_found (EX ErrProgramShowTimeNotFound)) (on_db (call (findProgram programID)));
    lift (ensureProgramInventoryMutableRecord program).

Definition ensureShowTimeInventoryMutable (showTimeID : Z) : IO C unit :=
  if showTimeID <=? 0 then throw (EX ErrInvalidParam)
  else
    showTime ← map_err (or_not_found (EX ErrProgramShowTimeNotFound)) (on_db (call (findShowTime showTimeID)));
    ensureProgramInventoryMutable (st_ProgramId showTime).

(** The request names no show: the row's show_time_id is 0. *)
Definition CreateTicketCategory (r : TicketCategoryAddReq) : IO C Z :=
  if (ta_ProgramId r <=? 0) || bool_decide (trim_space (ta_Introduce r) = "") || (ta_Price r <=? 0)
     || (ta_TotalNumber r <=? 0) then throw invalidParam
  else
    program ← map_err (or_not_found programNotFoundError) (on_db (call (findProgram (ta_ProgramId r))));
    _ ← map_err mapInventoryMutationError (ensureProgramInventoryMutable (ta_ProgramId r));
    let remainNumber := if ta_RemainNumber r <=? 0 then ta_TotalNumber r else ta_RemainNumber r in
    id ← newID;
    t ← now;
    _ ← on_cats (call (InsertCategoryRow (mkCategory id (ta_ProgramId r) 0 (trim_space (ta_Introduce r)) (ta_Price r)
           (ta_TotalNumber r) remainNumber t t 1)));
    _ ← logged (InvalidateProgram svc (ta_ProgramId r) [pg_ProgramGroupId program]);
    mret id.

(** The category of a seat to create, checked against the program. *)
Definition category_for (programID ticketCategoryID : Z) : IO C DTicketCategory :=
  c ← map_err (or_not_found (statusX NotFound ErrProgramTicketCategoryNotFound)) (on_cats (call (category_row ticketCategoryID)));
  if negb (tc_ProgramId c =? programID) then throw invalidParam
  else
    _ ← map_err mapInventoryMutationError (ensureShowTimeInventoryMutable (tc_ShowTimeId c));
    mret c.

Definition CreateSeat (r : SeatAddReq) : IO C Z :=
  if (sr_ProgramId r <=? 0) || (sr_TicketCategoryId r <=? 0) || (sr_RowCode r <=? 0) || (sr_ColCode r <=? 0)
     || (sr_SeatType r <=? 0) || (sr_Price r <=? 0) then throw invalidParam
  else
    _ ← map_err (or_not_found programNotFoundError) (on_db (call (findProgram (sr_ProgramId r))));
    _ ← category_for (sr_ProgramId r) (sr_TicketCategoryId r);
    res ← attempt (in_seats (call (FindOneByProgramIdRowCodeColCode (sr_ProgramId r) (sr_RowCode r) (sr_ColCode r))));
    match res with
    | Ok _ => throw (EStatus AlreadyExists "seat already exists")
    | Err x =>
        if negb (err_is x ENotFound) then throw x
        else
          let seatStatus := if sr_SeatStatus r =? 0 then 1 else sr_SeatStatus r in
          id ← newID;
          t ← now;
          _ ← in_seats (call (InsertSeatRow (mkSeatRow id (sr_ProgramId r) 0 (sr_TicketCategoryId r) (sr_RowCode r)
                 (sr_ColCode r) (sr_SeatType r) (sr_Price r) seatStatus None None t t 1)));
          _ ← clearProgramSeatLedgers (sr_ProgramId r) [sr_TicketCategoryId r];
          mret id
    end.

(** The seats of one row. *)
Definition insert_row (programID : Z) (item : SeatBatchRelateInfoAddReq) (t : time) (rowIndex seatsInRow : Z) : IO C unit :=
  each (fun col =>
    id ← newID;
    in_seats (call (InsertSeatRow (mkSeatRow id programID 0 (bi_TicketCategoryId item) rowIndex col 1 (bi_Price item) 1
      None None t t 1)))) (map Z.of_nat (seq 1 (Z.to_nat seatsInRow))).

(** [for remaining > 0]: ten seats a row; [fuel] rows are enough for [fuel] seats. *)
Fixpoint insert_rows (fuel : nat) (programID : Z) (item : SeatBatchRelateInfoAddReq) (t : time) (rowIndex remaining : Z)
  : IO C Z :=
  if remaining <=? 0 then mret rowIndex
  else match fuel with
  | O => throw (EOther "out of fuel")
  | S fuel =>
      let rowIndex := wrap64 (rowIndex + 1) in
      let seatsInRow := Z.min remaining 10 in
      _ ← insert_row programID item t rowIndex seatsInRow;
      insert_rows fuel programID item t rowIndex (remaining - seatsInRow)
  end.

Fixpoint insert_items (programID : Z) (t : time) (rowIndex : Z) (items : list SeatBatchRelateInfoAddReq) : IO C unit :=
  match items with
  | [] => mret tt
  | item :: items =>
      _ ← category_for programID (bi_TicketCategoryId item);
      rowIndex ← insert_rows (Z.to_nat (bi_Count item)) programID item t rowIndex (bi_Count item);
      insert_items programID t rowIndex items
  end.

Definition valid_item (item : SeatBatchRelateInfoAddReq) : bool :=
  negb ((bi_TicketCategoryId item <=? 0) || (bi_Price item <=? 0) || (bi_Count item <=? 0)).

Definition BatchCreateSeats (r : SeatBatchAddReq) : IO C bool :=
  if (ba_ProgramId r <=? 0) || bool_decide (ba_List r = []) then throw invalidParam
  else
    _ ← map_err (or_not_found programNotFoundError) (on_db (call (findProgram (ba_ProgramId r))));
    if negb (forallb valid_item (ba_List r)) then throw invalidParam
    else
      _ ← transact (
        existingSeats ← in_seats (call (FindSeatsByProgramID (ba_ProgramId r)));
        let rowIndex := foldl (fun m s => if m <? RowCode s then RowCode s else m) 0 existingSeats in
        t ← now;
        insert_items (ba_ProgramId r) t rowIndex (ba_List r));
      _ ← clearProgramSeatLedgers (ba_ProgramId r) (map bi_TicketCategoryId (ba_List r));
      mret true.

(** ** batch_create_program_categories_logic.go *)

(** The items with their names trimmed, none twice. *)
Fixpoint trimmed_items (seen : list string) (items : list ProgramCategoryBatchItem) : result err (list ProgramCategoryBatchItem) :=
  match items with
  | [] => Ok []
  | i :: items =>
      if (ki_Type i <=? 0) || bool_decide (trim_space (ki_Name i) = "") then Err invalidParam
      else
        let key := format_int (ki_ParentId i) +:+ "|" +:+ trim_space (ki_Name i) +:+ "|" +:+ format_int (ki_Type i) in
        if bool_decide (key ∈ seen) then Err invalidParam
        else rest ← trimmed_items (key :: seen) items; Ok (mkKindItem (ki_ParentId i) (trim_space (ki_Name i)) (ki_Type i) :: rest)
  end.

Definition kind_absent (i : ProgramCategoryBatchItem) : IO C unit :=
  res ← attempt (on_db (call (FindOneByParentIdNameType (ki_ParentId i) (ki_Name i) (ki_Type i))));
  match res with
  | Ok _ => throw invalidParam
  | Err x => if err_is x ENotFound then mret tt else throw x
  end.

(** The id of an item is drawn, and not written. *)
Definition insert_kind (t : time) (i : ProgramCategoryBatchItem) : IO C unit :=
  id ← newID;
  on_db (call (InsertKind (mkKind id (ki_ParentId i) (ki_Name i) (ki_Type i) t t 1))).

Definition BatchCreateProgramCategories (list : list ProgramCategoryBatchItem) : IO C bool :=
  if bool_decide (list = []) then throw invalidParam
  else
    items ← lift (trimmed_items [] list);
    t ← now;
    _ ← transact (_ ← each kind_absent items; each (insert_kind t) items);
    _ ← logged (InvalidateCategorySnapshot svc);
    mret true.

End handlers.
