(* ===== verification/ProgramRules.v ===== *)
(** * What the catalogue keeps

    Every handler that writes the catalogue, one after the other, with whatever fails
    and whatever Redis and the instances have cached: the sale of a program opens before
    its shows; what this interface creates can not be sold. *)
From Stdlib Require Import ZArith Lia Ascii String.
From stdpp Require Import base gmap sets list strings sorting relations.
From S2P Require Import Prelude GoBase Effects Sql FreezeToken ProgramDB RefundRule RedisZ SeatDB SeatStore SeatFreeze OrderDB ProgramCache ProgramAdmin.
Open Scope string_scope.
Open Scope list_scope.
Open Scope Z_scope.

(** ** The handlers as one *)

Inductive admin_request :=
  | RqCreateProgram (r : CreateProgramReq)
  | RqUpdateProgram (r : UpdateProgramReq)
  | RqInvalidProgram (id : Z)
  | RqResetProgram (id : Z)
  | RqCreateShowTime (r : ProgramShowTimeAddReq)
  | RqUpdateShowTime (r : UpdateProgramShowTimeReq)
  | RqCreateTicketCategory (r : TicketCategoryAddReq)
  | RqCreateSeat (r : SeatAddReq)
  | RqBatchCreateSeats (r : SeatBatchAddReq)
  | RqBatchCreateCategories (l : list ProgramCategoryBatchItem).

Create HintDb catalogue discriminated.
#[export] Hint Resolve keeps_ret keeps_throw keeps_lift keeps_now keeps_newID keeps_map_err keeps_attempt keeps_transact : catalogue.
#[export] Hint Extern 0 (readonly _) => intros ?; reflexivity : catalogue.

Lemma keeps_each {S A} (P : S -> Prop) (f : A -> IO S unit) l : (forall a, keeps P (f a)) -> keeps P (each f l).
Proof. intros Hf. by apply preserves_each. Qed.

Lemma keeps_logged {R} (P : catalogue R -> Prop) (m : IO (catalogue R) unit) : keeps P m -> keeps P (logged m).
Proof. intros Hm. apply keeps_bind; [by apply keeps_attempt|intros _; apply keeps_ret]. Qed.

(** Walks through a handler whose calls the hints know. *)
Ltac keep :=
  repeat first
    [ solve [auto with catalogue nocore]
    | apply keeps_map_err | apply keeps_logged | apply keeps_attempt | apply keeps_transact
    | apply keeps_each; intros ? | apply keeps_bind; [|intros ?]
    | match goal with
      | |- keeps _ (if ?b then _ else _) => destruct b
      | |- keeps _ (match ?x with _ => _ end) => destruct x
      end ].

Section rules.
Context {R : Type} `{RedisZ R} `{LocalTime} `{LocalFormat} `{GroupJson} `{ColumnPrims} `{InvalidationCodec}.
Notation C := (catalogue R).
Variable svc : ServiceContext.

Definition done_ {A} (m : IO C A) : IO C unit := _ ← m; mret tt.

Definition serve (q : admin_request) : IO C unit :=
  match q with
  | RqCreateProgram r => done_ (CreateProgram svc r)
  | RqUpdateProgram r => done_ (UpdateProgram svc r)
  | RqInvalidProgram id => done_ (InvalidProgram svc id)
  | RqResetProgram id => done_ (ResetProgram svc id)
  | RqCreateShowTime r => done_ (CreateProgramShowTime svc r)
  | RqUpdateShowTime r => done_ (UpdateProgramShowTime svc r)
  | RqCreateTicketCategory r => done_ (CreateTicketCategory svc r)
  | RqCreateSeat r => done_ (CreateSeat svc r)
  | RqBatchCreateSeats r => done_ (BatchCreateSeats svc r)
  | RqBatchCreateCategories l => done_ (BatchCreateProgramCategories svc l)
  end.

(** The caches of Redis and of the instance become anything. *)
Definition recached (c : C) (k : row_cache) (l : local_cache) : C :=
  mkCatalogue (ct_world (upd_db (set_cached k) c)) l (ct_channel c) (ct_tasks c).

(** ** Predicates of the tables *)

Definition of_db (Q : programdb -> Prop) (c : C) : Prop := Q (ct_db c).

Section keeps.
Context (Q : programdb -> Prop).

Lemma keeps_db {A} (m : IO programdb A) : keeps Q m -> keeps (of_db Q) (on_db (R := R) m).
Proof.
  intros Hm [e c] Hc. unfold on_db, in_world, on, on_programs, on. cbn in *.
  specialize (Hm (e, w_programs (ct_world c)) Hc). by destruct (m (e, w_programs (ct_world c))) as [r [e' db]].
Qed.
Lemma keeps_cats {A} (m : IO (list DTicketCategory) A) : keeps (of_db Q) (on_cats (R := R) m).
Proof. intros [e c] Hc. unfold on_cats, in_world, on, on_categories, on. cbn. by destruct (m _) as [r [e' x]]. Qed.
Lemma keeps_in_seats {A} (m : IO (list DSeat) A) : keeps (of_db Q) (in_seats (R := R) m).
Proof. intros [e c] Hc. unfold in_seats, in_world, on, on_seats, on. cbn. by destruct (m _) as [r [e' x]]. Qed.
Lemma keeps_in_redis {A} (m : IO R A) : keeps (of_db Q) (in_world (on_redis m)).
Proof. intros [e c] Hc. unfold in_world, on, on_redis, on. cbn. by destruct (m _) as [r [e' x]]. Qed.
Lemma keeps_local {A} (m : IO local_cache A) : keeps (of_db Q) (on_local (R := R) m).
Proof. intros [e c] Hc. unfold on_local, on. cbn. by destruct (m _) as [r [e' x]]. Qed.
Lemma keeps_channel {A} (m : IO (list string) A) : keeps (of_db Q) (on_channel (R := R) m).
Proof. intros [e c] Hc. unfold on_channel, on. cbn. by destruct (m _) as [r [e' x]]. Qed.
Lemma keeps_tasks {A} (m : IO (list DDelayTaskOutbox) A) : keeps (of_db Q) (on_tasks (R := R) m).
Proof. intros [e c] Hc. unfold on_tasks, on. cbn. by destruct (m _) as [r [e' x]]. Qed.
End keeps.

(** A reader of the tables and a writer of caches leave every predicate of the tables. *)
Section caches_aside.
Context (Q : programdb -> Prop) (Q_cached : forall k db, Q db -> Q (set_cached k db)).

Lemma keeps_db_read {A} (m : M programdb A) : readonly m -> keeps (of_db Q) (on_db (R := R) (call m)).
Proof. intros Hm. apply keeps_db, keeps_call. intros db Hq. by rewrite Hm. Qed.

Lemma keeps_publish es : keeps (of_db Q) (publish (R := R) svc es).
Proof.
  unfold publish. destr_if; [apply keeps_ret|]. apply keeps_bind; [apply keeps_now|]. intros t.
  apply keeps_bind; [apply keeps_lift|]. intros payload. apply keeps_channel.
Qed.

Lemma keeps_invalidate p gs : keeps (of_db Q) (InvalidateProgram (R := R) svc p gs).
Proof.
  unfold InvalidateProgram. destr_if; [apply keeps_throw|]. apply keeps_bind.
  { destr_if; [|apply keeps_ret]. apply keeps_db, keeps_call. intros db Hq. by apply Q_cached. }
  intros _. apply keeps_bind; [apply keeps_local|]. intros _. apply keeps_publish.
Qed.

Lemma keeps_invalidate_kinds : keeps (of_db Q) (InvalidateCategorySnapshot (R := R) svc).
Proof. apply keeps_bind; [apply keeps_local|]. intros _. apply keeps_publish. Qed.

Lemma keeps_categories_of p : keeps (of_db Q) (find_categories (R := R) p).
Proof.
  apply keeps_bind; [apply keeps_attempt, keeps_cats|]. intros [cs|x]; [apply keeps_ret|].
  destr_if; [apply keeps_ret|apply keeps_throw].
Qed.

Lemma keeps_clear p ids : keeps (of_db Q) (clearProgramSeatLedgers (R := R) svc p ids).
Proof.
  unfold clearProgramSeatLedgers. destruct (sx_SeatStockStore svc) as [store|]; [|apply keeps_ret].
  apply keeps_bind; [apply keeps_categories_of|]. intros cs. apply keeps_each. intros tc. unfold clear_category.
  destr_if; [apply keeps_ret|]. cbn zeta. destr_if; [apply keeps_ret|].
  apply keeps_bind; [apply keeps_attempt, keeps_in_redis|]. intros [[]|x]; [apply keeps_ret|].
  destr_if; [apply keeps_ret|apply keeps_throw].
Qed.

Lemma keeps_clear_program p : keeps (of_db Q) (clearProgramSeatLedgersByProgram (R := R) svc p).
Proof. apply keeps_bind; [apply keeps_categories_of|]. intros cs. apply keeps_clear. Qed.

#[local] Hint Resolve keeps_cats keeps_in_seats keeps_in_redis keeps_clear keeps_clear_program keeps_invalidate
  keeps_invalidate_kinds keeps_db_read : catalogue.

Lemma keeps_mutable p : keeps (of_db Q) (ensureProgramInventoryMutable (R := R) p).
Proof. unfold ensureProgramInventoryMutable. keep. Qed.
#[local] Hint Resolve keeps_mutable : catalogue.
Lemma keeps_show_mutable s : keeps (of_db Q) (ensureShowTimeInventoryMutable (R := R) s).
Proof. unfold ensureShowTimeInventoryMutable. keep. Qed.
#[local] Hint Resolve keeps_show_mutable : catalogue.
Lemma keeps_category_for p t : keeps (of_db Q) (category_for (R := R) p t).
Proof. unfold category_for. keep. Qed.
#[local] Hint Resolve keeps_category_for : catalogue.

Lemma keeps_create_category r : keeps (of_db Q) (CreateTicketCategory (R := R) svc r).
Proof. unfold CreateTicketCategory. keep. Qed.

Lemma keeps_create_seat r : keeps (of_db Q) (CreateSeat (R := R) svc r).
Proof. unfold CreateSeat. keep. Qed.

Lemma keeps_insert_rows fuel p item t i n : keeps (of_db Q) (insert_rows (R := R) fuel p item t i n).
Proof.
  revert i n. induction fuel as [|fuel IH]; intros i n; cbn; [keep|]. destr_if; [keep|].
  apply keeps_bind; [unfold insert_row; keep|]. intros _. apply IH.
Qed.

Lemma keeps_insert_items p t i items : keeps (of_db Q) (insert_items (R := R) p t i items).
Proof.
  revert i. induction items as [|item items IH]; intros i; cbn; [keep|]. apply keeps_bind; [apply keeps_category_for|].
  intros _. apply keeps_bind; [apply keeps_insert_rows|]. intros j. apply IH.
Qed.
#[local] Hint Resolve keeps_insert_items : catalogue.

Lemma keeps_batch_seats r : keeps (of_db Q) (BatchCreateSeats (R := R) svc r).
Proof. unfold BatchCreateSeats. keep. Qed.

Lemma keeps_reset p : keeps (of_db Q) (ResetProgram (R := R) svc p).
Proof. unfold ResetProgram. keep. Qed.

Context (Q_kinds : forall k db, Q db -> Q (set_kinds k db)).

Lemma keeps_batch_kinds l : keeps (of_db Q) (BatchCreateProgramCategories (R := R) svc l).
Proof.
  unfold BatchCreateProgramCategories, kind_absent, insert_kind. keep.
  apply keeps_db, keeps_call. intros db Hq. unfold InsertKind. by repeat destr_if; cbn; [|..|apply Q_kinds].
Qed.
End caches_aside.

(** ** The sale of a program opens before its shows *)

Definition live_show (db : programdb) (s : DProgramShowTime) : Prop :=
  show_times db !! st_Id s = Some s /\ st_Status s = 1.

Record window_inv (db : programdb) : Prop := {
  wi_programs id p : programs db !! id = Some p ->
    pg_Id p = id /\ forall o, pg_RushSaleOpenTime p = Some o -> mysql_datetime o = o;
  wi_shows id s : show_times db !! id = Some s ->
    st_Id s = id /\ mysql_datetime (st_ShowTime s) = st_ShowTime s /\ is_Some (programs db !! st_ProgramId s);
  (** [IsZero] exempts a show of the year 1. *)
  wi_window s p o : live_show db s -> st_ShowTime s <> zero_time -> programs db !! st_ProgramId s = Some p ->
    pg_RushSaleOpenTime p = Some o -> o <= st_ShowTime s }.

Lemma window_cached k db : window_inv db -> window_inv (set_cached k db).
Proof. by intros []. Qed.
Lemma window_groups g db : window_inv db -> window_inv (set_groups g db).
Proof. by intros []. Qed.
Lemma window_kinds k db : window_inv db -> window_inv (set_kinds k db).
Proof. by intros []. Qed.

(** A row may be written when its sale opens before the live shows of its program. *)
Definition opens_before (db : programdb) (p : DProgram) : Prop :=
  forall s o, live_show db s -> st_ShowTime s <> zero_time -> st_ProgramId s = pg_Id p ->
    pg_RushSaleOpenTime p = Some o -> mysql_datetime o <= st_ShowTime s.

Lemma window_put db p create : window_inv db -> opens_before db p ->
  window_inv (set_programs (<[pg_Id p := stored_program create p]> (programs db)) db).
Proof.
  intros [Hp Hs Hw] Hb. constructor; cbn.
  - intros id row. destruct (decide (id = pg_Id p)) as [->|Hne].
    + rewrite lookup_insert_eq. intros [= <-]. cbn. split; [done|]. intros o.
      destruct (pg_RushSaleOpenTime p); [|done]. intros [= <-]. apply mysql_datetime_idem.
    + rewrite lookup_insert_ne by done. apply Hp.
  - intros id s Hl. destruct (Hs id s Hl) as (? & ? & Hex). split_and!; [done..|].
    destruct (decide (pg_Id p = st_ProgramId s)) as [->|Hne]; [by rewrite lookup_insert_eq|by rewrite lookup_insert_ne].
  - intros s row o Hl Hz. destruct (decide (pg_Id p = st_ProgramId s)) as [He|Hne].
    + rewrite He, lookup_insert_eq. intros [= <-]. cbn. destruct (pg_RushSaleOpenTime p) as [o'|] eqn:Eo; [|done].
      intros [= <-]. by eapply Hb.
    + rewrite lookup_insert_ne by done. by apply Hw.
Qed.

Lemma update_row_ok p db db' : UpdateProgramRow p db = (Ok tt, db') ->
  db' = db \/ exists create, db' = set_programs (<[pg_Id p := stored_program create p]> (programs db)) db.
Proof.
  unfold UpdateProgramRow. destruct (programs db !! pg_Id p) as [old|]; [|intros [= <-]; by left].
  destruct (program_columns p); intros [= <-]. right. by eexists.
Qed.

Lemma update_row_state p db :
  (UpdateProgramRow p db).2 = db \/
  exists create, (UpdateProgramRow p db).2 = set_programs (<[pg_Id p := stored_program create p]> (programs db)) db.
Proof.
  unfold UpdateProgramRow. destruct (programs db !! pg_Id p) as [old|]; [|by left].
  destruct (program_columns p); [right; by eexists|by left].
Qed.

(** The row of the table has the window of [p]. *)
Definition saved (db : programdb) (p : DProgram) : Prop :=
  forall row, programs db !! pg_Id p = Some row -> pg_RushSaleOpenTime row = mysql_datetime <$> pg_RushSaleOpenTime p.

Lemma saved_opens db p : window_inv db -> saved db p -> opens_before db p.
Proof.
  intros [Hp Hs Hw] Hsave s o Hl Hz He Ho. destruct (Hs _ _ (proj1 Hl)) as (_ & _ & [row Hrow]).
  rewrite He in Hrow. pose proof (Hsave _ Hrow) as Heq. rewrite Ho in Heq. eapply Hw; [done|done|by rewrite He|done].
Qed.

Lemma saved_put db p create q : pg_Id q = pg_Id p -> pg_RushSaleOpenTime q = pg_RushSaleOpenTime p ->
  saved (set_programs (<[pg_Id p := stored_program create p]> (programs db)) db) q.
Proof. intros Hi Ho row. cbn. rewrite Hi, lookup_insert_eq. intros [= <-]. cbn. by rewrite Ho. Qed.

Lemma window_update p db : window_inv db -> opens_before db p -> window_inv (UpdateProgramRow p db).2.
Proof.
  intros Hw Hb. destruct (update_row_state p db) as [->|[create ->]]; [done|]. by apply window_put.
Qed.

Lemma live_show_listed id db s : live_show db s -> st_ProgramId s = id -> s ∈ merge_sort show_order (live_shows [id] db).
Proof.
  intros [Hl Hst] Hid. rewrite merge_sort_Permutation. unfold live_shows. apply list_elem_of_filter. split.
  - rewrite Hst, Hid. cbn. apply bool_decide_eq_true_2. by left.
  - apply list_elem_of_fmap. exists (st_Id s, s). split; [done|by apply elem_of_map_to_list].
Qed.

(** The first show is the earliest one. *)
Lemma first_show_least id db s f : live_show db s -> st_ProgramId s = id -> first_show id db = Some f ->
  st_ShowTime f <= st_ShowTime s.
Proof.
  intros Hl Hid Hf. unfold first_show in Hf. pose proof (live_show_listed id db s Hl Hid) as Hin.
  assert (Hall : forall x, x ∈ merge_sort show_order (live_shows [id] db) -> st_ProgramId x = id).
  { intros x Hx. rewrite merge_sort_Permutation in Hx. unfold live_shows in Hx.
    apply list_elem_of_filter in Hx as [[_ Hx%bool_decide_eq_true]%andb_true_iff _].
    by apply list_elem_of_singleton in Hx. }
  assert (Hss : StronglySorted show_order (merge_sort show_order (live_shows [id] db))).
  { apply StronglySorted_merge_sort; [intros a b c; unfold show_order; lia|intros a b; unfold show_order; lia]. }
  destruct (merge_sort _ _) as [|f' l]; [by apply not_elem_of_nil in Hin|]. injection Hf as ->.
  apply elem_of_cons in Hin as [->|Hin]; [done|]. apply StronglySorted_inv in Hss as [_ Hfa].
  rewrite Forall_forall in Hfa. specialize (Hfa _ Hin). pose proof (Hall f ltac:(by left)).
  pose proof (Hall s ltac:(by right)). unfold show_order in Hfa. lia.
Qed.

Lemma no_first_no_show id db s : live_show db s -> st_ProgramId s = id -> first_show id db <> None.
Proof.
  intros Hl Hid Hf. unfold first_show in Hf. pose proof (live_show_listed id db s Hl Hid) as Hin. destruct (merge_sort _ _); [by apply not_elem_of_nil in Hin|done].
Qed.

(** *** The handlers *)

Lemma on_db_ok {A} (m : M programdb A) e (c : C) a e' c' :
  on_db (call m) (e, c) = (Ok a, (e', c')) -> m (ct_db c) = (Ok a, ct_db c').
Proof.
  unfold on_db, in_world, on, on_programs, on. destruct (call m (e, w_programs (ct_world c))) as [r [e1 db]] eqn:E.
  intros [= -> <- <-]. by apply call_ok in E.
Qed.

Lemma on_db_same {A} (m : M programdb A) e (c : C) r e' c' :
  readonly m -> on_db (call m) (e, c) = (r, (e', c')) -> ct_db c' = ct_db c.
Proof.
  intros Hm. unfold on_db, in_world, on, on_programs, on.
  destruct (call m (e, w_programs (ct_world c))) as [r1 [e1 db]] eqn:E. intros [= <- <- <-].
  by apply (call_readonly _ _ _ _ _ _ Hm) in E.
Qed.

Lemma on_tasks_db {A} (m : IO (list DDelayTaskOutbox) A) e (c : C) r e' c' :
  on_tasks m (e, c) = (r, (e', c')) -> ct_db c' = ct_db c.
Proof. unfold on_tasks, on. destruct (m _) as [r1 [e1 t]]. by intros [= <- <- <-]. Qed.

Lemma enqueue_db leadTime p o e (c : C) r e' c' : EnqueueWithConn leadTime p o (e, c) = (r, (e', c')) -> ct_db c' = ct_db c.
Proof.
  unfold EnqueueWithConn. rewrite bind_unfold. destruct (now (e, c)) as [[t|x] [e1 c1]] eqn:En.
  - apply now_state in En as [-> _]. rewrite bind_unfold. destruct (newID (e1, c)) as [[i|x] [e2 c2]] eqn:Ei.
    + apply newID_ok in Ei as ->. apply on_tasks_db.
    + unfold newID in Ei. destruct (xids e1); [|done]. injection Ei as <- <- <-. by intros [= <- <- <-].
  - by apply now_state in En as (_ & t & ?).
Qed.

Lemma show_list_readonly ids : readonly (FindShowTimesByProgramIds ids).
Proof. done. Qed.

Lemma schedule_window p e (c : C) a e' c' : window_inv (ct_db c) -> saved (ct_db c) p ->
  scheduleRushInventoryPreheat svc p (e, c) = (Ok a, (e', c')) -> window_inv (ct_db c').
Proof.
  intros Hw Hs. unfold scheduleRushInventoryPreheat.
  destruct (pg_RushSaleOpenTime p) as [o|] eqn:Eo; [|by intros [_ [= <- <-]]%ret_ok].
  destruct (sx_PreheatLeadTime svc) as [lead|]; [|by intros [_ [= <- <-]]%ret_ok].
  intros (res & [e1 c1] & Hf%attempt_ok & Hrun)%bind_ok.
  apply on_db_same in Hf; [|done]. destruct res as [[|s ss]|x].
  - apply ret_ok in Hrun as [_ [= <- <-]]. by rewrite Hf.
  - apply bind_ok in Hrun as (t & [e2 c2] & Hn & Hrun). apply now_state in Hn as [-> _].
    apply bind_ok in Hrun as ([] & [e3 c3] & Hu & Hrun). apply enqueue_db in Hrun as ->.
    destruct (pg_InventoryPreheatStatus p =? 1); [apply ret_ok in Hu as [_ [= <- <-]]; by rewrite Hf|].
    apply on_db_ok in Hu. rewrite Hf in Hu. pose proof (f_equal snd Hu) as Hu2. cbn in Hu2. rewrite <- Hu2.
    apply window_update; [done|]. apply saved_opens; [done|]. intros row. cbn. by intros ->%Hs.
  - destruct (err_is x ENotFound); [apply ret_ok in Hrun as [_ [= <- <-]]; by rewrite Hf|done].
Qed.

(** A fault of the network is not the answer that there is no such row. *)
Definition truthful_fault (f : fault) : Prop :=
  match f with NoFault => True | FailBefore x | FailAfter x => err_is x ENotFound = false end.
Definition truthful (e : env) : Prop := Forall truthful_fault (faults e).

Lemma draw_truthful e f e1 : truthful e -> draw e = (f, e1) -> truthful_fault f /\ truthful e1.
Proof.
  unfold truthful, draw. intros He. destruct (faults e) as [|g fs] eqn:E; intros [= <- <-].
  - rewrite E. by split; [|constructor].
  - cbn. by apply Forall_cons in He.
Qed.

Lemma on_db_truthful {A} (m : M programdb A) e (c : C) r e' c' : truthful e ->
  on_db (call m) (e, c) = (r, (e', c')) ->
  truthful e' /\ forall x, r = Err x -> x = ENotFound -> (m (ct_db c)).1 = Err ENotFound.
Proof.
  intros He. unfold on_db, in_world, on, on_programs, on, call.
  destruct (draw e) as [f e1] eqn:Ed. apply draw_truthful in Ed as [Hf He1]; [|done].
  destruct f as [|x|x]; [|intros [= <- <- <-]; split; [done|by intros ? [= <-] ->]..].
  unfold ct_db. destruct (m (w_programs (ct_world c))) as [r1 db1]. intros [= <- <- <-].
  split; [done|]. by intros x -> ->.
Qed.

Lemma transact_truthful {A} (P : C -> Prop) (body : IO C A) e c :
  (forall e0 c0 a e' c', truthful e0 -> P c0 -> body (e0, c0) = (Ok a, (e', c')) -> P c') ->
  truthful e -> P c -> P (transact body (e, c)).2.2.
Proof.
  intros Hb He Hc. unfold transact. destruct (draw e) as [f e1] eqn:Ed.
  apply draw_truthful in Ed as [_ He1]; [|done]. destruct f as [|x|x]; [|done..].
  destruct (body (e1, c)) as [[a|x] [e2 c2]] eqn:E; [|done]. apply Hb in E; [|done..].
  by destruct (draw e2) as [[|x|x] e3].
Qed.

Lemma build_ok v t data : buildProgramModel v t = Ok data ->
  pg_Id data = pv_id v /\
  pg_RushSaleOpenTime data = if bool_decide (trim_space (pv_rushSaleOpenTime v) = "") then None else parse_local (pv_rushSaleOpenTime v).
Proof.
  unfold buildProgramModel. intros (i & _ & Hr)%result_bind_ok. apply result_bind_ok in Hr as (o & Ho & Hr).
  apply result_bind_ok in Hr as (d & _ & [= <-]). split; [done|]. cbn. unfold parseNullTime in Ho.
  destruct (bool_decide _); [by injection Ho|]. by destruct (parse_local _); [injection Ho as <-|].
Qed.

Lemma validated_window id str e (c : C) e' c' : truthful e -> 0 < id ->
  validateProgramRushSaleWindowAgainstExistingShowTimes id str (e, c) = (Ok tt, (e', c')) ->
  ct_db c' = ct_db c /\
  forall s o, trim_space str <> "" -> parse_local str = Some o -> live_show (ct_db c) s -> st_ProgramId s = id ->
    o <= st_ShowTime s.
Proof.
  intros He Hid. unfold validateProgramRushSaleWindowAgainstExistingShowTimes.
  destruct (Z.leb_spec id 0); [lia|]. cbn [orb]. destruct (bool_decide_reflect (trim_space str = "")) as [Hb|Hb].
  { intros [_ [= _ <-]]%ret_ok. by split. }
  intros (res & [e1 c1] & Hf%attempt_ok & Hrun)%bind_ok.
  pose proof (on_db_same (FindFirstByProgramId id) _ _ _ _ _ ltac:(done) Hf) as Hc1.
  destruct (on_db_truthful _ _ _ _ _ _ He Hf) as [_ Hnf]. destruct res as [f|x].
  - destruct (parse_local str) as [o|]; [|done]. destruct (Z.ltb_spec (st_ShowTime f) o); [done|].
    apply ret_ok in Hrun as [_ [= _ <-]]. split; [done|]. intros s o' _ [= <-] Hl Hp.
    apply on_db_ok in Hf. unfold FindFirstByProgramId in Hf. injection Hf as Hf _.
    apply of_option_ok in Hf. pose proof (first_show_least id _ s f Hl Hp Hf). lia.
  - destruct (bool_decide_reflect (x = ENotFound)) as [->|]; [|done].
    apply ret_ok in Hrun as [_ [= _ <-]]. split; [done|]. intros s o _ _ Hl Hp. exfalso.
    specialize (Hnf _ eq_refl eq_refl). cbn in Hnf. apply (no_first_no_show id _ s Hl Hp).
    by destruct (first_show id (ct_db c)).
Qed.

Lemma insert_program_ok p db u db' : InsertProgramRow p db = (Ok u, db') ->
  programs db !! pg_Id p = None /\
  exists create, db' = set_programs (<[pg_Id p := stored_program create p]> (programs db)) db.
Proof.
  unfold InsertProgramRow. destruct (program_columns p); [|done].
  destruct (programs db !! pg_Id p) eqn:E; [done|]. intros [= _ <-]. split; [done|by eexists].
Qed.

Lemma update_saved p q db u db' : UpdateProgramRow p db = (Ok u, db') ->
  pg_Id q = pg_Id p -> pg_RushSaleOpenTime q = pg_RushSaleOpenTime p -> saved db' q.
Proof.
  unfold UpdateProgramRow. intros Hu Hi Ho. destruct (programs db !! pg_Id p) eqn:E.
  - destruct (program_columns p); [|done]. injection Hu as _ <-. by apply saved_put.
  - injection Hu as _ <-. intros row. by rewrite Hi, E.
Qed.

Notation P := (of_db window_inv).
#[local] Hint Resolve keeps_cats keeps_in_seats keeps_in_redis keeps_clear keeps_clear_program keeps_invalidate
  keeps_invalidate_kinds keeps_db_read window_cached : catalogue.

Lemma keeps_create_program r : keeps P (CreateProgram svc r).
Proof.
  unfold CreateProgram. do 4 (apply keeps_bind; [keep|intros ?]).
  apply keeps_bind; [|intros _; keep; apply window_cached].
  apply transact_keeps. intros e c a' e' c' Hw.
  intros (g & [e1 c1] & Hg%map_err_ok & Hrun)%bind_ok. apply on_db_same in Hg; [|done].
  apply bind_ok in Hrun as ([] & [e2 c2] & Hi & Hrun). apply on_db_ok, insert_program_ok in Hi as (Hn & create & Hdb).
  rewrite Hg in Hn, Hdb. apply schedule_window in Hrun; [done|..]; rewrite Hdb.
  - apply window_put; [done|]. intros s o Hl _ Hs _. destruct (wi_shows _ Hw _ _ (proj1 Hl)) as (_ & _ & [row Hrow]).
    by rewrite Hs, Hn in Hrow.
  - by apply saved_put.
Qed.

Lemma row_saved db id p : window_inv db -> programs db !! id = Some p -> saved db p.
Proof.
  intros Hw Hl row. destruct (wi_programs _ Hw _ _ Hl) as [-> Ho]. rewrite Hl. intros [= <-].
  destruct (pg_RushSaleOpenTime p) as [o|] eqn:E; [|done]. cbn. by rewrite Ho.
Qed.

Lemma same_show_window db db' : show_times db' = show_times db -> programs db' = programs db ->
  window_inv db -> window_inv db'.
Proof.
  intros Hs Hp [I1 I2 I3]. constructor; rewrite ?Hp, ?Hs; [done..|]. intros s p o [Hl Hst]. rewrite Hs in Hl.
  by apply I3.
Qed.

(** A show may be written when it does not begin before the sale of its program. *)
Lemma window_put_show db s p create : window_inv db -> programs db !! st_ProgramId s = Some p ->
  (st_Status s = 1 -> validateShowTimeAgainstProgramRushSaleOpenTime p (st_ShowTime s) = Ok tt) ->
  window_inv (set_shows (<[st_Id s := stored_show create s]> (show_times db)) db).
Proof.
  intros [I1 I2 I3] Hp Hv. constructor; cbn; [done|..].
  - intros id row. destruct (decide (id = st_Id s)) as [->|Hne].
    + rewrite lookup_insert_eq. intros [= <-]. cbn. split_and!; [done|apply mysql_datetime_idem|by eexists].
    + rewrite lookup_insert_ne by done. apply I2.
  - intros row q o [Hl Hst] Hz Hq Ho. cbn in *. destruct (decide (st_Id row = st_Id s)) as [He|Hne].
    + rewrite He, lookup_insert_eq in Hl. injection Hl as <-. cbn in *. rewrite Hp in Hq. injection Hq as <-.
      specialize (Hv Hst). unfold validateShowTimeAgainstProgramRushSaleOpenTime in Hv. rewrite Ho in Hv.
      unfold is_zero_time in Hv. destruct (Z.eqb_spec (st_ShowTime s) zero_time) as [E|_]; [by rewrite E in Hz|].
      destruct (Z.ltb_spec (st_ShowTime s) o); [done|]. destruct (I1 _ _ Hp) as [_ Hr]. rewrite <- (Hr o Ho).
      by apply mysql_datetime_mono.
    + rewrite lookup_insert_ne in Hl by done. by eapply I3.
Qed.

Lemma program_row_ok id e (c : C) f p e' c' : map_err f (on_db (call (program_row id))) (e, c) = (Ok p, (e', c')) ->
  ct_db c' = ct_db c /\ programs (ct_db c) !! id = Some p.
Proof.
  intros Hp%map_err_ok. pose proof (on_db_same (program_row id) _ _ _ _ _ ltac:(done) Hp) as Hs. split; [done|].
  apply on_db_ok in Hp. unfold program_row in Hp. injection Hp as Hp _. by apply of_option_ok in Hp.
Qed.

Lemma update_group_same g e (c : C) u e' c' : on_db (call (UpdateGroupRow g)) (e, c) = (Ok u, (e', c')) ->
  show_times (ct_db c') = show_times (ct_db c) /\ programs (ct_db c') = programs (ct_db c).
Proof.
  intros Hu%on_db_ok. unfold UpdateGroupRow in Hu. destruct (groups (ct_db c) !! gr_Id g); [|by injection Hu as _ <-].
  destruct (fits_text _); [|done]. by injection Hu as _ <-.
Qed.

Lemma keeps_create_show r : keeps P (CreateProgramShowTime svc r).
Proof.
  unfold CreateProgramShowTime. destr_if; [keep|]. do 5 (apply keeps_bind; [keep|intros ?]).
  apply keeps_bind; [|intros gid; keep]. apply transact_keeps. intros e c gid e' c' Hw. unfold of_db in *.
  intros (p & [e1 c1] & [E1 Hp]%program_row_ok & Hrun)%bind_ok. rewrite <- E1 in Hw, Hp.
  apply bind_ok in Hrun as ([] & [e2 c2] & [= Hv <- <-] & Hrun).
  apply bind_ok in Hrun as ([] & [e3 c3] & Hi%on_db_ok & Hrun).
  assert (E3 : window_inv (ct_db c3) /\ programs (ct_db c3) = programs (ct_db c1)).
  { unfold InsertShowTimeRow in Hi. destruct (fits _ _); [|done]. cbn [negb] in Hi.
    destruct (show_times (ct_db c1) !! _); [done|]. injection Hi as <-. split; [by eapply window_put_show|done]. }
  destruct E3 as [Hw3 Hp3]. apply bind_ok in Hrun as (g & [e4 c4] & Hg%map_err_ok & Hrun).
  apply on_db_same in Hg; [|done]. apply bind_ok in Hrun as ([] & [e5 c5] & Hu & Hrun).
  assert (E5 : show_times (ct_db c5) = show_times (ct_db c3) /\ programs (ct_db c5) = programs (ct_db c3)).
  { rewrite <- Hg. destruct (is_zero_time _ || _); [by apply update_group_same in Hu|]. by apply ret_ok in Hu as [_ [= _ <-]]. }
  destruct E5 as [Hs5 Hp5]. apply bind_ok in Hrun as ([] & [e6 c6] & Hsch & Hrun).
  apply ret_ok in Hrun as [_ [= _ <-]]. apply schedule_window in Hsch; [done|by eapply same_show_window|].
  eapply row_saved; [by eapply same_show_window|]. by rewrite Hp5, Hp3.
Qed.

Lemma keeps_update_show r : keeps P (UpdateProgramShowTime svc r).
Proof.
  unfold UpdateProgramShowTime. destr_if; [keep|]. do 2 (apply keeps_bind; [keep|intros ?]).
  apply keeps_bind; [|intros ids; keep]. apply transact_keeps. intros e c ids e' c' Hw. unfold of_db in *.
  intros (s & [e1 c1] & Hs%map_err_ok & Hrun)%bind_ok. pose proof (on_db_same (show_row (su_Id r)) _ _ _ _ _ ltac:(done) Hs) as E1.
  apply on_db_ok in Hs. injection Hs as Hs _. apply of_option_ok in Hs.
  apply bind_ok in Hrun as (p & [e2 c2] & [E2 Hp]%program_row_ok & Hrun). rewrite E1 in E2, Hp.
  apply bind_ok in Hrun as ([] & [e3 c3] & [= Hv <- <-] & Hrun).
  apply bind_ok in Hrun as ([] & [e4 c4] & Hu%on_db_ok & Hrun). apply ret_ok in Hrun as [_ [= _ <-]].
  rewrite E2 in Hu. unfold UpdateShowTimeRow in Hu. cbn [st_Id st_ShowWeekTime] in Hu.
  destruct (show_times (ct_db c) !! st_Id s); [|by injection Hu as <-].
  destruct (fits 64 (su_ShowWeekTime r)); [|done]. injection Hu as <-.
  exact (window_put_show _ (mkShowTime _ _ _ _ _ _ _ _ _) p _ Hw Hp (fun _ => Hv)).
Qed.

Lemma update_tx_window v data e (c : C) gs e' c' : truthful e -> window_inv (ct_db c) ->
  validateProgramWriteValues v true = Ok tt -> pg_Id data = pv_id v ->
  pg_RushSaleOpenTime data = (if bool_decide (trim_space (pv_rushSaleOpenTime v) = "") then None
                              else parse_local (pv_rushSaleOpenTime v)) ->
  update_tx svc v data (e, c) = (Ok gs, (e', c')) -> window_inv (ct_db c').
Proof.
  intros He Hw Hv Hid Hopen (g & [e1 c1] & Hg%map_err_ok & Hrun)%bind_ok.
  pose proof (on_db_truthful _ _ _ _ _ _ He Hg) as [He1 _]. apply on_db_same in Hg; [|done].
  apply bind_ok in Hrun as (cur & [e2 c2] & Hc%map_err_ok & Hrun).
  pose proof (on_db_truthful _ _ _ _ _ _ He1 Hc) as [He2 _]. apply on_db_same in Hc; [|done].
  cbn zeta in Hrun. set (row := set_program _ _ _ _ data) in Hrun.
  apply bind_ok in Hrun as ([] & [e3 c3] & Hval & Hrun).
  assert (Hpos : 0 < pv_id v) by (unfold validateProgramWriteValues in Hv; destruct (Z.leb_spec (pv_id v) 0); [done|lia]).
  apply validated_window in Hval as [E3 Hbefore]; [|done..]. rewrite Hc, Hg in E3.
  apply bind_ok in Hrun as ([] & [e4 c4] & Hu%on_db_ok & Hrun). rewrite E3 in Hu.
  assert (Hw4 : window_inv (ct_db c4)).
  { pose proof (f_equal snd Hu) as Hu2. cbn [snd] in Hu2. rewrite <- Hu2. apply window_update; [done|].
    intros s o Hl Hz Hp Ho. cbn in Hp, Ho. rewrite Hopen in Ho.
    destruct (wi_shows _ Hw _ _ (proj1 Hl)) as (_ & Hround & _). rewrite <- Hround. apply mysql_datetime_mono.
    destruct (bool_decide_reflect (trim_space (pv_rushSaleOpenTime v) = "")) as [|Hne]; [done|].
    apply Hbefore; [done..|by rewrite Hc, Hg|congruence]. }
  apply bind_ok in Hrun as ([] & [e5 c5] & Hs & Hrun). apply ret_ok in Hrun as [_ [= _ <-]].
  destruct (_ || _); [|by apply ret_ok in Hs as [_ [= _ <-]]].
  apply schedule_window in Hs; [done..|]. by eapply update_saved.
Qed.

(** The clock takes no fault. *)
Lemma now_truthful e (c : C) t e' c' : truthful e -> now (e, c) = (Ok t, (e', c')) -> truthful e' /\ c' = c.
Proof. unfold truthful, now. destruct (ticks e); intros He [= _ <- <-]; by split. Qed.

(** What follows a call is run where the call has left the state. *)
Lemma bind_leaves {A B} (Q : C -> Prop) (m : IO C A) (k : A -> IO C B) e c :
  Q (m (e, c)).2.2 -> (forall a e' c', m (e, c) = (Ok a, (e', c')) -> Q (k a (e', c')).2.2) -> Q ((m ≫= k) (e, c)).2.2.
Proof. intros H1' H2'. rewrite bind_unfold. destruct (m (e, c)) as [[a|x] [e' c']] eqn:E; [by apply H2'|done]. Qed.

Lemma bind_keeps_after {A B} (Q : C -> Prop) (m : IO C A) (k : A -> IO C B) e c :
  Q (m (e, c)).2.2 -> (forall a, keeps Q (k a)) -> Q ((m ≫= k) (e, c)).2.2.
Proof. intros Hm Hk. apply bind_leaves; [done|]. intros a e' c' E. rewrite E in Hm. by apply (Hk a (e', c')). Qed.

Lemma update_program_window r e (c : C) : truthful e -> P c -> P (UpdateProgram svc r (e, c)).2.2.
Proof.
  intros He Hw. unfold UpdateProgram. apply bind_leaves; [done|]. intros [] ? ? [= Hv <- <-].
  apply bind_leaves; [by apply (keeps_now P (e, c))|]. intros t e1 c1 [He1 ->]%now_truthful; [|done].
  apply bind_leaves; [done|]. intros data ? ? [= [Hid Hopen]%build_ok <- <-].
  apply bind_keeps_after; [|intros gs; keep].
  apply transact_truthful; [|done..]. intros e0 c0 gs e' c' He0 Hw0 Hrun. by eapply update_tx_window.
Qed.

(** The row [InvalidProgram] starts from has the window of the row of the table. *)
Definition current_window (c : C) (id : Z) : Prop :=
  forall p, seen_program (ct_db c) id = Some p -> saved (ct_db c) p.

Lemma invalid_program_window id e (c : C) : current_window c id -> P c -> P (InvalidProgram svc id (e, c)).2.2.
Proof.
  intros Hcur Hw. unfold InvalidProgram. destr_if; [done|]. apply bind_leaves.
  { assert (Hk : keeps P (map_err (or_not_found programNotFoundError) (on_db (R := R) (call (findProgram id))))) by keep.
    by apply (Hk (e, c)). }
  intros p e1 c1 Hp%map_err_ok. pose proof (on_db_same (findProgram id) _ _ _ _ _ ltac:(done) Hp) as Hdb.
  apply on_db_ok in Hp. injection Hp as Hp _. apply of_option_ok, Hcur in Hp. rewrite <- Hdb in Hp.
  unfold of_db in Hw. rewrite <- Hdb in Hw.
  apply bind_leaves; [by apply (keeps_now P (e1, c1))|]. intros t e2 c2 [-> _]%now_state.
  apply bind_keeps_after; [|intros _; keep]. unfold UpdateCachedProgram. apply bind_keeps_after.
  - unfold of_db, on_db, in_world, on, on_programs, on. cbn -[call]. destruct (call _ _) as [r [e3 db]] eqn:E.
    destruct (call_state (UpdateProgramRow (set_program 0 (pg_InventoryPreheatStatus p) (pg_CreateTime p) t p)) e2 (ct_db c1)) as [Es|Es];
      unfold ct_db in *; rewrite E in Es; cbn in Es; cbn; rewrite Es; [done|].
    apply window_update; [done|]. by apply saved_opens.
  - intros _. apply keeps_logged, keeps_db, keeps_call. intros db Hd. by apply window_cached.
Qed.

(** A step of the service.  Invalidating a program writes back the row it has read
    from the cache, so that row may not be an old one. *)
Inductive admin_step : C -> C -> Prop :=
  | admin_serve q e c : truthful e -> (forall id, q = RqInvalidProgram id -> current_window c id) ->
      admin_step c (serve q (e, c)).2.2
  | admin_cache c k l : admin_step c (recached c k l).

(** C13: the sale of a program opens before its shows.  From tables where no live show is
    earlier than the opening of its program's sale, none ever is, whatever sequence of
    requests creates and changes programs, shows, categories, seats and kinds, provided
    that a statement that fails does not answer that there is no row, and that a program
    is not invalidated from a cached row whose opening is not the row's own:
    [InvalidProgram] writes the row it found in the cache back ([stale_invalid_program]).
    Otherwise anything may fail in the database and in Redis, and the caches may hold
    anything. *)
Theorem sale_opens_before_shows c c' : window_inv (ct_db c) -> rtc admin_step c c' -> window_inv (ct_db c').
Proof.
  intros Hw Hr. induction Hr as [|c c1 c2 Hs _ IH]; [done|]. apply IH. clear IH. destruct Hs as [q e c He Hq|c k l].
  - change (P (serve q (e, c)).2.2). destruct q; cbn [serve]; unfold done_; (apply bind_keeps_after; [|intros ?; apply keeps_ret]).
    + by apply keeps_create_program.
    + by apply update_program_window.
    + apply invalid_program_window; [by apply Hq|done].
    + by apply (keeps_reset window_inv window_cached).
    + by apply keeps_create_show.
    + by apply keeps_update_show.
    + by apply (keeps_create_category window_inv window_cached).
    + by apply (keeps_create_seat window_inv).
    + by apply (keeps_batch_seats window_inv).
    + by apply (keeps_batch_kinds window_inv window_kinds).
  - by apply window_cached.
Qed.

(** ** What this interface creates can not be sold *)

Definition of_stock (Q : list DTicketCategory -> list DSeat -> Prop) (c : C) : Prop :=
  Q (ct_cats c) (w_seats (ct_world c)).

Section stock.
Context (Q : list DTicketCategory -> list DSeat -> Prop).

Lemma stock_db {A} (m : IO programdb A) : keeps (of_stock Q) (on_db (R := R) m).
Proof. intros [e c] Hc. unfold on_db, in_world, on, on_programs, on. cbn. by destruct (m _) as [r [e' x]]. Qed.
Lemma stock_in_redis {A} (m : IO R A) : keeps (of_stock Q) (in_world (on_redis m)).
Proof. intros [e c] Hc. unfold in_world, on, on_redis, on. cbn. by destruct (m _) as [r [e' x]]. Qed.
Lemma stock_local {A} (m : IO local_cache A) : keeps (of_stock Q) (on_local (R := R) m).
Proof. intros [e c] Hc. unfold on_local, on. cbn. by destruct (m _) as [r [e' x]]. Qed.
Lemma stock_channel {A} (m : IO (list string) A) : keeps (of_stock Q) (on_channel (R := R) m).
Proof. intros [e c] Hc. unfold on_channel, on. cbn. by destruct (m _) as [r [e' x]]. Qed.
Lemma stock_tasks {A} (m : IO (list DDelayTaskOutbox) A) : keeps (of_stock Q) (on_tasks (R := R) m).
Proof. intros [e c] Hc. unfold on_tasks, on. cbn. by destruct (m _) as [r [e' x]]. Qed.
Lemma stock_cats {A} (m : M (list DTicketCategory) A) :
  (forall cs ss, Q cs ss -> Q (m cs).2 ss) -> keeps (of_stock Q) (on_cats (R := R) (call m)).
Proof.
  intros Hm [e c] Hc. unfold on_cats, in_world, on, on_categories, on, of_stock, ct_cats in *. cbn -[call].
  destruct (call_state m e (w_categories (ct_world c))) as [E|E];
    destruct (call m (e, w_categories (ct_world c))) as [r [e' cs]]; cbn in *; subst; [done|by apply Hm].
Qed.
Lemma stock_seats {A} (m : M (list DSeat) A) :
  (forall cs ss, Q cs ss -> Q cs (m ss).2) -> keeps (of_stock Q) (in_seats (R := R) (call m)).
Proof.
  intros Hm [e c] Hc. unfold in_seats, in_world, on, on_seats, on, of_stock, ct_cats in *. cbn -[call].
  destruct (call_state m e (w_seats (ct_world c))) as [E|E];
    destruct (call m (e, w_seats (ct_world c))) as [r [e' ss]]; cbn in *; subst; [done|by apply Hm].
Qed.
Lemma stock_cats_read {A} (m : M (list DTicketCategory) A) : readonly m -> keeps (of_stock Q) (on_cats (R := R) (call m)).
Proof. intros Hm. apply stock_cats. intros cs ss. by rewrite Hm. Qed.
Lemma stock_seats_read {A} (m : M (list DSeat) A) : readonly m -> keeps (of_stock Q) (in_seats (R := R) (call m)).
Proof. intros Hm. apply stock_seats. intros cs ss. by rewrite Hm. Qed.
End stock.

(** No seat, and no category of a show. *)
Definition no_stock (cs : list DTicketCategory) (ss : list DSeat) : Prop :=
  Forall (fun tc => tc_ShowTimeId tc = 0) cs /\ ss = [].
Notation U := (of_stock no_stock).

#[local] Hint Resolve stock_db stock_in_redis stock_local stock_channel stock_tasks stock_cats_read stock_seats_read : catalogue.
#[local] Hint Extern 1 (readonly (FindOneByProgramIdRowCodeColCode _ _ _)) => intros ?; reflexivity : catalogue.

Lemma stock_publish es : keeps U (publish (R := R) svc es).
Proof. unfold publish. keep. Qed.
#[local] Hint Resolve stock_publish : catalogue.
Lemma stock_invalidate p gs : keeps U (InvalidateProgram (R := R) svc p gs).
Proof. unfold InvalidateProgram. keep. Qed.
Lemma stock_invalidate_kinds : keeps U (InvalidateCategorySnapshot (R := R) svc).
Proof. unfold InvalidateCategorySnapshot. keep. Qed.
Lemma stock_categories_of p : keeps U (find_categories (R := R) p).
Proof. unfold find_categories. keep. Qed.
#[local] Hint Resolve stock_invalidate stock_invalidate_kinds stock_categories_of : catalogue.
Lemma stock_clear p ids : keeps U (clearProgramSeatLedgers (R := R) svc p ids).
Proof. unfold clearProgramSeatLedgers, clear_category. keep. Qed.
#[local] Hint Resolve stock_clear : catalogue.
Lemma stock_clear_program p : keeps U (clearProgramSeatLedgersByProgram (R := R) svc p).
Proof. unfold clearProgramSeatLedgersByProgram. keep. Qed.
Lemma stock_schedule p : keeps U (scheduleRushInventoryPreheat (R := R) svc p).
Proof. unfold scheduleRushInventoryPreheat, EnqueueWithConn. keep. Qed.
Lemma stock_mutable p : keeps U (ensureProgramInventoryMutable (R := R) p).
Proof. unfold ensureProgramInventoryMutable. keep. Qed.
#[local] Hint Resolve stock_clear_program stock_schedule stock_mutable : catalogue.

(** The category of a seat is in no show: there is nothing to check it against. *)
Lemma no_category_for p t e (c : C) : U c ->
  exists x e' c', category_for p t (e, c) = (Err x, (e', c')) /\ U c'.
Proof.
  intros Hu. unfold category_for. rewrite bind_unfold. set (find := map_err _ _).
  assert (Hk : keeps U find) by (unfold find; keep).
  specialize (Hk (e, c) Hu). destruct (find (e, c)) as [[tc|x] [e1 c1]] eqn:E; [|by do 3 eexists].
  cbn in Hk. assert (Hz : tc_ShowTimeId tc = 0).
  { unfold find in E. apply map_err_ok in E. unfold on_cats, in_world, on, on_categories, on in E.
    destruct (call (category_row t) (e, w_categories (ct_world c))) as [r [e2 cs]] eqn:Ec. injection E as -> _ _.
    apply call_ok in Ec. unfold category_row in Ec. injection Ec as Ec _. apply of_option_ok, find_some in Ec as [Hin _].
    destruct Hu as [Hu _]. rewrite Forall_forall in Hu. by apply Hu, list_elem_of_In. }
  destr_if; [by do 3 eexists|]. rewrite bind_unfold, Hz. by do 3 eexists.
Qed.

Lemma bind_no_category {B} p t (k : DTicketCategory -> IO C B) : keeps U (category_for p t ≫= k).
Proof.
  intros [e c] Hu. cbn in Hu. destruct (no_category_for p t e c Hu) as (x & e' & c' & Hr & Hu').
  by rewrite (bind_err_run _ _ _ _ _ Hr).
Qed.
#[local] Hint Resolve bind_no_category : catalogue.

Lemma stock_insert_items p t i items : keeps U (insert_items (R := R) p t i items).
Proof. destruct items; cbn; keep. Qed.
#[local] Hint Resolve stock_insert_items : catalogue.

Lemma insert_category_no_show row cs : tc_ShowTimeId row = 0 ->
  Forall (fun tc => tc_ShowTimeId tc = 0) cs -> Forall (fun tc => tc_ShowTimeId tc = 0) (InsertCategoryRow row cs).2.
Proof.
  intros Hrow Hcs. unfold InsertCategoryRow. repeat destr_if; cbn; [done..|]. apply Forall_app. by repeat constructor.
Qed.

Lemma stock_serve q : keeps U (serve q).
Proof.
  destruct q; cbn [serve]; unfold done_; (apply keeps_bind; [|intros ?; keep]).
  - unfold CreateProgram. keep.
  - unfold UpdateProgram, update_tx, validateProgramRushSaleWindowAgainstExistingShowTimes. keep.
  - unfold InvalidProgram, UpdateCachedProgram. keep.
  - unfold ResetProgram. keep.
    + apply stock_seats. intros cs ss [Hcs ->]. by split.
    + apply stock_cats. intros cs ss [Hcs ->]. split; [|done]. cbn. apply Forall_map. eapply Forall_impl; [done|].
      intros tc Htc. cbn. unfold reset_category. by destr_if.
  - unfold CreateProgramShowTime. keep.
  - unfold UpdateProgramShowTime. keep.
  - unfold CreateTicketCategory. keep. apply stock_cats. intros cs ss [Hcs ->]. split; [|done].
    by apply insert_category_no_show.
  - unfold CreateSeat. keep.
  - unfold BatchCreateSeats. keep.
  - unfold BatchCreateProgramCategories, kind_absent, insert_kind. keep.
Qed.

(** What this interface creates can not be sold.  The requests that create
    categories and seats name no show, and a seat may only be created in a category of
    a show: from tables without seats and without categories of shows, no sequence of
    requests, with whatever faults and caches, ever creates a seat or a category that
    belongs to a show. *)
Theorem created_programs_unsaleable c c' : of_stock no_stock c ->
  rtc (fun a b => (exists q e, b = (serve q (e, a)).2.2) \/ (exists k l, b = recached a k l)) c c' ->
  of_stock no_stock c' /\ forall show, show <> 0 -> findCategories show (ct_cats c') = (Ok [], ct_cats c').
Proof.
  intros Hu Hr. assert (Hu' : U c').
  { induction Hr as [|c c1 c2 [(q & e & ->)|(k & l & ->)] _ IH]; [done|..]; apply IH; [by apply (stock_serve q (e, c))|done]. }
  split; [done|]. intros show Hne. destruct Hu' as [Hcs _]. unfold findCategories, select_categories, live_categories.
  assert (Hf : filter (fun tc => (tc_Status tc =? 1) && (tc_ShowTimeId tc =? show) = true) (ct_cats c') = []).
  { induction Hcs as [|tc cs Htc _ IH]; [done|]. rewrite filter_cons, Htc, decide_False; [done|].
    destruct (Z.eqb_spec 0 show); [by subst|]. by rewrite andb_false_r. }
  by rewrite Hf.
Qed.

(** ** A program that is created *)

(** What an invalidation leaves alone. *)
Definition tables (c : C) :=
  (show_times (ct_db c), programs (ct_db c), groups (ct_db c), kinds (ct_db c), ct_cats c, w_seats (ct_world c),
   w_redis (ct_world c), ct_tasks c).

Lemma invalidate_tables p gs e (c : C) : exists e' c',
  logged (InvalidateProgram svc p gs) (e, c) = (Ok tt, (e', c')) /\ tables c' = tables c.
Proof.
  assert (Hl : forall m : M local_cache unit, keeps (fun c' => tables c' = tables c) (on_local (own m))).
  { intros m [e1 c1] Hc. unfold on_local, on, own. cbn. by destruct (m (ct_local c1)). }
  assert (Hch : forall m, keeps (fun c' => tables c' = tables c) (on_channel (R := R) (call (S := list string) (A := unit) m))).
  { intros m [e1 c1] Hc. unfold on_channel, on. cbn -[call]. by destruct (call m _) as [r [e2 x]]. }
  assert (Hd : keeps (fun c' => tables c' = tables c) (on_db (R := R) (call (modify (evict p gs))))).
  { intros [e1 c1] Hc. unfold on_db, in_world, on, on_programs, on, call. destruct (draw e1) as [f e2]. by destruct f. }
  assert (Hk : keeps (fun c' => tables c' = tables c) (InvalidateProgram (R := R) svc p gs)).
  { unfold InvalidateProgram, publish. keep. }
  unfold logged. rewrite bind_unfold, attempt_run. specialize (Hk (e, c) eq_refl).
  destruct (InvalidateProgram svc p gs (e, c)) as [r [e' c']]. by exists e', c'.
Qed.

Lemma validate_new v id : validateProgramWriteValues (with_id id v) false = validateProgramWriteValues v false.
Proof. done. Qed.

(** A program without shows has nothing to preheat. *)
Lemma schedule_no_shows p e (c : C) : faults e = [] -> live_shows [pg_Id p] (ct_db c) = [] ->
  scheduleRushInventoryPreheat svc p (e, c) = (Ok tt, (e, c)).
Proof.
  intros He Hs. unfold scheduleRushInventoryPreheat. destruct (pg_RushSaleOpenTime p); [|done].
  destruct (sx_PreheatLeadTime svc); [|done]. rewrite bind_unfold, attempt_run, on_db_read by done.
  unfold FindShowTimesByProgramIds. cbn [fst]. by rewrite Hs.
Qed.

Lemma on_db_run {A} (m : M programdb A) e (c : C) a db' : faults e = [] -> m (ct_db c) = (Ok a, db') ->
  on_db (call m) (e, c) = (Ok a, (e, upd_db (fun _ => db') c)).
Proof.
  intros He Hm. unfold on_db, in_world, on, on_programs, on. rewrite call_nofault by done.
  unfold ct_db in Hm. by rewrite Hm.
Qed.

(** A program that is created is stored as asked.  When the request is valid, its
    group is live and its texts fit their columns, the answer is the next id, and the
    tables gain exactly the row of the request under that id, with the defaults of the
    fields left out and the texts left blank null; nothing else changes, whatever
    becomes of the invalidation. *)
Theorem create_program_stores r e (c : C) id ids data g :
  let v := with_id id (applyCreateProgramDefaults (newCreateProgramValues r)) in
  faults e = [] -> xids e = id :: ids ->
  validateProgramWriteValues v false = Ok tt -> buildProgramModel v (clock e) = Ok data ->
  program_columns data = Ok tt -> (group_row (rq_ProgramGroupId r) (ct_db c)).1 = Ok g ->
  programs (ct_db c) !! id = None -> live_shows [id] (ct_db c) = [] ->
  exists e' c', CreateProgram svc r (e, c) = (Ok id, (e', c')) /\
    programs (ct_db c') = <[id := stored_program (mysql_datetime (clock e)) data]> (programs (ct_db c)) /\
    tables c' = tables (upd_db (set_programs (programs (ct_db c'))) c).
Proof.
  intros v He Hx Hv Hb Hcol Hg Hn Hs. unfold CreateProgram. rewrite bind_unfold. unfold lift at 1.
  unfold v in Hv. rewrite validate_new in Hv. rewrite Hv. destruct (now_run e c) as (e1 & Hnow & He1 & _).
  rewrite (bind_ok_run _ _ _ _ _ Hnow).
  assert (Hx1 : exists e2, newID (e1, c) = (Ok id, (e2, c)) /\ faults e2 = []).
  { unfold now in Hnow. unfold newID. destruct (ticks e); injection Hnow as _ <-; cbn; rewrite Hx; by eexists. }
  destruct Hx1 as (e2 & Hid & He2). rewrite (bind_ok_run _ _ _ _ _ Hid). rewrite bind_unfold. unfold lift at 1.
  fold v. rewrite Hb. pose proof (build_ok _ _ _ Hb) as [Hpid _]. change (pv_id v) with id in Hpid.
  set (body := _ ← map_err _ _; _).
  set (c2 := upd_db (set_programs (<[id := stored_program (mysql_datetime (clock e)) data]> (programs (ct_db c)))) c).
  assert (Hbody : body (e2, c) = (Ok tt, (e2, c2))).
  { unfold body. rewrite bind_unfold. unfold map_err at 1. rewrite on_db_read by done.
    change (pv_programGroupId v) with (rq_ProgramGroupId r). rewrite Hg. cbn [fst].
    assert (Hct : pg_CreateTime data = clock e).
    { revert Hb. unfold buildProgramModel. intros (i & _ & Hr)%result_bind_ok. apply result_bind_ok in Hr as (o & _ & Hr).
      by apply result_bind_ok in Hr as (d & _ & [= <-]). }
    rewrite (bind_ok_run _ _ _ tt (e2, c2)).
    - apply schedule_no_shows; [done|]. by rewrite Hpid.
    - unfold c2, upd_db. rewrite (on_db_run _ _ _ tt (set_programs (<[id := stored_program (mysql_datetime (clock e)) data]> (programs (ct_db c))) (ct_db c))); [done|done|].
      unfold InsertProgramRow. by rewrite Hcol, Hpid, Hn, Hct. }
  rewrite (bind_ok_run _ _ _ tt (e2, c2)) by by rewrite (transact_nofault _ _ _ _ _ _ He2 Hbody He2).
  destruct (invalidate_tables id [pv_programGroupId v] e2 c2) as (e3 & c3 & Hi & Ht).
  rewrite (bind_ok_run _ _ _ _ _ Hi). exists e3, c3. split; [done|].
  assert (Hp : programs (ct_db c3) = programs (ct_db c2)) by (unfold tables in Ht; congruence).
  split; [done|]. by rewrite Hp.
Qed.

End rules.
