(* ===== verification/ProgramDemo.v ===== *)
(** * The catalogue at work

    Instances of what the catalogue takes from outside, a catalogue with one group, and
    the theorems of [ProgramCache] and [ProgramRules] at it. *)
From Stdlib Require Import ZArith Lia Ascii String.
From stdpp Require Import base gmap sets list strings countable sorting relations.
From S2P Require Import Prelude GoBase Effects Sql FreezeToken ProgramDB RefundRule RedisZ SeatDB SeatStore SeatFreeze OrderDB ProgramCache ProgramAdmin ProgramRules.
Import MemZ.
Open Scope string_scope.
Open Scope list_scope.
Open Scope Z_scope.

(** ** Instances *)

(** Times in seconds of the Unix epoch. *)
#[export] Instance unix_time : LocalTime := fun s => time_of_unix <$> parse_int64 s.
#[export] Instance unix_format : LocalFormat := fun t => format_int (t / second).
#[export] Instance no_programs : GroupJson := fun _ => Some [].
#[export] Instance plain_columns : ColumnPrims := {
  json_value s := Some s; same_text a b := bool_decide (a = b); datetime_literal := parse_local }.

(** Messages by their number in an enumeration, in binary. *)
#[export] Instance InvalidationEntry_countable : Countable InvalidationEntry :=
  inj_countable' (fun e => (ie_Cache e, ie_ProgramID e)) (fun p => mkEntry p.1 p.2) ltac:(by intros []).
#[export] Instance InvalidationMessage_eq_dec : EqDecision InvalidationMessage.
Proof. solve_decision. Defined.
#[export] Instance InvalidationMessage_countable : Countable InvalidationMessage :=
  inj_countable' (fun m => (im_Version m, im_Service m, im_InstanceID m, im_PublishedAt m, im_Entries m))
    (fun '(a, b, c, d, e) => mkInvalidation a b c d e) ltac:(by intros []).

Fixpoint bits (p : positive) : string :=
  match p with
  | xH => ""
  | xO p => String "0" (bits p)
  | xI p => String "1" (bits p)
  end.
Fixpoint of_bits (s : string) : positive :=
  match s with
  | EmptyString => xH
  | String c s => if Ascii.eqb c "1" then xI (of_bits s) else xO (of_bits s)
  end.
Lemma of_bits_bits p : of_bits (bits p) = p.
Proof. induction p as [p IH|p IH|]; cbn; by rewrite ?IH. Qed.

#[export] Instance bit_codec : InvalidationCodec := {
  encode_message m := String "b" (bits (encode m));
  decode_message s := match s with
    | EmptyString => Err (EOther "empty")
    | String _ s => of_option (EOther "bits") (decode (of_bits s))
    end }.
#[export] Instance bit_codec_laws : InvalidationCodecLaws.
Proof. split; [|done]. intros m. cbn. by rewrite of_bits_bits, countable.decode_encode. Qed.

(** ** A catalogue *)

Definition demo_svc : ServiceContext := mkProgramSvc true true "a" None (Some (300 * second)).
Definition demo_group : DProgramGroup := mkGroup 1 "" zero_time 0 0 1.
Definition demo_catalogue : catalogue mem :=
  mkCatalogue (mkWorld mem_empty [] (mkProgramDB ∅ ∅ {[1 := demo_group]} [] no_cache) []) (mkLocal ∅ ∅ None) [] [].
Definition at_time (t : Z) (fs : list fault) (ids : list Z) : env := mkEnv fs [] (time_of_unix t) ids.

Definition no_texts : texts string :=
  mkTexts "" "" "" "" "" "" "" "" "" "" "" "" "" "" "" "" "" "" "" "" "" "" "" "" "".
Definition demo_request (open : string) : CreateProgramReq :=
  mkProgramReq 1 0 2 3 4 "concert" "a concert" 0 0 0 0 0 1 0 0 0 0 0 0 no_texts "" open "9000" 1.

Definition quiet : env := at_time 0 [] [].

Definition run (q : admin_request) (e : env) (c : catalogue mem) : catalogue mem := (serve demo_svc q (e, c)).2.2.

(** A program whose sale opens at 1500; its opening is moved to 1000, and a show is
    added at 1200. *)
Definition demo_c1 : catalogue mem := run (RqCreateProgram (demo_request "1500")) (at_time 100 [] [10]) demo_catalogue.
Definition demo_c2 : catalogue mem :=
  run (RqUpdateProgram (mkUpdateReq 10 (demo_request "1000"))) (at_time 200 [] []) demo_c1.
Definition demo_show : ProgramShowTimeAddReq := mkShowTimeAdd 10 "1200" "" "Fri" "".
Definition demo_c3 : catalogue mem := run (RqCreateShowTime demo_show) (at_time 300 [] [20; 30]) demo_c2.

(** A reader that had read the program before it was changed puts its row in Redis. *)
Definition demo_c4 : catalogue mem :=
  recached demo_c3 (mkCache {[10 := programs (ct_db demo_c1) !! 10]} ∅ ∅ ∅) (ct_local demo_c3).
Definition demo_c5 : catalogue mem := run (RqInvalidProgram 10) (at_time 400 [] []) demo_c4.

Lemma no_window (k : list DProgramCategory) (g : gmap Z DProgramGroup) (ca : row_cache) :
  window_inv (mkProgramDB ∅ ∅ g k ca).
Proof. by constructor; intros ???*; try intros [Hl _]. Qed.

(** Invalidating the program writes the old row over the new one: its sale opens at
    1500 again, after the show it was moved for. *)
Theorem stale_invalid_program :
  window_inv (ct_db demo_catalogue) /\ truthful (at_time 400 [] []) /\ ~ window_inv (ct_db demo_c5) /\
  (pg_RushSaleOpenTime <$> programs (ct_db demo_c4) !! 10) = Some (Some (1000 * second)) /\
  (pg_RushSaleOpenTime <$> programs (ct_db demo_c5) !! 10) = Some (Some (1500 * second)).
Proof.
  split_and!; [apply no_window|constructor| |by vm_compute..].
  intros [_ _ Hw].
  assert (Hs : (fun s => (st_Id s, st_Status s, st_ProgramId s, st_ShowTime s)) <$> show_times (ct_db demo_c5) !! 20
               = Some (20, 1, 10, 1200 * second)) by by vm_compute.
  assert (Hp : pg_RushSaleOpenTime <$> programs (ct_db demo_c5) !! 10 = Some (Some (1500 * second))) by by vm_compute.
  destruct (show_times (ct_db demo_c5) !! 20) as [s|] eqn:Es; [|done]. injection Hs as Hid Hst Hpid Hshow.
  destruct (programs (ct_db demo_c5) !! 10) as [p|] eqn:Ep; [|done]. injection Hp as Ho.
  specialize (Hw s p (1500 * second)). rewrite Hshow, Hpid in Hw.
  apply (Z.lt_irrefl (1500 * second)), Z.le_lt_trans with (1200 * second); [|done].
  apply Hw; [by split; [rewrite Hid|]|done..].
Qed.

(** ** Witnesses *)

Lemma calm_truthful t ids : truthful (at_time t [] ids).
Proof. constructor. Qed.

Definition create1 : admin_request := RqCreateProgram (demo_request "1500").
Definition update2 : admin_request := RqUpdateProgram (mkUpdateReq 10 (demo_request "1000")).
Definition show3 : admin_request := RqCreateShowTime demo_show.

Lemma sale_opens_before_shows_witness : window_inv (ct_db demo_catalogue) /\ window_inv (ct_db demo_c3).
Proof.
  split; [apply no_window|]. apply (sale_opens_before_shows demo_svc demo_catalogue demo_c3); [apply no_window|].
  apply (rtc_l _ _ demo_c1); [exact (admin_serve demo_svc create1 _ _ (calm_truthful _ _) ltac:(discriminate))|].
  apply (rtc_l _ _ demo_c2); [exact (admin_serve demo_svc update2 _ _ (calm_truthful _ _) ltac:(discriminate))|].
  apply rtc_once. exact (admin_serve demo_svc show3 (at_time 300 [] [20; 30]) _ (calm_truthful _ _) ltac:(discriminate)).
Defined.

Lemma created_programs_unsaleable_witness : findCategories 20 (ct_cats demo_c3) = (Ok [], ct_cats demo_c3).
Proof.
  destruct (created_programs_unsaleable demo_svc demo_catalogue demo_c3) as [_ Hn]; [by split; [constructor|]| |by apply Hn].
  apply (rtc_l _ _ demo_c1); [left; by exists create1, (at_time 100 [] [10])|].
  apply (rtc_l _ _ demo_c2); [left; by exists update2, (at_time 200 [] [])|].
  apply rtc_once. left. by exists show3, (at_time 300 [] [20; 30]).
Defined.

Definition demo_row : DProgram :=
  match buildProgramModel (with_id 10 (applyCreateProgramDefaults (newCreateProgramValues (demo_request "1500"))))
          (time_of_unix 100) with
  | Ok p => p
  | Err _ => RefundRule.demo_program
  end.

Lemma create_program_stores_witness : exists e' c',
  CreateProgram demo_svc (demo_request "1500") (at_time 100 [] [10], demo_catalogue) = (Ok 10, (e', c')) /\
  programs (ct_db c') = {[10 := demo_row]}.
Proof.
  destruct (create_program_stores demo_svc (demo_request "1500") (at_time 100 [] [10]) demo_catalogue 10 [] demo_row demo_group)
    as (e' & c' & Hr & Hp & _); [done|done|by vm_compute..|].
  exists e', c'. split; [done|]. rewrite Hp. by vm_compute.
Defined.

(** The view of the program with its show: the instance had the view of another one. *)
Lemma view_after_invalidation_witness : exists e' c' payload l',
  InvalidateProgram demo_svc 10 [1] (at_time 500 [] [], demo_c4) = (Ok tt, (e', c')) /\
  handlePayload payload (set_detail 10 (toProgramDetailViewInfo demo_row (mkShowTime 1 10 0 None "" None None None 1)
    (mkGroupInfo 1 [] "") ∅ []) (ct_local demo_c4)) = (Ok tt, l') /\
  exists d, (GetProgramDetailView 10 (quiet, mkCatalogue (ct_world c') l' [] [])).1 = Ok d /\
    dv_RushSaleOpenTime d = "1000".
Proof.
  destruct (view_after_invalidation demo_svc 10 [1] (at_time 500 [] []) demo_c4) as (e' & c' & payload & Hi & _ & Hv);
    [done..| | |].
  - apply map_Forall_to_list. vm_compute. by repeat constructor.
  - intros row Hrow. vm_compute in Hrow. injection Hrow as <-. split; [by left|done].
  - destruct (Hv (set_detail 10 (toProgramDetailViewInfo demo_row (mkShowTime 1 10 0 None "" None None None 1)
      (mkGroupInfo 1 [] "") ∅ []) (ct_local demo_c4)) [] [] quiet) as (l' & Hl & Hd); [done|by intros ks [= <-]|].
    exists e', c', payload, l'. split; [done|]. split; [done|]. rewrite Hd.
    assert (Hf : dv_RushSaleOpenTime <$> (match fresh_view 10 (ct_db demo_c4) (ct_cats demo_c4) with Ok d => Some d | Err _ => None end) = Some "1000")
      by by vm_compute.
    destruct (fresh_view 10 (ct_db demo_c4) (ct_cats demo_c4)) as [d|x]; [|done]. exists d. split; [done|]. by injection Hf.
Defined.
