(* ===== verification/Preheat.v ===== *)
(** * Preheating a sale  (jobs/rush-inventory-preheat)

    The worker that receives the task [scheduleRushInventoryPreheat] has left in the
    outbox: it looks at the program again, has order-rpc load the rush store and
    program-rpc load the seat ledger of every show, and marks the program preheated
    and the task processed in one transaction.  Its dispatcher is [DelayTask.Run]. *)
From Stdlib Require Import ZArith Lia Ascii String.
From stdpp Require Import base gmap sets list strings sorting.
From S2P Require Import Prelude GoBase Effects Sql ProgramDB RefundRule RedisZ SeatDB SeatStore SeatFreeze OrderDB OrderFlow DelayTask ProgramCache ProgramAdmin ProgramRules.
Open Scope string_scope.
Open Scope list_scope.
Open Scope Z_scope.

(** [taskdef.Parse]: [json.Unmarshal] of a payload. *)
Class PreheatPayload := parse_preheat_payload : string -> option RushInventoryPreheatPayload.

(** order-rpc as the worker sees it. *)
Class OrderPreheat (O : Type) := rpc_PrimeRushRuntime : Z -> IO O unit.

Record preheater (O R : Type) := mkPreheater { ph_orders : O; ph_program : catalogue R }.
Arguments mkPreheater {O R} _ _.
Arguments ph_orders {O R} _.
Arguments ph_program {O R} _.

(** ** worker_service_context.go *)

Record ShowTimeRecord := mkShowRecord {
  sh_ProgramID : Z; sh_ID : Z; sh_RushSaleOpenTime : option time; sh_InventoryPreheatStatus : Z }.

Definition by_time_id (a b : DProgramShowTime) : Prop :=
  st_ShowTime a < st_ShowTime b \/ (st_ShowTime a = st_ShowTime b /\ st_Id a <= st_Id b).
#[global] Instance by_time_id_dec a b : Decision (by_time_id a b).
Proof. unfold by_time_id. apply _. Defined.

(** The live shows of a live program, with its opening. *)
Definition ListByProgramID (programID : Z) : M programdb (list ShowTimeRecord) := fun db =>
  (match programs db !! programID with
   | Some p =>
       if pg_Status p =? 1 then
         Ok (map (fun s => mkShowRecord (st_ProgramId s) (st_Id s) (pg_RushSaleOpenTime p) (pg_InventoryPreheatStatus p))
               (merge_sort by_time_id (live_shows [programID] db)))
       else Ok []
   | None => Ok []
   end, db).

Definition getOutboxConsumeState (taskType taskKey : string) : M (list DDelayTaskOutbox) (Z * Z * bool) := fun rows =>
  (match find (live_task taskType taskKey) rows with
   | Some t => Ok (ot_TaskStatus t, ot_ConsumeAttempts t, true)
   | None => Ok (0, 0, false)
   end, rows).

Definition mark_task_processed (taskType taskKey : string) (processedAt : time) : M (list DDelayTaskOutbox) unit :=
  modify (update_rows (live_task taskType taskKey) (processed_task processedAt)).

Definition unconsumed_task (consumeErr : string) (failedAt : time) (t : DDelayTaskOutbox) : DDelayTaskOutbox :=
  mkTask (ot_Id t) (ot_TaskType t) (ot_TaskKey t) (ot_Payload t) (ot_ExecuteAt t) 4
    (ot_PublishAttempts t) (ot_ConsumeAttempts t + 1) (ot_LastPublishError t) consumeErr (ot_PublishedTime t)
    (ot_ProcessedTime t) (ot_CreateTime t) (mysql_datetime failedAt) (ot_Status t).

(** [last_consume_error] has 512 characters. *)
Definition mark_consume_failed (taskType taskKey : string) (failedAt : time) (consumeErr : string)
  : M (list DDelayTaskOutbox) unit := fun rows =>
  if existsb (live_task taskType taskKey) rows && negb (fits 512 consumeErr) then (too_long "last_consume_error", rows)
  else (Ok tt, update_rows (live_task taskType taskKey) (unconsumed_task consumeErr failedAt) rows).

(** UPDATE counts the rows it changes. *)
Definition mark_preheated (programID : Z) (expectedOpenTime updatedAt : time) : M programdb bool := fun db =>
  match programs db !! programID with
  | Some p =>
      if (pg_Status p =? 1) && bool_decide (pg_RushSaleOpenTime p = Some expectedOpenTime) then
        let edit := mysql_datetime updatedAt in
        (Ok (negb ((pg_InventoryPreheatStatus p =? 2) && (pg_EditTime p =? edit))),
         set_programs (<[programID := set_program (pg_ProgramStatus p) 2 (pg_CreateTime p) edit p]> (programs db)) db)
      else (Ok false, db)
  | None => (Ok false, db)
  end.

Section worker.
Context {O R : Type} `{OrderPreheat O} `{RedisZ R} `{LocalTime} `{LocalFormat} `{PreheatPayload}.
Context (store : option Cache.SeatStockStore).
Notation W := (preheater O R).

Definition on_orders {A} : IO O A -> IO W A := on ph_orders (fun o w => mkPreheater o (ph_program w)).
Definition on_program {A} : IO (catalogue R) A -> IO W A := on ph_program (fun c w => mkPreheater (ph_orders w) c).

(** The transaction reports nothing it has read when it fails. *)
Definition MarkInventoryPreheatedByProgramAndTaskProcessed (programID : Z) (expectedOpenTime : time)
  (taskType taskKey : string) (updatedAt : time) : IO (catalogue R) (bool * Z * Z) :=
  '(updated, (fromStatus, consumeAttempts, found)) ← transact (
    updated ← on_db (call (mark_preheated programID expectedOpenTime updatedAt));
    state ← on_tasks (call (getOutboxConsumeState taskType taskKey));
    _ ← on_tasks (call (mark_task_processed taskType taskKey updatedAt));
    mret (updated, state));
  mret (updated, fromStatus, if (found : bool) then consumeAttempts + 1 else consumeAttempts).

Definition MarkTaskProcessed (taskType taskKey : string) (processedAt : time) : IO (catalogue R) (Z * Z) :=
  '(fromStatus, consumeAttempts, found) ← on_tasks (call (getOutboxConsumeState taskType taskKey));
  _ ← on_tasks (call (mark_task_processed taskType taskKey processedAt));
  mret (fromStatus, if (found : bool) then consumeAttempts + 1 else consumeAttempts).

Definition MarkTaskConsumeFailed (taskType taskKey : string) (failedAt : time) (consumeErr : string)
  : IO (catalogue R) (Z * Z) :=
  '(fromStatus, consumeAttempts, found) ← on_tasks (call (getOutboxConsumeState taskType taskKey));
  _ ← on_tasks (call (mark_consume_failed taskType taskKey failedAt consumeErr));
  mret (fromStatus, if (found : bool) then consumeAttempts + 1 else consumeAttempts).

(** ** rush_inventory_preheat_task_logic.go *)

Definition markRushInventoryPreheatProcessed (taskKey : string) : IO W unit :=
  t ← now;
  _ ← on_program (MarkTaskProcessed TaskTypeRushInventoryPreheat taskKey t);
  mret tt.

Definition markRushInventoryPreheatFailed (taskKey : string) (consumeErr : err) : IO W unit :=
  t ← now;
  _ ← on_program (MarkTaskConsumeFailed TaskTypeRushInventoryPreheat taskKey t (err_text consumeErr));
  throw consumeErr.

(** The shows to prime, none when one of them opens at another time. *)
Fixpoint matched (expectedOpenTime : time) (shows : list ShowTimeRecord) : option (list Z) :=
  match shows with
  | [] => Some []
  | s :: shows =>
      match sh_RushSaleOpenTime s with
      | None => matched expectedOpenTime shows
      | Some o => if negb (bool_decide (format_local o = format_local expectedOpenTime)) then None
                  else cons (sh_ID s) <$> matched expectedOpenTime shows
      end
  end.

(** What has to be loaded before the sale. *)
Definition prime_all (programID : Z) (showTimeIDs : list Z) : IO W unit :=
  _ ← on_orders (rpc (rpc_PrimeRushRuntime programID));
  each (fun id => on_program (in_world (rpc (PrimeSeatLedger store id)))) showTimeIDs.

Definition preheat (programID : Z) (expectedOpenTime : time) : IO W unit :=
  let taskKey := PreheatTaskKey programID expectedOpenTime in
  res ← attempt (on_program (on_db (call (ListByProgramID programID))));
  match res with
  | Err x => if err_is_x x ErrProgramShowTimeNotFound then markRushInventoryPreheatProcessed taskKey else throw x
  | Ok shows =>
      match matched expectedOpenTime shows with
      | None | Some [] => markRushInventoryPreheatProcessed taskKey
      | Some ids =>
          primed ← attempt (prime_all programID ids);
          match primed with
          | Err x => markRushInventoryPreheatFailed taskKey x
          | Ok _ =>
              t ← now;
              _ ← on_program (MarkInventoryPreheatedByProgramAndTaskProcessed programID expectedOpenTime
                    TaskTypeRushInventoryPreheat taskKey t);
              mret tt
          end
      end
  end.

(** [RushInventoryPreheatTaskLogic.Handle]. *)
Definition PreheatHandle (payload : string) : IO W unit :=
  match parse_preheat_payload payload with
  | None => throw SkipRetry
  | Some p =>
      match parse_local (pp_ExpectedRushSaleOpenTime p) with
      | None => throw SkipRetry
      | Some expectedOpenTime => preheat (pp_ProgramId p) expectedOpenTime
      end
  end.

(** ** What a run does *)

Section keeps_programs.
Context (db : programdb).
Notation P := (fun w : world R => w_programs w = db).

Lemma redis_keeps_programs {A} (m : IO R A) : keeps P (on_redis m).
Proof. intros [e w] Hw. unfold on_redis, on. cbn. by destruct (m _) as [r [e' x]]. Qed.
Lemma seats_keeps_programs {A} (m : IO (list DSeat) A) : keeps P (on_seats (R := R) m).
Proof. intros [e w] Hw. unfold on_seats, on. cbn. by destruct (m _) as [r [e' x]]. Qed.
Lemma categories_keeps_programs {A} (m : IO (list DTicketCategory) A) : keeps P (on_categories (R := R) m).
Proof. intros [e w] Hw. unfold on_categories, on. cbn. by destruct (m _) as [r [e' x]]. Qed.
Lemma read_keeps_programs {A} (m : M programdb A) : readonly m -> keeps P (on_programs (R := R) (call m)).
Proof.
  intros Hm [e w] Hw. unfold on_programs, on. cbn -[call]. destruct (call m (e, w_programs w)) as [r [e' x]] eqn:E.
  apply (call_readonly _ _ _ _ _ _ Hm) in E. by cbn in *; subst.
Qed.
#[local] Hint Resolve redis_keeps_programs seats_keeps_programs categories_keeps_programs read_keeps_programs : catalogue.

Lemma prime_keeps_programs id : keeps P (PrimeSeatLedger store id).
Proof. unfold PrimeSeatLedger, primeSeatLedger, PrimeFromDB, LoadSync. keep. Qed.
End keeps_programs.
Notation db w := (ct_db (ph_program w)).
Notation tasks w := (ct_tasks (ph_program w)).

Lemma keeps_on_program {A} (Q : catalogue R -> Prop) (m : IO (catalogue R) A) :
  keeps Q m -> keeps (fun w : W => Q (ph_program w)) (on_program m).
Proof.
  intros Hm [e w] Hw. specialize (Hm (e, ph_program w) Hw). unfold on_program, on. by destruct (m (e, ph_program w)) as [r [e' c]].
Qed.

Lemma keeps_on_orders {A} (Q : catalogue R -> Prop) (m : IO O A) : keeps (fun w : W => Q (ph_program w)) (on_orders m).
Proof. intros [e w] Hw. unfold on_orders, on. by destruct (m (e, ph_orders w)) as [r [e' o]]. Qed.

Lemma keeps_in_world {A} d ts (m : IO (world R) A) : keeps (fun w => w_programs w = d) m ->
  keeps (fun c => ct_db c = d /\ ct_tasks c = ts) (in_world m).
Proof.
  intros Hm [e c] [Hd Ht]. specialize (Hm (e, ct_world c) Hd). unfold in_world, on.
  by destruct (m (e, ct_world c)) as [r [e' x]].
Qed.

(** Priming leaves the program tables and the outbox alone. *)
Lemma prime_all_keeps pid ids d ts : keeps (fun w : W => db w = d /\ tasks w = ts) (prime_all pid ids).
Proof.
  set (Q := fun c : catalogue R => ct_db c = d /\ ct_tasks c = ts).
  apply keeps_bind; [by apply (keeps_on_orders Q)|]. intros _. apply keeps_each. intros id.
  apply (keeps_on_program Q), keeps_in_world, keeps_rpc, prime_keeps_programs.
Qed.

Lemma list_tasks_run pid e (w : W) r e' w' : on_program (on_db (call (ListByProgramID pid))) (e, w) = (r, (e', w')) ->
  w' = w /\ forall shows, r = Ok shows -> (ListByProgramID pid (db w)).1 = Ok shows.
Proof.
  unfold on_program, on. destruct (on_db _ (e, ph_program w)) as [r1 [e1 c1]] eqn:E. intros [= <- <- <-].
  assert (Hc : c1 = ph_program w).
  { unfold on_db, in_world, on_programs, on in E. destruct (call _ _) as [r2 [e2 x]] eqn:Ec. injection E as _ _ <-.
    apply call_readonly in Ec as ->; [|done]. by destruct (ph_program w) as [[] ? ? ?]. }
  subst c1. split; [by destruct w|]. intros shows ->. apply on_db_ok in E. by rewrite E.
Qed.

Lemma matched_spec o shows ids : matched o shows = Some ids ->
  Forall (fun s => forall t, sh_RushSaleOpenTime s = Some t -> format_local t = format_local o) shows /\
  ids = sh_ID <$> filter (fun s => is_Some (sh_RushSaleOpenTime s)) shows.
Proof.
  revert ids. induction shows as [|s shows IH]; intros ids; cbn [matched]; [by intros [= <-]|].
  destruct (sh_RushSaleOpenTime s) as [t|] eqn:Et.
  - destruct (bool_decide_reflect (format_local t = format_local o)) as [Hf|]; [|done]. cbn [negb].
    destruct (matched o shows) as [ids'|]; [|done]. intros [= <-]. destruct (IH _ eq_refl) as [Hall ->]. split.
    + constructor; [intros t'; congruence|done].
    + rewrite filter_cons, decide_True; [done|by rewrite Et].
  - intros Hm. destruct (IH _ Hm) as [Hall ->]. split; [by constructor; [congruence|]|].
    rewrite filter_cons, decide_False; [done|]. rewrite Et. by intros [].
Qed.

(** The live shows of a live program that has an opening, and that opening. *)
Lemma listed_matched pid o (d : programdb) shows ids : (ListByProgramID pid d).1 = Ok shows ->
  matched o shows = Some ids -> ids <> [] ->
  exists p t, programs d !! pid = Some p /\ pg_Status p = 1 /\ pg_RushSaleOpenTime p = Some t /\
    format_local t = format_local o /\ ids ≡ₚ st_Id <$> live_shows [pid] d.
Proof.
  unfold ListByProgramID. intros Hl Hm Hne. apply matched_spec in Hm as [Hall Hids]. cbn in Hl.
  destruct (programs d !! pid) as [p|] eqn:Ep; [|by injection Hl as <-].
  destruct (Z.eqb_spec (pg_Status p) 1) as [Hst|]; [|by injection Hl as <-]. injection Hl as <-.
  exists p. destruct (pg_RushSaleOpenTime p) as [t|] eqn:Eo.
  - exists t. set (mk := fun s => mkShowRecord (st_ProgramId s) (st_Id s) (Some t) (pg_InventoryPreheatStatus p)) in *.
    assert (Hf : forall l, filter (fun s => is_Some (sh_RushSaleOpenTime s)) (map mk l) = map mk l).
    { induction l as [|s l IH]; [done|]. cbn [map]. rewrite filter_cons, decide_True, IH; [done|]. by eexists. }
    rewrite Hf in Hids. rewrite <- list_fmap_compose in Hids.
    split_and!; [done..| |].
    + destruct (merge_sort by_time_id (live_shows [pid] d)) as [|s l]; [done|].
      apply Forall_inv in Hall. by apply Hall.
    + rewrite Hids. by rewrite merge_sort_Permutation.
  - exfalso. apply Hne. rewrite Hids. clear. by induction (merge_sort by_time_id (live_shows [pid] d)).
Qed.

Lemma tasks_keep_db d {A} (m : IO (list DDelayTaskOutbox) A) : keeps (fun c => ct_db c = d) (on_tasks (R := R) m).
Proof. intros [e c] Hc. unfold on_tasks, on. cbn. by destruct (m _) as [r [e' x]]. Qed.
#[local] Hint Resolve tasks_keep_db : catalogue.

Lemma keeps_processed key d : keeps (fun w : W => db w = d) (markRushInventoryPreheatProcessed key).
Proof.
  unfold markRushInventoryPreheatProcessed. apply keeps_bind; [keep|]. intros t. apply keeps_bind; [|intros _; keep].
  apply (keeps_on_program (fun c => ct_db c = d)). unfold MarkTaskProcessed. keep.
Qed.

Lemma keeps_failed key x d : keeps (fun w : W => db w = d) (markRushInventoryPreheatFailed key x).
Proof.
  unfold markRushInventoryPreheatFailed. apply keeps_bind; [keep|]. intros t. apply keeps_bind; [|intros _; keep].
  apply (keeps_on_program (fun c => ct_db c = d)). unfold MarkTaskConsumeFailed. keep.
Qed.

(** The row a program has after its preheat. *)
Definition preheated (edit : time) (p : DProgram) : DProgram := set_program (pg_ProgramStatus p) 2 (pg_CreateTime p) edit p.

Lemma mark_preheated_cases pid o t d :
  (mark_preheated pid o t d).2 = d \/
  exists p, programs d !! pid = Some p /\ pg_RushSaleOpenTime p = Some o /\
    (mark_preheated pid o t d).2 = set_programs (<[pid := preheated (mysql_datetime t) p]> (programs d)) d.
Proof.
  unfold mark_preheated. destruct (programs d !! pid) as [p|]; [|by left].
  destruct (pg_Status p =? 1); [|by left]. destruct (bool_decide_reflect (pg_RushSaleOpenTime p = Some o)); [|by left].
  right. by exists p.
Qed.

(** Marking marks the program that still opens as expected, or nothing. *)
Lemma mark_cases pid o ty key t e (c : catalogue R) :
  let c' := (MarkInventoryPreheatedByProgramAndTaskProcessed pid o ty key t (e, c)).2.2 in
  ct_db c' = ct_db c \/
  exists p, programs (ct_db c) !! pid = Some p /\ pg_RushSaleOpenTime p = Some o /\
    ct_db c' = set_programs (<[pid := preheated (mysql_datetime t) p]> (programs (ct_db c))) (ct_db c).
Proof.
  set (Q := fun c' : catalogue R => ct_db c' = ct_db c \/ exists p, programs (ct_db c) !! pid = Some p /\ pg_RushSaleOpenTime p = Some o /\
    ct_db c' = set_programs (<[pid := preheated (mysql_datetime t) p]> (programs (ct_db c))) (ct_db c)).
  assert (Ht : forall A (m : IO (list DDelayTaskOutbox) A), keeps Q (on_tasks (R := R) m)).
  { intros A m [e0 c0] Hc. unfold on_tasks, on. cbn. by destruct (m _) as [r [e' x]]. }
  cbn zeta. change (Q (MarkInventoryPreheatedByProgramAndTaskProcessed pid o ty key t (e, c)).2.2).
  unfold MarkInventoryPreheatedByProgramAndTaskProcessed. apply bind_keeps_after; [|intros [? [[? ?] ?]]; keep].
  unfold transact. destruct (draw e) as [f e1]. destruct f; [|by left..].
  set (body := _ ≫= _). assert (Hb : Q (body (e1, c)).2.2).
  { apply bind_keeps_after; [|intros u; keep]. unfold on_db, in_world, on_programs, on. cbn -[call].
    destruct (call _ _) as [r [e2 d]] eqn:E.
    destruct (call_state (mark_preheated pid o t) e1 (w_programs (ct_world c))) as [Es|Es]; rewrite E in Es; cbn in Es; subst d.
    - by left.
    - apply mark_preheated_cases. }
  destruct (body (e1, c)) as [[a|x] [e2 c2]]; [|by left]. destruct (draw e2) as [f e3]. destruct f; [done|by left|done].
Qed.

(** C15: a program is marked preheated when everything is loaded, and only then.
    Whatever fails, a run of the worker leaves the program tables as they were, or it
    marks the program of the task, which still opens when the task expected and has
    live shows, after order-rpc has answered that the rush store is loaded and
    program-rpc that the seat ledger of every live show is. *)
Theorem preheated_after_priming pid o e (w : W) :
  let w' := (preheat pid o (e, w)).2.2 in
  db w' = db w \/
  exists p ids edit e1 e2 w2,
    programs (db w) !! pid = Some p /\ pg_Status p = 1 /\ pg_RushSaleOpenTime p = Some o /\
    ids ≡ₚ st_Id <$> live_shows [pid] (db w) /\ ids <> [] /\
    prime_all pid ids (e1, w) = (Ok tt, (e2, w2)) /\
    db w' = set_programs (<[pid := preheated edit p]> (programs (db w))) (db w).
Proof.
  cbn zeta. unfold preheat. rewrite bind_unfold. set (lst := on_program _).
  rewrite attempt_run. destruct (lst (e, w)) as [res [e1 w1]] eqn:El. apply list_tasks_run in El as [-> Hl]. cbn [fst snd].
  destruct res as [shows|x]; [|destr_if; left; [by apply (keeps_processed _ (db w) (e1, w))|done]].
  specialize (Hl _ eq_refl). destruct (matched o shows) as [[|i ids]|] eqn:Hm;
    [left; by apply (keeps_processed _ (db w) (e1, w))| |left; by apply (keeps_processed _ (db w) (e1, w))].
  destruct (listed_matched _ _ _ _ _ Hl Hm) as (p & t & Hp & Hst & Ho & _ & Hids); [done|].
  rewrite bind_unfold, attempt_run. pose proof (prime_all_keeps pid (i :: ids) _ _ (e1, w) (conj eq_refl eq_refl)) as [Hd _].
  destruct (prime_all pid (i :: ids) (e1, w)) as [[[]|x] [e2 w2]] eqn:Hprime; cbn [fst snd] in *;
    [|left; by apply (keeps_failed _ x (db w) (e2, w2))].
  rewrite bind_unfold. destruct (now (e2, w2)) as [[tm|x] [e3 w3]] eqn:En; apply now_state in En as [-> Hn]; [|by destruct Hn].
  rewrite bind_unfold. unfold on_program, on.
  pose proof (mark_cases pid o TaskTypeRushInventoryPreheat (PreheatTaskKey pid o) tm e3 (ph_program w2)) as Hc.
  cbn zeta in Hc. rewrite Hd in Hc.
  destruct (MarkInventoryPreheatedByProgramAndTaskProcessed _ _ _ _ _ _) as [r [e4 c4]].
  cbn in Hc. destruct Hc as [Hc|(p' & Hp' & Ho' & Hc)]; [left; by destruct r|].
  right. assert (p' = p) as -> by congruence. exists p, (i :: ids), (mysql_datetime tm), e1, e2, w2.
  split_and!; try done. by destruct r.
Qed.

(** *** A run in which nothing fails *)

Lemma on_program_run {A} (m : IO (catalogue R) A) e (w : W) r e' c :
  m (e, ph_program w) = (r, (e', c)) -> on_program m (e, w) = (r, (e', mkPreheater (ph_orders w) c)).
Proof. intros Hm. unfold on_program, on. by rewrite Hm. Qed.

Lemma list_read_run pid e (w : W) : faults e = [] ->
  on_program (on_db (call (ListByProgramID pid))) (e, w) = ((ListByProgramID pid (db w)).1, (e, w)).
Proof.
  intros He. rewrite (on_program_run _ _ _ (ListByProgramID pid (db w)).1 e (ph_program w)); [by destruct w|].
  by rewrite on_db_read.
Qed.

Lemma on_tasks_run {A} (m : M (list DDelayTaskOutbox) A) e (c : catalogue R) : faults e = [] ->
  on_tasks (call m) (e, c) = ((m (ct_tasks c)).1, (e, mkCatalogue (ct_world c) (ct_local c) (ct_channel c) (m (ct_tasks c)).2)).
Proof. intros He. unfold on_tasks, on. by rewrite call_nofault by done. Qed.

Definition consumed (key : string) (t : time) (c : catalogue R) : catalogue R :=
  mkCatalogue (ct_world c) (ct_local c) (ct_channel c)
    (update_rows (live_task TaskTypeRushInventoryPreheat key) (processed_task t) (ct_tasks c)).

Lemma state_read ty key (ts : list DDelayTaskOutbox) : exists st, getOutboxConsumeState ty key ts = (Ok st, ts).
Proof. unfold getOutboxConsumeState. destruct (find _ ts); by eexists. Qed.

Lemma processed_run key e (w : W) : faults e = [] ->
  exists e', markRushInventoryPreheatProcessed key (e, w) = (Ok tt, (e', mkPreheater (ph_orders w) (consumed key (clock e) (ph_program w)))).
Proof.
  intros He. unfold markRushInventoryPreheatProcessed. destruct (now_run e w) as (e1 & Hn & He1 & _). rewrite He in He1.
  rewrite (bind_ok_run _ _ _ _ _ Hn). exists e1. destruct (state_read TaskTypeRushInventoryPreheat key (tasks w)) as [[[a b] f] Hs].
  erewrite bind_ok_run; [reflexivity|]. apply on_program_run. unfold MarkTaskProcessed.
  rewrite (bind_ok_run _ _ _ (a, b, f) (e1, ph_program w)).
  - rewrite bind_unfold, on_tasks_run by done. reflexivity.
  - rewrite on_tasks_run by done. rewrite Hs. by destruct (ph_program w).
Qed.

Lemma marked_preheat_run pid o p key t e (c : catalogue R) : faults e = [] ->
  programs (ct_db c) !! pid = Some p -> pg_Status p = 1 -> pg_RushSaleOpenTime p = Some o ->
  exists r, MarkInventoryPreheatedByProgramAndTaskProcessed pid o TaskTypeRushInventoryPreheat key t (e, c)
    = (Ok r, (e, consumed key t (upd_db (set_programs (<[pid := preheated (mysql_datetime t) p]> (programs (ct_db c)))) c))).
Proof.
  intros He Hp Hst Ho. unfold MarkInventoryPreheatedByProgramAndTaskProcessed.
  destruct (state_read TaskTypeRushInventoryPreheat key (ct_tasks c)) as [[[a b] f] Hs].
  set (c1 := upd_db (set_programs (<[pid := preheated (mysql_datetime t) p]> (programs (ct_db c)))) c).
  set (u := negb ((pg_InventoryPreheatStatus p =? 2) && (pg_EditTime p =? mysql_datetime t))).
  assert (Hm : mark_preheated pid o t (ct_db c)
             = (Ok u, set_programs (<[pid := preheated (mysql_datetime t) p]> (programs (ct_db c))) (ct_db c))).
  { unfold mark_preheated. rewrite Hp, Hst. by rewrite bool_decide_eq_true_2. }
  match goal with |- context [transact ?m] => set (body := m) end.
  assert (Hb : body (e, c) = (Ok (u, (a, b, f)), (e, consumed key t c1))).
  { unfold body. rewrite (bind_ok_run _ _ _ u (e, c1)) by exact (on_db_run _ _ _ _ _ He Hm).
    rewrite (bind_ok_run _ _ _ (a, b, f) (e, c1)).
    - rewrite bind_unfold, on_tasks_run by done. reflexivity.
    - rewrite on_tasks_run by done. change (ct_tasks c1) with (ct_tasks c). rewrite Hs. by destruct c. }
  eexists. rewrite (bind_ok_run _ _ _ (u, (a, b, f)) (e, consumed key t c1)); [reflexivity|].
  by rewrite (transact_nofault _ _ _ _ _ _ He Hb He).
Qed.

Lemma matched_all o (l : list DProgramShowTime) st :
  matched o (map (fun s => mkShowRecord (st_ProgramId s) (st_Id s) (Some o) st) l) = Some (st_Id <$> l).
Proof. induction l as [|s l IH]; [done|]. cbn. rewrite bool_decide_eq_true_2 by done. cbn. by rewrite IH. Qed.

(** A task does its work.  When nothing fails at the database and order-rpc and
    program-rpc load what they are asked to, the task that was scheduled for the
    opening of a live program with live shows marks the program preheated and itself
    processed. *)
Theorem preheat_completes pid o lead p e (w : W) e2 w2 :
  let ids := st_Id <$> merge_sort by_time_id (live_shows [pid] (db w)) in
  parse_preheat_payload (preheat_payload pid o lead) = Some (mkPreheatPayload pid (format_local o) (duration_string lead)) ->
  parse_local (format_local o) = Some o ->
  faults e = [] -> programs (db w) !! pid = Some p -> pg_Status p = 1 -> pg_RushSaleOpenTime p = Some o -> ids <> [] ->
  prime_all pid ids (e, w) = (Ok tt, (e2, w2)) -> faults e2 = [] ->
  exists e' w' t, PreheatHandle (preheat_payload pid o lead) (e, w) = (Ok tt, (e', w')) /\
    db w' = set_programs (<[pid := preheated (mysql_datetime t) p]> (programs (db w))) (db w) /\
    tasks w' = update_rows (live_task TaskTypeRushInventoryPreheat (PreheatTaskKey pid o)) (processed_task t) (tasks w).
Proof.
  intros ids Hparse Htime He Hp Hst Ho Hne Hprime He2. unfold PreheatHandle. rewrite Hparse. cbn [pp_ExpectedRushSaleOpenTime pp_ProgramId].
  rewrite Htime. unfold preheat. rewrite bind_unfold, attempt_run, list_read_run by done. unfold ListByProgramID. cbn [fst snd].
  rewrite Hp, Hst, Ho. cbn [Z.eqb Pos.eqb]. rewrite matched_all. fold ids. destruct ids as [|i ids']; [done|].
  rewrite bind_unfold, attempt_run, Hprime. cbn [fst snd].
  pose proof (prime_all_keeps pid (i :: ids') _ _ (e, w) (conj eq_refl eq_refl)) as Hk. rewrite Hprime in Hk.
  destruct Hk as [Hd Ht]. cbn [fst snd] in Hd, Ht.
  destruct (now_run e2 w2) as (e3 & Hn & He3 & _). rewrite He2 in He3. rewrite (bind_ok_run _ _ _ _ _ Hn).
  destruct (marked_preheat_run pid o p (PreheatTaskKey pid o) (clock e2) e3 (ph_program w2)) as [r Hr]; [done|by rewrite Hd|done..|].
  erewrite bind_ok_run by by apply on_program_run. do 2 eexists. exists (clock e2). split; [reflexivity|]. split.
  - change (set_programs (<[pid := preheated (mysql_datetime (clock e2)) p]> (programs (db w2))) (db w2) = set_programs (<[pid := preheated (mysql_datetime (clock e2)) p]> (programs (db w))) (db w)). by rewrite Hd.
  - cbn. by rewrite Ht.
Qed.

(** A task that came too late does nothing.  When the opening of the program has
    been moved since its task was scheduled, when it has no live show or is gone, the
    task loads nothing, changes no program and is processed. *)
Theorem preheat_overtaken pid o lead e (w : W) :
  parse_preheat_payload (preheat_payload pid o lead) = Some (mkPreheatPayload pid (format_local o) (duration_string lead)) ->
  parse_local (format_local o) = Some o -> faults e = [] ->
  (forall p t, programs (db w) !! pid = Some p -> pg_Status p = 1 -> pg_RushSaleOpenTime p = Some t ->
     live_shows [pid] (db w) <> [] -> format_local t <> format_local o) ->
  exists e' t, PreheatHandle (preheat_payload pid o lead) (e, w)
    = (Ok tt, (e', mkPreheater (ph_orders w) (consumed (PreheatTaskKey pid o) t (ph_program w)))).
Proof.
  intros Hparse Htime He Hold. unfold PreheatHandle. rewrite Hparse. cbn [pp_ExpectedRushSaleOpenTime pp_ProgramId].
  rewrite Htime. unfold preheat. rewrite bind_unfold, attempt_run, list_read_run by done.
  destruct (processed_run (PreheatTaskKey pid o) e w He) as [e1 Hdone].
  destruct (ListByProgramID pid (db w)) as [[shows|x] d] eqn:El; cbn [fst snd]; [|by unfold ListByProgramID in El; destruct (programs (db w) !! pid); [destruct (pg_Status _ =? 1)|]].
  destruct (matched o shows) as [[|i ids]|] eqn:Hm; [by exists e1, (clock e)| |by exists e1, (clock e)].
  exfalso. apply (f_equal fst) in El. cbn [fst] in El. destruct (listed_matched pid o _ _ _ El Hm) as (p & t & Hp & Hst & Ho & Hf & Hids); [done|].
  apply (Hold p t Hp Hst Ho); [|done]. intros Hnil. rewrite Hnil in Hids. by apply Permutation_nil_r in Hids.
Qed.

End worker.
