(* ===== verification/PreheatDemo.v ===== *)
(** * A preheat at work

    A program with one show of four seats, an order service that remembers what it has
    loaded, and the theorems of [Preheat] at them. *)
From Stdlib Require Import ZArith Lia Ascii String.
From stdpp Require Import base gmap sets list strings sorting.
From S2P Require Import Prelude GoBase Effects Sql ProgramDB RefundRule RedisZ SeatDB SeatStore SeatDemo SeatFreeze OrderDB DelayTask ProgramCache ProgramAdmin ProgramRules ProgramDemo Preheat.
Import MemZ.
Open Scope string_scope.
Open Scope list_scope.
Open Scope Z_scope.

#[local] Instance remembering : OrderPreheat (list Z) := fun id => call (modify (cons id)).

(** The values between the quotes of a payload without escapes. *)
Fixpoint split_quotes (acc s : string) : list string :=
  match s with
  | EmptyString => [acc]
  | String c s => if Ascii.eqb c (ascii_of_nat 34) then acc :: split_quotes "" s else split_quotes (acc +:+ String c "") s
  end.
#[local] Instance quoted_payload : PreheatPayload := fun s =>
  match split_quotes "" s with
  | [_; _; id; _; _; open; _; _; _; lead; _] =>
      (fun n => mkPreheatPayload n open lead) <$> parse_int64 (keep_chars is_digit id)
  | _ => None
  end.

Definition opening : time := time_of_unix 100.
Definition preheat_world : preheater (list Z) mem :=
  mkPreheater [] (mkCatalogue (mkWorld mem_empty demo_rows demo_programdb [mkCategory 5 7 3 "A" 100 2 2 0 0 1])
    (mkLocal ∅ ∅ None) [] [preheat_task 1 7 opening (300 * second) 0]).
Notation loaded := (prime_all (Some demo_store) 7 [3] (calm, preheat_world)).
Definition moved_world : preheater (list Z) mem :=
  mkPreheater [] (upd_db (set_programs {[7 := set_program 1 2 0 0 (mkProgram 7 1 1 1 1 1 "show" "detail" 0 6 6 None None 1 0 0 1 1 0 1
    (rule_texts None) None (Some (time_of_unix 90)) None 0 0 0 1)]}) (ph_program preheat_world)).

Lemma preheat_payload_read : parse_preheat_payload (preheat_payload 7 opening (300 * second))
  = Some (mkPreheatPayload 7 (format_local opening) (duration_string (300 * second))).
Proof. by vm_compute. Qed.

Lemma preheat_completes_witness : exists e' w' t,
  PreheatHandle (Some demo_store) (preheat_payload 7 opening (300 * second)) (calm, preheat_world) = (Ok tt, (e', w')) /\
  programs (ct_db (ph_program w')) = {[7 := preheated (mysql_datetime t) demo_program]}.
Proof.
  assert (Hl : loaded = (Ok tt, (calm, loaded.2.2))) by (vm_compute; reflexivity).
  destruct (preheat_completes (Some demo_store) 7 opening (300 * second) demo_program calm preheat_world calm loaded.2.2)
    as (e' & w' & t & Hr & Hd & _); [exact preheat_payload_read|by vm_compute|done|done|done|done|by vm_compute|exact Hl|done|].
  exists e', w', t. split; [exact Hr|]. rewrite Hd. reflexivity.
Defined.

Lemma preheat_overtaken_witness : exists e' w',
  PreheatHandle (Some demo_store) (preheat_payload 7 opening (300 * second)) (calm, moved_world) = (Ok tt, (e', w')) /\
  ph_orders w' = [].
Proof.
  destruct (preheat_overtaken (Some demo_store) 7 opening (300 * second) calm moved_world) as (e' & t & Hr);
    [exact preheat_payload_read|by vm_compute|done| |].
  - intros p t Hp _ Ho _. assert (Hs : pg_RushSaleOpenTime <$> programs (ct_db (ph_program moved_world)) !! 7 = Some (Some (time_of_unix 90)))
      by by vm_compute.
    rewrite Hp in Hs. injection Hs as Hs. rewrite Ho in Hs. injection Hs as ->. by vm_compute.
  - do 2 eexists. by split; [exact Hr|].
Defined.

(** The worker marks the program in the table and leaves its row in Redis: while that
    is there, the inventory of a preheated program still changes. *)
Definition cached_world : preheater (list Z) mem :=
  mkPreheater [] (recached (ph_program preheat_world) (mkCache {[7 := Some demo_program]} ∅ ∅ ∅) (mkLocal ∅ ∅ None)).
Definition preheated_world : preheater (list Z) mem :=
  (PreheatHandle (Some demo_store) (preheat_payload 7 opening (300 * second)) (calm, cached_world)).2.2.
Definition new_category : TicketCategoryAddReq := mkCategoryAdd 7 "B" 50 10 10.

Theorem preheated_program_still_changes :
  (pg_InventoryPreheatStatus <$> programs (ct_db (ph_program preheated_world)) !! 7) = Some 2 /\
  (CreateTicketCategory demo_svc new_category (at_time 90 [] [99], ph_program preheated_world)).1 = Ok 99.
Proof. by vm_compute. Qed.
