(* ===== verification/ProgramQuery.v ===== *)
(** * Reading the catalogue  (services/program-rpc/internal/logic)

    The pages of programs, the home page, the categories, what a buyer sees before an
    order and the shows of a sale.  Every reader makes its calls one after the other
    on tables that may change in between; the theorems hold the tables still. *)
From Stdlib Require Import ZArith Lia Ascii String.
From stdpp Require Import base gmap sets list strings sorting.
From S2P Require Import Prelude GoBase Effects Sql PayService ProgramDB RefundRule RedisZ SeatDB SeatStore SeatFreeze OrderDB OrderFlow ProgramCache ProgramAdmin ProgramRules.
Open Scope string_scope.
Open Scope list_scope.
Open Scope Z_scope.

(** ** Requests and answers *)

Record PageProgramsReq := mkPageReq {
  pr_PageNumber : Z; pr_PageSize : Z; pr_AreaId : Z; pr_ParentProgramCategoryId : Z; pr_ProgramCategoryId : Z;
  pr_TimeType : Z; pr_StartDateTime : string; pr_EndDateTime : string; pr_Type : Z }.
Record ListHomeProgramsReq := mkHomeReq { hr_AreaId : Z; hr_ParentProgramCategoryIds : list Z }.

Record ProgramListInfo := mkListInfo {
  li_Id : Z; li_Title : string; li_Actor : string; li_Place : string; li_ItemPicture : string; li_AreaId : Z;
  li_AreaName : string; li_ProgramCategoryId : Z; li_ProgramCategoryName : string; li_ParentProgramCategoryId : Z;
  li_ParentProgramCategoryName : string; li_ShowTime : string; li_ShowDayTime : string; li_ShowWeekTime : string;
  li_MinPrice : Z; li_MaxPrice : Z }.
Record ProgramPageResp := mkPageResp { pe_PageNum : Z; pe_PageSize : Z; pe_TotalSize : Z; pe_List : list ProgramListInfo }.
Record ProgramHomeSection := mkSection { hs_CategoryName : string; hs_CategoryId : Z; hs_ProgramListVoList : list ProgramListInfo }.
Record ProgramCategoryInfo := mkKindInfo { kn_Id : Z; kn_ParentId : Z; kn_Name : string; kn_Type : Z }.
Record TicketCategoryDetailInfo := mkCategoryDetail {
  cd_ProgramId : Z; cd_Introduce : string; cd_Price : Z; cd_TotalNumber : Z; cd_RemainNumber : Z }.
Record ProgramPreorderTicketCategoryInfo := mkPreCategory {
  pk_Id : Z; pk_Introduce : string; pk_Price : Z; pk_TotalNumber : Z; pk_RemainNumber : Z; pk_AdmissionQuota : Z }.
Record ProgramPreorderInfo := mkPreorderInfo {
  pf_ProgramId : Z; pf_ShowTimeId : Z; pf_ProgramGroupId : Z; pf_Title : string; pf_Actor : string; pf_Place : string;
  pf_ItemPicture : string; pf_ShowTime : string; pf_ShowDayTime : string; pf_ShowWeekTime : string;
  pf_RushSaleOpenTime : string; pf_RushSaleEndTime : string; pf_PerOrderLimitPurchaseCount : Z;
  pf_PerAccountLimitPurchaseCount : Z; pf_PermitChooseSeat : Z; pf_ChooseSeatExplain : string;
  pf_TicketCategoryVoList : list ProgramPreorderTicketCategoryInfo }.
Record ProgramShowTimeForRushInfo := mkRushShow { rw_ShowTimeId : Z; rw_RushSaleOpenTime : string; rw_InventoryPreheatStatus : Z }.
Record RelatedSeat := mkRelatedSeat { re_SeatId : Z; re_TicketCategoryId : Z; re_RowCode : Z; re_ColCode : Z; re_Price : Z }.
Record SeatRelateInfo := mkRelateInfo {
  rl_ProgramId : Z; rl_Place : string; rl_ShowTime : string; rl_ShowWeekTime : string; rl_PriceList : list string;
  rl_PriceSeatGroupList : list (string * list RelatedSeat) }.

(** ** d_seat_model.go: the seats left of a show *)

Record SeatRemainAggregate := mkRemain { sg_TicketCategoryId : Z; sg_RemainNumber : Z }.

Definition free_seat (showTimeId : Z) (s : DSeat) : bool :=
  (Status s =? 1) && (SeatDB.ShowTimeId s =? showTimeId) && (SeatStatus s =? 1).
Definition free_in (showTimeId ticketCategoryId : Z) (db : list DSeat) : Z :=
  Z.of_nat (length (filter (fun s => free_seat showTimeId s && (SeatDB.TicketCategoryId s =? ticketCategoryId) = true) db)).

(** One row per category that has a free seat, in the order of the ids. *)
Definition FindAvailableCountByShowTimeId (showTimeId : Z) : M (list DSeat) (list SeatRemainAggregate) := fun db =>
  (Ok (map (fun c => mkRemain c (free_in showTimeId c db))
         (merge_sort Z.le (remove_dups (map SeatDB.TicketCategoryId (filter (fun s => free_seat showTimeId s = true) db))))), db).

Section mappers.
Context `{LocalFormat}.

(** ** program_domain_helper.go *)

Definition validatePageProgramsReq (r : PageProgramsReq) : result err unit :=
  if (pr_TimeType r =? 5) && (bool_decide (pr_StartDateTime r = "") || bool_decide (pr_EndDateTime r = ""))
  then Err invalidParam else Ok tt.

Definition mapTicketPriceRange (l : list TicketCategoryPriceAggregate) : gmap Z (Z * Z) :=
  foldl (fun m a => <[pa_ProgramId a := (pa_MinPrice a, pa_MaxPrice a)]> m) ∅ l.

Definition mapFirstShowTime (l : list DProgramShowTime) : gmap Z DProgramShowTime :=
  foldl (fun m s => match m !! st_ProgramId s with Some _ => m | None => <[st_ProgramId s := s]> m end) ∅ l.

Definition toProgramListInfo (p : DProgram) (first : option DProgramShowTime) (categories : gmap Z DProgramCategory)
  (range : Z * Z) : ProgramListInfo :=
  let t := pg_Texts p in
  mkListInfo (pg_Id p) (pg_Title p) (nullStringValue (tx_Actor t)) (nullStringValue (tx_Place t))
    (nullStringValue (tx_ItemPicture t)) (pg_AreaId p) "" (pg_ProgramCategoryId p)
    (categoryName (categories !! pg_ProgramCategoryId p)) (pg_ParentProgramCategoryId p)
    (categoryName (categories !! pg_ParentProgramCategoryId p)) (formatProgramShowTime first)
    (formatProgramShowDayTime first) (programShowWeekTime first) range.1 range.2.

Definition mapSeatRemainAggregates (l : list SeatRemainAggregate) : gmap Z Z :=
  foldl (fun m a => <[sg_TicketCategoryId a := sg_RemainNumber a]> m) ∅ l.

Definition toProgramPreorderTicketCategoryInfoList (cs : list DTicketCategory) (remain : gmap Z Z)
  : list ProgramPreorderTicketCategoryInfo :=
  map (fun c => let admissionQuota := default 0 (remain !! tc_Id c) in
    mkPreCategory (tc_Id c) (tc_Introduce c) (tc_Price c) (tc_TotalNumber c) admissionQuota admissionQuota) cs.

Definition toProgramPreorderInfo (p : DProgram) (first : DProgramShowTime) (cs : list DTicketCategory)
  (remain : gmap Z Z) : ProgramPreorderInfo :=
  let t := pg_Texts p in
  mkPreorderInfo (pg_Id p) (st_Id first) (pg_ProgramGroupId p) (pg_Title p) (nullStringValue (tx_Actor t))
    (nullStringValue (tx_Place t)) (nullStringValue (tx_ItemPicture t)) (formatProgramShowTime (Some first))
    (formatProgramShowDayTime (Some first)) (programShowWeekTime (Some first)) (formatNullTime (pg_RushSaleOpenTime p))
    (formatNullTime (pg_RushSaleEndTime p)) (pg_PerOrderLimitPurchaseCount p) (pg_PerAccountLimitPurchaseCount p)
    (pg_PermitChooseSeat p) (nullStringValue (tx_ChooseSeatExplain t))
    (toProgramPreorderTicketCategoryInfoList cs remain).

Definition toTicketCategoryDetailInfo (c : DTicketCategory) : TicketCategoryDetailInfo :=
  mkCategoryDetail (tc_ProgramId c) (tc_Introduce c) (tc_Price c) (tc_TotalNumber c) (tc_RemainNumber c).
Definition toTicketCategoryDetailInfoList (cs : list DTicketCategory) : list TicketCategoryDetailInfo :=
  map toTicketCategoryDetailInfo cs.

Definition homeListLimit (parentCategoryIDs : list Z) : Z :=
  match parentCategoryIDs with [] => 7 | _ => Z.of_nat (length parentCategoryIDs) * 7 end.

Definition orderedHomeParentCategoryIDs {A} (parentCategoryIDs : list Z) (grouped : gmap Z A) : list Z :=
  match parentCategoryIDs with [] => merge_sort Z.le (elements (dom grouped)) | _ => parentCategoryIDs end.

(** ** program_management_helper.go *)

Definition buildProgramCategoryListResp (ks : list DProgramCategory) : list ProgramCategoryInfo :=
  map (fun k => mkKindInfo (kd_Id k) (kd_ParentId k) (kd_Name k) (kd_Type k)) ks.

Definition ticketCategoryPriceString (price : Z) : string := format_int price.

End mappers.

(** [if err != nil && !errors.Is(err, model.ErrNotFound) { return nil, err }]. *)
Definition or_none {S A} (m : M S (list A)) : M S (list A) := fun s =>
  match m s with
  | (Ok l, s') => (Ok l, s')
  | (Err x, s') => if err_is x ENotFound then (Ok [], s') else (Err x, s')
  end.

Section handlers.
Context {R : Type} `{LocalFormat} `{ColumnPrims}.
Notation C := (catalogue R).

(** What both pages put together: first shows and price ranges. *)
Definition list_infos (categories : gmap Z DProgramCategory) (programs : list DProgram) : IO C (list ProgramListInfo) :=
  let programIDs := map pg_Id programs in
  showTimes ← (match programIDs with
               | [] => mret []
               | _ => or_none (on_db (call (FindShowTimesByProgramIds programIDs)))
               end);
  priceAggregates ← (match programIDs with
                     | [] => mret []
                     | _ => or_none (on_cats (call (FindPriceAggregateByProgramIds programIDs)))
                     end);
  let showTimeMap := mapFirstShowTime showTimes in
  let priceRangeMap := mapTicketPriceRange priceAggregates in
  mret (map (fun p => toProgramListInfo p (showTimeMap !! pg_Id p) categories (default (0, 0) (priceRangeMap !! pg_Id p))) programs).

(** page_programs_logic.go *)
Definition PagePrograms (r : PageProgramsReq) : IO C ProgramPageResp :=
  _ ← lift (validatePageProgramsReq r);
  let pageNum := if pr_PageNumber r <=? 0 then 1 else pr_PageNumber r in
  let pageSize := if pr_PageSize r <=? 0 then 10 else pr_PageSize r in
  let query := mkPageQuery pageNum pageSize (pr_AreaId r) (pr_ParentProgramCategoryId r) (pr_ProgramCategoryId r)
                 (pr_TimeType r) (pr_StartDateTime r) (pr_EndDateTime r) (pr_Type r) in
  total ← on_db (call (CountPageList query));
  if total =? 0 then mret (mkPageResp pageNum pageSize total [])
  else
    res ← attempt (on_db (call (FindPageList query)));
    match res with
    | Err x => if err_is x ENotFound then mret (mkPageResp pageNum pageSize total []) else throw x
    | Ok programs =>
        categories ← or_none (on_db (call FindAllKinds));
        list ← list_infos (buildCategoryMap categories) programs;
        mret (mkPageResp pageNum pageSize total list)
    end.

(** list_home_programs_logic.go *)

Definition group_infos (l : list ProgramListInfo) : gmap Z (list ProgramListInfo) :=
  foldl (fun m i => <[li_ParentProgramCategoryId i := default [] (m !! li_ParentProgramCategoryId i) ++ [i]]> m) ∅ l.

Definition home_section (categories : gmap Z DProgramCategory) (grouped : gmap Z (list ProgramListInfo)) (id : Z)
  : option ProgramHomeSection :=
  match default [] (grouped !! id) with
  | [] => None
  | l => Some (mkSection (categoryName (categories !! id)) id (take 7 l))
  end.

Definition ListHomePrograms (r : ListHomeProgramsReq) : IO C (list ProgramHomeSection) :=
  categories ← or_none (on_db (call FindAllKinds));
  let categoryMap := buildCategoryMap categories in
  programs ← or_none (on_db (call (FindHomeList (mkHomeQuery (hr_AreaId r) (hr_ParentProgramCategoryIds r)
               (homeListLimit (hr_ParentProgramCategoryIds r))))));
  match programs with
  | [] => mret []
  | _ =>
      infos ← list_infos categoryMap programs;
      let grouped := group_infos infos in
      mret (omap (home_section categoryMap grouped) (orderedHomeParentCategoryIDs (hr_ParentProgramCategoryIds r) grouped))
  end.

(** get_program_preorder_logic.go *)
Definition GetProgramPreorder (showTimeId : Z) : IO C ProgramPreorderInfo :=
  showTime ← map_err (or_not_found programNotFoundError) (on_db (call (findShowTime showTimeId)));
  program ← map_err (or_not_found programNotFoundError) (on_db (call (findProgram (st_ProgramId showTime))));
  ticketCategories ← or_none (on_cats (call (findCategories (st_Id showTime))));
  remainAggregates ← in_seats (call (FindAvailableCountByShowTimeId (st_Id showTime)));
  mret (toProgramPreorderInfo program showTime ticketCategories (mapSeatRemainAggregates remainAggregates)).

(** list_program_show_times_for_rush_logic.go *)
Definition ListProgramShowTimesForRush (programId : Z) : IO C (list ProgramShowTimeForRushInfo) :=
  if programId <=? 0 then throw invalidParam
  else
    showTimes ← attempt (on_db (call (FindShowTimesByProgramIds [programId])));
    match showTimes with
    | Err x => if err_is x ENotFound then mret [] else throw x
    | Ok showTimes =>
        program ← attempt (on_db (call (findProgram programId)));
        match program with
        | Err x => if err_is x ENotFound then mret [] else throw x
        | Ok p => mret (map (fun s => mkRushShow (st_Id s) (formatNullTime (pg_RushSaleOpenTime p)) (pg_InventoryPreheatStatus p)) showTimes)
        end
    end.

(** get_seat_relate_info_logic.go *)

Definition group_seats (l : list DSeat) : gmap string (list RelatedSeat) :=
  foldl (fun m s => let key := ticketCategoryPriceString (Price s) in
    <[key := default [] (m !! key) ++ [mkRelatedSeat (SeatDB.Id s) (SeatDB.TicketCategoryId s) (RowCode s) (ColCode s) (Price s)]]> m) ∅ l.

Definition GetSeatRelateInfo (programId : Z) : IO C SeatRelateInfo :=
  if programId <=? 0 then throw invalidParam
  else
    program ← map_err (or_not_found programNotFoundError) (on_db (call (findProgram programId)));
    showTime ← map_err (or_not_found (statusX NotFound ErrProgramShowTimeNotFound)) (on_db (call (findFirst programId)));
    seats ← in_seats (call (FindSeatsByProgramID programId));
    let groupMap := group_seats seats in
    let priceList := merge_sort String.le (elements (dom groupMap)) in
    mret (mkRelateInfo (pg_Id program) (nullStringValue (pg_Place program)) (format_local (st_ShowTime showTime))
      (st_ShowWeekTime showTime) priceList (map (fun k => (k, default [] (groupMap !! k))) priceList)).

(** get_ticket_category_detail_logic.go, list_ticket_categories_by_program_logic.go *)
Definition GetTicketCategoryDetail (id : Z) : IO C TicketCategoryDetailInfo :=
  if id <=? 0 then throw invalidParam
  else
    item ← map_err (or_not_found (statusX NotFound ErrProgramTicketCategoryNotFound)) (on_cats (call (category_row id)));
    mret (toTicketCategoryDetailInfo item).
Definition ListTicketCategoriesByProgram (programId : Z) : IO C (list TicketCategoryDetailInfo) :=
  cs ← or_none (on_cats (call (FindCategoriesByProgramId programId)));
  mret (toTicketCategoryDetailInfoList cs).

(** list_program_categories_logic.go and its two variants *)
Definition ListProgramCategories : IO C (list ProgramCategoryInfo) :=
  ks ← or_none (on_db (call FindAllKinds)); mret (buildProgramCategoryListResp ks).
Definition ListProgramCategoriesByParent (parentID : Z) : IO C (list ProgramCategoryInfo) :=
  if parentID <=? 0 then throw invalidParam
  else ks ← on_db (call (FindKindsByParentID parentID)); mret (buildProgramCategoryListResp ks).
Definition ListProgramCategoriesByType (tp : Z) : IO C (list ProgramCategoryInfo) :=
  if tp <=? 0 then throw invalidParam
  else ks ← on_db (call (FindKindsByType tp)); mret (buildProgramCategoryListResp ks).

(** ** Runs without a fault *)

(** [m] answers [a] and leaves everything as it is. *)
Definition settles {S A} (m : IO S A) (s : S) (a : A) : Prop := forall e, faults e = [] -> m (e, s) = (Ok a, (e, s)).

Lemma settles_ret {S A} (s : S) (a : A) : settles (mret a) s a.
Proof. done. Qed.
Lemma settles_bind {S A B} (m : IO S A) (f : A -> IO S B) s a b : settles m s a -> settles (f a) s b -> settles (m ≫= f) s b.
Proof. intros Hm Hf e He. rewrite bind_unfold, Hm by done. by apply Hf. Qed.
Lemma settles_lift {S A} (s : S) (a : A) r : r = Ok a -> settles (lift r) s a.
Proof. by intros ->. Qed.
Lemma settles_call {S A} (m : M S A) s a : m s = (Ok a, s) -> settles (call m) s a.
Proof. intros Hm e He. unfold call, draw. by rewrite He, Hm. Qed.
Lemma settles_attempt {S A} (m : IO S A) s a : settles m s a -> settles (attempt m) s (Ok a).
Proof. intros Hm e He. unfold attempt. by rewrite Hm. Qed.
Lemma settles_or_none {S A} (m : IO S (list A)) s a : settles m s a -> settles (or_none m) s a.
Proof. intros Hm e He. unfold or_none. by rewrite Hm. Qed.
Lemma settles_db {A} (m : M programdb A) (c : C) a : m (ct_db c) = (Ok a, ct_db c) -> settles (on_db (call m)) c a.
Proof.
  intros Hm e He. unfold on_db, in_world, on_programs, on. cbn -[call]. rewrite (settles_call _ _ _ Hm) by done.
  by destruct c as [[] ? ? ?].
Qed.
Lemma settles_cats {A} (m : M (list DTicketCategory) A) (c : C) a :
  m (w_categories (ct_world c)) = (Ok a, w_categories (ct_world c)) -> settles (on_cats (call m)) c a.
Proof.
  intros Hm e He. unfold on_cats, in_world, on_categories, on. cbn -[call]. rewrite (settles_call _ _ _ Hm) by done.
  by destruct c as [[] ? ? ?].
Qed.
Lemma settles_each_map {S A B} (f : A -> IO S B) s xs ys :
  Forall2 (fun x y => settles (f x) s y) xs ys -> settles (each_map f xs) s ys.
Proof.
  induction 1 as [|x y xs ys Hx _ IH]; [done|]. cbn [each_map]. eapply settles_bind; [exact Hx|].
  eapply settles_bind; [exact IH|]. done.
Qed.
Hint Resolve settles_ret settles_lift settles_attempt settles_or_none settles_db settles_cats : settles.

(** ** The pages put the list together again *)

(** The list a request runs through, and its pages. *)
Definition matching (r : PageProgramsReq) (db : programdb) : list DProgram :=
  let q := mkPageQuery 1 1 (pr_AreaId r) (pr_ParentProgramCategoryId r) (pr_ProgramCategoryId r)
             (pr_TimeType r) (pr_StartDateTime r) (pr_EndDateTime r) (pr_Type r) in
  sort_programs (buildProgramPageOrderBy db (pr_Type r)) (program_list (buildProgramPageConditions db q) db).
Definition nth_page (r : PageProgramsReq) (size k : Z) : PageProgramsReq :=
  mkPageReq k size (pr_AreaId r) (pr_ParentProgramCategoryId r) (pr_ProgramCategoryId r) (pr_TimeType r)
    (pr_StartDateTime r) (pr_EndDateTime r) (pr_Type r).
Definition slice {A} (size k : Z) (l : list A) : list A := take (Z.to_nat size) (drop (Z.to_nat ((k - 1) * size)) l).

Lemma wrap64_small z : 0 <= z < 2 ^ 63 -> wrap64 z = z.
Proof. intros Hz. apply wrap64_id. unfold in_int64, min_int64, max_int64. rewrite !(proj2 (Z.leb_le _ _)); lia. Qed.

Lemma slices_append {A} (size : Z) n (l : list A) : 0 < size ->
  (seqZ 1 (Z.of_nat n) ≫= fun k => slice size k l) = take (Z.to_nat (Z.of_nat n * size)) l.
Proof.
  intros Hs. induction n as [|n IH]; [done|].
  rewrite Nat2Z.inj_succ, <-Z.add_1_r, seqZ_app, bind_app, IH by lia.
  change (seqZ (1 + Z.of_nat n) 1) with [1 + Z.of_nat n]. cbn [mbind list_bind]. rewrite app_nil_r. unfold slice.
  rewrite Z.add_simpl_l, take_take_drop. f_equal. lia.
Qed.

Lemma settles_list_infos categories ps (c : C) : exists l, settles (list_infos categories ps) c l /\ map li_Id l = map pg_Id ps.
Proof.
  unfold list_infos. set (sh := fun l : list DProgramShowTime => l). eexists. split.
  - eapply settles_bind; [|eapply settles_bind; [|apply settles_ret]].
    + instantiate (1 := match map pg_Id ps with [] => [] | _ => _ end). destruct (map pg_Id ps) eqn:E; [done|].
      apply settles_or_none, settles_db. reflexivity.
    + instantiate (1 := match map pg_Id ps with [] => [] | _ => _ end). destruct (map pg_Id ps) eqn:E; [done|].
      apply settles_or_none, settles_cats. reflexivity.
  - rewrite map_map. by apply map_ext.
Qed.

Lemma settles_page r size k (c : C) : validatePageProgramsReq r = Ok tt -> 0 < size -> 0 < k -> k * size < 2 ^ 63 ->
  exists p, settles (PagePrograms (nth_page r size k)) c p /\
    map li_Id (pe_List p) = map pg_Id (slice size k (matching r (ct_db c))) /\
    pe_TotalSize p = Z.of_nat (length (matching r (ct_db c))).
Proof.
  intros Hv Hs Hk Hb. unfold PagePrograms. cbn [pr_PageNumber pr_PageSize nth_page].
  rewrite (proj2 (Z.leb_gt k 0)), (proj2 (Z.leb_gt size 0)) by lia.
  set (q := mkPageQuery k size _ _ _ _ _ _ _). set (l := matching r (ct_db c)).
  assert (Hc : CountPageList q (ct_db c) = (Ok (Z.of_nat (length l)), ct_db c)).
  { unfold l, matching, sort_programs. rewrite merge_sort_Permutation. reflexivity. }
  assert (Hf : FindPageList q (ct_db c) = (Ok (slice size k l), ct_db c)).
  { unfold FindPageList, limit_offset, q. cbn [pq_PageNumber pq_PageSize].
    rewrite (proj2 (Z.leb_gt k 0)), (proj2 (Z.leb_gt size 0)) by lia.
    rewrite (wrap64_small (k - 1)), wrap64_small by nia.
    rewrite (proj2 (Z.ltb_ge size 0)), (proj2 (Z.ltb_ge _ 0)) by nia. reflexivity. }
  destruct (Z.eqb_spec (Z.of_nat (length l)) 0) as [E|E].
  - exists (mkPageResp k size (Z.of_nat (length l)) []).
    split_and!; [|by unfold slice; destruct l; [rewrite drop_nil, take_nil|]|reflexivity].
    eapply settles_bind; [by apply settles_lift|]. eapply settles_bind; [apply settles_db, Hc|].
    rewrite (proj2 (Z.eqb_eq _ _) E). apply settles_ret.
  - edestruct (settles_list_infos (buildCategoryMap (live_kinds (fun _ => true) (ct_db c))) (slice size k l) c) as (il & Hi & Hids).
    exists (mkPageResp k size (Z.of_nat (length l)) il). split_and!; [|exact Hids|reflexivity].
    eapply settles_bind; [by apply settles_lift|]. eapply settles_bind; [apply settles_db, Hc|].
    rewrite (proj2 (Z.eqb_neq _ _) E). eapply settles_bind; [apply settles_attempt, settles_db, Hf|].
    eapply settles_bind; [by apply settles_or_none, settles_db|]. eapply settles_bind; [exact Hi|]. apply settles_ret.
Qed.

(** A buyer who turns every page sees every program once.  While the tables stand
    still and no call fails, the pages of a request, asked for one after the other and
    put together, are the programs that match it in its order, none lost and none
    twice at a page's edge; each page reports their number. *)
Theorem pages_enumerate_the_list r size n e (c : C) : faults e = [] -> validatePageProgramsReq r = Ok tt -> 0 < size ->
  Z.of_nat n * size < 2 ^ 63 -> Z.of_nat (length (matching r (ct_db c))) <= Z.of_nat n * size ->
  exists ps, each_map (fun k => PagePrograms (nth_page r size k)) (seqZ 1 (Z.of_nat n)) (e, c) = (Ok ps, (e, c)) /\
    ps ≫= (fun p => map li_Id (pe_List p)) = map pg_Id (matching r (ct_db c)) /\
    Forall (fun p => pe_TotalSize p = Z.of_nat (length (matching r (ct_db c)))) ps.
Proof.
  intros He Hv Hs Hn Hl.
  assert (Hp : Forall (fun k => exists p, settles (PagePrograms (nth_page r size k)) c p /\
    map li_Id (pe_List p) = map pg_Id (slice size k (matching r (ct_db c))) /\
    pe_TotalSize p = Z.of_nat (length (matching r (ct_db c)))) (seqZ 1 (Z.of_nat n))).
  { apply Forall_forall. intros k Hk%elem_of_seqZ. apply settles_page; [done..|lia|nia]. }
  apply Forall_exists_Forall2_l in Hp as (ps & Hps). exists ps. split_and!.
  - revert e He. change (settles (each_map (fun k => PagePrograms (nth_page r size k)) (seqZ 1 (Z.of_nat n))) c ps).
    apply settles_each_map. eapply Forall2_impl; [exact Hps|]. by intros k p (? & _).
  - rewrite <-(take_ge (matching r (ct_db c)) (Z.to_nat (Z.of_nat n * size))), <-slices_append by lia.
    induction Hps as [|k p ks ps (_ & Hi & _) _ IH]; [done|]. cbn [mbind list_bind]. by rewrite map_app, Hi, IH.
  - eapply Forall2_Forall_r; [exact Hps|]. apply Forall_forall. by intros k _ p (_ & _ & ?).
Qed.

(** ** Reads whose faults are no answers *)

(** Whatever faults it meets, [m] leaves the state alone and succeeds with [v] only. *)
Definition answers {S A} (m : IO S A) (s : S) (v : result err A) : Prop := forall e r e' s',
  truthful e -> m (e, s) = (r, (e', s')) ->
  s' = s /\ truthful e' /\ match r with Ok a => v = Ok a | Err x => err_is x ENotFound = true -> v = Err x end.

Lemma answers_call {S A} (m : M S A) s : readonly m -> answers (call m) s (m s).1.
Proof.
  intros Hm e r e' s' He Hc. pose proof (call_readonly _ _ _ _ _ _ Hm Hc) as ->. revert Hc. unfold call.
  destruct (draw e) as [f e1] eqn:Ed. apply draw_truthful in Ed as [Hf He1]; [|done].
  destruct f as [|x|x]; [|intros [= <- <-]; split_and!; [done..|congruence]|intros [= <- <- _]; split_and!; [done..|congruence]].
  destruct (m s) as [r1 s1] eqn:E. intros [= <- <- _]. split_and!; [done..|]. by destruct r1.
Qed.
Lemma answers_db {A} (m : M programdb A) (c : C) : readonly m -> answers (on_db (call m)) c (m (ct_db c)).1.
Proof.
  intros Hm e r e' c' He. unfold on_db, in_world, on_programs, on. destruct (call m _) as [r1 [e1 x]] eqn:E.
  intros [= <- <- <-]. apply (answers_call m) in E as (-> & ? & ?); [|done..]. split_and!; [|done..]. by destruct c as [[] ? ? ?].
Qed.
Lemma answers_cats {A} (m : M (list DTicketCategory) A) (c : C) : readonly m -> answers (on_cats (call m)) c (m (ct_cats c)).1.
Proof.
  intros Hm e r e' c' He. unfold on_cats, in_world, on_categories, on. destruct (call m _) as [r1 [e1 x]] eqn:E.
  intros [= <- <- <-]. apply (answers_call m) in E as (-> & ? & ?); [|done..]. split_and!; [|done..]. by destruct c as [[] ? ? ?].
Qed.
Lemma answers_seats {A} (m : M (list DSeat) A) (c : C) : readonly m ->
  answers (in_seats (call m)) c (m (w_seats (ct_world c))).1.
Proof.
  intros Hm e r e' c' He. unfold in_seats, in_world, on_seats, on. destruct (call m _) as [r1 [e1 x]] eqn:E.
  intros [= <- <- <-]. apply (answers_call m) in E as (-> & ? & ?); [|done..]. split_and!; [|done..]. by destruct c as [[] ? ? ?].
Qed.
Lemma answers_or_none {S A} (m : IO S (list A)) s l : answers m s (Ok l) -> answers (or_none m) s (Ok l).
Proof.
  intros Hm e r e' s' He. unfold or_none. destruct (m (e, s)) as [[a|x] [e1 s1]] eqn:E; apply Hm in E as (-> & ? & Ha); try done.
  - by intros [= <- <- <-].
  - destruct (err_is x ENotFound) eqn:Ex; intros [= <- <- <-]; [by specialize (Ha eq_refl)|].
    split_and!; [done..|]. by rewrite Ex.
Qed.

(** ** What a buyer is told before an order *)

Lemma remain_lookup (f : Z -> Z) ids (m : gmap Z Z) c :
  foldl (fun m a => <[sg_TicketCategoryId a := sg_RemainNumber a]> m) m (map (fun c => mkRemain c (f c)) ids) !! c
  = if decide (c ∈ ids) then Some (f c) else m !! c.
Proof.
  revert m. induction ids as [|i ids IH]; intros m; [by destruct (decide _) as [?%not_elem_of_nil|]|]. cbn [map foldl].
  rewrite IH. cbn [sg_TicketCategoryId sg_RemainNumber]. destruct (decide (c ∈ ids)), (decide (c ∈ i :: ids)) as [Hi|Hi].
  - done.
  - set_solver.
  - assert (c = i) as -> by set_solver. apply lookup_insert_eq.
  - rewrite lookup_insert_ne; [done|]. set_solver.
Qed.

(** The aggregate of the free seats gives every category its number of free seats, the
    ones it does not list included. *)
Lemma remain_counts show c db l : (FindAvailableCountByShowTimeId show db).1 = Ok l ->
  default 0 (mapSeatRemainAggregates l !! c) = free_in show c db.
Proof.
  cbn. intros [= <-]. unfold mapSeatRemainAggregates. rewrite (remain_lookup (fun c => free_in show c db)).
  destruct (decide _) as [|Hc]; [done|]. rewrite merge_sort_Permutation, elem_of_remove_dups in Hc. cbn. unfold free_in.
  destruct (filter (fun s => free_seat show s && (SeatDB.TicketCategoryId s =? c) = true) db) as [|s l] eqn:E; [by rewrite lookup_empty|].
  exfalso. apply Hc.
  assert (Hs : s ∈ s :: l) by left. rewrite <- E in Hs. apply list_elem_of_filter in Hs as [[Hf Hs]%andb_true_iff Hin].
  apply Z.eqb_eq in Hs as <-. apply (list_elem_of_fmap_2 SeatDB.TicketCategoryId). by apply list_elem_of_filter.
Qed.

(** What the answer says of a category. *)
Definition category_offer (show : Z) (seats : list DSeat) (k : DTicketCategory) : ProgramPreorderTicketCategoryInfo :=
  let n := free_in show (tc_Id k) seats in
  mkPreCategory (tc_Id k) (tc_Introduce k) (tc_Price k) (tc_TotalNumber k) n n.

(** A buyer is offered the seats that are free: a successful answer leaves the tables
    alone and lists exactly the live ticket categories of the show, cheapest
    first, each with the number of its free live seats as what is left and as what may
    be admitted; the counter [remain_number] of the category's row plays no part. *)
Lemma preorder_counts_free_seats showTimeId e (c : C) info e' c' : truthful e ->
  GetProgramPreorder showTimeId (e, c) = (Ok info, (e', c')) ->
  c' = c /\ truthful e' /\ exists s p, seen_show (ct_db c) showTimeId = Some s /\ seen_program (ct_db c) (st_ProgramId s) = Some p /\
    pf_ShowTimeId info = st_Id s /\ pf_ProgramId info = pg_Id p /\
    pf_TicketCategoryVoList info = map (category_offer (st_Id s) (w_seats (ct_world c)))
      (live_categories (fun k => tc_ShowTimeId k =? st_Id s) (ct_cats c)).
Proof.
  intros He Hrun. unfold GetProgramPreorder in Hrun.
  apply bind_ok in Hrun as (s & [e1 c1] & Hs%map_err_ok & Hrun). apply (answers_db (findShowTime _)) in Hs as (-> & He1 & Hs); [|done..].
  apply bind_ok in Hrun as (p & [e2 c2] & Hp%map_err_ok & Hrun). apply (answers_db (findProgram _)) in Hp as (-> & He2 & Hp); [|done..].
  apply bind_ok in Hrun as (cs & [e3 c3] & Hcs & Hrun).
  apply (answers_or_none _ _ _ (answers_cats (findCategories (st_Id s)) c ltac:(done))) in Hcs as (-> & He3 & [= <-]); [|done].
  apply bind_ok in Hrun as (l & [e4 c4] & Hl & Hrun).
  apply (answers_seats (FindAvailableCountByShowTimeId (st_Id s)) _ ltac:(done)) in Hl as (-> & He4 & Hl); [|done].
  apply ret_ok in Hrun as [<- [= <- <-]]. split_and!; [done..|]. exists s, p. cbn in Hs, Hp.
  destruct (seen_show (ct_db c) showTimeId) as [s0|]; [|done]. injection Hs as ->.
  destruct (seen_program (ct_db c) (st_ProgramId s)) as [p0|]; [|done]. injection Hp as ->.
  split_and!; [done..|]. cbn [toProgramPreorderInfo pf_TicketCategoryVoList]. unfold toProgramPreorderTicketCategoryInfoList.
  apply map_ext. intros k. unfold category_offer. by rewrite (remain_counts (st_Id s) _ _ _ Hl).
Qed.

End handlers.
