(* ===== verification/RushOpening.v ===== *)
(** * A sale opens with the seats that are free

    [PrimeRushRuntime] of order-rpc asks program-rpc what a show offers and loads the
    rush store with it.  Here the two services are put together: the catalogue answers
    the calls of the order service, the store's keys are read through the
    representation of [RushRefine], and what the store then admits is bounded by the
    seats of the seat table. *)
From Stdlib Require Import ZArith Lia Ascii String.
From stdpp Require Import base gmap sets list strings sorting relations.
From S2P Require Import Prelude GoBase Effects Sql Redis RushRecord RushStore RushSpec RushRefine RushRun ProgramDB SeatDB SeatFreeze RefundRule OrderDB OrderRepo OrderPaging OrderFlow OrderAnswers OrderEvents ProgramCache ProgramAdmin ProgramRules ProgramQuery.
Open Scope string_scope.
Open Scope list_scope.
Open Scope Z_scope.

(** ** The catalogue as the order service sees it *)

Definition offered_category (k : ProgramPreorderTicketCategoryInfo) : PreorderCategory :=
  mkPreorderCategory (pk_Id k) (pk_Introduce k) (pk_Price k) (pk_AdmissionQuota k).
Definition offered_preorder (i : ProgramQuery.ProgramPreorderInfo) : OrderEvents.ProgramPreorderInfo :=
  mkPreorder (pf_ProgramId i) (pf_ShowTimeId i) (pf_Title i) (pf_ItemPicture i) (pf_Place i) (pf_ShowTime i)
    (pf_RushSaleEndTime i) (pf_PermitChooseSeat i) (pf_PerOrderLimitPurchaseCount i)
    (pf_PerAccountLimitPurchaseCount i) (map offered_category (pf_TicketCategoryVoList i)).

#[export] Instance catalogue_preorder {Q : Type} `{LocalFormat} : PreorderRpc (catalogue Q) := {
  rpc_GetProgramPreorder id := i ← GetProgramPreorder id; mret (offered_preorder i);
  rpc_ListProgramShowTimesForRush id := l ← ListProgramShowTimesForRush id; mret (map rw_ShowTimeId l) }.

(** ** A success without faults *)

(** What succeeds under faults met none that mattered: it does the same without. *)
Definition unfaulted {S A} (m : IO S A) : Prop := forall e s a e' s', m (e, s) = (Ok a, (e', s')) ->
  (truthful e -> truthful e') /\ forall w ids, m (still w ids, s) = (Ok a, (still w ids, s')).

Lemma unfaulted_ret {S A} (a : A) : unfaulted (mret a : IO S A).
Proof. intros e s b e' s' [-> [= <- <-]]%ret_ok. done. Qed.
Lemma unfaulted_throw {S A} x : unfaulted (throw x : IO S A).
Proof. by intros e s a e' s' ?. Qed.
Lemma unfaulted_lift {S A} (r : result err A) : unfaulted (lift r : IO S A).
Proof. intros e s a e' s' [= -> <- <-]. done. Qed.
Lemma unfaulted_bind {S A B} (m : IO S A) (f : A -> IO S B) : unfaulted m -> (forall a, unfaulted (f a)) -> unfaulted (m ≫= f).
Proof.
  intros Hm Hf e s b e' s' (a & [e1 s1] & H1 & H2)%bind_ok. destruct (Hm _ _ _ _ _ H1) as [T1 C1].
  destruct (Hf a _ _ _ _ _ H2) as [T2 C2]. split; [auto|]. intros w ids. by rewrite bind_unfold, C1.
Qed.
Lemma unfaulted_call {S A} (m : M S A) : unfaulted (call m).
Proof.
  intros e s a e' s' E. split.
  - intros He. revert E. unfold call. destruct (draw e) as [f e1] eqn:Ed. apply draw_truthful in Ed as [_ He1]; [|done].
    destruct f; [|done..]. destruct (m s). by intros [= _ <- _].
  - intros w ids. apply call_ok in E. cbn. by rewrite E.
Qed.
#[local] Hint Resolve unfaulted_ret unfaulted_throw unfaulted_lift unfaulted_bind unfaulted_call : unfaulted.

Lemma unfaulted_pages {A} fuel find b after (fn : A -> list DOrderGuard -> result err A) acc :
  unfaulted (walk_pages fuel find b after fn acc).
Proof.
  revert after acc. induction fuel as [|fuel IH]; intros after acc; cbn [walk_pages]; [auto with unfaulted|].
  apply unfaulted_bind; [auto with unfaulted|]. intros rows. destruct (last rows); [|auto with unfaulted].
  apply unfaulted_bind; [auto with unfaulted|]. intros acc'. destr_if; [auto with unfaulted|apply IH].
Qed.

Lemma unfaulted_dbs {A} guards find b (fn : A -> list DOrderGuard -> result err A) keys acc :
  unfaulted (walk_dbs guards find b fn keys acc).
Proof.
  revert acc. induction keys as [|k keys IH]; intros acc; cbn [walk_dbs]; [auto with unfaulted|].
  apply unfaulted_bind; [|intros; apply IH]. intros e d a e' d'. unfold at_shard. destruct (d !! k) as [sh|]; [|done].
  destruct (walk_pages _ _ _ _ _ _ _) as [r [e1 sh1]] eqn:E. intros [= -> <- <-].
  apply unfaulted_pages in E as [HT HC]. split; [done|]. intros w ids. by rewrite HC.
Qed.

(** The claims of the active guards of a show: a later guard of a key wins. *)
Definition claim (m : gmap Z Z) (g : DOrderGuard) : gmap Z Z :=
  if (dg_Key g <=? 0) || (dg_OrderNumber g <=? 0) then m else <[dg_Key g := dg_OrderNumber g]> m.
Definition claims (guards : shard -> list DOrderGuard) (st : Z) (d : gmap string shard) : gmap Z Z :=
  foldl claim ∅ (mjoin (map (guards_at guards st d) (sortedShardDBKeys d))).

Lemma walk_claims guards set st d e rows e' d' : (forall sh, set (guards sh) sh = sh) -> 0 < st ->
  map_Forall (fun _ sh => NoDup (map dg_Id (guards sh))) d -> truthful e ->
  walk_guards guards set st primeRushRuntimeGuardBatchSize collect_guards ∅ (e, d) = (Ok rows, (e', d')) ->
  rows = claims guards st d /\ d' = d /\ truthful e'.
Proof.
  intros Hset Hst Hnd He Hrun.
  pose proof (walk_guards_run guards set d (wall e) [] st primeRushRuntimeGuardBatchSize claim ∅ Hset Hst Hnd) as Hc.
  unfold walk_guards in Hrun, Hc. destruct (Z.leb_spec st 0); [lia|].
  apply unfaulted_dbs in Hrun as [HT HC]. specialize (HC (wall e) []). 
  assert (Heq : (Ok rows, (still (wall e) [], d')) = (Ok (claims guards st d), (still (wall e) [], d)))
    by exact (eq_trans (eq_sym HC) Hc).
  injection Heq as -> ->. auto.
Qed.

(** ** Loading the store *)

Section load.
Context {R : Type} `{RedisHashLaws R} (s : AttemptStore) (st : Z).
Notation K := (ledgerKey (prefix s) st).
Notation Rep := (Rep (prefix s) st).

Lemma rep_del r ρ l : Rep r ρ -> Rep (del r (K l)) (set_ledger l ∅ ρ).
Proof.
  intros HR. eapply rep_ledger_step; [done| |].
  - intros k Hne. rewrite hgetall_del, decide_False by done. split; [done|]. by apply ttl_del_other.
  - intros z. rewrite hgetall_del, decide_True by done. by rewrite !lookup_empty.
Qed.

Definition put_rows (m : gmap Z Z) (rows : list (Z * Z)) : gmap Z Z := foldl (fun m row => <[row.1 := row.2]> m) m rows.

Lemma rep_put r ρ l rows : Rep r ρ ->
  Rep (hset_all r (K l) (map (fun row => (format_int row.1, format_int row.2)) rows))
    (set_ledger l (put_rows (ledger_map ρ l) rows) ρ).
Proof.
  revert r ρ. induction rows as [|[z v] rows IH]; intros r ρ HR; cbn; [by rewrite set_ledger_id|].
  specialize (IH _ _ (rep_hset (prefix s) st r ρ l z v HR)). by rewrite set_ledger_twice, ledger_map_set in IH.
Qed.

Lemma put_rows_union rows m : NoDup rows.*1 -> put_rows m rows = list_to_map rows ∪ m.
Proof.
  revert m. induction rows as [|[z v] rows IH]; intros m; cbn; [by rewrite (left_id_L ∅ (∪))|].
  intros [Hz Hnd]%NoDup_cons. rewrite (IH _ Hnd), <- insert_union_l. symmetry. apply insert_union_r.
  by apply not_elem_of_list_to_map_1.
Qed.

Lemma put_all (m : gmap Z Z) : put_rows ∅ (map_to_list m) = m.
Proof. rewrite put_rows_union by apply NoDup_fst_map_to_list. by rewrite (right_id_L ∅ (∪)), list_to_map_to_list. Qed.

Lemma redis_cmd_ok f e (r : R) a e' r' : redis_cmd f (e, r) = (Ok a, (e', r')) -> r' = f r /\ (truthful e -> truthful e').
Proof.
  intros E. destruct (unfaulted_call (modify f) _ _ _ _ _ E) as [HT _]. split; [|done]. apply call_ok in E. by injection E.
Qed.

(** A command that succeeds implements [f], whatever the store held. *)
Definition loads (m : IO R unit) (f : rush -> rush) : Prop := forall e r a e' r', m (e, r) = (Ok a, (e', r')) ->
  (truthful e -> truthful e') /\ forall ρ, Rep r ρ -> Rep r' (f ρ).

Lemma loads_cmd f g : (forall r ρ, Rep r ρ -> Rep (f r) (g ρ)) -> loads (redis_cmd f) g.
Proof. intros Hf e r a e' r' [-> HT]%redis_cmd_ok. auto. Qed.
Lemma loads_bind m1 m2 f1 f2 : loads m1 f1 -> loads m2 f2 -> loads (_ ← m1; m2) (fun ρ => f2 (f1 ρ)).
Proof.
  intros H1 H2 e r a e' r' (u & [e1 r1] & [T1 R1]%H1 & [T2 R2]%H2)%bind_ok. split; [auto|]. intros ρ HR. by apply R2, R1.
Qed.
Lemma loads_skip : loads (mret tt) (fun ρ => ρ).
Proof. intros e r a e' r' [_ [= <- <-]]%ret_ok. auto. Qed.
Lemma loads_invalid f : loads invalid_param f.
Proof. by intros e r a e' r' ?. Qed.

Lemma loads_clear_users : loads (ClearUserInflightByShowTime (Some s) st) (set_ledger UserInflight ∅).
Proof.
  cbn. destruct (st <=? 0); [apply loads_invalid|]. apply loads_cmd. intros r ρ. apply (rep_del r ρ UserInflight).
Qed.
Lemma loads_clear_viewers : loads (ClearViewerInflightByShowTime (Some s) st) (set_ledger ViewerInflight ∅).
Proof.
  cbn. destruct (st <=? 0); [apply loads_invalid|]. apply loads_cmd. intros r ρ. apply (rep_del r ρ ViewerInflight).
Qed.
Lemma loads_clear_quota : loads (ClearQuotaByShowTime (Some s) st) (set_ledger Quota ∅).
Proof.
  cbn. destruct (st <=? 0); [apply loads_invalid|]. apply loads_cmd. intros r ρ. apply (rep_del r ρ Quota).
Qed.

Lemma loads_replace l rows ttl : loads (replaceActive (K l) rows ttl) (set_ledger l rows).
Proof.
  intros e r a e' r'. unfold replaceActive. intros Hrun.
  apply bind_ok in Hrun as (u & [e1 r1] & [-> T1]%redis_cmd_ok & Hrun). destruct (existsb _ _); [done|]. revert Hrun.
  set (fields := map _ _). assert (Hput : loads (if (length fields =? 0)%nat then mret tt else redis_cmd (fun r => hset_all r (K l) fields))
    (fun ρ => set_ledger l (put_rows (ledger_map ρ l) (map_to_list rows)) ρ)).
  { destruct (Nat.eqb_spec (length fields) 0) as [Hl|]; [|apply loads_cmd; intros ? ?; apply rep_put].
    apply nil_length_inv, fmap_nil_inv in Hl. rewrite Hl. intros ? ? ? ? ? [_ [= <- <-]]%ret_ok. split; [done|].
    intros ρ HR. cbn. by rewrite set_ledger_id. }
  assert (Hexp : loads (if 0 <? ttl then redis_cmd (fun r => expire r (K l) ttl) else mret tt) (fun ρ => ρ)).
  { destruct (Z.ltb_spec 0 ttl); [|apply loads_skip]. apply loads_cmd. intros r0 ρ HR.
    apply (rep_expire _ _ _ _ (K l) ttl) in HR. unfold expire_if in HR. by destruct (Z.ltb_spec 0 ttl); [|lia]. }
  intros [T2 R2]%(loads_bind _ _ _ _ Hput Hexp). split; [auto|]. intros ρ HR.
  specialize (R2 _ (rep_del _ _ l HR)). by rewrite ledger_map_set, put_all, set_ledger_twice in R2.
Qed.

Lemma loads_users rows ttl : loads (ReplaceUserActiveByShowTime (Some s) st rows ttl) (set_ledger UserActive rows).
Proof. cbn. destruct (_ || _); [apply loads_invalid|apply (loads_replace UserActive)]. Qed.
Lemma loads_viewers rows ttl : loads (ReplaceViewerActiveByShowTime (Some s) st rows ttl) (set_ledger ViewerActive rows).
Proof. cbn. destruct (_ || _); [apply loads_invalid|apply (loads_replace ViewerActive)]. Qed.

(** What a preorder puts into the quota hash. *)
Definition quota_row (m : gmap Z Z) (c : PreorderCategory) : gmap Z Z :=
  if pc_Id c <=? 0 then m else <[pc_Id c := pc_AdmissionQuota c]> m.

Lemma loads_quotas cx cs : sv_AttemptStore (cc_svc cx) = Some s ->
  loads (set_quotas cx st cs) (fun ρ => set_ledger Quota (foldl quota_row (quota ρ) cs) ρ).
Proof.
  intros Hs. induction cs as [|c cs IH]; cbn [set_quotas foldl].
  { intros e r a e' r' [_ [= <- <-]]%ret_ok. split; [done|]. intros ρ HR. by destruct ρ. }
  unfold quota_row at 2. destruct (pc_Id c <=? 0) eqn:Ec; [exact IH|]. rewrite Hs. cbn [SetQuotaAvailable with_store].
  assert (Hset : loads (if (st <=? 0) || (pc_Id c <=? 0) || (pc_AdmissionQuota c <? 0) then invalid_param
      else redis_cmd (fun r => hset r (K Quota) (format_int (pc_Id c)) (format_int (pc_AdmissionQuota c))))
    (fun ρ => set_ledger Quota (<[pc_Id c := pc_AdmissionQuota c]> (quota ρ)) ρ)).
  { destruct (_ || _); [apply loads_invalid|]. apply loads_cmd. intros r ρ. apply (rep_hset _ _ r ρ Quota). }
  intros e r a e' r' [T Rr]%(loads_bind _ _ _ _ Hset IH). split; [done|]. intros ρ HR.
  specialize (Rr ρ HR). by rewrite set_ledger_twice in Rr.
Qed.
End load.

(** ** Priming a show *)

Section priming.
Context {Q R : Type} `{LocalFormat} `{LocalTime} `{ColumnPrims} `{RedisHashLaws R} (cx : CreateContext) (s : AttemptStore).
Hypothesis Hstore : sv_AttemptStore (cc_svc cx) = Some s.
Notation W := (orders (catalogue Q) R).

Lemma on_rush_ok {A} (m : IO R A) e (w : W) a e' w' : on_rush m (e, w) = (Ok a, (e', w')) ->
  exists r, m (e, ow_rush w) = (Ok a, (e', r)) /\ w' = mkOrders (ow_dbs w) r (ow_program w) (ow_pay w).
Proof. intros (d & E & ->)%on_ok. eauto. Qed.

Lemma now_keeps_truth {S} e (w : S) t e' w' : truthful e -> now (e, w) = (Ok t, (e', w')) -> truthful e' /\ w' = w.
Proof. unfold truthful, now. destruct (ticks e); intros He [= _ <- <-]; by split. Qed.

Lemma rpc_truthful {S A} (m : IO S A) e st a e' st' : truthful e -> rpc m (e, st) = (Ok a, (e', st')) ->
  exists e1, truthful e1 /\ m (e1, st) = (Ok a, (e', st')).
Proof.
  intros He. unfold rpc. destruct (draw e) as [f e1] eqn:Ed. apply draw_truthful in Ed as [_ He1]; [|done].
  destruct f; [|done..]. intros ?%map_err_ok. by exists e1.
Qed.

Lemma free_in_bounds show k seats : 0 <= free_in show k seats <= Z.of_nat (length seats).
Proof. unfold free_in. split; [lia|]. apply Nat2Z.inj_le, length_filter. Qed.

(** The quota a category opens with: its free seats, when it is a live category of the
    show. *)
Definition free_quota (show : Z) (c : catalogue Q) (k : Z) : option Z :=
  if bool_decide (0 < k /\ k ∈ map tc_Id (live_categories (fun k => tc_ShowTimeId k =? show) (ct_cats c)))
  then Some (free_in show k (w_seats (ct_world c))) else None.

Lemma offers_lookup show seats ks m k :
  foldl quota_row m (map offered_category (map (category_offer show seats) ks)) !! k =
  if bool_decide (0 < k /\ k ∈ map tc_Id ks) then Some (free_in show k seats) else m !! k.
Proof.
  revert m. induction ks as [|c ks IH]; intros m; cbn [map foldl].
  { rewrite bool_decide_eq_false_2; [done|]. by intros [_ ?%not_elem_of_nil]. }
  rewrite IH. unfold quota_row. cbn [pc_Id pc_AdmissionQuota offered_category category_offer pk_Id pk_AdmissionQuota].
  destruct (bool_decide_reflect (0 < k /\ k ∈ map tc_Id ks)) as [[Hk Hin]|Hn].
  { rewrite bool_decide_eq_true_2; [done|]. split; [done|by right]. }
  destruct (bool_decide_reflect (0 < k /\ k ∈ tc_Id c :: map tc_Id ks)) as [[Hk [->|?]%elem_of_cons]|Hn']; [|tauto|].
  - destruct (Z.leb_spec (tc_Id c) 0); [lia|]. apply lookup_insert_eq.
  - destruct (Z.leb_spec (tc_Id c) 0); [done|]. rewrite lookup_insert_ne; [done|].
    intros <-. apply Hn'. split; [lia|by left].
Qed.

(** From [w] to [w1] only the rush store of show [st] changed, by [f]. *)
Definition tracked (st : Z) (w w1 : W) (f : rush -> rush) : Prop :=
  same_but_rush w w1 /\ forall ρ, Rep (prefix s) st (ow_rush w) ρ -> Rep (prefix s) st (ow_rush w1) (f ρ).

Lemma track_rush st w f m g e w1 a e' w2 : tracked st w w1 f -> loads s st m g -> truthful e ->
  on_rush m (e, w1) = (Ok a, (e', w2)) -> truthful e' /\ tracked st w w2 (fun ρ => g (f ρ)).
Proof.
  intros [Hs Hf] Hm He (r & Hr & ->)%on_rush_ok. apply Hm in Hr as [HT HR]. split; [auto|]. split; [exact Hs|].
  intros ρ Hρ. by apply HR, Hf.
Qed.

Lemma track_walk st guards set w f e w1 rows e' w2 : tracked st w w1 f -> (forall sh, set (guards sh) sh = sh) -> 0 < st ->
  map_Forall (fun _ sh => NoDup (map dg_Id (guards sh))) (ow_dbs w) -> truthful e ->
  on_dbs (walk_guards guards set st primeRushRuntimeGuardBatchSize collect_guards ∅) (e, w1) = (Ok rows, (e', w2)) ->
  rows = claims guards st (ow_dbs w) /\ truthful e' /\ tracked st w w2 f.
Proof.
  intros [Hs Hf] Hset Hst Hnd He (d & Hw & ->)%on_dbs_ok. destruct Hs as (Hd & Hp & Hy). rewrite Hd in Hw.
  apply walk_claims in Hw as (-> & -> & He'); [|done..]. split_and!; [done..|]. by split.
Qed.

(** The next command on the rush store; the next walk. *)
Ltac load L :=
  match goal with Ht : tracked _ _ _ _, Hrun : _ = (Ok tt, _) |- _ =>
    let Hc := fresh "Hc" in apply bind_ok in Hrun as (? & [? ?] & Hc & Hrun);
    apply (track_rush _ _ _ _ _ _ _ _ _ _ Ht L) in Hc as [? ?]; [clear Ht|assumption] end.
Ltac walk :=
  match goal with Ht : tracked _ _ _ _, Hrun : _ = (Ok tt, _), Hnd : map_Forall _ _ |- _ =>
    let Hc := fresh "Hc" in apply bind_ok in Hrun as (? & [? ?] & Hc & Hrun);
    apply (track_walk _ _ _ _ _ _ _ _ _ _ Ht) in Hc as (-> & ? & ?);
      [clear Ht|by intros []|assumption|by intros ? ? [? ?]%Hnd|assumption] end.

(** What a successful run does to the store, as one step. *)
Definition opening (st : Z) (ds : gmap string shard) (q : gmap Z Z) (ρ : rush) : rush :=
  mkRush (attempts ρ) (claims s_user_guards st ds) ∅ (claims s_viewer_guards st ds) ∅ q.

Lemma priming_tracked showTimeId e (w : W) e' w' : truthful e ->
  (forall sh, seen_show (ct_db (ow_program w)) showTimeId = Some sh -> 0 < st_Id sh) ->
  map_Forall (fun _ d => NoDup (map dg_Id (s_user_guards d)) /\ NoDup (map dg_Id (s_viewer_guards d))) (ow_dbs w) ->
  primeRushRuntimeByShowTime cx showTimeId (e, w) = (Ok tt, (e', w')) ->
  exists sh q, seen_show (ct_db (ow_program w)) showTimeId = Some sh /\
    (forall k, q !! k = free_quota (st_Id sh) (ow_program w) k) /\ tracked (st_Id sh) w w' (opening (st_Id sh) (ow_dbs w) q).
Proof.
  intros He Hid Hnd Hrun. unfold primeRushRuntimeByShowTime in Hrun. rewrite Hstore in Hrun.
  apply bind_ok in Hrun as (pre & [e1 w1] & (p & Hpre & ->)%on_program_ok & Hrun).
  apply rpc_truthful in Hpre as (e0 & He0 & Hpre); [|done].
  apply bind_ok in Hpre as (i & [e2 p2] & Hi & [<- [= -> ->]]%ret_ok).
  apply preorder_counts_free_seats in Hi as (-> & He1 & sh & pr & Hsh & _ & Hst & _ & Hks); [|done].
  specialize (Hid _ Hsh). cbn [offered_preorder pp_ShowTimeId pp_TicketCategoryVoList] in Hrun.
  rewrite Hst, Hks, (proj2 (Z.leb_gt _ 0)) in Hrun by done. set (st := st_Id sh) in *.
  assert (Ht0 : tracked st w w (fun ρ => ρ)) by by split.
  destruct w as [ds rs cs ps]. cbn [ow_program ow_dbs ow_rush ow_pay] in *. set (w := mkOrders ds rs cs ps) in *.
  load (loads_clear_users s st). load (loads_clear_viewers s st). load (loads_clear_quota s st).
  apply bind_ok in Hrun as (t & [e6 w6] & Hn & Hrun). apply now_keeps_truth in Hn as [He6 ->]; [|done].
  walk. load (loads_users s st (claims s_user_guards st ds) (computePrimeActiveTTLSeconds (offered_preorder i) t)).
  walk. load (loads_viewers s st (claims s_viewer_guards st ds) (computePrimeActiveTTLSeconds (offered_preorder i) t)).
  match goal with Ht : tracked _ _ _ _ |- _ =>
    apply (track_rush _ _ _ _ _ _ _ _ _ _ Ht (loads_quotas s st cx _ Hstore)) in Hrun as [_ [Hsame Hrep]]; [|done] end.
  exists sh, (foldl quota_row ∅ (map offered_category (map (category_offer st (w_seats (ct_world cs)))
    (live_categories (fun k => tc_ShowTimeId k =? st) (ct_cats cs))))). split; [exact Hsh|]. split.
  - intros k. rewrite offers_lookup. unfold free_quota. by destruct (bool_decide _).
  - split; [exact Hsame|]. intros ρ HR. specialize (Hrep ρ HR). destruct ρ. exact Hrep.
Qed.

(** C6: priming a show opens its sale.  A run of [primeRushRuntimeByShowTime] that
    succeeds, whatever faults it met on the way, changes the rush store only, and
    there it implements one abstract step: attempts are kept, nobody is in flight, the
    active users and viewers are those of the active guards of the order tables, and
    the quota of each live category is the number of its free seats. *)
Theorem priming_opens_sale showTimeId e (w : W) e' w' : truthful e ->
  (forall sh, seen_show (ct_db (ow_program w)) showTimeId = Some sh -> 0 < st_Id sh) ->
  map_Forall (fun _ d => NoDup (map dg_Id (s_user_guards d)) /\ NoDup (map dg_Id (s_viewer_guards d))) (ow_dbs w) ->
  primeRushRuntimeByShowTime cx showTimeId (e, w) = (Ok tt, (e', w')) ->
  exists sh q, seen_show (ct_db (ow_program w)) showTimeId = Some sh /\
    same_but_rush w w' /\ (forall k, q !! k = free_quota (st_Id sh) (ow_program w) k) /\
    forall ρ, Rep (prefix s) (st_Id sh) (ow_rush w) ρ ->
      Rep (prefix s) (st_Id sh) (ow_rush w')
        (mkRush (attempts ρ) (claims s_user_guards (st_Id sh) (ow_dbs w)) ∅
           (claims s_viewer_guards (st_Id sh) (ow_dbs w)) ∅ q).
Proof.
  intros He Hid Hnd Hrun. destruct (priming_tracked _ _ _ _ _ He Hid Hnd Hrun) as (sh & q & Hsh & Hq & Hsame & Hrep).
  exists sh, q. split_and!; [done..|]. intros ρ HR. exact (Hrep ρ HR).
Qed.

(** C5: nobody is admitted without a seat.  After the first priming of a show, in every
    state the store then reaches, under any faults, clocks and expirations, the tickets
    of a category's live attempts and the quota still on offer together never exceed
    the seats of the category that were free in the seat table when it was primed. *)
Theorem admitted_within_free_seats showTimeId e (w : W) e' w' sh ρ r c ons v : truthful e ->
  (forall sh, seen_show (ct_db (ow_program w)) showTimeId = Some sh -> 0 < st_Id sh) ->
  map_Forall (fun _ d => NoDup (map dg_Id (s_user_guards d)) /\ NoDup (map dg_Id (s_viewer_guards d))) (ow_dbs w) ->
  primeRushRuntimeByShowTime cx showTimeId (e, w) = (Ok tt, (e', w')) ->
  seen_show (ct_db (ow_program w)) showTimeId = Some sh ->
  Rep (prefix s) (st_Id sh) (ow_rush w) ρ -> attempts ρ = ∅ ->
  claims s_user_guards (st_Id sh) (ow_dbs w) = ∅ -> claims s_viewer_guards (st_Id sh) (ow_dbs w) = ∅ ->
  0 < inFlightTTLSeconds s <= 2 ^ 53 -> Z.of_nat (length (w_seats (ct_world (ow_program w)))) <= 2 ^ 53 ->
  rtc (store_step s (st_Id sh) false) (ow_rush w') r ->
  NoDup ons.*1 -> Forall (live_record s (st_Id sh) r c) ons ->
  hget r (quotaAvailableKey (prefix s) (st_Id sh)) (format_int c) = Some (format_int v) ->
  0 <= v /\ sumZ snd ons + v <= free_in (st_Id sh) c (w_seats (ct_world (ow_program w))).
Proof.
  intros He Hid Hnd Hrun Hsh HR Ha Hu Hv Hi Hlen Hsteps Hnod Hall Hget.
  destruct (priming_tracked _ _ _ _ _ He Hid Hnd Hrun) as (sh' & q & Hsh' & Hq & _ & Hrep).
  rewrite Hsh in Hsh'. injection Hsh' as <-. specialize (Hrep ρ HR). unfold opening in Hrep. rewrite Ha, Hu, Hv in Hrep.
  assert (Hqs : quotas_small q).
  { intros k n. rewrite Hq. unfold free_quota. destruct (bool_decide _); [|done]. intros [= <-].
    pose proof (free_in_bounds (st_Id sh) k (w_seats (ct_world (ow_program w)))). lia. }
  destruct (run_sim s (st_Id sh) Hi q false _ r Hqs Hrep Hsteps) as (l & _ & Hl & HRl).
  destruct (ledger_bound s (st_Id sh) q r l c ons v Hl HRl Hnod Hall Hget) as [Hv0 Hb]. split; [done|].
  enough (qty q c <= free_in (st_Id sh) c (w_seats (ct_world (ow_program w)))) by lia.
  unfold qty. rewrite Hq. unfold free_quota. destruct (bool_decide _); cbn; [done|].
  apply free_in_bounds.
Qed.
End priming.
