(* ===== verification/SaleDemo.v ===== *)
(** * A sale at work

    The pages of a small catalogue, the opening of the sale of a show with four seats
    and two admissions, with the theorems of [ProgramQuery] and [RushOpening] at them. *)
From Stdlib Require Import ZArith Lia Ascii String.
From stdpp Require Import base gmap sets list strings sorting relations.
From S2P Require Import Prelude GoBase Effects Sql Redis RushRecord RushStore RushSpec RushRefine RushRun RushDemo PayService ProgramDB RefundRule RedisZ SeatDB SeatStore SeatDemo SeatFreeze OrderDB OrderRepo OrderPaging OrderFlow OrderAnswers OrderEvents DelayTask ProgramCache ProgramAdmin ProgramRules ProgramDemo Preheat PreheatDemo ProgramQuery RushOpening.
Import MemRedis MemZ.
Open Scope string_scope.
Open Scope list_scope.
Open Scope Z_scope.

(** ** Pages *)

(** Program [i] of section [parent], with an image and a place. *)
Definition plain_program (i parent heat : Z) : Z * DProgram :=
  (i, mkProgram i 1 1 1 2 parent "show" "detail" 0 6 6 None None 1 0 0 1 1 heat 1 (rule_texts None) None None None 0 0 0 1).
Definition listing (ps : list (Z * DProgram)) (seats : list DSeat) : catalogue mem :=
  mkCatalogue (mkWorld mem_empty seats (mkProgramDB {[3 := RefundRule.demo_show (time_of_unix 1770900000)]} (list_to_map ps) ∅ [] no_cache)
    [mkCategory 5 7 3 "A" 100 2 2 0 0 1]) (mkLocal ∅ ∅ None) [] [].
Definition three_programs : catalogue mem := listing [plain_program 1 10 0; plain_program 2 10 0; plain_program 3 10 0] [].
Definition any_page : PageProgramsReq := mkPageReq 1 2 0 0 0 0 "" "" 0.

Lemma pages_enumerate_the_list_witness : exists ps,
  each_map (fun k => PagePrograms (nth_page any_page 2 k)) (seqZ 1 2) (at_time 50 [] [], three_programs)
    = (Ok ps, (at_time 50 [] [], three_programs)) /\
  ps ≫= (fun p => map li_Id (pe_List p)) = [3; 2; 1].
Proof.
  destruct (pages_enumerate_the_list any_page 2 2 (at_time 50 [] []) three_programs) as (ps & Hr & Hids & _).
  - reflexivity.
  - reflexivity.
  - lia.
  - lia.
  - vm_compute. discriminate.
  - exists ps. split; [exact Hr|]. rewrite Hids. vm_compute. reflexivity.
Defined.

(** A section of the home page starves: its programs are cut off by the one limit all
    sections share, which the hotter section uses up. *)
Definition fourteen_hot : list (Z * DProgram) := map (fun i => plain_program i 10 100) (seqZ 1 14).
Theorem home_section_starves :
  map hs_CategoryId <$> (ListHomePrograms (mkHomeReq 0 [10; 20]) (at_time 50 [] [], listing (plain_program 99 20 0 :: fourteen_hot) [])).1
    = Ok [10].
Proof. by vm_compute. Qed.

(** Prices are ordered as texts. *)
Definition priced_seat (id price : Z) : DSeat := mkSeatRow id 7 3 5 1 id 1 price 1 None None 0 0 1.
Theorem prices_ordered_as_texts :
  rl_PriceList <$> (GetSeatRelateInfo 7 (at_time 50 [] [], listing [(7, demo_program)] [priced_seat 1 90; priced_seat 2 100; priced_seat 3 1000])).1
    = Ok ["100"; "1000"; "90"].
Proof. by vm_compute. Qed.

(** ** The opening of a sale *)

Definition one_database : gmap string shard := {["order-db-0" := mkShard ∅ ∅ [] [] [] []]}.
Definition sale_context : CreateContext := mkCreate (mkSvc (mkDeps None None) (Some RushDemo.demo_store) true) None true 0 0.
Definition before_sale : orders (catalogue mem) MemRedis.mem :=
  mkOrders one_database MemRedis.mem_empty (listing [(7, demo_program)] demo_rows) empty_pay.
Definition primed_sale : orders (catalogue mem) MemRedis.mem :=
  (primeRushRuntimeByShowTime sale_context 3 (at_time 50 [] [], before_sale)).2.2.
Definition sale_request (o u v : Z) : AdmitAttemptRequest :=
  mkAdmitAttemptRequest o u 7 3 5 [v] 1 (time_of_unix 1770003600) (time_of_unix 1770010000) (time_of_unix 1770000000).
Definition admitted (o u v : Z) (r : MemRedis.mem) : MemRedis.mem :=
  (Admit (Some RushDemo.demo_store) (sale_request o u v) (at_time 50 [] [], r)).2.2.
Definition two_admitted : MemRedis.mem := admitted 101 2 12 (admitted 100 1 11 (ow_rush primed_sale)).

Lemma sale_shows sh : seen_show (ct_db (ow_program before_sale)) 3 = Some sh -> 0 < st_Id sh.
Proof. vm_compute. by intros [= <-]. Qed.
Lemma sale_guards : map_Forall (fun _ d => NoDup (map dg_Id (s_user_guards d)) /\ NoDup (map dg_Id (s_viewer_guards d)))
  (ow_dbs before_sale).
Proof. apply map_Forall_singleton. split; constructor. Qed.
Lemma sale_primed : primeRushRuntimeByShowTime sale_context 3 (at_time 50 [] [], before_sale) = (Ok tt, (at_time 50 [] [], primed_sale)).
Proof. vm_compute. reflexivity. Qed.
Lemma empty_store : Rep "p" 3 (ow_rush before_sale) (mkRush ∅ ∅ ∅ ∅ ∅ ∅).
Proof. split; [intros o; cbn [attempts]; by rewrite lookup_empty|]. intros l z. by destruct l. Qed.

Lemma priming_opens_sale_witness : exists q, (forall k, q !! k = free_quota 3 (ow_program before_sale) k) /\
  Rep "p" 3 (ow_rush primed_sale) (mkRush ∅ ∅ ∅ ∅ ∅ q).
Proof.
  destruct (priming_opens_sale sale_context RushDemo.demo_store eq_refl 3 (at_time 50 [] []) before_sale _ _
    (calm_truthful _ _) sale_shows sale_guards sale_primed) as (sh & q & Hsh & _ & Hq & Hrep).
  assert (st_Id sh = 3) as E by (vm_compute in Hsh; by injection Hsh as <-). rewrite E in Hq, Hrep.
  exists q. split; [exact Hq|]. exact (Hrep _ empty_store).
Defined.

Lemma admitted_within_free_seats_witness : 0 <= 2 /\ sumZ snd [(100, 1); (101, 1)] + 2 <= free_in 3 5 demo_rows.
Proof.
  apply (admitted_within_free_seats sale_context RushDemo.demo_store eq_refl 3 (at_time 50 [] []) before_sale _ _
    (RefundRule.demo_show (time_of_unix 1770900000)) (mkRush ∅ ∅ ∅ ∅ ∅ ∅) two_admitted 5 [(100, 1); (101, 1)] 2
    (calm_truthful _ _) sale_shows sale_guards sale_primed).
  - vm_compute. reflexivity.
  - exact empty_store.
  - reflexivity.
  - vm_compute. reflexivity.
  - vm_compute. reflexivity.
  - cbn. lia.
  - vm_compute. discriminate.
  - apply (rtc_l _ _ (admitted 100 1 11 (ow_rush primed_sale))).
    + apply (ss_admit RushDemo.demo_store 3 false (ow_rush primed_sale) (at_time 50 [] []) (sale_request 100 1 11)). split; [done|cbn; lia].
    + apply rtc_once, (ss_admit RushDemo.demo_store 3 false _ (at_time 50 [] []) (sale_request 101 2 12)). split; [done|cbn; lia].
  - apply (bool_decide_unpack _). reflexivity.
  - apply Forall_cons; split; [compute_record|]. apply Forall_cons; split; [compute_record|]. apply Forall_nil. exact I.
  - vm_compute. reflexivity.
Defined.
