(* ===== verification/UserDB.v ===== *)
(** * The tables of user-rpc  (services/user-rpc/internal/model)

    Users, the two tables that map a mobile number or an email to a user, and ticket
    users, as lists of rows with their unique keys, widths and statements.  The column
    [create_time], which the statements leave to MySQL and nothing reads, is left out. *)
From Stdlib Require Import ZArith Lia Ascii String.
From stdpp Require Import base list strings sorting.
From S2P Require Import Prelude GoBase Effects Sql.
Open Scope string_scope.
Open Scope list_scope.
Open Scope Z_scope.

(** Equality of texts under the collation of the tables, an equivalence that may be
    coarser than equality of bytes (case, accents). *)
Class Collation := collate : string -> string -> bool.
Class CollationLaws `{Collation} := {
  collate_refl : forall a, collate a a = true;
  collate_sym : forall a b, collate a b = collate b a;
  collate_trans : forall a b c, collate a b = true -> collate b c = true -> collate a c = true }.

Record DUser := mkUser {
  us_Id : Z; us_Name : option string; us_RelName : option string; us_Mobile : string; us_Gender : Z;
  us_Password : option string; us_EmailStatus : Z; us_Email : option string; us_RelAuthenticationStatus : Z;
  us_IdNumber : option string; us_Address : option string; us_EditTime : option time; us_Status : Z }.
Record DUserMobile := mkMobile { mb_Id : Z; mb_UserId : Z; mb_Mobile : string; mb_EditTime : option time; mb_Status : Z }.
Record DUserEmail := mkEmail {
  em_Id : Z; em_UserId : Z; em_Email : string; em_EmailStatus : Z; em_EditTime : option time; em_Status : Z }.
Record DTicketUser := mkTicketUserRow {
  vw_Id : Z; vw_UserId : Z; vw_RelName : string; vw_IdType : Z; vw_IdNumber : string; vw_EditTime : option time; vw_Status : Z }.

Record userdb := mkUserDB {
  users : list DUser; mobiles : list DUserMobile; emails : list DUserEmail; ticket_users : list DTicketUser }.
Definition set_users l db := mkUserDB l (mobiles db) (emails db) (ticket_users db).
Definition set_mobiles l db := mkUserDB (users db) l (emails db) (ticket_users db).
Definition set_emails l db := mkUserDB (users db) (mobiles db) l (ticket_users db).
Definition set_ticket_users l db := mkUserDB (users db) (mobiles db) (emails db) l.

Definition int32_column (z : Z) : bool := (- 2 ^ 31 <=? z) && (z <? 2 ^ 31).
Definition fits_null (width : nat) (s : option string) : bool := match s with Some s => fits width s | None => true end.

(** ** d_user_model.go *)

Definition user_columns (u : DUser) : result err unit :=
  if negb (fits_null 256 (us_Name u)) then too_long "name"
  else if negb (fits_null 256 (us_RelName u)) then too_long "rel_name"
  else if negb (fits 512 (us_Mobile u)) then too_long "mobile"
  else if negb (int32_column (us_Gender u)) then out_of_range "gender"
  else if negb (fits_null 512 (us_Password u)) then too_long "password"
  else if negb (fits_null 256 (us_Email u)) then too_long "email"
  else if negb (fits_null 512 (us_IdNumber u)) then too_long "id_number"
  else if negb (fits_null 256 (us_Address u)) then too_long "address"
  else Ok tt.

Definition stored_user (u : DUser) : DUser :=
  mkUser (us_Id u) (us_Name u) (us_RelName u) (us_Mobile u) (us_Gender u) (us_Password u) (us_EmailStatus u)
    (us_Email u) (us_RelAuthenticationStatus u) (us_IdNumber u) (us_Address u) (mysql_datetime <$> us_EditTime u) (us_Status u).

Definition user_by (id : Z) (db : userdb) : option DUser := find (fun u => us_Id u =? id) (users db).
(** [FindOne]: whatever the status of the row. *)
Definition FindUser (id : Z) : M userdb DUser := fun db => (of_option ENotFound (user_by id db), db).

Definition InsertUser (u : DUser) : M userdb unit := fun db =>
  match user_columns u with
  | Err x => (Err x, db)
  | Ok _ =>
      if existsb (fun r => us_Id r =? us_Id u) (users db) then (dup_entry "PRIMARY", db)
      else (Ok tt, set_users (users db ++ [stored_user u]) db)
  end.

Definition UpdateUserRow (u : DUser) : M userdb unit := fun db =>
  if existsb (fun r => us_Id r =? us_Id u) (users db) then
    match user_columns u with
    | Err x => (Err x, db)
    | Ok _ => (Ok tt, set_users (update_rows (fun r => us_Id r =? us_Id u) (fun _ => stored_user u) (users db)) db)
    end
  else (Ok tt, db).

Section tables.
Context `{Collation}.

(** ** d_user_mobile_model.go, d_user_email_model.go *)

Definition mobile_is (mobile : string) (r : DUserMobile) : bool := (mb_Status r =? 1) && collate (mb_Mobile r) mobile.
Definition FindOneByMobile (mobile : string) : M userdb DUserMobile := fun db =>
  (of_option ENotFound (find (mobile_is mobile) (mobiles db)), db).
Definition InsertMobile (m : DUserMobile) : M userdb unit := fun db =>
  if negb (fits 512 (mb_Mobile m)) then (too_long "mobile", db)
  else if existsb (fun r => mb_Id r =? mb_Id m) (mobiles db) then (dup_entry "PRIMARY", db)
  else if existsb (fun r => collate (mb_Mobile r) (mb_Mobile m)) (mobiles db) then (dup_entry "uk_d_user_mobile_mobile", db)
  else (Ok tt, set_mobiles (mobiles db ++ [mkMobile (mb_Id m) (mb_UserId m) (mb_Mobile m) (mysql_datetime <$> mb_EditTime m) (mb_Status m)]) db).
Definition DeleteMobile (id : Z) : M userdb unit := fun db =>
  (Ok tt, set_mobiles (filter (fun r => mb_Id r <> id) (mobiles db)) db).

Definition email_is (email : string) (r : DUserEmail) : bool := (em_Status r =? 1) && collate (em_Email r) email.
Definition FindOneByEmail (email : string) : M userdb DUserEmail := fun db =>
  (of_option ENotFound (find (email_is email) (emails db)), db).
Definition InsertEmail (m : DUserEmail) : M userdb unit := fun db =>
  if negb (fits 256 (em_Email m)) then (too_long "email", db)
  else if existsb (fun r => em_Id r =? em_Id m) (emails db) then (dup_entry "PRIMARY", db)
  else if existsb (fun r => collate (em_Email r) (em_Email m)) (emails db) then (dup_entry "uk_d_user_email_email", db)
  else (Ok tt, set_emails (emails db ++ [mkEmail (em_Id m) (em_UserId m) (em_Email m) (em_EmailStatus m)
          (mysql_datetime <$> em_EditTime m) (em_Status m)]) db).
Definition DeleteEmail (id : Z) : M userdb unit := fun db =>
  (Ok tt, set_emails (filter (fun r => em_Id r <> id) (emails db)) db).

(** ** d_ticket_user_model.go *)

Definition vw_order (a b : DTicketUser) : Prop := vw_Id a <= vw_Id b.
#[global] Instance vw_order_dec a b : Decision (vw_order a b).
Proof. unfold vw_order. apply _. Defined.

Definition FindByUserId (userId : Z) : M userdb (list DTicketUser) := fun db =>
  (Ok (merge_sort vw_order (filter (fun t => (vw_UserId t =? userId) && (vw_Status t =? 1) = true) (ticket_users db))), db).
Definition same_identity (userId idType : Z) (idNumber : string) (r : DTicketUser) : bool :=
  (vw_UserId r =? userId) && (vw_IdType r =? idType) && collate (vw_IdNumber r) idNumber.
Definition FindOneByUserIdAndIdTypeAndIdNumber (userId idType : Z) (idNumber : string) : M userdb DTicketUser := fun db =>
  (of_option ENotFound (find (fun r => same_identity userId idType idNumber r && (vw_Status r =? 1)) (ticket_users db)), db).
Definition InsertTicketUser (t : DTicketUser) : M userdb unit := fun db =>
  if negb (fits 256 (vw_RelName t)) then (too_long "rel_name", db)
  else if negb (int32_column (vw_IdType t)) then (out_of_range "id_type", db)
  else if negb (fits 512 (vw_IdNumber t)) then (too_long "id_number", db)
  else if existsb (fun r => vw_Id r =? vw_Id t) (ticket_users db) then (dup_entry "PRIMARY", db)
  else if existsb (same_identity (vw_UserId t) (vw_IdType t) (vw_IdNumber t)) (ticket_users db)
  then (dup_entry "uk_d_ticket_user_identity", db)
  else (Ok tt, set_ticket_users (ticket_users db ++ [mkTicketUserRow (vw_Id t) (vw_UserId t) (vw_RelName t) (vw_IdType t)
          (vw_IdNumber t) (mysql_datetime <$> vw_EditTime t) (vw_Status t)]) db).
Definition DeleteTicketUserRow (id : Z) : M userdb unit := fun db =>
  (Ok tt, set_ticket_users (filter (fun r => vw_Id r <> id) (ticket_users db)) db).

End tables.
