(* ===== verification/UserService.v ===== *)
(** * user-rpc  (services/user-rpc/internal/logic, pkg/xjwt)

    Registration, login with its counter of failures, changes of an account and ticket
    users.  No handler runs a transaction: each statement stands alone, so a failure
    between two of them leaves the first one's effect. *)
From Stdlib Require Import ZArith Lia Ascii String.
From stdpp Require Import base list strings sorting.
From S2P Require Import Prelude GoBase Effects Sql RedisZ UserDB.
Open Scope string_scope.
Open Scope list_scope.
Open Scope Z_scope.

(** ** pkg/xjwt *)

Record Claims := mkJwtClaims { jc_UserID : Z; jc_ExpiresAt : option Z; jc_IssuedAt : option Z }.

(** github.com/golang-jwt/jwt: signing with HS256, and parsing at an instant. *)
Class Jwt := {
  jwt_sign : Claims -> string -> string;
  jwt_parse : time -> string -> string -> result err Claims }.
Class JwtLaws `{Jwt} := {
  jwt_parse_sign : forall now c secret exp, jc_ExpiresAt c = Some exp -> now < time_of_unix exp -> in_int64 (jc_UserID c) = true ->
    jwt_parse now (jwt_sign c secret) secret = Ok c;
  (** The claims are decoded into an int64. *)
  jwt_parse_int64 : forall now token secret c, jwt_parse now token secret = Ok c -> in_int64 (jc_UserID c) = true }.

(** crypto/md5, net/mail. *)
Class UserPrims := { md5_sum : string -> string; parse_address : string -> option string }.

Definition CreateToken `{Jwt} {S} (userID : Z) (secret : string) (expire : duration) : IO S string :=
  t ← now;
  issued ← now;
  mret (jwt_sign (mkJwtClaims userID (Some (unix_sec (t + expire))) (Some (unix_sec issued))) secret).

Definition ParseToken `{Jwt} {S} (token secret : string) : IO S Claims :=
  t ← now;
  lift (jwt_parse t token secret).

(** ** The service *)

Record UserAuthConfig := mkUserAuth { ua_TokenExpire : duration; ua_LoginFailLimit : Z; ua_AccessSecret : string }.
Record ServiceContext := mkUserSvc { ux_UserAuth : UserAuthConfig; ux_Redis : bool }.

Record userworld (R : Type) := mkUserWorld { uw_db : userdb; uw_redis : R }.
Arguments mkUserWorld {R} _ _.
Arguments uw_db {R} _.
Arguments uw_redis {R} _.

Record RegisterReq := mkRegister { rq_Mobile : string; rq_Password : string; rq_ConfirmPassword : string; rq_Mail : string }.
Record LoginReq := mkLogin { lq_Mobile : string; lq_Email : string; lq_Password : string }.
Record LoginResp := mkLoginResp { lr_UserId : Z; lr_Token : string }.
Record UpdateUserReq := mkUpdateUser {
  uq_Id : Z; uq_Name : string; uq_Gender : Z; uq_Mobile : string; uq_Address : string }.
Record AddTicketUserReq := mkAddTicketUser { aq_UserId : Z; aq_RelName : string; aq_IdType : Z; aq_IdNumber : string }.
Record UserInfo := mkUserInfo {
  ui_Id : Z; ui_Name : string; ui_RelName : string; ui_Gender : Z; ui_Mobile : string; ui_EmailStatus : Z;
  ui_Email : string; ui_RelAuthenticationStatus : Z; ui_IdNumber : string; ui_Address : string }.
Record TicketUserInfo := mkTicketUserInfo { ti_Id : Z; ti_UserId : Z; ti_RelName : string; ti_IdType : Z; ti_IdNumber : string }.

(** ** user_domain_helper.go *)

Definition nullStringValue (v : option string) : string := default "" v.
Definition buildUserInfo (u : DUser) : UserInfo :=
  mkUserInfo (us_Id u) (nullStringValue (us_Name u)) (nullStringValue (us_RelName u)) (us_Gender u) (us_Mobile u)
    (us_EmailStatus u) (nullStringValue (us_Email u)) (us_RelAuthenticationStatus u) (nullStringValue (us_IdNumber u))
    (nullStringValue (us_Address u)).
Definition buildTicketUserInfo (t : DTicketUser) : TicketUserInfo :=
  mkTicketUserInfo (vw_Id t) (vw_UserId t) (vw_RelName t) (vw_IdType t) (vw_IdNumber t).

Definition invalidParam : err := statusX InvalidArgument ErrInvalidParam.
Definition userNotFound : err := statusX NotFound ErrUserNotFound.
Definition accessSecret (svc : ServiceContext) : result err string :=
  let secret := trim_space (ua_AccessSecret (ux_UserAuth svc)) in
  if bool_decide (secret = "") then Err invalidParam else Ok secret.
Definition loginStateKey (userID : Z) : string := "user:login:token:" +:+ format_int userID.
Definition mobileFailKey (mobile : string) : string := "user:login:fail:mobile:" +:+ mobile.
Definition emailFailKey (email : string) : string := "user:login:fail:email:" +:+ email.
Definition durationSeconds (d : duration) : Z := let seconds := seconds_trunc d in if seconds <=? 0 then 1 else seconds.
Definition parseFailCount (value : string) : Z := default 0 (parse_int64 value).
Definition emailStatusForAddress (email : string) : Z := if bool_decide (email = "") then 0 else 1.
Definition null_if_empty (s : string) : option string := if bool_decide (s = "") then None else Some s.

Definition md5Hex `{UserPrims} (value : string) : string := hex_encode (md5_sum value).

Section service.
Context {R : Type} `{RedisZ R} `{Jwt} `{UserPrims} `{Collation}.
Notation W := (userworld R).
Variable svc : ServiceContext.
Notation auth := (ux_UserAuth svc).

Definition normalizeOptionalEmail (value : string) : result err string :=
  let trimmed := trim_space value in
  if bool_decide (trimmed = "") then Ok ""
  else if bool_decide (parse_address trimmed = Some trimmed) then Ok trimmed else Err invalidParam.

Definition on_db {A} : IO userdb A -> IO W A := on uw_db (fun db w => mkUserWorld db (uw_redis w)).
Definition on_redis {A} : IO R A -> IO W A := on uw_redis (fun r w => mkUserWorld (uw_db w) r).

(** [if errors.Is(err, model.ErrNotFound) { return x }; return err]. *)
Definition found_or {A} (x : err) (m : IO W A) : IO W A :=
  map_err (fun e => if err_is e ENotFound then x else e) m.
Definition find_user (id : Z) : IO W DUser := found_or userNotFound (on_db (call (FindUser id))).

(** go-zero's client answers an empty string for a missing key. *)
Definition redis_get (key : string) : IO W string := on_redis (call (fun r => (Ok (default "" (sget r key)), r))).
Definition redis_incr (key : string) : IO W Z := on_redis (call (fun r => incrby r key 1)).
Definition redis_do (f : R -> R) : IO W unit := on_redis (call (modify f)).

(** ** login_logic.go *)

(** The mapping, then the user it names. *)
Definition account_of (in_ : LoginReq) : IO W (DUser * string) :=
  if negb (bool_decide (lq_Mobile in_ = "")) then
    m ← found_or userNotFound (on_db (call (FindOneByMobile (lq_Mobile in_))));
    u ← find_user (mb_UserId m);
    mret (u, mobileFailKey (lq_Mobile in_))
  else
    m ← found_or userNotFound (on_db (call (FindOneByEmail (lq_Email in_))));
    u ← find_user (em_UserId m);
    mret (u, emailFailKey (lq_Email in_)).

Definition failed_too_often (failKey : string) : IO W bool :=
  if ux_Redis svc then
    value ← attempt (redis_get failKey);
    mret (match value with Ok v => ua_LoginFailLimit auth <=? parseFailCount v | Err _ => false end)
  else mret false.

Definition count_failure (failKey : string) : IO W unit :=
  if ux_Redis svc then
    count ← attempt (redis_incr failKey);
    match count with
    | Ok 1 => _ ← attempt (redis_do (fun r => kexpire r failKey (durationSeconds (ua_TokenExpire auth)))); mret tt
    | _ => mret tt
    end
  else mret tt.

Definition Login (in_ : LoginReq) : IO W LoginResp :=
  secret ← lift (accessSecret svc);
  if bool_decide (lq_Password in_ = "") || (bool_decide (lq_Mobile in_ = "") && bool_decide (lq_Email in_ = ""))
  then throw invalidParam
  else
    '(user, failKey) ← account_of in_;
    blocked ← failed_too_often failKey;
    if (blocked : bool) then throw (statusX ResourceExhausted ErrLoginFailedTooMany)
    else if negb (bool_decide (us_Password user = Some (md5Hex (lq_Password in_)))) then
      _ ← count_failure failKey;
      throw (statusX Unauthenticated ErrInvalidPassword)
    else
      token ← CreateToken (us_Id user) secret (ua_TokenExpire auth);
      _ ← (if ux_Redis svc then
             _ ← attempt (redis_do (fun r => kdel r failKey));
             redis_do (fun r => setex r (loginStateKey (us_Id user)) token (durationSeconds (ua_TokenExpire auth)))
           else mret tt);
      mret (mkLoginResp (us_Id user) token).

(** logout_logic.go *)
Definition Logout (token : string) : IO W unit :=
  secret ← lift (accessSecret svc);
  claims ← ParseToken token secret;
  if ux_Redis svc then redis_do (fun r => kdel r (loginStateKey (jc_UserID claims))) else mret tt.

(** ** register_logic.go, exist_logic.go *)

Definition not_registered (mobile : string) : IO W unit :=
  res ← attempt (on_db (call (FindOneByMobile mobile)));
  match res with
  | Ok _ => throw (statusX AlreadyExists ErrUserAlreadyExists)
  | Err x => if err_is x ENotFound then mret tt else throw x
  end.

Definition Exist (mobile : string) : IO W unit :=
  if bool_decide (mobile = "") then throw invalidParam else not_registered mobile.

Definition Register (in_ : RegisterReq) : IO W unit :=
  if bool_decide (rq_Mobile in_ = "") || bool_decide (rq_Password in_ = "") then throw invalidParam
  else if negb (bool_decide (rq_ConfirmPassword in_ = "")) && negb (bool_decide (rq_Password in_ = rq_ConfirmPassword in_))
  then throw invalidParam
  else
    email ← lift (normalizeOptionalEmail (rq_Mail in_));
    _ ← not_registered (rq_Mobile in_);
    t ← now;
    userID ← newID;
    _ ← on_db (call (InsertUser (mkUser userID None None (rq_Mobile in_) 1 (Some (md5Hex (rq_Password in_)))
           (emailStatusForAddress email) (null_if_empty email) 0 None None (Some t) 1)));
    mobileID ← newID;
    _ ← on_db (call (InsertMobile (mkMobile mobileID userID (rq_Mobile in_) (Some t) 1)));
    if bool_decide (email = "") then mret tt
    else
      emailID ← newID;
      on_db (call (InsertEmail (mkEmail emailID userID email (emailStatusForAddress email) (Some t) 1))).

(** ** The changes of an account *)

Definition set_name (v : option string) (u : DUser) : DUser :=
  mkUser (us_Id u) v (us_RelName u) (us_Mobile u) (us_Gender u) (us_Password u) (us_EmailStatus u) (us_Email u)
    (us_RelAuthenticationStatus u) (us_IdNumber u) (us_Address u) (us_EditTime u) (us_Status u).
Definition set_gender (v : Z) (u : DUser) : DUser :=
  mkUser (us_Id u) (us_Name u) (us_RelName u) (us_Mobile u) v (us_Password u) (us_EmailStatus u) (us_Email u)
    (us_RelAuthenticationStatus u) (us_IdNumber u) (us_Address u) (us_EditTime u) (us_Status u).
Definition set_address (v : option string) (u : DUser) : DUser :=
  mkUser (us_Id u) (us_Name u) (us_RelName u) (us_Mobile u) (us_Gender u) (us_Password u) (us_EmailStatus u) (us_Email u)
    (us_RelAuthenticationStatus u) (us_IdNumber u) v (us_EditTime u) (us_Status u).
Definition set_mobile (v : string) (u : DUser) : DUser :=
  mkUser (us_Id u) (us_Name u) (us_RelName u) v (us_Gender u) (us_Password u) (us_EmailStatus u) (us_Email u)
    (us_RelAuthenticationStatus u) (us_IdNumber u) (us_Address u) (us_EditTime u) (us_Status u).
Definition set_email (v : option string) (st : Z) (u : DUser) : DUser :=
  mkUser (us_Id u) (us_Name u) (us_RelName u) (us_Mobile u) (us_Gender u) (us_Password u) st v
    (us_RelAuthenticationStatus u) (us_IdNumber u) (us_Address u) (us_EditTime u) (us_Status u).
Definition set_password (v : option string) (u : DUser) : DUser :=
  mkUser (us_Id u) (us_Name u) (us_RelName u) (us_Mobile u) (us_Gender u) v (us_EmailStatus u) (us_Email u)
    (us_RelAuthenticationStatus u) (us_IdNumber u) (us_Address u) (us_EditTime u) (us_Status u).
Definition set_identity (name number : option string) (u : DUser) : DUser :=
  mkUser (us_Id u) (us_Name u) name (us_Mobile u) (us_Gender u) (us_Password u) (us_EmailStatus u) (us_Email u)
    1 number (us_Address u) (us_EditTime u) (us_Status u).
Definition set_edited (t : time) (u : DUser) : DUser :=
  mkUser (us_Id u) (us_Name u) (us_RelName u) (us_Mobile u) (us_Gender u) (us_Password u) (us_EmailStatus u) (us_Email u)
    (us_RelAuthenticationStatus u) (us_IdNumber u) (us_Address u) (Some t) (us_Status u).

(** The user may take [mobile]: nobody has it, or the user does. *)
Definition mobile_free_for (id : Z) (mobile : string) : IO W unit :=
  existing ← attempt (on_db (call (FindOneByMobile mobile)));
  match existing with
  | Ok m => if negb (mb_UserId m =? id) then throw (statusX AlreadyExists ErrMobileAlreadyUsed) else mret tt
  | Err x => if err_is x ENotFound then mret tt else throw x
  end.

(** The old mapping goes, if it is found, and the new one comes. *)
Definition swap_mobile (id : Z) (oldMobile mobile : string) (clock : IO W time) : IO W unit :=
  old ← attempt (on_db (call (FindOneByMobile oldMobile)));
  _ ← (match old with Ok m => on_db (call (DeleteMobile (mb_Id m))) | Err _ => mret tt end);
  i ← newID;
  t ← clock;
  on_db (call (InsertMobile (mkMobile i id mobile (Some t) 1))).

(** update_user_logic.go *)
Definition UpdateUser (in_ : UpdateUserReq) : IO W unit :=
  user ← find_user (uq_Id in_);
  t ← now;
  let oldMobile := us_Mobile user in
  let user := if bool_decide (uq_Name in_ = "") then user else set_name (Some (uq_Name in_)) user in
  let user := if bool_decide (uq_Address in_ = "") then user else set_address (Some (uq_Address in_)) user in
  let user := if uq_Gender in_ =? 0 then user else set_gender (uq_Gender in_) user in
  user ← (if bool_decide (uq_Mobile in_ = "") || bool_decide (uq_Mobile in_ = oldMobile) then mret user
          else
            _ ← mobile_free_for (us_Id user) (uq_Mobile in_);
            _ ← swap_mobile (us_Id user) oldMobile (uq_Mobile in_) (mret t);
            mret (set_mobile (uq_Mobile in_) user));
  on_db (call (UpdateUserRow (set_edited t user))).

(** update_mobile_logic.go *)
Definition UpdateMobile (id : Z) (mobile : string) : IO W unit :=
  user ← find_user id;
  user ← (if bool_decide (mobile = "") || bool_decide (mobile = us_Mobile user) then mret user
          else
            _ ← mobile_free_for (us_Id user) mobile;
            _ ← swap_mobile (us_Id user) (us_Mobile user) mobile now;
            mret (set_mobile mobile user));
  t ← now;
  on_db (call (UpdateUserRow (set_edited t user))).

Definition email_free_for (id : Z) (email : string) : IO W unit :=
  existing ← attempt (on_db (call (FindOneByEmail email)));
  match existing with
  | Ok m => if negb (em_UserId m =? id) then throw (statusX AlreadyExists ErrEmailAlreadyUsed) else mret tt
  | Err x => if err_is x ENotFound then mret tt else throw x
  end.

Definition drop_email (email : string) : IO W unit :=
  old ← attempt (on_db (call (FindOneByEmail email)));
  match old with
  | Ok m => on_db (call (DeleteEmail (em_Id m)))
  | Err x => if err_is x ENotFound then mret tt else throw x
  end.

(** update_email_logic.go *)
Definition UpdateEmail (id : Z) (newEmail : string) : IO W unit :=
  user ← find_user id;
  email ← lift (normalizeOptionalEmail newEmail);
  let fresh := negb (bool_decide (email = "")) && negb (bool_decide (us_Email user = Some email)) in
  _ ← (if fresh then email_free_for (us_Id user) email else mret tt);
  _ ← (match us_Email user with
       | Some old => if bool_decide (old = "") || bool_decide (old = email) then mret tt else drop_email old
       | None => mret tt
       end);
  _ ← (if fresh then
         i ← newID;
         t ← now;
         on_db (call (InsertEmail (mkEmail i (us_Id user) email (emailStatusForAddress email) (Some t) 1)))
       else mret tt);
  t ← now;
  on_db (call (UpdateUserRow (set_edited t (set_email (null_if_empty email) (emailStatusForAddress email) user)))).

(** update_password_logic.go *)
Definition UpdatePassword (id : Z) (password : string) : IO W unit :=
  user ← find_user id;
  t ← now;
  on_db (call (UpdateUserRow (set_edited t
    (set_password (if bool_decide (password = "") then None else Some (md5Hex password)) user)))).

(** authentication_logic.go *)
Definition Authentication (id : Z) (relName idNumber : string) : IO W unit :=
  user ← find_user id;
  t ← now;
  on_db (call (UpdateUserRow (set_edited t (set_identity (null_if_empty relName) (null_if_empty idNumber) user)))).

(** ** Ticket users *)

(** add_ticket_user_logic.go *)
Definition AddTicketUser (in_ : AddTicketUserReq) : IO W unit :=
  _ ← find_user (aq_UserId in_);
  res ← attempt (on_db (call (FindOneByUserIdAndIdTypeAndIdNumber (aq_UserId in_) (aq_IdType in_) (aq_IdNumber in_))));
  match res with
  | Ok _ => throw (statusX AlreadyExists ErrTicketUserExists)
  | Err x =>
      if negb (err_is x ENotFound) then throw x
      else
        i ← newID;
        t ← now;
        on_db (call (InsertTicketUser (mkTicketUserRow i (aq_UserId in_) (aq_RelName in_) (aq_IdType in_)
          (aq_IdNumber in_) (Some t) 1)))
  end.

(** delete_ticket_user_logic.go *)
Definition DeleteTicketUser (id : Z) : IO W unit := on_db (call (DeleteTicketUserRow id)).

(** [if err != nil && !errors.Is(err, model.ErrNotFound) { return nil, err }]. *)
Definition ticket_users_of (userId : Z) : IO W (list DTicketUser) :=
  res ← attempt (on_db (call (FindByUserId userId)));
  match res with
  | Ok l => mret l
  | Err x => if err_is x ENotFound then mret [] else throw x
  end.

(** list_ticket_users_logic.go, get_user_and_ticket_user_list_logic.go, get_user_by_id_logic.go,
    get_user_by_mobile_logic.go *)
Definition ListTicketUsers (userId : Z) : IO W (list TicketUserInfo) :=
  l ← ticket_users_of userId;
  mret (map buildTicketUserInfo l).
Definition GetUserAndTicketUserList (userId : Z) : IO W (UserInfo * list TicketUserInfo) :=
  user ← find_user userId;
  l ← ticket_users_of userId;
  mret (buildUserInfo user, map buildTicketUserInfo l).
Definition GetUserById (id : Z) : IO W UserInfo :=
  user ← find_user id;
  mret (buildUserInfo user).
Definition GetUserByMobile (mobile : string) : IO W UserInfo :=
  m ← found_or userNotFound (on_db (call (FindOneByMobile mobile)));
  user ← find_user (mb_UserId m);
  mret (buildUserInfo user).

End service.
