(* ===== verification/UserAccounts.v ===== *)
(** * Accounts are kept apart

    What every sequence of requests to user-rpc keeps, whatever fails between two
    statements, what a login means, and how often a password may be guessed. *)
From Stdlib Require Import ZArith Lia Ascii String.
From stdpp Require Import base list strings sorting relations.
From S2P Require Import Prelude GoBase Effects Sql RedisZ UserDB UserService.
Open Scope string_scope.
Open Scope list_scope.
Open Scope Z_scope.

(** ** Tables with a key of their own and an owner *)

(** No two rows are the same under [same]. *)
Fixpoint apart {A} (same : A -> A -> bool) (l : list A) : Prop :=
  match l with
  | [] => True
  | a :: l => Forall (fun b => same a b = false) l /\ apart same l
  end.

Lemma apart_snoc {A} (same : A -> A -> bool) l x :
  apart same l -> Forall (fun a => same a x = false) l -> apart same (l ++ [x]).
Proof.
  induction l as [|a l IH]; cbn; [done|]. intros [Ha Hl] [Hx Hall]%Forall_cons. split; [|by apply IH].
  apply Forall_app. split; [done|]. by constructor.
Qed.

Lemma apart_filter {A} (same : A -> A -> bool) (P : A -> Prop) `{forall a, Decision (P a)} l : apart same l -> apart same (filter P l).
Proof.
  induction l as [|a l IH]; cbn [apart]; [done|]. intros [Ha Hl]. rewrite filter_cons. destruct (decide (P a)); [|by apply IH].
  split; [|by apply IH]. apply Forall_forall. intros b [_ Hb]%list_elem_of_filter. rewrite Forall_forall in Ha. by apply Ha.
Qed.

(** Two members that are the same are one. *)
Lemma apart_eq {A} (same : A -> A -> bool) l a b : (forall x y, same x y = same y x) -> apart same l ->
  a ∈ l -> b ∈ l -> same a b = true -> a = b.
Proof.
  intros Hsym. induction l as [|x l IH]; cbn; [by intros _ ?%not_elem_of_nil|]. intros [Hx Hl] Ha Hb Hab.
  rewrite Forall_forall in Hx. apply elem_of_cons in Ha as [->|Ha], Hb as [->|Hb].
  - done.
  - rewrite (Hx _ Hb) in Hab. done.
  - rewrite Hsym, (Hx _ Ha) in Hab. done.
  - by apply IH.
Qed.

Section table.
Context {A : Type} (id : A -> Z) (same : A -> A -> bool) (owner : A -> Z).

Record table_ok (ids : list Z) (l : list A) : Prop := {
  table_ids : NoDup (map id l); table_apart : apart same l; table_owners : Forall (fun a => owner a ∈ ids) l }.

Lemma table_nil ids : table_ok ids [].
Proof. by repeat constructor. Qed.
Lemma table_more ids ids' l : ids ⊆ ids' -> table_ok ids l -> table_ok ids' l.
Proof. intros Hs [? ? Ho]. split; [done..|]. eapply Forall_impl; [exact Ho|]. intros a Ha. by apply Hs. Qed.
Lemma table_insert ids l a : table_ok ids l -> existsb (fun r => id r =? id a) l = false ->
  existsb (fun r => same r a) l = false -> owner a ∈ ids -> table_ok ids (l ++ [a]).
Proof.
  intros [Hi Ha Ho] Hid Hs Hown. split.
  - rewrite map_app. apply NoDup_app. split_and!; [done| |apply NoDup_singleton].
    intros i Hin Hx%list_elem_of_singleton. subst i. apply list_elem_of_fmap in Hin as (r & Hr & Hin).
    assert (existsb (fun r => id r =? id a) l = true); [|congruence]. apply existsb_exists.
    exists r. split; [by apply list_elem_of_In|by apply Z.eqb_eq].
  - apply apart_snoc; [done|]. apply Forall_forall. intros r Hr. destruct (same r a) eqn:E; [|done].
    assert (existsb (fun r => same r a) l = true); [|congruence]. apply existsb_exists. exists r. by rewrite <- list_elem_of_In.
  - apply Forall_app. split; [done|]. by constructor.
Qed.
Lemma table_filter ids l (P : A -> Prop) `{forall a, Decision (P a)} : table_ok ids l -> table_ok ids (filter P l).
Proof.
  intros [Hi Ha Ho]. split; [|by apply apart_filter|].
  - by apply NoDup_map_filter.
  - apply Forall_forall. intros a [_ Hin]%list_elem_of_filter. rewrite Forall_forall in Ho. by apply Ho.
Qed.
End table.

(** ** The invariant *)

Section accounts.
Context `{CollationLaws}.

Definition same_mobile (a b : DUserMobile) : bool := collate (mb_Mobile a) (mb_Mobile b).
Definition same_email (a b : DUserEmail) : bool := collate (em_Email a) (em_Email b).
Definition same_viewer (a b : DTicketUser) : bool := same_identity (vw_UserId b) (vw_IdType b) (vw_IdNumber b) a.
Definition user_ids (db : userdb) : list Z := map us_Id (users db).

(** Identifiers are unique; no mobile number, email or identity is kept twice; every
    mapping and every ticket user belongs to a user that exists. *)
Record accounts_ok (db : userdb) : Prop := {
  ok_users : NoDup (user_ids db);
  ok_mobiles : table_ok mb_Id same_mobile mb_UserId (user_ids db) (mobiles db);
  ok_emails : table_ok em_Id same_email em_UserId (user_ids db) (emails db);
  ok_viewers : table_ok vw_Id same_viewer vw_UserId (user_ids db) (ticket_users db) }.

(** User [id] exists besides. *)
Definition knows (id : Z) (db : userdb) : Prop := accounts_ok db /\ id ∈ user_ids db.

Lemma insert_account_ok u db : accounts_ok db -> accounts_ok (InsertUser u db).2 /\
  ((InsertUser u db).1 = Ok tt -> us_Id u ∈ user_ids (InsertUser u db).2).
Proof.
  intros [Hu Hm He Hv]. unfold InsertUser. destruct (user_columns u) as [[]|x]; [|by split].
  destruct (existsb _ _) eqn:E; [by split|]. cbn [fst snd].
  assert (Hid : us_Id u ∉ user_ids db).
  { intros (r & Hr & Hin)%list_elem_of_fmap. assert (existsb (fun r => us_Id r =? us_Id u) (users db) = true); [|congruence].
    apply existsb_exists. exists r. split; [by apply list_elem_of_In|by apply Z.eqb_eq]. }
  assert (Hids : user_ids (set_users (users db ++ [stored_user u]) db) = user_ids db ++ [us_Id u]) by (unfold user_ids; cbn; by rewrite map_app).
  assert (Hsub : user_ids db ⊆ user_ids db ++ [us_Id u]) by set_solver.
  split; [|rewrite Hids; set_solver].
  split; rewrite Hids; [|by eapply table_more..].
  apply NoDup_app. split_and!; [done|set_solver|apply NoDup_singleton].
Qed.

Lemma update_user_ids u db : user_ids (UpdateUserRow u db).2 = user_ids db.
Proof.
  unfold UpdateUserRow. destruct (existsb _ _); [|done]. destruct (user_columns u); [|done]. unfold user_ids, update_rows. cbn.
  induction (users db) as [|r l IH]; [done|]. cbn [map]. rewrite IH. by destruct (Z.eqb_spec (us_Id r) (us_Id u)) as [->|].
Qed.
Lemma update_user_ok id u : preserves (knows id) (UpdateUserRow u).
Proof.
  intros db [[Hu Hm He Hv] Hid]. unfold knows. assert (Hrest : mobiles (UpdateUserRow u db).2 = mobiles db /\
    emails (UpdateUserRow u db).2 = emails db /\ ticket_users (UpdateUserRow u db).2 = ticket_users db).
  { unfold UpdateUserRow. destruct (existsb _ _); [|done]. by destruct (user_columns u). }
  destruct Hrest as (E1 & E2 & E3). rewrite update_user_ids. split; [|done]. split; rewrite update_user_ids; by rewrite ?E1, ?E2, ?E3.
Qed.

Lemma insert_mobile_ok id m : mb_UserId m = id -> preserves (knows id) (InsertMobile m).
Proof.
  intros Hm db [[Hu Hmo He Hv] Hid]. unfold InsertMobile. repeat destr_if; try done. split; [|done].
  split; [done| |done..]. cbn. subst id. by apply table_insert.
Qed.
Lemma insert_email_ok id m : em_UserId m = id -> preserves (knows id) (InsertEmail m).
Proof.
  intros Hm db [[Hu Hmo He Hv] Hid]. unfold InsertEmail. repeat destr_if; try done. split; [|done].
  split; [done..| |done]. cbn. subst id. by apply table_insert.
Qed.
Lemma insert_viewer_ok id t : vw_UserId t = id -> preserves (knows id) (InsertTicketUser t).
Proof.
  intros Hm db [[Hu Hmo He Hv] Hid]. unfold InsertTicketUser. repeat destr_if; try done. split; [|done].
  split; [done..|]. cbn. subst id. by apply table_insert.
Qed.
Lemma delete_mobile_ok id i : preserves (knows id) (DeleteMobile i).
Proof. intros db [[Hu Hmo He Hv] Hid]. split; [|done]. split; [done| |done..]. by apply table_filter. Qed.
Lemma delete_email_ok id i : preserves (knows id) (DeleteEmail i).
Proof. intros db [[Hu Hmo He Hv] Hid]. split; [|done]. split; [done..| |done]. by apply table_filter. Qed.
Lemma delete_viewer_ok i : preserves accounts_ok (DeleteTicketUserRow i).
Proof. intros db [Hu Hmo He Hv]. split; [done..|]. by apply table_filter. Qed.
End accounts.

(** ** Every handler keeps it *)

Create HintDb accounts discriminated.
#[export] Hint Resolve keeps_ret keeps_throw keeps_lift keeps_now keeps_newID : accounts.

Section handlers.
Context {R : Type} `{RedisZ R} `{Jwt} `{UserPrims} `{CollationLaws} (svc : ServiceContext).
Notation W := (userworld R).

Definition in_db (P : userdb -> Prop) (w : W) : Prop := P (uw_db w).

Lemma keeps_in_db {A} P (m : M userdb A) : preserves P m -> keeps (in_db P) (on_db (R := R) (call m)).
Proof.
  intros Hm [e w] Hw. unfold on_db, on, in_db in *. cbn -[call] in *.
  pose proof (keeps_call P m Hm (e, uw_db w) Hw) as Hk. by destruct (call m (e, uw_db w)) as [r [e' db]].
Qed.
Lemma keeps_user_read {A} P (m : M userdb A) : readonly m -> keeps (in_db P) (on_db (R := R) (call m)).
Proof. intros Hm. apply keeps_in_db. intros db Hdb. by rewrite Hm. Qed.
Lemma keeps_user_redis {A} P (m : IO R A) : keeps (in_db P) (on_redis m).
Proof. intros [e w] Hw. unfold on_redis, on. cbn. by destruct (m _) as [r [e' x]]. Qed.

#[local] Hint Resolve keeps_user_read keeps_user_redis update_user_ok delete_mobile_ok delete_email_ok delete_viewer_ok keeps_in_db : accounts.
#[local] Hint Extern 0 (readonly _) => intros ?; reflexivity : accounts.

(** Walks through a handler whose statements the hints know. *)
Ltac kept :=
  repeat first
    [ solve [auto with accounts nocore]
    | apply keeps_map_err | apply keeps_attempt | apply keeps_bind; [|intros ?]
    | match goal with
      | |- keeps _ (if ?b then _ else _) => destruct b
      | |- keeps _ (match ?x with _ => _ end) => destruct x
      end ].

Lemma find_user_keeps P id : keeps (in_db P) (find_user id).
Proof. unfold find_user, found_or. kept. Qed.

(** After the user is found it is known to exist. *)
Lemma known_user {A} id (f : DUser -> IO W A) : (forall u, us_Id u = id -> keeps (in_db (knows id)) (f u)) ->
  keeps (in_db accounts_ok) (find_user id ≫= f).
Proof.
  intros Hf [e w] Hw. rewrite bind_unfold. destruct (find_user id (e, w)) as [[u|x] [e1 w1]] eqn:E.
  - apply map_err_ok in E. apply on_ok in E as (db & E & ->). apply call_ok in E. unfold FindUser in E. injection E as Hu <-.
    unfold user_by in Hu. destruct (find _ _) as [u'|] eqn:Ef; [|done]. injection Hu as ->.
    apply find_elem in Ef as [Hin Hid%Z.eqb_eq]. apply (Hf u Hid (e1, _)). split; [exact Hw|].
    apply list_elem_of_fmap. eauto.
  - pose proof (find_user_keeps accounts_ok id (e, w) Hw) as Hk. by rewrite E in Hk.
Qed.

(** *** Requests *)

Inductive user_request :=
  | RqRegister (r : RegisterReq)
  | RqLogin (r : LoginReq)
  | RqLogout (token : string)
  | RqUpdateUser (r : UpdateUserReq)
  | RqUpdateMobile (id : Z) (mobile : string)
  | RqUpdateEmail (id : Z) (email : string)
  | RqUpdatePassword (id : Z) (password : string)
  | RqAuthentication (id : Z) (relName idNumber : string)
  | RqAddTicketUser (r : AddTicketUserReq)
  | RqDeleteTicketUser (id : Z).

Definition serve (q : user_request) : IO W unit :=
  match q with
  | RqRegister r => Register r
  | RqLogin r => _ ← Login svc r; mret tt
  | RqLogout token => Logout svc token
  | RqUpdateUser r => UpdateUser r
  | RqUpdateMobile id mobile => UpdateMobile id mobile
  | RqUpdateEmail id email => UpdateEmail id email
  | RqUpdatePassword id password => UpdatePassword id password
  | RqAuthentication id relName idNumber => Authentication id relName idNumber
  | RqAddTicketUser r => AddTicketUser r
  | RqDeleteTicketUser id => DeleteTicketUser id
  end.

Lemma swap_mobile_keeps id old mobile clock : keeps (in_db (knows id)) clock ->
  keeps (in_db (knows id)) (swap_mobile id old mobile clock).
Proof. intros Hc. unfold swap_mobile. kept. apply keeps_in_db. by apply insert_mobile_ok. Qed.
Lemma mobile_free_keeps P id mobile : keeps (in_db P) (mobile_free_for id mobile).
Proof. unfold mobile_free_for. kept. Qed.
Lemma email_free_keeps P id email : keeps (in_db P) (email_free_for id email).
Proof. unfold email_free_for. kept. Qed.
Lemma drop_email_keeps id email : keeps (in_db (knows id)) (drop_email email).
Proof. unfold drop_email. kept. Qed.
#[local] Hint Resolve swap_mobile_keeps mobile_free_keeps email_free_keeps drop_email_keeps : accounts.

Lemma account_keeps P in_ : keeps (in_db P) (account_of in_).
Proof. unfold account_of, found_or, find_user, found_or. kept. Qed.
Lemma login_keeps P in_ : keeps (in_db P) (Login svc in_).
Proof.
  pose proof (account_keeps P in_) as Ha.
  unfold Login, failed_too_often, redis_get, count_failure, redis_incr, redis_do, CreateToken. kept.
Qed.
Lemma logout_keeps P token : keeps (in_db P) (Logout svc token).
Proof. unfold Logout, ParseToken, redis_do. kept. Qed.

Lemma register_keeps in_ : keeps (in_db accounts_ok) (Register in_).
Proof.
  unfold Register, not_registered. do 2 (destr_if; [kept|]). apply keeps_bind; [kept|]. intros email.
  apply keeps_bind; [kept|]. intros _. apply keeps_bind; [kept|]. intros t. apply keeps_bind; [kept|]. intros i.
  intros [e w] Hw. set (u := mkUser i _ _ _ _ _ _ _ _ _ _ _ _). rewrite bind_unfold.
  assert (Hi : preserves accounts_ok (InsertUser u)) by (intros db Hdb; by apply insert_account_ok).
  pose proof (keeps_in_db accounts_ok _ Hi (e, w) Hw) as Hk.
  destruct (on_db (call (InsertUser u)) (e, w)) as [[[]|x] [e1 w1]] eqn:E; [|exact Hk].
  apply on_ok in E as (db & E & ->). apply call_ok in E. destruct (insert_account_ok u (uw_db w) Hw) as [_ Hin]. rewrite E in Hin.
  assert (Hkn : in_db (knows i) (mkUserWorld db (uw_redis w))) by (split; [exact Hk|by apply Hin]).
  match goal with |- in_db _ (?m (e1, ?w1)).2.2 => assert (Hrest : keeps (in_db (knows i)) m); [|by apply (Hrest (e1, w1))] end.
  kept; apply keeps_in_db; [by apply insert_mobile_ok|by apply insert_email_ok].
Qed.

Lemma update_user_keeps r : keeps (in_db accounts_ok) (UpdateUser r).
Proof.
  apply known_user. intros u <-. apply keeps_bind; [kept|]. intros t. cbn zeta.
  set (u1 := if uq_Gender r =? 0 then _ else _). assert (Hu : us_Id u1 = us_Id u) by (unfold u1; by repeat destr_if).
  rewrite Hu. kept.
Qed.
Lemma update_mobile_keeps id mobile : keeps (in_db accounts_ok) (UpdateMobile id mobile).
Proof. apply known_user. intros u <-. kept. Qed.
Lemma update_email_keeps id email : keeps (in_db accounts_ok) (UpdateEmail id email).
Proof. apply known_user. intros u <-. kept; apply keeps_in_db; by apply insert_email_ok. Qed.
Lemma update_password_keeps id p : keeps (in_db accounts_ok) (UpdatePassword id p).
Proof. apply known_user. intros u <-. kept. Qed.
Lemma authentication_keeps id n i : keeps (in_db accounts_ok) (Authentication id n i).
Proof. apply known_user. intros u <-. kept. Qed.
Lemma add_viewer_keeps r : keeps (in_db accounts_ok) (AddTicketUser r).
Proof. apply known_user. intros u <-. kept. apply keeps_in_db. by apply insert_viewer_ok. Qed.

Lemma serve_keeps q : keeps (in_db accounts_ok) (serve q).
Proof.
  destruct q; cbn [serve]; auto using register_keeps, logout_keeps, update_user_keeps, update_mobile_keeps, update_email_keeps,
    update_password_keeps, authentication_keeps, add_viewer_keeps.
  - apply keeps_bind; [apply login_keeps|intros ?; apply keeps_ret].
  - apply keeps_in_db, delete_viewer_ok.
Qed.

(** A request, or seconds passing on the Redis server. *)
Inductive user_step : W -> W -> Prop :=
  | user_serve q e w : user_step w (serve q (e, w)).2.2
  | user_elapse d w : 0 <= d -> user_step w (mkUserWorld (uw_db w) (kelapse (uw_redis w) d)).

End handlers.

Section properties.
Context {R : Type} `{RedisZLaws R} `{Jwt} `{UserPrims} `{CollationLaws} (svc : ServiceContext).
Notation W := (userworld R).

(** C21: accounts stay apart.  Whatever requests are served, in any order, and whatever
    fails between two statements of a request, identifiers stay unique, no mobile
    number, email address or identity of a ticket user is stored twice, up to the
    collation of the tables, and every mapping and ticket user belongs to a user that
    exists; a text a user logs in with names at most one mapping. *)
Theorem accounts_stay_apart (w w' : W) : rtc (user_step svc) w w' -> accounts_ok (uw_db w) ->
  accounts_ok (uw_db w') /\
  (forall text a b, a ∈ mobiles (uw_db w') -> b ∈ mobiles (uw_db w') ->
     mobile_is text a = true -> mobile_is text b = true -> a = b) /\
  (forall text a b, a ∈ emails (uw_db w') -> b ∈ emails (uw_db w') ->
     email_is text a = true -> email_is text b = true -> a = b).
Proof.
  intros Hrun Hok. assert (Hw : accounts_ok (uw_db w')).
  { induction Hrun as [|w1 w2 w3 Hs _ IH]; [done|]. apply IH. destruct Hs as [q e w0|d w0 _]; [|done].
    exact (serve_keeps svc q (e, w0) Hok). }
  split; [done|]. destruct Hw as [_ [_ Hm _] [_ He _] _]. split.
  - intros text a b Ha Hb [_ Ea]%andb_true_iff [_ Eb]%andb_true_iff.
    apply (apart_eq same_mobile (mobiles (uw_db w'))); [by intros x y; apply collate_sym|done..|].
    eapply collate_trans; [exact Ea|]. by rewrite collate_sym.
  - intros text a b Ha Hb [_ Ea]%andb_true_iff [_ Eb]%andb_true_iff.
    apply (apart_eq same_email (emails (uw_db w'))); [by intros x y; apply collate_sym|done..|].
    eapply collate_trans; [exact Ea|]. by rewrite collate_sym.
Qed.
(** *** What a login means *)

Lemma user_db_read {A} (m : M userdb A) e (w : W) a e' w' : readonly m -> on_db (call m) (e, w) = (Ok a, (e', w')) ->
  w' = w /\ (m (uw_db w)).1 = Ok a.
Proof.
  intros Hm (db & E & ->)%on_ok. pose proof (call_readonly _ _ _ _ _ _ Hm E) as ->. apply call_ok in E. rewrite E.
  by destruct w.
Qed.

(** The row a login names. *)
Definition names (in_ : LoginReq) (db : userdb) (u : DUser) (failKey : string) : Prop :=
  user_by (us_Id u) db = Some u /\
  ((lq_Mobile in_ <> "" /\ failKey = mobileFailKey (lq_Mobile in_) /\
      exists m, find (mobile_is (lq_Mobile in_)) (mobiles db) = Some m /\ mb_UserId m = us_Id u) \/
   (lq_Mobile in_ = "" /\ failKey = emailFailKey (lq_Email in_) /\
      exists m, find (email_is (lq_Email in_)) (emails db) = Some m /\ em_UserId m = us_Id u)).

Lemma found_user id e (w : W) u e' w' : find_user id (e, w) = (Ok u, (e', w')) ->
  w' = w /\ us_Id u = id /\ user_by id (uw_db w) = Some u.
Proof.
  intros [-> E]%map_err_ok%user_db_read; [|done]. unfold FindUser in E. cbn in E.
  destruct (user_by id (uw_db w)) as [v|] eqn:Ev; [|done]. injection E as ->. split_and!; [done| |done].
  apply find_elem in Ev as [_ ?%Z.eqb_eq]. done.
Qed.

Lemma account_named in_ e (w : W) u k e' w' : account_of in_ (e, w) = (Ok (u, k), (e', w')) -> w' = w /\ names in_ (uw_db w) u k.
Proof.
  unfold account_of, names. destruct (bool_decide_reflect (lq_Mobile in_ = "")) as [Em|Em]; cbn [negb];
    intros (m & [e1 w1] & [-> Hm]%map_err_ok%user_db_read & Hrun)%bind_ok; try done;
    apply bind_ok in Hrun as (u' & [e2 w2] & (-> & Hid & Hu)%found_user & [[= <- <-] [= _ <-]]%ret_ok);
    rewrite Hid; (split; [done|]); (split; [done|]).
  - right. split_and!; [done..|]. exists m. split; [|done]. cbn in Hm. by destruct (find _ _); [injection Hm as ->|].
  - left. split_and!; [done..|]. exists m. split; [|done]. cbn in Hm. by destruct (find _ _); [injection Hm as ->|].
Qed.

Lemma redis_keeps_db {A} (m : IO R A) e (w : W) : uw_db (on_redis m (e, w)).2.2 = uw_db w.
Proof. unfold on_redis, on. by destruct (m _) as [r [e' x]]. Qed.

Lemma setex_stored (r : R) k v t : 0 < t -> sget (setex r k v t) k = Some v.
Proof.
  intros Ht. unfold setex, sset. rewrite sget_expire by done. rewrite sget_sput; [by rewrite decide_True|].
  by rewrite zset_del, decide_True.
Qed.

Lemma duration_positive d : 0 < durationSeconds d.
Proof. unfold durationSeconds. destruct (Z.leb_spec (seconds_trunc d) 0); lia. Qed.

(** C22: a login proves the password.  An accepted login changes no table; the mobile
    number, or else the email address, is mapped to the user it answers, the password
    is that user's, the token is signed for that user with the service's secret, and
    with Redis the token is the user's login state. *)
Theorem login_sound in_ e (w : W) resp e' w' : Login svc in_ (e, w) = (Ok resp, (e', w')) ->
  uw_db w' = uw_db w /\ exists u k secret exp iat, names in_ (uw_db w) u k /\
    us_Password u = Some (md5Hex (lq_Password in_)) /\ accessSecret svc = Ok secret /\
    resp = mkLoginResp (us_Id u) (jwt_sign (mkJwtClaims (us_Id u) (Some exp) (Some iat)) secret) /\
    (ux_Redis svc = true -> sget (uw_redis w') (loginStateKey (us_Id u)) = Some (lr_Token resp)).
Proof.
  unfold Login. intros (secret & [e1 w1] & [= Hsec <- <-] & Hrun)%bind_ok. destruct (_ || _); [done|].
  apply bind_ok in Hrun as ([u k] & [e2 w2] & [-> Hn]%account_named & Hrun).
  apply bind_ok in Hrun as (b & [e3 w3] & Hb & Hrun).
  assert (uw_db w3 = uw_db w) as Hdb3.
  { unfold failed_too_often in Hb. destruct (ux_Redis svc); [|by apply ret_ok in Hb as [_ [= _ <-]]].
    apply bind_ok in Hb as (v & [e4 w4] & Hv%attempt_ok & [_ [= _ <-]]%ret_ok).
    pose proof (redis_keeps_db (call (fun r => (Ok (default "" (sget r k)), r))) e2 w) as Hk. unfold redis_get in Hv. by rewrite Hv in Hk. }
  destruct b; [done|]. destruct (bool_decide_reflect (us_Password u = Some (md5Hex (lq_Password in_)))) as [Hp|]; cbn [negb] in Hrun;
    [|by apply bind_ok in Hrun as (? & ? & _ & ?)].
  apply bind_ok in Hrun as (token & [e4 w4] & Ht & Hrun).
  unfold CreateToken in Ht. apply bind_ok in Ht as (t1 & [e5 w5] & [-> _]%now_state & Ht).
  apply bind_ok in Ht as (t2 & [e6 w6] & [-> _]%now_state & [<- [= <- <-]]%ret_ok).
  apply bind_ok in Hrun as ([] & [e7 w7] & Hs & [<- [= <- <-]]%ret_ok).
  assert (Hfin : uw_db w7 = uw_db w3 /\ (ux_Redis svc = true -> forall token, token = jwt_sign (mkJwtClaims (us_Id u)
      (Some (unix_sec (t1 + ua_TokenExpire (ux_UserAuth svc)))) (Some (unix_sec t2))) secret ->
      sget (uw_redis w7) (loginStateKey (us_Id u)) = Some token)).
  { destruct (ux_Redis svc); [|by apply ret_ok in Hs as [_ [= _ <-]]].
    apply bind_ok in Hs as (x & [e8 w8] & Hd%attempt_ok & (r & Hr & ->)%on_ok).
    pose proof (redis_keeps_db (call (modify (fun r => kdel r k))) e6 w3) as Hk. unfold redis_do in Hd. rewrite Hd in Hk.
    split; [exact Hk|]. intros _ token ->. apply call_ok in Hr. injection Hr as <-. apply setex_stored, duration_positive. }
  destruct Hfin as [Hdb7 Hstate]. split; [congruence|].
  exists u, k, secret, (unix_sec (t1 + ua_TokenExpire (ux_UserAuth svc))), (unix_sec t2). split_and!; [done..|].
  intros Hr. by apply Hstate.
Qed.

(** *** Runs without a fault *)

Lemma run_db {A} (m : M userdb A) e (w : W) r db : faults e = [] -> m (uw_db w) = (r, db) ->
  on_db (call m) (e, w) = (r, (e, mkUserWorld db (uw_redis w))).
Proof. intros He Hm. unfold on_db, on, call, draw. by rewrite He, Hm. Qed.
Lemma run_redis {A} (m : M R A) e (w : W) a r : faults e = [] -> m (uw_redis w) = (a, r) ->
  on_redis (call m) (e, w) = (a, (e, mkUserWorld (uw_db w) r)).
Proof. intros He Hm. unfold on_redis, on, call, draw. by rewrite He, Hm. Qed.
Lemma same_world (w : W) : mkUserWorld (uw_db w) (uw_redis w) = w.
Proof. by destruct w. Qed.
Lemma run_found {A} (m : M userdb A) x e (w : W) a : faults e = [] -> m (uw_db w) = (Ok a, uw_db w) ->
  found_or x (on_db (call m)) (e, w) = (Ok a, (e, w)).
Proof. intros He Hm. unfold found_or, map_err. by rewrite (run_db _ _ _ _ _ He Hm), same_world. Qed.
Lemma bind_run {S A B} (m : M S A) (f : A -> M S B) s a s' : m s = (Ok a, s') -> (m ≫= f) s = f a s'.
Proof. intros Hm. by rewrite bind_unfold, Hm. Qed.

Lemma account_run in_ e (w : W) u k : faults e = [] -> names in_ (uw_db w) u k -> account_of in_ (e, w) = (Ok (u, k), (e, w)).
Proof.
  intros He [Hu Hn]. unfold account_of. assert (Hf : find_user (us_Id u) (e, w) = (Ok u, (e, w))).
  { apply run_found; [done|]. unfold FindUser. by rewrite Hu. }
  destruct Hn as [(Hm & -> & m & Hfm & Hid)|(Hm & -> & m & Hfm & Hid)].
  - rewrite (bool_decide_eq_false_2 _ Hm). cbn [negb]. rewrite (bind_run _ _ _ m (e, w)), Hid, (bind_run _ _ _ u (e, w)); [done|done|].
    apply run_found; [done|]. unfold FindOneByMobile. by rewrite Hfm.
  - rewrite (bool_decide_eq_true_2 _ Hm). cbn [negb]. rewrite (bind_run _ _ _ m (e, w)), Hid, (bind_run _ _ _ u (e, w)); [done|done|].
    apply run_found; [done|]. unfold FindOneByEmail. by rewrite Hfm.
Qed.

(** *** Guessing a password *)

(** The counter of failures stands at [n]. *)
Definition counter (r : R) (k : string) (n : Z) : Prop :=
  zset r k = ∅ /\ (sget r k = Some (format_int n) \/ (n = 0 /\ sget r k = None)).

Definition with_password (in_ : LoginReq) (p : string) : LoginReq := mkLogin (lq_Mobile in_) (lq_Email in_) p.
Fixpoint guesses (in_ : LoginReq) (l : list (env * string)) (w : W) : list (result err LoginResp) :=
  match l with
  | [] => []
  | (e, p) :: l => let '(r, (_, w')) := Login svc (with_password in_ p) (e, w) in r :: guesses in_ l w'
  end.

Lemma counter_reads r k n : counter r k n -> in_int64 n = true -> parseFailCount (default "" (sget r k)) = n.
Proof.
  intros [_ [->|[-> ->]]] Hn; [|done]. change (default 0 (parse_int64 (format_int n)) = n). by rewrite parse_format.
Qed.

Lemma counter_incr r k n : counter r k n -> in_int64 n = true -> in_int64 (n + 1) = true ->
  incrby r k 1 = (Ok (n + 1), sput r k (format_int (n + 1))) /\ counter (sput r k (format_int (n + 1))) k (n + 1).
Proof.
  intros [Hz Hs] Hn Hn1. assert (Hi : match sget r k with None => Some 0 | Some raw => parse_int64 raw end = Some n).
  { destruct Hs as [->|[-> ->]]; [by apply parse_format|done]. }
  unfold incrby. rewrite bool_decide_eq_true_2, Hi, Hn1 by done. split; [done|]. split; [by rewrite zset_sput|].
  left. by rewrite sget_sput, decide_True.
Qed.

Lemma wrong_guess in_ p e (w : W) u k n secret : accessSecret svc = Ok secret -> ux_Redis svc = true ->
  lq_Mobile in_ <> "" \/ lq_Email in_ <> "" -> faults e = [] -> p <> "" -> us_Password u <> Some (md5Hex p) ->
  names in_ (uw_db w) u k -> counter (uw_redis w) k n -> in_int64 n = true -> in_int64 (n + 1) = true ->
  exists w', uw_db w' = uw_db w /\
    if ua_LoginFailLimit (ux_UserAuth svc) <=? n
    then Login svc (with_password in_ p) (e, w) = (Err (statusX ResourceExhausted ErrLoginFailedTooMany), (e, w')) /\
      counter (uw_redis w') k n
    else Login svc (with_password in_ p) (e, w) = (Err (statusX Unauthenticated ErrInvalidPassword), (e, w')) /\
      counter (uw_redis w') k (n + 1).
Proof.
  intros Hsec Hr Hid He Hp Hpw Hn Hc Hi Hi1. unfold Login. rewrite (bind_run _ _ _ secret (e, w)) by by unfold lift; rewrite Hsec.
  cbn [lq_Password with_password lq_Mobile lq_Email]. rewrite (bool_decide_eq_false_2 (p = "")) by done.
  replace (bool_decide (lq_Mobile in_ = "") && bool_decide (lq_Email in_ = "")) with false
    by (destruct Hid; [rewrite (bool_decide_eq_false_2 (lq_Mobile in_ = "")) by done|rewrite (bool_decide_eq_false_2 (lq_Email in_ = "")), andb_false_r by done]; done).
  cbn [orb]. rewrite (bind_run _ _ _ (u, k) (e, w)) by by apply account_run.
  unfold failed_too_often, count_failure. rewrite Hr.
  assert (Hg : redis_get k (e, w) = (Ok (default "" (sget (uw_redis w) k)), (e, w))).
  { unfold redis_get. by rewrite (run_redis (fun r => (Ok (default "" (sget r k)), r)) e w _ _ He eq_refl), same_world. }
  rewrite (bind_run _ _ _ (ua_LoginFailLimit (ux_UserAuth svc) <=? n) (e, w)).
  2: { rewrite (bind_run _ _ _ (Ok (default "" (sget (uw_redis w) k))) (e, w)); [|by unfold attempt; rewrite Hg].
       by rewrite (counter_reads _ _ _ Hc Hi). }
  destruct (ua_LoginFailLimit (ux_UserAuth svc) <=? n); [by exists w|].
  rewrite (bool_decide_eq_false_2 (us_Password u = _)) by done. cbn [negb].
  destruct (counter_incr _ _ _ Hc Hi Hi1) as [Hinc Hc1]. set (r1 := sput (uw_redis w) k (format_int (n + 1))) in *.
  assert (Hin : redis_incr k (e, w) = (Ok (n + 1), (e, mkUserWorld (uw_db w) r1))) by by apply run_redis.
  set (cont := fun _ : unit => throw (statusX Unauthenticated ErrInvalidPassword) : IO W LoginResp).
  assert (Hdone : forall w' m, m (e, w) = (Ok tt, (e, w')) -> uw_db w' = uw_db w -> counter (uw_redis w') k (n + 1) ->
    exists w', uw_db w' = uw_db w /\ (m ≫= cont) (e, w) = (Err (statusX Unauthenticated ErrInvalidPassword), (e, w')) /\
      counter (uw_redis w') k (n + 1)).
  { intros w' m Hm ? ?. exists w'. split_and!; [done| |done]. by rewrite (bind_run _ _ _ _ _ Hm). }
  destruct (Z.eqb_spec (n + 1) 1) as [E1|E1].
  - eapply (Hdone (mkUserWorld (uw_db w) (kexpire r1 k (durationSeconds (ua_TokenExpire (ux_UserAuth svc)))))); [|done|].
    + rewrite (bind_run _ _ _ (Ok (n + 1)) (e, mkUserWorld (uw_db w) r1)) by by unfold attempt; rewrite Hin.
      rewrite E1. unfold redis_do. rewrite (bind_run _ _ _ (Ok tt) (e, mkUserWorld (uw_db w) (kexpire r1 k (durationSeconds (ua_TokenExpire (ux_UserAuth svc))))));
        [done|]. unfold attempt. by rewrite (run_redis (modify _) e (mkUserWorld (uw_db w) r1) _ _ He eq_refl).
    + destruct Hc1 as [Hz Hs]. pose proof (duration_positive (ua_TokenExpire (ux_UserAuth svc))) as Hd. split; cbn;
        by rewrite ?zset_expire, ?sget_expire.
  - eapply (Hdone (mkUserWorld (uw_db w) r1)); [|done|done].
    rewrite (bind_run _ _ _ (Ok (n + 1)) (e, mkUserWorld (uw_db w) r1)) by by unfold attempt; rewrite Hin.
    destruct (n + 1) as [|[q|q|]|q]; done.
Qed.

Lemma small_counter n : 0 <= n < 2 ^ 63 -> in_int64 n = true.
Proof. intros Hn. unfold in_int64, min_int64, max_int64. rewrite !(proj2 (Z.leb_le _ _)); lia. Qed.

(** C23: a password can only be guessed so often.  While Redis works and the counter of
    an account does not lapse, the wrong passwords of any sequence of logins are
    answered as such until the counter reaches the limit, and every later one is
    refused before its password is looked at. *)
Theorem password_guesses_bounded in_ l (w : W) u k n secret : accessSecret svc = Ok secret -> ux_Redis svc = true ->
  lq_Mobile in_ <> "" \/ lq_Email in_ <> "" -> names in_ (uw_db w) u k -> counter (uw_redis w) k n -> 0 <= n ->
  n + Z.of_nat (length l) < 2 ^ 63 ->
  Forall (fun g => faults g.1 = [] /\ g.2 <> "" /\ us_Password u <> Some (md5Hex g.2)) l ->
  guesses in_ l w = map (fun i => if ua_LoginFailLimit (ux_UserAuth svc) <=? i
      then Err (statusX ResourceExhausted ErrLoginFailedTooMany) else Err (statusX Unauthenticated ErrInvalidPassword))
    (seqZ n (Z.of_nat (length l))).
Proof.
  intros Hsec Hr Hid Hn Hc Hpos Hlen Hall. set (lim := ua_LoginFailLimit (ux_UserAuth svc)).
  assert (Hgen : forall i, n = i \/ lim <= n <= i -> i + Z.of_nat (length l) < 2 ^ 63 ->
    guesses in_ l w = map (fun i => if lim <=? i then Err (statusX ResourceExhausted ErrLoginFailedTooMany)
      else Err (statusX Unauthenticated ErrInvalidPassword)) (seqZ i (Z.of_nat (length l)))); [|by apply Hgen; [left|]].
  clear Hlen. revert w n Hn Hc Hpos. induction Hall as [|[e p] l (He & Hp & Hpw) _ IH]; intros w n Hn Hc Hpos i Hi Hlen; [done|].
  cbn [length fst snd] in *. rewrite Nat2Z.inj_succ in *. rewrite seqZ_cons, Z.pred_succ by lia. cbn [map guesses].
  destruct (wrong_guess in_ p e w u k n secret) as (w' & Hdb & Hrun); try done; [apply small_counter; lia..|]. fold lim in Hrun.
  rewrite <- Hdb in Hn. destruct (Z.leb_spec lim n) as [Hl|Hl]; destruct Hrun as [-> Hc'].
  - rewrite (proj2 (Z.leb_le lim i)) by lia. f_equal. apply (IH w' n); [done..|lia|lia].
  - rewrite (proj2 (Z.leb_gt lim i)) by lia. f_equal. apply (IH w' (n + 1)); [done|done|lia|lia|lia].
Qed.

(** *** Registration *)

Lemma find_snoc {A} (f g : A -> bool) l x : existsb g l = false -> (forall y, f y = true -> g y = true) -> f x = true ->
  find f (l ++ [x]) = Some x.
Proof.
  intros Hl Hfg Hx. induction l as [|a l IH]; cbn; [by rewrite Hx|]. cbn in Hl. apply orb_false_iff in Hl as [Ha Hl].
  destruct (f a) eqn:Ef; [by rewrite (Hfg _ Ef) in Ha|]. by apply IH.
Qed.

Lemma inserted_user u db db' : InsertUser u db = (Ok tt, db') -> us_Id u ∉ user_ids db /\
  user_by (us_Id u) db' = Some (stored_user u) /\ mobiles db' = mobiles db.
Proof.
  unfold InsertUser. destruct (user_columns u) as [[]|]; [|done]. destruct (existsb _ _) eqn:E; [done|]. intros [= <-].
  split_and!; [|by apply (find_snoc _ _ _ (stored_user u) E); [done|apply Z.eqb_refl]|done].
  intros (r & Hr & Hin)%list_elem_of_fmap. assert (existsb (fun r => us_Id r =? us_Id u) (users db) = true); [|congruence].
  apply existsb_exists. exists r. split; [by apply list_elem_of_In|by apply Z.eqb_eq].
Qed.

Lemma inserted_mobile m db db' : InsertMobile m db = (Ok tt, db') -> mb_Status m = 1 ->
  users db' = users db /\ exists r, find (mobile_is (mb_Mobile m)) (mobiles db') = Some r /\ mb_UserId r = mb_UserId m.
Proof.
  unfold InsertMobile. destr_if; [done|]. destr_if; [done|]. destruct (existsb (fun r => collate _ _) _) eqn:E; [done|].
  intros [= <-] Hst. split; [done|]. eexists. cbn [mobiles set_mobiles]. split; [apply (find_snoc _ _ _ _ E)|].
  - by intros y [_ ?]%andb_true_iff.
  - unfold mobile_is. cbn. rewrite Hst. apply collate_refl.
  - done.
Qed.

Lemma inserted_email m db db' : InsertEmail m db = (Ok tt, db') -> users db' = users db /\ mobiles db' = mobiles db.
Proof. unfold InsertEmail. repeat destr_if; try done. by intros [= <-]. Qed.

Lemma read_same {A} (m : M userdb A) e (w : W) r e' w' : readonly m -> on_db (call m) (e, w) = (r, (e', w')) -> w' = w.
Proof.
  intros Hm. unfold on_db, on. destruct (call m (e, uw_db w)) as [r1 [e1 db]] eqn:E. intros [= _ _ <-].
  apply call_readonly in E as ->; [|done]. by destruct w.
Qed.

(** An accepted registration has stored the account. *)
Lemma registered in_ e (w : W) e' w' : Register in_ (e, w) = (Ok tt, (e', w')) -> rq_Mobile in_ <> "" /\ rq_Password in_ <> "" /\
  exists u, us_Id u ∉ user_ids (uw_db w) /\ us_Password u = Some (md5Hex (rq_Password in_)) /\
    names (mkLogin (rq_Mobile in_) "" (rq_Password in_)) (uw_db w') u (mobileFailKey (rq_Mobile in_)) /\ uw_redis w' = uw_redis w.
Proof.
  unfold Register, not_registered. destruct (bool_decide_reflect (rq_Mobile in_ = "")) as [|Hm]; [done|].
  destruct (bool_decide_reflect (rq_Password in_ = "")) as [|Hp]; [done|]. cbn [orb]. destruct (_ && _); [done|].
  intros (email & [e1 w1] & [= _ <- <-] & Hrun)%bind_ok. split; [done|]. split; [done|].
  apply bind_ok in Hrun as ([] & [e2 w2] & Hno & Hrun). assert (w2 = w) as ->.
  { apply bind_ok in Hno as (res & [e3 w3] & Hf%attempt_ok & Hno). apply read_same in Hf as ->; [|done].
    destruct res as [m|x]; [done|]. destruct (err_is x ENotFound); [|done]. by apply ret_ok in Hno as [_ [= _ <-]]. }
  apply bind_ok in Hrun as (t & [e3 w3] & [-> _]%now_state & Hrun). apply bind_ok in Hrun as (i & [e4 w4] & ->%newID_ok & Hrun).
  apply bind_ok in Hrun as ([] & [e5 w5] & (db1 & Hu%call_ok & ->)%on_ok & Hrun).
  apply bind_ok in Hrun as (j & [e6 w6] & ->%newID_ok & Hrun).
  apply bind_ok in Hrun as ([] & [e7 w7] & (db2 & Hmo%call_ok & ->)%on_ok & Hrun). cbn [uw_db uw_redis] in *.
  apply inserted_user in Hu as (Hnew & Hby & Hmob). apply inserted_mobile in Hmo as [Husers (r & Hfind & Hown)]; [|done].
  assert (Hfin : users (uw_db w') = users db2 /\ mobiles (uw_db w') = mobiles db2 /\ uw_redis w' = uw_redis w).
  { destruct (bool_decide (email = "")); [by apply ret_ok in Hrun as [_ [= _ <-]]|].
    apply bind_ok in Hrun as (l & [e8 w8] & ->%newID_ok & (db3 & [? ?]%call_ok%inserted_email & ->)%on_ok). done. }
  destruct Hfin as (Fu & Fm & Fr). match type of Hby with _ = Some ?v => exists v end.
  split; [exact Hnew|]. split; [reflexivity|]. split; [|done]. split.
  - unfold user_by in *. by rewrite Fu, Husers.
  - left. split; [done|]. split; [done|]. rewrite Fm. by exists r.
Qed.

Lemma now_runs {S} e (s : S) : exists t e', now (e, s) = (Ok t, (e', s)) /\ faults e' = faults e /\ wall e <= t.
Proof. unfold now. destruct (ticks e); do 2 eexists; split_and!; try done; cbn; lia. Qed.

(** Who registers can log in.  After an accepted registration, a login with its
    mobile number and password, in which nothing fails, is accepted for the new user,
    unless the number is blocked by earlier failures; until it expires, its token is
    read back as the user's. *)
Theorem register_then_login in_ e (w : W) e1 w1 e2 secret `{!JwtLaws} : Register in_ (e, w) = (Ok tt, (e1, w1)) ->
  accessSecret svc = Ok secret -> faults e2 = [] ->
  (ux_Redis svc = true ->
   parseFailCount (default "" (sget (uw_redis w1) (mobileFailKey (rq_Mobile in_)))) < ua_LoginFailLimit (ux_UserAuth svc)) ->
  exists id token t e3 w3, id ∉ user_ids (uw_db w) /\ wall e2 <= t /\
    Login svc (mkLogin (rq_Mobile in_) "" (rq_Password in_)) (e2, w1) = (Ok (mkLoginResp id token), (e3, w3)) /\
    forall t', in_int64 id = true -> t' < time_of_unix (unix_sec (t + ua_TokenExpire (ux_UserAuth svc))) ->
      jc_UserID <$> jwt_parse t' token secret = Ok id.
Proof.
  intros Hreg Hsec He Hfree. destruct (registered _ _ _ _ _ Hreg) as (Hm & Hp & u & Hnew & Hpw & Hn & _).
  set (k := mobileFailKey (rq_Mobile in_)) in *. unfold Login. rewrite (bind_run _ _ _ secret (e2, w1)) by by unfold lift; rewrite Hsec.
  cbn [lq_Password lq_Mobile lq_Email]. rewrite !(bool_decide_eq_false_2 (_ = "")) by done. cbn [orb andb].
  rewrite (bind_run _ _ _ (u, k) (e2, w1)) by by apply account_run.
  rewrite (bind_run _ _ _ false (e2, w1)).
  2: { unfold failed_too_often. destruct (ux_Redis svc); [|done]. specialize (Hfree eq_refl).
       rewrite (bind_run _ _ _ (Ok (default "" (sget (uw_redis w1) k))) (e2, w1)); [by rewrite (proj2 (Z.leb_gt _ _))|].
       unfold attempt, redis_get. by rewrite (run_redis (fun r => (Ok (default "" (sget r k)), r)) e2 w1 _ _ He eq_refl), same_world. }
  rewrite (bool_decide_eq_true_2 _ Hpw). cbn [negb].
  destruct (now_runs e2 w1) as (t & e3 & Ht & He3 & Hwall). destruct (now_runs e3 w1) as (iat & e4 & Hi & He4 & _).
  set (token := jwt_sign (mkJwtClaims (us_Id u) (Some (unix_sec (t + ua_TokenExpire (ux_UserAuth svc)))) (Some (unix_sec iat))) secret).
  rewrite (bind_run _ _ _ token (e4, w1)).
  2: { unfold CreateToken. rewrite (bind_run _ _ _ t (e3, w1)) by done. by rewrite (bind_run _ _ _ iat (e4, w1)). }
  assert (Hf4 : faults e4 = []) by congruence.
  assert (Hparse : forall t', in_int64 (us_Id u) = true -> t' < time_of_unix (unix_sec (t + ua_TokenExpire (ux_UserAuth svc))) ->
    jc_UserID <$> jwt_parse t' token secret = Ok (us_Id u)) by (intros t' Hi64 Ht'; unfold token; by erewrite jwt_parse_sign).
  destruct (ux_Redis svc); exists (us_Id u), token, t, e4; eexists; (split_and!; [exact Hnew|exact Hwall| |exact Hparse]).
  - rewrite (bind_run _ _ _ tt (e4, mkUserWorld (uw_db w1) (setex (kdel (uw_redis w1) k) (loginStateKey (us_Id u)) token
      (durationSeconds (ua_TokenExpire (ux_UserAuth svc)))))); [reflexivity|].
    rewrite (bind_run _ _ _ (Ok tt) (e4, mkUserWorld (uw_db w1) (kdel (uw_redis w1) k))); [exact (run_redis (modify _) e4 (mkUserWorld (uw_db w1) (kdel (uw_redis w1) k)) _ _ Hf4 eq_refl)|].
    unfold attempt, redis_do. by rewrite (run_redis (modify _) e4 w1 _ _ Hf4 eq_refl).
  - rewrite (bind_run _ _ _ tt (e4, w1)) by done. reflexivity.
Qed.
End properties.
