(* ===== verification/Gateway.v ===== *)
(** * Who a request comes from  (gateway-api, pkg/xmiddleware, the middleware of the services)

    The gateway authenticates a client by its token, or on some paths by a shared secret
    for load tests, and tells the services behind it who that is in headers it signs.
    The services trust these headers only.  Header names are canonicalized as net/http
    does; [strings.EqualFold] is folded on ASCII. *)
From Stdlib Require Import ZArith Lia Ascii String.
From stdpp Require Import base gmap list strings.
From S2P Require Import Prelude GoBase Effects PurchaseToken UserDB UserService.
Open Scope string_scope.
Open Scope list_scope.
Open Scope Z_scope.

(** ** net/http headers *)

Definition ascii_between (lo hi : nat) (c : ascii) : bool := let n := nat_of_ascii c in (lo <=? n)%nat && (n <=? hi)%nat.
Definition upper (c : ascii) : ascii := if ascii_between 97 122 c then ascii_of_nat (nat_of_ascii c - 32) else c.
Definition lower (c : ascii) : ascii := if ascii_between 65 90 c then ascii_of_nat (nat_of_ascii c + 32) else c.
Fixpoint string_in (c : ascii) (s : string) : bool :=
  match s with EmptyString => false | String d s => Ascii.eqb c d || string_in c s end.
Definition field_byte (c : ascii) : bool :=
  ascii_between 48 57 c || ascii_between 65 90 c || ascii_between 97 122 c || string_in c "!#$%&'*+-.^_`|~".
Fixpoint canonical_from (up : bool) (s : string) : string :=
  match s with
  | EmptyString => ""
  | String c s => String (if up then upper c else lower c) (canonical_from (Ascii.eqb c "-") s)
  end.
(** [textproto.CanonicalMIMEHeaderKey]: a name with other bytes is left as it is. *)
Definition CanonicalHeader (s : string) : string := if sall field_byte s then canonical_from true s else s.

Definition header := gmap string (list string).
Definition header_values (h : header) (k : string) : list string := default [] (h !! CanonicalHeader k).
Definition header_get (h : header) (k : string) : string := default "" (head (header_values h k)).
Definition header_set (k v : string) (h : header) : header := <[CanonicalHeader k := [v]]> h.
Definition header_add (k v : string) (h : header) : header := <[CanonicalHeader k := header_values h k ++ [v]]> h.
Definition header_del (k : string) (h : header) : header := delete (CanonicalHeader k) h.

(** The user id is what [WithUserID] put into the request's context. *)
Record Request := mkRequest { rq_Method : string; rq_Path : string; rq_Header : header; rq_UserID : option Z }.
Definition with_header (h : header) (r : Request) : Request := mkRequest (rq_Method r) (rq_Path r) h (rq_UserID r).
Definition WithUserID (userID : Z) (r : Request) : Request := mkRequest (rq_Method r) (rq_Path r) (rq_Header r) (Some userID).
Definition UserIDFromContext (r : Request) : option Z :=
  match rq_UserID r with Some value => if value <=? 0 then None else Some value | None => None end.

(** ** cors_middleware.go *)

Definition defaultCorsAllowHeaders : list string :=
  ["Content-Type"; "Origin"; "X-CSRF-Token"; "Authorization"; "AccessToken"; "Token"; "Range"].
Definition defaultCorsExposeHeaders : list string := ["Content-Length"; "Access-Control-Allow-Origin"; "Access-Control-Allow-Headers"].
Definition defaultCorsAllowMethods : list string := ["GET"; "HEAD"; "POST"; "PATCH"; "PUT"; "DELETE"; "OPTIONS"].

Record CorsConfig := mkCorsConfig {
  co_AllowOrigins : list string; co_AllowHeaders : list string; co_ExposeHeaders : list string; co_AllowMethods : list string;
  co_AllowCredentials : bool; co_MaxAge : Z }.
Record CorsMiddleware := mkCors {
  cm_allowOrigins : list string; cm_allowHeaders : string; cm_exposeHeaders : string; cm_allowMethods : string;
  cm_allowCredentials : bool; cm_maxAge : string }.

Definition NewCorsMiddleware (cfg : CorsConfig) : CorsMiddleware :=
  let or_default (l d : list string) := match l with [] => d | _ => l end in
  let maxAge := if co_MaxAge cfg <=? 0 then 86400 else co_MaxAge cfg in
  mkCors (co_AllowOrigins cfg) (String.concat ", " (or_default (co_AllowHeaders cfg) defaultCorsAllowHeaders))
    (String.concat ", " (or_default (co_ExposeHeaders cfg) defaultCorsExposeHeaders))
    (String.concat ", " (or_default (co_AllowMethods cfg) defaultCorsAllowMethods)) (co_AllowCredentials cfg) (format_int maxAge).

(** [strings.EqualFold]. *)
Fixpoint fold_case (s : string) : string := match s with EmptyString => "" | String c s => String (lower c) (fold_case s) end.
Definition equal_fold (a b : string) : bool := bool_decide (fold_case a = fold_case b).

Definition allowedOrigin (m : CorsMiddleware) (origin : string) : option string :=
  if bool_decide (origin = "") then None
  else match cm_allowOrigins m with
  | [] => Some origin
  | l => if existsb (fun allowed => equal_fold allowed origin) l then Some origin else None
  end.

Definition addVaryHeader (value : string) (h : header) : header :=
  if existsb (fun current => existsb (fun item => equal_fold (trim_space item) value) (split_on "," current)) (header_values h "Vary")
  then h else header_add "Vary" value h.

(** [h] is the response's header, [r] the request. *)
Definition writeHeaders (m : CorsMiddleware) (r : Request) (origin : string) (h : header) : header :=
  let h := addVaryHeader "Origin" h in
  let h := if bool_decide (rq_Method r = "OPTIONS")
           then addVaryHeader "Access-Control-Request-Headers" (addVaryHeader "Access-Control-Request-Method" h) else h in
  let h := header_set "Access-Control-Max-Age" (cm_maxAge m)
             (header_set "Access-Control-Expose-Headers" (cm_exposeHeaders m)
             (header_set "Access-Control-Allow-Headers" (cm_allowHeaders m)
             (header_set "Access-Control-Allow-Methods" (cm_allowMethods m)
             (header_set "Access-Control-Allow-Origin" origin h)))) in
  if cm_allowCredentials m then header_set "Access-Control-Allow-Credentials" "true" h else h.

(** [CorsMiddleware.Handle]: the response's header, and the request the next handler
    gets, unless the middleware answered itself. *)
Definition cors_handle (m : CorsMiddleware) (r : Request) (h : header) : header * option Request :=
  let h := match allowedOrigin m (header_get (rq_Header r) "Origin") with Some origin => writeHeaders m r origin h | None => h end in
  (h, if bool_decide (rq_Method r = "OPTIONS") then None else Some r).

Definition unauthorized : err := EX ErrUnauthorized.

Section xmiddleware.
Context `{Jwt} `{TokenPrims} {S : Type}.

(** ** auth.go *)

Definition bearer_token (h : header) : option string :=
  let authHeader := trim_space (header_get h "Authorization") in
  if negb (String.prefix "Bearer " authHeader) then None
  else
    let token := trim_space (String.substring 7 (String.length authHeader - 7) authHeader) in
    if bool_decide (token = "") then None else Some token.

Definition Authenticate (r : Request) (secret : string) : IO S Z :=
  match bearer_token (rq_Header r) with
  | None => throw unauthorized
  | Some token =>
      let secret := trim_space secret in
      if bool_decide (secret = "") then throw unauthorized
      else
        res ← attempt (ParseToken token secret);
        match res with
        | Err _ => throw unauthorized
        | Ok claims => if jc_UserID claims <=? 0 then throw unauthorized else mret (jc_UserID claims)
        end
  end.

(** ** internal_identity.go *)

Definition UserIDHeader : string := "X-User-Id".
Definition GatewayTimestampHeader : string := "X-Gateway-Timestamp".
Definition GatewaySignatureHeader : string := "X-Gateway-Signature".
Definition defaultGatewayClockSkew : duration := 5 * 60 * second.

Definition signGatewayIdentity (userID timestamp : Z) (secret : string) : string :=
  hex_encode (hmac_sha256 secret (format_int userID +:+ ":" +:+ format_int timestamp)).

Definition AttachGatewayIdentityHeaders (h : header) (userID : Z) (secret : string) : IO S header :=
  if userID <=? 0 then throw unauthorized
  else
    let secret := trim_space secret in
    if bool_decide (secret = "") then throw unauthorized
    else
      t ← now;
      let timestamp := unix_sec t in
      mret (header_set GatewaySignatureHeader (signGatewayIdentity userID timestamp secret)
             (header_set GatewayTimestampHeader (format_int timestamp) (header_set UserIDHeader (format_int userID) h))).

Definition AuthenticateGatewayIdentity (r : Request) (secret : string) (maxClockSkew : duration) : IO S Z :=
  let secret := trim_space secret in
  if bool_decide (secret = "") then throw unauthorized
  else
    match parse_int64 (trim_space (header_get (rq_Header r) UserIDHeader)) with
    | None => throw unauthorized
    | Some userID =>
        if userID <=? 0 then throw unauthorized
        else
          match parse_int64 (trim_space (header_get (rq_Header r) GatewayTimestampHeader)) with
          | None => throw unauthorized
          | Some timestamp =>
              let signature := trim_space (header_get (rq_Header r) GatewaySignatureHeader) in
              if bool_decide (signature = "") then throw unauthorized
              else
                let clockSkew := if maxClockSkew <=? 0 then defaultGatewayClockSkew else maxClockSkew in
                let issuedAt := time_of_unix timestamp in
                t ← now;
                if (issuedAt <? t - clockSkew) || (t + clockSkew <? issuedAt) then throw unauthorized
                else if negb (bool_decide (signature = signGatewayIdentity userID timestamp secret)) then throw unauthorized
                else mret userID
          end
    end.

Definition ClearGatewayIdentityHeaders (h : header) : header :=
  header_del GatewaySignatureHeader (header_del GatewayTimestampHeader (header_del UserIDHeader h)).
Definition ClearExternalAuthHeaders (h : header) : header := header_del "Authorization" h.

(** ** gateway-api: auth_helper.go, auth_middleware.go *)

Definition publicUserPaths : list string := ["/user/register"; "/user/exist"; "/user/login"].
Definition requiresAuth (path : string) : bool :=
  if String.prefix "/user/" path then negb (bool_decide (path ∈ publicUserPaths))
  else String.prefix "/ticket/user/" path || String.prefix "/order/" path || String.prefix "/pay/" path
       || String.prefix "/agent/" path.

Record PerfAuthConfig := mkPerf {
  pa_Enabled : bool; pa_HeaderName : string; pa_HeaderSecret : string; pa_UserIDHeader : string; pa_AllowedPaths : list string }.
Record AuthMiddleware := mkAuth { am_accessSecret : string; am_internalSecret : string; am_perfCfg : PerfAuthConfig }.

(** gateway.go: empty paths are dropped. *)
Definition toAllowedPathMap (paths : list string) : list string := filter (fun p => p <> "") paths.
Definition requiresPerfAuth (path : string) (allowedPaths : list string) : bool := bool_decide (path ∈ allowedPaths).

Definition authenticatePerfRequest (h : header) (cfg : PerfAuthConfig) : option Z :=
  if negb (pa_Enabled cfg) then None
  else
    let headerName := trim_space (pa_HeaderName cfg) in
    let headerSecret := trim_space (pa_HeaderSecret cfg) in
    let userIDHeader := trim_space (pa_UserIDHeader cfg) in
    if bool_decide (headerName = "") || bool_decide (headerSecret = "") || bool_decide (userIDHeader = "") then None
    else if negb (bool_decide (trim_space (header_get h headerName) = headerSecret)) then None
    else
      match parse_int64 (trim_space (header_get h userIDHeader)) with
      | Some userID => if userID <=? 0 then None else Some userID
      | None => None
      end.

Definition authenticate (m : AuthMiddleware) (r : Request) : IO S Z :=
  match (if requiresPerfAuth (rq_Path r) (pa_AllowedPaths (am_perfCfg m))
         then authenticatePerfRequest (rq_Header r) (am_perfCfg m) else None) with
  | Some userID => mret userID
  | None => Authenticate r (am_accessSecret m)
  end.

(** [writeUnauthorized]. *)
Definition refused (e : err) : err := EStatus Unauthenticated (match e with EX x => xerr_text x | _ => "" end).

(** [AuthMiddleware.Handle]: the request it passes on. *)
Definition gateway_handle (m : AuthMiddleware) (r : Request) : IO S Request :=
  let r := with_header (ClearGatewayIdentityHeaders (rq_Header r)) r in
  if bool_decide (rq_Method r = "OPTIONS") then mret r
  else if negb (requiresAuth (rq_Path r)) then mret (with_header (ClearExternalAuthHeaders (rq_Header r)) r)
  else
    userID ← map_err refused (authenticate m r);
    h ← map_err refused (AttachGatewayIdentityHeaders (ClearExternalAuthHeaders (rq_Header r)) userID (am_internalSecret m));
    mret (WithUserID userID (with_header h r)).

(** ** The middleware of user-api and order-api, current_user_helper.go *)

Definition service_handle (secret : string) (maxClockSkew : duration) (r : Request) : IO S Request :=
  userID ← map_err refused (AuthenticateGatewayIdentity r secret maxClockSkew);
  mret (WithUserID userID r).

Definition requireCurrentUserID (r : Request) : result err Z :=
  match UserIDFromContext r with Some userID => Ok userID | None => Err (statusX Unauthenticated ErrUnauthorized) end.

(** ** What the services may believe *)

(** Who [r] proves to be: by the load test's secret on an allowed path, or by the token
    it carries. *)
Definition proves (m : AuthMiddleware) (r : Request) (userID : Z) : Prop :=
  (requiresPerfAuth (rq_Path r) (pa_AllowedPaths (am_perfCfg m)) = true /\
   authenticatePerfRequest (rq_Header r) (am_perfCfg m) = Some userID) \/
  exists token t c, bearer_token (rq_Header r) = Some token /\
    jwt_parse t token (trim_space (am_accessSecret m)) = Ok c /\ jc_UserID c = userID.

(** What the gateway writes, as the services read it. *)
Definition carries (h : header) (userID timestamp : Z) (signature : string) : Prop :=
  header_get h UserIDHeader = format_int userID /\ header_get h GatewayTimestampHeader = format_int timestamp /\
  header_get h GatewaySignatureHeader = signature.

Lemma parse_int64_range s n : parse_int64 s = Some n -> in_int64 n = true.
Proof.
  unfold parse_int64. intros (v & _ & Hv)%bind_Some. destruct (in_int64 v) eqn:E; congruence.
Qed.

Lemma trim_format n : trim_space (format_int n) = format_int n.
Proof. apply trim_space_nospace, format_int_nospace. Qed.

Ltac headers := cbv [header header_get header_values header_set header_del ClearGatewayIdentityHeaders ClearExternalAuthHeaders];
  repeat first [rewrite lookup_insert_eq | rewrite lookup_insert_ne by (vm_compute; discriminate) | rewrite lookup_delete_eq | rewrite lookup_delete_ne by (vm_compute; discriminate)].

Lemma cleared_identity h : header_get (ClearGatewayIdentityHeaders h) UserIDHeader = "".
Proof. by headers. Qed.
Lemma cleared_bearer h : bearer_token (ClearExternalAuthHeaders h) = None.
Proof. unfold bearer_token. by headers. Qed.

(** A request without an identity is refused, with any secret. *)
Lemma no_identity r secret skew es : header_get (rq_Header r) UserIDHeader = "" ->
  service_handle secret skew r es = (Err (refused unauthorized), es).
Proof.
  intros Hr. unfold service_handle. destruct es as [e s]. apply bind_err_run. unfold map_err, AuthenticateGatewayIdentity.
  destr_if; [done|]. by rewrite Hr.
Qed.

Definition clock_skew (maxClockSkew : duration) : duration := if maxClockSkew <=? 0 then defaultGatewayClockSkew else maxClockSkew.
Lemma clock_skew_pos d : 0 < clock_skew d.
Proof. unfold clock_skew, defaultGatewayClockSkew, second. destruct (Z.leb_spec d 0); lia. Qed.

(** A service that shares the secret believes what the gateway wrote, while it is fresh. *)
Lemma identity_believed r userID timestamp secret skew e s : (forall key msg, hmac_sha256 key msg <> "") ->
  trim_space secret <> "" -> 0 < userID -> in_int64 userID = true -> in_int64 timestamp = true ->
  carries (rq_Header r) userID timestamp (signGatewayIdentity userID timestamp (trim_space secret)) ->
  time_of_unix timestamp <= clock e + clock_skew skew -> clock e <= time_of_unix timestamp + clock_skew skew ->
  exists e', service_handle secret skew r (e, s) = (Ok (WithUserID userID r), (e', s)).
Proof.
  intros Hmac Hsec Hpos Hu Ht (H1 & H2 & H3) Hlo Hhi. destruct (now_run e s) as (e' & Hnow & _). exists e'.
  unfold service_handle. rewrite (bind_ok_run _ _ _ userID (e', s)); [done|]. apply map_err_ok.
  unfold AuthenticateGatewayIdentity. fold (clock_skew skew). rewrite H1, H2, H3, !trim_format, !parse_format by done.
  rewrite (bool_decide_eq_false_2 _ Hsec), (proj2 (Z.leb_gt _ _)) by done.
  rewrite (trim_space_nospace (signGatewayIdentity _ _ _)) by apply hex_nospace.
  rewrite bool_decide_eq_false_2 by by apply hex_nonempty. rewrite (bind_ok_run _ _ _ _ _ Hnow).
  rewrite (proj2 (orb_false_iff _ _)) by (rewrite !Z.ltb_ge; lia). by rewrite bool_decide_eq_true_2.
Qed.

(** A service believes nothing but what is written. *)
Lemma identity_is_written r userID timestamp signature secret skew e s r' es' : in_int64 userID = true ->
  carries (rq_Header r) userID timestamp signature ->
  service_handle secret skew r (e, s) = (Ok r', es') -> r' = WithUserID userID r.
Proof.
  intros Hu (H1 & _) (u & es1 & Ha%map_err_ok & [= <- _])%bind_ok. revert Ha. unfold AuthenticateGatewayIdentity.
  destr_if; [done|]. rewrite H1, trim_format, parse_format by done. destr_if; [done|]. destruct (parse_int64 _); [|done].
  destr_if; [done|]. intros (t & es2 & _ & Ha)%bind_ok. revert Ha. destr_if; [done|]. destr_if; [done|]. by intros [= -> _].
Qed.

Lemma written h timestamp signature userID : carries (header_set GatewaySignatureHeader signature
  (header_set GatewayTimestampHeader (format_int timestamp) (header_set UserIDHeader (format_int userID) h))) userID timestamp signature.
Proof. split_and!; by headers. Qed.
Lemma bearer_other h h' : h !! CanonicalHeader "Authorization" = h' !! CanonicalHeader "Authorization" -> bearer_token h = bearer_token h'.
Proof. intros E. unfold bearer_token, header_get, header_values. unfold header in *. by rewrite E. Qed.

(** The gateway lets in only who proves an identity, which it reads in an int64. *)
Lemma authenticated `{!JwtLaws} m r e s userID es' : authenticate m r (e, s) = (Ok userID, es') ->
  proves m r userID /\ in_int64 userID = true /\ 0 < userID /\ es'.2 = s /\ clock e <= clock es'.1.
Proof.
  unfold authenticate, proves. destruct (requiresPerfAuth _ _).
  1: destruct (authenticatePerfRequest (rq_Header r) (am_perfCfg m)) as [u|] eqn:Hp.
  { intros [= <- <-]. split_and!; [by left| | |done|cbn; lia]; revert Hp; unfold authenticatePerfRequest; destr_if; [done| |done|]; destr_if; try done;
      destr_if; try done; destruct (parse_int64 _) eqn:E; try done; destruct (Z.leb_spec z 0); try done; intros [= <-]; [|done].
    by eapply parse_int64_range. }
  all: unfold Authenticate; destruct (bearer_token (rq_Header r)) as [token|] eqn:Hb; [|done]; destr_if; [done|];
    intros (res & [e1 s1] & Ha%attempt_ok & Hc)%bind_ok; unfold ParseToken in Ha; rewrite bind_unfold in Ha;
    destruct (now_run e s) as (e2 & Hn & _ & Hclk); rewrite Hn in Ha; unfold lift in Ha; injection Ha as Hj <- <-;
    destruct res as [c|]; [|done]; revert Hc; destruct (Z.leb_spec (jc_UserID c) 0); [done|]; intros [= <- <-];
    (split_and!; [right; eauto 6|by eapply jwt_parse_int64|done..]).
Qed.

(** C17: the services know a user from the gateway only.  Whatever headers the client
    sent, behind the gateway a request on a guarded path carries the identity its token
    (or the load test's secret) proves: no service can read another one out of it, and
    each that shares the gateway's secret accepts it within the clock skew.  On any other
    path no service accepts an identity.  The client's token goes no further. *)
Theorem identity_from_the_gateway `{!JwtLaws} m r e s r' es' : (forall key msg, hmac_sha256 key msg <> "") ->
  gateway_handle m r (e, s) = (Ok r', es') ->
  (rq_Method r <> "OPTIONS" -> bearer_token (rq_Header r') = None) /\
  if negb (bool_decide (rq_Method r = "OPTIONS")) && requiresAuth (rq_Path r)
  then exists userID issued, proves m (with_header (ClearGatewayIdentityHeaders (rq_Header r)) r) userID /\
    clock e <= issued <= clock es'.1 /\ UserIDFromContext r' = Some userID /\
    (forall secret skew es2 r2 es3, service_handle secret skew r' es2 = (Ok r2, es3) -> UserIDFromContext r2 = Some userID) /\
    forall secret skew e2 s2, trim_space secret = trim_space (am_internalSecret m) -> in_int64 (unix_sec issued) = true ->
      issued - clock_skew skew <= clock e2 -> clock e2 < issued - second + clock_skew skew ->
      exists r2 e3, service_handle secret skew r' (e2, s2) = (Ok r2, (e3, s2)) /\ requireCurrentUserID r2 = Ok userID
  else forall secret skew es2, exists x, service_handle secret skew r' es2 = (Err x, es2).
Proof.
  intros Hmac. unfold gateway_handle. cbn [rq_Method rq_Path rq_Header with_header]. case_bool_decide as Hm.
  { intros [= <- _]. split; [done|]. cbn. intros. eexists. apply no_identity. cbn. apply cleared_identity. }
  cbn [negb andb]. destruct (requiresAuth (rq_Path r)); cbn [negb].
  2: { intros [= <- _]. split; [by intros _; apply cleared_bearer|]. intros. eexists. apply no_identity. cbn. by headers. }
  intros (userID & [e1 s1] & Ha%map_err_ok & Hrun)%bind_ok. apply authenticated in Ha as (Hp & Hi & Hpos & Hs & Hclk). cbn in Hs, Hclk. subst s1.
  apply bind_ok in Hrun as (h & [e2 s2] & Hatt%map_err_ok & [= <- <-]). revert Hatt. unfold AttachGatewayIdentityHeaders.
  destr_if; [done|]. case_bool_decide as Hsec; [done|]. destruct (now_run e1 s) as (e3 & Hnow & _ & Hclk3). rewrite (bind_ok_run _ _ _ _ _ Hnow).
  intros [= <- <- _]. set (ts := unix_sec (clock e1)). set (sig := signGatewayIdentity _ _ _).
  cbn [WithUserID with_header rq_Header]. split.
  { intros _. rewrite <- (cleared_bearer (ClearGatewayIdentityHeaders (rq_Header r))). apply bearer_other. by headers. }
  exists userID, (clock e1). set (h := header_set GatewaySignatureHeader _ _).
  assert (Hh : carries h userID ts sig) by apply written. set (r' := WithUserID userID (with_header h _)).
  assert (Hctx : forall q, UserIDFromContext (WithUserID userID q) = Some userID).
  { intros q. unfold UserIDFromContext. cbn. by rewrite (proj2 (Z.leb_gt _ _)). }
  split_and!; [done|done|done|apply Hctx| |].
  - intros secret skew [e0 s0] r2 es3 Hrun. by rewrite (identity_is_written r' _ _ _ _ _ _ _ _ _ Hi Hh Hrun).
  - intros secret skew e4 s4 Hsecret Hts Hlo Hhi. rewrite <- Hsecret in Hsec. unfold sig in Hh. rewrite <- Hsecret in Hh.
    pose proof (Z.div_mod (clock e1) second) as Hd. pose proof (Z.mod_pos_bound (clock e1) second) as Hb.
    assert (Hsd : 0 < second) by done.
    destruct (identity_believed r' userID ts secret skew e4 s4) as [e5 Hrun]; [done..| | |];
      [unfold ts, time_of_unix, unix_sec; lia..|]. do 2 eexists. split; [exact Hrun|]. unfold requireCurrentUserID. by rewrite Hctx.
Qed.

(** The middleware allows the origin it was sent and no other, and only one it is
    configured for; an empty configuration allows all. *)
Lemma cors_allows_configured m r h : header_get h "Access-Control-Allow-Origin" = "" ->
  let origin := header_get (rq_Header r) "Origin" in
  header_get (cors_handle m r h).1 "Access-Control-Allow-Origin" =
    if negb (bool_decide (origin = "")) &&
       (bool_decide (cm_allowOrigins m = []) || existsb (fun a => equal_fold a origin) (cm_allowOrigins m))
    then origin else "".
Proof.
  intros Hh origin. unfold cors_handle, allowedOrigin. cbn [fst]. fold origin. destruct (bool_decide (origin = "")) eqn:Eo; [done|]. cbn [negb andb].
  assert (Hw : header_get (writeHeaders m r origin h) "Access-Control-Allow-Origin" = origin).
  { unfold writeHeaders. destruct (cm_allowCredentials m); by headers. }
  destruct (cm_allowOrigins m) as [|a l] eqn:El; [done|]. rewrite bool_decide_eq_false_2 by done. cbn [orb]. by destruct (existsb _ _).
Qed.

End xmiddleware.
