(* ===== verification/UserApi.v ===== *)
(** * user-api  (services/user-api/internal/logic)

    The HTTP front of user-rpc.  A handler takes the user from the request's context,
    where the middleware put whom the gateway signed for, and calls user-rpc over the
    network ([rpc]): the call may be lost before or after the service ran. *)
From Stdlib Require Import ZArith Lia Ascii String.
From stdpp Require Import base gmap list strings sorting relations.
From S2P Require Import Prelude GoBase Effects Sql RedisZ PurchaseToken OrderFlow UserDB UserService UserAccounts Gateway.
Open Scope string_scope.
Open Scope list_scope.
Open Scope Z_scope.

(** ** types.go *)

Record AddTicketUserReq := mkApiAddTicketUser { aa_RelName : string; aa_IdType : Z; aa_IdNumber : string }.
Record AuthenticationReq := mkAuthentication { an_RelName : string; an_IdNumber : string }.
Record UpdateUserReq := mkApiUpdateUser { au_Name : string; au_Gender : Z; au_Mobile : string; au_Address : string }.
Record UserLoginReq := mkUserLogin { al_Mobile : string; al_Email : string; al_Password : string }.
Record UserLoginResp := mkUserLoginResp { al_UserID : Z; al_Token : string }.
Record UserRegisterReq := mkUserRegister { ag_Mobile : string; ag_Password : string; ag_ConfirmPassword : string; ag_Mail : string }.
Record UserVo := mkUserVo {
  uv_ID : Z; uv_Name : string; uv_RelName : string; uv_Gender : Z; uv_Mobile : string; uv_EmailStatus : Z;
  uv_Email : string; uv_RelAuthenticationStatus : Z; uv_IdNumber : string; uv_Address : string }.
Record TicketUserVo := mkTicketUserVo { tv_ID : Z; tv_UserID : Z; tv_RelName : string; tv_IdType : Z; tv_IdNumber : string }.
Record BoolResp := mkBoolResp { br_Success : bool }.

(** ** mapper.go *)

(** user-rpc answers [Success: true] or an error. *)
Definition mapBoolResp (_ : unit) : BoolResp := mkBoolResp true.
Definition mapUserVo (u : UserInfo) : UserVo :=
  mkUserVo (ui_Id u) (ui_Name u) (ui_RelName u) (ui_Gender u) (ui_Mobile u) (ui_EmailStatus u) (ui_Email u)
    (ui_RelAuthenticationStatus u) (ui_IdNumber u) (ui_Address u).
Definition mapTicketUserVo (t : TicketUserInfo) : TicketUserVo :=
  mkTicketUserVo (ti_Id t) (ti_UserId t) (ti_RelName t) (ti_IdType t) (ti_IdNumber t).
Definition mapTicketUserVoList (l : list TicketUserInfo) : list TicketUserVo := map mapTicketUserVo l.

Definition containsTicketUserID (l : list TicketUserInfo) (ticketUserID : Z) : bool :=
  existsb (fun item => ti_Id item =? ticketUserID) l.

Section logic.
Context {R : Type} `{RedisZ R} `{Jwt} `{UserPrims} `{Collation} (svc : ServiceContext).
Notation W := (userworld R).

Definition with_user {A} (r : Request) (f : Z -> IO W A) : IO W A :=
  userID ← lift (requireCurrentUserID r);
  f userID.

(** *** Without a user *)

Definition api_Login (req : UserLoginReq) : IO W UserLoginResp :=
  resp ← rpc (Login svc (mkLogin (al_Mobile req) (al_Email req) (al_Password req)));
  mret (mkUserLoginResp (lr_UserId resp) (lr_Token resp)).
Definition api_Logout (token : string) : IO W BoolResp :=
  resp ← rpc (Logout svc token); mret (mapBoolResp resp).
Definition api_Register (req : UserRegisterReq) : IO W BoolResp :=
  resp ← rpc (Register (mkRegister (ag_Mobile req) (ag_Password req) (ag_ConfirmPassword req) (ag_Mail req)));
  mret (mapBoolResp resp).
Definition api_Exist (mobile : string) : IO W BoolResp :=
  resp ← rpc (Exist mobile); mret (mapBoolResp resp).

(** *** For the current user *)

Definition api_UpdateUser (r : Request) (req : UpdateUserReq) : IO W BoolResp := with_user r (fun userID =>
  resp ← rpc (UpdateUser (mkUpdateUser userID (au_Name req) (au_Gender req) (au_Mobile req) (au_Address req)));
  mret (mapBoolResp resp)).
Definition api_UpdateMobile (r : Request) (mobile : string) : IO W BoolResp := with_user r (fun userID =>
  resp ← rpc (UpdateMobile userID mobile); mret (mapBoolResp resp)).
Definition api_UpdateEmail (r : Request) (email : string) : IO W BoolResp := with_user r (fun userID =>
  resp ← rpc (UpdateEmail userID email); mret (mapBoolResp resp)).
Definition api_UpdatePassword (r : Request) (password : string) : IO W BoolResp := with_user r (fun userID =>
  resp ← rpc (UpdatePassword userID password); mret (mapBoolResp resp)).
Definition api_Authentication (r : Request) (req : AuthenticationReq) : IO W BoolResp := with_user r (fun userID =>
  resp ← rpc (Authentication userID (an_RelName req) (an_IdNumber req)); mret (mapBoolResp resp)).
Definition api_AddTicketUser (r : Request) (req : AddTicketUserReq) : IO W BoolResp := with_user r (fun userID =>
  resp ← rpc (AddTicketUser (mkAddTicketUser userID (aa_RelName req) (aa_IdType req) (aa_IdNumber req)));
  mret (mapBoolResp resp)).

(** delete_ticket_user_logic.go: only what the user's list shows. *)
Definition api_DeleteTicketUser (r : Request) (id : Z) : IO W BoolResp := with_user r (fun userID =>
  ticketUsers ← rpc (ListTicketUsers userID);
  if negb (containsTicketUserID ticketUsers id) then throw (statusX Unauthenticated ErrUnauthorized)
  else
    resp ← rpc (DeleteTicketUser id);
    mret (mapBoolResp resp)).

Definition api_GetUserByID (r : Request) : IO W UserVo := with_user r (fun userID =>
  resp ← rpc (GetUserById userID); mret (mapUserVo resp)).
(** get_user_by_mobile_logic.go asks by the user's identifier, too. *)
Definition api_GetUserByMobile (r : Request) : IO W UserVo := with_user r (fun userID =>
  resp ← rpc (GetUserById userID); mret (mapUserVo resp)).
Definition api_ListTicketUsers (r : Request) : IO W (list TicketUserVo) := with_user r (fun userID =>
  resp ← rpc (ListTicketUsers userID); mret (mapTicketUserVoList resp)).
Definition api_GetUserAndTicketUserList (r : Request) : IO W (UserVo * list TicketUserVo) := with_user r (fun userID =>
  resp ← rpc (GetUserAndTicketUserList userID);
  mret (mapUserVo resp.1, mapTicketUserVoList resp.2)).

(** ** Requests on a user's own account *)

Inductive own_request :=
  | OwnUpdateUser (req : UpdateUserReq)
  | OwnUpdateMobile (mobile : string)
  | OwnUpdateEmail (email : string)
  | OwnUpdatePassword (password : string)
  | OwnAuthentication (req : AuthenticationReq)
  | OwnAddTicketUser (req : AddTicketUserReq)
  | OwnDeleteTicketUser (id : Z)
  | OwnGetUserByID
  | OwnGetUserByMobile
  | OwnListTicketUsers
  | OwnGetUserAndTicketUserList.

Inductive own_answer := AnsDone (b : BoolResp) | AnsUser (u : UserVo) | AnsViewers (l : list TicketUserVo)
  | AnsBoth (u : UserVo) (l : list TicketUserVo).

Definition done_with (m : IO W BoolResp) : IO W own_answer := b ← m; mret (AnsDone b).
Definition own_serve (r : Request) (q : own_request) : IO W own_answer :=
  match q with
  | OwnUpdateUser req => done_with (api_UpdateUser r req)
  | OwnUpdateMobile mobile => done_with (api_UpdateMobile r mobile)
  | OwnUpdateEmail email => done_with (api_UpdateEmail r email)
  | OwnUpdatePassword password => done_with (api_UpdatePassword r password)
  | OwnAuthentication req => done_with (api_Authentication r req)
  | OwnAddTicketUser req => done_with (api_AddTicketUser r req)
  | OwnDeleteTicketUser id => done_with (api_DeleteTicketUser r id)
  | OwnGetUserByID => u ← api_GetUserByID r; mret (AnsUser u)
  | OwnGetUserByMobile => u ← api_GetUserByMobile r; mret (AnsUser u)
  | OwnListTicketUsers => l ← api_ListTicketUsers r; mret (AnsViewers l)
  | OwnGetUserAndTicketUserList => x ← api_GetUserAndTicketUserList r; mret (AnsBoth x.1 x.2)
  end.

(** An answer shows one user's account only. *)
Definition shows (userID : Z) (a : own_answer) : Prop :=
  match a with
  | AnsDone _ => True
  | AnsUser u => uv_ID u = userID
  | AnsViewers l => Forall (fun v => tv_UserID v = userID) l
  | AnsBoth u l => uv_ID u = userID /\ Forall (fun v => tv_UserID v = userID) l
  end.

End logic.

(** ** What a handler leads to *)

Section triples.
Context {R : Type}.
Notation W := (userworld R).

(** From a database where [P] holds, [m] ends with [Q]. *)
Definition triple {A} (P : userdb -> Prop) (m : IO W A) (Q : result err A -> userdb -> Prop) : Prop :=
  forall e w, P (uw_db w) -> Q (m (e, w)).1 (uw_db (m (e, w)).2.2).

Lemma triple_bind {A B} P Q T (m : IO W A) (f : A -> IO W B) : triple P m Q ->
  (forall x db, Q (Err x) db -> T (Err x) db) -> (forall a, triple (Q (Ok a)) (f a) T) -> triple P (m ≫= f) T.
Proof.
  intros Hm Hx Hf e w Hw. specialize (Hm e w Hw). rewrite bind_unfold.
  destruct (m (e, w)) as [[a|x] [e1 w1]]; [by apply Hf|by apply Hx].
Qed.
Lemma triple_keeps {A} P (m : IO W A) : keeps (in_db P) m -> triple P m (fun _ => P).
Proof. intros Hm e w Hw. exact (Hm (e, w) Hw). Qed.
Lemma triple_then {A B} P T (m : IO W A) (f : A -> IO W B) : keeps (in_db P) m ->
  (forall x db, P db -> T (Err x) db) -> (forall a, triple P (f a) T) -> triple P (m ≫= f) T.
Proof. intros Hm. by apply (triple_bind P (fun _ => P)), triple_keeps. Qed.
Lemma triple_weaken {A} P P' Q Q' (m : IO W A) : triple P m Q -> (forall db, P' db -> P db) ->
  (forall r db, Q r db -> Q' r db) -> triple P' m Q'.
Proof. intros Hm HP HQ e w Hw. by apply HQ, Hm, HP. Qed.
Lemma triple_ret {A} P (a : A) Q : (forall db, P db -> Q (Ok a) db) -> triple P (mret a) Q.
Proof. intros HQ e w Hw. by apply HQ. Qed.
Lemma triple_throw {A} P x Q : (forall db, P db -> Q (Err x) db) -> triple P (throw x : IO W A) Q.
Proof. intros HQ e w Hw. by apply HQ. Qed.

(** A read tells what the database holds. *)
Lemma triple_read {A} P (m : M userdb A) : readonly m ->
  triple P (on_db (call m)) (fun r db => P db /\ forall a, r = Ok a -> (m db).1 = Ok a).
Proof.
  intros Hm e w Hw. unfold on_db, on. destruct (call m (e, uw_db w)) as [r [e1 db]] eqn:E. cbn.
  pose proof (call_readonly _ _ _ _ _ _ Hm E) as ->. split; [done|]. intros a ->. apply call_ok in E. by rewrite E.
Qed.
Lemma triple_attempt {A} P Q (m : IO W A) : triple P m Q ->
  triple P (attempt m) (fun r db => exists r', r = Ok r' /\ Q r' db).
Proof. intros Hm e w Hw. specialize (Hm e w Hw). rewrite attempt_run. eauto. Qed.
Lemma triple_map_err {A} P Q f (m : IO W A) : triple P m Q -> (forall x y db, Q (Err x) db -> Q (Err y) db) -> triple P (map_err f m) Q.
Proof.
  intros Hm Hx e w Hw. specialize (Hm e w Hw). unfold map_err. destruct (m (e, w)) as [[a|x] [e1 w1]]; [done|by eapply Hx].
Qed.

(** A call that is lost before or after the service ran. *)
Lemma triple_rpc {A} P Q (m : IO W A) : triple P m Q -> (forall x db, P db -> Q (Err x) db) ->
  (forall r x db, Q r db -> Q (Err x) db) -> triple P (rpc m) Q.
Proof.
  intros Hm Hp Hx e w Hw. unfold rpc. destruct (draw e) as [[|x|x] e1].
  - apply (triple_map_err _ _ grpc_status _ Hm (fun x y db => Hx (Err x) y db) e1 w Hw).
  - by apply Hp.
  - specialize (Hm e1 w Hw). cbn. by eapply Hx.
Qed.

Lemma triple_found P id : triple P (find_user (R := R) id) (fun r db => P db /\ forall u, r = Ok u -> user_by id db = Some u).
Proof.
  apply triple_map_err; [|by intros x y db [? _]]. eapply triple_weaken; [apply triple_read; done|done|].
  intros r db [Hp Hr]. split; [done|]. intros u ->. specialize (Hr _ eq_refl). cbn in Hr. destruct (user_by id db); cbn in Hr; congruence.
Qed.
End triples.

(** ** A user touches the own account only *)

Definition of_others {A} (owner : A -> Z) (userID : Z) (l : list A) : list A := filter (fun a => owner a <> userID) l.
Arguments of_others : simpl never.

Lemma of_others_snoc {A} (owner : A -> Z) userID l a : owner a = userID -> of_others owner userID (l ++ [a]) = of_others owner userID l.
Proof. intros Ha. unfold of_others. rewrite filter_app, filter_cons, filter_nil. destruct (decide _); [done|]. apply app_nil_r. Qed.

Lemma filter_filter_in {A} (P Q : A -> Prop) `{forall a, Decision (P a)} `{forall a, Decision (Q a)} (l : list A) :
  (forall a, a ∈ l -> P a -> Q a) -> filter P (filter Q l) = filter P l.
Proof.
  induction l as [|a l IH]; intros Hl; [done|]. rewrite (filter_cons Q). specialize (IH (fun b Hb => Hl b (list_elem_of_further _ _ _ Hb))).
  destruct (decide (Q a)) as [Hq|Hq]; rewrite !(filter_cons P), IH; [done|].
  destruct (decide (P a)) as [Hp|]; [|done]. by destruct Hq; apply Hl; [left|].
Qed.

Lemma of_others_delete {A} (id owner : A -> Z) userID l m : NoDup (map id l) -> m ∈ l -> owner m = userID ->
  of_others owner userID (filter (fun r => id r <> id m) l) = of_others owner userID l.
Proof.
  intros Hnd Hin Hm. apply filter_filter_in. intros a Ha Hown Heq. apply Hown. assert (a = m) as ->; [|done].
  apply list_elem_of_lookup in Ha as [i Hi], Hin as [j Hj]. assert (i = j) as ->; [|congruence].
  eapply (NoDup_lookup _ _ _ (id m) Hnd); rewrite list_lookup_fmap; [by rewrite Hi; cbn; f_equal|by rewrite Hj].
Qed.

Lemma of_others_update {A} (id : A -> Z) userID f l : (forall a, id a = userID -> id (f a) = userID) ->
  of_others id userID (update_rows (fun r => id r =? userID) f l) = of_others id userID l.
Proof.
  intros Hf. unfold of_others, update_rows. induction l as [|a l IH]; [done|]. cbn [map]. rewrite !filter_cons.
  destruct (Z.eqb_spec (id a) userID) as [E|E].
  - rewrite !decide_False; [done|by intros []|by intros []; apply Hf].
  - by rewrite IH.
Qed.

Section own.
Context {R : Type} `{RedisZ R} `{Jwt} `{UserPrims} `{CollationLaws} (svc : ServiceContext).
Notation W := (userworld R).

(** What belongs to the other users. *)
Definition others (userID : Z) (db : userdb) :=
  (of_others us_Id userID (users db), of_others mb_UserId userID (mobiles db),
   of_others em_UserId userID (emails db), of_others vw_UserId userID (ticket_users db)).

(** The number and the email on the user's row, where they are mapped, are the user's. *)
Definition own_contacts (userID : Z) (db : userdb) : Prop := forall u, user_by userID db = Some u ->
  (forall m, find (mobile_is (us_Mobile u)) (mobiles db) = Some m -> mb_UserId m = userID) /\
  (forall t m, us_Email u = Some t -> find (email_is t) (emails db) = Some m -> em_UserId m = userID).

Section acting.
Variables (userID : Z) (o : list DUser * list DUserMobile * list DUserEmail * list DTicketUser).

Definition apart_from_others (db : userdb) : Prop := accounts_ok db /\ others userID db = o.
Definition acting (db : userdb) : Prop := knows userID db /\ others userID db = o.

Lemma acting_apart db : acting db -> apart_from_others db.
Proof. by intros [[? _] ?]. Qed.

Lemma acting_update u : us_Id u = userID -> preserves acting (UpdateUserRow u).
Proof.
  intros Hu db [Hk Ho]. split; [by apply update_user_ok|]. rewrite <- Ho. subst userID. unfold UpdateUserRow. destruct (existsb _ _); [|done].
  destruct (user_columns u); [|done]. unfold others. cbn. by rewrite of_others_update.
Qed.
Lemma acting_insert_mobile m : mb_UserId m = userID -> preserves acting (InsertMobile m).
Proof.
  intros Hm db [Hk Ho]. split; [by apply insert_mobile_ok|]. rewrite <- Ho. unfold InsertMobile. repeat destr_if; try done.
  unfold others. cbn. by rewrite of_others_snoc.
Qed.
Lemma acting_insert_email m : em_UserId m = userID -> preserves acting (InsertEmail m).
Proof.
  intros Hm db [Hk Ho]. split; [by apply insert_email_ok|]. rewrite <- Ho. unfold InsertEmail. repeat destr_if; try done.
  unfold others. cbn. by rewrite of_others_snoc.
Qed.
Lemma acting_insert_viewer t : vw_UserId t = userID -> preserves acting (InsertTicketUser t).
Proof.
  intros Ht db [Hk Ho]. split; [by apply insert_viewer_ok|]. rewrite <- Ho. unfold InsertTicketUser. repeat destr_if; try done.
  unfold others. cbn. by rewrite of_others_snoc.
Qed.
Lemma acting_delete_mobile db m : acting db -> m ∈ mobiles db -> mb_UserId m = userID -> acting (DeleteMobile (mb_Id m) db).2.
Proof.
  intros [Hk Ho] Hin Hm. split; [by apply delete_mobile_ok|]. rewrite <- Ho. unfold others. cbn.
  destruct Hk as [[_ [? _ _] _ _] _]. by rewrite of_others_delete.
Qed.
Lemma acting_delete_email db m : acting db -> m ∈ emails db -> em_UserId m = userID -> acting (DeleteEmail (em_Id m) db).2.
Proof.
  intros [Hk Ho] Hin Hm. split; [by apply delete_email_ok|]. rewrite <- Ho. unfold others. cbn.
  destruct Hk as [[_ _ [? _ _] _] _]. by rewrite of_others_delete.
Qed.
Lemma apart_delete_viewer db t : apart_from_others db -> t ∈ ticket_users db -> vw_UserId t = userID ->
  apart_from_others (DeleteTicketUserRow (vw_Id t) db).2.
Proof.
  intros [Hk Ho] Hin Ht. split; [by apply delete_viewer_ok|]. rewrite <- Ho. unfold others. cbn.
  destruct Hk as [_ _ _ [? _ _]]. by rewrite of_others_delete.
Qed.
(** *** The handlers of user-rpc *)

Lemma acting_db {A} (m : M userdb A) : preserves acting m -> keeps (in_db acting) (on_db (R := R) (call m)).
Proof. apply keeps_in_db. Qed.
#[local] Hint Resolve acting_update acting_insert_mobile acting_insert_email acting_insert_viewer acting_db keeps_user_read keeps_user_redis : accounts.
#[local] Hint Extern 0 (readonly _) => intros ?; reflexivity : accounts.
#[local] Hint Extern 0 (_ = userID) => done : accounts.

Ltac kept :=
  repeat first
    [ solve [auto with accounts nocore]
    | apply keeps_map_err | apply keeps_attempt | apply keeps_bind; [|intros ?]
    | match goal with
      | |- keeps _ (if ?b then _ else _) => destruct b
      | |- keeps _ (match ?x with _ => _ end) => destruct x
      end ].

(** The contacts on the row [u] are the user's where they are mapped. *)
Definition contacts (u : DUser) (db : userdb) : Prop :=
  (forall m, find (mobile_is (us_Mobile u)) (mobiles db) = Some m -> mb_UserId m = userID) /\
  (forall t m, us_Email u = Some t -> find (email_is t) (emails db) = Some m -> em_UserId m = userID).
Definition before (db : userdb) : Prop := apart_from_others db /\ own_contacts userID db.
Definition found (u : DUser) (db : userdb) : Prop := acting db /\ contacts u db.

Lemma acts_once_found {A} (f : DUser -> IO W A) : (forall u, us_Id u = userID -> triple (found u) (f u) (fun _ => acting)) ->
  triple before (find_user userID ≫= f) (fun _ => apart_from_others).
Proof.
  intros Hf. eapply triple_bind; [apply triple_found|by intros x db [[? _] _]|]. intros u.
  assert (Hu : forall db, user_by userID db = Some u -> us_Id u = userID /\ userID ∈ user_ids db).
  { intros db Hu. unfold user_by in Hu. apply find_elem in Hu as [Hin Hid%Z.eqb_eq]. split; [done|]. apply list_elem_of_fmap. eauto. }
  intros e w [[[Hok Ho] Hown] Hby]. specialize (Hby u eq_refl). destruct (Hu _ Hby) as [Hid Hin].
  apply acting_apart. apply (Hf u Hid e w). split; [by split|]. by apply Hown.
Qed.
Lemma acts_found {A} u (m : IO W A) : keeps (in_db acting) m -> triple (found u) m (fun _ => acting).
Proof. intros Hm. eapply triple_weaken; [by apply triple_keeps|by intros db []|done]. Qed.

Lemma swap_acts u mobile clock : keeps (in_db (R := R) acting) clock ->
  triple (R := R) (found u) (swap_mobile userID (us_Mobile u) mobile clock) (fun _ => acting).
Proof.
  intros Hc. unfold swap_mobile. eapply triple_bind; [apply triple_attempt, triple_read; done|by intros x db (? & ? & _)|].
  intros res. assert (Hins : keeps (in_db acting) (i ← newID; t ← clock; on_db (call (InsertMobile (mkMobile i userID mobile (Some t) 1))))) by kept.
  apply (triple_bind _ (fun _ => acting)); [|done|intros _; by apply triple_keeps].
  intros e w (r & [= <-] & [Ha [Hm _]] & Hr). destruct res as [m|x]; [|by destruct Ha].
  specialize (Hr m eq_refl). cbn in Hr. destruct (find _ _) as [m'|] eqn:Ef; [|done]. injection Hr as ->.
  pose proof (Hm _ eq_refl) as Hown. apply find_elem in Ef as [Hin _]. unfold on_db, on.
  destruct (call _ _) as [q [e1 db]] eqn:Eq. pose proof (call_state (DeleteMobile (mb_Id m)) e (uw_db w)) as Hst. rewrite Eq in Hst.
  cbn in *. destruct Hst as [->| ->]; [done|]. by apply acting_delete_mobile.
Qed.

Lemma drop_acts u old : us_Email u = Some old -> triple (R := R) (found u) (drop_email old) (fun _ => acting).
Proof.
  intros Hold. unfold drop_email. eapply triple_bind; [apply triple_attempt, triple_read; done|by intros x db (? & ? & _)|].
  intros res e w (r & [= <-] & [Ha [_ Hm]] & Hr). destruct res as [m|x]; [|by destruct (err_is x ENotFound)].
  specialize (Hr m eq_refl). cbn in Hr. destruct (find _ _) as [m'|] eqn:Ef; [|done]. injection Hr as ->.
  pose proof (Hm _ _ Hold Ef) as Hown. apply find_elem in Ef as [Hin _]. unfold on_db, on.
  destruct (call _ _) as [q [e1 db]] eqn:Eq. pose proof (call_state (DeleteEmail (em_Id m)) e (uw_db w)) as Hst. rewrite Eq in Hst.
  cbn in *. destruct Hst as [->| ->]; [done|]. by apply acting_delete_email.
Qed.

Lemma free_keeps P mobile : keeps (in_db P) (mobile_free_for (R := R) userID mobile).
Proof. unfold mobile_free_for. kept. Qed.
Lemma email_free_kept P email : keeps (in_db P) (email_free_for (R := R) userID email).
Proof. unfold email_free_for. kept. Qed.

(** The change of the number, in both handlers. *)
Lemma change_acts u v mobile clock (b : bool) : keeps (in_db (R := R) acting) clock -> us_Id v = userID ->
  triple (R := R) (found u) (if b then mret v else (_ ← mobile_free_for userID mobile; _ ← swap_mobile userID (us_Mobile u) mobile clock; mret (set_mobile mobile v)))
    (fun r db => acting db /\ forall v', r = Ok v' -> us_Id v' = userID).
Proof.
  intros Hc Hv. destruct b; [apply triple_ret; intros db [? _]; split; [done|congruence]|].
  apply triple_then; [apply free_keeps|by intros x db [? _]|]. intros _.
  eapply triple_bind; [by apply swap_acts|by intros x db ?; split|]. intros ?. apply triple_ret. intros db ?. split; [done|by intros v' [= <-]].
Qed.

Lemma update_user_acts req : uq_Id req = userID -> triple (R := R) before (UpdateUser req) (fun _ => apart_from_others).
Proof.
  intros Hreq. unfold UpdateUser. rewrite Hreq. apply acts_once_found. intros u Hu. apply triple_then; [kept|by intros x db [? _]|]. intros t. cbn zeta.
  set (u1 := if uq_Gender req =? 0 then _ else _). assert (Hu1 : us_Id u1 = userID) by (unfold u1; repeat destr_if; done).
  rewrite Hu1. eapply triple_bind; [apply change_acts; [kept|done]|by intros x db [? _]|]. intros v e w [Ha Hv].
  refine (triple_keeps acting _ _ e w Ha). specialize (Hv v eq_refl). apply acting_db. by apply acting_update.
Qed.
Lemma update_mobile_acts mobile : triple (R := R) before (UpdateMobile userID mobile) (fun _ => apart_from_others).
Proof.
  apply acts_once_found. intros u Hu. rewrite Hu. eapply triple_bind; [apply change_acts; [kept|done]|by intros x db [? _]|].
  intros v e w [Ha Hv]. refine (triple_keeps acting _ _ e w Ha). specialize (Hv v eq_refl).
  apply keeps_bind; [kept|]. intros t. apply acting_db. by apply acting_update.
Qed.
Lemma update_password_acts p : triple (R := R) before (UpdatePassword userID p) (fun _ => apart_from_others).
Proof. apply acts_once_found. intros u Hu. apply acts_found. kept. Qed.
Lemma authentication_acts n i : triple (R := R) before (Authentication userID n i) (fun _ => apart_from_others).
Proof. apply acts_once_found. intros u Hu. apply acts_found. kept. Qed.
Lemma add_viewer_acts req : aq_UserId req = userID -> triple (R := R) before (UserService.AddTicketUser req) (fun _ => apart_from_others).
Proof. intros Hreq. unfold UserService.AddTicketUser. rewrite Hreq. apply acts_once_found. intros u Hu. apply acts_found. kept. Qed.
Lemma update_email_acts email : triple (R := R) before (UpdateEmail userID email) (fun _ => apart_from_others).
Proof.
  apply acts_once_found. intros u Hu. apply triple_then; [kept|by intros x db [? _]|]. intros t. cbn zeta. rewrite Hu.
  set (fresh := _ && _). apply triple_then; [destruct fresh; [apply email_free_kept|kept]|by intros x db [? _]|]. intros _.
  apply (triple_bind _ (fun _ => acting)).
  - destruct (us_Email u) as [old|] eqn:Eo; [|by apply acts_found; kept]. destruct (_ || _); [by apply acts_found; kept|by apply drop_acts].
  - done.
  - intros _. apply triple_keeps. kept.
Qed.
(** *** The reads, and what the list shows *)

Definition listed (l : list TicketUserInfo) (db : userdb) : Prop :=
  Forall (fun v => ti_UserId v = userID /\ exists t, t ∈ ticket_users db /\ vw_Id t = ti_Id v /\ vw_UserId t = userID) l.

Lemma of_user_leads P : triple (R := R) P (ticket_users_of userID)
  (fun r db => P db /\ forall l, r = Ok l -> Forall (fun t => t ∈ ticket_users db /\ vw_UserId t = userID) l).
Proof.
  eapply triple_bind; [apply triple_attempt, triple_read; done|by intros x db (? & ? & ?)|].
  intros res e w (r' & [= <-] & Hp & Hr). destruct res as [l|x].
  - split; [done|]. intros l' [= <-]. specialize (Hr l eq_refl). cbn in Hr. injection Hr as <-. apply Forall_forall. intros t Ht.
    rewrite merge_sort_Permutation in Ht. apply list_elem_of_filter in Ht as [[Hu _]%andb_prop Ht]. split; [done|]. by apply Z.eqb_eq.
  - destruct (err_is x ENotFound); (split; [done|]); [by intros l [= <-]|done].
Qed.
Lemma list_leads P : triple (R := R) P (ListTicketUsers userID) (fun r db => P db /\ forall l, r = Ok l -> listed l db).
Proof.
  eapply triple_bind; [apply of_user_leads|by intros x db [? _]|]. intros l. apply triple_ret. intros db [Hp Hl]. split; [done|].
  intros l' [= <-]. apply Forall_map. eapply Forall_impl; [by apply Hl|]. intros t [Ht Hu]. cbn. eauto.
Qed.
Lemma get_leads P : triple (R := R) P (GetUserById userID) (fun r db => P db /\ forall u, r = Ok u -> ui_Id u = userID).
Proof.
  eapply triple_bind; [apply triple_found|by intros x db [? _]|]. intros u. apply triple_ret. intros db [Hp Hu]. split; [done|].
  intros v [= <-]. specialize (Hu u eq_refl). unfold user_by in Hu. by apply find_elem in Hu as [_ ?%Z.eqb_eq].
Qed.
Lemma both_leads P : triple (R := R) P (GetUserAndTicketUserList userID)
  (fun r db => P db /\ forall x, r = Ok x -> ui_Id x.1 = userID /\ Forall (fun v => ti_UserId v = userID) x.2).
Proof.
  eapply triple_bind; [apply triple_found|by intros x db [? _]|]. intros u.
  eapply triple_bind; [apply of_user_leads|by intros x db [[? _] _]|]. intros l. apply triple_ret. intros db [[Hp Hu] Hl]. split; [done|].
  intros v [= <-]. specialize (Hu u eq_refl). unfold user_by in Hu. apply find_elem in Hu as [_ Hid%Z.eqb_eq]. split; [done|].
  apply Forall_map. eapply Forall_impl; [by apply Hl|]. by intros t [_ ?].
Qed.

(** *** The handlers of user-api *)

Definition ends (r : result err own_answer) (db : userdb) : Prop := apart_from_others db /\ forall a, r = Ok a -> shows userID a.

Lemma change_ends (r : Request) (m : Z -> IO W unit) : UserIDFromContext r = Some userID ->
  triple before (m userID) (fun _ => apart_from_others) ->
  triple before (done_with (with_user r (fun userID => resp ← rpc (m userID); mret (mapBoolResp resp)))) ends.
Proof.
  intros Hr Hm. unfold done_with, with_user, requireCurrentUserID. rewrite Hr.
  apply (triple_bind _ (fun _ => apart_from_others)); [|by split|intros b; apply triple_ret; by intros db ?; split; [|intros a [= <-]]].
  change (triple before (resp ← rpc (m userID); mret (mapBoolResp resp)) (fun _ => apart_from_others)).
  apply (triple_bind _ (fun _ => apart_from_others)); [|done|intros b; by apply triple_ret].
  apply triple_rpc; [done|by intros x db [? _]|done].
Qed.

Lemma read_ends {A B} (r : Request) (m : Z -> IO W A) (Q : A -> Prop) (g : A -> B) (f : B -> own_answer) :
  UserIDFromContext r = Some userID ->
  triple before (m userID) (fun r db => before db /\ forall a, r = Ok a -> Q a) -> (forall a, Q a -> shows userID (f (g a))) ->
  triple before (b ← with_user r (fun userID => resp ← rpc (m userID); mret (g resp)); mret (f b)) ends.
Proof.
  intros Hr Hm Hf. unfold with_user, requireCurrentUserID. rewrite Hr.
  apply (triple_bind _ (fun r db => before db /\ forall b, r = Ok b -> shows userID (f b))).
  - change (triple before (resp ← rpc (m userID); mret (g resp)) (fun r db => before db /\ forall b, r = Ok b -> shows userID (f b))).
    eapply triple_bind; [apply triple_rpc; [exact Hm|done|by intros q x db [? _]]|by intros x db [? _]|].
    intros a. apply triple_ret. intros db [Hp Ha]. split; [done|]. intros b [= <-]. by apply Hf, Ha.
  - by intros x db [[? _] _].
  - intros b. apply triple_ret. intros db [[Hp _] Hb]. split; [done|]. intros a [= <-]. by apply Hb.
Qed.

Lemma delete_ends r id : UserIDFromContext r = Some userID -> triple (R := R) before (done_with (api_DeleteTicketUser r id)) ends.
Proof.
  intros Hr. unfold done_with, api_DeleteTicketUser, with_user, requireCurrentUserID. rewrite Hr.
  apply (triple_bind _ (fun _ => apart_from_others)); [|by split|intros b; apply triple_ret; by intros db ?; split; [|intros a [= <-]]].
  match goal with |- triple _ (lift (Ok _) ≫= ?k) _ => change (triple before (k userID) (fun _ => apart_from_others)) end.
  eapply triple_bind; [apply triple_rpc; [apply list_leads|done|by intros q x db [? _]]|by intros x db [[? _] _]|].
  intros l. unfold containsTicketUserID. destruct (existsb _ l) eqn:Ein; [|by apply triple_throw; intros db [[? _] _]].
  apply (triple_bind _ (fun _ => apart_from_others)); [|done|intros b; by apply triple_ret].
  apply triple_rpc; [|by intros x db [[? _] _]|done]. intros e w [[Hp _] Hl]. specialize (Hl l eq_refl).
  apply existsb_exists in Ein as (v & Hv%list_elem_of_In & <-%Z.eqb_eq). unfold listed in Hl. rewrite Forall_forall in Hl.
  destruct (Hl _ Hv) as (_ & t & Ht & <- & Hown). unfold DeleteTicketUser, on_db, on.
  destruct (call _ _) as [q [e1 db]] eqn:Eq. pose proof (call_state (DeleteTicketUserRow (vw_Id t)) e (uw_db w)) as Hst. rewrite Eq in Hst.
  cbn in *. destruct Hst as [->| ->]; [done|]. by apply apart_delete_viewer.
Qed.
End acting.

(** C18: a request acts on its user's account only.  Provided that the number and the email
    the user's row names are mapped to that user, if at all, a handler of user-api, whatever
    fails in it, leaves the rows of every other user as they are, keeps the accounts apart
    and answers with data of its own user; one whose request carries no user changes
    nothing.  Without the proviso a change of number deletes the mapping of another user,
    and earlier faults can bring it about. *)
Theorem acts_on_own_account r q e (w : W) : accounts_ok (uw_db w) ->
  (forall userID, UserIDFromContext r = Some userID -> own_contacts userID (uw_db w)) ->
  match UserIDFromContext r with
  | Some userID => let '(res, (_, w')) := own_serve r q (e, w) in
      accounts_ok (uw_db w') /\ others userID (uw_db w') = others userID (uw_db w) /\ forall a, res = Ok a -> shows userID a
  | None => own_serve r q (e, w) = (Err (statusX Unauthenticated ErrUnauthorized), (e, w))
  end.
Proof.
  intros Hok Hown. destruct (UserIDFromContext r) as [userID|] eqn:Hr.
  2: { destruct q; cbn; cbv [mbind M_bind done_with api_UpdateUser api_UpdateMobile api_UpdateEmail api_UpdatePassword api_Authentication
         api_AddTicketUser api_DeleteTicketUser api_GetUserByID api_GetUserByMobile api_ListTicketUsers api_GetUserAndTicketUserList
         with_user lift requireCurrentUserID]; by rewrite Hr. }
  specialize (Hown userID eq_refl).
  assert (Hends : triple (R := R) (before userID (others userID (uw_db w))) (own_serve r q) (ends userID (others userID (uw_db w)))).
  { destruct q; cbn [own_serve].
    1: apply (change_ends _ _ _ (fun i => UpdateUser (mkUpdateUser i _ _ _ _))); [exact Hr|by apply update_user_acts].
    1: apply (change_ends _ _ _ (fun i => UpdateMobile i mobile)); [exact Hr|apply update_mobile_acts].
    1: apply (change_ends _ _ _ (fun i => UpdateEmail i email)); [exact Hr|apply update_email_acts].
    1: apply (change_ends _ _ _ (fun i => UpdatePassword i password)); [exact Hr|apply update_password_acts].
    1: apply (change_ends _ _ _ (fun i => Authentication i _ _)); [exact Hr|apply authentication_acts].
    1: apply (change_ends _ _ _ (fun i => UserService.AddTicketUser (mkAddTicketUser i _ _ _))); [exact Hr|by apply add_viewer_acts].
    1: by apply delete_ends.
    1,2: apply (read_ends _ _ _ (fun i => GetUserById i) (fun u => ui_Id u = userID) mapUserVo AnsUser); [exact Hr|apply get_leads|done].
    - apply (read_ends _ _ _ (fun i => ListTicketUsers i) (fun l => Forall (fun v => ti_UserId v = userID) l) mapTicketUserVoList AnsViewers);
        [exact Hr| |by intros l Hl; apply Forall_map].
      eapply triple_weaken; [apply list_leads|done|]. intros q db [Hp Hl]. split; [done|]. intros l Hq. eapply Forall_impl; [by apply Hl|]. by intros v [? _].
    - apply (read_ends _ _ _ (fun i => GetUserAndTicketUserList i) (fun x => ui_Id x.1 = userID /\ Forall (fun v => ti_UserId v = userID) x.2)
        (fun x => (mapUserVo x.1, mapTicketUserVoList x.2)) (fun x => AnsBoth x.1 x.2)); [exact Hr|apply both_leads|].
      intros x [Hu Hl]. split; [done|by apply Forall_map]. }
  specialize (Hends e w (conj (conj Hok eq_refl) Hown)). destruct (own_serve r q (e, w)) as [res [e' w']].
  destruct Hends as [[? ?] ?]. done.
Qed.
End own.
