(* ===== verification/OrderPerf.v ===== *)
(** * Creating an order, measured  (perf_create_order_logic.go, create_order_perf.go)

    The handler the load tests call: [CreateOrder] with a record of what happened and how
    long its three stages took.  The three durations are readings of the process's
    stopwatch, arguments here; the line of the log is not modelled, whether it is written
    is. *)
From Stdlib Require Import ZArith Lia Ascii String.
From stdpp Require Import base gmap list strings.
From S2P Require Import Prelude GoBase Effects Redis RushRecord RushStore PurchaseToken SeatFreeze OrderDB OrderFlow OrderCreate OrderQuery OrderEvents Gateway.
Open Scope string_scope.
Open Scope list_scope.
Open Scope Z_scope.

(** ** create_order_perf.go *)

(** Go's [codes.Code.String]. *)
Definition code_name (c : code) : string :=
  match c with
  | OKCode => "OK" | CanceledCode => "Canceled" | UnknownCode => "Unknown" | InvalidArgument => "InvalidArgument"
  | DeadlineExceeded => "DeadlineExceeded" | NotFound => "NotFound" | AlreadyExists => "AlreadyExists"
  | PermissionDenied => "PermissionDenied" | ResourceExhausted => "ResourceExhausted"
  | FailedPrecondition => "FailedPrecondition" | InternalCode => "Internal" | Unavailable => "Unavailable"
  | Unauthenticated => "Unauthenticated"
  end.
Definition grpcCodeOf (e : err) : string := code_name (status_code e).

(** [fold_case] is [strings.ToLower] on the letters the cases have. *)
Definition isEnvEnabled (value : string) : bool :=
  negb (bool_decide (trim_space (fold_case value) ∈ [""; "0"; "false"; "off"; "no"])).

Definition ShouldLogCreateOrderPerf (enableValue sampleEveryValue : string) (orderNumber : Z) : bool :=
  if negb (isEnvEnabled enableValue) then false
  else match parse_int64 sampleEveryValue with
  | None => true
  | Some sampleEvery =>
      if sampleEvery <=? 1 then true
      else if orderNumber <=? 0 then true
      else Z.rem orderNumber sampleEvery =? 0
  end.

Record createOrderPerfState := mkPerfState {
  px_orderNumber : Z; px_userID : Z; px_rejectCode : Z; px_grpcCode : string; px_reasonCode : string; px_result : string;
  px_purchaseTokenVerifyCost : duration; px_redisAdmitCost : duration; px_asyncDispatchCost : duration }.

Record PerfCreateOrderResp := mkPerfResp {
  pf_OrderNumber : Z; pf_ShowTimeId : Z; pf_Result : string; pf_ReasonCode : string; pf_RejectCode : Z; pf_GrpcCode : string;
  pf_PurchaseTokenVerifyMs : Z; pf_RedisAdmitMs : Z; pf_AsyncDispatchScheduleMs : Z }.

(** ** perf_create_order_logic.go *)

Section perf.
Context `{LocalTime} `{LocalFormat} `{TokenPrims} `{EventCodec}.
Context {P R U : Type} `{ProgramRpc P} `{PreorderRpc P} `{RedisHash R} `{UserRpc U}.
Variable cx : CreateContext.
Notation W := (front P R U).
Notation svc := (cc_svc cx).
(** What the stopwatch shows after the verification, the admission and the dispatch. *)
Variables verifyCost admitCost dispatchCost : duration.


Notation answered := (createOrderPerfState * result err (PerfCreateOrderResp * option asyncOrderCreateEvent))%type.

(** Every return leaves a state, which the deferred function may log. *)
Definition perf_refused (userID orderNumber rejectCode : Z) (e : err) (reasonCode how : string)
  (verify admission dispatch : duration) : answered :=
  (mkPerfState orderNumber userID rejectCode (grpcCodeOf e) reasonCode how verify admission dispatch, Err e).
Definition perf_taken (userID orderNumber showTimeID : Z) (reasonCode how : string) (dispatch : duration)
  (event : option asyncOrderCreateEvent) : answered :=
  (mkPerfState orderNumber userID 0 "" reasonCode how verifyCost admitCost dispatch,
   Ok (mkPerfResp orderNumber showTimeID how reasonCode 0 "" (Z.quot verifyCost millisecond) (Z.quot admitCost millisecond)
         (Z.quot dispatch millisecond), event)).

Definition PerfCreateOrder_ (userID : Z) (purchaseToken : string) : IO W answered :=
  if (userID <=? 0) || bool_decide (purchaseToken = "")
  then mret (perf_refused userID 0 0 invalidParam "request_invalid" "failed" 0 0 0)
  else match cc_PurchaseTokenCodec cx with
  | None => mret (perf_refused userID 0 0 internalStatus "rush_dependencies_missing" "failed" 0 0 0)
  | Some codec =>
      t1 ← now;
      t2 ← now;
      match Verify (Some codec) t1 t2 purchaseToken with
      | Err _ => mret (perf_refused userID 0 0 (mapOrderError (EX ErrInvalidParam)) "purchase_token_verify_failed" "failed" verifyCost 0 0)
      | Ok claims =>
          let n := pt_OrderNumber claims in
          if negb (pt_UserID claims =? userID)
          then mret (perf_refused userID n 0 (mapOrderError (EX ErrInvalidParam)) "purchase_token_user_mismatch" "failed" verifyCost 0 0)
          else if bool_decide (sv_AttemptStore svc = None) || negb (cc_producer cx)
          then mret (perf_refused userID n 0 internalStatus "rush_dependencies_missing" "failed" verifyCost 0 0)
          else
            t ← now;
            admitted ← attempt (on_orders (on_rush (Admit (sv_AttemptStore svc)
              (mkAdmitAttemptRequest n (pt_UserID claims) (pt_ProgramID claims)
                (pt_ShowTimeID claims) (pt_TicketCategoryID claims) (pt_TicketUserIDs claims) (pt_TicketCount claims)
                (time_of_unix (pt_SaleWindowEndAt claims)) (time_of_unix (pt_ShowEndAt claims)) t))));
            match admitted with
            | Err e =>
                if isUnknownResult e
                then mret (perf_taken userID n (pt_ShowTimeID claims) "admission_unknown_result" "assumed_success" 0 None)
                else mret (perf_refused userID n 0 internalStatus "admission_internal_error" "failed" verifyCost admitCost 0)
            | Ok admission =>
                if res_Decision admission =? AdmitDecisionRejected
                then mret (perf_refused userID (res_OrderNumber admission) (res_RejectCode admission)
                       (mapOrderError (mapAdmissionRejectCode (res_RejectCode admission))) "admission_rejected" "rejected" verifyCost admitCost 0)
                else if res_OrderNumber admission <=? 0
                then mret (perf_refused userID n 0 internalStatus "admission_invalid_order_number" "failed" verifyCost admitCost 0)
                else if res_Decision admission =? AdmitDecisionReused
                then mret (perf_taken userID (res_OrderNumber admission) (pt_ShowTimeID claims) "admission_reused" "reused" 0 None)
                else
                  built ← attempt (buildAttemptCreateEvent (res_OrderNumber admission) claims t);
                  match built with
                  | Err x => mret (perf_refused userID (res_OrderNumber admission) 0 (mapOrderError x) "build_attempt_create_event_failed" "failed"
                                     verifyCost admitCost dispatchCost)
                  | Ok event =>
                      mret (perf_taken userID (res_OrderNumber admission) (pt_ShowTimeID claims) "async_dispatch_scheduled" "success" dispatchCost
                        (Some (mkAsync (res_OrderNumber admission) (pt_ShowTimeID claims) (PartitionKey event) (marshal_event event) t)))
                  end
            end
      end
  end.

(** The answer, and whether the deferred function writes its line for the settings [enable]
    and [sampleEvery] of the environment.  The state always has something to log. *)
Definition PerfCreateOrder (enable sampleEvery : string) (userID : Z) (purchaseToken : string)
  : IO W (bool * result err (PerfCreateOrderResp * option asyncOrderCreateEvent)) :=
  '(state, answer) ← PerfCreateOrder_ userID purchaseToken;
  mret (ShouldLogCreateOrderPerf enable sampleEvery (px_orderNumber state), answer).

(** ** The measured handler takes the same orders *)

(** What a caller of [CreateOrder] would be told. *)
Definition plain_answer (a : answered) : result err ((Z * Z) * option asyncOrderCreateEvent) :=
  '(resp, event) ← a.2;
  Ok ((pf_OrderNumber resp, pf_ShowTimeId resp), event).

(** The state tells what the answer is. *)
Definition state_tells (a : answered) : Prop :=
  match a.2 with
  | Ok (resp, event) => px_orderNumber a.1 = pf_OrderNumber resp /\ px_result a.1 = pf_Result resp /\ px_reasonCode a.1 = pf_ReasonCode resp /\
      px_grpcCode a.1 = "" /\ (pf_Result resp = "success" <-> event <> None)
  | Err e => px_grpcCode a.1 = grpcCodeOf e /\ px_result a.1 ∈ ["failed"; "rejected"]
  end.

(** Two handlers in step. *)
Definition measures (m : IO W answered) (m' : IO W ((Z * Z) * option asyncOrderCreateEvent)) : Prop := forall es, exists a,
  m es = (Ok a, (m' es).2) /\ plain_answer a = (m' es).1 /\ state_tells a.

Lemma measures_bind {A} (m : IO W A) f f' : (forall es, is_ok (m es).1 = true) -> (forall x, measures (f x) (f' x)) -> measures (m ≫= f) (m ≫= f').
Proof.
  intros Hm Hf es. specialize (Hm es). rewrite !bind_unfold. destruct (m es) as [[x|y] es1]; [|done]. apply Hf.
Qed.
Lemma measures_attempt {A} g (m : IO W A) f f' : (forall x, measures (f (Ok x)) (f' x)) -> (forall x, measures (f (Err x)) (throw (g x))) ->
  measures (attempt m ≫= f) (map_err g m ≫= f').
Proof.
  intros Hok Herr es. rewrite !bind_unfold, attempt_run. unfold map_err. destruct (m es) as [[x|x] es1]; [apply Hok|apply Herr].
Qed.
Lemma measures_refused u n c e reason how v ad d : how ∈ ["failed"; "rejected"] ->
  measures (mret (perf_refused u n c e reason how v ad d)) (throw e).
Proof. intros Hh es. by eexists. Qed.
Lemma measures_taken u n s reason how d event : (how = "success" <-> event <> None) ->
  measures (mret (perf_taken u n s reason how d event)) (mret ((n, s), event)).
Proof. intros Hh es. by eexists. Qed.
Lemma now_total (es : env * W) : is_ok (now es).1 = true.
Proof. destruct es as [e w]. unfold now. by destruct (ticks e). Qed.
Lemma attempt_total {A} (m : IO W A) es : is_ok (attempt m es).1 = true.
Proof. by rewrite attempt_run. Qed.

(** Measuring changes nothing.  From every state and whatever fails, [PerfCreateOrder]
    answers the error [CreateOrder] would, or its order with the same event to send, and
    leaves the same state behind; what it logs tells the answer. *)
Theorem perf_is_create_order userID purchaseToken es : exists a,
  PerfCreateOrder_ userID purchaseToken es = (Ok a, (CreateOrder cx userID purchaseToken es).2) /\
  plain_answer a = (CreateOrder cx userID purchaseToken es).1 /\ state_tells a.
Proof.
  revert es. change (measures (PerfCreateOrder_ userID purchaseToken) (CreateOrder cx userID purchaseToken)).
  assert (Hfailed : "failed" ∈ ["failed"; "rejected"]) by by left.
  unfold PerfCreateOrder_, CreateOrder. destr_if; [by apply measures_refused|].
  destruct (cc_PurchaseTokenCodec cx) as [codec|]; [|by apply measures_refused].
  apply measures_bind; [apply now_total|]. intros t1. apply measures_bind; [apply now_total|]. intros t2.
  destruct (Verify _ _ _ _) as [claims|x]; [|by apply measures_refused]. cbn zeta.
  destr_if; [by apply measures_refused|]. destr_if; [by apply measures_refused|].
  apply measures_bind; [apply now_total|]. intros t. apply measures_bind; [apply attempt_total|]. intros [admission|x].
  - destr_if; [apply measures_refused; by right; left|]. destr_if; [by apply measures_refused|].
    destr_if; [by apply measures_taken|]. apply measures_attempt; [|intros x; by apply measures_refused].
    intros event. by apply measures_taken.
  - destr_if; [by apply measures_taken|by apply measures_refused].
Qed.
End perf.
