(* ===== verification/OrderApi.v ===== *)
(** * order-api  (services/order-api/internal/logic)

    The HTTP front of order-rpc.  A handler takes the user from the request's context,
    where the middleware put whom the gateway signed for, and calls order-rpc over the
    network ([rpc]): the call may be lost before or after the service ran.  The two
    handlers whose routes have no middleware take what they need from the request. *)
From Stdlib Require Import ZArith Lia Ascii String.
From stdpp Require Import base gmap list strings sorting relations.
From S2P Require Import Prelude GoBase Effects Sql Sharding OrderNumberGen Redis RushRecord RushStore PurchaseToken PayService ProgramDB RefundRule SeatFreeze OrderDB OrderRepo OrderFlow OrderCreate OrderLife ProgramService OrderAnswers OrderQuery OrderEvents OrderHandlers Gateway.
Import Slot Codec Routes.
Open Scope string_scope.
Open Scope list_scope.
Open Scope Z_scope.

(** ** types.go *)

Record CreatePurchaseTokenReq := mkApiTokenReq {
  ax_ShowTimeID : Z; ax_TicketCategoryID : Z; ax_TicketUserIds : list Z; ax_DistributionMode : string; ax_TakeTicketMode : string }.
Record CreatePurchaseTokenResp := mkApiTokenResp { ax_PurchaseToken : string }.
Record CreateOrderResp := mkApiCreateResp { ac_OrderNumber : Z; ac_ShowTimeID : Z }.
Record ListOrdersReq := mkApiListReq { ax_PageNumber : Z; ax_PageSize : Z; ax_OrderStatus : Z }.
Record OrderListInfo := mkApiListInfo {
  ol_OrderNumber : Z; ol_ProgramID : Z; ol_ShowTimeID : Z; ol_ProgramTitle : string; ol_ProgramItemPicture : string;
  ol_ProgramPlace : string; ol_ProgramShowTime : string; ol_TicketCount : Z; ol_OrderPrice : Z; ol_OrderStatus : Z;
  ol_OrderExpireTime : string; ol_CreateOrderTime : string; ol_CancelOrderTime : string }.
Record ListOrdersResp := mkApiListResp { al_PageNum : Z; al_PageSize : Z; al_TotalSize : Z; al_List : list OrderListInfo }.
Record OrderTicketInfo := mkApiTicketInfo {
  ot_TicketUserID : Z; ot_TicketUserName : string; ot_TicketUserIDNumber : string; ot_TicketCategoryID : Z;
  ot_TicketCategoryName : string; ot_TicketPrice : Z; ot_SeatID : Z; ot_SeatRow : Z; ot_SeatCol : Z; ot_SeatPrice : Z }.
Record OrderDetailInfo := mkApiDetail {
  od_OrderNumber : Z; od_ProgramID : Z; od_ShowTimeID : Z; od_ProgramTitle : string; od_ProgramItemPicture : string;
  od_ProgramPlace : string; od_ProgramShowTime : string; od_ProgramPermitChooseSeat : Z; od_UserID : Z;
  od_DistributionMode : string; od_TakeTicketMode : string; od_TicketCount : Z; od_OrderPrice : Z; od_OrderStatus : Z;
  od_FreezeToken : string; od_OrderExpireTime : string; od_CreateOrderTime : string; od_CancelOrderTime : string;
  od_OrderTicketInfoVoList : list OrderTicketInfo }.
(** Times travel as instants, as in [OrderFlow]. *)
Record PayOrderResp := mkApiPayResp {
  ap_OrderNumber : Z; ap_OrderStatus : Z; ap_PayBillNo : Z; ap_PayStatus : Z; ap_PayTime : option time }.
Record PayCheckResp := mkApiCheckResp {
  ak_OrderNumber : Z; ak_OrderStatus : Z; ak_PayBillNo : Z; ak_PayStatus : Z; ak_PayTime : option time }.
Record PollOrderResp := mkApiPollResp { ao_OrderNumber : Z; ao_OrderStatus : Z; ao_Done : bool; ao_ReasonCode : string }.
Record RefundOrderResp := mkApiRefundResp {
  rg_OrderNumber : Z; rg_OrderStatus : Z; rg_RefundAmount : Z; rg_RefundPercent : Z; rg_RefundBillNo : Z; rg_RefundTime : option time }.

(** ** mapper.go *)

(** An answer of order-rpc is a message, and so are the items of its lists. *)
Definition mapCreatePurchaseTokenResp (token : string) : CreatePurchaseTokenResp := mkApiTokenResp token.
Definition mapCreateOrderResp (r : Z * Z) : CreateOrderResp := mkApiCreateResp r.1 r.2.
Definition mapPollOrderResp (r : PollOrderProgressResp) : PollOrderResp :=
  mkApiPollResp (po_OrderNumber r) (po_OrderStatus r) (po_Done r) (po_ReasonCode r).
Definition map_list_info (i : OrderQuery.OrderListInfo) : OrderListInfo :=
  mkApiListInfo (li_OrderNumber i) (li_ProgramId i) (li_ShowTimeId i) (li_ProgramTitle i) (li_ProgramItemPicture i)
    (li_ProgramPlace i) (li_ProgramShowTime i) (li_TicketCount i) (li_OrderPrice i) (li_OrderStatus i)
    (li_OrderExpireTime i) (li_CreateOrderTime i) (li_CancelOrderTime i).
Definition mapOrderListInfoList (l : list OrderQuery.OrderListInfo) : list OrderListInfo := map map_list_info l.
Definition mapListOrdersResp (r : OrderQuery.ListOrdersResp) : ListOrdersResp :=
  mkApiListResp (lp_PageNum r) (lp_PageSize r) (lp_TotalSize r) (mapOrderListInfoList (lp_List r)).
Definition map_ticket_info (t : OrderQuery.OrderTicketInfo) : OrderTicketInfo :=
  mkApiTicketInfo (ti_TicketUserId t) (ti_TicketUserName t) (ti_TicketUserIdNumber t) (ti_TicketCategoryId t)
    (ti_TicketCategoryName t) (ti_TicketPrice t) (ti_SeatId t) (ti_SeatRow t) (ti_SeatCol t) (ti_SeatPrice t).
Definition mapOrderTicketInfoList (l : list OrderQuery.OrderTicketInfo) : list OrderTicketInfo := map map_ticket_info l.
Definition mapOrderDetailInfo (d : OrderQuery.OrderDetailInfo) : OrderDetailInfo :=
  let s := di_summary d in
  mkApiDetail (li_OrderNumber s) (li_ProgramId s) (li_ShowTimeId s) (li_ProgramTitle s) (li_ProgramItemPicture s)
    (li_ProgramPlace s) (li_ProgramShowTime s) (di_ProgramPermitChooseSeat d) (di_UserId d) (di_DistributionMode d)
    (di_TakeTicketMode d) (li_TicketCount s) (li_OrderPrice s) (li_OrderStatus s) (di_FreezeToken d)
    (li_OrderExpireTime s) (li_CreateOrderTime s) (li_CancelOrderTime s) (mapOrderTicketInfoList (di_OrderTicketInfoVoList d)).
Definition mapPayOrderResp (r : OrderFlow.PayOrderResp) : PayOrderResp :=
  mkApiPayResp (pr_OrderNumber r) (pr_OrderStatus r) (pr_PayBillNo r) (pr_PayStatus r) (pr_PayTime r).
Definition mapPayCheckResp (r : OrderFlow.PayOrderResp) : PayCheckResp :=
  mkApiCheckResp (pr_OrderNumber r) (pr_OrderStatus r) (pr_PayBillNo r) (pr_PayStatus r) (pr_PayTime r).
Definition mapRefundOrderResp (r : OrderFlow.RefundOrderResp) : RefundOrderResp :=
  mkApiRefundResp (rf_OrderNumber r) (rf_OrderStatus r) (rf_RefundAmount r) (rf_RefundPercent r) (rf_RefundBillNo r) (rf_RefundTime r).

(** ** The handlers *)

Section logic.
Context `{LocalTime} `{LocalFormat} `{TokenPrims} `{EventCodec}.
Context {P R U : Type} `{ProgramRpc P} `{PreorderRpc P} `{RedisHash R} `{UserRpc U}.
Variable cx : CreateContext.
Notation W := (front P R U).
Notation svc := (cc_svc cx).

Definition with_current_user {A} (r : Request) (f : Z -> IO W A) : IO W A :=
  userID ← lift (requireCurrentUserID r);
  f userID.

(** order-rpc's [CreateOrder] starts a goroutine that sends the event; here it runs
    before the answer is on its way. *)
Definition create_and_send (userID : Z) (purchaseToken : string) : IO W (Z * Z) :=
  '(resp, event) ← CreateOrder cx userID purchaseToken;
  _ ← (match event with Some item => dispatchOrderCreateEventAsync cx item | None => mret tt end);
  mret resp.

Definition api_CancelOrder (r : Request) (orderNumber : Z) : IO W bool := with_current_user r (fun userID =>
  _ ← rpc (on_orders (CancelOrder svc userID orderNumber)); mret true).
Definition api_CreateOrder (r : Request) (purchaseToken : string) : IO W CreateOrderResp := with_current_user r (fun userID =>
  resp ← rpc (create_and_send userID purchaseToken); mret (mapCreateOrderResp resp)).
Definition api_CreatePurchaseToken (r : Request) (req : CreatePurchaseTokenReq) : IO W CreatePurchaseTokenResp :=
  with_current_user r (fun userID =>
    resp ← rpc (CreatePurchaseToken cx (mkTokenReq userID (ax_ShowTimeID req) (ax_TicketCategoryID req)
             (ax_TicketUserIds req) (ax_DistributionMode req) (ax_TakeTicketMode req)));
    mret (mapCreatePurchaseTokenResp resp)).
Definition api_GetOrder (r : Request) (orderNumber : Z) : IO W OrderDetailInfo := with_current_user r (fun userID =>
  resp ← rpc (on_orders (GetOrder svc userID orderNumber)); mret (mapOrderDetailInfo resp)).
Definition api_ListOrders (r : Request) (req : ListOrdersReq) : IO W ListOrdersResp := with_current_user r (fun userID =>
  let pageNumber := if ax_PageNumber req <=? 0 then 1 else ax_PageNumber req in
  let pageSize := if ax_PageSize req <=? 0 then 10 else ax_PageSize req in
  resp ← rpc (on_orders (ListOrders svc (mkListReq userID (ax_OrderStatus req) pageNumber pageSize)));
  mret (mapListOrdersResp resp)).
Definition api_PayCheck (r : Request) (orderNumber : Z) : IO W PayCheckResp := with_current_user r (fun userID =>
  resp ← rpc (on_orders (PayCheck svc userID orderNumber)); mret (mapPayCheckResp resp)).
Definition api_PayOrder (r : Request) (orderNumber : Z) (subject channel : string) : IO W PayOrderResp :=
  with_current_user r (fun userID =>
    resp ← rpc (on_orders (PayOrder svc (mkPayOrderReq userID orderNumber subject channel))); mret (mapPayOrderResp resp)).
Definition api_PollOrder (r : Request) (orderNumber showTimeID : Z) : IO W PollOrderResp := with_current_user r (fun userID =>
  resp ← rpc (on_orders (PollOrderProgress svc userID showTimeID orderNumber)); mret (mapPollOrderResp resp)).
Definition api_RefundOrder (r : Request) (orderNumber : Z) (reason : string) : IO W RefundOrderResp :=
  with_current_user r (fun userID =>
    resp ← rpc (on_orders (RefundOrder svc (mkRefundOrderReq userID orderNumber reason))); mret (mapRefundOrderResp resp)).

(** *** Without the middleware *)

Definition api_AccountOrderCount (userID showTimeID : Z) : IO W Z :=
  rpc (on_orders (CountActiveTicketsByUserShowTime_ svc userID showTimeID)).
Definition api_GetOrderCache (orderNumber showTimeID : Z) : IO W string :=
  rpc (on_orders (GetOrderCache svc orderNumber showTimeID)).

(** ** Requests on a user's own orders *)

Inductive order_request :=
  | ReqToken (req : CreatePurchaseTokenReq)
  | ReqCreate (purchaseToken : string)
  | ReqPoll (orderNumber showTimeID : Z)
  | ReqGet (orderNumber : Z)
  | ReqList (req : ListOrdersReq)
  | ReqCancel (orderNumber : Z)
  | ReqPay (orderNumber : Z) (subject channel : string)
  | ReqCheck (orderNumber : Z)
  | ReqRefund (orderNumber : Z) (reason : string).

Inductive order_answer := AnsToken (t : CreatePurchaseTokenResp) | AnsCreated (c : CreateOrderResp) | AnsPoll (p : PollOrderResp)
  | AnsDetail (d : OrderDetailInfo) | AnsList (l : ListOrdersResp) | AnsCancelled (b : bool) | AnsPaid (p : PayOrderResp)
  | AnsCheck (c : PayCheckResp) | AnsRefunded (f : RefundOrderResp).

Definition answer {A} (f : A -> order_answer) (m : IO W A) : IO W order_answer := a ← m; mret (f a).
Definition serve_order (r : Request) (q : order_request) : IO W order_answer :=
  match q with
  | ReqToken req => answer AnsToken (api_CreatePurchaseToken r req)
  | ReqCreate purchaseToken => answer AnsCreated (api_CreateOrder r purchaseToken)
  | ReqPoll orderNumber showTimeID => answer AnsPoll (api_PollOrder r orderNumber showTimeID)
  | ReqGet orderNumber => answer AnsDetail (api_GetOrder r orderNumber)
  | ReqList req => answer AnsList (api_ListOrders r req)
  | ReqCancel orderNumber => answer AnsCancelled (api_CancelOrder r orderNumber)
  | ReqPay orderNumber subject channel => answer AnsPaid (api_PayOrder r orderNumber subject channel)
  | ReqCheck orderNumber => answer AnsCheck (api_PayCheck r orderNumber)
  | ReqRefund orderNumber reason => answer AnsRefunded (api_RefundOrder r orderNumber reason)
  end.
End logic.

(** ** What belongs to others *)

(** The orders of the other users, table by table. *)
Definition foreign (userID : Z) (d : gmap string shard) : gmap string (gmap string (list DOrder)) :=
  (fun sh => filter (fun o => do_UserId o <> userID) <$> s_orders sh) <$> d.

(** Order [n] is an order of [userID]. *)
Definition own_order (deps : Dependencies) (d : gmap string shard) (userID n : Z) : Prop :=
  exists o, order_now deps d n o /\ do_UserId o = userID.

Lemma filter_update_rows {A} (P : A -> Prop) `{forall a, Decision (P a)} p f (rows : list A) :
  (forall a, a ∈ rows -> p a = true -> ~ P a /\ ~ P (f a)) -> filter P (update_rows p f rows) = filter P rows.
Proof.
  unfold update_rows. induction rows as [|a rows IH]; intros Hp; [done|]. cbn [map]. rewrite !filter_cons.
  rewrite IH by (intros b Hb; apply Hp; by right). destruct (p a) eqn:Ea; [|done].
  destruct (Hp a) as [H1 H2]; [by left|done|]. by rewrite !decide_False.
Qed.

(** A transaction on an order of [userID] leaves the others' orders alone. *)
Lemma changed_foreign deps d userID n r router sh sh' : numbers_unique d -> own_order deps d userID n ->
  dep_Router deps = Some router -> routes_to router n r -> d !! r_DBKey r = Some sh -> changed n (r_TableSuffix r) sh sh' ->
  foreign userID (<[r_DBKey r := sh']> d) = foreign userID d.
Proof.
  intros Hun (o & (rt & r' & s & Hrt & Hr' & Hs & (rows & Hrows & Ho)) & Hu) Hrouter Hr Hsh Hch.
  assert (rt = router) as -> by congruence. pose proof (routes_to_fun _ _ _ _ Hr' Hr) as ->. assert (s = sh) as -> by congruence.
  unfold foreign. rewrite fmap_insert. apply insert_id. rewrite lookup_fmap, Hsh. cbn. f_equal.
  destruct Hch as [-> _|rows' row to p f Hr1 Hin Hat _ (Hp & _ & Hf) -> _]; [done|].
  assert (rows' = rows) as -> by congruence. rewrite fmap_insert, filter_update_rows; [by rewrite insert_id by by rewrite lookup_fmap, Hrows|].
  intros x Hx Hpx. apply Hp in Hpx as [Hxn _]. apply find_elem in Ho as [Hoin Hon].
  assert (x = o) as ->.
  { eapply NoDup_map_inj; [by eapply Hun|done|done|]. by rewrite (row_number _ _ Hxn), (row_number _ _ Hon). }
  destruct (Hf o) as (? & _ & ->). cbn. split; intros []; done.
Qed.

(** ** The bills of an order *)

Definition same_bills (keep : Z -> Prop) (db db' : Pay.paydb) : Prop :=
  (forall b, keep (Pay.pb_OrderNumber b) -> b ∈ Pay.pay_bills db' <-> b ∈ Pay.pay_bills db) /\
  (forall b, keep (Pay.rb_OrderNumber b) -> b ∈ Pay.refund_bills db' <-> b ∈ Pay.refund_bills db).

Lemma same_bills_add keep db0 db b : same_bills keep db0 db -> ~ keep (Pay.pb_OrderNumber b) ->
  same_bills keep db0 (Pay.mkPayDB (Pay.pay_bills db ++ [b]) (Pay.refund_bills db)).
Proof.
  intros [Hp Hr] Hb. split; [|done]. intros x Hx. cbn. rewrite elem_of_app, list_elem_of_singleton, <- (Hp x Hx).
  split; [intros [?| ->]; done|by left].
Qed.
Lemma same_bills_refund keep db0 db n t b : same_bills keep db0 db -> ~ keep n -> Pay.rb_OrderNumber b = n ->
  same_bills keep db0 (Pay.mkPayDB (map (Pay.refund_row n t) (Pay.pay_bills db)) (Pay.refund_bills db ++ [b])).
Proof.
  intros [Hp Hr] Hn Hb. split; intros x Hx; cbn.
  - rewrite <- (Hp x Hx). rewrite list_elem_of_fmap.
    assert (Hrow : forall y, Pay.pb_OrderNumber (Pay.refund_row n t y) = Pay.pb_OrderNumber y).
    { intros y. unfold Pay.refund_row. by destruct (_ && _). }
    assert (Hid : forall y, Pay.pb_OrderNumber y <> n -> Pay.refund_row n t y = y).
    { intros y Hy. unfold Pay.refund_row. destruct (Z.eqb_spec (Pay.pb_OrderNumber y) n); [done|]. by rewrite andb_false_r. }
    split; [intros (y & -> & Hy)|intros Hin].
    + rewrite Hrow in Hx. rewrite Hid by by intros <-. done.
    + exists x. split; [|done]. symmetry. apply Hid. by intros <-.
  - rewrite elem_of_app, list_elem_of_singleton, <- (Hr x Hx). split; [intros [?| ->]; [done|by rewrite Hb in Hx]|by left].
Qed.

Lemma mock_pay_apart keep db0 r : ~ keep (Pay.mp_OrderNumber r) -> keeps (same_bills keep db0) (Pay.MockPay r).
Proof.
  intros Hk. unfold Pay.MockPay. destr_if; [apply keeps_throw|]. apply keeps_bind; [apply keeps_now|]. intros t.
  apply keeps_map_err, transact_keeps. intros e db resp e' db' Hs Hrun.
  apply bind_ok in Hrun as (found & [e1 db1] & Hf & Hrun). apply attempt_ok in Hf.
  apply call_readonly in Hf; [subst db1|apply PayInv.find_pay_readonly].
  destruct found as [b|x]; [by apply ret_ok in Hrun as [_ [= _ <-]]|].
  destruct (negb (bool_decide _)); [done|]. cbn zeta in Hrun.
  apply (PayInv.ids_then_insert _ Pay.insertPayBill Pay.mapMockPayResp) in Hrun as (id & billNo & Hins & _).
  apply PayInv.insert_pay_ok in Hins as (_ & _ & ->). by apply same_bills_add.
Qed.

Lemma refund_apart keep db0 r : ~ keep (Pay.rq_OrderNumber r) -> keeps (same_bills keep db0) (Pay.Refund r).
Proof.
  intros Hk. unfold Pay.Refund. destr_if; [apply keeps_throw|]. apply keeps_bind; [apply keeps_now|]. intros t.
  apply keeps_map_err, transact_keeps. intros e db resp e' db' Hs Hrun. unfold Pay.refundTx in Hrun.
  apply bind_ok in Hrun as (found & [e1 db1] & Hf & Hrun). apply attempt_ok in Hf.
  apply call_readonly in Hf; [subst db1|apply PayInv.find_refund_readonly].
  destruct found as [b|x]; [by apply ret_ok in Hrun as [_ [= _ <-]]|].
  destruct (negb (err_is _ _)); [done|].
  apply bind_ok in Hrun as (foundPay & [e2 db2] & Hp & Hrun). apply attempt_ok in Hp.
  pose proof (call_readonly _ _ _ _ _ _ (PayInv.find_pay_readonly _) Hp) as ->.
  destruct foundPay as [payBill|x']; [|by destruct (err_is _ _)].
  apply bind_ok in Hrun as (again & [e3 db3] & Hf & Hrun). apply attempt_ok in Hf.
  apply call_readonly in Hf; [subst db3|apply PayInv.find_refund_readonly].
  destruct again as [b|x']; [by apply ret_ok in Hrun as [_ [= _ <-]]|].
  destruct (negb (err_is _ _)); [done|]. destr_if; [done|]. destr_if; [done|].
  apply bind_ok in Hrun as ([] & [e4 db4] & Hupd & Hrun). apply call_ok in Hupd as [= <-]. cbn zeta in Hrun.
  apply (PayInv.ids_then_insert _ Pay.insertRefundBill Pay.mapRefundResp) in Hrun as (id & billNo & Hins & _).
  apply PayInv.insert_refund_ok in Hins as (_ & _ & ->). cbn [Pay.pay_bills Pay.refund_bills]. by apply same_bills_refund.
Qed.

(** ** The handlers of order-rpc, for the owner *)

Section own.
Context {P R : Type} `{ProgramRpc P} `{RedisHash R} `{LocalFormat} (svc : ServiceContext).
Notation W := (orders P R).
Notation deps := (sv_deps svc).
Variables (userID : Z) (w0 : W).
Hypothesis Hun : numbers_unique (ow_dbs w0).

Definition not_own (n : Z) : Prop := ~ own_order deps (ow_dbs w0) userID n.
(** The tables are as [D] says, and no bill of another order changed. *)
Definition with_tables (D : gmap string shard -> Prop) (w : W) : Prop := D (ow_dbs w) /\ same_bills not_own (ow_pay w0) (ow_pay w).
(** Before the transaction of a handler, and after it. *)
Notation before := (with_tables (fun d => d = ow_dbs w0)).
Notation after := (with_tables (fun d => foreign userID d = foreign userID (ow_dbs w0))).

Lemma before_after w : before w -> after w.
Proof. intros [Hd Hb]. split; [by rewrite Hd|done]. Qed.

Lemma same_bills_refl keep db : same_bills keep db db.
Proof. done. Qed.

Section calls.
Variable D : gmap string shard -> Prop.
Notation K := (keeps (with_tables D)).
Lemma own_rush {A} (m : IO R A) : K (on_rush m).
Proof. intros [e w] Hw. unfold on_rush, on. cbn. by destruct (m (e, ow_rush w)) as [r [e' t]]. Qed.
Lemma own_program {A} (m : IO P A) : K (on_program m).
Proof. intros [e w] Hw. unfold on_program, on. cbn. by destruct (m (e, ow_program w)) as [r [e' t]]. Qed.
Lemma own_pay {A} (m : IO Pay.paydb A) : keeps (same_bills not_own (ow_pay w0)) m -> K (on_pay m).
Proof.
  intros Hm [e w] [Hd Hb]. specialize (Hm (e, ow_pay w) Hb). unfold on_pay, on. cbn in *.
  by destruct (m (e, ow_pay w)) as [r [e' t]].
Qed.
Lemma own_bill n : K (GetPayBill_ n).
Proof.
  apply own_pay, keeps_rpc. unfold Pay.GetPayBill. destr_if; [apply keeps_throw|].
  apply keeps_bind; [|intros []; [apply keeps_ret|destr_if; apply keeps_throw]].
  apply keeps_attempt, keeps_call. intros db Hdb. by rewrite PayInv.find_any_readonly.
Qed.
Lemma own_must_bill n : K (mustGetPayBillForOrder n).
Proof. apply keeps_map_err, own_bill. Qed.
Lemma own_refund r : own_order deps (ow_dbs w0) userID (Pay.rq_OrderNumber r) -> K (Refund_ r).
Proof. intros Hn. apply own_pay, keeps_rpc, refund_apart. by intros Hk. Qed.
Lemma own_reads {A} (m : IO (gmap string shard) A) : (forall d, keeps (eq d) m) -> K (on_dbs m).
Proof.
  intros Hm [e w] Hw. unfold on_dbs, on. cbn. specialize (Hm (ow_dbs w) (e, ow_dbs w) eq_refl).
  destruct (m (e, ow_dbs w)) as [r [e' d]]. cbn in *. by subst d.
Qed.
Lemma own_lock n : K (lockOrderStatusGuard svc n).
Proof. unfold lockOrderStatusGuard. destr_if; [|apply keeps_ret]. apply keeps_map_err, keeps_call. by intros w Hw. Qed.
Lemma own_snapshot n : K (loadOrderSnapshot svc n).
Proof. apply own_reads. intros d. apply transact_keeps_order. intros suffix sh. apply lock_row_keeps. Qed.
Lemma own_owned u n : K (findOwnedOrder svc u n).
Proof.
  apply keeps_bind; [apply keeps_map_err, own_reads; intros d; apply find_order_reads|].
  intros o. destr_if; [apply keeps_throw|apply keeps_ret].
Qed.
Lemma own_tickets n : K (on_dbs (FindOrderTicketsByNumber deps n)).
Proof. apply own_reads. intros d. apply find_tickets_reads. Qed.
End calls.
#[local] Hint Resolve own_rush own_program own_bill own_must_bill own_lock own_snapshot own_owned own_tickets own_refund keeps_map_err : own.

Ltac calls :=
  repeat first
    [ solve [eauto with own nocore]
    | apply keeps_ret | apply keeps_throw | apply keeps_now | apply keeps_lift
    | apply keeps_map_err | apply keeps_attempt
    | apply keeps_bind; [|intros ?]
    | destr_if
    | match goal with |- keeps _ (match ?x with _ => _ end) => destruct x end ].

Lemma own_sync D o : keeps (with_tables D) (sync_closed svc o).
Proof. unfold sync_closed, syncClosedRushAttempt. calls. Qed.
#[local] Hint Resolve own_sync : own.

Lemma own_transact {A} n (fn : string -> IO shard A) : own_order deps (ow_dbs w0) userID n ->
  (forall suffix e sh a e' sh', fn suffix (e, sh) = (Ok a, (e', sh')) -> changed n suffix sh sh') ->
  leads before after (transactOrder svc n fn).
Proof.
  intros Hn Hfn [e w] [Hd Hb]. cbn [snd] in *. unfold transactOrder, on_dbs, on.
  pose proof (order_transact deps n fn e (ow_dbs w)) as Ht. cbv zeta in Ht.
  destruct (TransactByOrderNumber deps n fn (e, ow_dbs w)) as [res [e' d']]. cbn in *. split; [|done]. cbn.
  destruct Ht as [->|(router & r & sh & sh' & e1 & a & e2 & Hrt & Hr & Hsh & Hrun & -> & _)]; [by rewrite Hd|].
  rewrite Hd in *. eapply changed_foreign; [done|done|done|done|done|by eapply Hfn].
Qed.

Lemma page_reads u st pn ps d : keeps (eq d) (FindOrderPageByUser deps u st pn ps).
Proof.
  apply keeps_bind; [apply keeps_route_user|]. intros r. apply keeps_at_shard. intros sh.
  apply keeps_bind; [by apply keeps_readonly, order_table_readonly|]. intros n. destr_if; [apply keeps_ret|].
  apply keeps_bind; [|intros ?; apply keeps_ret]. by apply keeps_readonly, order_table_readonly.
Qed.
Lemma own_find n D : keeps (with_tables D) (on_dbs (FindOrderByNumber deps n)).
Proof. apply own_reads. intros d. apply find_order_reads. Qed.
Lemma own_page u st pn ps D : keeps (with_tables D) (on_dbs (FindOrderPageByUser deps u st pn ps)).
Proof. apply own_reads. intros d. apply page_reads. Qed.
#[local] Hint Resolve own_find own_page : own.
Lemma own_get u n : keeps before (GetOrder svc u n).
Proof. unfold GetOrder. calls. Qed.
Lemma own_list r : keeps before (ListOrders svc r).
Proof. unfold ListOrders. calls. Qed.
Lemma own_poll u st n : keeps before (PollOrderProgress svc u st n).
Proof. unfold PollOrderProgress, projectOrderProgress, projectOrderProgressFromDB. calls. Qed.

Lemma own_found {A B} (m : IO W A) (f : A -> IO W B) : keeps before m ->
  (forall a e w e' w', ow_dbs w = ow_dbs w0 -> m (e, w) = (Ok a, (e', w')) -> leads before after (f a)) ->
  leads before after (m ≫= f).
Proof.
  intros Hm Hf [e w] Hw. rewrite bind_unfold. specialize (Hm (e, w) Hw).
  destruct (m (e, w)) as [[a|x] [e' w']] eqn:E; [|by apply before_after]. apply (Hf a e w e' w'); [apply Hw|done|done].
Qed.
Lemma own_keeps {A} (m : IO W A) : keeps before m -> leads before after m.
Proof. apply leads_keeps, before_after. Qed.
Lemma own_then {A B} (m : IO W A) (f : A -> IO W B) : keeps before m -> (forall a, leads before after (f a)) -> leads before after (m ≫= f).
Proof. intros Hm Hf. apply own_found; [done|]. intros. apply Hf. Qed.
Lemma own_map_err {A} g (m : IO W A) : leads before after m -> leads before after (map_err g m).
Proof. intros Hm [e w] Hw. specialize (Hm (e, w) Hw). unfold map_err. by destruct (m (e, w)) as [[a|x] [e' w']]. Qed.
Lemma own_rpc {A} (m : IO W A) : leads before after m -> leads before after (rpc m).
Proof.
  intros Hm [e w] Hw. unfold rpc. destruct (draw e) as [[|x|x] e1]; [|by apply before_after|by apply (Hm (e1, w))].
  by apply (own_map_err grpc_status m Hm (e1, w)).
Qed.

Lemma own_now d n o : order_now deps d n o -> d = ow_dbs w0 -> do_UserId o = userID ->
  own_order deps (ow_dbs w0) userID (do_OrderNumber o).
Proof. intros Ho -> Hu. exists o. by rewrite (order_now_number _ _ _ _ Ho). Qed.

Lemma own_cancel n : leads before after (CancelOrder svc userID n).
Proof.
  unfold CancelOrder. destr_if; [apply own_keeps; calls|]. apply own_map_err, leads_then; [|intros ?; apply keeps_ret].
  unfold cancelOrderWithLock. destr_if; [apply own_keeps; calls|]. apply own_then; [calls|]. intros ?.
  apply own_found; [calls|]. intros o e w e' w' Hw [_ Ho]%snapshot_ok. destr_if; [apply own_keeps; calls|].
  cbn [andb] in *. apply negb_false_iff, Z.eqb_eq in Heqb1. pose proof (own_now _ _ _ Ho Hw Heqb1) as Hn.
  destr_if; [apply own_keeps; apply keeps_bind; [apply (own_sync (fun d => d = _))|intros _; apply keeps_ret]|].
  destr_if; [apply own_keeps; calls|]. apply own_then; [unfold ReleaseSeatFreeze_; calls|]. intros ?.
  apply leads_then; [apply own_transact; [done|intros *; apply cancelTx_changed]|]. intros c.
  apply keeps_bind; [|intros _; apply keeps_ret]. destr_if; [apply own_sync|apply keeps_ret].
Qed.

Lemma own_pay_order r : py_UserId r = userID -> leads before after (PayOrder svc r).
Proof.
  intros Hr. unfold PayOrder. destr_if; [apply own_keeps; calls|]. apply own_map_err. apply own_then; [calls|]. intros ?.
  apply own_found; [calls|]. intros o e w e' w' Hw [_ Ho]%snapshot_ok. destr_if; [apply own_keeps; calls|].
  apply negb_false_iff, Z.eqb_eq in Heqb0. rewrite Hr in Heqb0. pose proof (own_now _ _ _ Ho Hw Heqb0) as Hn.
  destr_if; [apply own_keeps; calls|]. destr_if; [apply own_keeps; calls|]. apply own_then; [calls|]. intros t.
  destr_if; [apply own_keeps; calls|]. cbn zeta.
  apply own_then; [apply own_pay, keeps_rpc, mock_pay_apart; by intros Hk|]. intros mock.
  apply own_then; [calls|]. intros ?. apply own_then; [unfold answered_time; calls|]. intros t'.
  apply leads_then; [apply own_transact; [done|intros *; apply payTx_changed]|]. intros ?. apply keeps_ret.
Qed.

Lemma own_converge n : own_order deps (ow_dbs w0) userID n -> leads before after (convergeOrderRefunded svc n).
Proof. intros Hn. apply own_transact; [done|]. intros *. apply refundedTx_changed. Qed.

Lemma own_pay_check n : leads before after (PayCheck svc userID n).
Proof.
  unfold PayCheck. destr_if; [apply own_keeps; calls|]. apply own_map_err.
  apply own_found; [calls|]. intros o e w e' w' Hw (_ & Ho & Hu)%owned_ok. pose proof (own_now _ _ _ Ho Hw Hu) as Hn. cbn zeta.
  destr_if; [apply own_keeps; calls|]. destr_if; [|apply own_keeps; calls].
  apply own_then; [calls|]. intros [bill|x]; [|apply own_keeps; calls]. destr_if.
  - apply own_then; [by apply own_refund|]. intros resp. apply leads_then; [by apply own_converge|]. intros ?. apply keeps_ret.
  - destr_if; [|apply own_keeps; calls]. apply leads_then; [by apply own_converge|]. intros ?. apply keeps_ret.
Qed.

Lemma own_refund_order r : ro_UserId r = userID -> leads before after (RefundOrder svc r).
Proof.
  intros Hr. unfold RefundOrder. destr_if; [apply own_keeps; calls|]. apply own_map_err.
  apply own_found; [calls|]. intros o e w e' w' Hw (_ & Ho & Hu)%owned_ok. rewrite Hr in Hu. pose proof (own_now _ _ _ Ho Hw Hu) as Hn.
  apply own_then; [calls|]. intros tickets.
  destr_if; [apply own_keeps; apply keeps_bind; [by apply own_refund|intros ?; apply keeps_ret]|].
  destr_if; [apply own_keeps; calls|]. apply own_then; [calls|]. intros bill. apply own_then.
  { unfold refundOrReuse. destr_if; [apply keeps_bind; [by apply own_refund|intros ?; apply keeps_ret]|].
    destr_if; [apply keeps_throw|]. apply keeps_bind; [calls|]. intros rule. destr_if; [apply keeps_throw|].
    apply keeps_bind; [by apply own_refund|]. intros ?. apply keeps_ret. }
  intros [resp percent]. apply own_then; [unfold release_sold; calls|]. intros ?.
  apply leads_then; [by apply own_converge|]. intros ?. apply keeps_ret.
Qed.

(** *** What the answers show *)

Lemma pay_order_own r e (w : W) resp es : PayOrder svc r (e, w) = (Ok resp, es) ->
  own_order deps (ow_dbs w) (py_UserId r) (pr_OrderNumber resp).
Proof.
  intros Hrun. unfold PayOrder in Hrun. destr_if; [done|]. destruct es as [e' w']. apply map_err_ok in Hrun.
  apply bind_ok in Hrun as (u & [e1 w1] & ->%lock_ok & Hrun). apply bind_ok in Hrun as (o & [e2 w2] & [-> Ho]%snapshot_ok & Hrun).
  destr_if; [done|]. apply negb_false_iff, Z.eqb_eq in Heqb0. rewrite (order_now_number _ _ _ _ Ho) in Hrun.
  assert (Hown : own_order deps (ow_dbs w) (py_UserId r) (py_OrderNumber r)) by (by exists o).
  destr_if. { by apply bind_ok in Hrun as (b & [e3 w3] & _ & [<- _]%ret_ok). }
  destr_if; [done|]. apply bind_ok in Hrun as (t & [e3 w3] & _ & Hrun). destr_if; [done|]. cbn zeta in Hrun.
  apply bind_ok in Hrun as (m & es4 & _ & Hrun). apply bind_ok in Hrun as (v & es5 & _ & Hrun).
  apply bind_ok in Hrun as (t' & es6 & _ & Hrun). by apply bind_ok in Hrun as (v' & es7 & _ & [<- _]%ret_ok).
Qed.
Lemma pay_check_own u n e (w : W) resp es : PayCheck svc u n (e, w) = (Ok resp, es) ->
  own_order deps (ow_dbs w) u (pr_OrderNumber resp).
Proof.
  intros Hrun. unfold PayCheck in Hrun. destr_if; [done|]. destruct es as [e' w']. apply map_err_ok in Hrun.
  apply bind_ok in Hrun as (o & [e1 w1] & (-> & Ho & Hu)%owned_ok & Hrun). cbn zeta in Hrun.
  assert (Hown : own_order deps (ow_dbs w) u (do_OrderNumber o)) by (rewrite (order_now_number _ _ _ _ Ho); by exists o).
  destr_if; [by apply ret_ok in Hrun as [<- _]|].
  destr_if; [|by apply bind_ok in Hrun as (b & es2 & _ & [<- _]%ret_ok)].
  apply bind_ok in Hrun as ([bill|x] & es2 & _ & Hrun); [|destr_if; [by apply ret_ok in Hrun as [<- _]|done]].
  destr_if. { apply bind_ok in Hrun as (b & es3 & _ & Hrun). by apply bind_ok in Hrun as (c & es4 & _ & [<- _]%ret_ok). }
  destr_if; [by apply bind_ok in Hrun as (c & es4 & _ & [<- _]%ret_ok)|by apply ret_ok in Hrun as [<- _]].
Qed.
Lemma refund_order_own r e (w : W) resp es : RefundOrder svc r (e, w) = (Ok resp, es) ->
  own_order deps (ow_dbs w) (ro_UserId r) (rf_OrderNumber resp).
Proof.
  intros Hrun. unfold RefundOrder in Hrun. destr_if; [done|]. destruct es as [e' w']. apply map_err_ok in Hrun.
  apply bind_ok in Hrun as (o & [e1 w1] & (-> & Ho & Hu)%owned_ok & Hrun).
  assert (Hown : own_order deps (ow_dbs w) (ro_UserId r) (do_OrderNumber o)) by (rewrite (order_now_number _ _ _ _ Ho); by exists o).
  apply bind_ok in Hrun as (ts & es2 & _ & Hrun).
  destr_if; [by apply bind_ok in Hrun as (b & es3 & _ & [<- _]%ret_ok)|]. destr_if; [done|].
  apply bind_ok in Hrun as (bill & es3 & _ & Hrun). apply bind_ok in Hrun as ([resp' percent] & es4 & _ & Hrun).
  apply bind_ok in Hrun as (v & es5 & _ & Hrun). by apply bind_ok in Hrun as (v' & es6 & _ & [<- _]%ret_ok).
Qed.

Lemma cancel_own u n e (w : W) v es : CancelOrder svc u n (e, w) = (Ok v, es) -> own_order deps (ow_dbs w) u n.
Proof.
  intros Hrun. unfold CancelOrder in Hrun. destr_if; [done|]. destruct es as [e' w']. apply map_err_ok in Hrun.
  apply bind_ok in Hrun as (c & [e1 w1] & Hrun & _). unfold cancelOrderWithLock in Hrun. destr_if; [done|].
  apply bind_ok in Hrun as (l & [e2 w2] & ->%lock_ok & Hrun). apply bind_ok in Hrun as (o & [e3 w3] & [-> Ho]%snapshot_ok & Hrun).
  cbn [andb] in Hrun. destr_if; [done|]. bool_norm. by exists o.
Qed.

(** Whom a progress is shown to: the user it names, if it names one. *)
Definition may_see (u named : Z) : Prop := named = u \/ named <= 0.

(** The progress of order [n] as the rush store has it; if it does not know the order, as
    the order tables have it; if they do not either, as failed. *)
Definition own_progress (w : W) (u st n : Z) (p : PollOrderProgressResp) : Prop :=
  (exists e record es, GetByShowTimeAndOrderNumber (sv_AttemptStore svc) st n (e, ow_rush w) = (Ok record, es) /\
     may_see u (ar_UserID record) /\ po_OrderNumber p = ar_OrderNumber record) \/
  (exists o, order_now deps (ow_dbs w) n o /\ may_see u (do_UserId o) /\ p = mkPollResp n PollOrderStatusSuccess true "") \/
  p = mkPollResp n PollOrderStatusFailed true "".

Lemma poll_own u st n e (w : W) p es : PollOrderProgress svc u st n (e, w) = (Ok p, es) -> own_progress w u st n p.
Proof.
  intros Hrun. unfold PollOrderProgress in Hrun. destr_if; [done|]. destruct (sv_AttemptStore svc) as [store|] eqn:Es; [|done].
  destruct es as [e' w']. apply bind_ok in Hrun as (t & [e1 w1] & Ht & Hrun). apply now_state in Ht as [-> _].
  apply bind_ok in Hrun as (pj & [e2 w2] & Hpj & Hrun). apply map_err_ok in Hpj.
  assert (Hu : may_see u (pj_UserID pj) /\ p = mkPollResp (pj_OrderNumber pj) (pj_OrderStatus pj) (pj_Done pj) (pj_ReasonCode pj)).
  { revert Hrun. destr_if; [done|]. intros [<- _]%ret_ok. split; [|done]. unfold may_see.
    destruct (Z.ltb_spec 0 (pj_UserID pj)); [|by right]. cbn in Heqb0. bool_norm. by left. }
  destruct Hu as [Hu ->]. clear Hrun. unfold projectOrderProgress in Hpj. destr_if; [done|]. rewrite Es in Hpj.
  apply bind_ok in Hpj as (found & [e3 w3] & Hf & Hpj). apply attempt_ok in Hf. unfold own_progress. rewrite Es.
  unfold on_rush, on in Hf. destruct (GetByShowTimeAndOrderNumber (Some store) st n (e1, ow_rush w)) as [r [e4 t4]] eqn:Eg.
  injection Hf as -> <- <-. destruct found as [record|x].
  - left. exists e1, record, (e4, t4). destruct (MapAttemptRecordToPoll (Some record)) as [[st' done']|]; [|done].
    apply ret_ok in Hpj as [<- _]. done.
  - destr_if; [done|]. right. unfold projectOrderProgressFromDB in Hpj. apply bind_ok in Hpj as (found & [e5 w5] & Hf & Hpj).
    apply attempt_ok in Hf. destruct found as [o|y].
    + left. apply on_dbs_ok in Hf as (d & [_ Ho]%find_order_ok & _). apply ret_ok in Hpj as [<- _]. by exists o.
    + right. revert Hpj. destr_if; [|done]. by intros [<- _]%ret_ok.
Qed.

(** A row of [userID] in some order table. *)
Definition own_row (d : gmap string shard) (u : Z) (o : DOrder) : Prop :=
  exists key sh suffix, d !! key = Some sh /\ in_table sh suffix o /\ do_UserId o = u.

Lemma page_own u st pn ps e d rows total es : FindOrderPageByUser deps u st pn ps (e, d) = (Ok (rows, total), es) ->
  Forall (own_row d u) rows.
Proof.
  destruct es as [e' d']. intros (route & [e1 d1] & Hr & Hrun)%bind_ok.
  assert (d1 = d) as ->. { pose proof (keeps_route_user (eq d) deps u (e, d) eq_refl) as Hk. by rewrite Hr in Hk. }
  unfold at_shard in Hrun. destruct (d !! r_DBKey route) as [sh|] eqn:Esh; [|done].
  match type of Hrun with (let '(_, _) := ?m in _) = _ => destruct m as [res [e2 sh']] eqn:E end. injection Hrun as -> _ _.
  apply bind_ok in E as (n & [e3 s3] & Hn & E).
  pose proof (call_readonly _ _ _ _ _ _ (order_table_readonly _ (count_orders _) (fun _ => eq_refl)) Hn) as ->.
  destr_if; [by apply ret_ok in E as [[= <- _] _]|].
  apply bind_ok in E as (page & [e4 s4] & Hp & E). apply ret_ok in E as [[= <- _] _]. apply call_ok, on_order_table_ok in Hp as (l & l' & Hl & Hp & _).
  unfold order_page, limit_offset in Hp. destr_if; [done|]. injection Hp as <- _. apply Forall_take, Forall_drop, Forall_forall.
  intros o Ho. rewrite merge_sort_Permutation in Ho. apply list_elem_of_filter in Ho as [Hf Ho].
  exists (r_DBKey route), sh, (r_TableSuffix route). split_and!; [done|by exists l|].
  unfold by_user_status in Hf. by bool_norm.
Qed.
End own.

(** ** A request acts on the orders of its user *)

Section api.
Context `{LocalTime} `{LocalFormat} `{TokenPrims} `{EventCodec}.
Context {P R U : Type} `{ProgramRpc P} `{PreorderRpc P} `{RedisHash R} `{UserRpc U} (cx : CreateContext).
Notation W := (front P R U).
Notation svc := (cc_svc cx).
Notation deps := (sv_deps svc).

(** What the request was about, and the answer that belongs to one user: a token of that
    user's claims, an order admitted by such a token, the progress of an order, a cancelled
    order, and orders and their rows. *)
Definition shows_own (w : orders P R) (userID : Z) (q : order_request) (a : order_answer) : Prop :=
  let d := ow_dbs w in
  match q, a with
  | ReqToken _, AnsToken t => exists now claims, Issue (cc_PurchaseTokenCodec cx) now claims = Ok (ax_PurchaseToken t) /\ pt_UserID claims = userID
  | ReqCreate token, AnsCreated c => exists t1 t2 claims, Verify (cc_PurchaseTokenCodec cx) t1 t2 token = Ok claims /\
      pt_UserID claims = userID /\ ac_ShowTimeID c = pt_ShowTimeID claims
  | ReqPoll n showTimeID, AnsPoll p => exists x, p = mapPollOrderResp x /\ own_progress svc w userID showTimeID n x
  | ReqCancel n, AnsCancelled _ => own_order deps d userID n
  | ReqGet n, AnsDetail x => exists o tickets, order_now deps d n o /\ do_UserId o = userID /\ x = mapOrderDetailInfo (mapOrderDetail o tickets)
  | ReqList _, AnsList l => Forall (fun i => exists o, own_row d userID o /\ i = map_list_info (mapOrderSummary o)) (al_List l)
  | ReqPay _ _ _, AnsPaid p => own_order deps d userID (ap_OrderNumber p)
  | ReqCheck _, AnsCheck c => own_order deps d userID (ak_OrderNumber c)
  | ReqRefund _ _, AnsRefunded f => own_order deps d userID (rg_OrderNumber f)
  | _, _ => False
  end.

Section served.
Variables (userID : Z) (w0 : orders P R).
Notation before := (fun w : W => with_tables svc userID w0 (fun d => d = ow_dbs w0) (fr_orders w)).
Notation after := (fun w : W => with_tables svc userID w0 (fun d => foreign userID d = foreign userID (ow_dbs w0)) (fr_orders w)).

Lemma front_after (w : W) : before w -> after w.
Proof. apply before_after. Qed.
Lemma front_orders {A} (m : IO (orders P R) A) : keeps (with_tables svc userID w0 (fun d => d = ow_dbs w0)) m -> keeps before (on_orders m).
Proof. intros Hm [e w] Hw. specialize (Hm (e, fr_orders w) Hw). unfold on_orders, on. cbn. by destruct (m _) as [r [e' o]]. Qed.
Lemma front_users {A} (m : IO U A) : keeps before (on_users m).
Proof. intros [e w] Hw. unfold on_users, on. cbn. by destruct (m _) as [r [e' o]]. Qed.
Lemma front_topic {A} (m : IO (list (string * string)) A) : keeps before (on_topic m).
Proof. intros [e w] Hw. unfold on_topic, on. cbn. by destruct (m _) as [r [e' o]]. Qed.
Lemma front_generator {A} (m : IO orderNumberGenerator A) : keeps before (on_generator m).
Proof. intros [e w] Hw. unfold on_generator, on. cbn. by destruct (m _) as [r [e' o]]. Qed.
Lemma front_program {A} (m : IO P A) : keeps before (on_orders (on_program m)).
Proof. apply front_orders, own_program. Qed.
Lemma front_rush {A} (m : IO R A) : keeps before (on_orders (on_rush m)).
Proof. apply front_orders, own_rush. Qed.
Lemma front_reads {A} (m : IO (gmap string shard) A) : (forall d, keeps (eq d) m) -> keeps before (on_orders (on_dbs m)).
Proof. intros Hm. by apply front_orders, own_reads. Qed.
Lemma count_reads u st d : keeps (eq d) (CountActiveTicketsByUserShowTime deps u st).
Proof.
  apply keeps_bind; [apply keeps_route_user|]. intros r. apply keeps_at_shard. intros sh. by apply keeps_readonly, order_table_readonly.
Qed.
#[local] Hint Resolve front_users front_topic front_generator front_program front_rush : front.

Ltac fronts :=
  repeat first
    [ solve [eauto with front nocore]
    | apply keeps_ret | apply keeps_throw | apply keeps_now | apply keeps_lift | apply keeps_newID
    | apply keeps_map_err | apply keeps_attempt | apply keeps_rpc
    | apply keeps_bind; [|intros ?]
    | destr_if
    | match goal with |- keeps _ (match ?x with _ => _ end) => destruct x end ].

Lemma front_limit r limit n : keeps before (check_account_limit cx r limit n).
Proof.
  unfold check_account_limit. destr_if; [apply keeps_ret|]. apply keeps_bind; [|intros c; destr_if; fronts].
  apply front_orders, keeps_map_err, own_reads, count_reads.
Qed.
#[local] Hint Resolve front_limit : front.
Lemma front_token r : keeps before (CreatePurchaseToken cx r).
Proof. unfold CreatePurchaseToken, GetProgramPreorder_, GetUserAndTicketUserList_. fronts. Qed.
Lemma front_dispatch item : keeps before (dispatchOrderCreateEventAsync cx item).
Proof. unfold dispatchOrderCreateEventAsync, failPendingAttemptAfterAsyncSendError. fronts. Qed.
#[local] Hint Resolve front_dispatch : front.
Lemma front_create u token : keeps before (create_and_send cx u token).
Proof. unfold create_and_send, CreateOrder, buildAttemptCreateEvent. fronts. Qed.

Lemma orders_leads {A} (m : IO (orders P R) A) :
  leads (with_tables svc userID w0 (fun d => d = ow_dbs w0)) (with_tables svc userID w0 (fun d => foreign userID d = foreign userID (ow_dbs w0))) m ->
  leads before after (on_orders m).
Proof. intros Hm [e w] Hw. specialize (Hm (e, fr_orders w) Hw). unfold on_orders, on. cbn. by destruct (m _) as [r [e' o]]. Qed.
Lemma reads_lead {A} (m : IO W A) : keeps before m -> leads before after m.
Proof. apply leads_keeps, front_after. Qed.
Lemma answer_leads {A B} (f : B -> order_answer) (h : A -> B) (m : IO W A) :
  leads before after m -> leads before after (answer f (a ← rpc m; mret (h a))).
Proof.
  intros Hm. apply leads_then; [|intros a; apply keeps_ret]. apply leads_then; [|intros a; apply keeps_ret].
  intros [e w] Hw. unfold rpc. destruct (draw e) as [[|x|x] e1]; [|by apply front_after|by apply (Hm (e1, w))].
  specialize (Hm (e1, w) Hw). unfold map_err. by destruct (m (e1, w)) as [[a|x] [e' w']].
Qed.
Lemma serve_leads r q : UserIDFromContext r = Some userID -> numbers_unique (ow_dbs w0) -> leads before after (serve_order cx r q).
Proof.
  intros Hr Hun. assert (Hwith : forall A (f : A -> order_answer) (g : Z -> IO W A), leads before after (answer f (g userID)) ->
    leads before after (answer f (with_current_user r g))).
  { intros A f g Hg es Hes. unfold with_current_user, requireCurrentUserID, answer. rewrite Hr. by apply (Hg es). }
  destruct q; cbn [serve_order]; apply Hwith, answer_leads.
  - apply reads_lead, front_token.
  - apply reads_lead, front_create.
  - apply reads_lead, front_orders, own_poll.
  - apply reads_lead, front_orders, own_get.
  - apply reads_lead, front_orders, own_list.
  - by apply orders_leads, own_cancel.
  - by apply orders_leads, own_pay_order.
  - by apply orders_leads, own_pay_check.
  - by apply orders_leads, own_refund_order.
Qed.
End served.

(** What an accepted request answers. *)
Lemma answered {A B} (f : B -> order_answer) (h : A -> B) r (g : Z -> IO W A) userID e (w : W) a es :
  UserIDFromContext r = Some userID ->
  answer f (with_current_user r (fun u => x ← rpc (g u); mret (h x))) (e, w) = (Ok a, es) ->
  exists x e1 es', g userID (e1, w) = (Ok x, es') /\ a = f (h x).
Proof.
  intros Hr Hrun. destruct es as [e' w']. apply bind_ok in Hrun as (b & [e1 w1] & Hb & [<- _]%ret_ok).
  unfold with_current_user, requireCurrentUserID in Hb. rewrite Hr in Hb.
  apply bind_ok in Hb as (u & [e2 w2] & [= <- <- <-] & Hb). apply bind_ok in Hb as (x & [e3 w3] & Hx & [<- _]%ret_ok).
  apply rpc_ok in Hx as [e4 Hx]. eauto.
Qed.
Lemma answer_ok {A B} (f : B -> order_answer) (h : A -> B) r (g : Z -> IO (orders P R) A) userID e (w : W) a es :
  UserIDFromContext r = Some userID ->
  answer f (with_current_user r (fun u => x ← rpc (on_orders (g u)); mret (h x))) (e, w) = (Ok a, es) ->
  exists x e1 es', g userID (e1, fr_orders w) = (Ok x, es') /\ a = f (h x).
Proof.
  intros Hr Hrun. apply (answered _ _ _ (fun u => on_orders (g u)) _ _ _ _ _ Hr) in Hrun as (x & e1 & [e2 w2] & Hx & ->).
  apply on_ok in Hx as (o & Hx & _). eauto.
Qed.

Lemma token_own r e (w : W) token es : CreatePurchaseToken cx r (e, w) = (Ok token, es) ->
  exists now claims, Issue (cc_PurchaseTokenCodec cx) now claims = Ok token /\ pt_UserID claims = tq_UserId r.
Proof.
  unfold CreatePurchaseToken. destr_if; [done|]. destruct (cc_PurchaseTokenCodec cx) as [codec|]; [|done]. destruct es as [e' w'].
  intros (preorder & [e1 w1] & _ & Hrun)%bind_ok. apply bind_ok in Hrun as (views & [e2 w2] & _ & Hrun).
  destruct (validateRequestedTicketUsers _ _ _); [|done]. destr_if; [done|]. cbn zeta in Hrun. destr_if; [done|].
  apply bind_ok in Hrun as (u & [e3 w3] & _ & Hrun). apply bind_ok in Hrun as (n & [e4 w4] & _ & Hrun).
  do 2 (destruct (parsePurchaseTokenTime _ _); [|done]). apply bind_ok in Hrun as (t & [e5 w5] & _ & Hrun).
  match type of Hrun with (match ?i with _ => _ end) _ = _ => destruct i as [tk|] eqn:Ei; [|done] end.
  apply ret_ok in Hrun as [<- _]. eexists t, _. split; [exact Ei|done].
Qed.

Lemma create_own u token e (w : W) c es : create_and_send cx u token (e, w) = (Ok c, es) ->
  exists t1 t2 claims, Verify (cc_PurchaseTokenCodec cx) t1 t2 token = Ok claims /\ pt_UserID claims = u /\ c.2 = pt_ShowTimeID claims.
Proof.
  destruct es as [e' w']. intros ([resp event] & [e1 w1] & Hc & Hrun)%bind_ok. apply bind_ok in Hrun as (v & [e2 w2] & _ & [<- _]%ret_ok).
  revert Hc. unfold CreateOrder. destr_if; [done|]. destruct (cc_PurchaseTokenCodec cx) as [codec|]; [|done].
  intros (t1 & [e3 w3] & _ & Hc)%bind_ok. apply bind_ok in Hc as (t2 & [e4 w4] & _ & Hc).
  destruct (Verify (Some codec) t1 t2 token) as [claims|] eqn:Ev; [|done]. destr_if; [done|]. bool_norm. destr_if; [done|].
  exists t1, t2, claims. split; [done|]. split; [done|].
  apply bind_ok in Hc as (t & [e5 w5] & _ & Hc). apply bind_ok in Hc as (admitted & [e6 w6] & _ & Hc).
  destruct admitted as [admission|x]; [|revert Hc; destr_if; [by intros [[= <- _] _]%ret_ok|done]].
  do 2 (revert Hc; destr_if; [done|]; intros Hc). revert Hc; destr_if; [by intros [[= <- _] _]%ret_ok|].
  intros (event' & [e7 w7] & _ & [[= <- _] _]%ret_ok)%bind_ok. done.
Qed.

Lemma serve_shows r q userID e (w : W) a es : UserIDFromContext r = Some userID ->
  serve_order cx r q (e, w) = (Ok a, es) -> shows_own (fr_orders w) userID q a.
Proof.
  intros Hr. destruct q; cbn [serve_order]; intros Hrun.
  - apply (answered _ _ _ (fun u => CreatePurchaseToken cx _) _ _ _ _ _ Hr) in Hrun as (x & e1 & es2 & Hx & ->). by apply token_own in Hx.
  - apply (answered _ _ _ (fun u => create_and_send cx u _) _ _ _ _ _ Hr) in Hrun as (x & e1 & es2 & Hx & ->). by apply create_own in Hx.
  - apply (answer_ok _ _ _ (fun u => PollOrderProgress svc u _ _) _ _ _ _ _ Hr) in Hrun as (x & e1 & es2 & Hx & ->).
    exists x. by apply poll_own in Hx.
  - apply (answer_ok _ _ _ (fun u => GetOrder svc u _) _ _ _ _ _ Hr) in Hrun as (x & e1 & [e2 o2] & Hx & ->).
    unfold GetOrder in Hx. destr_if; [done|]. apply bind_ok in Hx as (o & [e3 o3] & Ho & Hx).
    apply map_err_ok, on_dbs_ok in Ho as (d & [_ Ho]%find_order_ok & ->). destr_if; [done|]. apply negb_false_iff, Z.eqb_eq in Heqb0.
    apply bind_ok in Hx as (ts & es4 & _ & [<- _]%ret_ok). by exists o, ts.
  - apply (answer_ok _ _ _ (fun u => ListOrders svc _) _ _ _ _ _ Hr) in Hrun as (x & e1 & [e2 o2] & Hx & ->).
    unfold ListOrders in Hx. destr_if; [done|]. apply bind_ok in Hx as ([rows total] & [e3 o3] & (d & Hp & _)%on_dbs_ok & Hx).
    apply ret_ok in Hx as [<- _]. apply page_own in Hp. cbn [lq_UserId] in Hp. cbn. unfold mapOrderListInfoList. rewrite map_map. apply Forall_map.
    eapply Forall_impl; [exact Hp|]. intros o Ho. by exists o.
  - apply (answer_ok _ _ _ (fun u => CancelOrder svc u _) _ _ _ _ _ Hr) in Hrun as (x & e1 & es2 & Hx & ->). by apply cancel_own in Hx.
  - apply (answer_ok _ _ _ (fun u => PayOrder svc _) _ _ _ _ _ Hr) in Hrun as (x & e1 & es2 & Hx & ->).
    by apply pay_order_own in Hx.
  - apply (answer_ok _ _ _ (fun u => PayCheck svc u _) _ _ _ _ _ Hr) in Hrun as (x & e1 & es2 & Hx & ->).
    by apply pay_check_own in Hx.
  - apply (answer_ok _ _ _ (fun u => RefundOrder svc _) _ _ _ _ _ Hr) in Hrun as (x & e1 & es2 & Hx & ->).
    by apply refund_order_own in Hx.
Qed.


End api.
