(* ===== verification/PayApi.v ===== *)
(** * pay-api  (services/pay-api/internal/logic)

    The HTTP front of pay-rpc.  Its routes have no middleware: the order, the user and
    the amount are what the request says, and a refund is made in the name of the user of
    the bill, whoever asks.  Times travel as instants, as in [PayService]. *)
From Stdlib Require Import ZArith Lia Ascii String.
From stdpp Require Import base gmap list strings relations.
From S2P Require Import Prelude GoBase Effects PayService OrderFlow.
Import Pay PayInv.
Open Scope string_scope.
Open Scope list_scope.
Open Scope Z_scope.

(** ** types.go *)

Record CommonPayReq := mkCommonPayReq {
  cp_OrderNumber : Z; cp_UserID : Z; cp_Subject : string; cp_Channel : string; cp_Amount : Z }.
Record CommonPayResp := mkCommonPayResp { cr_PayBillNo : Z; cr_PayStatus : Z; cr_PayTime : option time }.
Record PayBillDetailResp := mkPayBillDetail {
  bd_PayBillNo : Z; bd_OrderNumber : Z; bd_UserID : Z; bd_Subject : string; bd_Channel : string; bd_Amount : Z;
  bd_PayStatus : Z; bd_PayTime : option time }.
Record PayBillReq := mkPayBillReq { br_OrderNumber : Z }.
Record RefundReq := mkApiRefundReq { fr_OrderNumber : Z; fr_Amount : Z; fr_Channel : string; fr_Reason : string }.
Record RefundResp := mkApiRefunded {
  fs_RefundBillNo : Z; fs_OrderNumber : Z; fs_RefundAmount : Z; fs_PayStatus : Z; fs_RefundTime : option time }.

(** ** The handlers *)

Definition api_CommonPay (req : CommonPayReq) : IO paydb CommonPayResp :=
  rpcResp ← rpc (MockPay (mkMockPayReq (cp_OrderNumber req) (cp_UserID req) (cp_Subject req) (cp_Channel req) (cp_Amount req)));
  mret (mkCommonPayResp (mr_PayBillNo rpcResp) (mr_PayStatus rpcResp) (mr_PayTime rpcResp)).

Definition api_GetPayBill (req : PayBillReq) : IO paydb PayBillDetailResp :=
  rpcResp ← rpc (GetPayBill (br_OrderNumber req));
  mret (mkPayBillDetail (gp_PayBillNo rpcResp) (gp_OrderNumber rpcResp) (gp_UserId rpcResp) (gp_Subject rpcResp)
    (gp_Channel rpcResp) (gp_Amount rpcResp) (gp_PayStatus rpcResp) (gp_PayTime rpcResp)).

Definition api_Refund (req : RefundReq) : IO paydb RefundResp :=
  payBill ← rpc (GetPayBill (fr_OrderNumber req));
  rpcResp ← rpc (Refund (mkRefundReq (fr_OrderNumber req) (gp_UserId payBill) (fr_Amount req) (fr_Channel req) (fr_Reason req)));
  mret (mkApiRefunded (rr_RefundBillNo rpcResp) (rr_OrderNumber rpcResp) (rr_RefundAmount rpcResp) (rr_PayStatus rpcResp)
    (rr_RefundTime rpcResp)).

(** ** What the front leaves *)

Lemma keeps_find_bill o : keeps pay_inv (rpc (GetPayBill o)).
Proof. apply keeps_rpc, get_pay_bill_keeps. Qed.
Lemma keeps_common_pay req : keeps pay_inv (api_CommonPay req).
Proof. apply keeps_bind; [apply keeps_rpc, mock_pay_keeps|]. intros resp. apply keeps_ret. Qed.
Lemma keeps_api_bill req : keeps pay_inv (api_GetPayBill req).
Proof. apply keeps_bind; [apply keeps_find_bill|]. intros resp. apply keeps_ret. Qed.
Lemma keeps_api_refund req : keeps pay_inv (api_Refund req).
Proof.
  apply keeps_bind; [apply keeps_find_bill|]. intros bill. apply keeps_bind; [apply keeps_rpc, refund_keeps|].
  intros resp. apply keeps_ret.
Qed.
