(* ===== verification/ProgramApi.v ===== *)
(** * program-api  (services/program-api/internal/logic)

    The HTTP front of program-rpc: a handler copies the request into the message of the
    service, calls it over the network ([rpc]) and copies the answer, field by field.
    The types are those of types.go; [add_], [upd_] and [view_] are a program as it is
    added, changed and shown. *)
From Stdlib Require Import ZArith Lia Ascii String.
From stdpp Require Import base gmap list strings.
From S2P Require Import Prelude GoBase Effects Sql ProgramDB RefundRule RedisZ SeatDB SeatStore SeatFreeze OrderFlow ProgramCache ProgramAdmin ProgramRules ProgramQuery.
Open Scope string_scope.
Open Scope list_scope.
Open Scope Z_scope.

(** ** types.go *)

Record BoolResp := mkApiBoolResp { bo_Success : bool }.
Record EmptyReq := mkApiEmptyReq { }.
Record GetProgramDetailViewReq := mkApiGetProgramDetailViewReq { gv_ID : Z }.
Record GetProgramPreorderReq := mkApiGetProgramPreorderReq { gp_ShowTimeID : Z }.
Record IdResp := mkApiIdResp { ir_ID : Z }.
Record ListHomeProgramsReq := mkApiListHomeProgramsReq { lh_AreaId : Z; lh_ParentProgramCategoryIds : list Z }.
Record ListTicketCategoriesByProgramReq := mkApiListTicketCategoriesByProgramReq { lt_ProgramID : Z }.
Record PageProgramsReq := mkApiPageProgramsReq {
  pp_PageNumber : Z; pp_PageSize : Z; pp_AreaId : Z; pp_ParentProgramCategoryId : Z; pp_ProgramCategoryId : Z;
  pp_TimeType : Z; pp_StartDateTime : string; pp_EndDateTime : string; pp_Type : Z }.
Record ParentProgramCategoryReq := mkApiParentProgramCategoryReq { pq_ParentProgramCategoryID : Z }.
Record SeatInfo := mkApiSeatInfo {
  sei_SeatID : Z; sei_TicketCategoryID : Z; sei_RowCode : Z; sei_ColCode : Z; sei_Price : Z }.
Record PriceSeatGroup := mkApiPriceSeatGroup { pz_Price : string; pz_Seats : list SeatInfo }.
Record ProgramAddReq := mkApiProgramAddReq {
  add_ProgramGroupID : Z; add_Prime : Z; add_AreaID : Z; add_ProgramCategoryID : Z; add_ParentProgramCategoryID : Z;
  add_Title : string; add_Actor : string; add_Place : string; add_ItemPicture : string; add_PreSell : Z;
  add_PreSellInstruction : string; add_ImportantNotice : string; add_Detail : string;
  add_PerOrderLimitPurchaseCount : Z; add_PerAccountLimitPurchaseCount : Z; add_RefundTicketRule : string;
  add_DeliveryInstruction : string; add_EntryRule : string; add_ChildPurchase : string;
  add_InvoiceSpecification : string; add_RealTicketPurchaseRule : string; add_AbnormalOrderDescription : string;
  add_KindReminder : string; add_PerformanceDuration : string; add_EntryTime : string; add_MinPerformanceCount : Z;
  add_MainActor : string; add_MinPerformanceDuration : string; add_ProhibitedItem : string;
  add_DepositSpecification : string; add_TotalCount : Z; add_PermitRefund : Z; add_RefundExplain : string;
  add_RefundRuleJSON : string; add_RelNameTicketEntrance : Z; add_RelNameTicketEntranceExplain : string;
  add_PermitChooseSeat : Z; add_ChooseSeatExplain : string; add_ElectronicDeliveryTicket : Z;
  add_ElectronicDeliveryTicketExplain : string; add_ElectronicInvoice : Z; add_ElectronicInvoiceExplain : string;
  add_HighHeat : Z; add_ProgramStatus : Z; add_IssueTime : string; add_RushSaleOpenTime : string;
  add_RushSaleEndTime : string; add_Status : Z }.
Record ProgramCategoryBatchItem := mkApiProgramCategoryBatchItem { cb_ParentID : Z; cb_Name : string; cb_Type : Z }.
Record ProgramCategoryBatchSaveReq := mkApiProgramCategoryBatchSaveReq { cs_List : list ProgramCategoryBatchItem }.
Record ProgramCategoryInfo := mkApiProgramCategoryInfo { ck_ID : Z; ck_ParentID : Z; ck_Name : string; ck_Type : Z }.
Record ProgramCategoryListResp := mkApiProgramCategoryListResp { cl_List : list ProgramCategoryInfo }.
Record ProgramCategoryTypeReq := mkApiProgramCategoryTypeReq { cy_Type : Z }.
Record ProgramSimpleInfo := mkApiProgramSimpleInfo { psi_ProgramID : Z; psi_AreaID : Z; psi_AreaIDName : string }.
Record ProgramGroupInfo := mkApiProgramGroupInfo {
  pgi_ID : Z; pgi_ProgramSimpleInfoVoList : list ProgramSimpleInfo; pgi_RecentShowTime : string }.
Record TicketCategoryInfo := mkApiTicketCategoryInfo { tci_ID : Z; tci_Introduce : string; tci_Price : Z }.
Record ProgramDetailViewInfo := mkApiProgramDetailViewInfo {
  view_ID : Z; view_ProgramGroupID : Z; view_Prime : Z; view_ProgramGroupVo : ProgramGroupInfo; view_Title : string;
  view_Actor : string; view_Place : string; view_ItemPicture : string; view_PreSell : Z;
  view_PreSellInstruction : string; view_ImportantNotice : string; view_AreaID : Z; view_AreaName : string;
  view_ProgramCategoryID : Z; view_ProgramCategoryName : string; view_ParentProgramCategoryID : Z;
  view_ParentProgramCategoryName : string; view_Detail : string; view_PerOrderLimitPurchaseCount : Z;
  view_PerAccountLimitPurchaseCount : Z; view_RefundTicketRule : string; view_DeliveryInstruction : string;
  view_EntryRule : string; view_ChildPurchase : string; view_InvoiceSpecification : string;
  view_RealTicketPurchaseRule : string; view_AbnormalOrderDescription : string; view_KindReminder : string;
  view_PerformanceDuration : string; view_EntryTime : string; view_MinPerformanceCount : Z; view_MainActor : string;
  view_MinPerformanceDuration : string; view_ProhibitedItem : string; view_DepositSpecification : string;
  view_TotalCount : Z; view_PermitRefund : Z; view_RefundExplain : string; view_RelNameTicketEntrance : Z;
  view_RelNameTicketEntranceExplain : string; view_PermitChooseSeat : Z; view_ChooseSeatExplain : string;
  view_ElectronicDeliveryTicket : Z; view_ElectronicDeliveryTicketExplain : string; view_ElectronicInvoice : Z;
  view_ElectronicInvoiceExplain : string; view_HighHeat : Z; view_ProgramStatus : Z; view_IssueTime : string;
  view_RushSaleOpenTime : string; view_RushSaleEndTime : string; view_InventoryPreheatStatus : Z;
  view_ShowTime : string; view_ShowDayTime : string; view_ShowWeekTime : string;
  view_TicketCategoryVoList : list TicketCategoryInfo }.
Record ProgramListInfo := mkApiProgramListInfo {
  pl_ID : Z; pl_Title : string; pl_Actor : string; pl_Place : string; pl_ItemPicture : string; pl_AreaID : Z;
  pl_AreaName : string; pl_ProgramCategoryID : Z; pl_ProgramCategoryName : string; pl_ParentProgramCategoryID : Z;
  pl_ParentProgramCategoryName : string; pl_ShowTime : string; pl_ShowDayTime : string; pl_ShowWeekTime : string;
  pl_MinPrice : Z; pl_MaxPrice : Z; pl_EsID : Z }.
Record ProgramHomeSection := mkApiProgramHomeSection {
  hx_CategoryName : string; hx_CategoryID : Z; hx_ProgramListVoList : list ProgramListInfo }.
Record ProgramHomeListResp := mkApiProgramHomeListResp { hl_Sections : list ProgramHomeSection }.
Record ProgramInvalidReq := mkApiProgramInvalidReq { iv_ID : Z }.
Record ProgramPageResp := mkApiProgramPageResp {
  pgr_PageNum : Z; pgr_PageSize : Z; pgr_TotalSize : Z; pgr_List : list ProgramListInfo }.
Record ProgramPreorderTicketCategoryInfo := mkApiProgramPreorderTicketCategoryInfo {
  pct_ID : Z; pct_Introduce : string; pct_Price : Z; pct_TotalNumber : Z; pct_RemainNumber : Z }.
Record ProgramPreorderInfo := mkApiProgramPreorderInfo {
  por_ProgramID : Z; por_ShowTimeID : Z; por_ProgramGroupID : Z; por_Title : string; por_Actor : string;
  por_Place : string; por_ItemPicture : string; por_ShowTime : string; por_ShowDayTime : string;
  por_ShowWeekTime : string; por_RushSaleOpenTime : string; por_RushSaleEndTime : string;
  por_PerOrderLimitPurchaseCount : Z; por_PerAccountLimitPurchaseCount : Z; por_PermitChooseSeat : Z;
  por_ChooseSeatExplain : string; por_TicketCategoryVoList : list ProgramPreorderTicketCategoryInfo }.
Record ProgramResetReq := mkApiProgramResetReq { rsq_ProgramID : Z }.
Record ProgramShowTimeAddReq := mkApiProgramShowTimeAddReq {
  sta_ProgramID : Z; sta_ShowTime : string; sta_ShowDayTime : string; sta_ShowWeekTime : string }.
Record ProgramUpdateReq := mkApiProgramUpdateReq {
  upd_ID : Z; upd_ProgramGroupID : Z; upd_Prime : Z; upd_AreaID : Z; upd_ProgramCategoryID : Z;
  upd_ParentProgramCategoryID : Z; upd_Title : string; upd_Actor : string; upd_Place : string;
  upd_ItemPicture : string; upd_PreSell : Z; upd_PreSellInstruction : string; upd_ImportantNotice : string;
  upd_Detail : string; upd_PerOrderLimitPurchaseCount : Z; upd_PerAccountLimitPurchaseCount : Z;
  upd_RefundTicketRule : string; upd_DeliveryInstruction : string; upd_EntryRule : string;
  upd_ChildPurchase : string; upd_InvoiceSpecification : string; upd_RealTicketPurchaseRule : string;
  upd_AbnormalOrderDescription : string; upd_KindReminder : string; upd_PerformanceDuration : string;
  upd_EntryTime : string; upd_MinPerformanceCount : Z; upd_MainActor : string; upd_MinPerformanceDuration : string;
  upd_ProhibitedItem : string; upd_DepositSpecification : string; upd_TotalCount : Z; upd_PermitRefund : Z;
  upd_RefundExplain : string; upd_RefundRuleJSON : string; upd_RelNameTicketEntrance : Z;
  upd_RelNameTicketEntranceExplain : string; upd_PermitChooseSeat : Z; upd_ChooseSeatExplain : string;
  upd_ElectronicDeliveryTicket : Z; upd_ElectronicDeliveryTicketExplain : string; upd_ElectronicInvoice : Z;
  upd_ElectronicInvoiceExplain : string; upd_HighHeat : Z; upd_ProgramStatus : Z; upd_IssueTime : string;
  upd_RushSaleOpenTime : string; upd_RushSaleEndTime : string; upd_Status : Z }.
Record SeatAddReq := mkApiSeatAddReq {
  sea_ProgramID : Z; sea_TicketCategoryID : Z; sea_RowCode : Z; sea_ColCode : Z; sea_SeatType : Z; sea_Price : Z;
  sea_SeatStatus : Z }.
Record SeatBatchRelateInfoAddReq := mkApiSeatBatchRelateInfoAddReq {
  sbi_TicketCategoryID : Z; sbi_Price : Z; sbi_Count : Z }.
Record SeatBatchAddReq := mkApiSeatBatchAddReq {
  sba_ProgramID : Z; sba_SeatBatchRelateInfoAddDtoList : list SeatBatchRelateInfoAddReq }.
Record SeatListReq := mkApiSeatListReq { sel_ProgramID : Z }.
Record SeatRelateInfoResp := mkApiSeatRelateInfoResp {
  sri_ProgramID : Z; sri_Place : string; sri_ShowTime : string; sri_ShowWeekTime : string;
  sri_PriceList : list string; sri_PriceSeatGroupList : list PriceSeatGroup }.
Record TicketCategoryAddReq := mkApiTicketCategoryAddReq {
  tca_ProgramID : Z; tca_Introduce : string; tca_Price : Z; tca_TotalNumber : Z; tca_RemainNumber : Z }.
Record TicketCategoryDetailInfo := mkApiTicketCategoryDetailInfo {
  tcd_ProgramID : Z; tcd_Introduce : string; tcd_Price : Z; tcd_TotalNumber : Z; tcd_RemainNumber : Z }.
Record TicketCategoryDetailListResp := mkApiTicketCategoryDetailListResp { tcl_List : list TicketCategoryDetailInfo }.
Record TicketCategoryReq := mkApiTicketCategoryReq { tcr_ID : Z }.

(** ** mapper.go *)

(** An answer of program-rpc is a message, and so are the items of its lists; a nil and
    an empty list are the same. *)
Definition mapBoolResp (success : bool) : BoolResp := mkApiBoolResp success.
Definition mapIdResp (id : Z) : IdResp := mkApiIdResp id.
Definition mapProgramCategoryInfoList (l : list ProgramQuery.ProgramCategoryInfo) : list ProgramCategoryInfo :=
  map (fun k => mkApiProgramCategoryInfo (kn_Id k) (kn_ParentId k) (kn_Name k) (kn_Type k)) l.
Definition mapProgramCategoryListResp (l : list ProgramQuery.ProgramCategoryInfo) : ProgramCategoryListResp :=
  mkApiProgramCategoryListResp (mapProgramCategoryInfoList l).
(** No handler of program-rpc sets the field EsId of its answer. *)
Definition mapProgramListInfo (r : ProgramQuery.ProgramListInfo) : ProgramListInfo :=
  mkApiProgramListInfo (li_Id r) (li_Title r) (li_Actor r) (li_Place r) (li_ItemPicture r) (li_AreaId r)
    (li_AreaName r) (li_ProgramCategoryId r) (li_ProgramCategoryName r) (li_ParentProgramCategoryId r)
    (li_ParentProgramCategoryName r) (li_ShowTime r) (li_ShowDayTime r) (li_ShowWeekTime r) (li_MinPrice r)
    (li_MaxPrice r) 0.
Definition mapProgramListInfoList (l : list ProgramQuery.ProgramListInfo) : list ProgramListInfo := map mapProgramListInfo l.
Definition mapProgramHomeSectionList (l : list ProgramQuery.ProgramHomeSection) : list ProgramHomeSection :=
  map (fun s => mkApiProgramHomeSection (hs_CategoryName s) (hs_CategoryId s) (mapProgramListInfoList (hs_ProgramListVoList s))) l.
Definition mapProgramHomeListResp (l : list ProgramQuery.ProgramHomeSection) : ProgramHomeListResp :=
  mkApiProgramHomeListResp (mapProgramHomeSectionList l).
Definition mapProgramPageResp (r : ProgramQuery.ProgramPageResp) : ProgramPageResp :=
  mkApiProgramPageResp (pe_PageNum r) (pe_PageSize r) (pe_TotalSize r) (mapProgramListInfoList (pe_List r)).
Definition mapProgramSimpleInfoList (l : list ProgramCache.ProgramSimpleInfo) : list ProgramSimpleInfo :=
  map (fun i => mkApiProgramSimpleInfo (ps_ProgramId i) (ps_AreaId i) (ps_AreaIdName i)) l.
Definition mapProgramGroupInfo (g : ProgramCache.ProgramGroupInfo) : ProgramGroupInfo :=
  mkApiProgramGroupInfo (gi_Id g) (mapProgramSimpleInfoList (gi_ProgramSimpleInfoVoList g)) (gi_RecentShowTime g).
Definition mapTicketCategoryInfoList (l : list ProgramCache.TicketCategoryInfo) : list TicketCategoryInfo :=
  map (fun c => mkApiTicketCategoryInfo (ci_Id c) (ci_Introduce c) (ci_Price c)) l.
Definition mapProgramDetailViewInfo (r : ProgramCache.ProgramDetailViewInfo) : ProgramDetailViewInfo :=
  mkApiProgramDetailViewInfo (dv_Id r) (dv_ProgramGroupId r) (dv_Prime r) (mapProgramGroupInfo (dv_ProgramGroupVo r))
    (dv_Title r) (tx_Actor (dv_Texts r)) (tx_Place (dv_Texts r)) (tx_ItemPicture (dv_Texts r)) (dv_PreSell r)
    (tx_PreSellInstruction (dv_Texts r)) (tx_ImportantNotice (dv_Texts r)) (dv_AreaId r) (dv_AreaName r)
    (dv_ProgramCategoryId r) (dv_ProgramCategoryName r) (dv_ParentProgramCategoryId r) (dv_ParentProgramCategoryName r)
    (dv_Detail r) (dv_PerOrderLimitPurchaseCount r) (dv_PerAccountLimitPurchaseCount r)
    (tx_RefundTicketRule (dv_Texts r)) (tx_DeliveryInstruction (dv_Texts r)) (tx_EntryRule (dv_Texts r))
    (tx_ChildPurchase (dv_Texts r)) (tx_InvoiceSpecification (dv_Texts r)) (tx_RealTicketPurchaseRule (dv_Texts r))
    (tx_AbnormalOrderDescription (dv_Texts r)) (tx_KindReminder (dv_Texts r)) (tx_PerformanceDuration (dv_Texts r))
    (tx_EntryTime (dv_Texts r)) (dv_MinPerformanceCount r) (tx_MainActor (dv_Texts r))
    (tx_MinPerformanceDuration (dv_Texts r)) (tx_ProhibitedItem (dv_Texts r)) (tx_DepositSpecification (dv_Texts r))
    (dv_TotalCount r) (dv_PermitRefund r) (tx_RefundExplain (dv_Texts r)) (dv_RelNameTicketEntrance r)
    (tx_RelNameTicketEntranceExplain (dv_Texts r)) (dv_PermitChooseSeat r) (tx_ChooseSeatExplain (dv_Texts r))
    (dv_ElectronicDeliveryTicket r) (tx_ElectronicDeliveryTicketExplain (dv_Texts r)) (dv_ElectronicInvoice r)
    (tx_ElectronicInvoiceExplain (dv_Texts r)) (dv_HighHeat r) (dv_ProgramStatus r) (dv_IssueTime r)
    (dv_RushSaleOpenTime r) (dv_RushSaleEndTime r) (dv_InventoryPreheatStatus r) (dv_ShowTime r) (dv_ShowDayTime r)
    (dv_ShowWeekTime r) (mapTicketCategoryInfoList (dv_TicketCategoryVoList r)).
(** What is left to admit stays inside: the page shows [pk_RemainNumber]. *)
Definition mapProgramPreorderTicketCategoryInfoList (l : list ProgramQuery.ProgramPreorderTicketCategoryInfo)
  : list ProgramPreorderTicketCategoryInfo :=
  map (fun c => mkApiProgramPreorderTicketCategoryInfo (pk_Id c) (pk_Introduce c) (pk_Price c) (pk_TotalNumber c) (pk_RemainNumber c)) l.
Definition mapProgramPreorderInfo (r : ProgramQuery.ProgramPreorderInfo) : ProgramPreorderInfo :=
  mkApiProgramPreorderInfo (pf_ProgramId r) (pf_ShowTimeId r) (pf_ProgramGroupId r) (pf_Title r) (pf_Actor r)
    (pf_Place r) (pf_ItemPicture r) (pf_ShowTime r) (pf_ShowDayTime r) (pf_ShowWeekTime r) (pf_RushSaleOpenTime r)
    (pf_RushSaleEndTime r) (pf_PerOrderLimitPurchaseCount r) (pf_PerAccountLimitPurchaseCount r)
    (pf_PermitChooseSeat r) (pf_ChooseSeatExplain r)
    (mapProgramPreorderTicketCategoryInfoList (pf_TicketCategoryVoList r)).
Definition mapTicketCategoryDetailInfo (c : ProgramQuery.TicketCategoryDetailInfo) : TicketCategoryDetailInfo :=
  mkApiTicketCategoryDetailInfo (cd_ProgramId c) (cd_Introduce c) (cd_Price c) (cd_TotalNumber c) (cd_RemainNumber c).
Definition mapTicketCategoryDetailInfoList (l : list ProgramQuery.TicketCategoryDetailInfo) : list TicketCategoryDetailInfo :=
  map mapTicketCategoryDetailInfo l.
Definition mapTicketCategoryDetailListResp (l : list ProgramQuery.TicketCategoryDetailInfo) : TicketCategoryDetailListResp :=
  mkApiTicketCategoryDetailListResp (mapTicketCategoryDetailInfoList l).
Definition mapSeatInfoList (l : list RelatedSeat) : list SeatInfo :=
  map (fun s => mkApiSeatInfo (re_SeatId s) (re_TicketCategoryId s) (re_RowCode s) (re_ColCode s) (re_Price s)) l.
Definition mapPriceSeatGroupList (l : list (string * list RelatedSeat)) : list PriceSeatGroup :=
  map (fun g => mkApiPriceSeatGroup g.1 (mapSeatInfoList g.2)) l.
Definition mapSeatRelateInfo (r : SeatRelateInfo) : SeatRelateInfoResp :=
  mkApiSeatRelateInfoResp (rl_ProgramId r) (rl_Place r) (rl_ShowTime r) (rl_ShowWeekTime r) (rl_PriceList r)
    (mapPriceSeatGroupList (rl_PriceSeatGroupList r)).

(** ** The handlers *)

Section logic.
Context {R : Type} `{RedisZ R} `{LocalTime} `{LocalFormat} `{GroupJson} `{ColumnPrims} `{InvalidationCodec}.
Variable svc : ServiceContext.
Notation C := (catalogue R).

(** *** What changes the catalogue *)

Definition create_request (req : ProgramAddReq) : CreateProgramReq :=
  mkProgramReq (add_ProgramGroupID req) (add_Prime req) (add_AreaID req) (add_ProgramCategoryID req)
    (add_ParentProgramCategoryID req) (add_Title req) (add_Detail req) (add_PreSell req)
    (add_PerOrderLimitPurchaseCount req) (add_PerAccountLimitPurchaseCount req) (add_MinPerformanceCount req)
    (add_TotalCount req) (add_PermitRefund req) (add_RelNameTicketEntrance req) (add_PermitChooseSeat req)
    (add_ElectronicDeliveryTicket req) (add_ElectronicInvoice req) (add_HighHeat req) (add_ProgramStatus req) (mkTexts
    (add_Actor req) (add_Place req) (add_ItemPicture req) (add_PreSellInstruction req) (add_ImportantNotice req)
    (add_RefundTicketRule req) (add_DeliveryInstruction req) (add_EntryRule req) (add_ChildPurchase req)
    (add_InvoiceSpecification req) (add_RealTicketPurchaseRule req) (add_AbnormalOrderDescription req)
    (add_KindReminder req) (add_PerformanceDuration req) (add_EntryTime req) (add_MainActor req)
    (add_MinPerformanceDuration req) (add_ProhibitedItem req) (add_DepositSpecification req) (add_RefundExplain req)
    (add_RefundRuleJSON req) (add_RelNameTicketEntranceExplain req) (add_ChooseSeatExplain req)
    (add_ElectronicDeliveryTicketExplain req) (add_ElectronicInvoiceExplain req)) (add_IssueTime req)
    (add_RushSaleOpenTime req) (add_RushSaleEndTime req) (add_Status req).
Definition api_AddProgram (req : ProgramAddReq) : IO C IdResp :=
  rpcResp ← rpc (CreateProgram svc (create_request req)); mret (mkApiIdResp rpcResp).

Definition update_request (req : ProgramUpdateReq) : UpdateProgramReq := mkUpdateReq (upd_ID req)
  (mkProgramReq (upd_ProgramGroupID req) (upd_Prime req) (upd_AreaID req) (upd_ProgramCategoryID req)
    (upd_ParentProgramCategoryID req) (upd_Title req) (upd_Detail req) (upd_PreSell req)
    (upd_PerOrderLimitPurchaseCount req) (upd_PerAccountLimitPurchaseCount req) (upd_MinPerformanceCount req)
    (upd_TotalCount req) (upd_PermitRefund req) (upd_RelNameTicketEntrance req) (upd_PermitChooseSeat req)
    (upd_ElectronicDeliveryTicket req) (upd_ElectronicInvoice req) (upd_HighHeat req) (upd_ProgramStatus req) (mkTexts
    (upd_Actor req) (upd_Place req) (upd_ItemPicture req) (upd_PreSellInstruction req) (upd_ImportantNotice req)
    (upd_RefundTicketRule req) (upd_DeliveryInstruction req) (upd_EntryRule req) (upd_ChildPurchase req)
    (upd_InvoiceSpecification req) (upd_RealTicketPurchaseRule req) (upd_AbnormalOrderDescription req)
    (upd_KindReminder req) (upd_PerformanceDuration req) (upd_EntryTime req) (upd_MainActor req)
    (upd_MinPerformanceDuration req) (upd_ProhibitedItem req) (upd_DepositSpecification req) (upd_RefundExplain req)
    (upd_RefundRuleJSON req) (upd_RelNameTicketEntranceExplain req) (upd_ChooseSeatExplain req)
    (upd_ElectronicDeliveryTicketExplain req) (upd_ElectronicInvoiceExplain req)) (upd_IssueTime req)
    (upd_RushSaleOpenTime req) (upd_RushSaleEndTime req) (upd_Status req)).
Definition api_UpdateProgram (req : ProgramUpdateReq) : IO C BoolResp :=
  rpcResp ← rpc (UpdateProgram svc (update_request req)); mret (mapBoolResp rpcResp).

Definition api_InvalidProgram (req : ProgramInvalidReq) : IO C BoolResp :=
  rpcResp ← rpc (InvalidProgram svc (iv_ID req)); mret (mapBoolResp rpcResp).
Definition api_ResetProgram (req : ProgramResetReq) : IO C BoolResp :=
  rpcResp ← rpc (ResetProgram svc (rsq_ProgramID req)); mret (mapBoolResp rpcResp).
(** The request has no end of the show. *)
Definition api_CreateProgramShowTime (req : ProgramShowTimeAddReq) : IO C IdResp :=
  rpcResp ← rpc (CreateProgramShowTime svc (mkShowTimeAdd (sta_ProgramID req) (sta_ShowTime req) (sta_ShowDayTime req)
    (sta_ShowWeekTime req) ""));
  mret (mapIdResp rpcResp).
Definition api_CreateTicketCategory (req : TicketCategoryAddReq) : IO C IdResp :=
  rpcResp ← rpc (CreateTicketCategory svc (mkCategoryAdd (tca_ProgramID req) (tca_Introduce req) (tca_Price req)
    (tca_TotalNumber req) (tca_RemainNumber req)));
  mret (mapIdResp rpcResp).
Definition api_CreateSeat (req : SeatAddReq) : IO C IdResp :=
  rpcResp ← rpc (CreateSeat svc (mkSeatAdd (sea_ProgramID req) (sea_TicketCategoryID req) (sea_RowCode req)
    (sea_ColCode req) (sea_SeatType req) (sea_Price req) (sea_SeatStatus req)));
  mret (mapIdResp rpcResp).
Definition api_BatchCreateSeats (req : SeatBatchAddReq) : IO C BoolResp :=
  let items := map (fun item => mkBatchItem (sbi_TicketCategoryID item) (sbi_Price item) (sbi_Count item))
                 (sba_SeatBatchRelateInfoAddDtoList req) in
  rpcResp ← rpc (BatchCreateSeats svc (mkBatchAdd (sba_ProgramID req) items)); mret (mapBoolResp rpcResp).
Definition api_BatchCreateProgramCategories (req : ProgramCategoryBatchSaveReq) : IO C BoolResp :=
  let items := map (fun item => mkKindItem (cb_ParentID item) (cb_Name item) (cb_Type item)) (cs_List req) in
  rpcResp ← rpc (BatchCreateProgramCategories svc items); mret (mapBoolResp rpcResp).

(** *** What reads it *)

Definition api_GetProgramDetailView (req : GetProgramDetailViewReq) : IO C ProgramDetailViewInfo :=
  rpcResp ← rpc (GetProgramDetailView (gv_ID req)); mret (mapProgramDetailViewInfo rpcResp).
Definition api_GetProgramPreorder (req : GetProgramPreorderReq) : IO C ProgramPreorderInfo :=
  rpcResp ← rpc (GetProgramPreorder (gp_ShowTimeID req)); mret (mapProgramPreorderInfo rpcResp).
Definition api_GetSeatRelateInfo (req : SeatListReq) : IO C SeatRelateInfoResp :=
  rpcResp ← rpc (GetSeatRelateInfo (sel_ProgramID req)); mret (mapSeatRelateInfo rpcResp).
Definition api_GetTicketCategoryDetail (req : TicketCategoryReq) : IO C TicketCategoryDetailInfo :=
  rpcResp ← rpc (GetTicketCategoryDetail (tcr_ID req)); mret (mapTicketCategoryDetailInfo rpcResp).
Definition api_ListTicketCategoriesByProgram (req : ListTicketCategoriesByProgramReq) : IO C TicketCategoryDetailListResp :=
  rpcResp ← rpc (ListTicketCategoriesByProgram (lt_ProgramID req)); mret (mapTicketCategoryDetailListResp rpcResp).
Definition api_ListHomePrograms (req : ListHomeProgramsReq) : IO C ProgramHomeListResp :=
  rpcResp ← rpc (ListHomePrograms (mkHomeReq (lh_AreaId req) (lh_ParentProgramCategoryIds req)));
  mret (mapProgramHomeListResp rpcResp).
Definition api_PagePrograms (req : PageProgramsReq) : IO C ProgramPageResp :=
  rpcResp ← rpc (PagePrograms (mkPageReq (pp_PageNumber req) (pp_PageSize req) (pp_AreaId req)
    (pp_ParentProgramCategoryId req) (pp_ProgramCategoryId req) (pp_TimeType req) (pp_StartDateTime req)
    (pp_EndDateTime req) (pp_Type req)));
  mret (mapProgramPageResp rpcResp).
Definition api_ListProgramCategories (req : EmptyReq) : IO C ProgramCategoryListResp :=
  rpcResp ← rpc ListProgramCategories; mret (mapProgramCategoryListResp rpcResp).
Definition api_ListProgramCategoriesByParent (req : ParentProgramCategoryReq) : IO C ProgramCategoryListResp :=
  rpcResp ← rpc (ListProgramCategoriesByParent (pq_ParentProgramCategoryID req)); mret (mapProgramCategoryListResp rpcResp).
Definition api_ListProgramCategoriesByType (req : ProgramCategoryTypeReq) : IO C ProgramCategoryListResp :=
  rpcResp ← rpc (ListProgramCategoriesByType (cy_Type req)); mret (mapProgramCategoryListResp rpcResp).

(** ** What is shown of a program *)

Inductive program_write := WriteAdd (r : ProgramAddReq) | WriteUpdate (r : ProgramUpdateReq).
(** The identifier of the program an accepted request is about. *)
Definition serve_write (q : program_write) : IO C Z :=
  match q with
  | WriteAdd r => resp ← api_AddProgram r; mret (ir_ID resp)
  | WriteUpdate r => _ ← api_UpdateProgram r; mret (upd_ID r)
  end.

(** The fields both requests have. *)
Definition asked (q : program_write) : ProgramAddReq :=
  match q with
  | WriteAdd r => r
  | WriteUpdate r =>
      mkApiProgramAddReq (upd_ProgramGroupID r) (upd_Prime r) (upd_AreaID r) (upd_ProgramCategoryID r)
      (upd_ParentProgramCategoryID r) (upd_Title r) (upd_Actor r) (upd_Place r) (upd_ItemPicture r) (upd_PreSell r)
      (upd_PreSellInstruction r) (upd_ImportantNotice r) (upd_Detail r) (upd_PerOrderLimitPurchaseCount r)
      (upd_PerAccountLimitPurchaseCount r) (upd_RefundTicketRule r) (upd_DeliveryInstruction r) (upd_EntryRule r)
      (upd_ChildPurchase r) (upd_InvoiceSpecification r) (upd_RealTicketPurchaseRule r) (upd_AbnormalOrderDescription r)
      (upd_KindReminder r) (upd_PerformanceDuration r) (upd_EntryTime r) (upd_MinPerformanceCount r) (upd_MainActor r)
      (upd_MinPerformanceDuration r) (upd_ProhibitedItem r) (upd_DepositSpecification r) (upd_TotalCount r)
      (upd_PermitRefund r) (upd_RefundExplain r) (upd_RefundRuleJSON r) (upd_RelNameTicketEntrance r)
      (upd_RelNameTicketEntranceExplain r) (upd_PermitChooseSeat r) (upd_ChooseSeatExplain r)
      (upd_ElectronicDeliveryTicket r) (upd_ElectronicDeliveryTicketExplain r) (upd_ElectronicInvoice r)
      (upd_ElectronicInvoiceExplain r) (upd_HighHeat r) (upd_ProgramStatus r) (upd_IssueTime r) (upd_RushSaleOpenTime r)
      (upd_RushSaleEndTime r) (upd_Status r)
  end.
(** A number left out has a default in a program that is added, and is 0 in an update. *)
Definition unset (q : program_write) (d x : Z) : Z := match q with WriteAdd _ => default_to d x | WriteUpdate _ => x end.
Definition shown_text (s : string) : string := if bool_decide (trim_space s = "") then "" else s.
Definition shown_count (n : Z) : Z := if n <=? 0 then 0 else n.
(** A time is read in local time, stored in whole seconds and written again. *)
Definition shown_time (s : string) : string :=
  match parseNullTime s with Ok t => formatNullTime (mysql_datetime <$> t) | Err _ => "" end.

Definition shows_program (q : program_write) (id : Z) (v : ProgramDetailViewInfo) : Prop :=
  let r := asked q in
  view_ID v = id /\
  view_ProgramGroupID v = add_ProgramGroupID r /\ view_Prime v = unset q 1 (add_Prime r) /\
  view_Title v = add_Title r /\ view_Actor v = shown_text (add_Actor r) /\ view_Place v = shown_text (add_Place r) /\
  view_ItemPicture v = shown_text (add_ItemPicture r) /\ view_PreSell v = add_PreSell r /\
  view_PreSellInstruction v = shown_text (add_PreSellInstruction r) /\
  view_ImportantNotice v = shown_text (add_ImportantNotice r) /\ view_AreaID v = add_AreaID r /\
  view_ProgramCategoryID v = add_ProgramCategoryID r /\
  view_ParentProgramCategoryID v = add_ParentProgramCategoryID r /\ view_Detail v = add_Detail r /\
  view_PerOrderLimitPurchaseCount v = unset q 6 (add_PerOrderLimitPurchaseCount r) /\
  view_PerAccountLimitPurchaseCount v = unset q 6 (add_PerAccountLimitPurchaseCount r) /\
  view_RefundTicketRule v = shown_text (add_RefundTicketRule r) /\
  view_DeliveryInstruction v = shown_text (add_DeliveryInstruction r) /\
  view_EntryRule v = shown_text (add_EntryRule r) /\ view_ChildPurchase v = shown_text (add_ChildPurchase r) /\
  view_InvoiceSpecification v = shown_text (add_InvoiceSpecification r) /\
  view_RealTicketPurchaseRule v = shown_text (add_RealTicketPurchaseRule r) /\
  view_AbnormalOrderDescription v = shown_text (add_AbnormalOrderDescription r) /\
  view_KindReminder v = shown_text (add_KindReminder r) /\
  view_PerformanceDuration v = shown_text (add_PerformanceDuration r) /\
  view_EntryTime v = shown_text (add_EntryTime r) /\
  view_MinPerformanceCount v = shown_count (add_MinPerformanceCount r) /\
  view_MainActor v = shown_text (add_MainActor r) /\
  view_MinPerformanceDuration v = shown_text (add_MinPerformanceDuration r) /\
  view_ProhibitedItem v = shown_text (add_ProhibitedItem r) /\
  view_DepositSpecification v = shown_text (add_DepositSpecification r) /\
  view_TotalCount v = shown_count (add_TotalCount r) /\ view_PermitRefund v = add_PermitRefund r /\
  view_RefundExplain v = shown_text (add_RefundExplain r) /\
  view_RelNameTicketEntrance v = add_RelNameTicketEntrance r /\
  view_RelNameTicketEntranceExplain v = shown_text (add_RelNameTicketEntranceExplain r) /\
  view_PermitChooseSeat v = add_PermitChooseSeat r /\
  view_ChooseSeatExplain v = shown_text (add_ChooseSeatExplain r) /\
  view_ElectronicDeliveryTicket v = unset q 1 (add_ElectronicDeliveryTicket r) /\
  view_ElectronicDeliveryTicketExplain v = shown_text (add_ElectronicDeliveryTicketExplain r) /\
  view_ElectronicInvoice v = unset q 1 (add_ElectronicInvoice r) /\
  view_ElectronicInvoiceExplain v = shown_text (add_ElectronicInvoiceExplain r) /\
  view_HighHeat v = add_HighHeat r /\ view_ProgramStatus v = unset q 1 (add_ProgramStatus r) /\
  view_IssueTime v = shown_time (add_IssueTime r) /\ view_RushSaleOpenTime v = shown_time (add_RushSaleOpenTime r) /\
  view_RushSaleEndTime v = shown_time (add_RushSaleEndTime r).

(** *** The row of an accepted request *)

Definition write_values (q : program_write) (id : Z) : programWriteValues :=
  match q with
  | WriteAdd r => with_id id (applyCreateProgramDefaults (newCreateProgramValues (create_request r)))
  | WriteUpdate r => newUpdateProgramValues (update_request r)
  end.

(** The row of [data], whatever its bookkeeping columns. *)
Definition row_is (data : DProgram) (c : C) : Prop := exists create preheat made edit,
  programs (ct_db c) !! pg_Id data = Some (stored_program create (set_program (pg_ProgramStatus data) preheat made edit data)).

Lemma set_program_self p : set_program (pg_ProgramStatus p) (pg_InventoryPreheatStatus p) (pg_CreateTime p) (pg_EditTime p) p = p.
Proof. by destruct p. Qed.

Lemma row_is_insert data e (c : C) u e' c' : on_db (call (InsertProgramRow data)) (e, c) = (Ok u, (e', c')) -> row_is data c'.
Proof.
  intros (Hn & create & Hdb)%on_db_ok%insert_program_ok. exists create. do 3 eexists. rewrite Hdb. cbn.
  rewrite lookup_insert_eq. by rewrite set_program_self.
Qed.

Lemma row_is_update data preheat made edit e (c : C) u e' c' : is_Some (programs (ct_db c) !! pg_Id data) ->
  on_db (call (UpdateProgramRow (set_program (pg_ProgramStatus data) preheat made edit data))) (e, c) = (Ok u, (e', c')) -> row_is data c'.
Proof.
  intros [old Hold] Hu%on_db_ok. unfold UpdateProgramRow in Hu. cbn [pg_Id set_program] in Hu. rewrite Hold in Hu.
  destruct (program_columns _); [|done]. injection Hu as _ Hdb. do 4 eexists. rewrite <- Hdb. cbn. by rewrite lookup_insert_eq.
Qed.

Lemma row_is_schedule data preheat made edit e (c : C) u e' c' : row_is data c ->
  scheduleRushInventoryPreheat svc (set_program (pg_ProgramStatus data) preheat made edit data) (e, c) = (Ok u, (e', c')) -> row_is data c'.
Proof.
  intros Hr. unfold scheduleRushInventoryPreheat. cbn [pg_RushSaleOpenTime pg_Id pg_ProgramStatus pg_InventoryPreheatStatus set_program].
  destruct (pg_RushSaleOpenTime data); [|by intros [_ [= <- <-]]%ret_ok].
  destruct (sx_PreheatLeadTime svc); [|by intros [_ [= <- <-]]%ret_ok].
  intros (res & [e1 c1] & Hf%attempt_ok & Hrun)%bind_ok. apply on_db_same in Hf; [|done].
  assert (Hr1 : row_is data c1) by (unfold row_is; by rewrite Hf).
  destruct res as [[|s ss]|x]; [by apply ret_ok in Hrun as [_ [= <- <-]]| |
    by destruct (err_is x ENotFound); [apply ret_ok in Hrun as [_ [= <- <-]]|]].
  apply bind_ok in Hrun as (t & [e2 c2] & Hn & Hrun). apply now_state in Hn as [-> _].
  apply bind_ok in Hrun as ([] & [e3 c3] & Hu & Hrun). apply enqueue_db in Hrun.
  assert (Hr3 : row_is data c3).
  { destr_if; [by apply ret_ok in Hu as [_ [= <- <-]]|]. eapply row_is_update; [|exact Hu].
    destruct Hr1 as (? & ? & ? & ? & ->). by eexists. }
  unfold row_is. by rewrite Hrun.
Qed.

Lemma row_is_logged data id gs e (c : C) u e' c' : row_is data c ->
  logged (InvalidateProgram svc id gs) (e, c) = (Ok u, (e', c')) -> row_is data c'.
Proof.
  intros Hr Hl. destruct (invalidate_tables svc id gs e c) as (e1 & c1 & Hl1 & Ht). rewrite Hl in Hl1.
  injection Hl1 as _ <- <-. unfold row_is. unfold tables in Ht. by replace (programs (ct_db c')) with (programs (ct_db c)) by congruence.
Qed.

Lemma created_row r e (c : C) id e' c' : CreateProgram svc (create_request r) (e, c) = (Ok id, (e', c')) ->
  exists t data, buildProgramModel (write_values (WriteAdd r) id) t = Ok data /\ row_is data c'.
Proof.
  intros (u & [e1 c1] & _ & Hrun)%bind_ok. apply bind_ok in Hrun as (t & [e2 c2] & _ & Hrun).
  apply bind_ok in Hrun as (id' & [e3 c3] & _ & Hrun).
  apply bind_ok in Hrun as (data & [e4 c4] & Hb & Hrun).
  apply bind_ok in Hrun as (u2 & [e5 c5] & Ht & Hrun).
  apply bind_ok in Hrun as (u3 & [e6 c6] & Hl & Hrun). apply ret_ok in Hrun as [-> [= <- <-]].
  exists t, data. split; [by unfold lift in Hb; injection Hb|]. eapply row_is_logged; [|exact Hl].
  apply transact_ok in Ht as (e7 & e8 & Ht). apply bind_ok in Ht as (g & [e9 c9] & _ & Ht).
  apply bind_ok in Ht as (u4 & [e10 c10] & Hi & Ht).
  eapply row_is_schedule; [by eapply row_is_insert|]. erewrite set_program_self. exact Ht.
Qed.

Lemma updated_row r e (c : C) b e' c' : UpdateProgram svc (update_request r) (e, c) = (Ok b, (e', c')) ->
  exists t data, buildProgramModel (write_values (WriteUpdate r) (upd_ID r)) t = Ok data /\ row_is data c'.
Proof.
  intros (u & [e1 c1] & _ & Hrun)%bind_ok. apply bind_ok in Hrun as (t & [e2 c2] & _ & Hrun).
  apply bind_ok in Hrun as (data & [e4 c4] & Hb & Hrun).
  assert (Hbuild : buildProgramModel (write_values (WriteUpdate r) (upd_ID r)) t = Ok data) by (unfold lift in Hb; by injection Hb).
  apply bind_ok in Hrun as (gs & [e5 c5] & Ht & Hrun).
  apply bind_ok in Hrun as (u3 & [e6 c6] & Hl & Hrun). apply ret_ok in Hrun as [_ [= <- <-]].
  exists t, data. split; [done|]. eapply row_is_logged; [|exact Hl].
  pose proof (proj1 (build_ok _ _ _ Hbuild)) as Hid.
  apply transact_ok in Ht as (e7 & e8 & Ht). apply bind_ok in Ht as (g & [e9 c9] & _ & Ht).
  apply bind_ok in Ht as (cur & [e10 c10] & Hcur%map_err_ok & Ht).
  assert (Hsame : ct_db c10 = ct_db c9) by by apply on_db_same in Hcur.
  apply on_db_ok in Hcur.
  cbn zeta in Ht. apply bind_ok in Ht as (u4 & [e11 c11] & Hval & Ht).
  apply bind_ok in Ht as (u5 & [e12 c12] & Hu & Ht). apply bind_ok in Ht as (u6 & [e13 c13] & Hs & Ht).
  apply ret_ok in Ht as [_ [= _ <-]].
  assert (Hdb : ct_db c11 = ct_db c10).
  { revert Hval. unfold validateProgramRushSaleWindowAgainstExistingShowTimes. destr_if; [by intros [_ [= _ <-]]%ret_ok|].
    intros (res & [e14 c14] & Hf%attempt_ok & Hrun)%bind_ok. apply on_db_same in Hf; [|done]. rewrite <- Hf. clear Hf.
    destruct res as [s|x].
    - destruct (parse_local _); [|done]. by destr_if; [|apply ret_ok in Hrun as [_ [= _ <-]]].
    - by destr_if; [apply ret_ok in Hrun as [_ [= _ <-]]|]. }
  assert (Hr : row_is data c12).
  { eapply row_is_update; [|exact Hu]. rewrite Hdb, Hsame, Hid.
    unfold FindProgramForUpdate in Hcur. by destruct (programs (ct_db c9) !! _). }
  destruct (_ || _); [by eapply row_is_schedule|by apply ret_ok in Hs as [_ [= _ <-]]].
Qed.

Lemma written_row q e (c : C) id e' c' : serve_write q (e, c) = (Ok id, (e', c')) ->
  exists t data, buildProgramModel (write_values q id) t = Ok data /\ pg_Id data = id /\ row_is data c'.
Proof.
  intros Hw. assert (Hrow : exists t data, buildProgramModel (write_values q id) t = Ok data /\ row_is data c' /\ pv_id (write_values q id) = id).
  2: { destruct Hrow as (t & data & Hb & Hr & Hid). exists t, data. by rewrite (proj1 (build_ok _ _ _ Hb)). }
  revert Hw. destruct q as [r|r].
  - intros (resp & [e1 c1] & Ha & Hrun)%bind_ok. apply ret_ok in Hrun as [<- [= <- <-]].
    apply bind_ok in Ha as (id & [e2 c2] & Ha & Hrun). apply ret_ok in Hrun as [<- [= <- <-]].
    apply rpc_ok in Ha as [e3 Ha]. apply created_row in Ha as (t & data & Hb & Hr). by exists t, data.
  - intros (resp & [e1 c1] & Ha & Hrun)%bind_ok. apply ret_ok in Hrun as [<- [= <- <-]].
    apply bind_ok in Ha as (b & [e2 c2] & Ha & Hrun). apply ret_ok in Hrun as [_ [= <- <-]].
    apply rpc_ok in Ha as [e3 Ha]. apply updated_row in Ha as (t & data & Hb & Hr). by exists t, data.
Qed.

(** *** The view of a row *)

(** Neither the instance nor Redis has anything of the program. *)
Definition forgotten (id : Z) (c : C) : Prop := remembered id (ct_local c) = None /\ ca_programs (cached (ct_db c)) !! id = None.

Lemma view_of_row id e (c : C) v e' c' : forgotten id c -> api_GetProgramDetailView (mkApiGetProgramDetailViewReq id) (e, c) = (Ok v, (e', c')) ->
  exists row first group categories cs, programs (ct_db c) !! id = Some row /\
    v = mapProgramDetailViewInfo (toProgramDetailViewInfo row first group categories cs).
Proof.
  intros [Hf Hca] (d & [e1 c1] & Hg & Hrun)%bind_ok. apply ret_ok in Hrun as [<- _]. apply rpc_ok in Hg as [e2 Hg].
  unfold GetProgramDetailView in Hg. apply map_err_ok in Hg. cbn [gv_ID] in Hg. unfold GetDetail in Hg.
  apply bind_ok in Hg as (l & [e3 c3] & Hl & Hg).
  assert (Hget : l = ct_local c /\ c3 = c).
  { unfold on_local, on, own, get in Hl. cbn in Hl. destruct c. by injection Hl as <- <- <-. }
  destruct Hget as [-> ->]. rewrite Hf in Hg. unfold detached in Hg.
  destruct (draw e3) as [[|x|x] e4]; [|done|done].
  unfold load_detail in Hg. apply bind_ok in Hg as (l & [e5 c5] & Hl5 & Hg).
  assert (Hget : l = ct_local c /\ c5 = c).
  { unfold on_local, on, own, get in Hl5. cbn in Hl5. destruct c. by injection Hl5 as <- <- <-. }
  destruct Hget as [-> ->]. rewrite Hf in Hg.
  apply bind_ok in Hg as (res & [e6 c6] & Hload%attempt_ok & Hg). destruct res as [d'|x].
  2: { by destruct (err_is x ErrProgramNotFound); [apply bind_ok in Hg as (? & ? & _ & ?)|]. }
  apply bind_ok in Hg as (? & [? ?] & _ & Hg). apply ret_ok in Hg as [-> _].
  unfold Load in Hload. apply bind_ok in Hload as (row & [e7 c7] & Hrow%map_err_ok%on_db_ok & Hload).
  unfold findProgram, seen_program, cached_row in Hrow. rewrite Hca in Hrow.
  apply bind_ok in Hload as (first & [e8 c8] & _ & Hload). apply bind_ok in Hload as (cats & [e9 c9] & _ & Hload).
  apply bind_ok in Hload as (g & [e10 c10] & _ & Hload). apply bind_ok in Hload as (gi & [e11 c11] & _ & Hload).
  apply bind_ok in Hload as (rs & [e12 c12] & _ & Hload). apply bind_ok in Hload as (tcs & [e13 c13] & _ & Hload).
  apply ret_ok in Hload as [<- _].
  destruct (programs (ct_db c) !! id) as [row'|]; [|done]. injection Hrow as -> _. by do 5 eexists.
Qed.

Lemma null_text_shown s : nullStringValue (nullString s) = shown_text s.
Proof. unfold nullString, shown_text. by destr_if. Qed.
Lemma null_count_shown n : nullInt64Value (nullInt64 n) = shown_count n.
Proof. unfold nullInt64, shown_count. by destr_if. Qed.

Lemma time_shown s t : or_invalid (parseNullTime s) = Ok t -> formatNullTime (mysql_datetime <$> t) = shown_time s.
Proof. unfold or_invalid, shown_time. destruct (parseNullTime s); [|done]. by intros [= ->]. Qed.

(** The row with other bookkeeping. *)
Definition rebooked (preheat : Z) (made edit : time) (p : DProgram) : DProgram := set_program (pg_ProgramStatus p) preheat made edit p.

(** The two fields of a request that the view does not show, as the row has them. *)
Definition stores_rest (q : program_write) (row : DProgram) : Prop :=
  pg_RefundRuleJson row = (nullString (add_RefundRuleJSON (asked q)) ≫= json_value) /\ pg_Status row = unset q 1 (add_Status (asked q)).

(** C16: what is written through the front is what it shows.  When a program is added or
    changed with success, whatever failed on the way, its row has the fields of the
    request; and whoever looks at it later, while the row is the one that was written, and
    with nothing of the program left in Redis or in the instance that answers, is
    shown them: numbers left out with the defaults of a new program, blank texts empty,
    times as they read in whole seconds.  The refund rule and the row's status are stored
    and not shown; the preheat status and the times of the row's changes may have
    moved on.  That nothing is left in the caches takes an invalidation that went
    through: when it fails, it is only logged, and an old view may be shown. *)
Theorem written_is_shown q e (c : C) id e1 c1 e2 c2 v e3 c3 preheat' made' edit' :
  serve_write q (e, c) = (Ok id, (e1, c1)) ->
  programs (ct_db c2) !! id = rebooked preheat' made' edit' <$> programs (ct_db c1) !! id -> forgotten id c2 ->
  api_GetProgramDetailView (mkApiGetProgramDetailViewReq id) (e2, c2) = (Ok v, (e3, c3)) ->
  shows_program q id v /\ exists row, programs (ct_db c1) !! id = Some row /\ stores_rest q row.
Proof.
  intros Hw Hsame Hf Hv. apply written_row in Hw as (t & data & Hb & Hid & create & preheat & made & edit & Hrow).
  apply view_of_row in Hv as (row & first & group & cats & cs & Hrow2 & ->); [|done].
  rewrite Hid in Hrow. rewrite Hsame, Hrow in Hrow2. injection Hrow2 as <-.
  unfold buildProgramModel in Hb. apply result_bind_ok in Hb as (i & Hi & Hb). apply result_bind_ok in Hb as (o & Ho & Hb).
  apply result_bind_ok in Hb as (d & Hd & [= <-]). apply time_shown in Hi, Ho, Hd.
  split.
  - unfold shows_program. cbn zeta. destruct q as [r|r]; cbn in Hi, Ho, Hd, Hid |- *.
    all: split_and!; solve [done|apply null_text_shown|apply null_count_shown].
  - eexists. rewrite Hrow. split; [done|]. by destruct q.
Qed.

End logic.
