(* ===== verification/McpTools.v ===== *)
(** * The tools of the agents  (order-rpc/mcp, program-rpc/mcp)

    The services answer some of their handlers as tools, in the same process: a tool reads
    its arguments, which name the user, calls the handler and writes the result with
    numbers as texts.  The results are encoded in JSON by the library. *)
From Stdlib Require Import ZArith Lia Ascii String.
From stdpp Require Import base gmap list strings.
From S2P Require Import Prelude GoBase Effects Redis ProgramDB OrderDB OrderRepo OrderFlow OrderCreate OrderLife OrderQuery ProgramCache ProgramQuery.
Open Scope string_scope.
Open Scope list_scope.
Open Scope Z_scope.

Module OrderMcp.

(** ** types.go *)

Record ListUserOrdersArgs := mkListArgs { la_UserID : Z; la_PageNumber : Z; la_PageSize : Z; la_OrderStatus : Z }.
Record GetOrderDetailForServiceArgs := mkDetailArgs { ga_UserID : Z; ga_OrderID : string }.
Record PreviewRefundOrderArgs := mkPreviewArgs { pw_UserID : Z; pw_OrderID : string }.
Record RefundOrderArgs := mkRefundArgs { rw_UserID : Z; rw_OrderID : string; rw_Reason : string }.
Record OrderSummary := mkOrderSummary {
  os_OrderID : string; os_Status : string; os_ProgramTitle : string; os_ProgramShowTime : string; os_CreateOrderTime : string }.
Record ListUserOrdersResult := mkListResult { lu_Orders : list OrderSummary }.
Record OrderDetailResult := mkDetailResult {
  dr_OrderID : string; dr_Status : string; dr_PaymentStatus : string; dr_TicketStatus : string; dr_ProgramTitle : string;
  dr_ProgramShowTime : string; dr_TicketCount : Z; dr_OrderPrice : Z; dr_CanRefund : bool; dr_RefundBlockedReason : string }.
Record RefundPreviewResult := mkPreviewResult {
  vr_OrderID : string; vr_AllowRefund : bool; vr_RefundAmount : string; vr_RefundPercent : Z; vr_RejectReason : string }.
(** The time travels as an instant, as in [OrderFlow]. *)
Record RefundOrderResult := mkRefundResult {
  rr_OrderID : string; rr_Status : string; rr_RefundAmount : string; rr_RefundPercent : Z; rr_RefundBillNo : string;
  rr_RefundTime : option time }.

Definition formatOrderID (orderNumber : Z) : string := "ORD-" +:+ format_int orderNumber.

Definition upper (c : ascii) : ascii :=
  let n := Ascii.nat_of_ascii c in if (97 <=? n)%nat && (n <=? 122)%nat then Ascii.ascii_of_nat (n - 32) else c.
(** [strings.ToUpper], on the letters an order id has. *)
Fixpoint to_upper (s : string) : string := match s with EmptyString => "" | String c s => String (upper c) (to_upper s) end.
(** [strings.TrimPrefix(s, ORD-)]. *)
Definition trim_ord (s : string) : string :=
  match s with String "O" (String "R" (String "D" (String "-" rest))) => rest | _ => s end.

Definition invalid_order_id : err := EOther "invalid order_id".
Definition parseOrderID (orderID : string) : result err Z :=
  let normalized := trim_ord (trim_space (to_upper orderID)) in
  if bool_decide (normalized = "") then Err invalid_order_id
  else match parse_int64 normalized with Some orderNumber => Ok orderNumber | None => Err invalid_order_id end.

Definition unknown_status (status : Z) : string := "unknown:" +:+ format_int status.
Definition normalizeOrderStatus (status : Z) : string :=
  if status =? 1 then "unpaid" else if status =? 2 then "cancelled" else if status =? 3 then "paid"
  else if status =? 4 then "refunded" else unknown_status status.
Definition normalizePayStatus (status : Z) : string :=
  if status =? 1 then "unpaid" else if status =? 2 then "paid" else if status =? 3 then "refunded" else unknown_status status.
Definition normalizeTicketStatus (status : Z) : string :=
  if status =? 1 then "unpaid" else if status =? 2 then "cancelled" else if status =? 3 then "issued"
  else if status =? 4 then "refunded" else unknown_status status.

(** ** order_tools.go, refund_tools.go *)

Section tools.
Context {P R : Type} `{LocalTime} `{LocalFormat} `{ProgramRpc P} `{RedisHash R}.
Variable svc : OrderFlow.ServiceContext.
Notation W := (orders P R).

Definition ListUserOrders (args : ListUserOrdersArgs) : IO W ListUserOrdersResult :=
  resp ← ListOrders svc (mkListReq (la_UserID args) (la_OrderStatus args) (la_PageNumber args) (la_PageSize args));
  mret (mkListResult (map (fun order => mkOrderSummary (formatOrderID (li_OrderNumber order))
    (normalizeOrderStatus (li_OrderStatus order)) (li_ProgramTitle order) (li_ProgramShowTime order) (li_CreateOrderTime order))
    (lp_List resp))).

Definition GetOrderDetailForService (args : GetOrderDetailForServiceArgs) : IO W OrderDetailResult :=
  orderNumber ← lift (parseOrderID (ga_OrderID args));
  resp ← GetOrderServiceView svc (ga_UserID args) orderNumber;
  mret (mkDetailResult (formatOrderID (sw_OrderNumber resp)) (normalizeOrderStatus (sw_OrderStatus resp))
    (normalizePayStatus (sw_PayStatus resp)) (normalizeTicketStatus (sw_TicketStatus resp)) (sw_ProgramTitle resp)
    (sw_ProgramShowTime resp) (sw_TicketCount resp) (sw_OrderPrice resp) (sw_CanRefund resp) (sw_RefundBlockedReason resp)).

Definition PreviewRefundOrder (args : PreviewRefundOrderArgs) : IO W RefundPreviewResult :=
  orderNumber ← lift (parseOrderID (pw_OrderID args));
  resp ← OrderFlow.PreviewRefundOrder svc (pw_UserID args) orderNumber;
  mret (mkPreviewResult (formatOrderID (pv_OrderNumber resp)) (pv_AllowRefund resp) (format_int (pv_RefundAmount resp))
    (pv_RefundPercent resp) (pv_RejectReason resp)).

Definition RefundOrder (args : RefundOrderArgs) : IO W RefundOrderResult :=
  orderNumber ← lift (parseOrderID (rw_OrderID args));
  resp ← OrderFlow.RefundOrder svc (mkRefundOrderReq (rw_UserID args) orderNumber (rw_Reason args));
  mret (mkRefundResult (formatOrderID (rf_OrderNumber resp)) (normalizeOrderStatus (rf_OrderStatus resp))
    (format_int (rf_RefundAmount resp)) (rf_RefundPercent resp) (format_int (rf_RefundBillNo resp)) (rf_RefundTime resp)).
End tools.

Lemma upper_int c : int_char c = true -> upper c = c.
Proof. destruct c as [[] [] [] [] [] [] [] []]; vm_compute; congruence. Qed.
Lemma to_upper_int s : sall int_char s = true -> to_upper s = s.
Proof.
  induction s as [|c s IH]; [done|]. cbn. intros [Hc Hs]%andb_true_iff. by rewrite (upper_int _ Hc), IH.
Qed.

(** An agent that hands an order's id back, as it was given, in small letters or as the
    bare number, means the same order. *)
Theorem order_id_roundtrip n : in_int64 n = true ->
  parseOrderID (formatOrderID n) = Ok n /\ parseOrderID ("ord-" +:+ format_int n) = Ok n /\
  (0 <= n -> parseOrderID (format_int n) = Ok n).
Proof.
  intros Hn. pose proof (to_upper_int _ (format_int_chars n)) as Hu. pose proof (format_int_nospace n) as Hs.
  assert (Hord : forall s, to_upper s = "ORD-" +:+ format_int n -> parseOrderID s = Ok n).
  { intros s E. unfold parseOrderID. rewrite E, trim_space_nospace by (cbn -[format_int]; exact Hs).
    cbn -[format_int parse_int64]. rewrite bool_decide_eq_false_2 by apply format_int_nonempty. by rewrite parse_format. }
  split_and!; [apply Hord; change ("ORD-" +:+ to_upper (format_int n) = "ORD-" +:+ format_int n); by rewrite Hu..|]. intros Hpos. unfold parseOrderID. rewrite Hu, trim_space_nospace by done.
  assert (Ht : trim_ord (format_int n) = format_int n).
  { destruct (format_int n) as [|c s] eqn:E; [done|]. apply format_head_digit in E; [|done].
    destruct c as [[] [] [] [] [] [] [] []]; by vm_compute in E. }
  rewrite Ht, bool_decide_eq_false_2 by apply format_int_nonempty. by rewrite parse_format.
Qed.
End OrderMcp.

Module ProgramMcp.

(** ** types.go *)

Record PageProgramsArgs := mkPageArgs { pn_PageNumber : Z; pn_PageSize : Z }.
Record GetProgramDetailArgs := mkProgramArgs { gd_ProgramID : string }.
Record ProgramSummary := mkProgramSummary { sm_ProgramID : string; sm_Title : string; sm_ShowTime : string }.
Record PageProgramsResult := mkPageResult { pe_Programs : list ProgramSummary }.
Record ProgramDetailResult := mkProgramResult { pd_ProgramID : string; pd_Title : string; pd_ShowTime : string; pd_Place : string }.

Definition parseProgramID (programID : string) : result err Z :=
  let normalized := trim_space programID in
  if bool_decide (normalized = "") then Err (EOther "invalid program_id")
  else match parse_int64 normalized with Some id => Ok id | None => Err (EOther "invalid program_id") end.
Definition formatProgramID (programID : Z) : string := format_int programID.

(** ** program_tools.go *)

Section tools.
Context {R : Type} `{LocalFormat} `{GroupJson} `{ColumnPrims}.
Notation C := (catalogue R).

Definition PagePrograms (args : PageProgramsArgs) : IO C PageProgramsResult :=
  resp ← ProgramQuery.PagePrograms (mkPageReq (pn_PageNumber args) (pn_PageSize args) 0 0 0 0 "" "" 0);
  mret (mkPageResult (map (fun program => mkProgramSummary (formatProgramID (li_Id program)) (li_Title program) (li_ShowTime program))
    (ProgramQuery.pe_List resp))).

Definition GetProgramDetail (args : GetProgramDetailArgs) : IO C ProgramDetailResult :=
  programID ← lift (parseProgramID (gd_ProgramID args));
  resp ← ProgramCache.GetProgramDetailView programID;
  mret (mkProgramResult (formatProgramID (dv_Id resp)) (dv_Title resp) (dv_ShowTime resp) (tx_Place (dv_Texts resp))).
End tools.

Lemma program_id_roundtrip n : in_int64 n = true -> parseProgramID (formatProgramID n) = Ok n.
Proof.
  intros Hn. unfold parseProgramID, formatProgramID. rewrite trim_space_nospace by apply format_int_nospace.
  rewrite bool_decide_eq_false_2 by apply format_int_nonempty. by rewrite parse_format.
Qed.
End ProgramMcp.
