(* ===== verification/CacheSubscriber.v ===== *)
(** * The subscriber of the invalidations  (programcache/invalidation_pubsub.go)

    The goroutine of an instance that connects to Redis, hands every message of the
    channel to the caches, and connects again after the backoff when the connection
    breaks.  Redis is a class with what it documents of Pub/Sub: a subscriber is sent the
    messages published after it subscribed, in order, each at most once; nothing is kept
    for those who are not connected. *)
From Stdlib Require Import ZArith Lia Ascii String.
From stdpp Require Import base gmap sets list strings.
From S2P Require Import Prelude GoBase Effects OrderEvents ProgramDB SeatFreeze ProgramCache.
Open Scope string_scope.
Open Scope list_scope.
Open Scope nat_scope.

(** ** The addresses *)

Definition splitRedisAddrs (addr : string) : list string :=
  if bool_decide (addr = "") then []
  else filter (fun item => item <> "") (map trim_space (split_on "," addr)).

(** [xredis.Client] and the options of the go-redis client. *)
Record redis_conf := mkRedisConf { rs_Addr : string; rs_User : string; rs_Pass : string; rs_Type : string }.
Record UniversalOptions := mkUniversal { uo_Addrs : list string; uo_Username : string; uo_Password : string; uo_IsClusterMode : bool }.
Definition buildGoRedisClient (store : option redis_conf) : result err UniversalOptions :=
  match store with
  | None => Err (EOther "redis client is required")
  | Some c =>
      match splitRedisAddrs (rs_Addr c) with
      | [] => Err (EOther "redis addr is empty")
      | addrs => Ok (mkUniversal addrs (rs_User c) (rs_Pass c) (bool_decide (rs_Type c = "cluster")))
      end
  end.

(** ** Pub/Sub *)

Class PubSub (K : Type) := {
  new_client : IO K unit;
  subscribe : IO K unit;
  receiveMessage : IO K string }.
Class PubSubLaws (K : Type) `{PubSub K} := {
  (** Everything that was ever published, and what the subscriber would be sent next. *)
  published : K -> list string;
  cursor : K -> nat;
  new_client_spec e k r e' k' : new_client (e, k) = (r, (e', k')) -> published k `prefix_of` published k' /\ cursor k' = cursor k;
  subscribe_spec e k r e' k' : subscribe (e, k) = (r, (e', k')) ->
    published k `prefix_of` published k' /\ (cursor k <= length (published k) -> cursor k <= cursor k' <= length (published k'));
  receive_spec e k r e' k' : receiveMessage (e, k) = (r, (e', k')) -> published k `prefix_of` published k' /\
    match r with
    | Ok payload => published k' !! cursor k = Some payload /\ cursor k' = S (cursor k)
    | Err _ => cursor k' = cursor k
    end }.

Section subscriber.
Context {K : Type} `{PubSub K} `{InvalidationCodec}.
(** The context is cancelled, or [Close] was called: the process shuts down. *)
Variable closed : env -> bool.
Notation W := (K * (list string * local_cache))%type.

Definition on_link {A} : IO K A -> IO W A := on fst (fun k w => (k, w.2)).
Definition is_closed : IO W bool := fun '(e, w) => (Ok (closed e), (e, w)).

(** A message that can not be read is logged; what was noted of it stays. *)
Definition handle (payload : string) : IO W unit := fun '(e, (k, (notes, l))) =>
  (Ok tt, (e, (k, (notes ++ [payload], (handlePayload payload l).2)))).

(** [true]: the goroutine has to end.  [fuel] says how far the loop is followed. *)
Fixpoint receive_loop (fuel : nat) : IO W unit :=
  match fuel with
  | O => mret tt
  | S fuel =>
      stop ← is_closed;
      if (stop : bool) then mret tt
      else
        msg ← attempt (on_link receiveMessage);
        match msg with
        | Err _ => mret tt
        | Ok payload => _ ← handle payload; receive_loop fuel
        end
  end.
Definition consume (fuel : nat) : IO W unit := _ ← on_link subscribe; receive_loop fuel.

Definition waitBackoff (reconnectBackoff : duration) : IO W bool :=
  if (reconnectBackoff <=? 0)%Z then mret true
  else _ ← sleep reconnectBackoff; stop ← is_closed; mret (negb stop).

Fixpoint Start (reconnectBackoff : duration) (reconnects fuel : nat) : IO W unit :=
  match reconnects with
  | O => mret tt
  | S reconnects =>
      stop ← is_closed;
      if (stop : bool) then mret tt
      else
        client ← attempt (on_link new_client);
        _ ← (match client with Err _ => mret tt | Ok _ => consume fuel end);
        again ← waitBackoff reconnectBackoff;
        if (again : bool) then Start reconnectBackoff reconnects fuel else mret tt
  end.
End subscriber.

(** ** What the caches have seen *)

Section follow.
Context {K : Type} `{PubSubLaws K} `{InvalidationCodec}.
Variable closed : env -> bool.
Notation W := (K * (list string * local_cache))%type.

Definition handled (l : local_cache) (notes : list string) : local_cache := foldl (fun l p => (handlePayload p l).2) l notes.

Arguments handled : simpl never.
Lemma handled_snoc l notes p : handled l (notes ++ [p]) = (handlePayload p (handled l notes)).2.
Proof. unfold handled. by rewrite foldl_app. Qed.

Section run.
Variables (from : nat) (before base : list string) (l0 : local_cache).

(** Since the messages [before] were handled, every message from position [from] on. *)
Definition follows (w : W) : Prop := exists n, w.2.1 = before ++ take n (drop from (published w.1)) /\
  cursor w.1 = from + n /\ from + n <= length (published w.1) /\ w.2.2 = handled l0 w.2.1 /\
  base `prefix_of` published w.1.

Lemma follows_grow n k k' : published k `prefix_of` published k' -> from + n <= length (published k) ->
  take n (drop from (published k')) = take n (drop from (published k)).
Proof.
  intros [more ->] Hn. rewrite drop_app_le by lia. by rewrite take_app_le by (rewrite length_drop; lia).
Qed.

Lemma receive_follows fuel : keeps follows (receive_loop closed fuel).
Proof.
  induction fuel as [|fuel IH]; cbn [receive_loop]; [apply keeps_ret|]. apply keeps_bind; [by intros [e w] Hw|].
  intros b. destr_if; [apply keeps_ret|]. intros [e [k [notes l]]] (n & Hnotes & Hc & Hlen & Hl & Hb). cbn in Hnotes, Hc, Hlen, Hl, Hb.
  rewrite bind_unfold, attempt_run. unfold on_link, on. cbn [fst snd].
  destruct (receiveMessage (e, k)) as [r [e1 k1]] eqn:Er. destruct (receive_spec _ _ _ _ _ Er) as [Hp Hr].
  pose proof (prefix_length _ _ Hp). destruct r as [payload|x]; cbn [fst snd].
  - destruct Hr as [Hat Hc1]. rewrite bind_unfold. cbn [handle]. apply IH.
    assert (Hlt : cursor k < length (published k1)) by by eapply lookup_lt_Some.
    exists (S n). cbn [fst snd]. split_and!; [|lia|lia| |by etransitivity].
    + rewrite Hnotes, <- app_assoc. f_equal. rewrite <- (follows_grow n k k1) by done. symmetry. apply take_S_r.
      rewrite lookup_drop. by rewrite <- Hc.
    + rewrite handled_snoc. by rewrite <- Hl.
  - apply (keeps_ret follows tt (e1, _)). exists n. cbn [fst snd]. split_and!; [|lia|lia|done|by etransitivity]. by rewrite (follows_grow n k k1).
Qed.
End run.

(** The notes are messages of the channel in their order, some perhaps missing. *)
Definition in_order (l0 : local_cache) (w : W) : Prop :=
  w.2.1 `sublist_of` take (cursor w.1) (published w.1) /\ cursor w.1 <= length (published w.1) /\ w.2.2 = handled l0 w.2.1.

Lemma in_order_grow l0 k k' notes l : published k `prefix_of` published k' -> cursor k <= cursor k' <= length (published k') ->
  in_order l0 (k, (notes, l)) -> in_order l0 (k', (notes, l)).
Proof.
  intros [more Hp] Hc (Hs & Hle & Hl). unfold in_order. cbn in *. split_and!; [|lia|done]. etransitivity; [exact Hs|].
  rewrite Hp. rewrite <- (take_app_le (published k) more) by lia. set (all := published k ++ more).
  replace (cursor k) with (cursor k `min` cursor k') by lia. rewrite <- take_take. apply sublist_take.
Qed.

Lemma consume_in_order l0 fuel : keeps (in_order l0) (consume closed fuel).
Proof.
  intros [e [k [notes l]]] Hw. unfold consume. rewrite bind_unfold. unfold on_link, on. cbn [fst snd].
  destruct (subscribe (e, k)) as [r [e1 k1]] eqn:Es. destruct (subscribe_spec _ _ _ _ _ Es) as [Hp Hc].
  pose proof Hw as (_ & Hle & _). cbn in Hle. pose proof (in_order_grow l0 k k1 notes l Hp (Hc Hle) Hw) as Hw1.
  destruct r as [[]|x]; [|exact Hw1]. destruct Hw1 as (Hs & Hle1 & Hl). cbn in Hs, Hle1, Hl.
  pose proof (receive_follows (cursor k1) notes (published k1) l0 fuel (e1, (k1, (notes, l)))) as Hf.
  destruct (receive_loop closed fuel (e1, (k1, (notes, l)))) as [r2 [e2 [k2 [notes2 l2]]]] eqn:Er.
  destruct Hf as (n & Hn & Hc2 & Hlen & Hl2 & more & Hp2); [by exists 0; rewrite app_nil_r, Nat.add_0_r|]. cbn in *.
  split_and!; cbn; [|lia|done]. rewrite Hn, Hc2.
  rewrite <- (take_drop (cursor k1) (take (cursor k1 + n) (published k2))), take_take, Nat.min_l by lia.
  apply sublist_app; [|by rewrite skipn_firstn_comm, Nat.add_comm, Nat.add_sub].
  by rewrite Hp2, take_app_le.
Qed.

Lemma start_in_order l0 backoff reconnects fuel : keeps (in_order l0) (Start closed backoff reconnects fuel).
Proof.
  assert (Hstop : keeps (in_order l0) (is_closed closed)) by by intros [e w] Hw.
  induction reconnects as [|reconnects IH]; cbn [Start]; [apply keeps_ret|]. apply keeps_bind; [done|].
  intros b. destr_if; [apply keeps_ret|]. apply keeps_bind.
  - apply keeps_attempt. intros [e [k [notes l]]] Hw. unfold on_link, on. cbn [fst snd].
    destruct (new_client (e, k)) as [r [e1 k1]] eqn:E. destruct (new_client_spec _ _ _ _ _ E) as [Hp Hc].
    pose proof (prefix_length _ _ Hp). pose proof Hw as (_ & Hle & _). cbn in Hle.
    apply (in_order_grow l0 k k1 notes l Hp); [lia|done].
  - intros client. apply keeps_bind; [destruct client; [apply consume_in_order|apply keeps_ret]|]. intros u.
    apply keeps_bind; [|intros again; destr_if; [done|apply keeps_ret]].
    unfold waitBackoff. destr_if; [apply keeps_ret|]. apply keeps_bind; [by intros [e w] Hw|]. intros v.
    apply keeps_bind; [done|]. intros b'. apply keeps_ret.
Qed.

(** The caches of an instance follow the channel.  Whatever breaks, what the goroutine
    hands to the caches are messages of the channel in the order they were published,
    and the caches are as those messages leave them: one that can not be read changes
    nothing and stops nothing. *)
Theorem subscriber_follows backoff reconnects fuel e k l : cursor k <= length (published k) ->
  let '(_, (_, (k', (notes, l')))) := Start closed backoff reconnects fuel (e, (k, ([], l))) in
  notes `sublist_of` published k' /\ l' = handled l notes.
Proof.
  intros Hk. pose proof (start_in_order l backoff reconnects fuel (e, (k, ([], l)))) as Hs.
  destruct (Start closed backoff reconnects fuel (e, (k, ([], l)))) as [r [e' [k' [notes l']]]].
  destruct Hs as (Hs & _ & Hl); [split_and!; [apply sublist_nil_l|done|done]|]. split; [|done].
  etransitivity; [exact Hs|apply sublist_take].
Qed.

(** While the connection holds, no message is missed: from the moment it subscribed, what
    it handled are all messages up to the one it would be sent next. *)
Theorem connected_misses_nothing fuel e k l : cursor k <= length (published k) ->
  let '(_, (_, (k', (notes, l')))) := receive_loop closed fuel (e, (k, ([], l))) in
  exists n, cursor k' = cursor k + n /\ notes = take n (drop (cursor k) (published k')) /\ length notes = n.
Proof.
  intros Hk. pose proof (receive_follows (cursor k) [] (published k) l fuel (e, (k, ([], l)))) as Hf.
  destruct (receive_loop closed fuel (e, (k, ([], l)))) as [r [e' [k' [notes l']]]].
  destruct Hf as (n & Hn & Hc & Hlen & _); [by exists 0; rewrite Nat.add_0_r|]. cbn in *. exists n. split_and!; [done|done|].
  rewrite Hn, length_take, length_drop. lia.
Qed.
End follow.
