(* ===== verification/SubscriberDemo.v ===== *)
(** * A subscriber and a break

    A channel whose messages arrive as a script says, and an instance that misses one
    while it is not connected. *)
From Stdlib Require Import ZArith Lia Ascii String.
From stdpp Require Import base gmap sets list strings countable.
From S2P Require Import Prelude GoBase Effects OrderEvents ProgramDB SeatFreeze ProgramCache ProgramDemo CacheSubscriber.
Open Scope string_scope.
Open Scope list_scope.
Open Scope nat_scope.

(** What happens before each receive: messages are published, and the connection breaks or
    holds. *)
Record mem_channel := mkChannel { mc_log : list string; mc_cursor : nat; mc_script : list (list string * bool) }.
Definition mem_receive : IO mem_channel string := fun '(e, c) =>
  let '(news, breaks, script) := match mc_script c with [] => ([], true, []) | (news, breaks) :: script => (news, breaks, script) end in
  let log := mc_log c ++ news in
  if (breaks : bool) then (Err (EOther "EOF"), (e, mkChannel log (mc_cursor c) script))
  else match log !! mc_cursor c with
       | Some payload => (Ok payload, (e, mkChannel log (S (mc_cursor c)) script))
       | None => (Err (EOther "i/o timeout"), (e, mkChannel log (mc_cursor c) script))
       end.
#[local] Instance mem_pubsub : PubSub mem_channel := {
  new_client '(e, c) := (Ok tt, (e, c));
  subscribe '(e, c) := (Ok tt, (e, mkChannel (mc_log c) (length (mc_log c)) (mc_script c)));
  receiveMessage := mem_receive }.
#[local] Instance mem_pubsub_laws : PubSubLaws mem_channel.
Proof.
  refine {| published := mc_log; cursor := mc_cursor |}.
  - intros e k r e' k' [= <- <- <-]. done.
  - intros e k r e' k' [= <- <- <-]. cbn. split; [done|]. lia.
  - intros e k r e' k'. cbn. unfold mem_receive.
    destruct (match mc_script k with [] => _ | _ => _ end) as [[news breaks] script].
    assert (Hp : mc_log k `prefix_of` mc_log k ++ news) by by apply prefix_app_r.
    destruct breaks; [by intros [= <- <- <-]|]. destruct (_ !! _) as [payload|] eqn:E; by intros [= <- <- <-].
Defined.

Definition about (p : Z) : string := encode_message (mkInvalidation "v1" "program-rpc" "b" 0%Z [mkEntry cacheProgramDetailView p]).
Definition remembers_two : local_cache := mkLocal ∅ {[1%Z; 2%Z]} None.
(** A message about program 1 arrives; the connection breaks as one about program 2 is
    published; one that makes no sense and one about program 1 follow. *)
Definition script : list (list string * bool) := [([about 1], false); ([about 2], true); (["?"], false); ([about 1], false)].
Definition followed : list string * local_cache :=
  (Start (fun _ => false) second 2 2 (quiet, (mkChannel [] 0 script, ([], remembers_two)))).2.2.2.

Lemma subscriber_follows_witness : followed.1 = [about 1; "?"; about 1] /\ followed.2 = handled remembers_two followed.1.
Proof.
  split; [vm_compute; reflexivity|]. unfold followed.
  pose proof (subscriber_follows (fun _ => false) second 2 2 quiet (mkChannel [] 0 script) remembers_two (le_n 0)) as Hf.
  destruct (Start (fun _ => false) second 2 2 (quiet, (mkChannel [] 0 script, ([], remembers_two)))) as [r [e' [k' [notes l']]]].
  exact (proj2 Hf).
Defined.

(** The message about program 2 is never seen: what the instance remembers of it stays,
    until it expires. *)
Example missed_while_disconnected : lc_missing followed.2 = {[2%Z]}.
Proof. vm_compute. reflexivity. Qed.
