(* ===== verification/TokenBuyers.v ===== *)
(** * Who a purchase token is issued to  (order-rpc with user-rpc behind it)

    order-rpc asks the user service for a user's ticket users when it issues a token and
    when it builds the event of an order.  Here that service is user-rpc. *)
From Stdlib Require Import ZArith Lia Ascii String.
From stdpp Require Import base gmap sets list strings sorting.
From S2P Require Import Prelude GoBase Effects Sql Sharding OrderNumberGen Redis RedisZ RushRecord RushStore PurchaseToken ProgramDB SeatFreeze OrderDB OrderRepo OrderFlow OrderCreate OrderAnswers OrderQuery UserDB UserService UserAccounts UserApi OrderEvents.
Open Scope string_scope.
Open Scope list_scope.
Open Scope Z_scope.

(** ** user-rpc as order-rpc sees it *)

(** The fields order-rpc reads. *)
Definition order_view (t : UserService.TicketUserInfo) : TicketUserInfo :=
  mkTicketUser (ti_Id t) (ti_UserId t) (ti_RelName t) (ti_IdNumber t).

#[export] Instance user_service {K} `{RedisZ K} : UserRpc (userworld K) := {
  rpc_GetUserAndTicketUserList userID := '(_, l) ← GetUserAndTicketUserList userID; mret (map order_view l) }.

(** ** The check of the requested ticket users *)

Lemma ticket_user_map_elem l i u : ticket_user_map l !! i = Some u -> u ∈ l /\ tu_Id u = i.
Proof.
  unfold ticket_user_map. assert (Hgen : forall m : gmap Z TicketUserInfo, foldl (fun m u => <[tu_Id u := u]> m) m l !! i = Some u ->
    (u ∈ l /\ tu_Id u = i) \/ m !! i = Some u).
  { induction l as [|v l IH]; cbn; intros m Hm; [by right|]. destruct (IH _ Hm) as [[? ?]|Hi]; [left; split; [by right|done]|].
    destruct (decide (tu_Id v = i)) as [<-|]; [|by right; rewrite lookup_insert_ne in Hi].
    rewrite lookup_insert_eq in Hi. injection Hi as ->. left. by split; [left|]. }
  intros Hm. by destruct (Hgen ∅ Hm).
Qed.

Lemma requested_ok users userID ids seen : check_requested users userID seen ids = Ok tt ->
  NoDup ids /\ (forall i, i ∈ ids -> i ∉ seen) /\ Forall (fun i => exists u, users !! i = Some u /\ tu_UserId u = userID) ids.
Proof.
  revert seen. induction ids as [|i ids IH]; cbn; intros seen Hc; [by split_and!; [constructor|set_solver|constructor]|].
  case_bool_decide as Hs; [done|]. destruct (users !! i) as [u|] eqn:Hu; [|done]. destruct (Z.eqb_spec (tu_UserId u) userID) as [Eu|]; [|done].
  destruct (IH _ Hc) as (Hnd & Hsn & Hall). split_and!.
  - constructor; [|done]. intros Hi. specialize (Hsn _ Hi). set_solver.
  - intros j [->|Hj]%elem_of_cons; [done|]. specialize (Hsn _ Hj). set_solver.
  - constructor; [by exists u|done].
Qed.

(** ** What a token carries *)

Lemma verify_issued `{TokenPrimsLaws} c now claims token now1 now2 v : Issue (Some c) now claims = Ok token ->
  Verify (Some c) now1 now2 token = Ok v -> exists n, normalizeClaims c now claims = Ok n /\ normalizeClaims c now1 n = Ok v.
Proof.
  intros Hi Hv. pose proof Hi as Hi'. unfold Issue in Hi'. destruct (normalizeClaims c now claims) as [n|] eqn:Hn; [|done].
  rewrite (verify_of_issue _ _ _ _ _ _ _ Hi Hn) in Hv. destruct (normalizeClaims c now1 n) as [v'|] eqn:Hn'; [|done].
  revert Hv. destr_if; [done|]. intros [= <-]. eauto.
Qed.

(** What normalization leaves alone. *)
Definition same_purchase (a b : PurchaseTokenClaims) : Prop :=
  pt_OrderNumber a = pt_OrderNumber b /\ pt_UserID a = pt_UserID b /\ pt_ProgramID a = pt_ProgramID b /\
  pt_TicketCategoryID a = pt_TicketCategoryID b /\ pt_TicketUserIDs a = pt_TicketUserIDs b.

(** The ticket users [ids] are different rows of [d_ticket_user], all the user's. *)
Definition own_viewers (db : userdb) (userID : Z) (ids : list Z) : Prop :=
  NoDup ids /\ Forall (fun i => exists t, t ∈ ticket_users db /\ vw_Id t = i /\ vw_UserId t = userID) ids.

Lemma normalize_purchase c now a n : normalizeClaims c now a = Ok n ->
  same_purchase a n /\ pt_TicketCount n = Z.of_nat (length (pt_TicketUserIDs a)).
Proof.
  unfold normalizeClaims. destr_if; [done|]. destr_if; [done|]. destr_if; [done|]. intros [= <-]. cbn. split; [done|].
  by bool_norm.
Qed.

Section buyers.
Context {K : Type} `{RedisZ K}.

Lemma viewers_answered e (w : userworld K) userID l e' w' :
  rpc (rpc_GetUserAndTicketUserList userID) (e, w) = (Ok l, (e', w')) ->
  uw_db w' = uw_db w /\ userID ∈ user_ids (uw_db w) /\
  forall u, u ∈ l -> exists t, t ∈ ticket_users (uw_db w) /\ vw_Id t = tu_Id u /\ vw_UserId t = userID /\ tu_UserId u = userID.
Proof.
  intros [e1 Hr]%rpc_ok. cbn in Hr. apply bind_ok in Hr as ([u l0] & [e2 w2] & Hg & [<- [= <- <-]]%ret_ok).
  assert (Hrd : triple (R := K) (fun db => db = uw_db w) (GetUserAndTicketUserList userID)
    (fun r db => db = uw_db w /\ forall x, r = Ok x -> userID ∈ user_ids db /\ Forall (fun v => exists t, t ∈ ticket_users db /\ vw_Id t = ti_Id v /\ vw_UserId t = userID /\ ti_UserId v = userID) x.2)).
  { eapply triple_bind; [apply triple_found|by intros x db [? _]|]. intros v.
    eapply triple_bind; [apply of_user_leads|by intros x db [[? _] _]|]. intros l1. apply triple_ret. intros db [[Hp Hu] Hl]. split; [done|].
    intros x [= <-]. specialize (Hu v eq_refl). unfold user_by in Hu. apply find_elem in Hu as [Hin Hid%Z.eqb_eq].
    split; [by apply list_elem_of_fmap; exists v|]. apply Forall_map. eapply Forall_impl; [by apply Hl|]. intros t [? ?]. cbn. eauto. }
  specialize (Hrd e1 w eq_refl). rewrite Hg in Hrd. cbn in Hrd. destruct Hrd as [Hdb Hx]. destruct (Hx _ eq_refl) as [Hu Hl].
  rewrite Hdb in Hu, Hl. split_and!; [done..|]. intros x (v & -> & Hv)%list_elem_of_fmap. cbn in Hl. rewrite Forall_forall in Hl. by apply Hl.
Qed.
Context `{LocalTime} `{LocalFormat} `{TokenPrims} `{EventCodec}.
Context {P R : Type} `{ProgramRpc P} `{PreorderRpc P} `{RedisHash R}.
Variable cx : CreateContext.
Notation W := (front P R (userworld K)).

Lemma on_front_users {A} (m : IO (orders P R) A) e (w : W) r e' w' : on_orders m (e, w) = (r, (e', w')) -> fr_users w' = fr_users w.
Proof. unfold on_orders, on. destruct (m _) as [q [e1 o]]. by intros [= _ _ <-]. Qed.
Lemma on_generator_users {A} (m : IO orderNumberGenerator A) e (w : W) r e' w' : on_generator m (e, w) = (r, (e', w')) -> fr_users w' = fr_users w.
Proof. unfold on_generator, on. destruct (m _) as [q [e1 o]]. by intros [= _ _ <-]. Qed.

(** C20: a purchase token is issued for the user's own ticket users.  The user exists and
    each requested ticket user is a row of that user, named once; the program's limit
    per order is respected and its ticket category is one of the preorder's.  Whoever
    verifies the token reads that user, those ticket users and that category from it. *)
Theorem token_for_own_viewers `{!TokenPrimsLaws} r e (w : W) token e' w' :
  CreatePurchaseToken cx r (e, w) = (Ok token, (e', w')) ->
  let db := uw_db (fr_users w) in
  uw_db (fr_users w') = db /\ tq_UserId r ∈ user_ids db /\ tq_TicketUserIds r <> [] /\
  own_viewers db (tq_UserId r) (tq_TicketUserIds r) /\
  (exists preorder e1 e2 p, rpc_GetProgramPreorder (tq_ShowTimeId r) (e1, ow_program (fr_orders w)) = (Ok preorder, (e2, p)) /\
     findPreorderTicketCategory (pp_TicketCategoryVoList preorder) (tq_TicketCategoryId r) <> None /\
     (0 < pp_PerOrderLimitPurchaseCount preorder ->
      Z.of_nat (length (tq_TicketUserIds r)) <= pp_PerOrderLimitPurchaseCount preorder)) /\
  forall now1 now2 claims, Verify (cc_PurchaseTokenCodec cx) now1 now2 token = Ok claims ->
    pt_UserID claims = tq_UserId r /\ pt_TicketUserIDs claims = tq_TicketUserIds r /\
    pt_TicketCategoryID claims = tq_TicketCategoryId r /\ pt_TicketCount claims = Z.of_nat (length (tq_TicketUserIds r)).
Proof.
  unfold CreatePurchaseToken. destruct (validateCreatePurchaseTokenReq r) eqn:Hval; [|done]. cbn [negb].
  destruct (cc_PurchaseTokenCodec cx) as [codec|]; [|done].
  intros (preorder & [e1 w1] & Hpre & Hrun)%bind_ok. pose proof (on_front_users _ _ _ _ _ _ Hpre) as F1.
  apply bind_ok in Hrun as (views & [e2 w2] & (us & Hviews & ->)%on_ok & Hrun). rewrite F1 in Hviews.
  apply viewers_answered in Hviews as (Hdb & Huser & Hown). cbn [fr_users] in *.
  assert (Hp : exists ea eb p, rpc_GetProgramPreorder (tq_ShowTimeId r) (ea, ow_program (fr_orders w)) = (Ok preorder, (eb, p))).
  { apply on_ok in Hpre as (o & (p & [ea Hpre]%rpc_ok & ->)%on_ok & ->). eauto. }
  destruct Hp as (ea & eb & p & Hp).
  destruct (validateRequestedTicketUsers views (tq_UserId r) (tq_TicketUserIds r)) as [[]|] eqn:Hreq; [|done].
  apply requested_ok in Hreq as (Hnd & _ & Hids). case_bool_decide as Hcat; [done|]. destr_if; [done|].
  apply bind_ok in Hrun as ([] & [e3 w3] & Hlim & Hrun). apply bind_ok in Hrun as (n & [e4 w4] & Hnext & Hrun).
  assert (F3 : fr_users w3 = us).
  { revert Hlim. unfold check_account_limit. destr_if; [by intros [_ [= _ <-]]%ret_ok|].
    intros (c & [e5 w5] & Hc%on_front_users & Hlim)%bind_ok. revert Hlim. destr_if; [done|]. by intros [_ [= _ <-]]%ret_ok. }
  apply on_generator_users in Hnext as F4. rewrite F3 in F4.
  destruct (parsePurchaseTokenTime (pp_RushSaleEndTime preorder) _) as [tw|]; [|done].
  destruct (parsePurchaseTokenTime (pp_ShowTime preorder) _) as [ts|]; [|done].
  apply bind_ok in Hrun as (t & [e6 w6] & [-> _]%now_state & Hrun).
  destruct (Issue _ _ _) as [token'|] eqn:Hissue; [|done]. apply ret_ok in Hrun as [-> [= _ <-]]. rewrite F4.
  split; [done|]. split; [done|]. split; [|split; [split; [done|]|split]].
  - intros Hnil. unfold validateCreatePurchaseTokenReq in Hval. rewrite Hnil in Hval. by rewrite orb_true_r in Hval.
  - eapply Forall_impl; [exact Hids|]. intros i (u & [Hu Hi]%ticket_user_map_elem & Hown'). destruct (Hown _ Hu) as (x & ? & ? & ? & ?).
    exists x. by rewrite <- Hi.
  - exists preorder, ea, eb, p. split_and!; [done..|]. intros Hpos. bool_norm. lia.
  - intros now1 now2 claims Hv. destruct (verify_issued _ _ _ _ _ _ _ Hissue Hv) as (m & Hm & Hc).
    apply normalize_purchase in Hm as [(_ & U1 & _ & C1 & I1) _]. apply normalize_purchase in Hc as [(_ & U2 & _ & C2 & I2) N2].
    cbn in *. rewrite N2. by rewrite <- U2, <- I2, <- C2, <- I1, <- U1, <- C1.
Qed.
End buyers.
