(* ===== verification/OrderDemo.v ===== *)
(** * An order at work

    One database and one table, an order for two seats, and the services around it:
    witnesses for the theorems on the life of an order. *)
From Stdlib Require Import ZArith Lia Ascii String.
From stdpp Require Import base gmap sets list strings relations.
From S2P Require Import Prelude GoBase Sharding OrderNumberGen Effects Sql Redis RushRecord RushStore RushDemo FreezeToken PayService ProgramDB RefundRule RedisZ SeatDB SeatStore SeatDemo SeatFreeze SeatFreezeDemo OrderDB OrderRepo OrderPaging OrderFlow OrderCreate OrderLife ProgramService OrderAnswers OrderQuery OrderEvents OrderConsume OrderHandlers OrderLiveness.
Import Slot Codec Routes MemRedis MemZ.
Open Scope string_scope.
Open Scope list_scope.
Open Scope Z_scope.

(** ** The configuration *)

Definition issued_at : time := time_of_unix 1770000000.
Definition demo_number : Z := match BuildOrderNumber 1 issued_at 0 0 with Ok n => n | Err _ => 0 end.

Definition demo_map : RouteMap :=
  mkRouteMap "v1" {["v1" := {[LogicSlotByUserID 1 :=
    mkEntry "v1" (LogicSlotByUserID 1) "order-db-0" "00" "stable" "shard_primary"]}]}.
Definition demo_router : StaticRouter := NewStaticRouter demo_map.
Definition demo_deps : Dependencies := mkDeps (Some demo_map) (Some demo_router).
Definition demo_route : Route := mkRoute (LogicSlotByUserID 1) "order-db-0" "00" "v1" "shard_primary" "stable".

Definition demo_shard : shard := mkShard {["00" := []]} {["00" := []]} [] [] [] [].
Definition demo_dbs : gmap string shard := {["order-db-0" := demo_shard]}.

Definition demo_local : LocalTime := fun s =>
  if bool_decide (s = "noon") then Some (time_of_unix 1000)
  else if bool_decide (s = "deadline") then Some (time_of_unix 1770000900) else None.

Definition demo_event : OrderCreateEvent :=
  mkEvent "e" OrderCreateEventVersion demo_number "r" "noon" 1 7 3 5 [21; 22] 2 "express" "paper" "deadline" "deadline"
    demo_token "deadline" (mkProgramSnapshot "show" "" "" "noon" 1) (mkCategorySnapshot 5 "floor" 100)
    [mkUserSnapshot 21 "a" "1"; mkUserSnapshot 22 "b" "2"] [mkSeatSnapshot 13 2 6 100; mkSeatSnapshot 14 2 7 100].

(** The clock [s] seconds after the order was issued, with fresh identifiers from [i]. *)
Definition at_second (s i : Z) : env := mkEnv [] [] (time_of_unix (1770000000 + s)) [i; i + 1; i + 2; i + 3; i + 4; i + 5; i + 6; i + 7; i + 8].

Definition demo_models : option orderWriteModels :=
  match (@mapEventToOrderWriteModels demo_local unit demo_event issued_at (at_second 0 100, tt)).1 with
  | Ok m => Some m | Err _ => None end.

(** ** The databases after each transaction *)

Definition written (d : gmap string shard) : gmap string shard :=
  match demo_models with
  | Some m => (TransactByOrderNumber demo_deps demo_number (createTx m) (at_second 1 0, d)).2.2
  | None => d
  end.
Definition dbs1 : gmap string shard := written demo_dbs.
Definition dbs2 : gmap string shard :=
  (TransactByOrderNumber demo_deps demo_number (payTx demo_number issued_at) (at_second 2 0, dbs1)).2.2.

Lemma written_step d : @order_step demo_deps demo_local d (written d).
Proof.
  unfold written. destruct demo_models as [m|] eqn:E; [|vm_compute in E; discriminate].
  unfold demo_models in E. destruct (mapEventToOrderWriteModels demo_event issued_at _) as [[m'|x] es] eqn:Em; [|done].
  injection E as <-. eapply (step_write _ demo_event issued_at _ m' es _ d issued_at 0 0); [exact Em| |constructor].
  vm_compute. reflexivity.
Qed.

Lemma empty_demo : empty_dbs demo_dbs.
Proof.
  apply map_Forall_singleton. split; [|done]. intros s rows. cbn. intros [_ <-]%lookup_singleton_Some. done.
Qed.

Definition shard_of (d : gmap string shard) : shard := default demo_shard (d !! "order-db-0").
Definition row_of (d : gmap string shard) : option DOrder := s_orders (shard_of d) !! "00" ≫= head.

(** ** The services *)

#[local] Existing Instance demo_local.
#[local] Instance demo_program_rpc : ProgramRpc (world MemZ.mem) := program_service (Some demo_store).
#[local] Instance demo_program_laws : ProgramRpcLaws (world MemZ.mem) := program_service_laws (Some demo_store).
Definition demo_service : ServiceContext := mkSvc demo_deps (Some RushDemo.demo_store) true.
Notation services := (orders (world MemZ.mem) MemRedis.mem).

(** The program's show opens long after the sale; its seats are frozen for the order. *)
Definition demo_programdb : programdb :=
  mkProgramDB {[3 := demo_show (time_of_unix 1770900000)]} {[7 := demo_program]} ∅ [] no_cache.
Definition demo_program_world : world MemZ.mem :=
  mkWorld (w_redis frozen_world) (w_seats frozen_world) demo_programdb (w_categories frozen_world).

(** The order is written. *)
Definition services1 : services := mkOrders dbs1 MemRedis.mem_empty demo_program_world empty_pay.
Definition demo_pay_req : PayOrderReq := mkPayOrderReq 1 demo_number "" "".
(** It is paid. *)
Definition services2 : services := (PayOrder demo_service demo_pay_req (at_second 10 200, services1)).2.2.

Lemma demo_program_ok : program_ok (ow_program services1).
Proof. exact frozen_unique. Qed.

Lemma pay_order_ok_witness :
  exists o', order_now demo_deps (ow_dbs services2) demo_number o' /\ do_OrderStatus o' = 3 /\
    exists b, b ∈ Pay.pay_bills (ow_pay services2) /\ Pay.pb_OrderNumber b = demo_number.
Proof.
  unfold services2.
  destruct (PayOrder demo_service demo_pay_req (at_second 10 200, services1)) as [[resp|x] [e' w']] eqn:E;
    [|vm_compute in E; discriminate].
  destruct (pay_order_ok demo_service demo_pay_req _ services1 resp e' w' demo_program_ok E)
    as (o & o' & b & _ & _ & Ho' & _ & Hst & _ & (Hb & Hbn & _) & _).
  exists o'. split; [exact Ho'|]. split; [exact Hst|]. exists b. split; [exact Hb|exact Hbn].
Defined.

Lemma cancel_order_ok_witness :
  exists o', order_now demo_deps (ow_dbs (CancelOrder demo_service 1 demo_number (at_second 20 300, services1)).2.2)
      demo_number o' /\ do_OrderStatus o' = 2.
Proof.
  destruct (CancelOrder demo_service 1 demo_number (at_second 20 300, services1)) as [[[]|x] [e' w']] eqn:E;
    [|vm_compute in E; discriminate].
  destruct (cancel_order_ok demo_service 1 demo_number _ services1 e' w' demo_program_ok E)
    as (o & o' & _ & _ & Ho' & _ & Hst & _).
  exists o'. split; [exact Ho'|exact Hst].
Defined.

Definition demo_refund_req : RefundOrderReq := mkRefundOrderReq 1 demo_number "rain".

(** The handlers keep what the program service relies on. *)
Lemma demo_program_ok2 : program_ok (ow_program services2).
Proof.
  assert (map Id (w_seats (ow_program services2)) = map Id (w_seats frozen_world)) as E by (vm_compute; reflexivity).
  change (NoDup (map Id (w_seats (ow_program services2)))). rewrite E. exact frozen_unique.
Qed.

Lemma refund_order_ok_witness :
  exists resp, (RefundOrder demo_service demo_refund_req (at_second 20 300, services2)).1 = Ok resp /\
    rf_RefundAmount resp = 160 /\
    exists b, b ∈ Pay.refund_bills (ow_pay (RefundOrder demo_service demo_refund_req (at_second 20 300, services2)).2.2) /\
      Pay.rb_RefundAmount b = 160.
Proof.
  destruct (RefundOrder demo_service demo_refund_req (at_second 20 300, services2)) as [[resp|x] [e' w']] eqn:E;
    [|vm_compute in E; discriminate].
  destruct (refund_order_ok demo_service demo_refund_req _ services2 resp e' w' demo_program_ok2 E)
    as (o & o' & _ & _ & _ & _ & _ & (b & Hb & _ & _ & Ha) & _).
  assert (Hr : rf_RefundAmount resp = 160) by (vm_compute in E; injection E as <- _ _; reflexivity).
  exists resp. split; [reflexivity|]. split; [exact Hr|]. exists b. split; [exact Hb|]. rewrite <- Ha. exact Hr.
Defined.

Lemma numbers_unique1 : numbers_unique dbs1.
Proof.
  assert (E : dbs1 = {["order-db-0" := shard_of dbs1]}) by (vm_compute; reflexivity).
  assert (Et : s_orders (shard_of dbs1) = {["00" := default [] (s_orders (shard_of dbs1) !! "00")]}) by (vm_compute; reflexivity).
  intros key sh suffix rows Hk Hs. rewrite E in Hk. apply lookup_singleton_Some in Hk as [_ <-].
  rewrite Et in Hs. apply lookup_singleton_Some in Hs as [_ <-]. vm_compute. constructor; [apply not_elem_of_nil|constructor].
Qed.

Lemma demo_row1 : exists o, row_of dbs1 = Some o /\ in_table (shard_of dbs1) "00" o /\ do_OrderNumber o = demo_number /\
  do_OrderStatus o = 1 /\ active o = true.
Proof.
  destruct (row_of dbs1) as [o|] eqn:E; [|vm_compute in E; discriminate]. exists o. split; [done|]. split.
  - unfold row_of in E. destruct (s_orders (shard_of dbs1) !! "00") as [rows|] eqn:Er; [|done].
    exists rows. split; [done|]. destruct rows as [|x rows]; [done|]. cbn in E. injection E as ->. by left.
  - vm_compute in E. injection E as <-. done.
Qed.

Lemma dbs1_shard : dbs1 !! "order-db-0" = Some (shard_of dbs1).
Proof. vm_compute. reflexivity. Qed.

(** One second before the deadline the order stays; at the deadline it is closed. *)
Lemma close_only_expired_witness :
  exists o o', row_of dbs1 = Some o /\
    row_of (ow_dbs (CloseExpiredOrder demo_service demo_number (at_second 899 300, services1)).2.2) = Some o' /\ o' = o.
Proof.
  destruct demo_row1 as (o & E & Hin & Hn & Hst & _).
  destruct (close_only_expired demo_service demo_number (at_second 899 300) services1 "order-db-0" (shard_of dbs1) "00" o
    numbers_unique1 dbs1_shard Hin) as (sh' & o' & Hsh & Hin' & Hcase).
  exists o, o. split; [exact E|]. split; [|reflexivity].
  destruct Hcase as [->|(_ & _ & Hexp & _)].
  2: { exfalso. vm_compute in E. injection E as <-. vm_compute in Hexp. by apply Hexp. }
  clear -E. vm_compute in E. injection E as <-. vm_compute. reflexivity.
Defined.

(** ** The life of the order *)

Lemma steps12 : rtc (order_step demo_deps) demo_dbs dbs2.
Proof. eapply rtc_l; [apply written_step|]. apply rtc_once. apply step_pay. Qed.

Lemma order_lifecycle_witness :
  exists sh' o', dbs2 !! "order-db-0" = Some sh' /\ in_table sh' "00" o' /\ rtc status_step 1 (do_OrderStatus o').
Proof.
  destruct demo_row1 as (o & E & Hin & _ & Hst & _).
  destruct (order_lifecycle demo_deps demo_router eq_refl dbs1 dbs2 "order-db-0" (shard_of dbs1) "00" o
    ltac:(apply rtc_once; apply step_pay) dbs1_shard Hin) as (sh' & o' & H1 & H2 & _ & H4).
  exists sh', o'. rewrite Hst in H4. split; [exact H1|]. split; [exact H2|exact H4].
Defined.

Lemma one_active_order_witness : exists o, in_table (shard_of dbs1) "00" o /\ active o = true /\
  forall s o2, in_table (shard_of dbs1) s o2 -> active o2 = true -> do_UserId o = do_UserId o2 ->
    do_ShowTimeId o = do_ShowTimeId o2 -> o = o2.
Proof.
  destruct demo_row1 as (o & E & Hin & _ & _ & Ha). exists o. split; [exact Hin|]. split; [exact Ha|].
  intros s o2 Hin2 Ha2 Hu Hs.
  destruct (one_active_order demo_deps demo_router eq_refl demo_dbs dbs1 "order-db-0" (shard_of dbs1) "00" o
    "order-db-0" (shard_of dbs1) s o2 empty_demo (rtc_once _ _ (written_step _)) dbs1_shard Hin dbs1_shard Hin2 Ha Ha2 Hu Hs)
    as (_ & _ & H). exact H.
Defined.

Lemma guards_track_orders_witness :
  length (s_seat_guards (shard_of dbs1)) = 2%nat /\ NoDup (map gkey (s_seat_guards (shard_of dbs1))).
Proof.
  split; [vm_compute; reflexivity|].
  destruct (guards_track_orders demo_deps demo_router eq_refl demo_dbs dbs1 "order-db-0" (shard_of dbs1) empty_demo
    (rtc_once _ _ (written_step _)) dbs1_shard) as (_ & _ & H & _). exact H.
Defined.

(** ** The scan *)

Lemma expired_scan_exact_witness :
  exists o, row_of dbs1 = Some o /\
    (FindExpiredUnpaidBySlot demo_deps (LogicSlotByUserID 1) (time_of_unix 1770000900) 10
       (still (time_of_unix 1770000900) [], dbs1)).1 = Ok [o].
Proof.
  destruct demo_row1 as (o & E & Hin & _). exists o. split; [exact E|].
  destruct (s_orders (shard_of dbs1) !! "00") as [rows|] eqn:Er; [|vm_compute in Er; discriminate].
  assert (Hrows : rows = [o]).
  { vm_compute in E, Er. injection E as <-. injection Er as <-. reflexivity. }
  rewrite (expired_scan_exact demo_deps demo_map demo_route dbs1 (shard_of dbs1) rows); [| |vm_compute; reflexivity|exact dbs1_shard|exact Er|].
  - cbn [fst]. subst rows. vm_compute in E. injection E as <-. vm_compute. reflexivity.
  - reflexivity.
  - subst rows. cbn. constructor; [apply not_elem_of_nil|constructor].
Defined.

Lemma order_rows_typed_witness : exists o, in_table (shard_of dbs1) "00" o /\ typed_row o /\ do_OrderPrice o = 200.
Proof.
  destruct demo_row1 as (o & E & Hin & _). exists o. split; [exact Hin|]. split.
  - exact (proj1 (order_rows_typed demo_deps demo_router eq_refl demo_dbs dbs1 "order-db-0" (shard_of dbs1) "00" o
      empty_demo (rtc_once _ _ (written_step _)) dbs1_shard Hin)).
  - vm_compute in E. injection E as <-. reflexivity.
Defined.

(** ** Handlers *)

Lemma handlers_run_transactions_witness :
  rtc (order_step demo_deps) dbs1 (ow_dbs (RefundOrder demo_service demo_refund_req (at_second 20 300, services2)).2.2).
Proof.
  apply (handlers_run_transactions demo_service services1).
  eapply rtc_l; [apply (run_pay demo_service demo_pay_req (at_second 10 200))|]. apply rtc_once.
  apply (run_refund demo_service demo_refund_req (at_second 20 300) services2).
Defined.

(** A message with its snapshots, an attempt the rush store admitted, and no peers. *)
#[local] Instance demo_codec : EventCodec := {
  marshal_event _ := "event";
  unmarshal_event s := if bool_decide (s = "event") then Ok demo_event else Err (EOther "json") }.
#[local] Instance demo_format : LocalFormat := fun _ => "deadline".
#[local] Instance demo_preorder : PreorderRpc (world MemZ.mem) := {
  rpc_GetProgramPreorder _ := throw ENotFound; rpc_ListProgramShowTimesForRush _ := mret [3] }.
#[local] Instance demo_users : UserRpc unit := { rpc_GetUserAndTicketUserList _ := mret [] }.

Definition demo_context : CreateContext := mkCreate demo_service None true 0 0.
Definition admitted : MemRedis.mem :=
  (Admit (Some RushDemo.demo_store) (mkAdmitAttemptRequest demo_number 1 7 3 5 [21; 22] 2 (time_of_unix 1770003600)
     (time_of_unix 1770010000) issued_at)
   (at_second 0 0, hset MemRedis.mem_empty (quotaAvailableKey "p" 3) (format_int 5) (format_int 2))).2.2.
Definition front0 : front (world MemZ.mem) MemRedis.mem unit :=
  mkFront (mkOrders demo_dbs admitted demo_program_world empty_pay) tt [] newOrderNumberGenerator.
Definition front1 : front (world MemZ.mem) MemRedis.mem unit :=
  (Consume demo_context [1%nat; 1%nat] "event" (at_second 1 400, front0)).2.2.

Lemma consume_writes_once_witness :
  option_map do_OrderNumber (row_of (tables front1)) = Some demo_number /\
  exists m e1, rows_of_message demo_number 1 m /\
    tables front1 = (TransactByOrderNumber demo_deps demo_number (createTx m) (e1, demo_dbs)).2.2.
Proof.
  split; [vm_compute; reflexivity|].
  destruct (consume_writes_once demo_context [1%nat; 1%nat] "event" (at_second 1 400) front0)
    as [E|(ev & m & e1 & Hev & Hm & E & _)].
  - exfalso. assert (option_map do_OrderNumber (row_of (tables front1)) = None) as Hn by (unfold front1; rewrite E; reflexivity).
    vm_compute in Hn. discriminate.
  - assert (ev = demo_event) as -> by (vm_compute in Hev; injection Hev as <-; reflexivity). exists m, e1. split; [exact Hm|exact E].
Defined.

Lemma parse_later w0 w n p : ParseOrderNumber w0 n = Ok p -> w0 <= w -> ParseOrderNumber w n = Ok p.
Proof.
  unfold ParseOrderNumber, isOldFormatOrderNumber. destruct (n <=? 0); [done|]. destruct (_ || _); [done|].
  intros H Hw. assert (unix_sec w0 <= unix_sec w) by (unfold unix_sec; apply Z.div_le_mono; [done|lia]).
  destruct (Z.ltb_spec (unix_sec w0 - orderNumberEpoch + 7 * 24 * 60 * 60) (Z.shiftr n timePartShift)); [done|].
  destruct (Z.ltb_spec (unix_sec w - orderNumberEpoch + 7 * 24 * 60 * 60) (Z.shiftr n timePartShift)); [lia|done].
Qed.

Lemma demo_routed w : issued_at <= w -> RouteByOrderNumber demo_router w demo_number = Ok demo_route.
Proof.
  intros Hw. unfold RouteByOrderNumber, LogicSlotByOrderNumber.
  destruct (ParseOrderNumber issued_at demo_number) as [p|x] eqn:E; [|vm_compute in E; discriminate].
  rewrite (parse_later issued_at w _ p E Hw). vm_compute in E. injection E as <-. vm_compute. reflexivity.
Qed.
