(* ===== verification/OrderClosingDemo.v ===== *)
(** * The close tasks at work

    A queue in memory, and the order of [OrderDemo] from its outbox row to its end. *)
From Stdlib Require Import ZArith Lia Ascii String.
From stdpp Require Import base gmap sets list strings relations.
From S2P Require Import Prelude GoBase Sharding OrderNumberGen Effects Sql Redis RushRecord RushStore RushDemo FreezeToken PayService ProgramDB RefundRule RedisZ SeatDB SeatStore SeatDemo SeatFreeze SeatFreezeDemo OrderDB OrderRepo OrderFlow OrderCreate OrderLife ProgramService OrderAnswers OrderLiveness DelayTask OrderOutbox OrderClosing OrderDemo.
Import Slot Codec Routes MemRedis MemZ.
Open Scope string_scope.
Open Scope list_scope.
Open Scope Z_scope.

(** ** A queue *)

(** The tasks by id; the lock is on type and payload. *)
Module MemQueue.
Definition queue : Type := gmap string (string * string).
Definition enqueue (m : Message) : M queue unit := fun q =>
  match q !! mg_Key m with
  | Some _ => (Err ErrTaskIDConflict, q)
  | None =>
      if existsb (fun t => bool_decide (t.2 = (mg_Type m, mg_Payload m))) (map_to_list q) then (Err ErrDuplicateTask, q)
      else (Ok tt, <[mg_Key m := (mg_Type m, mg_Payload m)]> q)
  end.
End MemQueue.

#[local] Instance mem_queue : TaskQueue MemQueue.queue := {
  enqueue _ _ _ := MemQueue.enqueue; queued q := q }.
#[local] Instance mem_queue_laws : TaskQueueLaws MemQueue.queue.
Proof.
  split; intros q name retry ttl m; cbn; unfold MemQueue.enqueue.
  - intros q'. destruct (q !! mg_Key m) eqn:E; [done|]. destr_if; [done|]. by intros [= <-].
  - intros x q'. destruct (q !! mg_Key m) eqn:E; [by intros [= <- <-]|]. destr_if; [|done].
    intros [= <- <-]. split_and!; [done|done|]. intros _. apply existsb_elem in Heqb as ([id t] & Hin & Ht).
    apply bool_decide_eq_true in Ht. cbn in Ht. subst t. exists id. by apply elem_of_map_to_list.
Qed.

Lemma mem_accepting : accepting (Q := MemQueue.queue).
Proof.
  intros name retry ttl m q x. cbn. unfold MemQueue.enqueue. destruct (q !! mg_Key m); [intros [= <-]; by left|].
  destr_if; [intros [= <-]; by right|done].
Qed.

(** ** A reader of close payloads *)

Fixpoint keep_int (s : string) : string :=
  match s with
  | EmptyString => ""
  | String c s => if int_char c then String c (keep_int s) else keep_int s
  end.

Lemma keep_int_app a b : keep_int (a +:+ b) = keep_int a +:+ keep_int b.
Proof. induction a as [|c a IH]; cbn; [done|]. change (keep_int (a +:+ b)) with (keep_int (a +:+ b)). rewrite IH. by destruct (int_char c). Qed.

Lemma keep_int_all s : sall int_char s = true -> keep_int s = s.
Proof. induction s as [|c s IH]; cbn; [done|]. intros [-> ?]%andb_true_iff. by rewrite IH. Qed.

Lemma keep_int_payload n : in_int64 n = true -> parse_int64 (keep_int (close_payload n)) = Some n.
Proof.
  intros Hn. unfold close_payload. rewrite !keep_int_app, (keep_int_all (format_int n)) by apply format_int_chars.
  change (parse_int64 (format_int n +:+ "") = Some n).
  assert (forall s, s +:+ "" = s) as -> by (induction s as [|c s IH]; cbn; [done|by rewrite IH]). by apply parse_format.
Qed.
#[local] Instance demo_payload : ClosePayload := {
  parse_close_payload s := parse_int64 (keep_int s); parse_marshalled := keep_int_payload }.

(** ** The order of the demo *)

#[local] Existing Instance demo_local.
#[local] Existing Instance demo_program_rpc.
#[local] Existing Instance demo_program_laws.

Lemma live_written : live_step demo_deps demo_dbs dbs1.
Proof.
  unfold dbs1, written. destruct demo_models as [m|] eqn:E; [|vm_compute in E; discriminate].
  unfold demo_models in E. destruct (mapEventToOrderWriteModels demo_event issued_at _) as [[m'|x] es] eqn:Em; [|done].
  injection E as <-. eapply (live_write _ demo_event issued_at _ m' es _ demo_dbs issued_at 0 0); [exact Em| |constructor|].
  - vm_compute. reflexivity.
  - intros key sh t Hsh _. unfold demo_dbs in Hsh. apply lookup_singleton_Some in Hsh as [_ <-]. apply not_elem_of_nil.
Qed.

Lemma no_tasks : map_Forall (fun _ sh => s_outbox sh = []) demo_dbs.
Proof. by apply map_Forall_singleton. Qed.

Lemma unpaid_orders_have_tasks_witness :
  exists t, t ∈ s_outbox (shard_of dbs1) /\ ot_TaskKey t = TaskKey demo_number /\ dispatchable t = true.
Proof.
  destruct demo_row1 as (o & _ & Hin & Hn & Hst & _).
  destruct (unpaid_orders_have_tasks demo_deps demo_router eq_refl demo_dbs dbs1 "order-db-0" (shard_of dbs1) "00" o
    empty_demo no_tasks (rtc_once _ _ live_written) dbs1_shard Hin Hst) as (t & Ht & _ & Hk & _ & _ & Hd).
  exists t. rewrite <- Hn. split; [exact Ht|]. split; [exact Hk|exact Hd].
Defined.

Definition demo_options : Options := mkOptions "q" 3 0.

(** The dispatcher runs ten seconds after the order. *)
Definition dispatched : env * dispatcher shard MemQueue.queue :=
  (Run s_outbox set_outbox (Some demo_options) TaskTypeCloseTimeout (at_second 10 200, mkDispatcher dbs1 ∅)).2.
Definition dispatched_dbs : gmap string shard := dp_conns dispatched.2.

Lemma dispatched_one : dispatched_dbs = {["order-db-0" := shard_of dispatched_dbs]}.
Proof. vm_compute. reflexivity. Qed.

Definition has_tickets (sh : shard) : bool :=
  forallb (fun kv => match s_tickets sh !! kv.1 with Some _ => true | None => false end) (map_to_list (s_orders sh)).
Lemma has_tickets_spec sh x : has_tickets sh = true -> is_Some (s_orders sh !! x) -> is_Some (s_tickets sh !! x).
Proof.
  intros Ht [rows Hr%elem_of_map_to_list]. unfold has_tickets in Ht. rewrite forallb_forall in Ht.
  specialize (Ht (x, rows)). cbn in Ht. destruct (s_tickets sh !! x); [by eexists|].
  discriminate Ht. by apply list_elem_of_In.
Qed.
Lemma dispatched_tickets : has_tickets (shard_of dispatched_dbs) = true.
Proof. vm_compute. reflexivity. Qed.

Lemma demo_expires o : row_of dbs1 = Some o -> do_OrderExpireTime o <= Effects.clock (at_second 900 300).
Proof. intros E. vm_compute in E. injection E as <-. vm_compute. discriminate. Qed.

(** Nothing happens between the dispatch and the delivery, at the deadline. *)
Definition delivery : services := mkOrders dispatched_dbs MemRedis.mem_empty demo_program_world empty_pay.

Lemma expired_orders_get_closed_witness :
  exists id payload row, dp_queue dispatched.2 !! id = Some (TaskTypeCloseTimeout, payload) /\
    order_now demo_deps (ow_dbs (CloseTimeoutHandle demo_service payload (at_second 900 300, delivery)).2.2) demo_number row /\
    do_OrderStatus row <> 1.
Proof.
  destruct demo_row1 as (o & Eo & Hin & Hn & Hst & _).
  destruct (expired_orders_get_closed (R := MemRedis.mem) demo_service demo_router eq_refl demo_dbs dbs1 (∅ : MemQueue.queue) demo_options (at_second 10 200)
    empty_demo no_tasks (rtc_once _ _ live_written)) as (e & s1 & Hrun & _ & Hall).
  - intros E. pose proof dbs1_shard as Hs. rewrite E in Hs. discriminate Hs.
  - exact mem_accepting.
  - intros n ty payload Hl. discriminate Hl.
  - reflexivity.
  - assert (s1 = dispatched.2) as -> by (unfold dispatched; rewrite Hrun; reflexivity).
    rewrite <- Hn. destruct (Hall "order-db-0" (shard_of dbs1) "00" o dbs1_shard Hin Hst) as (id & payload & Hid & Hclose).
    + rewrite Hn. vm_compute. reflexivity.
    + rewrite Hn. vm_compute. reflexivity.
    + destruct (Hclose (at_second 900 300) delivery) as (row & Hnow & _ & Hrow).
      * apply rtc_refl.
      * reflexivity.
      * exact (demo_expires o Eo).
      * intros w Hw. exists demo_route. rewrite Hn. apply demo_routed.
        apply (Z.le_trans _ (Effects.clock (at_second 900 300))); [vm_compute; discriminate|exact Hw].
      * intros k s x Hs Hx. change (dispatched_dbs !! k = Some s) in Hs. rewrite dispatched_one in Hs.
        apply lookup_singleton_Some in Hs as [_ <-]. exact (has_tickets_spec _ x dispatched_tickets Hx).
      * exists id, payload, row. split; [exact Hid|]. split; [exact Hnow|exact Hrow].
Defined.
