(* ===== verification/OrderTopicDemo.v ===== *)
(** * Two messages and one worker

    A reader of a topic with one partition, with a witness for the theorem of
    [OrderTopic]: an order that is never written because its message was refused once,
    and what changes when the group is rebalanced before it is too late. *)
From Stdlib Require Import ZArith Lia Ascii String.
From stdpp Require Import base gmap sets list strings relations.
From S2P Require Import Prelude GoBase Sharding OrderNumberGen Effects Sql Redis RushRecord RushStore RushDemo PayService ProgramDB RedisZ SeatDB SeatStore SeatDemo SeatFreeze SeatFreezeDemo OrderDB OrderRepo OrderFlow OrderCreate OrderLife ProgramService OrderAnswers OrderQuery OrderEvents OrderConsume OrderHandlers OrderDemo OrderTopic.
Import Slot Codec Routes MemRedis MemZ.
Open Scope string_scope.
Open Scope list_scope.
Open Scope nat_scope.

(** ** A reader *)

(** The messages, the next one, the committed offsets, the group's generation, and before
    which of the fetches to come the group is rebalanced. *)
Record partition := mkPartition {
  pt_log : list string; pt_next : nat; pt_offsets : gmap nat nat; pt_generation : nat; pt_script : list bool }.
Definition pt_committed (p : partition) (q : nat) : nat := default 0 (pt_offsets p !! q).
Definition rebalanced (p : partition) : partition :=
  match pt_script p with
  | true :: script => mkPartition (pt_log p) (pt_committed p 0) (pt_offsets p) (Datatypes.S (pt_generation p)) script
  | _ :: script => mkPartition (pt_log p) (pt_next p) (pt_offsets p) (pt_generation p) script
  | [] => p
  end.
Definition fetch_next (p : partition) : result err (nat * nat * string) * partition :=
  match pt_log p !! pt_next p with
  | Some body => (Ok (0, pt_next p, body), mkPartition (pt_log p) (Datatypes.S (pt_next p)) (pt_offsets p) (pt_generation p) (pt_script p))
  | None => (Err ECanceled, p)
  end.
#[local] Instance mem_reader : OrderReader partition := {
  fetchMessage '(e, p) := let '(r, p') := fetch_next (rebalanced p) in (r, (e, p'));
  commitMessages q i '(e, p) := (Ok tt, (e,
    mkPartition (pt_log p) (pt_next p) (<[q := Datatypes.S i]> (pt_offsets p)) (pt_generation p) (pt_script p))) }.

Definition only {A} (a b : A) (p : nat) : A := match p with O => a | _ => b end.
Definition partition_view (p : partition) : group_view :=
  mkGroup (pt_generation p) (only (pt_log p) []) (fun _ => 0) (only (Some (pt_next p)) None) (pt_committed p).

Lemma rebalanced_drifts p : drifts (partition_view p) (partition_view (rebalanced p)).
Proof.
  destruct p as [log next offsets g [|[] script]]; cbn; [apply drifts_refl| |by split; [|left]].
  split; [done|]. right. cbn. split; [lia|]. by intros [|q] i; [intros [= <-]|].
Qed.
#[local] Instance mem_reader_laws : OrderReaderLaws partition.
Proof.
  refine {| view := partition_view |}.
  - intros e k r e' k'. cbn. pose proof (rebalanced_drifts k) as Hd. unfold fetch_next.
    destruct (pt_log (rebalanced k) !! pt_next (rebalanced k)) as [body|] eqn:E; intros [= <- <- <-]; [|done].
    exists (partition_view (rebalanced k)), (pt_next (rebalanced k)). split_and!; [done|done|cbn; lia|done|].
    split; [done|]. split; [done|]. split; [done|]. by intros [|q].
  - intros q i e k r e' k'. cbn. intros [= <- <- <-]. left. exists (partition_view k). split; [apply drifts_refl|].
    split; [done|]. split; [done|]. unfold at_partition, partition_view, pt_committed. cbn [committed pt_offsets]. split; [by rewrite lookup_insert_eq|].
    intros q' Hq. by rewrite lookup_insert_ne.
Defined.

(** ** A refused message *)

#[local] Existing Instance demo_local.
#[local] Existing Instance demo_program_rpc.
#[local] Existing Instance demo_format.
#[local] Existing Instance demo_preorder.
#[local] Existing Instance demo_users.

(** The demo's order, and a message whose attempt is gone. *)
Definition stale_event : OrderCreateEvent :=
  mkEvent (ev_EventID demo_event) (ev_Version demo_event) (demo_number + 1)%Z (ev_RequestNo demo_event) (ev_OccurredAt demo_event)
    (ev_UserID demo_event) (ev_ProgramID demo_event) (ev_ShowTimeID demo_event) (ev_TicketCategoryID demo_event)
    (ev_TicketUserIDs demo_event) (ev_TicketCount demo_event) (ev_DistributionMode demo_event) (ev_TakeTicketMode demo_event)
    (ev_SaleWindowEndAt demo_event) (ev_ShowEndAt demo_event) (ev_FreezeToken demo_event) (ev_FreezeExpireTime demo_event)
    (ev_ProgramSnapshot demo_event) (ev_TicketCategorySnapshot demo_event) (ev_TicketUserSnapshot demo_event) (ev_SeatSnapshot demo_event).
#[local] Instance two_events : EventCodec := {
  marshal_event _ := "event";
  unmarshal_event s := if bool_decide (s = "event") then Ok demo_event
    else if bool_decide (s = "stale") then Ok stale_event else Err (EOther "json") }.

Definition two_messages (script : list bool) : partition := mkPartition ["event"; "stale"] 0 ∅ 0 script.
Definition kafka : KafkaConfig := mkKafka ["kafka:9092"] "" "" 1 1 0 0.
(** The process stops when there is nothing left to read. *)
Definition running (e : env) : bool := false.
Definition failing (n : nat) : env :=
  mkEnv (repeat NoFault n ++ [FailBefore EDeadline]) [] (time_of_unix 1770000001) [400; 401; 402; 403; 404; 405; 406; 407; 408; 409]%Z.
Notation demo_front := (front (world MemZ.mem) MemRedis.mem unit).
#[local] Existing Instance noting_reader.
Definition worked (script : list bool) (n : nat) : (partition * list reader_call) * (list (string * bool) * demo_front) :=
  (worker running (noted (Consume demo_context [])) kafka 3 5 (failing n, ((two_messages script, []), ([], front0)))).2.2.


Definition attempt_state (w : demo_front) : option string :=
  match (GetByShowTimeAndOrderNumber (Some RushDemo.demo_store) 3 demo_number (at_second 2 0, ow_rush (fr_orders w))).1 with
  | Ok a => Some (ar_State a)
  | Err _ => None
  end.

(** One fault while the order is written: the consumer refuses the message and is started
    again, but goes on with the next one, whose commit passes the first.  No generation of
    the group will be given the event again: the order is not written, and its attempt,
    whose seats and quota are taken, stays in progress. *)
Theorem refused_event_is_lost :
  pt_committed (worked [] 8).1.1 0 = 2 /\ row_of (tables (worked [] 8).2.2) = None /\
  attempt_state (worked [] 8).2.2 = Some AttemptStateProcessing /\
  (PollOrderProgress demo_service 1 3 demo_number (at_second 900 0, fr_orders (worked [] 8).2.2)).1 =
    Ok (mkPollResp demo_number PollOrderStatusProcessing false "").
Proof. split_and!; vm_compute; reflexivity. Qed.

(** When the group is rebalanced before the next message is committed, the event comes back
    and is accepted.  Its order is written if the fault had hit before the attempt was
    claimed; after that, [Consume] takes the attempt for one that another worker is
    processing, and the order is not written this time either. *)
Definition handed_again : list (string * bool) * list reader_call :=
  ([("event", false); ("event", true); ("stale", true)], [Fetched 0 0; Fetched 0 0; CommitAsked 0 0; Fetched 0 1; CommitAsked 0 1]).
Theorem redelivery_comes_late :
  ((worked [false; true] 0).2.1, (worked [false; true] 0).1.2) = handed_again /\
  do_OrderStatus <$> row_of (tables (worked [false; true] 0).2.2) = Some 1%Z /\
  attempt_state (worked [false; true] 0).2.2 = Some AttemptStateSuccess /\
  ((worked [false; true] 8).2.1, (worked [false; true] 8).1.2) = handed_again /\
  row_of (tables (worked [false; true] 8).2.2) = None /\
  attempt_state (worked [false; true] 8).2.2 = Some AttemptStateProcessing.
Proof. split_and!; vm_compute; reflexivity. Qed.
