(* ===== verification/TokenDemo.v ===== *)
(** * A purchase token at work

    Ann buys tickets for two of her ticket users: the program service, user-rpc and
    order-rpc together, with the theorem of [TokenBuyers] at them. *)
From Stdlib Require Import ZArith Lia Ascii String.
From stdpp Require Import base gmap sets list strings sorting relations.
From S2P Require Import Prelude GoBase Effects Sql Sharding OrderNumberGen Redis RedisZ RushStore PurchaseToken ProgramDB RefundRule SeatDB SeatStore SeatDemo SeatFreeze OrderDB OrderRepo OrderFlow OrderCreate OrderQuery UserDB UserService UserAccounts Gateway UserApi PayService ProgramCache ProgramAdmin ProgramRules ProgramDemo Preheat ProgramQuery OrderEvents RushOpening SaleDemo OrderDemo TokenBuyers UserDemo.
Import Slot Codec Routes MemRedis MemZ.
Open Scope string_scope.
Open Scope list_scope.
Open Scope Z_scope.

#[local] Existing Instance ascii_ci.
#[local] Instance any_event : EventCodec := { marshal_event _ := ""; unmarshal_event _ := Err (EOther "json") }.

(** Ann's two ticket users. *)
Definition with_viewers : userworld MemZ.mem :=
  (AddTicketUser (mkAddTicketUser 1 "a" 1 "2") (quiet 12 31,
    (AddTicketUser (mkAddTicketUser 1 "a" 1 "1") (quiet 11 21, with_both)).2.2)).2.2.
Definition ann_claims : PurchaseTokenClaims :=
  mkClaims 11916043324751872 1 7 3 5 [21; 31] 2 200 1770900000 "express" "paper" 1770000920.
#[local] Instance claims_eq : EqDecision PurchaseTokenClaims.
Proof. solve_decision. Defined.
#[local] Instance ann_prims : TokenPrims := {
  marshal c := if decide (c = ann_claims) then Some "claims" else None;
  unmarshal s := if decide (s = "claims") then Some ann_claims else None;
  hmac_sha256 k p := k +:+ p }.
#[local] Instance ann_prims_laws : TokenPrimsLaws.
Proof. split. cbn. intros c s. destruct (decide (c = ann_claims)) as [->|]; [|done]. by intros [= <-]. Qed.
Definition token_context (codec : PurchaseTokenCodec) : CreateContext :=
  mkCreate (mkSvc demo_deps None true) (Some codec) true 0 0.
Definition token_front : front (catalogue MemZ.mem) MemRedis.mem (userworld MemZ.mem) :=
  mkFront (mkOrders demo_dbs MemRedis.mem_empty (listing [(7, demo_program)] demo_rows) empty_pay) with_viewers [] newOrderNumberGenerator.
Definition demo_codec : PurchaseTokenCodec := mkCodec "key" (900 * second).
Definition token_request : CreatePurchaseTokenReq := mkTokenReq 1 3 5 [21; 31] "express" "paper".

Definition ann_token : string := match (CreatePurchaseToken (token_context demo_codec) token_request (quiet 20 51, token_front)).1 with
  | Ok t => t | Err _ => "" end.

Lemma token_for_own_viewers_witness :
  Verify (Some demo_codec) 0 (time_of_unix 1770000100) ann_token = Ok ann_claims /\
  pt_UserID ann_claims = 1 /\ pt_TicketUserIDs ann_claims = [21; 31] /\
  own_viewers (uw_db with_viewers) 1 [21; 31].
Proof.
  assert (Hv : Verify (Some demo_codec) 0 (time_of_unix 1770000100) ann_token = Ok ann_claims) by (vm_compute; reflexivity).
  split; [exact Hv|].
  destruct (CreatePurchaseToken (token_context demo_codec) token_request (quiet 20 51, token_front)) as [[token|x] [e' w']] eqn:E;
    [|vm_compute in E; discriminate].
  assert (token = ann_token) as -> by (unfold ann_token; rewrite E; reflexivity).
  destruct (token_for_own_viewers (token_context demo_codec) token_request (quiet 20 51) token_front ann_token e' w' E)
    as (_ & _ & _ & Hown & _ & Hclaims).
  destruct (Hclaims _ _ _ Hv) as (Hu & Hi & _). split; [exact Hu|]. split; [exact Hi|]. exact Hown.
Defined.
