(* ===== verification/OrderApiDemo.v ===== *)
(** * A user's orders, and another's

    The paid order of [OrderDemo] beside an order of user 2 in the same table: witness
    for the theorem of [OrderApi], and what its open routes tell. *)
From Stdlib Require Import ZArith Lia Ascii String.
From stdpp Require Import base gmap sets list strings relations.
From S2P Require Import Prelude GoBase Sharding OrderNumberGen Effects Sql Redis RushRecord RushStore RushDemo PurchaseToken PayService ProgramDB RedisZ SeatDB SeatStore SeatDemo SeatFreeze SeatFreezeDemo OrderDB OrderRepo OrderFlow OrderCreate OrderLife ProgramService OrderAnswers OrderQuery OrderEvents OrderConsume OrderHandlers OrderDemo Gateway OrderApi.
Import Slot Codec Routes MemRedis MemZ.
Open Scope string_scope.
Open Scope list_scope.
Open Scope Z_scope.

#[local] Existing Instance demo_local.
#[local] Existing Instance demo_program_rpc.
#[local] Existing Instance demo_codec.
#[local] Existing Instance demo_format.
#[local] Existing Instance demo_preorder.
#[local] Existing Instance demo_users.
#[local] Instance no_prims : TokenPrims := { marshal _ := None; unmarshal _ := None; hmac_sha256 key p := key +:+ p }.

(** The row of another order, of another user. *)
Definition anothers (o : DOrder) : DOrder :=
  mkOrder (do_Id o + 1) (do_OrderNumber o + 1) (do_ProgramId o) (do_ShowTimeId o) (do_ProgramTitle o) (do_ProgramItemPicture o)
    (do_ProgramPlace o) (do_ProgramShowTime o) (do_ProgramPermitChooseSeat o) 2 (do_DistributionMode o) (do_TakeTicketMode o)
    (do_TicketCount o) (do_OrderPrice o) (do_OrderStatus o) (do_FreezeToken o) (do_OrderExpireTime o) (do_CreateOrderTime o)
    (do_CancelOrderTime o) (do_PayOrderTime o) (do_CreateTime o) (do_EditTime o) (do_Status o).
Definition both_rows : list DOrder := match row_of dbs1 with Some o => [o; anothers o] | None => [] end.
Definition both_shard : shard := set_orders {["00" := both_rows]} (shard_of dbs1).
Definition both_orders : front (world MemZ.mem) MemRedis.mem unit :=
  mkFront (mkOrders {["order-db-0" := both_shard]} MemRedis.mem_empty demo_program_world empty_pay) tt [] newOrderNumberGenerator.

Lemma both_unique : numbers_unique (ow_dbs (fr_orders both_orders)).
Proof.
  intros key sh suffix rows Hk Hs. cbn in Hk. apply lookup_singleton_Some in Hk as [_ <-].
  change (({["00" := both_rows]} : gmap string (list DOrder)) !! suffix = Some rows) in Hs. apply lookup_singleton_Some in Hs as [_ <-]. apply (bool_decide_eq_true_1 _). vm_compute. reflexivity.
Qed.

(** User 1, as the middleware left the request. *)
Definition from_user (userID : Z) : Request := mkRequest "POST" "/" ∅ (Some userID).
Definition pay_it : order_request := ReqPay demo_number "" "".


(** User 2 asks for the same payment: refused, and nothing changed. *)
Example others_are_refused :
  let '(res, (_, w')) := serve_order demo_context (from_user 2) pay_it (at_second 10 200, both_orders) in
  res = Err (EStatus NotFound (xerr_text ErrOrderNotFound)) /\ w' = both_orders.
Proof. vm_compute. split; reflexivity. Qed.

(** The routes without the middleware take the user from the request's body: whoever asks
    reads how many tickets user 1 holds. *)
Theorem anyone_reads_anothers_count :
  (api_AccountOrderCount demo_context 1 3 (at_second 10 200, both_orders)).1 = Ok 2.
Proof. vm_compute. reflexivity. Qed.
