(* ===== verification/PayApiDemo.v ===== *)
(** * Paying and refunding past order-rpc

    The orders of [OrderApiDemo] with requests to pay-api that the gateway lets through
    for any signed-in user. *)
From Stdlib Require Import ZArith Lia Ascii String.
From stdpp Require Import base gmap sets list strings relations.
From S2P Require Import Prelude GoBase Sharding OrderNumberGen Effects Sql Redis RushRecord RushStore RushDemo PurchaseToken PayService ProgramDB RedisZ SeatDB SeatStore SeatDemo SeatFreeze SeatFreezeDemo OrderDB OrderRepo OrderFlow OrderCreate OrderLife ProgramService OrderAnswers OrderQuery OrderEvents OrderConsume OrderHandlers OrderDemo Gateway OrderApi OrderApiDemo PayApi.
Import Slot Codec Routes MemRedis MemZ.
Open Scope string_scope.
Open Scope list_scope.
Open Scope Z_scope.

#[local] Existing Instance demo_local.
#[local] Existing Instance demo_program_rpc.
#[local] Existing Instance demo_codec.
#[local] Existing Instance demo_format.
#[local] Existing Instance demo_preorder.
#[local] Existing Instance demo_users.
#[local] Existing Instance no_prims.

Notation demo_front := (front (world MemZ.mem) MemRedis.mem unit).
Definition through_pay {A} (m : IO Pay.paydb A) : IO demo_front A := on_orders (on_pay m).
Definition order_now (w : demo_front) : option (Z * Z) :=
  option_map (fun o => (do_OrderStatus o, do_OrderPrice o)) (row_of (ow_dbs (fr_orders w))).
Definition bills_now (w : demo_front) : list (Z * Z * Z) :=
  map (fun b => (Pay.pb_OrderNumber b, Pay.pb_OrderAmount b, Pay.pb_PayStatus b)) (Pay.pay_bills (ow_pay (fr_orders w))).

(** Someone pays 1 for an order, at the front of pay-rpc; then its user pays the order. *)
Definition paid_one : M (env * demo_front) PayOrderResp :=
  _ ← through_pay (api_CommonPay (mkCommonPayReq demo_number 1 "ticket" "" 1));
  api_PayOrder demo_context (from_user 1) demo_number "" "".

(** order-rpc takes the bill it finds for the order, whatever its amount: the order is
    paid for 1. *)
Theorem order_paid_for_one :
  let '(res, (_, w')) := paid_one (at_second 10 200, both_orders) in
  match res with Ok resp => ap_OrderStatus resp = orderStatusPaid | Err _ => False end /\
  order_now w' = Some (orderStatusPaid, 200) /\ bills_now w' = [(demo_number, 1, Pay.payStatusPaid)].
Proof. vm_compute. split_and!; reflexivity. Qed.

(** The user of a paid order asks pay-api for the money. *)
Definition refunded_past : M (env * demo_front) RefundResp :=
  _ ← api_PayOrder demo_context (from_user 1) demo_number "" "";
  through_pay (api_Refund (PayApi.mkApiRefundReq demo_number 200 "" "")).

(** All of it is given back, without a look at the rules of the program, and the order
    stays paid, with its tickets. *)
Theorem refunded_and_still_paid :
  let '(res, (_, w')) := refunded_past (at_second 10 200, both_orders) in
  match res with Ok resp => fs_RefundAmount resp = 200 | Err _ => False end /\
  order_now w' = Some (orderStatusPaid, 200) /\ bills_now w' = [(demo_number, 200, Pay.payStatusRefunded)].
Proof. vm_compute. split_and!; reflexivity. Qed.
