(* ===== verification/ProgramApiDemo.v ===== *)
(** * A program through the front

    The catalogue of [ProgramDemo]: a program is added and given a show through
    program-api, then shown by another instance. *)
From Stdlib Require Import ZArith Lia Ascii String.
From stdpp Require Import base gmap sets list strings countable sorting relations.
From S2P Require Import Prelude GoBase Effects Sql FreezeToken ProgramDB RefundRule RedisZ SeatDB SeatStore SeatFreeze OrderDB OrderFlow ProgramCache ProgramAdmin ProgramRules ProgramQuery ProgramDemo ProgramApi.
Import MemZ.
Open Scope string_scope.
Open Scope list_scope.
Open Scope Z_scope.

Definition concert : ProgramAddReq :=
  mkApiProgramAddReq 1 0 2 3 4 "concert" "the band" " " "" 0 "" "" "a concert" 0 4 "" "" "" "" "" "" "" "" "" "" 0 "" "" "" ""
    300 1 "" "" 0 "" 0 "" 0 "" 0 "" 0 0 "" "1000" "9000" 0.
Definition added : result err Z * (env * catalogue mem) := serve_write demo_svc (WriteAdd concert) (at_time 100 [] [10], demo_catalogue).
Definition with_show : catalogue mem :=
  (api_CreateProgramShowTime demo_svc (mkApiProgramShowTimeAddReq 10 "1200" "" "Fri") (at_time 300 [] [20; 30], added.2.2)).2.2.
(** Another instance, that remembers nothing. *)
Definition elsewhere : catalogue mem := recached with_show no_cache (mkLocal ∅ ∅ None).
Definition shown : result err ProgramDetailViewInfo * (env * catalogue mem) :=
  api_GetProgramDetailView (mkApiGetProgramDetailViewReq 10) (at_time 400 [] [], elsewhere).

Lemma written_is_shown_witness : exists v, shown.1 = Ok v /\ shows_program (WriteAdd concert) 10 v /\
  (view_Title v, view_Actor v, view_Place v, view_RushSaleOpenTime v, view_ProgramStatus v) = ("concert", "the band", "", "1000", 1).
Proof.
  destruct shown as [[v|x] [e' c']] eqn:E; [|exfalso; vm_compute in E; discriminate].
  exists v. split; [reflexivity|]. split.
  - destruct added as [res [e1 c1]] eqn:Ea. assert (Hres : res = Ok 10) by (vm_compute in Ea; congruence). subst res.
    refine (proj1 (written_is_shown demo_svc (WriteAdd concert) (at_time 100 [] [10]) demo_catalogue 10 e1 c1 (at_time 400 [] []) elsewhere
             v e' c' 1 (100 * second) (300 * second) Ea _ _ _)).
    + replace c1 with added.2.2 by (rewrite Ea; reflexivity). vm_compute. reflexivity.
    + split; vm_compute; reflexivity.
    + exact E.
  - vm_compute in E. injection E as <- _ _. reflexivity.
Defined.
