(* ===== verification/SeatByProgram.v ===== *)
(** * Seats and ticket categories by program  (d_seat_model.go, d_ticket_category_model.go)

    The statements of the two models that select by program rather than by show, and
    those that go by freeze token alone.  The handlers of the current code go by show;
    the theorems relate the two families. *)
From Stdlib Require Import ZArith Lia Ascii String.
From stdpp Require Import base gmap sets list strings sorting.
From S2P Require Import Prelude GoBase Effects Sql PayService ProgramDB RedisZ SeatDB SeatStore SeatFreeze ProgramQuery.
Open Scope string_scope.
Open Scope list_scope.
Open Scope Z_scope.

(** ** Reads *)

Definition FindByShowTimeId (showTimeID : Z) : M (list DSeat) (list DSeat) :=
  select_seats (fun s => SeatDB.ShowTimeId s =? showTimeID) price_order.

(** [for update] locks the rows it returns; the answer is that of the plain read. *)
Definition FindAvailableByProgramAndTicketCategoryForUpdate (programId ticketCategoryId : Z)
  : M (list DSeat) (list DSeat) :=
  select_seats (fun s => (SeatDB.ProgramId s =? programId) && (SeatDB.TicketCategoryId s =? ticketCategoryId)
                         && (SeatStatus s =? 1)) seat_order.

Definition FindByProgramAndTicketCategoryAndSeatStatus (programId ticketCategoryId seatStatus : Z)
  : M (list DSeat) (list DSeat) :=
  select_seats (fun s => (SeatDB.ProgramId s =? programId) && (SeatDB.TicketCategoryId s =? ticketCategoryId)
                         && (SeatStatus s =? seatStatus)) seat_order.

Definition FindByProgramAndIDsForUpdate (programId : Z) (seatIDs : list Z) : M (list DSeat) (list DSeat) :=
  match seatIDs with
  | [] => mret []
  | _ => select_seats (fun s => (SeatDB.ProgramId s =? programId) && in_ids seatIDs s) id_order
  end.

Definition program_free_seat (programId : Z) (s : DSeat) : bool :=
  (Status s =? 1) && (SeatDB.ProgramId s =? programId) && (SeatStatus s =? 1).
Definition program_free_in (programId ticketCategoryId : Z) (db : list DSeat) : Z :=
  Z.of_nat (length (filter (fun s => program_free_seat programId s
                                     && (SeatDB.TicketCategoryId s =? ticketCategoryId) = true) db)).

(** One row per category that has a free seat, in the order of the ids. *)
Definition FindAvailableCountByProgramId (programId : Z) : M (list DSeat) (list SeatRemainAggregate) := fun db =>
  (Ok (map (fun c => mkRemain c (program_free_in programId c db))
         (merge_sort Z.le (remove_dups (map SeatDB.TicketCategoryId
            (filter (fun s => program_free_seat programId s = true) db))))), db).

(** [order by program_id, price, id]. *)
Definition program_category_order (a b : DTicketCategory) : Prop :=
  tc_ProgramId a < tc_ProgramId b \/ (tc_ProgramId a = tc_ProgramId b /\ category_order a b).
#[global] Instance program_category_order_dec a b : Decision (program_category_order a b).
Proof. unfold program_category_order. apply _. Defined.

Definition FindCategoriesByProgramIds (programIds : list Z) : M (list DTicketCategory) (list DTicketCategory) :=
  match programIds with
  | [] => mret []
  | _ => fun db => (Ok (merge_sort program_category_order
           (filter (fun c => (tc_Status c =? 1) && bool_decide (tc_ProgramId c ∈ programIds) = true) db)), db)
  end.

(** ** Updates *)

Definition seats_of_program (programId seatStatus : Z) (seatIDs : list Z) (s : DSeat) : bool :=
  (Status s =? 1) && (SeatDB.ProgramId s =? programId) && (SeatStatus s =? seatStatus) && in_ids seatIDs s.
Definition held_by (freezeToken : string) (s : DSeat) : bool :=
  (Status s =? 1) && (SeatStatus s =? 2) && has_token freezeToken s.

Definition BatchFreezeByIDs (seatIDs : list Z) (freezeToken : string) (expireTime now : time) : M (list DSeat) unit :=
  match seatIDs with
  | [] => mret tt
  | _ => update_token (fun s => (Status s =? 1) && (SeatStatus s =? 1) && in_ids seatIDs s)
           (set_seat 2 (Some freezeToken) (Some (mysql_datetime expireTime)) (mysql_datetime now)) freezeToken
  end.

Definition BatchConfirmByIDs (programId : Z) (seatIDs : list Z) (freezeToken : string) (expireTime now : time)
  : M (list DSeat) unit :=
  match seatIDs with
  | [] => mret tt
  | _ => update_token (fun s => seats_of_program programId 2 seatIDs s && has_token freezeToken s)
           (set_seat 3 (Some freezeToken) (Some (mysql_datetime expireTime)) (mysql_datetime now)) freezeToken
  end.

Definition ReleaseByFreezeToken (freezeToken : string) (now : time) : M (list DSeat) unit :=
  modify (update_where (held_by freezeToken) (set_seat 1 None None (mysql_datetime now))).

Definition ReleaseSoldByIDs (programId : Z) (seatIDs : list Z) (now : time) : M (list DSeat) unit :=
  match seatIDs with
  | [] => mret tt
  | _ => modify (update_where (seats_of_program programId 3 seatIDs) (set_seat 1 None None (mysql_datetime now)))
  end.

(** The token and the expiry of the row stay as they are. *)
Definition ConfirmByFreezeToken (freezeToken : string) (now : time) : M (list DSeat) unit :=
  modify (update_where (held_by freezeToken)
    (fun s => set_seat 3 (FreezeToken s) (FreezeExpireTime s) (mysql_datetime now) s)).

(** ** What they do *)

Ltac move_rows :=
  apply update_rows_step; intros s Hs; unfold seats_of_program, held_by, has_token, in_ids in Hs; bool_norm;
  split_and!; [done|apply set_seat_same|done..].

(** Every statement moves seats as one step of the life cycle, like the statements by show. *)
Theorem program_statements_move_seats programId ids t exp nw (db db' : list DSeat) :
  (BatchFreezeByIDs ids t exp nw db = (Ok tt, db') -> rows_step (Freeze t) db db') /\
  (BatchConfirmByIDs programId ids t exp nw db = (Ok tt, db') -> rows_step (Confirm t) db db') /\
  (ConfirmByFreezeToken t nw db = (Ok tt, db') -> rows_step (Confirm t) db db') /\
  (ReleaseByFreezeToken t nw db = (Ok tt, db') -> rows_step (Release t) db db') /\
  (ReleaseSoldByIDs programId ids nw db = (Ok tt, db') -> rows_step ReleaseSold db db').
Proof.
  split_and!.
  - destruct ids; [intros [= <-]; apply rows_step_refl|]. intros ->%update_token_ok. move_rows.
  - destruct ids; [intros [= <-]; apply rows_step_refl|]. intros ->%update_token_ok. move_rows.
  - intros [= <-]. move_rows.
  - intros [= <-]. move_rows.
  - destruct ids; [intros [= <-]; apply rows_step_refl|]. intros [= <-]. move_rows.
Qed.

Definition how_many {A} (p : A -> bool) (l : list A) : Z := Z.of_nat (length (filter (fun a => p a = true) l)).

Lemma how_many_cons {A} (p : A -> bool) a l : how_many p (a :: l) = (if p a then 1 else 0) + how_many p l.
Proof.
  unfold how_many. rewrite filter_cons. destruct (p a).
  - rewrite decide_True by done. cbn [length]. lia.
  - by rewrite decide_False.
Qed.

Lemma how_many_ext {A} (p q : A -> bool) l : (forall a, a ∈ l -> p a = q a) -> how_many p l = how_many q l.
Proof.
  induction l as [|a l IH]; intros H; [done|].
  rewrite !how_many_cons, IH by (intros; apply H; by constructor). by rewrite (H a) by constructor.
Qed.

(** A list that names [x] once counts it once. *)
Lemma sum_indicator (x : Z) (l : list Z) : NoDup l -> x ∈ l -> sumZ (fun y => if x =? y then 1 else 0) l = 1.
Proof.
  induction 1 as [|a l Ha Hnd IH]; [by intros ?%not_elem_of_nil|].
  intros [->|Hx]%elem_of_cons; change (sumZ ?f (a :: l)) with (f a + sumZ f l); cbn beta.
  - rewrite Z.eqb_refl, (sumZ_ext _ (fun _ => 0)); [unfold sumZ; clear; induction l; cbn in *; lia|].
    intros y Hy. destruct (Z.eqb_spec a y) as [->|]; [done|lia].
  - rewrite (IH Hx). destruct (Z.eqb_spec x a) as [->|]; [done|lia].
Qed.

Lemma sumZ_add {A} (f g : A -> Z) l : sumZ (fun a => f a + g a) l = sumZ f l + sumZ g l.
Proof. unfold sumZ. induction l; cbn; lia. Qed.

(** Rows counted by show, when [shows] names the show of each once. *)
Lemma count_by_show (p : DSeat -> bool) (shows : list Z) (db : list DSeat) : NoDup shows ->
  (forall s, s ∈ db -> p s = true -> SeatDB.ShowTimeId s ∈ shows) ->
  how_many p db = sumZ (fun st => how_many (fun s => p s && (SeatDB.ShowTimeId s =? st)) db) shows.
Proof.
  intros Hnd. induction db as [|s db IH]; intros Hin.
  { unfold how_many, sumZ. clear. induction shows; cbn in *; lia. }
  rewrite (sumZ_ext _ (fun st => (if p s && (SeatDB.ShowTimeId s =? st) then 1 else 0) + how_many (fun s => p s && (SeatDB.ShowTimeId s =? st)) db))
    by (intros a _; exact (how_many_cons (fun x => p x && (SeatDB.ShowTimeId x =? a)) s db)).
  rewrite sumZ_add, how_many_cons, IH by (intros ? ?; apply Hin; by constructor). f_equal. destruct (p s) eqn:E; cbn [andb].
  - rewrite sum_indicator; [done..|]. apply Hin; [by constructor|done].
  - unfold sumZ. clear. induction shows; cbn in *; lia.
Qed.

(** What is left of a program is what is left of its shows. *)
Theorem program_remain_is_sum_of_shows programId ticketCategoryId shows (db : list DSeat) :
  NoDup shows ->
  (forall s, s ∈ db -> SeatDB.ProgramId s = programId <-> SeatDB.ShowTimeId s ∈ shows) ->
  program_free_in programId ticketCategoryId db = sumZ (fun st => free_in st ticketCategoryId db) shows.
Proof.
  intros Hnd Hshows. change (program_free_in programId ticketCategoryId db) with
    (how_many (fun s => program_free_seat programId s && (SeatDB.TicketCategoryId s =? ticketCategoryId)) db).
  rewrite (count_by_show _ shows); [|done|].
  - apply sumZ_ext. intros st Hst. apply how_many_ext. intros s Hs. apply eq_true_iff_eq.
    specialize (Hshows s Hs). unfold program_free_seat, free_seat. rewrite !andb_true_iff, !Z.eqb_eq.
    split; [tauto|]. intros [[[H1 H2] H3] H4]. subst st. tauto.
  - intros s Hs Hp. unfold program_free_seat in Hp. bool_norm. by apply Hshows.
Qed.

Lemma program_remain_is_sum_of_shows_witness :
  let row i st := mkSeatRow i 7 st 5 1 i 1 100 1 None None 0 0 1 in
  program_free_in 7 5 [row 1 3; row 2 4; row 3 3] = sumZ (fun st => free_in st 5 [row 1 3; row 2 4; row 3 3]) [3; 4].
Proof.
  intros row. apply (program_remain_is_sum_of_shows 7 5 [3; 4]).
  - apply NoDup_cons; split; [by intros ?%list_elem_of_singleton|apply NoDup_singleton].
  - intros s. rewrite !elem_of_cons. intros [->|[->|[->|[]%not_elem_of_nil]]]; (split; [intros _; by apply (bool_decide_unpack _)|done]).
Defined.

(** The categories of several programs are those each program's own statement gives. *)
Theorem categories_of_programs programIds (db l db' : list DTicketCategory) c :
  FindCategoriesByProgramIds programIds db = (Ok l, db') ->
  db' = db /\ (c ∈ l <-> exists p, p ∈ programIds /\ c ∈ live_categories (fun k => tc_ProgramId k =? p) db).
Proof.
  unfold live_categories. intros H.
  assert (db' = db /\ l ≡ₚ filter (fun c => (tc_Status c =? 1) && bool_decide (tc_ProgramId c ∈ programIds) = true) db) as [-> Hl].
  { destruct programIds as [|i ids]; injection H as <- <-; (split; [done|]); [|apply merge_sort_Permutation].
    induction db as [|k db IH]; [done|]. rewrite filter_cons, decide_False; [done|].
    by rewrite bool_decide_eq_false_2, andb_false_r by apply not_elem_of_nil. }
  split; [done|]. rewrite Hl, list_elem_of_filter, andb_true_iff, bool_decide_eq_true. split.
  - intros [[H1 H2] Hc]. exists (tc_ProgramId c). split; [done|].
    rewrite merge_sort_Permutation, list_elem_of_filter, andb_true_iff, Z.eqb_refl. done.
  - intros (p & Hp & Hc). rewrite merge_sort_Permutation, list_elem_of_filter, andb_true_iff in Hc.
    destruct Hc as [[H1 Hk%Z.eqb_eq] Hc]. by rewrite Hk.
Qed.
